(* ===== verification/_CoqProject ===== *)
-Q . S2P
Prelude.v
Params.v
Mem.v
Spinlock.v
Kalloc.v
Vm.v
PageTable.v
Walk.v
Uvm.v
Kvm.v
Cow.v
CopyCow.v
Grow.v
CowSystem.v
Demo.v
CowSpec.v
Kinit.v
Klock.v
Bytes.v
Bio.v
Bcache.v
Log.v
Commit.v
LogOps.v
Recover.v
CrashSpec.v
Pipe.v
Proc.v
ProcTable.v
Locks.v
ProcSpec.v
Fs.v
File.v
Syscall.v
Sysfile.v
Exec.v
Rtc.v
Sysproc.v
SyscallSpec.v
Tidy.v
ProcSystem.v
Txn.v
FsBlocks.v
FsRead.v
FsWrite.v
FsInode.v
FsContents.v
FsSpec.v
FsDir.v
FsCache.v
FsPath.v
FsFree.v
FsAlloc.v
FsCreate.v
FsCommit.v
Mkfs.v
MkfsFiles.v
MkfsVolume.v
MkfsRun.v
MkfsSpec.v
Kbd.v
Apic.v
Mp.v
Seg.v
Ide.v
IdeSpec.v
Bootmain.v
Console.v
ConsoleSpec.v
User.v
Printf.v
Grep.v
Utils.v
Ls.v
Debug.v
Programs.v
Sh.v
ShSpec.v
ShRun.v
Umalloc.v
