(* ===== verification/Prelude.v ===== *)
(** * A verified model of the xv6 kernel with copy-on-write fork

    The program, under [src/xv6/], is the x86 teaching kernel xv6 with a
    copy-on-write [forkcow], and its user programs.  This library translates
    it function by function and proves what its parts promise each other.

    ** Conventions

    A C integer is a [Z] and every truncation is written out ([u8], [u16],
    [u32], [s8], [s16], [s32] below).  Kernel code is written in the
    resumption monad [M S A] of this file: a run returns ([Ok]), panics with
    the message of the source ([Panic]), makes an illegal access ([Fault]),
    runs out of fuel ([NoFuel]) or hands the processor over ([Switch], with a
    continuation for the state it gets back).  Components own a part of the
    state and reach it through a [Lens]; [lift] runs a component inside a
    larger state.  Names are those of the source.  [Theorem]s numbered C<n> are
    the main results; each with hypotheses is followed by a witness on a
    concrete state.

    ** Memory and processes

    - [Params]: constants and address macros of [param.h],
      [memlayout.h], [mmu.h] and [traps.h].
    - [Mem]: byte-addressed physical memory and [string.c].
    - [Spinlock]: processors, interrupt nesting and [spinlock.c]; its module
      [SMP] interleaves several processors and proves mutual exclusion.
    - [Kalloc], [Kinit]: the free list of [kalloc.c], threaded through the free
      pages; boot puts every page on it once.
    - [Vm]: every routine of [vm.c] on page tables stored in that memory.
      [PageTable], [Walk], [Uvm], [Kvm], [Cow], [CopyCow], [Grow]
      carry the invariant: each physical page has one owner, and the
      reference count of a user page is the number of its mappings (at most
      127 address spaces, so that the signed [char] counter does not wrap).
      [CowSystem] specifies address spaces as private byte arrays, with one
      effect for each call and its answer, and [CowSpec] proves that loads,
      stores with their page faults, [copyuvmcow], [allocuvm], [deallocuvm]
      and [freevm] give the answers of that specification; [Demo] is a
      concrete machine for the witnesses.  [CowSpec] also proves that plain [copyuvm] breaks
      the counting.
    - [Proc]: [proc.c], with the file layer behind the class [FileOps] and the
      processor switch as [Switch].  [ProcTable] is the process table as a
      transition system with its reachable invariants; [ProcSpec] proves
      sleep, wakeup and kill on every path, and with the other processors
      running around each lock operation of [sleep] that no wakeup is lost.  [Tidy] shows which code leaves
      the life of the processes alone, and [ProcSystem] that the functions of
      [proc.c] make only the changes of [ProcTable]: each relies on what the
      others guarantee, and together, in every interleaving of processes and
      schedulers at the [Switch] points, they keep the invariants.
    - [Syscall], [Sysfile], [Exec], [Sysproc]: [syscall.c], [sysfile.c],
      [exec.c], [sysproc.c] and [trap.c], over the state of the whole kernel;
      interrupt handlers of devices are the class [Drivers].  [SyscallSpec]
      proves that pointer and string arguments are accepted exactly when they
      lie in the process image.  [Rtc] is [cmostime] of [lapic.c].
    - [Seg]: the bit fields of segment and gate descriptors and the task state
      ([mmu.h]), [seginit], [switchuvm]'s part in it, [tvinit] and [idtinit];
      the processor's reading of the tables (presence, type and privilege) is
      written out, and with it a user program can enter the kernel at the
      system call only.
    - [Debug]: [getcallerpcs], [procdump] and [consoleinit].

    ** Files

    - [Klock]: locks as the upper layers use them, a set of held locks with the
      channels slept on and woken, and [sleeplock.c]; [Locks] proves that the
      spinlocks of [Spinlock] implement it: taking one's own lock is the panic
      of [acquire], and another processor's is waited for.
    - [Bytes], [Bio], [Bcache]: structures in blocks, [bio.c] with its linked
      list over the block device of [memide.c], and the invariant that a block
      has at most one buffer and the cache shows the newest contents.
    - [Log], [Commit], [LogOps], [Recover], [CrashSpec]: [log.c].  The disk
      records the sequence of its block writes; a crash keeps any prefix, and
      recovery then finds all of a transaction or nothing of it.
    - [Fs]: all of [fs.c]; devices are the class [DevSw].  [Txn] gives blocks
      their meaning inside a transaction; [FsBlocks], [FsRead], [FsWrite],
      [FsInode], [FsContents] prove the block allocator, [bmap], [readi],
      [writei], [iupdate] and [ilock] against it, and [FsSpec] states the
      results: [readi] and [writei] implement byte arrays that do not disturb
      each other.  [FsDir] reads such an array as a directory: [dirlookup] and
      [dirlink] implement a map from names to inode numbers.  [FsCache] is the
      invariant of the inode cache: a slot in use holds one inode, its lock is
      free unless the caller holds it, and a valid copy agrees with the disk.
      [FsPath] walks the directories on disk as a tree and proves that
      [namex] finds the inode its path leads to, with exact references.
      [FsFree] proves [itrunc], [FsAlloc] the inode table under [ialloc] and
      the last [iput], and [FsCreate] that [create] ([sysfile.c]) makes its
      path lead to a new inode.  [FsCommit] puts the layers together, from
      [filewrite] ([file.c]) to the block writes: a volume at rest, the
      transactions of a write, and the volume at rest again or after a crash.
    - [Mkfs]: the file system builder [mkfs.c], with the host's files as a
      parameter.  [MkfsFiles], [MkfsVolume] and [MkfsRun] follow the image
      through the run; [MkfsSpec] proves that the volume is one the theorems of
      [FsSpec] and [FsDir] apply to, block by block and inode by inode, that the kernel reads each file back and
      that the root directory names them.  With [FsPath], a file given to the
      builder is found by its path and read.
    - [Pipe]: [pipe.c], a bounded queue.  [File]: [file.c] and [pipealloc].
    - [Kbd], [Console]: [kbd.c], [uart.c] and [console.c] over the ports, the
      class [Ports].  [ConsoleSpec] states what is documented of the hardware
      as the class [ConsoleHw] and proves the screen, the line editing, and
      that a line typed on the keyboard is what a read returns.

    ** Devices and boot

    Hardware is a parameter: the classes [Ports] ([Kbd]), [Mmio] ([Apic]) and
    [StringPorts] ([Ide]) are its registers, with laws in classes of their own
    where a theorem needs them.

    - [Apic]: [ioapic.c], [picirq.c] and the local controller of [lapic.c];
      an interrupt that is enabled is routed to its processor and all others
      stay masked.
    - [Mp]: [mp.c] and [mp.h], which look for the tables of the
      multiprocessor specification in low memory.
    - [Ide], [IdeSpec]: [ide.c].  [AtaDisk] states what the registers of an ATA
      disk do; requests and interrupts in any order leave the buffers and the
      disk as [memide.c] would, and a request sleeps until the interrupt that
      finishes it, after those of the requests before it, wakes it.
    - [Bootmain]: [bootmain.c], which loads the kernel's segments from the same
      disk.

    ** User programs

    [User] holds the system calls as the class [Posix], the library [ulib.c],
    and an instance in which input arrives in arbitrary pieces.  [Printf] is
    [printf.c], [Grep] is [grep.c] with the language its matcher decides,
    [Utils] is [cat], [wc], [echo], [kill], [ln], [mkdir] and [rm], [Ls] is
    [ls.c], [Sh] the parser of [sh.c], and [ShSpec] proves that it
    terminates and inverts printing, with or without the newline.  [ShRun] is
    the rest of [sh.c]: a process is the system calls it makes, and a session
    with the shell is the tree of processes that the commands typed ask for,
    with the descriptors of each.  [Programs] is [init.c], [zombie.c],
    [forktest.c] and the programs that print the result of a call.  [Umalloc] is [umalloc.c] with the proof that [malloc] and
    [free] keep the heap divided into disjoint blocks.

    ** Fuel

    Loops that are bounded by their data get that bound as fuel: the pages of
    a size, the entries of a table, the bytes of a transfer, the blocks of the
    free map, four calls per character for the shell's grammar, twice the
    length of the free list for [malloc], the sectors of a segment; the
    theorems show that it suffices.  A device's status is polled up to
    [IDEPOLLS] times, which the laws of the disk promise to be enough; [MPFUEL]
    is more than the entries a table of 65535 bytes can have.
    Loops that wait for another process ([WAITS], [PWAITS], [CWAITS], the
    reads of a user program) are bounded by how often they are woken in vain
    or by the fuel of the statement; theorems about them are about runs in
    which the condition holds or comes to hold within it.

    ** Limits

    File-system theorems hold inside one transaction with room in the log (six
    blocks for each block of data written, of which the code needs at most as
    many) and free blocks on disk, stated as [room] and [free_ge].  [FsFree]
    and the last [iput] are proved for a volume with one bitmap block, the size
    this system is built with, so that freeing a file logs at most two blocks.  Theorems on
    the kernel's sequential functions describe one processor between switches;
    interleaving is covered by [Spinlock.SMP], by [ProcSystem] and by the
    [Switch] points.  [ProcSystem] considers runs in which fewer than
    [2 ^ 31 - 2] processes have been created: [nextpid] is a signed [int].
    The file layer keeps its own record of sleeping and waking ([Klock]), and
    appears in [ProcSystem] as code that leaves the process table alone.
    [MkfsSpec] is about argument lists whose number of files plus two is not a
    multiple of 32: for the others the size of the root directory is wrong.
    The check in [initlog] that a header fits into a block compares constants
    and is left out, as are the fields of a spinlock that serve debugging;
    [Bootmain]'s memory holds the segments it loads but not the loader itself.

    ** Not modelled

    [main.c] calls the initialisation of the other components in order and
    starts the other processors with code in assembly; the assembly files are
    machine state that the rest reaches through the classes above, [swtch]
    being [Switch].  In [ShRun] the children of the shell's session are
    followed up to their [exec], and the input they share with the shell is
    not.  [vm2.c] is not built; [usertests.c], [corretor.c] and [stressfs.c]
    are tests.

    ** This file

    Machine-width integers, the monad with its weakest preconditions, lenses,
    and the automation used by every component. *)

From Stdlib Require Export ZArith Lia Bool.
From stdpp Require Export base list gmap strings.

#[export] Set Default Goal Selector "!".
#[export] Set Warnings "-clear-no-such-hyp".

Declare Scope xv6_scope.
Delimit Scope xv6_scope with xv6.
Open Scope Z_scope.

(** * Machine-width integers

    A C [uint], [int], [char], [uchar], [short] or [ushort] is a [Z]; the
    functions below write out the truncation C performs on assignment. *)

Definition u8 (x : Z) : Z := x mod 2 ^ 8.
Definition u16 (x : Z) : Z := x mod 2 ^ 16.
Definition u32 (x : Z) : Z := x mod 2 ^ 32.
Definition s8 (x : Z) : Z := (x + 2 ^ 7) mod 2 ^ 8 - 2 ^ 7.
Definition s16 (x : Z) : Z := (x + 2 ^ 15) mod 2 ^ 16 - 2 ^ 15.
Definition s32 (x : Z) : Z := (x + 2 ^ 31) mod 2 ^ 32 - 2 ^ 31.

(** [~m] on a 32-bit unsigned operand. *)
Definition not32 (m : Z) : Z := u32 (Z.lnot m).

Lemma u8_range x : 0 <= u8 x < 256.
Proof. unfold u8. apply Z.mod_pos_bound. lia. Qed.

Lemma u32_range x : 0 <= u32 x < 2 ^ 32.
Proof. unfold u32. apply Z.mod_pos_bound. lia. Qed.

Lemma u8_id x : 0 <= x < 256 -> u8 x = x.
Proof. intros. unfold u8. apply Z.mod_small. lia. Qed.

Lemma u32_id x : 0 <= x < 2 ^ 32 -> u32 x = x.
Proof. intros. unfold u32. by apply Z.mod_small. Qed.

Lemma u32_add_l x y : u32 (u32 x + y) = u32 (x + y).
Proof. unfold u32. by rewrite Zplus_mod_idemp_l. Qed.

Lemma u32_add_r x y : u32 (x + u32 y) = u32 (x + y).
Proof. unfold u32. by rewrite Zplus_mod_idemp_r. Qed.

Lemma u32_sub_l x y : u32 (u32 x - y) = u32 (x - y).
Proof. unfold u32. by rewrite Zminus_mod_idemp_l. Qed.

Lemma u32_u32 x : u32 (u32 x) = u32 x.
Proof. apply u32_id, u32_range. Qed.

Lemma s8_range x : -128 <= s8 x < 128.
Proof.
  unfold s8. pose proof (Z.mod_pos_bound (x + 2 ^ 7) (2 ^ 8)). lia.
Qed.

Lemma s8_id x : -128 <= x < 128 -> s8 x = x.
Proof. intros. unfold s8. rewrite Z.mod_small; lia. Qed.

Lemma s32_range x : - 2 ^ 31 <= s32 x < 2 ^ 31.
Proof.
  unfold s32. pose proof (Z.mod_pos_bound (x + 2 ^ 31) (2 ^ 32)). lia.
Qed.

Lemma s32_id x : - 2 ^ 31 <= x < 2 ^ 31 -> s32 x = x.
Proof. intros. unfold s32. rewrite Z.mod_small; lia. Qed.

(** Reading back a 32-bit pattern as unsigned after storing it as [int]. *)
Lemma u32_s32 x : u32 (s32 x) = u32 x.
Proof.
  unfold u32, s32. rewrite Zminus_mod_idemp_l. f_equal. lia.
Qed.

Create HintDb width.
#[export] Hint Resolve u8_range u32_range s8_range s32_range : width.

(** [lia] that may look inside [mod] and [div]. *)
Ltac zdiv := Z.div_mod_to_equations; lia.

(** * Bit masks

    Alignment masks and flag words are [Z.land]/[Z.lor]; these lemmas turn
    them into arithmetic. *)

Lemma testbit_high x k n : 0 <= x < 2 ^ k -> 0 <= k <= n -> Z.testbit x n = false.
Proof.
  intros Hx Hn. destruct (Z.eq_dec x 0) as [->|]; [apply Z.bits_0|].
  apply Z.bits_above_log2; [lia|]. apply Z.log2_lt_pow2; [lia|].
  apply Z.lt_le_trans with (2 ^ k); [lia|]. apply Z.pow_le_mono_r; lia.
Qed.

Lemma land_bound x y k : 0 <= k -> 0 <= x < 2 ^ k -> 0 <= Z.land x y < 2 ^ k.
Proof.
  intros Hk Hx.
  assert (H : Z.land x y = Z.land x y mod 2 ^ k).
  { apply Z.bits_inj'. intros n Hn. rewrite Z.land_spec. destruct (Z.ltb_spec n k).
    - by rewrite Z.mod_pow2_bits_low, Z.land_spec by lia.
    - rewrite Z.mod_pow2_bits_high by lia. by rewrite (testbit_high x k n). }
  rewrite H. apply Z.mod_pos_bound. lia.
Qed.

Lemma lor_bound x y k : 0 <= k -> 0 <= x < 2 ^ k -> 0 <= y < 2 ^ k -> 0 <= Z.lor x y < 2 ^ k.
Proof.
  intros Hk Hx Hy.
  assert (H : Z.lor x y = Z.lor x y mod 2 ^ k).
  { apply Z.bits_inj'. intros n Hn. rewrite Z.lor_spec. destruct (Z.ltb_spec n k).
    - by rewrite Z.mod_pow2_bits_low, Z.lor_spec by lia.
    - rewrite Z.mod_pow2_bits_high by lia. by rewrite (testbit_high x k n), (testbit_high y k n). }
  rewrite H. apply Z.mod_pos_bound. lia.
Qed.

Lemma land_low_mask x k : 0 <= k -> Z.land x (Z.ones k) = x mod 2 ^ k.
Proof. intros. by apply Z.land_ones. Qed.

Lemma land_not_low x k :
  0 <= x < 2 ^ 32 -> 0 <= k <= 32 -> Z.land x (u32 (Z.lnot (Z.ones k))) = x - x mod 2 ^ k.
Proof.
  intros Hx Hk.
  assert (Hhi : x - x mod 2 ^ k = Z.ldiff x (Z.ones k)).
  { rewrite Z.ldiff_ones_r by lia. rewrite Z.shiftl_mul_pow2, Z.shiftr_div_pow2 by lia.
    pose proof (Z.div_mod x (2 ^ k)). assert (2 ^ k <> 0) by lia. lia. }
  rewrite Hhi. apply Z.bits_inj'. intros n Hn.
  rewrite Z.land_spec, Z.ldiff_spec. unfold u32.
  destruct (Z.ltb_spec n 32).
  - rewrite Z.mod_pow2_bits_low by lia. by rewrite Z.lnot_spec.
  - rewrite Z.mod_pow2_bits_high by lia.
    by rewrite (testbit_high x 32 n).
Qed.

(** A flag word occupying the low [k] bits shares no bit with an address
    aligned to [2 ^ k], so or-ing it on is addition without carries. *)
Lemma land_aligned_flags a f k :
  0 <= k -> a mod 2 ^ k = 0 -> 0 <= f < 2 ^ k -> Z.land a f = 0.
Proof.
  intros Hk Ha Hf. apply Z.bits_inj'. intros n Hn. rewrite Z.land_spec, Z.bits_0.
  destruct (Z.ltb_spec n k).
  - rewrite <- (Z.mod_pow2_bits_low a k n) by lia. by rewrite Ha, Z.bits_0.
  - rewrite (testbit_high f k n) by lia. apply andb_false_r.
Qed.

Lemma lor_aligned_add a f k :
  0 <= k -> a mod 2 ^ k = 0 -> 0 <= f < 2 ^ k -> Z.lor a f = a + f.
Proof.
  intros Hk Ha Hf. pose proof (land_aligned_flags a f k Hk Ha Hf) as H0.
  rewrite <- Z.lxor_lor by done. symmetry. by apply Z.add_nocarry_lxor.
Qed.

(** * The kernel's resumption monad

    A kernel function runs on a state [S] and either returns, panics (with the
    message the C code gives to [panic]), performs an access the C code would
    fault on, or gives up the processor.  [Switch s k] is the point where
    [sched()] calls [swtch] (or where [acquire] spins): [s] is the state left
    behind and [k] is the rest of the function, resumed in whatever state the
    other processors and processes have produced by then.  [NoFuel] marks a
    loop whose iteration budget is used up; every bounded loop of the
    development is shown not to produce it. *)

Inductive result (S A : Type) : Type :=
| Ok (a : A) (s : S)
| Panic (msg : string)
| Fault (addr : Z)
| NoFuel
| Switch (s : S) (k : S -> result S A).
Arguments Ok {S A} _ _.
Arguments Panic {S A} _.
Arguments Fault {S A} _.
Arguments NoFuel {S A}.
Arguments Switch {S A} _ _.

Definition M (S A : Type) : Type := S -> result S A.

Section monad.
Context {S : Type}.

Definition ret {A} (a : A) : M S A := fun s => Ok a s.

Fixpoint seqr {A B} (r : result S A) (f : A -> M S B) : result S B :=
  match r with
  | Ok a s => f a s
  | Panic m => Panic m
  | Fault a => Fault a
  | NoFuel => NoFuel
  | Switch s k => Switch s (fun s' => seqr (k s') f)
  end.

Definition bind {A B} (m : M S A) (f : A -> M S B) : M S B := fun s => seqr (m s) f.
Definition panic {A} (msg : string) : M S A := fun _ => Panic msg.
Definition fault {A} (a : Z) : M S A := fun _ => Fault a.
Definition nofuel {A} : M S A := fun _ => NoFuel.
Definition get : M S S := fun s => Ok s s.
Definition gets {A} (f : S -> A) : M S A := fun s => Ok (f s) s.
Definition modify (f : S -> S) : M S unit := fun s => Ok tt (f s).

(** The processor is handed to somebody else and comes back. *)
Definition switch : M S unit := fun s => Switch s (fun s' => Ok tt s').

(** Total correctness: [r] returns, without panicking, faulting or running
    out of fuel, in a state satisfying [Q]; whenever it gives up the
    processor it leaves a state in [G], and it copes with any change [R] the
    others make meanwhile. *)
Fixpoint post {A} (G : S -> Prop) (R : S -> S -> Prop) (Q : A -> S -> Prop)
    (r : result S A) : Prop :=
  match r with
  | Ok a s => Q a s
  | Switch s k => G s /\ forall s', R s s' -> post G R Q (k s')
  | _ => False
  end.

(** The special case of a function that never gives up the processor. *)
Definition returns {A} (r : result S A) (Q : A -> S -> Prop) : Prop :=
  match r with Ok a s => Q a s | _ => False end.

Lemma post_seqr {A B} G R Q (r : result S A) (f : A -> M S B) :
  post G R (fun a s => post G R Q (f a s)) r -> post G R Q (seqr r f).
Proof. induction r as [| | | |s k IH]; simpl; [done..|]. intros [? ?]; split; auto. Qed.

Lemma post_mono {A} (G G' : S -> Prop) (R : S -> S -> Prop) (Q Q' : A -> S -> Prop) r :
  (forall s, G s -> G' s) -> (forall a s, Q a s -> Q' a s) -> post G R Q r -> post G' R Q' r.
Proof.
  intros HG HQ. induction r as [| | | |s k IH]; simpl; [auto|done..|].
  intros [? ?]; split; auto.
Qed.

Lemma post_bind {A B} G R Q (m : M S A) (f : A -> M S B) s :
  post G R (fun a s' => post G R Q (f a s')) (m s) -> post G R Q (bind m f s).
Proof. apply post_seqr. Qed.

Lemma returns_bind {A B} (m : M S A) (f : A -> M S B) s Q :
  returns (m s) (fun a s' => returns (f a s') Q) -> returns (bind m f s) Q.
Proof. unfold bind. by destruct (m s). Qed.

Lemma returns_post {A} G R (r : result S A) Q : returns r Q -> post G R Q r.
Proof. by destruct r. Qed.

Lemma returns_mono {A} (r : result S A) (Q Q' : A -> S -> Prop) :
  (forall a s, Q a s -> Q' a s) -> returns r Q -> returns r Q'.
Proof. destruct r; simpl; auto. Qed.

Lemma returns_ok {A} (r : result S A) Q :
  returns r Q <-> exists a s, r = Ok a s /\ Q a s.
Proof.
  destruct r; simpl; (split; [|intros (? & ? & [=] & ?)]); subst; eauto; done.
Qed.

Lemma bind_ok {A B} (m : M S A) (f : A -> M S B) s a s' :
  m s = Ok a s' -> bind m f s = f a s'.
Proof. intros H. unfold bind. by rewrite H. Qed.

Lemma bind_ok_inv {A B} (m : M S A) (f : A -> M S B) s b s' :
  bind m f s = Ok b s' -> exists a s1, m s = Ok a s1 /\ f a s1 = Ok b s'.
Proof. unfold bind. destruct (m s); simpl; naive_solver. Qed.
End monad.

Notation "x <- m ;; k" := (bind m (fun x => k))
  (at level 100, m at next level, k at level 200, right associativity) : xv6_scope.
Notation "m ;;; k" := (bind m (fun _ => k))
  (at level 100, k at level 200, right associativity) : xv6_scope.

(** [when b m] runs [m] only if [b]: a C [if] without [else]. *)
Definition when {S} (b : bool) (m : M S unit) : M S unit := if b then m else ret tt.

(** A component reaches the part of the state it owns through a lens; [lift]
    runs a component's function inside a larger state. *)
Class Lens (S T : Type) := {
  view : S -> T;
  put : T -> S -> S;
  view_put : forall t s, view (put t s) = t;
  put_view : forall s, put (view s) s = s;
  put_put : forall t t' s, put t (put t' s) = put t s
}.

Fixpoint lift_result {S T A} `{Lens S T} (s : S) (r : result T A) : result S A :=
  match r with
  | Ok a t => Ok a (put t s)
  | Panic m => Panic m
  | Fault a => Fault a
  | NoFuel => NoFuel
  | Switch t k => Switch (put t s) (fun s' => lift_result s' (k (view s')))
  end.

Definition lift {S T A} `{Lens S T} (m : M T A) : M S A :=
  fun s => lift_result s (m (view s)).

Lemma lift_ok {S T A} `{Lens S T} (m : M T A) s a t :
  m (view s) = Ok a t -> lift m s = Ok a (put t s).
Proof. intros E. unfold lift. by rewrite E. Qed.

Lemma returns_lift {S T A} `{Lens S T} (m : M T A) (s : S) Q :
  returns (m (view s)) (fun a t => Q a (put t s)) -> returns (lift m s) Q.
Proof. unfold lift. by destruct (m (view s)). Qed.

Create HintDb xv6.

(** The first action of a sequence is known to return. *)
Ltac step E := rewrite (bind_ok _ _ _ _ _ E).

(** One symbolic-execution step of [returns]. *)
Ltac wp_step :=
  match goal with
  | |- returns (bind _ _ _) _ => apply returns_bind
  | |- returns (lift _ _) _ => apply returns_lift
  | |- returns (ret _ _) _ => unfold ret; simpl
  | |- returns (gets _ _) _ => unfold gets; simpl
  | |- returns (modify _ _) _ => unfold modify; simpl
  | |- returns (when ?b _ _) _ => unfold when; destruct b eqn:?
  | |- returns ((if ?b then _ else _) _) _ => destruct b eqn:?
  end.
