(* ===== verification/Params.v ===== *)
(** The kernel's compile-time constants and address arithmetic:
    [param.h], [memlayout.h], the paging half of [mmu.h], and the linker
    symbols [end] and [data] of [kernel.ld]. *)

From S2P Require Import Prelude.
Open Scope Z_scope.

(** * [param.h] *)

Definition NPROC : nat := 64.
Definition KSTACKSIZE : Z := 4096.
Definition NCPU : nat := 8.
Definition NOFILE : nat := 16.
Definition NFILE : nat := 100.
Definition NINODE : nat := 50.
Definition NDEV : Z := 10.
Definition ROOTDEV : Z := 1.
Definition MAXARG : nat := 32.
Definition MAXOPBLOCKS : Z := 10.
Definition LOGSIZE : Z := MAXOPBLOCKS * 3.
Definition NBUF : Z := MAXOPBLOCKS * 3.
Definition FSSIZE : Z := 1000.

(** * [memlayout.h] *)

Definition EXTMEM : Z := 0x100000.
Definition PHYSTOP : Z := 0xE000000.
Definition DEVSPACE : Z := 0xFE000000.
Definition KERNBASE : Z := 0x80000000.
Definition KERNLINK : Z := KERNBASE + EXTMEM.

Definition V2P (a : Z) : Z := u32 (a - KERNBASE).
Definition P2V (a : Z) : Z := u32 (a + KERNBASE).

(** * [mmu.h]: pages and page-table entries *)

Definition NPDENTRIES : Z := 1024.
Definition NPTENTRIES : Z := 1024.
Definition PGSIZE : Z := 4096.
Definition PGSHIFT : Z := 12.
Definition PTXSHIFT : Z := 12.
Definition PDXSHIFT : Z := 22.

Definition PDX (va : Z) : Z := Z.land (Z.shiftr va PDXSHIFT) 0x3FF.
Definition PTX (va : Z) : Z := Z.land (Z.shiftr va PTXSHIFT) 0x3FF.
Definition PGADDR (d t o : Z) : Z :=
  u32 (Z.lor (Z.lor (Z.shiftl d PDXSHIFT) (Z.shiftl t PTXSHIFT)) o).

Definition PGROUNDUP (sz : Z) : Z := Z.land (u32 (sz + PGSIZE - 1)) (not32 (PGSIZE - 1)).
Definition PGROUNDDOWN (a : Z) : Z := Z.land a (not32 (PGSIZE - 1)).

Definition PTE_P : Z := 0x001.
Definition PTE_W : Z := 0x002.
Definition PTE_U : Z := 0x004.
Definition PTE_PWT : Z := 0x008.
Definition PTE_PCD : Z := 0x010.
Definition PTE_A : Z := 0x020.
Definition PTE_D : Z := 0x040.
Definition PTE_PS : Z := 0x080.
Definition PTE_MBZ : Z := 0x180.
Definition PTE_COW : Z := 0x400.

Definition PTE_ADDR (pte : Z) : Z := Z.land pte (not32 0xFFF).
Definition PTE_FLAGS (pte : Z) : Z := Z.land pte 0xFFF.

(** [*pte & flag] used as a condition. *)
Definition has (pte flag : Z) : bool := negb (Z.land pte flag =? 0).

(** * Linker symbols

    [kernel.ld] provides [data] (page aligned, after text and read-only data)
    and [end] (the first address after the kernel).  The kernel is linked at
    [KERNLINK] and must lie inside the first 4 megabytes, which is all
    [entrypgdir] maps when [kinit1] runs. *)
Class Layout := {
  data : Z;
  end_ : Z;
  data_aligned : data mod PGSIZE = 0;
  data_after_text : KERNLINK < data;
  data_before_end : data <= end_;
  end_in_4M : end_ <= KERNBASE + 4 * 1024 * 1024
}.

(** * Address arithmetic as plain arithmetic *)

Lemma V2P_eq a : KERNBASE <= a < 2 ^ 32 -> V2P a = a - KERNBASE.
Proof. unfold V2P, KERNBASE. intros. apply u32_id. lia. Qed.

Lemma P2V_eq a : 0 <= a < 2 ^ 31 -> P2V a = a + KERNBASE.
Proof. unfold P2V, KERNBASE. intros. apply u32_id. lia. Qed.

Lemma P2V_V2P a : KERNBASE <= a < 2 ^ 32 -> P2V (V2P a) = a.
Proof. intros. rewrite V2P_eq by done. unfold KERNBASE in *. rewrite P2V_eq; unfold KERNBASE; lia. Qed.

Lemma V2P_P2V a : 0 <= a < 2 ^ 31 -> V2P (P2V a) = a.
Proof. intros. rewrite P2V_eq by done. unfold KERNBASE in *. rewrite V2P_eq; unfold KERNBASE; lia. Qed.

Lemma PGROUNDDOWN_eq a : 0 <= a < 2 ^ 32 -> PGROUNDDOWN a = a - a mod PGSIZE.
Proof.
  intros. unfold PGROUNDDOWN, not32, PGSIZE.
  change (4096 - 1) with (Z.ones 12). rewrite land_not_low by lia. done.
Qed.

Lemma PGROUNDUP_eq a :
  0 <= a -> a + PGSIZE <= 2 ^ 32 -> PGROUNDUP a = (a + (PGSIZE - 1)) / PGSIZE * PGSIZE.
Proof.
  unfold PGROUNDUP, not32, PGSIZE. intros.
  rewrite u32_id by lia. change (4096 - 1) with (Z.ones 12).
  rewrite land_not_low by lia. change (2 ^ 12) with 4096. change (Z.ones 12) with 4095.
  zdiv.
Qed.

Lemma PTE_ADDR_eq e : 0 <= e < 2 ^ 32 -> PTE_ADDR e = e - e mod PGSIZE.
Proof.
  intros. unfold PTE_ADDR, not32, PGSIZE.
  change 0xFFF with (Z.ones 12). rewrite land_not_low by lia. done.
Qed.

Lemma PTE_FLAGS_eq e : PTE_FLAGS e = e mod PGSIZE.
Proof. unfold PTE_FLAGS, PGSIZE. change 0xFFF with (Z.ones 12). by rewrite land_low_mask. Qed.

Lemma PDX_eq va : 0 <= va < 2 ^ 32 -> PDX va = va / 2 ^ 22.
Proof.
  intros. unfold PDX, PDXSHIFT. rewrite Z.shiftr_div_pow2 by lia.
  change 0x3FF with (Z.ones 10). rewrite land_low_mask by lia.
  apply Z.mod_small. zdiv.
Qed.

Lemma PTX_eq va : PTX va = (va / 2 ^ 12) mod 2 ^ 10.
Proof.
  unfold PTX, PTXSHIFT. rewrite Z.shiftr_div_pow2 by lia.
  change 0x3FF with (Z.ones 10). by rewrite land_low_mask by lia.
Qed.

Lemma PDX_range va : 0 <= PDX va < 1024.
Proof.
  unfold PDX. change 0x3FF with (Z.ones 10). rewrite land_low_mask by lia.
  apply Z.mod_pos_bound. lia.
Qed.

Lemma PTX_range va : 0 <= PTX va < 1024.
Proof. rewrite PTX_eq. apply Z.mod_pos_bound. lia. Qed.

(** * Entries made of an aligned address and flag bits *)

Lemma has_land e f : has e f = negb (Z.land e f =? 0).
Proof. done. Qed.

Lemma pte_lor a f : a mod PGSIZE = 0 -> 0 <= f < PGSIZE -> Z.lor a f = a + f.
Proof. intros. apply (lor_aligned_add a f 12); unfold PGSIZE in *; done. Qed.

Section pte_parts.
Context (a f : Z) (Ha : a mod PGSIZE = 0) (Hr : 0 <= a < 2 ^ 32) (Hf : 0 <= f < PGSIZE).

Lemma pte_range : 0 <= a + f < 2 ^ 32.
Proof. unfold PGSIZE in *. zdiv. Qed.

Lemma pte_addr : PTE_ADDR (a + f) = a.
Proof. rewrite PTE_ADDR_eq by apply pte_range. unfold PGSIZE in *. zdiv. Qed.

Lemma pte_flags : PTE_FLAGS (a + f) = f.
Proof. rewrite PTE_FLAGS_eq. unfold PGSIZE in *. zdiv. Qed.

Lemma pte_has g : 0 <= g < PGSIZE -> has (a + f) g = has f g.
Proof.
  intros Hg. unfold has. do 2 f_equal. rewrite <- pte_lor by done.
  rewrite Z.land_lor_distr_l. rewrite (land_aligned_flags a g 12) by (unfold PGSIZE in *; done).
  done.
Qed.
End pte_parts.

(** Every 32-bit word is such a sum. *)
Lemma pte_split e :
  0 <= e < 2 ^ 32 ->
  e = PTE_ADDR e + PTE_FLAGS e /\ PTE_ADDR e mod PGSIZE = 0 /\ 0 <= PTE_ADDR e < 2 ^ 32
  /\ 0 <= PTE_FLAGS e < PGSIZE.
Proof.
  intros He. rewrite PTE_ADDR_eq, PTE_FLAGS_eq by done. unfold PGSIZE. zdiv.
Qed.

(** Clearing and setting flag bits leave the address alone. *)
Lemma pte_land e g :
  0 <= e < 2 ^ 32 -> 0 <= g < PGSIZE ->
  Z.land e (not32 g) = PTE_ADDR e + Z.land (PTE_FLAGS e) (not32 g).
Proof.
  intros He Hg. destruct (pte_split e He) as (Hs & Ha & Hr & Hf).
  assert (Hl : 0 <= Z.land (PTE_FLAGS e) (not32 g) < PGSIZE).
  { apply (land_bound _ _ 12); [lia|]. by unfold PGSIZE in Hf. }
  rewrite <- pte_lor by done. rewrite Hs at 1. rewrite <- pte_lor by done.
  rewrite Z.land_lor_distr_l. f_equal.
  apply Z.bits_inj'. intros n Hn. rewrite Z.land_spec.
  destruct (Z.ltb_spec n 12).
  - rewrite <- (Z.mod_pow2_bits_low (PTE_ADDR e) 12 n) by lia.
    unfold PGSIZE in Ha. change (2 ^ 12) with 4096. by rewrite Ha, Z.bits_0.
  - destruct (Z.ltb_spec n 32); [|by rewrite (testbit_high (PTE_ADDR e) 32 n)].
    unfold not32, u32. rewrite Z.mod_pow2_bits_low, Z.lnot_spec by lia.
    rewrite (testbit_high g 12 n) by (unfold PGSIZE in *; lia). apply andb_true_r.
Qed.

Lemma pte_lor_flags e g :
  0 <= e < 2 ^ 32 -> 0 <= g < PGSIZE -> Z.lor e g = PTE_ADDR e + Z.lor (PTE_FLAGS e) g.
Proof.
  intros He Hg. destruct (pte_split e He) as (Hs & Ha & Hr & Hf).
  assert (Hl : 0 <= Z.lor (PTE_FLAGS e) g < PGSIZE) by (by apply (lor_bound _ _ 12)).
  rewrite Hs at 1. rewrite <- !pte_lor by done. by rewrite Z.lor_assoc.
Qed.

(** ** Single flag bits *)

Lemma has_bit e k : 0 <= k -> has e (2 ^ k) = Z.testbit e k.
Proof.
  intros Hk. unfold has. destruct (Z.testbit e k) eqn:E.
  - apply negb_true_iff, Z.eqb_neq. intros H. apply (f_equal (fun z => Z.testbit z k)) in H.
    rewrite Z.land_spec, Z.bits_0, E, Z.pow2_bits_true in H by done. discriminate.
  - apply negb_false_iff, Z.eqb_eq, Z.bits_inj'. intros n Hn.
    rewrite Z.land_spec, Z.bits_0. destruct (Z.eq_dec n k) as [->|Hne]; [by rewrite E|].
    rewrite Z.pow2_bits_false by lia. apply andb_false_r.
Qed.

Lemma has_clear e j k :
  0 <= j < 32 -> 0 <= k < 32 ->
  has (Z.land e (not32 (2 ^ j))) (2 ^ k) = has e (2 ^ k) && negb (k =? j).
Proof.
  intros Hj Hk. rewrite !has_bit, Z.land_spec by lia. f_equal.
  unfold not32, u32. rewrite Z.mod_pow2_bits_low, Z.lnot_spec by lia.
  rewrite Z.pow2_bits_eqb by lia. by rewrite (Z.eqb_sym j k).
Qed.

Lemma has_set e j k :
  0 <= j -> 0 <= k -> has (Z.lor e (2 ^ j)) (2 ^ k) = has e (2 ^ k) || (k =? j).
Proof.
  intros Hj Hk. rewrite !has_bit, Z.lor_spec, Z.pow2_bits_eqb by lia. by rewrite (Z.eqb_sym j k).
Qed.

(** Changing a flag keeps the address. *)
Lemma clear_flag e g :
  0 <= e < 2 ^ 32 -> 0 <= g < PGSIZE ->
  PTE_ADDR (Z.land e (not32 g)) = PTE_ADDR e /\ 0 <= Z.land e (not32 g) < 2 ^ 32.
Proof.
  intros He Hg. destruct (pte_split e He) as (_ & Ha & Hr & Hf). rewrite pte_land by done.
  assert (Hl : 0 <= Z.land (PTE_FLAGS e) (not32 g) < PGSIZE)
    by (apply (land_bound _ _ 12); [lia|by unfold PGSIZE in Hf]).
  split; [by apply pte_addr|by apply pte_range].
Qed.

Lemma set_flag e g :
  0 <= e < 2 ^ 32 -> 0 <= g < PGSIZE ->
  PTE_ADDR (Z.lor e g) = PTE_ADDR e /\ 0 <= Z.lor e g < 2 ^ 32.
Proof.
  intros He Hg. destruct (pte_split e He) as (_ & Ha & Hr & Hf). rewrite pte_lor_flags by done.
  assert (Hl : 0 <= Z.lor (PTE_FLAGS e) g < PGSIZE) by (by apply (lor_bound _ _ 12)).
  split; [by apply pte_addr|by apply pte_range].
Qed.

(** Reads flags off words built with [&= ~f] and [|= f]. *)
Ltac flags :=
  change PTE_P with (2 ^ 0) in *; change PTE_W with (2 ^ 1) in *;
  change PTE_U with (2 ^ 2) in *; change PTE_COW with (2 ^ 10) in *;
  rewrite ?has_clear, ?has_set by lia;
  repeat match goal with E : has _ _ = _ |- _ => rewrite E; clear E end;
  first [done | by rewrite ?orb_true_r, ?andb_false_r].

(** * Trap and interrupt numbers, [traps.h] *)

Definition T_PGFLT : Z := 14.
Definition T_SYSCALL : Z := 64.
Definition T_IRQ0 : Z := 32.
Definition IRQ_TIMER : Z := 0.
Definition IRQ_KBD : Z := 1.
Definition IRQ_COM1 : Z := 4.
Definition IRQ_IDE : Z := 14.
Definition IRQ_ERROR : Z := 19.
Definition IRQ_SPURIOUS : Z := 31.

(** * Segment selectors, [mmu.h] *)

Definition SEG_KCODE : Z := 1.
Definition SEG_KDATA : Z := 2.
Definition SEG_UCODE : Z := 3.
Definition SEG_UDATA : Z := 4.
Definition SEG_TSS : Z := 5.
Definition NSEGS : nat := 6.
Definition DPL_USER : Z := 0x3.
