(* ===== verification/Mem.v ===== *)
(** Byte-addressed physical memory, little-endian words, and [string.c].

    The kernel reaches every byte of physical memory below [PHYSTOP] through
    the direct map at [KERNBASE], so memory is indexed by physical address and
    a kernel pointer [p] denotes the byte at [V2P p]. *)

From S2P Require Import Prelude Params.
Open Scope Z_scope.

(** * Bytes and words *)

Abbreviation mem := (gmap Z Z).

Definition rd (m : mem) (a : Z) : Z := u8 (default 0 (m !! a)).
Definition wr (m : mem) (a v : Z) : mem := <[a := u8 v]> m.

Definition load32 (m : mem) (a : Z) : Z :=
  rd m a + 2 ^ 8 * rd m (a + 1) + 2 ^ 16 * rd m (a + 2) + 2 ^ 24 * rd m (a + 3).

Definition store32 (m : mem) (a v : Z) : mem :=
  wr (wr (wr (wr m a v) (a + 1) (v / 2 ^ 8)) (a + 2) (v / 2 ^ 16)) (a + 3) (v / 2 ^ 24).

Lemma rd_range m a : 0 <= rd m a < 256.
Proof. apply u8_range. Qed.

Lemma rd_wr m a v b : rd (wr m a v) b = if decide (a = b) then u8 v else rd m b.
Proof.
  unfold rd, wr. rewrite lookup_insert. case_decide; simpl; [|done].
  apply u8_id, u8_range.
Qed.

Lemma rd_wr_eq m a v : rd (wr m a v) a = u8 v.
Proof. rewrite rd_wr. by rewrite decide_True. Qed.

Lemma rd_wr_ne m a v b : a <> b -> rd (wr m a v) b = rd m b.
Proof. intros. rewrite rd_wr. by rewrite decide_False. Qed.

Lemma load32_range m a : 0 <= load32 m a < 2 ^ 32.
Proof.
  unfold load32.
  pose proof (rd_range m a). pose proof (rd_range m (a + 1)).
  pose proof (rd_range m (a + 2)). pose proof (rd_range m (a + 3)). lia.
Qed.

Lemma load32_ext m m' a :
  (forall i, 0 <= i < 4 -> rd m' (a + i) = rd m (a + i)) -> load32 m' a = load32 m a.
Proof.
  intros H. unfold load32.
  pose proof (H 0) as H0. rewrite Z.add_0_r in H0.
  rewrite H0, (H 1), (H 2), (H 3) by lia. done.
Qed.

Lemma rd_store32_ne m a v b : ~ (a <= b < a + 4) -> rd (store32 m a v) b = rd m b.
Proof. intros. unfold store32. rewrite !rd_wr_ne by lia. done. Qed.

(** What a store leaves behind depends on the old contents of that byte only. *)
Lemma rd_store32_congr m m' p e a : rd m' a = rd m a -> rd (store32 m' p e) a = rd (store32 m p e) a.
Proof. intros Hm. unfold store32. rewrite !rd_wr. repeat case_decide; done. Qed.

Lemma load32_store32_eq m a v : 0 <= v < 2 ^ 32 -> load32 (store32 m a v) a = v.
Proof.
  intros Hv. unfold load32, store32.
  rewrite rd_wr_eq, !rd_wr_ne, rd_wr_eq, !rd_wr_ne, rd_wr_eq, !rd_wr_ne, rd_wr_eq by lia.
  unfold u8. change (2 ^ 8) with 256 in *. change (2 ^ 16) with 65536 in *.
  change (2 ^ 24) with 16777216 in *. change (2 ^ 32) with 4294967296 in *. zdiv.
Qed.

Lemma load32_store32_ne m a v b :
  a + 4 <= b \/ b + 4 <= a -> load32 (store32 m a v) b = load32 m b.
Proof. intros. apply load32_ext. intros. apply rd_store32_ne. lia. Qed.

(** * [string.c] *)

(** The x86 string stores behind [memset]. *)
Fixpoint stosb (m : mem) (a c : Z) (cnt : nat) : mem :=
  match cnt with
  | O => m
  | S n => stosb (wr m a c) (a + 1) c n
  end.

Fixpoint stosl (m : mem) (a v : Z) (cnt : nat) : mem :=
  match cnt with
  | O => m
  | S n => stosl (store32 m a v) (a + 4) v n
  end.

Definition memset (m : mem) (dst c n : Z) : mem :=
  if (dst mod 4 =? 0) && (n mod 4 =? 0) then
    let c := Z.land c 0xFF in
    stosl m dst
      (u32 (Z.lor (Z.lor (Z.lor (Z.shiftl c 24) (Z.shiftl c 16)) (Z.shiftl c 8)) c))
      (Z.to_nat (n / 4))
  else stosb m dst c (Z.to_nat n).

Fixpoint memcmp (m : mem) (s1 s2 : Z) (n : nat) : Z :=
  match n with
  | O => 0
  | S n =>
      if rd m s1 =? rd m s2 then memcmp m (s1 + 1) (s2 + 1) n
      else rd m s1 - rd m s2
  end.

(** [while(n-- > 0) *--d = *--s], with [d] and [s] already past the end. *)
Fixpoint move_down (m : mem) (d s : Z) (n : nat) : mem :=
  match n with
  | O => m
  | S n => move_down (wr m (d - 1) (rd m (s - 1))) (d - 1) (s - 1) n
  end.

(** [while(n-- > 0) *d++ = *s++]. *)
Fixpoint move_up (m : mem) (d s : Z) (n : nat) : mem :=
  match n with
  | O => m
  | S n => move_up (wr m d (rd m s)) (d + 1) (s + 1) n
  end.

Definition memmove (m : mem) (dst src n : Z) : mem :=
  if (src <? dst) && (dst <? src + n)
  then move_down m (dst + n) (src + n) (Z.to_nat n)
  else move_up m dst src (Z.to_nat n).

Definition memcpy (m : mem) (dst src n : Z) : mem := memmove m dst src n.

Fixpoint strncmp (m : mem) (p q : Z) (n : nat) : Z :=
  match n with
  | O => 0
  | S n' =>
      if negb (rd m p =? 0) && (rd m p =? rd m q) then strncmp m (p + 1) (q + 1) n'
      else rd m p - rd m q
  end.

Fixpoint strncpy_pad (m : mem) (s : Z) (n : nat) : mem :=
  match n with
  | O => m
  | S n => strncpy_pad (wr m s 0) (s + 1) n
  end.

Fixpoint strncpy_copy (m : mem) (s t : Z) (n : nat) : mem :=
  match n with
  | O => m
  | S n =>
      let c := rd m t in
      let m := wr m s c in
      if c =? 0 then strncpy_pad m (s + 1) n
      else strncpy_copy m (s + 1) (t + 1) n
  end.

Definition strncpy (m : mem) (s t n : Z) : mem := strncpy_copy m s t (Z.to_nat n).

(** The loop of [safestrcpy]: [n] is what [--n] has left.  When the copied
    byte is NUL, [s] has already been advanced and [*s = 0] stores a second
    NUL after it. *)
Fixpoint safestrcpy_loop (m : mem) (s t : Z) (n : nat) : mem :=
  match n with
  | O => wr m s 0
  | S n =>
      let c := rd m t in
      let m := wr m s c in
      if c =? 0 then wr m (s + 1) 0 else safestrcpy_loop m (s + 1) (t + 1) n
  end.

Definition safestrcpy (m : mem) (s t n : Z) : mem :=
  if n <=? 0 then m else safestrcpy_loop m s t (Z.to_nat (n - 1)).

(** [strlen] scans until a NUL; [fuel] bounds the scan. *)
Fixpoint strlen (m : mem) (s : Z) (fuel : nat) : option Z :=
  match fuel with
  | O => None
  | S fuel =>
      if rd m s =? 0 then Some 0
      else n ← strlen m (s + 1) fuel; Some (n + 1)
  end.

(** * What they do to each byte *)

Lemma rd_stosb m a c cnt b :
  rd (stosb m a c cnt) b = if decide (a <= b < a + Z.of_nat cnt) then u8 c else rd m b.
Proof.
  revert m a. induction cnt as [|n IH]; intros m a; simpl.
  - rewrite decide_False by lia. done.
  - rewrite IH, rd_wr. repeat case_decide; try lia; done.
Qed.

Lemma rd_store32_splat m a c b :
  let v := u32 (Z.lor (Z.lor (Z.lor (Z.shiftl c 24) (Z.shiftl c 16)) (Z.shiftl c 8)) c) in
  0 <= c < 256 ->
  rd (store32 m a v) b = if decide (a <= b < a + 4) then c else rd m b.
Proof.
  intros v Hc.
  assert (Hv : v = c * 2 ^ 24 + c * 2 ^ 16 + c * 2 ^ 8 + c).
  { unfold v. rewrite !Z.shiftl_mul_pow2 by lia.
    rewrite (lor_aligned_add (c * 2 ^ 24) (c * 2 ^ 16) 24) by (rewrite ?Z.mod_mul; lia).
    rewrite (lor_aligned_add _ (c * 2 ^ 8) 16); [|lia|zdiv|lia].
    rewrite (lor_aligned_add _ c 8); [|lia|zdiv|lia].
    apply u32_id. lia. }
  case_decide as Hb; [|by apply rd_store32_ne].
  unfold store32. rewrite !rd_wr. unfold u8. rewrite Hv.
  change (2 ^ 24) with 16777216. change (2 ^ 16) with 65536. change (2 ^ 8) with 256.
  repeat case_decide; zdiv.
Qed.

Lemma rd_stosl m a c cnt b :
  0 <= c < 256 ->
  rd (stosl m a
        (u32 (Z.lor (Z.lor (Z.lor (Z.shiftl c 24) (Z.shiftl c 16)) (Z.shiftl c 8)) c)) cnt) b
  = if decide (a <= b < a + 4 * Z.of_nat cnt) then c else rd m b.
Proof.
  intros Hc. revert m a. induction cnt as [|n IH]; intros m a; cbn [stosl].
  - rewrite decide_False by lia. done.
  - rewrite IH, rd_store32_splat by done. repeat case_decide; try lia; done.
Qed.

Lemma rd_memset m dst c n b :
  0 <= n -> rd (memset m dst c n) b = if decide (dst <= b < dst + n) then u8 c else rd m b.
Proof.
  intros Hn. unfold memset.
  destruct ((dst mod 4 =? 0) && (n mod 4 =? 0)) eqn:E.
  - apply andb_true_iff in E as [_ E%Z.eqb_eq].
    assert (Hc : Z.land c 0xFF = u8 c).
    { unfold u8. change 0xFF with (Z.ones 8). apply land_low_mask. lia. }
    rewrite Hc, rd_stosl by apply u8_range.
    replace (4 * Z.of_nat (Z.to_nat (n / 4))) with n; [done|].
    rewrite Z2Nat.id by zdiv. zdiv.
  - rewrite rd_stosb, Z2Nat.id by done. done.
Qed.

Lemma rd_move_up m d s n b :
  d <= s \/ s + Z.of_nat n <= d ->
  rd (move_up m d s n) b
  = if decide (d <= b < d + Z.of_nat n) then rd m (b - d + s) else rd m b.
Proof.
  revert m d s. induction n as [|n IH]; intros m d s Hov; cbn [move_up].
  - rewrite decide_False by lia. done.
  - rewrite IH by lia. repeat case_decide; try lia.
    + rewrite rd_wr_ne by lia. f_equal. lia.
    + replace b with d by lia. rewrite rd_wr_eq. replace (d - d + s) with s by lia.
      apply u8_id, rd_range.
    + apply rd_wr_ne. lia.
Qed.

Lemma rd_move_down m d s n b :
  s < d ->
  rd (move_down m d s n) b
  = if decide (d - Z.of_nat n <= b < d) then rd m (b - d + s) else rd m b.
Proof.
  revert m d s. induction n as [|n IH]; intros m d s Hov; cbn [move_down].
  - rewrite decide_False by lia. done.
  - rewrite IH by lia. repeat case_decide; try lia.
    + rewrite rd_wr_ne by lia. f_equal. lia.
    + replace b with (d - 1) by lia. rewrite rd_wr_eq.
      replace (d - 1 - d + s) with (s - 1) by lia. apply u8_id, rd_range.
    + apply rd_wr_ne. lia.
Qed.

Lemma rd_memmove m dst src n b :
  0 <= n ->
  rd (memmove m dst src n) b
  = if decide (dst <= b < dst + n) then rd m (b - dst + src) else rd m b.
Proof.
  intros Hn. unfold memmove. destruct ((src <? dst) && (dst <? src + n)) eqn:E.
  - rewrite rd_move_down by lia. rewrite Z2Nat.id by done.
    repeat case_decide; try lia; try done. f_equal. lia.
  - rewrite rd_move_up; rewrite Z2Nat.id by done; [done|lia].
Qed.

Lemma load32_memset_in m dst n a :
  0 <= n -> dst <= a -> a + 4 <= dst + n -> load32 (memset m dst 0 n) a = 0.
Proof.
  intros. unfold load32. rewrite !rd_memset by done.
  rewrite !decide_True by lia. done.
Qed.

Lemma load32_memset_out m dst c n a :
  0 <= n -> a + 4 <= dst \/ dst + n <= a -> load32 (memset m dst c n) a = load32 m a.
Proof.
  intros. apply load32_ext. intros. rewrite rd_memset by done.
  by rewrite decide_False by lia.
Qed.

Lemma load32_memmove_in m dst src n a :
  0 <= n -> dst <= a -> a + 4 <= dst + n ->
  load32 (memmove m dst src n) a = load32 m (a - dst + src).
Proof.
  intros. unfold load32. rewrite !rd_memmove by done. rewrite !decide_True by lia.
  replace (a + 1 - dst + src) with (a - dst + src + 1) by lia.
  replace (a + 2 - dst + src) with (a - dst + src + 2) by lia.
  replace (a + 3 - dst + src) with (a - dst + src + 3) by lia. done.
Qed.

Lemma load32_memmove_out m dst src n a :
  0 <= n -> a + 4 <= dst \/ dst + n <= a -> load32 (memmove m dst src n) a = load32 m a.
Proof.
  intros. apply load32_ext. intros. rewrite rd_memmove by done.
  by rewrite decide_False by lia.
Qed.
