(* ===== verification/Spinlock.v ===== *)
(** Processors and spin locks: [spinlock.c], [spinlock.h], and the per-CPU
    lookups [mycpu]/[cpuid] of [proc.c].

    [mach] is the part of the machine every kernel function touches: the
    executing processor's flags, the [cpus] array, and the spin locks.  The
    debugging fields of a lock ([name], [pcs]) are not modelled.  Module [SMP]
    interleaves the primitive steps of several processors and shows that a
    lock is held by one of them at a time. *)

From S2P Require Import Prelude Params.
Open Scope Z_scope.
Open Scope xv6_scope.

Definition FL_IF : Z := 0x200.

(** A lock is named by the variable it lives in and, for an array of locks or
    a heap object, an index or address. *)
Abbreviation lockid := (string * Z)%type.

Record spinlock := Spin { locked : Z; lk_cpu : option nat }.
Definition free_lock : spinlock := Spin 0 None.

(** [struct cpu] of [proc.h] (the fields the scheduler and the locks use);
    [cproc] is the index in [ptable.proc] of the running process. *)
Record cpu := Cpu {
  apicid : Z;
  ncli : Z;
  intena : Z;
  cproc : option nat
}.

Record mach := Mach {
  cpus : list cpu;
  lapicid : Z;
  eflags : Z;
  locks : gmap lockid spinlock
}.

Definition set_cpus (x : list cpu) (s : mach) : mach := Mach x (lapicid s) (eflags s) (locks s).
Definition set_eflags (x : Z) (s : mach) : mach := Mach (cpus s) (lapicid s) x (locks s).
Definition set_locks (x : gmap lockid spinlock) (s : mach) : mach :=
  Mach (cpus s) (lapicid s) (eflags s) x.

Definition set_ncli (x : Z) (c : cpu) : cpu := Cpu (apicid c) x (intena c) (cproc c).
Definition set_intena (x : Z) (c : cpu) : cpu := Cpu (apicid c) (ncli c) x (cproc c).
Definition set_cproc (x : option nat) (c : cpu) : cpu := Cpu (apicid c) (ncli c) (intena c) x.

Definition cli (s : mach) : mach := set_eflags (Z.land (eflags s) (Z.lnot FL_IF)) s.
Definition sti (s : mach) : mach := set_eflags (Z.lor (eflags s) FL_IF) s.

(** * Finding the executing processor *)

Fixpoint find_apic (id : Z) (cs : list cpu) (i : nat) : option nat :=
  match cs with
  | [] => None
  | c :: cs => if apicid c =? id then Some i else find_apic id cs (S i)
  end.

Definition mycpu : M mach nat := fun s =>
  if has (eflags s) FL_IF then Panic "mycpu called with interrupts enabled"
  else match find_apic (lapicid s) (cpus s) 0 with
       | Some i => Ok i s
       | None => Panic "unknown apicid"
       end.

Definition cpuid : M mach nat := mycpu.

(** The fields of [mycpu()]. *)
Definition read_cpu : M mach cpu :=
  c <- mycpu ;; fun s =>
  match cpus s !! c with Some x => Ok x s | None => Fault 0 end.

Definition update_cpu (f : cpu -> cpu) : M mach unit :=
  c <- mycpu ;; modify (fun s => set_cpus (alter f c (cpus s)) s).

(** * [pushcli] and [popcli] *)

Definition pushcli : M mach unit :=
  flags <- gets eflags ;;
  modify cli ;;;
  c <- read_cpu ;;
  when (ncli c =? 0) (update_cpu (set_intena (Z.land flags FL_IF))) ;;;
  update_cpu (fun c => set_ncli (ncli c + 1) c).

Definition popcli : M mach unit :=
  flags <- gets eflags ;;
  if has flags FL_IF then panic "popcli - interruptible"
  else
    update_cpu (fun c => set_ncli (ncli c - 1) c) ;;;
    c <- read_cpu ;;
    if ncli c <? 0 then panic "popcli"
    else when ((ncli c =? 0) && negb (intena c =? 0)) (modify sti).

(** * Locks *)

Definition initlock (lk : lockid) : M mach unit :=
  modify (fun s => set_locks (<[lk := free_lock]> (locks s)) s).

Definition read_lock (lk : lockid) : M mach spinlock := fun s =>
  match locks s !! lk with Some l => Ok l s | None => Fault 0 end.

Definition write_lock (lk : lockid) (l : spinlock) : M mach unit :=
  modify (fun s => set_locks (<[lk := l]> (locks s)) s).

(** [xchg(&lk->locked, v)]: returns the old value, atomically. *)
Definition xchg_locked (lk : lockid) (v : Z) : M mach Z :=
  l <- read_lock lk ;;
  write_lock lk (Spin v (lk_cpu l)) ;;;
  ret (locked l).

Definition holding (lk : lockid) : M mach bool :=
  l <- read_lock lk ;;
  if locked l =? 0 then ret false
  else c <- mycpu ;; ret (bool_decide (lk_cpu l = Some c)).

(** [while(xchg(&lk->locked, 1) != 0) ;]: between two attempts the other
    processors run. *)
Fixpoint spin (lk : lockid) (fuel : nat) : M mach unit :=
  match fuel with
  | O => nofuel
  | S fuel =>
      old <- xchg_locked lk 1 ;;
      if old =? 0 then ret tt else switch ;;; spin lk fuel
  end.

(** Attempts followed before the model gives up on a lock that another
    processor never releases. *)
Definition SPINS : nat := 1000.

Definition acquire (lk : lockid) : M mach unit :=
  pushcli ;;;
  h <- holding lk ;;
  if h : bool then panic "acquire"
  else
    spin lk SPINS ;;;
    c <- mycpu ;;
    l <- read_lock lk ;;
    write_lock lk (Spin (locked l) (Some c)).

Definition release (lk : lockid) : M mach unit :=
  h <- holding lk ;;
  if negb h then panic "release"
  else
    l <- read_lock lk ;;
    write_lock lk (Spin (locked l) None) ;;;
    l <- read_lock lk ;;
    write_lock lk (Spin 0 (lk_cpu l)) ;;;
    popcli.

#[global] Arguments acquire : simpl never.
#[global] Arguments release : simpl never.
#[global] Arguments holding : simpl never.
#[global] Arguments pushcli : simpl never.
#[global] Arguments popcli : simpl never.

(** * Closed forms on one processor

    [cpu_ok me c s]: the executing processor is [cpus[me]], whose contents are
    [c]; its nesting depth is not negative and interrupts are off whenever it
    is positive. *)

Record cpu_ok (me : nat) (c : cpu) (s : mach) : Prop := {
  ok_apic : find_apic (lapicid s) (cpus s) 0 = Some me;
  ok_cpu : cpus s !! me = Some c;
  ok_ncli : 0 <= ncli c;
  ok_if : 0 < ncli c -> has (eflags s) FL_IF = false
}.

(** The processor after [pushcli]. *)
Definition pushed (flags : Z) (c : cpu) : cpu :=
  set_ncli (ncli c + 1) (if ncli c =? 0 then set_intena (Z.land flags FL_IF) c else c).

(** ... and after the matching [popcli]: only the saved interrupt flag of an
    outermost [pushcli] is left behind. *)
Definition unpushed (flags : Z) (c : cpu) : cpu :=
  if ncli c =? 0 then set_intena (Z.land flags FL_IF) c else c.

Definition push_state (me : nat) (c : cpu) (s : mach) : mach :=
  set_cpus (<[me := pushed (eflags s) c]> (cpus s)) (cli s).

Definition lock_cycle (me : nat) (c : cpu) (s : mach) : mach :=
  set_cpus (<[me := unpushed (eflags s) c]> (cpus s)) s.

Definition acquired (me : nat) (c : cpu) (lk : lockid) (s : mach) : mach :=
  set_locks (<[lk := Spin 1 (Some me)]> (locks s)) (push_state me c s).

Lemma has_cli s : has (eflags (cli s)) FL_IF = false.
Proof.
  unfold has, cli, set_eflags; simpl.
  rewrite <- Z.land_assoc. change (Z.land (Z.lnot FL_IF) FL_IF) with 0.
  by rewrite Z.land_0_r.
Qed.

Lemma cli_off s : has (eflags s) FL_IF = false -> cli s = s.
Proof.
  destruct s as [cs l e lk]. unfold has, cli, set_eflags, FL_IF. simpl. intros H.
  apply negb_false_iff, Z.eqb_eq in H. f_equal.
  apply Z.bits_inj'. intros n Hn. rewrite Z.land_spec, Z.lnot_spec by done.
  destruct (Z.eq_dec n 9) as [->|Hne].
  - pose proof (f_equal (fun z => Z.testbit z 9) H) as Hb. cbv beta in Hb.
    rewrite Z.land_spec, Z.bits_0 in Hb. change (Z.testbit 0x200 9) with true in *.
    rewrite andb_true_r in Hb. by rewrite Hb.
  - change 0x200 with (2 ^ 9). rewrite Z.pow2_bits_false by lia. by rewrite andb_true_r.
Qed.

Lemma sti_cli s : has (eflags s) FL_IF = true -> sti (cli s) = s.
Proof.
  destruct s as [cs l e lk]. unfold has, sti, cli, set_eflags, FL_IF. simpl. intros H.
  apply negb_true_iff, Z.eqb_neq in H. f_equal.
  apply Z.bits_inj'. intros n Hn. rewrite Z.lor_spec, Z.land_spec, Z.lnot_spec by done.
  change 0x200 with (2 ^ 9) in *.
  destruct (Z.eq_dec n 9) as [->|Hne].
  - rewrite Z.pow2_bits_true by lia. rewrite orb_true_r. symmetry.
    destruct (Z.testbit e 9) eqn:E; [done|]. destruct H.
    apply Z.bits_inj'. intros k Hk. rewrite Z.land_spec, Z.bits_0.
    destruct (Z.eq_dec k 9) as [->|]; [by rewrite E|].
    rewrite Z.pow2_bits_false by lia. apply andb_false_r.
  - rewrite Z.pow2_bits_false by lia. by rewrite andb_true_r, orb_false_r.
Qed.

Lemma find_apic_insert id cs k i c c' :
  cs !! i = Some c -> apicid c' = apicid c ->
  find_apic id (<[i := c']> cs) k = find_apic id cs k.
Proof.
  revert k i. induction cs as [|x cs IH]; intros k [|i] Hi Ha; simplify_eq/=; [|].
  - by rewrite Ha.
  - by rewrite (IH (S k) i).
Qed.

Section one_cpu.
Context (me : nat) (c : cpu) (s : mach) (Hok : cpu_ok me c s).

Lemma mycpu_ok : has (eflags s) FL_IF = false -> mycpu s = Ok me s.
Proof. intros E. unfold mycpu. by rewrite E, (ok_apic _ _ _ Hok). Qed.

Lemma read_cpu_ok : has (eflags s) FL_IF = false -> read_cpu s = Ok c s.
Proof.
  intros E. unfold read_cpu. rewrite (bind_ok _ _ _ _ _ (mycpu_ok E)).
  by rewrite (ok_cpu _ _ _ Hok).
Qed.

Lemma me_lt : (me < length (cpus s))%nat.
Proof. apply lookup_lt_Some with c, (ok_cpu _ _ _ Hok). Qed.

Lemma update_cpu_ok f :
  has (eflags s) FL_IF = false ->
  update_cpu f s = Ok tt (set_cpus (<[me := f c]> (cpus s)) s).
Proof.
  intros E. unfold update_cpu. rewrite (bind_ok _ _ _ _ _ (mycpu_ok E)).
  unfold modify. do 2 f_equal. apply list_eq. intros i.
  rewrite list_lookup_alter. case_decide as Hi; [rewrite <- Hi|].
  - rewrite (ok_cpu _ _ _ Hok). simpl. by rewrite list_lookup_insert_eq by apply me_lt.
  - by rewrite list_lookup_insert_ne.
Qed.
End one_cpu.

(** Replacing the processor's record by one with the same APIC id keeps it the
    executing processor. *)
Lemma cpu_ok_set me c c' s :
  cpu_ok me c s -> apicid c' = apicid c -> 0 <= ncli c' ->
  (0 < ncli c' -> has (eflags s) FL_IF = false) ->
  cpu_ok me c' (set_cpus (<[me := c']> (cpus s)) s).
Proof.
  intros H Ha Hn Hif. split; simpl; [|by apply list_lookup_insert_eq, (me_lt me c)|done..].
  rewrite (find_apic_insert _ _ _ _ c); [apply H|apply H|done].
Qed.

Lemma cpu_ok_cli me c s : cpu_ok me c s -> cpu_ok me c (cli s).
Proof. intros H. split; [apply H..|]. intros. apply has_cli. Qed.

Lemma cpu_ok_locks me c s x : cpu_ok me c s -> cpu_ok me c (set_locks x s).
Proof. intros H. split; apply H. Qed.

Lemma set_cpus_cpus me (c c' : cpu) s :
  set_cpus (<[me := c]> (<[me := c']> (cpus s))) s = set_cpus (<[me := c]> (cpus s)) s.
Proof. by rewrite list_insert_insert_eq. Qed.

Lemma push_state_ok me c s : cpu_ok me c s -> cpu_ok me (pushed (eflags s) c) (push_state me c s).
Proof.
  intros H. unfold push_state. pose proof (ok_ncli _ _ _ H).
  apply (cpu_ok_set me c _ (cli s)); [by apply cpu_ok_cli| | |intros; apply has_cli];
    unfold pushed; destruct (ncli c =? 0); simpl; first [done|lia].
Qed.

Lemma pushcli_ok me c s : cpu_ok me c s -> pushcli s = Ok tt (push_state me c s).
Proof.
  intros H. pose proof (cpu_ok_cli _ _ _ H) as H1. pose proof (has_cli s) as E.
  unfold pushcli. rewrite (bind_ok _ _ s (eflags s) s) by done.
  rewrite (bind_ok _ _ s tt (cli s)) by done.
  rewrite (bind_ok _ _ _ _ _ (read_cpu_ok _ _ _ H1 E)).
  unfold push_state, pushed. destruct (ncli c =? 0) eqn:En; unfold when.
  - rewrite (bind_ok _ _ _ _ _ (update_cpu_ok _ _ _ H1 _ E)).
    rewrite (update_cpu_ok me (set_intena (Z.land (eflags s) FL_IF) c)); [|
      apply (cpu_ok_set me c _ (cli s)); [done|done|apply H|apply H1]|done].
    simpl. by rewrite list_insert_insert_eq.
  - rewrite (bind_ok _ _ _ tt (cli s)) by done. by rewrite (update_cpu_ok _ _ _ H1).
Qed.

Lemma popcli_push me c s :
  cpu_ok me c s -> popcli (push_state me c s) = Ok tt (lock_cycle me c s).
Proof.
  intros H. pose proof (push_state_ok _ _ _ H) as H1. pose proof (has_cli s) as E.
  pose proof (ok_ncli _ _ _ H) as Hn. pose proof (ok_if _ _ _ H) as Hif.
  unfold popcli. rewrite (bind_ok _ _ _ (eflags (cli s)) (push_state me c s)) by done.
  rewrite E. set (c2 := set_ncli (ncli (pushed (eflags s) c) - 1) (pushed (eflags s) c)).
  assert (Hc2 : c2 = unpushed (eflags s) c).
  { unfold c2, unpushed, pushed, set_ncli, set_intena.
    destruct c as [a n i p]; cbn [ncli]. destruct (n =? 0); cbn; f_equal; lia. }
  rewrite (bind_ok _ _ _ _ _ (update_cpu_ok _ _ _ H1 _ E)). simpl. fold c2.
  unfold push_state at 1; simpl. rewrite list_insert_insert_eq.
  assert (H2 : cpu_ok me c2 (set_cpus (<[me := c2]> (cpus s)) (cli s))).
  { apply (cpu_ok_set me c _ (cli s)); [by apply cpu_ok_cli| | |intros; apply has_cli];
      rewrite Hc2; unfold unpushed; destruct (ncli c =? 0); simpl; done. }
  change (set_cpus (<[me:=c2]> (cpus s)) (push_state me c s))
    with (set_cpus (<[me:=c2]> (cpus s)) (cli s)).
  rewrite (bind_ok _ _ _ _ _ (read_cpu_ok _ _ _ H2 E)).
  assert (Hn2 : ncli c2 = ncli c).
  { rewrite Hc2. unfold unpushed. by destruct (ncli c =? 0). }
  rewrite Hn2. rewrite (proj2 (Z.ltb_ge _ _)) by lia.
  unfold lock_cycle. rewrite Hc2. unfold when, unpushed. destruct (Z.eqb_spec (ncli c) 0); simpl.
  - destruct (Z.land (eflags s) FL_IF =? 0) eqn:Ef; simpl.
    + rewrite cli_off; [done|]. unfold has. by rewrite Ef.
    + unfold modify. f_equal. transitivity
        (set_cpus (<[me:=set_intena (Z.land (eflags s) FL_IF) c]> (cpus s)) (sti (cli s)));
        [done|]. rewrite sti_cli; [done|]. unfold has. by rewrite Ef.
  - rewrite cli_off; [done|]. apply Hif. lia.
Qed.

Lemma holding_free lk s : locks s !! lk = Some free_lock -> holding lk s = Ok false s.
Proof.
  intros H. unfold holding. rewrite (bind_ok _ _ s free_lock s); [done|].
  unfold read_lock. by rewrite H.
Qed.

Lemma spin_free lk n s :
  locks s !! lk = Some free_lock ->
  spin lk (S n) s = Ok tt (set_locks (<[lk := Spin 1 None]> (locks s)) s).
Proof.
  intros H. cbn [spin]. unfold xchg_locked, read_lock, write_lock, bind. by rewrite H.
Qed.

#[global] Arguments spin : simpl never.

Lemma acquire_free me c lk s :
  cpu_ok me c s -> locks s !! lk = Some free_lock ->
  acquire lk s = Ok tt (acquired me c lk s).
Proof.
  intros H Hl. pose proof (push_state_ok _ _ _ H) as H1.
  assert (Hl1 : locks (push_state me c s) !! lk = Some free_lock) by done.
  unfold acquire. rewrite (bind_ok _ _ _ _ _ (pushcli_ok _ _ _ H)).
  rewrite (bind_ok _ _ _ _ _ (holding_free _ _ Hl1)).
  change SPINS with (S 999). rewrite (bind_ok _ _ _ _ _ (spin_free _ _ _ Hl1)).
  rewrite (bind_ok _ _ _ me (set_locks (<[lk := Spin 1 None]> (locks s)) (push_state me c s)));
    [|apply (mycpu_ok me (pushed (eflags s) c)); [by apply cpu_ok_locks|apply has_cli]].
  unfold read_lock, write_lock, modify, bind, acquired, push_state, set_locks; simpl.
  rewrite lookup_insert_eq. simpl. by rewrite insert_insert_eq.
Qed.

Lemma release_acquired me c lk s :
  cpu_ok me c s -> locks s !! lk = Some free_lock ->
  release lk (acquired me c lk s) = Ok tt (lock_cycle me c s).
Proof.
  intros H Hl. pose proof (push_state_ok _ _ _ H) as H1.
  assert (Hh : holding lk (acquired me c lk s) = Ok true (acquired me c lk s)).
  { unfold holding, read_lock, bind. simpl. rewrite lookup_insert_eq. simpl.
    rewrite (mycpu_ok me (pushed (eflags s) c)); [|by apply cpu_ok_locks|apply has_cli].
    simpl. by rewrite bool_decide_eq_true_2. }
  unfold release. rewrite (bind_ok _ _ _ _ _ Hh).
  unfold read_lock, write_lock, modify, bind, set_locks. simpl. rewrite lookup_insert_eq. simpl.
  rewrite lookup_insert_eq. simpl. rewrite !insert_insert_eq.
  rewrite insert_id by done. rewrite <- (popcli_push me c s H). done.
Qed.

(** Locks and interrupt state are untouched by a critical section, except for
    the [intena] a process saves when it is the outermost one. *)
Lemma lock_cycle_locks me c s : locks (lock_cycle me c s) = locks s.
Proof. done. Qed.

Lemma lock_cycle_eflags me c s : eflags (lock_cycle me c s) = eflags s.
Proof. done. Qed.

Lemma lock_cycle_ok me c s :
  cpu_ok me c s -> cpu_ok me (unpushed (eflags s) c) (lock_cycle me c s).
Proof.
  intros H. apply (cpu_ok_set me c); [done|..]; unfold unpushed;
    destruct (ncli c =? 0); first [done|apply H].
Qed.

Lemma unpushed_ncli e c : ncli (unpushed e c) = ncli c.
Proof. unfold unpushed. by destruct (ncli c =? 0). Qed.

Lemma unpushed_cproc e c : cproc (unpushed e c) = cproc c.
Proof. unfold unpushed. by destruct (ncli c =? 0). Qed.

(** * Several processors

    The states a processor goes through in [acquire] and [release], split at
    the accesses other processors can observe.  The lock word and the owner
    field are changed by separate instructions. *)

Module SMP.

Inductive pc :=
| Out           (* before [acquire] *)
| Spinning      (* past the [holding] check, in the [xchg] loop *)
| Got           (* [xchg] returned 0; [lk->cpu] not yet written *)
| Inside        (* [acquire] has returned: the critical section *)
| Cleared.      (* in [release]: [lk->cpu = 0] done, [locked] still 1 *)

#[global] Instance pc_eq_dec : EqDecision pc.
Proof. solve_decision. Defined.

Record smp := Smp { lock : spinlock; pcs : list pc }.

Definition holds (s : spinlock) (i : nat) : bool :=
  negb (locked s =? 0) && bool_decide (lk_cpu s = Some i).

Inductive step : smp -> smp -> Prop :=
| step_check l ps i :
    ps !! i = Some Out -> holds l i = false ->
    step (Smp l ps) (Smp l (<[i := Spinning]> ps))
| step_xchg_busy l ps i :
    ps !! i = Some Spinning -> locked l <> 0 ->
    step (Smp l ps) (Smp (Spin 1 (lk_cpu l)) ps)
| step_xchg_free l ps i :
    ps !! i = Some Spinning -> locked l = 0 ->
    step (Smp l ps) (Smp (Spin 1 (lk_cpu l)) (<[i := Got]> ps))
| step_owner l ps i :
    ps !! i = Some Got ->
    step (Smp l ps) (Smp (Spin (locked l) (Some i)) (<[i := Inside]> ps))
| step_clear l ps i :
    ps !! i = Some Inside -> holds l i = true ->
    step (Smp l ps) (Smp (Spin (locked l) None) (<[i := Cleared]> ps))
| step_unlock l ps i :
    ps !! i = Some Cleared ->
    step (Smp l ps) (Smp (Spin 0 (lk_cpu l)) (<[i := Out]> ps)).

Definition init (n : nat) : smp := Smp free_lock (replicate n Out).

Definition busy (p : pc) : bool :=
  match p with Got | Inside | Cleared => true | _ => false end.

(** Nobody has the lock and it is free, or one processor [i] has it, the
    word is 1, and the owner field names [i] exactly while it is inside. *)
Definition inv (s : smp) : Prop :=
  (lock s = free_lock /\ forall i p, pcs s !! i = Some p -> busy p = false)
  \/ exists i p, pcs s !! i = Some p /\ busy p = true
      /\ lock s = Spin 1 (if decide (p = Inside) then Some i else None)
      /\ forall j q, pcs s !! j = Some q -> busy q = true -> j = i.

Lemma inv_init n : inv (init n).
Proof. left. split; [done|]. intros i p H. by apply lookup_replicate in H as [-> _]. Qed.

Lemma inv_step s s' : step s s' -> inv s -> inv s'.
Proof.
  destruct 1 as [l ps i Hi Hh|l ps i Hi Hb|l ps i Hi Hf|l ps i Hi|l ps i Hi Hh|l ps i Hi];
    intros [[Hl Hn]|(k & p & Hk & Hp & Hl & Hu)]; simpl in *;
    try (specialize (Hn _ _ Hi); discriminate Hn).
  - left. split; [done|]. intros j q Hj. simpl in Hj. rewrite list_lookup_insert in Hj.
    case_decide; simplify_eq; [done|eauto].
  - right. exists k, p. cbn [lock pcs locked lk_cpu]. assert (i <> k) by (intros ->; simplify_eq).
    split_and!; [by rewrite list_lookup_insert_ne|done|done|].
    intros j q Hj Hq. simpl in Hj. rewrite list_lookup_insert in Hj. case_decide; simplify_eq. eauto.
  - by rewrite Hl in Hb.
  - right. exists k, p. cbn [lock pcs locked lk_cpu]. rewrite Hl. eauto.
  - right. exists i, Got. cbn [lock pcs locked lk_cpu]. rewrite Hl. split_and!; [|done|done|].
    + apply list_lookup_insert_eq. by eapply lookup_lt_Some.
    + intros j q Hj Hq. simpl in Hj. rewrite list_lookup_insert in Hj. case_decide; [by destruct_and?|].
      by rewrite (Hn _ _ Hj) in Hq.
  - by rewrite Hl in Hf.
  - assert (i = k) as -> by (by eapply (Hu _ _ Hi)). simplify_eq.
    right. exists k, Inside. cbn [lock pcs locked lk_cpu]. split_and!; [|done|done|].
    + apply list_lookup_insert_eq. by eapply lookup_lt_Some.
    + intros j q Hj Hq. simpl in Hj. rewrite list_lookup_insert in Hj. case_decide; [by destruct_and?|eauto].
  - assert (i = k) as -> by (by eapply (Hu _ _ Hi)). simplify_eq.
    right. exists k, Cleared. cbn [lock pcs locked lk_cpu]. split_and!; [|done|done|].
    + apply list_lookup_insert_eq. by eapply lookup_lt_Some.
    + intros j q Hj Hq. simpl in Hj. rewrite list_lookup_insert in Hj. case_decide; [by destruct_and?|eauto].
  - assert (i = k) as -> by (by eapply (Hu _ _ Hi)). simplify_eq. left. split; [done|].
    intros j q Hj. simpl in Hj. rewrite list_lookup_insert in Hj. case_decide as Hc; [by destruct_and?; simplify_eq|].
    destruct (busy q) eqn:Hq; [|done]. pose proof (Hu _ _ Hj Hq) as ->.
    destruct Hc. split; [done|by eapply lookup_lt_Some].
Qed.

Lemma inv_reachable n s : rtc step (init n) s -> inv s.
Proof.
  intros H. remember (init n) as s0 eqn:E.
  assert (H0 : inv s0) by (subst; apply inv_init). clear E. revert H0.
  induction H; eauto using inv_step.
Qed.

(** C26: Mutual exclusion: in every reachable interleaving two processors are
    never both inside the critical section, and [holding] is exact there. *)
Theorem mutual_exclusion n s i j :
  rtc step (init n) s ->
  pcs s !! i = Some Inside -> pcs s !! j = Some Inside -> i = j /\ holds (lock s) i = true.
Proof.
  intros Hr Hi Hj. destruct (inv_reachable _ _ Hr) as [[_ Hn]|(k & p & Hk & Hp & Hl & Hu)].
  - specialize (Hn _ _ Hi). discriminate Hn.
  - assert (i = k) as -> by (by eapply (Hu _ _ Hi)).
    assert (j = k) as -> by (by eapply (Hu _ _ Hj)). simplify_eq. split; [done|].
    rewrite Hl. unfold holds. simpl. by rewrite bool_decide_eq_true_2.
Qed.

(** Processor 1 of two takes the lock while processor 0 spins. *)
Definition contended : smp := Smp (Spin 1 (Some 1%nat)) [Spinning; Inside].

Lemma contended_reachable : rtc step (init 2) contended.
Proof.
  eapply rtc_l; [by apply (step_check _ _ 0)|].
  eapply rtc_l; [by apply (step_check _ _ 1)|].
  eapply rtc_l; [by apply (step_xchg_free _ _ 1)|].
  eapply rtc_l; [by apply (step_xchg_busy _ _ 0)|].
  apply rtc_once. exact (step_owner (Spin 1 None) [Spinning; Got] 1 eq_refl).
Qed.

Lemma mutual_exclusion_witness : holds (lock contended) 1 = true.
Proof. apply (mutual_exclusion 2 contended 1 1 contended_reachable eq_refl eq_refl). Defined.

(** No processor is ever stopped by the [panic] in [acquire] or in
    [release]: the [holding] tests never misjudge who has the lock. *)
Theorem no_lock_panic n s i p :
  rtc step (init n) s -> pcs s !! i = Some p ->
  (p = Out -> holds (lock s) i = false) /\ (p = Inside -> holds (lock s) i = true).
Proof.
  intros Hr Hi. destruct (inv_reachable _ _ Hr) as [[Hl Hn]|(k & q & Hk & Hq & Hl & Hu)].
  - specialize (Hn _ _ Hi). split; intros ->; [by rewrite Hl|done].
  - split; intros ->.
    + rewrite Hl. unfold holds; simpl. apply bool_decide_eq_false_2.
      case_decide; intros [=->]. by simplify_eq.
    + assert (i = k) as -> by (by eapply (Hu _ _ Hi)). simplify_eq.
      rewrite Hl. unfold holds. simpl. by rewrite bool_decide_eq_true_2.
Qed.
End SMP.

(** * Machines that differ only in saved interrupt flags

    [intena] is a scratch field: it is rewritten by the next outermost
    [pushcli] and read only by the [popcli] that matches it. *)

Definition mach_equiv (s s' : mach) : Prop :=
  lapicid s = lapicid s' /\ eflags s = eflags s' /\ locks s = locks s'
  /\ set_intena 0 <$> cpus s = set_intena 0 <$> cpus s'.

#[global] Instance mach_equiv_equivalence : Equivalence mach_equiv.
Proof.
  split.
  - intros s. by repeat split.
  - intros s s' (? & ? & ? & ?). by repeat split.
  - intros s1 s2 s3 (? & ? & ? & ?) (? & ? & ? & ?). repeat split; congruence.
Qed.

(** The executing processor exists and follows the interrupt discipline. *)
Definition sane (s : mach) : Prop := exists me c, cpu_ok me c s.

Lemma find_apic_intena id cs cs' k :
  set_intena 0 <$> cs = set_intena 0 <$> cs' -> find_apic id cs k = find_apic id cs' k.
Proof.
  revert cs' k. induction cs as [|c cs IH]; intros [|c' cs'] k H; try discriminate; [done|].
  simpl in *. injection H as Ha Hn Hp Ht. rewrite Ha. by rewrite (IH _ _ Ht).
Qed.

Lemma cpu_ok_equiv me c s s' :
  mach_equiv s s' -> cpu_ok me c s ->
  exists c', cpu_ok me c' s' /\ set_intena 0 c' = set_intena 0 c.
Proof.
  intros (Hl & He & Hk & Hc) H.
  pose proof (f_equal (fun l => l !! me) Hc) as Hm. cbv beta in Hm.
  rewrite !list_lookup_fmap, (ok_cpu _ _ _ H) in Hm.
  destruct (cpus s' !! me) as [c'|] eqn:E; [|discriminate].
  injection Hm as Ha Hn Hp. exists c'. split.
  - split; [rewrite <- Hl, <- (find_apic_intena _ _ _ _ Hc); apply H|done| |].
    + rewrite <- Hn. apply H.
    + rewrite <- Hn, <- He. apply H.
  - unfold set_intena. congruence.
Qed.

#[global] Instance sane_proper : Proper (mach_equiv ==> iff) sane.
Proof.
  intros s s' E. split; intros (me & c & H).
  - destruct (cpu_ok_equiv _ _ _ _ E H) as (c' & ? & _). by exists me, c'.
  - symmetry in E. destruct (cpu_ok_equiv _ _ _ _ E H) as (c' & ? & _). by exists me, c'.
Qed.

Lemma lock_cycle_equiv me c s : cpu_ok me c s -> mach_equiv (lock_cycle me c s) s.
Proof.
  intros H. repeat split; try done. unfold lock_cycle; simpl.
  rewrite list_fmap_insert. apply list_insert_id.
  rewrite list_lookup_fmap, (ok_cpu _ _ _ H). simpl. f_equal.
  unfold unpushed, set_intena. by destruct (ncli c =? 0).
Qed.

(** A lock that nobody holds. *)
Definition unlocked (lk : lockid) (s : mach) : Prop := locks s !! lk = Some free_lock.

#[global] Instance unlocked_proper lk : Proper (mach_equiv ==> iff) (unlocked lk).
Proof. intros s s' (_ & _ & H & _). unfold unlocked. by rewrite H. Qed.

(** Entering and leaving a critical section on a free lock: both calls return
    and together change nothing but saved interrupt flags. *)
Lemma critical_section lk s :
  sane s -> unlocked lk s ->
  exists s1 s2, acquire lk s = Ok tt s1 /\ release lk s1 = Ok tt s2 /\ mach_equiv s2 s.
Proof.
  intros (me & c & H) Hl. exists (acquired me c lk s), (lock_cycle me c s).
  split_and!; [by apply acquire_free|by apply release_acquired|by apply lock_cycle_equiv].
Qed.

(** Clients reason with the closed forms only. *)
#[global] Opaque acquire release.
