(* ===== verification/Kalloc.v ===== *)
(** The physical page allocator, [kalloc.c].

    Free pages form a linked list threaded through their own first word
    ([struct run]).  The lemmas relate it to a list of distinct pages. *)

From S2P Require Import Prelude Params Mem Spinlock.
Open Scope Z_scope.
Open Scope xv6_scope.

Definition kmem_lock : lockid := ("kmem"%string, 0).

(** The machine, physical memory and the globals of [kmem]. *)
Record kst := Kst {
  k_mach : mach;
  k_mem : mem;
  use_lock : bool;
  freelist : Z
}.

Definition set_kmach (x : mach) (s : kst) : kst := Kst x (k_mem s) (use_lock s) (freelist s).
Definition set_kmem (x : mem) (s : kst) : kst := Kst (k_mach s) x (use_lock s) (freelist s).
Definition set_use_lock (x : bool) (s : kst) : kst := Kst (k_mach s) (k_mem s) x (freelist s).
Definition set_freelist (x : Z) (s : kst) : kst := Kst (k_mach s) (k_mem s) (use_lock s) x.

#[global, program] Instance kst_mach : Lens kst mach := {|
  view := k_mach; put := set_kmach |}.
Next Obligation. done. Qed.
Next Obligation. by intros []. Qed.
Next Obligation. done. Qed.

(** * Kernel pointers

    The kernel dereferences pointers into the direct map
    [KERNBASE, KERNBASE+PHYSTOP); any other address faults. *)

Definition kaddr_ok (p n : Z) : bool := (KERNBASE <=? p) && (p + n <=? KERNBASE + PHYSTOP).

Definition kload (p : Z) : M kst Z := fun s =>
  if kaddr_ok p 4 then Ok (load32 (k_mem s) (V2P p)) s else Fault p.

Definition kstore (p v : Z) : M kst unit := fun s =>
  if kaddr_ok p 4 then Ok tt (set_kmem (store32 (k_mem s) (V2P p) v) s) else Fault p.

Definition kmemset (p c n : Z) : M kst unit := fun s =>
  if kaddr_ok p n then Ok tt (set_kmem (memset (k_mem s) (V2P p) c n) s) else Fault p.

Definition kmemmove (d p n : Z) : M kst unit := fun s =>
  if kaddr_ok d n then
    if kaddr_ok p n then Ok tt (set_kmem (memmove (k_mem s) (V2P d) (V2P p) n) s)
    else Fault p
  else Fault d.

Section kalloc.
Context `{Layout}.

(** [if(kmem.use_lock) acquire(&kmem.lock)], and the same for [release]. *)
Definition lock_kmem : M kst unit :=
  l <- gets use_lock ;; when l (lift (acquire kmem_lock)).
Definition unlock_kmem : M kst unit :=
  l <- gets use_lock ;; when l (lift (release kmem_lock)).

Definition kfree (v : Z) : M kst unit :=
  if negb (v mod PGSIZE =? 0) || (v <? end_) || (PHYSTOP <=? V2P v) then panic "kfree"
  else
    kmemset v 1 PGSIZE ;;;
    lock_kmem ;;;
    next <- gets freelist ;;
    kstore v next ;;;
    modify (set_freelist v) ;;;
    unlock_kmem.

Definition kalloc : M kst Z :=
  lock_kmem ;;;
  r <- gets freelist ;;
  when (negb (r =? 0)) (next <- kload r ;; modify (set_freelist next)) ;;;
  unlock_kmem ;;;
  ret r.

Fixpoint freerange_loop (p vend : Z) (fuel : nat) : M kst unit :=
  match fuel with
  | O => nofuel
  | S fuel =>
      if p + PGSIZE <=? vend then kfree p ;;; freerange_loop (p + PGSIZE) vend fuel
      else ret tt
  end.

Definition freerange (vstart vend : Z) : M kst unit :=
  let p := PGROUNDUP vstart in
  freerange_loop p vend (S (Z.to_nat ((vend - p) / PGSIZE))).

Definition kinit1 (vstart vend : Z) : M kst unit :=
  lift (initlock kmem_lock) ;;;
  modify (set_use_lock false) ;;;
  freerange vstart vend.

Definition kinit2 (vstart vend : Z) : M kst unit :=
  freerange vstart vend ;;;
  modify (set_use_lock true).

(** * The free list as a list of pages *)

(** A page [kfree] accepts. *)
Record page_ok (v : Z) : Prop := {
  page_aligned : v mod PGSIZE = 0;
  page_lo : end_ <= v;
  page_hi : v < KERNBASE + PHYSTOP
}.

Lemma page_bounds v : page_ok v -> KERNBASE <= v < 2 ^ 32 /\ V2P v = v - KERNBASE /\ 0 <= V2P v < PHYSTOP.
Proof.
  intros [Ha Hl Hh]. pose proof data_after_text. pose proof data_before_end.
  unfold KERNLINK, PHYSTOP, KERNBASE, EXTMEM in *.
  rewrite V2P_eq by (unfold KERNBASE; lia). unfold KERNBASE. lia.
Qed.

Lemma page_kaddr v i n :
  page_ok v -> 0 <= i -> i + n <= PGSIZE -> kaddr_ok (v + i) n = true.
Proof.
  intros Hv Hi Hn. destruct (page_bounds v Hv) as (? & ? & ?).
  pose proof (page_aligned v Hv). pose proof (page_hi v Hv). unfold kaddr_ok.
  unfold KERNBASE, PHYSTOP, PGSIZE in *. rewrite andb_true_iff, !Z.leb_le. zdiv.
Qed.

Lemma page_kaddr0 v n : page_ok v -> n <= PGSIZE -> kaddr_ok v n = true.
Proof. intros. rewrite <- (Z.add_0_r v). by apply page_kaddr. Qed.

Lemma page_nonzero v : page_ok v -> v <> 0.
Proof. intros Hv. pose proof (page_bounds v Hv). unfold KERNBASE in *. lia. Qed.

Fixpoint chain (m : mem) (head : Z) (l : list Z) : Prop :=
  match l with
  | [] => head = 0
  | v :: l => head = v /\ page_ok v /\ chain m (load32 m (V2P v)) l
  end.

Record free_list (s : kst) (l : list Z) : Prop := {
  fl_chain : chain (k_mem s) (freelist s) l;
  fl_nodup : NoDup l
}.

(** The caller may take [kmem.lock]. *)
Definition kready (s : kst) : Prop :=
  sane (k_mach s) /\ (use_lock s = true -> unlocked kmem_lock (k_mach s)).

(** Two pages either coincide or share no byte. *)
Lemma pages_disjoint v w :
  page_ok v -> page_ok w -> v <> w -> V2P v + PGSIZE <= V2P w \/ V2P w + PGSIZE <= V2P v.
Proof.
  intros Hv Hw Hne. destruct (page_bounds v Hv) as (? & -> & ?).
  destruct (page_bounds w Hw) as (? & -> & ?).
  pose proof (page_aligned v Hv). pose proof (page_aligned w Hw).
  unfold PGSIZE in *. zdiv.
Qed.

Lemma chain_pages m head l : chain m head l -> Forall page_ok l.
Proof. revert head. induction l; intros head; simpl; [done|]. intros (_ & ? & ?). eauto. Qed.

(** The list survives any change of memory outside its own pages. *)
Lemma chain_ext m m' head l :
  (forall v, v ∈ l -> load32 m' (V2P v) = load32 m (V2P v)) ->
  chain m head l -> chain m' head l.
Proof.
  revert head. induction l as [|v l IH]; intros head Hm; simpl; [done|].
  intros (-> & Hv & Hc). rewrite Hm by set_solver. split_and!; [done..|].
  apply IH; [|done]. intros w Hw. apply Hm. set_solver.
Qed.

(** [m'] agrees with [m] outside the page [v]. *)
Definition only_page (v : Z) (m m' : mem) : Prop :=
  forall a, ~ (V2P v <= a < V2P v + PGSIZE) -> rd m' a = rd m a.

Lemma only_page_load v m m' a :
  only_page v m m' -> a + 4 <= V2P v \/ V2P v + PGSIZE <= a -> load32 m' a = load32 m a.
Proof. intros Ho Ha. apply load32_ext. intros i Hi. apply Ho. lia. Qed.

Lemma only_page_chain v m m' head l :
  page_ok v -> v ∉ l -> only_page v m m' -> chain m head l -> chain m' head l.
Proof.
  intros Hv Hl Ho Hc. eapply chain_ext; [|done]. intros w Hw.
  pose proof (chain_pages _ _ _ Hc) as Hp. rewrite Forall_forall in Hp.
  eapply only_page_load; [done|].
  destruct (pages_disjoint v w) as [Hd|Hd]; [done|by apply Hp|set_solver|..];
    unfold PGSIZE in *; lia.
Qed.

(** * What [kalloc] and [kfree] do *)

Lemma lock_kmem_ok s :
  kready s ->
  exists m1, lock_kmem s = Ok tt (set_kmach m1 s)
    /\ forall s2, k_mach s2 = m1 -> use_lock s2 = use_lock s ->
         exists m2, unlock_kmem s2 = Ok tt (set_kmach m2 s2) /\ mach_equiv m2 (k_mach s).
Proof.
  intros [Hs Hl]. unfold lock_kmem, unlock_kmem, bind, gets, when; cbn [seqr].
  destruct (use_lock s) eqn:El.
  - destruct (critical_section kmem_lock (k_mach s)) as (m1 & m2 & Ha & Hr & He); [auto..|].
    exists m1. split; [by rewrite (lift_ok _ s _ _ Ha)|].
    intros s2 <- Hu. exists m2. rewrite Hu. split; [|done].
    by rewrite (lift_ok _ s2 _ _ Hr).
  - exists (k_mach s). split; [by destruct s|]. intros s2 Hm Hu. exists (k_mach s2).
    rewrite Hu. split; [by destruct s2|by rewrite Hm].
Qed.

(** The state [kalloc] leaves: one page taken off the list. *)
Definition popped (s : kst) : kst :=
  if freelist s =? 0 then s
  else set_freelist (load32 (k_mem s) (V2P (freelist s))) s.

Lemma kalloc_eq s :
  kready s -> freelist s = 0 \/ page_ok (freelist s) ->
  exists m, kalloc s = Ok (freelist s) (set_kmach m (popped s)) /\ mach_equiv m (k_mach s).
Proof.
  intros Hk Hf. destruct (lock_kmem_ok s Hk) as (m1 & E1 & E2). unfold kalloc.
  rewrite (bind_ok _ _ _ _ _ E1). unfold bind, gets, modify, when, popped, kload; simpl.
  destruct (Z.eqb_spec (freelist s) 0) as [E|E]; simpl;
    [|destruct Hf as [|Hf]; [done|]; rewrite (page_kaddr0 _ _ Hf) by done; simpl];
    (edestruct E2 as (m2 & -> & He); [done|done|]; exists m2; split; [done|done]).
Qed.

(** The state [kfree v] leaves: the page is filled with 1s, except for its
    first word, which links it in front of the list. *)
Definition pushed_page (v : Z) (s : kst) : kst :=
  set_freelist v
    (set_kmem (store32 (memset (k_mem s) (V2P v) 1 PGSIZE) (V2P v) (freelist s)) s).

Lemma kfree_eq v s :
  kready s -> page_ok v ->
  exists m, kfree v s = Ok tt (set_kmach m (pushed_page v s)) /\ mach_equiv m (k_mach s).
Proof.
  intros Hk Hv. destruct (page_bounds v Hv) as (? & ? & ?). pose proof (page_lo v Hv).
  unfold kfree. rewrite (page_aligned v Hv). simpl.
  rewrite (proj2 (Z.ltb_ge _ _)), (proj2 (Z.leb_gt _ _)) by lia. simpl.
  set (s0 := set_kmem (memset (k_mem s) (V2P v) 1 PGSIZE) s).
  rewrite (bind_ok _ _ s tt s0) by (unfold kmemset; by rewrite page_kaddr0).
  destruct (lock_kmem_ok s0) as (m1 & E1 & E2); [done|].
  rewrite (bind_ok _ _ _ _ _ E1). unfold bind, gets, modify, kstore; simpl.
  rewrite page_kaddr0 by done. simpl.
  edestruct E2 as (m2 & -> & He); [done|done|]. by exists m2.
Qed.

Lemma kready_frame s s' :
  mach_equiv (k_mach s') (k_mach s) -> use_lock s' = use_lock s -> kready s -> kready s'.
Proof. intros He Hu [Hs Hl]. unfold kready. rewrite He, Hu. auto. Qed.

Lemma pushed_page_only v s : page_ok v -> only_page v (k_mem s) (k_mem (pushed_page v s)).
Proof.
  intros Hv a Ha. simpl. unfold PGSIZE in *. rewrite rd_store32_ne by lia.
  rewrite rd_memset by lia. by rewrite decide_False.
Qed.

(** What a caller relies on: [kalloc] returns the head of the list and
    leaves the tail, or 0 when there is none; memory does not change. *)
Lemma kalloc_spec s l :
  kready s -> free_list s l ->
  exists s', kalloc s = Ok (default 0 (head l)) s'
    /\ free_list s' (tail l) /\ kready s'
    /\ k_mem s' = k_mem s /\ use_lock s' = use_lock s /\ mach_equiv (k_mach s') (k_mach s).
Proof.
  intros Hk [Hc Hd]. destruct (kalloc_eq s Hk) as (m & He & Hm).
  { destruct l; simpl in Hc; [by left|right]. by destruct Hc as (-> & ? & _). }
  assert (Hr : default 0 (head l) = freelist s).
  { destruct l as [|v l]; simpl in *; [done|]. by destruct Hc. }
  exists (set_kmach m (popped s)). rewrite Hr. split_and!; try done.
  - unfold popped. destruct l as [|v l]; simpl in *.
    + rewrite Hc. simpl. split; simpl; [done|constructor].
    + destruct Hc as (<- & Hv & Hc). pose proof (page_nonzero _ Hv).
      rewrite (proj2 (Z.eqb_neq _ _)) by done. split; simpl; [done|by inversion Hd].
  - unfold popped in *. eapply kready_frame; [..|apply Hk]; simpl; [done|].
    by destruct (freelist s =? 0).
  - unfold popped. by destruct (freelist s =? 0).
  - unfold popped. by destruct (freelist s =? 0).
Qed.

Lemma kfree_spec s l v :
  kready s -> free_list s l -> page_ok v -> v ∉ l ->
  exists s', kfree v s = Ok tt s'
    /\ free_list s' (v :: l) /\ kready s'
    /\ only_page v (k_mem s) (k_mem s') /\ use_lock s' = use_lock s
    /\ mach_equiv (k_mach s') (k_mach s).
Proof.
  intros Hk [Hc Hd] Hv Hl. destruct (kfree_eq v s Hk Hv) as (m & He & Hm).
  exists (set_kmach m (pushed_page v s)). split_and!; try done.
  - split; [|by constructor]. simpl. split_and!; [done..|].
    assert (Hf : 0 <= freelist s < 2 ^ 32).
    { destruct l as [|w l]; simpl in Hc; [lia|]. destruct Hc as (-> & Hw & _).
      pose proof (page_bounds w Hw). unfold KERNBASE in *. lia. }
    rewrite load32_store32_eq by done.
    eapply (only_page_chain v); [done|done| |done]. by apply pushed_page_only.
  - eapply kready_frame; [..|apply Hk]; done.
  - by apply pushed_page_only.
Qed.
End kalloc.
