(* ===== verification/Vm.v ===== *)
(** Virtual memory: page tables, user address spaces and copy-on-write,
    [vm.c], with [struct proc] of [proc.h] and [myproc] of [proc.c], which
    the page-fault handler needs.

    Page tables live in physical memory as the hardware reads them: a page
    directory of 1024 words, each pointing to a page table of 1024 words.
    [cprintf] diagnostics are not part of the state. *)

From S2P Require Import Prelude Params Mem Spinlock Kalloc.
Open Scope Z_scope.
Open Scope xv6_scope.

(** * Processes ([proc.h]) *)

Inductive procstate := UNUSED | EMBRYO | SLEEPING | RUNNABLE | RUNNING | ZOMBIE.

#[global] Instance procstate_eq_dec : EqDecision procstate.
Proof. solve_decision. Defined.

(** A sleep channel is the address of some kernel object: a variable and an
    index or address; [None] is the null pointer. *)
Abbreviation chan_t := (option (string * Z)).

(** [struct proc].  Pointers into the process table, the file table and the
    inode cache are indices; [tf], [context], [pgdir] and [kstack] are kernel
    addresses. *)
Record proc := Proc {
  sz : Z;
  pgdir : Z;
  kstack : Z;
  state : procstate;
  pid : Z;
  parent : option nat;
  tf : Z;
  context : Z;
  chan : chan_t;
  killed : bool;
  ofile : list (option nat);
  cwd : option nat;
  name : list Z
}.

Definition set_killed (x : bool) (p : proc) : proc :=
  Proc (sz p) (pgdir p) (kstack p) (state p) (pid p) (parent p) (tf p) (context p)
    (chan p) x (ofile p) (cwd p) (name p).

(** * The state [vm.c] works on

    [tlb] caches translations of the address space loaded in [cr3];
    [kpgdir] is the kernel-only page directory. *)
Record vst := Vst {
  v_k : kst;
  pg_refcount : gmap Z Z;
  ptable : list proc;
  kpgdir : Z;
  cr2 : Z;
  cr3 : Z;
  tlb : gmap Z Z
}.

Definition set_k (x : kst) (s : vst) : vst :=
  Vst x (pg_refcount s) (ptable s) (kpgdir s) (cr2 s) (cr3 s) (tlb s).
Definition set_refcount (x : gmap Z Z) (s : vst) : vst :=
  Vst (v_k s) x (ptable s) (kpgdir s) (cr2 s) (cr3 s) (tlb s).
Definition set_ptable (x : list proc) (s : vst) : vst :=
  Vst (v_k s) (pg_refcount s) x (kpgdir s) (cr2 s) (cr3 s) (tlb s).
Definition set_kpgdir (x : Z) (s : vst) : vst :=
  Vst (v_k s) (pg_refcount s) (ptable s) x (cr2 s) (cr3 s) (tlb s).
Definition set_cr3 (x : Z) (s : vst) : vst :=
  Vst (v_k s) (pg_refcount s) (ptable s) (kpgdir s) (cr2 s) x ∅.

Definition v_mach (s : vst) : mach := k_mach (v_k s).
Abbreviation v_mem s := (k_mem (v_k s)).

#[global, program] Instance vst_kst : Lens vst kst := {|
  view := v_k; put := set_k |}.
Next Obligation. done. Qed.
Next Obligation. by intros []. Qed.
Next Obligation. done. Qed.

#[global, program] Instance vst_mach : Lens vst mach := {|
  view := v_mach; put := fun m s => set_k (set_kmach m (v_k s)) s |}.
Next Obligation. done. Qed.
Next Obligation. by intros [[]]. Qed.
Next Obligation. done. Qed.

(** Loading [%cr3] installs an address space and flushes the TLB. *)
Definition lcr3 (v : Z) : M vst unit := modify (set_cr3 v).

(** [myproc()] of [proc.c]. *)
Definition myproc : M mach (option nat) :=
  pushcli ;;;
  c <- read_cpu ;;
  popcli ;;;
  ret (cproc c).

(** Reading and changing the fields of [*p]; a null [p] faults. *)
Definition read_proc (p : option nat) : M vst proc := fun s =>
  match p ≫= (fun i => ptable s !! i) with
  | Some x => Ok x s
  | None => Fault 0
  end.

Definition update_proc (p : option nat) (f : proc -> proc) : M vst unit := fun s =>
  match p with
  | Some i => if decide (i < length (ptable s))%nat
              then Ok tt (set_ptable (alter f i (ptable s)) s) else Fault 0
  | None => Fault 0
  end.

(** ** [pg_refcount]: a [char] per physical page *)

Definition refcount_ok (i : Z) : bool := (0 <=? i) && (i <? Z.shiftr PHYSTOP PGSHIFT).

Definition refcount (s : vst) (i : Z) : Z := default 0 (pg_refcount s !! i).

Definition read_ref (i : Z) : M vst Z := fun s =>
  if refcount_ok i then Ok (refcount s i) s else Fault i.

(** [++pg_refcount[i]] and [--pg_refcount[i]], returning the new value. *)
Definition add_ref (i d : Z) : M vst Z := fun s =>
  if refcount_ok i then
    let n := s8 (refcount s i + d) in
    Ok n (set_refcount (<[i := n]> (pg_refcount s)) s)
  else Fault i.

Section vm.
Context `{Layout}.

(** * Walking and building page tables *)

(** Returns the address of the PTE, or 0. *)
Definition walkpgdir (pgdir va : Z) (alloc : bool) : M vst Z :=
  let pde := u32 (pgdir + 4 * PDX va) in
  e <- lift (kload pde) ;;
  if has e PTE_P then ret (u32 (P2V (PTE_ADDR e) + 4 * PTX va))
  else if negb alloc then ret 0
  else
    pgtab <- lift kalloc ;;
    if pgtab =? 0 then ret 0
    else
      lift (kmemset pgtab 0 PGSIZE) ;;;
      lift (kstore pde
        (Z.lor (Z.lor (Z.lor (Z.lor (V2P pgtab) PTE_P) PTE_W) PTE_U) PTE_COW)) ;;;
      ret (u32 (pgtab + 4 * PTX va)).

Fixpoint mappages_loop (pgdir a last pa perm : Z) (fuel : nat) : M vst Z :=
  match fuel with
  | O => nofuel
  | S fuel =>
      pte <- walkpgdir pgdir a true ;;
      if pte =? 0 then ret (-1)
      else
        e <- lift (kload pte) ;;
        if has e PTE_P then panic "remap"
        else
          lift (kstore pte (Z.lor (Z.lor pa perm) PTE_P)) ;;;
          if a =? last then ret 0
          else mappages_loop pgdir (u32 (a + PGSIZE)) last (u32 (pa + PGSIZE)) perm fuel
  end.

(** The loop visits the pages from [a] to [last] once each. *)
Definition mappages (pgdir va size pa perm : Z) : M vst Z :=
  let a := PGROUNDDOWN va in
  let last := PGROUNDDOWN (u32 (va + size - 1)) in
  mappages_loop pgdir a last pa perm (S (Z.to_nat (u32 (last - a) / PGSIZE))).

(** * Releasing user memory *)

Fixpoint deallocuvm_loop (pgdir a oldsz : Z) (fuel : nat) : M vst unit :=
  match fuel with
  | O => nofuel
  | S fuel =>
      if a <? oldsz then
        pte <- walkpgdir pgdir a false ;;
        a <- (if pte =? 0 then ret (u32 (PGADDR (PDX a + 1) 0 0 - PGSIZE))
              else
                e <- lift (kload pte) ;;
                when (has e PTE_P)
                  (let pa := PTE_ADDR e in
                   if pa =? 0 then panic "kfree"
                   else
                     n <- add_ref (Z.shiftr pa PGSHIFT) (-1) ;;
                     when (n =? 0) (lift (kfree (P2V pa))) ;;;
                     lift (kstore pte 0)) ;;;
                ret a) ;;
        deallocuvm_loop pgdir (u32 (a + PGSIZE)) oldsz fuel
      else ret tt
  end.

(** Every iteration advances [a] by at least a page. *)
Definition deallocuvm (pgdir oldsz newsz : Z) : M vst Z :=
  if oldsz <=? newsz then ret oldsz
  else
    let a := PGROUNDUP newsz in
    deallocuvm_loop pgdir a oldsz (S (Z.to_nat ((oldsz - a + PGSIZE - 1) / PGSIZE))) ;;;
    ret newsz.

Fixpoint freevm_loop (pgdir : Z) (i : Z) (n : nat) : M vst unit :=
  match n with
  | O => ret tt
  | S n =>
      e <- lift (kload (u32 (pgdir + 4 * i))) ;;
      when (has e PTE_P) (lift (kfree (P2V (PTE_ADDR e)))) ;;;
      freevm_loop pgdir (i + 1) n
  end.

Definition freevm (pgdir : Z) : M vst unit :=
  if pgdir =? 0 then panic "freevm: no pgdir"
  else
    deallocuvm pgdir KERNBASE 0 ;;;
    freevm_loop pgdir 0 (Z.to_nat NPDENTRIES) ;;;
    lift (kfree pgdir).

(** * The kernel half of every address space *)

Record kmap_entry := Kmap { virt : Z; phys_start : Z; phys_end : Z; perm : Z }.

Definition kmap : list kmap_entry := [
  Kmap KERNBASE 0              EXTMEM     PTE_W;
  Kmap KERNLINK (V2P KERNLINK) (V2P data) 0;
  Kmap data     (V2P data)     PHYSTOP    PTE_W;
  Kmap DEVSPACE DEVSPACE       0          PTE_W ].

Fixpoint setupkvm_loop (pgdir : Z) (ks : list kmap_entry) : M vst Z :=
  match ks with
  | [] => ret pgdir
  | k :: ks =>
      r <- mappages pgdir (virt k) (u32 (phys_end k - phys_start k)) (phys_start k) (perm k) ;;
      if r <? 0 then freevm pgdir ;;; ret 0 else setupkvm_loop pgdir ks
  end.

Definition setupkvm : M vst Z :=
  pgdir <- lift kalloc ;;
  if pgdir =? 0 then ret 0
  else
    lift (kmemset pgdir 0 PGSIZE) ;;;
    if DEVSPACE <? P2V PHYSTOP then panic "PHYSTOP too high"
    else setupkvm_loop pgdir kmap.

Definition switchkvm : M vst unit :=
  k <- gets kpgdir ;; lcr3 (V2P k).

Definition kvmalloc : M vst unit :=
  k <- setupkvm ;; modify (set_kpgdir k) ;;; switchkvm.

(** [switchuvm]: the task-state segment set-up is not modelled. *)
Definition switchuvm (p : option nat) : M vst unit :=
  match p with
  | None => panic "switchuvm: no process"
  | Some _ =>
      x <- read_proc p ;;
      if kstack x =? 0 then panic "switchuvm: no kstack"
      else if pgdir x =? 0 then panic "switchuvm: no pgdir"
      else lift pushcli ;;; lcr3 (V2P (pgdir x)) ;;; lift popcli
  end.

(** * Growing user memory *)

(** [inituvm(pgdir, init, sz)] with [init] a kernel address. *)
Definition inituvm (pgdir init size : Z) : M vst unit :=
  if PGSIZE <=? size then panic "inituvm: more than a page"
  else
    mem <- lift kalloc ;;
    lift (kmemset mem 0 PGSIZE) ;;;
    mappages pgdir 0 PGSIZE (V2P mem) (Z.lor PTE_W PTE_U) ;;;
    add_ref (Z.shiftr (V2P mem) PGSHIFT) 1 ;;;
    lift (kmemmove mem init size).

Fixpoint allocuvm_loop (pgdir a oldsz newsz : Z) (fuel : nat) : M vst Z :=
  match fuel with
  | O => nofuel
  | S fuel =>
      if a <? newsz then
        mem <- lift kalloc ;;
        if mem =? 0 then deallocuvm pgdir newsz oldsz ;;; ret 0
        else
          lift (kmemset mem 0 PGSIZE) ;;;
          r <- mappages pgdir a PGSIZE (V2P mem) (Z.lor PTE_W PTE_U) ;;
          if r <? 0 then
            deallocuvm pgdir newsz oldsz ;;; lift (kfree mem) ;;; ret 0
          else
            add_ref (Z.shiftr (V2P mem) PGSHIFT) 1 ;;;
            allocuvm_loop pgdir (u32 (a + PGSIZE)) oldsz newsz fuel
      else ret newsz
  end.

Definition allocuvm (pgdir oldsz newsz : Z) : M vst Z :=
  if KERNBASE <=? newsz then ret 0
  else if newsz <? oldsz then ret oldsz
  else
    let a := PGROUNDUP oldsz in
    allocuvm_loop pgdir a oldsz newsz (S (Z.to_nat ((newsz - a + PGSIZE - 1) / PGSIZE))).

Definition clearpteu (pgdir uva : Z) : M vst unit :=
  pte <- walkpgdir pgdir uva false ;;
  if pte =? 0 then panic "clearpteu"
  else e <- lift (kload pte) ;; lift (kstore pte (Z.land e (not32 PTE_U))).

(** * Copying an address space *)

Fixpoint copyuvm_loop (pgdir d i size : Z) (fuel : nat) : M vst Z :=
  match fuel with
  | O => nofuel
  | S fuel =>
      if i <? size then
        pte <- walkpgdir pgdir i false ;;
        if pte =? 0 then panic "copyuvm: pte should exist"
        else
          e <- lift (kload pte) ;;
          if negb (has e PTE_P) then panic "copyuvm: page not present"
          else
            let pa := PTE_ADDR e in
            let flags := PTE_FLAGS e in
            mem <- lift kalloc ;;
            if mem =? 0 then freevm d ;;; ret 0
            else
              lift (kmemmove mem (P2V pa) PGSIZE) ;;;
              r <- mappages d i PGSIZE (V2P mem) flags ;;
              if r <? 0 then freevm d ;;; ret 0
              else copyuvm_loop pgdir d (u32 (i + PGSIZE)) size fuel
      else ret d
  end.

Definition copyuvm (pgdir size : Z) : M vst Z :=
  d <- setupkvm ;;
  if d =? 0 then ret 0
  else copyuvm_loop pgdir d 0 size (S (Z.to_nat ((size + PGSIZE - 1) / PGSIZE))).

Fixpoint copyuvmcow_loop (pgdir d i size : Z) (fuel : nat) : M vst Z :=
  match fuel with
  | O => nofuel
  | S fuel =>
      if i <? size then
        pte <- walkpgdir pgdir i false ;;
        if pte =? 0 then panic "copyuvmcow: pte should exist"
        else
          e <- lift (kload pte) ;;
          if negb (has e PTE_P) then panic "copyuvmcow: page not present"
          else
            lift (kstore pte (Z.land e (not32 PTE_W))) ;;;
            e <- lift (kload pte) ;;
            let pa := PTE_ADDR e in
            let flags := PTE_FLAGS e in
            r <- mappages d i PGSIZE pa flags ;;
            if r <? 0 then
              freevm d ;;; lcr3 (V2P pgdir) ;;; ret 0
            else
              e <- lift (kload pte) ;;
              lift (kstore pte (Z.lor e PTE_COW)) ;;;
              add_ref (Z.shiftr pa PGSHIFT) 1 ;;;
              copyuvmcow_loop pgdir d (u32 (i + PGSIZE)) size fuel
      else lcr3 (V2P pgdir) ;;; ret d
  end.

Definition copyuvmcow (pgdir size : Z) : M vst Z :=
  d <- setupkvm ;;
  if d =? 0 then ret 0
  else copyuvmcow_loop pgdir d 0 size (S (Z.to_nat ((size + PGSIZE - 1) / PGSIZE))).

(** * Reaching user memory from the kernel *)

(** [*pte] is read without testing [pte], as in the source. *)
Definition uva2ka (pgdir uva : Z) : M vst Z :=
  pte <- walkpgdir pgdir uva false ;;
  e <- lift (kload pte) ;;
  if negb (has e PTE_P) then ret 0
  else if negb (has e PTE_U) then ret 0
  else ret (P2V (PTE_ADDR e)).

(** Storing consecutive bytes at a kernel address. *)
Fixpoint wr_bytes (m : mem) (a : Z) (bs : list Z) : mem :=
  match bs with
  | [] => m
  | b :: bs => wr_bytes (wr m a b) (a + 1) bs
  end.

Definition kwrite (p : Z) (bs : list Z) : M kst unit := fun s =>
  if kaddr_ok p (Z.of_nat (length bs))
  then Ok tt (set_kmem (wr_bytes (k_mem s) (V2P p) bs) s) else Fault p.

(** [copyout]: the [len] bytes at [p] are given as the list [buf]. *)
Fixpoint copyout_loop (pgdir va : Z) (buf : list Z) (fuel : nat) : M vst Z :=
  match fuel with
  | O => nofuel
  | S fuel =>
      let len := Z.of_nat (length buf) in
      if 0 <? len then
        let va0 := PGROUNDDOWN va in
        pa0 <- uva2ka pgdir va0 ;;
        if pa0 =? 0 then ret (-1)
        else
          let n := Z.min (PGSIZE - (va - va0)) len in
          lift (kwrite (pa0 + (va - va0)) (take (Z.to_nat n) buf)) ;;;
          copyout_loop pgdir (u32 (va0 + PGSIZE)) (drop (Z.to_nat n) buf) fuel
      else ret 0
  end.

Definition copyout (pgdir va : Z) (buf : list Z) : M vst Z :=
  copyout_loop pgdir va buf (S (length buf)).

(** [loaduvm] reads the file through [readi(ip, dst, off, n)], which works on
    the rest of the kernel as well. *)
Fixpoint loaduvm_loop {S} `{Lens S vst} (readi : Z -> Z -> Z -> M S Z)
    (pgdir addr offset size i : Z) (fuel : nat) : M S Z :=
  match fuel with
  | O => nofuel
  | Datatypes.S fuel =>
      if i <? size then
        pte <- lift (T := vst) (walkpgdir pgdir (u32 (addr + i)) false) ;;
        if pte =? 0 then panic "loaduvm: address should exist"
        else
          e <- lift (T := vst) (lift (kload pte)) ;;
          let pa := PTE_ADDR e in
          let n := if size - i <? PGSIZE then size - i else PGSIZE in
          r <- readi (P2V pa) (u32 (offset + i)) n ;;
          if negb (r =? n) then ret (-1)
          else loaduvm_loop readi pgdir addr offset size (u32 (i + PGSIZE)) fuel
      else ret 0
  end.

Definition loaduvm {S} `{Lens S vst} (readi : Z -> Z -> Z -> M S Z) (pgdir addr offset size : Z) : M S Z :=
  if negb (addr mod PGSIZE =? 0) then panic "loaduvm: addr must be page aligned"
  else loaduvm_loop readi pgdir addr offset size 0
         (Datatypes.S (Z.to_nat ((size + PGSIZE - 1) / PGSIZE))).

(** * The page-fault handler *)

(** [lcr3(V2P(myproc()->pgdir))] and [myproc()->killed = 1]. *)
Definition flush_tlb : M vst unit :=
  p <- lift myproc ;; x <- read_proc p ;; lcr3 (V2P (pgdir x)).

Definition kill_current : M vst unit :=
  p <- lift myproc ;; update_proc p (set_killed true).

(** A fault on the read-only entry [e] stored at [pte]: the last user of the
    page takes it over, one of several gets a private copy. *)
Definition cow_fault (pte e : Z) : M vst unit :=
  let pa := PTE_ADDR e in
  n <- read_ref (Z.shiftr pa PGSHIFT) ;;
  if n =? 1 then
    e <- lift (kload pte) ;;
    lift (kstore pte (Z.land e (not32 PTE_COW))) ;;;
    e <- lift (kload pte) ;;
    lift (kstore pte (Z.lor e PTE_W)) ;;;
    flush_tlb
  else if 1 <? n then
    mem <- lift kalloc ;;
    if mem =? 0 then kill_current
    else
      lift (kmemmove mem (P2V pa) PGSIZE) ;;;
      add_ref (Z.shiftr pa PGSHIFT) (-1) ;;;
      add_ref (Z.shiftr (V2P mem) PGSHIFT) 1 ;;;
      lift (kstore pte (Z.lor (Z.lor (Z.lor (V2P mem) PTE_P) PTE_W) PTE_U)) ;;;
      flush_tlb
  else panic "pagefault wrong refcount".

Definition pagefault (err_code : Z) : M vst unit :=
  va <- gets cr2 ;;
  p <- lift myproc ;;
  match p with
  | None => lift cpuid ;;; panic "pagefault"
  | Some _ =>
      let illegal := lift cpuid ;;; kill_current in
      if KERNBASE <=? va then illegal
      else
        p <- lift myproc ;;
        x <- read_proc p ;;
        pte <- walkpgdir (pgdir x) va false ;;
        if pte =? 0 then illegal
        else
          e <- lift (kload pte) ;;
          if negb (has e PTE_P) || negb (has e PTE_U) then illegal
          else if has e PTE_W then panic "pagefault writeable"
          else cow_fault pte e
  end.
End vm.
