(* ===== verification/PageTable.v ===== *)
(** The structural invariant of page tables in memory.

    Every physical page the allocator manages has one owner.  Page
    directories, page tables, user pages and free pages are therefore
    disjoint, and a store to one of them cannot disturb the others.  The
    lemmas below say what each primitive store of [vm.c] does to the
    invariant; [Cow.v] puts them together. *)

From S2P Require Import Prelude Params Mem Spinlock Kalloc Vm.
Open Scope Z_scope.
Open Scope xv6_scope.

(** Who a page belongs to.  [OKernel] covers pages handed out by [kalloc]
    that hold neither page tables nor mapped user memory. *)
Inductive owner :=
| OFree
| OKernel
| OUser
| ODir
| OTab (D d : Z).

#[global] Instance owner_eq_dec : EqDecision owner.
Proof. solve_decision. Defined.

(** The number of user pages in an address space. *)
Definition NUSER : Z := KERNBASE / PGSIZE.

(** What the hardware reads: entry [d] of the directory [D], the address of
    the entry for virtual page [vp] (0 when its table is missing), and the
    entry itself. *)
Definition pde_val (m : mem) (D d : Z) : Z := load32 m (V2P D + 4 * d).

Definition pte_ptr (m : mem) (D vp : Z) : Z :=
  let e := pde_val m D (vp / 1024) in
  if has e PTE_P then P2V (PTE_ADDR e) + 4 * (vp mod 1024) else 0.

Definition pte_val (m : mem) (D vp : Z) : Z :=
  let p := pte_ptr m D vp in
  if p =? 0 then 0 else load32 m (V2P p).

Definition same_page (v : Z) (m m' : mem) : Prop :=
  forall a, V2P v <= a < V2P v + PGSIZE -> rd m' a = rd m a.

Section pt.
Context `{Layout}.

(** What it means to own a page-table page: a directory is in use, and a
    table hangs in its directory. *)
Definition owned (m : mem) (live : gset Z) (v : Z) (o : owner) : Prop :=
  match o with
  | ODir => v ∈ live
  | OTab D d => D ∈ live /\ 0 <= d < 1024 /\ has (pde_val m D d) PTE_P = true
                /\ P2V (PTE_ADDR (pde_val m D d)) = v
  | _ => True
  end.

(** Owners that are not page-table pages. *)
Definition plain (o : owner) : Prop := o = OFree \/ o = OKernel \/ o = OUser.

Record pt_inv (k : kst) (own : gmap Z owner) (users : gmap (Z * Z) Z) (live : gset Z) : Prop := {
  pi_ready : kready k;
  pi_free : exists l, free_list k l /\ forall v, v ∈ l <-> own !! v = Some OFree;
  pi_page : forall v o, own !! v = Some o -> page_ok v;
  pi_dir : forall D, D ∈ live -> own !! D = Some ODir;
  pi_tab : forall D d, D ∈ live -> 0 <= d < 1024 ->
    has (pde_val (k_mem k) D d) PTE_P = true ->
    own !! P2V (PTE_ADDR (pde_val (k_mem k) D d)) = Some (OTab D d);
  pi_back : forall v o, own !! v = Some o -> owned (k_mem k) live v o;
  pi_users : forall D vp e, users !! (D, vp) = Some e <->
    D ∈ live /\ 0 <= vp < NUSER /\ pte_val (k_mem k) D vp = e /\ has e PTE_P = true;
  pi_user : forall D vp e, users !! (D, vp) = Some e -> own !! P2V (PTE_ADDR e) = Some OUser
}.

(** * Reading inside pages *)

Lemma page_V2P_add v i : page_ok v -> 0 <= i < PGSIZE -> V2P (v + i) = V2P v + i.
Proof.
  intros Hv Hi. destruct (page_bounds v Hv) as (? & -> & ?). pose proof (page_hi v Hv).
  pose proof (page_aligned v Hv). unfold PGSIZE, PHYSTOP, KERNBASE in *.
  rewrite V2P_eq by (unfold KERNBASE; zdiv). unfold KERNBASE. lia.
Qed.

Lemma page_V2P_aligned v : page_ok v -> V2P v mod PGSIZE = 0.
Proof.
  intros Hv. destruct (page_bounds v Hv) as (? & -> & ?). pose proof (page_aligned v Hv).
  unfold PGSIZE, KERNBASE in *. zdiv.
Qed.

Lemma page_u32_add v i : page_ok v -> 0 <= i < PGSIZE -> u32 (v + i) = v + i.
Proof.
  intros Hv Hi. destruct (page_bounds v Hv) as (? & ? & ?). pose proof (page_hi v Hv).
  pose proof (page_aligned v Hv). unfold PGSIZE, PHYSTOP, KERNBASE in *.
  apply u32_id. zdiv.
Qed.

Lemma same_page_load v m m' i :
  same_page v m m' -> 0 <= i -> i + 4 <= PGSIZE -> load32 m' (V2P v + i) = load32 m (V2P v + i).
Proof. intros Hs Hi Hn. apply load32_ext. intros j Hj. apply Hs. lia. Qed.

Lemma same_page_refl v m : same_page v m m.
Proof. done. Qed.

Lemma same_page_trans v m1 m2 m3 : same_page v m1 m2 -> same_page v m2 m3 -> same_page v m1 m3.
Proof. intros H1 H2 a Ha. by rewrite H2, H1. Qed.

Lemma only_page_same v w m m' :
  page_ok v -> page_ok w -> v <> w -> only_page v m m' -> same_page w m m'.
Proof. intros Hv Hw Hne Ho a Ha. apply Ho. destruct (pages_disjoint v w Hv Hw Hne); lia. Qed.

Lemma only_page_store v m i e :
  page_ok v -> 0 <= i -> i + 4 <= PGSIZE -> only_page v m (store32 m (V2P v + i) e).
Proof. intros Hv Hi Hn a Ha. apply rd_store32_ne. lia. Qed.

Lemma PTE_ADDR_page e v : 0 <= e < 2 ^ 32 -> P2V (PTE_ADDR e) = v -> PTE_ADDR e = V2P v.
Proof.
  intros He <-. destruct (pte_split e He) as (_ & _ & Hr & _).
  unfold V2P, P2V. rewrite u32_sub_l. symmetry.
  replace (PTE_ADDR e + KERNBASE - KERNBASE) with (PTE_ADDR e) by lia. by apply u32_id.
Qed.

Lemma pte_val_range m D vp : 0 <= pte_val m D vp < 2 ^ 32.
Proof. unfold pte_val. destruct (pte_ptr m D vp =? 0); [lia|apply load32_range]. Qed.

(** ** Consequences of the invariant *)

Section read.
Context k own users live (I : pt_inv k own users live).
Abbreviation m := (k_mem k).

Lemma live_page D : D ∈ live -> page_ok D.
Proof. intros HD. eapply (pi_page _ _ _ _ I), (pi_dir _ _ _ _ I), HD. Qed.

Lemma tab_page D d :
  D ∈ live -> 0 <= d < 1024 -> has (pde_val m D d) PTE_P = true ->
  page_ok (P2V (PTE_ADDR (pde_val m D d))).
Proof. intros. eapply (pi_page _ _ _ _ I), (pi_tab _ _ _ _ I); done. Qed.

(** The entry's address lies in the table page that owns it. *)
Lemma pte_ptr_in D vp :
  D ∈ live -> 0 <= vp < 2 ^ 20 -> pte_ptr m D vp <> 0 ->
  exists t, page_ok t /\ own !! t = Some (OTab D (vp / 1024))
    /\ pte_ptr m D vp = t + 4 * (vp mod 1024)
    /\ V2P (pte_ptr m D vp) = V2P t + 4 * (vp mod 1024)
    /\ has (pde_val m D (vp / 1024)) PTE_P = true
    /\ t = P2V (PTE_ADDR (pde_val m D (vp / 1024))).
Proof.
  intros HD Hvp. unfold pte_ptr. destruct (has _ _) eqn:E; [|done]. intros _.
  assert (Hd : 0 <= vp / 1024 < 1024) by zdiv.
  pose proof (tab_page D _ HD Hd E) as Ht. eexists. split_and!; [exact Ht| |done| |done|done].
  - by apply (pi_tab _ _ _ _ I).
  - apply page_V2P_add; [done|]. unfold PGSIZE. zdiv.
Qed.

(** An entry that is present has an address. *)
Lemma present_ptr D vp : has (pte_val m D vp) PTE_P = true -> pte_ptr m D vp <> 0.
Proof. unfold pte_val. destruct (Z.eqb_spec (pte_ptr m D vp) 0); [discriminate|done]. Qed.

Lemma pte_val_load D vp : pte_ptr m D vp <> 0 -> pte_val m D vp = load32 m (V2P (pte_ptr m D vp)).
Proof. intros Hp. unfold pte_val. by rewrite (proj2 (Z.eqb_neq _ _)). Qed.

Lemma user_page D vp e : users !! (D, vp) = Some e -> page_ok (P2V (PTE_ADDR e)).
Proof. intros Hu. eapply (pi_page _ _ _ _ I), (pi_user _ _ _ _ I), Hu. Qed.

Lemma user_range D vp e : users !! (D, vp) = Some e -> 0 <= e < 2 ^ 32.
Proof. intros (_ & _ & <- & _)%(pi_users _ _ _ _ I). apply pte_val_range. Qed.

Lemma owner_ne v w o o' : own !! v = Some o -> own !! w = Some o' -> o <> o' -> v <> w.
Proof. intros Hv Hw Hne ->. congruence. Qed.
End read.

(** * Changes of memory that keep page tables intact *)

(** Page-table pages keep their contents. *)
Definition tables_same (own : gmap Z owner) (m m' : mem) : Prop :=
  forall v o, own !! v = Some o -> o <> OFree -> o <> OKernel -> o <> OUser -> same_page v m m'.

Lemma pde_val_same m m' D d :
  same_page D m m' -> 0 <= d < 1024 -> pde_val m' D d = pde_val m D d.
Proof. intros Hs Hd. apply same_page_load; [done|lia|unfold PGSIZE; lia]. Qed.

Lemma pte_ptr_same m m' D vp :
  same_page D m m' -> 0 <= vp < 2 ^ 20 -> pte_ptr m' D vp = pte_ptr m D vp.
Proof. intros Hs Hvp. unfold pte_ptr. by rewrite (pde_val_same m m') by (done || zdiv). Qed.

Lemma pte_val_same k own users live m' D vp :
  pt_inv k own users live -> tables_same own (k_mem k) m' ->
  D ∈ live -> 0 <= vp < 2 ^ 20 -> pte_val m' D vp = pte_val (k_mem k) D vp.
Proof.
  intros I Ht HD Hvp.
  assert (HsD : same_page D (k_mem k) m') by (by eapply Ht; [apply I|..]).
  unfold pte_val. rewrite (pte_ptr_same (k_mem k)) by done.
  destruct (Z.eqb_spec (pte_ptr (k_mem k) D vp) 0) as [|Hp]; [done|].
  destruct (pte_ptr_in _ _ _ _ I D vp HD Hvp Hp) as (t & Hpt & Ho & _ & -> & _).
  apply same_page_load; [by eapply Ht|..]; unfold PGSIZE; zdiv.
Qed.

Lemma NUSER_lt : NUSER < 2 ^ 20.
Proof. done. Qed.

(** The invariant after such a change, for a given new owner map. *)
Lemma pt_inv_update k k' own own' users live :
  pt_inv k own users live -> kready k' ->
  (exists l, free_list k' l /\ forall v, v ∈ l <-> own' !! v = Some OFree) ->
  tables_same own (k_mem k) (k_mem k') ->
  (forall v o, own' !! v = Some o -> page_ok v) ->
  (forall v o, ~ plain o -> own !! v = Some o <-> own' !! v = Some o) ->
  (forall D vp e, users !! (D, vp) = Some e -> own' !! P2V (PTE_ADDR e) = Some OUser) ->
  pt_inv k' own' users live.
Proof.
  intros I Hk Hf Ht Hp Hkeep Hu.
  assert (Hpde : forall D d, D ∈ live -> 0 <= d < 1024 -> pde_val (k_mem k') D d = pde_val (k_mem k) D d).
  { intros D d HD Hd. apply pde_val_same; [|done]. by eapply Ht; [apply I|..]. }
  split; [done|done|done|..].
  - intros D HD. apply Hkeep; [by intros [|[|]]|by apply I].
  - intros D d HD Hd. rewrite Hpde by done. intros E. apply Hkeep; [by intros [|[|]]|by apply I].
  - intros v [| | | |D d] Hv; try done; apply Hkeep in Hv; try (by intros [|[|]]);
      apply (pi_back _ _ _ _ I) in Hv; [done|]. destruct Hv as (HD & Hd & Hr). unfold owned.
    by rewrite Hpde.
  - intros D vp e. rewrite (pi_users _ _ _ _ I). pose proof NUSER_lt.
    split; intros (HD & Hvp & Hv & HP);
      assert (Hvp' : 0 <= vp < 2 ^ 20) by lia;
      pose proof (pte_val_same _ _ _ _ _ _ _ I Ht HD Hvp') as Hs;
      (split_and!; [done|lia|lia|congruence|done]).
  - done.
Qed.

Lemma only_page_tables own v m m' :
  (forall w o, own !! w = Some o -> page_ok w) -> page_ok v ->
  (forall o, own !! v = Some o -> o = OFree \/ o = OKernel \/ o = OUser) ->
  only_page v m m' -> tables_same own m m'.
Proof.
  intros Hp Hv Ho Hm w o Hw ???. apply (only_page_same v); eauto.
  intros ->. destruct (Ho o Hw) as [|[|]]; done.
Qed.

Lemma plain_insert (own : gmap Z owner) v o o' :
  own !! v = Some o -> plain o -> plain o' ->
  forall w q, ~ plain q -> own !! w = Some q <-> <[v := o']> own !! w = Some q.
Proof.
  intros Hv Ho Ho' w q Hq. rewrite lookup_insert. case_decide; [subst|done].
  split; intros ?; simplify_eq; done.
Qed.

(** * The primitives *)

(** [kalloc] turns a free page into a kernel page. *)
Lemma pt_kalloc k own users live :
  pt_inv k own users live ->
  exists r k', kalloc k = Ok r k' /\ k_mem k' = k_mem k /\ mach_equiv (k_mach k') (k_mach k)
    /\ use_lock k' = use_lock k
    /\ ((r = 0 /\ pt_inv k' own users live /\ forall v, own !! v <> Some OFree)
        \/ (page_ok r /\ own !! r = Some OFree /\ pt_inv k' (<[r := OKernel]> own) users live)).
Proof.
  intros I. destruct (pi_free _ _ _ _ I) as (l & Hl & Hiff).
  destruct (kalloc_spec k l) as (k' & He & Hl' & Hk' & Hm & Hu & Hq); [apply I|done|].
  exists (default 0 (head l)), k'. split_and!; try done. destruct l as [|r l]; simpl in *.
  - left. split_and!; [done| |intros v Hv; by apply Hiff, not_elem_of_nil in Hv].
    apply (pt_inv_update k k' own own); try done; [|by rewrite Hm|apply I|apply I].
    exists []. done.
  - right. assert (Hr : own !! r = Some OFree) by (apply Hiff; set_solver).
    assert (Hpr : page_ok r) by (by eapply (pi_page _ _ _ _ I)). split_and!; [done|done|].
    apply (pt_inv_update k k' own); [done|done| |by rewrite Hm|..].
    + exists l. split; [done|]. intros v. pose proof (fl_nodup _ _ Hl) as Hnd.
      apply NoDup_cons in Hnd as [Hr' _]. rewrite lookup_insert.
      case_decide; subst; [split; [done|discriminate]|].
      rewrite <- Hiff. set_solver.
    + intros v o. rewrite lookup_insert. case_decide; subst; [done|apply I].
    + apply (plain_insert _ _ OFree); [done|by left|by right; left].
    + intros D vp e He'. rewrite lookup_insert_ne; [by eapply (pi_user _ _ _ _ I)|].
      apply (pi_user _ _ _ _ I) in He'. congruence.
Qed.

(** [kfree] gives a kernel page back. *)
Lemma pt_kfree k own users live v :
  pt_inv k own users live -> own !! v = Some OKernel ->
  exists k', kfree v k = Ok tt k' /\ pt_inv k' (<[v := OFree]> own) users live
    /\ only_page v (k_mem k) (k_mem k') /\ mach_equiv (k_mach k') (k_mach k)
    /\ use_lock k' = use_lock k.
Proof.
  intros I Hv. pose proof (pi_page _ _ _ _ I _ _ Hv) as Hpv.
  destruct (pi_free _ _ _ _ I) as (l & Hl & Hiff).
  destruct (kfree_spec k l v) as (k' & He & Hl' & Hk' & Hm & Hu & Hq);
    [apply I|done|done|rewrite Hiff; congruence|].
  exists k'. split_and!; try done.
  apply (pt_inv_update k k' own); [done|done| |..].
  - exists (v :: l). split; [done|]. intros w. rewrite lookup_insert.
    case_decide; subst; [set_solver|]. rewrite <- Hiff. set_solver.
  - apply (only_page_tables _ v); [apply I|done| |done]. intros o ?. simplify_eq. auto.
  - intros w o. rewrite lookup_insert. case_decide; subst; [done|apply I].
  - apply (plain_insert _ _ OKernel); [done|by right; left|by left].
  - intros D vp e He'. apply (pi_user _ _ _ _ I) in He'. rewrite lookup_insert_ne; congruence.
Qed.

(** Storing into a user or kernel page. *)
Lemma pt_write k own users live v o m' :
  pt_inv k own users live -> own !! v = Some o -> o = OKernel \/ o = OUser ->
  only_page v (k_mem k) m' -> pt_inv (set_kmem m' k) own users live.
Proof.
  intros I Hv Ho Hm. pose proof (pi_page _ _ _ _ I _ _ Hv) as Hpv.
  apply (pt_inv_update k _ own own); [done|apply I| | |apply I|done|apply I].
  - destruct (pi_free _ _ _ _ I) as (l & [Hc Hd] & Hiff). exists l. split; [|done].
    split; [|done]. simpl. apply (only_page_chain v (k_mem k)); try done.
    rewrite Hiff. destruct Ho; subst; congruence.
  - apply (only_page_tables _ v); [apply I|done| |done].
    intros o' Ho'. simplify_eq. naive_solver.
Qed.

(** A kernel page becomes a user page, or back, once no entry maps it. *)
Lemma pt_retag k own users live v o o' :
  pt_inv k own users live -> own !! v = Some o ->
  (o = OKernel \/ o = OUser) -> (o' = OKernel \/ o' = OUser) ->
  (o' = OUser \/ forall D vp e, users !! (D, vp) = Some e -> P2V (PTE_ADDR e) <> v) ->
  pt_inv k (<[v := o']> own) users live.
Proof.
  intros I Hv Ho Ho' Hn. apply (pt_inv_update k k own); [done|apply I| |done|..].
  - destruct (pi_free _ _ _ _ I) as (l & Hl & Hiff). exists l. split; [done|].
    intros w. rewrite Hiff, lookup_insert. case_decide; [subst|done].
    rewrite Hv. naive_solver congruence.
  - intros w q. rewrite lookup_insert. case_decide; subst; intros; by eapply (pi_page _ _ _ _ I).
  - apply (plain_insert _ _ o); [done|by right|by right].
  - intros D vp e He. destruct (decide (v = P2V (PTE_ADDR e))) as [->|Hne].
    + rewrite lookup_insert_eq. destruct Hn as [->|Hn]; [done|]. by destruct (Hn _ _ _ He).
    + rewrite lookup_insert_ne by done. by eapply (pi_user _ _ _ _ I).
Qed.

(** A zeroed page: every entry reads as absent. *)
Definition zero_page (v : Z) (m : mem) : Prop :=
  forall i, 0 <= i < 1024 -> load32 m (V2P v + 4 * i) = 0.

Lemma memset_zero_page v m : page_ok v -> zero_page v (memset m (V2P v) 0 PGSIZE).
Proof. intros Hv i Hi. apply load32_memset_in; unfold PGSIZE; lia. Qed.

Lemma only_page_memset v m c : page_ok v -> only_page v m (memset m (V2P v) c PGSIZE).
Proof.
  intros Hv a Ha. rewrite rd_memset by done. by rewrite decide_False.
Qed.

Lemma zero_page_same v m m' : same_page v m m' -> zero_page v m -> zero_page v m'.
Proof.
  intros Hs Hz i Hi. rewrite (same_page_load v m m') by (done || unfold PGSIZE; lia).
  by apply Hz.
Qed.

(** The directory word [D[d]] and nothing else changes. *)
Section set_pde.
Context k own users live (I : pt_inv k own users live).
Context (D d t f : Z) (HD : D ∈ live) (Hd : 0 <= d < 1024).
Context (Hno : has (pde_val (k_mem k) D d) PTE_P = false).
Context (Ht : own !! t = Some OKernel) (Hz : zero_page t (k_mem k)).
Context (Hf : 0 <= f < PGSIZE) (HP : has f PTE_P = true).
Let m' := store32 (k_mem k) (V2P D + 4 * d) (V2P t + f).

Lemma set_pde_t : page_ok t.
Proof. by eapply (pi_page _ _ _ _ I). Qed.

Lemma set_pde_only : only_page D (k_mem k) m'.
Proof. apply only_page_store; [by eapply live_page|..]; unfold PGSIZE; lia. Qed.

Lemma set_pde_same v o : own !! v = Some o -> v <> D -> same_page v (k_mem k) m'.
Proof.
  intros Hv Hne. apply (only_page_same D); [by eapply live_page|by eapply (pi_page _ _ _ _ I)|done|].
  apply set_pde_only.
Qed.

Lemma set_pde_entry : 0 <= V2P t + f < 2 ^ 32 /\ PTE_ADDR (V2P t + f) = V2P t
  /\ has (V2P t + f) PTE_P = true /\ P2V (V2P t) = t.
Proof.
  pose proof set_pde_t as Hp. destruct (page_bounds t Hp) as (Hb & He & Hr).
  pose proof (page_V2P_aligned t Hp) as Ha.
  unfold PHYSTOP in *. split_and!.
  - apply pte_range; done || lia.
  - apply pte_range; done || lia.
  - apply pte_addr; done || lia.
  - rewrite pte_has; done || lia.
  - by apply P2V_V2P.
Qed.

Lemma set_pde_val D' d' :
  D' ∈ live -> 0 <= d' < 1024 ->
  pde_val m' D' d' = if decide (D' = D /\ d' = d) then V2P t + f else pde_val (k_mem k) D' d'.
Proof.
  intros HD' Hd'. destruct set_pde_entry as (Hr & _). case_decide as E.
  - destruct E as [-> ->]. by apply load32_store32_eq.
  - destruct (decide (D' = D)) as [->|Hne].
    + apply load32_store32_ne. naive_solver lia.
    + apply pde_val_same; [|done]. eapply set_pde_same; [by apply I|done].
Qed.

(** The new table is empty, so no translation changes. *)
Lemma set_pde_pte D' vp :
  D' ∈ live -> 0 <= vp < 2 ^ 20 -> pte_val m' D' vp = pte_val (k_mem k) D' vp.
Proof.
  intros HD' Hvp. destruct set_pde_entry as (Hr & Ha & Hp & Hv).
  assert (Hd' : 0 <= vp / 1024 < 1024) by zdiv.
  unfold pte_val, pte_ptr. rewrite set_pde_val by done.
  destruct (decide (D' = D /\ vp / 1024 = d)) as [[-> Hvd]|Hne].
  - rewrite Hvd, Hno, Hp, Ha, Hv. cbn [Z.eqb].
    pose proof set_pde_t as Hpt. pose proof (page_bounds t Hpt).
    rewrite (proj2 (Z.eqb_neq _ _)) by (unfold KERNBASE in *; zdiv).
    rewrite page_V2P_add by (done || unfold PGSIZE; zdiv).
    apply (zero_page_same t (k_mem k)); [|done|zdiv].
    eapply set_pde_same; [done|].
    eapply owner_ne; [exact Ht|by apply (pi_dir _ _ _ _ I)|done].
  - destruct (has (pde_val (k_mem k) D' (vp / 1024)) PTE_P) eqn:E; [|done].
    pose proof (pi_tab _ _ _ _ I D' _ HD' Hd' E) as Ho.
    pose proof (tab_page _ _ _ _ I D' _ HD' Hd' E) as Hpt. pose proof (page_bounds _ Hpt).
    rewrite (proj2 (Z.eqb_neq _ _)) by (unfold KERNBASE in *; zdiv).
    rewrite page_V2P_add by (done || unfold PGSIZE; zdiv).
    apply same_page_load; [|zdiv|unfold PGSIZE; zdiv].
    eapply set_pde_same; [done|].
    eapply owner_ne; [exact Ho|by apply (pi_dir _ _ _ _ I)|done].
Qed.

Lemma pt_install : pt_inv (set_kmem m' k) (<[t := OTab D d]> own) users live.
Proof.
  destruct set_pde_entry as (Hr & Ha & Hp & Hv). pose proof NUSER_lt. split.
  - apply I.
  - destruct (pi_free _ _ _ _ I) as (l & [Hc Hn] & Hiff). exists l. split; [split; [|done]|].
    + simpl. apply (only_page_chain D (k_mem k)); [by eapply live_page| |apply set_pde_only|done].
      rewrite Hiff, (pi_dir _ _ _ _ I D HD). discriminate.
    + intros v. rewrite Hiff, lookup_insert. case_decide as E; [rewrite <- E, Ht|done].
      split; discriminate.
  - intros v o. rewrite lookup_insert. case_decide as E; [|apply I].
    rewrite <- E. intros _. apply set_pde_t.
  - intros D' HD'. pose proof (pi_dir _ _ _ _ I D' HD'). rewrite lookup_insert_ne; congruence.
  - simpl. intros D' d' HD' Hd'. rewrite set_pde_val by done. case_decide as E.
    + destruct E as [-> ->]. intros _. rewrite Ha, Hv. apply lookup_insert_eq.
    + intros Hp'. pose proof (pi_tab _ _ _ _ I _ _ HD' Hd' Hp') as Ho.
      rewrite lookup_insert_ne; [done|congruence].
  - simpl. intros v o. rewrite lookup_insert. case_decide as Ev.
    + intros [= <-]. unfold owned. rewrite set_pde_val, decide_True, Ha, Hv by done. done.
    + intros Hvo. pose proof (pi_back _ _ _ _ I v o Hvo) as Hb.
      destruct o as [| | | |D' d']; try done. destruct Hb as (HD' & Hd' & Hpb & Eb). unfold owned.
      rewrite set_pde_val, decide_False; try done. intros [-> ->]. congruence.
  - simpl. intros D' vp e. rewrite (pi_users _ _ _ _ I).
    split; intros (HD' & Hvp & Hv' & HP'); pose proof (set_pde_pte D' vp HD') as Hs;
      (split_and!; [done|lia|lia| |done]); [rewrite Hs by lia|rewrite <- Hs by lia]; done.
  - intros D' vp e He. apply (pi_user _ _ _ _ I) in He. rewrite lookup_insert_ne; congruence.
Qed.
End set_pde.

(** Storing the word [e] in the entry for page [vp] of [D]. *)
Definition upd_users (users : gmap (Z * Z) Z) (D vp e : Z) : gmap (Z * Z) Z :=
  if vp <? NUSER then
    if has e PTE_P then <[(D, vp) := e]> users else delete (D, vp) users
  else users.

Lemma upd_users_lookup users D vp e D' vp' :
  upd_users users D vp e !! (D', vp') =
  if decide (D' = D /\ vp' = vp /\ vp < NUSER)
  then if has e PTE_P then Some e else None else users !! (D', vp').
Proof.
  unfold upd_users. destruct (Z.ltb_spec vp NUSER); case_decide as E.
  - destruct E as (-> & -> & _). destruct (has e PTE_P); [apply lookup_insert_eq|apply lookup_delete_eq].
  - assert ((D, vp) <> (D', vp')) by naive_solver.
    destruct (has e PTE_P); [by apply lookup_insert_ne|by apply lookup_delete_ne].
  - lia.
  - done.
Qed.

Section set_pte.
Context k own users live (I : pt_inv k own users live).
Context (D vp e : Z) (HD : D ∈ live) (Hvp : 0 <= vp < 2 ^ 20).
Context (Hptr : pte_ptr (k_mem k) D vp <> 0) (He : 0 <= e < 2 ^ 32).
Let m' := store32 (k_mem k) (V2P (pte_ptr (k_mem k) D vp)) e.

Lemma set_pte_same v o :
  own !! v = Some o -> o <> OTab D (vp / 1024) -> same_page v (k_mem k) m'.
Proof.
  intros Hv Hne. destruct (pte_ptr_in _ _ _ _ I D vp HD Hvp Hptr) as (t & Ht & Ho & _ & Ha & _).
  unfold m'. rewrite Ha. apply (only_page_same t).
  - done.
  - by eapply (pi_page _ _ _ _ I).
  - intros ->. congruence.
  - apply only_page_store; [done|..]; unfold PGSIZE; zdiv.
Qed.

Lemma set_pte_pde D' d : D' ∈ live -> 0 <= d < 1024 -> pde_val m' D' d = pde_val (k_mem k) D' d.
Proof.
  intros HD' Hd. apply pde_val_same; [|done].
  eapply set_pte_same; [by apply (pi_dir _ _ _ _ I)|done].
Qed.

Lemma set_pte_ptr D' vp' :
  D' ∈ live -> 0 <= vp' < 2 ^ 20 -> pte_ptr m' D' vp' = pte_ptr (k_mem k) D' vp'.
Proof. intros HD' Hvp'. unfold pte_ptr. rewrite set_pte_pde by (done || zdiv). done. Qed.

Lemma set_pte_val D' vp' :
  D' ∈ live -> 0 <= vp' < 2 ^ 20 ->
  pte_val m' D' vp' = if decide (D' = D /\ vp' = vp) then e else pte_val (k_mem k) D' vp'.
Proof.
  intros HD' Hvp'. unfold pte_val at 1. rewrite set_pte_ptr by done. case_decide as E.
  - destruct E as [-> ->]. rewrite (proj2 (Z.eqb_neq _ _)) by done. by apply load32_store32_eq.
  - unfold pte_val. destruct (Z.eqb_spec (pte_ptr (k_mem k) D' vp') 0) as [|Hp']; [done|].
    destruct (pte_ptr_in _ _ _ _ I D vp HD Hvp Hptr) as (t & Ht & Ho & _ & Ha & _).
    destruct (pte_ptr_in _ _ _ _ I D' vp' HD' Hvp' Hp') as (t' & Ht' & Ho' & _ & Ha' & _).
    unfold m'. rewrite Ha, Ha'. destruct (decide (t' = t)) as [->|Hne].
    + rewrite Ho in Ho'. simplify_eq. apply load32_store32_ne.
      destruct (decide (vp' = vp)); [naive_solver|zdiv].
    + apply same_page_load; [|zdiv|unfold PGSIZE; zdiv].
      apply (only_page_same t); [done|done|congruence|].
      apply only_page_store; [done|..]; unfold PGSIZE; zdiv.
Qed.

Lemma pt_store_pte :
  (vp < NUSER -> has e PTE_P = true -> own !! P2V (PTE_ADDR e) = Some OUser) ->
  pt_inv (set_kmem m' k) own (upd_users users D vp e) live.
Proof.
  intros Hu. pose proof NUSER_lt.
  destruct (pte_ptr_in _ _ _ _ I D vp HD Hvp Hptr) as (t & Ht & Ho & _ & Ha & _). split.
  - apply I.
  - destruct (pi_free _ _ _ _ I) as (l & [Hc Hn] & Hiff). exists l. split; [split; [|done]|done].
    simpl. apply (only_page_chain t (k_mem k)); [done|rewrite Hiff; congruence| |done].
    unfold m'. rewrite Ha. apply only_page_store; [done|..]; unfold PGSIZE; zdiv.
  - apply I.
  - apply I.
  - simpl. intros D' d HD' Hd. rewrite set_pte_pde by done. by apply I.
  - simpl. intros v o Hv. pose proof (pi_back _ _ _ _ I v o Hv) as Hb.
    destruct o as [| | | |D' d']; try done. destruct Hb as (HD' & Hd' & Hb). unfold owned.
    by rewrite set_pte_pde.
  - simpl. intros D' vp' e'. rewrite upd_users_lookup. case_decide as E.
    + destruct E as (-> & -> & Hlt). rewrite set_pte_val, decide_True by done.
      destruct (has e PTE_P) eqn:EP; split.
      * intros [= <-]. split_and!; [done|lia|lia|done|done].
      * by intros (_ & _ & <- & _).
      * discriminate.
      * intros (_ & _ & <- & HP). congruence.
    + rewrite (pi_users _ _ _ _ I).
      split; intros (HD' & Hr & Hv & HP); (split_and!; [done|lia|lia| |done]);
        revert Hv; rewrite set_pte_val, decide_False by (done || lia || (intros (? & ?); apply E; split_and!; [done|done|lia])); done.
  - intros D' vp' e'. rewrite upd_users_lookup. case_decide as E; [|apply I].
    destruct (has e PTE_P); [|discriminate]. intros [= <-]. apply Hu; [apply E|done].
Qed.
End set_pte.

(** A zeroed page becomes an empty address space. *)
Lemma zero_pde v m d : zero_page v m -> 0 <= d < 1024 -> pde_val m v d = 0.
Proof. intros Hz Hd. by apply Hz. Qed.

Lemma zero_pte v m vp : zero_page v m -> 0 <= vp < 2 ^ 20 -> pte_val m v vp = 0.
Proof. intros Hz Hvp. unfold pte_val, pte_ptr. by rewrite zero_pde by (done || zdiv). Qed.

Lemma pt_newdir k own users live v :
  pt_inv k own users live -> own !! v = Some OKernel -> zero_page v (k_mem k) ->
  pt_inv k (<[v := ODir]> own) users ({[v]} ∪ live).
Proof.
  intros I Hv Hz. pose proof NUSER_lt. split.
  - apply I.
  - destruct (pi_free _ _ _ _ I) as (l & Hl & Hiff). exists l. split; [done|].
    intros w. rewrite Hiff, lookup_insert. case_decide; naive_solver.
  - intros w o. rewrite lookup_insert. case_decide; [subst|apply I].
    intros _. by eapply (pi_page _ _ _ _ I).
  - intros D [->%elem_of_singleton|HD]%elem_of_union; [apply lookup_insert_eq|].
    apply (pi_dir _ _ _ _ I) in HD. rewrite lookup_insert_ne; congruence.
  - intros D d [->%elem_of_singleton|HD]%elem_of_union Hd HP.
    + by rewrite zero_pde in HP.
    + pose proof (pi_tab _ _ _ _ I _ _ HD Hd HP). rewrite lookup_insert_ne; congruence.
  - intros w o. rewrite lookup_insert. case_decide; [intros [= <-]; subst; simpl; set_solver|].
    intros Hw. pose proof (pi_back _ _ _ _ I w o Hw) as Hb.
    destruct o as [| | | |D' d']; try done; simpl in *; set_solver.
  - intros D vp e. rewrite (pi_users _ _ _ _ I). split; intros (HD & Hr & Hv' & HP).
    + split_and!; [set_solver|lia|lia|done|done].
    + apply elem_of_union in HD as [->%elem_of_singleton|HD]; [|split_and!; done || lia].
      rewrite zero_pte in Hv' by (done || lia). by subst.
  - intros D vp e He. apply (pi_user _ _ _ _ I) in He. rewrite lookup_insert_ne; congruence.
Qed.

(** Giving up the directory [D]: its pages become plain kernel pages. *)
Definition retire (D v : Z) (o : owner) : owner :=
  match o with
  | ODir => if decide (v = D) then OKernel else ODir
  | OTab D' d => if decide (D' = D) then OKernel else OTab D' d
  | _ => o
  end.

Definition retired (D : Z) (own : gmap Z owner) : gmap Z owner :=
  map_imap (fun v o => Some (retire D v o)) own.

Lemma retired_lookup D own v : retired D own !! v = retire D v <$> own !! v.
Proof. unfold retired. rewrite map_lookup_imap. by destruct (own !! v). Qed.

Lemma pt_retire k own users live D :
  pt_inv k own users live -> (forall vp, users !! (D, vp) = None) ->
  pt_inv k (retired D own) users (live ∖ {[D]}).
Proof.
  intros I Hno. split.
  - apply I.
  - destruct (pi_free _ _ _ _ I) as (l & Hl & Hiff). exists l. split; [done|].
    intros w. rewrite Hiff, retired_lookup. destruct (own !! w) as [[]|]; simpl; try done;
      case_decide; done.
  - intros w o. rewrite retired_lookup. destruct (own !! w) eqn:E; [|done].
    intros _. by eapply (pi_page _ _ _ _ I).
  - intros D' [HD HD']%elem_of_difference.
    rewrite retired_lookup, (pi_dir _ _ _ _ I) by done. simpl. rewrite decide_False by set_solver. done.
  - intros D' d [HD HD']%elem_of_difference Hd HP.
    rewrite retired_lookup, (pi_tab _ _ _ _ I) by done. simpl. rewrite decide_False by set_solver. done.
  - intros w o. rewrite retired_lookup. destruct (own !! w) as [q|] eqn:Hw; [|done].
    pose proof (pi_back _ _ _ _ I w q Hw) as Hb. intros [= <-].
    destruct q as [| | | |D' d']; try done; simpl in *; case_decide; try done; simpl; set_solver.
  - intros D' vp e. rewrite (pi_users _ _ _ _ I), elem_of_difference, elem_of_singleton.
    split; [|naive_solver]. intros Hu. split_and!; try naive_solver.
    intros ->. apply (pi_users _ _ _ _ I) in Hu. congruence.
  - intros D' vp e He. apply (pi_user _ _ _ _ I) in He. by rewrite retired_lookup, He.
Qed.

(** [deallocuvm] frees a page before it clears the entry that maps it. *)
Lemma pt_kfree_clear k own users live D vp e :
  pt_inv k own users live -> users !! (D, vp) = Some e ->
  (forall D' vp' e', users !! (D', vp') = Some e' -> P2V (PTE_ADDR e') = P2V (PTE_ADDR e) ->
     (D', vp') = (D, vp)) ->
  let v := P2V (PTE_ADDR e) in
  let p := V2P (pte_ptr (k_mem k) D vp) in
  exists k', kfree v k = Ok tt k' /\ pte_ptr (k_mem k') D vp = pte_ptr (k_mem k) D vp
    /\ mach_equiv (k_mach k') (k_mach k) /\ use_lock k' = use_lock k
    /\ pt_inv (set_kmem (store32 (k_mem k') p 0) k') (<[v := OFree]> own) (delete (D, vp) users) live
    /\ forall w, page_ok w -> w <> v -> (forall d, own !! w <> Some (OTab D d)) ->
         same_page w (k_mem k) (store32 (k_mem k') p 0).
Proof.
  intros I Hu Hsole v p. pose proof NUSER_lt.
  destruct (proj1 (pi_users _ _ _ _ I _ _ _) Hu) as (HD & Hvp & Hval & HP).
  pose proof (pi_user _ _ _ _ I _ _ _ Hu) as Ho. fold v in Ho.
  pose proof (pi_page _ _ _ _ I _ _ Ho) as Hv.
  assert (Hptr : pte_ptr (k_mem k) D vp <> 0) by (apply present_ptr; by rewrite Hval).
  destruct (pte_ptr_in _ _ _ _ I D vp HD ltac:(lia) Hptr) as (t & Ht & Hot & _ & Ep & _).
  assert (Htv : t <> v) by (by eapply owner_ne; [exact Hot|exact Ho|]).
  destruct (pi_free _ _ _ _ I) as (l & Hl & Hiff).
  destruct (kfree_spec k l v) as (k' & E & Hl' & Hk' & Hm & Hu' & Hq);
    [apply I|done|done|rewrite Hiff; congruence|].
  assert (Hsame : forall w, page_ok w -> w <> v -> same_page w (k_mem k) (k_mem k')).
  { intros w Hw Hne. by apply (only_page_same v). }
  assert (Hst : forall m, only_page t m (store32 m p 0)).
  { intros m. unfold p. rewrite Ep. apply only_page_store; [done|..]; unfold PGSIZE; zdiv. }
  exists k'. split_and!; try done.
  - apply pte_ptr_same; [|lia]. apply Hsame; [by eapply live_page|].
    eapply owner_ne; [by apply (pi_dir _ _ _ _ I)|exact Ho|done].
  - pose proof (pt_store_pte _ _ _ _ I D vp 0 HD ltac:(lia) Hptr ltac:(lia) ltac:(done)) as I1.
    unfold upd_users in I1. rewrite (proj2 (Z.ltb_lt _ _)) in I1 by lia. change (has 0 PTE_P) with false in I1. cbv iota in I1.
    set (kA := set_kmem (store32 (k_mem k) p 0) k) in *.
    apply (pt_inv_update kA _ own); [done|done| |..].
    + exists (v :: l). split.
      * destruct Hl' as [Hc Hn]. split; [|done]. cbn [k_mem freelist set_kmem].
        apply (only_page_chain t (k_mem k')); [done| |done|done].
        rewrite not_elem_of_cons. split; [done|]. rewrite Hiff. congruence.
      * intros w. rewrite elem_of_cons, Hiff, lookup_insert. case_decide as Ew.
        -- split; [done|by left].
        -- split; [intros [->|?]; done|by right].
    + intros w o Hw ??? a Ha. apply rd_store32_congr. apply (Hsame w); [| |done].
      * by eapply (pi_page _ _ _ _ I).
      * intros ->. congruence.
    + intros w o. rewrite lookup_insert. case_decide; [by subst|apply I].
    + apply (plain_insert _ _ OUser); [done|by right; right|by left].
    + intros D' vp' e' [Hne He']%lookup_delete_Some. rewrite lookup_insert_ne.
      * by eapply (pi_user _ _ _ _ I).
      * intros Heq. destruct Hne. symmetry. by eapply Hsole.
  - intros w Hw Hne Hnt. eapply same_page_trans; [by apply Hsame|].
    apply (only_page_same t); [done|done| |done]. intros ->. by destruct (Hnt (vp / 1024)).
Qed.
End pt.
