(* ===== verification/Walk.v ===== *)
(** What [walkpgdir], [mappages], [setupkvm] and the tail of [freevm] do to
    the page-table invariant.

    Statements follow one pattern: the function returns, and the invariant
    holds afterwards for an owner map in which the directory has grown by
    some table pages; nothing a process or the kernel stores in its own
    pages has moved. *)

From S2P Require Import Prelude Params Mem Spinlock Kalloc Vm PageTable.
Open Scope Z_scope.
Open Scope xv6_scope.

(** The state with memory [m]. *)
Definition vput (m : mem) (s : vst) : vst := set_k (set_kmem m (v_k s)) s.

(** Only the allocator's part of the state changes, and it stays usable. *)
Record vframe (s s' : vst) : Prop := {
  vf_rest : s' = set_k (v_k s') s;
  vf_mach : mach_equiv (v_mach s') (v_mach s);
  vf_lock : use_lock (v_k s') = use_lock (v_k s)
}.

(** Free pages become tables of [D]; no other page changes hands. *)
Definition grown (D : Z) (own own' : gmap Z owner) : Prop :=
  forall v, own' !! v = own !! v \/ (own !! v = Some OFree /\ exists d, own' !! v = Some (OTab D d)).

(** Pages in use keep their contents. *)
Definition keep (own : gmap Z owner) (m m' : mem) : Prop :=
  forall v o, own !! v = Some o -> o = OUser \/ o = OKernel -> same_page v m m'.

Record walked (D : Z) (own : gmap Z owner) (s : vst) (own' : gmap Z owner) (s' : vst) : Prop := {
  wk_frame : vframe s s';
  wk_grown : grown D own own';
  wk_keep : keep own (v_mem s) (v_mem s')
}.

Lemma vframe_refl s : vframe s s.
Proof. split; [by destruct s|done|done]. Qed.

Lemma vframe_trans s1 s2 s3 : vframe s1 s2 -> vframe s2 s3 -> vframe s1 s3.
Proof.
  intros [E1 M1 L1] [E2 M2 L2]. split; [|by rewrite M2|congruence].
  rewrite E2. rewrite E1. by destruct s1.
Qed.

Lemma v_mem_vput m s : v_mem (vput m s) = m.
Proof. done. Qed.

Lemma vframe_put m s : vframe s (vput m s).
Proof. by split. Qed.

Lemma grown_refl D own : grown D own own.
Proof. by left. Qed.

Lemma grown_used D own own' v o :
  grown D own own' -> own !! v = Some o -> o <> OFree -> own' !! v = Some o.
Proof. intros Hg Hv Ho. destruct (Hg v) as [->|[? _]]; congruence. Qed.

Lemma grown_trans D own1 own2 own3 : grown D own1 own2 -> grown D own2 own3 -> grown D own1 own3.
Proof.
  intros H1 H2 v. destruct (H1 v) as [E1|(E1 & d & E1')]; destruct (H2 v) as [E2|(E2 & d' & E2')];
    rewrite ?E1, ?E2, ?E1' in *; try congruence; eauto.
Qed.

Lemma grown_insert D own v d :
  own !! v = Some OFree -> grown D own (<[v := OTab D d]> own).
Proof. intros Hv w. rewrite lookup_insert. case_decide; subst; eauto. Qed.

Lemma walked_refl D own s : walked D own s own s.
Proof. split; [apply vframe_refl|apply grown_refl|]. by intros v o _ _. Qed.

Lemma walked_trans D own1 s1 own2 s2 own3 s3 :
  walked D own1 s1 own2 s2 -> walked D own2 s2 own3 s3 -> walked D own1 s1 own3 s3.
Proof.
  intros [F1 G1 K1] [F2 G2 K2].
  split; [by eapply vframe_trans|by eapply grown_trans|].
  intros v o Hv Ho. eapply same_page_trans; [by eapply K1|].
  eapply K2; [|done]. eapply grown_used; [done|done|]. by destruct Ho; subst.
Qed.

Section walk.
Context `{Layout}.

(** * Loads and stores through kernel addresses *)

Lemma kload_page s t i :
  page_ok t -> 0 <= i -> i + 4 <= PGSIZE ->
  lift (kload (t + i)) s = Ok (load32 (v_mem s) (V2P t + i)) s.
Proof.
  intros Ht Hi Hn. erewrite lift_ok; [|unfold kload; rewrite page_kaddr by done; done].
  rewrite page_V2P_add by (done || lia). by destruct s.
Qed.

Lemma kstore_page s t i e :
  page_ok t -> 0 <= i -> i + 4 <= PGSIZE ->
  lift (kstore (t + i) e) s = Ok tt (vput (store32 (v_mem s) (V2P t + i) e) s).
Proof.
  intros Ht Hi Hn. erewrite lift_ok; [|unfold kstore; rewrite page_kaddr by done; done].
  by rewrite page_V2P_add by (done || lia).
Qed.

Lemma kmemset_page s t c :
  page_ok t -> lift (kmemset t c PGSIZE) s = Ok tt (vput (memset (v_mem s) (V2P t) c PGSIZE) s).
Proof.
  intros Ht. erewrite lift_ok; [done|]. unfold kmemset. by rewrite page_kaddr0.
Qed.

Lemma kmemmove_page s d t :
  page_ok d -> page_ok t ->
  lift (kmemmove d t PGSIZE) s = Ok tt (vput (memmove (v_mem s) (V2P d) (V2P t) PGSIZE) s).
Proof.
  intros Hd Ht. erewrite lift_ok; [done|]. unfold kmemmove. by rewrite !page_kaddr0.
Qed.

Section state.
Context (s : vst) own users live (I : pt_inv (v_k s) own users live).

Lemma kload_pde D d :
  D ∈ live -> 0 <= d < 1024 -> lift (kload (u32 (D + 4 * d))) s = Ok (pde_val (v_mem s) D d) s.
Proof.
  intros HD Hd. pose proof (live_page _ _ _ _ I D HD).
  rewrite page_u32_add by (done || unfold PGSIZE; lia). apply kload_page; [done|..]; unfold PGSIZE; lia.
Qed.

Lemma kstore_pde D d e :
  D ∈ live -> 0 <= d < 1024 ->
  lift (kstore (u32 (D + 4 * d)) e) s = Ok tt (vput (store32 (v_mem s) (V2P D + 4 * d) e) s).
Proof.
  intros HD Hd. pose proof (live_page _ _ _ _ I D HD).
  rewrite page_u32_add by (done || unfold PGSIZE; lia). apply kstore_page; [done|..]; unfold PGSIZE; lia.
Qed.

Lemma kload_pte D vp :
  D ∈ live -> 0 <= vp < 2 ^ 20 -> pte_ptr (v_mem s) D vp <> 0 ->
  lift (kload (pte_ptr (v_mem s) D vp)) s = Ok (pte_val (v_mem s) D vp) s.
Proof.
  intros HD Hvp Hp. destruct (pte_ptr_in _ _ _ _ I D vp HD Hvp Hp) as (t & Ht & _ & Et & Ev & _).
  rewrite pte_val_load by done. rewrite Ev, Et.
  apply kload_page; [done|..]; unfold PGSIZE; zdiv.
Qed.

Lemma kstore_pte D vp e :
  D ∈ live -> 0 <= vp < 2 ^ 20 -> pte_ptr (v_mem s) D vp <> 0 ->
  lift (kstore (pte_ptr (v_mem s) D vp) e) s
  = Ok tt (vput (store32 (v_mem s) (V2P (pte_ptr (v_mem s) D vp)) e) s).
Proof.
  intros HD Hvp Hp. destruct (pte_ptr_in _ _ _ _ I D vp HD Hvp Hp) as (t & Ht & _ & Et & Ev & _).
  rewrite Ev, Et. apply kstore_page; [done|..]; unfold PGSIZE; zdiv.
Qed.
End state.

(** The two indices [walkpgdir] uses are those of the virtual page. *)
Lemma PDX_vp va : 0 <= va < 2 ^ 32 -> PDX va = va / PGSIZE / 1024.
Proof. intros. rewrite PDX_eq by done. unfold PGSIZE. by rewrite Z.div_div by lia. Qed.

Lemma PTX_vp va : PTX va = (va / PGSIZE) mod 1024.
Proof. apply PTX_eq. Qed.

Lemma vp_range va : 0 <= va < 2 ^ 32 -> 0 <= va / PGSIZE < 2 ^ 20.
Proof. unfold PGSIZE. intros. zdiv. Qed.

(** * [walkpgdir] *)

(** Without [alloc] it is the hardware's walk and changes nothing. *)
Lemma walkpgdir_read s own users live D va :
  pt_inv (v_k s) own users live -> D ∈ live -> 0 <= va < 2 ^ 32 ->
  walkpgdir D va false s = Ok (pte_ptr (v_mem s) D (va / PGSIZE)) s.
Proof.
  intros I HD Hva. pose proof (vp_range va Hva). unfold walkpgdir, pte_ptr.
  erewrite bind_ok by (eapply kload_pde; [done|done|apply PDX_range]).
  rewrite PDX_vp by done. destruct (has _ PTE_P) eqn:E; [|done].
  unfold ret. f_equal. rewrite PTX_vp. apply page_u32_add; [|unfold PGSIZE; zdiv].
  eapply tab_page; try done. zdiv.
Qed.

(** [kalloc] and [kfree] from the virtual-memory layer. *)
Lemma v_kalloc s own users live :
  pt_inv (v_k s) own users live ->
  exists r s', lift kalloc s = Ok r s' /\ vframe s s' /\ v_mem s' = v_mem s
    /\ ((r = 0 /\ pt_inv (v_k s') own users live /\ forall v, own !! v <> Some OFree)
        \/ (page_ok r /\ own !! r = Some OFree /\ pt_inv (v_k s') (<[r := OKernel]> own) users live)).
Proof.
  intros I. destruct (pt_kalloc _ _ _ _ I) as (r & k' & E & Em & Ek & El & Hc).
  exists r, (set_k k' s). split_and!; [exact (lift_ok kalloc s r k' E)| |done|done]. by split.
Qed.

Lemma v_kfree s own users live v :
  pt_inv (v_k s) own users live -> own !! v = Some OKernel ->
  exists s', lift (kfree v) s = Ok tt s' /\ vframe s s' /\ only_page v (v_mem s) (v_mem s')
    /\ pt_inv (v_k s') (<[v := OFree]> own) users live.
Proof.
  intros I Hv. destruct (pt_kfree _ _ _ _ _ I Hv) as (k' & E & I' & Ho & Ek & El).
  exists (set_k k' s). split_and!; [exact (lift_ok (kfree v) s tt k' E)| |done|done]. by split.
Qed.

Definition same_ptes (live : gset Z) (m m' : mem) : Prop :=
  forall D vp, D ∈ live -> 0 <= vp < 2 ^ 20 -> pte_val m' D vp = pte_val m D vp.

Lemma pde_word t :
  page_ok t ->
  Z.lor (Z.lor (Z.lor (Z.lor (V2P t) PTE_P) PTE_W) PTE_U) PTE_COW = V2P t + 0x407.
Proof.
  intros Ht. rewrite <- !Z.lor_assoc. rewrite pte_lor; [done|by apply page_V2P_aligned|done].
Qed.

(** Clearing a fresh page and hanging it into the directory. *)
Definition new_table (D d r : Z) (s : vst) : vst :=
  let s2 := vput (memset (v_mem s) (V2P r) 0 PGSIZE) s in
  vput (store32 (v_mem s2) (V2P D + 4 * d) (V2P r + 0x407)) s2.

Lemma new_table_ok s own users live D d r :
  pt_inv (v_k s) own users live -> D ∈ live -> 0 <= d < 1024 -> own !! r = Some OKernel ->
  has (pde_val (v_mem s) D d) PTE_P = false ->
  let s' := new_table D d r s in
  pt_inv (v_k s') (<[r := OTab D d]> own) users live
  /\ same_ptes live (v_mem s) (v_mem s')
  /\ (forall v o, own !! v = Some o -> o = OUser \/ o = OKernel -> v <> r ->
       same_page v (v_mem s) (v_mem s'))
  /\ pde_val (v_mem s') D d = V2P r + 0x407.
Proof.
  intros I HD Hd Ho Hn. pose proof (pi_page _ _ _ _ I _ _ Ho) as Hr. unfold new_table.
  set (s2 := vput (memset _ _ _ _) s). cbv zeta.
  assert (O2 : only_page r (v_mem s) (v_mem s2)) by (by apply only_page_memset).
  assert (I2 : pt_inv (v_k s2) own users live) by (eapply pt_write; eauto).
  assert (N2 : has (pde_val (v_mem s2) D d) PTE_P = false).
  { rewrite (pde_val_same (v_mem s)); [done| |done].
    apply (only_page_same r); [done|by eapply live_page| |done].
    eapply owner_ne; [done|by apply (pi_dir _ _ _ _ I)|done]. }
  assert (Z2 : zero_page r (v_mem s2)) by (by apply memset_zero_page).
  split_and!.
  - by eapply pt_install.
  - intros D' vp' HD' Hvp'. rewrite v_mem_vput. etrans; [by eapply set_pde_pte|].
    eapply pte_val_same; try done.
    apply (only_page_tables _ r); [apply I|done| |done]. intros o ?. simplify_eq. auto.
  - intros v o Hv Hvo Hne. eapply same_page_trans.
    + apply (only_page_same r); [done| |done|exact O2]. by eapply (pi_page _ _ _ _ I).
    + eapply (set_pde_same _ _ _ _ I2); try done.
      eapply owner_ne; [done|by apply (pi_dir _ _ _ _ I)|]. by destruct Hvo; subst.
  - rewrite v_mem_vput. by rewrite (set_pde_val _ _ _ _ I2 D _ r 0x407), decide_True.
Qed.

(** With [alloc] the table exists afterwards, unless memory has run out. *)
Lemma walkpgdir_alloc s own users live D va :
  pt_inv (v_k s) own users live -> D ∈ live -> 0 <= va < 2 ^ 32 ->
  returns (walkpgdir D va true s) (fun r s' => exists own',
    pt_inv (v_k s') own' users live /\ walked D own s own' s'
    /\ same_ptes live (v_mem s) (v_mem s')
    /\ (r = 0 \/ r <> 0 /\ r = pte_ptr (v_mem s') D (va / PGSIZE))).
Proof.
  intros I HD Hva. pose proof (vp_range va Hva).
  assert (Hd : 0 <= va / PGSIZE / 1024 < 1024) by zdiv.
  unfold walkpgdir. rewrite PDX_vp, PTX_vp by done. cbv zeta.
  erewrite bind_ok by (by eapply kload_pde).
  destruct (has _ PTE_P) eqn:E; cbn [negb].
  - assert (Ht : page_ok (P2V (PTE_ADDR (pde_val (v_mem s) D (va / PGSIZE / 1024))))).
    { eapply tab_page; done. }
    exists own. split_and!; [done|apply walked_refl|done|right]. unfold pte_ptr. rewrite E.
    rewrite page_u32_add by (done || unfold PGSIZE; zdiv). split; [|done].
    pose proof (page_bounds _ Ht). unfold KERNBASE in *. zdiv.
  - destruct (v_kalloc _ _ _ _ I) as (r & s1 & E1 & F1 & M1 & [(-> & I1 & _)|(Hr & Ho & I1)]);
      erewrite bind_ok by exact E1.
    { exists own. split_and!; [done| |by intros D' vp' _ _; rewrite M1|by left].
      split; [done|apply grown_refl|]. rewrite M1. by intros v o _ _. }
    rewrite (proj2 (Z.eqb_neq _ _)) by (by apply page_nonzero).
    erewrite bind_ok by (by apply kmemset_page). rewrite pde_word by done.
    set (own1 := <[r := OKernel]> own) in *.
    assert (Hr1 : own1 !! r = Some OKernel) by apply lookup_insert_eq.
    destruct (new_table_ok s1 own1 users live D (va / PGSIZE / 1024) r)
      as (I3 & P3 & K3 & V3); [done..|by rewrite M1|].
    erewrite bind_ok by (eapply (kstore_pde _ own1); [by eapply pt_write; eauto using only_page_memset|done..]).
    exists (<[r := OTab D (va / PGSIZE / 1024)]> own1). rewrite <- M1. split_and!; [done|..|done|].
    + split.
      * eapply vframe_trans; [done|]. eapply vframe_trans; apply vframe_put.
      * unfold own1. rewrite insert_insert_eq. by apply grown_insert.
      * intros v o Hv Hvo. rewrite <- M1. assert (v <> r) by (intros ->; destruct Hvo; congruence).
        eapply K3; [|done|done]. unfold own1. by rewrite lookup_insert_ne.
    + right. unfold pte_ptr. fold (new_table D (va / PGSIZE / 1024) r s1). rewrite V3.
      destruct (set_pde_entry _ _ _ _ I1 r 0x407 Hr1 ltac:(done) eq_refl) as (_ & -> & -> & ->).
      rewrite page_u32_add by (done || unfold PGSIZE; zdiv). split; [|done].
      pose proof (page_bounds _ Hr). unfold KERNBASE in *. zdiv.
Qed.

(** * [mappages] *)

(** The word [mappages] stores, and what [n] consecutive stores do to the
    user mappings. *)
Definition map_word (pa perm : Z) : Z := Z.lor (Z.lor pa perm) PTE_P.

Fixpoint mapped (users : gmap (Z * Z) Z) (D vp pa perm : Z) (n : nat) : gmap (Z * Z) Z :=
  match n with
  | O => users
  | S n => mapped (upd_users users D vp (map_word pa perm)) D (vp + 1) (pa + PGSIZE) perm n
  end.

Lemma map_word_parts pa perm :
  pa mod PGSIZE = 0 -> 0 <= pa < 2 ^ 32 -> 0 <= perm < PGSIZE ->
  0 <= map_word pa perm < 2 ^ 32 /\ PTE_ADDR (map_word pa perm) = pa
  /\ has (map_word pa perm) PTE_P = true
  /\ forall g, 0 <= g < PGSIZE -> has (map_word pa perm) g = has (Z.lor perm PTE_P) g.
Proof.
  intros Ha Hr Hp. assert (Hf : 0 <= Z.lor perm PTE_P < PGSIZE) by (by apply (lor_bound _ _ 12)).
  unfold map_word. rewrite <- Z.lor_assoc, pte_lor by done. split_and!.
  1-2: apply pte_range; done || lia.
  - by apply pte_addr.
  - rewrite pte_has by done. unfold has. rewrite Z.land_lor_distr_l.
    change (Z.land PTE_P PTE_P) with 1. rewrite (Z.eqb_sym _ 0). apply negb_true_iff, Z.eqb_neq.
    intros E. symmetry in E. apply Z.lor_eq_0_iff in E. lia.
  - intros g Hg. by apply pte_has.
Qed.

Lemma mapped_kernel users D vp pa perm n : NUSER <= vp -> mapped users D vp pa perm n = users.
Proof.
  revert users vp pa. induction n as [|n IH]; intros users vp pa Hv; simpl; [done|].
  rewrite IH by lia. unfold upd_users. by rewrite (proj2 (Z.ltb_ge _ _)).
Qed.

(** One entry. *)
Lemma map_one s own users live D vp pa perm :
  pt_inv (v_k s) own users live -> D ∈ live -> 0 <= vp < 2 ^ 20 ->
  pa mod PGSIZE = 0 -> 0 <= pa < 2 ^ 32 -> 0 <= perm < PGSIZE ->
  pte_ptr (v_mem s) D vp <> 0 ->
  (vp < NUSER -> own !! P2V pa = Some OUser) ->
  let s' := vput (store32 (v_mem s) (V2P (pte_ptr (v_mem s) D vp)) (map_word pa perm)) s in
  pt_inv (v_k s') own (upd_users users D vp (map_word pa perm)) live /\ walked D own s own s'
  /\ forall D' vp', D' ∈ live -> 0 <= vp' < 2 ^ 20 ->
     pte_val (v_mem s') D' vp' =
     if decide (D' = D /\ vp' = vp) then map_word pa perm else pte_val (v_mem s) D' vp'.
Proof.
  intros I HD Hvp Ha Hr Hp Hptr Hu. destruct (map_word_parts pa perm Ha Hr Hp) as (Hw & Hwa & _).
  cbv zeta. split_and!.
  - apply (pt_store_pte _ _ _ _ I D vp); try done. intros. rewrite Hwa. auto.
  - split; [apply vframe_put|apply grown_refl|]. intros v o Hv Ho.
    eapply (set_pte_same _ _ _ _ I D vp); try done. by destruct Ho; subst.
  - intros D' vp' HD' Hvp'. rewrite v_mem_vput. by eapply set_pte_val.
Qed.

(** One iteration of the loop, with the rest of it as [k]. *)
Lemma map_step s own users live D vp pa perm (k : M vst Z) (Q : Z -> vst -> Prop) :
  pt_inv (v_k s) own users live -> D ∈ live -> 0 <= vp < 2 ^ 20 ->
  pa mod PGSIZE = 0 -> 0 <= pa < 2 ^ 32 -> 0 <= perm < PGSIZE ->
  has (pte_val (v_mem s) D vp) PTE_P = false ->
  (vp < NUSER -> own !! P2V pa = Some OUser) ->
  (forall s1 own1, pt_inv (v_k s1) own1 users live -> walked D own s own1 s1 ->
     same_ptes live (v_mem s) (v_mem s1) -> Q (-1) s1) ->
  (forall s2 own2, pt_inv (v_k s2) own2 (upd_users users D vp (map_word pa perm)) live ->
     walked D own s own2 s2 ->
     (forall D' vp', D' ∈ live -> 0 <= vp' < 2 ^ 20 -> pte_val (v_mem s2) D' vp' =
        if decide (D' = D /\ vp' = vp) then map_word pa perm else pte_val (v_mem s) D' vp') ->
     returns (k s2) Q) ->
  returns ((pte <- walkpgdir D (vp * PGSIZE) true ;;
            if pte =? 0 then ret (-1)
            else e <- lift (kload pte) ;;
                 if has e PTE_P then panic "remap"
                 else lift (kstore pte (Z.lor (Z.lor pa perm) PTE_P)) ;;; k) s) Q.
Proof.
  intros I HD Hvp Ha Hr Hp Habs Hu Qfail Qok. apply returns_bind.
  eapply returns_mono; [|apply (walkpgdir_alloc _ _ _ _ _ _ I HD); unfold PGSIZE; lia].
  intros r s1 (own1 & I1 & W1 & P1 & Hc). rewrite Z_div_mult in Hc by done.
  destruct Hc as [->|[Hr0 ->]]; [by apply (Qfail s1 own1)|].
  rewrite (proj2 (Z.eqb_neq _ _)) by done.
  erewrite bind_ok by (eapply kload_pte; done). rewrite P1, Habs by done.
  erewrite bind_ok by (eapply kstore_pte; done).
  destruct (map_one s1 own1 users live D vp pa perm) as (I2 & W2 & P2); try done.
  { intros Hlt. eapply grown_used; [apply W1|auto|done]. }
  eapply Qok; [done|by eapply walked_trans|]. intros D' vp' HD' Hvp'. rewrite P2 by done.
  case_decide; [done|]. by apply P1.
Qed.

Lemma mappages_loop_ok n s own users live D vp pa perm :
  pt_inv (v_k s) own users live -> D ∈ live -> 0 <= vp -> vp + Z.of_nat n < 2 ^ 20 ->
  pa mod PGSIZE = 0 -> 0 <= pa -> pa + Z.of_nat n * PGSIZE < 2 ^ 32 -> 0 <= perm < PGSIZE ->
  (forall i, 0 <= i <= Z.of_nat n -> has (pte_val (v_mem s) D (vp + i)) PTE_P = false) ->
  (forall i, 0 <= i <= Z.of_nat n -> vp + i < NUSER -> own !! P2V (pa + i * PGSIZE) = Some OUser) ->
  returns (mappages_loop D (vp * PGSIZE) ((vp + Z.of_nat n) * PGSIZE) pa perm (S n) s)
    (fun r s' => exists own' j,
      pt_inv (v_k s') own' (mapped users D vp pa perm j) live /\ walked D own s own' s'
      /\ (r = 0 /\ j = S n \/ r = -1 /\ (j <= n)%nat)
      /\ forall D' vp', D' ∈ live -> 0 <= vp' < 2 ^ 20 ->
         pte_val (v_mem s') D' vp' =
         if decide (D' = D /\ vp <= vp' < vp + Z.of_nat j)
         then map_word (pa + (vp' - vp) * PGSIZE) perm else pte_val (v_mem s) D' vp').
Proof.
  assert (HG : PGSIZE = 4096) by done. revert s own users vp pa.
  induction n as [|n IH]; intros s own users vp pa I HD Hvp Hn Ha Hr Hr' Hp Habs Hu;
    cbn [mappages_loop];
    (apply (map_step s own users live D vp pa perm);
     [done|done|lia|done|lia|done
     |rewrite <- (Z.add_0_r vp); apply Habs; lia
     |rewrite <- (Z.add_0_r vp), <- (Z.add_0_r pa), <- (Z.mul_0_l PGSIZE) at 1; apply Hu; lia
     |intros s1 own1 I1 W1 P1; exists own1, O; split_and!; [done|done|right; split; [done|lia]|];
      intros; rewrite decide_False by lia; by apply P1
     |intros s2 own2 I2 W2 P2]).
  - rewrite (proj2 (Z.eqb_eq _ _)) by lia. exists own2, 1%nat. cbn [mapped].
    split_and!; [done|done|by left|]. intros D' vp' HD' Hvp'. rewrite P2 by done.
    destruct (decide (D' = D /\ vp' = vp)) as [[-> ->]|Hne].
    + rewrite decide_True by lia. f_equal. lia.
    + rewrite decide_False; [done|]. intros [-> ?]. apply Hne. split; [done|lia].
  - rewrite (proj2 (Z.eqb_neq _ _)) by lia.
    replace (u32 (vp * PGSIZE + PGSIZE)) with ((vp + 1) * PGSIZE) by (rewrite u32_id; lia).
    replace (vp + Z.of_nat (S n)) with ((vp + 1) + Z.of_nat n) by lia.
    rewrite (u32_id (pa + PGSIZE)) by lia.
    eapply returns_mono; [|apply (IH s2 own2 (upd_users users D vp (map_word pa perm)))];
      [|done|done|lia|lia|rewrite HG in *; zdiv|lia|lia|done| |].
    + intros r s3 (own3 & j & I3 & W3 & Hj & P3). exists own3, (S j).
      split_and!; [done|by eapply walked_trans|naive_solver lia|].
      intros D' vp' HD' Hvp'. rewrite P3, P2 by done.
      destruct (decide (D' = D /\ vp' = vp)) as [[-> ->]|Hne].
      * rewrite decide_False, decide_True by lia. f_equal. lia.
      * destruct (decide (D' = D /\ vp + 1 <= vp' < vp + 1 + Z.of_nat j)) as [[-> ?]|Hne'].
        -- rewrite decide_True by lia. f_equal. lia.
        -- rewrite decide_False; [done|]. intros [-> ?].
           destruct (decide (vp' = vp)); [by apply Hne|]. apply Hne'. lia.
    + intros i Hi. rewrite P2, decide_False by (done || lia).
      replace (vp + 1 + i) with (vp + (i + 1)) by lia. apply Habs. lia.
    + intros i Hi Hlt. eapply grown_used; [apply W2| |done].
      replace (pa + PGSIZE + i * PGSIZE) with (pa + (i + 1) * PGSIZE) by lia. apply Hu; lia.
Qed.

(** The call for a page-aligned range. *)
Lemma mappages_range n D vp pa perm s :
  0 <= vp -> vp + Z.of_nat n < 2 ^ 20 ->
  mappages D (vp * PGSIZE) (u32 ((Z.of_nat n + 1) * PGSIZE)) pa perm s
  = mappages_loop D (vp * PGSIZE) ((vp + Z.of_nat n) * PGSIZE) pa perm (S n) s.
Proof.
  intros Hvp Hn. unfold mappages. assert (HG : PGSIZE = 4096) by done.
  replace (u32 (vp * PGSIZE + u32 ((Z.of_nat n + 1) * PGSIZE) - 1))
    with ((vp + Z.of_nat n) * PGSIZE + (PGSIZE - 1)).
  2:{ rewrite <- u32_sub_l, u32_add_r, u32_sub_l, u32_id; lia. }
  rewrite !PGROUNDDOWN_eq by (rewrite HG; lia).
  replace (vp * PGSIZE - (vp * PGSIZE) mod PGSIZE) with (vp * PGSIZE) by (rewrite HG; zdiv).
  replace ((vp + Z.of_nat n) * PGSIZE + (PGSIZE - 1) - ((vp + Z.of_nat n) * PGSIZE + (PGSIZE - 1)) mod PGSIZE)
    with ((vp + Z.of_nat n) * PGSIZE) by (rewrite HG; zdiv).
  do 2 f_equal. rewrite u32_id by lia.
  replace ((vp + Z.of_nat n) * PGSIZE - vp * PGSIZE) with (Z.of_nat n * PGSIZE) by lia.
  rewrite Z_div_mult by done. lia.
Qed.

(** Mapping one user page. *)
Lemma mappages_user s own users live D vp pa perm :
  pt_inv (v_k s) own users live -> D ∈ live -> 0 <= vp < NUSER ->
  pa mod PGSIZE = 0 -> 0 <= pa < 2 ^ 32 -> 0 <= perm < PGSIZE ->
  users !! (D, vp) = None -> own !! P2V pa = Some OUser ->
  returns (mappages D (vp * PGSIZE) PGSIZE pa perm s) (fun r s' => exists own',
    walked D own s own' s'
    /\ (r = 0 /\ pt_inv (v_k s') own' (<[(D, vp) := map_word pa perm]> users) live
        \/ r = -1 /\ pt_inv (v_k s') own' users live)).
Proof.
  intros I HD Hvp Ha Hr Hp Hno Hu. pose proof NUSER_lt.
  change (mappages D (vp * PGSIZE) PGSIZE pa perm s)
    with (mappages D (vp * PGSIZE) (u32 ((Z.of_nat 0 + 1) * PGSIZE)) pa perm s).
  rewrite mappages_range by lia.
  eapply returns_mono; [|apply (mappages_loop_ok 0 _ _ _ _ _ _ _ _ I HD); try lia; try done].
  - intros r s' (own' & j & I' & W & Hj & _). exists own'. split; [done|].
    destruct Hj as [[-> ->]|[-> Hj]]; [left|right; destruct j; [done|lia]]. split; [done|].
    cbn [mapped] in I'. unfold upd_users in I'. rewrite (proj2 (Z.ltb_lt _ _)) in I' by lia.
    destruct (map_word_parts pa perm Ha Hr Hp) as (_ & _ & Hh & _). by rewrite Hh in I'.
  - intros i Hi. assert (i = 0) as -> by lia. rewrite Z.add_0_r.
    destruct (has _ _) eqn:E; [|done]. assert (users !! (D, vp) = Some (pte_val (v_mem s) D vp)); [|congruence].
    by apply (pi_users _ _ _ _ I).
  - intros i Hi _. assert (i = 0) as -> by lia. by rewrite Z.mul_0_l, Z.add_0_r.
Qed.
End walk.

(** * Reference counting of user pages

    [pg_refcount[pa >> PGSHIFT]] is meant to be the number of user mappings
    of the page.  [acct] says that it is, together with what copy-on-write
    needs: a page mapped twice is mapped read-only, and always at the same
    virtual address. *)

(** The page an entry maps, as a kernel address. *)
Definition frame (e : Z) : Z := P2V (PTE_ADDR e).

(** How many entries map the page [v]. *)
Definition sharers (users : gmap (Z * Z) Z) (v : Z) : gmap (Z * Z) Z :=
  filter (fun kv => frame (snd kv) = v) users.

Definition mapcount (users : gmap (Z * Z) Z) (v : Z) : Z := Z.of_nat (size (sharers users v)).

Lemma mapcount_nonneg users v : 0 <= mapcount users v.
Proof. unfold mapcount. lia. Qed.

Lemma mapcount_insert users k e v :
  users !! k = None ->
  mapcount (<[k := e]> users) v = mapcount users v + if decide (frame e = v) then 1 else 0.
Proof.
  intros Hk. unfold mapcount, sharers. rewrite map_filter_insert. simpl. case_decide.
  - rewrite map_size_insert_None; [lia|]. apply map_lookup_filter_None. by left.
  - rewrite delete_id by done. lia.
Qed.

Lemma mapcount_delete users k e v :
  users !! k = Some e ->
  mapcount (delete k users) v = mapcount users v - if decide (frame e = v) then 1 else 0.
Proof.
  intros Hk. rewrite <- (insert_delete_id users k e Hk) at 2.
  rewrite mapcount_insert by apply lookup_delete_eq. lia.
Qed.

Lemma mapcount_replace users k e e' v :
  users !! k = Some e ->
  mapcount (<[k := e']> users) v = mapcount users v
    - (if decide (frame e = v) then 1 else 0) + (if decide (frame e' = v) then 1 else 0).
Proof.
  intros Hk. rewrite <- insert_delete_eq, mapcount_insert by apply lookup_delete_eq.
  by rewrite (mapcount_delete _ _ e).
Qed.

Lemma mapcount_pos users v : 0 < mapcount users v <-> exists k e, users !! k = Some e /\ frame e = v.
Proof.
  unfold mapcount. split.
  - intros Hp. destruct (map_choose (sharers users v)) as (k & e & He).
    { intros E. rewrite E, map_size_empty in Hp. lia. }
    apply map_lookup_filter_Some in He as [? ?]. eauto.
  - intros (k & e & He & Hf).
    assert (Hs : sharers users v !! k = Some e) by (by apply map_lookup_filter_Some).
    rewrite <- (insert_delete_id _ _ _ Hs), map_size_insert_None by apply lookup_delete_eq. lia.
Qed.

(** The sole mapping of a page. *)
Lemma mapcount_one users v k e :
  mapcount users v = 1 -> users !! k = Some e -> frame e = v ->
  forall k' e', users !! k' = Some e' -> frame e' = v -> k' = k.
Proof.
  intros H1 Hk Hf k' e' Hk' Hf'. destruct (decide (k' = k)) as [|Hne]; [done|].
  pose proof (mapcount_delete users k e v Hk) as Hd. rewrite decide_True in Hd by done.
  assert (0 < mapcount (delete k users) v); [|lia].
  apply mapcount_pos. exists k', e'. by rewrite lookup_delete_ne.
Qed.

(** Mapped at one virtual page only, a page has at most one mapping per
    address space. *)
Lemma mapcount_bound users v (live : gset Z) :
  (forall D vp e, users !! (D, vp) = Some e -> frame e = v -> D ∈ live) ->
  (forall D vp e D' vp' e', users !! (D, vp) = Some e -> users !! (D', vp') = Some e' ->
     frame e = v -> frame e' = v -> vp = vp') ->
  mapcount users v <= Z.of_nat (size live).
Proof.
  intros Hl Hv. unfold mapcount. apply Nat2Z.inj_le.
  rewrite <- length_map_to_list, <- (length_fmap (fun kv => fst (fst kv))).
  unfold size, set_size. apply submseteq_length, NoDup_submseteq.
  - apply NoDup_fmap_2_strong; [|apply NoDup_map_to_list].
    intros [[D vp] e] [[D' vp'] e'] He%elem_of_map_to_list He'%elem_of_map_to_list.
    apply map_lookup_filter_Some in He as [He Hf].
    apply map_lookup_filter_Some in He' as [He' Hf']. simpl in *. intros ->.
    pose proof (Hv _ _ _ _ _ _ He He' Hf Hf'). subst. congruence.
  - intros D ([[D' vp] e] & -> & He%elem_of_map_to_list)%list_elem_of_fmap.
    apply map_lookup_filter_Some in He as [He Hf]. simpl. apply elem_of_elements. eauto.
Qed.

(** ** The array index *)

Definition pageno (v : Z) : Z := Z.shiftr (V2P v) PGSHIFT.

Section acct.
Context `{Layout}.

Lemma pageno_ok v : page_ok v -> refcount_ok (pageno v) = true.
Proof.
  intros Hv. destruct (page_bounds v Hv) as (_ & _ & Hr). unfold refcount_ok, pageno, PGSHIFT, PHYSTOP in *.
  rewrite !Z.shiftr_div_pow2 by lia. apply andb_true_iff. rewrite Z.leb_le, Z.ltb_lt. zdiv.
Qed.

Lemma pageno_inj v w : page_ok v -> page_ok w -> pageno v = pageno w -> v = w.
Proof.
  intros Hv Hw. destruct (page_bounds v Hv) as (_ & Ev & _). destruct (page_bounds w Hw) as (_ & Ew & _).
  pose proof (page_V2P_aligned v Hv). pose proof (page_V2P_aligned w Hw).
  unfold pageno, PGSHIFT, PGSIZE in *. rewrite !Z.shiftr_div_pow2 by lia. zdiv.
Qed.

Record acct (ref : gmap Z Z) (own : gmap Z owner) (users : gmap (Z * Z) Z) : Prop := {
  ac_ref : forall v, page_ok v -> default 0 (ref !! pageno v) = mapcount users v;
  ac_used : forall v, own !! v = Some OUser -> 0 < mapcount users v;
  ac_vp : forall D vp e D' vp' e', users !! (D, vp) = Some e -> users !! (D', vp') = Some e' ->
    frame e = frame e' -> vp = vp';
  ac_excl : forall D vp e, users !! (D, vp) = Some e -> has e PTE_W = true ->
    mapcount users (frame e) = 1
}.

Lemma acct_own ref own own' users :
  (forall v, own' !! v = Some OUser -> own !! v = Some OUser) ->
  acct ref own users -> acct ref own' users.
Proof. intros Hs [Hr Hu Hv He]. split; auto. Qed.

(** The invariant of the virtual-memory system.  A [char] counts the
    mappings of a page, at most one per address space. *)
Record cow_inv (s : vst) (own : gmap Z owner) (users : gmap (Z * Z) Z) (live : gset Z) : Prop := {
  ci_pt : pt_inv (v_k s) own users live;
  ci_acct : acct (pg_refcount s) own users;
  ci_size : Z.of_nat (size live) <= 127
}.

Lemma cow_mapcount s own users live v : cow_inv s own users live -> 0 <= mapcount users v <= 127.
Proof.
  intros [I A Hs]. split; [apply mapcount_nonneg|]. transitivity (Z.of_nat (size live)); [|done].
  apply mapcount_bound.
  - intros D vp e He _. by apply (pi_users _ _ _ _ I) in He as [? _].
  - intros D vp e D' vp' e' He He' Hf Hf'. eapply (ac_vp _ _ _ A); try done. congruence.
Qed.

(** The counter never wraps: it reads as the number of mappings. *)
Lemma read_ref_ok s own users live v :
  cow_inv s own users live -> page_ok v -> read_ref (pageno v) s = Ok (mapcount users v) s.
Proof.
  intros C Hv. unfold read_ref. rewrite pageno_ok by done. unfold refcount.
  by rewrite (ac_ref _ _ _ (ci_acct _ _ _ _ C)).
Qed.

(** Changing one counter. *)
Definition bump (v n : Z) (s : vst) : vst := set_refcount (<[pageno v := n]> (pg_refcount s)) s.

Lemma add_ref_ok s v d n :
  page_ok v -> refcount s (pageno v) = n -> -128 <= n + d < 128 ->
  add_ref (pageno v) d s = Ok (n + d) (bump v (n + d) s).
Proof.
  intros Hv Hn Hd. unfold add_ref. rewrite pageno_ok by done. rewrite Hn.
  rewrite s8_id by lia. done.
Qed.

Lemma bump_ref v n w (ref : gmap Z Z) :
  page_ok v -> page_ok w ->
  default 0 (<[pageno v := n]> ref !! pageno w) = if decide (w = v) then n else default 0 (ref !! pageno w).
Proof.
  intros Hv Hw. rewrite lookup_insert. case_decide as E.
  - apply pageno_inj in E as ->; [|done..]. by rewrite decide_True.
  - rewrite decide_False; [done|]. by intros ->.
Qed.

(** * Removing one mapping *)

(** Dropping an entry keeps the accounts, provided the page it mapped leaves
    the user pages with its last mapping. *)
Lemma acct_delete ref own own' users k e :
  acct ref own users -> users !! k = Some e -> page_ok (frame e) ->
  (forall v, own' !! v = Some OUser -> own !! v = Some OUser) ->
  (mapcount users (frame e) = 1 -> own' !! frame e <> Some OUser) ->
  acct (<[pageno (frame e) := mapcount users (frame e) - 1]> ref) own' (delete k users).
Proof.
  intros A Hk Hp Hsub Hlast. split.
  - intros v Hv. rewrite bump_ref by done. rewrite (mapcount_delete _ _ e) by done.
    destruct (decide (v = frame e)) as [->|Hne].
    + by rewrite decide_True.
    + rewrite decide_False by done. rewrite (ac_ref _ _ _ A) by done. lia.
  - intros v Hv. rewrite (mapcount_delete _ _ e) by done.
    pose proof (ac_used _ _ _ A v (Hsub v Hv)). case_decide; [subst v|lia].
    destruct (decide (mapcount users (frame e) = 1)); [by destruct Hlast|lia].
  - intros D vp e1 D' vp' e1' [_ ?]%lookup_delete_Some [_ ?]%lookup_delete_Some.
    by eapply (ac_vp _ _ _ A).
  - intros D vp e1 [Hne He1]%lookup_delete_Some HW.
    rewrite (mapcount_delete _ _ e), (ac_excl _ _ _ A D vp e1) by done.
    case_decide as E; [|lia]. destruct Hne.
    eapply (mapcount_one users (frame e1)); eauto using ac_excl.
Qed.
End acct.
