(* ===== verification/Uvm.v ===== *)
(** Address spaces: [deallocuvm], [freevm], [setupkvm] and [allocuvm] of
    [vm.c] against the invariant of [Walk.v]. *)

From S2P Require Import Prelude Params Mem Spinlock Kalloc Vm PageTable Walk.
Open Scope Z_scope.
Open Scope xv6_scope.

(** Only memory, the allocator and the reference counts change. *)
Record uframe (s s' : vst) : Prop := {
  uf_rest : s' = set_refcount (pg_refcount s') (set_k (v_k s') s);
  uf_mach : mach_equiv (v_mach s') (v_mach s);
  uf_lock : use_lock (v_k s') = use_lock (v_k s)
}.

Lemma uframe_refl s : uframe s s.
Proof. split; [by destruct s|done|done]. Qed.

Lemma uframe_trans s1 s2 s3 : uframe s1 s2 -> uframe s2 s3 -> uframe s1 s3.
Proof.
  intros [E1 M1 L1] [E2 M2 L2]. split; [|by rewrite M2|congruence].
  rewrite E2, E1. by destruct s1.
Qed.

Lemma vframe_uframe s s' : vframe s s' -> uframe s s'.
Proof. intros [E M L]. split; [|done|done]. rewrite E. by destruct s. Qed.

Lemma uframe_bump v n s : uframe s (bump v n s).
Proof. split; [by destruct s|done|done]. Qed.

#[export] Hint Resolve uframe_refl vframe_uframe : xv6.

(** Pages are only given up: none is taken into use, none is lost, kernel
    pages stay, and what stays keeps its contents. *)
Record shrink (own : gmap Z owner) (s : vst) (own' : gmap Z owner) (s' : vst) : Prop := {
  sh_frame : uframe s s';
  sh_used : forall v o, own' !! v = Some o -> o <> OFree -> own !! v = Some o;
  sh_kernel : forall v, own !! v = Some OKernel -> own' !! v = Some OKernel;
  sh_dom : forall v, is_Some (own !! v) -> is_Some (own' !! v);
  sh_keep : forall v o, own' !! v = Some o -> o = OUser \/ o = OKernel ->
    same_page v (v_mem s) (v_mem s')
}.

Lemma shrink_refl own s : shrink own s own s.
Proof. split; try done. apply uframe_refl. Qed.

Lemma shrink_trans own1 s1 own2 s2 own3 s3 :
  shrink own1 s1 own2 s2 -> shrink own2 s2 own3 s3 -> shrink own1 s1 own3 s3.
Proof.
  intros [F1 U1 K1 D1 S1] [F2 U2 K2 D2 S2]. split; auto.
  - by eapply uframe_trans.
  - intros v o Ho Hc. assert (o <> OFree) by (by destruct Hc; subst).
    eapply same_page_trans; [by eapply S1; [apply U2|]|by eapply S2].
Qed.

(** The mappings of [D] for the virtual pages from [lo] up to [hi] are gone. *)
Definition unmap_range (users : gmap (Z * Z) Z) (D lo hi : Z) : gmap (Z * Z) Z :=
  filter (fun kv => ~ (fst (fst kv) = D /\ lo <= snd (fst kv) < hi)) users.

Lemma unmap_range_lookup users D lo hi D' vp :
  unmap_range users D lo hi !! (D', vp) =
  if decide (D' = D /\ lo <= vp < hi) then None else users !! (D', vp).
Proof.
  unfold unmap_range. apply option_eq. intros e. rewrite map_lookup_filter_Some. simpl.
  case_decide; naive_solver.
Qed.

Lemma unmap_range_skip users D lo lo' hi :
  lo <= lo' -> (forall vp, lo <= vp < lo' -> users !! (D, vp) = None) ->
  unmap_range users D lo hi = unmap_range users D lo' hi.
Proof.
  intros Hle Hno. apply map_eq. intros [D' vp]. rewrite !unmap_range_lookup.
  destruct (decide (D' = D /\ lo' <= vp < hi)) as [[-> ?]|Hn].
  - by rewrite decide_True by lia.
  - case_decide as E; [|done]. destruct E as [-> ?]. symmetry. apply Hno.
    destruct (decide (vp < lo')); [lia|]. destruct Hn. lia.
Qed.

Lemma unmap_range_step users D lo hi :
  lo < hi -> unmap_range users D lo hi = unmap_range (delete (D, lo) users) D (lo + 1) hi.
Proof.
  intros Hlt. apply map_eq. intros [D' vp]. rewrite !unmap_range_lookup, lookup_delete.
  destruct (decide ((D, lo) = (D', vp))) as [[= <- <-]|Hne].
  - rewrite decide_True by lia. by case_decide.
  - destruct (decide (D' = D /\ lo <= vp < hi)) as [[-> ?]|Hn].
    + rewrite decide_True; [done|]. split; [done|].
      assert (vp <> lo) by congruence. lia.
    + rewrite decide_False; [done|]. intros [-> ?]. apply Hn. lia.
Qed.

Lemma unmap_range_none users D lo hi : hi <= lo -> unmap_range users D lo hi = users.
Proof.
  intros Hle. apply map_eq. intros [D' vp]. rewrite unmap_range_lookup.
  case_decide; [lia|done].
Qed.

Section uvm.
Context `{Layout}.

(** * Unmapping one page *)

(** The body of the loop of [deallocuvm] for a present entry. *)
Definition unmap (pte e : Z) : M vst unit :=
  let pa := PTE_ADDR e in
  if pa =? 0 then panic "kfree"
  else
    n <- add_ref (Z.shiftr pa PGSHIFT) (-1) ;;
    when (n =? 0) (lift (kfree (P2V pa))) ;;;
    lift (kstore pte 0).

Lemma entry_frame s own users live D vp e :
  cow_inv s own users live -> users !! (D, vp) = Some e ->
  page_ok (frame e) /\ PTE_ADDR e = V2P (frame e) /\ own !! frame e = Some OUser
  /\ 0 <= e < 2 ^ 32 /\ PTE_ADDR e <> 0.
Proof.
  intros C Hu. pose proof (ci_pt _ _ _ _ C) as I.
  assert (Hp : page_ok (frame e)) by (by eapply user_page).
  pose proof (user_range _ _ _ _ I _ _ _ Hu) as Hr.
  assert (Ha : PTE_ADDR e = V2P (frame e)) by (by apply PTE_ADDR_page).
  split_and!; [done|done|by eapply (pi_user _ _ _ _ I)|lia|lia|].
  rewrite Ha. destruct (page_bounds _ Hp) as (_ & -> & _). pose proof (page_lo _ Hp).
  pose proof data_after_text. pose proof data_before_end. unfold KERNLINK, EXTMEM in *. lia.
Qed.

Lemma unmap_ok s own users live D vp e :
  cow_inv s own users live -> users !! (D, vp) = Some e ->
  returns (unmap (pte_ptr (v_mem s) D vp) e s) (fun _ s' => exists own',
    cow_inv s' own' (delete (D, vp) users) live /\ shrink own s own' s'
    /\ own' = if decide (mapcount users (frame e) = 1) then <[frame e := OFree]> own else own).
Proof.
  intros C Hu. destruct (entry_frame _ _ _ _ _ _ _ C Hu) as (Hp & Ha & Ho & Hr & Hz).
  pose proof (ci_pt _ _ _ _ C) as I. pose proof (ci_acct _ _ _ _ C) as A. pose proof NUSER_lt.
  destruct (proj1 (pi_users _ _ _ _ I _ _ _) Hu) as (HD & Hvp & Hval & HP).
  pose proof (cow_mapcount _ _ _ _ (frame e) C) as Hb.
  assert (Hptr : pte_ptr (v_mem s) D vp <> 0) by (apply present_ptr; by rewrite Hval).
  unfold unmap. cbv zeta. rewrite (proj2 (Z.eqb_neq _ _)) by done.
  rewrite Ha. fold (pageno (frame e)). rewrite <- Ha. fold (frame e).
  erewrite bind_ok by (apply add_ref_ok; [done|by apply (ac_ref _ _ _ A)|lia]).
  set (s1 := bump _ _ s).
  assert (I1 : pt_inv (v_k s1) own users live) by done.
  assert (A1 : forall own', (forall v, own' !! v = Some OUser -> own !! v = Some OUser) ->
    (mapcount users (frame e) = 1 -> own' !! frame e <> Some OUser) ->
    acct (pg_refcount s1) own' (delete (D, vp) users)).
  { intros own' Hsub Hl. unfold s1, bump. cbn [pg_refcount set_refcount]. replace (mapcount users (frame e) + -1)
      with (mapcount users (frame e) - 1) by lia. by apply (acct_delete _ own). }
  case_decide as E1.
  - rewrite (proj2 (Z.eqb_eq _ _)) by lia. simpl when.
    destruct (pt_kfree_clear _ _ _ _ D vp e I1 Hu) as (k' & Ek & Ep & Hm & Hl & I2 & Hs).
    { intros D' vp' e' Hu' Hf. by eapply (mapcount_one users (frame e)). }
    fold (frame e) in *. erewrite bind_ok by exact (lift_ok (kfree (frame e)) s1 tt k' Ek).
    destruct (pte_ptr_in _ _ _ _ I D vp HD ltac:(lia) Hptr) as (t & Ht & Hot & Et & Ev & _).
    rewrite Et, kstore_page by (done || unfold PGSIZE; zdiv). rewrite <- Ev.
    eexists. split_and!; [split|split|done].
    + exact I2.
    + apply A1.
      * intros v. rewrite lookup_insert. case_decide; [discriminate|done].
      * intros _. rewrite lookup_insert_eq. discriminate.
    + apply C.
    + split; [by destruct s|exact Hm|exact Hl].
    + intros v o. rewrite lookup_insert. case_decide; [by intros [= <-] ?|done].
    + intros v Hv. rewrite lookup_insert_ne; [done|]. congruence.
    + intros v Hv. rewrite lookup_insert. case_decide; [by eexists|done].
    + intros v o. rewrite lookup_insert. case_decide; [by intros [= <-] [?|?]|].
      intros Hv Hc. apply Hs; [|done|].
      * by eapply (pi_page _ _ _ _ I).
      * intros d Hd. by destruct Hc; simplify_eq.
  - rewrite (proj2 (Z.eqb_neq _ _)) by lia. erewrite bind_ok by done.
    rewrite (kstore_pte s1 own users live I1 D vp) by (done || lia).
    exists own. split_and!; [split|split|done].
    + pose proof (pt_store_pte _ _ _ _ I1 D vp 0 HD ltac:(lia) Hptr ltac:(lia) ltac:(done)) as I2.
      unfold upd_users in I2. rewrite (proj2 (Z.ltb_lt _ _)) in I2 by lia. exact I2.
    + by apply A1.
    + apply C.
    + split; [by destruct s|done|done].
    + done.
    + done.
    + done.
    + intros v o Hv Hc. rewrite v_mem_vput.
      apply (set_pte_same _ _ _ _ I1 D vp 0 HD ltac:(lia) Hptr ltac:(lia) v o Hv). by destruct Hc; subst.
Qed.

(** * [deallocuvm] *)

Lemma no_table s own users live D vp :
  pt_inv (v_k s) own users live -> 0 <= vp < NUSER -> pte_ptr (v_mem s) D vp = 0 ->
  forall vp', vp <= vp' < (vp / 1024 + 1) * 1024 -> users !! (D, vp') = None.
Proof.
  intros I Hvp Hp vp' Hr. destruct (users !! (D, vp')) as [e|] eqn:E; [|done].
  apply (pi_users _ _ _ _ I) in E as (HD & Hvp' & Hv & HP). rewrite <- Hv in HP.
  pose proof NUSER_lt. apply present_ptr in HP.
  destruct (pte_ptr_in _ _ _ _ I D vp' HD ltac:(lia) HP) as (t & Ht & _ & _ & _ & Hd & Et).
  assert (Hd' : vp' / 1024 = vp / 1024) by zdiv. rewrite Hd' in Hd, Et.
  unfold pte_ptr in Hp. rewrite Hd in Hp. rewrite <- Et in Hp.
  pose proof (page_bounds t Ht). unfold KERNBASE in *. zdiv.
Qed.

Lemma not_present s own users live D vp :
  pt_inv (v_k s) own users live -> D ∈ live -> 0 <= vp < NUSER ->
  users !! (D, vp) =
  if has (pte_val (v_mem s) D vp) PTE_P then Some (pte_val (v_mem s) D vp) else None.
Proof.
  intros I HD Hvp. apply option_eq. intros e. rewrite (pi_users _ _ _ _ I).
  destruct (has (pte_val (v_mem s) D vp) PTE_P) eqn:E; split.
  - by intros (_ & _ & <- & _).
  - intros [= <-]. split_and!; [done|lia|lia|done|done].
  - intros (_ & _ & <- & ?). congruence.
  - discriminate.
Qed.

(** The last virtual page, exclusive, of an address space of [sz] bytes. *)
Definition npages (sz : Z) : Z := (sz + (PGSIZE - 1)) / PGSIZE.

Lemma next_table vp :
  0 <= vp < NUSER ->
  u32 (u32 (PGADDR (PDX (vp * PGSIZE) + 1) 0 0 - PGSIZE) + PGSIZE) = (vp / 1024 + 1) * 1024 * PGSIZE.
Proof.
  intros Hvp. change NUSER with 524288 in Hvp. unfold PGSIZE. rewrite PDX_eq by lia.
  change (2 ^ 22) with (4096 * 1024). rewrite <- Z.div_div, Z.div_mul by lia.
  unfold PGADDR, PDXSHIFT. rewrite !Z.lor_0_r, Z.shiftl_mul_pow2 by lia.
  assert (0 <= vp / 1024 < 512) by zdiv. change (2 ^ 22) with 4194304.
  rewrite (u32_id ((vp / 1024 + 1) * 4194304)) by lia. rewrite u32_add_l, u32_id by lia. lia.
Qed.

Lemma deallocuvm_loop_ok fuel : forall s own users live D vp oldsz,
  cow_inv s own users live -> D ∈ live -> 0 <= vp -> oldsz <= KERNBASE ->
  oldsz - vp * PGSIZE <= (Z.of_nat fuel - 1) * PGSIZE -> (0 < fuel)%nat ->
  returns (deallocuvm_loop D (vp * PGSIZE) oldsz fuel s) (fun _ s' => exists own',
    cow_inv s' own' (unmap_range users D vp (npages oldsz)) live /\ shrink own s own' s').
Proof.
  assert (HG : PGSIZE = 4096) by done. assert (HN : NUSER = 524288) by done.
  assert (HK : KERNBASE = 2147483648) by done.
  induction fuel as [|fuel IH]; intros s own users live D vp oldsz C HD Hvp Hold Hfuel Hpos; [lia|].
  cbn [deallocuvm_loop]. destruct (Z.ltb_spec (vp * PGSIZE) oldsz) as [Hlt|Hge].
  2:{ exists own. rewrite unmap_range_none by (unfold npages; rewrite HG in *; zdiv). split; [done|apply shrink_refl]. }
  pose proof (ci_pt _ _ _ _ C) as I. assert (Hn : 0 <= vp < NUSER) by lia.
  assert (Hmore : forall vp' s1 own1 users1, vp < vp' -> vp' * PGSIZE <= KERNBASE ->
    cow_inv s1 own1 users1 live -> shrink own s own1 s1 ->
    unmap_range users D vp (npages oldsz) = unmap_range users1 D vp' (npages oldsz) ->
    returns (deallocuvm_loop D (vp' * PGSIZE) oldsz fuel s1) (fun _ s' => exists own',
      cow_inv s' own' (unmap_range users D vp (npages oldsz)) live /\ shrink own s own' s')).
  { intros vp' s1 own1 users1 Hv' Hk' C1 S1 ->. destruct fuel as [|fuel'].
    { lia. }
    eapply returns_mono; [|eapply (IH s1 own1 users1 live D vp' oldsz); done || lia].
    intros _ s' (own' & C' & S'). exists own'. split; [done|by eapply shrink_trans]. }
  erewrite bind_ok by (eapply walkpgdir_read; [done|done|lia]). rewrite Z_div_mult by done.
  destruct (Z.eqb_spec (pte_ptr (v_mem s) D vp) 0) as [Hp|Hp].
  - erewrite bind_ok by done. rewrite next_table by done.
    apply (Hmore _ s own users); [zdiv|rewrite HG, HK, HN in *; zdiv|done|apply shrink_refl|].
    apply unmap_range_skip; [zdiv|]. by eapply no_table.
  - apply returns_bind, returns_bind.
    rewrite (kload_pte s own users live I D vp) by (done || lia). cbn [returns].
    pose proof (not_present s own users live D vp I HD Hn) as Hu.
    assert (Hnext : u32 (vp * PGSIZE + PGSIZE) = (vp + 1) * PGSIZE) by (rewrite u32_id; lia).
    destruct (has _ _); cbn [when]; apply returns_bind.
    + eapply returns_mono; [|by eapply (unmap_ok s own users live D vp)].
      intros _ s1 (own1 & C1 & S1 & _). cbn. rewrite Hnext.
      apply (Hmore (vp + 1) s1 own1 (delete (D, vp) users)); [lia|lia|done|done|].
      apply unmap_range_step. unfold npages. rewrite HG in *; zdiv.
    + cbn. rewrite Hnext. apply (Hmore (vp + 1) s own users); [lia|lia|done|apply shrink_refl|].
      apply unmap_range_skip; [lia|]. intros vp' Hv'. by assert (vp' = vp) as -> by lia.
Qed.

Lemma deallocuvm_ok s own users live D oldsz newsz :
  cow_inv s own users live -> D ∈ live -> 0 <= newsz -> oldsz <= KERNBASE ->
  returns (deallocuvm D oldsz newsz s) (fun r s' => exists own',
    r = Z.min oldsz newsz
    /\ cow_inv s' own' (unmap_range users D (npages newsz) (npages oldsz)) live
    /\ shrink own s own' s').
Proof.
  intros C HD Hn Ho. assert (HG : PGSIZE = 4096) by done. assert (HK : KERNBASE = 2147483648) by done.
  unfold deallocuvm. destruct (Z.leb_spec oldsz newsz).
  - exists own. rewrite unmap_range_none by (unfold npages; rewrite HG; zdiv).
    split_and!; [lia|done|apply shrink_refl].
  - rewrite PGROUNDUP_eq by lia. fold (npages newsz). apply returns_bind.
    eapply returns_mono; [|apply (deallocuvm_loop_ok _ s own users live D (npages newsz) oldsz);
      [done|done|unfold npages; rewrite HG; zdiv|done| |lia]].
    + intros _ s' (own' & C' & S'). exists own'. split_and!; [lia|done|done].
    + rewrite Nat2Z.inj_succ, HG. destruct (Z.le_gt_cases (oldsz - npages newsz * 4096) 0).
      * lia.
      * rewrite Z2Nat.id by zdiv. zdiv.
Qed.

(** * [freevm] *)

(** The tables a directory page refers to. *)
Definition table (m : mem) (D j : Z) : Z := P2V (PTE_ADDR (pde_val m D j)).
Definition has_table (m : mem) (D j : Z) : Prop := has (pde_val m D j) PTE_P = true.

(** The directory is out of use but still in memory, and its tables from
    index [i] on are kernel pages waiting to be freed. *)
Record doomed (s : vst) (own : gmap Z owner) (D i : Z) : Prop := {
  dm_dir : own !! D = Some OKernel;
  dm_tab : forall j, i <= j < 1024 -> has_table (v_mem s) D j -> own !! table (v_mem s) D j = Some OKernel;
  dm_ne : forall j, i <= j < 1024 -> has_table (v_mem s) D j -> table (v_mem s) D j <> D;
  dm_inj : forall j j', i <= j < 1024 -> i <= j' < 1024 -> has_table (v_mem s) D j ->
    has_table (v_mem s) D j' -> table (v_mem s) D j = table (v_mem s) D j' -> j = j'
}.

Lemma freevm_loop_ok n : forall s own users live D i,
  pt_inv (v_k s) own users live -> doomed s own D i -> 0 <= i -> i + Z.of_nat n = 1024 ->
  returns (freevm_loop D i n s) (fun _ s' => exists own',
    pt_inv (v_k s') own' users live /\ vframe s s' /\ own' !! D = Some OKernel
    /\ (forall j, i <= j < 1024 -> has_table (v_mem s) D j -> own' !! table (v_mem s) D j = Some OFree)
    /\ (forall v, (forall j, i <= j < 1024 -> has_table (v_mem s) D j -> v <> table (v_mem s) D j) ->
         own' !! v = own !! v /\ (page_ok v -> same_page v (v_mem s) (v_mem s')))).
Proof.
  induction n as [|n IH]; intros s own users live D i I HM Hi Hn; cbn [freevm_loop].
  { exists own. split_and!; [done|apply vframe_refl|apply HM|lia|done]. }
  pose proof (dm_dir _ _ _ _ HM) as HD. pose proof (pi_page _ _ _ _ I _ _ HD) as HpD.
  rewrite page_u32_add by (done || unfold PGSIZE; lia).
  erewrite bind_ok by (apply kload_page; [done|..]; unfold PGSIZE; lia).
  fold (pde_val (v_mem s) D i). destruct (has _ _) eqn:E; cbn [when].
  - fold (table (v_mem s) D i). pose proof (dm_tab _ _ _ _ HM i ltac:(lia) E) as Ho.
    pose proof (pi_page _ _ _ _ I _ _ Ho) as Hp.
    destruct (v_kfree s own users live _ I Ho) as (s1 & Ef & F1 & O1 & I1).
    erewrite bind_ok by exact Ef.
    assert (Hs : forall v, page_ok v -> v <> table (v_mem s) D i -> same_page v (v_mem s) (v_mem s1)).
    { intros v Hv Hne. by apply (only_page_same (table (v_mem s) D i)). }
    assert (Hd : forall j, 0 <= j < 1024 -> pde_val (v_mem s1) D j = pde_val (v_mem s) D j).
    { intros j Hj. apply pde_val_same; [|done]. apply Hs; [done|].
      apply not_eq_sym, (dm_ne _ _ _ _ HM); [lia|done]. }
    eapply returns_mono; [|apply (IH s1 _ users live D (i + 1) I1); [|lia|lia]].
    + intros _ s' (own' & I' & F' & HD' & Hf & Hv'). exists own'.
      assert (Hf' : forall j, i + 1 <= j < 1024 -> has_table (v_mem s) D j -> own' !! table (v_mem s) D j = Some OFree).
      { intros j Hj Hjt. unfold table. rewrite <- Hd by lia. apply Hf; [done|]. unfold has_table. by rewrite Hd by lia. }
      unfold has_table, table in Hv'.
      assert (Hout : forall v, (forall j, i + 1 <= j < 1024 -> has_table (v_mem s) D j -> v <> table (v_mem s) D j) ->
        own' !! v = <[table (v_mem s) D i := OFree]> own !! v /\ (page_ok v -> same_page v (v_mem s1) (v_mem s'))).
      { intros v Hv. apply Hv'. intros j Hj. rewrite Hd by lia. by apply Hv. }
      split_and!; [done|by eapply vframe_trans|done|..].
      * intros j Hj Hjt. destruct (decide (j = i)) as [->|Hne]; [|apply Hf'; [lia|done]].
        rewrite (proj1 (Hout (table (v_mem s) D i)
          ltac:(intros j Hj' Hjt' Heq; apply (dm_inj _ _ _ _ HM) in Heq; [lia|lia|lia|done|done]))).
        apply lookup_insert_eq.
      * intros v Hv. assert (v <> table (v_mem s) D i) by (apply Hv; [lia|done]).
        destruct (Hout v) as [-> Hsame]; [intros; apply Hv; done || lia|].
        rewrite lookup_insert_ne by done. split; [done|]. intros Hpv.
        eapply same_page_trans; [by apply Hs|auto].
    + destruct HM as [_ Ht Hne Hinj]. split; unfold has_table, table in *.
      * rewrite lookup_insert_ne; [done|]. apply Hne; [lia|done].
      * intros j Hj. rewrite Hd by lia. intros Hjt. rewrite lookup_insert_ne; [apply Ht; [lia|done]|].
        intros Heq. apply Hinj in Heq; [lia|lia|lia|done|done].
      * intros j Hj. rewrite Hd by lia. apply Hne. lia.
      * intros j j' Hj Hj'. rewrite !Hd by lia. apply Hinj; lia.
  - erewrite bind_ok by done.
    eapply returns_mono; [|apply (IH s own users live D (i + 1) I); [|lia|lia]].
    + intros _ s' (own' & I' & F' & HD' & Hf & Hv'). exists own'. split_and!; [done|done|done|..].
      * intros j Hj Hjt. apply Hf; [|done]. destruct (decide (j = i)) as [->|]; [|lia]. congruence.
      * intros v Hv. apply Hv'. intros j Hj. apply Hv. lia.
    + destruct HM as [_ Ht Hne Hinj]. split; [done| | |]; intros; [apply Ht|apply Hne|apply Hinj]; done || lia.
Qed.

(** Nothing of [D] is left: its directory page, its tables and the pages only
    it mapped are free; every other mapping is untouched. *)
Lemma freevm_ok s own users live D :
  cow_inv s own users live -> D ∈ live ->
  returns (freevm D s) (fun _ s' => exists own',
    cow_inv s' own' (unmap_range users D 0 NUSER) (live ∖ {[D]}) /\ shrink own s own' s').
Proof.
  intros C HD. unfold freevm. rewrite (proj2 (Z.eqb_neq _ _)).
  2:{ apply page_nonzero. eapply live_page; [apply C|done]. }
  apply returns_bind. eapply returns_mono; [|apply (deallocuvm_ok s own users live D KERNBASE 0 C HD); done].
  change (npages 0) with 0. change (npages KERNBASE) with NUSER.
  intros _ s1 (own1 & _ & C1 & S1). set (users' := unmap_range users D 0 NUSER) in *.
  pose proof (ci_pt _ _ _ _ C1) as I1.
  assert (Hno : forall vp, users' !! (D, vp) = None).
  { intros vp. destruct (users' !! (D, vp)) as [e|] eqn:Eu; [|done].
    pose proof (proj1 (pi_users _ _ _ _ I1 _ _ _) Eu) as (_ & Hvp & _).
    unfold users' in Eu. rewrite unmap_range_lookup, decide_True in Eu by done. done. }
  pose proof (pt_retire _ _ _ _ D I1 Hno) as I2.
  assert (Htab : forall j, 0 <= j < 1024 -> has_table (v_mem s1) D j ->
    own1 !! table (v_mem s1) D j = Some (OTab D j)) by (intros; by apply (pi_tab _ _ _ _ I1)).
  pose proof (pi_dir _ _ _ _ I1 D HD) as HoD.
  apply returns_bind. eapply returns_mono; [|apply (freevm_loop_ok _ s1 _ _ _ D 0 I2); [|done|done]].
  2:{ split.
      - rewrite retired_lookup, HoD. simpl. by rewrite decide_True.
      - intros j Hj Ht. rewrite retired_lookup, Htab by done. simpl. by rewrite decide_True.
      - intros j Hj Ht. by eapply owner_ne; [apply Htab|exact HoD|].
      - intros j j' Hj Hj' Ht Ht' Heq. apply Htab in Ht, Ht'; [|done..]. congruence. }
  intros _ s2 (own2 & I3 & F2 & HD2 & Hf2 & Hv2).
  destruct (v_kfree s2 own2 users' _ D I3 HD2) as (s3 & Ef & F3 & O3 & I4). rewrite Ef. simpl.
  assert (HpD : page_ok D) by (by eapply (pi_page _ _ _ _ I1)).
  assert (Hgen : forall v, v <> D -> (forall d, own1 !! v <> Some (OTab D d)) ->
    own2 !! v = own1 !! v /\ (page_ok v -> same_page v (v_mem s1) (v_mem s3))).
  { intros v Hne Hnt. destruct (Hv2 v) as [Ev Hs]; [intros j Hj Hjt ->; by eapply Hnt, Htab|].
    rewrite Ev, retired_lookup. split.
    - destruct (own1 !! v) as [[| | | |D' d]|]; simpl; try done; rewrite decide_False; [done|done|done|].
      intros ->. by eapply Hnt.
    - intros Hp. eapply same_page_trans; [by apply Hs|]. by apply (only_page_same D). }
  assert (Hdead : forall v d, own1 !! v = Some (OTab D d) -> own2 !! v = Some OFree).
  { intros v d Hv. destruct (pi_back _ _ _ _ I1 _ _ Hv) as (_ & Hd & Ht & <-). by apply Hf2. }
  assert (Hback : forall v o, <[D := OFree]> own2 !! v = Some o -> o <> OFree ->
    v <> D /\ own1 !! v = Some o /\ (page_ok v -> same_page v (v_mem s1) (v_mem s3))).
  { intros v o. rewrite lookup_insert. case_decide; [naive_solver|]. intros Hv Hne.
    destruct (Hgen v) as [<- ?]; [done| |done]. intros d Hd. apply Hdead in Hd. congruence. }
  assert (F13 : vframe s1 s3) by (by eapply vframe_trans).
  exists (<[D := OFree]> own2). split; [split|eapply shrink_trans; [done|split]].
  - done.
  - rewrite (vf_rest _ _ F13). apply (acct_own _ own1); [|apply C1].
    intros v Hv. by apply Hback in Hv as (_ & ? & _).
  - etrans; [|apply C]. apply Nat2Z.inj_le, subseteq_size. set_solver.
  - auto with xv6.
  - intros v o Hv Hne. by apply Hback in Hv as (_ & ? & _).
  - intros v Hv. assert (v <> D) by congruence. rewrite lookup_insert_ne by done.
    destruct (Hgen v) as [-> _]; [done|congruence|done].
  - intros v Hv. rewrite lookup_insert. case_decide; [done|].
    destruct (decide (own2 !! v = Some OFree)) as [->|Hnf]; [done|].
    destruct (Hgen v) as [-> _]; [done| |done]. intros d Hd. by apply Hdead in Hd.
  - intros v o Hv Hc. apply Hback in Hv as (_ & Hv & Hs); [|by destruct Hc; subst].
    apply Hs. by eapply (pi_page _ _ _ _ I1).
Qed.
End uvm.
