(* ===== verification/Kvm.v ===== *)
(** The kernel half of an address space: [kmap] and [setupkvm] of [vm.c]. *)

From S2P Require Import Prelude Params Mem Spinlock Kalloc Vm PageTable Walk Uvm.
Open Scope Z_scope.
Open Scope xv6_scope.

(** Pages in use stay in use with their contents, and no page is lost. *)
Record kept (own : gmap Z owner) (s : vst) (own' : gmap Z owner) (s' : vst) : Prop := {
  kp_frame : uframe s s';
  kp_used : forall v o, own !! v = Some o -> o = OUser \/ o = OKernel ->
    own' !! v = Some o /\ same_page v (v_mem s) (v_mem s');
  kp_dom : forall v, is_Some (own !! v) -> is_Some (own' !! v)
}.

Lemma kept_refl own s : kept own s own s.
Proof. split; [apply uframe_refl| |done]. intros v o Hv _. split; [done|apply same_page_refl]. Qed.

Lemma kept_trans own1 s1 own2 s2 own3 s3 :
  kept own1 s1 own2 s2 -> kept own2 s2 own3 s3 -> kept own1 s1 own3 s3.
Proof.
  intros [F1 U1 D1] [F2 U2 D2]. split; [by eapply uframe_trans| |by auto].
  intros v o Hv Ho. destruct (U1 v o Hv Ho) as [Hv2 S1]. destruct (U2 v o Hv2 Ho) as [Hv3 S2].
  split; [done|by eapply same_page_trans].
Qed.

Lemma walked_kept D own s own' s' : walked D own s own' s' -> kept own s own' s'.
Proof.
  intros [F G K]. split; [auto with xv6| |].
  - intros v o Hv Ho. split; [|by eapply K]. eapply grown_used; [done|done|]. by destruct Ho; subst.
  - intros v [o Ho]. destruct (G v) as [->|(_ & d & ->)]; [by eexists|done].
Qed.

Section kvm.
Context `{Layout}.

(** Giving pages up without losing a mapping. *)
Lemma shrink_kept own s own' s' users live live' :
  cow_inv s own users live -> cow_inv s' own' users live' ->
  shrink own s own' s' -> kept own s own' s'.
Proof.
  intros C C' [F U K Dm S]. split; [done| |done]. intros v o Hv Ho.
  assert (Hv' : own' !! v = Some o); [|by eauto]. destruct Ho as [->| ->]; [|by apply K].
  pose proof (ac_used _ _ _ (ci_acct _ _ _ _ C) v Hv) as Hp.
  apply mapcount_pos in Hp as ([D vp] & e & He & <-). by eapply (pi_user _ _ _ _ (ci_pt _ _ _ _ C')).
Qed.

(** Unmapping what is not mapped. *)
Lemma unmap_range_id users D lo hi :
  (forall vp, lo <= vp < hi -> users !! (D, vp) = None) -> unmap_range users D lo hi = users.
Proof.
  intros Hno. apply map_eq. intros [D' vp]. rewrite unmap_range_lookup.
  case_decide as E; [|done]. destruct E as [-> ?]. symmetry. auto.
Qed.

(** * [kmap] read as a function from virtual pages to entries *)

Definition kpages (k : kmap_entry) : Z := u32 (phys_end k - phys_start k) / PGSIZE.
Definition covers (k : kmap_entry) (vp : Z) : Prop :=
  virt k / PGSIZE <= vp < virt k / PGSIZE + kpages k.
Definition kword (k : kmap_entry) (vp : Z) : Z :=
  map_word (phys_start k + (vp - virt k / PGSIZE) * PGSIZE) (perm k).

#[global] Instance covers_dec k vp : Decision (covers k vp).
Proof. unfold covers. apply _. Defined.

(** What the entries [ks] say of page [vp], and [base] where they are silent. *)
Fixpoint kmap_pte (ks : list kmap_entry) (base : Z -> Z) (vp : Z) : Z :=
  match ks with
  | [] => base vp
  | k :: ks => if decide (covers k vp) then kword k vp else kmap_pte ks base vp
  end.

Record kmap_wf (k : kmap_entry) : Prop := {
  kw_virt : virt k mod PGSIZE = 0;
  kw_size : u32 (phys_end k - phys_start k) mod PGSIZE = 0;
  kw_pos : 0 < kpages k;
  kw_kernel : NUSER <= virt k / PGSIZE;
  kw_top : virt k / PGSIZE + kpages k <= 2 ^ 20;
  kw_phys : phys_start k mod PGSIZE = 0;
  kw_phys_lo : 0 <= phys_start k;
  kw_phys_hi : phys_start k + (kpages k - 1) * PGSIZE < 2 ^ 32;
  kw_perm : 0 <= perm k < PGSIZE
}.

Definition disjoint_from (k k' : kmap_entry) : Prop := forall vp, covers k vp -> ~ covers k' vp.

Fixpoint kmap_disjoint (ks : list kmap_entry) : Prop :=
  match ks with
  | [] => True
  | k :: ks => Forall (disjoint_from k) ks /\ kmap_disjoint ks
  end.

Lemma kmap_pte_cover ks base k vp :
  Forall (disjoint_from k) ks -> covers k vp -> kmap_pte ks base vp = base vp.
Proof.
  intros Hd Hc. induction Hd as [|k' ks Hk Hd IH]; simpl; [done|].
  rewrite decide_False by (by apply Hk). done.
Qed.

Lemma kmap_pte_ext ks base base' vp : base vp = base' vp -> kmap_pte ks base vp = kmap_pte ks base' vp.
Proof. intros E. induction ks as [|k ks IH]; simpl; [done|]. by rewrite IH. Qed.

(** Mapping one entry of [kmap]. *)
Lemma map_entry s own users live D k :
  pt_inv (v_k s) own users live -> D ∈ live -> kmap_wf k ->
  (forall vp, covers k vp -> has (pte_val (v_mem s) D vp) PTE_P = false) ->
  returns (mappages D (virt k) (u32 (phys_end k - phys_start k)) (phys_start k) (perm k) s)
    (fun r s' => exists own', pt_inv (v_k s') own' users live /\ walked D own s own' s'
      /\ (r = -1 \/ r = 0 /\ forall D' vp', D' ∈ live -> 0 <= vp' < 2 ^ 20 ->
            pte_val (v_mem s') D' vp' =
            if decide (D' = D /\ covers k vp') then kword k vp' else pte_val (v_mem s) D' vp')).
Proof.
  intros I HD W Habs. destruct W as [Wv Ws Wp Wk Wt Wa Wl Wh Wf]. unfold kpages in *.
  assert (HG : PGSIZE = 4096) by done.
  set (n := Z.to_nat (u32 (phys_end k - phys_start k) / PGSIZE - 1)).
  assert (Hn : Z.of_nat n = u32 (phys_end k - phys_start k) / PGSIZE - 1) by (unfold n; lia).
  replace (virt k) with (virt k / PGSIZE * PGSIZE) at 1 by (rewrite HG in *; zdiv).
  replace (u32 (phys_end k - phys_start k)) with (u32 ((Z.of_nat n + 1) * PGSIZE)).
  2:{ rewrite Hn. rewrite <- (u32_u32 (phys_end k - phys_start k)) at 2. f_equal. rewrite HG in *. zdiv. }
  assert (HN : 0 < NUSER) by done.
  rewrite mappages_range by lia.
  eapply returns_mono; [|apply (mappages_loop_ok n s own users live D _ _ _ I HD); [lia|lia|done|done|lia|done|..]].
  - intros r s' (own' & j & I' & W & Hj & P'). rewrite mapped_kernel in I' by done.
    exists own'. split_and!; [done|done|]. destruct Hj as [[-> ->]|[-> _]]; [right|by left].
    split; [done|]. intros D' vp' HD' Hvp'. rewrite P' by done.
    assert (E : D' = D /\ virt k / PGSIZE <= vp' < virt k / PGSIZE + Z.of_nat (S n) <-> D' = D /\ covers k vp').
    { unfold covers, kpages. rewrite Nat2Z.inj_succ, Hn. split; intros [-> ?]; lia. }
    by rewrite (decide_ext _ _ _ _ E).
  - intros i Hi. apply Habs. unfold covers, kpages. lia.
  - intros i Hi Hlt. lia.
Qed.

(** * [setupkvm] *)

Lemma setupkvm_loop_ok ks : forall s own users live D,
  cow_inv s own users live -> D ∈ live -> (forall vp, users !! (D, vp) = None) ->
  Forall kmap_wf ks -> kmap_disjoint ks ->
  (forall k vp, k ∈ ks -> covers k vp -> has (pte_val (v_mem s) D vp) PTE_P = false) ->
  returns (setupkvm_loop D ks s) (fun r s' => exists own', kept own s own' s'
    /\ ((r = 0 /\ cow_inv s' own' users (live ∖ {[D]}))
        \/ (r = D /\ cow_inv s' own' users live
            /\ forall D' vp, D' ∈ live -> 0 <= vp < 2 ^ 20 -> pte_val (v_mem s') D' vp =
               if decide (D' = D) then kmap_pte ks (pte_val (v_mem s) D) vp
               else pte_val (v_mem s) D' vp))).
Proof.
  induction ks as [|k ks IH]; intros s own users live D C HD Hno Hwf Hdj Habs; cbn [setupkvm_loop].
  { exists own. split; [apply kept_refl|]. right. split_and!; [done|done|].
    intros D' vp _ _. simpl. by case_decide; subst. }
  apply Forall_cons in Hwf as [Hk Hwf]. destruct Hdj as [Hdk Hdj].
  apply returns_bind. eapply returns_mono; [|apply (map_entry s own users live D k (ci_pt _ _ _ _ C) HD Hk)].
  2:{ intros vp. apply Habs. set_solver. }
  intros r s1 (own1 & I1 & W1 & Hr).
  assert (K1 : kept own s own1 s1) by (by eapply walked_kept).
  assert (C1 : cow_inv s1 own1 users live).
  { split; [done| |apply C]. rewrite (vf_rest _ _ (wk_frame _ _ _ _ _ W1)).
    apply (acct_own _ own); [|apply C]. intros v Hv.
    destruct (wk_grown _ _ _ _ _ W1 v) as [<-|(_ & d & ?)]; [done|congruence]. }
  destruct Hr as [->|[-> P1]]; cbn [Z.ltb Z.compare].
  - apply returns_bind. eapply returns_mono; [|apply (freevm_ok s1 own1 users live D C1 HD)].
    rewrite unmap_range_id by done. intros _ s2 (own2 & C2 & S2). exists own2.
    split; [eapply kept_trans; [done|by eapply shrink_kept]|]. by left.
  - eapply returns_mono; [|apply (IH s1 own1 users live D C1 HD Hno Hwf Hdj)].
    + intros r s2 (own2 & K2 & Hr2). exists own2. split; [by eapply kept_trans|].
      destruct Hr2 as [?|(-> & C2 & P2)]; [by left|right]. split_and!; [done|done|].
      intros D' vp HD' Hvp. rewrite P2 by done. destruct (decide (D' = D)) as [->|Hne].
      * simpl. case_decide as Ec.
        -- rewrite (kmap_pte_cover _ _ k), P1, decide_True by done. done.
        -- apply kmap_pte_ext. by rewrite P1, decide_False by naive_solver.
      * by rewrite P1, decide_False by naive_solver.
    + intros k' vp Hk' Hc. assert (Hn : ~ covers k vp).
      { rewrite Forall_forall in Hdk. intros Hck. by apply (Hdk k' Hk' vp). }
      assert (Hvp : 0 <= vp < 2 ^ 20).
      { rewrite Forall_forall in Hwf. destruct (Hwf k' Hk') as [_ _ _ Wk Wt _ _ _ _].
        assert (0 < NUSER) by done. unfold covers in *. lia. }
      rewrite P1, decide_False by naive_solver. apply (Habs k'); [set_solver|done].
Qed.

Lemma data_bounds : KERNLINK < data <= KERNBASE + 4 * 1024 * 1024 /\ data mod PGSIZE = 0
  /\ V2P data = data - KERNBASE.
Proof.
  pose proof data_after_text. pose proof data_before_end. pose proof end_in_4M. pose proof data_aligned.
  unfold KERNLINK, KERNBASE, EXTMEM in *. split_and!; [lia|lia|done|]. apply V2P_eq. unfold KERNBASE. lia.
Qed.

Lemma kmap_entries :
  kmap = [Kmap KERNBASE 0 EXTMEM PTE_W;
          Kmap KERNLINK EXTMEM (data - KERNBASE) 0;
          Kmap data (data - KERNBASE) PHYSTOP PTE_W;
          Kmap DEVSPACE DEVSPACE 0 PTE_W].
Proof. unfold kmap. destruct data_bounds as (_ & _ & ->). done. Qed.

(** How many pages each entry maps. *)
Lemma kmap_sizes :
  kpages (Kmap KERNBASE 0 EXTMEM PTE_W) = 256
  /\ kpages (Kmap KERNLINK EXTMEM (data - KERNBASE) 0) = data / PGSIZE - 524544
  /\ kpages (Kmap data (data - KERNBASE) PHYSTOP PTE_W) = 581632 - data / PGSIZE
  /\ kpages (Kmap DEVSPACE DEVSPACE 0 PTE_W) = 8192.
Proof.
  destruct data_bounds as (Hd & Ha & _). unfold kpages; simpl.
  unfold KERNLINK, KERNBASE, EXTMEM, PGSIZE, PHYSTOP in *.
  split_and!; [done| | |done]; rewrite u32_id by lia; zdiv.
Qed.

Lemma data_page : 524544 < data / PGSIZE <= 525312.
Proof.
  destruct data_bounds as (Hd & Ha & _). unfold KERNLINK, KERNBASE, EXTMEM, PGSIZE in *. zdiv.
Qed.

Lemma kmap_all_wf : Forall kmap_wf kmap.
Proof.
  rewrite kmap_entries. destruct kmap_sizes as (E0 & E1 & E2 & E3).
  destruct data_bounds as (Hd & Ha & _). pose proof data_page as Hp. unfold KERNLINK, KERNBASE, EXTMEM in Hd.
  assert (HN : NUSER = 524288) by done. assert (HG : PGSIZE = 4096) by done. rewrite HG in *.
  repeat apply Forall_cons_2; [..|done]; split; rewrite ?E0, ?E1, ?E2, ?E3; simpl;
    rewrite ?HN, ?HG; unfold KERNLINK, KERNBASE, EXTMEM, PHYSTOP, PTE_W;
    first [done | zdiv | (rewrite u32_id by lia; zdiv)].
Qed.

Lemma kmap_is_disjoint : kmap_disjoint kmap.
Proof.
  rewrite kmap_entries. destruct kmap_sizes as (E0 & E1 & E2 & E3). pose proof data_page as Hp.
  simpl. unfold disjoint_from, covers. repeat split; repeat apply Forall_cons_2; try done;
    intros vp; rewrite ?E0, ?E1, ?E2, ?E3; simpl;
    change (KERNBASE / PGSIZE) with 524288; change (KERNLINK / PGSIZE) with 524544;
    change (DEVSPACE / PGSIZE) with 1040384; lia.
Qed.

(** The layout in plain words: physical memory appears at [KERNBASE],
    read-only where the kernel's text is, and devices appear at their own
    addresses; user pages are not mapped. *)
Definition kvm_word (vp : Z) : Z :=
  let va := vp * PGSIZE in
  if va <? KERNBASE then 0
  else if va <? KERNLINK then map_word (va - KERNBASE) PTE_W
  else if va <? data then map_word (va - KERNBASE) 0
  else if va <? KERNBASE + PHYSTOP then map_word (va - KERNBASE) PTE_W
  else if va <? DEVSPACE then 0
  else map_word va PTE_W.

Lemma kmap_pte_word vp : 0 <= vp < 2 ^ 20 -> kmap_pte kmap (fun _ => 0) vp = kvm_word vp.
Proof.
  intros Hvp. rewrite kmap_entries. destruct kmap_sizes as (E0 & E1 & E2 & E3). pose proof data_page as Hp.
  destruct data_bounds as (Hd & Ha & _). assert (HG : PGSIZE = 4096) by done.
  assert (Hdp : data = data / PGSIZE * PGSIZE) by (rewrite HG in *; zdiv).
  unfold kvm_word, kmap_pte, kword. cbn [virt phys_start perm].
  repeat case_decide; unfold covers in *; rewrite ?E0, ?E1, ?E2, ?E3 in *; cbn [virt] in *;
    change (KERNBASE / PGSIZE) with 524288 in *; change (KERNLINK / PGSIZE) with 524544 in *;
    change (DEVSPACE / PGSIZE) with 1040384 in *; set (dp := data / PGSIZE) in *;
    unfold KERNLINK, KERNBASE, EXTMEM, PHYSTOP, DEVSPACE in *; rewrite HG in *;
    repeat match goal with
    | |- context [?a <? ?b] => destruct (Z.ltb_spec a b)
    end; try lia; f_equal; lia.
Qed.

(** A fresh address space holds the kernel and nothing else. *)
Lemma setupkvm_ok s own users live :
  cow_inv s own users live -> Z.of_nat (size live) < 127 ->
  returns (setupkvm s) (fun r s' => exists own', kept own s own' s'
    /\ ((r = 0 /\ cow_inv s' own' users live)
        \/ (page_ok r /\ r ∉ live /\ cow_inv s' own' users ({[r]} ∪ live)
            /\ (forall vp, users !! (r, vp) = None)
            /\ forall vp, 0 <= vp < 2 ^ 20 -> pte_val (v_mem s') r vp = kvm_word vp))).
Proof.
  intros C Hsz. pose proof (ci_pt _ _ _ _ C) as I. unfold setupkvm.
  destruct (v_kalloc s own users live I) as (r & s1 & E1 & F1 & M1 & [(-> & I1 & _)|(Hr & Ho & I1)]);
    erewrite bind_ok by exact E1.
  { exists own. split.
    - split; [auto with xv6| |done]. intros v o Hv _. rewrite M1. split; [done|apply same_page_refl].
    - left. split; [done|]. split; [done| |apply C]. rewrite (vf_rest _ _ F1). apply C. }
  rewrite (proj2 (Z.eqb_neq _ _)) by (by apply page_nonzero).
  erewrite bind_ok by (by apply kmemset_page).
  change (DEVSPACE <? P2V PHYSTOP) with false. cbv iota.
  set (s2 := vput _ s1). set (own1 := <[r := OKernel]> own) in *.
  assert (Hr1 : own1 !! r = Some OKernel) by apply lookup_insert_eq.
  assert (O2 : only_page r (v_mem s1) (v_mem s2)) by (by apply only_page_memset).
  assert (Z2 : zero_page r (v_mem s2)) by (by apply memset_zero_page).
  assert (I2 : pt_inv (v_k s2) own1 users live) by (eapply pt_write; eauto).
  pose proof (pt_newdir _ _ _ _ r I2 Hr1 Z2) as I3.
  assert (Hnl : r ∉ live) by (intros Hin; apply (pi_dir _ _ _ _ I) in Hin; congruence).
  assert (Hno : forall vp, users !! (r, vp) = None).
  { intros vp. destruct (users !! (r, vp)) eqn:Eu; [|done].
    by apply (pi_users _ _ _ _ I) in Eu as [? _]. }
  assert (F2 : uframe s s2) by (apply vframe_uframe; eapply vframe_trans; [exact F1|apply vframe_put]).
  assert (C2 : cow_inv s2 (<[r := ODir]> own1) users ({[r]} ∪ live)).
  { split; [done| |rewrite size_union, size_singleton by set_solver; lia].
    change (pg_refcount s2) with (pg_refcount s1). rewrite (vf_rest _ _ F1).
    apply (acct_own _ own); [|apply C]. intros v. unfold own1. rewrite insert_insert_eq, lookup_insert.
    by case_decide. }
  assert (K2 : kept own s (<[r := ODir]> own1) s2).
  { unfold own1. rewrite insert_insert_eq. split; [done| |].
    - intros v o Hv Hvo. assert (v <> r) by (intros ->; destruct Hvo; congruence).
      rewrite lookup_insert_ne by done. split; [done|]. rewrite <- M1.
      apply (only_page_same r); [done|by eapply (pi_page _ _ _ _ I)|done|done].
    - intros v Hv. rewrite lookup_insert. by case_decide. }
  eapply returns_mono; [|apply (setupkvm_loop_ok kmap s2 _ users _ r C2); 
    [set_solver|done|apply kmap_all_wf|apply kmap_is_disjoint|]].
  - intros r' s' (own' & K' & Hc). exists own'. split; [by eapply kept_trans|].
    destruct Hc as [[-> C']|(-> & C' & P')]; [left|right].
    + split; [done|]. by replace (({[r]} ∪ live) ∖ {[r]}) with live in C' by set_solver.
    + split_and!; try done. intros vp Hvp. rewrite P', decide_True by (done || set_solver).
      rewrite <- kmap_pte_word by done. apply kmap_pte_ext. by apply zero_pte.
  - intros k vp Hk Hc. assert (Hvp : 0 <= vp < 2 ^ 20).
    { pose proof kmap_all_wf as Hw. rewrite Forall_forall in Hw. destruct (Hw k Hk) as [_ _ _ Wk Wt _ _ _ _].
      assert (0 < NUSER) by done. unfold covers in *. lia. }
    by rewrite zero_pte.
Qed.
End kvm.
