(* ===== verification/Cow.v ===== *)
(** Copy-on-write: what processes see of their memory.

    [ubyte] and [uwrite] are the hardware: a user-mode load, and a user-mode
    store that traps unless the entry is present, user and writable.  The
    theorems say that the page-fault handler never changes what any process
    reads, that a store is seen by the storing process alone, and that
    [copyuvmcow] creates an address space with the same contents. *)

From S2P Require Import Prelude Params Mem Spinlock Kalloc Vm PageTable Walk Uvm Kvm.
Open Scope Z_scope.
Open Scope xv6_scope.

(** * User-mode memory accesses *)

Definition user_va (va : Z) : bool := (0 <=? va) && (va <? KERNBASE).

Definition ubyte (s : vst) (D va : Z) : option Z :=
  let e := pte_val (v_mem s) D (va / PGSIZE) in
  if user_va va && has e PTE_P && has e PTE_U
  then Some (rd (v_mem s) (PTE_ADDR e + va mod PGSIZE)) else None.

Definition uwrite (s : vst) (D va b : Z) : option vst :=
  let e := pte_val (v_mem s) D (va / PGSIZE) in
  if user_va va && has e PTE_P && has e PTE_U && has e PTE_W
  then Some (vput (wr (v_mem s) (PTE_ADDR e + va mod PGSIZE) b) s) else None.

(** * The running process *)

Definition current (m : mach) (p : option nat) : Prop :=
  exists me c, cpu_ok me c m /\ cproc c = p.

#[global] Instance current_proper : Proper (mach_equiv ==> eq ==> iff) current.
Proof.
  assert (Himp : forall m m' p, mach_equiv m m' -> current m p -> current m' p).
  { intros m m' p E (me & c & Hc & Hp). destruct (cpu_ok_equiv _ _ _ _ E Hc) as (c' & Hc' & Ei).
    exists me, c'. split; [done|]. apply (f_equal cproc) in Ei. destruct c, c'; simpl in *. congruence. }
  intros m m' E p ? <-. split; apply Himp; [done|by symmetry].
Qed.

Lemma myproc_ok m p : current m p -> exists m', myproc m = Ok p m' /\ mach_equiv m' m.
Proof.
  intros (me & c & Hc & <-). pose proof (push_state_ok _ _ _ Hc) as Hp.
  exists (lock_cycle me c m). split; [|by apply lock_cycle_equiv]. unfold myproc.
  rewrite (bind_ok _ _ _ _ _ (pushcli_ok _ _ _ Hc)).
  rewrite (bind_ok _ _ _ _ _ (read_cpu_ok _ _ _ Hp (has_cli m))).
  rewrite (bind_ok _ _ _ _ _ (popcli_push _ _ _ Hc)).
  unfold ret. f_equal. unfold pushed. by destruct (ncli c =? 0).
Qed.

(** Only saved interrupt flags change. *)
Definition moved (s s' : vst) : Prop :=
  exists m', s' = set_k (set_kmach m' (v_k s)) s /\ mach_equiv m' (v_mach s).

Lemma moved_refl s : moved s s.
Proof. exists (v_mach s). split; [by destruct s as [[]]|done]. Qed.

Lemma moved_trans s1 s2 s3 : moved s1 s2 -> moved s2 s3 -> moved s1 s3.
Proof.
  intros (m1 & -> & E1) (m2 & -> & E2). exists m2. split; [by destruct s1 as [[]]|]. by rewrite E2, <- E1.
Qed.

Lemma moved_frame s s' : moved s s' -> vframe s s' /\ v_mem s' = v_mem s.
Proof. intros (m & -> & E). split; [|done]. by split. Qed.

Lemma v_myproc s p :
  current (v_mach s) p ->
  exists s', lift myproc s = Ok p s' /\ moved s s' /\ current (v_mach s') p.
Proof.
  intros Hc. destruct (myproc_ok _ _ Hc) as (m' & E & Em).
  exists (set_k (set_kmach m' (v_k s)) s). split_and!.
  - rewrite (lift_ok myproc s p m'); [done|exact E].
  - by exists m'.
  - unfold v_mach at 1. cbn. by rewrite Em.
Qed.

Section cow.
Context `{Layout}.

Lemma cow_moved s s' own users live : cow_inv s own users live -> moved s s' -> cow_inv s' own users live.
Proof.
  intros C (m & -> & E). pose proof (ci_pt _ _ _ _ C) as I. split; [|apply C|apply C].
  apply (pt_inv_update (v_k s) _ own own); try done; try apply I.
  - apply (kready_frame (v_k s)); [done|done|apply I].
  - destruct (pi_free _ _ _ _ I) as (l & [Hc Hn] & Hiff). exists l. split; [by split|done].
Qed.

Lemma cow_cr3 s own users live x : cow_inv s own users live -> cow_inv (set_cr3 x s) own users live.
Proof. by intros [I A B]. Qed.

Lemma cow_ptable s own users live x : cow_inv s own users live -> cow_inv (set_ptable x s) own users live.
Proof. by intros [I A B]. Qed.

(** * Views through the invariant *)

Lemma ubyte_users s own users live D va :
  pt_inv (v_k s) own users live -> D ∈ live ->
  ubyte s D va =
  if user_va va then
    e ← users !! (D, va / PGSIZE);
    if has e PTE_U then Some (rd (v_mem s) (V2P (frame e) + va mod PGSIZE)) else None
  else None.
Proof.
  intros I HD. unfold ubyte, user_va. destruct (Z.leb_spec 0 va), (Z.ltb_spec va KERNBASE); simpl; try done.
  assert (Hvp : 0 <= va / PGSIZE < NUSER) by (unfold NUSER, KERNBASE, PGSIZE in *; change (2147483648 / 4096) with 524288; zdiv).
  rewrite (not_present _ _ _ _ _ _ I HD Hvp). destruct (has _ PTE_P) eqn:EP; simpl; [|done].
  assert (Hu : users !! (D, va / PGSIZE) = Some (pte_val (v_mem s) D (va / PGSIZE)))
    by (rewrite (not_present _ _ _ _ _ _ I HD Hvp); by rewrite EP).
  destruct (has _ PTE_U); [|done]. do 3 f_equal. apply PTE_ADDR_page; [|done].
  by eapply user_range.
Qed.

(** Two entries show the same page with the same access for user reads. *)
Definition same_entry (o o' : option Z) : Prop :=
  match o, o' with
  | Some e, Some e' => frame e' = frame e /\ has e' PTE_U = has e PTE_U
  | None, None => True
  | _, _ => False
  end.

Lemma same_entry_refl o : same_entry o o.
Proof. by destruct o. Qed.

Lemma page_byte v va m m' :
  same_page v m m' -> rd m' (V2P v + va mod PGSIZE) = rd m (V2P v + va mod PGSIZE).
Proof. intros Hs. apply Hs. pose proof (Z.mod_pos_bound va PGSIZE ltac:(done)). lia. Qed.

Lemma view_kept s own users live s' own' users' live' D va :
  cow_inv s own users live -> cow_inv s' own' users' live' -> kept own s own' s' ->
  D ∈ live -> D ∈ live' -> same_entry (users !! (D, va / PGSIZE)) (users' !! (D, va / PGSIZE)) ->
  ubyte s' D va = ubyte s D va.
Proof.
  intros C C' K HD HD' He. rewrite (ubyte_users s own users live) by (done || apply C).
  rewrite (ubyte_users s' own' users' live') by (done || apply C').
  destruct (user_va va); [|done].
  destruct (users !! (D, va / PGSIZE)) as [e|] eqn:E, (users' !! (D, va / PGSIZE)) as [e'|]; try done.
  destruct He as [Ef Eu]. simpl. rewrite Eu, Ef. destruct (has e PTE_U); [|done]. f_equal.
  apply page_byte, (kp_used _ _ _ _ K _ OUser); [|by left]. by eapply (pi_user _ _ _ _ (ci_pt _ _ _ _ C)).
Qed.

(** * Changing the flags of an entry *)

Lemma acct_reflag ref own users k e e' :
  acct ref own users -> users !! k = Some e -> frame e' = frame e ->
  (has e' PTE_W = true -> mapcount users (frame e) = 1) ->
  acct ref own (<[k := e']> users).
Proof.
  intros [Ar Au Av Ax] Hk Ef Hw.
  assert (Hm : forall v, mapcount (<[k := e']> users) v = mapcount users v).
  { intros v. rewrite (mapcount_replace _ _ e) by done. rewrite Ef. lia. }
  split; try setoid_rewrite Hm; try done.
  - intros D vp e1 D' vp' e1'. rewrite !lookup_insert.
    repeat case_decide; subst; intros; simplify_eq; try done; eapply Av; eauto; congruence.
  - intros D vp e1. rewrite lookup_insert. case_decide; [|by apply Ax].
    intros [= <-] HW. rewrite Ef. auto.
Qed.

Lemma reflag_pt s own users live D vp e e' :
  pt_inv (v_k s) own users live -> users !! (D, vp) = Some e ->
  PTE_ADDR e' = PTE_ADDR e -> 0 <= e' < 2 ^ 32 -> has e' PTE_P = true ->
  exists s', lift (kstore (pte_ptr (v_mem s) D vp) e') s = Ok tt s'
    /\ pt_inv (v_k s') own (<[(D, vp) := e']> users) live /\ kept own s own s' /\ vframe s s'
    /\ pte_ptr (v_mem s') D vp = pte_ptr (v_mem s) D vp.
Proof.
  intros I Hu Ha Hr HP. pose proof NUSER_lt.
  destruct (proj1 (pi_users _ _ _ _ I _ _ _) Hu) as (HD & Hvp & Hval & HP0).
  assert (Hptr : pte_ptr (v_mem s) D vp <> 0) by (apply present_ptr; by rewrite Hval).
  eexists. split; [by eapply kstore_pte; [done|done|lia|done]|]. split_and!.
  - pose proof (pt_store_pte _ _ _ _ I D vp e' HD ltac:(lia) Hptr Hr) as I'.
    unfold upd_users in I'. rewrite (proj2 (Z.ltb_lt _ _)), HP in I' by lia. apply I'.
    intros _ _. rewrite Ha. by eapply (pi_user _ _ _ _ I).
  - split; [apply vframe_uframe, vframe_put| |done]. intros v o Hv Ho. split; [done|].
    rewrite v_mem_vput. apply (set_pte_same _ _ _ _ I D vp e' HD ltac:(lia) Hptr Hr v o Hv).
    by destruct Ho; subst.
  - apply vframe_put.
  - rewrite v_mem_vput. by apply (set_pte_ptr _ _ _ _ I D vp e' HD ltac:(lia) Hptr Hr); [|lia].
Qed.

Lemma reflag_ok s own users live D vp e e' :
  cow_inv s own users live -> users !! (D, vp) = Some e ->
  PTE_ADDR e' = PTE_ADDR e -> 0 <= e' < 2 ^ 32 -> has e' PTE_P = true ->
  (has e' PTE_W = true -> mapcount users (frame e) = 1) ->
  exists s', lift (kstore (pte_ptr (v_mem s) D vp) e') s = Ok tt s'
    /\ cow_inv s' own (<[(D, vp) := e']> users) live /\ kept own s own s' /\ vframe s s'
    /\ pte_ptr (v_mem s') D vp = pte_ptr (v_mem s) D vp.
Proof.
  intros C Hu Ha Hr HP HW.
  destruct (reflag_pt s own users live D vp e e' (ci_pt _ _ _ _ C) Hu Ha Hr HP) as (s' & E & I & K & F & P).
  exists s'. split_and!; try done. split; [done| |apply C]. rewrite (vf_rest _ _ F). cbn.
  apply (acct_reflag _ _ _ _ e); [apply C|done|unfold frame; by rewrite Ha|done].
Qed.

(** The word stored for a present entry reads back as that entry. *)
Lemma load_entry s own users live D vp e :
  pt_inv (v_k s) own users live -> users !! (D, vp) = Some e ->
  lift (kload (pte_ptr (v_mem s) D vp)) s = Ok e s.
Proof.
  intros I Hu. destruct (proj1 (pi_users _ _ _ _ I _ _ _) Hu) as (HD & Hvp & Hval & HP).
  pose proof NUSER_lt. rewrite <- Hval. eapply kload_pte; [done|done|lia|].
  apply present_ptr. by rewrite Hval.
Qed.

(** * The page-fault handler *)

(** The running process is entry [i] of the process table. *)
Record running (s : vst) (i : nat) (x : proc) : Prop := {
  rn_cur : current (v_mach s) (Some i);
  rn_proc : ptable s !! i = Some x
}.

Lemma running_frame s s' i x : uframe s s' -> running s i x -> running s' i x.
Proof.
  intros [E M L] [Hc Hp]. split; [by rewrite M|]. by rewrite E.
Qed.

Lemma running_moved s s' i x : moved s s' -> running s i x -> running s' i x.
Proof. intros Hm. apply running_frame, vframe_uframe, (moved_frame _ _ Hm). Qed.

Lemma read_proc_ok s i x : ptable s !! i = Some x -> read_proc (Some i) s = Ok x s.
Proof. intros E. unfold read_proc. simpl. by rewrite E. Qed.

Lemma flush_ok s i x :
  running s i x -> exists s1, flush_tlb s = Ok tt (set_cr3 (V2P (pgdir x)) s1) /\ moved s s1.
Proof.
  intros R. destruct (v_myproc s (Some i) (rn_cur _ _ _ R)) as (s1 & E & Hm & _).
  exists s1. split; [|done]. unfold flush_tlb. rewrite (bind_ok _ _ _ _ _ E).
  by rewrite (bind_ok _ _ _ _ _ (read_proc_ok _ _ _ (rn_proc _ _ _ (running_moved _ _ _ _ Hm R)))).
Qed.

Lemma kill_ok s i x :
  running s i x ->
  exists s1, kill_current s = Ok tt (set_ptable (alter (set_killed true) i (ptable s)) s1) /\ moved s s1.
Proof.
  intros R. destruct (v_myproc s (Some i) (rn_cur _ _ _ R)) as (s1 & E & Hm & _).
  exists s1. split; [|done]. unfold kill_current. rewrite (bind_ok _ _ _ _ _ E).
  pose proof (rn_proc _ _ _ (running_moved _ _ _ _ Hm R)) as Hp. unfold update_proc.
  rewrite decide_True by (by eapply lookup_lt_Some). destruct Hm as (m & -> & _). done.
Qed.

(** The sole user of a page makes it writable again. *)
Lemma take_over s own users live D vp e i x :
  cow_inv s own users live -> users !! (D, vp) = Some e -> has e PTE_U = true ->
  mapcount users (frame e) = 1 -> running s i x ->
  exists s' e', cow_fault (pte_ptr (v_mem s) D vp) e s = Ok tt (set_cr3 (V2P (pgdir x)) s')
    /\ cow_inv s' own (<[(D, vp) := e']> users) live /\ kept own s own s'
    /\ frame e' = frame e /\ has e' PTE_P = true /\ has e' PTE_U = true /\ has e' PTE_W = true.
Proof.
  intros C Hu HU H1 R. destruct (entry_frame _ _ _ _ _ _ _ C Hu) as (Hp & Ha & Ho & Hr & Hz).
  pose proof (ci_pt _ _ _ _ C) as I. pose proof NUSER_lt.
  destruct (proj1 (pi_users _ _ _ _ I _ _ _) Hu) as (HD & Hvp & Hval & HP).
  assert (Hptr : pte_ptr (v_mem s) D vp <> 0) by (apply present_ptr; by rewrite Hval).
  unfold cow_fault. cbv zeta. rewrite Ha. fold (pageno (frame e)).
  erewrite bind_ok by (by eapply read_ref_ok). rewrite H1. cbn [Z.eqb Pos.eqb].
  rewrite (bind_ok _ _ _ _ _ (kload_pte s own users live I D vp HD ltac:(lia) Hptr)), Hval.
  destruct (clear_flag e PTE_COW Hr ltac:(done)) as [Ea1 Er1]. set (e1 := Z.land e (not32 PTE_COW)) in *.
  assert (HP1 : has e1 PTE_P = true) by (unfold e1; flags).
  assert (HU1 : has e1 PTE_U = true) by (unfold e1; flags).
  destruct (reflag_ok s own users live D vp e e1 C Hu Ea1 Er1 HP1 ltac:(done)) as (s1 & E1 & C1 & K1 & F1 & P1).
  rewrite (bind_ok _ _ _ _ _ E1), <- P1. pose proof (ci_pt _ _ _ _ C1) as I1.
  assert (Hu1 : <[(D, vp) := e1]> users !! (D, vp) = Some e1) by apply lookup_insert_eq.
  destruct (proj1 (pi_users _ _ _ _ I1 _ _ _) Hu1) as (_ & _ & Hval1 & _).
  rewrite (bind_ok _ _ _ _ _ (kload_pte s1 _ _ _ I1 D vp HD ltac:(lia) ltac:(by rewrite P1))), Hval1.
  destruct (set_flag e1 PTE_W Er1 ltac:(done)) as [Ea2 Er2]. set (e2 := Z.lor e1 PTE_W) in *.
  assert (HP2 : has e2 PTE_P = true) by (unfold e2; flags).
  assert (HU2 : has e2 PTE_U = true) by (unfold e2; flags).
  assert (HW2 : has e2 PTE_W = true) by (unfold e2; flags).
  assert (Hm1 : mapcount (<[(D, vp) := e1]> users) (frame e1) = 1).
  { rewrite (mapcount_replace _ _ e) by done. unfold frame in *. rewrite Ea1. lia. }
  destruct (reflag_ok s1 own _ live D vp e1 e2 C1 Hu1 Ea2 Er2 HP2 ltac:(done)) as (s2 & E2 & C2 & K2 & F2 & P2).
  rewrite (bind_ok _ _ _ _ _ E2). rewrite insert_insert_eq in C2.
  destruct (flush_ok s2 i x) as (s3 & E3 & Hm).
  { apply (running_frame s1); [by auto with xv6|]. apply (running_frame s); by auto with xv6. }
  exists s3, e2. rewrite E3. split_and!; [done|by eapply cow_moved| |unfold frame; congruence|done..].
  eapply kept_trans; [exact K1|]. eapply kept_trans; [exact K2|].
  destruct (moved_frame _ _ Hm) as [F3 M3]. split; [auto with xv6| |done].
  intros v o Hv _. rewrite M3. split; [done|apply same_page_refl].
Qed.

(** One of several sharers leaves for the page [r]. *)
Lemma acct_move ref own users D vp e e' r :
  acct ref own users -> users !! (D, vp) = Some e -> page_ok (frame e) -> page_ok r ->
  1 < mapcount users (frame e) -> mapcount users r = 0 -> frame e' = r ->
  acct (<[pageno r := 1]> (<[pageno (frame e) := mapcount users (frame e) - 1]> ref))
    (<[r := OUser]> own) (<[(D, vp) := e']> users).
Proof.
  intros [Ar Au Av Ax] Hk Hpe Hpr Hn Hr He'.
  assert (Hne : frame e <> r) by (intros Eq; rewrite Eq in Hn; lia).
  assert (Hfr : forall k1 e1, users !! k1 = Some e1 -> frame e1 <> r).
  { intros k1 e1 Hk1 Hf. assert (0 < mapcount users r); [|lia]. apply mapcount_pos. eauto. }
  assert (Hm : forall v, mapcount (<[(D, vp) := e']> users) v =
    if decide (v = r) then 1 else if decide (v = frame e) then mapcount users v - 1 else mapcount users v).
  { intros v. rewrite (mapcount_replace _ _ e), He' by done. destruct (decide (v = r)) as [->|].
    - rewrite decide_False, decide_True by done. lia.
    - rewrite (decide_False (P := r = v)) by done. destruct (decide (v = frame e)) as [->|].
      + rewrite decide_True by done. lia.
      + rewrite decide_False by done. lia. }
  split.
  - intros v Hv. rewrite Hm, bump_ref by done. case_decide; [done|].
    rewrite bump_ref by done. case_decide; [by subst|]. by apply Ar.
  - intros v. rewrite Hm. destruct (decide (v = r)) as [|Hvr]; [lia|].
    rewrite lookup_insert_ne by done. intros Hv. pose proof (Au v Hv). case_decide; [subst v|]; lia.
  - intros D1 vp1 e1 D2 vp2 e2. rewrite !lookup_insert.
    destruct (decide ((D, vp) = (D1, vp1))) as [E1|], (decide ((D, vp) = (D2, vp2))) as [E2|].
    + congruence.
    + intros [= <-] Hu2 Hf. rewrite He' in Hf. by destruct (Hfr _ _ Hu2).
    + intros Hu1 [= <-] Hf. rewrite He' in Hf. by destruct (Hfr _ _ Hu1).
    + apply Av.
  - intros D1 vp1 e1. rewrite lookup_insert. case_decide as E1.
    + intros [= <-] _. rewrite Hm, He', decide_True by done. done.
    + intros Hu1 HW. pose proof (Ax _ _ _ Hu1 HW) as H1. rewrite Hm.
      rewrite decide_False by eauto. case_decide as E2; [rewrite E2 in H1; lia|done].
Qed.

Lemma free_unmapped s own users live r :
  cow_inv s own users live -> own !! r = Some OFree -> mapcount users r = 0.
Proof.
  intros C Hr. pose proof (mapcount_nonneg users r).
  destruct (decide (0 < mapcount users r)) as [Hp|]; [|lia].
  apply mapcount_pos in Hp as ([D vp] & e & He & <-).
  apply (pi_user _ _ _ _ (ci_pt _ _ _ _ C)) in He. unfold frame in *. congruence.
Qed.

Lemma private_word r : page_ok r ->
  let e' := Z.lor (Z.lor (Z.lor (V2P r) PTE_P) PTE_W) PTE_U in
  0 <= e' < 2 ^ 32 /\ frame e' = r /\ has e' PTE_P = true /\ has e' PTE_U = true /\ has e' PTE_W = true.
Proof.
  intros Hr. cbv zeta. destruct (page_bounds r Hr) as (Hb & _ & Hv). pose proof (page_V2P_aligned r Hr) as Ha.
  unfold PHYSTOP in Hv. rewrite <- !Z.lor_assoc, pte_lor by done.
  change (Z.lor PTE_P (Z.lor PTE_W PTE_U)) with 7.
  split_and!; [apply pte_range; done || lia..| | | |]; try (by rewrite pte_has by (done || lia)).
  unfold frame. rewrite pte_addr by (done || lia). by apply P2V_V2P.
Qed.

(** Copying a page into a fresh one and giving it to user mode. *)
Lemma fresh_copy s own users live r v :
  pt_inv (v_k s) (<[r := OKernel]> own) users live -> own !! r = Some OFree -> own !! v = Some OUser ->
  let s' := vput (memmove (v_mem s) (V2P r) (V2P v) PGSIZE) s in
  lift (kmemmove r v PGSIZE) s = Ok tt s'
  /\ pt_inv (v_k s') (<[r := OUser]> own) users live
  /\ only_page r (v_mem s) (v_mem s')
  /\ (forall i, 0 <= i < PGSIZE -> rd (v_mem s') (V2P r + i) = rd (v_mem s) (V2P v + i)).
Proof.
  intros I Hr Hv. assert (Hr1 : <[r := OKernel]> own !! r = Some OKernel) by apply lookup_insert_eq.
  pose proof (pi_page _ _ _ _ I _ _ Hr1) as Hpr.
  assert (Hv1 : <[r := OKernel]> own !! v = Some OUser) by (rewrite lookup_insert_ne; congruence).
  pose proof (pi_page _ _ _ _ I _ _ Hv1) as Hpv. cbv zeta.
  split_and!.
  - by apply kmemmove_page.
  - rewrite <- (insert_insert_eq own r OUser OKernel).
    apply (pt_retag _ _ _ _ r OKernel); [|done|by left|by right|by left].
    eapply pt_write; [done|exact Hr1|by left|]. intros a Ha. by rewrite rd_memmove, decide_False.
  - intros a Ha. by rewrite v_mem_vput, rd_memmove, decide_False.
  - intros i Hi. rewrite v_mem_vput, rd_memmove, decide_True by (done || lia). f_equal. lia.
Qed.

Lemma kept_fresh own s own' s' r :
  own !! r = Some OFree -> uframe s s' -> (forall v, v <> r -> own' !! v = own !! v) -> is_Some (own' !! r) ->
  (forall v o, own !! v = Some o -> o = OUser \/ o = OKernel -> same_page v (v_mem s) (v_mem s')) ->
  kept own s own' s'.
Proof.
  intros Hr F Ho Hs Hk. split; [done| |].
  - intros v o Hv Hc. split; [|by eapply Hk]. rewrite Ho; [done|]. intros ->. destruct Hc; congruence.
  - intros v Hv. destruct (decide (v = r)) as [->|]; [done|by rewrite Ho].
Qed.

(** The page [r] has just been allocated: copying into it and mapping it in
    place of the shared page. *)
Lemma install_copy s s1 own users live D vp e r (k : M vst unit) :
  cow_inv s own users live -> users !! (D, vp) = Some e -> 1 < mapcount users (frame e) ->
  vframe s s1 -> v_mem s1 = v_mem s -> page_ok r -> own !! r = Some OFree ->
  pt_inv (v_k s1) (<[r := OKernel]> own) users live ->
  exists s5 e', (lift (kmemmove r (frame e) PGSIZE) ;;;
     add_ref (Z.shiftr (V2P (frame e)) PGSHIFT) (-1) ;;;
     add_ref (Z.shiftr (V2P r) PGSHIFT) 1 ;;;
     lift (kstore (pte_ptr (v_mem s) D vp) (Z.lor (Z.lor (Z.lor (V2P r) PTE_P) PTE_W) PTE_U)) ;;; k) s1 = k s5
    /\ uframe s s5 /\ cow_inv s5 (<[r := OUser]> own) (<[(D, vp) := e']> users) live /\ kept own s (<[r := OUser]> own) s5
    /\ frame e' = r /\ has e' PTE_P = true /\ has e' PTE_U = true /\ has e' PTE_W = true
    /\ forall j, 0 <= j < PGSIZE -> rd (v_mem s5) (V2P r + j) = rd (v_mem s) (V2P (frame e) + j).
Proof.
  intros C Hu H1 F1 M1 Hpr Hor I1. destruct (entry_frame _ _ _ _ _ _ _ C Hu) as (Hp & Ha & Ho & Hr & Hz).
  pose proof (ci_pt _ _ _ _ C) as I. pose proof (ci_acct _ _ _ _ C) as A. pose proof NUSER_lt.
  destruct (proj1 (pi_users _ _ _ _ I _ _ _) Hu) as (HD & Hvp & Hval & HP).
  assert (Hptr : pte_ptr (v_mem s) D vp <> 0) by (apply present_ptr; by rewrite Hval).
  pose proof (cow_mapcount _ _ _ _ (frame e) C) as Hb. fold (pageno (frame e)).
  assert (Eref : pg_refcount s1 = pg_refcount s) by (by rewrite (vf_rest _ _ F1)).
  destruct (fresh_copy s1 own users live r (frame e) I1 Hor Ho) as (E2 & I2 & O2 & Hcp).
  rewrite (bind_ok _ _ _ _ _ E2). set (s2 := vput _ s1) in *.
  assert (Hptr2 : pte_ptr (v_mem s2) D vp = pte_ptr (v_mem s) D vp).
  { rewrite <- M1. apply pte_ptr_same; [|lia]. apply (only_page_same r); [done|by eapply live_page| |done].
    intros ->. pose proof (pi_dir _ _ _ _ I _ HD). congruence. }
  rewrite (bind_ok _ _ _ _ _ (add_ref_ok s2 (frame e) (-1) (mapcount users (frame e)) Hp
    ltac:(unfold refcount; cbn; rewrite Eref; by apply (ac_ref _ _ _ A)) ltac:(lia))).
  set (s3 := bump _ _ s2). fold (pageno r).
  pose proof (free_unmapped _ _ _ _ _ C Hor) as Hr0.
  assert (Hre : r <> frame e) by congruence.
  rewrite (bind_ok _ _ _ _ _ (add_ref_ok s3 r 1 0 Hpr
    ltac:(unfold refcount, s3, bump; cbn; rewrite bump_ref, decide_False, Eref by done;
          by rewrite (ac_ref _ _ _ A)) ltac:(lia))).
  set (s4 := bump r _ s3). destruct (private_word r Hpr) as (Hw & Hwf & HwP & HwU & HwW).
  set (e' := Z.lor _ PTE_U) in *. rewrite <- Hptr2.
  assert (I4 : pt_inv (v_k s4) (<[r := OUser]> own) users live) by exact I2.
  assert (Hptr4 : pte_ptr (v_mem s4) D vp <> 0) by (by rewrite <- Hptr2 in Hptr).
  rewrite (bind_ok _ _ _ _ _ (kstore_pte s4 _ _ _ I4 D vp e' HD ltac:(lia) Hptr4)).
  set (s5 := vput _ s4).
  assert (I5 : pt_inv (v_k s5) (<[r := OUser]> own) (<[(D, vp) := e']> users) live).
  { pose proof (pt_store_pte _ _ _ _ I4 D vp e' HD ltac:(lia) Hptr4 Hw) as I5.
    unfold upd_users in I5. rewrite (proj2 (Z.ltb_lt _ _)), HwP in I5 by lia. apply I5.
    intros _ _. fold (frame e'). rewrite Hwf. apply lookup_insert_eq. }
  assert (C5 : cow_inv s5 (<[r := OUser]> own) (<[(D, vp) := e']> users) live).
  { split; [done| |apply C]. rewrite <- Eref in A.
    pose proof (acct_move _ _ _ D vp e e' r A Hu Hp Hpr ltac:(lia) Hr0 Hwf) as A5. exact A5. }
  assert (F5 : uframe s s5).
  { eapply uframe_trans; [apply vframe_uframe, F1|]. eapply uframe_trans; [apply vframe_uframe, vframe_put|].
    eapply uframe_trans; [apply uframe_bump|]. eapply uframe_trans; [apply uframe_bump|].
    apply vframe_uframe, vframe_put. }
  assert (S5 : forall v, page_ok v -> (forall d, <[r := OUser]> own !! v <> Some (OTab D d)) ->
    is_Some (<[r := OUser]> own !! v) -> same_page v (v_mem s2) (v_mem s5)).
  { intros v _ Hnt [o Hvo]. apply (set_pte_same _ _ _ _ I4 D vp e' HD ltac:(lia) Hptr4 Hw v o Hvo). congruence. }
  assert (K5 : kept own s (<[r := OUser]> own) s5).
  { apply (kept_fresh _ _ _ _ r); [done|done| |by rewrite lookup_insert_eq|].
    - intros v Hne. by rewrite lookup_insert_ne.
    - intros v o Hv Hvo. assert (Hvr : v <> r) by (intros ->; destruct Hvo; congruence).
      rewrite <- M1. pose proof (pi_page _ _ _ _ I _ _ Hv) as Hpv. eapply same_page_trans.
      + by apply (only_page_same r); [|done|..].
      + apply S5; [done|..]; rewrite lookup_insert_ne, Hv by done; [destruct Hvo; congruence|done]. }
  exists s5, e'. split_and!; try done. intros j Hj. rewrite <- M1, <- Hcp by done. apply (S5 r); [done|..|lia].
  - rewrite lookup_insert_eq. congruence.
  - by rewrite lookup_insert_eq.
Qed.

Lemma private_copy s own users live D vp e i x :
  cow_inv s own users live -> users !! (D, vp) = Some e ->
  1 < mapcount users (frame e) -> running s i x ->
  (exists s', cow_fault (pte_ptr (v_mem s) D vp) e s
              = Ok tt (set_ptable (alter (set_killed true) i (ptable s)) s')
     /\ cow_inv s' own users live /\ kept own s own s' /\ forall v, own !! v <> Some OFree)
  \/ exists s' e' r, cow_fault (pte_ptr (v_mem s) D vp) e s = Ok tt (set_cr3 (V2P (pgdir x)) s')
     /\ own !! r = Some OFree /\ cow_inv s' (<[r := OUser]> own) (<[(D, vp) := e']> users) live
     /\ kept own s (<[r := OUser]> own) s'
     /\ frame e' = r /\ has e' PTE_P = true /\ has e' PTE_U = true /\ has e' PTE_W = true
     /\ forall j, 0 <= j < PGSIZE -> rd (v_mem s') (V2P r + j) = rd (v_mem s) (V2P (frame e) + j).
Proof.
  intros C Hu H1 R. destruct (entry_frame _ _ _ _ _ _ _ C Hu) as (Hp & Ha & Ho & Hr & Hz).
  pose proof (ci_pt _ _ _ _ C) as I. pose proof (ci_acct _ _ _ _ C) as A. pose proof NUSER_lt.
  destruct (proj1 (pi_users _ _ _ _ I _ _ _) Hu) as (HD & Hvp & Hval & HP).
  assert (Hptr : pte_ptr (v_mem s) D vp <> 0) by (apply present_ptr; by rewrite Hval).
  pose proof (cow_mapcount _ _ _ _ (frame e) C) as Hb.
  unfold cow_fault. cbv zeta. rewrite Ha. fold (pageno (frame e)).
  rewrite (bind_ok _ _ _ _ _ (read_ref_ok _ _ _ _ _ C Hp)). rewrite (proj2 (Z.eqb_neq _ _)) by lia.
  rewrite (proj2 (Z.ltb_lt _ _)) by lia. rewrite <- Ha. fold (frame e).
  destruct (v_kalloc s own users live I) as (r & s1 & E1 & F1 & M1 & Hc). rewrite (bind_ok _ _ _ _ _ E1).
  assert (R1 : running s1 i x) by (apply (running_frame s); auto with xv6).
  assert (Eref : pg_refcount s1 = pg_refcount s) by (by rewrite (vf_rest _ _ F1)).
  destruct Hc as [(-> & I1 & Hnf)|(Hpr & Hor & I1)].
  - left. destruct (kill_ok s1 i x R1) as (s2 & E2 & Hm). exists s2. cbn [Z.eqb]. rewrite E2.
    assert (C1 : cow_inv s1 own users live) by (split; [done|by rewrite Eref|apply C]).
    destruct (moved_frame _ _ Hm) as [F2 M2]. split_and!; [|by eapply cow_moved| |done].
    + by rewrite (vf_rest _ _ F1).
    + split; [by apply vframe_uframe; eapply vframe_trans| |done]. intros v o Hv _. rewrite M2, M1.
      split; [done|apply same_page_refl].
  - right. rewrite (proj2 (Z.eqb_neq _ _)) by (by apply page_nonzero).
    destruct (install_copy s s1 own users live D vp e r flush_tlb C Hu H1 F1 M1 Hpr Hor I1)
      as (s5 & e' & E5 & F5 & C5 & K5 & Hfr & HwP & HwU & HwW & Hcp).
    fold (pageno (frame e)) in E5. rewrite Ha. rewrite E5.
    destruct (flush_ok s5 i x) as (s6 & E6 & Hm6); [by eapply running_frame|].
    destruct (moved_frame _ _ Hm6) as [F6 M6]. exists s6, e', r. rewrite E6.
    split_and!; try done; [by eapply cow_moved| |].
    + eapply kept_trans; [done|]. split; [auto with xv6| |done]. intros v o Hv _. rewrite M6.
      split; [done|apply same_page_refl].
    + intros j Hj. rewrite M6, ?Ha. by apply Hcp.
Qed.

(** What a readable address says of its entry. *)
Lemma ubyte_entry s own users live D va b :
  pt_inv (v_k s) own users live -> D ∈ live -> ubyte s D va = Some b ->
  user_va va = true /\ 0 <= va < KERNBASE /\ 0 <= va / PGSIZE < NUSER
  /\ users !! (D, va / PGSIZE) = Some (pte_val (v_mem s) D (va / PGSIZE))
  /\ has (pte_val (v_mem s) D (va / PGSIZE)) PTE_P = true
  /\ has (pte_val (v_mem s) D (va / PGSIZE)) PTE_U = true.
Proof.
  intros I HD Hb. unfold ubyte in Hb.
  destruct (user_va va) eqn:Ev; [|discriminate]. destruct (has _ PTE_P) eqn:EP; [|discriminate].
  destruct (has _ PTE_U) eqn:EU; [|discriminate].
  assert (Hva : 0 <= va < KERNBASE).
  { apply andb_true_iff in Ev as [H1 H2]. by rewrite Z.leb_le, Z.ltb_lt in *. }
  assert (Hvp : 0 <= va / PGSIZE < NUSER).
  { change NUSER with 524288. unfold KERNBASE, PGSIZE in *. zdiv. }
  split_and!; try done; try lia. by rewrite (not_present _ _ _ _ _ _ I HD Hvp), EP.
Qed.

(** The handler gets as far as [cow_fault]. *)
Lemma pagefault_reach err s own users live i x va :
  cow_inv s own users live -> running s i x -> pgdir x ∈ live -> cr2 s = va -> 0 <= va < KERNBASE ->
  has (pte_val (v_mem s) (pgdir x) (va / PGSIZE)) PTE_P = true ->
  has (pte_val (v_mem s) (pgdir x) (va / PGSIZE)) PTE_U = true ->
  has (pte_val (v_mem s) (pgdir x) (va / PGSIZE)) PTE_W = false ->
  exists s1, moved s s1 /\ pagefault err s =
    cow_fault (pte_ptr (v_mem s1) (pgdir x) (va / PGSIZE)) (pte_val (v_mem s) (pgdir x) (va / PGSIZE)) s1.
Proof.
  intros C R HD Hcr Hva HP HU HW. assert (Hva' : 0 <= va < 2 ^ 32) by (unfold KERNBASE in *; lia).
  destruct (v_myproc s (Some i) (rn_cur _ _ _ R)) as (s1 & E1 & M1 & Hc1).
  destruct (v_myproc s1 (Some i) Hc1) as (s2 & E2 & M2 & _).
  pose proof (moved_trans _ _ _ M1 M2) as M12. exists s2. split; [done|].
  pose proof (cow_moved _ _ _ _ _ C M12) as C2. pose proof (running_moved _ _ _ _ M12 R) as R2.
  destruct (moved_frame _ _ M12) as [_ Em].
  unfold pagefault. rewrite (bind_ok _ _ s va s) by (unfold gets; by rewrite Hcr).
  rewrite (bind_ok _ _ _ _ _ E1). rewrite (proj2 (Z.leb_gt _ _)) by lia. cbv zeta.
  rewrite (bind_ok _ _ _ _ _ E2), (bind_ok _ _ _ _ _ (read_proc_ok _ _ _ (rn_proc _ _ _ R2))).
  rewrite (bind_ok _ _ _ _ _ (walkpgdir_read s2 _ _ _ _ _ (ci_pt _ _ _ _ C2) HD Hva')).
  assert (Hptr : pte_ptr (v_mem s2) (pgdir x) (va / PGSIZE) <> 0).
  { apply present_ptr. by rewrite Em. }
  rewrite (proj2 (Z.eqb_neq _ _)) by done.
  rewrite (bind_ok _ _ _ _ _ (kload_pte s2 _ _ _ (ci_pt _ _ _ _ C2) _ _ HD (vp_range va Hva') Hptr)).
  rewrite Em, HP, HU, HW. done.
Qed.

Lemma kept_moved own s s1 own' s' : moved s s1 -> kept own s1 own' s' -> kept own s own' s'.
Proof.
  intros Hm [F U D]. destruct (moved_frame _ _ Hm) as [Fm Mm].
  split; [by eapply uframe_trans; [apply vframe_uframe|]| |done]. by rewrite <- Mm.
Qed.

(** A user store to a readable address that traps: the handler returns; no
    process sees any byte change; and either the store can be repeated and
    goes through, with the TLB flushed and nobody else sharing the page, or
    memory is exhausted and the process is marked killed. *)
Lemma pagefault_ok err s own users live i x va b0 b :
  cow_inv s own users live -> running s i x -> pgdir x ∈ live -> cr2 s = va ->
  ubyte s (pgdir x) va = Some b0 -> uwrite s (pgdir x) va b = None ->
  exists s' own' users', pagefault err s = Ok tt s' /\ cow_inv s' own' users' live
    /\ (forall D' va', D' ∈ live -> ubyte s' D' va' = ubyte s D' va')
    /\ ((is_Some (uwrite s' (pgdir x) va b) /\ tlb s' = ∅ /\ cr3 s' = V2P (pgdir x)
          /\ ptable s' = ptable s)
        \/ (ptable s' = alter (set_killed true) i (ptable s) /\ own' = own /\ users' = users
            /\ forall v, own !! v <> Some OFree)).
Proof.
  intros C R HD Hcr Hb Hw.
  destruct (ubyte_entry _ _ _ _ _ _ _ (ci_pt _ _ _ _ C) HD Hb) as (Hv & Hva & Hvp & Hu & HP & HU).
  assert (HW : has (pte_val (v_mem s) (pgdir x) (va / PGSIZE)) PTE_W = false).
  { unfold uwrite in Hw. rewrite Hv, HP, HU in Hw. by destruct (has _ PTE_W). }
  destruct (pagefault_reach err s own users live i x va C R HD Hcr Hva HP HU HW) as (s1 & M1 & ->).
  set (e := pte_val (v_mem s) (pgdir x) (va / PGSIZE)) in *. set (D := pgdir x) in *.
  pose proof (cow_moved _ _ _ _ _ C M1) as C1. pose proof (running_moved _ _ _ _ M1 R) as R1.
  assert (Hpt : ptable s1 = ptable s) by (by destruct M1 as (m & -> & _)).
  (* a writable entry for [va] in the final state *)
  assert (Hdone : forall s2 own2 e', cow_inv s2 own2 (<[(D, va / PGSIZE) := e']> users) live ->
    has e' PTE_P = true -> has e' PTE_U = true -> has e' PTE_W = true ->
    is_Some (uwrite (set_cr3 (V2P D) s2) D va b)).
  { intros s2 own2 e' C2 HP2 HU2 HW2. unfold uwrite. rewrite Hv.
    change (v_mem (set_cr3 (V2P D) s2)) with (v_mem s2).
    destruct (proj1 (pi_users _ _ _ _ (ci_pt _ _ _ _ C2) D (va / PGSIZE) e')) as (_ & _ & -> & _);
      [apply lookup_insert_eq|]. by rewrite HP2, HU2, HW2. }
  destruct (decide (mapcount users (frame e) = 1)) as [H1|H1].
  - destruct (take_over s1 own users live D (va / PGSIZE) e i x C1 Hu HU H1 R1)
      as (s2 & e' & E2 & C2 & K2 & Ef & HP2 & HU2 & HW2).
    eexists _, own, _. rewrite E2. split_and!; [done|by apply cow_cr3| |].
    + intros D' va' HD'. apply (view_kept s own users live s2 own (<[(D, va / PGSIZE) := e']> users) live);
        [done|done|by eapply kept_moved|done|done|].
      rewrite lookup_insert. case_decide as Eq; [|apply same_entry_refl].
      injection Eq as <- <-. rewrite Hu. split; [done|congruence].
    + left. split_and!; [by eapply Hdone|done|done|]. rewrite (uf_rest _ _ (kp_frame _ _ _ _ K2)). done.
  - assert (Hgt : 1 < mapcount users (frame e)).
    { assert (0 < mapcount users (frame e)) by (apply mapcount_pos; eauto). lia. }
    destruct (private_copy s1 own users live D (va / PGSIZE) e i x C1 Hu Hgt R1)
      as [(s2 & E2 & C2 & K2 & Hnf)|(s2 & e' & r & E2 & Hr & C2 & K2 & Ef & HP2 & HU2 & HW2 & Hcp)].
    + eexists _, own, users. rewrite E2. split_and!; [done|by apply cow_ptable| |].
      * intros D' va' HD'. apply (view_kept s own users live s2 own users live);
          [done|done|by eapply kept_moved|done|done|apply same_entry_refl].
      * right. split_and!; try done. cbn. by rewrite Hpt.
    + eexists _, _, _. rewrite E2. split_and!; [done|by apply cow_cr3| |].
      * intros D' va' HD'. destruct (decide ((D, va / PGSIZE) = (D', va' / PGSIZE))) as [Eq|Hne].
        -- rewrite (ubyte_users s own users live) by (done || apply C).
           rewrite (ubyte_users (set_cr3 _ s2) _ _ live) by (done || apply C2).
           destruct (user_va va'); [|done]. rewrite <- Eq, lookup_insert_eq, Hu. cbn [mbind option_bind].
           rewrite HU2, HU, Ef. f_equal. change (v_mem (set_cr3 (V2P D) s2)) with (v_mem s2).
           destruct (moved_frame _ _ M1) as [_ Em]. rewrite Hcp, Em; [done|]. by apply Z.mod_pos_bound.
        -- apply (view_kept s own users live s2 (<[r := OUser]> own) (<[(D, va / PGSIZE) := e']> users) live);
             [done|done|by eapply kept_moved|done|done|].
           rewrite lookup_insert_ne by done. apply same_entry_refl.
      * left. split_and!; [by eapply Hdone|done|done|]. rewrite (uf_rest _ _ (kp_frame _ _ _ _ K2)). done.
Qed.

(** * User stores *)

(** A store that does not trap is seen by the storing process alone. *)
Lemma uwrite_ok s own users live D va b s' :
  cow_inv s own users live -> D ∈ live -> 0 <= b < 256 -> uwrite s D va b = Some s' ->
  cow_inv s' own users live
  /\ forall D' va', D' ∈ live ->
     ubyte s' D' va' = if decide (D' = D /\ va' = va) then Some b else ubyte s D' va'.
Proof.
  intros C HD Hb Hw. pose proof (ci_pt _ _ _ _ C) as I. unfold uwrite in Hw.
  set (e := pte_val (v_mem s) D (va / PGSIZE)) in *.
  destruct (user_va va) eqn:Ev; [|discriminate]. destruct (has e PTE_P) eqn:EP; [|discriminate].
  destruct (has e PTE_U) eqn:EU; [|discriminate]. destruct (has e PTE_W) eqn:EW; [|discriminate].
  injection Hw as <-.
  assert (Hby : ubyte s D va = Some (rd (v_mem s) (PTE_ADDR e + va mod PGSIZE))).
  { unfold ubyte. fold e. by rewrite Ev, EP, EU. }
  destruct (ubyte_entry _ _ _ _ _ _ _ I HD Hby) as (_ & Hva & Hvp & Hu & _). fold e in Hu.
  destruct (entry_frame _ _ _ _ _ _ _ C Hu) as (Hp & Ha & Ho & Hr & _).
  pose proof (ac_excl _ _ _ (ci_acct _ _ _ _ C) _ _ _ Hu EW) as H1.
  pose proof (Z.mod_pos_bound va PGSIZE ltac:(done)) as Hm.
  assert (Honly : only_page (frame e) (v_mem s) (wr (v_mem s) (PTE_ADDR e + va mod PGSIZE) b)).
  { intros a Hna. rewrite Ha. apply rd_wr_ne. lia. }
  assert (I' : pt_inv (v_k (vput (wr (v_mem s) (PTE_ADDR e + va mod PGSIZE) b) s)) own users live).
  { eapply pt_write; [done|exact Ho|by right|done]. }
  split; [by split; [|apply C|apply C]|]. intros D' va' HD'.
  rewrite (ubyte_users _ own users live D' va' I' HD'), (ubyte_users _ own users live D' va' I HD').
  rewrite v_mem_vput. destruct (decide ((D, va / PGSIZE) = (D', va' / PGSIZE))) as [Eq|Hne].
  - injection Eq as <- Evp. rewrite <- Evp, Hu. cbn [mbind option_bind]. rewrite EU, Ha.
    destruct (decide (va' = va)) as [->|Hva'].
    + rewrite decide_True by done. rewrite Ev, rd_wr_eq. by rewrite u8_id.
    + rewrite decide_False by naive_solver. destruct (user_va va') eqn:Ev'; [|done]. f_equal.
      apply rd_wr_ne. unfold PGSIZE in *. zdiv.
  - rewrite decide_False by (intros [-> ->]; done). destruct (user_va va'); [|done].
    destruct (users !! (D', va' / PGSIZE)) as [e'|] eqn:Eu'; [|done]. cbn [mbind option_bind].
    destruct (has e' PTE_U); [|done]. f_equal. apply page_byte.
    apply (only_page_same (frame e)); [done| | |done]; [by eapply user_page|].
    intros Hf. destruct Hne. symmetry. by eapply (mapcount_one users (frame e)).
Qed.
End cow.
