(* ===== verification/CopyCow.v ===== *)
(** [copyuvmcow]: the address space of a copy-on-write child. *)

From S2P Require Import Prelude Params Mem Spinlock Kalloc Vm PageTable Walk Uvm Kvm Cow.
Open Scope Z_scope.
Open Scope xv6_scope.

Section copycow.
Context `{Layout}.

(** Sharing a read-only page: the child's entry is the parent's, the parent's
    may get another flag, and the count goes up by one. *)
Lemma acct_share ref own users D d vp e e2 :
  acct ref own users -> users !! (D, vp) = Some e -> users !! (d, vp) = None ->
  page_ok (frame e) -> has e PTE_W = false -> has e2 PTE_W = false -> frame e2 = frame e ->
  acct (<[pageno (frame e) := mapcount users (frame e) + 1]> ref) own
    (<[(D, vp) := e2]> (<[(d, vp) := e]> users)).
Proof.
  intros [Ar Au Av Ax] HD Hd Hp HW HW2 Hf.
  assert (Hne : (d, vp) <> (D, vp)) by congruence.
  assert (Hm : forall v, mapcount (<[(D, vp) := e2]> (<[(d, vp) := e]> users)) v =
    mapcount users v + if decide (frame e = v) then 1 else 0).
  { intros v. rewrite (mapcount_replace _ _ e) by (by rewrite lookup_insert_ne).
    rewrite mapcount_insert by done. rewrite Hf. lia. }
  assert (Hin : forall D1 vp1 e1, <[(D, vp) := e2]> (<[(d, vp) := e]> users) !! (D1, vp1) = Some e1 ->
    (vp1 = vp /\ frame e1 = frame e /\ has e1 PTE_W = false) \/ users !! (D1, vp1) = Some e1).
  { intros D1 vp1 e1. rewrite !lookup_insert. repeat case_decide; naive_solver. }
  split.
  - intros v Hv. rewrite Hm, bump_ref by done. destruct (decide (v = frame e)) as [->|].
    + by rewrite decide_True.
    + rewrite decide_False by done. rewrite Ar by done. lia.
  - intros v Hv. rewrite Hm. pose proof (Au v Hv). case_decide; lia.
  - intros D1 vp1 e1 D2 vp2 e2' [(-> & Hf1 & _)|H1]%Hin [(-> & Hf2 & _)|H2]%Hin Heq; [done|..].
    + eapply (Av D vp e D2 vp2 e2'); [done|done|congruence].
    + symmetry. eapply (Av D vp e D1 vp1 e1); [done|done|congruence].
    + by eapply Av.
  - intros D1 vp1 e1 [(_ & _ & ?)|H1]%Hin HW1; [congruence|]. rewrite Hm.
    pose proof (Ax _ _ _ H1 HW1) as Hone. case_decide as Ef; [|lia].
    pose proof (mapcount_one users (frame e1) (D1, vp1) e1 Hone H1 eq_refl (D, vp) e HD Ef) as [= <- <-].
    congruence.
Qed.

(** The child never maps the page already, so there is room in the counter. *)
Lemma share_bound s own users live D d vp e :
  cow_inv s own users live -> d ∈ live -> users !! (D, vp) = Some e -> users !! (d, vp) = None ->
  0 <= mapcount users (frame e) <= 126.
Proof.
  intros C Hd HD Hno. split; [apply mapcount_nonneg|].
  pose proof (ci_size _ _ _ _ C) as Hs. pose proof (ci_acct _ _ _ _ C) as A.
  assert (Hsz : size (live ∖ {[d]}) = (size live - 1)%nat).
  { rewrite size_difference by set_solver. by rewrite size_singleton. }
  assert (Hpos : (0 < size live)%nat).
  { destruct (size live) eqn:E; [|lia]. apply size_empty_inv in E. set_solver. }
  transitivity (Z.of_nat (size (live ∖ {[d]}))); [|lia].
  apply mapcount_bound.
  - intros D1 vp1 e1 H1 Hf. apply elem_of_difference. split.
    + by apply (pi_users _ _ _ _ (ci_pt _ _ _ _ C)) in H1 as [? _].
    + rewrite elem_of_singleton. intros ->.
      pose proof (ac_vp _ _ _ A _ _ _ _ _ _ H1 HD Hf). congruence.
  - intros D1 vp1 e1 D2 vp2 e2 H1 H2 Hf1 Hf2. eapply (ac_vp _ _ _ A); try done. congruence.
Qed.

(** A present entry is the word [mappages] would build from its parts. *)
Lemma map_word_self e :
  0 <= e < 2 ^ 32 -> has e PTE_P = true -> map_word (PTE_ADDR e) (PTE_FLAGS e) = e.
Proof.
  intros He HP. destruct (pte_split e He) as (Hs & Ha & Hr & Hf). unfold map_word.
  rewrite (pte_lor (PTE_ADDR e)), <- Hs by done. apply Z.bits_inj'. intros n Hn. rewrite Z.lor_spec.
  destruct (Z.eq_dec n 0) as [->|Hne].
  - change PTE_P with (2 ^ 0) in *. rewrite has_bit in HP by done. by rewrite HP.
  - change PTE_P with (2 ^ 0). rewrite Z.pow2_bits_false by lia. apply orb_false_r.
Qed.

(** What the parent and the child see after some pages have been shared. *)
Record shared (users users' : gmap (Z * Z) Z) (D d lo hi : Z) : Prop := {
  sd_child : forall vp, lo <= vp < hi -> same_entry (users !! (D, vp)) (users' !! (d, vp));
  sd_rest : forall vp, ~ (lo <= vp < hi) -> users' !! (d, vp) = users !! (d, vp);
  sd_others : forall D' vp, D' <> d -> same_entry (users !! (D', vp)) (users' !! (D', vp))
}.

Lemma same_entry_trans o1 o2 o3 : same_entry o1 o2 -> same_entry o2 o3 -> same_entry o1 o3.
Proof. destruct o1, o2, o3; simpl; try done. intros [? ?] [? ?]. split; congruence. Qed.

(** Growing one directory leaves the tables of the others where they are. *)
Lemma grown_ptr k k' own own' users users' live d D vp :
  pt_inv k own users live -> pt_inv k' own' users' live -> grown d own own' ->
  D ∈ live -> 0 <= vp < 2 ^ 20 -> pte_ptr (k_mem k) D vp <> 0 ->
  pte_ptr (k_mem k') D vp = pte_ptr (k_mem k) D vp.
Proof.
  intros I I' G HD Hvp Hp. destruct (pte_ptr_in _ _ _ _ I D vp HD Hvp Hp) as (t & _ & Ho & -> & _).
  apply (grown_used _ _ _ _ _ G) in Ho; [|done].
  destruct (pi_back _ _ _ _ I' _ _ Ho) as (_ & _ & Ht & Et). unfold pte_ptr. by rewrite Ht, Et.
Qed.

(** One page: the parent's entry loses [PTE_W] and gains [PTE_COW], the
    child's is the read-only one. *)
Lemma share_one s own users live D d vp e :
  cow_inv s own users live -> D ∈ live -> d ∈ live -> D <> d -> 0 <= vp < NUSER ->
  users !! (D, vp) = Some e -> users !! (d, vp) = None ->
  let pte := pte_ptr (v_mem s) D vp in
  let e1 := Z.land e (not32 PTE_W) in
  exists s1, lift (kstore pte e1) s = Ok tt s1 /\ lift (kload pte) s1 = Ok e1 s1
    /\ returns (mappages d (vp * PGSIZE) PGSIZE (PTE_ADDR e1) (PTE_FLAGS e1) s1) (fun r s2 =>
        exists own2, kept own s own2 s2
        /\ ((r = -1 /\ cow_inv s2 own2 (<[(D, vp) := e1]> users) live)
            \/ (r = 0 /\ exists s3, lift (kload pte) s2 = Ok e1 s2
                 /\ lift (kstore pte (Z.lor e1 PTE_COW)) s2 = Ok tt s3
                 /\ exists n s4, add_ref (Z.shiftr (PTE_ADDR e1) PGSHIFT) 1 s3 = Ok n s4
                 /\ cow_inv s4 own2 (<[(D, vp) := Z.lor e1 PTE_COW]> (<[(d, vp) := e1]> users)) live
                 /\ kept own s own2 s4))).
Proof.
  intros C HD Hd Hne Hvp Hu Hno pte e1.
  destruct (entry_frame _ _ _ _ _ _ _ C Hu) as (Hp & Ha & Ho & Hr & _).
  pose proof (proj1 (pi_users _ _ _ _ (ci_pt _ _ _ _ C) _ _ _) Hu) as (_ & _ & _ & HP).
  destruct (clear_flag e PTE_W Hr ltac:(done)) as [Ea1 Er1]. fold e1 in Ea1, Er1.
  assert (HP1 : has e1 PTE_P = true) by (unfold e1; flags).
  assert (HW1 : has e1 PTE_W = false) by (unfold e1; flags).
  destruct (pte_split e1 Er1) as (_ & Hpa & Hpr & Hpf).
  destruct (reflag_ok s own users live D vp e e1 C Hu Ea1 Er1 HP1 ltac:(congruence)) as (s1 & E1 & C1 & K1 & F1 & P1).
  assert (Hu1 : <[(D, vp) := e1]> users !! (D, vp) = Some e1) by apply lookup_insert_eq.
  assert (Hno1 : <[(D, vp) := e1]> users !! (d, vp) = None) by (rewrite lookup_insert_ne; congruence).
  exists s1. split; [done|]. unfold pte. rewrite <- P1.
  split; [by eapply load_entry; [apply C1|]|].
  eapply returns_mono; [|apply (mappages_user s1 own _ live d vp _ _ (ci_pt _ _ _ _ C1) Hd Hvp Hpa Hpr Hpf Hno1);
    fold (frame e1); unfold frame; by rewrite Ea1].
  intros r s2 (own2 & W2 & Hc). exists own2.
  assert (K2 : kept own s own2 s2) by (eapply kept_trans; [done|by eapply walked_kept]). split; [done|].
  assert (Eref : pg_refcount s2 = pg_refcount s1) by (by rewrite (vf_rest _ _ (wk_frame _ _ _ _ _ W2))).
  assert (A2 : acct (pg_refcount s2) own2 (<[(D, vp) := e1]> users)).
  { rewrite Eref. apply (acct_own _ own); [|apply C1]. intros v Hv.
    destruct (wk_grown _ _ _ _ _ W2 v) as [<-|(_ & dd & ?)]; [done|congruence]. }
  destruct Hc as [[-> I2]|[-> I2]]; [right|left; split; [done|]; by split; [| |apply C]].
  split; [done|]. rewrite map_word_self in I2 by done.
  assert (Hu2 : <[(d, vp) := e1]> (<[(D, vp) := e1]> users) !! (D, vp) = Some e1)
    by (rewrite lookup_insert_ne; [done|congruence]).
  assert (P2 : pte_ptr (v_mem s2) D vp = pte_ptr (v_mem s1) D vp).
  { pose proof NUSER_lt. eapply grown_ptr; [apply C1|exact I2|apply W2|done|lia|].
    apply present_ptr. by destruct (proj1 (pi_users _ _ _ _ (ci_pt _ _ _ _ C1) _ _ _) Hu1) as (_ & _ & -> & _). }
  assert (Emap : forall x, <[(D, vp) := x]> (<[(d, vp) := e1]> (<[(D, vp) := e1]> users))
    = <[(D, vp) := x]> (<[(d, vp) := e1]> users)).
  { intros x. by rewrite (insert_insert_ne users (d, vp) (D, vp)), insert_insert_eq by congruence. }
  destruct (set_flag e1 PTE_COW Er1 ltac:(done)) as [Ea2 Er2].
  assert (HP2 : has (Z.lor e1 PTE_COW) PTE_P = true) by flags.
  assert (HW2 : has (Z.lor e1 PTE_COW) PTE_W = false) by flags.
  rewrite <- P2.
  destruct (reflag_pt s2 own2 _ live D vp e1 _ I2 Hu2 Ea2 Er2 HP2) as (s3 & E3 & I3 & K3 & F3 & P3).
  exists s3. split; [by eapply load_entry|]. split; [done|].
  assert (Hf1 : frame e1 = frame e) by (unfold frame; by rewrite Ea1).
  assert (Hp1 : page_ok (frame e1)) by (by rewrite Hf1).
  pose proof (share_bound s1 own _ live D d vp e1 C1 Hd Hu1 Hno1) as Hb.
  assert (Epn : Z.shiftr (PTE_ADDR e1) PGSHIFT = pageno (frame e1)).
  { unfold pageno. rewrite Hf1, <- Ha, Ea1. done. }
  assert (Eref3 : pg_refcount s3 = pg_refcount s2) by (by rewrite (vf_rest _ _ F3)).
  rewrite Epn. eexists _, _. split.
  { apply add_ref_ok; [done|unfold refcount; rewrite Eref3; by apply (ac_ref _ _ _ A2)|lia]. }
  split.
  - split; [|cbn; rewrite Eref3|apply C].
    + by rewrite Emap in I3.
    + pose proof (acct_share _ _ _ D d vp e1 (Z.lor e1 PTE_COW) A2 Hu1 Hno1 Hp1 HW1 HW2
        ltac:(unfold frame; by rewrite Ea2)) as A4.
      by rewrite Emap in A4.
  - eapply kept_trans; [exact K2|]. eapply kept_trans; [exact K3|].
    split; [apply uframe_bump| |done]. intros v o Hv _. split; [done|apply same_page_refl].
Qed.

(** The child maps nothing the parent does not map. *)
Definition child_of (users : gmap (Z * Z) Z) (D d : Z) : Prop :=
  forall vp e, users !! (d, vp) = Some e -> exists e', users !! (D, vp) = Some e' /\ frame e' = frame e.

(** Giving up a child, every user page is still in use. *)
Lemma free_child s own users live D d :
  cow_inv s own users live -> d ∈ live -> D <> d -> child_of users D d ->
  returns (freevm d s) (fun _ s' => exists own', kept own s own' s'
    /\ cow_inv s' own' (unmap_range users d 0 NUSER) (live ∖ {[d]})).
Proof.
  intros C Hd Hne Hsub. eapply returns_mono; [|by apply (freevm_ok s own users live d)].
  intros _ s' (own' & C' & S). exists own'. split; [|done].
  destruct S as [F U K Dm Sk]. split; [done| |done]. intros v o Hv Ho.
  assert (Hv' : own' !! v = Some o); [|by eauto]. destruct Ho as [->| ->]; [|by apply K].
  pose proof (ac_used _ _ _ (ci_acct _ _ _ _ C) v Hv) as Hp.
  apply mapcount_pos in Hp as ([D1 vp] & e & He & <-).
  assert (Hm : exists D2 e2, D2 <> d /\ users !! (D2, vp) = Some e2 /\ frame e2 = frame e).
  { destruct (decide (D1 = d)) as [->|]; [|by eauto 6].
    destruct (Hsub _ _ He) as (e' & ? & ?). by exists D, e'. }
  destruct Hm as (D2 & e2 & Hn2 & H2 & <-). eapply (pi_user _ _ _ _ (ci_pt _ _ _ _ C') D2 vp).
  rewrite unmap_range_lookup, decide_False by naive_solver. done.
Qed.

Lemma unmap_others users d D' vp :
  D' <> d -> unmap_range users d 0 NUSER !! (D', vp) = users !! (D', vp).
Proof. intros Hne. rewrite unmap_range_lookup, decide_False by naive_solver. done. Qed.

Section share_step.
Context (users : gmap (Z * Z) Z) (D d vp e e1 e2 : Z).
Context (Hne : D <> d) (Hu : users !! (D, vp) = Some e) (Hno : users !! (d, vp) = None).
Context (H1 : same_entry (Some e) (Some e1)) (H2 : same_entry (Some e) (Some e2)).
Let users4 := <[(D, vp) := e2]> (<[(d, vp) := e1]> users).

Lemma step_child : users4 !! (d, vp) = Some e1.
Proof. unfold users4. rewrite lookup_insert_ne by congruence. apply lookup_insert_eq. Qed.

Lemma step_other D' vp' : (D', vp') <> (d, vp) -> same_entry (users !! (D', vp')) (users4 !! (D', vp')).
Proof.
  intros Hn. unfold users4. rewrite lookup_insert. case_decide as Eq.
  - injection Eq as <- <-. by rewrite Hu.
  - rewrite lookup_insert_ne by done. apply same_entry_refl.
Qed.

Lemma step_far D' vp' : vp' <> vp -> users4 !! (D', vp') = users !! (D', vp').
Proof. intros Hn. unfold users4. by rewrite !lookup_insert_ne by congruence. Qed.

Lemma child_step : child_of users D d -> child_of users4 D d.
Proof.
  intros Hc vp' e' He'. destruct (decide (vp' = vp)) as [->|Hn].
  - rewrite step_child in He'. injection He' as <-. exists e2. unfold users4. rewrite lookup_insert_eq.
    split; [done|]. destruct H1, H2. congruence.
  - rewrite step_far in * by done. eauto.
Qed.

Lemma shared_step users' hi :
  vp < hi -> shared users4 users' D d (vp + 1) hi -> shared users users' D d vp hi.
Proof.
  intros Hlt [Sc Sr So]. split.
  - intros vp' Hvp'. destruct (decide (vp' = vp)) as [->|Hn].
    + rewrite Sr by lia. rewrite step_child, Hu. done.
    + rewrite <- (step_far D vp') by done. apply Sc. lia.
  - intros vp' Hvp'. rewrite Sr by lia. apply step_far. lia.
  - intros D' vp' HD'. eapply same_entry_trans; [apply step_other; congruence|by apply So].
Qed.
End share_step.

Lemma copyuvmcow_loop_ok fuel : forall s own users live D d vp size,
  cow_inv s own users live -> D ∈ live -> d ∈ live -> D <> d -> child_of users D d ->
  0 <= vp -> size <= KERNBASE ->
  (forall vp', vp <= vp' < npages size -> is_Some (users !! (D, vp')) /\ users !! (d, vp') = None) ->
  size - vp * PGSIZE <= (Z.of_nat fuel - 1) * PGSIZE -> (0 < fuel)%nat ->
  returns (copyuvmcow_loop D d (vp * PGSIZE) size fuel s) (fun r s' => exists s'' own' users',
    s' = set_cr3 (V2P D) s'' /\ kept own s own' s''
    /\ ((r = 0 /\ cow_inv s'' own' users' (live ∖ {[d]})
          /\ forall D' vp', D' <> d -> same_entry (users !! (D', vp')) (users' !! (D', vp')))
        \/ (r = d /\ cow_inv s'' own' users' live /\ shared users users' D d vp (npages size)))).
Proof.
  assert (HG : PGSIZE = 4096) by done. assert (HN : NUSER = 524288) by done.
  assert (HK : KERNBASE = 2147483648) by done.
  induction fuel as [|fuel IH]; intros s own users live D d vp size C HD Hd Hne Hsub Hvp Hsz Hpg Hfuel Hpos; [lia|].
  cbn [copyuvmcow_loop]. destruct (Z.ltb_spec (vp * PGSIZE) size) as [Hlt|Hge].
  2:{ exists s, own, users. split_and!; [done|apply kept_refl|]. right. split_and!; [done|done|].
      assert (npages size <= vp) by (unfold npages; rewrite HG in *; zdiv).
      split; [lia|done|]. intros; apply same_entry_refl. }
  assert (Hn : 0 <= vp < NUSER) by lia.
  assert (Hlo : vp < npages size) by (unfold npages; rewrite HG in *; zdiv).
  destruct (Hpg vp ltac:(lia)) as ([e Hu] & Hno). pose proof (ci_pt _ _ _ _ C) as I.
  pose proof (proj1 (pi_users _ _ _ _ I _ _ _) Hu) as (_ & _ & Hval & HP).
  erewrite bind_ok by (eapply walkpgdir_read; [done|done|lia]). rewrite Z_div_mult by done.
  rewrite (proj2 (Z.eqb_neq _ _)) by (apply present_ptr; by rewrite Hval).
  rewrite (bind_ok _ _ _ _ _ (load_entry s own users live D vp e I Hu)), HP. cbn [negb].
  destruct (share_one s own users live D d vp e C HD Hd Hne Hn Hu Hno) as (s1 & E1 & L1 & Hmap).
  rewrite (bind_ok _ _ _ _ _ E1), (bind_ok _ _ _ _ _ L1). set (e1 := Z.land e (not32 PTE_W)) in *.
  assert (Hr : 0 <= e < 2 ^ 32) by (by eapply user_range).
  assert (Hf1 : frame e1 = frame e) by (unfold frame, e1; by rewrite (proj1 (clear_flag e PTE_W Hr ltac:(done)))).
  assert (HU1 : has e1 PTE_U = has e PTE_U) by (unfold e1; destruct (has e PTE_U) eqn:EU; flags).
  apply returns_bind. eapply returns_mono; [|exact Hmap]. intros r s2 (own2 & K2 & Hc).
  destruct Hc as [[-> C2]|(-> & s3 & L2 & E3 & n & s4 & E4 & C4 & K4)]; cbn [Z.ltb Z.compare].
  - apply returns_bind. eapply returns_mono; [|apply (free_child s2 own2 _ live D d C2 Hd Hne)].
    + intros _ s3 (own3 & K3 & C3). eexists s3, own3, _.
      split_and!; [done|by eapply kept_trans|]. left. split_and!; [done|exact C3|].
      intros D' vp' HD'. rewrite unmap_others by done. rewrite lookup_insert. case_decide as Eq; [|apply same_entry_refl].
      injection Eq as <- <-. by rewrite Hu.
    + intros vp' e' He'. rewrite lookup_insert_ne in He' by congruence. destruct (Hsub _ _ He') as (e'' & H1 & H2).
      rewrite lookup_insert. case_decide as Eq; [|by eauto]. injection Eq as <-. exists e1. split; [done|congruence].
  - rewrite (bind_ok _ _ _ _ _ L2), (bind_ok _ _ _ _ _ E3), (bind_ok _ _ _ _ _ E4).
    replace (u32 (vp * PGSIZE + PGSIZE)) with ((vp + 1) * PGSIZE) by (rewrite u32_id; lia).
    set (e2 := Z.lor e1 PTE_COW) in *. set (users4 := <[(D, vp) := e2]> (<[(d, vp) := e1]> users)) in *.
    assert (Hr1 : 0 <= e1 < 2 ^ 32) by apply (clear_flag e PTE_W Hr ltac:(done)).
    assert (S1 : same_entry (Some e) (Some e1)) by done.
    assert (S2 : same_entry (Some e) (Some e2)).
    { split; [rewrite <- Hf1; unfold frame, e2; by rewrite (proj1 (set_flag e1 PTE_COW Hr1 ltac:(done)))|].
      rewrite <- HU1. unfold e2. destruct (has e1 PTE_U) eqn:EU; flags. }
    destruct fuel as [|fuel']; [lia|].
    eapply returns_mono; [|eapply (IH s4 own2 users4 live D d (vp + 1) size C4); try done; try lia].
    + intros r s5 (s6 & own6 & users6 & -> & K6 & Hc6). exists s6, own6, users6.
      split_and!; [done|by eapply kept_trans|]. destruct Hc6 as [(-> & C6 & S6)|(-> & C6 & S6)].
      * left. split_and!; [done|done|]. intros D' vp' HD'. eapply same_entry_trans; [|by apply S6].
        apply (step_other users D d vp e e1 e2); [done|done|congruence].
      * right. split_and!; [done|done|]. by apply (shared_step users D d vp e e1 e2).
    + by eapply child_step.
    + intros vp' Hvp'. unfold users4. rewrite !(step_far users D d vp) by lia. apply Hpg. lia.
Qed.

Lemma user_page_of va n :
  user_va va = true -> 0 <= n -> (va / PGSIZE < n <-> va < n * PGSIZE).
Proof.
  intros Hv Hn. apply andb_true_iff in Hv as [H1 H2]. rewrite Z.leb_le, Z.ltb_lt in *.
  unfold PGSIZE. split; intros; zdiv.
Qed.

(** The child sees what the parent sees, up to the size of the process. *)
Lemma shared_view s own users live s' own' users' D d n :
  cow_inv s own users live -> cow_inv s' own' users' ({[d]} ∪ live) -> kept own s own' s' ->
  D ∈ live -> 0 <= n -> (forall vp, users !! (d, vp) = None) ->
  shared users users' D d 0 n ->
  forall va, ubyte s' d va = if va <? n * PGSIZE then ubyte s D va else None.
Proof.
  intros C C' K HD Hn Hno Sh va.
  rewrite (ubyte_users s' own' users' ({[d]} ∪ live)) by (set_solver || apply C').
  rewrite (ubyte_users s own users live) by (done || apply C).
  destruct (user_va va) eqn:Ev; [|by destruct (va <? _)].
  pose proof (user_page_of va n Ev Hn) as Hpg.
  assert (0 <= va / PGSIZE).
  { apply andb_true_iff in Ev as [H1 _]. rewrite Z.leb_le in H1. unfold PGSIZE. zdiv. }
  destruct (Z.ltb_spec va (n * PGSIZE)) as [Hlt|Hge].
  - pose proof (sd_child _ _ _ _ _ _ Sh (va / PGSIZE) ltac:(lia)) as He.
    destruct (users !! (D, va / PGSIZE)) as [e|] eqn:E, (users' !! (d, va / PGSIZE)) as [e'|]; try done.
    destruct He as [Ef Eu]. cbn [mbind option_bind]. rewrite Eu, Ef. destruct (has e PTE_U); [|done]. f_equal.
    apply page_byte, (kp_used _ _ _ _ K _ OUser); [|by left]. by eapply (pi_user _ _ _ _ (ci_pt _ _ _ _ C)).
  - rewrite (sd_rest _ _ _ _ _ _ Sh) by lia. by rewrite Hno.
Qed.

(** No page of user memory is taken into use. *)
Lemma shared_no_alloc s own users live s' own' users' live' D d n :
  cow_inv s own users live -> cow_inv s' own' users' live' ->
  (forall vp, users !! (d, vp) = None) -> shared users users' D d 0 n ->
  forall v, own' !! v = Some OUser -> own !! v = Some OUser.
Proof.
  intros C C' Hno Sh v Hv. pose proof (ac_used _ _ _ (ci_acct _ _ _ _ C') v Hv) as Hp.
  apply mapcount_pos in Hp as ([D1 vp] & e & He & <-).
  assert (Hs : exists D2 e2, users !! (D2, vp) = Some e2 /\ frame e2 = frame e).
  { destruct (decide (D1 = d)) as [->|Hne].
    - destruct (decide (0 <= vp < n)) as [Hr|Hr].
      + pose proof (sd_child _ _ _ _ _ _ Sh vp Hr) as Hc. rewrite He in Hc.
        destruct (users !! (D, vp)) as [e2|] eqn:E; [|done]. exists D, e2. split; [done|]. by destruct Hc.
      + rewrite (sd_rest _ _ _ _ _ _ Sh) in He by done. by rewrite Hno in He.
    - pose proof (sd_others _ _ _ _ _ _ Sh D1 vp Hne) as Hc. rewrite He in Hc.
      destruct (users !! (D1, vp)) as [e2|] eqn:E; [|done]. exists D1, e2. split; [done|]. by destruct Hc. }
  destruct Hs as (D2 & e2 & H2 & <-). by eapply (pi_user _ _ _ _ (ci_pt _ _ _ _ C)).
Qed.

(** [copyuvmcow] on a process whose pages below [sz0] are all mapped: it
    returns; every process of before sees its memory unchanged; and unless
    memory has run out, the new address space shows the parent's bytes
    without a single page of user memory having been allocated, with the TLB
    flushed so that the parent's old write permissions are gone. *)
Lemma copyuvmcow_ok s own users live D sz0 :
  cow_inv s own users live -> D ∈ live -> 0 <= sz0 <= KERNBASE ->
  (forall vp, 0 <= vp < npages sz0 -> is_Some (users !! (D, vp))) ->
  Z.of_nat (size live) < 127 ->
  exists r s' own' users', copyuvmcow D sz0 s = Ok r s'
    /\ (forall D' va, D' ∈ live -> ubyte s' D' va = ubyte s D' va)
    /\ ((r = 0 /\ cow_inv s' own' users' live)
        \/ (r <> 0 /\ r ∉ live /\ cow_inv s' own' users' ({[r]} ∪ live)
            /\ tlb s' = ∅ /\ cr3 s' = V2P D
            /\ (forall va, ubyte s' r va = if va <? npages sz0 * PGSIZE then ubyte s D va else None)
            /\ (forall v, own' !! v = Some OUser -> own !! v = Some OUser))).
Proof.
  intros C HD Hsz Hpg Hlive.
  assert (Hret : returns (copyuvmcow D sz0 s) (fun r s' => exists own' users',
    (forall D' va, D' ∈ live -> ubyte s' D' va = ubyte s D' va)
    /\ ((r = 0 /\ cow_inv s' own' users' live)
        \/ (r <> 0 /\ r ∉ live /\ cow_inv s' own' users' ({[r]} ∪ live)
            /\ tlb s' = ∅ /\ cr3 s' = V2P D
            /\ (forall va, ubyte s' r va = if va <? npages sz0 * PGSIZE then ubyte s D va else None)
            /\ (forall v, own' !! v = Some OUser -> own !! v = Some OUser)))));
    [|apply returns_ok in Hret as (r & s' & E & own' & users' & Hq); by exists r, s', own', users'].
  apply returns_bind. eapply returns_mono; [|by apply (setupkvm_ok s own users live)].
  intros d s1 (own1 & K1 & Hd). destruct Hd as [[-> C1]|(Hpd & Hdl & C1 & Hno & _)].
  { exists own1, users. split; [|by left].
    intros D' va HD'. by apply (view_kept s own users live s1 own1 users live); try apply same_entry_refl. }
  rewrite (proj2 (Z.eqb_neq _ _)) by (by apply page_nonzero).
  assert (Hne : D <> d) by (by intros ->).
  eapply returns_mono; [|apply (copyuvmcow_loop_ok _ s1 own1 users ({[d]} ∪ live) D d 0 sz0);
    [done|set_solver|set_solver|done| |done|lia| | |lia]].
  - intros r s2 (s3 & own3 & users3 & -> & K3 & Hc). exists own3, users3.
    assert (K13 : kept own s own3 s3) by (by eapply kept_trans).
    destruct Hc as [(-> & C3 & Sh)|(-> & C3 & Sh)].
    + replace (({[d]} ∪ live) ∖ {[d]}) with live in C3 by set_solver. split; [|left; split; [done|by apply cow_cr3]].
      intros D' va HD'. apply (view_kept s own users live s3 own3 users3 live); try done. apply Sh. by intros ->.
    + split; [|right; split_and!; try done].
      * intros D' va HD'. apply (view_kept s own users live s3 own3 users3 ({[d]} ∪ live)); try done; [set_solver|].
        apply Sh. by intros ->.
      * by apply page_nonzero.
      * by apply cow_cr3.
      * intros va. apply (shared_view s own users live s3 own3 users3 D d (npages sz0)); try done.
        unfold npages, PGSIZE. zdiv.
      * by eapply (shared_no_alloc s own users live s3 own3 users3).
  - intros vp e He. by rewrite Hno in He.
  - intros vp Hvp. split; [by apply Hpg|apply Hno].
  - rewrite Nat2Z.inj_succ. rewrite Z2Nat.id by (unfold PGSIZE; zdiv). unfold PGSIZE. zdiv.
Qed.
End copycow.
