(* ===== verification/Grow.v ===== *)
(** [allocuvm]: growing an address space with zeroed pages. *)

From S2P Require Import Prelude Params Mem Spinlock Kalloc Vm PageTable Walk Uvm Kvm Cow.
Open Scope Z_scope.
Open Scope xv6_scope.

Section grow.
Context `{Layout}.

(** Undoing part of the way: pages of before are still there. *)
Lemma kept_shrink own s own1 s1 own2 s2 users live live' :
  cow_inv s own users live -> cow_inv s2 own2 users live' ->
  kept own s own1 s1 -> shrink own1 s1 own2 s2 -> kept own s own2 s2.
Proof.
  intros C C2 [F1 U1 D1] [F2 U2 K2 D2 S2]. split; [by eapply uframe_trans| |by auto].
  intros v o Hv Ho. destruct (U1 v o Hv Ho) as [Hv1 Sm1].
  assert (Hv2 : own2 !! v = Some o); [|split; [done|by eapply same_page_trans; [|eapply S2]]].
  destruct Ho as [->| ->]; [|by apply K2].
  pose proof (ac_used _ _ _ (ci_acct _ _ _ _ C) v Hv) as Hp.
  apply mapcount_pos in Hp as ([D vp] & e & He & <-). by eapply (pi_user _ _ _ _ (ci_pt _ _ _ _ C2)).
Qed.

(** A page nobody maps becomes the page of one entry. *)
Lemma acct_insert ref own users D vp e r :
  acct ref own users -> users !! (D, vp) = None -> page_ok r -> mapcount users r = 0 -> frame e = r ->
  acct (<[pageno r := 1]> ref) (<[r := OUser]> own) (<[(D, vp) := e]> users).
Proof.
  intros [Ar Au Av Ax] Hno Hpr Hr He.
  assert (Hfr : forall k1 e1, users !! k1 = Some e1 -> frame e1 <> r).
  { intros k1 e1 Hk1 Hf. assert (0 < mapcount users r); [|lia]. apply mapcount_pos. eauto. }
  assert (Hm : forall v, mapcount (<[(D, vp) := e]> users) v = if decide (v = r) then 1 else mapcount users v).
  { intros v. rewrite mapcount_insert, He by done. destruct (decide (v = r)) as [->|].
    - rewrite decide_True by done. lia.
    - rewrite decide_False by done. lia. }
  split.
  - intros v Hv. rewrite Hm, bump_ref by done. case_decide; [done|]. by apply Ar.
  - intros v. rewrite Hm. destruct (decide (v = r)) as [|Hvr]; [lia|].
    rewrite lookup_insert_ne by done. apply Au.
  - intros D1 vp1 e1 D2 vp2 e2. rewrite !lookup_insert.
    destruct (decide ((D, vp) = (D1, vp1))) as [E1|], (decide ((D, vp) = (D2, vp2))) as [E2|].
    + congruence.
    + intros [= <-] Hu2 Hf. rewrite He in Hf. by destruct (Hfr _ _ Hu2).
    + intros Hu1 [= <-] Hf. rewrite He in Hf. by destruct (Hfr _ _ Hu1).
    + apply Av.
  - intros D1 vp1 e1. rewrite lookup_insert. case_decide as E1.
    + intros [= <-] _. by rewrite Hm, He, decide_True.
    + intros Hu1 HW. rewrite Hm, decide_False by eauto. by eapply Ax.
Qed.

(** The word [allocuvm] maps a fresh page with. *)
Definition zero_word (r : Z) : Z := map_word (V2P r) (Z.lor PTE_W PTE_U).

Lemma zero_word_ok r : page_ok r ->
  frame (zero_word r) = r /\ has (zero_word r) PTE_P = true /\ has (zero_word r) PTE_U = true
  /\ has (zero_word r) PTE_W = true.
Proof.
  intros Hr. destruct (page_bounds r Hr) as (Hb & _ & Hv). unfold PHYSTOP in Hv.
  destruct (map_word_parts (V2P r) (Z.lor PTE_W PTE_U) (page_V2P_aligned r Hr) ltac:(lia) ltac:(done))
    as (_ & Ha & HP & Hf).
  unfold zero_word. split_and!; [|done|by rewrite (Hf PTE_U)|by rewrite (Hf PTE_W)].
  unfold frame. rewrite Ha. by apply P2V_V2P.
Qed.

(** One iteration up to the reference count: kalloc, memset, mappages. *)
Lemma grow_one s own users live D vp :
  cow_inv s own users live -> D ∈ live -> 0 <= vp < NUSER -> users !! (D, vp) = None ->
  exists r s1, lift kalloc s = Ok r s1
    /\ ((r = 0 /\ cow_inv s1 own users live /\ kept own s own s1)
        \/ (page_ok r /\ own !! r = Some OFree /\ exists s2, lift (kmemset r 0 PGSIZE) s1 = Ok tt s2
            /\ returns (mappages D (vp * PGSIZE) PGSIZE (V2P r) (Z.lor PTE_W PTE_U) s2) (fun q s3 =>
                exists own3, kept own s own3 s3
                /\ ((q = -1 /\ own3 !! r = Some OKernel /\ cow_inv s3 own3 users live)
                    \/ (q = 0 /\ exists n s4, add_ref (Z.shiftr (V2P r) PGSHIFT) 1 s3 = Ok n s4
                        /\ cow_inv s4 own3 (<[(D, vp) := zero_word r]> users) live /\ kept own s own3 s4
                        /\ forall i, 0 <= i < PGSIZE -> rd (v_mem s4) (V2P r + i) = 0))))).
Proof.
  intros C HD Hvp Hno. pose proof (ci_pt _ _ _ _ C) as I.
  destruct (v_kalloc s own users live I) as (r & s1 & E1 & F1 & M1 & Hc). exists r, s1. split; [done|].
  assert (Eref : pg_refcount s1 = pg_refcount s) by (by rewrite (vf_rest _ _ F1)).
  destruct Hc as [(-> & I1 & _)|(Hpr & Hor & I1)]; [left|right].
  { split_and!; [done|split; [done|by rewrite Eref; apply C|apply C]|].
    split; [auto with xv6| |done]. intros v o Hv _. rewrite M1. split; [done|apply same_page_refl]. }
  split_and!; [done|done|]. eexists. split; [by apply kmemset_page|]. set (s2 := vput _ s1).
  assert (Hr1 : <[r := OKernel]> own !! r = Some OKernel) by apply lookup_insert_eq.
  assert (O2 : only_page r (v_mem s1) (v_mem s2)) by (by apply only_page_memset).
  assert (I2 : pt_inv (v_k s2) (<[r := OUser]> own) users live).
  { rewrite <- (insert_insert_eq own r OUser OKernel).
    apply (pt_retag _ _ _ _ r OKernel); [|done|by left|by right|by left].
    eapply pt_write; [done|exact Hr1|by left|done]. }
  destruct (page_bounds r Hpr) as (Hb & _ & Hv2). unfold PHYSTOP in Hv2.
  assert (Hru : <[r := OUser]> own !! r = Some OUser) by apply lookup_insert_eq.
  eapply returns_mono; [|apply (mappages_user s2 _ users live D vp (V2P r) (Z.lor PTE_W PTE_U) I2 HD Hvp);
    [by apply page_V2P_aligned|lia|done|done|by rewrite P2V_V2P]].
  intros q s3 (own3 & W3 & Hc). fold (zero_word r) in Hc.
  assert (Hr3 : own3 !! r = Some OUser) by (eapply grown_used; [apply W3|done|done]).
  assert (F3 : uframe s s3).
  { eapply uframe_trans; [apply vframe_uframe, F1|]. eapply uframe_trans; [apply vframe_uframe, vframe_put|].
    apply vframe_uframe, W3. }
  assert (Hown3 : forall v, v <> r -> own !! v <> None -> own !! v <> Some OFree -> own3 !! v = own !! v).
  { intros v Hne Hs Hf. destruct (own !! v) as [o|] eqn:E; [|done].
    eapply grown_used; [apply W3|by rewrite lookup_insert_ne|congruence]. }
  assert (Hsame : forall v o, own !! v = Some o -> o = OUser \/ o = OKernel -> same_page v (v_mem s) (v_mem s3)).
  { intros v o Hv Ho. assert (v <> r) by (intros ->; destruct Ho; congruence). rewrite <- M1.
    eapply same_page_trans; [apply (only_page_same r); [done|by eapply (pi_page _ _ _ _ I)|done|exact O2]|].
    eapply (wk_keep _ _ _ _ _ W3); [|done]. by rewrite lookup_insert_ne. }
  assert (Hdom : forall v, is_Some (own !! v) -> is_Some (own3 !! v)).
  { intros v Hv. apply (kp_dom _ _ _ _ (walked_kept _ _ _ _ _ W3)). rewrite lookup_insert. by case_decide. }
  assert (Hu3 : forall v, own3 !! v = Some OUser -> v = r \/ own !! v = Some OUser).
  { intros v Hv. destruct (wk_grown _ _ _ _ _ W3 v) as [Ev|(_ & d & ?)]; [|congruence].
    rewrite Ev, lookup_insert in Hv. case_decide; auto. }
  assert (K3 : forall own' s', uframe s3 s' -> v_mem s' = v_mem s3 -> (forall v, v <> r -> own' !! v = own3 !! v) ->
    is_Some (own' !! r) -> kept own s own' s').
  { intros own' s' F Em Ho Hs. split; [by eapply uframe_trans| |].
    - intros v o Hv Hvo. assert (Hne : v <> r) by (intros ->; destruct Hvo; congruence).
      rewrite Em, Ho, Hown3 by (done || (destruct Hvo; congruence)). split; [done|by eapply Hsame].
    - intros v Hv. destruct (decide (v = r)) as [->|]; [done|]. rewrite Ho by done. auto. }
  assert (Eref3 : pg_refcount s3 = pg_refcount s).
  { rewrite (vf_rest _ _ (wk_frame _ _ _ _ _ W3)). exact Eref. }
  pose proof (free_unmapped _ _ _ _ _ C Hor) as Hr0.
  destruct Hc as [[-> I3]|[-> I3]].
  - exists own3. split; [by apply K3; [apply uframe_refl|..]|]. right. split; [done|].
    fold (pageno r). eexists _, _. split.
    { apply (add_ref_ok s3 r 1 0); [done| |lia]. unfold refcount. rewrite Eref3.
      rewrite (ac_ref _ _ _ (ci_acct _ _ _ _ C)) by done. done. }
    split_and!.
    + split; [exact I3| |apply C]. cbn. rewrite Eref3.
      apply (acct_own _ (<[r := OUser]> own)).
      * intros v Hv. rewrite lookup_insert. case_decide; [done|]. by destruct (Hu3 v Hv) as [->|].
      * apply acct_insert; [apply C|done|done|done|by apply zero_word_ok].
    + apply K3; [apply uframe_bump|done|done|done].
    + intros i Hi. change (rd (v_mem s3) (V2P r + i) = 0).
      rewrite (wk_keep _ _ _ _ _ W3 r OUser Hru (or_introl eq_refl)) by lia.
      unfold s2. rewrite v_mem_vput, rd_memset, decide_True by (done || lia). done.
  - exists (<[r := OKernel]> own3). split.
    { apply K3; [apply uframe_refl|done| |by rewrite lookup_insert_eq]. intros v Hne. by rewrite lookup_insert_ne. }
    left. split_and!; [done|apply lookup_insert_eq|]. split; [|rewrite Eref3|apply C].
    + apply (pt_retag _ _ _ _ r OUser); [done|done|by right|by left|right].
      intros D1 vp1 e1 H1 Hf. apply (pi_user _ _ _ _ I) in H1. rewrite Hf in H1. congruence.
    + apply (acct_own _ own); [|apply C]. intros v. rewrite lookup_insert. case_decide; [discriminate|].
      intros Hv. by destruct (Hu3 v Hv) as [->|].
Qed.

(** The pages of [D] from [lo] up to [vp] are new and zero, all else is as in
    [users0]. *)
Record filled (users0 users : gmap (Z * Z) Z) (s : vst) (D lo vp : Z) : Prop := {
  fi_old : forall D' vp', ~ (D' = D /\ lo <= vp' < vp) -> users !! (D', vp') = users0 !! (D', vp');
  fi_new : forall vp', lo <= vp' < vp -> exists r, users !! (D, vp') = Some (zero_word r) /\ page_ok r
    /\ forall i, 0 <= i < PGSIZE -> rd (v_mem s) (V2P r + i) = 0
}.

Lemma filled_kept users0 users s own live s' own' D lo vp :
  cow_inv s own users live -> kept own s own' s' -> filled users0 users s D lo vp ->
  filled users0 users s' D lo vp.
Proof.
  intros C K [Fo Fn]. split; [done|]. intros vp' Hvp'. destruct (Fn vp' Hvp') as (r & Hu & Hr & Hz).
  exists r. split_and!; [done|done|]. intros i Hi. rewrite <- (Hz i Hi).
  assert (Ho : own !! r = Some OUser).
  { apply (pi_user _ _ _ _ (ci_pt _ _ _ _ C)) in Hu. fold (frame (zero_word r)) in Hu.
    by rewrite (proj1 (zero_word_ok r Hr)) in Hu. }
  apply (kp_used _ _ _ _ K r OUser Ho (or_introl eq_refl)). lia.
Qed.

(** Freeing a page that was free at the start. *)
Lemma kept_kfree own0 s0 own s r users live :
  kept own0 s0 own s -> own0 !! r <> Some OUser -> own0 !! r <> Some OKernel ->
  own !! r = Some OKernel ->
  cow_inv s own users live ->
  exists s', lift (kfree r) s = Ok tt s' /\ kept own0 s0 (<[r := OFree]> own) s'
    /\ cow_inv s' (<[r := OFree]> own) users live.
Proof.
  intros K Hr0 Hr1 Hr C. destruct (v_kfree s own users live r (ci_pt _ _ _ _ C) Hr) as (s' & E & F & O & I).
  exists s'. split_and!; [done| |].
  - destruct K as [F0 U0 D0]. split; [by eapply uframe_trans; [|apply vframe_uframe]| |].
    + intros v o Hv Ho. assert (Hne : v <> r) by (intros ->; destruct Ho; congruence).
      destruct (U0 v o Hv Ho) as [Hv' Sm]. rewrite lookup_insert_ne by done. split; [done|].
      eapply same_page_trans; [done|]. apply (only_page_same r); [by eapply (pi_page _ _ _ _ (ci_pt _ _ _ _ C))| |done|done].
      by eapply (pi_page _ _ _ _ (ci_pt _ _ _ _ C)).
    + intros v Hv. rewrite lookup_insert. case_decide; [done|auto].
  - split; [done| |apply C]. rewrite (vf_rest _ _ F). cbn. apply (acct_own _ own); [|apply C].
    intros v. rewrite lookup_insert. by case_decide.
Qed.

Section loop.
Context (s0 : vst) own0 users0 live (D oldsz newsz : Z) (C0 : cow_inv s0 own0 users0 live).
Context (HD : D ∈ live) (Hold : 0 <= oldsz) (Hnew : newsz < KERNBASE).
Context (Habs : forall vp, npages oldsz <= vp < npages newsz -> users0 !! (D, vp) = None).

(** Backing out restores the mappings of before. *)
Lemma undo_ok own users s vp :
  cow_inv s own users live -> kept own0 s0 own s -> filled users0 users s D (npages oldsz) vp ->
  vp <= npages newsz ->
  returns (deallocuvm D newsz oldsz s) (fun _ s' => exists own',
    kept own0 s0 own' s' /\ cow_inv s' own' users0 live
    /\ forall v, own !! v = Some OKernel -> own' !! v = Some OKernel).
Proof.
  intros C K [Fo Fn] Hvp.
  eapply returns_mono; [|apply (deallocuvm_ok s own users live D newsz oldsz C HD Hold); lia].
  assert (E : unmap_range users D (npages oldsz) (npages newsz) = users0).
  { apply map_eq. intros [D' vp']. rewrite unmap_range_lookup. case_decide as Ed.
    - destruct Ed as [-> Hr]. symmetry. by apply Habs.
    - apply Fo. intros [-> Hr]. apply Ed. lia. }
  rewrite E. intros r s' (own' & _ & C' & S). exists own'.
  split_and!; [by eapply kept_shrink|done|apply S].
Qed.

Lemma allocuvm_loop_ok fuel : forall s own users vp,
  cow_inv s own users live -> kept own0 s0 own s -> filled users0 users s D (npages oldsz) vp ->
  npages oldsz <= vp -> vp <= npages newsz \/ vp = npages oldsz ->
  newsz - vp * PGSIZE <= (Z.of_nat fuel - 1) * PGSIZE -> (0 < fuel)%nat ->
  returns (allocuvm_loop D (vp * PGSIZE) oldsz newsz fuel s) (fun r s' => exists own' users',
    kept own0 s0 own' s' /\ cow_inv s' own' users' live
    /\ ((r = 0 /\ users' = users0)
        \/ (r = newsz /\ filled users0 users' s' D (npages oldsz) (npages newsz)))).
Proof.
  assert (HG : PGSIZE = 4096) by done. assert (HN : NUSER = 524288) by done.
  assert (HK : KERNBASE = 2147483648) by done.
  assert (Hlo : 0 <= npages oldsz) by (unfold npages; rewrite HG; zdiv).
  induction fuel as [|fuel IH]; intros s own users vp C K Fi Hvp Hle Hfuel Hpos; [lia|].
  cbn [allocuvm_loop]. destruct (Z.ltb_spec (vp * PGSIZE) newsz) as [Hlt|Hge].
  2:{ exists own, users. split_and!; [done|done|]. right. split; [done|].
      assert (npages newsz <= vp) by (unfold npages; rewrite HG in *; zdiv).
      destruct Hle as [Hle| ->]; [by assert (vp = npages newsz) as <- by lia|].
      destruct Fi as [Fo Fn]. split; [|intros; lia]. intros D' vp' Hn. apply Fo. lia. }
  assert (Hhi : vp < npages newsz) by (unfold npages; rewrite HG in *; zdiv).
  assert (Hn : 0 <= vp < NUSER) by lia.
  assert (Hno : users !! (D, vp) = None).
  { rewrite (fi_old _ _ _ _ _ _ Fi) by lia. apply Habs. lia. }
  destruct (grow_one s own users live D vp C HD Hn Hno) as (r & s1 & E1 & Hc).
  rewrite (bind_ok _ _ _ _ _ E1). destruct Hc as [(-> & C1 & K1)|(Hpr & Hor & s2 & E2 & Hmap)].
  { cbn [Z.eqb]. apply returns_bind. eapply returns_mono; [|apply (undo_ok own users s1 vp)]; [..|lia].
    - intros _ s' (own' & K' & C' & _). exists own', users0. split_and!; [done|done|by left].
    - done.
    - by eapply kept_trans.
    - by apply (filled_kept _ _ s own live s1 own). }
  rewrite (proj2 (Z.eqb_neq _ _)) by (by apply page_nonzero). rewrite (bind_ok _ _ _ _ _ E2).
  apply returns_bind. eapply returns_mono; [|exact Hmap]. intros q s3 (own3 & K3 & Hq).
  assert (K03 : kept own0 s0 own3 s3) by (by eapply kept_trans).
  destruct Hq as [(-> & Hr3 & C3)|(-> & n & s4 & E4 & C4 & K4 & Hz)]; cbn [Z.ltb Z.compare].
  - apply returns_bind. eapply returns_mono; [|apply (undo_ok own3 users s3 vp C3 K03); [by apply (filled_kept _ _ s own live s3 own3)|lia]].
    intros _ s5 (own5 & K5 & C5 & Hk5).
    assert (Hr0 : own0 !! r <> Some OUser /\ own0 !! r <> Some OKernel).
    { split; intros Hr0; apply (kp_used _ _ _ _ K) in Hr0 as [? _]; auto; congruence. }
    destruct (kept_kfree own0 s0 own5 s5 r users0 live K5 (proj1 Hr0) (proj2 Hr0) (Hk5 r Hr3) C5) as (s6 & E6 & K6 & C6).
    rewrite (bind_ok _ _ _ _ _ E6). exists (<[r := OFree]> own5), users0. split_and!; [done|done|by left].
  - rewrite (bind_ok _ _ _ _ _ E4).
    replace (u32 (vp * PGSIZE + PGSIZE)) with ((vp + 1) * PGSIZE) by (rewrite u32_id; lia).
    destruct fuel as [|fuel']; [lia|].
    apply (IH s4 own3 (<[(D, vp) := zero_word r]> users) (vp + 1)); [done|exact (kept_trans _ _ _ _ _ _ K K4)| |lia|lia|lia|lia].
    assert (Fi4 : filled users0 users s4 D (npages oldsz) vp) by (by apply (filled_kept _ _ s own live s4 own3)).
    destruct Fi4 as [Fo Fn]. split.
    + intros D' vp' Hn'. rewrite lookup_insert_ne; [apply Fo; naive_solver lia|].
      intros [= <- <-]. apply Hn'. split; [done|lia].
    + intros vp' Hvp'. destruct (decide (vp' = vp)) as [->|Hne].
      * exists r. rewrite lookup_insert_eq. split_and!; done.
      * rewrite lookup_insert_ne by congruence. apply Fn. lia.
Qed.

(** Zeroed pages appear between the old and the new size and nothing else
    changes for anybody; if memory runs out nothing changes at all. *)
Lemma allocuvm_ok :
  oldsz <= newsz ->
  returns (allocuvm D oldsz newsz s0) (fun r s' => exists own' users',
    kept own0 s0 own' s' /\ cow_inv s' own' users' live
    /\ ((r = 0 /\ users' = users0)
        \/ (r = newsz /\ filled users0 users' s' D (npages oldsz) (npages newsz)))).
Proof.
  intros Hle. unfold allocuvm. rewrite (proj2 (Z.leb_gt _ _)), (proj2 (Z.ltb_ge _ _)) by lia.
  assert (HG : PGSIZE = 4096) by done. assert (HK : KERNBASE = 2147483648) by done.
  rewrite PGROUNDUP_eq by lia. fold (npages oldsz).
  apply (allocuvm_loop_ok _ s0 own0 users0 (npages oldsz)); [done|apply kept_refl| |lia|by right| |lia].
  - split; [done|]. intros; lia.
  - rewrite Nat2Z.inj_succ, HG. destruct (Z.le_gt_cases (newsz - npages oldsz * 4096) 0).
    + lia.
    + rewrite Z2Nat.id by zdiv. zdiv.
Qed.
End loop.

(** What the processes see of it. *)
Lemma allocuvm_view s own users live D oldsz newsz :
  cow_inv s own users live -> D ∈ live -> 0 <= oldsz <= newsz -> newsz < KERNBASE ->
  (forall vp, npages oldsz <= vp < npages newsz -> users !! (D, vp) = None) ->
  exists r s' own' users', allocuvm D oldsz newsz s = Ok r s' /\ cow_inv s' own' users' live
    /\ ((r = 0 /\ forall D' va, D' ∈ live -> ubyte s' D' va = ubyte s D' va)
        \/ (r = newsz /\ forall D' va, D' ∈ live -> ubyte s' D' va =
             if decide (D' = D /\ npages oldsz * PGSIZE <= va < npages newsz * PGSIZE)
             then Some 0 else ubyte s D' va)).
Proof.
  intros C HD Ho Hn Habs.
  pose proof (allocuvm_ok s own users live D oldsz newsz C HD ltac:(lia) Hn Habs ltac:(lia)) as Hret.
  apply returns_ok in Hret as (r & s' & E & own' & users' & K & C' & Hc).
  exists r, s', own', users'. split_and!; [done|done|]. destruct Hc as [[-> ->]|[-> [Fo Fn]]]; [left|right].
  - split; [done|]. intros D' va HD'. by apply (view_kept s own users live s' own' users live); try apply same_entry_refl.
  - split; [done|]. intros D' va HD'.
    assert (Hpg : npages oldsz * PGSIZE <= va < npages newsz * PGSIZE
      <-> npages oldsz <= va / PGSIZE < npages newsz) by (unfold PGSIZE; zdiv).
    destruct (decide (D' = D /\ npages oldsz * PGSIZE <= va < npages newsz * PGSIZE)) as [[-> Hva]|Hne].
    + destruct (Fn (va / PGSIZE) ltac:(lia)) as (r & Hu & Hr & Hz).
      rewrite (ubyte_users s' own' users' live) by (done || apply C'). rewrite Hu. cbn [mbind option_bind].
      destruct (zero_word_ok r Hr) as (-> & _ & -> & _). rewrite Hz by (by apply Z.mod_pos_bound).
      assert (Hin : 0 <= va < KERNBASE).
      { pose proof (proj1 (pi_users _ _ _ _ (ci_pt _ _ _ _ C') _ _ _) Hu) as (_ & Hvp & _).
        change NUSER with 524288 in Hvp. unfold KERNBASE, PGSIZE in *. zdiv. }
      unfold user_va. by rewrite (proj2 (Z.leb_le _ _)), (proj2 (Z.ltb_lt _ _)) by lia.
    + apply (view_kept s own users live s' own' users' live); try done. rewrite Fo; [apply same_entry_refl|].
      intros [-> ?]. apply Hne. split; [done|lia].
Qed.
End grow.
