(* ===== verification/CowSystem.v ===== *)
(** Address spaces as private memories.

    The specification [aexec] knows nothing of page tables, sharing or
    reference counts: every address space has its own bytes, and each call
    with its answer has one effect on them.  The implementation [vexec] runs
    user loads and stores, with the page faults they take, [copyuvmcow],
    [freevm], [allocuvm] and [deallocuvm] on shared physical memory.  Every
    run of calls is one of the specification, with the same answers. *)

From S2P Require Import Prelude Params Mem Spinlock Kalloc Vm PageTable Walk Uvm Kvm Cow CopyCow Grow.
Open Scope Z_scope.
Open Scope xv6_scope.

(** * The specification *)

(** What is done to address space [D], named by its directory. *)
Inductive call :=
| Peek (D va : Z)
| Poke (D va b : Z)
| Fork (D sz0 : Z)
| Exit (D : Z)
| Grow (D oldsz newsz : Z)
| Shrink (D oldsz newsz : Z).

(** What it returns: the byte a load sees, that it is done, that the process
    is killed for want of memory, or the value of the function called. *)
Inductive answer := Byte (o : option Z) | Done | Killed | Ret (r : Z).

(** The address spaces in use, and the byte each shows at an address. *)
Record amem := Amem { a_live : gset Z; a_byte : Z -> Z -> option Z }.

Definition a_write (a : amem) (D va b : Z) : amem :=
  Amem (a_live a) (fun D' va' => if decide (D' = D /\ va' = va) then Some b else a_byte a D' va').
Definition a_copy (a : amem) (D d top : Z) : amem :=
  Amem ({[d]} ∪ a_live a) (fun D' va => if decide (D' = d) then if va <? top then a_byte a D va else None else a_byte a D' va).
Definition a_zero (a : amem) (D lo hi : Z) : amem :=
  Amem (a_live a) (fun D' va => if decide (D' = D /\ lo <= va < hi) then Some 0 else a_byte a D' va).
Definition a_cut (a : amem) (D lo hi : Z) : amem :=
  Amem (a_live a) (fun D' va => if decide (D' = D /\ lo <= va < hi) then None else a_byte a D' va).
Definition a_drop (a : amem) (D : Z) : amem :=
  Amem (a_live a ∖ {[D]}) (fun D' va => if decide (D' = D) then None else a_byte a D' va).

(** The effect of a call with an answer; [None] where the answer is wrong. *)
Definition aexec (c : call) (r : answer) (a : amem) : option amem :=
  match c, r with
  | Peek D va, Byte o => if decide (a_byte a D va = o) then Some a else None
  | Poke D va b, Done => _ ← a_byte a D va; Some (a_write a D va b)
  | Poke _ _ _, Killed => Some a
  | Fork D sz0, Ret d =>
      if d =? 0 then Some a
      else if decide (d ∈ a_live a) then None else Some (a_copy a D d (npages sz0 * PGSIZE))
  | Exit D, Done => Some (a_drop a D)
  | Grow D oldsz newsz, Ret r =>
      if r =? newsz then Some (a_zero a D (npages oldsz * PGSIZE) (npages newsz * PGSIZE))
      else if r =? 0 then Some a else None
  | Shrink D oldsz newsz, Ret r =>
      if r =? Z.min oldsz newsz then Some (a_cut a D (npages newsz * PGSIZE) (npages oldsz * PGSIZE)) else None
  | _, _ => None
  end.

Fixpoint arun (tr : list (call * answer)) (a : amem) : option amem :=
  match tr with
  | [] => Some a
  | (c, r) :: tr => a' ← aexec c r a; arun tr a'
  end.

(** Equality of what is seen. *)
Definition amem_eq (a a' : amem) : Prop := a_live a = a_live a' /\ forall D va, a_byte a D va = a_byte a' D va.

#[global] Instance amem_eq_equivalence : Equivalence amem_eq.
Proof.
  split.
  - by intros a.
  - intros a a' [L E]. split; [done|]. intros D va. by rewrite E.
  - intros a1 a2 a3 [L1 E1] [L2 E2]. split; [congruence|]. intros D va. by rewrite E1, E2.
Qed.

(** The specification looks at nothing else. *)
#[global] Instance aexec_proper c r : Proper (amem_eq ==> option_Forall2 amem_eq) (aexec c r).
Proof.
  intros a a' E. pose proof E as [L V].
  assert (T : forall b b', a_live b = a_live b' -> (forall D va, a_byte b D va = a_byte b' D va) -> option_Forall2 amem_eq (Some b) (Some b'))
    by (intros; by apply Some_Forall2).
  destruct c as [D va|D va b|D sz0|D|D o n|D o n], r as [v| | |r]; cbn [aexec]; rewrite ?L, ?V; try apply None_Forall2;
    try (destruct (a_byte a' D va); cbn [mbind option_bind]); repeat case_match; try apply None_Forall2;
    (apply T; [cbn; by rewrite ?L|intros D' va'; cbn; by rewrite !V]).
Qed.

#[global] Instance arun_proper tr : Proper (amem_eq ==> option_Forall2 amem_eq) (arun tr).
Proof.
  induction tr as [|[c r] tr IH]; intros a a' E; cbn [arun]; [by constructor|].
  destruct (aexec_proper c r a a' E) as [b b' Eb|]; [by apply IH|constructor].
Qed.

(** A store is private. *)
Lemma poke_private D va b r a a' D' va' : aexec (Poke D va b) r a = Some a' -> D' <> D -> a_byte a' D' va' = a_byte a D' va'.
Proof.
  intros E Hne. destruct r; cbn in E; try discriminate E; [|by injection E as <-].
  destruct (a_byte a D va); [|discriminate E]. injection E as <-. cbn. by rewrite decide_False by naive_solver.
Qed.

(** * The implementation *)

(** The machine together with the directories in use. *)
Record vmsys := Vmsys { vs : vst; vlive : gset Z }.

Section system.
Context `{Layout}.

Definition vinv (x : vmsys) : Prop := exists own users, cow_inv (vs x) own users (vlive x).

Definition abs (x : vmsys) : amem :=
  Amem (vlive x) (fun D va => if decide (D ∈ vlive x) then ubyte (vs x) D va else None).

Definition set_cr2 (va : Z) (s : vst) : vst := Vst (v_k s) (pg_refcount s) (ptable s) (kpgdir s) va (cr3 s) (tlb s).

(** A user store: if the processor refuses it, it traps (error 7, a write from
    user mode to a page that is present), and the instruction is repeated
    when [pagefault] returns; a process whose store is refused again has been
    killed. *)
Definition poke (D va b : Z) : M vst answer := fun s =>
  match uwrite s D va b with
  | Some s' => Ok Done s'
  | None =>
      (pagefault 7 ;;;
       s1 <- get ;;
       match uwrite s1 D va b with
       | Some s2 => fun _ => Ok Done s2
       | None => ret Killed
       end) (set_cr2 va s)
  end.

Definition vexec (c : call) : M vst answer :=
  match c with
  | Peek D va => gets (fun s => Byte (ubyte s D va))
  | Poke D va b => poke D va b
  | Fork D sz0 => r <- copyuvmcow D sz0 ;; ret (Ret r)
  | Exit D => freevm D ;;; ret Done
  | Grow D oldsz newsz => r <- allocuvm D oldsz newsz ;; ret (Ret r)
  | Shrink D oldsz newsz => r <- deallocuvm D oldsz newsz ;; ret (Ret r)
  end.

(** The directories in use after a call. *)
Definition live_after (c : call) (r : answer) (live : gset Z) : gset Z :=
  match c, r with
  | Fork _ _, Ret d => if d =? 0 then live else {[d]} ∪ live
  | Exit D, _ => live ∖ {[D]}
  | _, _ => live
  end.

(** When the kernel makes a call: a store is one of the running process, to an
    address it can read; [fork] copies pages that are all there; new pages go
    where there are none. *)
Definition pre (c : call) (s : vst) (live : gset Z) : Prop :=
  match c with
  | Peek D va => D ∈ live
  | Poke D va b => D ∈ live /\ 0 <= b < 256 /\ is_Some (ubyte s D va) /\ exists i x, running s i x /\ pgdir x = D
  | Fork D sz0 => D ∈ live /\ 0 <= sz0 <= KERNBASE /\ Z.of_nat (size live) < 127 /\
      forall vp, 0 <= vp < npages sz0 -> has (pte_val (v_mem s) D vp) PTE_P = true
  | Exit D => D ∈ live
  | Grow D oldsz newsz => D ∈ live /\ 0 <= oldsz <= newsz /\ newsz < KERNBASE /\
      forall vp, npages oldsz <= vp < npages newsz -> has (pte_val (v_mem s) D vp) PTE_P = false
  | Shrink D oldsz newsz => D ∈ live /\ 0 <= newsz /\ oldsz <= KERNBASE
  end.

(** Between calls another process may be scheduled: the processors, the process
    table and the registers of the memory unit change; memory, the free list
    and the reference counts do not. *)
Definition resched (s s' : vst) : Prop :=
  v_mem s' = v_mem s /\ freelist (v_k s') = freelist (v_k s) /\ pg_refcount s' = pg_refcount s /\ kready (v_k s').

Inductive vrun : list (call * answer) -> vmsys -> vmsys -> Prop :=
| run_nil x : vrun [] x x
| run_sched s s' live tr y : resched s s' -> vrun tr (Vmsys s' live) y -> vrun tr (Vmsys s live) y
| run_call c r s s' live tr y :
    pre c s live -> vexec c s = Ok r s' -> vrun tr (Vmsys s' (live_after c r live)) y ->
    vrun ((c, r) :: tr) (Vmsys s live) y.

(** Views survive giving up pages, except where they were unmapped. *)
Lemma view_shrink s own users live s' own' live' D lo hi D' va :
  cow_inv s own users live -> cow_inv s' own' (unmap_range users D lo hi) live' -> shrink own s own' s' ->
  D' ∈ live -> D' ∈ live' ->
  ubyte s' D' va = if decide (D' = D /\ lo <= va / PGSIZE < hi) then None else ubyte s D' va.
Proof.
  intros C C' S HD HD'. rewrite (ubyte_users s own users live) by (done || apply C).
  rewrite (ubyte_users s' own' _ live') by (done || apply C'). rewrite unmap_range_lookup.
  destruct (user_va va); [|by case_decide]. case_decide as E; [done|].
  destruct (users !! (D', va / PGSIZE)) as [e|] eqn:Eu; [|done]. cbn [mbind option_bind].
  destruct (has e PTE_U); [|done]. f_equal. apply page_byte.
  eapply (sh_keep _ _ _ _ S (frame e) OUser); [|by left].
  eapply (pi_user _ _ _ _ (ci_pt _ _ _ _ C') D' (va / PGSIZE)). by rewrite unmap_range_lookup, decide_False.
Qed.

Lemma npages_nonneg sz0 : 0 <= sz0 -> 0 <= npages sz0.
Proof. intros. unfold npages, PGSIZE. zdiv. Qed.

Lemma npages_user sz0 : sz0 <= KERNBASE -> npages sz0 <= NUSER.
Proof. intros. change NUSER with 524288. unfold npages, KERNBASE, PGSIZE in *. zdiv. Qed.

Lemma present_some s own users live D vp :
  pt_inv (v_k s) own users live -> D ∈ live -> 0 <= vp < NUSER ->
  has (pte_val (v_mem s) D vp) PTE_P = true -> is_Some (users !! (D, vp)).
Proof. intros I HD Hvp HP. rewrite (not_present _ _ _ _ _ _ I HD Hvp), HP. done. Qed.

Lemma absent_none s own users live D vp :
  pt_inv (v_k s) own users live -> D ∈ live -> 0 <= vp < NUSER ->
  has (pte_val (v_mem s) D vp) PTE_P = false -> users !! (D, vp) = None.
Proof. intros I HD Hvp HP. by rewrite (not_present _ _ _ _ _ _ I HD Hvp), HP. Qed.

(** * Each call *)

(** A call refines its specification: it returns, keeps the accounting and has
    the specified effect; a store is refused only when no page is free. *)
Definition simulates (c : call) (s : vst) (live : gset Z) : Prop :=
  exists r s', vexec c s = Ok r s' /\ vinv (Vmsys s' (live_after c r live)) /\
    (exists a, aexec c r (abs (Vmsys s live)) = Some a /\ amem_eq a (abs (Vmsys s' (live_after c r live)))) /\
    (r = Killed -> free_list (v_k s) []).

Lemma abs_byte s live D va : D ∈ live -> a_byte (abs (Vmsys s live)) D va = ubyte s D va.
Proof. intros HD. cbn. by rewrite decide_True. Qed.

(** Same directories, same views. *)
Lemma abs_same s s' live :
  (forall D va, D ∈ live -> ubyte s' D va = ubyte s D va) -> amem_eq (abs (Vmsys s live)) (abs (Vmsys s' live)).
Proof. intros Hv. split; [done|]. intros D va. cbn. case_decide; [|done]. by rewrite Hv. Qed.

Lemma page_range va lo hi : lo * PGSIZE <= va < hi * PGSIZE <-> lo <= va / PGSIZE < hi.
Proof. unfold PGSIZE. split; intros; zdiv. Qed.

(** A store that goes through. *)
Lemma sim_write s0 s own users live D va b s' b0 :
  cow_inv s own users live -> D ∈ live -> 0 <= b < 256 -> uwrite s D va b = Some s' ->
  (forall D' va', D' ∈ live -> ubyte s D' va' = ubyte s0 D' va') -> ubyte s0 D va = Some b0 ->
  vinv (Vmsys s' live) /\ exists a, aexec (Poke D va b) Done (abs (Vmsys s0 live)) = Some a /\ amem_eq a (abs (Vmsys s' live)).
Proof.
  intros C HD Hb Hw H0 Hr. destruct (uwrite_ok s own users live D va b s' C HD Hb Hw) as [C' Hv].
  split; [by exists own, users|]. exists (a_write (abs (Vmsys s0 live)) D va b). split.
  - cbn. by rewrite decide_True, Hr.
  - split; [done|]. intros D' va'. cbn. destruct (decide (D' ∈ live)) as [HD'|HD'].
    + rewrite Hv, H0 by done. done.
    + by rewrite decide_False by (by intros [-> _]).
Qed.

Lemma sim_poke s live D va b : vinv (Vmsys s live) -> pre (Poke D va b) s live -> simulates (Poke D va b) s live.
Proof.
  intros (own & users & C) (HD & Hb & (b0 & Hb0) & i & x & R & <-). unfold simulates. cbn [vexec live_after]. unfold poke.
  destruct (uwrite s (pgdir x) va b) as [s'|] eqn:Hw.
  { exists Done, s'. split; [done|]. destruct (sim_write s s own users live _ _ _ _ b0 C HD Hb Hw ltac:(done) Hb0) as [Hi Ha]. by split_and!. }
  set (s0 := set_cr2 va s). assert (C0 : cow_inv s0 own users live) by (by destruct C).
  assert (R0 : running s0 i x) by (by destruct R).
  destruct (pagefault_ok 7 s0 own users live i x va b0 b C0 R0 HD eq_refl Hb0) as (s1 & own' & users' & E & C1 & Hv & Hc).
  { unfold uwrite in *. cbn. change (v_mem s0) with (v_mem s). by case_match. }
  rewrite (bind_ok _ _ _ _ _ E). unfold get, bind. cbn [seqr]. destruct (uwrite s1 (pgdir x) va b) as [s2|] eqn:Hw1.
  - exists Done, s2. split; [done|]. destruct (sim_write s s1 own' users' live _ _ _ _ b0 C1 HD Hb Hw1 Hv Hb0) as [Hi Ha]. by split_and!.
  - destruct Hc as [([? Hc] & _)|(_ & _ & _ & Hno)]; [discriminate Hc|]. exists Killed, s1. split; [done|].
    split; [by exists own', users'|]. split; [exists (abs (Vmsys s live)); split; [done|by apply abs_same]|].
    intros _. destruct (pi_free _ _ _ _ (ci_pt _ _ _ _ C)) as (l & Hl & Hiff). destruct l as [|v l]; [done|].
    destruct (Hno v). apply Hiff. by left.
Qed.

Lemma sim_fork s live D sz0 : vinv (Vmsys s live) -> pre (Fork D sz0) s live -> simulates (Fork D sz0) s live.
Proof.
  intros (own & users & C) (HD & Hsz & Hl & HP). pose proof (npages_user sz0 ltac:(lia)) as Hnp.
  destruct (copyuvmcow_ok s own users live D sz0 C HD Hsz) as (r & s' & own' & users' & E & Hv & Hc).
  { intros vp Hvp. eapply present_some; [apply C|done|simpl in *; lia|by apply HP]. }
  { done. }
  exists (Ret r), s'. split; [cbn [vexec]; by rewrite (bind_ok _ _ _ _ _ E)|]. cbn [live_after aexec].
  destruct Hc as [[-> C']|(Hr0 & Hrl & C' & _ & _ & Hd & _)].
  - cbn [Z.eqb]. split; [by exists own', users'|]. split; [|done]. eexists. split; [done|]. by apply abs_same.
  - rewrite (proj2 (Z.eqb_neq _ _)) by done. split; [by exists own', users'|]. split; [|done]. cbn [a_live abs vlive].
    rewrite decide_False by done. eexists. split; [done|]. split; [done|].
    intros D' va. cbn. destruct (decide (D' = r)) as [->|Hne].
    + rewrite (decide_True (P := D ∈ live)) by done. rewrite decide_True by set_solver. by rewrite Hd.
    + destruct (decide (D' ∈ live)); [rewrite decide_True by set_solver|rewrite decide_False by set_solver; done].
      by rewrite Hv.
Qed.

Lemma sim_exit s live D : vinv (Vmsys s live) -> pre (Exit D) s live -> simulates (Exit D) s live.
Proof.
  intros (own & users & C) HD. cbn in C, HD. pose proof (freevm_ok s own users live D C HD) as Hret.
  apply returns_ok in Hret as ([] & s' & E & own' & C' & S).
  exists Done, s'. split; [cbn [vexec]; by rewrite (bind_ok _ _ _ _ _ E)|]. cbn [live_after aexec].
  split; [by exists own', (unmap_range users D 0 NUSER)|]. split; [|done]. eexists. split; [done|]. split; [done|].
  intros D' va. cbn. destruct (decide (D' = D)) as [->|Hne]; [by rewrite decide_False by set_solver|].
  destruct (decide (D' ∈ live)); [rewrite decide_True by set_solver|by rewrite decide_False by set_solver].
  rewrite (view_shrink s own users live s' own' (live ∖ {[D]}) D 0 NUSER) by set_solver. by rewrite decide_False by naive_solver.
Qed.

Lemma sim_grow s live D oldsz newsz : vinv (Vmsys s live) -> pre (Grow D oldsz newsz) s live -> simulates (Grow D oldsz newsz) s live.
Proof.
  intros (own & users & C) (HD & Ho & Hn & HP). pose proof (npages_user newsz ltac:(lia)). pose proof (npages_nonneg oldsz ltac:(lia)).
  destruct (allocuvm_view s own users live D oldsz newsz C HD Ho Hn) as (r & s' & own' & users' & E & C' & Hc).
  { intros vp Hvp. eapply absent_none; [apply C|done|simpl in *; lia|by apply HP]. }
  exists (Ret r), s'. split; [cbn [vexec]; by rewrite (bind_ok _ _ _ _ _ E)|]. cbn [live_after aexec].
  split; [by exists own', users'|]. split; [|done]. destruct Hc as [[-> Hv]|[-> Hv]].
  - destruct (Z.eqb_spec 0 newsz) as [<-|Hne]; [|eexists; split; [done|by apply abs_same]].
    assert (oldsz = 0) as -> by lia. eexists. split; [done|]. split; [done|]. intros D' va. cbn.
    rewrite decide_False by (intros [_ ?]; lia). case_decide; [|done]. by rewrite Hv.
  - rewrite Z.eqb_refl. eexists. split; [done|]. split; [done|]. intros D' va. cbn. destruct (decide (D' ∈ live)); [by rewrite Hv|].
    by rewrite decide_False by (by intros [-> _]).
Qed.

Lemma sim_shrink s live D oldsz newsz : vinv (Vmsys s live) -> pre (Shrink D oldsz newsz) s live -> simulates (Shrink D oldsz newsz) s live.
Proof.
  intros (own & users & C) (HD & Hn & Ho). pose proof (deallocuvm_ok s own users live D oldsz newsz C HD Hn Ho) as Hret.
  apply returns_ok in Hret as (r & s' & E & own' & -> & C' & S).
  exists (Ret (Z.min oldsz newsz)), s'. split; [cbn [vexec]; by rewrite (bind_ok _ _ _ _ _ E)|]. cbn [live_after aexec].
  split; [by eexists _, _|]. split; [|done]. rewrite Z.eqb_refl. eexists. split; [done|]. split; [done|]. intros D' va. cbn.
  rewrite (decide_ext _ _ _ _ (and_iff_compat_l (D' = D) (page_range va (npages newsz) (npages oldsz)))).
  destruct (decide (D' ∈ live)); [|by case_decide]. by rewrite (view_shrink s own users live s' own' live D (npages newsz) (npages oldsz)) by done.
Qed.

Lemma call_sim c s live : vinv (Vmsys s live) -> pre c s live -> simulates c s live.
Proof.
  destruct c; [|apply sim_poke|apply sim_fork|apply sim_exit|apply sim_grow|apply sim_shrink].
  intros I HD. exists (Byte (ubyte s D va)), s. split; [done|]. split; [done|]. split; [|done]. exists (abs (Vmsys s live)). cbn in HD |- *.
  by rewrite (decide_True (P := D ∈ live)), decide_True by done.
Qed.

Lemma resched_inv s s' live : vinv (Vmsys s live) -> resched s s' -> vinv (Vmsys s' live).
Proof.
  intros (own & users & C) (Hm & Hf & Hp & Hk). exists own, users. pose proof (ci_pt _ _ _ _ C) as I. cbn in *.
  change (k_mem (v_k s') = k_mem (v_k s)) in Hm. split; [|cbn; rewrite Hp; apply C|apply C].
  apply (pt_inv_update (v_k s) _ own own); try done; try apply I; [|by rewrite Hm].
  destruct (pi_free _ _ _ _ I) as (l & [Hc Hn] & Hiff). exists l. split; [|done]. split; [by rewrite Hf, Hm|done].
Qed.

(** * Runs *)

Lemma vrun_sim tr x y : vrun tr x y -> vinv x -> vinv y /\ exists a, arun tr (abs x) = Some a /\ amem_eq a (abs y).
Proof.
  induction 1 as [x|s s' live tr y Hs Hr IH|c r s s' live tr y Hp He Hr IH]; intros I.
  - split; [done|]. by exists (abs x).
  - destruct (IH (resched_inv _ _ _ I Hs)) as (Iy & a & Ha & Ea). split; [done|].
    assert (E : amem_eq (abs (Vmsys s live)) (abs (Vmsys s' live))) by (apply abs_same; intros D va _; unfold ubyte; by rewrite (proj1 Hs)).
    pose proof (arun_proper tr _ _ E) as P. rewrite Ha in P. inversion P as [b ? Eb Hb|]; subst. exists b. split; [done|]. by rewrite Eb.
  - destruct (call_sim c s live I Hp) as (r' & s1 & E & I1 & (a1 & Ha1 & Ea1) & _). rewrite He in E. injection E as <- <-.
    destruct (IH I1) as (Iy & a & Ha & Ea). split; [done|]. cbn [arun]. rewrite Ha1. cbn [mbind option_bind].
    pose proof (arun_proper tr _ _ Ea1) as P. rewrite Ha in P. inversion P as [b ? Eb Hb|]; subst. exists b. split; [done|]. by rewrite Eb.
Qed.
End system.
