(* ===== verification/Demo.v ===== *)
(** A concrete machine: two processes that share one page read-only, a page
    of the first process's own, and a list of free pages.  It shows that the
    hypotheses of the theorems on virtual memory can hold. *)

From S2P Require Import Prelude Params Mem Spinlock Kalloc Vm PageTable Walk Uvm Kvm Cow CopyCow Grow CowSystem.
Open Scope Z_scope.
Open Scope xv6_scope.

(** The addresses of [kernel.sym]. *)
#[global, program] Instance demo_layout : Layout := {| data := 0x80108000; end_ := 0x801234e4 |}.
Next Obligation. done. Qed.
Next Obligation. done. Qed.
Next Obligation. done. Qed.
Next Obligation. done. Qed.

Definition page (k : Z) : Z := 0x80200000 + 4096 * k.

Lemma page_is_ok k : 0 <= k < 56000 -> page_ok (page k).
Proof.
  intros Hk. unfold page. split.
  - unfold PGSIZE. zdiv.
  - change end_ with 0x801234e4. lia.
  - unfold KERNBASE, PHYSTOP. lia.
Qed.

(** * Memory that holds nothing but a free list *)

Fixpoint link (l : list Z) : mem :=
  match l with
  | [] => ∅
  | v :: l => store32 (link l) (V2P v) (hd 0 l)
  end.

Lemma rd_empty a : rd ∅ a = 0.
Proof. done. Qed.

Lemma link_outside l v i :
  Forall page_ok l -> page_ok v -> v ∉ l -> 0 <= i < 1024 -> load32 (link l) (V2P v + 4 * i) = 0.
Proof.
  intros Hl Hv. induction Hl as [|w l Hw Hl IH]; intros Hni Hi; [done|]. cbn [link].
  apply not_elem_of_cons in Hni as [Hne Hni].
  rewrite (only_page_load w (link l)); [by apply IH| |].
  - rewrite <- (Z.add_0_r (V2P w)). by apply only_page_store.
  - unfold PGSIZE. destruct (pages_disjoint v w Hv Hw Hne) as [Hd|Hd]; unfold PGSIZE in Hd; lia.
Qed.

Lemma hd_range l : Forall page_ok l -> 0 <= hd 0 l < 2 ^ 32.
Proof.
  intros Hl. destruct Hl as [|v l Hv _]; simpl; [lia|]. pose proof (page_bounds v Hv).
  unfold KERNBASE in *. lia.
Qed.

Lemma link_chain l : Forall page_ok l -> NoDup l -> chain (link l) (hd 0 l) l.
Proof.
  intros Hl. induction Hl as [|v l Hv Hl IH]; intros Hnd; [done|].
  apply NoDup_cons in Hnd as [Hni Hnd]. cbn [chain link hd]. split_and!; [done|done|].
  rewrite load32_store32_eq by (by apply hd_range).
  apply (only_page_chain v (link l)); [done|done| |auto].
  rewrite <- (Z.add_0_r (V2P v)). by apply only_page_store.
Qed.

(** * Step by step to two address spaces *)

Definition demo_mach : mach :=
  Mach [Cpu 0 0 0 (Some 0%nat)] 0 0 {[ kmem_lock := free_lock ]}.

Definition free_pages : list Z := page <$> seqZ 6 80.

Definition own0 : gmap Z owner :=
  list_to_map ((fun k => (page k, if k <? 6 then OKernel else OFree)) <$> seqZ 0 86).

Lemma page_inj k k' : page k = page k' -> k = k'.
Proof. unfold page. lia. Qed.

Lemma own0_lookup v o :
  own0 !! v = Some o <-> exists k, 0 <= k < 86 /\ v = page k /\ o = if k <? 6 then OKernel else OFree.
Proof.
  unfold own0. rewrite <- elem_of_list_to_map.
  - rewrite list_elem_of_fmap. split.
    + intros (k & [= -> ->] & Hk%elem_of_seqZ). exists k. split; [lia|done].
    + intros (k & Hk & -> & ->). exists k. split; [done|]. apply elem_of_seqZ. lia.
  - rewrite <- list_fmap_compose. apply NoDup_fmap_2_strong; [|apply NoDup_seqZ].
    intros x y _ _. apply page_inj.
Qed.

Lemma free_pages_ok : Forall page_ok free_pages /\ NoDup free_pages.
Proof.
  unfold free_pages. split.
  - apply Forall_fmap, Forall_forall. intros k Hk%elem_of_seqZ. apply page_is_ok. lia.
  - apply NoDup_fmap_2_strong; [|apply NoDup_seqZ]. intros x y _ _. apply page_inj.
Qed.

Lemma free_pages_in v : v ∈ free_pages <-> exists k, v = page k /\ 6 <= k < 86.
Proof.
  unfold free_pages. rewrite list_elem_of_fmap. split; intros (k & -> & Hk); exists k;
    rewrite elem_of_seqZ in *; (split; [done|lia]).
Qed.

Definition k0 : kst := Kst demo_mach (link free_pages) true (page 6).

Lemma demo_ready : kready k0.
Proof.
  split.
  - exists 0%nat, (Cpu 0 0 0 (Some 0%nat)). by split.
  - intros _. unfold unlocked. apply lookup_insert_eq.
Qed.

#[local] Opaque link own0 free_pages.

Lemma base_inv : pt_inv k0 own0 ∅ ∅.
Proof.
  destruct free_pages_ok as [Hp Hn]. split.
  - apply demo_ready.
  - exists free_pages. split; [split; [apply link_chain; done|done]|].
    intros v. rewrite own0_lookup, free_pages_in. split.
    + intros (k & -> & Hk). exists k. split_and!; [lia|lia|done|].
      by rewrite (proj2 (Z.ltb_ge _ _)) by lia.
    + intros (k & Hk & -> & Ho). exists k. split; [done|].
      destruct (Z.ltb_spec k 6); [discriminate|lia].
  - intros v o (k & Hk & -> & _)%own0_lookup. apply page_is_ok. lia.
  - intros D Hin. destruct (not_elem_of_empty (C := gset Z) D Hin).
  - intros D d Hin. destruct (not_elem_of_empty (C := gset Z) D Hin).
  - intros v o (k & Hk & _ & ->)%own0_lookup. by destruct (k <? 6).
  - intros D vp e. split; [by rewrite lookup_empty|]. intros (Hin & _).
    destruct (not_elem_of_empty (C := gset Z) D Hin).
  - intros D vp e. by rewrite lookup_empty.
Qed.

Lemma own0_kernel k : 0 <= k < 6 -> own0 !! page k = Some OKernel.
Proof.
  intros Hk. apply own0_lookup. exists k. split_and!; [lia|lia|done|].
  by rewrite (proj2 (Z.ltb_lt _ _)) by lia.
Qed.

Lemma zero0 k : 0 <= k < 6 -> zero_page (page k) (k_mem k0).
Proof.
  intros Hk i Hi. destruct free_pages_ok as [Hp _].
  apply link_outside; [done|apply page_is_ok; lia| |done].
  rewrite free_pages_in. intros (j & E & Hj). apply page_inj in E. lia.
Qed.

(** Two directories. *)
Definition own1 : gmap Z owner := <[page 2 := ODir]> (<[page 0 := ODir]> own0).
Definition live1 : gset Z := {[page 2]} ∪ ({[page 0]} ∪ ∅).

Lemma inv1 : pt_inv k0 own1 ∅ live1.
Proof.
  apply pt_newdir; [apply pt_newdir; [apply base_inv|by apply own0_kernel|by apply zero0]| |by apply zero0].
  rewrite lookup_insert_ne by done. by apply own0_kernel.
Qed.

(** Their first tables. *)
Definition m2 : mem := store32 (k_mem k0) (V2P (page 0) + 4 * 0) (V2P (page 1) + 7).
Definition m3 : mem := store32 m2 (V2P (page 2) + 4 * 0) (V2P (page 3) + 7).
Definition own3 : gmap Z owner := <[page 3 := OTab (page 2) 0]> (<[page 1 := OTab (page 0) 0]> own1).

Lemma own1_kernel k : k = 1 \/ 3 <= k < 6 -> own1 !! page k = Some OKernel.
Proof.
  intros Hk. unfold own1. rewrite !lookup_insert_ne by (unfold page; lia). apply own0_kernel. lia.
Qed.

Lemma live1_in : page 0 ∈ live1 /\ page 2 ∈ live1.
Proof. unfold live1. set_solver. Qed.

Lemma zero_dir k : 0 <= k < 6 -> has (pde_val (k_mem k0) (page k) 0) PTE_P = false.
Proof. intros Hk. by rewrite (zero_pde _ _ _ (zero0 k Hk)). Qed.

Lemma same2 k : 1 <= k < 6 -> same_page (page k) (k_mem k0) m2.
Proof.
  intros Hk. apply (only_page_same (page 0)); [by apply page_is_ok|apply page_is_ok; lia|unfold page; lia|].
  apply only_page_store; [by apply page_is_ok|done|done].
Qed.

Lemma inv3 : pt_inv (set_kmem m3 k0) own3 ∅ live1.
Proof.
  assert (Hd : 0 <= 0 < 1024) by done. assert (Hf : 0 <= 7 < PGSIZE) by done.
  destruct live1_in as [H0 H2].
  assert (I2 : pt_inv (set_kmem m2 k0) (<[page 1 := OTab (page 0) 0]> own1) ∅ live1).
  { apply (pt_install _ _ _ _ inv1 (page 0) 0 (page 1) 7 H0 Hd);
      [by apply zero_dir|apply own1_kernel; lia|by apply zero0|exact Hf|exact eq_refl]. }
  apply (pt_install _ _ _ _ I2 (page 2) 0 (page 3) 7 H2 Hd); [| | |exact Hf|exact eq_refl].
  - rewrite (pde_val_same (k_mem k0)); [by apply zero_dir|by apply same2|done].
  - rewrite lookup_insert_ne by done. apply own1_kernel. lia.
  - apply (zero_page_same _ (k_mem k0)); [by apply same2|by apply zero0].
Qed.

(** Page 4 is mapped read-only at address 0 of both, page 5 writable at 4096
    of the first. *)
Definition own4 : gmap Z owner := <[page 5 := OUser]> (<[page 4 := OUser]> own3).
Definition shared_entry : Z := V2P (page 4) + 5.
Definition own_entry : Z := V2P (page 5) + 7.

Definition m4 : mem := store32 m3 (V2P (page 1) + 4 * 0) shared_entry.
Definition m5 : mem := store32 m4 (V2P (page 3) + 4 * 0) shared_entry.
Definition m6 : mem := store32 m5 (V2P (page 1) + 4 * 1) own_entry.

Definition demo_users : gmap (Z * Z) Z :=
  <[(page 0, 1) := own_entry]> (<[(page 2, 0) := shared_entry]> (<[(page 0, 0) := shared_entry]> ∅)).

Lemma own3_kernel k : 4 <= k < 6 -> own3 !! page k = Some OKernel.
Proof.
  intros Hk. unfold own3. rewrite !lookup_insert_ne by (unfold page; lia). apply own1_kernel. lia.
Qed.

Lemma inv4 : pt_inv (set_kmem m3 k0) own4 ∅ live1.
Proof.
  unfold own4. apply (pt_retag _ _ _ _ (page 5) OKernel).
  - apply (pt_retag _ _ _ _ (page 4) OKernel);
      [apply inv3|by apply own3_kernel|by left|by right|by left].
  - rewrite lookup_insert_ne by done. by apply own3_kernel.
  - by left.
  - by right.
  - by left.
Qed.

(** A store of a present user entry, at a known table. *)
Lemma demo_store m users D vp t d e :
  pt_inv (set_kmem m k0) own4 users live1 -> D ∈ live1 -> 0 <= vp < NUSER -> d = vp / 1024 ->
  own4 !! t = Some (OTab D d) -> 0 <= e < 2 ^ 32 -> has e PTE_P = true ->
  own4 !! P2V (PTE_ADDR e) = Some OUser ->
  pt_inv (set_kmem (store32 m (V2P t + 4 * (vp mod 1024)) e) k0) own4 (<[(D, vp) := e]> users) live1.
Proof.
  intros I HD Hvp -> Ht He HP Hu. pose proof NUSER_lt.
  destruct (pi_back _ _ _ _ I _ _ Ht) as (_ & _ & Hpd & Et). cbn [k_mem set_kmem] in *.
  pose proof (pi_page _ _ _ _ I _ _ Ht) as Hpt. pose proof (page_bounds t Hpt) as Hb.
  assert (Eptr : pte_ptr m D vp = t + 4 * (vp mod 1024)) by (unfold pte_ptr; by rewrite Hpd, Et).
  assert (Hptr : pte_ptr m D vp <> 0) by (rewrite Eptr; unfold KERNBASE in *; zdiv).
  pose proof (pt_store_pte _ _ _ _ I D vp e HD ltac:(lia) Hptr He (fun _ _ => Hu)) as I'.
  unfold upd_users in I'. rewrite (proj2 (Z.ltb_lt _ _)), HP in I' by lia.
  cbn [k_mem set_kmem] in I'.
  rewrite Eptr, (page_V2P_add t (4 * (vp mod 1024)) Hpt ltac:(unfold PGSIZE; zdiv)) in I'. exact I'.
Qed.

Lemma own4_lookups :
  own4 !! page 1 = Some (OTab (page 0) 0) /\ own4 !! page 3 = Some (OTab (page 2) 0)
  /\ own4 !! page 4 = Some OUser /\ own4 !! page 5 = Some OUser.
Proof.
  unfold own4, own3. split_and!; repeat (rewrite lookup_insert_eq || rewrite lookup_insert_ne by done); done.
Qed.

Lemma inv6 : pt_inv (set_kmem m6 k0) own4 demo_users live1.
Proof.
  assert (He : 0 <= shared_entry < 2 ^ 32) by done. assert (He' : 0 <= own_entry < 2 ^ 32) by done.
  assert (H3 : 0 <= 0 < NUSER) by done. assert (H4 : 0 <= 1 < NUSER) by done.
  destruct live1_in as [H0 H2]. destruct own4_lookups as (O1 & O3 & O4 & O5).
  pose proof (demo_store m3 ∅ (page 0) 0 (page 1) 0 shared_entry inv4 H0 H3 eq_refl O1 He eq_refl O4) as I4.
  pose proof (demo_store m4 _ (page 2) 0 (page 3) 0 shared_entry I4 H2 H3 eq_refl O3 He eq_refl O4) as I5.
  exact (demo_store m5 _ (page 0) 1 (page 1) 0 own_entry I5 H0 H4 eq_refl O1 He' eq_refl O5).
Qed.

Definition demo_ref : gmap Z Z := <[pageno (page 5) := 1]> (<[pageno (page 4) := 2]> ∅).

Definition demo_proc : proc :=
  Proc 8192 (page 0) 0 RUNNING 1 None 0 0 None false (replicate NOFILE None) None [].

(** Processor 0 runs process 0, which has just stored to address 0. *)
Definition demo : vst := Vst (set_kmem m6 k0) demo_ref [demo_proc] 0 0 (V2P (page 0)) ∅.

Lemma demo_frames : frame shared_entry = page 4 /\ frame own_entry = page 5.
Proof. done. Qed.

Lemma demo_count v :
  mapcount demo_users v = if decide (v = page 4) then 2 else if decide (v = page 5) then 1 else 0.
Proof.
  destruct demo_frames as [F4 F5]. unfold demo_users.
  rewrite !mapcount_insert by (rewrite ?lookup_insert_ne by done; done). rewrite F4, F5.
  assert (mapcount ∅ v = 0) as -> by done. assert (page 4 <> page 5) by done.
  repeat case_decide; subst; done || lia.
Qed.

Lemma demo_users_cases D vp e :
  demo_users !! (D, vp) = Some e ->
  (D = page 0 /\ vp = 0 /\ e = shared_entry) \/ (D = page 2 /\ vp = 0 /\ e = shared_entry)
  \/ (D = page 0 /\ vp = 1 /\ e = own_entry).
Proof.
  unfold demo_users. rewrite !lookup_insert, lookup_empty. repeat case_decide; naive_solver.
Qed.

Lemma own4_user v : own4 !! v = Some OUser -> v = page 4 \/ v = page 5.
Proof.
  unfold own4, own3, own1.
  rewrite lookup_insert. case_decide; [by right|]. rewrite lookup_insert. case_decide; [by left|].
  do 4 (rewrite lookup_insert; case_decide; [discriminate|]). rewrite own0_lookup. intros (k & _ & _ & E). by destruct (k <? 6).
Qed.

Lemma demo_acct : acct demo_ref own4 demo_users.
Proof.
  destruct demo_frames as [F4 F5]. split.
  - intros v Hv. rewrite demo_count. unfold demo_ref.
    assert (H4 : page_ok (page 4)) by (by apply page_is_ok).
    assert (H5 : page_ok (page 5)) by (by apply page_is_ok).
    rewrite bump_ref by done. destruct (decide (v = page 5)) as [->|]; [done|].
    rewrite bump_ref by done. by case_decide.
  - intros v Hv. rewrite demo_count. apply own4_user in Hv as [->| ->]; done.
  - intros D vp e D' vp' e' H1%demo_users_cases H2%demo_users_cases Hf.
    destruct H1 as [(-> & -> & ->)|[(-> & -> & ->)|(-> & -> & ->)]],
      H2 as [(-> & -> & ->)|[(-> & -> & ->)|(-> & -> & ->)]]; done.
  - intros D vp e H1%demo_users_cases HW.
    destruct H1 as [(-> & -> & ->)|[(-> & -> & ->)|(-> & -> & ->)]]; [discriminate..|].
    rewrite F5. by rewrite demo_count.
Qed.

Lemma demo_inv : cow_inv demo own4 demo_users live1.
Proof.
  split; [apply inv6|apply demo_acct|].
  vm_compute. discriminate.
Qed.

Lemma demo_running : running demo 0 demo_proc.
Proof. split; [|done]. exists 0%nat, (Cpu 0 0 0 (Some 0%nat)). by split. Qed.

Lemma demo_in : pgdir demo_proc ∈ live1.
Proof. apply live1_in. Qed.

(** What the first process reads at the shared address and at its own. *)
Lemma demo_user_0 : demo_users !! (page 0, 0) = Some shared_entry.
Proof. done. Qed.

Lemma demo_user_1 : demo_users !! (page 0, 1) = Some own_entry.
Proof. done. Qed.

Lemma demo_pte vp e : demo_users !! (page 0, vp) = Some e -> pte_val (v_mem demo) (page 0) vp = e.
Proof. intros Hu. by apply (pi_users _ _ _ _ inv6) in Hu as (_ & _ & ? & _). Qed.

Lemma demo_read : exists b, ubyte demo (page 0) 0 = Some b.
Proof.
  unfold ubyte. change (0 / PGSIZE) with 0. rewrite (demo_pte 0 _ demo_user_0). by eexists.
Qed.

Lemma demo_traps b : uwrite demo (page 0) 0 b = None.
Proof. unfold uwrite. change (0 / PGSIZE) with 0. by rewrite (demo_pte 0 _ demo_user_0). Qed.

Lemma demo_stores b : exists s', uwrite demo (page 0) 4096 b = Some s'.
Proof. unfold uwrite. change (4096 / PGSIZE) with 1. rewrite (demo_pte 1 _ demo_user_1). by eexists. Qed.
