(* ===== verification/CowSpec.v ===== *)
(** What the virtual-memory system guarantees to processes. *)

From S2P Require Import Prelude Params Mem Spinlock Kalloc Vm PageTable Walk Uvm Kvm Cow CopyCow Grow CowSystem Demo.
Open Scope Z_scope.
Open Scope xv6_scope.

Section spec.
Context `{Layout}.

(** C1: Copy-on-write refines private memory.  Take any sequence of calls:
    loads and stores of the processes (a store that traps goes through
    [pagefault] and is repeated), [copyuvmcow], [freevm], [allocuvm] and
    [deallocuvm], with changes of the running process in between.  The
    specification in which every address space has its own bytes, a store
    changes one byte of one space, a fork copies the bytes below the size to a
    new space, an exit drops one, growing adds zeroes in exactly the pages
    added and shrinking removes exactly the pages given up, accepts the same
    calls with the same answers, each byte loaded included, and ends with the
    bytes the processes then see.  The accounting invariant holds, and every
    call that may be made next returns; a store is answered by killing the
    process only when no page is free. *)
Theorem cow_refines_private_memory tr x y :
  vinv x -> vrun tr x y ->
  vinv y /\ (exists a, arun tr (abs x) = Some a /\ amem_eq a (abs y)) /\
  forall c, pre c (vs y) (vlive y) ->
    exists r s', vexec c (vs y) = Ok r s' /\ (r = Killed -> free_list (v_k (vs y)) []).
Proof.
  intros Hx Hr. destruct (vrun_sim tr x y Hr Hx) as [Hy Ha]. split; [done|]. split; [done|]. destruct y as [s live].
  intros c Hc. destruct (call_sim c s live Hy Hc) as (r & s' & E & _ & _ & Hk). by exists r, s'.
Qed.

(** C3: A store that traps on a readable page: [pagefault] returns, no byte of
    any address space changes for its owner, and either the store succeeds
    when repeated, with the TLB flushed, or no page is free and the process is
    marked killed. *)
Theorem pagefault_transparent err s own users live i x va b0 b :
  cow_inv s own users live -> running s i x -> pgdir x ∈ live -> cr2 s = va ->
  ubyte s (pgdir x) va = Some b0 -> uwrite s (pgdir x) va b = None ->
  exists s' own' users', pagefault err s = Ok tt s' /\ cow_inv s' own' users' live
    /\ (forall D' va', D' ∈ live -> ubyte s' D' va' = ubyte s D' va')
    /\ ((is_Some (uwrite s' (pgdir x) va b) /\ tlb s' = ∅ /\ cr3 s' = V2P (pgdir x)
          /\ ptable s' = ptable s)
        \/ (ptable s' = alter (set_killed true) i (ptable s) /\ own' = own /\ users' = users
            /\ forall v, own !! v <> Some OFree)).
Proof. apply pagefault_ok. Qed.

(** C4: [copyuvmcow] returns; the memory of every existing process looks the
    same; the child, when there is one, shows the parent's bytes although no
    page of user memory was allocated, and the TLB is flushed. *)
Theorem copyuvmcow_shares s own users live D sz0 :
  cow_inv s own users live -> D ∈ live -> 0 <= sz0 <= KERNBASE ->
  (forall vp, 0 <= vp < npages sz0 -> is_Some (users !! (D, vp))) ->
  Z.of_nat (size live) < 127 ->
  exists r s' own' users', copyuvmcow D sz0 s = Ok r s'
    /\ (forall D' va, D' ∈ live -> ubyte s' D' va = ubyte s D' va)
    /\ ((r = 0 /\ cow_inv s' own' users' live)
        \/ (r <> 0 /\ r ∉ live /\ cow_inv s' own' users' ({[r]} ∪ live)
            /\ tlb s' = ∅ /\ cr3 s' = V2P D
            /\ (forall va, ubyte s' r va = if va <? npages sz0 * PGSIZE then ubyte s D va else None)
            /\ (forall v, own' !! v = Some OUser -> own !! v = Some OUser))).
Proof. apply copyuvmcow_ok. Qed.

(** A store that does not trap changes one byte of one address space. *)
Theorem uwrite_isolated s own users live D va b s' :
  cow_inv s own users live -> D ∈ live -> 0 <= b < 256 -> uwrite s D va b = Some s' ->
  cow_inv s' own users live
  /\ forall D' va', D' ∈ live ->
     ubyte s' D' va' = if decide (D' = D /\ va' = va) then Some b else ubyte s D' va'.
Proof. apply uwrite_ok. Qed.

(** The pages that belong to an address space: its directory, its tables and
    the user pages nobody else maps. *)
Definition page_of (own : gmap Z owner) (users : gmap (Z * Z) Z) (D v : Z) : Prop :=
  v = D \/ (exists d, own !! v = Some (OTab D d))
  \/ (own !! v = Some OUser /\ forall D' vp e, users !! (D', vp) = Some e -> frame e = v -> D' = D).

(** C29: [freevm] returns, gives every page of the address space back to the
    allocator, user pages included that nobody else maps, and leaves what
    other processes see alone. *)
Theorem freevm_releases s own users live D :
  cow_inv s own users live -> D ∈ live ->
  exists s' own' users', freevm D s = Ok tt s' /\ cow_inv s' own' users' (live ∖ {[D]})
    /\ (forall D' va, D' ∈ live -> D' <> D -> ubyte s' D' va = ubyte s D' va)
    /\ forall v, page_of own users D v -> own' !! v = Some OFree.
Proof.
  intros C HD. pose proof (freevm_ok s own users live D C HD) as Hret.
  apply returns_ok in Hret as ([] & s' & E & own' & C' & S).
  exists s', own', (unmap_range users D 0 NUSER). split_and!; [done|done| |].
  - intros D' va HD' Hne. rewrite (view_shrink s own users live s' own' (live ∖ {[D]}) D 0 NUSER) by set_solver.
    by rewrite decide_False by naive_solver.
  - intros v Hv. assert (Hsome : is_Some (own !! v)).
    { destruct Hv as [->|[[d ->]|[-> _]]]; [|done..]. by rewrite (pi_dir _ _ _ _ (ci_pt _ _ _ _ C) D HD). }
    apply (sh_dom _ _ _ _ S) in Hsome as [o Ho].
    destruct (decide (o = OFree)) as [->|Hne]; [done|]. exfalso.
    pose proof (sh_used _ _ _ _ S v o Ho Hne) as Ho0.
    pose proof (pi_back _ _ _ _ (ci_pt _ _ _ _ C') v o Ho) as Hb.
    destruct Hv as [->|[[d Hd]|[Hu Hsole]]].
    + rewrite (pi_dir _ _ _ _ (ci_pt _ _ _ _ C) D HD) in Ho0. injection Ho0 as <-. simpl in Hb. set_solver.
    + rewrite Hd in Ho0. injection Ho0 as <-. destruct Hb as [Hb _]. set_solver.
    + rewrite Hu in Ho0. injection Ho0 as <-. apply (ac_used _ _ _ (ci_acct _ _ _ _ C')) in Ho.
      apply mapcount_pos in Ho as ([D' vp] & e & He & <-).
      pose proof (proj1 (pi_users _ _ _ _ (ci_pt _ _ _ _ C') _ _ _) He) as (Hin & _).
      rewrite unmap_range_lookup in He. case_decide; [done|].
      assert (D' = D) by (by eapply Hsole). set_solver.
Qed.

(** [allocuvm] returns; it fails without a trace, or zero bytes appear
    from the old size, rounded up, to the new one. *)
Theorem allocuvm_zeroed s own users live D oldsz newsz :
  cow_inv s own users live -> D ∈ live -> 0 <= oldsz <= newsz -> newsz < KERNBASE ->
  (forall vp, npages oldsz <= vp < npages newsz -> users !! (D, vp) = None) ->
  exists r s' own' users', allocuvm D oldsz newsz s = Ok r s' /\ cow_inv s' own' users' live
    /\ ((r = 0 /\ forall D' va, D' ∈ live -> ubyte s' D' va = ubyte s D' va)
        \/ (r = newsz /\ forall D' va, D' ∈ live -> ubyte s' D' va =
             if decide (D' = D /\ npages oldsz * PGSIZE <= va < npages newsz * PGSIZE)
             then Some 0 else ubyte s D' va)).
Proof. apply allocuvm_view. Qed.

(** [setupkvm] returns; unless memory runs out, the new directory maps
    the kernel as [kmap] describes, page by page, and no user page. *)
Theorem setupkvm_maps_kernel s own users live :
  cow_inv s own users live -> Z.of_nat (size live) < 127 ->
  exists r s' own', setupkvm s = Ok r s'
    /\ ((r = 0 /\ cow_inv s' own' users live)
        \/ (r ∉ live /\ cow_inv s' own' users ({[r]} ∪ live)
            /\ forall vp, 0 <= vp < 2 ^ 20 -> pte_val (v_mem s') r vp = kvm_word vp)).
Proof.
  intros C Hl. pose proof (setupkvm_ok s own users live C Hl) as Hret.
  apply returns_ok in Hret as (r & s' & E & own' & _ & Hc). exists r, s', own'. split; [done|].
  destruct Hc as [?|(_ & ? & ? & _ & ?)]; [by left|by right].
Qed.
Lemma v_cpuid s p :
  current (v_mach s) p -> has (eflags (v_mach s)) FL_IF = false ->
  exists n, lift cpuid s = Ok n s.
Proof.
  intros (me & c & Hc & _) Hi. exists me. unfold cpuid.
  rewrite (lift_ok mycpu s me (v_mach s)); [|exact (mycpu_ok me c (v_mach s) Hc Hi)].
  f_equal. by destruct s as [[]].
Qed.

(** C39: An access to a kernel address, or to an address without a present user
    entry, marks the process killed and changes nothing else but saved
    interrupt flags. *)
Theorem pagefault_illegal err s own users live i x :
  cow_inv s own users live -> running s i x -> pgdir x ∈ live ->
  has (eflags (v_mach s)) FL_IF = false -> 0 <= cr2 s < 2 ^ 32 -> ubyte s (pgdir x) (cr2 s) = None ->
  exists s1, moved s s1
    /\ pagefault err s = Ok tt (set_ptable (alter (set_killed true) i (ptable s)) s1).
Proof.
  intros C R HD Hif Hva Hb.
  assert (Hill : forall s0, moved s s0 -> exists s1, moved s s1 /\
    (lift cpuid ;;; kill_current) s0 = Ok tt (set_ptable (alter (set_killed true) i (ptable s)) s1)).
  { intros s0 M0. pose proof (running_moved _ _ _ _ M0 R) as R0.
    assert (Hf0 : has (eflags (v_mach s0)) FL_IF = false).
    { destruct M0 as (m & -> & (_ & Ef & _)). unfold v_mach at 1. cbn. by rewrite Ef. }
    destruct (v_cpuid s0 _ (rn_cur _ _ _ R0) Hf0) as [n En]. rewrite (bind_ok _ _ _ _ _ En).
    destruct (kill_ok s0 i x R0) as (s1 & -> & M1). exists s1. split; [by eapply moved_trans|].
    by destruct M0 as (m & -> & _). }
  destruct (v_myproc s (Some i) (rn_cur _ _ _ R)) as (s1 & E1 & M1 & Hc1).
  unfold pagefault. rewrite (bind_ok _ _ s (cr2 s) s) by done. rewrite (bind_ok _ _ _ _ _ E1). cbv zeta.
  destruct (Z.leb_spec KERNBASE (cr2 s)) as [Hk|Hk]; [by apply Hill|].
  destruct (v_myproc s1 (Some i) Hc1) as (s2 & E2 & M2 & _).
  pose proof (moved_trans _ _ _ M1 M2) as M12. pose proof (running_moved _ _ _ _ M12 R) as R2.
  pose proof (cow_moved _ _ _ _ _ C M12) as C2. destruct (moved_frame _ _ M12) as [_ Em].
  rewrite (bind_ok _ _ _ _ _ E2), (bind_ok _ _ _ _ _ (read_proc_ok _ _ _ (rn_proc _ _ _ R2))).
  rewrite (bind_ok _ _ _ _ _ (walkpgdir_read s2 _ _ _ _ _ (ci_pt _ _ _ _ C2) HD Hva)).
  destruct (Z.eqb_spec (pte_ptr (v_mem s2) (pgdir x) (cr2 s / PGSIZE)) 0) as [|Hptr]; [by apply Hill|].
  rewrite (bind_ok _ _ _ _ _ (kload_pte s2 _ _ _ (ci_pt _ _ _ _ C2) _ _ HD (vp_range _ Hva) Hptr)).
  rewrite Em. unfold ubyte, user_va in Hb.
  rewrite (proj2 (Z.leb_le _ _)), (proj2 (Z.ltb_lt _ _)) in Hb by lia. cbn [andb] in Hb.
  destruct (has _ PTE_P) eqn:EP; [|by apply Hill].
  destruct (has _ PTE_U) eqn:EU; [discriminate|by apply Hill].
Qed.
End spec.

(** * The theorems on the concrete machine of [Demo.v] *)

(** The first process stores to the page it shares with the second; the second
    then loads what was there before. *)
Lemma cow_refines_private_memory_witness :
  exists r1 r2 y a, vrun [(Poke (page 0) 0 1, r1); (Peek (page 2) 0, r2)] (Vmsys demo live1) y /\ vinv y /\
    r2 = Byte (ubyte demo (page 2) 0) /\
    arun [(Poke (page 0) 0 1, r1); (Peek (page 2) 0, r2)] (abs (Vmsys demo live1)) = Some a.
Proof.
  assert (Hi : vinv (Vmsys demo live1)) by (exists own4, demo_users; exact demo_inv).
  assert (Hp : pre (Poke (page 0) 0 1) demo live1).
  { split; [apply live1_in|]. split; [lia|]. split; [destruct demo_read as [b ->]; by eexists|]. exists 0%nat, demo_proc. split; [exact demo_running|reflexivity]. }
  destruct (cow_refines_private_memory [] _ _ Hi (run_nil _)) as (_ & _ & H). destruct (H _ Hp) as (r1 & s1 & E1 & Hk).
  assert (Hr : vrun [(Poke (page 0) 0 1, r1); (Peek (page 2) 0, Byte (ubyte s1 (page 2) 0))] (Vmsys demo live1) (Vmsys s1 live1)).
  { apply (run_call _ _ _ s1); [exact Hp|exact E1|]. apply (run_call (Peek (page 2) 0) _ _ s1); [exact (proj2 live1_in)|reflexivity|]. apply run_nil. }
  destruct (cow_refines_private_memory _ _ _ Hi Hr) as (Hy & (a & Ha & _) & _).
  exists r1, (Byte (ubyte s1 (page 2) 0)), (Vmsys s1 live1), a. split; [exact Hr|]. split; [exact Hy|]. split; [|exact Ha].
  cbn [arun] in Ha. destruct (aexec (Poke (page 0) 0 1) r1 _) as [a1|] eqn:E; [|discriminate Ha]. cbn [mbind option_bind aexec] in Ha.
  case_decide as Eb; [|discriminate Ha]. rewrite <- Eb, (poke_private _ _ _ _ _ _ (page 2) 0 E), abs_byte; [reflexivity|exact (proj2 live1_in)|discriminate].
Defined.

Lemma pagefault_transparent_witness :
  exists s' own' users', pagefault 7 demo = Ok tt s' /\ cow_inv s' own' users' live1.
Proof.
  destruct demo_read as [b0 Hb].
  destruct (pagefault_transparent 7 demo own4 demo_users live1 0 demo_proc 0 b0 1 demo_inv demo_running
    demo_in eq_refl Hb (demo_traps 1)) as (s' & own' & users' & E & C & _).
  exists s', own', users'. split; [exact E|exact C].
Defined.

Lemma demo_mapped vp : 0 <= vp < npages 8192 -> is_Some (demo_users !! (page 0, vp)).
Proof.
  change (npages 8192) with 2. intros Hvp. assert (vp = 0 \/ vp = 1) as [->| ->] by lia.
  - rewrite demo_user_0. by eexists.
  - rewrite demo_user_1. by eexists.
Qed.

Lemma demo_live_size : Z.of_nat (size live1) < 127.
Proof. vm_compute. reflexivity. Qed.

Lemma copyuvmcow_shares_witness :
  exists r s', copyuvmcow (page 0) 8192 demo = Ok r s'
    /\ forall va, ubyte s' (page 2) va = ubyte demo (page 2) va.
Proof.
  destruct (copyuvmcow_shares demo own4 demo_users live1 (page 0) 8192 demo_inv (proj1 live1_in)
    ltac:(unfold KERNBASE; lia) demo_mapped demo_live_size) as (r & s' & own' & users' & E & Hv & _).
  exists r, s'. split; [exact E|]. intros va. apply Hv. exact (proj2 live1_in).
Defined.

Lemma uwrite_isolated_witness :
  exists s', uwrite demo (page 0) 4096 7 = Some s' /\ ubyte s' (page 0) 4096 = Some 7
    /\ ubyte s' (page 2) 4096 = ubyte demo (page 2) 4096.
Proof.
  destruct (demo_stores 7) as [s' Hs]. exists s'. split; [exact Hs|].
  destruct (uwrite_isolated demo own4 demo_users live1 (page 0) 4096 7 s' demo_inv (proj1 live1_in)
    ltac:(lia) Hs) as [_ Hv].
  split.
  - rewrite (Hv _ _ (proj1 live1_in)). apply decide_True. split; reflexivity.
  - rewrite (Hv _ _ (proj2 live1_in)). apply decide_False. intros [E _]. discriminate E.
Defined.

Lemma freevm_releases_witness :
  exists s' (own' : gmap Z owner), freevm (page 0) demo = Ok tt s' /\ own' !! page 5 = Some OFree
    /\ forall va, ubyte s' (page 2) va = ubyte demo (page 2) va.
Proof.
  destruct (freevm_releases demo own4 demo_users live1 (page 0) demo_inv (proj1 live1_in))
    as (s' & own' & users' & E & _ & Hv & Hf).
  exists s', own'. split_and!; [exact E| |].
  - apply Hf. right; right. split; [exact (proj2 (proj2 (proj2 own4_lookups)))|].
    intros D vp e Hu Hfr. apply demo_users_cases in Hu as [(-> & _)|[(_ & _ & ->)|(-> & _)]];
      [reflexivity|discriminate Hfr|reflexivity].
  - intros va. apply Hv; [exact (proj2 live1_in)|discriminate].
Defined.

Lemma allocuvm_zeroed_witness :
  exists r s', allocuvm (page 0) 8192 12288 demo = Ok r s'.
Proof.
  assert (Hno : forall vp, npages 8192 <= vp < npages 12288 -> demo_users !! (page 0, vp) = None).
  { intros vp Hvp. change (npages 8192) with 2 in Hvp. change (npages 12288) with 3 in Hvp.
    assert (vp = 2) as -> by lia. reflexivity. }
  destruct (allocuvm_zeroed demo own4 demo_users live1 (page 0) 8192 12288 demo_inv (proj1 live1_in)
    ltac:(lia) ltac:(unfold KERNBASE; lia) Hno) as (r & s' & _ & _ & E & _).
  exists r, s'. exact E.
Defined.

Lemma setupkvm_maps_kernel_witness : exists r s', setupkvm demo = Ok r s'.
Proof.
  destruct (setupkvm_maps_kernel demo own4 demo_users live1 demo_inv demo_live_size) as (r & s' & _ & E & _).
  exists r, s'. exact E.
Defined.

(** The same machine after an access to address [0x7000], which is not mapped. *)
Definition demo_bad : vst :=
  Vst (v_k demo) (pg_refcount demo) (ptable demo) 0 0x7000 (V2P (page 0)) ∅.

Lemma pagefault_illegal_witness :
  exists s1, pagefault 4 demo_bad = Ok tt (set_ptable (alter (set_killed true) 0%nat (ptable demo)) s1).
Proof.
  assert (C : cow_inv demo_bad own4 demo_users live1) by (destruct demo_inv; split; assumption).
  assert (R : running demo_bad 0 demo_proc) by (destruct demo_running; split; assumption).
  assert (Hb : ubyte demo_bad (page 0) 0x7000 = None).
  { rewrite (ubyte_users demo_bad own4 demo_users live1 _ _ (ci_pt _ _ _ _ C) (proj1 live1_in)).
    reflexivity. }
  destruct (pagefault_illegal 4 demo_bad own4 demo_users live1 0 demo_proc C R demo_in eq_refl
    ltac:(cbn; lia) Hb) as (s1 & _ & E).
  exists s1. exact E.
Defined.

(** * [copyuvm], the copy made by plain [fork], does not count its pages.

    [copyuvm] maps every page of the child without incrementing
    [pg_refcount].  [deallocuvm] frees a page only when decrementing its
    count gives zero, so the pages of a forked process are never freed. *)

Section leak.
Context `{Layout}.

(** An existing table is found without allocation. *)
Lemma walkpgdir_present s own users live D va :
  pt_inv (v_k s) own users live -> D ∈ live -> 0 <= va < 2 ^ 32 ->
  pte_ptr (v_mem s) D (va / PGSIZE) <> 0 ->
  walkpgdir D va true s = Ok (pte_ptr (v_mem s) D (va / PGSIZE)) s.
Proof.
  intros I HD Hva Hp. pose proof (vp_range va Hva).
  destruct (pte_ptr_in _ _ _ _ I D _ HD ltac:(done) Hp) as (t & Ht & _ & Et & _ & Hpd & Ep).
  unfold walkpgdir. rewrite PDX_vp, PTX_vp by done.
  erewrite bind_ok by (eapply kload_pde; [done|done|zdiv]). rewrite Hpd.
  rewrite <- Ep, page_u32_add by (done || unfold PGSIZE; zdiv). by rewrite Et.
Qed.

(** Mapping one page where the table exists cannot fail. *)
Lemma mappages_present s own users live D vp pa perm :
  pt_inv (v_k s) own users live -> D ∈ live -> 0 <= vp < 2 ^ 20 ->
  pte_ptr (v_mem s) D vp <> 0 -> has (pte_val (v_mem s) D vp) PTE_P = false ->
  mappages D (vp * PGSIZE) PGSIZE pa perm s
  = Ok 0 (vput (store32 (v_mem s) (V2P (pte_ptr (v_mem s) D vp)) (map_word pa perm)) s).
Proof.
  intros I HD Hvp Hp HP.
  change (mappages D (vp * PGSIZE) PGSIZE pa perm s)
    with (mappages D (vp * PGSIZE) (u32 ((Z.of_nat 0 + 1) * PGSIZE)) pa perm s).
  rewrite mappages_range by lia. cbn [mappages_loop].
  assert (Hv : vp * PGSIZE / PGSIZE = vp) by (by apply Z_div_mult).
  erewrite bind_ok by (eapply walkpgdir_present; [done|done|unfold PGSIZE; lia|by rewrite Hv]).
  rewrite Hv, (proj2 (Z.eqb_neq _ _)) by done.
  erewrite bind_ok by (by eapply kload_pte). rewrite HP.
  erewrite bind_ok by (by eapply kstore_pte). by rewrite (proj2 (Z.eqb_eq _ _)) by lia.
Qed.

(** One page copied into an address space whose table exists: the page is
    mapped, and its count is still that of a free page. *)
Lemma copyuvm_one s own users live D d vp e r sz0 :
  cow_inv s own users live -> D ∈ live -> d ∈ live -> D <> d ->
  users !! (D, vp) = Some e -> users !! (d, vp) = None -> pte_ptr (v_mem s) d vp <> 0 ->
  own !! r = Some OFree -> vp * PGSIZE < sz0 <= (vp + 1) * PGSIZE ->
  exists s' v e', copyuvm_loop D d (vp * PGSIZE) sz0 2 s = Ok d s' /\ page_ok v /\ frame e' = v /\ PTE_ADDR e' = V2P v /\
    has e' PTE_P = true /\ pt_inv (v_k s') (<[v := OUser]> own) (<[(d, vp) := e']> users) live /\ refcount s' (pageno v) = 0.
Proof.
  intros C HD Hd Hne Hu Hno Hptr Hfree Hsz. pose proof (ci_pt _ _ _ _ C) as I. pose proof NUSER_lt.
  destruct (entry_frame _ _ _ _ _ _ _ C Hu) as (Hp & Ha & Ho & Hr & _).
  destruct (proj1 (pi_users _ _ _ _ I _ _ _) Hu) as (_ & Hvp & Hval & HP).
  assert (HG : PGSIZE = 4096) by done. assert (HN : NUSER = 524288) by done.
  cbn [copyuvm_loop]. rewrite (proj2 (Z.ltb_lt _ _)) by lia.
  erewrite bind_ok by (eapply walkpgdir_read; [done|done|lia]). rewrite Z_div_mult by done.
  rewrite (proj2 (Z.eqb_neq _ _)) by (apply present_ptr; by rewrite Hval).
  rewrite (bind_ok _ _ _ _ _ (load_entry s own users live D vp e I Hu)), HP. cbn [negb].
  destruct (v_kalloc s own users live I) as (v & s1 & E1 & F1 & M1 & [(-> & _ & Hnf)|(Hpv & Hov & I1)]);
    [by destruct (Hnf r)|].
  rewrite (bind_ok _ _ _ _ _ E1), (proj2 (Z.eqb_neq _ _)) by (by apply page_nonzero).
  fold (frame e). destruct (fresh_copy s1 own users live v (frame e) I1 Hov Ho) as (E2 & I2 & O2 & _).
  rewrite (bind_ok _ _ _ _ _ E2). set (s2 := vput _ s1) in *.
  assert (Hsd : same_page d (v_mem s) (v_mem s2)).
  { rewrite <- M1. apply (only_page_same v); [done|by eapply live_page| |done].
    eapply owner_ne; [exact Hov|by apply (pi_dir _ _ _ _ I)|done]. }
  assert (Ep2 : pte_ptr (v_mem s2) d vp = pte_ptr (v_mem s) d vp) by (apply pte_ptr_same; [done|lia]).
  assert (Habs : has (pte_val (v_mem s2) d vp) PTE_P = false).
  { pose proof (not_present s2 _ users live d vp I2 Hd ltac:(done)) as En. rewrite Hno in En.
    destruct (has (pte_val (v_mem s2) d vp) PTE_P); [discriminate En|done]. }
  set (e' := map_word (V2P v) (PTE_FLAGS e)).
  destruct (page_bounds v Hpv) as (Hb & _ & Hv). unfold PHYSTOP in Hv.
  destruct (pte_split e Hr) as (_ & _ & _ & Hf).
  destruct (map_word_parts (V2P v) (PTE_FLAGS e) (page_V2P_aligned v Hpv) ltac:(lia) Hf) as (Hw & Hwa & HwP & _).
  fold e' in Hw, Hwa, HwP.
  assert (Hfr : frame e' = v) by (unfold frame; rewrite Hwa; by apply P2V_V2P).
  rewrite (bind_ok _ _ _ _ _ (mappages_present s2 _ users live d vp (V2P v) (PTE_FLAGS e) I2 Hd
    ltac:(lia) ltac:(by rewrite Ep2) Habs)).
  cbn [Z.ltb Z.compare]. fold e'. set (s3 := vput _ s2).
  rewrite (u32_id (vp * PGSIZE + PGSIZE)), (proj2 (Z.ltb_ge _ _)) by lia.
  assert (I3 : pt_inv (v_k s3) (<[v := OUser]> own) (<[(d, vp) := e']> users) live).
  { pose proof (pt_store_pte _ _ _ _ I2 d vp e' Hd ltac:(lia) ltac:(by rewrite Ep2) Hw) as I3.
    unfold upd_users in I3. rewrite (proj2 (Z.ltb_lt _ _)), HwP in I3 by lia. apply I3.
    intros _ _. fold (frame e'). rewrite Hfr. apply lookup_insert_eq. }
  assert (Eref : pg_refcount s3 = pg_refcount s) by (change (pg_refcount s1 = pg_refcount s); by rewrite (vf_rest _ _ F1)).
  assert (Hc0 : refcount s3 (pageno v) = 0).
  { unfold refcount. rewrite Eref, (ac_ref _ _ _ (ci_acct _ _ _ _ C)) by done. by eapply free_unmapped. }
  exists s3, v, e'. split_and!; done.
Qed.

(** Unmapping a page that was not counted. *)
Lemma unmap_uncounted s own users live d vp v e :
  pt_inv (v_k s) (<[v := OUser]> own) (<[(d, vp) := e]> users) live -> d ∈ live -> 0 <= vp < NUSER -> page_ok v ->
  frame e = v -> PTE_ADDR e = V2P v -> refcount s (pageno v) = 0 ->
  exists s' l, unmap (pte_ptr (v_mem s) d vp) e s = Ok tt s' /\ refcount s' (pageno v) = -1 /\ free_list (v_k s') l /\ v ∉ l.
Proof.
  intros I Hd Hvp Hpv Hfr Hwa Hc0. assert (HN : NUSER = 524288) by done.
  assert (Hu : <[(d, vp) := e]> users !! (d, vp) = Some e) by apply lookup_insert_eq.
  destruct (proj1 (pi_users _ _ _ _ I _ _ _) Hu) as (_ & _ & Hval & HP).
  assert (Hz : V2P v <> 0).
  { destruct (page_bounds v Hpv) as (_ & -> & _). pose proof (page_lo v Hpv). pose proof data_after_text.
    pose proof data_before_end. unfold KERNLINK, EXTMEM in *. lia. }
  assert (Hptr : pte_ptr (v_mem s) d vp <> 0) by (apply present_ptr; by rewrite Hval).
  set (s4 := bump v (-1) s).
  assert (I4 : pt_inv (v_k s4) (<[v := OUser]> own) (<[(d, vp) := e]> users) live) by exact I.
  exists (vput (store32 (v_mem s4) (V2P (pte_ptr (v_mem s4) d vp)) 0) s4).
  destruct (pi_free _ _ _ _ (pt_store_pte _ _ _ _ I4 d vp 0 Hd ltac:(lia) Hptr ltac:(lia) ltac:(done)))
    as (l & Hl & Hiff).
  exists l. split_and!; [| |done|].
  - unfold unmap. rewrite Hwa. cbv zeta. rewrite (proj2 (Z.eqb_neq _ _)) by done. fold (pageno v).
    rewrite (bind_ok _ _ _ _ _ (add_ref_ok s v (-1) 0 Hpv Hc0 ltac:(lia))).
    change (0 + -1) with (-1). cbn [Z.eqb when]. erewrite bind_ok by done.
    exact (kstore_pte s4 _ _ _ I4 d vp 0 Hd ltac:(lia) Hptr).
  - unfold refcount. cbn [pg_refcount set_refcount vput set_k bump s4]. by rewrite lookup_insert_eq.
  - rewrite Hiff, lookup_insert_eq. discriminate.
Qed.

(** One page copied by [copyuvm]: the child's page has a reference count of
    0, and unmapping it later leaves the count at -1 and the page off the
    free list.  Every other routine of [vm.c] counts one reference per
    mapping. *)
Theorem copyuvm_uncounted s own users live D d vp e r sz0 :
  cow_inv s own users live -> D ∈ live -> d ∈ live -> D <> d ->
  users !! (D, vp) = Some e -> users !! (d, vp) = None -> pte_ptr (v_mem s) d vp <> 0 ->
  own !! r = Some OFree -> vp * PGSIZE < sz0 <= (vp + 1) * PGSIZE ->
  exists s' e' s'' l, copyuvm_loop D d (vp * PGSIZE) sz0 2 s = Ok d s'
    /\ pte_val (v_mem s') d vp = e' /\ has e' PTE_P = true
    /\ refcount s' (pageno (frame e')) = 0
    /\ unmap (pte_ptr (v_mem s') d vp) e' s' = Ok tt s''
    /\ refcount s'' (pageno (frame e')) = -1
    /\ free_list (v_k s'') l /\ frame e' ∉ l.
Proof.
  intros C HD Hd Hne Hu Hno Hptr Hfree Hsz.
  destruct (proj1 (pi_users _ _ _ _ (ci_pt _ _ _ _ C) _ _ _) Hu) as (_ & Hvp & _).
  destruct (copyuvm_one s own users live D d vp e r sz0) as (s' & v & e' & E & Hpv & Hfr & Ha & HP & I & Hc); try done.
  destruct (unmap_uncounted s' own users live d vp v e') as (s'' & l & E' & Hc' & Hl & Hnl); try done.
  exists s', e', s'', l. rewrite Hfr. split_and!; try done.
  by destruct (proj1 (pi_users _ _ _ _ I _ _ _) (lookup_insert_eq _ _ _)) as (_ & _ & ? & _).
Qed.
End leak.

Lemma copyuvm_uncounted_witness :
  exists s' e', copyuvm_loop (page 0) (page 2) (1 * PGSIZE) 8192 2 demo = Ok (page 2) s'
    /\ pte_val (v_mem s') (page 2) 1 = e' /\ refcount s' (pageno (frame e')) = 0.
Proof.
  assert (Hptr : pte_ptr (v_mem demo) (page 2) 1 <> 0).
  { destruct (pi_back _ _ _ _ inv6 _ _ (proj1 (proj2 own4_lookups))) as (_ & _ & Ht & Et).
    unfold pte_ptr. change (v_k demo) with (set_kmem m6 k0). change (1 / 1024) with 0.
    rewrite Ht, Et. discriminate. }
  assert (Hfree : own4 !! page 6 = Some OFree).
  { unfold own4, own3, own1. rewrite !lookup_insert_ne by discriminate.
    apply own0_lookup. exists 6. split_and!; [lia|lia|reflexivity|reflexivity]. }
  destruct (copyuvm_uncounted demo own4 demo_users live1 (page 0) (page 2) 1 own_entry (page 6) 8192
    demo_inv (proj1 live1_in) (proj2 live1_in) ltac:(discriminate) demo_user_1 eq_refl Hptr Hfree
    ltac:(unfold PGSIZE; lia)) as (s' & e' & _ & _ & E & Hv & _ & Hr & _).
  exists s', e'. split_and!; [exact E|exact Hv|exact Hr].
Defined.
