(* ===== verification/Kinit.v ===== *)
(** Initialisation of the page allocator: [kinit1] and [kinit2] as [main]
    calls them. *)

From S2P Require Import Prelude Params Mem Spinlock Kalloc Vm PageTable Walk Uvm Kvm Cow Demo.
Open Scope Z_scope.
Open Scope xv6_scope.

Section kinit.
Context `{Layout}.

(** [v] is a whole page between [lo] and [hi]. *)
Definition page_in (lo hi v : Z) : Prop := v mod PGSIZE = 0 /\ lo <= v /\ v + PGSIZE <= hi.

Lemma freerange_loop_ok n : forall s l p vend,
  kready s -> free_list s l -> p mod PGSIZE = 0 -> end_ <= p -> vend <= KERNBASE + PHYSTOP ->
  (forall v, v ∈ l -> ~ page_in p vend v) ->
  vend - p < Z.of_nat (S n) * PGSIZE ->
  exists s' l', freerange_loop p vend (S n) s = Ok tt s' /\ free_list s' l' /\ kready s'
    /\ (forall v, v ∈ l' <-> v ∈ l \/ page_in p vend v)
    /\ use_lock s' = use_lock s /\ mach_equiv (k_mach s') (k_mach s).
Proof.
  assert (HG : PGSIZE = 4096) by done.
  induction n as [|n IH]; intros s l p vend Hk Hf Hp Hlo Hhi Hni Hfuel; cbn [freerange_loop].
  - rewrite (proj2 (Z.leb_gt _ _)) by lia. exists s, l. split_and!; try done.
    intros v. split; [by left|]. intros [?|(? & ? & ?)]; [done|lia].
  - destruct (Z.leb_spec (p + PGSIZE) vend) as [Hle|Hgt].
    + assert (Hpo : page_ok p) by (split; [done|done|lia]).
      destruct (kfree_spec s l p Hk Hf Hpo) as (s1 & E1 & F1 & K1 & _ & U1 & M1).
      { intros Hin. apply (Hni p Hin). split_and!; done || lia. }
      rewrite (bind_ok _ _ _ _ _ E1).
      destruct (IH s1 (p :: l) (p + PGSIZE) vend K1 F1) as (s2 & l2 & E2 & F2 & K2 & Hl2 & U2 & M2);
        [rewrite HG in *; zdiv|lia|done| |lia|].
      { intros v [->|Hin]%elem_of_cons (Ha & Hb & Hc); [lia|].
        apply (Hni v Hin). split_and!; done || lia. }
      exists s2, l2. split_and!; [done|done|done| |congruence|by rewrite M2].
      intros v. rewrite Hl2, elem_of_cons. split.
      * intros [[->|?]|(? & ? & ?)]; [right; split_and!; done || lia|by left|right; split_and!; done || lia].
      * intros [?|(Ha & Hb & Hc)]; [by left; right|]. destruct (decide (v = p)) as [->|]; [by left; left|].
        right. split_and!; [done| |lia]. rewrite HG in *. zdiv.
    + exists s, l. split_and!; try done.
      intros v. split; [by left|]. intros [?|(? & ? & ?)]; [done|lia].
Qed.

Lemma freerange_ok s l vstart vend :
  kready s -> free_list s l -> end_ <= vstart -> vstart + PGSIZE <= 2 ^ 32 -> vend <= KERNBASE + PHYSTOP ->
  (forall v, v ∈ l -> ~ page_in vstart vend v) ->
  exists s' l', freerange vstart vend s = Ok tt s' /\ free_list s' l' /\ kready s'
    /\ (forall v, v ∈ l' <-> v ∈ l \/ page_in vstart vend v)
    /\ use_lock s' = use_lock s /\ mach_equiv (k_mach s') (k_mach s).
Proof.
  intros Hk Hf Hlo Hs Hhi Hni. unfold freerange. assert (HG : PGSIZE = 4096) by done.
  assert (0 <= vstart).
  { pose proof data_after_text. pose proof data_before_end. unfold KERNLINK, KERNBASE, EXTMEM in *. lia. }
  rewrite PGROUNDUP_eq by lia. set (p := (vstart + (PGSIZE - 1)) / PGSIZE * PGSIZE).
  assert (Hp : vstart <= p < vstart + PGSIZE) by (unfold p; rewrite HG; zdiv).
  assert (Hpm : p mod PGSIZE = 0) by (unfold p; apply Z_mod_mult).
  assert (Hpi : forall v, page_in p vend v <-> page_in vstart vend v).
  { intros v. split; intros (Ha & Hb & Hc); split_and!; try done; [lia|]. unfold p. rewrite HG in *. zdiv. }
  destruct (freerange_loop_ok (Z.to_nat ((vend - p) / PGSIZE)) s l p vend Hk Hf Hpm)
    as (s' & l' & E & F & K & Hl & U & M); [lia|done| | |].
  - intros v Hv. rewrite Hpi. auto.
  - rewrite Nat2Z.inj_succ. destruct (Z.le_gt_cases 0 ((vend - p) / PGSIZE)).
    + rewrite Z2Nat.id by done. rewrite HG. zdiv.
    + rewrite HG in *. zdiv.
  - exists s', l'. split_and!; try done. intros v. by rewrite Hl, Hpi.
Qed.

(** The calls [main] makes: [kinit1(end, P2V(4*1024*1024))] and, with full
    page tables, [kinit2(P2V(4*1024*1024), P2V(PHYSTOP))], here without the
    allocations [main] makes in between. *)
Definition boot_pages : M kst unit :=
  kinit1 end_ (P2V (4 * 1024 * 1024)) ;;; kinit2 (P2V (4 * 1024 * 1024)) (P2V PHYSTOP).

(** After the two calls every page of physical memory above the kernel is
    on the free list, exactly once, nothing else is, and the lock is in use
    and free. *)
Theorem boot_frees_all_pages s :
  sane (k_mach s) -> freelist s = 0 ->
  exists s' l, boot_pages s = Ok tt s' /\ free_list s' l /\ kready s' /\ use_lock s' = true
    /\ forall v, v ∈ l <-> page_ok v.
Proof.
  intros Hs Hf. pose proof end_in_4M as He. pose proof data_after_text. pose proof data_before_end.
  unfold KERNLINK, KERNBASE, EXTMEM in *. assert (HG : PGSIZE = 4096) by done.
  unfold boot_pages. change (P2V (4 * 1024 * 1024)) with 0x80400000.
  change (P2V PHYSTOP) with 0x8e000000.
  set (s0 := set_use_lock false (set_kmach (set_locks (<[kmem_lock := free_lock]> (locks (k_mach s))) (k_mach s)) s)).
  assert (K0 : kready s0).
  { split; [|discriminate]. destruct Hs as (me & c & Hc). exists me, c. by apply cpu_ok_locks. }
  assert (F0 : free_list s0 []) by (split; [exact Hf|constructor]).
  destruct (freerange_ok s0 [] end_ 0x80400000 K0 F0) as (s1 & l1 & E1 & F1 & K1 & Hl1 & U1 & M1);
    [lia|lia|unfold KERNBASE, PHYSTOP; lia|by intros v ?%not_elem_of_nil|].
  destruct (freerange_ok s1 l1 0x80400000 0x8e000000 K1 F1) as (s2 & l2 & E2 & F2 & K2 & Hl2 & U2 & M2);
    [lia|lia|unfold KERNBASE, PHYSTOP; lia| |].
  { intros v Hv (Ha & Hb & Hc). apply Hl1 in Hv as [Hv%not_elem_of_nil|(_ & _ & Hd)]; [done|]. lia. }
  exists (set_use_lock true s2), l2. split_and!.
  - assert (E0 : kinit1 end_ 0x80400000 s = freerange end_ 0x80400000 s0) by done.
    rewrite (bind_ok _ _ s tt s1) by (by rewrite E0). unfold kinit2. by rewrite (bind_ok _ _ s1 tt s2).
  - destruct F2 as [Fc Fn]. by split.
  - split; [apply K2|]. intros _. unfold unlocked. cbn.
    assert (Em : mach_equiv (k_mach s2) (k_mach s0)) by (by rewrite M2).
    destruct Em as (_ & _ & -> & _). apply lookup_insert_eq.
  - done.
  - intros v. rewrite Hl2, Hl1. split.
    + intros [[Hn%not_elem_of_nil|(Ha & Hb & Hc)]|(Ha & Hb & Hc)]; [done|..];
        (split; [done|lia|unfold KERNBASE, PHYSTOP; lia]).
    + intros [Ha Hb Hc]. unfold KERNBASE, PHYSTOP in *. rewrite HG in *.
      destruct (Z.le_gt_cases (v + 4096) 0x80400000).
      * left; right. split_and!; done || (rewrite HG; lia).
      * right. split_and!; [done| |]; rewrite ?HG; zdiv.
Qed.
End kinit.

Lemma boot_frees_all_pages_witness :
  exists s' l, boot_pages (Kst demo_mach ∅ false 0) = Ok tt s' /\ free_list s' l /\ page 6 ∈ l.
Proof.
  assert (Hs : sane (k_mach (Kst demo_mach ∅ false 0))) by exact (proj1 demo_ready).
  destruct (boot_frees_all_pages (Kst demo_mach ∅ false 0) Hs eq_refl) as (s' & l & E & F & _ & _ & Hl).
  exists s', l. split_and!; [exact E|exact F|]. apply Hl, page_is_ok. lia.
Defined.
