(* ===== verification/Klock.v ===== *)
(** Spinlocks, [sleep] and [wakeup] as the upper layers of the kernel use
    them.

    [Spinlock.v] models the lock implementation and shows that it provides
    mutual exclusion.  The file system and the device layers are modelled on
    top of what it promises: the set of spinlocks the running process holds,
    [acquire] and [release] with their [panic]s, and [sleep], which gives the
    lock up while other processes run.  The channels of [sleep] and [wakeup]
    are recorded, in order, in [slept] and [woken]; their effect on the process
    table is in [Proc.v].  The sleeping locks of [sleeplock.c] are built on
    them. *)

From S2P Require Import Prelude Params Spinlock.
Open Scope Z_scope.
Open Scope xv6_scope.

(** A sleep channel: the address of a kernel object. *)
Abbreviation chan := (string * Z)%type.

(** What every layer needs of the running process. *)
Record kctx := Kctx {
  held : gset lockid;
  woken : list chan;
  slept : list chan;
  curpid : Z
}.

Definition set_held (x : gset lockid) (c : kctx) : kctx := Kctx x (woken c) (slept c) (curpid c).
Definition set_woken (x : list chan) (c : kctx) : kctx := Kctx (held c) x (slept c) (curpid c).
Definition set_slept (x : list chan) (c : kctx) : kctx := Kctx (held c) (woken c) x (curpid c).

#[global, program] Instance kctx_lens : Lens kctx kctx := {| view := id; put := fun c _ => c |}.
Next Obligation. done. Qed.
Next Obligation. done. Qed.
Next Obligation. done. Qed.

Module Klock.
Section klock.
Context {S : Type} `{Lens S kctx}.

Definition acquire (lk : lockid) : M S unit :=
  lift (fun c => if decide (lk ∈ held c) then Panic "acquire"
                 else Ok tt (set_held ({[lk]} ∪ held c) c)).

Definition release (lk : lockid) : M S unit :=
  lift (fun c => if decide (lk ∈ held c) then Ok tt (set_held (held c ∖ {[lk]}) c)
                 else Panic "release").

(** [sleep(chan, lk)]: the lock is released, the process waits for [chan]
    while others run, and the lock is taken again. *)
Definition sleep (ch : chan) (lk : lockid) : M S unit :=
  release lk ;;;
  lift (fun c => Ok tt (set_slept (slept c ++ [ch]) c)) ;;;
  switch ;;;
  acquire lk.

Definition wakeup (ch : chan) : M S unit :=
  lift (fun c => Ok tt (set_woken (woken c ++ [ch]) c)).

Lemma acquire_ok lk s :
  lk ∉ held (view s) -> acquire lk s = Ok tt (put (set_held ({[lk]} ∪ held (view s)) (view s)) s).
Proof. intros Hn. apply (lift_ok _ s). by rewrite decide_False. Qed.

Lemma release_ok lk s :
  lk ∈ held (view s) -> release lk s = Ok tt (put (set_held (held (view s) ∖ {[lk]}) (view s)) s).
Proof. intros Hn. apply (lift_ok _ s). by rewrite decide_True. Qed.

(** Going to sleep with the lock held, up to the switch. *)
Definition dozing (ch : chan) (c : kctx) : kctx := set_slept (slept c ++ [ch]) c.

Lemma sleep_after ch lk c s :
  lk ∉ held c -> view s = set_held ({[lk]} ∪ held c) c ->
  sleep ch lk s = Switch (put (dozing ch c) s) (acquire lk).
Proof.
  intros Hn E. unfold sleep. assert (Er : release lk s = Ok tt (put c s)).
  { rewrite release_ok by (rewrite E; simpl; set_solver). rewrite E. do 2 f_equal.
    destruct c as [h w l p]. unfold set_held. simpl. f_equal. simpl in Hn. set_solver. }
  unfold bind at 1. rewrite Er. cbn [seqr]. unfold bind, lift, switch. cbn [seqr lift_result]. by rewrite view_put, put_put.
Qed.

(** A critical section leaves the held locks as they were. *)
Lemma held_cycle lk (c : kctx) :
  lk ∉ held c -> set_held (held (set_held ({[lk]} ∪ held c) c) ∖ {[lk]}) (set_held ({[lk]} ∪ held c) c) = c.
Proof.
  destruct c as [h w l p]. unfold set_held. simpl. intros Hn. f_equal. set_solver.
Qed.

Lemma release_after lk c s :
  lk ∉ held c -> view s = set_held ({[lk]} ∪ held c) c -> release lk s = Ok tt (put c s).
Proof.
  intros Hn E. rewrite release_ok by (rewrite E; simpl; set_solver). rewrite E. by rewrite held_cycle.
Qed.
End klock.
End Klock.

#[global] Arguments Klock.acquire : simpl never.
#[global] Arguments Klock.release : simpl never.

(** * Sleeping locks, [sleeplock.c] *)

(** [locked] and [pid]; the spinlock [lk] inside is a lock identity. *)
Record sleeplock := Sleep { sl_locked : bool; sl_pid : Z }.

Definition free_sleeplock : sleeplock := Sleep false 0.

(** A sleeplock is part of a larger object: how to reach it in the state, and
    the identity of its spinlock and channel. *)
Record slref (S : Type) := Slref {
  sl_id : Z;
  sl_get : S -> sleeplock;
  sl_set : sleeplock -> S -> S
}.
Arguments Slref {S}.
Arguments sl_id {S}.
Arguments sl_get {S}.
Arguments sl_set {S}.

Section sleeplock.
Context {S : Type} `{Lens S kctx}.

Definition sl_lock (r : slref S) : lockid := ("sleep lock"%string, sl_id r).
Definition sl_chan (r : slref S) : chan := ("sleeplock"%string, sl_id r).

(** How often [acquiresleep] is woken in vain before the model gives up. *)
Definition WAITS : nat := 1000.

Definition initsleeplock (r : slref S) : M S unit := modify (sl_set r free_sleeplock).

Fixpoint wait_unlocked (r : slref S) (fuel : nat) : M S unit :=
  match fuel with
  | O => nofuel
  | Datatypes.S fuel =>
      l <- gets (sl_get r) ;;
      if sl_locked l then Klock.sleep (sl_chan r) (sl_lock r) ;;; wait_unlocked r fuel else ret tt
  end.

Definition acquiresleep (r : slref S) : M S unit :=
  Klock.acquire (sl_lock r) ;;;
  wait_unlocked r WAITS ;;;
  p <- gets (fun s => curpid (view s)) ;;
  modify (sl_set r (Sleep true p)) ;;;
  Klock.release (sl_lock r).

Definition releasesleep (r : slref S) : M S unit :=
  Klock.acquire (sl_lock r) ;;;
  modify (sl_set r free_sleeplock) ;;;
  Klock.wakeup (sl_chan r) ;;;
  Klock.release (sl_lock r).

Definition holdingsleep (r : slref S) : M S bool :=
  Klock.acquire (sl_lock r) ;;;
  l <- gets (sl_get r) ;;
  Klock.release (sl_lock r) ;;;
  ret (sl_locked l).

(** The lock and the context are different parts of the state. *)
Record slref_ok (r : slref S) : Prop := {
  sr_get_put : forall c s, sl_get r (put c s) = sl_get r s;
  sr_set_put : forall l c s, sl_set r l (put c s) = put c (sl_set r l s);
  sr_view_set : forall l s, view (sl_set r l s) = view s
}.

Lemma put_view_eq c s : c = view s -> put c s = s.
Proof. intros ->. apply put_view. Qed.

(** On a free lock [acquiresleep] returns at once and the caller owns it. *)
Lemma acquiresleep_free r s :
  slref_ok r -> sl_lock r ∉ held (view s) -> sl_locked (sl_get r s) = false ->
  acquiresleep r s = Ok tt (sl_set r (Sleep true (curpid (view s))) s).
Proof.
  intros Hr Hn Hl. unfold acquiresleep. rewrite (bind_ok _ _ _ _ _ (Klock.acquire_ok _ _ Hn)).
  set (c1 := set_held _ _). change WAITS with (Datatypes.S 999).
  cbn [wait_unlocked]. unfold bind, gets. cbn [seqr]. rewrite (sr_get_put r Hr), Hl. unfold ret. cbn [seqr].
  unfold modify. cbn [seqr]. rewrite view_put, (sr_set_put r Hr).
  rewrite Klock.release_ok by (rewrite view_put; unfold c1; simpl; set_solver).
  rewrite view_put, put_put. f_equal. rewrite put_view_eq; [done|].
  rewrite (sr_view_set r Hr). unfold c1. by rewrite Klock.held_cycle.
Qed.

Lemma holdingsleep_ok r s :
  slref_ok r -> sl_lock r ∉ held (view s) -> holdingsleep r s = Ok (sl_locked (sl_get r s)) s.
Proof.
  intros Hr Hn. unfold holdingsleep. rewrite (bind_ok _ _ _ _ _ (Klock.acquire_ok _ _ Hn)).
  unfold bind, gets. cbn [seqr]. rewrite (sr_get_put r Hr).
  rewrite Klock.release_ok by (rewrite view_put; simpl; set_solver).
  cbn [seqr]. unfold ret. rewrite view_put, put_put. f_equal. apply put_view_eq.
  by rewrite Klock.held_cycle.
Qed.

(** The state after [releasesleep]. *)
Definition released (r : slref S) (s : S) : S :=
  put (set_woken (woken (view s) ++ [sl_chan r]) (view s)) (sl_set r free_sleeplock s).

Lemma releasesleep_ok r s :
  slref_ok r -> sl_lock r ∉ held (view s) -> releasesleep r s = Ok tt (released r s).
Proof.
  intros Hr Hn. unfold releasesleep. rewrite (bind_ok _ _ _ _ _ (Klock.acquire_ok _ _ Hn)).
  unfold bind, modify, Klock.wakeup, lift. cbn [seqr lift_result]. rewrite (sr_set_put r Hr), view_put.
  rewrite Klock.release_ok by (rewrite view_put; simpl; set_solver).
  rewrite view_put, !put_put. unfold released. do 2 f_equal.
  destruct (view s) as [h w l p]. simpl in *. unfold set_held, set_woken; simpl. f_equal. set_solver.
Qed.
End sleeplock.

#[global] Opaque acquiresleep releasesleep holdingsleep.
