(* ===== verification/Bytes.v ===== *)
(** Structures laid out in disk blocks: little-endian fields read and written
    in a list of bytes, as [memmove] and the pointer casts of [log.c] and
    [fs.c] do. *)

From S2P Require Import Prelude.
Open Scope Z_scope.

Abbreviation bytes := (list Z).

(** The byte at an offset; an offset past the end reads as zero. *)
Definition byte (d : bytes) (i : nat) : Z := u8 (default 0 (d !! i)).

Definition get16 (d : bytes) (i : nat) : Z := byte d i + 2 ^ 8 * byte d (i + 1).
Definition get32 (d : bytes) (i : nat) : Z :=
  byte d i + 2 ^ 8 * byte d (i + 1) + 2 ^ 16 * byte d (i + 2) + 2 ^ 24 * byte d (i + 3).

Definition le16 (v : Z) : bytes := [u8 v; u8 (v / 2 ^ 8)].
Definition le32 (v : Z) : bytes := [u8 v; u8 (v / 2 ^ 8); u8 (v / 2 ^ 16); u8 (v / 2 ^ 24)].

(** Overwriting the bytes from an offset on. *)
Definition splice (i : nat) (x : bytes) (d : bytes) : bytes := take i d ++ x ++ drop (i + length x) d.

Definition put16 (i : nat) (v : Z) (d : bytes) : bytes := splice i (le16 v) d.
Definition put32 (i : nat) (v : Z) (d : bytes) : bytes := splice i (le32 v) d.

Section splice.
Implicit Types (i j : nat) (x d : bytes).

Lemma splice_length i x d : (i + length x <= length d)%nat -> length (splice i x d) = length d.
Proof. intros. unfold splice. rewrite !length_app, length_take, length_drop. lia. Qed.

Lemma splice_lookup_in i x d j :
  (i + length x <= length d)%nat -> (i <= j < i + length x)%nat -> splice i x d !! j = x !! (j - i)%nat.
Proof.
  intros Hl Hj. unfold splice. rewrite lookup_app_r; rewrite length_take; [|lia].
  rewrite Nat.min_l by lia. apply lookup_app_l. lia.
Qed.

Lemma splice_lookup_out i x d j :
  (i + length x <= length d)%nat -> (j < i \/ i + length x <= j)%nat -> splice i x d !! j = d !! j.
Proof.
  intros Hl [Hj|Hj]; unfold splice.
  - rewrite lookup_app_l by (rewrite length_take; lia). by apply lookup_take_lt.
  - rewrite lookup_app_r by (rewrite length_take; lia). rewrite length_take, Nat.min_l by lia.
    rewrite lookup_app_r by lia. rewrite lookup_drop. f_equal. lia.
Qed.

Lemma byte_splice_out i x d j :
  (i + length x <= length d)%nat -> (j < i \/ i + length x <= j)%nat -> byte (splice i x d) j = byte d j.
Proof. intros. unfold byte. by rewrite splice_lookup_out. Qed.

Lemma splice_app x y z : splice (length x) y (x ++ z) = x ++ y ++ drop (length y) z.
Proof. unfold splice. rewrite take_app_length. by rewrite <- drop_drop, drop_app_length. Qed.
End splice.

Lemma byte_range d i : 0 <= byte d i < 256.
Proof. apply u8_range. Qed.

Lemma get32_range d i : 0 <= get32 d i < 2 ^ 32.
Proof.
  unfold get32. pose proof (byte_range d i). pose proof (byte_range d (i + 1)).
  pose proof (byte_range d (i + 2)). pose proof (byte_range d (i + 3)). lia.
Qed.

Lemma get16_range d i : 0 <= get16 d i < 2 ^ 16.
Proof. unfold get16. pose proof (byte_range d i). pose proof (byte_range d (i + 1)). lia. Qed.

Lemma le32_join v :
  u8 (u8 v) + 2 ^ 8 * u8 (u8 (v / 2 ^ 8)) + 2 ^ 16 * u8 (u8 (v / 2 ^ 16)) + 2 ^ 24 * u8 (u8 (v / 2 ^ 24)) = u32 v.
Proof. unfold u8, u32. rewrite !Zmod_mod. zdiv. Qed.

Lemma get32_put32 i v d : (i + 4 <= length d)%nat -> get32 (put32 i v d) i = u32 v.
Proof.
  intros Hl. unfold get32, put32, byte.
  rewrite !splice_lookup_in by (simpl; lia).
  replace (i - i)%nat with 0%nat by lia. replace (i + 1 - i)%nat with 1%nat by lia.
  replace (i + 2 - i)%nat with 2%nat by lia. replace (i + 3 - i)%nat with 3%nat by lia.
  cbn [lookup list_lookup le32 default]. apply le32_join.
Qed.

Lemma get16_put16 i v d : (i + 2 <= length d)%nat -> get16 (put16 i v d) i = u16 v.
Proof.
  intros Hl. unfold get16, put16, byte.
  rewrite !splice_lookup_in by (simpl; lia).
  replace (i - i)%nat with 0%nat by lia. replace (i + 1 - i)%nat with 1%nat by lia.
  cbn. rewrite !u8_id by apply u8_range. unfold u8, u16. zdiv.
Qed.

Lemma get32_splice_out i x d j :
  (i + length x <= length d)%nat -> (j + 4 <= i \/ i + length x <= j)%nat -> get32 (splice i x d) j = get32 d j.
Proof. intros. unfold get32. by rewrite !byte_splice_out by lia. Qed.

Lemma get16_splice_out i x d j :
  (i + length x <= length d)%nat -> (j + 2 <= i \/ i + length x <= j)%nat -> get16 (splice i x d) j = get16 d j.
Proof. intros. unfold get16. by rewrite !byte_splice_out by lia. Qed.

Lemma put32_length i v d : (i + 4 <= length d)%nat -> length (put32 i v d) = length d.
Proof. intros. by apply splice_length. Qed.

Lemma put16_length i v d : (i + 2 <= length d)%nat -> length (put16 i v d) = length d.
Proof. intros. by apply splice_length. Qed.

Create Rewrite HintDb bytes.
#[export] Hint Rewrite put32_length put16_length using (simpl; lia) : bytes.
