(* ===== verification/Bio.v ===== *)
(** The buffer cache, [bio.c] and [buf.h], over the block device of
    [memide.c].

    The [NBUF] buffers and the list head are one array, the head at index
    [NBUF]; [prev] and [next] are indices into it.  The disk is a map from
    block numbers to block contents, and every block written is appended to
    [writes], so that the states a crash can leave behind are the effects of
    the prefixes of [writes]. *)

From S2P Require Import Prelude Params Spinlock Klock Bytes.
Open Scope Z_scope.
Open Scope xv6_scope.

Definition BSIZE : Z := 512.
Definition B_VALID : Z := 0x2.
Definition B_DIRTY : Z := 0x4.

Record buf := Buf {
  b_flags : Z;
  b_dev : Z;
  b_blockno : Z;
  b_lock : sleeplock;
  b_refcnt : Z;
  b_prev : nat;
  b_next : nat;
  b_data : bytes
}.

Definition zero_block : bytes := replicate (Z.to_nat BSIZE) 0.
Definition zero_buf : buf := Buf 0 0 0 free_sleeplock 0 0 0 zero_block.

Definition set_flags (x : Z) (b : buf) : buf :=
  Buf x (b_dev b) (b_blockno b) (b_lock b) (b_refcnt b) (b_prev b) (b_next b) (b_data b).
Definition set_lock (x : sleeplock) (b : buf) : buf :=
  Buf (b_flags b) (b_dev b) (b_blockno b) x (b_refcnt b) (b_prev b) (b_next b) (b_data b).
Definition set_refcnt (x : Z) (b : buf) : buf :=
  Buf (b_flags b) (b_dev b) (b_blockno b) (b_lock b) x (b_prev b) (b_next b) (b_data b).
Definition set_prev (x : nat) (b : buf) : buf :=
  Buf (b_flags b) (b_dev b) (b_blockno b) (b_lock b) (b_refcnt b) x (b_next b) (b_data b).
Definition set_next (x : nat) (b : buf) : buf :=
  Buf (b_flags b) (b_dev b) (b_blockno b) (b_lock b) (b_refcnt b) (b_prev b) x (b_data b).
Definition set_data (x : bytes) (b : buf) : buf :=
  Buf (b_flags b) (b_dev b) (b_blockno b) (b_lock b) (b_refcnt b) (b_prev b) (b_next b) x.

Abbreviation blockmap := (gmap Z bytes).

Record bst := Bst {
  bc_ctx : kctx;
  bc_bufs : list buf;
  disk : blockmap;
  disksize : Z;
  writes : list (Z * bytes)
}.

Definition set_bufs (x : list buf) (s : bst) : bst := Bst (bc_ctx s) x (disk s) (disksize s) (writes s).

#[global, program] Instance bst_ctx : Lens bst kctx := {|
  view := bc_ctx;
  put c s := Bst c (bc_bufs s) (disk s) (disksize s) (writes s)
|}.
Next Obligation. done. Qed.
Next Obligation. by intros []. Qed.
Next Obligation. done. Qed.

(** The list head, [&bcache.head]. *)
Definition HEAD : nat := Z.to_nat NBUF.

Definition getb (s : bst) (i : nat) : buf := default zero_buf (bc_bufs s !! i).
Definition setb (f : buf -> buf) (i : nat) : M bst unit :=
  modify (fun s => set_bufs (alter f i (bc_bufs s)) s).
Definition field {A} (f : buf -> A) (i : nat) : M bst A := gets (fun s => f (getb s i)).

(** The sleeplock of a buffer. *)
Definition bref (i : nat) : slref bst :=
  Slref (Z.of_nat i) (fun s => b_lock (getb s i))
        (fun l s => set_bufs (alter (set_lock l) i (bc_bufs s)) s).

Definition bcache_lock : lockid := ("bcache"%string, 0).

(** * [memide.c] *)

Definition block_of (d : blockmap) (n : Z) : bytes := default zero_block (d !! n).

Definition iderw (i : nat) : M bst unit :=
  l <- holdingsleep (bref i) ;;
  if negb l then panic "iderw: buf not locked" else
  b <- field id i ;;
  if Z.land (b_flags b) (Z.lor B_VALID B_DIRTY) =? B_VALID then panic "iderw: nothing to do" else
  if negb (b_dev b =? 1) then panic "iderw: request not for disk 1" else
  sz <- gets disksize ;;
  if sz <=? b_blockno b then panic "iderw: block out of range" else
  (if has (b_flags b) B_DIRTY
   then setb (fun b => set_flags (Z.land (b_flags b) (Z.lnot B_DIRTY)) b) i ;;;
        modify (fun s => Bst (bc_ctx s) (bc_bufs s) (<[b_blockno b := b_data b]> (disk s)) (disksize s)
                             (writes s ++ [(b_blockno b, b_data b)]))
   else d <- gets disk ;; setb (set_data (block_of d (b_blockno b))) i) ;;;
  setb (fun b => set_flags (Z.lor (b_flags b) B_VALID) b) i.

(** * [bio.c] *)

Fixpoint binit_loop (n i : nat) : M bst unit :=
  match n with
  | O => ret tt
  | S n =>
      h <- field b_next HEAD ;;
      setb (set_next h) i ;;;
      setb (set_prev HEAD) i ;;;
      initsleeplock (bref i) ;;;
      h <- field b_next HEAD ;;
      setb (set_prev i) h ;;;
      setb (set_next i) HEAD ;;;
      binit_loop n (S i)
  end.

Definition binit : M bst unit :=
  setb (set_prev HEAD) HEAD ;;;
  setb (set_next HEAD) HEAD ;;;
  binit_loop (Z.to_nat NBUF) 0.

(** [for(b = ...; b != &bcache.head; b = b->step) if(p(b)) ...] *)
Fixpoint scan (step : buf -> nat) (p : buf -> bool) (fuel i : nat) : M bst (option nat) :=
  match fuel with
  | O => nofuel
  | S fuel =>
      if (i =? HEAD)%nat then ret None else
      b <- field id i ;;
      if p b then ret (Some i) else scan step p fuel (step b)
  end.

(** The list has [NBUF] buffers, so the head is reached after [NBUF] steps. *)
Definition SCAN : nat := S (Z.to_nat NBUF).

Definition is_block (dev blockno : Z) (b : buf) : bool := (b_dev b =? dev) && (b_blockno b =? blockno).
Definition is_unused (b : buf) : bool := (b_refcnt b =? 0) && negb (has (b_flags b) B_DIRTY).

Definition bget (dev blockno : Z) : M bst nat :=
  Klock.acquire bcache_lock ;;;
  first <- field b_next HEAD ;;
  hit <- scan b_next (is_block dev blockno) SCAN first ;;
  match hit with
  | Some i =>
      setb (fun b => set_refcnt (u32 (b_refcnt b + 1)) b) i ;;;
      Klock.release bcache_lock ;;;
      acquiresleep (bref i) ;;;
      ret i
  | None =>
      last <- field b_prev HEAD ;;
      victim <- scan b_prev is_unused SCAN last ;;
      match victim with
      | Some i =>
          setb (fun b => Buf 0 dev blockno (b_lock b) 1 (b_prev b) (b_next b) (b_data b)) i ;;;
          Klock.release bcache_lock ;;;
          acquiresleep (bref i) ;;;
          ret i
      | None => panic "bget: no buffers"
      end
  end.

Definition bread (dev blockno : Z) : M bst nat :=
  i <- bget dev blockno ;;
  f <- field b_flags i ;;
  (if has f B_VALID then ret tt else iderw i) ;;;
  ret i.

Definition bwrite (i : nat) : M bst unit :=
  l <- holdingsleep (bref i) ;;
  if negb l then panic "bwrite" else
  setb (fun b => set_flags (Z.lor (b_flags b) B_DIRTY) b) i ;;;
  iderw i.

(** The relinking of [brelse]: out of the list, and back in behind the head. *)
Definition move_front (i : nat) : M bst unit :=
  n <- field b_next i ;; p <- field b_prev i ;;
  setb (set_prev p) n ;;;
  n <- field b_next i ;; p <- field b_prev i ;;
  setb (set_next n) p ;;;
  h <- field b_next HEAD ;;
  setb (set_next h) i ;;;
  setb (set_prev HEAD) i ;;;
  h <- field b_next HEAD ;;
  setb (set_prev i) h ;;;
  setb (set_next i) HEAD.

Definition brelse (i : nat) : M bst unit :=
  l <- holdingsleep (bref i) ;;
  if negb l then panic "brelse" else
  releasesleep (bref i) ;;;
  Klock.acquire bcache_lock ;;;
  setb (fun b => set_refcnt (u32 (b_refcnt b - 1)) b) i ;;;
  r <- field b_refcnt i ;;
  (if r =? 0 then move_front i else ret tt) ;;;
  Klock.release bcache_lock.
