(* ===== verification/Bcache.v ===== *)
(** The buffer cache keeps its promise: at most one buffer per block, the
    least recently used clean buffer recycled, and the cache contents seen
    through [bread] are the disk's blocks with the unwritten changes on top. *)

From S2P Require Import Prelude Params Spinlock Klock Bytes Bio.
Open Scope Z_scope.
Open Scope xv6_scope.

(** * Lists of buffers *)

Definition at_ (bs : list buf) (i : nat) : buf := default zero_buf (bs !! i).

Lemma at_alter f i j bs :
  (i < length bs)%nat -> at_ (alter f i bs) j = if decide (i = j) then f (at_ bs i) else at_ bs j.
Proof.
  intros Hi. unfold at_. case_decide as E.
  - subst j. rewrite list_lookup_alter_eq. destruct (lookup_lt_is_Some_2 bs i Hi) as [b ->]. done.
  - by rewrite list_lookup_alter_ne.
Qed.

Lemma at_alter_eq f i bs : (i < length bs)%nat -> at_ (alter f i bs) i = f (at_ bs i).
Proof. intros. by rewrite at_alter, decide_True by done. Qed.

Lemma at_alter_ne f i j bs : i <> j -> at_ (alter f i bs) j = at_ bs j.
Proof. intros. unfold at_. by rewrite list_lookup_alter_ne. Qed.

Lemma at_alter_proj {A} (g : buf -> A) f i j bs :
  (forall b, g (f b) = g b) -> g (at_ (alter f i bs) j) = g (at_ bs j).
Proof.
  intros Hg. unfold at_. destruct (decide (i = j)) as [->|]; [|by rewrite list_lookup_alter_ne].
  rewrite list_lookup_alter_eq. destruct (bs !! j); [apply Hg|done].
Qed.

(** * The doubly linked list *)

Lemma next_set_prev p n x bs : b_next (at_ (alter (set_prev p) n bs) x) = b_next (at_ bs x).
Proof. by apply at_alter_proj. Qed.
Lemma prev_set_next p n x bs : b_prev (at_ (alter (set_next p) n bs) x) = b_prev (at_ bs x).
Proof. by apply at_alter_proj. Qed.
Lemma next_set_next p n x bs :
  (n < length bs)%nat -> b_next (at_ (alter (set_next p) n bs) x) = if decide (x = n) then p else b_next (at_ bs x).
Proof. intros. rewrite at_alter by done. repeat case_decide; by simplify_eq. Qed.
Lemma prev_set_prev p n x bs :
  (n < length bs)%nat -> b_prev (at_ (alter (set_prev p) n bs) x) = if decide (x = n) then p else b_prev (at_ bs x).
Proof. intros. rewrite at_alter by done. repeat case_decide; by simplify_eq. Qed.

Create Rewrite HintDb links.
#[export] Hint Rewrite next_set_prev prev_set_next : links.
#[export] Hint Rewrite next_set_next prev_set_prev using (rewrite ?length_alter; lia) : links.

Fixpoint chain (bs : list buf) (a : nat) (l : list nat) (z : nat) : Prop :=
  match l with
  | [] => b_next (at_ bs a) = z /\ b_prev (at_ bs z) = a
  | x :: l => b_next (at_ bs a) = x /\ b_prev (at_ bs x) = a /\ chain bs x l z
  end.

Lemma links_ext bs bs' a l z :
  (forall x, x = a \/ x ∈ l -> b_next (at_ bs' x) = b_next (at_ bs x)) ->
  (forall x, x ∈ l \/ x = z -> b_prev (at_ bs' x) = b_prev (at_ bs x)) ->
  chain bs a l z -> chain bs' a l z.
Proof.
  revert a. induction l as [|x l IH]; intros a Hn Hp; simpl.
  - intros [H1 H2]. rewrite Hn, Hp by auto. done.
  - intros (<- & Hpx & Hc). rewrite Hn, Hp by (set_solver+). split; [done|]. split; [done|].
    apply IH; [set_solver + Hn|set_solver + Hp|done].
Qed.

Lemma chain_app bs a l1 i l2 z : chain bs a (l1 ++ i :: l2) z <-> chain bs a l1 i /\ chain bs i l2 z.
Proof. revert a. induction l1 as [|x l1 IH]; intros a; simpl; [tauto|]. rewrite IH. tauto. Qed.

Lemma chain_first bs a l z : chain bs a l z -> b_next (at_ bs a) ∈ l ++ [z].
Proof. destruct l; simpl; [intros [-> _]; set_solver+|intros (-> & _); set_solver+]. Qed.

Lemma chain_last bs a l z : chain bs a l z -> b_prev (at_ bs z) ∈ a :: l.
Proof.
  revert a. induction l as [|x l IH]; simpl; intros a.
  - intros [_ ->]. set_solver+.
  - intros (_ & _ & Hc). apply IH in Hc. set_solver + Hc.
Qed.

Lemma chain_unlink bs a l1 i l2 z :
  chain bs a (l1 ++ i :: l2) z -> NoDup (l1 ++ i :: l2) ->
  a ∉ l1 ++ i :: l2 -> z ∉ l1 ++ i :: l2 ->
  forall bs',
  (forall x, b_next (at_ bs' x) = if decide (x = b_prev (at_ bs i)) then b_next (at_ bs i) else b_next (at_ bs x)) ->
  (forall x, b_prev (at_ bs' x) = if decide (x = b_next (at_ bs i)) then b_prev (at_ bs i) else b_prev (at_ bs x)) ->
  chain bs' a (l1 ++ l2) z.
Proof.
  revert a. induction l1 as [|x l1 IH]; intros a Hc Hnd Ha Hz bs' Hn Hp.
  - simpl in Hc. destruct Hc as (Hai & Hia & Hc). apply NoDup_cons in Hnd as [Hi Hnd].
    destruct l2 as [|y l2]; simpl in *.
    + destruct Hc as [Hiz Hzi]. rewrite Hn, Hp, Hiz, Hia. by rewrite !decide_True.
    + destruct Hc as (Hiy & Hyi & Hc). apply NoDup_cons in Hnd as [Hy Hnd].
      rewrite Hn, Hp, Hiy, Hia, !decide_True by done. split; [done|]. split; [done|].
      eapply links_ext; [| |exact Hc]; intros w Hw.
      * rewrite Hn, Hia, decide_False; [done|]. set_solver + Hw Ha.
      * rewrite Hp, Hiy, decide_False; [done|]. set_solver + Hw Hy Hz.
  - simpl in *. destruct Hc as (Hax & Hxa & Hc). apply NoDup_cons in Hnd as [Hx Hnd].
    pose proof Hc as Hc'. apply chain_app in Hc' as [Hl Hr].
    apply chain_last in Hl. apply chain_first in Hr.
    rewrite Hn, Hp, !decide_False; [|set_solver + Hr Hx Hz|set_solver + Hl Ha].
    split; [done|]. split; [done|]. apply IH; try done; set_solver + Hz Hx.
Qed.

Lemma chain_link bs i l :
  chain bs HEAD l HEAD -> NoDup l -> HEAD ∉ l -> i ∉ l -> i <> HEAD ->
  forall bs',
  (forall x, b_next (at_ bs' x) = if decide (x = HEAD) then i else if decide (x = i) then b_next (at_ bs HEAD)
                                 else b_next (at_ bs x)) ->
  (forall x, b_prev (at_ bs' x) = if decide (x = b_next (at_ bs HEAD)) then i else
                                 if decide (x = i) then HEAD else b_prev (at_ bs x)) ->
  chain bs' HEAD (i :: l) HEAD.
Proof.
  intros Hc Hnd Hh Hi Hih bs' Hn Hp. destruct l as [|x l]; simpl in *.
  - destruct Hc as [Hc1 Hc2]. rewrite !Hn, !Hp, Hc1. by repeat case_decide.
  - destruct Hc as (Hc1 & Hc2 & Hc). apply NoDup_cons in Hnd as [Hx Hnd].
    assert (i <> x /\ x <> HEAD) as [Hix Hxh] by set_solver + Hi Hh.
    rewrite !Hn, !Hp, Hc1. do 4 (split; [by repeat case_decide|]).
    eapply links_ext; [| |exact Hc]; intros w Hw.
    + rewrite Hn, !decide_False; [done|set_solver + Hw Hi|set_solver + Hw Hh].
    + rewrite Hp, Hc1, !decide_False; [done|set_solver + Hw Hi Hih|set_solver + Hw Hx Hxh].
Qed.

(** Following [next] or [prev] from the head visits the buffers in order. *)
Lemma scan_next p l a s fuel :
  chain (bc_bufs s) a l HEAD -> HEAD ∉ l -> (length l < fuel)%nat ->
  scan b_next p fuel (b_next (getb s a)) s = Ok (List.find (fun i => p (getb s i)) l) s.
Proof.
  revert a fuel. induction l as [|x l IH]; intros a fuel Hc Hh Hf; (destruct fuel as [|fuel]; [simpl in Hf; lia|]);
    simpl in *.
  - destruct Hc as [Hc _]. change (b_next (getb s a) = HEAD) in Hc. by rewrite Hc.
  - destruct Hc as (Hc1 & _ & Hc). change (b_next (getb s a) = x) in Hc1. rewrite Hc1.
    destruct (Nat.eqb_spec x HEAD) as [->|]; [set_solver + Hh|].
    unfold field, bind, gets. cbn [seqr]. unfold id. destruct (p (getb s x)); [done|].
    apply IH; [done|set_solver + Hh|lia].
Qed.

Lemma scan_prev p l z s fuel :
  chain (bc_bufs s) HEAD l z -> HEAD ∉ l -> (length l < fuel)%nat ->
  scan b_prev p fuel (b_prev (getb s z)) s = Ok (List.find (fun i => p (getb s i)) (reverse l)) s.
Proof.
  revert z fuel. induction l as [|x l IH] using rev_ind; intros z fuel Hc Hh Hf;
    (destruct fuel as [|fuel]; [simpl in Hf; lia|]).
  - destruct Hc as [_ Hc]. change (b_prev (getb s z) = HEAD) in Hc. by rewrite Hc.
  - rewrite length_app in Hf. apply chain_app in Hc as [Hc [_ Hx]]. change (b_prev (getb s z) = x) in Hx.
    rewrite reverse_app, Hx. change (reverse [x]) with [x]. cbn [scan List.find app].
    destruct (Nat.eqb_spec x HEAD) as [->|]; [set_solver + Hh|].
    unfold field, bind, gets. cbn [seqr]. unfold id. destruct (p (getb s x)); [done|].
    apply IH; [done|set_solver + Hh|simpl in Hf; lia].
Qed.

(** What a buffer holds, its place in the list and its lock aside. *)
Definition payload (b : buf) : Z * Z * Z * bytes := (b_flags b, b_dev b, b_blockno b, b_data b).

Definition relinked (bs bs' : list buf) : Prop :=
  length bs' = length bs /\
  forall i, payload (at_ bs' i) = payload (at_ bs i) /\ b_lock (at_ bs' i) = b_lock (at_ bs i) /\
            b_refcnt (at_ bs' i) = b_refcnt (at_ bs i).

Lemma relinked_refl bs : relinked bs bs.
Proof. done. Qed.

Lemma relinked_prev p n bs bs' : relinked bs bs' -> relinked bs (alter (set_prev p) n bs').
Proof.
  intros [Hl H]. split; [by rewrite length_alter|]. intros i. by rewrite !at_alter_proj by done.
Qed.

Lemma relinked_next p n bs bs' : relinked bs bs' -> relinked bs (alter (set_next p) n bs').
Proof.
  intros [Hl H]. split; [by rewrite length_alter|]. intros i. by rewrite !at_alter_proj by done.
Qed.

Lemma move_front_ok i l1 l2 s :
  chain (bc_bufs s) HEAD (l1 ++ i :: l2) HEAD -> NoDup (l1 ++ i :: l2) ->
  (forall x, x ∈ HEAD :: l1 ++ i :: l2 -> (x < length (bc_bufs s))%nat) -> HEAD ∉ l1 ++ i :: l2 ->
  exists bs', move_front i s = Ok tt (set_bufs bs' s) /\ relinked (bc_bufs s) bs' /\
              chain bs' HEAD (i :: l1 ++ l2) HEAD.
Proof.
  intros Hc Hnd Hr Hh. pose proof Hc as Hc'. apply chain_app in Hc' as [Hpre Hpost].
  apply chain_last in Hpre. apply chain_first in Hpost.
  set (bs := bc_bufs s) in *. set (n := b_next (at_ bs i)) in *. set (p := b_prev (at_ bs i)) in *.
  assert (Hni : n <> i).
  { intros E. rewrite E in Hpost. apply NoDup_app in Hnd as (_ & _ & Hnd%NoDup_cons). set_solver. }
  assert (Hn : (n < length bs)%nat) by (apply Hr; set_solver).
  assert (Hp : (p < length bs)%nat) by (apply Hr; set_solver).
  assert (Hi : (i < length bs)%nat) by (apply Hr; set_solver).
  assert (HH : (HEAD < length bs)%nat) by (apply Hr; set_solver).
  set (bs2 := alter (set_next n) p (alter (set_prev p) n bs)).
  assert (Hc2 : chain bs2 HEAD (l1 ++ l2) HEAD).
  { apply (chain_unlink _ _ _ _ _ _ Hc Hnd Hh Hh); intros x; unfold bs2; by autorewrite with links. }
  set (h := b_next (at_ bs2 HEAD)).
  assert (Hl2 : length bs2 = length bs) by (unfold bs2; by rewrite !length_alter).
  assert (Hhl : (h < length bs2)%nat).
  { rewrite Hl2. apply Hr. apply chain_first in Hc2. fold h in Hc2. set_solver. }
  assert (Hih : i <> HEAD) by set_solver.
  exists (alter (set_next i) HEAD (alter (set_prev i) h (alter (set_prev HEAD) i (alter (set_next h) i bs2)))).
  split; [|split].
  - unfold move_front, field, setb, bind, gets, modify. cbn [seqr]. unfold getb.
    cbn [bc_bufs set_bufs]. fold bs (at_ bs i) n p (at_ (alter (set_prev p) n bs) i).
    rewrite next_set_prev, prev_set_prev, decide_False by (done || apply Hn).
    fold n p bs2 (at_ bs2 HEAD) h.
    fold (at_ (alter (set_prev HEAD) i (alter (set_next h) i bs2)) HEAD).
    rewrite next_set_prev, next_set_next, decide_False by (done || lia). fold h. done.
  - repeat (apply relinked_next || apply relinked_prev). apply relinked_refl.
  - apply (chain_link bs2); try done.
    + apply NoDup_app in Hnd as (? & Hnd & Hnd2%NoDup_cons). apply NoDup_app. set_solver.
    + set_solver.
    + apply NoDup_app in Hnd as (? & Hnd & Hnd2%NoDup_cons). set_solver.
    + intros x. fold h. autorewrite with links. by repeat case_decide.
    + intros x. fold h. autorewrite with links. by repeat case_decide.
Qed.

(** * The cache invariant

    [ord] is the list from most to least recently used, [O] the buffers the
    running process holds. *)

Definition clean (b : buf) : Prop := b_flags b = B_VALID.
Definition dirty (b : buf) : Prop := b_flags b = Z.lor B_VALID B_DIRTY.

Record binv (s : bst) (ord : list nat) (O : gset nat) : Prop := {
  bi_len : length (bc_bufs s) = S HEAD;
  bi_chain : chain (bc_bufs s) HEAD ord HEAD;
  bi_perm : ord ≡ₚ seq 0 HEAD;
  bi_flags : forall i, (i < HEAD)%nat ->
    (b_dev (getb s i) = 0 /\ b_flags (getb s i) = 0) \/
    (b_dev (getb s i) = 1 /\ (clean (getb s i) \/ dirty (getb s i)));
  bi_uniq : forall i j, (i < HEAD)%nat -> (j < HEAD)%nat -> b_dev (getb s i) = 1 -> b_dev (getb s j) = 1 ->
    b_blockno (getb s i) = b_blockno (getb s j) -> i = j;
  bi_sync : forall i, (i < HEAD)%nat -> i ∉ O -> clean (getb s i) ->
    b_data (getb s i) = block_of (disk s) (b_blockno (getb s i));
  bi_range : forall i, (i < HEAD)%nat -> b_dev (getb s i) = 1 -> 0 <= b_blockno (getb s i) < disksize s;
  bi_ref : forall i, (i < HEAD)%nat -> b_refcnt (getb s i) = if decide (i ∈ O) then 1 else 0;
  bi_locked : forall i, (i < HEAD)%nat -> sl_locked (b_lock (getb s i)) = bool_decide (i ∈ O);
  bi_own : forall i, i ∈ O -> (i < HEAD)%nat /\ b_dev (getb s i) = 1
}.

(** The current contents of a block: the cached copy if there is one. *)
Definition cached (s : bst) (n : Z) (i : nat) : Prop :=
  (i < HEAD)%nat /\ b_dev (getb s i) = 1 /\ b_blockno (getb s i) = n.

Definition content (s : bst) (n : Z) : bytes :=
  match List.find (fun i => is_block 1 n (getb s i)) (seq 0 HEAD) with
  | Some i => b_data (getb s i)
  | None => block_of (disk s) n
  end.

Lemma is_block_true dev n b : is_block dev n b = true <-> b_dev b = dev /\ b_blockno b = n.
Proof. unfold is_block. rewrite andb_true_iff, !Z.eqb_eq. done. Qed.

Section binv.
Context (s : bst) (ord : list nat) (O : gset nat) (I : binv s ord O).

Lemma bi_in i : i ∈ ord <-> (i < HEAD)%nat.
Proof. rewrite (bi_perm _ _ _ I), elem_of_seq. lia. Qed.

Lemma bi_nodup : NoDup ord.
Proof. rewrite (bi_perm _ _ _ I). apply NoDup_seq. Qed.

Lemma bi_head : HEAD ∉ ord.
Proof. rewrite bi_in. lia. Qed.

Lemma bi_length : (length ord < SCAN)%nat.
Proof. rewrite (bi_perm _ _ _ I), length_seq. unfold SCAN, HEAD. lia. Qed.

Lemma cached_unique n i j : cached s n i -> cached s n j -> i = j.
Proof. intros (? & ? & E) (? & ? & <-). by apply (bi_uniq _ _ _ I). Qed.

Lemma content_cached n i : cached s n i -> content s n = b_data (getb s i).
Proof.
  intros Hc. unfold content. destruct (List.find _ _) as [j|] eqn:E.
  - apply find_some in E as [Hj%list_elem_of_In%elem_of_seq Hb%is_block_true].
    f_equal. f_equal. apply (cached_unique n); [|done]. split; [lia|done].
  - destruct Hc as (Hi & Hd & Hn). pose proof (find_none _ _ E i) as Hf. cbv beta in Hf.
    rewrite (proj2 (is_block_true 1 n (getb s i))) in Hf by done.
    discriminate Hf. apply list_elem_of_In, elem_of_seq. lia.
Qed.

Lemma content_uncached n : (forall i, ~ cached s n i) -> content s n = block_of (disk s) n.
Proof.
  intros Hn. unfold content. destruct (List.find _ _) as [j|] eqn:E; [|done].
  apply find_some in E as [Hj%list_elem_of_In%elem_of_seq Hb%is_block_true].
  destruct (Hn j). split; [lia|done].
Qed.

Lemma cached_dec n : {i | cached s n i} + {forall i, ~ cached s n i}.
Proof.
  destruct (List.find (fun i => is_block 1 n (getb s i)) (seq 0 HEAD)) as [j|] eqn:E.
  - left. exists j. apply find_some in E as [Hj%list_elem_of_In%elem_of_seq Hb%is_block_true].
    split; [lia|done].
  - right. intros i (Hi & Hc). pose proof (find_none _ _ E i) as Hf. cbv beta in Hf.
    rewrite (proj2 (is_block_true 1 n (getb s i))) in Hf by done.
    discriminate Hf. apply list_elem_of_In, elem_of_seq. lia.
Qed.

(** The first scan of [bget] finds the block exactly if it is cached. *)
Lemma scan_hit n :
  scan b_next (is_block 1 n) SCAN (b_next (getb s HEAD)) s =
  Ok (match cached_dec n with inleft i => Some (proj1_sig i) | inright _ => None end) s.
Proof.
  rewrite (scan_next _ ord) by (exact (bi_chain _ _ _ I) || exact bi_head || exact bi_length).
  f_equal. destruct (List.find _ ord) as [j|] eqn:E.
  - apply find_some in E as [Hj%list_elem_of_In%bi_in Hb%is_block_true].
    assert (cached s n j) as Hc by (split; [lia|done]).
    destruct (cached_dec n) as [[i Hi]|H]; [|by destruct (H j)].
    simpl. f_equal. by apply (cached_unique n).
  - destruct (cached_dec n) as [[i (Hi & Hc)]|H]; [|done]. exfalso.
    pose proof (find_none _ _ E i) as Hf. cbv beta in Hf.
    rewrite (proj2 (is_block_true 1 n (getb s i))) in Hf by done.
    discriminate Hf. by apply list_elem_of_In, bi_in.
Qed.

Definition free_buf (i : nat) : Prop := (i < HEAD)%nat /\ i ∉ O /\ ~ dirty (getb s i).

Lemma unused_free i : (i < HEAD)%nat -> is_unused (getb s i) = true <-> free_buf i.
Proof.
  intros Hi. unfold is_unused, free_buf, dirty. rewrite andb_true_iff, Z.eqb_eq, (bi_ref _ _ _ I) by done.
  case_decide as HO; [split; [intros [? _]; lia|by intros (_ & ? & _)]|].
  destruct (bi_flags _ _ _ I i Hi) as [[_ ->]|[_ [->| ->]]]; vm_compute; naive_solver.
Qed.

(** The second scan takes the least recently used free buffer. *)
Lemma scan_victim :
  (exists i, free_buf i) ->
  exists i, scan b_prev is_unused SCAN (b_prev (getb s HEAD)) s = Ok (Some i) s /\ free_buf i.
Proof.
  intros [k Hk]. rewrite (scan_prev _ ord) by (exact (bi_chain _ _ _ I) || exact bi_head || exact bi_length).
  destruct (List.find _ (reverse ord)) as [j|] eqn:E.
  - apply find_some in E as [Hj%list_elem_of_In Hb]. rewrite elem_of_reverse, bi_in in Hj.
    exists j. split; [done|]. by apply unused_free.
  - pose proof (find_none _ _ E k) as Hf. cbv beta in Hf. destruct Hk as [Hk0 Hk].
    rewrite (proj2 (unused_free k Hk0)) in Hf by done. discriminate Hf.
    apply list_elem_of_In. rewrite elem_of_reverse. by apply bi_in.
Qed.
End binv.

(** The invariant does not mention the locks held or the wakeups sent. *)
Lemma binv_put s ord O c : binv s ord O -> binv (put c s) ord O.
Proof. intros [? ? ? ? ? ? ? ? ? ?]. by constructor. Qed.

Lemma alter_at f i bs : (i < length bs)%nat -> alter f i bs = <[i := f (at_ bs i)]> bs.
Proof.
  intros Hi. apply list_eq. intros j. rewrite list_lookup_alter, list_lookup_insert. unfold at_.
  destruct (lookup_lt_is_Some_2 bs i Hi) as [b Hb]. rewrite Hb.
  repeat case_decide; naive_solver.
Qed.

Lemma at_insert bs i b j : (i < length bs)%nat -> at_ (<[i := b]> bs) j = if decide (i = j) then b else at_ bs j.
Proof.
  intros Hi. unfold at_. rewrite list_lookup_insert. repeat case_decide; naive_solver.
Qed.

(** Replacing one buffer, and possibly the disk block it caches. *)
Section binv_upd.
Context (s s' : bst) (ord : list nat) (O O' : gset nat) (i : nat) (b : buf).
Context (I : binv s ord O) (Hi : (i < HEAD)%nat).
Context (Hbufs : bc_bufs s' = <[i := b]> (bc_bufs s)).
Context (Hprev : b_prev b = b_prev (getb s i)) (Hnext : b_next b = b_next (getb s i)).
Context (Hdev : b_dev b = 1) (Hfl : clean b \/ dirty b).
Context (Hsize : disksize s' = disksize s) (Hrange : 0 <= b_blockno b < disksize s).
Context (Huniq : forall j, cached s (b_blockno b) j -> j = i).
Context (Hdisk : forall n, n <> b_blockno b -> block_of (disk s') n = block_of (disk s) n).
Context (Hsync : i ∉ O' -> clean b -> b_data b = block_of (disk s') (b_blockno b)).
Context (Href : b_refcnt b = if decide (i ∈ O') then 1 else 0).
Context (Hlock : sl_locked (b_lock b) = bool_decide (i ∈ O')).
Context (HO : forall j, j <> i -> j ∈ O' <-> j ∈ O).

Lemma upd_getb j : getb s' j = if decide (i = j) then b else getb s j.
Proof.
  unfold getb. rewrite Hbufs. apply (at_insert (bc_bufs s) i b j).
  rewrite (bi_len _ _ _ I). lia.
Qed.

Lemma binv_upd : binv s' ord O'.
Proof.
  constructor.
  - rewrite Hbufs, length_insert. apply I.
  - eapply links_ext; [| |exact (bi_chain _ _ _ I)]; intros x _;
      change (at_ (bc_bufs s') x) with (getb s' x); rewrite upd_getb;
      (destruct (decide (i = x)) as [<-|]; [first [exact Hnext|exact Hprev]|done]).
  - apply I.
  - intros j Hj. rewrite upd_getb. destruct (decide (i = j)) as [<-|]; [right; split; [exact Hdev|exact Hfl]|]. by apply I.
  - intros j k Hj Hk. rewrite !upd_getb. destruct (decide (i = j)) as [<-|], (decide (i = k)) as [<-|]; try done.
    + intros _ H1 E. symmetry. apply Huniq. by split.
    + intros H1 _ E. apply Huniq. by split.
    + by apply (bi_uniq _ _ _ I).
  - intros j Hj. rewrite upd_getb. destruct (decide (i = j)) as [<-|]; [done|]. intros HjO Hcl.
    rewrite Hdisk.
    + apply (bi_sync _ _ _ I); [done| |done]. by rewrite <- HO by done.
    + intros E. destruct (bi_flags _ _ _ I j Hj) as [[_ F]|[F _]].
      * unfold clean in Hcl. rewrite F in Hcl. discriminate Hcl.
      * assert (j = i) as -> by (apply Huniq; by split). done.
  - intros j Hj. rewrite upd_getb, Hsize. destruct (decide (i = j)) as [<-|]; [done|]. by apply I.
  - intros j Hj. rewrite upd_getb. destruct (decide (i = j)) as [<-|]; [done|]. rewrite (bi_ref _ _ _ I) by done.
    assert (Hjo := HO j ltac:(congruence)). repeat case_decide; tauto.
  - intros j Hj. rewrite upd_getb. destruct (decide (i = j)) as [<-|]; [done|]. rewrite (bi_locked _ _ _ I) by done.
    apply bool_decide_ext. assert (Hjo := HO j ltac:(congruence)). tauto.
  - intros j Hj. rewrite upd_getb. destruct (decide (i = j)) as [<-|]; [done|]. apply I. apply HO; congruence.
Qed.

(** The contents of the other blocks are not affected, provided the buffer
    replaced was of this block, or synchronised with the disk. *)
Lemma content_upd n :
  n <> b_blockno b ->
  (cached s n i -> b_data (getb s i) = block_of (disk s) n) ->
  content s' n = content s n.
Proof.
  intros Hn Hev. destruct (cached_dec s' n) as [[j Hc]|Hnc].
  - pose proof Hc as (Hj & H1 & H2). rewrite upd_getb in H1, H2.
    destruct (decide (i = j)) as [<-|Hij]; [done|].
    rewrite (content_cached s' ord O' binv_upd n j Hc), (content_cached s ord O I n j (conj Hj (conj H1 H2))).
    by rewrite upd_getb, decide_False.
  - rewrite content_uncached by done. rewrite Hdisk by done.
    destruct (cached_dec s n) as [[j Hc]|Hnc']; [|by rewrite content_uncached].
    rewrite (content_cached s ord O I n j Hc). destruct (decide (i = j)) as [<-|Hij]; [symmetry; by apply Hev|].
    destruct (Hnc j). destruct Hc as (? & ? & ?). unfold cached. by rewrite upd_getb, decide_False.
Qed.

Lemma content_upd_eq : content s' (b_blockno b) = b_data b.
Proof.
  rewrite (content_cached s' ord O' binv_upd _ i).
  - by rewrite upd_getb, decide_True.
  - unfold cached. by rewrite upd_getb, decide_True.
Qed.
End binv_upd.

(** * The operations *)

Lemma bref_ok i : slref_ok (bref i).
Proof. by constructor. Qed.

#[export] Hint Resolve bref_ok : core.

(** What [bread] leaves behind: only the buffer returned has changed; it was
    the cached copy of the block, or a free buffer now filled from disk. *)
Record bread_post (s : bst) (O : gset nat) (n : Z) (i : nat) (s' : bst) : Prop := {
  bp_state : exists b, s' = set_bufs (<[i := b]> (bc_bufs s)) s;
  bp_fresh : i ∉ O;
  bp_cached : cached s' n i;
  bp_data : b_data (getb s' i) = content s n;
  bp_content : forall m, content s' m = content s m;
  bp_others : forall j, j <> i -> getb s' j = getb s j;
  bp_sync : clean (getb s' i) -> b_data (getb s' i) = block_of (disk s') n;
  bp_origin : (cached s n i /\ payload (getb s' i) = payload (getb s i)) \/
              (free_buf s O i /\ clean (getb s' i) /\ forall j, ~ cached s n j)
}.

Section ops.
Context (s : bst) (ord : list nat) (O : gset nat).
Context (I : binv s ord O) (Hheld : held (bc_ctx s) = ∅).

Lemma held_none lk : lk ∉ held (bc_ctx s).
Proof using Hheld. clear I. rewrite Hheld. set_solver. Qed.

Lemma acquire_bst lk :
  Klock.acquire lk s = Ok tt (put (set_held ({[lk]} ∪ held (bc_ctx s)) (bc_ctx s)) s).
Proof using Hheld. exact (Klock.acquire_ok (S := bst) lk s (held_none lk)). Qed.

Lemma in_bufs i : (i < HEAD)%nat -> (i < length (bc_bufs s))%nat.
Proof. rewrite (bi_len _ _ _ I). lia. Qed.

(** Taking the cache lock, changing a buffer, and going on to its sleeplock. *)
Lemma bget_tail f i :
  (i < HEAD)%nat -> i ∉ O -> (forall b, b_lock (f b) = b_lock b) ->
  (setb f i ;;; Klock.release bcache_lock ;;; acquiresleep (bref i) ;;; ret i)
    (put (set_held ({[bcache_lock]} ∪ held (bc_ctx s)) (bc_ctx s)) s) =
  Ok i (set_bufs (<[i := set_lock (Sleep true (curpid (bc_ctx s))) (f (getb s i))]> (bc_bufs s)) s).
Proof.
  intros Hi HiO Hf. unfold bind at 1, setb, modify. cbn [seqr].
  match goal with |- context [bind (Klock.release _) _ ?x] => set (s1 := x) end.
  assert (Hrel : Klock.release bcache_lock s1 = Ok tt (set_bufs (alter f i (bc_bufs s)) s)).
  { by rewrite (Klock.release_after _ (bc_ctx s)) by (done || apply held_none). }
  rewrite (bind_ok _ _ _ _ _ Hrel). clear s1 Hrel.
  set (s2 := set_bufs _ s).
  assert (Hlk : sl_locked (b_lock (getb s2 i)) = false).
  { unfold s2, getb. cbn [bc_bufs set_bufs]. fold (at_ (alter f i (bc_bufs s)) i).
    rewrite at_alter_eq, Hf by by apply in_bufs. fold (getb s i).
    change (at_ (bc_bufs s) i) with (getb s i). rewrite (bi_locked _ _ _ I) by done.
    by rewrite bool_decide_eq_false. }
  rewrite (bind_ok _ _ _ _ _ (acquiresleep_free (bref i) s2 (bref_ok i) (held_none _) Hlk)).
  unfold ret. f_equal. unfold s2. cbn. unfold set_bufs. cbn. f_equal.
  rewrite !alter_at by (rewrite ?length_insert, ?length_alter; by apply in_bufs).
  rewrite list_insert_insert_eq, at_insert, decide_True by (done || by apply in_bufs). done.
Qed.

Lemma bget_hit n i :
  cached s n i -> i ∉ O ->
  bget 1 n s = Ok i (set_bufs (<[i := set_lock (Sleep true (curpid (bc_ctx s))) (set_refcnt 1 (getb s i))]> (bc_bufs s)) s).
Proof.
  intros Hc HiO. unfold bget. rewrite (bind_ok _ _ _ _ _ (acquire_bst bcache_lock)).
  set (s1 := put _ s). pose proof (binv_put s ord O (set_held ({[bcache_lock]} ∪ held (bc_ctx s)) (bc_ctx s)) I) as I1.
  fold s1 in I1. unfold field at 1. unfold bind at 1, gets at 1. cbn [seqr].
  rewrite (bind_ok _ _ _ _ _ (scan_hit s1 ord O I1 n)).
  destruct (cached_dec s1 n) as [[j Hj]|H]; [|by destruct (H i)].
  assert (j = i) as -> by by apply (cached_unique s1 ord O I1 n). cbn [proj1_sig].
  change (held (view s)) with (held (bc_ctx s)). unfold s1.
  rewrite bget_tail by (done || apply Hc). rewrite (bi_ref _ _ _ I), decide_False by (done || apply Hc).
  done.
Qed.

Lemma bget_miss n :
  (forall i, ~ cached s n i) -> (exists i, free_buf s O i) ->
  exists i, free_buf s O i /\ bget 1 n s =
    Ok i (set_bufs (<[i := Buf 0 1 n (Sleep true (curpid (bc_ctx s))) 1 (b_prev (getb s i)) (b_next (getb s i))
                                (b_data (getb s i))]> (bc_bufs s)) s).
Proof.
  intros Hnc Hfree. unfold bget. rewrite (bind_ok _ _ _ _ _ (acquire_bst bcache_lock)).
  set (s1 := put _ s). pose proof (binv_put s ord O (set_held ({[bcache_lock]} ∪ held (bc_ctx s)) (bc_ctx s)) I) as I1.
  fold s1 in I1. unfold field at 1. unfold bind at 1, gets at 1. cbn [seqr].
  rewrite (bind_ok _ _ _ _ _ (scan_hit s1 ord O I1 n)).
  destruct (cached_dec s1 n) as [[j Hj]|_]; [by destruct (Hnc j)|].
  unfold field at 1. unfold bind at 1, gets at 1. cbn [seqr].
  destruct (scan_victim s1 ord O I1 Hfree) as (i & Hs & Hi). exists i. split; [done|].
  rewrite (bind_ok _ _ _ _ _ Hs). unfold s1. destruct Hi as (Hi & HiO & _).
  by rewrite bget_tail.
Qed.

(** [iderw] on a held buffer, reading and writing. *)
Lemma iderw_read i b :
  (i < length (bc_bufs s))%nat -> getb s i = b -> sl_locked (b_lock b) = true ->
  b_flags b = 0 -> b_dev b = 1 -> b_blockno b < disksize s ->
  iderw i s = Ok tt (set_bufs (<[i := set_flags B_VALID (set_data (block_of (disk s) (b_blockno b)) b)]> (bc_bufs s)) s).
Proof using Hheld.
  intros Hi Hb Hl Hf Hd Hn. unfold iderw.
  rewrite (bind_ok _ _ _ _ _ (holdingsleep_ok (bref i) s (bref_ok i) (held_none _))).
  cbn [sl_get bref]. rewrite Hb, Hl. cbn [negb].
  unfold field, bind, gets, setb, modify. cbn [seqr]. unfold id. rewrite Hb, Hf, Hd.
  change (Z.land 0 (Z.lor B_VALID B_DIRTY) =? B_VALID) with false. change (has 0 B_DIRTY) with false.
  cbn -[Z.leb]. rewrite (proj2 (Z.leb_gt _ _)) by lia. cbn. f_equal. unfold set_bufs. cbn. f_equal.
  rewrite !alter_at by (rewrite ?length_insert, ?length_alter; done).
  rewrite list_insert_insert_eq, at_insert, decide_True by done.
  change (at_ (bc_bufs s) i) with (getb s i). rewrite Hb. unfold set_flags, set_data. cbn. by rewrite Hf.
Qed.

Definition flushed (i : nat) (b : buf) : bst :=
  Bst (bc_ctx s) (<[i := set_flags B_VALID b]> (bc_bufs s)) (<[b_blockno b := b_data b]> (disk s)) (disksize s)
      (writes s ++ [(b_blockno b, b_data b)]).

Lemma iderw_write i b :
  (i < length (bc_bufs s))%nat -> getb s i = b -> sl_locked (b_lock b) = true ->
  dirty b -> b_dev b = 1 -> b_blockno b < disksize s ->
  iderw i s = Ok tt (flushed i b).
Proof using Hheld.
  intros Hi Hb Hl Hf Hd Hn. unfold iderw.
  rewrite (bind_ok _ _ _ _ _ (holdingsleep_ok (bref i) s (bref_ok i) (held_none _))).
  cbn [sl_get bref]. rewrite Hb, Hl. cbn [negb].
  unfold field, bind, gets, setb, modify. cbn [seqr]. unfold id. rewrite Hb. unfold dirty in Hf. rewrite Hf, Hd.
  change (Z.land (Z.lor B_VALID B_DIRTY) (Z.lor B_VALID B_DIRTY) =? B_VALID) with false.
  change (has (Z.lor B_VALID B_DIRTY) B_DIRTY) with true.
  cbn -[Z.leb]. rewrite (proj2 (Z.leb_gt _ _)) by lia. cbn. f_equal. unfold flushed. f_equal.
  rewrite !alter_at by (rewrite ?length_insert, ?length_alter; done).
  rewrite list_insert_insert_eq, at_insert, decide_True by done.
  change (at_ (bc_bufs s) i) with (getb s i). rewrite Hb. unfold set_flags. cbn. by rewrite Hf.
Qed.
End ops.

Lemma getb_insert s i b j :
  (i < length (bc_bufs s))%nat ->
  getb (set_bufs (<[i := b]> (bc_bufs s)) s) j = if decide (i = j) then b else getb s j.
Proof. intros. by apply at_insert. Qed.

Section ops2.
Context (s : bst) (ord : list nat) (O : gset nat).
Context (I : binv s ord O) (Hheld : held (bc_ctx s) = ∅).

Lemma add_own i j : j <> i -> j ∈ ({[i]} ∪ O) <-> j ∈ O.
Proof. set_solver. Qed.

Lemma bread_hit n i :
  cached s n i -> i ∉ O ->
  exists s', bread 1 n s = Ok i s' /\ binv s' ord ({[i]} ∪ O) /\ bread_post s O n i s'.
Proof.
  intros Hc HiO. pose proof Hc as (Hi & Hd & Hn). pose proof (in_bufs s ord O I i Hi) as Hil.
  unfold bread. rewrite (bind_ok _ _ _ _ _ (bget_hit s ord O I Hheld n i Hc HiO)).
  set (b := set_lock _ _). set (s1 := set_bufs _ s).
  assert (Hgi : forall j, getb s1 j = if decide (i = j) then b else getb s j) by (intros; by apply getb_insert).
  assert (Hb : getb s1 i = b) by by rewrite Hgi, decide_True.
  assert (Hfl : clean b \/ dirty b) by (destruct (bi_flags _ _ _ I i Hi) as [[? _]|[_ ?]]; [lia|done]).
  assert (Hin : i ∈ {[i]} ∪ O) by set_solver+.
  assert (I' : binv s1 ord ({[i]} ∪ O)).
  { apply (binv_upd s s1 ord O ({[i]} ∪ O) i b); try done.
    - exact (bi_range _ _ _ I i Hi Hd).
    - intros j Hj. change (cached s (b_blockno (getb s i)) j) in Hj. rewrite Hn in Hj.
      by apply (cached_unique s ord O I n).
    - by rewrite decide_True.
    - by rewrite bool_decide_eq_true_2.
    - intros j. apply add_own. }
  assert (Hc' : cached s1 n i) by (unfold cached; by rewrite Hb).
  exists s1. split; [|split; [done|]].
  - unfold field, bind, gets. cbn [seqr]. rewrite Hb. destruct Hfl as [-> | ->]; done.
  - constructor; try done.
    + by exists b.
    + rewrite (content_cached s ord O I n i Hc). by rewrite Hb.
    + intros m. destruct (decide (m = n)) as [->|Hm].
      * rewrite (content_cached s ord O I n i Hc), (content_cached s1 _ _ I' n i Hc'). by rewrite Hb.
      * destruct (cached_dec s m) as [[j Hj]|Hnc].
        -- rewrite (content_cached s ord O I m j Hj). destruct (decide (i = j)) as [<-|Hij].
           { destruct Hj as (_ & _ & E). congruence. }
           rewrite (content_cached s1 _ _ I' m j); [by rewrite Hgi, decide_False|].
           destruct Hj as (? & ? & ?). unfold cached. by rewrite Hgi, decide_False.
        -- rewrite (content_uncached s), (content_uncached s1); [done| |done].
           intros j Hj. destruct (Hnc j). destruct Hj as (? & ? & ?). unfold cached.
           rewrite Hgi in *. by destruct (decide (i = j)) as [<-|].
    + intros j Hj. by rewrite Hgi, decide_False.
    + rewrite Hb. intros Hcl. rewrite <- Hn. apply (bi_sync _ _ _ I); done.
    + left. split; [done|]. by rewrite Hb.
Qed.

Lemma bread_miss n :
  (forall i, ~ cached s n i) -> (exists i, free_buf s O i) -> 0 <= n < disksize s ->
  exists i s', bread 1 n s = Ok i s' /\ binv s' ord ({[i]} ∪ O) /\ bread_post s O n i s'.
Proof.
  intros Hnc Hfree Hrange. unfold bread.
  destruct (bget_miss s ord O I Hheld n Hnc Hfree) as (i & Hf & E). pose proof Hf as (Hi & HiO & Hnd).
  pose proof (in_bufs s ord O I i Hi) as Hil. exists i. rewrite (bind_ok _ _ _ _ _ E). clear E.
  set (b0 := Buf 0 _ _ _ _ _ _ _). set (s1 := set_bufs _ s).
  assert (Hb0 : getb s1 i = b0) by (unfold s1; by rewrite getb_insert, decide_True).
  unfold field at 1. unfold bind at 1, gets at 1. cbn [seqr]. rewrite Hb0.
  change (has (b_flags b0) B_VALID) with false. cbn iota.
  assert (Hil1 : (i < length (bc_bufs s1))%nat) by (unfold s1; cbn; by rewrite length_insert).
  rewrite (bind_ok _ _ _ _ _ (iderw_read s1 Hheld i b0 Hil1 Hb0 eq_refl eq_refl eq_refl (proj2 Hrange))).
  change (b_blockno b0) with n. change (disk s1) with (disk s).
  set (b := set_flags _ _).
  replace (set_bufs (<[i:=b]> (bc_bufs s1)) s1) with (set_bufs (<[i:=b]> (bc_bufs s)) s)
    by (unfold s1; cbn; by rewrite list_insert_insert_eq).
  set (s2 := set_bufs _ s). exists s2. split; [done|].
  assert (Hgi : forall j, getb s2 j = if decide (i = j) then b else getb s j) by (intros; by apply getb_insert).
  assert (Hb : getb s2 i = b) by by rewrite Hgi, decide_True.
  assert (Hin : i ∈ {[i]} ∪ O) by set_solver+.
  assert (Hun : forall j, cached s (b_blockno b) j -> j = i) by (intros j Hj; by destruct (Hnc j)).
  assert (Hcl : clean b \/ dirty b) by by left.
  assert (Href : b_refcnt b = (if decide (i ∈ {[i]} ∪ O) then 1 else 0)) by by rewrite decide_True.
  assert (Hlk : sl_locked (b_lock b) = bool_decide (i ∈ {[i]} ∪ O)) by by rewrite bool_decide_eq_true_2.
  assert (I' : binv s2 ord ({[i]} ∪ O)).
  { apply (binv_upd s s2 ord O ({[i]} ∪ O) i b); try done. intros j. apply add_own. }
  split; [exact I'|]. constructor; try done.
  - by exists b.
  - unfold cached. by rewrite Hb.
  - rewrite Hb. by rewrite content_uncached.
  - intros m. destruct (decide (m = n)) as [->|Hm].
    + rewrite (content_cached s2 _ _ I' n i) by (unfold cached; by rewrite Hb). rewrite Hb. by rewrite content_uncached.
    + apply (content_upd s s2 ord O ({[i]} ∪ O) i b); try done; [intros j; apply add_own|].
      intros (_ & Hd & Hm'). rewrite <- Hm'. apply (bi_sync _ _ _ I); [done|done|].
      destruct (bi_flags _ _ _ I i Hi) as [[? _]|[_ [?|?]]]; [lia|done|done].
  - intros j Hj. by rewrite Hgi, decide_False.
  - by rewrite Hb.
  - right. split; [done|]. split; [by rewrite Hb|done].
Qed.

(** [bread] returns the block's current contents in a buffer the caller now
    holds, and changes no block. *)
Lemma bread_ok n :
  0 <= n < disksize s -> (forall i, cached s n i -> i ∉ O) ->
  ((exists i, cached s n i) \/ (exists i, free_buf s O i)) ->
  exists i s', bread 1 n s = Ok i s' /\ binv s' ord ({[i]} ∪ O) /\ bread_post s O n i s'.
Proof.
  intros Hr HO Hav. destruct (cached_dec s n) as [[i Hc]|Hnc].
  - exists i. apply bread_hit; [done|by apply HO].
  - destruct Hav as [[i Hi]|Hf]; [by destruct (Hnc i)|]. by apply bread_miss.
Qed.
End ops2.

(** A change of a held buffer: new data, a new flag word. *)
Definition held_upd (i : nat) (b : buf) (s s' : bst) : Prop :=
  s' = set_bufs (<[i := b]> (bc_bufs s)) s /\
  b_dev b = 1 /\ b_blockno b = b_blockno (getb s i) /\ b_lock b = b_lock (getb s i) /\
  b_refcnt b = b_refcnt (getb s i) /\ b_prev b = b_prev (getb s i) /\ b_next b = b_next (getb s i) /\
  (clean b \/ dirty b).

Section ops3.
Context (s : bst) (ord : list nat) (O : gset nat).
Context (I : binv s ord O) (Hheld : held (bc_ctx s) = ∅) (i : nat) (HiO : i ∈ O).

Lemma own_lt : (i < HEAD)%nat.
Proof. by apply (bi_own _ _ _ I). Qed.

Lemma own_len : (i < length (bc_bufs s))%nat.
Proof. rewrite (bi_len _ _ _ I). pose proof own_lt. lia. Qed.

Lemma own_locked : sl_locked (b_lock (getb s i)) = true.
Proof. rewrite (bi_locked _ _ _ I) by apply own_lt. by rewrite bool_decide_eq_true. Qed.

Lemma own_cached : cached s (b_blockno (getb s i)) i.
Proof. split; [apply own_lt|]. split; [|done]. by apply (bi_own _ _ _ I). Qed.

Lemma own_uniq b : b_blockno b = b_blockno (getb s i) -> forall j, cached s (b_blockno b) j -> j = i.
Proof. intros -> j Hj. apply (cached_unique s ord O I (b_blockno (getb s i))); [done|apply own_cached]. Qed.

(** Updating a held buffer changes the contents of its block only. *)
Lemma held_upd_ok b s' :
  held_upd i b s s' ->
  binv s' ord O /\ (forall m, content s' m = if decide (m = b_blockno (getb s i)) then b_data b else content s m) /\
  (forall j, getb s' j = if decide (i = j) then b else getb s j).
Proof.
  intros (-> & Hd & Hn & Hl & Hr & Hp & Hx & Hf).
  set (s' := set_bufs _ s).
  pose proof own_lt as Hi.
  assert (Hrg : 0 <= b_blockno b < disksize s).
  { rewrite Hn. apply (bi_range _ _ _ I); [done|]. apply own_cached. }
  assert (Hl' : sl_locked (b_lock b) = bool_decide (i ∈ O)) by (rewrite Hl; by apply (bi_locked _ _ _ I)).
  assert (Hr' : b_refcnt b = if decide (i ∈ O) then 1 else 0) by (rewrite Hr; by apply (bi_ref _ _ _ I)).
  split; [|split].
  - apply (binv_upd s s' ord O O i b); try done. by apply own_uniq.
  - intros m. destruct (decide (m = _)) as [->|Hm].
    + rewrite <- Hn. apply (content_upd_eq s s' ord O O i b); try done. by apply own_uniq.
    + apply (content_upd s s' ord O O i b); try done; [by apply own_uniq|by rewrite Hn|].
      intros (_ & _ & E). congruence.
  - intros j. apply getb_insert, own_len.
Qed.

Lemma bwrite_ok :
  exists s', bwrite i s = Ok tt s' /\ s' = flushed s i (getb s i) /\ binv s' ord O /\
    (forall m, content s' m = content s m) /\
    (forall j, getb s' j = if decide (i = j) then set_flags B_VALID (getb s i) else getb s j).
Proof.
  pose proof own_lt as Hi. pose proof own_len as Hil. pose proof own_cached as (_ & Hd & _).
  exists (flushed s i (getb s i)).
  assert (Hrg : 0 <= b_blockno (getb s i) < disksize s) by by apply (bi_range _ _ _ I).
  set (b := set_flags B_VALID (getb s i)). set (s' := flushed _ _ _).
  assert (Hdk : forall n, n <> b_blockno b -> block_of (disk s') n = block_of (disk s) n).
  { intros n Hn. unfold block_of, s'. cbn. by rewrite lookup_insert_ne. }
  assert (Hl' : sl_locked (b_lock b) = bool_decide (i ∈ O)) by by apply (bi_locked _ _ _ I).
  assert (Hr' : b_refcnt b = if decide (i ∈ O) then 1 else 0) by by apply (bi_ref _ _ _ I).
  assert (Hcl : clean b \/ dirty b) by by left.
  split; [|split; [done|split; [|split]]].
  - unfold bwrite. rewrite (bind_ok _ _ _ _ _ (holdingsleep_ok (bref i) s (bref_ok i) (held_none s Hheld _))).
    change (sl_get (bref i) s) with (b_lock (getb s i)). rewrite own_locked.
    unfold bind, setb, modify. cbn [negb seqr].
    rewrite alter_at by done. set (b1 := set_flags _ (at_ _ _)). set (s1 := set_bufs _ s).
    assert (Hb1 : b1 = set_flags (Z.lor B_VALID B_DIRTY) (getb s i)).
    { unfold b1. change (at_ (bc_bufs s) i) with (getb s i).
      destruct (bi_flags _ _ _ I i Hi) as [[? _]|[_ [F|F]]]; [lia| |]; by rewrite F. }
    rewrite (iderw_write s1 Hheld i b1).
    + unfold flushed, s1, s'. rewrite Hb1. cbn. by rewrite list_insert_insert_eq.
    + unfold s1. cbn. by rewrite length_insert.
    + unfold s1. by rewrite getb_insert, decide_True.
    + rewrite Hb1. apply own_locked.
    + by rewrite Hb1.
    + by rewrite Hb1.
    + rewrite Hb1. cbn. lia.
  - apply (binv_upd s s' ord O O i b); try done. by apply own_uniq.
  - intros m. destruct (decide (m = b_blockno b)) as [->|Hm].
    + rewrite (content_upd_eq s s' ord O O i b); try done; [|by apply own_uniq].
      symmetry. apply (content_cached s ord O I), own_cached.
    + apply (content_upd s s' ord O O i b); try done; [by apply own_uniq|].
      intros (_ & _ & E). destruct Hm. by rewrite <- E.
  - intros j. unfold getb at 1. by apply at_insert.
Qed.
End ops3.

Lemma payload_inv b b' :
  payload b' = payload b ->
  b_flags b' = b_flags b /\ b_dev b' = b_dev b /\ b_blockno b' = b_blockno b /\ b_data b' = b_data b.
Proof. unfold payload. by intros [= -> -> -> ->]. Qed.

Lemma find_ext_eq {A} (f g : A -> bool) l : (forall x, f x = g x) -> List.find f l = List.find g l.
Proof. intros E. induction l as [|x l IH]; simpl; [done|]. by rewrite E, IH. Qed.

Lemma content_payload s s' :
  (forall j, payload (getb s' j) = payload (getb s j)) -> disk s' = disk s -> forall n, content s' n = content s n.
Proof.
  intros Hp Hd n. unfold content. rewrite Hd.
  rewrite (find_ext_eq _ (fun i => is_block 1 n (getb s i))).
  - destruct (List.find _ _); [|done]. by apply payload_inv.
  - intros i. unfold is_block. destruct (payload_inv _ _ (Hp i)) as (_ & -> & -> & _). done.
Qed.

(** What [brelse] leaves behind. *)
Record brelse_post (s s' : bst) : Prop := {
  rp_payload : forall j, payload (getb s' j) = payload (getb s j);
  rp_disk : disk s' = disk s;
  rp_size : disksize s' = disksize s;
  rp_writes : writes s' = writes s;
  rp_held : held (bc_ctx s') = held (bc_ctx s)
}.

(** Moving buffers around in the list does not affect what they hold. *)
Lemma binv_relink s s' ord ord' O :
  binv s ord O -> relinked (bc_bufs s) (bc_bufs s') -> disk s' = disk s -> disksize s' = disksize s ->
  chain (bc_bufs s') HEAD ord' HEAD -> ord' ≡ₚ ord -> binv s' ord' O.
Proof.
  intros I [Hl Hr] Hd Hz Hc Hp.
  assert (Hg : forall j, (b_flags (getb s' j) = b_flags (getb s j) /\ b_dev (getb s' j) = b_dev (getb s j) /\
    b_blockno (getb s' j) = b_blockno (getb s j) /\ b_data (getb s' j) = b_data (getb s j)) /\
    b_lock (getb s' j) = b_lock (getb s j) /\ b_refcnt (getb s' j) = b_refcnt (getb s j)).
  { intros j. destruct (Hr j) as (H1 & H2 & H3). split; [by apply payload_inv|done]. }
  clear Hr. constructor.
  - rewrite Hl. apply I.
  - done.
  - rewrite Hp. apply I.
  - intros i Hi. unfold clean, dirty. destruct (Hg i) as ((-> & -> & _) & _). by apply I.
  - intros i j. destruct (Hg i) as ((_ & -> & -> & _) & _), (Hg j) as ((_ & -> & -> & _) & _). apply (bi_uniq _ _ _ I).
  - intros i. unfold clean. destruct (Hg i) as ((-> & _ & -> & ->) & _). rewrite Hd. apply (bi_sync _ _ _ I).
  - intros i. destruct (Hg i) as ((_ & -> & -> & _) & _). rewrite Hz. apply (bi_range _ _ _ I).
  - intros i. destruct (Hg i) as (_ & _ & ->). apply (bi_ref _ _ _ I).
  - intros i. destruct (Hg i) as (_ & -> & _). apply (bi_locked _ _ _ I).
  - intros i. destruct (Hg i) as ((_ & -> & _) & _). apply (bi_own _ _ _ I).
Qed.

Section brelse.
Context (s : bst) (ord : list nat) (O : gset nat).
Context (I : binv s ord O) (Hheld : held (bc_ctx s) = ∅) (i : nat) (HiO : i ∈ O).

Let c : kctx := set_woken (woken (bc_ctx s) ++ [sl_chan (bref i)]) (bc_ctx s).
Let b : buf := set_refcnt 0 (set_lock free_sleeplock (getb s i)).

(** The state of [brelse] before the relinking. *)
Definition dropped : bst := put c (set_bufs (<[i := b]> (bc_bufs s)) s).

Lemma dropped_getb j : getb dropped j = if decide (i = j) then b else getb s j.
Proof. apply at_insert, (own_len s ord O I i HiO). Qed.

Lemma dropped_inv :
  (clean (getb s i) -> b_data (getb s i) = block_of (disk s) (b_blockno (getb s i))) ->
  binv dropped ord (O ∖ {[i]}).
Proof.
  intros Hsy. pose proof (own_lt s ord O I i HiO) as Hi. pose proof (bi_own _ _ _ I i HiO) as [_ Hd].
  assert (Hni : i ∉ O ∖ {[i]}) by set_solver+.
  apply (binv_upd s dropped ord O (O ∖ {[i]}) i b); try done.
  - destruct (bi_flags _ _ _ I i Hi) as [[? _]|[_ ?]]; [lia|done].
  - exact (bi_range _ _ _ I i Hi Hd).
  - by apply (own_uniq s ord O I i HiO).
  - by rewrite decide_False.
  - by rewrite bool_decide_eq_false_2.
  - intros j. set_solver+.
Qed.

Lemma brelse_exec bs' :
  move_front i (put (set_held ({[bcache_lock]} ∪ held c) c) dropped) =
    Ok tt (set_bufs bs' (put (set_held ({[bcache_lock]} ∪ held c) c) dropped)) ->
  brelse i s = Ok tt (set_bufs bs' dropped).
Proof.
  intros Hm. pose proof (own_lt s ord O I i HiO) as Hi. pose proof (own_len s ord O I i HiO) as Hil.
  unfold brelse. rewrite (bind_ok _ _ _ _ _ (holdingsleep_ok (bref i) s (bref_ok i) (held_none s Hheld _))).
  change (sl_get (bref i) s) with (b_lock (getb s i)). rewrite (own_locked s ord O I i HiO). cbn [negb].
  rewrite (bind_ok _ _ _ _ _ (releasesleep_ok (bref i) s (bref_ok i) (held_none s Hheld _))).
  set (s0 := released _ _). assert (Hh0 : held (bc_ctx s0) = ∅) by exact Hheld.
  rewrite (bind_ok _ _ _ _ _ (acquire_bst s0 Hh0 bcache_lock)).
  unfold setb at 1. unfold bind at 1, modify at 1. cbn [seqr].
  match goal with |- bind _ _ ?x = _ => replace x with (put (set_held ({[bcache_lock]} ∪ held c) c) dropped) end.
  2:{ unfold dropped, s0, released. cbn. f_equal. rewrite !alter_at by (rewrite ?length_insert, ?length_alter; done).
      rewrite list_insert_insert_eq, at_insert, decide_True by done. unfold b. f_equal.
      change (at_ (bc_bufs s) i) with (getb s i). unfold set_refcnt. cbn. f_equal.
      by rewrite (bi_ref _ _ _ I), decide_True by done. }
  unfold field at 1. unfold bind at 1, gets at 1. cbn [seqr].
  change (getb (put _ dropped) i) with (getb dropped i). rewrite dropped_getb, decide_True by done.
  change (b_refcnt b =? 0) with true. cbn iota.
  rewrite (bind_ok _ _ _ _ _ Hm). rewrite (Klock.release_after _ c); [done| |done].
  exact (held_none s Hheld bcache_lock).
Qed.

(** Releasing a buffer that is dirty or agrees with the disk puts it in front
    of the list. *)
Lemma brelse_ok :
  (clean (getb s i) -> b_data (getb s i) = block_of (disk s) (b_blockno (getb s i))) ->
  exists s' l1 l2, ord = l1 ++ i :: l2 /\ brelse i s = Ok tt s' /\
    binv s' (i :: l1 ++ l2) (O ∖ {[i]}) /\ brelse_post s s'.
Proof.
  intros Hsy. pose proof (dropped_inv Hsy) as I1.
  destruct (list_elem_of_split ord i) as (l1 & l2 & Hord); [by apply (bi_in s ord O I), (own_lt s ord O I)|].
  set (s1 := put (set_held ({[bcache_lock]} ∪ held c) c) dropped).
  destruct (move_front_ok i l1 l2 s1) as (bs' & Hm & Hrl & Hch);
    [rewrite <- Hord; apply I1|rewrite <- Hord; apply (bi_nodup _ _ _ I1)| |rewrite <- Hord; apply (bi_head _ _ _ I1)|].
  { intros x. rewrite <- Hord. change (bc_bufs s1) with (bc_bufs dropped). rewrite (bi_len _ _ _ I1).
    rewrite elem_of_cons, (bi_in _ _ _ I1). lia. }
  exists (set_bufs bs' dropped), l1, l2. split; [done|]. split; [by apply brelse_exec|]. split.
  - apply (binv_relink dropped _ ord); try done. rewrite Hord. solve_Permutation.
  - constructor; try done. intros j. destruct Hrl as [_ Hrl]. destruct (Hrl j) as [Hj _].
    change (payload (getb (set_bufs bs' dropped) j) = payload (getb dropped j)) in Hj. rewrite Hj, dropped_getb.
    by destruct (decide (i = j)) as [<-|].
Qed.
End brelse.

(** * Initialisation *)

(** The machine as it comes up: no locks, zeroed buffers, a given disk. *)
Definition powered_on (c : kctx) (d : blockmap) (size : Z) : bst :=
  Bst c (replicate (S HEAD) zero_buf) d size [].

Lemma binit_links c d size :
  exists bs, binit (powered_on c d size) = Ok tt (set_bufs bs (powered_on c d size)) /\
    relinked (replicate (S HEAD) zero_buf) bs /\ chain bs HEAD (rev (seq 0 HEAD)) HEAD.
Proof.
  eexists. split; [cbv -[zero_block]; reflexivity|]. split; [|cbv -[zero_block]; repeat split].
  split; [reflexivity|]. intros i. do 31 (destruct i as [|i]; [by cbv -[zero_block]|]). done.
Qed.

Lemma binit_ok c d size :
  exists s, binit (powered_on c d size) = Ok tt s /\ binv s (rev (seq 0 HEAD)) ∅ /\
    bc_ctx s = c /\ disk s = d /\ disksize s = size /\ writes s = [] /\ (forall n i, ~ cached s n i).
Proof.
  destruct (binit_links c d size) as (bs & -> & Hr & Hc). eexists. split; [done|].
  assert (Hz : forall i, getb (powered_on c d size) i = zero_buf).
  { intros i. unfold getb, powered_on. cbn [bc_bufs]. destruct (_ !! i) eqn:E; [|done].
    by apply lookup_replicate in E as [-> _]. }
  set (s := set_bufs bs _).
  assert (Hp : forall i, payload (getb s i) = payload zero_buf /\ b_lock (getb s i) = b_lock zero_buf /\
                         b_refcnt (getb s i) = b_refcnt zero_buf).
  { intros i. destruct Hr as [_ Hr]. destruct (Hr i) as (H1 & H2 & H3).
    change (at_ bs i) with (getb s i) in *.
    change (at_ (replicate (S HEAD) zero_buf) i) with (getb (powered_on c d size) i) in *.
    by rewrite Hz in *. }
  assert (Hd : forall i, b_dev (getb s i) = 0 /\ b_flags (getb s i) = 0).
  { intros i. destruct (Hp i) as (H%payload_inv & _). destruct H as (-> & -> & _). done. }
  split; [|repeat split; try done; intros n i (_ & H & _); destruct (Hd i); lia].
  constructor.
  - change (bc_bufs s) with bs. destruct Hr as [-> _]. by rewrite length_replicate.
  - done.
  - by rewrite <- Permutation_rev.
  - intros i _. left. apply Hd.
  - intros i j _ _ H. destruct (Hd i); lia.
  - intros i _ _ H. unfold clean in H. destruct (Hd i) as [_ E]. rewrite E in H. discriminate H.
  - intros i _ H. destruct (Hd i); lia.
  - intros i _. rewrite decide_False by set_solver. by destruct (Hp i) as (_ & _ & ->).
  - intros i _. rewrite bool_decide_eq_false_2 by set_solver. by destruct (Hp i) as (_ & -> & _).
  - set_solver.
Qed.
