(* ===== verification/Log.v ===== *)
(** The write-ahead log, [log.c], and the superblock it is found through. *)

From S2P Require Import Prelude Params Spinlock Klock Bytes Bio.
Open Scope Z_scope.
Open Scope xv6_scope.

(** [struct superblock]. *)
Record superblock := Superblock {
  sb_size : Z;
  sb_nblocks : Z;
  sb_ninodes : Z;
  sb_nlog : Z;
  sb_logstart : Z;
  sb_inodestart : Z;
  sb_bmapstart : Z
}.

(** [memmove(sb, bp->data, sizeof(struct superblock))]. *)
Definition superblock_of (d : bytes) : superblock :=
  Superblock (get32 d 0) (get32 d 4) (get32 d 8) (get32 d 12) (get32 d 16) (get32 d 20) (get32 d 24).

(** [struct log], with the in-memory header [lh], over the buffer cache. *)
Record lst := Lst {
  l_b : bst;
  lg_start : Z;
  lg_size : Z;
  lg_outstanding : Z;
  lg_committing : bool;
  lg_dev : Z;
  lh_n : Z;
  lh_block : list Z
}.

#[global, program] Instance lst_bst : Lens lst bst := {|
  view := l_b;
  put b l := Lst b (lg_start l) (lg_size l) (lg_outstanding l) (lg_committing l) (lg_dev l) (lh_n l) (lh_block l)
|}.
Next Obligation. done. Qed.
Next Obligation. by intros []. Qed.
Next Obligation. done. Qed.

#[global, program] Instance lst_ctx : Lens lst kctx := {|
  view l := bc_ctx (l_b l);
  put c l := put (put c (l_b l) : bst) l
|}.
Next Obligation. done. Qed.
Next Obligation. by intros [[] ? ? ? ? ? ?]. Qed.
Next Obligation. done. Qed.

Definition set_log (start size dev : Z) (l : lst) : lst :=
  Lst (l_b l) start size (lg_outstanding l) (lg_committing l) dev (lh_n l) (lh_block l).
Definition set_outstanding (x : Z) (l : lst) : lst :=
  Lst (l_b l) (lg_start l) (lg_size l) x (lg_committing l) (lg_dev l) (lh_n l) (lh_block l).
Definition set_committing (x : bool) (l : lst) : lst :=
  Lst (l_b l) (lg_start l) (lg_size l) (lg_outstanding l) x (lg_dev l) (lh_n l) (lh_block l).
Definition set_lh (n : Z) (block : list Z) (l : lst) : lst :=
  Lst (l_b l) (lg_start l) (lg_size l) (lg_outstanding l) (lg_committing l) (lg_dev l) n block.

Definition log_lock : lockid := ("log"%string, 0).
Definition log_chan : chan := ("log"%string, 0).

(** [log.lh.block[i]]; an index outside the array faults. *)
Definition lh_get (i : Z) : M lst Z :=
  fun l => match lh_block l !! Z.to_nat i with Some b => Ok b l | None => Fault i end.
Definition lh_set (i v : Z) : M lst unit :=
  fun l => if (Z.to_nat i <? length (lh_block l))%nat
           then Ok tt (set_lh (lh_n l) (<[Z.to_nat i := s32 v]> (lh_block l)) l) else Fault i.

(** Loops over the log run at most [LOGSIZE] times. *)
Definition LOOP : nat := S (Z.to_nat LOGSIZE).

Definition readsb (dev : Z) : M bst superblock :=
  bp <- bread dev 1 ;;
  d <- field b_data bp ;;
  brelse bp ;;;
  ret (superblock_of d).

(** Copying committed blocks from the log to their home location. *)
Fixpoint install_loop (fuel : nat) (tail : Z) : M lst unit :=
  match fuel with
  | O => nofuel
  | S fuel =>
      l <- get ;;
      if tail <? lh_n l then
        lbuf <- lift (bread (lg_dev l) (u32 (lg_start l + tail + 1))) ;;
        b <- lh_get tail ;;
        dbuf <- lift (bread (lg_dev l) (u32 b)) ;;
        d <- lift (field b_data lbuf) ;;
        lift (setb (set_data d) dbuf) ;;;
        lift (bwrite dbuf) ;;;
        lift (brelse lbuf) ;;;
        lift (brelse dbuf) ;;;
        install_loop fuel (tail + 1)
      else ret tt
  end.

Definition install_trans : M lst unit := install_loop LOOP 0.

Fixpoint read_blocks (fuel : nat) (i : Z) (d : bytes) : M lst unit :=
  match fuel with
  | O => nofuel
  | S fuel =>
      n <- gets lh_n ;;
      if i <? n then lh_set i (get32 d (4 + 4 * Z.to_nat i)) ;;; read_blocks fuel (i + 1) d else ret tt
  end.

Definition read_head : M lst unit :=
  l <- get ;;
  bp <- lift (bread (lg_dev l) (u32 (lg_start l))) ;;
  d <- lift (field b_data bp) ;;
  modify (fun l => set_lh (s32 (get32 d 0)) (lh_block l) l) ;;;
  read_blocks LOOP 0 d ;;;
  lift (brelse bp).

Fixpoint write_blocks (fuel : nat) (i : Z) (bp : nat) : M lst unit :=
  match fuel with
  | O => nofuel
  | S fuel =>
      n <- gets lh_n ;;
      if i <? n then
        b <- lh_get i ;;
        d <- lift (field b_data bp) ;;
        lift (setb (set_data (put32 (4 + 4 * Z.to_nat i) b d)) bp) ;;;
        write_blocks fuel (i + 1) bp
      else ret tt
  end.

Definition write_head : M lst unit :=
  l <- get ;;
  bp <- lift (bread (lg_dev l) (u32 (lg_start l))) ;;
  d <- lift (field b_data bp) ;;
  lift (setb (set_data (put32 0 (lh_n l) d)) bp) ;;;
  write_blocks LOOP 0 bp ;;;
  lift (bwrite bp) ;;;
  lift (brelse bp).

Definition recover_from_log : M lst unit :=
  read_head ;;;
  install_trans ;;;
  modify (fun l => set_lh 0 (lh_block l) l) ;;;
  write_head.

Definition initlog (dev : Z) : M lst unit :=
  sb <- lift (readsb dev) ;;
  modify (set_log (s32 (sb_logstart sb)) (s32 (sb_nlog sb)) dev) ;;;
  recover_from_log.

Fixpoint begin_loop (fuel : nat) : M lst unit :=
  match fuel with
  | O => nofuel
  | S fuel =>
      l <- get ;;
      if lg_committing l then Klock.sleep log_chan log_lock ;;; begin_loop fuel
      else if LOGSIZE <? lh_n l + (lg_outstanding l + 1) * MAXOPBLOCKS then
        Klock.sleep log_chan log_lock ;;; begin_loop fuel
      else
        modify (set_outstanding (lg_outstanding l + 1)) ;;;
        Klock.release log_lock
  end.

Definition begin_op : M lst unit :=
  Klock.acquire log_lock ;;;
  begin_loop WAITS.

(** Copying modified blocks from the cache to the log. *)
Fixpoint write_log_loop (fuel : nat) (tail : Z) : M lst unit :=
  match fuel with
  | O => nofuel
  | S fuel =>
      l <- get ;;
      if tail <? lh_n l then
        to <- lift (bread (lg_dev l) (u32 (lg_start l + tail + 1))) ;;
        b <- lh_get tail ;;
        from <- lift (bread (lg_dev l) (u32 b)) ;;
        d <- lift (field b_data from) ;;
        lift (setb (set_data d) to) ;;;
        lift (bwrite to) ;;;
        lift (brelse from) ;;;
        lift (brelse to) ;;;
        write_log_loop fuel (tail + 1)
      else ret tt
  end.

Definition write_log : M lst unit := write_log_loop LOOP 0.

Definition commit : M lst unit :=
  n <- gets lh_n ;;
  when (0 <? n)
    (write_log ;;;
     write_head ;;;
     install_trans ;;;
     modify (fun l => set_lh 0 (lh_block l) l) ;;;
     write_head).

Definition end_op : M lst unit :=
  Klock.acquire log_lock ;;;
  modify (fun l => set_outstanding (lg_outstanding l - 1) l) ;;;
  l <- get ;;
  if lg_committing l then panic "log.committing" else
  (if lg_outstanding l =? 0
   then modify (set_committing true) ;;; Klock.release log_lock ;;;
        commit ;;;
        Klock.acquire log_lock ;;;
        modify (set_committing false) ;;;
        Klock.wakeup log_chan ;;;
        Klock.release log_lock
   else Klock.wakeup log_chan ;;; Klock.release log_lock).

(** The slot of [log.lh.block] that holds the block number, or the first
    slot past the end. *)
Fixpoint absorb (fuel : nat) (i blockno : Z) : M lst Z :=
  match fuel with
  | O => nofuel
  | S fuel =>
      n <- gets lh_n ;;
      if i <? n then
        b <- lh_get i ;;
        if u32 b =? blockno then ret i else absorb fuel (i + 1) blockno
      else ret i
  end.

Definition log_write (b : nat) : M lst unit :=
  l <- get ;;
  if (LOGSIZE <=? lh_n l) || (lg_size l - 1 <=? lh_n l) then panic "too big a transaction" else
  if lg_outstanding l <? 1 then panic "log_write outside of trans" else
  Klock.acquire log_lock ;;;
  bn <- lift (field b_blockno b) ;;
  i <- absorb LOOP 0 bn ;;
  lh_set i bn ;;;
  modify (fun l => if i =? lh_n l then set_lh (lh_n l + 1) (lh_block l) l else l) ;;;
  lift (setb (fun x => set_flags (Z.lor (b_flags x) B_DIRTY) x) b) ;;;
  Klock.release log_lock.
