(* ===== verification/Commit.v ===== *)
(** Crash safety of the log: whatever block write a crash interrupts, the
    recovery at the next boot finds either none or all of a transaction. *)

From S2P Require Import Prelude Params Spinlock Klock Bytes Bio Bcache Log.
Open Scope Z_scope.
Open Scope xv6_scope.

(** * The cache between operations *)

(** No buffer is held, no spinlock is held, and every dirty buffer caches a
    block of [L]. *)
Definition dirties (s : bst) (L : list Z) : Prop :=
  forall i, (i < HEAD)%nat -> dirty (getb s i) -> b_blockno (getb s i) ∈ L.

Record calm (s : bst) (ord : list nat) (L : list Z) : Prop := {
  ca_inv : binv s ord ∅;
  ca_held : held (bc_ctx s) = ∅;
  ca_dirty : dirties s L
}.

Lemma calm_weaken s ord L L' : calm s ord L -> (forall b, b ∈ L -> b ∈ L') -> calm s ord L'.
Proof. intros [I H D] HL. constructor; [done|done|]. intros i Hi Hd. by apply HL, D. Qed.

(** The effect of a list of block writes on the disk. *)
Definition replay (ws : list (Z * bytes)) (d : blockmap) : blockmap :=
  foldl (fun d w => <[w.1 := w.2]> d) d ws.

Record wrote (ws : list (Z * bytes)) (s s' : bst) : Prop := {
  wr_writes : writes s' = writes s ++ ws;
  wr_disk : disk s' = replay ws (disk s);
  wr_size : disksize s' = disksize s
}.

Lemma replay_app ws ws' d : replay (ws ++ ws') d = replay ws' (replay ws d).
Proof. apply foldl_app. Qed.

Lemma wrote_trans ws ws' s s' s'' : wrote ws s s' -> wrote ws' s' s'' -> wrote (ws ++ ws') s s''.
Proof.
  intros [W1 D1 Z1] [W2 D2 Z2]. constructor.
  - by rewrite W2, W1, app_assoc.
  - by rewrite D2, D1, replay_app.
  - by rewrite Z2.
Qed.

Lemma wrote_nil s s' : writes s' = writes s -> disk s' = disk s -> disksize s' = disksize s -> wrote [] s s'.
Proof. intros. constructor; [by rewrite app_nil_r|done|done]. Qed.

Lemma free_buf_dec s O i : {free_buf s O i} + {~ free_buf s O i}.
Proof.
  unfold free_buf, dirty.
  destruct (decide ((i < HEAD)%nat)); [|right; tauto].
  destruct (decide (i ∈ O)); [right; tauto|].
  destruct (decide (b_flags (getb s i) = Z.lor B_VALID B_DIRTY)); [right|left]; tauto.
Defined.

(** With few enough dirty and held buffers there is a free one. *)
Lemma free_exists s ord O L :
  binv s ord O ->
  (forall i, (i < HEAD)%nat -> i ∉ O -> dirty (getb s i) -> b_blockno (getb s i) ∈ L) ->
  (length L + size O < HEAD)%nat -> exists i, free_buf s O i.
Proof.
  intros I HL Hlen.
  destruct (List.find (fun i => if free_buf_dec s O i then true else false) (seq 0 HEAD)) as [i|] eqn:E.
  { apply find_some in E as [_ E]. exists i. by destruct (free_buf_dec s O i). }
  exfalso.
  assert (Hd : forall i, (i < HEAD)%nat -> i ∉ O -> b_dev (getb s i) = 1 /\ b_blockno (getb s i) ∈ L).
  { intros i Hi HO. pose proof (find_none _ _ E i) as Hf. cbv beta in Hf.
    destruct (free_buf_dec s O i) as [|Hnf].
    - discriminate Hf. apply list_elem_of_In, elem_of_seq. lia.
    - destruct (bi_flags _ _ _ I i Hi) as [[_ F]|[F1 F2]].
      + destruct Hnf. split; [done|]. split; [done|]. unfold dirty. by rewrite F.
      + split; [done|]. apply HL; [done|done|]. destruct F2 as [F2|]; [|done].
        destruct Hnf. split; [done|]. split; [done|]. unfold dirty. by rewrite F2. }
  set (F := filter (fun i => i ∉ O) (seq 0 HEAD)).
  assert (HF : (length F <= length L)%nat).
  { rewrite <- (length_fmap (fun i => b_blockno (getb s i)) F). apply submseteq_length, NoDup_submseteq.
    - apply NoDup_fmap_2_strong; [|apply NoDup_filter, NoDup_seq].
      intros x y [Hx1 Hx2]%list_elem_of_filter [Hy1 Hy2]%list_elem_of_filter.
      rewrite elem_of_seq in Hx2, Hy2. intros Hxy.
      apply (bi_uniq _ _ _ I); [lia|lia| | |done]; by apply Hd; [lia|].
    - intros b (x & -> & [Hx1 Hx2]%list_elem_of_filter)%list_elem_of_fmap. rewrite elem_of_seq in Hx2.
      by apply Hd; [lia|]. }
  assert (Hsub : (set_seq 0 HEAD : gset nat) ⊆ O ∪ list_to_set F).
  { intros i Hi%elem_of_set_seq. rewrite elem_of_union, elem_of_list_to_set. unfold F.
    rewrite list_elem_of_filter, elem_of_seq. destruct (decide (i ∈ O)); [by left|right]. split; [done|lia]. }
  apply subseteq_size in Hsub. rewrite size_set_seq in Hsub.
  pose proof (size_union_alt O (list_to_set F)) as Hu.
  assert (size (list_to_set F ∖ O : gset nat) <= size (list_to_set F : gset nat))%nat by (apply subseteq_size; set_solver+).
  rewrite size_list_to_set in * by apply NoDup_filter, NoDup_seq. lia.
Qed.

Lemma bread_dirties s O n i s' L :
  bread_post s O n i s' -> dirties s L -> dirties s' L.
Proof.
  intros P HL j Hj Hd. destruct (decide (j = i)) as [->|Hne].
  - destruct (bp_origin _ _ _ _ _ P) as [[_ Hp]|(_ & Hc & _)].
    + destruct (payload_inv _ _ Hp) as (F & _ & N & _). rewrite N. apply HL; [done|]. unfold dirty. by rewrite <- F.
    + unfold dirty in Hd. rewrite Hc in Hd. discriminate Hd.
  - rewrite (bp_others _ _ _ _ _ P) in * by done. by apply HL.
Qed.

Lemma bread_wrote s O n i s' : bread_post s O n i s' -> wrote [] s s' /\ bc_ctx s' = bc_ctx s.
Proof. intros P. destruct (bp_state _ _ _ _ _ P) as [b ->]. split; [by apply wrote_nil|done]. Qed.

(** Reading one block when the cache is calm. *)
Lemma bread1 s ord L n :
  calm s ord L -> (length L < HEAD)%nat -> 0 <= n < disksize s ->
  exists i s', bread 1 n s = Ok i s' /\ binv s' ord {[i]} /\ bread_post s ∅ n i s' /\ dirties s' L.
Proof.
  intros [I H D] HL Hn.
  destruct (bread_ok s ord ∅ I H n Hn) as (i & s' & E & I' & P).
  - set_solver.
  - right. apply (free_exists s ord ∅ L I); [intros; by apply D|]. rewrite size_empty. lia.
  - exists i, s'. rewrite (right_id_L ∅ (∪)) in I'. split; [done|]. split; [done|]. split; [done|].
    by apply (bread_dirties s ∅ n i).
Qed.

(** Reading two blocks, the second of them one of the dirty blocks' list. *)
Lemma bread2 s ord L a b :
  calm s ord L -> (length L < HEAD)%nat -> 0 <= a < disksize s -> 0 <= b < disksize s -> a <> b -> b ∈ L ->
  exists i j s1 s2, bread 1 a s = Ok i s1 /\ bread 1 b s1 = Ok j s2 /\
    binv s1 ord {[i]} /\ bread_post s ∅ a i s1 /\
    binv s2 ord ({[j]} ∪ {[i]}) /\ bread_post s1 {[i]} b j s2 /\ dirties s2 L /\ held (bc_ctx s2) = ∅.
Proof.
  intros C HL Ha Hb Hab HbL. destruct (bread1 s ord L a C HL Ha) as (i & s1 & E1 & I1 & P1 & D1).
  destruct (bread_wrote _ _ _ _ _ P1) as [[_ _ Z1] X1]. destruct C as [I H D].
  assert (H1 : held (bc_ctx s1) = ∅) by by rewrite X1.
  destruct (bp_cached _ _ _ _ _ P1) as (_ & _ & Hia).
  destruct (bread_ok s1 ord {[i]} I1 H1 b) as (j & s2 & E2 & I2 & P2).
  - by rewrite Z1.
  - intros k (_ & _ & Hk) ->%elem_of_singleton. congruence.
  - destruct (cached_dec s1 b) as [[k Hk]|Hnc]; [left; by exists k|right].
    apply (free_exists s1 ord {[i]} (filter (fun x => x <> b) L) I1).
    + intros k Hk _ Hdk. apply list_elem_of_filter. split; [|by apply D1].
      intros E. apply (Hnc k). split; [done|]. split; [|done].
      destruct (bi_flags _ _ _ I1 k Hk) as [[_ F]|[F _]]; [|done]. unfold dirty in Hdk. rewrite F in Hdk. discriminate Hdk.
    + rewrite size_singleton. enough (length (filter (fun x => x <> b) L) < length L)%nat by lia.
      apply length_filter_lt with b; [done|]. naive_solver.
  - exists i, j, s1, s2. do 6 (split; [done|]). split; [by apply (bread_dirties s1 {[i]} b j)|].
    destruct (bread_wrote _ _ _ _ _ P2) as [_ X2]. by rewrite X2.
Qed.

Lemma brelse_wrote s s' : brelse_post s s' -> wrote [] s s'.
Proof. intros [_ Hd Hz Hw _]. by apply wrote_nil. Qed.

Lemma brelse_dirties s s' L : brelse_post s s' -> dirties s L -> dirties s' L.
Proof.
  intros P HL j Hj. unfold dirty. destruct (payload_inv _ _ (rp_payload _ _ P j)) as (-> & _ & -> & _). by apply HL.
Qed.

(** Storing new data in a held buffer, writing it out and releasing it. *)
Lemma store_ok s ord O j d :
  binv s ord O -> j ∈ O ->
  exists s', setb (set_data d) j s = Ok tt s' /\ held_upd j (set_data d (getb s j)) s s'.
Proof.
  intros I Hj. eexists. split; [done|]. pose proof (own_len s ord O I j Hj) as Hl.
  split; [by rewrite alter_at|]. pose proof (bi_own _ _ _ I j Hj) as [Hlt Hd].
  repeat split; try done. destruct (bi_flags _ _ _ I j Hlt) as [[? _]|[_ ?]]; [lia|done].
Qed.

Lemma write_out s ord O j L :
  binv s ord O -> held (bc_ctx s) = ∅ -> j ∈ O -> dirties s L ->
  exists s', bwrite j s = Ok tt s' /\ binv s' ord O /\ bc_ctx s' = bc_ctx s /\
    wrote [(b_blockno (getb s j), b_data (getb s j))] s s' /\
    dirties s' (filter (fun x => x <> b_blockno (getb s j)) L) /\
    (forall m, content s' m = content s m) /\
    (forall k, getb s' k = if decide (j = k) then set_flags B_VALID (getb s j) else getb s k).
Proof.
  intros I H Hj HL. destruct (bwrite_ok s ord O I H j Hj) as (s' & E & Hs & I' & Hc & Hg).
  exists s'. split; [done|]. split; [done|]. split; [by rewrite Hs|]. split; [by rewrite Hs|].
  split; [|done]. intros k Hk. rewrite Hg. destruct (decide (j = k)) as [<-|Hne]; [intros X; discriminate X|].
  intros Hdk. apply list_elem_of_filter. split; [|by apply HL]. intros E'. apply Hne. symmetry.
  pose proof (bi_own _ _ _ I j Hj) as [Hlt Hd].
  apply (bi_uniq _ _ _ I); try done. destruct (bi_flags _ _ _ I k Hk) as [[_ F]|[F _]]; [|done].
  unfold dirty in Hdk. rewrite F in Hdk. discriminate Hdk.
Qed.

Lemma block_of_replay1 n d dk : block_of (replay [(n, d)] dk) n = d.
Proof. unfold block_of, replay. simpl. by rewrite lookup_insert_eq. Qed.

Lemma block_of_replay1_ne n d dk m : m <> n -> block_of (replay [(n, d)] dk) m = block_of dk m.
Proof. intros. unfold block_of, replay. simpl. by rewrite lookup_insert_ne. Qed.

(** The second half of both copy loops: [i] is the source, [j] the target. *)
Lemma copy_tail s ord O i j L :
  binv s ord O -> held (bc_ctx s) = ∅ -> i <> j -> O = {[i; j]} -> dirties s L ->
  (clean (getb s i) -> b_data (getb s i) = block_of (disk s) (b_blockno (getb s i))) ->
  let d := b_data (getb s i) in
  let n := b_blockno (getb s j) in
  exists s1 s2 s3 s4 ord',
    setb (set_data d) j s = Ok tt s1 /\ bwrite j s1 = Ok tt s2 /\ brelse i s2 = Ok tt s3 /\ brelse j s3 = Ok tt s4 /\
    calm s4 ord' (filter (fun x => x <> n) L) /\ wrote [(n, d)] s s4 /\
    (forall m, content s4 m = if decide (m = n) then d else content s m).
Proof.
  intros I H Hij HO HL Hsy d n.
  assert (HiO : i ∈ O) by (subst O; set_solver+). assert (HjO : j ∈ O) by (subst O; set_solver+).
  destruct (store_ok s ord O j d I HjO) as (s1 & E1 & U1).
  destruct (held_upd_ok s ord O I j HjO _ _ U1) as (I1 & C1 & G1). destruct U1 as [Hs1 _].
  assert (H1 : held (bc_ctx s1) = ∅) by by rewrite Hs1.
  assert (L1 : dirties s1 L).
  { intros k Hk. rewrite G1. destruct (decide (j = k)) as [<-|]; [apply (HL j)|by apply HL].
    by apply (own_lt s ord O I). }
  destruct (write_out s1 ord O j L I1 H1 HjO L1) as (s2 & E2 & I2 & X2 & W2 & L2 & C2 & G2).
  rewrite G1, decide_True in W2, L2 by done. change (b_blockno (set_data d (getb s j))) with n in W2, L2.
  change (b_data (set_data d (getb s j))) with d in W2.
  assert (Hgi : getb s2 i = getb s i) by (rewrite G2, decide_False, G1, decide_False by congruence; done).
  assert (Hgj : getb s2 j = set_flags B_VALID (set_data d (getb s j))) by (rewrite G2, decide_True, G1, decide_True by done; done).
  assert (Hin : b_blockno (getb s i) <> n).
  { intros E. apply Hij. apply (bi_uniq _ _ _ I); [by apply (own_lt s ord O I)|by apply (own_lt s ord O I)| | |done];
      by apply (bi_own _ _ _ I). }
  assert (D2 : disk s2 = replay [(n, d)] (disk s)) by (rewrite (wr_disk _ _ _ W2), Hs1; done).
  destruct (brelse_ok s2 ord O I2) with (i := i) as (s3 & l1 & l2 & Ho & E3 & I3 & P3); [by rewrite X2|done| |].
  { rewrite Hgi, D2. by rewrite block_of_replay1_ne. }
  destruct (payload_inv _ _ (rp_payload _ _ P3 j)) as (F3 & _ & N3 & B3).
  destruct (brelse_ok s3 (i :: l1 ++ l2) (O ∖ {[i]}) I3) with (i := j) as (s4 & l3 & l4 & Ho' & E4 & I4 & P4).
  { by rewrite (rp_held _ _ P3), X2. }
  { subst O. set_solver. }
  { intros _. rewrite B3, N3, Hgj, (rp_disk _ _ P3), D2. change (d = block_of (replay [(n, d)] (disk s)) n). by rewrite block_of_replay1. }
  exists s1, s2, s3, s4, (j :: l3 ++ l4). do 4 (split; [done|]). split; [|split].
  - constructor.
    + replace (O ∖ {[i]} ∖ {[j]}) with (∅ : gset nat) in I4 by (subst O; set_solver+). done.
    + by rewrite (rp_held _ _ P4), (rp_held _ _ P3), X2.
    + by apply (brelse_dirties s3), (brelse_dirties s2).
  - pose proof (wrote_trans _ _ _ _ _ W2 (brelse_wrote _ _ P3)) as W3. rewrite Hs1 in W3.
    pose proof (wrote_trans _ _ _ _ _ W3 (brelse_wrote _ _ P4)) as W4. rewrite !app_nil_r in W4.
    by destruct W4.
  - intros m. rewrite (content_payload s3), (content_payload s2), C2, C1; try done; try apply P4; try apply P3.
Qed.

(** * The log *)

Definition logged (l : lst) : list Z := take (Z.to_nat (lh_n l)) (lh_block l).
Definition in_log (l : lst) (m : Z) : Prop := lg_start l <= m < lg_start l + lg_size l.

(** A log within the disk, with a transaction that fits. *)
Record log_ok (l : lst) : Prop := {
  lo_dev : lg_dev l = 1;
  lo_start : 0 <= lg_start l;
  lo_end : lg_start l + lg_size l <= disksize (l_b l);
  lo_disk : disksize (l_b l) < 2 ^ 31;
  lo_len : length (lh_block l) = Z.to_nat LOGSIZE;
  lo_n : 0 <= lh_n l < lg_size l;
  lo_small : lh_n l < NBUF;
  lo_blocks : forall b, b ∈ logged l -> 0 <= b < disksize (l_b l) /\ ~ in_log l b
}.

Lemma logged_length l : log_ok l -> length (logged l) = Z.to_nat (lh_n l).
Proof.
  intros O. unfold logged. rewrite length_take, (lo_len l O). pose proof (lo_small l O). unfold NBUF, LOGSIZE in *. lia.
Qed.

Lemma logged_few l : log_ok l -> (length (logged l) < HEAD)%nat.
Proof.
  intros O. rewrite logged_length by done. pose proof (lo_small l O). pose proof (lo_n l O). unfold HEAD. lia.
Qed.

(** The next block of a loop over the log. *)
Lemma logged_next l t b bs :
  log_ok l -> 0 <= t -> drop (Z.to_nat t) (logged l) = b :: bs ->
  t < lh_n l /\ lh_block l !! Z.to_nat t = Some b /\ b ∈ logged l /\ drop (Z.to_nat (t + 1)) (logged l) = bs.
Proof.
  intros O Ht E. assert (Hl : logged l !! Z.to_nat t = Some b) by by rewrite <- (Nat.add_0_r (Z.to_nat t)), <- lookup_drop, E.
  pose proof (lookup_lt_Some _ _ _ Hl) as Hlt. rewrite logged_length in Hlt by done.
  split; [lia|]. split; [|split].
  - unfold logged in Hl. rewrite lookup_take_lt in Hl by done. done.
  - by apply list_elem_of_lookup_2 in Hl.
  - replace (Z.to_nat (t + 1)) with (Z.to_nat t + 1)%nat by lia. by rewrite <- drop_drop, E.
Qed.

Lemma logged_end l t :
  log_ok l -> 0 <= t <= lh_n l -> drop (Z.to_nat t) (logged l) = [] -> lh_n l <= t.
Proof.
  intros O Ht E. apply (f_equal length) in E. rewrite length_drop, logged_length in E by done. simpl in E. lia.
Qed.

Lemma lift_put {A} (m : M bst A) (l : lst) s a s' : m s = Ok a s' -> lift m (put s l) = Ok a (put s' l).
Proof. intros E. exact (lift_ok m (put s l) a s' E). Qed.

Lemma lh_get_ok l (s : bst) i b : lh_block l !! Z.to_nat i = Some b -> lh_get i (put s l) = Ok b (put s l).
Proof. intros E. unfold lh_get. change (lh_block (put s l)) with (lh_block l). by rewrite E. Qed.

(** The blocks [write_log] and [install_trans] write. *)
Fixpoint log_copies (a : Z) (bs : list Z) (f : Z -> bytes) : list (Z * bytes) :=
  match bs with
  | [] => []
  | b :: bs => (a, f b) :: log_copies (a + 1) bs f
  end.

Fixpoint home_copies (a : Z) (bs : list Z) (f : Z -> bytes) : list (Z * bytes) :=
  match bs with
  | [] => []
  | b :: bs => (b, f a) :: home_copies (a + 1) bs f
  end.

(** The buffers read hold the current contents of their blocks. *)
Lemma pair_facts s O' a b i j s1 s2 ord :
  binv s1 ord {[i]} -> binv s2 ord ({[j]} ∪ {[i]}) ->
  bread_post s O' a i s1 -> bread_post s1 {[i]} b j s2 ->
  i <> j /\ b_blockno (getb s2 i) = a /\ b_data (getb s2 i) = content s a /\
  b_blockno (getb s2 j) = b /\ b_data (getb s2 j) = content s b /\
  (clean (getb s2 i) -> b_data (getb s2 i) = block_of (disk s2) a) /\
  (clean (getb s2 j) -> b_data (getb s2 j) = block_of (disk s2) b) /\
  (forall m, content s2 m = content s m) /\ wrote [] s s2.
Proof.
  intros I1 I2 P1 P2.
  assert (Hij : i <> j) by (pose proof (bp_fresh _ _ _ _ _ P2); set_solver).
  destruct (bp_cached _ _ _ _ _ P1) as (_ & _ & Na). destruct (bp_cached _ _ _ _ _ P2) as (_ & _ & Nb).
  destruct (bread_wrote _ _ _ _ _ P1) as [W1 _]. destruct (bread_wrote _ _ _ _ _ P2) as [W2 _].
  rewrite (bp_others _ _ _ _ _ P2 i Hij).
  split; [done|]. split; [done|]. split; [apply (bp_data _ _ _ _ _ P1)|]. split; [done|].
  split; [rewrite (bp_data _ _ _ _ _ P2); apply (bp_content _ _ _ _ _ P1)|].
  split; [|split; [|split]].
  - rewrite (wr_disk _ _ _ W2). apply (bp_sync _ _ _ _ _ P1).
  - apply (bp_sync _ _ _ _ _ P2).
  - intros m. by rewrite (bp_content _ _ _ _ _ P2), (bp_content _ _ _ _ _ P1).
  - apply (wrote_trans [] [] s s1 s2 W1 W2).
Qed.

Lemma log_copies_ext a bs f g : (forall b, b ∈ bs -> f b = g b) -> log_copies a bs f = log_copies a bs g.
Proof.
  revert a. induction bs as [|b bs IH]; intros a E; simpl; [done|].
  rewrite (E b) by set_solver+. f_equal. apply IH. intros. apply E. set_solver.
Qed.

Lemma home_copies_ext a bs f g :
  (forall m, a <= m < a + Z.of_nat (length bs) -> f m = g m) -> home_copies a bs f = home_copies a bs g.
Proof.
  revert a. induction bs as [|b bs IH]; intros a E; simpl in *; [done|].
  rewrite (E a) by lia. f_equal. apply IH. intros. apply E. lia.
Qed.

Section loops.
Context (l : lst) (O : log_ok l).

(** One copy between a log block and the home block [b] of the transaction. *)
Lemma log_pair s ord L t b :
  calm s ord L -> disksize s = disksize (l_b l) -> 0 <= t < lh_n l -> b ∈ logged l -> b ∈ L -> (length L < HEAD)%nat ->
  let a := lg_start l + t + 1 in
  exists i j s1 s2, bread 1 a s = Ok i s1 /\ bread 1 b s1 = Ok j s2 /\
    binv s1 ord {[i]} /\ bread_post s ∅ a i s1 /\
    binv s2 ord ({[j]} ∪ {[i]}) /\ bread_post s1 {[i]} b j s2 /\ dirties s2 L /\ held (bc_ctx s2) = ∅.
Proof.
  intros C Hz Ht Hb HbL HL a. destruct (lo_blocks l O b Hb) as [Hr Hout].
  pose proof (lo_n l O). pose proof (lo_start l O). pose proof (lo_end l O). unfold in_log in Hout.
  apply (bread2 s ord L); try done; unfold a; lia.
Qed.

Lemma u32_log t : 0 <= t < lh_n l -> u32 (lg_start l + t + 1) = lg_start l + t + 1.
Proof.
  intros Ht. pose proof (lo_n l O). pose proof (lo_start l O). pose proof (lo_end l O). pose proof (lo_disk l O).
  apply u32_id. lia.
Qed.

Lemma u32_home b : b ∈ logged l -> u32 b = b.
Proof. intros Hb. destruct (lo_blocks l O b Hb) as [Hr _]. pose proof (lo_disk l O). apply u32_id. lia. Qed.

Lemma home_not_log b t : b ∈ logged l -> 0 <= t < lh_n l -> b <> lg_start l + t + 1.
Proof.
  intros Hb Ht. destruct (lo_blocks l O b Hb) as [_ Hout]. pose proof (lo_n l O). unfold in_log in Hout. lia.
Qed.

Lemma rest_logged b t bs : drop (Z.to_nat t) (logged l) = bs -> b ∈ bs -> b ∈ logged l.
Proof.
  intros <- Hb. rewrite <- (take_drop (Z.to_nat t) (logged l)). apply elem_of_app. by right.
Qed.
End loops.

Lemma write_log_loop_ok l bs s ord t fuel :
  log_ok l -> calm s ord (logged l) -> disksize s = disksize (l_b l) ->
  0 <= t <= lh_n l -> drop (Z.to_nat t) (logged l) = bs -> (length bs < fuel)%nat ->
  exists s' ord', write_log_loop fuel t (put s l) = Ok tt (put s' l) /\ calm s' ord' (logged l) /\
    wrote (log_copies (lg_start l + t + 1) bs (content s)) s s' /\
    (forall m, ~ (lg_start l + t + 1 <= m <= lg_start l + lh_n l) -> content s' m = content s m) /\
    (forall k b, bs !! k = Some b -> content s' (lg_start l + t + 1 + Z.of_nat k) = content s b).
Proof.
  intros Hok. revert s ord t fuel. induction bs as [|b bs IH]; intros s ord t fuel C Hz Ht Hbs Hf;
    (destruct fuel as [|fuel]; [simpl in Hf; lia|]); cbn [write_log_loop]; unfold bind at 1, get at 1; cbn [seqr].
  { pose proof (logged_end l t Hok Ht Hbs) as He. change (lh_n (put s l)) with (lh_n l).
    rewrite (proj2 (Z.ltb_ge _ _)) by lia. exists s, ord. split; [done|]. split; [done|].
    split; [by apply wrote_nil|]. done. }
  destruct (logged_next l t b bs Hok) as (Htn & Hlk & Hb & Hrest); [lia|done|].
  change (lh_n (put s l)) with (lh_n l). change (lg_dev (put s l)) with (lg_dev l).
  change (lg_start (put s l)) with (lg_start l).
  rewrite (proj2 (Z.ltb_lt _ _)) by lia. rewrite (lo_dev l Hok), (u32_log l Hok t) by lia.
  destruct (log_pair l Hok s ord (logged l) t b C Hz) as (i & j & s1 & s2 & E1 & E2 & I1 & P1 & I2 & P2 & D2 & H2);
    [lia|done|done|by apply logged_few|].
  destruct (pair_facts s ∅ _ b i j s1 s2 ord I1 I2 P1 P2) as (Hij & Na & Da & Nb & Db & Sa & Sb & C2 & W2).
  rewrite (bind_ok _ _ _ _ _ (lift_put _ l _ _ _ E1)), (bind_ok _ _ _ _ _ (lh_get_ok l s1 t b Hlk)).
  rewrite (u32_home l Hok b Hb), (bind_ok _ _ _ _ _ (lift_put _ l _ _ _ E2)).
  rewrite (bind_ok _ _ _ _ _ (lift_put (field b_data j) l s2 _ s2 eq_refl)).
  destruct (copy_tail s2 ord ({[j]} ∪ {[i]}) j i (logged l) I2 H2) as
    (s3 & s4 & s5 & s6 & ord' & E3 & E4 & E5 & E6 & C6 & W6 & K6); try done; [by rewrite Nb|].
  rewrite Na in C6, W6, K6. rewrite Db in *.
  rewrite (bind_ok _ _ _ _ _ (lift_put _ l _ _ _ E3)), (bind_ok _ _ _ _ _ (lift_put _ l _ _ _ E4)).
  rewrite (bind_ok _ _ _ _ _ (lift_put _ l _ _ _ E5)), (bind_ok _ _ _ _ _ (lift_put _ l _ _ _ E6)).
  pose proof (wrote_trans _ _ _ _ _ W2 W6) as W. simpl in W.
  assert (K : forall m, m <> lg_start l + t + 1 -> content s6 m = content s m).
  { intros m Hm. by rewrite K6, decide_False, C2. }
  destruct (IH s6 ord' (t + 1) fuel) as (s7 & ord7 & E7 & C7 & W7 & K7 & R7).
  { by apply (calm_weaken s6 ord' (filter (fun x => x <> lg_start l + t + 1) (logged l))); [|intros ? []%list_elem_of_filter]. }
  { by rewrite (wr_size _ _ _ W). }
  { lia. }
  { done. }
  { simpl in Hf. lia. }
  exists s7, ord7. split; [done|]. split; [done|]. split; [|split].
  - cbn [log_copies]. replace (log_copies (lg_start l + t + 1 + 1) bs (content s))
      with (log_copies (lg_start l + (t + 1) + 1) bs (content s6)).
    + apply (wrote_trans [_] _ s s6 s7 W W7).
    + replace (lg_start l + (t + 1) + 1) with (lg_start l + t + 1 + 1) by lia.
      apply log_copies_ext. intros b' Hb'. apply K, (home_not_log l Hok); [|lia].
      by apply (rest_logged l b' (t + 1) bs).
  - intros m Hm. rewrite K7, K by lia. done.
  - intros [|k] b' Hk; simpl in Hk.
    + injection Hk as <-. rewrite Z.add_0_r. rewrite K7 by lia. by rewrite K6, decide_True.
    + replace (lg_start l + t + 1 + Z.of_nat (S k)) with (lg_start l + (t + 1) + 1 + Z.of_nat k) by lia.
      rewrite (R7 k b' Hk). apply K, (home_not_log l Hok); [|lia].
      by apply (rest_logged l b' (t + 1) bs); [|apply list_elem_of_lookup_2 in Hk].
Qed.

Lemma install_loop_ok l bs s ord t fuel :
  log_ok l -> calm s ord bs -> disksize s = disksize (l_b l) ->
  0 <= t <= lh_n l -> drop (Z.to_nat t) (logged l) = bs -> (length bs < fuel)%nat ->
  exists s' ord', install_loop fuel t (put s l) = Ok tt (put s' l) /\ calm s' ord' [] /\
    wrote (home_copies (lg_start l + t + 1) bs (content s)) s s'.
Proof.
  intros Hok. revert s ord t fuel. induction bs as [|b bs IH]; intros s ord t fuel C Hz Ht Hbs Hf;
    (destruct fuel as [|fuel]; [simpl in Hf; lia|]); cbn [install_loop]; unfold bind at 1, get at 1; cbn [seqr].
  { pose proof (logged_end l t Hok Ht Hbs) as He. change (lh_n (put s l)) with (lh_n l).
    rewrite (proj2 (Z.ltb_ge _ _)) by lia. exists s, ord. split; [done|]. split; [done|]. by apply wrote_nil. }
  destruct (logged_next l t b bs Hok) as (Htn & Hlk & Hb & Hrest); [lia|done|].
  change (lh_n (put s l)) with (lh_n l). change (lg_dev (put s l)) with (lg_dev l).
  change (lg_start (put s l)) with (lg_start l).
  rewrite (proj2 (Z.ltb_lt _ _)) by lia. rewrite (lo_dev l Hok), (u32_log l Hok t) by lia.
  destruct (log_pair l Hok s ord (b :: bs) t b C Hz) as (i & j & s1 & s2 & E1 & E2 & I1 & P1 & I2 & P2 & D2 & H2);
    [lia|done|set_solver+| |].
  { pose proof (logged_few l Hok). rewrite <- Hbs, length_drop. lia. }
  destruct (pair_facts s ∅ _ b i j s1 s2 ord I1 I2 P1 P2) as (Hij & Na & Da & Nb & Db & Sa & Sb & C2 & W2).
  rewrite (bind_ok _ _ _ _ _ (lift_put _ l _ _ _ E1)), (bind_ok _ _ _ _ _ (lh_get_ok l s1 t b Hlk)).
  rewrite (u32_home l Hok b Hb), (bind_ok _ _ _ _ _ (lift_put _ l _ _ _ E2)).
  rewrite (bind_ok _ _ _ _ _ (lift_put (field b_data i) l s2 _ s2 eq_refl)).
  destruct (copy_tail s2 ord ({[j]} ∪ {[i]}) i j (b :: bs) I2 H2) as
    (s3 & s4 & s5 & s6 & ord' & E3 & E4 & E5 & E6 & C6 & W6 & K6); try done; [by apply (comm_L (∪))|by rewrite Na|].
  rewrite Nb in C6, W6, K6. rewrite Da in *.
  rewrite (bind_ok _ _ _ _ _ (lift_put _ l _ _ _ E3)), (bind_ok _ _ _ _ _ (lift_put _ l _ _ _ E4)).
  rewrite (bind_ok _ _ _ _ _ (lift_put _ l _ _ _ E5)), (bind_ok _ _ _ _ _ (lift_put _ l _ _ _ E6)).
  pose proof (wrote_trans _ _ _ _ _ W2 W6) as W. simpl in W.
  destruct (IH s6 ord' (t + 1) fuel) as (s7 & ord7 & E7 & C7 & W7); [| |lia|done|simpl in Hf; lia|].
  { apply (calm_weaken _ _ _ _ C6). intros x [Hx1 Hx2]%list_elem_of_filter. set_solver + Hx1 Hx2. }
  { by rewrite (wr_size _ _ _ W). }
  exists s7, ord7. split; [done|]. split; [done|].
  cbn [home_copies]. replace (home_copies (lg_start l + t + 1 + 1) bs (content s))
    with (home_copies (lg_start l + (t + 1) + 1) bs (content s6)); [apply (wrote_trans [_] _ s s6 s7 W W7)|].
  replace (lg_start l + (t + 1) + 1) with (lg_start l + t + 1 + 1) by lia.
  apply home_copies_ext. intros m Hm. rewrite K6, decide_False, C2; [done|].
  pose proof (logged_length l Hok) as Hlen. apply (f_equal length) in Hrest. rewrite length_drop in Hrest.
  intros ->. apply (home_not_log l Hok b (b - lg_start l - 1)); [done|lia|lia].
Qed.

(** A block that is not dirty has its disk contents. *)
Lemma clean_content s ord L m : calm s ord L -> m ∉ L -> content s m = block_of (disk s) m.
Proof.
  intros [I _ D] Hm. destruct (cached_dec s m) as [[i Hi]|Hn]; [|by apply content_uncached].
  rewrite (content_cached s ord ∅ I m i Hi). destruct Hi as (Hi & Hd & <-).
  apply (bi_sync _ _ _ I); [done|set_solver|].
  destruct (bi_flags _ _ _ I i Hi) as [[? _]|[_ [?|Hdi]]]; [lia|done|]. by destruct (Hm (D i Hi Hdi)).
Qed.

Lemma calm_content s ord m : calm s ord [] -> content s m = block_of (disk s) m.
Proof. intros C. apply (clean_content s ord [] m C). apply not_elem_of_nil. Qed.

(** * The header block *)

Fixpoint header_blocks (i : nat) (bs : list Z) (d : bytes) : bytes :=
  match bs with
  | [] => d
  | b :: bs => header_blocks (S i) bs (put32 (4 + 4 * i) b d)
  end.

Definition header (n : Z) (bs : list Z) (d : bytes) : bytes := header_blocks 0 bs (put32 0 n d).

Definition with_data (bp : nat) (d : bytes) (s : bst) : bst := set_bufs (alter (set_data d) bp (bc_bufs s)) s.

Lemma with_data_twice bp d d' s : with_data bp d (with_data bp d' s) = with_data bp d s.
Proof.
  unfold with_data, set_bufs. cbn. f_equal. apply list_eq. intros i. rewrite !list_lookup_alter.
  destruct (decide (bp = i)) as [<-|]; [|done]. rewrite decide_True by done. by destruct (bc_bufs s !! bp).
Qed.

Lemma with_data_get bp d s : (bp < length (bc_bufs s))%nat -> b_data (getb (with_data bp d s) bp) = d.
Proof. intros H. unfold getb, with_data. cbn [bc_bufs set_bufs]. fold (at_ (alter (set_data d) bp (bc_bufs s)) bp). by rewrite at_alter_eq. Qed.

Lemma write_blocks_ok l bs s bp t d fuel :
  log_ok l -> (bp < length (bc_bufs s))%nat ->
  0 <= t <= lh_n l -> drop (Z.to_nat t) (logged l) = bs -> (length bs < fuel)%nat ->
  write_blocks fuel t bp (put (with_data bp d s) l) =
  Ok tt (put (with_data bp (header_blocks (Z.to_nat t) bs d) s) l).
Proof.
  intros Hok Hbp. revert t d fuel. induction bs as [|b bs IH]; intros t d fuel Ht Hbs Hf;
    (destruct fuel as [|fuel]; [simpl in Hf; lia|]); cbn [write_blocks]; unfold bind at 1, gets at 1; cbn [seqr];
    change (lh_n (put _ l)) with (lh_n l).
  { pose proof (logged_end l t Hok Ht Hbs) as He. by rewrite (proj2 (Z.ltb_ge _ _)) by lia. }
  destruct (logged_next l t b bs Hok) as (Htn & Hlk & Hb & Hrest); [lia|done|].
  rewrite (proj2 (Z.ltb_lt _ _)) by lia. rewrite (bind_ok _ _ _ _ _ (lh_get_ok l _ t b Hlk)).
  rewrite (bind_ok _ _ _ _ _ (lift_put (field b_data bp) l (with_data bp d s) d (with_data bp d s)
             ltac:(unfold field, gets; by rewrite with_data_get))).
  rewrite (bind_ok _ _ _ _ _ (lift_put (setb (set_data (put32 (4 + 4 * Z.to_nat t) b d)) bp) l (with_data bp d s) tt
             (with_data bp (put32 (4 + 4 * Z.to_nat t) b d) (with_data bp d s)) eq_refl)).
  rewrite with_data_twice, IH; [|lia|done|simpl in Hf; lia].
  cbn [header_blocks]. by replace (Z.to_nat (t + 1)) with (S (Z.to_nat t)) by lia.
Qed.

Lemma LOOP_enough l : log_ok l -> (length (logged l) < LOOP)%nat.
Proof.
  intros Hok. pose proof (logged_length l Hok). pose proof (lo_small l Hok). pose proof (lo_n l Hok).
  unfold LOOP, NBUF, LOGSIZE in *. lia.
Qed.

(** Writing out and releasing the only buffer held. *)
Lemma finish_write s ord bp L h :
  binv s ord {[bp]} -> held (bc_ctx s) = ∅ -> dirties s L ->
  let n := b_blockno (getb s bp) in
  exists s1 s2 ord', bwrite bp (with_data bp h s) = Ok tt s1 /\ brelse bp s1 = Ok tt s2 /\
    calm s2 ord' L /\ wrote [(n, h)] s s2 /\
    (forall m, content s2 m = if decide (m = n) then h else content s m).
Proof.
  intros I H D n. assert (Hown : bp ∈ ({[bp]} : gset nat)) by set_solver+.
  destruct (store_ok s ord {[bp]} bp h I Hown) as (s1 & E1 & U1). injection E1 as E1. rewrite <- E1 in U1.
  fold (with_data bp h s) in U1. clear E1 s1.
  destruct (held_upd_ok s ord {[bp]} I bp Hown _ _ U1) as (I1 & C1 & G1).
  assert (D1 : dirties (with_data bp h s) L).
  { intros k Hk. rewrite G1. destruct (decide (bp = k)) as [<-|]; [by apply (D bp)|by apply D]. }
  destruct (write_out (with_data bp h s) ord {[bp]} bp L I1 H Hown D1) as (s2 & E2 & I2 & X2 & W2 & L2 & C2 & G2).
  rewrite G1, decide_True in W2, L2 by done.
  change (b_blockno (set_data h (getb s bp))) with n in *. change (b_data (set_data h (getb s bp))) with h in *.
  assert (W2' : wrote [(n, h)] s s2) by (destruct W2; by constructor). clear W2.
  destruct (brelse_ok s2 ord {[bp]} I2) with (i := bp) as (s3 & l1 & l2 & Ho & E3 & I3 & P3); [by rewrite X2|done| |].
  { intros _. rewrite G2, decide_True, G1, decide_True, (wr_disk _ _ _ W2') by done.
    change (h = block_of (replay [(n, h)] (disk s)) n). by rewrite block_of_replay1. }
  exists s2, s3, (bp :: l1 ++ l2). split; [done|]. split; [done|]. split; [|split].
  - constructor.
    + replace (({[bp]} : gset nat) ∖ {[bp]}) with (∅ : gset nat) in I3 by set_solver+. done.
    + by rewrite (rp_held _ _ P3), X2.
    + apply (brelse_dirties s2); [done|]. intros k Hk Hd. pose proof (L2 k Hk Hd) as [_ ?]%list_elem_of_filter. done.
  - pose proof (wrote_trans _ _ _ _ _ W2' (brelse_wrote _ _ P3)) as W. by rewrite app_nil_r in W.
  - intros m. by rewrite (content_payload s2 s3), C2, C1 by apply P3.
Qed.

(** [write_head] rewrites the header block in place. *)
Lemma write_head_ok l s ord L :
  log_ok l -> calm s ord L -> disksize s = disksize (l_b l) -> (length L < HEAD)%nat ->
  let h := header (lh_n l) (logged l) (content s (lg_start l)) in
  exists s' ord', write_head (put s l) = Ok tt (put s' l) /\ calm s' ord' L /\
    wrote [(lg_start l, h)] s s' /\
    (forall m, content s' m = if decide (m = lg_start l) then h else content s m).
Proof.
  intros Hok C Hz HL h.
  pose proof (lo_n l Hok) as Hn. pose proof (lo_start l Hok). pose proof (lo_end l Hok). pose proof (lo_disk l Hok).
  unfold write_head, bind at 1, get. cbn [seqr]. change (lg_dev (put s l)) with (lg_dev l).
  change (lg_start (put s l)) with (lg_start l). change (lh_n (put s l)) with (lh_n l).
  rewrite (lo_dev l Hok), u32_id by lia.
  destruct (bread1 s ord L (lg_start l) C HL) as (bp & s1 & E1 & I1 & P1 & D1); [lia|].
  destruct (bread_wrote _ _ _ _ _ P1) as [W1 X1].
  pose proof (own_len s1 ord {[bp]} I1 bp ltac:(set_solver+)) as Hbp.
  destruct (bp_cached _ _ _ _ _ P1) as (_ & _ & N1).
  rewrite (bind_ok _ _ _ _ _ (lift_put _ l _ _ _ E1)).
  rewrite (bind_ok _ _ _ _ _ (lift_put (field b_data bp) l s1 _ s1 eq_refl)), (bp_data _ _ _ _ _ P1).
  rewrite (bind_ok _ _ _ _ _ (lift_put (setb (set_data (put32 0 (lh_n l) (content s (lg_start l)))) bp) l s1 tt
             (with_data bp (put32 0 (lh_n l) (content s (lg_start l))) s1) eq_refl)).
  rewrite (bind_ok _ _ _ _ _ (write_blocks_ok l (logged l) s1 bp 0 _ LOOP Hok Hbp ltac:(lia) eq_refl (LOOP_enough l Hok))).
  fold (header (lh_n l) (logged l) (content s (lg_start l))). fold h.
  destruct (finish_write s1 ord bp L h I1) as (s3 & s4 & ord' & E3 & E4 & C4 & W4 & K4); [by rewrite X1; apply C|done|].
  rewrite N1 in W4, K4. rewrite (bind_ok _ _ _ _ _ (lift_put _ l _ _ _ E3)).
  exists s4, ord'. split; [by apply lift_put|]. split; [done|]. split.
  - apply (wrote_trans [] _ s s1 s4 W1 W4).
  - intros m. rewrite K4. destruct (decide _); [done|]. apply (bp_content _ _ _ _ _ P1).
Qed.

(** * Committing *)

Definition homes (bs : list Z) (f : Z -> bytes) : list (Z * bytes) := (fun b => (b, f b)) <$> bs.

Lemma home_copies_homes a bs f g :
  (forall k b, bs !! k = Some b -> f (a + Z.of_nat k) = g b) -> home_copies a bs f = homes bs g.
Proof.
  revert a. induction bs as [|b bs IH]; intros a E; [done|]. cbn.
  rewrite <- (E 0%nat b eq_refl), Z.add_0_r. f_equal. apply IH. intros k b' Hk.
  rewrite <- (E (S k) b' Hk). f_equal. lia.
Qed.

Lemma block_of_homes bs f d m :
  block_of (replay (homes bs f) d) m = if decide (m ∈ bs) then f m else block_of d m.
Proof.
  induction bs as [|b bs IH] using rev_ind; [by rewrite decide_False by apply not_elem_of_nil|].
  unfold homes. rewrite fmap_app, replay_app. fold (homes bs f). cbn [fmap list_fmap].
  destruct (decide (m = b)) as [->|Hm].
  - rewrite block_of_replay1, decide_True; [done|]. set_solver.
  - rewrite block_of_replay1_ne, IH by done. apply decide_ext. set_solver.
Qed.

Lemma block_of_homes_ne bs f d m : m ∉ bs -> block_of (replay (homes bs f) d) m = block_of d m.
Proof. intros. by rewrite block_of_homes, decide_False. Qed.

Lemma start_not_logged l : log_ok l -> lg_start l ∉ logged l.
Proof.
  intros O Hs. destruct (lo_blocks l O _ Hs) as [_ Hn]. pose proof (lo_n l O). unfold in_log in Hn. lia.
Qed.

(** The transaction's block writes, in order. *)
Definition commit_writes (l : lst) (h1 h0 : bytes) : list (Z * bytes) :=
  log_copies (lg_start l + 1) (logged l) (content (l_b l)) ++ [(lg_start l, h1)] ++
  homes (logged l) (content (l_b l)) ++ [(lg_start l, h0)].

Lemma log_ok_lh l n bs :
  log_ok l -> length bs = length (lh_block l) -> 0 <= n < lg_size l -> n < NBUF ->
  (forall b, b ∈ take (Z.to_nat n) bs -> 0 <= b < disksize (l_b l) /\ ~ in_log l b) -> log_ok (set_lh n bs l).
Proof. intros [? ? ? ? Hl ? ? ?] E. constructor; try done. cbn. by rewrite E. Qed.

Lemma log_ok_zero l : log_ok l -> log_ok (set_lh 0 (lh_block l) l).
Proof.
  intros O. pose proof (lo_n l O). apply log_ok_lh; [done|done|lia|unfold NBUF, MAXOPBLOCKS; lia|].
  cbn. intros b Hb. set_solver.
Qed.

Lemma commit_ok l ord :
  log_ok l -> calm (l_b l) ord (logged l) -> 0 < lh_n l ->
  let h1 := header (lh_n l) (logged l) (content (l_b l) (lg_start l)) in
  exists s' ord', commit l = Ok tt (put s' (set_lh 0 (lh_block l) l)) /\ calm s' ord' [] /\
    wrote (commit_writes l h1 (put32 0 0 h1)) (l_b l) s'.
Proof.
  intros Hok C Hn h1. pose proof (lo_n l Hok) as Hsz. set (s := l_b l) in *.
  assert (El : put s l = l) by (unfold s; by destruct l).
  destruct (write_log_loop_ok l (logged l) s ord 0 LOOP Hok C eq_refl) as (s1 & o1 & E1 & C1 & W1 & K1 & R1);
    [lia|done|by apply LOOP_enough|]. rewrite Z.add_0_r in *.
  destruct (write_head_ok l s1 o1 (logged l) Hok C1) as (s2 & o2 & E2 & C2 & W2 & K2);
    [apply (wr_size _ _ _ W1)|by apply logged_few|].
  rewrite K1 in W2, K2 by lia. fold h1 in W2, K2.
  pose proof (wrote_trans _ _ _ _ _ W1 W2) as W12.
  destruct (install_loop_ok l (logged l) s2 o2 0 LOOP Hok C2) as (s3 & o3 & E3 & C3 & W3);
    [apply (wr_size _ _ _ W12)|lia|done|by apply LOOP_enough|]. rewrite Z.add_0_r in *.
  rewrite (home_copies_homes _ _ _ (content s)) in W3.
  2:{ intros k b Hk. rewrite K2, decide_False by lia. by apply R1. }
  pose proof (wrote_trans _ _ _ _ _ W12 W3) as W13.
  set (l0 := set_lh 0 (lh_block l) l).
  destruct (write_head_ok l0 s3 o3 [] (log_ok_zero l Hok) C3) as (s4 & o4 & E4 & C4 & W4 & K4);
    [apply (wr_size _ _ _ W13)|vm_compute; lia|].
  exists s4, o4. split; [|split; [done|]].
  { unfold commit, bind at 1, gets. cbn [seqr]. unfold when. rewrite (proj2 (Z.ltb_lt _ _)) by lia.
    rewrite <- El at 1. rewrite (bind_ok _ _ _ _ _ E1), (bind_ok _ _ _ _ _ E2), (bind_ok _ _ _ _ _ E3).
    unfold bind at 1, modify. cbn [seqr]. exact E4. }
  replace (header (lh_n l0) (logged l0) (content s3 (lg_start l0))) with (put32 0 0 h1) in W4.
  2:{ change (lg_start l0) with (lg_start l). rewrite (calm_content s3 o3) by done.
      rewrite (wr_disk _ _ _ W3), block_of_homes_ne, <- (clean_content s2 o2 (logged l)) by (done || by apply start_not_logged).
      by rewrite K2, decide_True. }
  pose proof (wrote_trans _ _ _ _ _ W13 W4) as W. unfold commit_writes. by rewrite <- !app_assoc in W.
Qed.
