(* ===== verification/LogOps.v ===== *)
(** The in-memory side of the log: [log_write], [begin_op] and [end_op]. *)

From S2P Require Import Prelude Params Spinlock Klock Bytes Bio Bcache Log Commit.
Open Scope Z_scope.
Open Scope xv6_scope.

(** * [log_write] *)

Lemma absorb_ok l bn bs (s : bst) t fuel :
  log_ok l -> 0 <= t <= lh_n l -> drop (Z.to_nat t) (logged l) = bs -> (length bs < fuel)%nat ->
  exists i, absorb fuel t bn (put s l) = Ok i (put s l) /\ t <= i <= lh_n l /\
    (if decide (bn ∈ bs) then lh_block l !! Z.to_nat i = Some bn /\ i < lh_n l else i = lh_n l).
Proof.
  intros Hok. revert t fuel. induction bs as [|b bs IH]; intros t fuel Ht Hbs Hf;
    (destruct fuel as [|fuel]; [simpl in Hf; lia|]); cbn [absorb]; unfold bind at 1, gets at 1; cbn [seqr];
    change (lh_n (put s l)) with (lh_n l).
  - pose proof (logged_end l t Hok Ht Hbs). rewrite (proj2 (Z.ltb_ge _ _)) by lia.
    exists t. split; [done|]. split; [lia|]. rewrite decide_False by apply not_elem_of_nil. lia.
  - destruct (logged_next l t b bs Hok) as (Htn & Hlk & Hb & Hrest); [lia|done|].
    rewrite (proj2 (Z.ltb_lt _ _)) by lia. rewrite (bind_ok _ _ _ _ _ (lh_get_ok l s t b Hlk)).
    rewrite (u32_home l Hok b Hb). destruct (Z.eqb_spec b bn) as [->|Hne].
    + exists t. split; [done|]. split; [lia|]. by rewrite decide_True by set_solver+.
    + destruct (IH (t + 1) fuel) as (i & E & Hi & Hd); [lia|done|simpl in Hf; lia|].
      exists i. split; [done|]. split; [lia|]. destruct (decide (bn ∈ bs)).
      * by rewrite decide_True by set_solver.
      * by rewrite decide_False by set_solver.
Qed.

(** The log records each block once. *)
Definition absorbed (bs : list Z) (b : Z) : list Z := if decide (b ∈ bs) then bs else bs ++ [b].

Lemma take_insert_next (bs : list Z) (n : nat) b :
  (n < length bs)%nat -> take (S n) (<[n := b]> bs) = take n bs ++ [b].
Proof.
  intros Hn. rewrite (take_S_r _ _ b) by (by rewrite list_lookup_insert_eq).
  by rewrite take_insert_ge by lia.
Qed.

(** Everything about the log but the transaction itself. *)
Definition log_conf (l : lst) : Z * Z * Z * bool * Z :=
  (lg_start l, lg_size l, lg_outstanding l, lg_committing l, lg_dev l).

Section log_write.
Context (l : lst) (ord : list nat) (O : gset nat) (i : nat).
Context (Hok : log_ok l) (I : binv (l_b l) ord O) (Hheld : held (bc_ctx (l_b l)) = ∅) (HiO : i ∈ O).
Context (Hdirty : dirties (l_b l) (logged l)).
Let bn := b_blockno (getb (l_b l) i).

(** [log_write] fails without room, and outside a transaction. *)
Lemma log_write_too_big :
  LOGSIZE <= lh_n l \/ lg_size l - 1 <= lh_n l -> log_write i l = Panic "too big a transaction".
Proof.
  intros Hn. unfold log_write, bind, get. cbn [seqr].
  assert ((LOGSIZE <=? lh_n l) || (lg_size l - 1 <=? lh_n l) = true) as -> by (apply orb_true_iff; lia). done.
Qed.

(** The buffer is marked dirty, which pins it in the cache. *)
Lemma mark_dirty :
  let b := set_flags (Z.lor (b_flags (getb (l_b l) i)) B_DIRTY) (getb (l_b l) i) in
  exists s', setb (fun x => set_flags (Z.lor (b_flags x) B_DIRTY) x) i (l_b l) = Ok tt s' /\
    held_upd i b (l_b l) s' /\ dirty b.
Proof.
  intros b. pose proof (own_len _ ord O I i HiO) as Hl. pose proof (bi_own _ _ _ I i HiO) as [Hlt Hd].
  assert (Hdb : dirty b).
  { unfold b, dirty. cbn. destruct (bi_flags _ _ _ I i Hlt) as [[? _]|[_ [F|F]]]; [lia| |]; by rewrite F. }
  eexists. split; [reflexivity|]. split; [|done]. unfold held_upd. rewrite alter_at by done. by repeat split; try right.
Qed.

(** The slot [log_write] fills. *)
Lemma lh_slot (s : bst) :
  lh_n l < LOGSIZE -> lh_n l < lg_size l - 1 -> lg_size l <= NBUF -> ~ in_log l bn ->
  exists k l', absorb LOOP 0 bn (put s l) = Ok k (put s l) /\
    lh_set k bn (put s l) = Ok tt (put s (set_lh (lh_n l) (lh_block l') l)) /\
    l' = set_lh (if k =? lh_n l then lh_n l + 1 else lh_n l) (lh_block l') l /\
    log_ok l' /\ logged l' = absorbed (logged l) bn.
Proof.
  intros Hn Hsz Hsz2 Hhome. pose proof (bi_own _ _ _ I i HiO) as [Hlt Hd].
  pose proof (bi_range _ _ _ I i Hlt Hd) as Hr. fold bn in Hr. pose proof (lo_disk l Hok). pose proof (lo_n l Hok).
  destruct (absorb_ok l bn (logged l) s 0 LOOP Hok) as (k & E & Hk & Hd'); [lia|done|by apply LOOP_enough|].
  assert (Hkl : (Z.to_nat k < length (lh_block l))%nat) by (rewrite (lo_len l Hok); lia).
  set (blk := <[Z.to_nat k := s32 bn]> (lh_block l)).
  exists k, (set_lh (if k =? lh_n l then lh_n l + 1 else lh_n l) blk l). split; [done|]. split; [|split; [done|]].
  { unfold lh_set. change (lh_block (put s l)) with (lh_block l). by rewrite (proj2 (Nat.ltb_lt _ _)) by done. }
  assert (Hlg : logged (set_lh (if k =? lh_n l then lh_n l + 1 else lh_n l) blk l) = absorbed (logged l) bn).
  { unfold logged at 1, absorbed, blk. cbn [lh_n lh_block set_lh]. rewrite s32_id by lia.
    destruct (decide (bn ∈ logged l)).
    - destruct Hd' as [Hlk Hlt']. destruct (Z.eqb_spec k (lh_n l)); [lia|]. by rewrite list_insert_id.
    - rewrite Hd', Z.eqb_refl. replace (Z.to_nat (lh_n l + 1)) with (S (Z.to_nat (lh_n l))) by lia.
      apply take_insert_next. lia. }
  split; [|done]. apply log_ok_lh; [done|unfold blk; by rewrite length_insert|destruct (k =? lh_n l); lia| |].
  { destruct (k =? lh_n l); lia. }
  change (take _ blk) with (logged (set_lh (if k =? lh_n l then lh_n l + 1 else lh_n l) blk l)). rewrite Hlg.
  unfold absorbed. intros b Hb. destruct (decide (bn ∈ logged l)); [by apply (lo_blocks l Hok)|].
  apply elem_of_app in Hb as [Hb| ->%list_elem_of_singleton]; [by apply (lo_blocks l Hok)|done].
Qed.

Lemma log_write_ok :
  lh_n l < LOGSIZE -> lh_n l < lg_size l - 1 -> lg_size l <= NBUF -> 1 <= lg_outstanding l -> ~ in_log l bn ->
  exists l', log_write i l = Ok tt l' /\ log_ok l' /\ binv (l_b l') ord O /\
    logged l' = absorbed (logged l) bn /\ dirties (l_b l') (logged l') /\ dirty (getb (l_b l') i) /\
    (forall m, content (l_b l') m = content (l_b l) m) /\ wrote [] (l_b l) (l_b l') /\
    bc_ctx (l_b l') = bc_ctx (l_b l) /\ log_conf l' = log_conf l /\
    (forall j, getb (l_b l') j = if decide (i = j) then set_flags (Z.lor (b_flags (getb (l_b l) i)) B_DIRTY) (getb (l_b l) i)
                                 else getb (l_b l) j).
Proof.
  intros Hn Hsz Hsz2 Hout Hhome. set (c := bc_ctx (l_b l)).
  set (c1 := set_held ({[log_lock]} ∪ held c) c). set (s1 := put c1 (l_b l)).
  destruct (lh_slot s1 Hn Hsz Hsz2 Hhome) as (k & l1 & E1 & E2 & El & Hok1 & Hlg).
  destruct mark_dirty as (s2 & E3 & U & Hdb). destruct (held_upd_ok _ ord O I i HiO _ _ U) as (I2 & C2 & G2).
  assert (Hs2 : s2 = set_bufs (bc_bufs s2) (l_b l)) by (destruct U as [-> _]; done).
  exists (put s2 l1). split.
  { unfold log_write, bind at 1, get. cbn [seqr].
    assert ((LOGSIZE <=? lh_n l) || (lg_size l - 1 <=? lh_n l) = false) as -> by (apply orb_false_iff; lia).
    rewrite (proj2 (Z.ltb_ge _ _)) by lia.
    assert (Ea : Klock.acquire log_lock l = Ok tt (put s1 l)).
    { rewrite Klock.acquire_ok; [done|]. change (held (view l)) with (held (bc_ctx (l_b l))). rewrite Hheld. set_solver+. }
    rewrite (bind_ok _ _ _ _ _ Ea), (bind_ok _ _ _ _ _ (lift_put (field b_blockno i) l s1 bn s1 eq_refl)).
    rewrite (bind_ok _ _ _ _ _ E1), (bind_ok _ _ _ _ _ E2). unfold bind at 1, modify at 1. cbn [seqr].
    match goal with |- bind _ _ ?x = _ => replace x with (put s1 l1) end.
    2:{ rewrite El. cbn. by destruct (k =? lh_n l). }
    assert (E4 : setb (fun x => set_flags (Z.lor (b_flags x) B_DIRTY) x) i s1 = Ok tt (put c1 s2)).
    { injection E3 as <-. done. }
    rewrite (bind_ok _ _ _ _ _ (lift_put _ l1 _ _ _ E4)).
    rewrite (Klock.release_after _ c); [|unfold c; rewrite Hheld; set_solver+|done].
    f_equal. cbn. f_equal. rewrite Hs2. done. }
  change (l_b (put s2 l1)) with s2. change (logged (put s2 l1)) with (logged l1).
  change (log_conf (put s2 l1)) with (log_conf l1).
  split; [|split; [done|split; [done|split; [|split; [|split; [|split; [|split; [|split]]]]]]]].
  - destruct Hok1. rewrite El in *. rewrite Hs2. by constructor.
  - rewrite Hlg. intros j Hj. rewrite G2. unfold absorbed. destruct (decide (i = j)) as [<-|].
    + intros _. cbn. fold bn. destruct (decide _); [done|]. set_solver+.
    + intros Hdj. pose proof (Hdirty j Hj Hdj). destruct (decide _); set_solver.
  - by rewrite G2, decide_True.
  - intros m. rewrite C2. destruct (decide _) as [->|]; [|done]. symmetry.
    apply (content_cached _ ord O I), (own_cached _ ord O I i HiO).
  - rewrite Hs2. by apply wrote_nil.
  - by rewrite Hs2.
  - by rewrite El.
  - exact G2.
Qed.
End log_write.

(** * [begin_op] and [end_op] *)

(** The outcomes of a function that may sleep, the other processes changing
    the state by [R] meanwhile. *)
Inductive outcome {S A} (R : S -> S -> Prop) : result S A -> A -> S -> Prop :=
| outcome_ok a s : outcome R (Ok a s) a s
| outcome_switch s k s' a t : R s s' -> outcome R (k s') a t -> outcome R (Switch s k) a t.

Definition reserved (l : lst) : Prop :=
  lg_committing l = false /\ lh_n l + lg_outstanding l * MAXOPBLOCKS <= LOGSIZE.

Definition has_room (l : lst) : Prop :=
  lg_committing l = false /\ lh_n l + (lg_outstanding l + 1) * MAXOPBLOCKS <= LOGSIZE.

Lemma outcome_bind {S A B} R (m : M S A) (f : A -> M S B) s b t :
  outcome R (bind m f s) b t -> exists a s', outcome R (m s) a s' /\ outcome R (f a s') b t.
Proof.
  unfold bind. induction (m s) as [a s'|?|?| |s' k IH]; cbn [seqr]; intros H.
  - exists a, s'. split; [constructor|done].
  - inversion H.
  - inversion H.
  - inversion H.
  - inversion H as [|? ? s1 ? ? HR Ho]; subst. destruct (IH s1 Ho) as (a & s2 & H1 & H2).
    exists a, s2. split; [by econstructor|done].
Qed.

Lemma acquire_lst lk (l : lst) :
  lk ∉ held (bc_ctx (l_b l)) ->
  Klock.acquire lk l = Ok tt (put (set_held ({[lk]} ∪ held (bc_ctx (l_b l))) (bc_ctx (l_b l))) l).
Proof. intros H. exact (Klock.acquire_ok (S := lst) lk l H). Qed.

Lemma release_lst lk (l : lst) l' :
  Klock.release lk l = Ok tt l' -> exists c, l' = put c l.
Proof.
  unfold Klock.release, lift. destruct (decide _); cbn [lift_result]; [|done].
  intros [= <-]. eexists. reflexivity.
Qed.

Lemma begin_loop_outcome R fuel l t :
  outcome R (begin_loop fuel l) tt t -> reserved t.
Proof.
  revert l. induction fuel as [|fuel IH]; intros l H; cbn [begin_loop] in H; [inversion H|].
  unfold bind at 1, get in H. cbn [seqr] in H.
  destruct (lg_committing l) eqn:Ec; [apply outcome_bind in H as ([] & s' & _ & H); by apply (IH s')|].
  destruct (Z.ltb_spec LOGSIZE (lh_n l + (lg_outstanding l + 1) * MAXOPBLOCKS)) as [Hf|Hf].
  - apply outcome_bind in H as ([] & s' & _ & H). by apply (IH s').
  - unfold bind, modify in H. cbn [seqr] in H.
    assert (Hr : Klock.release log_lock (set_outstanding (lg_outstanding l + 1) l) = Ok tt t).
    { unfold Klock.release, lift in *. destruct (decide _); cbn [lift_result] in *; by inversion H. }
    apply release_lst in Hr as [c ->]. split; [done|]. cbn. lia.
Qed.

Lemma begin_op_room (l : lst) :
  held (bc_ctx (l_b l)) = ∅ -> has_room l -> begin_op l = Ok tt (set_outstanding (lg_outstanding l + 1) l).
Proof.
  intros Hh [Hc Hr]. unfold begin_op.
  assert (Hn : log_lock ∉ held (bc_ctx (l_b l))) by (rewrite Hh; set_solver+).
  rewrite (bind_ok _ _ _ _ _ (acquire_lst log_lock l Hn)).
  set (l1 := put _ l). change WAITS with (S 999). generalize 999%nat as waits. intros waits. cbn [begin_loop].
  unfold bind at 1, get. cbn [seqr]. change (lg_committing l1) with (lg_committing l). rewrite Hc.
  change (lh_n l1) with (lh_n l). change (lg_outstanding l1) with (lg_outstanding l).
  rewrite (proj2 (Z.ltb_ge _ _)) by lia. unfold bind, modify. cbn [seqr].
  rewrite (Klock.release_after _ (bc_ctx (l_b l))); [|done|done]. f_equal. by destruct l as [[] ? ? ? ? ? ? ?].
Qed.

Lemma begin_op_waits (l : lst) :
  held (bc_ctx (l_b l)) = ∅ -> ~ has_room l -> exists k, begin_op l = Switch (put (Klock.dozing log_chan (bc_ctx (l_b l))) l) k.
Proof.
  intros Hh Hr. unfold begin_op.
  assert (Hn : log_lock ∉ held (bc_ctx (l_b l))) by (rewrite Hh; set_solver+).
  rewrite (bind_ok _ _ _ _ _ (acquire_lst log_lock l Hn)).
  set (l1 := put _ l). change WAITS with (S 999). generalize 999%nat as waits. intros waits. cbn [begin_loop].
  unfold bind at 1, get. cbn [seqr]. change (lg_committing l1) with (lg_committing l).
  change (lh_n l1) with (lh_n l). change (lg_outstanding l1) with (lg_outstanding l).
  assert (Hsl : forall m : M lst unit, exists k,
    (Klock.sleep log_chan log_lock ;;; m) l1 = Switch (put (Klock.dozing log_chan (bc_ctx (l_b l))) l) k).
  { intros m. eexists. unfold bind. rewrite (Klock.sleep_after log_chan log_lock (bc_ctx (l_b l)) l1 Hn); [reflexivity|]. destruct l as [[]]. reflexivity. }
  destruct (lg_committing l) eqn:Ec; [apply Hsl|].
  destruct (Z.ltb_spec LOGSIZE (lh_n l + (lg_outstanding l + 1) * MAXOPBLOCKS)); [apply Hsl|].
  by destruct Hr.
Qed.

(** After a commit the home blocks on disk have their logged contents. *)
Lemma commit_home l s' h1 h0 m :
  log_ok l -> wrote (commit_writes l h1 h0) (l_b l) s' -> ~ in_log l m ->
  block_of (disk s') m = if decide (m ∈ logged l) then content (l_b l) m else block_of (disk (l_b l)) m.
Proof.
  intros Hok W Hm. rewrite (wr_disk _ _ _ W). unfold commit_writes. rewrite !replay_app.
  pose proof (lo_n l Hok). pose proof (logged_length l Hok). unfold in_log in Hm.
  rewrite block_of_replay1_ne by lia. rewrite block_of_homes. destruct (decide _); [done|].
  rewrite block_of_replay1_ne by lia.
  assert (Hc : forall a bs f d, ~ (a <= m < a + Z.of_nat (length bs)) -> block_of (replay (log_copies a bs f) d) m = block_of d m).
  { clear. intros a bs f. revert a. induction bs as [|b bs IH]; intros a d Hm; [done|]. simpl in Hm.
    change (replay (log_copies a (b :: bs) f) d) with (replay (log_copies (a + 1) bs f) (replay [(a, f b)] d)).
    rewrite IH by lia. apply block_of_replay1_ne. lia. }
  apply Hc. lia.
Qed.

Lemma free_lock lk (l : lst) : held (bc_ctx (l_b l)) = ∅ -> lk ∉ held (bc_ctx (l_b l)).
Proof. intros ->. set_solver+. Qed.

(** The end of [end_op], after the commit. *)
Definition end_finish : M lst unit :=
  Klock.acquire log_lock ;;;
  modify (set_committing false) ;;;
  Klock.wakeup log_chan ;;;
  Klock.release log_lock.

Lemma end_finish_ok l :
  held (bc_ctx (l_b l)) = ∅ ->
  end_finish l = Ok tt (put (set_woken (woken (bc_ctx (l_b l)) ++ [log_chan]) (bc_ctx (l_b l))) (set_committing false l)).
Proof.
  intros H. unfold end_finish. rewrite (bind_ok _ _ _ _ _ (acquire_lst log_lock l (free_lock _ l H))).
  unfold bind at 1 2, modify, Klock.wakeup, lift. cbn [seqr lift_result].
  rewrite (Klock.release_after _ (set_woken (woken (bc_ctx (l_b l)) ++ [log_chan]) (bc_ctx (l_b l))));
    [done|apply (free_lock _ l H)|done].
Qed.

Lemma end_op_unfold l :
  held (bc_ctx (l_b l)) = ∅ -> lg_committing l = false -> lg_outstanding l = 1 ->
  end_op l = (commit ;;; end_finish) (set_committing true (set_outstanding 0 l)).
Proof.
  intros H Hc Ho. unfold end_op. rewrite (bind_ok _ _ _ _ _ (acquire_lst log_lock l (free_lock _ l H))).
  unfold bind at 1 2, modify at 1, get. cbn [seqr].
  match goal with |- (if lg_committing ?x then _ else _) _ = _ => change (lg_committing x) with (lg_committing l);
    change (lg_outstanding x) with (lg_outstanding l - 1) end.
  rewrite Hc, Ho. change (1 - 1 =? 0) with true. cbn iota. unfold bind at 1, modify at 1. cbn [seqr].
  match goal with |- bind _ _ ?x = _ => set (l1 := x) end.
  assert (Hr : Klock.release log_lock l1 = Ok tt (set_committing true (set_outstanding 0 l))).
  { rewrite (Klock.release_after _ (bc_ctx (l_b l))); [|apply (free_lock _ l H)|done].
    f_equal. unfold l1. cbn. by rewrite Ho; destruct l as [[] ? ? ? ? ? ? ?]. }
  rewrite (bind_ok _ _ _ _ _ Hr). done.
Qed.

(** The last operation to end commits, and wakes those waiting for space. *)
Lemma end_op_last l ord :
  log_ok l -> calm (l_b l) ord (logged l) -> lg_outstanding l = 1 -> lg_committing l = false ->
  exists l', end_op l = Ok tt l' /\ lg_outstanding l' = 0 /\ lg_committing l' = false /\ lh_n l' = 0 /\
    log_chan ∈ woken (bc_ctx (l_b l')) /\
    forall m, ~ in_log l m -> block_of (disk (l_b l')) m = content (l_b l) m.
Proof.
  intros Hok C Ho Hc. rewrite end_op_unfold; [|apply C|done|done].
  set (l0 := set_committing true (set_outstanding 0 l)).
  assert (Hok0 : log_ok l0) by (destruct Hok; by constructor).
  assert (Hpost : exists l2, commit l0 = Ok tt l2 /\ held (bc_ctx (l_b l2)) = ∅ /\ lg_outstanding l2 = 0 /\ lh_n l2 = 0 /\
            forall m, ~ in_log l m -> block_of (disk (l_b l2)) m = content (l_b l) m).
  { destruct (Z.ltb_spec 0 (lh_n l)) as [Hn|Hn].
    - destruct (commit_ok l0 ord Hok0 C Hn) as (s' & ord' & E & C' & W). eexists. split; [exact E|].
      split; [apply C'|]. split; [done|]. split; [done|]. intros m Hm. cbn [l_b put lst_bst].
      rewrite (commit_home l0 s' _ _ m Hok0 W Hm). destruct (decide _) as [Hd|Hd]; [done|].
      symmetry. by apply (clean_content _ ord (logged l)).
    - pose proof (lo_n l Hok). exists l0. split.
      { unfold commit, bind, gets. cbn [seqr]. unfold when. rewrite (proj2 (Z.ltb_ge _ _)) by (cbn; lia). done. }
      split; [apply C|]. split; [done|]. split; [cbn; lia|]. intros m Hm. symmetry.
      apply (clean_content _ ord (logged l)); [done|]. unfold logged. replace (lh_n l) with 0 by lia. apply not_elem_of_nil. }
  destruct Hpost as (l2 & E & Hh & Ho2 & Hn2 & Hd). rewrite (bind_ok _ _ _ _ _ E), end_finish_ok by done.
  eexists. split; [reflexivity|]. split; [done|]. split; [done|]. split; [done|]. split; [|done]. cbn. set_solver+.
Qed.
