(* ===== verification/Recover.v ===== *)
(** Recovery at boot, [initlog] and [recover_from_log]: reading the header
    back and installing a committed transaction. *)

From S2P Require Import Prelude Params Spinlock Klock Bytes Bio Bcache Log Commit.
Open Scope Z_scope.
Open Scope xv6_scope.

(** * Reading a header back *)

Lemma header_blocks_length i bs d :
  (4 + 4 * (i + length bs) <= length d)%nat -> length (header_blocks i bs d) = length d.
Proof.
  revert i d. induction bs as [|b bs IH]; intros i d Hl; cbn [header_blocks]; [done|]. simpl in Hl.
  rewrite IH; rewrite put32_length by lia; [done|lia].
Qed.

Lemma header_blocks_low i bs d j :
  (4 + 4 * (i + length bs) <= length d)%nat -> (j + 4 <= 4 + 4 * i)%nat ->
  get32 (header_blocks i bs d) j = get32 d j.
Proof.
  revert i d. induction bs as [|b bs IH]; intros i d Hl Hj; cbn [header_blocks]; [done|]. simpl in Hl.
  rewrite IH; [|rewrite put32_length by lia; lia|lia]. apply get32_splice_out; simpl; lia.
Qed.

Lemma header_blocks_get i bs d k b :
  (4 + 4 * (i + length bs) <= length d)%nat -> bs !! k = Some b ->
  get32 (header_blocks i bs d) (4 + 4 * (i + k)) = u32 b.
Proof.
  revert i d k. induction bs as [|b' bs IH]; intros i d k Hl Hk; [done|]. cbn [header_blocks]. simpl in Hl.
  destruct k as [|k]; simpl in Hk.
  - injection Hk as ->. rewrite Nat.add_0_r, header_blocks_low; [|rewrite put32_length by lia; lia|lia].
    apply get32_put32. lia.
  - replace (4 + 4 * (i + S k))%nat with (4 + 4 * (S i + k))%nat by lia.
    apply IH; [|done]. rewrite put32_length by lia. lia.
Qed.

(** The header block decodes to what was written. *)
Lemma header_roundtrip n bs d :
  (4 + 4 * length bs <= length d)%nat ->
  get32 (header n bs d) 0 = u32 n /\
  forall k b, bs !! k = Some b -> get32 (header n bs d) (4 + 4 * k) = u32 b.
Proof.
  intros Hl. assert (Hp : length (put32 0 n d) = length d) by (apply put32_length; lia). unfold header. split.
  - rewrite header_blocks_low by lia. apply get32_put32. lia.
  - intros k b Hk. apply (header_blocks_get 0 bs); [lia|done].
Qed.

Lemma read_blocks_ok l (s : bst) d t fuel :
  length (lh_block l) = Z.to_nat LOGSIZE -> lh_n l <= LOGSIZE -> 0 <= t ->
  (Z.to_nat (lh_n l - t) < fuel)%nat ->
  exists bs, read_blocks fuel t d (put s l) = Ok tt (put s (set_lh (lh_n l) bs l)) /\
    length bs = length (lh_block l) /\
    forall i, bs !! i = if decide (Z.to_nat t <= i < Z.to_nat (lh_n l))%nat
                        then Some (s32 (get32 d (4 + 4 * i))) else lh_block l !! i.
Proof.
  revert l t. induction fuel as [|fuel IH]; intros l t Hlen Hn Ht Hf; [lia|]. cbn [read_blocks].
  unfold bind at 1, gets at 1; cbn [seqr]; change (lh_n (put s l)) with (lh_n l).
  destruct (Z.ltb_spec t (lh_n l)).
  - set (l' := set_lh (lh_n l) (<[Z.to_nat t := s32 (get32 d (4 + 4 * Z.to_nat t))]> (lh_block l)) l).
    assert (E : lh_set t (get32 d (4 + 4 * Z.to_nat t)) (put s l) = Ok tt (put s l')).
    { unfold lh_set. change (lh_block (put s l)) with (lh_block l).
      rewrite (proj2 (Nat.ltb_lt _ _)) by (rewrite Hlen; lia). done. }
    rewrite (bind_ok _ _ _ _ _ E).
    destruct (IH l' (t + 1)) as (bs & Eb & Hl & Hb); [unfold l'; cbn; by rewrite length_insert|done|lia|cbn; lia|].
    exists bs. split; [done|]. split; [rewrite Hl; unfold l'; cbn; by rewrite length_insert|].
    intros i. rewrite Hb. unfold l'. cbn [lh_n lh_block set_lh].
    destruct (decide (i = Z.to_nat t)) as [->|Hne].
    + rewrite decide_False by lia. rewrite decide_True by lia. rewrite list_lookup_insert_eq; [done|]. rewrite Hlen. lia.
    + rewrite list_lookup_insert_ne by done. apply decide_ext. lia.
  - exists (lh_block l). split; [by destruct l|]. split; [done|]. intros i. by rewrite decide_False by lia.
Qed.

(** * Recovery *)

(** The transaction a header block describes. *)
Definition header_n (h : bytes) : Z := s32 (get32 h 0).
Definition header_list (h : bytes) : list Z :=
  (fun i => s32 (get32 h (4 + 4 * i))) <$> seq 0 (Z.to_nat (header_n h)).

(** The log described by the disk fits the geometry of [l]. *)
Record disk_log_ok (l : lst) (h : bytes) : Prop := {
  dl_n : 0 <= header_n h < lg_size l;
  dl_small : header_n h < NBUF;
  dl_blocks : forall b, b ∈ header_list h -> 0 <= b < disksize (l_b l) /\ ~ in_log l b
}.

Lemma take_read bs h (n : nat) :
  (n <= length bs)%nat ->
  (forall i, (i < n)%nat -> bs !! i = Some (s32 (get32 h (4 + 4 * i)))) ->
  take n bs = (fun i => s32 (get32 h (4 + 4 * i))) <$> seq 0 n.
Proof.
  intros Hl Hb. apply list_eq. intros i. rewrite list_lookup_fmap. destruct (decide (i < n)%nat) as [Hi|Hi].
  - rewrite lookup_take_lt, Hb by done. by rewrite lookup_seq_lt.
  - rewrite lookup_take_ge, lookup_seq_ge by lia. done.
Qed.

Lemma calm_bread1_rel s ord i n s' :
  calm s ord [] -> binv s' ord {[i]} -> bread_post s ∅ n i s' ->
  exists s'' ord', brelse i s' = Ok tt s'' /\ calm s'' ord' [] /\ wrote [] s s''.
Proof.
  intros C I P. destruct (bread_wrote _ _ _ _ _ P) as [W X].
  destruct (bp_cached _ _ _ _ _ P) as (_ & _ & N).
  destruct (brelse_ok s' ord {[i]} I) with (i := i) as (s'' & l1 & l2 & Ho & E & I' & P');
    [by rewrite X; apply C|set_solver+|rewrite N; apply (bp_sync _ _ _ _ _ P)|].
  exists s'', (i :: l1 ++ l2). split; [done|]. split.
  - constructor.
    + replace (({[i]} : gset nat) ∖ {[i]}) with (∅ : gset nat) in I' by set_solver+. done.
    + rewrite (rp_held _ _ P'), X. apply C.
    + apply (brelse_dirties s'); [done|]. apply (bread_dirties s ∅ n i); [done|]. apply C.
  - apply (wrote_trans [] [] s s' s'' W (brelse_wrote _ _ P')).
Qed.

(** Where the log is. *)
Record geometry (l : lst) : Prop := {
  ge_dev : lg_dev l = 1;
  ge_start : 0 <= lg_start l;
  ge_end : lg_start l + lg_size l <= disksize (l_b l);
  ge_disk : disksize (l_b l) < 2 ^ 31;
  ge_len : length (lh_block l) = Z.to_nat LOGSIZE
}.

Lemma log_ok_read l h bs :
  geometry l -> disk_log_ok l h -> length bs = length (lh_block l) ->
  take (Z.to_nat (header_n h)) bs = header_list h -> log_ok (set_lh (header_n h) bs l).
Proof.
  intros G D Hl Hb. constructor; try apply G; try apply D.
  - cbn. rewrite Hl. apply G.
  - unfold logged. cbn [lh_n lh_block set_lh]. rewrite Hb. apply D.
Qed.

Lemma read_head_ok l (s : bst) ord :
  geometry l -> calm s ord [] -> disksize s = disksize (l_b l) ->
  let h := block_of (disk s) (lg_start l) in
  disk_log_ok l h ->
  exists s' ord' bs, read_head (put s l) = Ok tt (put s' (set_lh (header_n h) bs l)) /\
    calm s' ord' [] /\ wrote [] s s' /\ log_ok (set_lh (header_n h) bs l) /\
    logged (set_lh (header_n h) bs l) = header_list h.
Proof.
  intros G C Hz h D. pose proof (dl_n _ _ D). pose proof (dl_small _ _ D).
  pose proof (ge_start l G). pose proof (ge_end l G). pose proof (ge_disk l G).
  unfold read_head, bind at 1, get. cbn [seqr]. change (lg_dev (put s l)) with (lg_dev l).
  change (lg_start (put s l)) with (lg_start l). rewrite (ge_dev l G), u32_id by lia.
  destruct (bread1 s ord [] (lg_start l) C) as (i & s1 & E1 & I1 & P1 & _); [vm_compute; lia|lia|].
  destruct (calm_bread1_rel s ord i _ s1 C I1 P1) as (s2 & ord2 & E2 & C2 & W2).
  set (l1 := set_lh (header_n h) (lh_block l) l).
  destruct (read_blocks_ok l1 s1 h 0 LOOP) as (bs & Eb & Hl & Hb);
    [apply G|unfold l1; cbn; unfold NBUF, LOGSIZE in *; lia|lia|unfold l1, LOOP; cbn; unfold NBUF, LOGSIZE in *; lia|].
  assert (Hbs : take (Z.to_nat (header_n h)) bs = header_list h).
  { apply take_read.
    - rewrite Hl. unfold l1. cbn. rewrite (ge_len l G). unfold NBUF, LOGSIZE in *. lia.
    - intros k Hk. rewrite Hb, decide_True; [done|]. unfold l1. cbn. lia. }
  exists s2, ord2, bs. split; [|split; [done|split; [done|split; [by apply log_ok_read|done]]]].
  rewrite (bind_ok _ _ _ _ _ (lift_put _ l _ _ _ E1)).
  rewrite (bind_ok _ _ _ _ _ (lift_put (field b_data i) l s1 _ s1 eq_refl)), (bp_data _ _ _ _ _ P1).
  rewrite (calm_content s ord) by done. fold h.
  unfold bind at 1, modify. cbn [seqr]. fold (header_n h).
  change (set_lh (header_n h) (lh_block (put s1 l)) (put s1 l)) with (put s1 l1).
  rewrite (bind_ok _ _ _ _ _ Eb). exact (lift_put _ (set_lh (lh_n l1) bs l1) _ _ _ E2).
Qed.

(** Recovery copies the committed blocks home and clears the header. *)
Lemma recover_ok l (s : bst) ord :
  geometry l -> calm s ord [] -> disksize s = disksize (l_b l) ->
  let h := block_of (disk s) (lg_start l) in
  disk_log_ok l h ->
  exists l' ord' h0, recover_from_log (put s l) = Ok tt l' /\
    calm (l_b l') ord' [] /\ lh_n l' = 0 /\
    wrote (home_copies (lg_start l + 1) (header_list h) (block_of (disk s)) ++ [(lg_start l, h0)]) s (l_b l').
Proof.
  intros G C Hz h D.
  destruct (read_head_ok l s ord G C Hz D) as (s1 & o1 & bs & E1 & C1 & W1 & Hok & Hlg). fold h in E1, Hok, Hlg.
  set (l1 := set_lh (header_n h) bs l) in *.
  destruct (install_loop_ok l1 (logged l1) s1 o1 0 LOOP Hok) as (s2 & o2 & E2 & C2 & W2).
  { by apply (calm_weaken s1 o1 [] _ C1); intros ? []%not_elem_of_nil. }
  { by rewrite (wr_size _ _ _ W1). }
  { pose proof (lo_n l1 Hok). lia. }
  { done. }
  { by apply LOOP_enough. }
  rewrite Z.add_0_r in W2. pose proof (wrote_trans _ _ _ _ _ W1 W2) as W12. cbn [app] in W12.
  set (l2 := set_lh 0 bs l1).
  destruct (write_head_ok l2 s2 o2 [] (log_ok_zero l1 Hok) C2) as (s3 & o3 & E3 & C3 & W3 & _);
    [rewrite (wr_size _ _ _ W12); done|vm_compute; lia|].
  exists (put s3 l2), o3, (header (lh_n l2) (logged l2) (content s2 (lg_start l2))).
  split; [|split; [done|split; [done|]]].
  - unfold recover_from_log. rewrite (bind_ok _ _ _ _ _ E1), (bind_ok _ _ _ _ _ E2). exact E3.
  - pose proof (wrote_trans _ _ _ _ _ W12 W3) as W. rewrite Hlg in W.
    rewrite (home_copies_ext _ _ _ (block_of (disk s))) in W; [exact W|].
    intros m _. rewrite (calm_content s1 o1) by done. by rewrite (wr_disk _ _ _ W1).
Qed.

(** * Booting from a disk *)

(** The machine before [binit], and the start of the file system:
    [binit] in [main] and [initlog] in the first process. *)
Definition cold (d : blockmap) (size : Z) : lst :=
  Lst (powered_on (Kctx ∅ [] [] 1) d size) 0 0 0 false 0 0 (replicate (Z.to_nat LOGSIZE) 0).

Definition boot : M lst unit := lift binit ;;; initlog ROOTDEV.

(** A disk whose superblock places the log at [start], [nlog] blocks long,
    with a transaction in it that fits. *)
Record bootable (d : blockmap) (size start nlog : Z) : Prop := {
  bo_start : s32 (sb_logstart (superblock_of (block_of d 1))) = start;
  bo_nlog : s32 (sb_nlog (superblock_of (block_of d 1))) = nlog;
  bo_pos : 1 < start;
  bo_end : start + nlog <= size;
  bo_size : size < 2 ^ 31;
  bo_n : 0 <= header_n (block_of d start) < nlog;
  bo_small : header_n (block_of d start) < NBUF;
  bo_blocks : forall b, b ∈ header_list (block_of d start) -> 0 <= b < size /\ ~ (start <= b < start + nlog)
}.

Lemma empty_calm s ord : binv s ord ∅ -> held (bc_ctx s) = ∅ -> (forall n i, ~ cached s n i) -> calm s ord [].
Proof.
  intros I H Hnc. constructor; [done|done|]. intros i Hi Hd. destruct (Hnc (b_blockno (getb s i)) i). split; [done|].
  destruct (bi_flags _ _ _ I i Hi) as [[_ F]|[F _]]; [|done]. unfold dirty in Hd. rewrite F in Hd. discriminate Hd.
Qed.

Lemma readsb_ok s ord :
  calm s ord [] -> 1 < disksize s ->
  exists s' ord', readsb 1 s = Ok (superblock_of (block_of (disk s) 1)) s' /\ calm s' ord' [] /\ wrote [] s s'.
Proof.
  intros C Hz. destruct (bread1 s ord [] 1 C) as (i & s1 & E1 & I1 & P1 & _); [vm_compute; lia|lia|].
  destruct (calm_bread1_rel s _ i _ s1 C I1 P1) as (s2 & ord2 & E2 & C2 & W2). exists s2, ord2. split; [|done].
  unfold readsb. rewrite (bind_ok _ _ _ _ _ E1). unfold field, bind at 1, gets. cbn [seqr].
  rewrite (bind_ok _ _ _ _ _ E2), (bp_data _ _ _ _ _ P1). by rewrite (calm_content s ord).
Qed.

Lemma initlog_ok (s : bst) ord l start nlog :
  calm s ord [] -> bootable (disk s) (disksize s) start nlog ->
  length (lh_block l) = Z.to_nat LOGSIZE -> disksize (l_b l) = disksize s ->
  exists l' ord' h0, initlog 1 (put s l) = Ok tt l' /\ calm (l_b l') ord' [] /\ lh_n l' = 0 /\
    disk (l_b l') = replay (home_copies (start + 1) (header_list (block_of (disk s) start)) (block_of (disk s)) ++ [(start, h0)]) (disk s).
Proof.
  intros C B Hl Hz. pose proof (bo_pos _ _ _ _ B). pose proof (bo_end _ _ _ _ B). pose proof (bo_n _ _ _ _ B).
  destruct (readsb_ok s ord C) as (s2 & ord2 & E2 & C2 & W2); [lia|].
  set (l1 := set_log start nlog 1 l).
  pose proof (wr_disk _ _ _ W2 : disk s2 = disk s) as D2.
  destruct (recover_ok l1 s2 ord2) as (l' & ord' & h0 & E3 & C3 & Hn & W3).
  { constructor; [done|cbn; lia|cbn; lia| |done]. cbn. rewrite Hz. apply B. }
  { exact C2. }
  { change (disksize (l_b l1)) with (disksize (l_b l)). by rewrite (wr_size _ _ _ W2), Hz. }
  { rewrite D2. constructor; [apply B|apply B|]. change (disksize (l_b l1)) with (disksize (l_b l)). rewrite Hz. apply B. }
  exists l', ord', h0. split; [|split; [exact C3|split; [exact Hn|]]].
  - unfold initlog. rewrite (bind_ok _ _ _ _ _ (lift_put _ l _ _ _ E2)). unfold bind at 1, modify. cbn [seqr].
    rewrite (bo_start _ _ _ _ B), (bo_nlog _ _ _ _ B). exact E3.
  - rewrite (wr_disk _ _ _ W3), D2. reflexivity.
Qed.

Lemma cold_size d size : disksize (l_b (cold d size)) = size.
Proof. reflexivity. Qed.

#[local] Opaque binit powered_on.

Lemma boot_ok d size start nlog :
  bootable d size start nlog ->
  exists l h0, boot (cold d size) = Ok tt l /\ lh_n l = 0 /\
    disk (l_b l) = replay (home_copies (start + 1) (header_list (block_of d start)) (block_of d) ++ [(start, h0)]) d /\
    forall m, content (l_b l) m = block_of (disk (l_b l)) m.
Proof.
  intros B. destruct (binit_ok (Kctx ∅ [] [] 1) d size) as (s & E & I & Hc & Hd & Hz & Hw & Hnc).
  assert (C : calm s (rev (seq 0 HEAD)) []) by (apply (empty_calm s _ I); [rewrite Hc; reflexivity|exact Hnc]).
  destruct (initlog_ok s _ (cold d size) start nlog C) as (l' & ord' & h0 & E' & C' & Hn & D').
  { rewrite Hd, Hz. exact B. }
  { reflexivity. }
  { rewrite Hz. apply cold_size. }
  rewrite Hd in D'. exists l', h0. split; [|split; [exact Hn|split; [exact D'|]]].
  - assert (E1 : lift binit (cold d size) = Ok tt (put s (cold d size))) by (apply lift_ok; exact E).
    unfold boot. rewrite (bind_ok _ _ _ _ _ E1). exact E'.
  - intros m. exact (calm_content _ ord' m C').
Qed.
