(* ===== verification/CrashSpec.v ===== *)
(** The crash-safety theorem of the log, and the properties of its
    admission control. *)

From S2P Require Import Prelude Params Spinlock Klock Bytes Bio Bcache Log Commit LogOps Recover.
Open Scope Z_scope.
Open Scope xv6_scope.

(** * Disks along a commit *)

Lemma log_copies_take k a bs f : take k (log_copies a bs f) = log_copies a (take k bs) f.
Proof. revert a k. induction bs as [|b bs IH]; intros a [|k]; simpl; [done..|]. by rewrite IH. Qed.

Lemma log_copies_length a bs f : length (log_copies a bs f) = length bs.
Proof. revert a. induction bs as [|b bs IH]; intros a; simpl; [done|]. by rewrite IH. Qed.

Lemma block_of_replay_other ws d m : (forall w, w ∈ ws -> w.1 <> m) -> block_of (replay ws d) m = block_of d m.
Proof.
  revert d. induction ws as [|[n x] ws IH]; intros d H; [done|].
  change (replay ((n, x) :: ws) d) with (replay ws (replay [(n, x)] d)).
  rewrite IH by (intros; apply H; set_solver). apply block_of_replay1_ne.
  intros ->. by apply (H (n, x)); [set_solver|].
Qed.

Lemma log_copies_range a bs f w : w ∈ log_copies a bs f -> a <= w.1 < a + Z.of_nat (length bs).
Proof.
  revert a. induction bs as [|b bs IH]; intros a; simpl; [by intros ?%not_elem_of_nil|].
  intros [->|H]%elem_of_cons; [simpl; lia|]. apply IH in H. lia.
Qed.

Lemma block_of_log_copies a bs f d k b :
  bs !! k = Some b -> block_of (replay (log_copies a bs f) d) (a + Z.of_nat k) = f b.
Proof.
  revert a d k. induction bs as [|b' bs IH]; intros a d k Hk; [done|].
  change (replay (log_copies a (b' :: bs) f) d) with (replay (log_copies (a + 1) bs f) (replay [(a, f b')] d)).
  destruct k as [|k]; simpl in Hk.
  - injection Hk as ->. rewrite Z.add_0_r, block_of_replay_other; [apply block_of_replay1|].
    intros w Hw%log_copies_range. lia.
  - replace (a + Z.of_nat (S k)) with (a + 1 + Z.of_nat k) by lia. by apply IH.
Qed.

Lemma take_split {A} k (ws : list A) x ws' :
  (k <= length ws)%nat /\ take k (ws ++ x :: ws') = take k ws \/
  exists j, take k (ws ++ x :: ws') = ws ++ x :: take j ws'.
Proof.
  destruct (decide (k <= length ws)%nat) as [Hk|Hk]; [left; split; [done|by apply take_app_le]|].
  right. rewrite take_app_ge by lia. destruct (k - length ws)%nat as [|j] eqn:E; [lia|]. by exists j.
Qed.

(** A transaction ready to commit: the log is inside the disk, the header on
    disk is empty, the superblock describes the log and is not part of the
    transaction. *)
Record txn_ok (l : lst) (ord : list nat) : Prop := {
  tx_log : log_ok l;
  tx_calm : calm (l_b l) ord (logged l);
  tx_some : 0 < lh_n l;
  tx_pos : 1 < lg_start l;
  tx_super : 1 ∉ logged l;
  tx_sbstart : s32 (sb_logstart (superblock_of (block_of (disk (l_b l)) 1))) = lg_start l;
  tx_sbnlog : s32 (sb_nlog (superblock_of (block_of (disk (l_b l)) 1))) = lg_size l;
  tx_idle : header_n (block_of (disk (l_b l)) (lg_start l)) = 0;
  tx_hlen : length (block_of (disk (l_b l)) (lg_start l)) = Z.to_nat BSIZE
}.

#[local] Opaque boot cold.

Section crash.
Context (l : lst) (ord : list nat) (T : txn_ok l ord).
Let d0 := disk (l_b l).
Let f := content (l_b l).
Let bs := logged l.
Let start := lg_start l.
Let h1 := header (lh_n l) bs (f start).

Lemma tx_f m : m ∉ bs -> f m = block_of d0 m.
Proof. intros. by apply (clean_content _ ord bs); [apply T|]. Qed.

Lemma tx_h1 : (4 + 4 * length bs <= length (f start))%nat.
Proof.
  rewrite tx_f by (apply start_not_logged, T). unfold d0, start. rewrite (tx_hlen _ _ T).
  unfold bs. rewrite logged_length by apply T. pose proof (lo_small l (tx_log _ _ T)).
  unfold NBUF, MAXOPBLOCKS, BSIZE in *. lia.
Qed.

Lemma tx_h1_n : header_n h1 = lh_n l.
Proof.
  unfold header_n, h1. destruct (header_roundtrip (lh_n l) bs (f start) tx_h1) as [-> _].
  pose proof (lo_n l (tx_log _ _ T)). pose proof (lo_small l (tx_log _ _ T)). unfold NBUF, MAXOPBLOCKS in *.
  rewrite u32_id by lia. apply s32_id. lia.
Qed.

Lemma tx_h1_list : header_list h1 = bs.
Proof.
  unfold header_list. rewrite tx_h1_n. unfold bs. rewrite <- (logged_length l) by apply T. fold bs.
  apply list_eq. intros k. rewrite list_lookup_fmap. destruct (bs !! k) as [b|] eqn:Hk.
  - pose proof (lookup_lt_Some _ _ _ Hk). rewrite lookup_seq_lt by done.
    change (0 + k)%nat with k. cbn [fmap option_fmap option_map].
    destruct (header_roundtrip (lh_n l) bs (f start) tx_h1) as [_ Hr]. fold h1 in Hr.
    rewrite (Hr k b Hk). apply list_elem_of_lookup_2 in Hk.
    destruct (lo_blocks l (tx_log _ _ T) b Hk) as [Hb _]. pose proof (lo_disk l (tx_log _ _ T)).
    rewrite u32_id by lia. by rewrite s32_id by lia.
  - apply lookup_ge_None in Hk. by rewrite lookup_seq_ge by lia.
Qed.

Lemma tx_h0_n : header_n (put32 0 0 h1) = 0.
Proof.
  unfold header_n. rewrite get32_put32; [done|]. unfold h1, header. pose proof tx_h1 as Hl.
  rewrite header_blocks_length; rewrite put32_length by lia; lia.
Qed.

Definition home (m : Z) : Prop := ~ in_log l m.

(** Every disk along the commit has its superblock in place. *)
Lemma tx_bootable d :
  block_of d 1 = block_of d0 1 ->
  (header_n (block_of d start) = 0 \/ block_of d start = h1) ->
  bootable d (disksize (l_b l)) start (lg_size l).
Proof.
  intros H1 Hh. pose proof (tx_log _ _ T) as Hok. pose proof (lo_n l Hok). pose proof (lo_small l Hok).
  constructor; try (rewrite H1; apply T); try apply Hok; try apply T.
  - destruct Hh as [-> | ->]; rewrite ?tx_h1_n; lia.
  - destruct Hh as [-> | ->]; rewrite ?tx_h1_n; [unfold NBUF, MAXOPBLOCKS|]; lia.
  - intros b Hb. destruct Hh as [Hn|Hn].
    + unfold header_list in Hb. rewrite Hn in Hb. by apply not_elem_of_nil in Hb.
    + rewrite Hn, tx_h1_list in Hb. by apply (lo_blocks l Hok).
Qed.

(** Booting a disk with an empty header leaves the home blocks alone. *)
Lemma boot_empty d :
  block_of d 1 = block_of d0 1 -> header_n (block_of d start) = 0 ->
  exists r, boot (cold d (disksize (l_b l))) = Ok tt r /\ forall m, home m -> content (l_b r) m = block_of d m.
Proof.
  intros H1 Hh. destruct (boot_ok d (disksize (l_b l)) start (lg_size l)) as (r & h0 & E & _ & Hd & Hc).
  { apply tx_bootable; [done|by left]. }
  exists r. split; [exact E|]. intros m Hm. rewrite Hc, Hd. unfold header_list. rewrite Hh.
  apply block_of_replay1_ne. intros ->. apply Hm. unfold in_log. fold start. pose proof (lo_n l (tx_log _ _ T)). lia.
Qed.

(** Booting a disk with the committed header completes the transaction. *)
Lemma boot_committed d :
  block_of d 1 = block_of d0 1 -> block_of d start = h1 ->
  (forall k b, bs !! k = Some b -> block_of d (start + 1 + Z.of_nat k) = f b) ->
  (forall m, home m -> m ∉ bs -> block_of d m = block_of d0 m) ->
  exists r, boot (cold d (disksize (l_b l))) = Ok tt r /\ forall m, home m -> content (l_b r) m = f m.
Proof.
  intros H1 Hh Hlog Hrest. destruct (boot_ok d (disksize (l_b l)) start (lg_size l)) as (r & h0 & E & _ & Hd & Hc).
  { apply tx_bootable; [done|by right]. }
  exists r. split; [exact E|]. intros m Hm. rewrite Hc, Hd, Hh, tx_h1_list, (home_copies_homes _ _ _ f) by done.
  rewrite replay_app, block_of_replay1_ne, block_of_homes.
  - destruct (decide (m ∈ bs)); [done|]. by rewrite Hrest, tx_f.
  - intros ->. apply Hm. unfold in_log. fold start. pose proof (lo_n l (tx_log _ _ T)). lia.
Qed.

(** The disk after the log, the header and some of the home blocks. *)
Lemma after_header j :
  let d := replay (log_copies (start + 1) bs f ++ (start, h1) :: homes (take j bs) f) d0 in
  block_of d 1 = block_of d0 1 /\ block_of d start = h1 /\
  (forall k b, bs !! k = Some b -> block_of d (start + 1 + Z.of_nat k) = f b) /\
  (forall m, home m -> block_of d m = if decide (m ∈ take j bs) then f m else block_of d0 m).
Proof.
  intros d. pose proof (tx_log _ _ T) as Hok. pose proof (lo_n l Hok) as Hn. pose proof (tx_pos _ _ T) as Hp.
  pose proof (logged_length l Hok) as Hlen. fold bs in Hlen. fold start in Hp.
  set (d2 := replay [(start, h1)] (replay (log_copies (start + 1) bs f) d0)).
  assert (Hd : d = replay (homes (take j bs) f) d2) by (unfold d, d2; by rewrite replay_app).
  assert (Hsub : forall m, m ∈ take j bs -> m ∈ bs).
  { intros m Hm. rewrite <- (take_drop j bs). apply elem_of_app. by left. }
  assert (Hin : forall m, in_log l m -> m ∉ take j bs).
  { intros m Hm Hb%Hsub. by destruct (lo_blocks l Hok m Hb). }
  assert (Hm2 : forall m, home m -> block_of d2 m = block_of d0 m).
  { intros m Hm. unfold home, in_log in Hm. fold start in Hm. unfold d2.
    rewrite block_of_replay1_ne by lia. apply block_of_replay_other. intros w Hw%log_copies_range. lia. }
  rewrite Hd. split; [|split; [|split]].
  - rewrite block_of_homes_ne; [apply Hm2|intros Hb%Hsub; by apply (tx_super _ _ T)].
    unfold home, in_log. fold start. lia.
  - rewrite block_of_homes_ne; [apply block_of_replay1|]. apply Hin. unfold in_log. fold start. lia.
  - intros k b Hk. pose proof (lookup_lt_Some _ _ _ Hk).
    rewrite block_of_homes_ne; [|apply Hin; unfold in_log; fold start; lia].
    unfold d2. rewrite block_of_replay1_ne by lia. by apply block_of_log_copies.
  - intros m Hm. rewrite block_of_homes. destruct (decide _); [done|]. by apply Hm2.
Qed.

(** Each prefix of the commit's writes recovers to the old or the new state. *)
Lemma crash_point k :
  let d := replay (take k (commit_writes l h1 (put32 0 0 h1))) d0 in
  exists r, boot (cold d (disksize (l_b l))) = Ok tt r /\
    ((forall m, home m -> content (l_b r) m = block_of d0 m) \/ (forall m, home m -> content (l_b r) m = f m)).
Proof.
  pose proof (tx_log _ _ T) as Hok. pose proof (lo_n l Hok) as Hn. pose proof (tx_pos _ _ T) as Hp. fold start in Hp.
  pose proof (logged_length l Hok) as Hlen. fold bs in Hlen.
  unfold commit_writes. fold start bs f. cbn [app].
  destruct (take_split k (log_copies (start + 1) bs f) (start, h1) (homes bs f ++ [(start, put32 0 0 h1)]))
    as [[_ ->]|[j ->]].
  - rewrite log_copies_take. set (d := replay _ d0).
    assert (Hd : forall m, m <= start \/ start + lg_size l <= m -> block_of d m = block_of d0 m).
    { intros m Hm. apply block_of_replay_other. intros w Hw%log_copies_range.
      rewrite length_take in Hw. lia. }
    destruct (boot_empty d) as (r & E & Hr); [apply Hd; lia|rewrite Hd by lia; apply T|].
    exists r. split; [exact E|]. left. intros m Hm. rewrite Hr by done. apply Hd.
    unfold home, in_log in Hm. fold start in Hm. lia.
  - destruct (after_header j) as (A1 & A2 & A3 & A4).
    destruct (decide (j <= length bs)%nat) as [Hj|Hj].
    + rewrite take_app_le by (unfold homes; by rewrite length_fmap).
      replace (take j (homes bs f)) with (homes (take j bs) f) by (unfold homes; by rewrite fmap_take).
      set (d := replay _ d0) in *.
      destruct (boot_committed d) as (r & E & Hr); [exact A1|exact A2|exact A3| |].
      { intros m Hm Hb. rewrite (A4 m Hm), decide_False; [done|]. intros Hx. apply Hb.
        rewrite <- (take_drop j bs). apply elem_of_app. by left. }
      exists r. split; [exact E|]. by right.
    + rewrite (take_ge bs) in * by lia. rewrite take_ge by (rewrite length_app; unfold homes; rewrite length_fmap; simpl; lia).
      set (d := replay _ d0). set (d' := replay _ d0) in *.
      assert (Hd : d = replay [(start, put32 0 0 h1)] d').
      { unfold d, d'. rewrite <- replay_app. f_equal. by rewrite <- app_assoc. }
      assert (Hs : home 1) by (unfold home, in_log; fold start; lia).
      destruct (boot_empty d) as (r & E & Hr).
      { rewrite Hd, block_of_replay1_ne by lia. done. }
      { rewrite Hd, block_of_replay1. apply tx_h0_n. }
      exists r. split; [exact E|]. right. intros m Hm. rewrite (Hr m Hm), Hd, block_of_replay1_ne.
      * rewrite (A4 m Hm). destruct (decide (m ∈ bs)); [done|]. by rewrite tx_f.
      * intros ->. apply Hm. unfold in_log. fold start. lia.
Qed.
End crash.

(** * A transaction on a concrete disk *)

(** The disk [mkfs] lays out: the log at block 2, 30 blocks long. *)
Definition demo_super : bytes :=
  le32 1000 ++ le32 941 ++ le32 200 ++ le32 30 ++ le32 2 ++ le32 32 ++ le32 58 ++ replicate 484 0.
Definition demo_disk : blockmap := {[1 := demo_super]}.
Definition demo_log (s : bst) : lst := Lst s 2 30 1 false 1 0 (replicate (Z.to_nat LOGSIZE) 0).
Definition demo_data : bytes := replicate (Z.to_nat BSIZE) 7.

Lemma demo_boot :
  exists s, calm s (rev (seq 0 HEAD)) [] /\ disk s = demo_disk /\ disksize s = 1000.
Proof.
  destruct (binit_ok (Kctx ∅ [] [] 1) demo_disk 1000) as (s & _ & I & Hc & Hd & Hz & _ & Hnc).
  exists s. split; [|done]. apply (empty_calm s _ I); [by rewrite Hc|done].
Qed.

Lemma demo_log_ok s : disksize s = 1000 -> log_ok (demo_log s).
Proof.
  intros Hz. constructor; cbn; rewrite ?Hz; try done. intros b Hb. by apply not_elem_of_nil in Hb.
Qed.

(** Block 100 read, changed and passed to [log_write]. *)
Lemma demo_write :
  exists l ord i, log_ok l /\ binv (l_b l) ord {[i]} /\ held (bc_ctx (l_b l)) = ∅ /\ dirties (l_b l) (logged l) /\
    b_blockno (getb (l_b l) i) = 100 /\ lh_n l = 0 /\ lg_size l = 30 /\ lg_start l = 2 /\ lg_outstanding l = 1 /\
    lg_committing l = false /\ disk (l_b l) = demo_disk /\ content (l_b l) 100 = demo_data.
Proof.
  destruct demo_boot as (s & C & Hd & Hz).
  destruct (bread1 s _ [] 100 C) as (i & s1 & E1 & I1 & P1 & D1); [vm_compute; lia|lia|].
  destruct (bread_wrote _ _ _ _ _ P1) as [W1 X1]. destruct (bp_cached _ _ _ _ _ P1) as (_ & _ & N1).
  assert (Hown : i ∈ ({[i]} : gset nat)) by set_solver+.
  destruct (store_ok s1 _ _ i demo_data I1 Hown) as (s2 & E2 & U2).
  destruct (held_upd_ok s1 _ _ I1 i Hown _ _ U2) as (I2 & C2 & G2). destruct U2 as [Hs2 _].
  exists (demo_log s2), (rev (seq 0 HEAD)), i. split; [apply demo_log_ok; by rewrite Hs2; cbn; rewrite (wr_size _ _ _ W1)|].
  split; [done|]. split; [change (held (bc_ctx s2) = ∅); rewrite Hs2; cbn; rewrite X1; apply C|]. split.
  { intros k Hk. change (l_b (demo_log s2)) with s2. rewrite G2. destruct (decide (i = k)) as [<-|]; [by apply (D1 i)|by apply D1]. }
  change (l_b (demo_log s2)) with s2. split; [by rewrite G2, decide_True|]. do 5 (split; [done|]). split.
  - rewrite Hs2. cbn. by rewrite (wr_disk _ _ _ W1).
  - by rewrite C2, N1, decide_True.
Qed.

Lemma demo_txn :
  exists l ord, txn_ok l ord /\ lg_outstanding l = 1 /\ lg_committing l = false /\ content (l_b l) 100 = demo_data /\
    lg_start l = 2 /\ lg_size l = 30.
Proof.
  destruct demo_write as (l & ord & i & Hok & I & Hh & D & N & Hn & Hsz & Hst & Ho & Hc & Hd & K).
  assert (Hown : i ∈ ({[i]} : gset nat)) by set_solver+.
  assert (Hhome : ~ in_log l (b_blockno (getb (l_b l) i))) by (rewrite N; unfold in_log; lia).
  destruct (log_write_ok l ord {[i]} i Hok I Hh Hown D) as (l1 & E1 & Hok1 & I1 & Hlg & D1 & Hdi & K1 & W1 & X1 & Hcf & _);
    try (unfold NBUF, LOGSIZE, MAXOPBLOCKS; lia); [done|].
  injection Hcf as Hst1 Hsz1 Ho1 Hc1 _.
  assert (Hlg1 : logged l1 = [100]) by (rewrite Hlg, N; unfold logged; by rewrite Hn).
  destruct (brelse_ok (l_b l1) ord {[i]} I1) with (i := i) as (s2 & o1 & o2 & _ & E2 & I2 & P2); [by rewrite X1|done| |].
  { unfold clean. rewrite Hdi. done. }
  assert (Hd2 : disk s2 = demo_disk) by (by rewrite (rp_disk _ _ P2), (wr_disk _ _ _ W1)).
  exists (put s2 l1), (i :: o1 ++ o2). split; [|split; [cbn; lia|split; [cbn; congruence|split; [|cbn; lia]]]].
  2:{ cbn [l_b put lst_bst]. rewrite (content_payload (l_b l1) s2), K1 by apply P2. done. }
  assert (Hn1 : lh_n l1 = 1).
  { pose proof (logged_length l1 Hok1) as Hl. rewrite Hlg1 in Hl. pose proof (lo_n l1 Hok1). simpl in Hl. lia. }
  constructor; change (logged (put s2 l1)) with (logged l1); change (l_b (put s2 l1)) with s2;
    change (lg_start (put s2 l1)) with (lg_start l1); change (lg_size (put s2 l1)) with (lg_size l1);
    rewrite ?Hd2, ?Hst1, ?Hsz1, ?Hst, ?Hsz, ?Hlg1; try reflexivity.
  - destruct Hok1. by constructor; cbn; rewrite ?(rp_size _ _ P2).
  - constructor.
    + by replace (∅ : gset nat) with (({[i]} : gset nat) ∖ {[i]}) by set_solver+.
    + by rewrite (rp_held _ _ P2), X1.
    + rewrite <- Hlg1. by apply (brelse_dirties (l_b l1)).
  - cbn. lia.
  - intros Hx%list_elem_of_singleton. discriminate Hx.
Qed.

(** * The theorems *)

(** C2: Committing a transaction is atomic with respect to crashes.  [commit]
    returns, and whatever block write a crash interrupts, booting from the
    disk as it is then ([binit], [initlog]) succeeds, and either every block
    outside the log has its contents from before the transaction, or every
    such block has its new contents. *)
Theorem commit_crash_atomic l ord :
  txn_ok l ord ->
  exists l' ws, commit l = Ok tt l' /\ writes (l_b l') = writes (l_b l) ++ ws /\
    forall k, exists r,
      boot (cold (replay (take k ws) (disk (l_b l))) (disksize (l_b l))) = Ok tt r /\
      ((forall m, home l m -> content (l_b r) m = block_of (disk (l_b l)) m) \/
       (forall m, home l m -> content (l_b r) m = content (l_b l) m)).
Proof.
  intros T. destruct (commit_ok l ord (tx_log _ _ T) (tx_calm _ _ T) (tx_some _ _ T)) as (s' & ord' & E & _ & W).
  eexists _, _. split; [exact E|]. split; [apply (wr_writes _ _ _ W)|]. intros k. exact (crash_point l ord T k).
Qed.

Lemma commit_crash_atomic_witness :
  exists l ord, txn_ok l ord /\ content (l_b l) 100 = demo_data /\
    exists l' ws, commit l = Ok tt l' /\ writes (l_b l') = writes (l_b l) ++ ws /\
      forall k, exists r,
        boot (cold (replay (take k ws) (disk (l_b l))) (disksize (l_b l))) = Ok tt r /\
        ((forall m, home l m -> content (l_b r) m = block_of (disk (l_b l)) m) \/
         (forall m, home l m -> content (l_b r) m = content (l_b l) m)).
Proof.
  destruct demo_txn as (l & ord & T & _ & _ & K & _). exists l, ord. split; [exact T|]. split; [exact K|].
  exact (commit_crash_atomic l ord T).
Defined.

(** C14: The last [end_op] of a transaction commits it: it returns with the
    log empty and no operation outstanding, every block outside the log is on
    disk with the contents the cache had, and the processes waiting in
    [begin_op] are woken. *)
Theorem end_op_commits l ord :
  log_ok l -> calm (l_b l) ord (logged l) -> lg_outstanding l = 1 -> lg_committing l = false ->
  exists l', end_op l = Ok tt l' /\ lg_outstanding l' = 0 /\ lg_committing l' = false /\ lh_n l' = 0 /\
    log_chan ∈ woken (bc_ctx (l_b l')) /\
    forall m, ~ in_log l m -> block_of (disk (l_b l')) m = content (l_b l) m.
Proof. apply end_op_last. Qed.

Lemma end_op_commits_witness :
  exists l l', end_op l = Ok tt l' /\ lh_n l' = 0 /\ block_of (disk (l_b l')) 100 = demo_data.
Proof.
  destruct demo_txn as (l & ord & T & Ho & Hc & K & Hst & Hsz).
  destruct (end_op_commits l ord (tx_log _ _ T) (tx_calm _ _ T) Ho Hc) as (l' & E & _ & _ & Hn & _ & Hd).
  exists l, l'. split; [exact E|]. split; [exact Hn|]. rewrite Hd; [exact K|]. unfold in_log. lia.
Defined.

(** [log_write] on a held buffer records the block in the transaction
    exactly once, marks the buffer dirty so that it cannot be evicted, and
    changes neither the disk nor the contents of any block; the log stays
    within its bounds. *)
Theorem log_write_records l ord O i :
  log_ok l -> binv (l_b l) ord O -> held (bc_ctx (l_b l)) = ∅ -> i ∈ O -> dirties (l_b l) (logged l) ->
  lh_n l < LOGSIZE -> lh_n l < lg_size l - 1 -> lg_size l <= NBUF -> 1 <= lg_outstanding l ->
  ~ in_log l (b_blockno (getb (l_b l) i)) ->
  exists l', log_write i l = Ok tt l' /\ log_ok l' /\ binv (l_b l') ord O /\
    logged l' = absorbed (logged l) (b_blockno (getb (l_b l) i)) /\
    dirties (l_b l') (logged l') /\ dirty (getb (l_b l') i) /\
    (forall m, content (l_b l') m = content (l_b l) m) /\ wrote [] (l_b l) (l_b l') /\
    bc_ctx (l_b l') = bc_ctx (l_b l) /\ log_conf l' = log_conf l.
Proof.
  intros. destruct (log_write_ok l ord O i) as (l' & E & Hok' & I' & Hlg & D' & Hdy & K & W & X & Hcf & _); [done..|].
  by exists l'.
Qed.

Lemma log_write_records_witness :
  exists l i l', log_write i l = Ok tt l' /\ logged l = [] /\ logged l' = [100].
Proof.
  destruct demo_write as (l & ord & i & Hok & I & Hh & D & N & Hn & Hsz & Hst & Ho & Hc & Hd & K).
  destruct (log_write_records l ord {[i]} i Hok I Hh) as (l1 & E1 & _ & _ & Hlg & _);
    [set_solver+|exact D|rewrite Hn; reflexivity|lia|rewrite Hsz; discriminate|lia|rewrite N; unfold in_log; lia|].
  assert (H0 : logged l = []) by (unfold logged; rewrite Hn; reflexivity).
  exists l, i, l1. split; [exact E1|]. split; [exact H0|]. rewrite Hlg, H0, N. reflexivity.
Defined.

(** [begin_op] reserves log space.  It returns at once when the log is not
    committing and has room for one more operation, and sleeps otherwise,
    without holding the log lock; whenever it returns, after any number of
    sleeps and whatever the other processes do meanwhile, no commit is in
    progress and every outstanding operation has [MAXOPBLOCKS] blocks left. *)
Theorem begin_op_reserves l :
  held (bc_ctx (l_b l)) = ∅ ->
  (has_room l -> begin_op l = Ok tt (set_outstanding (lg_outstanding l + 1) l)) /\
  (~ has_room l -> exists k, begin_op l = Switch (put (Klock.dozing log_chan (bc_ctx (l_b l))) l) k) /\
  (forall R t, outcome R (begin_op l) tt t -> reserved t).
Proof.
  intros Hh. split; [by apply begin_op_room|]. split; [by apply begin_op_waits|].
  intros R t H. apply outcome_bind in H as ([] & s' & _ & H). by apply (begin_loop_outcome R WAITS s').
Qed.

Lemma begin_op_reserves_witness :
  begin_op (demo_log (powered_on (Kctx ∅ [] [] 1) demo_disk 1000)) =
  Ok tt (set_outstanding 2 (demo_log (powered_on (Kctx ∅ [] [] 1) demo_disk 1000))).
Proof.
  apply (begin_op_reserves (demo_log (powered_on (Kctx ∅ [] [] 1) demo_disk 1000))); [reflexivity|].
  split; [reflexivity|discriminate].
Defined.

(** C40: The admission control of [begin_op] and the limit of [log_write]
    disagree by one block.  On a log of [LOGSIZE] blocks, as [mkfs] makes it,
    [begin_op] admits three operations, which may write [3 * MAXOPBLOCKS]
    blocks; when they have logged all but one of those, [log_write] panics
    with "too big a transaction". *)
Theorem log_admission_gap l :
  held (bc_ctx (l_b l)) = ∅ -> lg_size l = LOGSIZE -> lg_committing l = false -> lg_outstanding l = 0 -> lh_n l = 0 ->
  (begin_op ;;; begin_op ;;; begin_op) l = Ok tt (set_outstanding 3 l) /\
  forall l' i, lg_size l' = LOGSIZE -> lh_n l' = 3 * MAXOPBLOCKS - 1 ->
    log_write i l' = Panic "too big a transaction".
Proof.
  intros Hh Hs Hc Ho Hn. split.
  - rewrite (bind_ok _ _ _ _ _ (begin_op_room l Hh ltac:(split; [done|unfold LOGSIZE, MAXOPBLOCKS; lia]))).
    rewrite (bind_ok _ _ _ _ _ (begin_op_room (set_outstanding (lg_outstanding l + 1) l) Hh
      ltac:(split; [done|cbn; unfold LOGSIZE, MAXOPBLOCKS; lia]))).
    rewrite begin_op_room; [cbn; by rewrite Ho|done|split; [done|cbn; unfold LOGSIZE, MAXOPBLOCKS; lia]].
  - intros l' i Hs' Hn'. apply log_write_too_big. right. rewrite Hs', Hn'. unfold LOGSIZE. lia.
Qed.

Lemma log_admission_gap_witness :
  (begin_op ;;; begin_op ;;; begin_op) (set_outstanding 0 (demo_log (powered_on (Kctx ∅ [] [] 1) demo_disk 1000))) =
  Ok tt (set_outstanding 3 (demo_log (powered_on (Kctx ∅ [] [] 1) demo_disk 1000))).
Proof.
  apply (log_admission_gap (set_outstanding 0 (demo_log (powered_on (Kctx ∅ [] [] 1) demo_disk 1000)))); reflexivity.
Defined.

(** * The buffer cache *)

(** [bread] returns the current contents of the block, the cached copy or
    the disk's, in a buffer that the caller now holds and that is the only one
    for the block; no block's contents and no other buffer change, and the
    buffers of unfinished transactions are not recycled. *)
Theorem bread_current s ord O n :
  binv s ord O -> held (bc_ctx s) = ∅ -> 0 <= n < disksize s -> (forall i, cached s n i -> i ∉ O) ->
  ((exists i, cached s n i) \/ (exists i, free_buf s O i)) ->
  exists i s', bread 1 n s = Ok i s' /\ binv s' ord ({[i]} ∪ O) /\
    i ∉ O /\ (forall j, cached s' n j <-> j = i) /\ b_data (getb s' i) = content s n /\
    (forall m, content s' m = content s m) /\ (forall j, j <> i -> getb s' j = getb s j) /\
    (dirty (getb s i) -> cached s n i).
Proof.
  intros I H Hn HO Ha. destruct (bread_ok s ord O I H n Hn HO Ha) as (i & s' & E & I' & P).
  exists i, s'. split; [done|]. split; [done|]. split; [apply P|]. split.
  { intros j. split; [intros Hj; by apply (cached_unique _ _ _ I' n); [|apply P]|intros ->; apply P]. }
  split; [apply P|]. split; [apply P|]. split; [apply P|]. intros Hd.
  destruct (bp_origin _ _ _ _ _ P) as [[? _]|((_ & _ & Hnd) & _)]; [done|by destruct Hnd].
Qed.

Lemma bread_current_witness :
  exists s i s', bread 1 1 s = Ok i s' /\ b_data (getb s' i) = demo_super.
Proof.
  destruct demo_boot as (s & C & Hd & Hz).
  destruct (bread_current s _ ∅ 1 (ca_inv _ _ _ C) (ca_held _ _ _ C)) as (i & s' & E & _ & _ & _ & K & _).
  - lia.
  - set_solver.
  - right. apply (free_exists s _ ∅ [] (ca_inv _ _ _ C)); [intros; by apply C|vm_compute; lia].
  - exists s, i, s'. split; [exact E|]. rewrite K, (calm_content _ _ _ C), Hd. reflexivity.
Defined.
