(* ===== verification/Pipe.v ===== *)
(** Pipes, [pipe.c]: a ring of [PIPESIZE] bytes with two free-running 32-bit
    counters, shown to be a bounded first-in-first-out queue. *)

From S2P Require Import Prelude Params Spinlock Klock Bytes.
Open Scope Z_scope.
Open Scope xv6_scope.

Definition PIPESIZE : Z := 512.

(** [struct pipe]; [pi_freed] records [kfree] of its page. *)
Record pipe := Pipe {
  pi_data : bytes;
  nread : Z;
  nwrite : Z;
  readopen : bool;
  writeopen : bool;
  pi_freed : bool
}.

(** The pipe, the locks held, and [myproc()->killed]. *)
Record pst := Pst { p_ctx : kctx; p_pipe : pipe; p_killed : bool }.

#[global, program] Instance pst_ctx : Lens pst kctx := {|
  view := p_ctx;
  put c s := Pst c (p_pipe s) (p_killed s)
|}.
Next Obligation. done. Qed.
Next Obligation. by intros []. Qed.
Next Obligation. done. Qed.

Definition set_pipe (p : pipe) (s : pst) : pst := Pst (p_ctx s) p (p_killed s).
Definition upd_pipe (f : pipe -> pipe) : M pst unit := modify (fun s => set_pipe (f (p_pipe s)) s).

Definition pipe_lock : lockid := ("pipe"%string, 0).
Definition nread_chan : chan := ("nread"%string, 0).
Definition nwrite_chan : chan := ("nwrite"%string, 0).

(** The fields [pipealloc] sets in a new page. *)
Definition pipe_init (d : bytes) : pipe := Pipe d 0 0 true true false.

Definition pipeclose (writable : bool) : M pst unit :=
  Klock.acquire pipe_lock ;;;
  (if writable
   then upd_pipe (fun p => Pipe (pi_data p) (nread p) (nwrite p) (readopen p) false (pi_freed p)) ;;;
        Klock.wakeup nread_chan
   else upd_pipe (fun p => Pipe (pi_data p) (nread p) (nwrite p) false (writeopen p) (pi_freed p)) ;;;
        Klock.wakeup nwrite_chan) ;;;
  p <- gets p_pipe ;;
  if negb (readopen p) && negb (writeopen p) then
    Klock.release pipe_lock ;;;
    upd_pipe (fun p => Pipe (pi_data p) (nread p) (nwrite p) (readopen p) (writeopen p) true)
  else Klock.release pipe_lock.

(** How often a full or empty pipe is waited for. *)
Definition PWAITS : nat := 1000.

Definition full (p : pipe) : bool := nwrite p =? u32 (nread p + PIPESIZE).
Definition empty (p : pipe) : bool := nread p =? nwrite p.

(** [p->data[p->nwrite++ % PIPESIZE] = c]. *)
Definition push (c : Z) (p : pipe) : pipe :=
  Pipe (<[Z.to_nat (nwrite p mod PIPESIZE) := c]> (pi_data p)) (nread p) (u32 (nwrite p + 1))
       (readopen p) (writeopen p) (pi_freed p).

(** The [while] loop of [pipewrite]: [false] when the writer must give up. *)
Fixpoint wait_space (fuel : nat) : M pst bool :=
  match fuel with
  | O => nofuel
  | S fuel =>
      p <- gets p_pipe ;;
      if full p then
        k <- gets p_killed ;;
        if negb (readopen p) || k then
          Klock.release pipe_lock ;;;
          ret false
        else
          Klock.wakeup nread_chan ;;;
          Klock.sleep nwrite_chan pipe_lock ;;;
          wait_space fuel
      else ret true
  end.

Fixpoint write_loop (cs : bytes) : M pst bool :=
  match cs with
  | [] => ret true
  | c :: cs =>
      ok <- wait_space PWAITS ;;
      if ok then upd_pipe (push c) ;;; write_loop cs else ret false
  end.

(** [addr] holds the bytes from the user address on. *)
Definition pipewrite (addr : bytes) (n : Z) : M pst Z :=
  Klock.acquire pipe_lock ;;;
  ok <- write_loop (take (Z.to_nat n) addr) ;;
  if ok then
    Klock.wakeup nread_chan ;;;
    Klock.release pipe_lock ;;;
    ret n
  else ret (-1).

Fixpoint wait_data (fuel : nat) : M pst bool :=
  match fuel with
  | O => nofuel
  | S fuel =>
      p <- gets p_pipe ;;
      if empty p && writeopen p then
        k <- gets p_killed ;;
        if (k : bool) then
          Klock.release pipe_lock ;;;
          ret false
        else
          Klock.sleep nread_chan pipe_lock ;;;
          wait_data fuel
      else ret true
  end.

Definition pop (p : pipe) : pipe :=
  Pipe (pi_data p) (u32 (nread p + 1)) (nwrite p) (readopen p) (writeopen p) (pi_freed p).

Definition front (p : pipe) : Z := default 0 (pi_data p !! Z.to_nat (nread p mod PIPESIZE)).

(** The copy loop of [piperead] returns the bytes stored at [addr]. *)
Fixpoint read_loop (n : nat) : M pst bytes :=
  match n with
  | O => ret []
  | S n =>
      p <- gets p_pipe ;;
      if empty p then ret [] else
      upd_pipe pop ;;;
      cs <- read_loop n ;;
      ret (front p :: cs)
  end.

Definition piperead (n : Z) : M pst (Z * bytes) :=
  Klock.acquire pipe_lock ;;;
  ok <- wait_data PWAITS ;;
  if (ok : bool) then
    cs <- read_loop (Z.to_nat n) ;;
    Klock.wakeup nwrite_chan ;;;
    Klock.release pipe_lock ;;;
    ret (Z.of_nat (length cs), cs)
  else ret (-1, []).

(** * The queue *)

(** The number of bytes in the ring, also when the counters have wrapped. *)
Definition count (p : pipe) : Z := u32 (nwrite p - nread p).

Definition contents (p : pipe) : bytes :=
  (fun k => default 0 (pi_data p !! Z.to_nat ((nread p + Z.of_nat k) mod PIPESIZE))) <$> seq 0 (Z.to_nat (count p)).

Record pipe_ok (p : pipe) : Prop := {
  po_data : length (pi_data p) = Z.to_nat PIPESIZE;
  po_read : 0 <= nread p < 2 ^ 32;
  po_write : 0 <= nwrite p < 2 ^ 32;
  po_count : count p <= PIPESIZE
}.

Lemma contents_length p : length (contents p) = Z.to_nat (count p).
Proof. unfold contents. by rewrite length_fmap, length_seq. Qed.

Lemma count_range p : 0 <= count p < 2 ^ 32.
Proof. apply u32_range. Qed.

Section queue.
Context (p : pipe) (OK : pipe_ok p).

Lemma empty_contents : empty p = true <-> contents p = [].
Proof.
  destruct OK as [_ Hr Hw _]. unfold empty. rewrite Z.eqb_eq. split.
  - intros E. apply length_zero_iff_nil. rewrite contents_length. unfold count. by rewrite E, Z.sub_diag.
  - intros E%(f_equal length). rewrite contents_length in E. simpl in E. pose proof (count_range p).
    unfold count, u32 in *. zdiv.
Qed.

Lemma full_contents : full p = true <-> length (contents p) = Z.to_nat PIPESIZE.
Proof.
  destruct OK as [_ Hr Hw Hc]. unfold full. rewrite Z.eqb_eq, contents_length. pose proof (count_range p).
  unfold count, u32, PIPESIZE in *. split; intros E; zdiv.
Qed.

Lemma push_ok c : full p = false -> pipe_ok (push c p) /\ contents (push c p) = contents p ++ [c].
Proof.
  intros Hf. assert (Hnf : length (contents p) <> Z.to_nat PIPESIZE).
  { intros E%full_contents. congruence. }
  rewrite contents_length in Hnf. destruct OK as [Hl Hr Hw Hc]. pose proof (count_range p) as Hcr.
  assert (Hlt : count p < PIPESIZE) by (unfold PIPESIZE in *; lia).
  assert (Hcount : count (push c p) = count p + 1).
  { unfold count, push in *. cbn [nread nwrite]. unfold u32, PIPESIZE in *. zdiv. }
  split.
  - constructor; cbn; [by rewrite length_insert|done|apply u32_range|]. fold (push c p). rewrite Hcount. lia.
  - unfold contents at 1. rewrite Hcount. replace (Z.to_nat (count p + 1)) with (Z.to_nat (count p) + 1)%nat by lia.
    rewrite seq_app, fmap_app. cbn [push pi_data nread]. f_equal.
    + apply list_fmap_ext. intros k x Hk%lookup_seq. rewrite list_lookup_insert_ne; [done|].
      intros E. destruct Hk as [-> Hk]. assert (Hm : nwrite p mod PIPESIZE = (nread p + Z.of_nat (0 + k)) mod PIPESIZE).
      { apply Z2Nat.inj; [apply Z.mod_pos_bound; done..|done]. }
      unfold count, u32, PIPESIZE in *. zdiv.
    + cbn. f_equal. replace ((nread p + Z.of_nat (Z.to_nat (count p))) mod PIPESIZE) with (nwrite p mod PIPESIZE).
      * rewrite list_lookup_insert_eq; [done|]. rewrite Hl.
        pose proof (Z.mod_pos_bound (nwrite p) PIPESIZE). unfold PIPESIZE in *. lia.
      * unfold count, u32, PIPESIZE in *. zdiv.
Qed.

Lemma pop_ok : empty p = false -> pipe_ok (pop p) /\ contents p = front p :: contents (pop p).
Proof.
  intros He. destruct OK as [Hl Hr Hw Hc]. pose proof (count_range p) as Hcr.
  assert (Hpos : 0 < count p).
  { unfold empty in He. apply Z.eqb_neq in He. unfold count, u32 in *. zdiv. }
  assert (Hcount : count (pop p) = count p - 1).
  { unfold count, pop in *. cbn [nread nwrite]. unfold u32, PIPESIZE in *. zdiv. }
  split.
  - constructor; cbn; [done|apply u32_range|done|]. fold (pop p). rewrite Hcount. lia.
  - unfold contents at 1. replace (Z.to_nat (count p)) with (S (Z.to_nat (count (pop p)))) by lia.
    cbn [seq fmap list_fmap]. rewrite Z.add_0_r. f_equal. unfold contents.
    rewrite <- fmap_S_seq, <- list_fmap_compose. apply list_fmap_ext. intros k x _. cbn [compose pop pi_data nread].
    do 3 f_equal. unfold u32, PIPESIZE. zdiv.
Qed.
End queue.

(** * Writing and reading, with other processes in between *)

Definition locked (s : pst) : Prop := held (p_ctx s) = {[pipe_lock]}.
Definition unlocked (s : pst) : Prop := held (p_ctx s) = ∅.

Lemma acquire_pipe s : unlocked s -> exists s', Klock.acquire pipe_lock s = Ok tt s' /\ locked s' /\
  p_pipe s' = p_pipe s /\ p_killed s' = p_killed s /\ woken (p_ctx s') = woken (p_ctx s).
Proof.
  intros H. eexists. split; [apply (Klock.acquire_ok (S := pst))|].
  - change (pipe_lock ∉ held (p_ctx s)). rewrite H. set_solver+.
  - split; [|done]. unfold locked. cbn. rewrite H. apply (right_id_L ∅ (∪)).
Qed.

Lemma release_pipe s : locked s -> exists s', Klock.release pipe_lock s = Ok tt s' /\ unlocked s' /\
  p_pipe s' = p_pipe s /\ p_killed s' = p_killed s /\ woken (p_ctx s') = woken (p_ctx s).
Proof.
  intros H. eexists. split; [apply (Klock.release_ok (S := pst))|].
  - change (pipe_lock ∈ held (p_ctx s)). rewrite H. set_solver+.
  - split; [|done]. unfold unlocked. cbn. rewrite H. set_solver+.
Qed.

(** Going to sleep on [ch] gives up the lock and nothing else. *)
Lemma sleep_pipe ch s : locked s -> exists s', Klock.sleep ch pipe_lock s = Switch s' (Klock.acquire pipe_lock) /\ unlocked s' /\
  p_pipe s' = p_pipe s /\ woken (p_ctx s') = woken (p_ctx s) /\ last (slept (p_ctx s')) = Some ch.
Proof.
  intros H. eexists. split; [apply (Klock.sleep_after (S := pst) ch pipe_lock (set_held ∅ (p_ctx s)))|].
  - set_solver+.
  - destruct s as [[]]. unfold locked in H. cbn in *. by rewrite H, union_empty_r_L.
  - cbn. by rewrite last_snoc.
Qed.

Definition nudge (ch : chan) (s : pst) : pst := put (set_woken (woken (p_ctx s) ++ [ch]) (p_ctx s)) s.

Lemma wakeup_pipe ch s : Klock.wakeup ch s = Ok tt (nudge ch s).
Proof. done. Qed.

(** A run of [pipewrite] that has [rest] still to write when it gets the
    processor with [q] in the pipe: the bytes go in at the end and in order;
    it sleeps only on a full pipe, on the writers' channel, without the lock
    and with the readers woken; it fails only on a full pipe nobody reads, or when killed; and it
    gives up waiting only after [PWAITS] sleeps. *)
Fixpoint in_order (n : Z) (rest q : bytes) (sleeps : nat) (r : result pst Z) : Prop :=
  match r with
  | Ok v s => unlocked s /\ pipe_ok (p_pipe s) /\
      ((v = n /\ contents (p_pipe s) = q ++ rest /\ nread_chan ∈ woken (p_ctx s)) \/
       (v = -1 /\ exists pre post, rest = pre ++ post /\ post <> [] /\ contents (p_pipe s) = q ++ pre /\
          full (p_pipe s) = true /\ (readopen (p_pipe s) = false \/ p_killed s = true)))
  | Switch s k => unlocked s /\ pipe_ok (p_pipe s) /\
      exists pre post, rest = pre ++ post /\ contents (p_pipe s) = q ++ pre /\
        full (p_pipe s) = true /\ nread_chan ∈ woken (p_ctx s) /\ last (slept (p_ctx s)) = Some nwrite_chan /\
        forall s', unlocked s' -> pipe_ok (p_pipe s') ->
          in_order n post (contents (p_pipe s')) (S sleeps) (k s')
  | NoFuel => (PWAITS <= sleeps)%nat
  | _ => False
  end.

Definition write_end (n : Z) (ok : bool) : M pst Z :=
  if ok then Klock.wakeup nread_chan ;;; Klock.release pipe_lock ;;; ret n else ret (-1).

Lemma write_in_order n cs s q pre sl :
  locked s -> pipe_ok (p_pipe s) -> contents (p_pipe s) = q ++ pre ->
  in_order n (pre ++ cs) q sl ((ok <- write_loop cs ;; write_end n ok) s).
Proof.
  revert s q pre sl. induction cs as [|c cs IH]; intros s q pre sl Hl Hok Hc.
  - unfold bind. cbn [write_loop]. unfold ret. cbn [seqr].
    unfold write_end, bind. rewrite wakeup_pipe. cbn [seqr].
    destruct (release_pipe (nudge nread_chan s) Hl) as (s' & -> & Hu & Hp & Hk & Hw). cbn [seqr ret in_order].
    rewrite Hp, Hw. split; [done|]. split; [done|]. left. split; [done|].
    split; [by rewrite app_nil_r|]. cbn. set_solver+.
  - cbn [write_loop]. assert (Hf : (PWAITS <= PWAITS + sl)%nat) by lia. revert Hf. generalize PWAITS at 2 3 as f.
    intros f. revert s q pre sl Hl Hok Hc. induction f as [|f IHf]; intros s q pre sl Hl Hok Hc Hf; [cbn; lia|].
    cbn [wait_space]. unfold bind, gets. cbn [seqr].
    destruct (full (p_pipe s)) eqn:Efull; cbn [seqr].
    + destruct (negb (readopen (p_pipe s)) || p_killed s) eqn:Ek.
      * destruct (release_pipe s Hl) as (s' & Hr & Hu & Hp & Hkl & Hw). rewrite Hr. cbn [seqr ret write_end in_order].
        unfold ret. cbn [seqr]. unfold write_end, ret. cbn [in_order]. rewrite Hp, Hkl. split; [done|]. split; [done|]. right.
        split; [done|]. exists pre, (c :: cs). do 4 (split; [done|]).
        apply orb_true_iff in Ek as [Ek|Ek]; [left; by apply negb_true_iff|by right].
      * unfold bind. rewrite wakeup_pipe. cbn [seqr].
        destruct (sleep_pipe nwrite_chan (nudge nread_chan s) Hl) as (s' & -> & Hu & Hp & Hw & Hs).
        cbn [seqr in_order]. rewrite Hp, Hw. split; [done|]. split; [done|].
        exists pre, (c :: cs). do 3 (split; [done|]). split; [cbn; set_solver+|]. split; [done|]. intros s2 Hu2 Hok2.
        destruct (acquire_pipe s2 Hu2) as (s3 & -> & Hl3 & Hp3 & _ & _). cbn [seqr].
        apply (IHf s3 (contents (p_pipe s2)) [] (S sl)); [done|by rewrite Hp3|by rewrite Hp3, app_nil_r|lia].
    + unfold ret. cbn [seqr]. unfold upd_pipe, modify, bind. cbn [seqr].
      destruct (push_ok (p_pipe s) Hok c Efull) as [Hok' Hc'].
      replace (pre ++ c :: cs) with ((pre ++ [c]) ++ cs) by (by rewrite <- app_assoc).
      apply (IH (set_pipe (push c (p_pipe s)) s) q (pre ++ [c]) sl Hl Hok'). cbn [p_pipe set_pipe].
      by rewrite Hc', Hc, app_assoc.
Qed.

Lemma pipewrite_in_order s addr n :
  unlocked s -> pipe_ok (p_pipe s) ->
  in_order n (take (Z.to_nat n) addr) (contents (p_pipe s)) 0 (pipewrite addr n s).
Proof.
  intros Hu Hok. unfold pipewrite. destruct (acquire_pipe s Hu) as (s1 & E & Hl & Hp & _).
  rewrite (bind_ok _ _ _ _ _ E).
  apply (write_in_order n (take (Z.to_nat n) addr) s1 (contents (p_pipe s)) [] 0 Hl); rewrite Hp; [done|].
  by rewrite app_nil_r.
Qed.

(** With room for everything the writer does not sleep. *)
Lemma wait_space_room f s : full (p_pipe s) = false -> wait_space (S f) s = Ok true s.
Proof. intros E. cbn [wait_space]. unfold bind, gets. cbn [seqr]. by rewrite E. Qed.

Lemma write_loop_room cs s :
  pipe_ok (p_pipe s) -> (length (contents (p_pipe s)) + length cs <= Z.to_nat PIPESIZE)%nat ->
  exists p, write_loop cs s = Ok true (set_pipe p s) /\ pipe_ok p /\ contents p = contents (p_pipe s) ++ cs.
Proof.
  revert s. induction cs as [|c cs IH]; intros s Hok Hr; cbn [write_loop].
  - exists (p_pipe s). split; [by destruct s|]. by rewrite app_nil_r.
  - simpl in Hr. assert (E : full (p_pipe s) = false).
    { destruct (full (p_pipe s)) eqn:E; [|done]. apply full_contents in E; [|done]. lia. }
    change PWAITS with (S 999). rewrite (bind_ok _ _ _ _ _ (wait_space_room 999 s E)).
    unfold upd_pipe, bind at 1, modify. cbn [seqr]. destruct (push_ok (p_pipe s) Hok c E) as [Hok' Hc'].
    destruct (IH (set_pipe (push c (p_pipe s)) s)) as (p & -> & Hp & Hc); [done|cbn [p_pipe set_pipe]|].
    { rewrite Hc', length_app. simpl. lia. }
    exists p. split; [done|]. split; [done|]. cbn [p_pipe set_pipe] in Hc. by rewrite Hc, Hc', <- app_assoc.
Qed.

Lemma pipewrite_room s addr n :
  unlocked s -> pipe_ok (p_pipe s) -> (length (contents (p_pipe s)) + Z.to_nat n <= Z.to_nat PIPESIZE)%nat ->
  exists s', pipewrite addr n s = Ok n s' /\ unlocked s' /\ pipe_ok (p_pipe s') /\
    contents (p_pipe s') = contents (p_pipe s) ++ take (Z.to_nat n) addr.
Proof.
  intros Hu Hok Hr. unfold pipewrite. destruct (acquire_pipe s Hu) as (s1 & E & Hl & Hp & _).
  rewrite (bind_ok _ _ _ _ _ E). rewrite <- Hp in *.
  destruct (write_loop_room (take (Z.to_nat n) addr) s1 Hok) as (p & E2 & Hp2 & Hc2); [rewrite length_take; lia|].
  rewrite (bind_ok _ _ _ _ _ E2). cbn iota. unfold bind. rewrite wakeup_pipe. cbn [seqr].
  destruct (release_pipe (nudge nread_chan (set_pipe p s1)) Hl) as (s3 & -> & Hu3 & Hp3 & _). cbn [seqr].
  exists s3. split; [done|]. split; [done|]. rewrite Hp3. done.
Qed.

(** A run of [piperead] that gets the processor with [q] in the pipe: it
    takes bytes from the front, sleeps only on an empty pipe that can still be
    written, on the readers' channel, and returns nothing only at the end of the stream. *)
Fixpoint from_front (n : Z) (q : bytes) (sleeps : nat) (r : result pst (Z * bytes)) : Prop :=
  match r with
  | Ok (v, cs) s => unlocked s /\ pipe_ok (p_pipe s) /\
      ((v = Z.of_nat (length cs) /\ cs = take (Z.to_nat n) q /\ contents (p_pipe s) = drop (Z.to_nat n) q /\
        nwrite_chan ∈ woken (p_ctx s) /\ (q = [] -> writeopen (p_pipe s) = false)) \/
       (v = -1 /\ cs = [] /\ q = [] /\ contents (p_pipe s) = [] /\ p_killed s = true))
  | Switch s k => unlocked s /\ pipe_ok (p_pipe s) /\ q = [] /\ contents (p_pipe s) = [] /\
      writeopen (p_pipe s) = true /\ last (slept (p_ctx s)) = Some nread_chan /\
      forall s', unlocked s' -> pipe_ok (p_pipe s') -> from_front n (contents (p_pipe s')) (S sleeps) (k s')
  | NoFuel => (PWAITS <= sleeps)%nat
  | _ => False
  end.

Lemma read_loop_ok n s :
  pipe_ok (p_pipe s) ->
  exists p, read_loop n s = Ok (take n (contents (p_pipe s))) (set_pipe p s) /\ pipe_ok p /\
    contents p = drop n (contents (p_pipe s)) /\ writeopen p = writeopen (p_pipe s).
Proof.
  revert s. induction n as [|n IH]; intros s Hok; cbn [read_loop].
  - exists (p_pipe s). split; [by destruct s|]. by rewrite drop_0.
  - unfold bind at 1, gets. cbn [seqr]. destruct (empty (p_pipe s)) eqn:E.
    + apply (empty_contents (p_pipe s) Hok) in E. exists (p_pipe s). rewrite E. by destruct s.
    + destruct (pop_ok (p_pipe s) Hok E) as [Hok' Hc]. unfold upd_pipe, bind at 1, modify. cbn [seqr].
      destruct (IH (set_pipe (pop (p_pipe s)) s) Hok') as (p & E2 & Hp & Hd & Hw).
      rewrite (bind_ok _ _ _ _ _ E2). cbn [p_pipe set_pipe] in *. exists p. rewrite Hc. by split.
Qed.

Definition read_end (n : Z) (ok : bool) : M pst (Z * bytes) :=
  if ok then
    cs <- read_loop (Z.to_nat n) ;;
    Klock.wakeup nwrite_chan ;;;
    Klock.release pipe_lock ;;;
    ret (Z.of_nat (length cs), cs)
  else ret (-1, []).

Lemma read_end_ok n s :
  locked s -> pipe_ok (p_pipe s) ->
  exists s', let cs := take (Z.to_nat n) (contents (p_pipe s)) in
    read_end n true s = Ok (Z.of_nat (length cs), cs) s' /\ unlocked s' /\ pipe_ok (p_pipe s') /\
    contents (p_pipe s') = drop (Z.to_nat n) (contents (p_pipe s)) /\ nwrite_chan ∈ woken (p_ctx s') /\
    writeopen (p_pipe s') = writeopen (p_pipe s).
Proof.
  intros Hl Hok. destruct (read_loop_ok (Z.to_nat n) s Hok) as (p & E & Hp & Hc & Hw).
  unfold read_end. rewrite (bind_ok _ _ _ _ _ E). unfold bind. rewrite wakeup_pipe. cbn [seqr].
  destruct (release_pipe (nudge nwrite_chan (set_pipe p s)) Hl) as (s' & -> & Hu & Hp' & _ & Hw').
  exists s'. split; [done|]. split; [done|]. rewrite Hp', Hw'. split; [done|]. split; [done|]. split; [cbn; set_solver+|done].
Qed.

Lemma read_from_front n f s sl :
  locked s -> pipe_ok (p_pipe s) -> (PWAITS <= f + sl)%nat ->
  from_front n (contents (p_pipe s)) sl ((ok <- wait_data f ;; read_end n ok) s).
Proof.
  revert s sl. induction f as [|f IH]; intros s sl Hl Hok Hf; [cbn; lia|].
  cbn [wait_data]. unfold bind at 1 2, gets. cbn [seqr].
  destruct (empty (p_pipe s) && writeopen (p_pipe s)) eqn:E.
  - apply andb_true_iff in E as [E Ew]. apply (empty_contents _ Hok) in E.
    unfold bind, gets. cbn [seqr]. destruct (p_killed s) eqn:Ek.
    + destruct (release_pipe s Hl) as (s' & -> & Hu & Hp & Hkl & Hw). cbn [seqr]. unfold ret. cbn [seqr].
      unfold read_end, ret. cbn [from_front]. rewrite Hp, Hkl. split; [done|]. split; [done|]. by right.
    + destruct (sleep_pipe nread_chan s Hl) as (s' & -> & Hu & Hp & Hw & Hs).
      cbn [seqr from_front]. rewrite Hp. do 6 (split; [done|]). intros s2 Hu2 Hok2.
      destruct (acquire_pipe s2 Hu2) as (s3 & -> & Hl3 & Hp3 & _ & _). cbn [seqr].
      rewrite <- Hp3 in *. apply (IH s3 (S sl)); [done|done|lia].
  - unfold ret. cbn [seqr]. destruct (read_end_ok n s Hl Hok) as (s' & -> & Hu & Hp & Hc & Hw & Ho).
    cbn [from_front]. split; [done|]. split; [done|]. left. do 4 (split; [done|]).
    intros Eq. rewrite Ho. apply (empty_contents _ Hok) in Eq. rewrite Eq in E. done.
Qed.

Lemma piperead_from_front s n :
  unlocked s -> pipe_ok (p_pipe s) -> from_front n (contents (p_pipe s)) 0 (piperead n s).
Proof.
  intros Hu Hok. unfold piperead. destruct (acquire_pipe s Hu) as (s1 & E & Hl & Hp & _).
  rewrite (bind_ok _ _ _ _ _ E). rewrite <- Hp in *. apply (read_from_front n PWAITS s1 0 Hl Hok). lia.
Qed.

(** * The theorems *)

Definition new_pipe : pst := Pst (Kctx ∅ [] [] 1) (pipe_init (replicate (Z.to_nat PIPESIZE) 0)) false.

(** C35: [pipewrite] is the enqueue operation of a bounded queue, whatever the
    other processes do while it sleeps: bytes are appended in order and none
    is lost or duplicated, also when the 32-bit counters wrap; it sleeps only
    on a full pipe, with the lock released and the readers woken; it returns
    -1 only on a full pipe with no reader or when the process was killed; and
    if everything fits it returns at once. *)
Theorem pipewrite_fifo s addr n :
  unlocked s -> pipe_ok (p_pipe s) ->
  in_order n (take (Z.to_nat n) addr) (contents (p_pipe s)) 0 (pipewrite addr n s) /\
  ((length (contents (p_pipe s)) + Z.to_nat n <= Z.to_nat PIPESIZE)%nat ->
   exists s', pipewrite addr n s = Ok n s' /\ unlocked s' /\ pipe_ok (p_pipe s') /\
     contents (p_pipe s') = contents (p_pipe s) ++ take (Z.to_nat n) addr).
Proof. intros Hu Hok. split; [by apply pipewrite_in_order|by apply pipewrite_room]. Qed.

Lemma pipewrite_fifo_witness :
  exists s', pipewrite [104; 105] 2 new_pipe = Ok 2 s' /\ contents (p_pipe s') = [104; 105].
Proof.
  destruct (pipewrite_fifo new_pipe [104; 105] 2) as [_ H].
  - reflexivity.
  - constructor; vm_compute; [reflexivity|split; [discriminate|reflexivity]|split; [discriminate|reflexivity]|discriminate].
  - destruct H as (s' & E & _ & _ & Hc); [vm_compute; lia|]. exists s'. split; [exact E|]. rewrite Hc. reflexivity.
Defined.

(** C36: [piperead] is the dequeue operation: it returns the first [n] bytes of
    the pipe (all of them if there are fewer) and leaves the rest, sleeps only
    on an empty pipe whose write end is open, returns no bytes only when the
    pipe is empty and closed for writing (or [n] is not positive), and -1 only
    when killed while waiting. *)
Theorem piperead_fifo s n :
  unlocked s -> pipe_ok (p_pipe s) -> from_front n (contents (p_pipe s)) 0 (piperead n s).
Proof. apply piperead_from_front. Qed.

Lemma piperead_fifo_witness :
  from_front 10 [104; 105] 0 (piperead 10
    (Pst (Kctx ∅ [] [] 1) (push 105 (push 104 (pipe_init (replicate (Z.to_nat PIPESIZE) 0)))) false)).
Proof.
  apply (piperead_fifo (Pst (Kctx ∅ [] [] 1) (push 105 (push 104 (pipe_init (replicate (Z.to_nat PIPESIZE) 0)))) false)).
  - reflexivity.
  - constructor; vm_compute; [reflexivity|split; [discriminate|reflexivity]|split; [discriminate|reflexivity]|discriminate].
Defined.

Definition closed_write (s : pst) : pst :=
  let p := p_pipe s in set_pipe (Pipe (pi_data p) (nread p) (nwrite p) (readopen p) false (pi_freed p)) s.
Definition closed_read (s : pst) : pst :=
  let p := p_pipe s in set_pipe (Pipe (pi_data p) (nread p) (nwrite p) false (writeopen p) (pi_freed p)) s.

(** The end of [pipeclose], releasing the lock and perhaps the page. *)
Lemma close_end s ch (alive : bool) :
  locked s -> pi_freed (p_pipe s) = false ->
  exists s', (if negb alive
    then Klock.release pipe_lock ;;;
         upd_pipe (fun p => Pipe (pi_data p) (nread p) (nwrite p) (readopen p) (writeopen p) true)
    else Klock.release pipe_lock) (nudge ch s) = Ok tt s' /\ unlocked s' /\
    readopen (p_pipe s') = readopen (p_pipe s) /\ writeopen (p_pipe s') = writeopen (p_pipe s) /\
    pi_freed (p_pipe s') = negb alive /\ ch ∈ woken (p_ctx s') /\ contents (p_pipe s') = contents (p_pipe s).
Proof.
  intros Hl Hf. destruct (release_pipe (nudge ch s) Hl) as (s3 & E3 & Hu3 & Hp3 & _ & Hw3).
  assert (Hin : ch ∈ woken (p_ctx s3)) by (rewrite Hw3; cbn; set_solver+).
  change (p_pipe (nudge ch s)) with (p_pipe s) in Hp3. destruct alive; cbn [negb].
  - exists s3. rewrite Hp3. by repeat split.
  - rewrite (bind_ok _ _ _ _ _ E3). eexists. split; [reflexivity|]. cbn. rewrite Hp3. by repeat split.
Qed.

(** [pipeclose] frees the pipe's page exactly when the other end is closed
    already, and wakes the processes blocked at the other end. *)
Theorem pipeclose_frees_once s writable :
  unlocked s -> pi_freed (p_pipe s) = false ->
  exists s', pipeclose writable s = Ok tt s' /\ unlocked s' /\
    (if writable then writeopen (p_pipe s') = false /\ readopen (p_pipe s') = readopen (p_pipe s)
     else readopen (p_pipe s') = false /\ writeopen (p_pipe s') = writeopen (p_pipe s)) /\
    pi_freed (p_pipe s') = negb (if writable then readopen (p_pipe s) else writeopen (p_pipe s)) /\
    (if writable then nread_chan else nwrite_chan) ∈ woken (p_ctx s') /\
    contents (p_pipe s') = contents (p_pipe s).
Proof.
  intros Hu Hf. unfold pipeclose. destruct (acquire_pipe s Hu) as (s1 & E & Hl & Hp & _ & Hw).
  rewrite (bind_ok _ _ _ _ _ E). rewrite <- Hp in *. destruct writable.
  - match goal with |- context [bind (bind ?a ?b) _ s1] =>
      assert (E2 : bind a b s1 = Ok tt (nudge nread_chan (closed_write s1))) by reflexivity end.
    rewrite (bind_ok _ _ _ _ _ E2).
    unfold bind at 1, gets at 1. cbn [seqr].
    cbn [p_pipe nudge closed_write set_pipe readopen writeopen negb put pst_ctx]. rewrite andb_true_r.
    destruct (close_end (closed_write s1) nread_chan (readopen (p_pipe s1)) Hl Hf) as (s' & E' & H1 & H2 & H3 & H4 & H5 & H6).
    by exists s'.
  - match goal with |- context [bind (bind ?a ?b) _ s1] =>
      assert (E2 : bind a b s1 = Ok tt (nudge nwrite_chan (closed_read s1))) by reflexivity end.
    rewrite (bind_ok _ _ _ _ _ E2).
    unfold bind at 1, gets at 1. cbn [seqr].
    cbn [p_pipe nudge closed_read set_pipe readopen writeopen negb put pst_ctx]. rewrite andb_true_l.
    destruct (close_end (closed_read s1) nwrite_chan (writeopen (p_pipe s1)) Hl Hf) as (s' & E' & H1 & H2 & H3 & H4 & H5 & H6).
    by exists s'.
Qed.

Lemma pipeclose_frees_once_witness :
  exists s', pipeclose true new_pipe = Ok tt s' /\ pi_freed (p_pipe s') = false.
Proof.
  destruct (pipeclose_frees_once new_pipe true) as (s' & E & _ & _ & H & _); [reflexivity|reflexivity|].
  exists s'. split; [exact E|exact H].
Defined.
