(* ===== verification/Proc.v ===== *)
(** Processes, [proc.c]: the process table and everything that changes it.

    The file layer is reached through [FileOps], the operations of [file.c],
    [fs.c] and [log.c] that [fork], [exit] and [userinit] call.  The scheduler
    and the processes hand the processor to each other at [switch]; whatever
    the others have done meanwhile is the state a function is resumed in. *)

From S2P Require Import Prelude Params Mem Spinlock Kalloc Vm.
Open Scope Z_scope.
Open Scope xv6_scope.

(** * State *)

Record kern (F : Type) := Kern {
  kv : vst;
  nextpid : Z;
  initproc : option nat;
  kf : F
}.
Arguments Kern {F}.
Arguments kv {F}.
Arguments nextpid {F}.
Arguments initproc {F}.
Arguments kf {F}.

Section lenses.
Context {F : Type}.
Implicit Types s : kern F.

Definition set_kv (x : vst) s : kern F := Kern x (nextpid s) (initproc s) (kf s).
Definition set_nextpid (x : Z) s : kern F := Kern (kv s) x (initproc s) (kf s).
Definition set_initproc (x : option nat) s : kern F := Kern (kv s) (nextpid s) x (kf s).
Definition set_kf (x : F) s : kern F := Kern (kv s) (nextpid s) (initproc s) x.

#[global, program] Instance kern_vst : Lens (kern F) vst := {| view := kv; put := set_kv |}.
Next Obligation. done. Qed.
Next Obligation. by intros []. Qed.
Next Obligation. done. Qed.

#[global, program] Instance kern_files : Lens (kern F) F := {| view := kf; put := set_kf |}.
Next Obligation. done. Qed.
Next Obligation. by intros []. Qed.
Next Obligation. done. Qed.

#[global, program] Instance kern_kst : Lens (kern F) kst := {|
  view s := v_k (kv s); put k s := set_kv (set_k k (kv s)) s |}.
Next Obligation. done. Qed.
Next Obligation. by intros [[] ? ? ?]. Qed.
Next Obligation. done. Qed.

#[global, program] Instance kern_mach : Lens (kern F) mach := {|
  view s := v_mach (kv s); put m s := set_kv (set_k (set_kmach m (v_k (kv s))) (kv s)) s |}.
Next Obligation. done. Qed.
Next Obligation. by intros [[[]] ? ? ?]. Qed.
Next Obligation. done. Qed.
End lenses.

(** * The file layer as [proc.c] sees it *)

Class FileOps (F : Type) := {
  f_filedup : nat -> M (kern F) nat;
  f_fileclose : nat -> M (kern F) unit;
  f_idup : nat -> M (kern F) nat;
  f_iput : nat -> M (kern F) unit;
  f_begin_op : M (kern F) unit;
  f_end_op : M (kern F) unit;
  f_namei_root : M (kern F) (option nat)
}.

Definition ptable_lock : lockid := ("ptable"%string, 0).

(** ** Fields of [struct proc] *)

Definition set_sz (x : Z) (p : proc) : proc :=
  Proc x (pgdir p) (kstack p) (state p) (pid p) (parent p) (tf p) (context p) (chan p) (killed p) (ofile p) (cwd p) (name p).
Definition set_pgdir (x : Z) (p : proc) : proc :=
  Proc (sz p) x (kstack p) (state p) (pid p) (parent p) (tf p) (context p) (chan p) (killed p) (ofile p) (cwd p) (name p).
Definition set_kstack (x : Z) (p : proc) : proc :=
  Proc (sz p) (pgdir p) x (state p) (pid p) (parent p) (tf p) (context p) (chan p) (killed p) (ofile p) (cwd p) (name p).
Definition set_state (x : procstate) (p : proc) : proc :=
  Proc (sz p) (pgdir p) (kstack p) x (pid p) (parent p) (tf p) (context p) (chan p) (killed p) (ofile p) (cwd p) (name p).
Definition set_pid (x : Z) (p : proc) : proc :=
  Proc (sz p) (pgdir p) (kstack p) (state p) x (parent p) (tf p) (context p) (chan p) (killed p) (ofile p) (cwd p) (name p).
Definition set_parent (x : option nat) (p : proc) : proc :=
  Proc (sz p) (pgdir p) (kstack p) (state p) (pid p) x (tf p) (context p) (chan p) (killed p) (ofile p) (cwd p) (name p).
Definition set_tf (x : Z) (p : proc) : proc :=
  Proc (sz p) (pgdir p) (kstack p) (state p) (pid p) (parent p) x (context p) (chan p) (killed p) (ofile p) (cwd p) (name p).
Definition set_context (x : Z) (p : proc) : proc :=
  Proc (sz p) (pgdir p) (kstack p) (state p) (pid p) (parent p) (tf p) x (chan p) (killed p) (ofile p) (cwd p) (name p).
Definition set_chan (x : chan_t) (p : proc) : proc :=
  Proc (sz p) (pgdir p) (kstack p) (state p) (pid p) (parent p) (tf p) (context p) x (killed p) (ofile p) (cwd p) (name p).
Definition set_ofile (x : list (option nat)) (p : proc) : proc :=
  Proc (sz p) (pgdir p) (kstack p) (state p) (pid p) (parent p) (tf p) (context p) (chan p) (killed p) x (cwd p) (name p).
Definition set_cwd (x : option nat) (p : proc) : proc :=
  Proc (sz p) (pgdir p) (kstack p) (state p) (pid p) (parent p) (tf p) (context p) (chan p) (killed p) (ofile p) x (name p).
Definition set_name (x : list Z) (p : proc) : proc :=
  Proc (sz p) (pgdir p) (kstack p) (state p) (pid p) (parent p) (tf p) (context p) (chan p) (killed p) (ofile p) (cwd p) x.

(** [sizeof(struct trapframe)], [sizeof(struct context)], and the offsets of
    the fields the kernel accesses. *)
Definition TFSIZE : Z := 76.
Definition CTXSIZE : Z := 20.
Definition TF_eax : Z := 28.
Definition TF_es : Z := 40.
Definition TF_ds : Z := 44.
Definition TF_eip : Z := 56.
Definition TF_cs : Z := 60.
Definition TF_eflags : Z := 64.
Definition TF_esp : Z := 68.
Definition TF_ss : Z := 72.
Definition CTX_eip : Z := 16.

(** [safestrcpy(s, t, n)] on byte arrays: at most [n - 1] bytes up to the
    first zero, a zero, and the rest of [s] as it was. *)
Fixpoint until_zero (t : list Z) : list Z :=
  match t with
  | [] => []
  | c :: t => if c =? 0 then [] else c :: until_zero t
  end.

Definition safestrcpy_bytes (s t : list Z) (n : nat) : list Z :=
  let u := take (n - 1) (until_zero t) in u ++ [0] ++ drop (S (length u)) s.

(** ** Scans of the process table *)

Fixpoint find_from (i : nat) (f : proc -> bool) (t : list proc) : option nat :=
  match t with
  | [] => None
  | p :: t => if f p then Some i else find_from (S i) f t
  end.
Definition find_proc (f : proc -> bool) (t : list proc) : option nat := find_from 0 f t.

Definition is_state (x : procstate) (p : proc) : bool := bool_decide (state p = x).

(** [wakeup1(chan)], with [ptable.lock] held. *)
Definition wake (ch : chan_t) (p : proc) : proc :=
  if is_state SLEEPING p && bool_decide (chan p = ch) then set_state RUNNABLE p else p.
Definition wakeup1 (ch : chan_t) (t : list proc) : list proc := wake ch <$> t.

(** The channel a parent sleeps on in [wait]: the address of its [proc]. *)
Definition proc_chan (p : option nat) : chan_t :=
  (fun i => ("proc"%string, Z.of_nat i)) <$> p.

(** The loop of [exit] that passes abandoned children to [initproc], waking
    it for each one that is a zombie. *)
Fixpoint reparent (cur init : option nat) (i : nat) (n : nat) (t : list proc) : list proc :=
  match n with
  | O => t
  | S n =>
      let t' :=
        match t !! i with
        | Some p =>
            if bool_decide (parent p = cur) then
              let t1 := alter (set_parent init) i t in
              if is_state ZOMBIE p then wakeup1 (proc_chan init) t1 else t1
            else t
        | None => t
        end in
      reparent cur init (S i) n t'
  end.

(** * The operations of [proc.c] *)

Section proc.
Context `{Layout}.
Context {F : Type} `{FileOps F}.
(** The addresses of [trapret] and [forkret], and of the first program. *)
Context (trapret forkret_addr initcode initcode_size : Z).

#[local] Abbreviation K := (M (kern F)).

Definition read_p (p : option nat) : K proc := lift (read_proc p).
Definition upd_p (p : option nat) (f : proc -> proc) : K unit := lift (update_proc p f).
Definition cur_proc : K (option nat) := lift (T := mach) myproc.
Definition get_ptable : K (list proc) := gets (fun s => ptable (kv s)).
Definition upd_ptable (f : list proc -> list proc) : K unit :=
  modify (fun s => set_kv (set_ptable (f (ptable (kv s))) (kv s)) s).
Definition lock_ptable : K unit := lift (T := mach) (acquire ptable_lock).
Definition unlock_ptable : K unit := lift (T := mach) (release ptable_lock).

Definition pinit : K unit := lift (T := mach) (initlock ptable_lock).

Definition allocproc : K (option nat) :=
  lock_ptable ;;;
  t <- get_ptable ;;
  match find_proc (is_state UNUSED) t with
  | None => unlock_ptable ;;; ret None
  | Some i =>
      let p := Some i in
      upd_p p (set_state EMBRYO) ;;;
      n <- gets nextpid ;;
      upd_p p (set_pid n) ;;;
      modify (set_nextpid (s32 (n + 1))) ;;;
      unlock_ptable ;;;
      ks <- lift (T := kst) kalloc ;;
      upd_p p (set_kstack ks) ;;;
      if ks =? 0 then upd_p p (set_state UNUSED) ;;; ret None
      else
        let sp := u32 (ks + KSTACKSIZE - TFSIZE) in
        upd_p p (set_tf sp) ;;;
        let sp := u32 (sp - 4) in
        lift (T := kst) (kstore sp trapret) ;;;
        let sp := u32 (sp - CTXSIZE) in
        upd_p p (set_context sp) ;;;
        lift (T := kst) (kmemset sp 0 CTXSIZE) ;;;
        lift (T := kst) (kstore (u32 (sp + CTX_eip)) forkret_addr) ;;;
        ret p
  end.

Definition make_runnable (p : option nat) : K unit :=
  lock_ptable ;;; upd_p p (set_state RUNNABLE) ;;; unlock_ptable.

Definition userinit : K unit :=
  p <- allocproc ;;
  modify (set_initproc p) ;;;
  pd <- lift (T := vst) setupkvm ;;
  upd_p p (set_pgdir pd) ;;;
  if pd =? 0 then panic "userinit: out of memory?" else
  x <- read_p p ;;
  lift (T := vst) (inituvm pd initcode (s32 initcode_size)) ;;;
  upd_p p (set_sz PGSIZE) ;;;
  lift (T := kst) (kmemset (tf x) 0 TFSIZE) ;;;
  let seg_code := Z.lor (Z.shiftl SEG_UCODE 3) DPL_USER in
  let seg_data := Z.lor (Z.shiftl SEG_UDATA 3) DPL_USER in
  let le16 v := [u8 v; u8 (v / 2 ^ 8)] in
  lift (T := kst) (kwrite (u32 (tf x + TF_cs)) (le16 seg_code)) ;;;
  lift (T := kst) (kwrite (u32 (tf x + TF_ds)) (le16 seg_data)) ;;;
  lift (T := kst) (kwrite (u32 (tf x + TF_es)) (le16 seg_data)) ;;;
  lift (T := kst) (kwrite (u32 (tf x + TF_ss)) (le16 seg_data)) ;;;
  lift (T := kst) (kstore (u32 (tf x + TF_eflags)) FL_IF) ;;;
  lift (T := kst) (kstore (u32 (tf x + TF_esp)) PGSIZE) ;;;
  lift (T := kst) (kstore (u32 (tf x + TF_eip)) 0) ;;;
  upd_p p (fun q => set_name (safestrcpy_bytes (name q) [105; 110; 105; 116; 99; 111; 100; 101; 0] 16) q) ;;;
  d <- f_namei_root ;;
  upd_p p (set_cwd d) ;;;
  make_runnable p.

Definition growproc (n : Z) : K Z :=
  c <- cur_proc ;;
  x <- read_p c ;;
  size <- (if 0 <? n then lift (T := vst) (allocuvm (pgdir x) (sz x) (u32 (sz x + n)))
           else if n <? 0 then lift (T := vst) (deallocuvm (pgdir x) (sz x) (u32 (sz x + n)))
           else ret (sz x)) ;;
  if negb (n =? 0) && (size =? 0) then ret (-1)
  else upd_p c (set_sz size) ;;; lift (T := vst) (switchuvm c) ;;; ret 0.

(** [for(i = 0; i < NOFILE; i++) if(curproc->ofile[i]) np->ofile[i] = filedup(curproc->ofile[i])] *)
Fixpoint dup_files (c np : option nat) (i : nat) (n : nat) : K unit :=
  match n with
  | O => ret tt
  | S n =>
      x <- read_p c ;;
      match ofile x !! i with
      | Some (Some f) =>
          g <- f_filedup f ;;
          upd_p np (fun q => set_ofile (<[i := Some g]> (ofile q)) q)
      | _ => ret tt
      end ;;;
      dup_files c np (S i) n
  end.

(** [fork] and [forkcow] differ in how they copy the address space. *)
Definition fork_with (copy : Z -> Z -> M vst Z) : K Z :=
  c <- cur_proc ;;
  np <- allocproc ;;
  match np with
  | None => ret (-1)
  | Some _ =>
      x <- read_p c ;;
      pd <- lift (T := vst) (copy (pgdir x) (sz x)) ;;
      upd_p np (set_pgdir pd) ;;;
      if pd =? 0 then
        q <- read_p np ;;
        lift (T := kst) (kfree (kstack q)) ;;;
        upd_p np (set_kstack 0) ;;;
        upd_p np (set_state UNUSED) ;;;
        ret (-1)
      else
        upd_p np (set_sz (sz x)) ;;;
        upd_p np (set_parent c) ;;;
        q <- read_p np ;;
        lift (T := kst) (kmemmove (tf q) (tf x) TFSIZE) ;;;
        lift (T := kst) (kstore (u32 (tf q + TF_eax)) 0) ;;;
        dup_files c np 0 NOFILE ;;;
        match cwd x with
        | None => fault 0
        | Some d => d' <- f_idup d ;; upd_p np (set_cwd (Some d'))
        end ;;;
        upd_p np (fun q => set_name (safestrcpy_bytes (name q) (name x) 16) q) ;;;
        q <- read_p np ;;
        let pid := pid q in
        make_runnable np ;;;
        ret pid
  end.

Definition fork : K Z := fork_with copyuvm.
Definition forkcow : K Z := fork_with copyuvmcow.

(** * Giving up the processor *)

Definition sched : K unit :=
  p <- cur_proc ;;
  h <- lift (T := mach) (holding ptable_lock) ;;
  if negb h then panic "sched ptable.lock" else
  c <- lift (T := mach) read_cpu ;;
  if negb (ncli c =? 1) then panic "sched locks" else
  x <- read_p p ;;
  if is_state RUNNING x then panic "sched running" else
  e <- gets (fun s => eflags (v_mach (kv s))) ;;
  if has e FL_IF then panic "sched interruptible" else
  c <- lift (T := mach) read_cpu ;;
  switch ;;;
  lift (T := mach) (update_cpu (set_intena (intena c))).

Definition yield : K unit :=
  lock_ptable ;;;
  p <- cur_proc ;;
  upd_p p (set_state RUNNABLE) ;;;
  sched ;;;
  unlock_ptable.

(** [sleep] over the two lock operations it calls. *)
Definition sleep_on (acq rel : lockid -> K unit) (ch : chan_t) (lk : option lockid) : K unit :=
  p <- cur_proc ;;
  match p with
  | None => panic "sleep"
  | Some _ =>
      match lk with
      | None => panic "sleep without lk"
      | Some lk =>
          let other := negb (bool_decide (lk = ptable_lock)) in
          when other (acq ptable_lock ;;; rel lk) ;;;
          upd_p p (set_chan ch) ;;;
          upd_p p (set_state SLEEPING) ;;;
          sched ;;;
          upd_p p (set_chan None) ;;;
          when other (rel ptable_lock ;;; acq lk)
      end
  end.

Definition sleep : chan_t -> option lockid -> K unit :=
  sleep_on (fun l => lift (T := mach) (acquire l)) (fun l => lift (T := mach) (release l)).

Definition wakeup (ch : chan_t) : K unit :=
  lock_ptable ;;;
  upd_ptable (wakeup1 ch) ;;;
  unlock_ptable.

Definition kill (n : Z) : K Z :=
  lock_ptable ;;;
  t <- get_ptable ;;
  match find_proc (fun p => pid p =? n) t with
  | Some i =>
      upd_p (Some i) (set_killed true) ;;;
      x <- read_p (Some i) ;;
      when (is_state SLEEPING x) (upd_p (Some i) (set_state RUNNABLE)) ;;;
      unlock_ptable ;;;
      ret 0
  | None => unlock_ptable ;;; ret (-1)
  end.

(** [for(fd = 0; fd < NOFILE; fd++) if(curproc->ofile[fd]) { fileclose(...); curproc->ofile[fd] = 0; }] *)
Fixpoint close_files (c : option nat) (i : nat) (n : nat) : K unit :=
  match n with
  | O => ret tt
  | S n =>
      x <- read_p c ;;
      match ofile x !! i with
      | Some (Some f) =>
          f_fileclose f ;;;
          upd_p c (fun q => set_ofile (<[i := None]> (ofile q)) q)
      | _ => ret tt
      end ;;;
      close_files c (S i) n
  end.

Definition exit : K unit :=
  c <- cur_proc ;;
  init <- gets initproc ;;
  if bool_decide (c = init) then panic "init exiting" else
  close_files c 0 NOFILE ;;;
  f_begin_op ;;;
  x <- read_p c ;;
  match cwd x with
  | None => fault 0
  | Some d => f_iput d
  end ;;;
  f_end_op ;;;
  upd_p c (set_cwd None) ;;;
  lock_ptable ;;;
  x <- read_p c ;;
  upd_ptable (wakeup1 (proc_chan (parent x))) ;;;
  init <- gets initproc ;;
  upd_ptable (reparent c init 0 NPROC) ;;;
  upd_p c (set_state ZOMBIE) ;;;
  sched ;;;
  panic "zombie exit".

(** One scan of [wait]: the first zombie child, and whether there are children. *)
Definition is_child (c : option nat) (p : proc) : bool := bool_decide (parent p = c).
Definition find_zombie (c : option nat) (t : list proc) : option nat :=
  find_proc (fun p => is_child c p && is_state ZOMBIE p) t.
Definition havekids (c : option nat) (t : list proc) : bool := existsb (is_child c) t.

Definition reaped (q : proc) : proc :=
  set_state UNUSED (set_killed false (set_name (<[0%nat := 0]> (name q)) (set_parent None (set_pid 0 q)))).

Fixpoint wait_loop (c : option nat) (fuel : nat) : K Z :=
  match fuel with
  | O => nofuel
  | S fuel =>
      t <- get_ptable ;;
      match find_zombie c t with
      | Some i =>
          q <- read_p (Some i) ;;
          lift (T := kst) (kfree (kstack q)) ;;;
          upd_p (Some i) (set_kstack 0) ;;;
          lift (T := vst) (freevm (pgdir q)) ;;;
          upd_p (Some i) reaped ;;;
          unlock_ptable ;;;
          ret (pid q)
      | None =>
          x <- read_p c ;;
          if negb (havekids c t) || killed x then unlock_ptable ;;; ret (-1)
          else
            sleep (proc_chan c) (Some ptable_lock) ;;;
            wait_loop c fuel
      end
  end.

(** How often [wait] is woken in vain before the model gives up. *)
Definition WAITS : nat := 1000.

Definition wait : K Z :=
  c <- cur_proc ;;
  lock_ptable ;;;
  wait_loop c WAITS.

(** One pass of the scheduler over the process table. *)
Fixpoint run_all (i : nat) (n : nat) : K unit :=
  match n with
  | O => ret tt
  | S n =>
      x <- read_p (Some i) ;;
      when (is_state RUNNABLE x)
        (lift (T := mach) (update_cpu (set_cproc (Some i))) ;;;
         lift (T := vst) (switchuvm (Some i)) ;;;
         upd_p (Some i) (set_state RUNNING) ;;;
         switch ;;;
         lift (T := vst) switchkvm ;;;
         lift (T := mach) (update_cpu (set_cproc None))) ;;;
      run_all (S i) n
  end.

Fixpoint scheduler_loop (passes : nat) : K unit :=
  match passes with
  | O => nofuel
  | S passes =>
      lift (T := mach) (modify sti) ;;;
      lock_ptable ;;;
      run_all 0 NPROC ;;;
      unlock_ptable ;;;
      scheduler_loop passes
  end.

(** [scheduler] never returns; [passes] bounds how long it is observed. *)
Definition scheduler (passes : nat) : K unit :=
  lift (T := mach) (update_cpu (set_cproc None)) ;;;
  scheduler_loop passes.
End proc.
