(* ===== verification/ProcTable.v ===== *)
(** The life of processes: the changes [proc.c] makes to the process table as
    a transition system, with the invariants that hold in every reachable
    table. *)

From S2P Require Import Prelude Params Spinlock Kalloc Vm Proc.
Open Scope Z_scope.

(** * What the scans and sweeps of [proc.c] do *)

Lemma find_from_spec f t i :
  match find_from i f t with
  | Some j => exists k p, j = (i + k)%nat /\ t !! k = Some p /\ f p = true /\
                          forall k' q, (k' < k)%nat -> t !! k' = Some q -> f q = false
  | None => forall k q, t !! k = Some q -> f q = false
  end.
Proof.
  revert i. induction t as [|p t IH]; intros i; simpl; [done|]. destruct (f p) eqn:E.
  - exists 0%nat, p. split; [lia|]. split; [done|]. split; [done|]. intros; lia.
  - specialize (IH (S i)). destruct (find_from (S i) f t) as [j|].
    + destruct IH as (k & q & -> & Hk & Hf & Hlt). exists (S k), q. split; [lia|]. split; [done|]. split; [done|].
      intros [|k'] q' Hk' Hq; simpl in Hq; [by injection Hq as <-|]. apply (Hlt k'); [lia|done].
    + intros [|k] q Hq; simpl in Hq; [by injection Hq as <-|]. by apply (IH k).
Qed.

Lemma find_proc_some f t i :
  find_proc f t = Some i -> exists p, t !! i = Some p /\ f p = true.
Proof.
  intros E. pose proof (find_from_spec f t 0) as H. unfold find_proc in E. rewrite E in H.
  destruct H as (k & p & -> & Hk & Hf & _). by exists p.
Qed.

Lemma find_proc_none f t i p : find_proc f t = None -> t !! i = Some p -> f p = false.
Proof. intros E. pose proof (find_from_spec f t 0) as H. unfold find_proc in E. rewrite E in H. apply H. Qed.

Lemma is_state_true x p : is_state x p = true <-> state p = x.
Proof. unfold is_state. by rewrite bool_decide_eq_true. Qed.

Lemma is_state_false x p : is_state x p = false <-> state p <> x.
Proof. unfold is_state. by rewrite bool_decide_eq_false. Qed.

(** [wake] changes the state only, and only from [SLEEPING] to [RUNNABLE]. *)
Lemma wake_cases ch p :
  (state p = SLEEPING /\ chan p = ch /\ wake ch p = set_state RUNNABLE p) \/
  ((state p <> SLEEPING \/ chan p <> ch) /\ wake ch p = p).
Proof.
  unfold wake, is_state.
  destruct (bool_decide (state p = SLEEPING)) eqn:E1; destruct (bool_decide (chan p = ch)) eqn:E2; simpl;
    rewrite ?bool_decide_eq_true, ?bool_decide_eq_false in *; tauto.
Qed.

Lemma wake_parent ch p : parent (wake ch p) = parent p.
Proof. unfold wake. by destruct (_ && _). Qed.
Lemma wake_pid ch p : pid (wake ch p) = pid p.
Proof. unfold wake. by destruct (_ && _). Qed.
Lemma wake_chan ch p : chan (wake ch p) = chan p.
Proof. unfold wake. by destruct (_ && _). Qed.
Lemma wake_zombie ch p : is_state ZOMBIE (wake ch p) = is_state ZOMBIE p.
Proof.
  destruct (wake_cases ch p) as [(Hs & _ & ->)|[_ ->]]; [|done].
  unfold is_state. rewrite Hs. done.
Qed.
Lemma wake_twice ch p : wake ch (wake ch p) = wake ch p.
Proof. destruct (wake_cases ch p) as [(Hs & _ & ->)|[_ E]]; [done|by rewrite !E]. Qed.
Lemma wake_set_parent ch x p : wake ch (set_parent x p) = set_parent x (wake ch p).
Proof. unfold wake, is_state. simpl. by destruct (_ && _). Qed.

(** The zombies among the children of [cur] at indices [i, i + n). *)
Definition zombie_child (cur : option nat) (t : list proc) (k : nat) : bool :=
  match t !! k with
  | Some p => bool_decide (parent p = cur) && is_state ZOMBIE p
  | None => false
  end.

(** The closed form of the loop of [exit]. *)
Lemma reparent_lookup cur init i n t j :
  cur <> init ->
  reparent cur init i n t !! j =
  (fun p => (if existsb (zombie_child cur t) (seq i n) then wake (proc_chan init) else id)
            (if decide ((i <= j < i + n)%nat /\ parent p = cur) then set_parent init p else p)) <$> t !! j.
Proof.
  intros Hne. revert i t. induction n as [|n IH]; intros i t; cbn [reparent seq existsb].
  - destruct (t !! j) as [p|]; [|done]. simpl. by rewrite decide_False by lia.
  - rewrite IH. clear IH. unfold zombie_child at 2. destruct (t !! i) as [p|] eqn:Ei; simpl.
    2:{ destruct (t !! j) as [q|] eqn:Ej; [|done]. simpl. do 2 f_equal. apply decide_ext.
        assert (j <> i) by congruence. split; intros [? ?]; (split; [lia|done]). }
    destruct (bool_decide (parent p = cur)) eqn:Ep.
    2:{ apply bool_decide_eq_false in Ep. destruct (t !! j) as [q|] eqn:Ej; [|done]. simpl. do 2 f_equal. apply decide_ext.
        split; intros [? ?]; (split; [|done]); [lia|].
        assert (j <> i) by (intros ->; congruence). lia. }
    apply bool_decide_eq_true in Ep. simpl.
    set (t1 := alter (set_parent init) i t).
    assert (Hz1 : forall k, (i < k)%nat -> zombie_child cur t1 k = zombie_child cur t k).
    { intros k Hk. unfold zombie_child, t1. by rewrite list_lookup_alter_ne by lia. }
    assert (Hzs : forall m, existsb (zombie_child cur t1) (seq (S i) m) = existsb (zombie_child cur t) (seq (S i) m)).
    { intros m. assert (Hgt : forall k, k ∈ seq (S i) m -> (i < k)%nat) by (intros k Hk%elem_of_seq; lia).
      induction (seq (S i) m) as [|k ks IHk]; simpl; [done|]. rewrite Hz1 by (apply Hgt; set_solver). f_equal.
      apply IHk. intros; apply Hgt; set_solver. }
    assert (Hzw : forall m, existsb (zombie_child cur (wakeup1 (proc_chan init) t1)) m = existsb (zombie_child cur t1) m).
    { intros m. induction m as [|k m IHm]; simpl; [done|]. rewrite IHm. f_equal. unfold zombie_child, wakeup1.
      rewrite list_lookup_fmap. destruct (t1 !! k); simpl; [|done]. by rewrite wake_parent, wake_zombie. }
    assert (Ht1 : t1 !! j = (fun q => if decide (j = i) then set_parent init q else q) <$> t !! j).
    { unfold t1. destruct (decide (j = i)) as [->|]; [by rewrite list_lookup_alter_eq|].
      rewrite list_lookup_alter_ne by done. by destruct (t !! j). }
    assert (Hj : forall q, t !! j = Some q -> j = i -> q = p) by (intros q Hq ->; congruence).
    assert (Hdec : forall q, j <> i ->
      (if decide ((i <= j < i + S n)%nat /\ parent q = cur) then set_parent init q else q) =
      (if decide ((S i <= j < S i + n)%nat /\ parent q = cur) then set_parent init q else q)).
    { intros q Hne'. apply decide_ext. split; intros [? ?]; (split; [lia|done]). }
    destruct (is_state ZOMBIE p) eqn:Ez; rewrite ?orb_true_l, ?orb_false_l.
    + rewrite Hzw, Hzs. unfold wakeup1. rewrite list_lookup_fmap, Ht1.
      destruct (t !! j) as [q|] eqn:Ej; [|done]. simpl. f_equal.
      destruct (decide (j = i)) as [Eji|Hji].
      * rewrite (Hj q eq_refl Eji). rewrite (decide_False (P := (S i <= j < S i + n)%nat /\ _)) by lia.
        rewrite decide_True by (split; [lia|done]). destruct (existsb _ _); unfold id; by rewrite ?wake_twice.
      * rewrite wake_parent, Hdec by done. destruct (decide _), (existsb _ _); unfold id;
          by rewrite <- ?wake_set_parent, ?wake_twice.
    + rewrite Hzs, Ht1. destruct (t !! j) as [q|] eqn:Ej; [|done]. simpl. do 2 f_equal.
      destruct (decide (j = i)) as [Eji|Hji].
      * rewrite (Hj q eq_refl Eji). rewrite (decide_False (P := (S i <= j < S i + n)%nat /\ _)) by lia.
        by rewrite decide_True by (split; [lia|done]).
      * by rewrite Hdec by done.
Qed.

(** * The invariant *)

Definition alive (p : proc) : Prop := state p = SLEEPING \/ state p = RUNNABLE \/ state p = RUNNING.

(** Process [i] sleeps in [wait]: on the address of its own [struct proc]. *)
Definition waiting (i : nat) (p : proc) : Prop := state p = SLEEPING /\ chan p = proc_chan (Some i).

(** The fields that make up the life of a process; the others are its memory,
    its files and its name. *)
Definition life (p : proc) : procstate * Z * option nat * chan_t := (state p, pid p, parent p, chan p).

Lemma life_entry (t t' : list proc) (j : nat) p' :
  life <$> t' = life <$> t -> t' !! j = Some p' ->
  exists p, t !! j = Some p /\ state p' = state p /\ pid p' = pid p /\ parent p' = parent p /\ chan p' = chan p.
Proof.
  intros E Hj. pose proof (f_equal (fun l => l !! j) E) as Ej. cbv beta in Ej.
  rewrite !list_lookup_fmap, Hj in Ej. destruct (t !! j) as [p|]; [|done].
  injection Ej as E1 E2 E3 E4. by exists p.
Qed.

Section inv.
Context (init : nat).

Record inv (t : list proc) (next : Z) : Prop := {
  i_len : length t = NPROC;
  i_pid : forall i p, t !! i = Some p -> state p <> UNUSED -> 0 < pid p < next;
  i_uniq : forall i j p q, t !! i = Some p -> t !! j = Some q -> state p <> UNUSED -> state q <> UNUSED ->
    pid p = pid q -> i = j;
  i_init : exists p, t !! init = Some p /\ alive p;
  i_unused : forall i p, t !! i = Some p -> state p = UNUSED -> parent p = None;
  i_root : forall p, t !! init = Some p -> parent p = None;
  i_parent : forall i p k, t !! i = Some p -> parent p = Some k -> k <> i /\ exists q, t !! k = Some q /\ alive q;
  i_orphan : forall i p, t !! i = Some p -> state p <> UNUSED -> state p <> EMBRYO -> i <> init -> parent p <> None;
  i_wait : forall i p k q, t !! i = Some p -> waiting i p -> t !! k = Some q -> parent q = Some i -> state q <> ZOMBIE
}.

(** Replacing one entry. *)
Lemma inv_upd t next next' i p f :
  inv t next -> t !! i = Some p -> next <= next' ->
  let p' := f p in
  (state p' <> UNUSED -> 0 < pid p' < next' /\
     forall j q, j <> i -> t !! j = Some q -> state q <> UNUSED -> pid q <> pid p') ->
  (state p' = UNUSED -> parent p' = None) ->
  (i = init -> parent p' = None) ->
  (alive p -> alive p' \/ (i <> init /\ forall k q, t !! k = Some q -> parent q <> Some i)) ->
  (forall k, parent p' = Some k -> k <> i /\ exists q, t !! k = Some q /\ alive q) ->
  (state p' <> UNUSED -> state p' <> EMBRYO -> i <> init -> parent p' <> None) ->
  (waiting i p' -> forall k q, k <> i -> t !! k = Some q -> parent q = Some i -> state q <> ZOMBIE) ->
  (state p' = ZOMBIE -> forall k q, parent p' = Some k -> t !! k = Some q -> ~ waiting k q) ->
  inv (alter f i t) next'.
Proof.
  intros I Hi Hn p' H1 H2 H2' H3 H4 H5 H6 H7.
  assert (L : forall j q, alter f i t !! j = Some q -> (j = i /\ q = p') \/ (j <> i /\ t !! j = Some q)).
  { intros j q Hj. destruct (decide (i = j)) as [<-|Hne].
    - rewrite list_lookup_alter_eq, Hi in Hj. injection Hj as <-. by left.
    - rewrite list_lookup_alter_ne in Hj by done. by right. }
  assert (Al : forall k q, t !! k = Some q -> alive q -> k <> i \/ alive p' -> exists q', alter f i t !! k = Some q' /\ alive q').
  { intros k q Hk Hq Ho. destruct (decide (i = k)) as [<-|Hne].
    - exists p'. rewrite list_lookup_alter_eq, Hi. split; [done|]. destruct Ho; [congruence|done].
    - exists q. by rewrite list_lookup_alter_ne. }
  constructor.
  - rewrite length_alter. apply I.
  - intros j q [[-> ->]|[Hne Hj]]%L Hs; [by apply H1|]. pose proof (i_pid _ _ I j q Hj Hs). lia.
  - intros j k q r [[-> ->]|[Hne Hj]]%L [[-> ->]|[Hne' Hk]]%L Hs Hs' E; [done| | |by apply (i_uniq _ _ I j k q r)].
    + destruct (proj2 (H1 Hs) k r Hne' Hk Hs'). done.
    + by destruct (proj2 (H1 Hs') j q Hne Hj Hs).
  - destruct (i_init _ _ I) as (q & Hq & Ha). apply (Al init q Hq Ha).
    destruct (decide (init = i)) as [E|]; [right|by left]. rewrite E, Hi in Hq. injection Hq as <-.
    destruct (H3 Ha) as [|[? _]]; [done|congruence].
  - intros j q [[-> ->]|[Hne Hj]]%L Hs; [by apply H2|by apply (i_unused _ _ I j)].
  - intros q [[E ->]|[Hne Hj]]%L; [by apply H2'|by apply (i_root _ _ I)].
  - intros j q k [[-> ->]|[Hne Hj]]%L Hp.
    + destruct (H4 k Hp) as [Hki (r & Hr & Har)]. split; [done|]. apply (Al k r Hr Har). by left.
    + destruct (i_parent _ _ I j q k Hj Hp) as [Hself (r & Hr & Har)]. split; [done|]. apply (Al k r Hr Har).
      destruct (decide (k = i)) as [->|]; [right|by left]. rewrite Hi in Hr. injection Hr as <-.
      destruct (H3 Har) as [|[_ Hno]]; [done|]. by destruct (Hno j q Hj).
  - intros j q [[-> ->]|[Hne Hj]]%L Hs He Hin; [by apply H5|by apply (i_orphan _ _ I j q)].
  - intros j q k r [[-> ->]|[Hne Hj]]%L Hw [[-> ->]|[Hne' Hk]]%L Hp.
    + by destruct (H4 i Hp).
    + by apply (H6 Hw k r).
    + intros Hz. by apply (H7 Hz j q).
    + by apply (i_wait _ _ I j q k r).
Qed.

(** Waking processes, and giving children to [init], in one sweep. *)
Definition swept (t t' : list proc) (moved : nat -> proc -> Prop) : Prop :=
  length t' = length t /\
  forall j p', t' !! j = Some p' -> exists p, t !! j = Some p /\ pid p' = pid p /\ chan p' = chan p /\
    (state p' = state p \/ state p = SLEEPING /\ state p' = RUNNABLE) /\
    ((parent p' = parent p /\ ~ moved j p) \/ (moved j p /\ parent p <> None /\ parent p' = Some init)).

Lemma swept_alive t t' m k q : swept t t' m -> t !! k = Some q -> alive q -> exists q', t' !! k = Some q' /\ alive q'.
Proof.
  intros [Hl H] Hk Ha. destruct (lookup_lt_is_Some_2 t' k) as [q' Hq'].
  { rewrite Hl. by apply lookup_lt_Some in Hk. }
  exists q'. split; [done|]. destruct (H k q' Hq') as (p & Hp & _ & _ & Hs & _). rewrite Hk in Hp. injection Hp as <-.
  unfold alive in *. destruct Hs as [->|[_ ->]]; tauto.
Qed.

Lemma swept_inv t t' next m :
  inv t next -> swept t t' m ->
  (forall p' k q, t' !! init = Some p' -> waiting init p' -> t !! k = Some q -> m k q -> state q <> ZOMBIE) ->
  inv t' next.
Proof.
  intros I W Hw. pose proof W as [Hl H].
  assert (U : forall p p', state p' = state p \/ state p = SLEEPING /\ state p' = RUNNABLE ->
    (state p' = UNUSED -> state p = UNUSED) /\ (state p' = EMBRYO -> state p = EMBRYO) /\
    (state p' = ZOMBIE -> state p = ZOMBIE) /\ (state p' = SLEEPING -> state p = SLEEPING) /\
    (state p = UNUSED -> state p' = UNUSED) /\ (state p = EMBRYO -> state p' = EMBRYO)).
  { intros p p' [E|[E1 E2]]; repeat split; congruence. }
  constructor.
  - rewrite Hl. apply I.
  - intros j p' Hj Hs. destruct (H j p' Hj) as (p & Hp & -> & _ & Hst & _). apply (i_pid _ _ I j p Hp).
    intros E. apply Hs. by apply (U p p' Hst).
  - intros j k p' q' Hj Hk Hsp Hsq. destruct (H j p' Hj) as (p & Hp & -> & _ & Hst & _).
    destruct (H k q' Hk) as (q & Hq & -> & _ & Hst' & _). apply (i_uniq _ _ I j k p q Hp Hq).
    + intros E. apply Hsp. by apply (U p p' Hst).
    + intros E. apply Hsq. by apply (U q q' Hst').
  - destruct (i_init _ _ I) as (q & Hq & Ha). by apply (swept_alive t t' m init q).
  - intros j p' Hj Hs. destruct (H j p' Hj) as (p & Hp & _ & _ & Hst & Hpa).
    pose proof (i_unused _ _ I j p Hp (proj1 (U p p' Hst) Hs)) as Hno.
    destruct Hpa as [[-> _]|(_ & Hsome & _)]; [done|congruence].
  - intros p' Hj. destruct (H init p' Hj) as (p & Hp & _ & _ & _ & Hpa). pose proof (i_root _ _ I p Hp) as Hno.
    destruct Hpa as [[-> _]|(_ & Hsome & _)]; [done|congruence].
  - intros j p' k Hj Hpk. destruct (H j p' Hj) as (p & Hp & _ & _ & Hst & Hpa).
    destruct Hpa as [[E _]|(_ & Hsome & E)].
    + rewrite E in Hpk. destruct (i_parent _ _ I j p k Hp Hpk) as [Hself (q & Hq & Ha)]. split; [done|].
      by apply (swept_alive t t' m k q).
    + rewrite E in Hpk. injection Hpk as <-. split; [|destruct (i_init _ _ I) as (q & Hq & Ha); by apply (swept_alive t t' m init q)].
      intros <-. by rewrite (i_root _ _ I p Hp) in Hsome.
  - intros j p' Hj Hs He Hi. destruct (H j p' Hj) as (p & Hp & _ & _ & Hst & Hpa).
    destruct Hpa as [[-> _]|(_ & _ & ->)]; [|done]. apply (i_orphan _ _ I j p Hp); [| |done].
    + intros E. apply Hs. by apply (U p p' Hst).
    + intros E. apply He. by apply (U p p' Hst).
  - intros j p' k q' Hj Hwt Hk Hpk Hz. destruct (H j p' Hj) as (p & Hp & _ & Hc & Hst & _).
    destruct (H k q' Hk) as (q & Hq & _ & _ & Hst' & Hpa).
    assert (Hzq : state q = ZOMBIE) by by apply (U q q' Hst').
    destruct Hpa as [[E _]|(Hm & _ & E)].
    + rewrite E in Hpk. apply (i_wait _ _ I j p k q Hp); [|done|done|done].
      destruct Hwt as [Hsl Hch]. split; [by apply (U p p' Hst)|by rewrite <- Hc].
    + rewrite E in Hpk. injection Hpk as <-. by apply (Hw p' k q).
Qed.

Lemma wakeup1_swept ch t : swept t (wakeup1 ch t) (fun _ _ => False).
Proof.
  split; [apply length_fmap|]. intros j p' Hj. unfold wakeup1 in Hj. rewrite list_lookup_fmap in Hj.
  destruct (t !! j) as [p|]; [|done]. injection Hj as <-. exists p. rewrite wake_pid, wake_chan, wake_parent.
  do 3 (split; [done|]). split; [|left; tauto].
  destruct (wake_cases ch p) as [(Hs & _ & ->)|[_ ->]]; [by right|by left].
Qed.

Lemma wakeup1_inv ch t next : inv t next -> inv (wakeup1 ch t) next.
Proof. intros I. by apply (swept_inv t _ next _ I (wakeup1_swept ch t)). Qed.

Lemma reparent_length cur i0 i n t : length (reparent cur i0 i n t) = length t.
Proof.
  revert i t. induction n as [|n IH]; intros i t; cbn [reparent]; [done|]. rewrite IH.
  destruct (t !! i) as [p|]; [|done]. destruct (bool_decide _); [|done].
  destruct (is_state ZOMBIE p); unfold wakeup1; by rewrite ?length_fmap, length_alter.
Qed.

#[local] Opaque reparent NPROC.

Definition woken_init (c : nat) (t : list proc) : proc -> proc :=
  if existsb (zombie_child (Some c) t) (seq 0 NPROC) then wake (proc_chan (Some init)) else id.

Lemma woken_init_same c t p :
  pid (woken_init c t p) = pid p /\ chan (woken_init c t p) = chan p /\ parent (woken_init c t p) = parent p /\
  (state (woken_init c t p) = state p \/ state p = SLEEPING /\ state (woken_init c t p) = RUNNABLE).
Proof.
  unfold woken_init. destruct (existsb _ _); unfold id; [|tauto].
  rewrite wake_pid, wake_chan, wake_parent. do 3 (split; [done|]).
  destruct (wake_cases (proc_chan (Some init)) p) as [(Hs & _ & ->)|[_ ->]]; [by right|by left].
Qed.

Lemma reparent_entry c t j p' :
  c <> init -> length t = NPROC ->
  reparent (Some c) (Some init) 0 NPROC t !! j = Some p' ->
  exists p, t !! j = Some p /\
    p' = woken_init c t (if decide (parent p = Some c) then set_parent (Some init) p else p).
Proof.
  intros Hc Hl. rewrite reparent_lookup by congruence. destruct (t !! j) as [p|] eqn:Hj; [|done].
  intros [= <-]. exists p. split; [done|]. apply lookup_lt_Some in Hj. unfold woken_init. f_equal.
  apply decide_ext. split; [tauto|]. intros; split; [lia|done].
Qed.

Lemma reparent_swept c t :
  c <> init -> length t = NPROC ->
  swept t (reparent (Some c) (Some init) 0 NPROC t) (fun _ p => parent p = Some c).
Proof.
  intros Hc Hl. split; [apply reparent_length|]. intros j p' Hj.
  destruct (reparent_entry c t j p' Hc Hl Hj) as (p & Hp & ->). clear Hj. exists p. split; [done|].
  destruct (woken_init_same c t (if decide (parent p = Some c) then set_parent (Some init) p else p)) as (-> & -> & -> & Hs).
  destruct (decide (parent p = Some c)) as [E|E]; cbn [pid chan parent state set_parent] in *.
  - split; [done|]. split; [done|]. split; [done|]. right. rewrite E. done.
  - split; [done|]. split; [done|]. split; [done|]. by left.
Qed.

Lemma reparent_inv c t next :
  c <> init -> inv t next -> inv (reparent (Some c) (Some init) 0 NPROC t) next.
Proof.
  intros Hc I. pose proof (i_len _ _ I) as Hl.
  apply (swept_inv t _ next _ I (reparent_swept c t Hc Hl)).
  intros p' k q Hi [Hs Hch] Hk Hq Hz. destruct (reparent_entry c t init p' Hc Hl Hi) as (p & Hp & ->). clear Hi.
  assert (Hex : existsb (zombie_child (Some c) t) (seq 0 NPROC) = true).
  { apply existsb_exists. exists k. split.
    - apply list_elem_of_In, elem_of_seq. apply lookup_lt_Some in Hk. lia.
    - unfold zombie_child. rewrite Hk. apply andb_true_iff. split; [by apply bool_decide_eq_true|by apply is_state_true]. }
  unfold woken_init in *. rewrite Hex in *.
  destruct (wake_cases (proc_chan (Some init)) (if decide (parent p = Some c) then set_parent (Some init) p else p))
    as [(_ & _ & E)|[Hn E]]; rewrite E in Hs, Hch; [discriminate Hs|]. by destruct Hn as [Hn|Hn]; apply Hn.
Qed.

Lemma reparent_no_child c t k q :
  c <> init -> length t = NPROC ->
  reparent (Some c) (Some init) 0 NPROC t !! k = Some q -> parent q <> Some c.
Proof.
  intros Hc Hl Hk. destruct (reparent_entry c t k q Hc Hl Hk) as (p & Hp & ->).
  destruct (woken_init_same c t (if decide (parent p = Some c) then set_parent (Some init) p else p)) as (_ & _ & -> & _).
  destruct (decide (parent p = Some c)); cbn [parent set_parent]; congruence.
Qed.

(** * Transitions *)

Inductive tstep : list proc * Z -> list proc * Z -> Prop :=
(* [allocproc]: the first unused entry, and the next pid *)
| t_alloc t next i :
    find_proc (is_state UNUSED) t = Some i ->
    tstep (t, next) (alter (fun p => set_pid next (set_state EMBRYO p)) i t, next + 1)
(* [allocproc] or [fork] out of memory *)
| t_unalloc t next i p :
    t !! i = Some p -> state p = EMBRYO -> parent p = None ->
    tstep (t, next) (alter (set_state UNUSED) i t, next)
(* [fork]: [np->parent = curproc], then [np->state = RUNNABLE] *)
| t_adopt t next i p c q :
    t !! i = Some p -> state p = EMBRYO -> t !! c = Some q -> state q = RUNNING ->
    tstep (t, next) (alter (set_parent (Some c)) i t, next)
| t_publish t next i p :
    t !! i = Some p -> state p = EMBRYO -> parent p <> None ->
    tstep (t, next) (alter (set_state RUNNABLE) i t, next)
(* [scheduler], [yield] *)
| t_run t next i p :
    t !! i = Some p -> state p = RUNNABLE -> tstep (t, next) (alter (set_state RUNNING) i t, next)
| t_yield t next i p :
    t !! i = Some p -> state p = RUNNING -> tstep (t, next) (alter (set_state RUNNABLE) i t, next)
(* [sleep]; [wait] sleeps on the process's own address, when it has found no
   zombie among its children *)
| t_sleep t next i p ch :
    t !! i = Some p -> state p = RUNNING ->
    (ch = proc_chan (Some i) -> find_zombie (Some i) t = None) ->
    tstep (t, next) (alter (fun p => set_state SLEEPING (set_chan ch p)) i t, next)
| t_tidy t next i p :
    t !! i = Some p -> state p = RUNNING -> tstep (t, next) (alter (set_chan None) i t, next)
(* [wakeup] and [kill] *)
| t_wakeup t next ch : tstep (t, next) (wakeup1 ch t, next)
| t_kill t next i n :
    find_proc (fun p => pid p =? n) t = Some i ->
    tstep (t, next)
      (alter (fun p => let p := set_killed true p in if is_state SLEEPING p then set_state RUNNABLE p else p) i t, next)
(* [exit] *)
| t_exit t next c p :
    t !! c = Some p -> state p = RUNNING -> c <> init ->
    tstep (t, next)
      (alter (set_state ZOMBIE) c (reparent (Some c) (Some init) 0 NPROC (wakeup1 (proc_chan (parent p)) t)), next)
(* [wait] reaping a child *)
| t_reap t next c i p q :
    t !! c = Some q -> state q = RUNNING -> t !! i = Some p -> state p = ZOMBIE -> parent p = Some c ->
    tstep (t, next) (alter reaped i t, next)
(* changes of the other fields *)
| t_fields (t t' : list proc) next : life <$> t' = life <$> t -> tstep (t, next) (t', next).

(** Changes of a live process. *)
Lemma inv_live t next i p f :
  inv t next -> t !! i = Some p -> alive p -> alive (f p) -> pid (f p) = pid p -> parent (f p) = parent p ->
  (waiting i (f p) -> forall k q, t !! k = Some q -> parent q = Some i -> state q <> ZOMBIE) ->
  inv (alter f i t) next.
Proof.
  intros I Hi Ha Ha' Hp Hpa Hw.
  assert (state p <> UNUSED /\ state p <> EMBRYO) as [Hs1 Hs2] by (unfold alive in Ha; split; intuition congruence).
  assert (state (f p) <> UNUSED /\ state (f p) <> ZOMBIE) as [Hs3 Hs4] by (unfold alive in Ha'; split; intuition congruence).
  apply (inv_upd t next next i p f I Hi); [lia|..].
  - intros _. rewrite Hp. split; [by apply (i_pid _ _ I i p Hi)|]. intros j q Hne Hj Hq E.
    apply Hne. by apply (i_uniq _ _ I j i q p).
  - tauto.
  - intros ->. rewrite Hpa. by apply (i_root _ _ I).
  - by left.
  - intros k. rewrite Hpa. by apply (i_parent _ _ I i p).
  - intros _ _ Hin. rewrite Hpa. by apply (i_orphan _ _ I i p Hi).
  - intros H k q _. by apply Hw.
  - tauto.
Qed.

(** Changes of an entry that is not a live process. *)
Lemma inv_embryo t next i p f :
  inv t next -> t !! i = Some p -> state p = EMBRYO ->
  pid (f p) = pid p ->
  (state (f p) = UNUSED -> parent (f p) = None) ->
  (forall k, parent (f p) = Some k -> k <> i /\ exists q, t !! k = Some q /\ alive q) ->
  (state (f p) <> UNUSED -> state (f p) <> EMBRYO -> parent (f p) <> None) ->
  state (f p) <> SLEEPING -> state (f p) <> ZOMBIE ->
  inv (alter f i t) next.
Proof.
  intros I Hi Hs Hp Hu Hpa Ho Hsl Hz.
  assert (Hin : i <> init).
  { intros ->. destruct (i_init _ _ I) as (q & Hq & Ha). unfold alive in Ha. rewrite Hi in Hq. injection Hq as <-.
    rewrite Hs in Ha. intuition congruence. }
  apply (inv_upd t next next i p f I Hi); [lia|..]; try done.
  - intros _. rewrite Hp. split; [apply (i_pid _ _ I i p Hi); congruence|]. intros j q Hne Hj Hq E.
    apply Hne. apply (i_uniq _ _ I j i q p); congruence.
  - unfold alive. rewrite Hs. intuition congruence.
  - intros H1 H2 _. by apply Ho.
  - intros [Hw _]. done.
Qed.

(** Changes of fields the invariant does not mention. *)
Lemma inv_fields t next i f :
  inv t next ->
  (forall p, t !! i = Some p -> state (f p) = state p /\ pid (f p) = pid p /\ parent (f p) = parent p /\ chan (f p) = chan p) ->
  inv (alter f i t) next.
Proof.
  intros I Hf. destruct (t !! i) as [p|] eqn:Hi.
  2:{ replace (alter f i t) with t; [done|]. apply list_eq. intros j.
      destruct (decide (i = j)) as [<-|]; [by rewrite list_lookup_alter_eq, Hi|by rewrite list_lookup_alter_ne]. }
  destruct (Hf p eq_refl) as (Es & Ep & Epa & Ec).
  apply (inv_upd t next next i p f I Hi); unfold alive, waiting; rewrite ?Es, ?Ep, ?Epa, ?Ec; [lia|..].
  - intros Hs. split; [by apply (i_pid _ _ I i p)|]. intros j q Hne Hj Hq E. apply Hne. by apply (i_uniq _ _ I j i q p).
  - by apply (i_unused _ _ I i p).
  - intros ->. by apply (i_root _ _ I).
  - tauto.
  - intros k. by apply (i_parent _ _ I i p).
  - by apply (i_orphan _ _ I i p).
  - intros Hw k q _. by apply (i_wait _ _ I i p).
  - intros Hz k q Hk Hq Hw. by apply (i_wait _ _ I k q i p).
Qed.

Lemma exit_inv t next c p :
  inv t next -> t !! c = Some p -> state p = RUNNING -> c <> init ->
  inv (alter (set_state ZOMBIE) c (reparent (Some c) (Some init) 0 NPROC (wakeup1 (proc_chan (parent p)) t))) next.
Proof.
  intros I Hc Hs Hin.
  pose proof (wakeup1_inv (proc_chan (parent p)) t next I) as I1.
  assert (E1 : forall k q, wakeup1 (proc_chan (parent p)) t !! k = Some q ->
    exists q0, t !! k = Some q0 /\ q = wake (proc_chan (parent p)) q0).
  { intros k q Hk. unfold wakeup1 in Hk. rewrite list_lookup_fmap in Hk. destruct (t !! k) as [q0|]; [|done].
    injection Hk as <-. by exists q0. }
  assert (Hc1 : wakeup1 (proc_chan (parent p)) t !! c = Some p).
  { unfold wakeup1. rewrite list_lookup_fmap, Hc. simpl. unfold wake, is_state. by rewrite Hs. }
  set (t1 := wakeup1 (proc_chan (parent p)) t) in *. clearbody t1. pose proof (i_len _ _ I1) as Hl1.
  pose proof (reparent_inv c t1 next Hin I1) as I2.
  pose proof (fun k q => reparent_entry c t1 k q Hin Hl1) as E2.
  pose proof (fun k q => reparent_no_child c t1 k q Hin Hl1) as N2.
  destruct (swept_alive t1 _ _ c p (reparent_swept c t1 Hin Hl1) Hc1) as (p2 & Hc2 & Ha2); [unfold alive; tauto|].
  set (t2 := reparent _ _ _ _ t1) in *. clearbody t2. pose proof (woken_init_same c t1) as W. set (w := woken_init c t1) in *. clearbody w.
  assert (Hpc : parent p <> Some c) by (intros E; by destruct (i_parent _ _ I c p c Hc E)).
  destruct (E2 c p2 Hc2) as (p0 & Hp0 & Ep2). rewrite Hc1 in Hp0. injection Hp0 as <-.
  rewrite decide_False in Ep2 by done. destruct (W p) as (Epid & Ech & Epar & _). rewrite <- Ep2 in Epid, Ech, Epar.
  assert (Hnu : state p2 <> UNUSED /\ state p2 <> EMBRYO) by (unfold alive in Ha2; split; intuition congruence).
  destruct Hnu as [Hnu Hne'].
  apply (inv_upd t2 next next c p2 (set_state ZOMBIE) I2 Hc2); [lia|..].
  - intros _. cbn. split; [by apply (i_pid _ _ I2 c p2)|]. intros j q Hne Hj Hq E. apply Hne.
    by apply (i_uniq _ _ I2 j c q p2).
  - done.
  - done.
  - intros _. right. by split.
  - intros k Hk. by apply (i_parent _ _ I2 c p2).
  - intros _ _ _. by apply (i_orphan _ _ I2 c p2 Hc2).
  - intros [Hx _]. done.
  - intros _ k q Hk Hq [Hsl Hch]. cbn in Hk. rewrite Epar in Hk.
    destruct (E2 k q Hq) as (q1 & Hq1 & ->).
    destruct (W (if decide (parent q1 = Some c) then set_parent (Some init) q1 else q1)) as (_ & F2 & _ & F3).
    assert (Hq1s : state q1 = SLEEPING /\ chan q1 = proc_chan (Some k)).
    { rewrite F2 in Hch. destruct (decide _) in *; cbn in *; destruct F3 as [F3|[F3 _]]; split; congruence. }
    destruct (E1 k q1 Hq1) as (q0 & Hq0 & ->).
    destruct (wake_cases (proc_chan (parent p)) q0) as [(_ & _ & E4)|[Hn E4]]; rewrite E4 in Hq1s.
    + by destruct Hq1s.
    + rewrite Hk in Hn. tauto.
Qed.

Lemma reap_inv t next i p :
  inv t next -> t !! i = Some p -> state p = ZOMBIE -> inv (alter reaped i t) next.
Proof.
  intros I Hi Hz. apply (inv_upd t next next i p _ I Hi); try done.
  - unfold alive. rewrite Hz. intuition congruence.
  - intros [Hx _]. done.
Qed.

Lemma life_inv (t t' : list proc) next : inv t next -> life <$> t' = life <$> t -> inv t' next.
Proof.
  intros I E. apply (swept_inv t t' next (fun _ _ => False) I); [|done]. split.
  - apply (f_equal length) in E. by rewrite !length_fmap in E.
  - intros j p' Hj. destruct (life_entry t t' j p' E Hj) as (p & Hp & ? & ? & ? & ?). exists p.
    do 3 (split; [done|]). split; [by left|]. left. tauto.
Qed.

(** Every transition preserves the invariant. *)
Lemma tstep_inv x y : tstep x y -> inv x.1 x.2 -> 0 < x.2 -> inv y.1 y.2 /\ 0 < y.2.
Proof.
  intros [t next i Hf|t next i p Hi Hs Hp|t next i p c q Hi Hs Hc Hq|t next i p Hi Hs Hp|t next i p Hi Hs|
    t next i p Hi Hs|t next i p ch Hi Hs Hz|t next i p Hi Hs|t next ch|t next i n Hf|t next c p Hc Hs Hin|t next c i p q Hc Hs Hi Hz Hp|
    t t' next Hl]; cbn [fst snd]; intros I Hn; (split; [|lia]).
  - destruct (find_proc_some _ _ _ Hf) as (p & Hi & Hu%is_state_true).
    apply (inv_upd t next (next + 1) i p _ I Hi); cbn; try done; [lia|..].
    + intros _. split; [lia|]. intros j q Hne Hj Hq. pose proof (i_pid _ _ I j q Hj Hq). lia.
    + intros ->. by apply (i_root _ _ I).
    + unfold alive. rewrite Hu. intuition congruence.
    + intros k. by rewrite (i_unused _ _ I i p).
    + intros [Hx _]. done.
  - apply (inv_embryo t next i p _ I Hi Hs); try done. intros k. cbn. by rewrite Hp.
  - apply (inv_embryo t next i p _ I Hi Hs); cbn; try congruence. intros k [= <-]. split; [congruence|].
    exists q. unfold alive. tauto.
  - apply (inv_embryo t next i p _ I Hi Hs); try done. intros k. by apply (i_parent _ _ I i p).
  - apply (inv_live t next i p _ I Hi); unfold alive, waiting; cbn; try tauto. intros [? _]. done.
  - apply (inv_live t next i p _ I Hi); unfold alive, waiting; cbn; try tauto. intros [? _]. done.
  - apply (inv_live t next i p _ I Hi); unfold alive, waiting; cbn; try tauto. intros [_ E] k q Hk Hpk Hzq.
    pose proof (find_proc_none _ _ k q (Hz E) Hk) as Hno. cbv beta in Hno. apply andb_false_iff in Hno as [Hno|Hno].
    + unfold is_child in Hno. apply bool_decide_eq_false in Hno. done.
    + by apply is_state_false in Hno.
  - apply (inv_live t next i p _ I Hi); unfold alive, waiting; cbn; rewrite ?Hs; try tauto. intros [? _]. done.
  - by apply wakeup1_inv.
  - destruct (find_proc_some _ _ _ Hf) as (p & Hi & Hp). destruct (is_state SLEEPING p) eqn:Esl.
    + apply (inv_live t next i p _ I Hi); unfold alive, waiting, is_state in *; cbn; rewrite ?Esl; cbn; try tauto.
      * apply bool_decide_eq_true in Esl. tauto.
      * intros [? _]. done.
    + apply inv_fields; [done|]. intros q Hq. rewrite Hi in Hq. injection Hq as <-. unfold is_state in *. cbn.
      by rewrite Esl.
  - by apply exit_inv.
  - by apply (reap_inv t next i p).
  - by apply (life_inv t).
Qed.

(** Tables reachable from a given one. *)
Inductive treach : list proc * Z -> list proc * Z -> Prop :=
| tr_refl x : treach x x
| tr_step x y z : treach x y -> tstep y z -> treach x z.

Lemma treach_inv x y : treach x y -> inv x.1 x.2 -> 0 < x.2 -> inv y.1 y.2 /\ 0 < y.2.
Proof.
  induction 1 as [x|x y z Hxy IH Hyz]; intros I Hn; [done|]. destruct (IH I Hn). by apply (tstep_inv y z).
Qed.
End inv.

(** What the invariant gives: pids in use are positive and pairwise different,
    every process but [init] has a live parent, and no process sleeps in [wait]
    while one of its children is a zombie. *)
Definition table_safe (init : nat) (t : list proc) (next : Z) : Prop :=
  (forall i p, t !! i = Some p -> state p <> UNUSED -> 0 < pid p < next) /\
  (forall i j p q, t !! i = Some p -> t !! j = Some q -> state p <> UNUSED -> state q <> UNUSED ->
     pid p = pid q -> i = j) /\
  (forall i p, t !! i = Some p -> state p <> UNUSED -> state p <> EMBRYO -> i <> init ->
     exists k q, parent p = Some k /\ t !! k = Some q /\ alive q) /\
  (forall i p k q, t !! i = Some p -> waiting i p -> t !! k = Some q -> parent q = Some i -> state q <> ZOMBIE).

Lemma inv_safe init t next : inv init t next -> table_safe init t next.
Proof.
  intros I. split; [apply I|]. split; [apply I|]. split; [|apply I].
  intros i p Hi Hs He Hn. destruct (parent p) as [k|] eqn:Hp.
  - destruct (i_parent _ _ _ I i p k Hi Hp) as [_ (q & Hq & Ha)]. by exists k, q.
  - by destruct (i_orphan _ _ _ I i p Hi Hs He Hn).
Qed.

(** * After [userinit] *)

Definition zero_proc : proc :=
  Proc 0 0 0 UNUSED 0 None 0 0 None false (replicate NOFILE None) None (replicate 16 0).

(** The table when the first process, in entry 0, has been made runnable. *)
Definition boot_table : list proc :=
  set_state RUNNABLE (set_pid 1 zero_proc) :: replicate (NPROC - 1) zero_proc.

Lemma boot_inv : inv 0 boot_table 2.
Proof.
  assert (L : forall i p, boot_table !! i = Some p ->
    (i = 0%nat /\ p = set_state RUNNABLE (set_pid 1 zero_proc)) \/ (i <> 0%nat /\ p = zero_proc)).
  { intros [|i] p H; [left; by injection H as <-|]. right.
    change (replicate (NPROC - 1) zero_proc !! i = Some p) in H. apply lookup_replicate in H as [-> _]. done. }
  assert (Hlen : length boot_table = NPROC) by reflexivity.
  assert (H0 : boot_table !! 0%nat = Some (set_state RUNNABLE (set_pid 1 zero_proc))) by reflexivity.
  set (t := boot_table) in *. clearbody t. constructor.
  - done.
  - intros i p [[-> ->]|[_ ->]]%L Hs; [cbn; lia|done].
  - intros i j p q [[-> ->]|[_ ->]]%L [[-> ->]|[_ ->]]%L Hp Hq; done.
  - eexists. split; [exact H0|]. unfold alive. cbn. tauto.
  - intros i p [[-> ->]|[_ ->]]%L; done.
  - intros p [[_ ->]|[_ ->]]%L; done.
  - intros i p k [[-> ->]|[_ ->]]%L; done.
  - intros i p [[-> ->]|[_ ->]]%L; done.
  - intros i p k q [[-> ->]|[_ ->]]%L [Hs _]; done.
Qed.

(** In every table reachable from the one [userinit] leaves. *)
Lemma process_table_safe t next : treach 0 (boot_table, 2) (t, next) -> table_safe 0 t next.
Proof. intros H. apply inv_safe. by destruct (treach_inv 0 _ _ H boot_inv ltac:(cbn; lia)) as [I _]. Qed.

(** [init] forks a child and waits for it, and the child exits. *)
Lemma demo_exit :
  exists t, treach 0 (boot_table, 2) (t, 3) /\
    (exists p, t !! 0%nat = Some p /\ state p = RUNNABLE) /\ (exists p, t !! 1%nat = Some p /\ state p = ZOMBIE).
Proof.
  eexists. split.
  - eapply tr_step.
    + eapply tr_step; [eapply tr_step; [eapply tr_step; [eapply tr_step; [eapply tr_step; [eapply tr_step;
        [apply tr_refl|] |] |] |] |] |].
      * eapply (t_run 0 _ _ 0); reflexivity.
      * eapply (t_alloc 0 _ _ 1). vm_compute. reflexivity.
      * eapply (t_adopt 0 _ _ 1 _ 0); [vm_compute; reflexivity|reflexivity|vm_compute; reflexivity|reflexivity].
      * eapply (t_publish 0 _ _ 1); [vm_compute; reflexivity|reflexivity|discriminate].
      * eapply (t_run 0 _ _ 1); [vm_compute; reflexivity|reflexivity].
      * eapply (t_sleep 0 _ _ 0 _ (proc_chan (Some 0%nat))); [vm_compute; reflexivity|reflexivity|].
        intros _. vm_compute. reflexivity.
    + eapply (t_exit 0 _ _ 1); [vm_compute; reflexivity|reflexivity|discriminate].
  - split; eexists; (split; [vm_compute; reflexivity|reflexivity]).
Qed.
