(* ===== verification/Locks.v ===== *)
(** Nested and interleaved critical sections: the closed forms of [acquire],
    [release], [holding] and [myproc] for a processor that holds locks, and
    the proof that the held-set locks of [Klock.v], on which the file system
    is modelled, are what these spinlocks provide. *)

From S2P Require Import Prelude Params Spinlock Klock Kalloc Vm.
Open Scope Z_scope.
Open Scope xv6_scope.

Section nested.
Context (me : nat) (c : cpu) (m : mach) (Hok : cpu_ok me c m).

Lemma nested_off : 0 < ncli c -> has (eflags m) FL_IF = false.
Proof. apply Hok. Qed.

(** Inside a critical section [myproc] changes nothing. *)
Lemma myproc_nested : 0 < ncli c -> myproc m = Ok (cproc c) m.
Proof.
  intros Hn. unfold myproc. rewrite (bind_ok _ _ _ _ _ (pushcli_ok _ _ _ Hok)).
  rewrite (bind_ok _ _ _ _ _ (read_cpu_ok _ _ _ (push_state_ok _ _ _ Hok) (has_cli m))).
  rewrite (bind_ok _ _ _ _ _ (popcli_push _ _ _ Hok)). unfold ret. f_equal.
  - unfold pushed. by destruct (ncli c =? 0).
  - unfold lock_cycle, unpushed. rewrite (proj2 (Z.eqb_neq _ _)) by lia.
    rewrite list_insert_id by apply Hok. by destruct m.
Qed.

Lemma holding_mine lk : 0 < ncli c -> locks m !! lk = Some (Spin 1 (Some me)) -> holding lk m = Ok true m.
Proof.
  intros Hn Hl. unfold holding, read_lock, bind. rewrite Hl. cbn [seqr locked Z.eqb lk_cpu].
  rewrite (mycpu_ok me c m Hok) by by apply nested_off. cbn. by rewrite bool_decide_eq_true_2.
Qed.

(** Taking a second lock. *)
Definition acquired_nested (lk : lockid) : mach :=
  set_locks (<[lk := Spin 1 (Some me)]> (locks m)) (set_cpus (<[me := set_ncli (ncli c + 1) c]> (cpus m)) m).

Lemma acquire_nested lk :
  0 < ncli c -> locks m !! lk = Some free_lock -> acquire lk m = Ok tt (acquired_nested lk).
Proof.
  intros Hn Hl. rewrite (acquire_free me c lk m Hok Hl). f_equal. unfold acquired, push_state, acquired_nested, pushed.
  rewrite (proj2 (Z.eqb_neq _ _)) by lia. by rewrite cli_off by by apply nested_off.
Qed.

(** Releasing a lock, in any order. *)
Definition popped_cpu : mach :=
  set_cpus (<[me := set_ncli (ncli c - 1) c]> (cpus m))
    (if (ncli c =? 1) && negb (intena c =? 0) then sti m else m).

Definition released_by (lk : lockid) : mach := set_locks (<[lk := free_lock]> (locks m)) popped_cpu.

Lemma popcli_nested : 0 < ncli c -> popcli m = Ok tt popped_cpu.
Proof.
  intros Hn. pose proof (nested_off Hn) as E. unfold popcli.
  rewrite (bind_ok _ _ m (eflags m) m) by done. rewrite E.
  rewrite (bind_ok _ _ _ _ _ (update_cpu_ok me c m Hok _ E)).
  assert (H2 : cpu_ok me (set_ncli (ncli c - 1) c) (set_cpus (<[me := set_ncli (ncli c - 1) c]> (cpus m)) m)).
  { by apply (cpu_ok_set me c); [..|cbn; lia|]. }
  rewrite (bind_ok _ _ _ _ _ (read_cpu_ok me _ _ H2 E)). cbn [ncli set_ncli intena].
  rewrite (proj2 (Z.ltb_ge _ _)) by lia. unfold popped_cpu, when.
  replace (ncli c - 1 =? 0) with (ncli c =? 1) by (destruct (Z.eqb_spec (ncli c) 1), (Z.eqb_spec (ncli c - 1) 0); lia).
  by destruct ((ncli c =? 1) && negb (intena c =? 0)).
Qed.

Lemma popped_ok lk : 0 < ncli c -> cpu_ok me (set_ncli (ncli c - 1) c) (released_by lk).
Proof.
  intros Hn. unfold released_by. apply cpu_ok_locks. unfold popped_cpu.
  destruct (Z.eqb_spec (ncli c) 1) as [E|E]; cbn [andb].
  - destruct (negb (intena c =? 0)).
    + split; cbn.
      * rewrite (find_apic_insert _ _ _ _ c); [apply Hok|apply Hok|done].
      * by apply list_lookup_insert_eq, (me_lt me c m Hok).
      * lia.
      * lia.
    + apply (cpu_ok_set me c); [done|done|cbn; lia|intros; by apply nested_off].
  - apply (cpu_ok_set me c); [done|done|cbn; lia|intros; by apply nested_off].
Qed.
End nested.

#[local] Transparent acquire release.

Lemma release_nested me c m lk :
  cpu_ok me c m -> 0 < ncli c -> locks m !! lk = Some (Spin 1 (Some me)) ->
  release lk m = Ok tt (released_by me c m lk).
Proof.
  intros Hok Hn Hl. unfold release. rewrite (bind_ok _ _ _ _ _ (holding_mine me c m Hok lk Hn Hl)).
  unfold read_lock, write_lock, modify, bind, set_locks. simpl. rewrite Hl. simpl.
  rewrite lookup_insert_eq. simpl. rewrite insert_insert_eq.
  change (Mach (cpus m) (lapicid m) (eflags m)) with (fun x => set_locks x m). cbv beta.
  rewrite (popcli_nested me c); [|by apply cpu_ok_locks|done].
  unfold released_by, popped_cpu. cbn [cpus set_locks eflags].
  by destruct ((ncli c =? 1) && negb (intena c =? 0)).
Qed.

(** * The held-set view

    [holds_exactly me m k]: processor [me] holds the locks in [held k] and no
    others, one [pushcli] deep for each. *)

Record holds_exactly (me : nat) (m : mach) (k : kctx) : Prop := {
  he_cpu : exists c, cpu_ok me c m /\ ncli c = Z.of_nat (size (held k));
  he_held lk : lk ∈ held k <-> locks m !! lk = Some (Spin 1 (Some me))
}.

Lemma holds_acquire me m k lk :
  holds_exactly me m k -> locks m !! lk = Some free_lock ->
  exists m', acquire lk m = Ok tt m' /\ holds_exactly me m' (set_held ({[lk]} ∪ held k) k).
Proof.
  intros [(c & Hok & Hn) Hh] Hl. eexists. split; [by apply (acquire_free me c)|].
  assert (Hnot : lk ∉ held k) by (rewrite Hh, Hl; by intros [=]).
  split.
  - exists (pushed (eflags m) c). split; [apply cpu_ok_locks, push_state_ok, Hok|].
    cbn [held set_held]. rewrite size_union by set_solver. rewrite size_singleton.
    unfold pushed. destruct (ncli c =? 0); cbn; lia.
  - intros lk'. cbn [held set_held acquired locks set_locks].
    destruct (decide (lk = lk')) as [<-|Hne].
    + rewrite lookup_insert_eq. set_solver.
    + rewrite lookup_insert_ne by done. change (locks (push_state me c m)) with (locks m).
      rewrite <- Hh. set_solver.
Qed.

Lemma holds_pos me m k lk c :
  holds_exactly me m k -> lk ∈ held k -> ncli c = Z.of_nat (size (held k)) -> 0 < ncli c.
Proof.
  intros _ Hin ->. assert (size (held k) <> 0%nat); [|lia].
  intros E. apply size_empty_inv in E. set_solver.
Qed.

Lemma holds_release me m k lk :
  holds_exactly me m k -> lk ∈ held k ->
  exists m', release lk m = Ok tt m' /\ holds_exactly me m' (set_held (held k ∖ {[lk]}) k) /\
    locks m' !! lk = Some free_lock.
Proof.
  intros He Hin. pose proof He as [(c & Hok & Hn) Hh]. pose proof (holds_pos _ _ _ _ _ He Hin Hn) as Hp.
  exists (released_by me c m lk). split; [apply release_nested; [done|done|by apply Hh]|].
  assert (Hlk : locks (released_by me c m lk) = <[lk := free_lock]> (locks m)).
  { done. }
  split; [|rewrite Hlk; apply lookup_insert_eq]. split.
  - exists (set_ncli (ncli c - 1) c). split; [by apply popped_ok|]. cbn [held set_held ncli set_ncli].
    assert (size (held k) = S (size (held k ∖ {[lk]}))); [|lia].
    rewrite (union_difference_L {[lk]} (held k)) at 1 by set_solver.
    rewrite size_union by set_solver. by rewrite size_singleton.
  - intros lk'. rewrite Hlk. cbn [held set_held]. destruct (decide (lk = lk')) as [<-|Hne].
    + rewrite lookup_insert_eq. split; [set_solver|by intros [=]].
    + rewrite lookup_insert_ne by done. rewrite <- Hh. set_solver.
Qed.

(** The panics of the two models agree as well. *)
Lemma acquire_again me m k lk :
  holds_exactly me m k -> lk ∈ held k -> acquire lk m = Panic "acquire".
Proof.
  intros He Hin. pose proof He as [(c & Hok & Hn) Hh]. pose proof (holds_pos _ _ _ _ _ He Hin Hn) as Hp.
  unfold acquire. rewrite (bind_ok _ _ _ _ _ (pushcli_ok me c m Hok)).
  rewrite (bind_ok _ _ _ true (push_state me c m)); [done|].
  apply (holding_mine me (pushed (eflags m) c)); [by apply push_state_ok| |by apply Hh].
  unfold pushed. destruct (ncli c =? 0); cbn; lia.
Qed.

Lemma release_unheld lk m : locks m !! lk = Some free_lock -> release lk m = Panic "release".
Proof. intros Hl. unfold release. by rewrite (bind_ok _ _ _ _ _ (holding_free lk m Hl)). Qed.

(** ** A lock somebody else has *)

Lemma holding_other me c m lk o :
  cpu_ok me c m -> has (eflags m) FL_IF = false -> locks m !! lk = Some (Spin 1 o) -> o <> Some me -> holding lk m = Ok false m.
Proof.
  intros Hok Hoff Hl Ho. unfold holding, read_lock, bind. rewrite Hl. cbn [seqr locked Z.eqb lk_cpu].
  rewrite (mycpu_ok me c m Hok Hoff). cbn. by rewrite bool_decide_eq_false_2.
Qed.

(** [release] panics; with interrupts on already in [mycpu]. *)
Lemma release_other me m k lk o :
  holds_exactly me m k -> locks m !! lk = Some (Spin 1 o) -> o <> Some me ->
  release lk m = Panic (if has (eflags m) FL_IF then "mycpu called with interrupts enabled" else "release").
Proof.
  intros [(c & Hok & _) _] Hl Ho. destruct (has (eflags m) FL_IF) eqn:E; unfold release.
  - unfold bind, holding, read_lock. unfold bind. rewrite Hl. cbn [seqr locked Z.eqb lk_cpu]. unfold mycpu. by rewrite E.
  - by rewrite (bind_ok _ _ _ _ _ (holding_other me c m lk o Hok E Hl Ho)).
Qed.

(** [acquire] from the [xchg] loop on. *)
Definition acquire_tail (lk : lockid) (n : nat) : M mach unit :=
  spin lk n ;;; c <- mycpu ;; l <- read_lock lk ;; write_lock lk (Spin (locked l) (Some c)).

Lemma tail_busy lk n o m : locks m !! lk = Some (Spin 1 o) -> acquire_tail lk (S n) m = Switch m (acquire_tail lk n).
Proof.
  intros Hl. assert (Ex : xchg_locked lk 1 m = Ok 1 m).
  { unfold xchg_locked, read_lock, write_lock, modify, bind. rewrite Hl. cbn. rewrite insert_id by done. by destruct m. }
  unfold acquire_tail, bind at 1.
  change (spin lk (S n)) with (old <- xchg_locked lk 1 ;; if old =? 0 then ret tt else switch ;;; spin lk n). by rewrite (bind_ok _ _ _ _ _ Ex).
Qed.

Lemma tail_free me c lk n m :
  cpu_ok me c m -> has (eflags m) FL_IF = false -> locks m !! lk = Some free_lock ->
  acquire_tail lk (S n) m = Ok tt (set_locks (<[lk := Spin 1 (Some me)]> (locks m)) m).
Proof.
  intros Hok Hoff Hl. unfold acquire_tail. rewrite (bind_ok _ _ _ _ _ (spin_free lk n m Hl)).
  rewrite (bind_ok _ _ _ me (set_locks (<[lk := Spin 1 None]> (locks m)) m)); [|apply (mycpu_ok me c); [by apply cpu_ok_locks|done]].
  unfold read_lock, write_lock, modify, bind, set_locks; simpl. rewrite lookup_insert_eq. simpl. by rewrite insert_insert_eq.
Qed.

(** Processor [me] holds the locks in [held k] and is waiting for one more,
    with interrupts off. *)
Record spins_at (me : nat) (m : mach) (k : kctx) : Prop := {
  sp_cpu : exists c, cpu_ok me c m /\ ncli c = Z.of_nat (size (held k)) + 1;
  sp_held lk : lk ∈ held k <-> locks m !! lk = Some (Spin 1 (Some me))
}.

(** [r] waits, from the state [m], for [lk] that another processor has: it
    leaves the locks alone while others run, returns with the lock if it finds
    it free when resumed, and otherwise waits on, for [n] more turns. *)
Fixpoint spins (me : nat) (lk : lockid) (k : kctx) (n : nat) (m : mach) (r : result mach unit) : Prop :=
  match r with
  | Switch m1 j =>
      locks m1 = locks m /\ spins_at me m1 k /\
      forall m2, spins_at me m2 k ->
        (locks m2 !! lk = Some free_lock ->
         exists m3, j m2 = Ok tt m3 /\ holds_exactly me m3 (set_held ({[lk]} ∪ held k) k)) /\
        (forall o, o <> Some me -> locks m2 !! lk = Some (Spin 1 o) ->
         match n with O => True | S n => spins me lk k n m2 (j m2) end)
  | _ => False
  end.

Lemma tail_spins me lk k n : forall m o,
  spins_at me m k -> locks m !! lk = Some (Spin 1 o) -> o <> Some me -> spins me lk k n m (acquire_tail lk (S (S n)) m).
Proof.
  assert (F : forall f m, spins_at me m k -> locks m !! lk = Some free_lock ->
    exists m3, acquire_tail lk (S f) m = Ok tt m3 /\ holds_exactly me m3 (set_held ({[lk]} ∪ held k) k)).
  { intros f m [(c & Hok & Hn) Hh] Hl. assert (Hnot : lk ∉ held k) by (rewrite Hh, Hl; by intros [=]).
    eexists. split; [apply (tail_free me c); [done|apply (nested_off me c m Hok); lia|done]|]. split.
    - exists c. split; [by apply cpu_ok_locks|]. cbn [held set_held]. rewrite size_union by set_solver. rewrite size_singleton. lia.
    - intros lk'. cbn [held set_held locks set_locks]. destruct (decide (lk = lk')) as [<-|Hne].
      + rewrite lookup_insert_eq. set_solver.
      + rewrite lookup_insert_ne by done. rewrite <- Hh. set_solver. }
  induction n as [|n IH]; intros m o Hs Hl Ho; rewrite (tail_busy _ _ _ _ Hl); (split; [done|]; split; [done|]); intros m2 H2;
    (split; [by apply F|]); intros o' Ho' Hl'; [done|]. by apply (IH m2 o').
Qed.

Lemma acquire_other me m k lk o :
  holds_exactly me m k -> locks m !! lk = Some (Spin 1 o) -> o <> Some me -> spins me lk k (SPINS - 2) m (acquire lk m).
Proof.
  intros [(c & Hok & Hn) Hh] Hl Ho. unfold acquire. rewrite (bind_ok _ _ _ _ _ (pushcli_ok me c m Hok)).
  assert (Hok1 : cpu_ok me (pushed (eflags m) c) (push_state me c m)) by by apply push_state_ok.
  rewrite (bind_ok _ _ _ _ _ (holding_other me _ (push_state me c m) lk o Hok1 (has_cli m) Hl Ho)).
  change SPINS with (S (S 998)). apply (tail_spins me lk k 998 (push_state me c m) o); [|done|done]. split; [|exact Hh].
  exists (pushed (eflags m) c). split; [done|]. unfold pushed. destruct (ncli c =? 0); cbn; lia.
Qed.

#[local] Opaque acquire release.

(** Two runs agree when both return in related states or both panic alike. *)
Definition agree (me : nat) (r : result mach unit) (r' : result kctx unit) : Prop :=
  match r, r' with
  | Ok _ m, Ok _ k => holds_exactly me m k
  | Panic a, Panic b => a = b
  | _, _ => False
  end.

(** A processor that holds no lock. *)
Definition idle_mach (ls : gmap lockid spinlock) : mach := Mach [Cpu 0 0 0 None] 0 FL_IF ls.

Lemma idle_mach_holds ls w l p :
  (forall lk, ls !! lk <> Some (Spin 1 (Some 0%nat))) -> holds_exactly 0 (idle_mach ls) (Kctx ∅ w l p).
Proof.
  intros Hls. split.
  - exists (Cpu 0 0 0 None). split; [|done]. by split; cbn.
  - intros lk. cbn. split; [set_solver|]. intros E. by destruct (Hls lk).
Qed.

(** C24: [acquire] and [release] of [spinlock.c], with their interrupt
    nesting, refine the held-set locks of [Klock.v] that the file system is
    modelled on, on every lock whose word is 0 or 1.  On a lock that is free or
    held by this processor, from related states, either both return in related
    states or both panic with the same message.  On a lock somebody else has,
    [acquire] waits without touching the locks and returns, in a state related
    to the one [Klock.acquire] returns in, as soon as it finds it free;
    [release] panics in both (in [mycpu] already if interrupts are on). *)
Theorem klock_refinement me m k lk l :
  holds_exactly me m k -> locks m !! lk = Some l -> l = free_lock \/ locked l = 1 ->
  (l = free_lock \/ lk_cpu l = Some me ->
   agree me (acquire lk m) (Klock.acquire lk k) /\ agree me (release lk m) (Klock.release lk k)) /\
  (l <> free_lock -> lk_cpu l <> Some me ->
   Klock.acquire lk k = Ok tt (set_held ({[lk]} ∪ held k) k) /\ spins me lk k (SPINS - 2) m (acquire lk m) /\
   Klock.release lk k = Panic "release" /\
   release lk m = Panic (if has (eflags m) FL_IF then "mycpu called with interrupts enabled" else "release")).
Proof.
  intros He Hl Hw. assert (Hin : lk ∈ held k <-> l = Spin 1 (Some me)).
  { rewrite (he_held me m k He), Hl. split; [by intros [= ->]|by intros ->]. }
  split.
  - intros Hc. assert (Hcase : l = free_lock \/ l = Spin 1 (Some me)).
    { destruct Hw as [|Hw]; [by left|]. destruct Hc as [|Hc]; [by left|right]. destruct l. cbn in *. by subst. }
    destruct Hcase as [->| ->].
    + assert (Hnot : lk ∉ held k) by (rewrite Hin; by intros [=]).
      destruct (holds_acquire me m k lk He Hl) as (m' & -> & He').
      rewrite (Klock.acquire_ok (S := kctx)) by done. rewrite release_unheld by done.
      split; [exact He'|]. unfold Klock.release, lift. cbn. by rewrite decide_False.
    + assert (Hin' : lk ∈ held k) by by apply Hin. rewrite (acquire_again me m k lk He Hin').
      destruct (holds_release me m k lk He Hin') as (m' & -> & He' & _).
      rewrite (Klock.release_ok (S := kctx)) by done.
      split; [|exact He']. unfold Klock.acquire, lift. cbn. by rewrite decide_True.
  - intros Hf Ho. destruct Hw as [|Hw]; [done|]. destruct l as [w o]. cbn in Hw, Ho. subst w.
    assert (Hnot : lk ∉ held k) by (rewrite Hin; by intros [= ->]).
    split; [exact (@Klock.acquire_ok kctx kctx_lens lk k Hnot)|]. split; [by apply (acquire_other me m k lk o)|].
    split; [|by apply (release_other me m k lk o)]. unfold Klock.release, lift. cbn. by rewrite decide_False.
Qed.

(** Processor 0 waits for a lock that processor 1 has, and gets it. *)
Lemma klock_refinement_witness :
  let lk := ("icache"%string, 0) in
  agree 0 (acquire lk (idle_mach {[lk := free_lock]})) (Klock.acquire lk (Kctx ∅ [] [] 1)) /\
  spins 0 lk (Kctx ∅ [] [] 1) 998 (idle_mach {[lk := Spin 1 (Some 1%nat)]}) (acquire lk (idle_mach {[lk := Spin 1 (Some 1%nat)]})).
Proof.
  intros lk. split.
  - apply (klock_refinement 0 (idle_mach {[lk := free_lock]}) (Kctx ∅ [] [] 1) lk free_lock).
    + apply idle_mach_holds. intros lk' E. apply lookup_singleton_Some in E as [_ E]. discriminate E.
    + reflexivity.
    + left. reflexivity.
    + left. reflexivity.
  - apply (klock_refinement 0 (idle_mach {[lk := Spin 1 (Some 1%nat)]}) (Kctx ∅ [] [] 1) lk (Spin 1 (Some 1%nat))).
    + apply idle_mach_holds. intros lk' E. apply lookup_singleton_Some in E as [_ E]. discriminate E.
    + reflexivity.
    + right. reflexivity.
    + discriminate.
    + discriminate.
Defined.
