(* ===== verification/ProcSpec.v ===== *)
(** Sleeping, waking and killing, [proc.c]: what each does to the process
    table and the locks, on every path; and [sleep] with other processors
    running around its lock operations. *)

From S2P Require Import Prelude Params Spinlock Klock Kalloc Vm Proc ProcTable Locks.
Open Scope Z_scope.
Open Scope xv6_scope.

Section spec.
Context {F : Type}.
Implicit Types s : kern F.

Definition mach_of s : mach := v_mach (kv s).
Definition tab s : list proc := ptable (kv s).
Definition with_mach (m : mach) s : kern F := put m s.
Definition with_tab (t : list proc) s : kern F := set_kv (set_ptable t (kv s)) s.

(** The running processor is [me], with contents [c], and runs process [i]. *)
Record running (me : nat) (c : cpu) (i : nat) s : Prop := {
  run_cpu : cpu_ok me c (mach_of s);
  run_proc : cproc c = Some i
}.

(** ** Single steps *)

Lemma cur_proc_ok me c s : cpu_ok me c (mach_of s) -> 0 < ncli c -> cur_proc s = Ok (cproc c) s.
Proof.
  intros Hok Hn. unfold cur_proc.
  rewrite (lift_ok (S := kern F) (T := mach) _ s _ _ (myproc_nested me c _ Hok Hn)).
  f_equal. exact (put_view (S := kern F) (T := mach) s).
Qed.

Lemma read_p_ok s i x : tab s !! i = Some x -> read_p (Some i) s = Ok x s.
Proof.
  intros E. unfold read_p. rewrite (lift_ok (S := kern F) (T := vst) _ s x (kv s)).
  - f_equal. exact (put_view (S := kern F) (T := vst) s).
  - unfold read_proc. cbn [mbind option_bind]. change (view s) with (kv s). unfold tab in E. by rewrite E.
Qed.

Lemma upd_p_ok s i x f :
  tab s !! i = Some x -> upd_p (Some i) f s = Ok tt (with_tab (<[i := f x]> (tab s)) s).
Proof.
  intros E. unfold upd_p.
  refine (lift_ok (S := kern F) (T := vst) (update_proc (Some i) f) s tt (set_ptable (<[i := f x]> (tab s)) (kv s)) _).
  unfold update_proc. change (view s) with (kv s).
  rewrite decide_True by by eapply lookup_lt_Some. do 2 f_equal.
  apply list_eq. intros j. fold (tab s). rewrite list_lookup_alter. destruct (decide (i = j)) as [<-|].
  - rewrite E. cbn. by rewrite list_lookup_insert_eq by by eapply lookup_lt_Some.
  - by rewrite list_lookup_insert_ne.
Qed.

Lemma lock_ptable_ok me c s :
  cpu_ok me c (mach_of s) -> locks (mach_of s) !! ptable_lock = Some free_lock ->
  lock_ptable s = Ok tt (with_mach (acquired me c ptable_lock (mach_of s)) s).
Proof.
  intros Hok Hl. apply (lift_ok (S := kern F) (T := mach) _ s). by apply (acquire_free me c).
Qed.

Lemma unlock_ptable_acquired me c s s' :
  cpu_ok me c (mach_of s) -> locks (mach_of s) !! ptable_lock = Some free_lock ->
  mach_of s' = acquired me c ptable_lock (mach_of s) ->
  unlock_ptable s' = Ok tt (with_mach (lock_cycle me c (mach_of s)) s').
Proof.
  intros Hok Hl E. apply (lift_ok (S := kern F) (T := mach) _ s').
  change (view s') with (mach_of s'). rewrite E. by apply (release_acquired me c).
Qed.

Ltac unlock Hok Hl :=
  erewrite (bind_ok _ _ _ tt _); [|refine (unlock_ptable_acquired _ _ _ _ Hok Hl _); reflexivity].

Lemma release_k me c s lk :
  cpu_ok me c (mach_of s) -> 0 < ncli c -> locks (mach_of s) !! lk = Some (Spin 1 (Some me)) ->
  lift (T := mach) (release lk) s = Ok tt (with_mach (released_by me c (mach_of s) lk) s).
Proof.
  intros Hok Hn Hl. apply (lift_ok (S := kern F) (T := mach) _ s). by apply (release_nested me c).
Qed.

Lemma with_mach_lock_cycle me c s :
  locks (mach_of (with_mach (lock_cycle me c (mach_of s)) s)) = locks (mach_of s).
Proof. done. Qed.

(** ** [sched] up to and after the switch *)

Lemma sched_switch me c s i x :
  running me c i s -> ncli c = 1 -> tab s !! i = Some x -> state x <> RUNNING ->
  locks (mach_of s) !! ptable_lock = Some (Spin 1 (Some me)) ->
  sched s = Switch s (fun s' => lift (T := mach) (update_cpu (set_intena (intena c))) s').
Proof.
  intros [Hok Hp] Hn Hx Hst Hl. assert (0 < ncli c) as Hpos by lia.
  pose proof (nested_off me c _ Hok Hpos) as Hoff. pose proof (read_cpu_ok me c _ Hok Hoff) as Hrd.
  assert (Hput : put (mach_of s) s = s) by exact (put_view (S := kern F) (T := mach) s).
  assert (Hread : lift (T := mach) read_cpu s = Ok c s).
  { rewrite (lift_ok (S := kern F) (T := mach) _ s _ _ Hrd). by rewrite Hput. }
  unfold sched. rewrite (bind_ok _ _ _ _ _ (cur_proc_ok me c s Hok Hpos)).
  assert (Hh : lift (T := mach) (holding ptable_lock) s = Ok true s).
  { rewrite (lift_ok (S := kern F) (T := mach) _ s _ _ (holding_mine me c _ Hok _ Hpos Hl)). by rewrite Hput. }
  rewrite (bind_ok _ _ _ _ _ Hh). cbn [negb]. rewrite (bind_ok _ _ _ _ _ Hread).
  rewrite Hn. cbn [Z.eqb Pos.eqb negb]. rewrite Hp, (bind_ok _ _ _ _ _ (read_p_ok s i x Hx)).
  unfold is_state. rewrite bool_decide_eq_false_2 by done.
  rewrite (bind_ok _ _ _ (eflags (mach_of s)) s) by done. rewrite Hoff.
  by rewrite (bind_ok _ _ _ _ _ Hread).
Qed.

Lemma intena_back me c s v :
  cpu_ok me c (mach_of s) -> 0 < ncli c ->
  lift (T := mach) (update_cpu (set_intena v)) s =
    Ok tt (with_mach (set_cpus (<[me := set_intena v c]> (cpus (mach_of s))) (mach_of s)) s).
Proof.
  intros Hok Hn. apply (lift_ok (S := kern F) (T := mach) _ s).
  apply (update_cpu_ok me c _ Hok). by apply (nested_off me c _ Hok).
Qed.

(** ** [sleep] *)

(** The state in which a sleeper gives up the processor. *)
Definition asleep (me i : nat) (ch : chan_t) (lk : lockid) (x : proc) s s1 : Prop :=
  tab s1 = <[i := set_state SLEEPING (set_chan ch x)]> (tab s) /\
  locks (mach_of s1) = <[lk := free_lock]> (<[ptable_lock := Spin 1 (Some me)]> (locks (mach_of s))).

(** The state a sleeper leaves [sleep] in, resumed in [s2] on processor [me]. *)
Definition awake (me i : nat) (lk : lockid) (x : proc) s2 s3 : Prop :=
  tab s3 = <[i := set_chan None x]> (tab s2) /\
  locks (mach_of s3) = <[lk := Spin 1 (Some me)]> (<[ptable_lock := free_lock]> (locks (mach_of s2))).

Lemma sleep_resume me c s i x v lk :
  lk <> ptable_lock ->
  cpu_ok me c (mach_of s) -> ncli c = 1 -> tab s !! i = Some x ->
  locks (mach_of s) !! ptable_lock = Some (Spin 1 (Some me)) ->
  locks (mach_of s) !! lk = Some free_lock ->
  exists s3,
    (lift (T := mach) (update_cpu (set_intena v)) ;;;
     upd_p (Some i) (set_chan None) ;;; unlock_ptable ;;; lift (T := mach) (acquire lk)) s = Ok tt s3 /\
    awake me i lk x s s3.
Proof.
  intros Hne Hok Hn Hx Hp Hl. assert (0 < ncli c) as Hpos by lia.
  rewrite (bind_ok _ _ _ _ _ (intena_back me c s v Hok Hpos)).
  set (m1 := set_cpus _ (mach_of s)). set (c1 := set_intena v c).
  assert (Hok1 : cpu_ok me c1 m1) by (apply (cpu_ok_set me c); [done|done|cbn; lia|intros; by apply (nested_off me c)]).
  rewrite (bind_ok _ _ _ _ _ (upd_p_ok (with_mach m1 s) i x _ Hx)).
  set (s1 := with_tab _ (with_mach m1 s)).
  assert (Hr : unlock_ptable s1 = Ok tt (with_mach (released_by me c1 m1 ptable_lock) s1))
    by by apply (release_k me c1 s1).
  rewrite (bind_ok _ _ _ _ _ Hr). eexists. split.
  - refine (lift_ok (S := kern F) (T := mach) (acquire lk) _ _ _ _). apply (acquire_free me (set_ncli (ncli c1 - 1) c1)).
    + by apply popped_ok.
    + change (<[ptable_lock := free_lock]> (locks (mach_of s)) !! lk = Some free_lock).
      by rewrite lookup_insert_ne.
  - split; [done|]. done.
Qed.

(** ** Scans that stop at the first match *)

Lemma find_proc_first f t i :
  find_proc f t = Some i <->
  exists x, t !! i = Some x /\ f x = true /\ forall j y, (j < i)%nat -> t !! j = Some y -> f y = false.
Proof.
  pose proof (find_from_spec f t 0) as H. unfold find_proc. split.
  - intros E. rewrite E in H. destruct H as (k & x & -> & ?). by exists x.
  - intros (x & Hx & Hf & Hlt). destruct (find_from 0 f t) as [j|].
    + destruct H as (k & y & -> & Hy & Hfy & Hk). f_equal. cbn.
      destruct (Nat.lt_trichotomy k i) as [?|[?|?]]; [|done|].
      * by rewrite (Hlt k y) in Hfy.
      * by rewrite (Hk i x) in Hf.
    + by rewrite (H i x Hx) in Hf.
Qed.

(** ** [wakeup] and [kill] *)

(** The entry [kill] leaves behind. *)
Definition killed_proc (x : proc) : proc :=
  let y := set_killed true x in if is_state SLEEPING y then set_state RUNNABLE y else y.

Lemma kill_hit me c s n i x :
  cpu_ok me c (mach_of s) -> locks (mach_of s) !! ptable_lock = Some free_lock ->
  find_proc (fun p => pid p =? n) (tab s) = Some i -> tab s !! i = Some x ->
  kill n s = Ok 0 (with_mach (lock_cycle me c (mach_of s)) (with_tab (<[i := killed_proc x]> (tab s)) s)).
Proof.
  intros Hok Hl Hf Hx. unfold kill. rewrite (bind_ok _ _ _ _ _ (lock_ptable_ok me c s Hok Hl)).
  set (m1 := acquired me c ptable_lock (mach_of s)).
  rewrite (bind_ok _ _ _ (tab s) (with_mach m1 s)) by done. rewrite Hf.
  rewrite (bind_ok _ _ _ _ _ (upd_p_ok (with_mach m1 s) i x _ Hx)).
  set (t1 := <[i := set_killed true x]> (tab (with_mach m1 s))).
  assert (Hx1 : t1 !! i = Some (set_killed true x)).
  { apply list_lookup_insert_eq. by eapply lookup_lt_Some. }
  rewrite (bind_ok _ _ _ _ _ (read_p_ok (with_tab t1 (with_mach m1 s)) i _ Hx1)).
  unfold when, killed_proc. destruct (is_state SLEEPING (set_killed true x)).
  - rewrite (bind_ok _ _ _ _ _ (upd_p_ok (with_tab t1 (with_mach m1 s)) i _ _ Hx1)).
    unlock Hok Hl. unfold ret. f_equal.
    unfold t1. cbn [tab with_tab kv set_kv set_ptable ptable]. rewrite list_insert_insert_eq. done.
  - rewrite (bind_ok _ _ _ tt (with_tab t1 (with_mach m1 s))) by done.
    by unlock Hok Hl.
Qed.

Lemma kill_miss me c s n :
  cpu_ok me c (mach_of s) -> locks (mach_of s) !! ptable_lock = Some free_lock ->
  find_proc (fun p => pid p =? n) (tab s) = None ->
  kill n s = Ok (-1) (with_mach (lock_cycle me c (mach_of s)) s).
Proof.
  intros Hok Hl Hf. unfold kill. rewrite (bind_ok _ _ _ _ _ (lock_ptable_ok me c s Hok Hl)).
  set (m1 := acquired me c ptable_lock (mach_of s)).
  rewrite (bind_ok _ _ _ (tab s) (with_mach m1 s)) by done. rewrite Hf.
  by unlock Hok Hl.
Qed.
End spec.

(** * A small kernel to run the theorems on *)

Definition demo_proc (st : procstate) (n : Z) (ch : chan_t) : proc :=
  Proc 4096 0 0 st n None 0 0 ch false [] None [].

Definition small_kern (t : list proc) (c : cpu) (ls : gmap lockid spinlock) : kern unit :=
  Kern (Vst (Kst (Mach [c] 0 0 ls) ∅ true 0) ∅ t 0 0 0 ∅) 3 (Some 0%nat) tt.

Lemma small_cpu_ok t c ls : apicid c = 0 -> 0 <= ncli c -> cpu_ok 0 c (mach_of (small_kern t c ls)).
Proof. intros Ha Hn. split; cbn; [by rewrite Ha|done|done|done]. Qed.

(** The part of [sleep] that runs with [ptable.lock] held. *)
Lemma doze_switch {F} (s : kern F) me c i x ch (k : M (kern F) unit) :
  running me c i s -> ncli c = 1 -> tab s !! i = Some x -> locks (mach_of s) !! ptable_lock = Some (Spin 1 (Some me)) ->
  (upd_p (Some i) (set_chan ch) ;;; upd_p (Some i) (set_state SLEEPING) ;;; sched ;;; k) s =
  Switch (with_tab (<[i := set_state SLEEPING (set_chan ch x)]> (tab s)) s)
    (lift (T := mach) (update_cpu (set_intena (intena c))) ;;; k).
Proof.
  intros [Hok Hp] Hn Hx Hl. pose proof (lookup_lt_Some _ _ _ Hx) as Hlt.
  rewrite (bind_ok _ _ _ _ _ (upd_p_ok s i x _ Hx)). set (s1 := with_tab _ s).
  rewrite (bind_ok _ _ _ _ _ (upd_p_ok s1 i (set_chan ch x) (set_state SLEEPING) ltac:(by apply list_lookup_insert_eq))).
  change (tab s1) with (<[i := set_chan ch x]> (tab s)). rewrite list_insert_insert_eq. change (with_tab ?t s1) with (with_tab t s).
  set (s2 := with_tab _ s). assert (Hx2 : tab s2 !! i = Some (set_state SLEEPING (set_chan ch x))) by by apply list_lookup_insert_eq.
  assert (Hr2 : running me c i s2) by by split.
  unfold bind at 1. by rewrite (sched_switch me c s2 i _ Hr2 Hn Hx2).
Qed.

(** Taking [ptable.lock] with [lk] held, and then giving up [lk]. *)
Section handover.
Context {F : Type} (s : kern F) (me : nat) (c : cpu) (i : nat) (lk : lockid).
Context (Hr : running me c i s) (Hn : ncli c = 1) (Hne : lk <> ptable_lock).
Context (Hl : locks (mach_of s) !! lk = Some (Spin 1 (Some me))) (Ht : locks (mach_of s) !! ptable_lock = Some free_lock).

Let c2 : cpu := set_ncli (ncli c + 1) c.
Let m1 : mach := acquired_nested me c (mach_of s) ptable_lock.
Let c1 : cpu := set_ncli (ncli c2 - 1) c2.
Let m2 : mach := released_by me c2 m1 lk.

Lemma handover : exists s2, lift (T := mach) (acquire ptable_lock) s = Ok tt (with_mach m1 s) /\
  lift (T := mach) (release lk) (with_mach m1 s) = Ok tt s2 /\ running me c1 i s2 /\ ncli c1 = 1 /\ tab s2 = tab s /\
  locks (mach_of s2) = <[lk := free_lock]> (<[ptable_lock := Spin 1 (Some me)]> (locks (mach_of s))).
Proof using Hr Hn Hne Hl Ht.
  destruct Hr as [Hok Hp]. assert (Hm1 : cpu_ok me c2 m1).
  { apply cpu_ok_locks, (cpu_ok_set me c); [done|done|cbn; lia|]. intros. apply (nested_off me c); [done|lia]. }
  assert (Hl1 : locks m1 !! lk = Some (Spin 1 (Some me))) by (cbn; by rewrite lookup_insert_ne).
  exists (with_mach m2 (with_mach m1 s)). split; [|split; [|split; [|split; [cbn; lia|done]]]].
  - apply (lift_ok (S := kern F) (T := mach) _ s). apply (acquire_nested me c _ Hok); [lia|exact Ht].
  - apply (release_k me c2 (with_mach m1 s)); [exact Hm1|cbn; lia|exact Hl1].
  - split; [|exact Hp]. apply popped_ok; [exact Hm1|cbn; lia].
Qed.
End handover.

(** [sleep] up to the switch: both locks change hands before it, none after. *)
Lemma sleep_gives_up {F} (s : kern F) me c i x ch lk :
  running me c i s -> ncli c = 1 -> tab s !! i = Some x -> lk <> ptable_lock ->
  locks (mach_of s) !! lk = Some (Spin 1 (Some me)) ->
  locks (mach_of s) !! ptable_lock = Some free_lock ->
  exists s1 v, asleep me i ch lk x s s1 /\
    sleep ch (Some lk) s = Switch s1 (lift (T := mach) (update_cpu (set_intena v)) ;;;
      upd_p (Some i) (set_chan None) ;;; unlock_ptable ;;; lift (T := mach) (acquire lk)).
Proof.
  intros Hr Hn Hx Hne Hl Ht. destruct (handover s me c i lk Hr Hn Hne Hl Ht) as (s2 & E1 & E2 & Hr2 & Hn2 & Ht2 & Hl2).
  unfold sleep, sleep_on. rewrite (bind_ok _ _ _ _ _ (cur_proc_ok me c s (run_cpu _ _ _ _ Hr) ltac:(lia))), (run_proc _ _ _ _ Hr), bool_decide_eq_false_2 by done.
  cbn [negb when]. erewrite (bind_ok _ _ s tt s2) by (rewrite (bind_ok _ _ _ _ _ E1); exact E2).
  rewrite (doze_switch s2 me _ i x ch _ Hr2 Hn2); [|by rewrite Ht2|by rewrite Hl2, lookup_insert_ne, lookup_insert_eq].
  eexists _, _. split; [|reflexivity]. split; [by rewrite <- Ht2|exact Hl2].
Qed.

(** ** Other processors

    [sleep] whose lock operations let the other processors run: before a lock
    is taken, for as long as it is busy, and after one has been released. *)
Definition acquire_shared {F} (l : lockid) : M (kern F) unit := switch ;;; lift (T := mach) (acquire l).
Definition release_shared {F} (l : lockid) : M (kern F) unit := lift (T := mach) (release l) ;;; switch.

Definition held {F} (l : lockid) (me : nat) (s : kern F) : Prop := locks (mach_of s) !! l = Some (Spin 1 (Some me)).

(** What they may do meanwhile: nothing to this processor or its locks, and
    they are not let into the process table for ever; entries, the caller's
    own included, may change. *)
Record meanwhile {F} (me : nat) (s s' : kern F) : Prop := {
  mw_cpu : forall c, cpu_ok me c (mach_of s) -> cpu_ok me c (mach_of s');
  mw_held : forall l, held l me s -> held l me s';
  mw_table : length (tab s') = length (tab s);
  mw_wait : ~ held ptable_lock me s -> locks (mach_of s') !! ptable_lock = Some free_lock
}.

(** Whenever the other processors run, until process [i] is asleep on [ch] with
    [ptable.lock] held, processor [me] has [lk] or [ptable.lock]: nobody else
    can take [lk], change what [i] waits for and get through
    [wakeup], which takes [ptable.lock]. *)
Fixpoint unmissed {F} (me i : nat) (ch : chan_t) (lk : lockid) (r : result (kern F) unit) : Prop :=
  match r with
  | Switch s k =>
      (held ptable_lock me s /\ exists x, tab s !! i = Some x /\ state x = SLEEPING /\ chan x = ch) \/
      ((held lk me s \/ held ptable_lock me s) /\ forall s', meanwhile me s s' -> unmissed me i ch lk (k s'))
  | _ => False
  end.

Lemma sleep_unmissed {F} (s : kern F) me c i x ch lk :
  running me c i s -> ncli c = 1 -> tab s !! i = Some x -> lk <> ptable_lock -> held lk me s -> ~ held ptable_lock me s ->
  unmissed me i ch lk (sleep_on acquire_shared release_shared ch (Some lk) s).
Proof.
  intros Hr Hn Hx Hne Hl Ht. pose proof (lookup_lt_Some _ _ _ Hx) as Hlt.
  unfold sleep_on. rewrite (bind_ok _ _ _ _ _ (cur_proc_ok me c s (run_cpu _ _ _ _ Hr) ltac:(lia))), (run_proc _ _ _ _ Hr), bool_decide_eq_false_2 by done.
  cbn [negb when]. right. split; [by left|]. intros s1 [W1 W2 W3 W4].
  assert (Hr1 : running me c i s1) by (split; [apply W1|]; apply Hr).
  destruct (handover s1 me c i lk Hr1 Hn Hne (W2 lk Hl) (W4 Ht)) as (s2 & E1 & E2 & Hr2 & Hn2 & Ht2 & Hl2).
  cbn [seqr]. rewrite E1. cbn [seqr]. unfold release_shared at 1. unfold bind at 1. rewrite E2. cbn [seqr]. right.
  assert (Hp2 : held ptable_lock me s2) by (unfold held; by rewrite Hl2, lookup_insert_ne, lookup_insert_eq).
  split; [by right|]. intros s3 [V1 V2 V3 _]. cbn [seqr].
  destruct (lookup_lt_is_Some_2 (tab s3) i) as [x3 Hx3]; [rewrite V3, Ht2, W3; lia|].
  assert (Hr3 : running me _ i s3) by (split; [apply V1|]; apply Hr2).
  rewrite (doze_switch s3 me _ i x3 ch _ Hr3 Hn2 Hx3 (V2 _ Hp2)). left. split; [exact (V2 _ Hp2)|].
  eexists. split; [apply list_lookup_insert_eq; by eapply lookup_lt_Some|done].
Qed.

(** C19: [sleep(chan, lk)], for a lock other than [ptable.lock], loses no
    wakeup.  First, with the other processors
    running before each lock is taken and after each is released: until the
    caller is [SLEEPING] on [chan] and about to give up the processor, it holds
    [lk] or [ptable.lock] whenever the others run, so that nobody can take
    [lk], make true what it waits for and complete [wakeup(chan)] unseen.
    Second, at the point where it gives up the processor it is [SLEEPING] on
    [chan], [lk] is free and [ptable.lock] is still held, so the first
    [wakeup(chan)] to get [ptable.lock] makes the caller [RUNNABLE]; resumed on
    any processor, with [ptable.lock] handed over and [lk] free, it forgets the
    channel, gives up [ptable.lock] and returns with [lk] held again. *)
Theorem sleep_no_lost_wakeup {F} (s : kern F) me c i x ch lk :
  running me c i s -> ncli c = 1 -> tab s !! i = Some x -> lk <> ptable_lock ->
  locks (mach_of s) !! lk = Some (Spin 1 (Some me)) ->
  locks (mach_of s) !! ptable_lock = Some free_lock ->
  unmissed me i ch lk (sleep_on acquire_shared release_shared ch (Some lk) s) /\
  exists s1 k, sleep ch (Some lk) s = Switch s1 k /\ asleep me i ch lk x s s1 /\
    (exists y, wakeup1 ch (tab s1) !! i = Some y /\ state y = RUNNABLE /\ pid y = pid x) /\
    forall s2 me2 c2 x2,
      cpu_ok me2 c2 (mach_of s2) -> ncli c2 = 1 -> tab s2 !! i = Some x2 ->
      locks (mach_of s2) !! ptable_lock = Some (Spin 1 (Some me2)) ->
      locks (mach_of s2) !! lk = Some free_lock ->
      exists s3, k s2 = Ok tt s3 /\ awake me2 i lk x2 s2 s3.
Proof.
  intros Hr Hn Hx Hne Hl Ht. pose proof (lookup_lt_Some _ _ _ Hx) as Hlt. split.
  { apply (sleep_unmissed s me c i x); try done. unfold held. by rewrite Ht. }
  destruct (sleep_gives_up s me c i x ch lk Hr Hn Hx Hne Hl Ht) as (s1 & v & Ha & ->).
  eexists s1, _. split; [reflexivity|]. split; [exact Ha|]. split.
  - exists (set_state RUNNABLE (set_state SLEEPING (set_chan ch x))). split; [|done].
    unfold wakeup1. rewrite list_lookup_fmap, (proj1 Ha), list_lookup_insert_eq by done.
    cbn. unfold wake. cbn. by rewrite bool_decide_eq_true_2.
  - intros s2 me2 c' x2. by apply sleep_resume.
Qed.

Lemma sleep_no_lost_wakeup_witness :
  let lk : lockid := ("ide"%string, 0) in
  let ch : chan_t := Some ("buf"%string, 7) in
  let s := small_kern [demo_proc RUNNING 1 None] (Cpu 0 1 0 (Some 0%nat))
             (<[lk := Spin 1 (Some 0%nat)]> {[ptable_lock := free_lock]}) in
  unmissed 0 0 ch lk (sleep_on acquire_shared release_shared ch (Some lk) s) /\
  exists s1 k, sleep ch (Some lk) s = Switch s1 k /\
    exists y, wakeup1 ch (tab s1) !! 0%nat = Some y /\ state y = RUNNABLE /\ pid y = 1.
Proof.
  intros lk ch s.
  destruct (sleep_no_lost_wakeup s 0 (Cpu 0 1 0 (Some 0%nat)) 0 (demo_proc RUNNING 1 None) ch lk)
    as (Hu & s1 & k & E & _ & Hy & _).
  - split; [by apply small_cpu_ok; cbn; lia|reflexivity].
  - reflexivity.
  - reflexivity.
  - discriminate.
  - reflexivity.
  - reflexivity.
  - split; [exact Hu|]. exists s1, k. split; [exact E|exact Hy].
Defined.

(** [wakeup(chan)] makes exactly the processes sleeping on [chan]
    runnable, changes nothing else in the table, and leaves the locks as they
    were. *)
Theorem wakeup_exact {F} (s : kern F) me c ch :
  cpu_ok me c (mach_of s) -> locks (mach_of s) !! ptable_lock = Some free_lock ->
  exists s', wakeup ch s = Ok tt s' /\ locks (mach_of s') = locks (mach_of s) /\
    forall i x, tab s !! i = Some x ->
      tab s' !! i = Some (if decide (state x = SLEEPING /\ chan x = ch) then set_state RUNNABLE x else x).
Proof.
  intros Hok Hl. unfold wakeup. rewrite (bind_ok _ _ _ _ _ (lock_ptable_ok me c s Hok Hl)).
  set (s1 := with_mach (acquired me c ptable_lock (mach_of s)) s).
  rewrite (bind_ok _ _ s1 tt (with_tab (wakeup1 ch (tab s)) s1)) by done.
  eexists. split; [by refine (unlock_ptable_acquired me c s _ Hok Hl _)|]. split; [done|].
  intros i x Hx. cbn. unfold wakeup1. change (ptable (kv s)) with (tab s).
  rewrite list_lookup_fmap, Hx. cbn. f_equal. unfold wake, is_state.
  destruct (decide (state x = SLEEPING /\ chan x = ch)) as [[E1 E2]|Hn].
  - by rewrite !bool_decide_eq_true_2.
  - destruct (bool_decide_reflect (state x = SLEEPING)), (bool_decide_reflect (chan x = ch)); tauto.
Qed.

Lemma wakeup_exact_witness :
  let ch : chan_t := Some ("buf"%string, 7) in
  let t := [demo_proc RUNNING 1 None; demo_proc SLEEPING 2 ch; demo_proc SLEEPING 3 None] in
  exists s', wakeup ch (small_kern t (Cpu 0 0 0 (Some 0%nat)) {[ptable_lock := free_lock]}) = Ok tt s' /\
    tab s' !! 1%nat = Some (demo_proc RUNNABLE 2 ch) /\ tab s' !! 2%nat = Some (demo_proc SLEEPING 3 None).
Proof.
  intros ch t.
  destruct (wakeup_exact (small_kern t (Cpu 0 0 0 (Some 0%nat)) {[ptable_lock := free_lock]}) 0
              (Cpu 0 0 0 (Some 0%nat)) ch) as (s' & E & _ & Ht).
  - apply small_cpu_ok; cbn; lia.
  - reflexivity.
  - exists s'. split; [exact E|]. split.
    + by rewrite (Ht 1%nat (demo_proc SLEEPING 2 ch) eq_refl).
    + by rewrite (Ht 2%nat (demo_proc SLEEPING 3 None) eq_refl).
Defined.

(** [kill(pid)] returns 0 exactly when some table entry has that pid; it
    then marks the first such entry killed and, if it sleeps, runnable, and
    otherwise returns -1 and changes nothing. *)
Theorem kill_first_match {F} (s : kern F) me c n :
  cpu_ok me c (mach_of s) -> locks (mach_of s) !! ptable_lock = Some free_lock ->
  exists r s', kill n s = Ok r s' /\ locks (mach_of s') = locks (mach_of s) /\
    ((r = 0 /\ exists i x, tab s !! i = Some x /\ pid x = n /\
        (forall j y, (j < i)%nat -> tab s !! j = Some y -> pid y <> n) /\
        tab s' = <[i := killed_proc x]> (tab s)) \/
     (r = -1 /\ (forall j y, tab s !! j = Some y -> pid y <> n) /\ tab s' = tab s)).
Proof.
  intros Hok Hl. destruct (find_proc (fun p => pid p =? n) (tab s)) as [i|] eqn:Hf.
  - pose proof Hf as (x & Hx & Hp & Hlt)%find_proc_first.
    do 2 eexists. split; [by eapply kill_hit|]. split; [done|]. left. split; [done|].
    exists i, x. split; [done|]. split; [lia|]. split; [|done].
    intros j y Hj Hy. specialize (Hlt j y Hj Hy). lia.
  - do 2 eexists. split; [by apply kill_miss|]. split; [done|]. right. split; [done|]. split; [|done].
    intros j y Hy. by apply Z.eqb_neq, (find_proc_none _ _ j y Hf Hy).
Qed.

Lemma kill_first_match_witness :
  exists r s', kill 2 (small_kern [demo_proc RUNNING 1 None; demo_proc SLEEPING 2 None]
    (Cpu 0 0 0 (Some 0%nat)) {[ptable_lock := free_lock]}) = Ok r s' /\ r = 0.
Proof.
  destruct (kill_first_match (small_kern [demo_proc RUNNING 1 None; demo_proc SLEEPING 2 None]
    (Cpu 0 0 0 (Some 0%nat)) {[ptable_lock := free_lock]}) 0 (Cpu 0 0 0 (Some 0%nat)) 2)
    as (r & s' & E & _ & [[Hr _]|[_ [Hno _]]]).
  - apply small_cpu_ok; cbn; lia.
  - reflexivity.
  - exists r, s'. split; [exact E|exact Hr].
  - destruct (Hno 1%nat (demo_proc SLEEPING 2 None) eq_refl eq_refl).
Defined.

(** [kill(0)] succeeds whenever the table has an [UNUSED] entry that was
    never used or has been reaped (its pid is 0): it returns 0 and leaves that
    [UNUSED] entry marked killed, and [allocproc] would pick it without
    clearing the mark. *)
Theorem kill_zero_hits_unused {F} (s : kern F) me c i x :
  cpu_ok me c (mach_of s) -> locks (mach_of s) !! ptable_lock = Some free_lock ->
  find_proc (fun p => pid p =? 0) (tab s) = Some i -> tab s !! i = Some x -> state x = UNUSED ->
  find_proc (is_state UNUSED) (tab s) = Some i ->
  exists s', kill 0 s = Ok 0 s' /\ find_proc (is_state UNUSED) (tab s') = Some i /\
    tab s' !! i = Some (set_killed true x).
Proof.
  intros Hok Hl Hf Hx Hs Hu. eexists. split; [by eapply kill_hit|].
  assert (E : killed_proc x = set_killed true x).
  { unfold killed_proc, is_state. cbn. by rewrite Hs. }
  cbn. change (ptable (kv s)) with (tab s). rewrite E. pose proof (lookup_lt_Some _ _ _ Hx).
  split; [|by apply list_lookup_insert_eq].
  apply find_proc_first in Hu as (y & Hy & _ & Hlt). simplify_eq.
  apply find_proc_first. exists (set_killed true x). split; [by apply list_lookup_insert_eq|]. split.
  - apply bool_decide_eq_true_2. exact Hs.
  - intros j z Hj Hz. rewrite list_lookup_insert_ne in Hz by lia. by apply (Hlt j).
Qed.

Lemma kill_zero_hits_unused_witness :
  exists s', kill 0 (small_kern [demo_proc RUNNING 1 None; demo_proc UNUSED 0 None]
    (Cpu 0 0 0 (Some 0%nat)) {[ptable_lock := free_lock]}) = Ok 0 s' /\
    tab s' !! 1%nat = Some (set_killed true (demo_proc UNUSED 0 None)).
Proof.
  destruct (kill_zero_hits_unused (small_kern [demo_proc RUNNING 1 None; demo_proc UNUSED 0 None]
    (Cpu 0 0 0 (Some 0%nat)) {[ptable_lock := free_lock]}) 0 (Cpu 0 0 0 (Some 0%nat)) 1 (demo_proc UNUSED 0 None))
    as (s' & E & _ & Ht).
  - apply small_cpu_ok; cbn; lia.
  - reflexivity.
  - reflexivity.
  - reflexivity.
  - reflexivity.
  - reflexivity.
  - exists s'. split; [exact E|exact Ht].
Defined.
