(* ===== verification/Fs.v ===== *)
(** The file system, [fs.c]: the block allocator, inodes and their cache, file
    contents, directories and path names, over the log and the buffer
    cache. *)

From S2P Require Import Prelude Params Spinlock Klock Bytes Bio Log.
Open Scope Z_scope.
Open Scope xv6_scope.

Definition ROOTINO : Z := 1.
Definition NDIRECT : nat := 12.
Definition NINDIRECT : nat := 128.
Definition MAXFILE : Z := Z.of_nat (NDIRECT + NINDIRECT).
Definition T_DIR : Z := 1.
Definition T_FILE : Z := 2.
Definition T_DEV : Z := 3.
Definition DIRSIZ : nat := 14.

(** [sizeof(struct dinode)] and [sizeof(struct dirent)]. *)
Definition DINODE : Z := 64.
Definition DIRENT : Z := 16.

Definition IPB : Z := BSIZE / DINODE.
Definition BPB : Z := BSIZE * 8.
Definition IBLOCK (i : Z) (sb : superblock) : Z := u32 (i / IPB + sb_inodestart sb).
Definition BBLOCK (b : Z) (sb : superblock) : Z := u32 (b / BPB + sb_bmapstart sb).

(** * State *)

(** [struct inode]. *)
Record inode := Inode {
  i_dev : Z;
  i_inum : Z;
  i_ref : Z;
  i_lock : sleeplock;
  i_valid : bool;
  i_type : Z;
  i_major : Z;
  i_minor : Z;
  i_nlink : Z;
  i_size : Z;
  i_addrs : list Z
}.

Definition zero_inode : inode :=
  Inode 0 0 0 free_sleeplock false 0 0 0 0 0 (replicate (S NDIRECT) 0).

Definition set_iref (x : Z) (i : inode) : inode :=
  Inode (i_dev i) (i_inum i) x (i_lock i) (i_valid i) (i_type i) (i_major i) (i_minor i) (i_nlink i) (i_size i) (i_addrs i).
Definition set_ilock (x : sleeplock) (i : inode) : inode :=
  Inode (i_dev i) (i_inum i) (i_ref i) x (i_valid i) (i_type i) (i_major i) (i_minor i) (i_nlink i) (i_size i) (i_addrs i).
Definition set_ivalid (x : bool) (i : inode) : inode :=
  Inode (i_dev i) (i_inum i) (i_ref i) (i_lock i) x (i_type i) (i_major i) (i_minor i) (i_nlink i) (i_size i) (i_addrs i).
Definition set_itype (x : Z) (i : inode) : inode :=
  Inode (i_dev i) (i_inum i) (i_ref i) (i_lock i) (i_valid i) x (i_major i) (i_minor i) (i_nlink i) (i_size i) (i_addrs i).
Definition set_inlink (x : Z) (i : inode) : inode :=
  Inode (i_dev i) (i_inum i) (i_ref i) (i_lock i) (i_valid i) (i_type i) (i_major i) (i_minor i) x (i_size i) (i_addrs i).
Definition set_idev (major minor nlink : Z) (i : inode) : inode :=
  Inode (i_dev i) (i_inum i) (i_ref i) (i_lock i) (i_valid i) (i_type i) major minor nlink (i_size i) (i_addrs i).
Definition set_isize (x : Z) (i : inode) : inode :=
  Inode (i_dev i) (i_inum i) (i_ref i) (i_lock i) (i_valid i) (i_type i) (i_major i) (i_minor i) (i_nlink i) x (i_addrs i).
Definition set_iaddrs (x : list Z) (i : inode) : inode :=
  Inode (i_dev i) (i_inum i) (i_ref i) (i_lock i) (i_valid i) (i_type i) (i_major i) (i_minor i) (i_nlink i) (i_size i) x.

(** The global [sb] and the inode cache, over the log. *)
Record fs := Fs {
  f_l : lst;
  f_sb : superblock;
  f_icache : list inode
}.

#[global, program] Instance fs_lst : Lens fs lst := {|
  view := f_l; put l s := Fs l (f_sb s) (f_icache s) |}.
Next Obligation. done. Qed.
Next Obligation. by intros []. Qed.
Next Obligation. done. Qed.

#[global, program] Instance fs_bst : Lens fs bst := {|
  view s := l_b (f_l s); put b s := put (put b (f_l s) : lst) s |}.
Next Obligation. done. Qed.
Next Obligation. by intros [[] ? ?]. Qed.
Next Obligation. done. Qed.

#[global, program] Instance fs_ctx : Lens fs kctx := {|
  view s := bc_ctx (l_b (f_l s)); put c s := put (put c (f_l s) : lst) s |}.
Next Obligation. done. Qed.
Next Obligation. by intros [[[] ? ? ? ? ? ? ?] ? ?]. Qed.
Next Obligation. done. Qed.

Definition set_sb (x : superblock) (s : fs) : fs := Fs (f_l s) x (f_icache s).
Definition set_icache (x : list inode) (s : fs) : fs := Fs (f_l s) (f_sb s) x.

Definition geti (s : fs) (i : nat) : inode := default zero_inode (f_icache s !! i).
Definition ifield {A} (f : inode -> A) (i : nat) : M fs A := gets (fun s => f (geti s i)).
Definition seti (f : inode -> inode) (i : nat) : M fs unit :=
  modify (fun s => set_icache (alter f i (f_icache s)) s).

Definition icache_lock : lockid := ("icache"%string, 0).

(** The sleeplock of a cached inode; its identity differs from the buffers'. *)
Definition iref (i : nat) : slref fs :=
  Slref (1000 + Z.of_nat i) (fun s => i_lock (geti s i))
        (fun l s => set_icache (alter (set_ilock l) i (f_icache s)) s).

(** The layers below, seen from here. *)
Definition fbread (dev n : Z) : M fs nat := lift (T := bst) (bread dev n).
Definition fbrelse (b : nat) : M fs unit := lift (T := bst) (brelse b).
Definition flog_write (b : nat) : M fs unit := lift (T := lst) (log_write b).
Definition bdata (b : nat) : M fs bytes := lift (T := bst) (field b_data b).
Definition set_bdata (d : bytes) (b : nat) : M fs unit := lift (T := bst) (setb (set_data d) b).

(** * Blocks *)

Definition bzero (dev bno : Z) : M fs unit :=
  bp <- fbread dev bno ;;
  set_bdata zero_block bp ;;;
  flog_write bp ;;;
  fbrelse bp.

Definition bit (bi : Z) : Z := Z.shiftl 1 (bi mod 8).

(** The inner loop of [balloc]: the first clear bit of the block of the free
    map that describes the blocks from [b] on. *)
Fixpoint find_clear (d : bytes) (b size bi : Z) (fuel : nat) : option Z :=
  match fuel with
  | O => None
  | S fuel =>
      if (bi <? BPB) && (b + bi <? size) then
        if Z.land (byte d (Z.to_nat (bi / 8))) (bit bi) =? 0 then Some bi
        else find_clear d b size (bi + 1) fuel
      else None
  end.

Definition set_bit (bi : Z) (d : bytes) : bytes :=
  <[Z.to_nat (bi / 8) := u8 (Z.lor (byte d (Z.to_nat (bi / 8))) (bit bi))]> d.
Definition clear_bit (bi : Z) (d : bytes) : bytes :=
  <[Z.to_nat (bi / 8) := u8 (Z.land (byte d (Z.to_nat (bi / 8))) (Z.lnot (bit bi)))]> d.

Fixpoint balloc_loop (dev b : Z) (fuel : nat) : M fs Z :=
  match fuel with
  | O => nofuel
  | S fuel =>
      sb <- gets f_sb ;;
      if b <? sb_size sb then
        bp <- fbread dev (BBLOCK b sb) ;;
        d <- bdata bp ;;
        match find_clear d b (sb_size sb) 0 (Z.to_nat BPB) with
        | Some bi =>
            set_bdata (set_bit bi d) bp ;;;
            flog_write bp ;;;
            fbrelse bp ;;;
            bzero dev (b + bi) ;;;
            ret (b + bi)
        | None => fbrelse bp ;;; balloc_loop dev (b + BPB) fuel
        end
      else panic "balloc: out of blocks"
  end.

(** One iteration per block of the free map. *)
Definition balloc (dev : Z) : M fs Z :=
  sb <- gets f_sb ;;
  balloc_loop dev 0 (S (S (Z.to_nat (sb_size sb / BPB)))).

Definition freadsb (dev : Z) : M fs unit :=
  sb <- lift (T := bst) (readsb dev) ;;
  modify (set_sb sb).

Definition bfree (dev b : Z) : M fs unit :=
  freadsb dev ;;;
  sb <- gets f_sb ;;
  bp <- fbread dev (BBLOCK b sb) ;;
  let bi := b mod BPB in
  d <- bdata bp ;;
  if Z.land (byte d (Z.to_nat (bi / 8))) (bit bi) =? 0 then panic "freeing free block" else
  set_bdata (clear_bit bi d) bp ;;;
  flog_write bp ;;;
  fbrelse bp.

(** * Inodes *)

Fixpoint iinit_loop (n i : nat) : M fs unit :=
  match n with
  | O => ret tt
  | S n => initsleeplock (iref i) ;;; iinit_loop n (S i)
  end.

(** [iinit], without the line it prints on the console. *)
Definition iinit (dev : Z) : M fs unit :=
  iinit_loop NINODE 0 ;;;
  freadsb dev.

(** The offset of an inode in its block. *)
Definition dip (inum : Z) : nat := Z.to_nat (inum mod IPB * DINODE).

(** [struct dinode] as bytes: type, major, minor, nlink, size, addrs. *)
Definition dinode_bytes (ip : inode) : bytes :=
  le16 (i_type ip) ++ le16 (i_major ip) ++ le16 (i_minor ip) ++ le16 (i_nlink ip) ++ le32 (i_size ip) ++
  concat (le32 <$> i_addrs ip).

Definition get_addrs (d : bytes) (o : nat) : list Z := (fun k => get32 d (o + 4 * k)) <$> seq 0 (S NDIRECT).

(** The copy from disk in [ilock]. *)
Definition load_dinode (d : bytes) (o : nat) (ip : inode) : inode :=
  Inode (i_dev ip) (i_inum ip) (i_ref ip) (i_lock ip) (i_valid ip)
        (s16 (get16 d o)) (s16 (get16 d (o + 2))) (s16 (get16 d (o + 4))) (s16 (get16 d (o + 6)))
        (get32 d (o + 8)) (get_addrs d (o + 12)).

(** The search of [iget]: the cached inode, or else the first empty slot. *)
Fixpoint iget_scan (dev inum : Z) (l : list inode) (i : nat) (empty : option nat) : nat + option nat :=
  match l with
  | [] => inr empty
  | ip :: l =>
      if (0 <? i_ref ip) && (i_dev ip =? dev) && (i_inum ip =? inum) then inl i
      else iget_scan dev inum l (S i)
             (match empty with None => if i_ref ip =? 0 then Some i else None | Some _ => empty end)
  end.

Definition iget (dev inum : Z) : M fs nat :=
  Klock.acquire icache_lock ;;;
  t <- gets f_icache ;;
  match iget_scan dev inum t 0 None with
  | inl i =>
      seti (fun ip => set_iref (s32 (i_ref ip + 1)) ip) i ;;;
      Klock.release icache_lock ;;;
      ret i
  | inr None => panic "iget: no inodes"
  | inr (Some i) =>
      seti (fun ip => Inode dev inum 1 (i_lock ip) false (i_type ip) (i_major ip) (i_minor ip) (i_nlink ip)
                            (i_size ip) (i_addrs ip)) i ;;;
      Klock.release icache_lock ;;;
      ret i
  end.

Fixpoint ialloc_loop (dev type inum : Z) (fuel : nat) : M fs nat :=
  match fuel with
  | O => nofuel
  | S fuel =>
      sb <- gets f_sb ;;
      if inum <? sb_ninodes sb then
        bp <- fbread dev (IBLOCK inum sb) ;;
        d <- bdata bp ;;
        if s16 (get16 d (dip inum)) =? 0 then
          set_bdata (put16 (dip inum) type (splice (dip inum) (replicate (Z.to_nat DINODE) 0) d)) bp ;;;
          flog_write bp ;;;
          fbrelse bp ;;;
          iget dev inum
        else fbrelse bp ;;; ialloc_loop dev type (inum + 1) fuel
      else panic "ialloc: no inodes"
  end.

Definition ialloc (dev type : Z) : M fs nat :=
  sb <- gets f_sb ;;
  ialloc_loop dev type 1 (S (Z.to_nat (sb_ninodes sb))).

Definition iupdate (i : nat) : M fs unit :=
  ip <- ifield id i ;;
  sb <- gets f_sb ;;
  bp <- fbread (i_dev ip) (IBLOCK (i_inum ip) sb) ;;
  d <- bdata bp ;;
  set_bdata (splice (dip (i_inum ip)) (dinode_bytes ip) d) bp ;;;
  flog_write bp ;;;
  fbrelse bp.

Definition idup (i : nat) : M fs nat :=
  Klock.acquire icache_lock ;;;
  seti (fun ip => set_iref (s32 (i_ref ip + 1)) ip) i ;;;
  Klock.release icache_lock ;;;
  ret i.

Definition ilock (i : nat) : M fs unit :=
  r <- ifield i_ref i ;;
  if r <? 1 then panic "ilock" else
  acquiresleep (iref i) ;;;
  ip <- ifield id i ;;
  if i_valid ip then ret tt else
  sb <- gets f_sb ;;
  bp <- fbread (i_dev ip) (IBLOCK (i_inum ip) sb) ;;
  d <- bdata bp ;;
  seti (load_dinode d (dip (i_inum ip))) i ;;;
  fbrelse bp ;;;
  seti (set_ivalid true) i ;;;
  t <- ifield i_type i ;;
  if t =? 0 then panic "ilock: no type" else ret tt.

Definition iunlock (i : nat) : M fs unit :=
  h <- holdingsleep (iref i) ;;
  if negb h then panic "iunlock" else
  r <- ifield i_ref i ;;
  if r <? 1 then panic "iunlock" else
  releasesleep (iref i).

(** * Contents *)

Definition bmap (i : nat) (bn : Z) : M fs Z :=
  ip <- ifield id i ;;
  if bn <? Z.of_nat NDIRECT then
    let addr := default 0 (i_addrs ip !! Z.to_nat bn) in
    if addr =? 0 then
      addr <- balloc (i_dev ip) ;;
      seti (fun ip => set_iaddrs (<[Z.to_nat bn := addr]> (i_addrs ip)) ip) i ;;;
      ret addr
    else ret addr
  else
  let bn := bn - Z.of_nat NDIRECT in
  if bn <? Z.of_nat NINDIRECT then
    let addr := default 0 (i_addrs ip !! NDIRECT) in
    addr <- (if addr =? 0 then
               addr <- balloc (i_dev ip) ;;
               seti (fun ip => set_iaddrs (<[NDIRECT := addr]> (i_addrs ip)) ip) i ;;;
               ret addr
             else ret addr) ;;
    bp <- fbread (i_dev ip) addr ;;
    d <- bdata bp ;;
    let addr := get32 d (4 * Z.to_nat bn) in
    addr <- (if addr =? 0 then
               addr <- balloc (i_dev ip) ;;
               d <- bdata bp ;;
               set_bdata (put32 (4 * Z.to_nat bn) addr d) bp ;;;
               flog_write bp ;;;
               ret addr
             else ret addr) ;;
    fbrelse bp ;;;
    ret addr
  else panic "bmap: out of range".

Fixpoint free_direct (i : nat) (n k : nat) : M fs unit :=
  match n with
  | O => ret tt
  | S n =>
      ip <- ifield id i ;;
      let a := default 0 (i_addrs ip !! k) in
      when (negb (a =? 0))
        (bfree (i_dev ip) a ;;;
         seti (fun ip => set_iaddrs (<[k := 0]> (i_addrs ip)) ip) i) ;;;
      free_direct i n (S k)
  end.

Fixpoint free_indirect (dev : Z) (bp : nat) (n j : nat) : M fs unit :=
  match n with
  | O => ret tt
  | S n =>
      d <- bdata bp ;;
      let a := get32 d (4 * j) in
      when (negb (a =? 0)) (bfree dev a) ;;;
      free_indirect dev bp n (S j)
  end.

Definition itrunc (i : nat) : M fs unit :=
  free_direct i NDIRECT 0 ;;;
  ip <- ifield id i ;;
  let a := default 0 (i_addrs ip !! NDIRECT) in
  when (negb (a =? 0))
    (bp <- fbread (i_dev ip) a ;;
     free_indirect (i_dev ip) bp NINDIRECT 0 ;;;
     fbrelse bp ;;;
     bfree (i_dev ip) a ;;;
     seti (fun ip => set_iaddrs (<[NDIRECT := 0]> (i_addrs ip)) ip) i) ;;;
  seti (set_isize 0) i ;;;
  iupdate i.

Definition iput (i : nat) : M fs unit :=
  acquiresleep (iref i) ;;;
  ip <- ifield id i ;;
  when (i_valid ip && (i_nlink ip =? 0))
    (Klock.acquire icache_lock ;;;
     r <- ifield i_ref i ;;
     Klock.release icache_lock ;;;
     when (r =? 1)
       (itrunc i ;;;
        seti (set_itype 0) i ;;;
        iupdate i ;;;
        seti (set_ivalid false) i)) ;;;
  releasesleep (iref i) ;;;
  Klock.acquire icache_lock ;;;
  seti (fun ip => set_iref (s32 (i_ref ip - 1)) ip) i ;;;
  Klock.release icache_lock.

Definition iunlockput (i : nat) : M fs unit := iunlock i ;;; iput i.

(** [struct stat]. *)
Record stat := Stat { st_type : Z; st_dev : Z; st_ino : Z; st_nlink : Z; st_size : Z }.

Definition stati (i : nat) : M fs stat :=
  ip <- ifield id i ;;
  ret (Stat (i_type ip) (i_dev ip) (i_inum ip) (i_nlink ip) (i_size ip)).

(** The table of device functions, filled in by the drivers. *)
Class DevSw := {
  dev_read : Z -> option (nat -> Z -> M fs (Z * bytes));
  dev_write : Z -> option (nat -> bytes -> Z -> M fs Z)
}.

Section contents.
Context `{DevSw}.

(** [readi] returns its result and the bytes it stores at [dst]. *)
Fixpoint readi_loop (i : nat) (off left : Z) (fuel : nat) : M fs bytes :=
  match fuel with
  | O => nofuel
  | S fuel =>
      if 0 <? left then
        ip <- ifield id i ;;
        a <- bmap i (off / BSIZE) ;;
        bp <- fbread (i_dev ip) a ;;
        let m := Z.min left (BSIZE - off mod BSIZE) in
        d <- bdata bp ;;
        fbrelse bp ;;;
        rest <- readi_loop i (u32 (off + m)) (left - m) fuel ;;
        ret (take (Z.to_nat m) (drop (Z.to_nat (off mod BSIZE)) d) ++ rest)
      else ret []
  end.

Definition readi (i : nat) (off n : Z) : M fs (Z * bytes) :=
  ip <- ifield id i ;;
  if i_type ip =? T_DEV then
    if (i_major ip <? 0) || (NDEV <=? i_major ip) then ret (-1, []) else
    match dev_read (i_major ip) with
    | None => ret (-1, [])
    | Some f => f i n
    end
  else
  if (i_size ip <? off) || (u32 (off + n) <? off) then ret (-1, []) else
  let n := if i_size ip <? u32 (off + n) then i_size ip - off else n in
  cs <- readi_loop i off n (S (Z.to_nat n)) ;;
  ret (s32 n, cs).

(** The loop of [writei] returns the offset it stops at. *)
Fixpoint writei_loop (i : nat) (src : bytes) (off left : Z) (fuel : nat) : M fs Z :=
  match fuel with
  | O => nofuel
  | S fuel =>
      if 0 <? left then
        ip <- ifield id i ;;
        a <- bmap i (off / BSIZE) ;;
        bp <- fbread (i_dev ip) a ;;
        let m := Z.min left (BSIZE - off mod BSIZE) in
        d <- bdata bp ;;
        set_bdata (splice (Z.to_nat (off mod BSIZE)) (take (Z.to_nat m) src) d) bp ;;;
        flog_write bp ;;;
        fbrelse bp ;;;
        writei_loop i (drop (Z.to_nat m) src) (u32 (off + m)) (left - m) fuel
      else ret off
  end.

Definition writei (i : nat) (src : bytes) (off n : Z) : M fs Z :=
  ip <- ifield id i ;;
  if i_type ip =? T_DEV then
    if (i_major ip <? 0) || (NDEV <=? i_major ip) then ret (-1) else
    match dev_write (i_major ip) with
    | None => ret (-1)
    | Some f => f i src n
    end
  else
  if (i_size ip <? off) || (u32 (off + n) <? off) then ret (-1) else
  if MAXFILE * BSIZE <? u32 (off + n) then ret (-1) else
  off <- writei_loop i src off n (S (Z.to_nat n)) ;;
  ip <- ifield id i ;;
  when ((0 <? n) && (i_size ip <? off)) (seti (set_isize off) i ;;; iupdate i) ;;;
  ret (s32 n).

(** * Directories *)

(** [strncmp] and [strncpy] on names: the characters before the terminator,
    or [DIRSIZ] characters without one. *)
Fixpoint strncmp_l (n : nat) (p q : list Z) : Z :=
  match n with
  | O => 0
  | S n =>
      let a := hd 0 p in let b := hd 0 q in
      if (a =? 0) || negb (a =? b) then u8 a - u8 b else strncmp_l n (tl p) (tl q)
  end.

Fixpoint strncpy_l (n : nat) (t : list Z) : list Z :=
  match n with
  | O => []
  | S n => let c := hd 0 t in c :: strncpy_l n (if c =? 0 then [] else tl t)
  end.

Definition namecmp (s t : list Z) : Z := strncmp_l DIRSIZ s t.

(** [struct dirent]. *)
Definition de_inum (de : bytes) : Z := get16 de 0.
Definition de_name (de : bytes) : list Z := drop 2 de.

Fixpoint dirlookup_loop (dp : nat) (name : list Z) (off : Z) (fuel : nat) : M fs (option (nat * Z)) :=
  match fuel with
  | O => nofuel
  | S fuel =>
      ip <- ifield id dp ;;
      if off <? i_size ip then
        r <- readi dp off DIRENT ;;
        let '(n, de) := r in
        if negb (n =? DIRENT) then panic "dirlookup read" else
        if de_inum de =? 0 then dirlookup_loop dp name (u32 (off + DIRENT)) fuel else
        if namecmp name (de_name de) =? 0 then
          i <- iget (i_dev ip) (de_inum de) ;; ret (Some (i, off))
        else dirlookup_loop dp name (u32 (off + DIRENT)) fuel
      else ret None
  end.

(** The inode found and the offset of its entry. *)
Definition dirlookup (dp : nat) (name : list Z) : M fs (option (nat * Z)) :=
  ip <- ifield id dp ;;
  if negb (i_type ip =? T_DIR) then panic "dirlookup not DIR" else
  dirlookup_loop dp name 0 (S (S (Z.to_nat (i_size ip / DIRENT)))).

(** The second loop of [dirlink]: the offset of the first empty entry, or the
    end of the directory. *)
Fixpoint empty_loop (dp : nat) (off : Z) (fuel : nat) : M fs Z :=
  match fuel with
  | O => nofuel
  | S fuel =>
      sz <- ifield i_size dp ;;
      if off <? sz then
        r <- readi dp off DIRENT ;;
        let '(n, de) := r in
        if negb (n =? DIRENT) then panic "dirlink read" else
        if de_inum de =? 0 then ret off else empty_loop dp (off + DIRENT) fuel
      else ret off
  end.

Definition dirent_bytes (name : list Z) (inum : Z) : bytes := le16 inum ++ strncpy_l DIRSIZ name.

Definition dirlink (dp : nat) (name : list Z) (inum : Z) : M fs Z :=
  r <- dirlookup dp name ;;
  match r with
  | Some (i, _) => iput i ;;; ret (-1)
  | None =>
      sz <- ifield i_size dp ;;
      off <- empty_loop dp 0 (S (S (Z.to_nat (sz / DIRENT)))) ;;
      n <- writei dp (dirent_bytes name inum) off DIRENT ;;
      if negb (n =? DIRENT) then panic "dirlink" else ret 0
  end.

(** * Paths *)

Definition SLASH : Z := 47.

Fixpoint skip_slashes (p : list Z) : list Z :=
  match p with
  | c :: p' => if c =? SLASH then skip_slashes p' else p
  | [] => []
  end.

(** The characters before the next slash, and the rest. *)
Fixpoint path_elem (p : list Z) : list Z * list Z :=
  match p with
  | c :: p' => if c =? SLASH then ([], p) else let '(e, r) := path_elem p' in (c :: e, r)
  | [] => ([], [])
  end.

(** The element, cut to [DIRSIZ] characters, and the path after it. *)
Definition skipelem (path : list Z) : option (list Z * list Z) :=
  match skip_slashes path with
  | [] => None
  | p => let '(e, r) := path_elem p in Some (take DIRSIZ e, skip_slashes r)
  end.

(** The inode found and the last element copied into [name]. *)
Fixpoint namex_loop (ip : nat) (path : list Z) (parent : bool) (name : list Z) (fuel : nat) : M fs (option nat * list Z) :=
  match fuel with
  | O => nofuel
  | S fuel =>
      match skipelem path with
      | Some (name, path) =>
          ilock ip ;;;
          t <- ifield i_type ip ;;
          if negb (t =? T_DIR) then iunlockput ip ;;; ret (None, name) else
          if parent && bool_decide (path = []) then iunlock ip ;;; ret (Some ip, name) else
          next <- dirlookup ip name ;;
          match next with
          | None => iunlockput ip ;;; ret (None, name)
          | Some (next, _) => iunlockput ip ;;; namex_loop next path parent name fuel
          end
      | None => if parent then iput ip ;;; ret (None, name) else ret (Some ip, name)
      end
  end.

(** Every iteration takes an element, so a character, off the path.  [cwd] is
    [myproc()->cwd]. *)
Definition namex (cwd : option nat) (path : list Z) (parent : bool) : M fs (option nat * list Z) :=
  ip <- (if hd 0 path =? SLASH then iget ROOTDEV ROOTINO
         else match cwd with Some c => idup c | None => fault 0 end) ;;
  namex_loop ip path parent [] (S (length path)).

Definition namei (cwd : option nat) (path : list Z) : M fs (option nat) :=
  r <- namex cwd path false ;; ret (fst r).

Definition nameiparent (cwd : option nat) (path : list Z) : M fs (option nat * list Z) := namex cwd path true.
End contents.
