(* ===== verification/File.v ===== *)
(** Open files, [file.c], and the file side of [pipe.c]: the system-wide table
    of open files over inodes and pipes. *)

From S2P Require Import Prelude Params Spinlock Klock Bytes Bio Log Fs Pipe Kalloc Vm Proc.
Open Scope Z_scope.
Open Scope xv6_scope.

Inductive ftype := FD_NONE | FD_PIPE | FD_INODE.

#[global] Instance ftype_eq_dec : EqDecision ftype.
Proof. solve_decision. Defined.

(** [struct file]; a pipe is named by the address of its page, an inode by its
    index in the inode cache. *)
Record file := File {
  fl_type : ftype;
  fl_ref : Z;
  fl_readable : bool;
  fl_writable : bool;
  fl_pipe : Z;
  fl_ip : nat;
  fl_off : Z
}.

Definition zero_file : file := File FD_NONE 0 false false 0 0 0.

Definition set_ref (x : Z) (f : file) : file :=
  File (fl_type f) x (fl_readable f) (fl_writable f) (fl_pipe f) (fl_ip f) (fl_off f).
Definition set_type (x : ftype) (f : file) : file :=
  File x (fl_ref f) (fl_readable f) (fl_writable f) (fl_pipe f) (fl_ip f) (fl_off f).
Definition set_off (x : Z) (f : file) : file :=
  File (fl_type f) (fl_ref f) (fl_readable f) (fl_writable f) (fl_pipe f) (fl_ip f) x.

(** The global variables [sysproc.c] includes from [virt2real.h],
    [num_pages.h] and [forkcow.h]. *)
Record globals := Globals { g_addreal : Z; g_addvirt : Z; g_pages : Z; g_pid : Z }.

(** The file system, [ftable], the pipes by address, [ticks], and the globals
    of [sysproc.c]. *)
Record io := Io {
  io_fs : fs;
  io_ftable : list file;
  io_pipes : gmap Z pipe;
  io_ticks : Z;
  io_globals : globals
}.

Definition set_fs (x : fs) (s : io) : io := Io x (io_ftable s) (io_pipes s) (io_ticks s) (io_globals s).
Definition set_ftable (x : list file) (s : io) : io := Io (io_fs s) x (io_pipes s) (io_ticks s) (io_globals s).
Definition set_pipes (x : gmap Z pipe) (s : io) : io := Io (io_fs s) (io_ftable s) x (io_ticks s) (io_globals s).
Definition set_ticks (x : Z) (s : io) : io := Io (io_fs s) (io_ftable s) (io_pipes s) x (io_globals s).
Definition set_globals (x : globals) (s : io) : io := Io (io_fs s) (io_ftable s) (io_pipes s) (io_ticks s) x.

(** The whole kernel. *)
Abbreviation kernel := (kern io).

#[global, program] Instance kernel_fs : Lens kernel fs := {|
  view s := io_fs (kf s); put x s := set_kf (set_fs x (kf s)) s |}.
Next Obligation. done. Qed.
Next Obligation. by intros [? ? ? []]. Qed.
Next Obligation. done. Qed.

#[global, program] Instance kernel_lst : Lens kernel lst := {|
  view s := f_l (io_fs (kf s)); put x s := set_kf (set_fs (put x (io_fs (kf s))) (kf s)) s |}.
Next Obligation. done. Qed.
Next Obligation. by intros [? ? ? [[] ? ? ? ?]]. Qed.
Next Obligation. done. Qed.

#[global, program] Instance kernel_ctx : Lens kernel kctx := {|
  view s := bc_ctx (l_b (f_l (io_fs (kf s)))); put x s := set_kf (set_fs (put x (io_fs (kf s))) (kf s)) s |}.
Next Obligation. done. Qed.
Next Obligation. by intros [? ? ? [[[[] ? ? ? ? ? ? ?] ? ?] ? ? ? ?]]. Qed.
Next Obligation. done. Qed.

Definition ftable_lock : lockid := ("ftable"%string, 0).

Definition getf (s : kernel) (i : nat) : file := default zero_file (io_ftable (kf s) !! i).
Definition ffield {A} (f : file -> A) (i : nat) : M kernel A := gets (fun s => f (getf s i)).
Definition setf (f : file -> file) (i : nat) : M kernel unit :=
  modify (fun s => set_kf (set_ftable (alter f i (io_ftable (kf s))) (kf s)) s).

(** * Pipes of the running process *)

Definition zero_pipe : pipe := pipe_init [].

(** What [pipe.c] sees of the kernel when process [i] operates on the pipe at
    [p]. *)
Definition pipe_view (i : nat) (p : Z) (s : kernel) : pst :=
  Pst (view s) (default zero_pipe (io_pipes (kf s) !! p))
      (match ptable (kv s) !! i with Some x => killed x | None => false end).
Definition pipe_put (p : Z) (t : pst) (s : kernel) : kernel :=
  let s := put (p_ctx t) s in
  set_kf (set_pipes (<[p := p_pipe t]> (io_pipes (kf s))) (kf s)) s.

Fixpoint pipe_result {A} (i : nat) (p : Z) (s : kernel) (r : result pst A) : result kernel A :=
  match r with
  | Ok a t => Ok a (pipe_put p t s)
  | Panic m => Panic m
  | Fault a => Fault a
  | NoFuel => NoFuel
  | Switch t k => Switch (pipe_put p t s) (fun s' => pipe_result i p s' (k (pipe_view i p s')))
  end.

Definition on_pipe {A} (p : Z) (m : M pst A) : M kernel A :=
  c <- cur_proc ;;
  match c with
  | None => fault 0
  | Some i => fun s => pipe_result i p s (m (pipe_view i p s))
  end.

Section file.
Context `{Layout} `{DevSw}.

(** [pipeclose] frees the page when the second end is closed. *)
Definition fpipeclose (p : Z) (writable : bool) : M kernel unit :=
  on_pipe p (pipeclose writable) ;;;
  x <- gets (fun s => default zero_pipe (io_pipes (kf s) !! p)) ;;
  when (pi_freed x)
    (modify (fun s => set_kf (set_pipes (delete p (io_pipes (kf s))) (kf s)) s) ;;;
     lift (T := kst) (kfree p)).

(** * [file.c] *)

Fixpoint find_file (t : list file) (i : nat) : option nat :=
  match t with
  | [] => None
  | f :: t => if fl_ref f =? 0 then Some i else find_file t (S i)
  end.

Definition filealloc : M kernel (option nat) :=
  Klock.acquire ftable_lock ;;;
  t <- gets (fun s => io_ftable (kf s)) ;;
  match find_file t 0 with
  | Some i => setf (set_ref 1) i ;;; Klock.release ftable_lock ;;; ret (Some i)
  | None => Klock.release ftable_lock ;;; ret None
  end.

Definition filedup (f : nat) : M kernel nat :=
  Klock.acquire ftable_lock ;;;
  r <- ffield fl_ref f ;;
  if r <? 1 then panic "filedup" else
  setf (set_ref (s32 (r + 1))) f ;;;
  Klock.release ftable_lock ;;;
  ret f.

Definition fileclose (f : nat) : M kernel unit :=
  Klock.acquire ftable_lock ;;;
  r <- ffield fl_ref f ;;
  if r <? 1 then panic "fileclose" else
  setf (set_ref (r - 1)) f ;;;
  if 0 <? r - 1 then Klock.release ftable_lock else
  ff <- ffield id f ;;
  setf (set_ref 0) f ;;;
  setf (set_type FD_NONE) f ;;;
  Klock.release ftable_lock ;;;
  match fl_type ff with
  | FD_PIPE => fpipeclose (fl_pipe ff) (fl_writable ff)
  | FD_INODE =>
      lift (T := lst) begin_op ;;;
      lift (T := fs) (iput (fl_ip ff)) ;;;
      lift (T := lst) end_op
  | FD_NONE => ret tt
  end.

(** [None] is the result -1. *)
Definition filestat (f : nat) : M kernel (option stat) :=
  x <- ffield id f ;;
  match fl_type x with
  | FD_INODE =>
      lift (T := fs) (ilock (fl_ip x)) ;;;
      st <- lift (T := fs) (stati (fl_ip x)) ;;
      lift (T := fs) (iunlock (fl_ip x)) ;;;
      ret (Some st)
  | _ => ret None
  end.

(** The result, and the bytes stored at [addr]. *)
Definition fileread (f : nat) (n : Z) : M kernel (Z * bytes) :=
  x <- ffield id f ;;
  if negb (fl_readable x) then ret (-1, []) else
  match fl_type x with
  | FD_PIPE => on_pipe (fl_pipe x) (piperead n)
  | FD_INODE =>
      lift (T := fs) (ilock (fl_ip x)) ;;;
      o <- ffield fl_off f ;;
      r <- lift (T := fs) (readi (fl_ip x) o (u32 n)) ;;
      when (0 <? fst r) (setf (fun y => set_off (u32 (fl_off y + fst r)) y) f) ;;;
      lift (T := fs) (iunlock (fl_ip x)) ;;;
      ret r
  | FD_NONE => panic "fileread"
  end.

(** The most one transaction of [filewrite] writes. *)
Definition FWMAX : Z := (LOGSIZE - 1 - 1 - 2) / 2 * 512.

(** The [while] loop of [filewrite] returns the final [i]. *)
Fixpoint filewrite_loop (f : nat) (src : bytes) (i n : Z) (fuel : nat) : M kernel Z :=
  match fuel with
  | O => nofuel
  | S fuel =>
      if i <? n then
        let n1 := if FWMAX <? n - i then FWMAX else n - i in
        lift (T := lst) begin_op ;;;
        x <- ffield id f ;;
        lift (T := fs) (ilock (fl_ip x)) ;;;
        o <- ffield fl_off f ;;
        r <- lift (T := fs) (writei (fl_ip x) (drop (Z.to_nat i) src) o n1) ;;
        when (0 <? r) (setf (fun y => set_off (u32 (fl_off y + r)) y) f) ;;;
        lift (T := fs) (iunlock (fl_ip x)) ;;;
        lift (T := lst) end_op ;;;
        if r <? 0 then ret i else
        if negb (r =? n1) then panic "short filewrite" else
        filewrite_loop f src (i + r) n fuel
      else ret i
  end.

Definition filewrite (f : nat) (src : bytes) (n : Z) : M kernel Z :=
  x <- ffield id f ;;
  if negb (fl_writable x) then ret (-1) else
  match fl_type x with
  | FD_PIPE => on_pipe (fl_pipe x) (pipewrite src n)
  | FD_INODE =>
      i <- filewrite_loop f src 0 n (S (Z.to_nat n)) ;;
      ret (if i =? n then n else -1)
  | FD_NONE => panic "filewrite"
  end.

Definition close_if (f : option nat) : M kernel unit :=
  match f with Some f => fileclose f | None => ret tt end.

(** Two files on a fresh pipe, or nothing.  What the page held before is never
    read as pipe data; the model starts with zeros. *)
Definition pipealloc : M kernel (option (nat * nat)) :=
  f0 <- filealloc ;;
  f1 <- match f0 with Some _ => filealloc | None => ret None end ;;
  p <- match f1 with Some _ => lift (T := kst) kalloc | None => ret 0 end ;;
  match f0, f1 with
  | Some f0, Some f1 =>
      if p =? 0 then fileclose f0 ;;; fileclose f1 ;;; ret None else
      modify (fun s => set_kf (set_pipes (<[p := pipe_init (replicate (Z.to_nat PIPESIZE) 0)]> (io_pipes (kf s))) (kf s)) s) ;;;
      setf (fun x => File FD_PIPE (fl_ref x) true false p (fl_ip x) (fl_off x)) f0 ;;;
      setf (fun x => File FD_PIPE (fl_ref x) false true p (fl_ip x) (fl_off x)) f1 ;;;
      ret (Some (f0, f1))
  | _, _ => close_if f0 ;;; close_if f1 ;;; ret None
  end.

(** The file layer [proc.c] is built on. *)
#[global] Instance io_fileops : FileOps io := {|
  f_filedup := filedup;
  f_fileclose := fileclose;
  f_idup d := lift (T := fs) (idup d);
  f_iput d := lift (T := fs) (iput d);
  f_begin_op := lift (T := lst) begin_op;
  f_end_op := lift (T := lst) end_op;
  f_namei_root := lift (T := fs) (namei None [SLASH])
|}.
End file.
