(* ===== verification/Syscall.v ===== *)
(** System calls, [syscall.c]: fetching arguments from user memory, and the
    accesses the kernel makes to user memory on the way. *)

From S2P Require Import Prelude Params Mem Spinlock Klock Bytes Bio Log Fs Pipe Kalloc Vm PageTable Proc File.
Open Scope Z_scope.
Open Scope xv6_scope.

(** * User memory from kernel mode

    The kernel runs on the page table of the current process.  A supervisor
    access does not need [PTE_U]; since [CR0_WP] is set, a store needs
    [PTE_W], and a store to a present page without it enters [pagefault]. *)

Definition user_entry (s : vst) (D va : Z) : Z := pte_val (v_mem s) D (va / PGSIZE).
Definition in_user (va : Z) : bool := (0 <=? va) && (va <? KERNBASE).

Definition peek (s : vst) (D va : Z) : option Z :=
  let e := user_entry s D va in
  if in_user va && has e PTE_P then Some (rd (v_mem s) (PTE_ADDR e + va mod PGSIZE)) else None.

Definition poke (s : vst) (D va b : Z) : option vst :=
  let e := user_entry s D va in
  if in_user va && has e PTE_P && has e PTE_W
  then Some (set_k (set_kmem (wr (v_mem s) (PTE_ADDR e + va mod PGSIZE) b) (v_k s)) s) else None.

Definition set_cr2 (x : Z) (s : vst) : vst :=
  Vst (v_k s) (pg_refcount s) (ptable s) (kpgdir s) x (cr3 s) (tlb s).

(** The error code of a supervisor write to a present page. *)
Definition ERR_WRITE : Z := 3.

Section user.
Context `{Layout}.

Definition curproc : M kernel proc := c <- cur_proc ;; read_p c.

Definition load_byte (va : Z) : M kernel Z :=
  x <- curproc ;;
  fun s => match peek (kv s) (pgdir x) va with Some b => Ok b s | None => Fault va end.

Definition store_byte (va b : Z) : M kernel unit :=
  x <- curproc ;;
  fun s =>
    match poke (kv s) (pgdir x) va b with
    | Some v => Ok tt (set_kv v s)
    | None =>
        (lift (T := vst) (modify (set_cr2 va) ;;; pagefault ERR_WRITE) ;;;
         fun s => match poke (kv s) (pgdir x) va b with
                  | Some v => Ok tt (set_kv v s)
                  | None => Fault va
                  end) s
    end.

Fixpoint load_bytes (va : Z) (n : nat) : M kernel bytes :=
  match n with
  | O => ret []
  | S n => b <- load_byte va ;; bs <- load_bytes (u32 (va + 1)) n ;; ret (b :: bs)
  end.

Fixpoint store_bytes (va : Z) (bs : bytes) : M kernel unit :=
  match bs with
  | [] => ret tt
  | b :: bs => store_byte va b ;;; store_bytes (u32 (va + 1)) bs
  end.

(** * Fetching arguments

    [None] stands for the result -1. *)

Definition fetchint (addr : Z) : M kernel (option Z) :=
  x <- curproc ;;
  if (sz x <=? addr) || (sz x <? u32 (addr + 4)) then ret None else
  bs <- load_bytes addr 4 ;;
  ret (Some (s32 (get32 bs 0))).

(** The loop of [fetchstr], from [s] to [ep]. *)
Fixpoint fetch_loop (s ep : Z) (fuel : nat) : M kernel (option bytes) :=
  match fuel with
  | O => nofuel
  | S fuel =>
      if s <? ep then
        b <- load_byte s ;;
        if b =? 0 then ret (Some []) else
        r <- fetch_loop (s + 1) ep fuel ;;
        ret (match r with Some cs => Some (b :: cs) | None => None end)
      else ret None
  end.

(** The string found at [addr]; its length is what the C function returns. *)
Definition fetchstr (addr : Z) : M kernel (option bytes) :=
  x <- curproc ;;
  if sz x <=? addr then ret None else
  fetch_loop addr (sz x) (S (Z.to_nat (sz x - addr))).

Definition argint (n : Z) : M kernel (option Z) :=
  x <- curproc ;;
  esp <- lift (T := kst) (kload (u32 (tf x + TF_esp))) ;;
  fetchint (u32 (esp + 4 + 4 * n)).

Definition argptr (n size : Z) : M kernel (option Z) :=
  x <- curproc ;;
  i <- argint n ;;
  match i with
  | None => ret None
  | Some i =>
      let a := u32 i in
      if (size <? 0) || (sz x <=? a) || (sz x <? u32 (a + size)) then ret None else ret (Some a)
  end.

Definition argstr (n : Z) : M kernel (option bytes) :=
  a <- argint n ;;
  match a with
  | None => ret None
  | Some a => fetchstr (u32 a)
  end.
End user.
