(* ===== verification/Sysfile.v ===== *)
(** File-system calls, [sysfile.c]. *)

From S2P Require Import Prelude Params Mem Spinlock Klock Bytes Bio Log Fs Pipe Kalloc Vm PageTable Proc File Syscall.
Open Scope Z_scope.
Open Scope xv6_scope.

Definition O_RDONLY : Z := 0x000.
Definition O_WRONLY : Z := 0x001.
Definition O_RDWR : Z := 0x002.
Definition O_CREATE : Z := 0x200.

(** The names [.] and [..]. *)
Definition DOT : list Z := [46].
Definition DOTDOT : list Z := [46; 46].

(** [struct stat] as the C compiler lays it out. *)
Definition stat_bytes (st : stat) : bytes :=
  le16 (st_type st) ++ [0; 0] ++ le32 (st_dev st) ++ le32 (st_ino st) ++ le16 (st_nlink st) ++ [0; 0] ++ le32 (st_size st).

Section sysfile.
Context `{Layout} `{DevSw}.

#[local] Abbreviation onfs m := (lift (T := fs) m).
#[local] Abbreviation onlog m := (lift (T := lst) m).

(** The descriptor and its file. *)
Definition argfd (n : Z) : M kernel (option (nat * nat)) :=
  r <- argint n ;;
  match r with
  | None => ret None
  | Some fd =>
      if (fd <? 0) || (Z.of_nat NOFILE <=? fd) then ret None else
      x <- curproc ;;
      ret (match ofile x !! Z.to_nat fd with Some (Some f) => Some (Z.to_nat fd, f) | _ => None end)
  end.

Fixpoint free_fd (l : list (option nat)) (fd : nat) : option nat :=
  match l with
  | [] => None
  | None :: _ => Some fd
  | Some _ :: l => free_fd l (S fd)
  end.

Definition set_fd (fd : nat) (f : option nat) : M kernel unit :=
  c <- cur_proc ;; upd_p c (fun x => set_ofile (<[fd := f]> (ofile x)) x).

Definition fdalloc (f : nat) : M kernel (option nat) :=
  x <- curproc ;;
  match free_fd (take NOFILE (ofile x)) 0 with
  | Some fd => set_fd fd (Some f) ;;; ret (Some fd)
  | None => ret None
  end.

Definition sys_dup : M kernel Z :=
  r <- argfd 0 ;;
  match r with
  | None => ret (-1)
  | Some (_, f) =>
      fd <- fdalloc f ;;
      match fd with
      | None => ret (-1)
      | Some fd => filedup f ;;; ret (Z.of_nat fd)
      end
  end.

(** The three arguments of [read] and [write]. *)
Definition arg_rw : M kernel (option (nat * Z * Z)) :=
  r <- argfd 0 ;;
  match r with
  | None => ret None
  | Some (_, f) =>
      n <- argint 2 ;;
      match n with
      | None => ret None
      | Some n =>
          p <- argptr 1 n ;;
          ret (match p with Some p => Some (f, p, n) | None => None end)
      end
  end.

Definition sys_read : M kernel Z :=
  a <- arg_rw ;;
  match a with
  | None => ret (-1)
  | Some (f, p, n) =>
      r <- fileread f n ;;
      store_bytes p (snd r) ;;;
      ret (fst r)
  end.

Definition sys_write : M kernel Z :=
  a <- arg_rw ;;
  match a with
  | None => ret (-1)
  | Some (f, p, n) =>
      src <- load_bytes p (Z.to_nat n) ;;
      filewrite f src n
  end.

Definition sys_close : M kernel Z :=
  r <- argfd 0 ;;
  match r with
  | None => ret (-1)
  | Some (fd, f) => set_fd fd None ;;; fileclose f ;;; ret 0
  end.

Definition sys_fstat : M kernel Z :=
  r <- argfd 0 ;;
  match r with
  | None => ret (-1)
  | Some (_, f) =>
      p <- argptr 1 20 ;;
      match p with
      | None => ret (-1)
      | Some p =>
          st <- filestat f ;;
          match st with
          | None => ret (-1)
          | Some st => store_bytes p (stat_bytes st) ;;; ret 0
          end
      end
  end.

Definition cwd_of : M kernel (option nat) := x <- curproc ;; ret (cwd x).

(** [ip->nlink += by; iupdate(ip)]. *)
Definition add_nlink (by_ : Z) (i : nat) : M fs unit :=
  seti (fun ip => set_inlink (s16 (i_nlink ip + by_)) ip) i ;;; iupdate i.

(** [sys_link] after [bad:]. *)
Definition link_bad (ip : nat) : M kernel Z :=
  onfs (ilock ip) ;;;
  onfs (add_nlink (-1) ip) ;;;
  onfs (iunlockput ip) ;;;
  onlog end_op ;;;
  ret (-1).

Definition do_link (old new : bytes) : M kernel Z :=
  onlog begin_op ;;;
  c <- cwd_of ;;
  r <- onfs (namei c old) ;;
  match r with
  | None => onlog end_op ;;; ret (-1)
  | Some ip =>
      onfs (ilock ip) ;;;
      t <- onfs (ifield i_type ip) ;;
      if t =? T_DIR then onfs (iunlockput ip) ;;; onlog end_op ;;; ret (-1) else
      onfs (add_nlink 1 ip) ;;;
      onfs (iunlock ip) ;;;
      r <- onfs (nameiparent c new) ;;
      match r with
      | (None, _) => link_bad ip
      | (Some dp, name) =>
          onfs (ilock dp) ;;;
          d <- onfs (ifield id dp) ;;
          x <- onfs (ifield id ip) ;;
          l <- (if negb (i_dev d =? i_dev x) then ret (-1) else onfs (dirlink dp name (i_inum x))) ;;
          if l <? 0 then onfs (iunlockput dp) ;;; link_bad ip else
          onfs (iunlockput dp) ;;;
          onfs (iput ip) ;;;
          onlog end_op ;;;
          ret 0
      end
  end.

Definition sys_link : M kernel Z :=
  old <- argstr 0 ;;
  match old with
  | None => ret (-1)
  | Some old =>
      new <- argstr 1 ;;
      match new with
      | None => ret (-1)
      | Some new => do_link old new
      end
  end.

(** Is the directory empty except for [.] and [..]? *)
Fixpoint isdirempty_loop (dp : nat) (off : Z) (fuel : nat) : M fs bool :=
  match fuel with
  | O => nofuel
  | S fuel =>
      sz <- ifield i_size dp ;;
      if off <? sz then
        r <- readi dp off DIRENT ;;
        if negb (fst r =? DIRENT) then panic "isdirempty: readi" else
        if negb (de_inum (snd r) =? 0) then ret false else isdirempty_loop dp (off + DIRENT) fuel
      else ret true
  end.

Definition isdirempty (dp : nat) : M fs bool :=
  sz <- ifield i_size dp ;;
  isdirempty_loop dp (2 * DIRENT) (S (S (Z.to_nat (sz / DIRENT)))).

(** [sys_unlink] after [bad:]. *)
Definition unlink_bad (dp : nat) : M kernel Z :=
  onfs (iunlockput dp) ;;; onlog end_op ;;; ret (-1).

Definition do_unlink (path : bytes) : M kernel Z :=
  onlog begin_op ;;;
  c <- cwd_of ;;
  r <- onfs (nameiparent c path) ;;
  match r with
  | (None, _) => onlog end_op ;;; ret (-1)
  | (Some dp, name) =>
      onfs (ilock dp) ;;;
      if (namecmp name DOT =? 0) || (namecmp name DOTDOT =? 0) then unlink_bad dp else
      r <- onfs (dirlookup dp name) ;;
      match r with
      | None => unlink_bad dp
      | Some (ip, off) =>
          onfs (ilock ip) ;;;
          x <- onfs (ifield id ip) ;;
          if i_nlink x <? 1 then panic "unlink: nlink < 1" else
          e <- (if i_type x =? T_DIR then onfs (isdirempty ip) else ret true) ;;
          if negb e then onfs (iunlockput ip) ;;; unlink_bad dp else
          n <- onfs (writei dp (replicate (Z.to_nat DIRENT) 0) off DIRENT) ;;
          if negb (n =? DIRENT) then panic "unlink: writei" else
          when (i_type x =? T_DIR) (onfs (add_nlink (-1) dp)) ;;;
          onfs (iunlockput dp) ;;;
          onfs (add_nlink (-1) ip) ;;;
          onfs (iunlockput ip) ;;;
          onlog end_op ;;;
          ret 0
      end
  end.

Definition sys_unlink : M kernel Z :=
  path <- argstr 0 ;;
  match path with
  | None => ret (-1)
  | Some path => do_unlink path
  end.

Definition create (c : option nat) (path : bytes) (type major minor : Z) : M fs (option nat) :=
  r <- nameiparent c path ;;
  match r with
  | (None, _) => ret None
  | (Some dp, name) =>
      ilock dp ;;;
      r <- dirlookup dp name ;;
      match r with
      | Some (ip, _) =>
          iunlockput dp ;;;
          ilock ip ;;;
          t <- ifield i_type ip ;;
          if (type =? T_FILE) && (t =? T_FILE) then ret (Some ip) else iunlockput ip ;;; ret None
      | None =>
          d <- ifield id dp ;;
          ip <- ialloc (i_dev d) type ;;
          ilock ip ;;;
          seti (set_idev major minor 1) ip ;;;
          iupdate ip ;;;
          x <- ifield id ip ;;
          when (type =? T_DIR)
            (add_nlink 1 dp ;;;
             r <- dirlink ip DOT (i_inum x) ;;
             if r <? 0 then panic "create dots" else
             r <- dirlink ip DOTDOT (i_inum d) ;;
             if r <? 0 then panic "create dots" else ret tt) ;;;
          r <- dirlink dp name (i_inum x) ;;
          if r <? 0 then panic "create: dirlink" else
          iunlockput dp ;;;
          ret (Some ip)
      end
  end.

(** The second half of [sys_open]: a file and a descriptor for the locked
    inode. *)
Definition open_ip (ip : nat) (omode : Z) : M kernel Z :=
  f <- filealloc ;;
  fd <- match f with Some f => fdalloc f | None => ret None end ;;
  match f, fd with
  | Some f, Some fd =>
      onfs (iunlock ip) ;;;
      onlog end_op ;;;
      setf (fun x => File FD_INODE (fl_ref x) (negb (has omode O_WRONLY)) (has omode O_WRONLY || has omode O_RDWR)
                          (fl_pipe x) ip 0) f ;;;
      ret (Z.of_nat fd)
  | _, _ =>
      close_if f ;;;
      onfs (iunlockput ip) ;;;
      onlog end_op ;;;
      ret (-1)
  end.

Definition do_open (path : bytes) (omode : Z) : M kernel Z :=
  onlog begin_op ;;;
  c <- cwd_of ;;
  if has omode O_CREATE then
    r <- onfs (create c path T_FILE 0 0) ;;
    match r with
    | None => onlog end_op ;;; ret (-1)
    | Some ip => open_ip ip omode
    end
  else
    r <- onfs (namei c path) ;;
    match r with
    | None => onlog end_op ;;; ret (-1)
    | Some ip =>
        onfs (ilock ip) ;;;
        t <- onfs (ifield i_type ip) ;;
        if (t =? T_DIR) && negb (omode =? O_RDONLY) then onfs (iunlockput ip) ;;; onlog end_op ;;; ret (-1)
        else open_ip ip omode
    end.

Definition sys_open : M kernel Z :=
  path <- argstr 0 ;;
  match path with
  | None => ret (-1)
  | Some path =>
      omode <- argint 1 ;;
      match omode with
      | None => ret (-1)
      | Some omode => do_open path omode
      end
  end.

(** The common end of [sys_mkdir] and [sys_mknod]. *)
Definition create_done (r : option nat) : M kernel Z :=
  match r with
  | None => onlog end_op ;;; ret (-1)
  | Some ip => onfs (iunlockput ip) ;;; onlog end_op ;;; ret 0
  end.

Definition sys_mkdir : M kernel Z :=
  onlog begin_op ;;;
  path <- argstr 0 ;;
  c <- cwd_of ;;
  r <- match path with Some path => onfs (create c path T_DIR 0 0) | None => ret None end ;;
  create_done r.

Definition sys_mknod : M kernel Z :=
  onlog begin_op ;;;
  path <- argstr 0 ;;
  match path with
  | None => create_done None
  | Some path =>
      major <- argint 1 ;;
      match major with
      | None => create_done None
      | Some major =>
          minor <- argint 2 ;;
          match minor with
          | None => create_done None
          | Some minor =>
              c <- cwd_of ;;
              r <- onfs (create c path T_DEV (s16 major) (s16 minor)) ;;
              create_done r
          end
      end
  end.

Definition sys_chdir : M kernel Z :=
  cur <- cur_proc ;;
  onlog begin_op ;;;
  path <- argstr 0 ;;
  c <- cwd_of ;;
  r <- match path with Some path => onfs (namei c path) | None => ret None end ;;
  match r with
  | None => onlog end_op ;;; ret (-1)
  | Some ip =>
      onfs (ilock ip) ;;;
      t <- onfs (ifield i_type ip) ;;
      if negb (t =? T_DIR) then onfs (iunlockput ip) ;;; onlog end_op ;;; ret (-1) else
      onfs (iunlock ip) ;;;
      match c with Some d => onfs (iput d) | None => fault 0 end ;;;
      onlog end_op ;;;
      upd_p cur (set_cwd (Some ip)) ;;;
      ret 0
  end.

(** The argument vector of [exec]: at most [MAXARG] pointers, the last 0. *)
Fixpoint fetch_argv (uargv : Z) (i n : nat) : M kernel (option (list bytes)) :=
  match n with
  | O => ret None
  | S n =>
      uarg <- fetchint (u32 (uargv + 4 * Z.of_nat i)) ;;
      match uarg with
      | None => ret None
      | Some uarg =>
          if uarg =? 0 then ret (Some []) else
          s <- fetchstr (u32 uarg) ;;
          match s with
          | None => ret None
          | Some s =>
              r <- fetch_argv uargv (S i) n ;;
              ret (match r with Some l => Some (s :: l) | None => None end)
          end
      end
  end.

Definition sys_exec (exec : bytes -> list bytes -> M kernel Z) : M kernel Z :=
  path <- argstr 0 ;;
  match path with
  | None => ret (-1)
  | Some path =>
      uargv <- argint 1 ;;
      match uargv with
      | None => ret (-1)
      | Some uargv =>
          argv <- fetch_argv (u32 uargv) 0 MAXARG ;;
          match argv with
          | None => ret (-1)
          | Some argv => exec path argv
          end
      end
  end.

Definition sys_pipe : M kernel Z :=
  p <- argptr 0 8 ;;
  match p with
  | None => ret (-1)
  | Some p =>
      r <- pipealloc ;;
      match r with
      | None => ret (-1)
      | Some (rf, wf) =>
          fd0 <- fdalloc rf ;;
          fd1 <- match fd0 with Some _ => fdalloc wf | None => ret None end ;;
          match fd0, fd1 with
          | Some fd0, Some fd1 =>
              store_bytes p (le32 (Z.of_nat fd0) ++ le32 (Z.of_nat fd1)) ;;;
              ret 0
          | _, _ =>
              match fd0 with Some fd0 => set_fd fd0 None | None => ret tt end ;;;
              fileclose rf ;;;
              fileclose wf ;;;
              ret (-1)
          end
      end
  end.
End sysfile.
