(* ===== verification/Exec.v ===== *)
(** [exec.c]: replacing the image of the current process. *)

From S2P Require Import Prelude Params Mem Spinlock Klock Bytes Bio Log Fs Pipe Kalloc Vm PageTable Proc File Syscall Sysfile.
Open Scope Z_scope.
Open Scope xv6_scope.

Definition ELF_MAGIC : Z := 0x464C457F.
Definition ELF_PROG_LOAD : Z := 1.

(** [struct elfhdr] and [struct proghdr]: sizes, and the fields read. *)
Definition ELFHDR : Z := 52.
Definition PROGHDR : Z := 32.
Definition elf_magic (d : bytes) : Z := get32 d 0.
Definition elf_entry (d : bytes) : Z := get32 d 24.
Definition elf_phoff (d : bytes) : Z := get32 d 28.
Definition elf_phnum (d : bytes) : Z := get16 d 44.
Definition ph_type (d : bytes) : Z := get32 d 0.
Definition ph_off (d : bytes) : Z := get32 d 4.
Definition ph_vaddr (d : bytes) : Z := get32 d 8.
Definition ph_filesz (d : bytes) : Z := get32 d 16.
Definition ph_memsz (d : bytes) : Z := get32 d 20.

(** The characters after the last slash. *)
Fixpoint last_elem (last s : list Z) : list Z :=
  match s with
  | [] => last
  | c :: s' => if c =? SLASH then last_elem s' s' else last_elem last s'
  end.

Section exec.
Context `{Layout} `{DevSw}.

#[local] Abbreviation onfs m := (lift (T := fs) m).
#[local] Abbreviation onlog m := (lift (T := lst) m).
#[local] Abbreviation onvm m := (lift (T := vst) m).

(** [readi(ip, dst, off, n)] with [dst] a kernel address. *)
Definition readi_to (ip : nat) (dst off n : Z) : M kernel Z :=
  r <- onfs (readi ip off n) ;;
  lift (T := kst) (kwrite dst (snd r)) ;;;
  ret (fst r).

(** The loop over the program headers; [None] is [goto bad]. *)
Fixpoint load_segments (ip : nat) (pgdir off size : Z) (n : nat) : M kernel (option Z) :=
  match n with
  | O => ret (Some size)
  | S n =>
      r <- onfs (readi ip (u32 off) PROGHDR) ;;
      let ph := snd r in
      if negb (fst r =? PROGHDR) then ret None else
      if negb (ph_type ph =? ELF_PROG_LOAD) then load_segments ip pgdir (s32 (off + PROGHDR)) size n else
      if ph_memsz ph <? ph_filesz ph then ret None else
      if u32 (ph_vaddr ph + ph_memsz ph) <? ph_vaddr ph then ret None else
      size <- onvm (allocuvm pgdir size (u32 (ph_vaddr ph + ph_memsz ph))) ;;
      if size =? 0 then ret None else
      if negb (ph_vaddr ph mod PGSIZE =? 0) then ret None else
      l <- loaduvm (readi_to ip) pgdir (ph_vaddr ph) (ph_off ph) (ph_filesz ph) ;;
      if l <? 0 then ret None else
      load_segments ip pgdir (s32 (off + PROGHDR)) size n
  end.

(** Pushing the argument strings: the stack pointer and the addresses of the
    strings. *)
Fixpoint push_args (pgdir sp : Z) (argc : nat) (argv : list bytes) : M kernel (option (Z * list Z)) :=
  match argv with
  | [] => ret (Some (sp, []))
  | a :: argv =>
      if (MAXARG <=? argc)%nat then ret None else
      let sp := Z.land (u32 (sp - (Z.of_nat (length a) + 1))) (not32 3) in
      r <- onvm (copyout pgdir sp (a ++ [0])) ;;
      if r <? 0 then ret None else
      rest <- push_args pgdir sp (S argc) argv ;;
      ret (match rest with Some (sp', ps) => Some (sp', sp :: ps) | None => None end)
  end.

(** [ustack]: a fake return address, [argc], the [argv] pointer, the strings'
    addresses and a null pointer. *)
Definition ustack (sp : Z) (ps : list Z) : list Z :=
  let argc := Z.of_nat (length ps) in
  [0xffffffff; argc; u32 (sp - (argc + 1) * 4)] ++ ps ++ [0].

(** After [bad:]. *)
Definition exec_bad (pgdir : Z) (ip : option nat) : M kernel Z :=
  when (negb (pgdir =? 0)) (onvm (freevm pgdir)) ;;;
  match ip with
  | Some ip => onfs (iunlockput ip) ;;; onlog end_op
  | None => ret tt
  end ;;;
  ret (-1).

(** From [sz = PGROUNDUP(sz)] on: the stack, and the switch to the new image. *)
Definition exec_stack (path : bytes) (argv : list bytes) (pd size entry : Z) : M kernel Z :=
  c <- cur_proc ;;
  let size := PGROUNDUP size in
  size <- onvm (allocuvm pd size (u32 (size + 2 * PGSIZE))) ;;
  if size =? 0 then exec_bad pd None else
  onvm (clearpteu pd (u32 (size - 2 * PGSIZE))) ;;;
  r <- push_args pd size 0 argv ;;
  match r with
  | None => exec_bad pd None
  | Some (sp, ps) =>
      let us := ustack sp ps in
      let sp := u32 (sp - 4 * Z.of_nat (length us)) in
      r <- onvm (copyout pd sp (concat (le32 <$> us))) ;;
      if r <? 0 then exec_bad pd None else
      upd_p c (fun x => set_name (safestrcpy_bytes (name x) (last_elem path path) 16) x) ;;;
      x <- read_p c ;;
      upd_p c (set_pgdir pd) ;;;
      upd_p c (set_sz size) ;;;
      lift (T := kst) (kstore (u32 (tf x + TF_eip)) entry) ;;;
      lift (T := kst) (kstore (u32 (tf x + TF_esp)) sp) ;;;
      onvm (switchuvm c) ;;;
      onvm (freevm (pgdir x)) ;;;
      ret 0
  end.

Definition exec (path : bytes) (argv : list bytes) : M kernel Z :=
  onlog begin_op ;;;
  c <- cwd_of ;;
  r <- onfs (namei c path) ;;
  match r with
  | None => onlog end_op ;;; ret (-1)
  | Some ip =>
      onfs (ilock ip) ;;;
      r <- onfs (readi ip 0 ELFHDR) ;;
      let elf := snd r in
      if negb (fst r =? ELFHDR) then exec_bad 0 (Some ip) else
      if negb (elf_magic elf =? ELF_MAGIC) then exec_bad 0 (Some ip) else
      pd <- onvm setupkvm ;;
      if pd =? 0 then exec_bad 0 (Some ip) else
      r <- load_segments ip pd (s32 (elf_phoff elf)) 0 (Z.to_nat (elf_phnum elf)) ;;
      match r with
      | None => exec_bad pd (Some ip)
      | Some size =>
          onfs (iunlockput ip) ;;;
          onlog end_op ;;;
          exec_stack path argv pd size (elf_entry elf)
      end
  end.
End exec.
