(* ===== verification/Rtc.v ===== *)
(** The real-time clock, [cmostime] of [lapic.c]: reading a date that the
    hardware may be changing, and decoding it from binary-coded decimal. *)

From S2P Require Import Prelude Bytes.
Open Scope Z_scope.

(** [struct rtcdate]. *)
Record rtcdate := Rtcdate { second : Z; minute : Z; hour : Z; day : Z; month : Z; year : Z }.

#[global] Instance rtcdate_eq_dec : EqDecision rtcdate.
Proof. solve_decision. Defined.

Definition CMOS_STATA : Z := 0x0a.
Definition CMOS_STATB : Z := 0x0b.
Definition CMOS_UIP : Z := Z.shiftl 1 7.
Definition SECS : Z := 0x00.
Definition MINS : Z := 0x02.
Definition HOURS : Z := 0x04.
Definition DAY : Z := 0x07.
Definition MONTH : Z := 0x08.
Definition YEAR : Z := 0x09.

Section rtc.
(** The clock chip: a read of a register returns a byte, and time passes. *)
Context {W : Type} (cmos : Z -> W -> Z * W).

Definition cmos_read (reg : Z) (w : W) : Z * W := let '(v, w) := cmos reg w in (u8 v, w).

Definition fill_rtcdate (w : W) : rtcdate * W :=
  let '(s, w) := cmos_read SECS w in
  let '(m, w) := cmos_read MINS w in
  let '(h, w) := cmos_read HOURS w in
  let '(d, w) := cmos_read DAY w in
  let '(mo, w) := cmos_read MONTH w in
  let '(y, w) := cmos_read YEAR w in
  (Rtcdate s m h d mo y, w).

(** The [for(;;)] loop: two equal readings with no update in progress between
    them. *)
Fixpoint stable (fuel : nat) (w : W) : option (rtcdate * W) :=
  match fuel with
  | O => None
  | S fuel =>
      let '(t1, w) := fill_rtcdate w in
      let '(a, w) := cmos_read CMOS_STATA w in
      if negb (Z.land a CMOS_UIP =? 0) then stable fuel w else
      let '(t2, w) := fill_rtcdate w in
      if bool_decide (t1 = t2) then Some (t1, w) else stable fuel w
  end.

Definition CONV (x : Z) : Z := u32 (Z.shiftr x 4 * 10 + Z.land x 0xf).

Definition conv_date (t : rtcdate) : rtcdate :=
  Rtcdate (CONV (second t)) (CONV (minute t)) (CONV (hour t)) (CONV (day t)) (CONV (month t)) (CONV (year t)).

Definition cmostime (fuel : nat) (w : W) : option (rtcdate * W) :=
  let '(sb, w) := cmos_read CMOS_STATB w in
  let bcd := Z.land sb (Z.shiftl 1 2) =? 0 in
  match stable fuel w with
  | None => None
  | Some (t, w) =>
      let t := if bcd then conv_date t else t in
      Some (Rtcdate (second t) (minute t) (hour t) (day t) (month t) (u32 (year t + 2000)), w)
  end.
End rtc.

(** * Decoding *)

(** Binary-coded decimal, as the chip stores a number below 100. *)
Definition to_bcd (n : Z) : Z := Z.shiftl (n / 10) 4 + n mod 10.

Lemma CONV_bcd n : 0 <= n < 100 -> CONV (to_bcd n) = n.
Proof.
  intros Hn. unfold CONV, to_bcd. rewrite Z.shiftl_mul_pow2, Z.shiftr_div_pow2 by lia.
  change 0xf with (Z.ones 4). rewrite Z.land_ones by lia.
  assert (E1 : (n / 10 * 2 ^ 4 + n mod 10) / 2 ^ 4 = n / 10) by zdiv.
  assert (E2 : (n / 10 * 2 ^ 4 + n mod 10) mod 2 ^ 4 = n mod 10) by zdiv.
  rewrite E1, E2, u32_id; zdiv.
Qed.

Lemma to_bcd_byte n : 0 <= n < 100 -> u8 (to_bcd n) = to_bcd n.
Proof. intros Hn. apply u8_id. unfold to_bcd. rewrite Z.shiftl_mul_pow2 by lia. zdiv. Qed.

(** A date the clock can show. *)
Definition date_ok (t : rtcdate) : Prop :=
  0 <= second t < 100 /\ 0 <= minute t < 100 /\ 0 <= hour t < 100 /\
  0 <= day t < 100 /\ 0 <= month t < 100 /\ 2000 <= year t < 2100.

(** A clock that is not about to tick: it shows [t] in the mode [bcd], with no
    update in progress, for as long as it is read. *)
Definition shows (t : rtcdate) (bcd : bool) (reg : Z) : Z :=
  let enc n := if bcd then to_bcd n else n in
  if reg =? SECS then enc (second t) else
  if reg =? MINS then enc (minute t) else
  if reg =? HOURS then enc (hour t) else
  if reg =? DAY then enc (day t) else
  if reg =? MONTH then enc (month t) else
  if reg =? YEAR then enc (year t - 2000) else
  if reg =? CMOS_STATB then (if bcd then 0 else 4) else 0.

Lemma enc_byte (bcd : bool) n : 0 <= n < 100 -> u8 (if bcd then to_bcd n else n) = if bcd then to_bcd n else n.
Proof. intros Hn. destruct bcd; [by apply to_bcd_byte|]. apply u8_id. lia. Qed.

(** Reading a clock in either of its modes gives back the date it shows:
    the loop stops at the first pair of equal readings, and the conversion
    inverts binary-coded decimal. *)
Theorem cmostime_reads_date t bcd fuel :
  date_ok t -> cmostime (fun reg (_ : unit) => (shows t bcd reg, tt)) (S fuel) tt = Some (t, tt).
Proof.
  intros (Hs & Hm & Hh & Hd & Hmo & Hy).
  set (raw := Rtcdate (shows t bcd SECS) (shows t bcd MINS) (shows t bcd HOURS) (shows t bcd DAY)
                      (shows t bcd MONTH) (shows t bcd YEAR)).
  assert (Hfill : fill_rtcdate (fun reg (_ : unit) => (shows t bcd reg, tt)) tt = (raw, tt)).
  { unfold fill_rtcdate, cmos_read, raw. cbn. by rewrite !enc_byte by lia. }
  assert (Hst : stable (fun reg (_ : unit) => (shows t bcd reg, tt)) (S fuel) tt = Some (raw, tt)).
  { cbn [stable]. rewrite Hfill. change (cmos_read _ CMOS_STATA tt) with (0, tt). cbn [Z.land Z.eqb negb].
    rewrite Hfill. by rewrite bool_decide_eq_true_2. }
  unfold cmostime. change (cmos_read _ CMOS_STATB tt) with (u8 (if bcd then 0 else 4), tt). cbv beta iota.
  rewrite Hst. clear Hst Hfill.
  assert (Hc : forall n, 0 <= n < 100 -> CONV (to_bcd n) = n) by apply CONV_bcd.
  destruct bcd.
  - change (Z.land _ _ =? 0) with true. unfold conv_date, raw, shows. cbn [Z.eqb Pos.eqb second minute hour day month year SECS MINS HOURS DAY MONTH YEAR].
    rewrite !Hc by lia. rewrite u32_id by lia. destruct t; cbn. do 2 f_equal. f_equal. lia.
  - change (Z.land _ _ =? 0) with false. unfold raw, shows. cbn [Z.eqb Pos.eqb second minute hour day month year SECS MINS HOURS DAY MONTH YEAR].
    rewrite u32_id by lia. destruct t; cbn. do 2 f_equal. f_equal. lia.
Qed.

Lemma cmostime_reads_date_witness :
  cmostime (fun reg (_ : unit) => (shows (Rtcdate 59 30 23 31 12 2024) true reg, tt)) 1 tt =
  Some (Rtcdate 59 30 23 31 12 2024, tt).
Proof. apply (cmostime_reads_date (Rtcdate 59 30 23 31 12 2024) true 0). unfold date_ok. cbn. lia. Defined.
