(* ===== verification/Sysproc.v ===== *)
(** Process system calls, [sysproc.c], the dispatch of [syscall.c], and
    [trap.c]. *)

From S2P Require Import Prelude Params Mem Spinlock Klock Bytes Bio Log Fs Pipe Kalloc Vm PageTable Proc File Syscall Sysfile Exec Rtc.
Open Scope Z_scope.
Open Scope xv6_scope.

Definition tickslock : lockid := ("time"%string, 0).
Definition ticks_chan : chan_t := Some ("ticks"%string, 0).

(** The fields of the trap frame [trap] looks at. *)
Record trapinfo := Trap { t_tf : Z; t_trapno : Z; t_err : Z; t_cs : Z }.

Definition date_bytes (t : rtcdate) : bytes :=
  concat (le32 <$> [second t; minute t; hour t; day t; month t; year t]).

(** The drivers whose interrupts [trap] dispatches. *)
Class Drivers := { ideintr : M kernel unit; kbdintr : M kernel unit; uartintr : M kernel unit }.

Section sysproc.
Context `{Layout} `{DevSw} `{Drivers}.
Context (trapret forkret_addr : Z).
(** What [cmostime] reads, and the value of an uninitialised pointer. *)
Context (now : rtcdate) (junk : Z).

Definition sys_fork : M kernel Z := fork trapret forkret_addr.
Definition sys_exit : M kernel Z := exit ;;; ret 0.
Definition sys_wait : M kernel Z := wait.

Definition sys_kill : M kernel Z :=
  n <- argint 0 ;;
  match n with
  | None => ret (-1)
  | Some n => kill n
  end.

Definition sys_getpid : M kernel Z := x <- curproc ;; ret (pid x).

Definition sys_sbrk : M kernel Z :=
  n <- argint 0 ;;
  match n with
  | None => ret (-1)
  | Some n =>
      x <- curproc ;;
      r <- growproc n ;;
      if r <? 0 then ret (-1) else ret (s32 (sz x))
  end.

Definition get_ticks : M kernel Z := gets (fun s => io_ticks (kf s)).
Definition lock_ticks : M kernel unit := lift (T := mach) (acquire tickslock).
Definition unlock_ticks : M kernel unit := lift (T := mach) (release tickslock).

(** [n] is compared as unsigned, [ticks] being a [uint]. *)
Fixpoint sleep_loop (ticks0 n : Z) (fuel : nat) : M kernel Z :=
  match fuel with
  | O => nofuel
  | S fuel =>
      t <- get_ticks ;;
      if u32 (t - ticks0) <? u32 n then
        x <- curproc ;;
        if killed x then unlock_ticks ;;; ret (-1) else
        sleep ticks_chan (Some tickslock) ;;;
        sleep_loop ticks0 n fuel
      else unlock_ticks ;;; ret 0
  end.

Definition sys_sleep : M kernel Z :=
  n <- argint 0 ;;
  match n with
  | None => ret (-1)
  | Some n =>
      lock_ticks ;;;
      t <- get_ticks ;;
      sleep_loop t n WAITS
  end.

Definition sys_uptime : M kernel Z :=
  lock_ticks ;;; t <- get_ticks ;; unlock_ticks ;;; ret (s32 t).

(** The result of [argptr] is not looked at: [ptr] stays uninitialised when it
    fails. *)
Definition sys_date : M kernel Z :=
  p <- argptr 0 4 ;;
  store_bytes (default junk p) (date_bytes now) ;;;
  ret 0.

Definition get_globals : M kernel globals := gets (fun s => io_globals (kf s)).
Definition put_globals (f : globals -> globals) : M kernel unit :=
  modify (fun s => set_kf (set_globals (f (io_globals (kf s))) (kf s)) s).

Definition sys_virt2real : M kernel Z :=
  x <- curproc ;;
  p <- argptr 0 4 ;;
  match p with
  | Some p => put_globals (fun g => Globals p (g_addvirt g) (g_pages g) (g_pid g))
  | None => ret tt
  end ;;;
  g <- get_globals ;;
  b <- load_byte (g_addvirt g) ;;
  store_byte (g_addreal g) (u8 (s8 b - pgdir x)) ;;;
  ret (s32 (g_addreal g)).

Definition sys_num_pages : M kernel Z :=
  x <- curproc ;;
  put_globals (fun g => Globals (g_addreal g) (g_addvirt g) (sz x / 4096) (g_pid g)) ;;;
  g <- get_globals ;;
  ret (s32 (g_pages g)).

Definition sys_forkcow : M kernel Z :=
  r <- forkcow trapret forkret_addr ;;
  put_globals (fun g => Globals (g_addreal g) (g_addvirt g) (g_pages g) r) ;;;
  g <- get_globals ;;
  ret (g_pid g).

(** * Dispatch *)

(** The table [syscalls], entry 0 being empty. *)
Definition syscalls : list (option (M kernel Z)) :=
  [None; Some sys_fork; Some sys_exit; Some sys_wait; Some sys_pipe; Some sys_read; Some sys_kill;
   Some (sys_exec exec); Some sys_fstat; Some sys_chdir; Some sys_dup; Some sys_getpid; Some sys_sbrk;
   Some sys_sleep; Some sys_uptime; Some sys_open; Some sys_write; Some sys_mknod; Some sys_unlink;
   Some sys_link; Some sys_mkdir; Some sys_close; Some sys_date; Some sys_virt2real; Some sys_num_pages;
   Some sys_forkcow].

Definition set_eax (v : Z) : M kernel unit :=
  x <- curproc ;; lift (T := kst) (kstore (u32 (tf x + TF_eax)) (u32 v)).

Definition syscall : M kernel unit :=
  x <- curproc ;;
  eax <- lift (T := kst) (kload (u32 (tf x + TF_eax))) ;;
  let num := s32 eax in
  match (if (0 <? num) && (num <? Z.of_nat (length syscalls)) then mjoin (syscalls !! Z.to_nat num) else None) with
  | Some f => r <- f ;; set_eax r
  | None => set_eax (-1)
  end.

(** * Traps *)

Definition exit_if_killed (t : trapinfo) : M kernel unit :=
  c <- cur_proc ;;
  match c with
  | None => ret tt
  | Some _ =>
      x <- read_p c ;;
      when (killed x && (Z.land (t_cs t) 3 =? DPL_USER)) exit
  end.

Definition timer_tick : M kernel unit :=
  i <- lift (T := mach) cpuid ;;
  when (i =? 0)%nat
    (lock_ticks ;;;
     modify (fun s => set_kf (set_ticks (u32 (io_ticks (kf s) + 1)) (kf s)) s) ;;;
     wakeup ticks_chan ;;;
     unlock_ticks).

(** The [switch]; [lapiceoi] only touches the interrupt controller. *)
Definition handle (t : trapinfo) : M kernel unit :=
  let no := t_trapno t in
  if no =? T_PGFLT then lift (T := vst) (pagefault (t_err t)) else
  if no =? T_IRQ0 + IRQ_TIMER then timer_tick else
  if no =? T_IRQ0 + IRQ_IDE then ideintr else
  if no =? T_IRQ0 + IRQ_IDE + 1 then ret tt else
  if no =? T_IRQ0 + IRQ_KBD then kbdintr else
  if no =? T_IRQ0 + IRQ_COM1 then uartintr else
  if (no =? T_IRQ0 + 7) || (no =? T_IRQ0 + IRQ_SPURIOUS) then lift (T := mach) cpuid ;;; ret tt else
  c <- cur_proc ;;
  match c with
  | None => panic "trap"
  | Some _ =>
      if Z.land (t_cs t) 3 =? 0 then panic "trap"
      else c <- cur_proc ;; upd_p c (set_killed true)
  end.

Definition trap (t : trapinfo) : M kernel unit :=
  if t_trapno t =? T_SYSCALL then
    x <- curproc ;;
    when (killed x) exit ;;;
    c <- cur_proc ;;
    upd_p c (set_tf (t_tf t)) ;;;
    syscall ;;;
    x <- curproc ;;
    when (killed x) exit
  else
    handle t ;;;
    exit_if_killed t ;;;
    c <- cur_proc ;;
    match c with
    | None => ret tt
    | Some _ =>
        x <- read_p c ;;
        when (is_state RUNNING x && (t_trapno t =? T_IRQ0 + IRQ_TIMER)) yield
    end ;;;
    exit_if_killed t.
End sysproc.
