(* ===== verification/SyscallSpec.v ===== *)
(** Arguments of system calls: what the kernel accepts lies inside the
    process, with no wrap-around, and everything inside is accepted. *)

From S2P Require Import Prelude Params Mem Spinlock Klock Bytes Bio Log Fs Pipe Kalloc Vm PageTable Proc ProcTable Locks ProcSpec File Syscall.
Open Scope Z_scope.
Open Scope xv6_scope.

Section spec.
Context `{Layout}.
Context (me i : nat) (c : cpu) (x : proc) (s : kernel).

(** The processor runs process [i], whose entry is [x]; the saved interrupt
    flag is up to date, as any earlier [myproc()] has left it. *)
Record at_rest : Prop := {
  ar_cpu : cpu_ok me c (mach_of s);
  ar_proc : cproc c = Some i;
  ar_entry : tab s !! i = Some x;
  ar_flag : unpushed (eflags (mach_of s)) c = c
}.

(** The image of the process is mapped, and ends below the kernel. *)
Record image_ok : Prop := {
  im_sz : 0 <= sz x <= KERNBASE;
  im_mapped : forall va, 0 <= va < sz x -> is_Some (peek (kv s) (pgdir x) va)
}.

Context (R : at_rest) (Im : image_ok).

Lemma curproc_ok : curproc s = Ok x s.
Proof using R.
  destruct R as [Hok Hp Hx Hf]. unfold curproc.
  assert (E : cur_proc s = Ok (Some i) s).
  { unfold cur_proc.
    assert (Em : myproc (mach_of s) = Ok (Some i) (mach_of s)).
    { unfold myproc. rewrite (bind_ok _ _ _ _ _ (pushcli_ok _ _ _ Hok)).
      rewrite (bind_ok _ _ _ _ _ (read_cpu_ok _ _ _ (push_state_ok _ _ _ Hok) (has_cli _))).
      rewrite (bind_ok _ _ _ _ _ (popcli_push _ _ _ Hok)). unfold ret. f_equal.
      - unfold pushed. rewrite <- Hp. by destruct (ncli c =? 0).
      - unfold lock_cycle. rewrite Hf, list_insert_id by apply Hok. by destruct (mach_of s). }
    rewrite (lift_ok (S := kernel) (T := mach) _ s _ _ Em). f_equal. exact (put_view (S := kernel) (T := mach) s). }
  rewrite (bind_ok _ _ _ _ _ E). by apply read_p_ok.
Qed.

(** The byte at a user address. *)
Definition ubyte_at (va : Z) : Z := default 0 (peek (kv s) (pgdir x) va).

Lemma load_byte_ok va : 0 <= va < sz x -> load_byte va s = Ok (ubyte_at va) s.
Proof using R Im.
  intros Hva. unfold load_byte. rewrite (bind_ok _ _ _ _ _ curproc_ok). unfold ubyte_at.
  by destruct (im_mapped Im va Hva) as [b ->].
Qed.

Definition ubytes_at (va : Z) (n : nat) : bytes := (fun k => ubyte_at (va + Z.of_nat k)) <$> seq 0 n.

Lemma ubytes_at_S va n : ubytes_at va (S n) = ubyte_at va :: ubytes_at (va + 1) n.
Proof.
  unfold ubytes_at. cbn [seq fmap list_fmap]. f_equal; [f_equal; lia|].
  rewrite <- fmap_S_seq, <- list_fmap_compose. apply list_fmap_ext. intros _ k _. cbn. f_equal. lia.
Qed.

Lemma load_bytes_ok n va :
  0 <= va -> va + Z.of_nat n <= sz x -> load_bytes va n s = Ok (ubytes_at va n) s.
Proof using R Im.
  pose proof (im_sz Im) as Hsz. unfold KERNBASE in Hsz.
  revert va. induction n as [|n IH]; intros va H0 Hn; [done|]. cbn [load_bytes].
  rewrite (bind_ok _ _ _ _ _ (load_byte_ok va ltac:(lia))), ubytes_at_S.
  destruct n as [|n]; [done|]. rewrite u32_id by lia. by rewrite (bind_ok _ _ _ _ _ (IH (va + 1) ltac:(lia) ltac:(lia))).
Qed.

Lemma fetchint_ok addr :
  0 <= addr < 2 ^ 32 ->
  fetchint addr s = Ok (if decide (addr + 4 <= sz x) then Some (s32 (get32 (ubytes_at addr 4) 0)) else None) s.
Proof using R Im.
  intros Ha. pose proof (im_sz Im) as Hsz. unfold KERNBASE in Hsz.
  unfold fetchint. rewrite (bind_ok _ _ _ _ _ curproc_ok).
  destruct (Z.leb_spec (sz x) addr) as [Hle|Hlt]; cbn [orb].
  - by rewrite decide_False by lia.
  - rewrite u32_id by lia. destruct (Z.ltb_spec (sz x) (addr + 4)).
    + by rewrite decide_False by lia.
    + rewrite decide_True by lia. by rewrite (bind_ok _ _ _ _ _ (load_bytes_ok 4 addr ltac:(lia) ltac:(lia))).
Qed.

(** The stack pointer the process trapped with. *)
Definition user_esp : Z := load32 (v_mem (kv s)) (V2P (u32 (tf x + TF_esp))).
Definition arg_addr (n : Z) : Z := u32 (user_esp + 4 + 4 * n).
Definition arg_word (n : Z) : Z := get32 (ubytes_at (arg_addr n) 4) 0.

Context (Htf : kaddr_ok (u32 (tf x + TF_esp)) 4 = true).

Lemma argint_ok n :
  argint n s = Ok (if decide (arg_addr n + 4 <= sz x) then Some (s32 (arg_word n)) else None) s.
Proof using R Im Htf.
  unfold argint. rewrite (bind_ok _ _ _ _ _ curproc_ok).
  assert (E : lift (T := kst) (kload (u32 (tf x + TF_esp))) s = Ok user_esp s).
  { unfold lift, kload. rewrite Htf. cbn [lift_result]. f_equal. exact (put_view (S := kernel) (T := kst) s). }
  rewrite (bind_ok _ _ _ _ _ E). apply fetchint_ok, u32_range.
Qed.

(** The string scan, from [a] up to [sz]. *)
Lemma fetch_loop_ok fuel a :
  0 <= a <= sz x -> (Z.to_nat (sz x - a) < fuel)%nat ->
  exists r, fetch_loop a (sz x) fuel s = Ok r s /\
    match r with
    | Some cs => a + Z.of_nat (length cs) < sz x /\ cs = ubytes_at a (length cs) /\
                 Forall (fun b => b <> 0) cs /\ ubyte_at (a + Z.of_nat (length cs)) = 0
    | None => forall va, a <= va < sz x -> ubyte_at va <> 0
    end.
Proof using R Im.
  revert a. induction fuel as [|fuel IH]; intros a Ha Hf; [lia|]. cbn [fetch_loop].
  destruct (Z.ltb_spec a (sz x)) as [Hlt|Hge]; [|exists None; split; [done|]; intros; lia].
  rewrite (bind_ok _ _ _ _ _ (load_byte_ok a ltac:(lia))).
  destruct (Z.eqb_spec (ubyte_at a) 0) as [E|E].
  - exists (Some []). split; [done|]. cbn. rewrite Z.add_0_r. split; [lia|]. split; [done|]. split; [constructor|done].
  - destruct (IH (a + 1) ltac:(lia) ltac:(lia)) as (r & Er & Hr). rewrite (bind_ok _ _ _ _ _ Er).
    destruct r as [cs|]; (eexists; split; [reflexivity|]).
    + destruct Hr as (Hl & Hcs & Hnz & H0). cbn [length]. rewrite ubytes_at_S, Nat2Z.inj_succ.
      replace (a + Z.succ (Z.of_nat (length cs))) with (a + 1 + Z.of_nat (length cs)) by lia.
      split; [done|]. split; [by f_equal|]. split; [by constructor|done].
    + intros va Hva. destruct (decide (va = a)) as [->|]; [done|]. apply Hr. lia.
Qed.
End spec.
Arguments at_rest : clear implicits.
Arguments image_ok : clear implicits.

(** * A process to run the theorems on *)

(** One user page, at the physical address 0x3000, holding the word 5 at
    address 8 and a string at address 16; the kernel stack is at 0x4000. *)
Definition demo_mem : mem :=
  store32 (store32 (store32 (store32 (store32 ∅ 0x1000 (0x2000 + 7)) 0x2000 (0x3000 + 7)) (0x4000 + TF_esp) 4)
    (0x3000 + 8) 16) (0x3000 + 16) 0x6968.

Definition demo_user : proc :=
  Proc 4096 (P2V 0x1000) (P2V 0x4000) RUNNING 1 None (P2V 0x4000) 0 None false [] None [].

Definition demo_kernel (f : io) : kernel :=
  Kern (Vst (Kst (Mach [Cpu 0 0 0 (Some 0%nat)] 0 0 {[ptable_lock := free_lock]}) demo_mem true 0) ∅ [demo_user] 0 0 0 ∅)
    2 (Some 0%nat) f.

(** A file layer nobody uses. *)
Definition demo_io : io :=
  Io (Fs (Lst (Bst (Kctx ∅ [] [] 1) [] ∅ 0 []) 0 0 0 false 1 0 []) (Superblock 0 0 0 0 0 0 0) []) [] ∅ 0 (Globals 0 0 0 0).

Lemma demo_at_rest f : at_rest 0 0 (Cpu 0 0 0 (Some 0%nat)) demo_user (demo_kernel f).
Proof. split; [|reflexivity..]. by split; cbn. Qed.

Lemma demo_image f : image_ok demo_user (demo_kernel f).
Proof.
  split; [cbn; unfold KERNBASE; lia|]. intros va Hva. unfold peek, user_entry. cbn [sz demo_user] in Hva.
  rewrite Z.div_small by (unfold PGSIZE; lia).
  assert (Hin : in_user va = true) by (unfold in_user, KERNBASE; lia). rewrite Hin.
  assert (Hp : has (pte_val (v_mem (kv (demo_kernel f))) (pgdir demo_user) 0) PTE_P = true) by (vm_compute; reflexivity).
  rewrite Hp. by eexists.
Qed.

(** A pointer argument is accepted exactly when the word holding it and
    the whole block [a, a + size) lie inside the process: [argptr] has no
    wrap-around, for any argument number, pointer and size. *)
Theorem argptr_in_image me i c x (s : kernel) n size :
  at_rest me i c x s -> image_ok x s -> kaddr_ok (u32 (tf x + TF_esp)) 4 = true ->
  - 2 ^ 31 <= size < 2 ^ 31 ->
  exists r, argptr n size s = Ok r s /\
    forall a, r = Some a <->
      (arg_addr x s n + 4 <= sz x /\ a = arg_word x s n /\ 0 <= size /\ a < sz x /\ a + size <= sz x).
Proof.
  intros R Im Htf Hsize. unfold argptr. rewrite (bind_ok _ _ _ _ _ (curproc_ok me i c x s R)).
  rewrite (bind_ok _ _ _ _ _ (argint_ok me i c x s R Im Htf n)).
  pose proof (im_sz x s Im) as Hsz. unfold KERNBASE in Hsz.
  destruct (decide (arg_addr x s n + 4 <= sz x)) as [Hw|Hw]; [|exists None; split; [done|]; intros a; naive_solver].
  assert (Hword : u32 (s32 (arg_word x s n)) = arg_word x s n).
  { rewrite u32_s32. apply u32_id, get32_range. }
  rewrite Hword. assert (Hr : 0 <= arg_word x s n < 2 ^ 32) by apply get32_range.
  destruct (Z.ltb_spec size 0); cbn [orb]; [exists None; split; [done|]; intros a; split; [done|lia]|].
  destruct (Z.leb_spec (sz x) (arg_word x s n)); cbn [orb]; [exists None; split; [done|]; intros a; split; [done|lia]|].
  rewrite u32_id by lia.
  destruct (Z.ltb_spec (sz x) (arg_word x s n + size)); [exists None; split; [done|]; intros a; split; [done|lia]|].
  eexists. split; [reflexivity|]. intros a. split; [intros [= <-]; lia|]. intros (_ & -> & _). done.
Qed.

Lemma argptr_in_image_witness :
  exists r, argptr 0 3 (demo_kernel demo_io) = Ok r (demo_kernel demo_io) /\ r = Some 16.
Proof.
  destruct (argptr_in_image 0 0 (Cpu 0 0 0 (Some 0%nat)) demo_user (demo_kernel demo_io) 0 3) as (r & E & Hr).
  - apply demo_at_rest.
  - apply demo_image.
  - vm_compute. reflexivity.
  - lia.
  - exists r. split; [exact E|]. apply Hr.
    assert (E1 : arg_addr demo_user (demo_kernel demo_io) 0 = 8) by (vm_compute; reflexivity).
    assert (E2 : arg_word demo_user (demo_kernel demo_io) 0 = 16) by (vm_compute; reflexivity).
    rewrite E1, E2. cbn [sz demo_user]. lia.
Defined.

(** [fetchstr] accepts an address exactly when a zero byte follows it
    inside the process; the string it hands to the kernel is the bytes before
    the first one, and the scan never leaves the process. *)
Theorem fetchstr_terminated me i c x (s : kernel) addr :
  at_rest me i c x s -> image_ok x s -> 0 <= addr < 2 ^ 32 ->
  exists r, fetchstr addr s = Ok r s /\
    match r with
    | Some cs => addr + Z.of_nat (length cs) < sz x /\ cs = ubytes_at x s addr (length cs) /\
                 Forall (fun b => b <> 0) cs /\ ubyte_at x s (addr + Z.of_nat (length cs)) = 0
    | None => forall va, addr <= va < sz x -> ubyte_at x s va <> 0
    end.
Proof.
  intros R Im Ha. unfold fetchstr. rewrite (bind_ok _ _ _ _ _ (curproc_ok me i c x s R)).
  destruct (Z.leb_spec (sz x) addr); [exists None; split; [done|]; intros; lia|].
  apply (fetch_loop_ok me i c x s R Im); [lia|].  apply Nat.lt_succ_diag_r.
Qed.

Lemma fetchstr_terminated_witness :
  exists r, fetchstr 16 (demo_kernel demo_io) = Ok r (demo_kernel demo_io) /\
    match r with Some cs => 16 + Z.of_nat (length cs) < 4096 | None => False end.
Proof.
  destruct (fetchstr_terminated 0 0 (Cpu 0 0 0 (Some 0%nat)) demo_user (demo_kernel demo_io) 16) as (r & E & Hr).
  - apply demo_at_rest.
  - apply demo_image.
  - lia.
  - exists r. split; [exact E|]. destruct r as [cs|]; [apply Hr|].
    apply (Hr 18); [cbn; lia|vm_compute; reflexivity].
Defined.
