(* ===== verification/Tidy.v ===== *)
(** What kernel code leaves alone.

    [tidy E m]: between any two points at which [m] gives up the processor,
    and up to its end, [m] changes the state only along the preorder [E].  The
    memory, locking and file code of the kernel is tidy for the relation that
    keeps the life of every process ([same]): it may change what a process
    owns, never its state, pid, parent or channel. *)

From S2P Require Import Prelude Params Mem Spinlock Klock Bytes Bio Log Fs Pipe Kalloc Vm Proc ProcTable Locks ProcSpec File.
Open Scope Z_scope.
Open Scope xv6_scope.

(** * Frames *)

Section tidy.
Context {S : Type} (E : S -> S -> Prop) `{!PreOrder E}.

Fixpoint leaves {A} (s : S) (r : result S A) : Prop :=
  match r with
  | Ok _ s' => E s s'
  | Switch s' k => E s s' /\ forall s'', leaves s'' (k s'')
  | _ => True
  end.

Definition tidy {A} (m : M S A) : Prop := forall s, leaves s (m s).

Lemma leaves_trans {A} s s' (r : result S A) : E s s' -> leaves s' r -> leaves s r.
Proof.
  intros H. destruct r as [a s1| | | |s1 k]; simpl; try done.
  - intros. by transitivity s'.
  - intros [? ?]. split; [by transitivity s'|done].
Qed.

Lemma tidy_bind {A B} (m : M S A) (f : A -> M S B) : tidy m -> (forall a, tidy (f a)) -> tidy (bind m f).
Proof.
  intros Hm Hf s. unfold bind. specialize (Hm s). revert Hm. generalize (m s) as r. intros r. revert s.
  induction r as [a s'| | | |s' k IH]; simpl; intros s0 Hm; try done.
  - by apply (leaves_trans s0 s'), Hf.
  - destruct Hm as [H1 H2]. split; [done|]. intros s''. by apply IH.
Qed.

Lemma tidy_ret {A} (a : A) : tidy (ret a).
Proof. intros s. simpl. reflexivity. Qed.
Lemma tidy_panic {A} msg : tidy (panic (A := A) msg).
Proof. done. Qed.
Lemma tidy_fault {A} n : tidy (fault (A := A) n).
Proof. done. Qed.
Lemma tidy_nofuel {A} : tidy (nofuel (A := A)).
Proof. done. Qed.
Lemma tidy_gets {A} (f : S -> A) : tidy (gets f).
Proof. intros s. simpl. reflexivity. Qed.
Lemma tidy_switch : tidy switch.
Proof. intros s. simpl. split; [reflexivity|]. intros. reflexivity. Qed.
Lemma tidy_modify f : (forall s, E s (f s)) -> tidy (modify f).
Proof. intros H s. apply H. Qed.
Lemma tidy_when (b : bool) m : tidy m -> tidy (when b m).
Proof. destruct b; [done|]. intros _. apply tidy_ret. Qed.
End tidy.

Lemma tidy_ok {S A} (E : S -> S -> Prop) (m : M S A) s a s' : tidy E m -> m s = Ok a s' -> E s s'.
Proof. intros Hm Em. specialize (Hm s). by rewrite Em in Hm. Qed.

(** Code of a component, run inside a larger state. *)
Lemma tidy_lift {S T A} `{Lens S T} (E : S -> S -> Prop) (E' : T -> T -> Prop) (m : M T A) :
  (forall t s, E' (view s) t -> E s (put t s)) -> tidy E' m -> tidy E (lift m).
Proof.
  intros HE Hm s. unfold lift. specialize (Hm (view s)). revert Hm. generalize (m (view s)) as r.
  intros r. revert s. induction r as [a t| | | |t k IH]; simpl; intros s0 Hm; try done.
  - by apply HE.
  - destruct Hm as [H1 H2]. split; [by apply HE|]. intros s''. by apply IH.
Qed.

(** Any code of a component that does not own what [E] is about. *)
Lemma tidy_foreign {S T A} `{Lens S T} (E : S -> S -> Prop) (m : M T A) :
  (forall t s, E s (put t s)) -> tidy E (lift m).
Proof.
  intros HE. apply (tidy_lift E (fun _ _ => True)); [by intros|].
  intros t. generalize (m t) as r. intros r. revert t. induction r; simpl; try done.
Qed.

Create HintDb tidy.
#[export] Hint Resolve tidy_ret tidy_panic tidy_fault tidy_nofuel tidy_gets tidy_switch : tidy.

(** Goes through the code; what is left are the calls it does not know. *)
Ltac tidy :=
  repeat first
    [ progress (auto with tidy typeclass_instances)
    | apply tidy_bind; [try exact _| |intros]
    | apply tidy_when; [try exact _|]
    | apply tidy_modify; intros; by repeat split
    | match goal with
      | |- tidy _ (match ?x with _ => _ end) => destruct x
      | |- tidy _ (let x := _ in _) => cbv zeta
      end ].

(** Code that never gives up the processor. *)
Definition quiet {S A} (m : M S A) : Prop := forall s, match m s with Switch _ _ => False | _ => True end.

Lemma quiet_bind {S A B} (m : M S A) (f : A -> M S B) : quiet m -> (forall a, quiet (f a)) -> quiet (bind m f).
Proof. intros Hm Hf s. unfold bind. specialize (Hm s). destruct (m s) as [a s'| | | |]; try done. apply Hf. Qed.

Lemma quiet_when {S} (b : bool) (m : M S unit) : quiet m -> quiet (when b m).
Proof. by destruct b. Qed.

Lemma quiet_lift {S T A} `{Lens S T} (m : M T A) : quiet m -> quiet (lift m).
Proof. intros Hm s. unfold lift. specialize (Hm (view s)). by destruct (m (view s)). Qed.

Ltac quiet :=
  repeat first
    [ done
    | progress (auto with tidy)
    | apply quiet_bind; [|intros]
    | apply quiet_when
    | apply quiet_lift
    | match goal with
      | |- quiet (match ?x with _ => _ end) => destruct x
      end ].

(** * The executing processor *)

(** The process the executing processor runs. *)
Definition current (m : mach) : option nat :=
  find_apic (lapicid m) (cpus m) 0 ≫= fun k => cpus m !! k ≫= cproc.

Definition same_cpu (m m' : mach) : Prop :=
  lapicid m' = lapicid m /\ (fun c => (apicid c, cproc c)) <$> cpus m' = (fun c => (apicid c, cproc c)) <$> cpus m.

#[global] Instance same_cpu_preorder : PreOrder same_cpu.
Proof. split; [by split|]. intros a b c [] []. split; congruence. Qed.

Lemma same_cpu_current m m' : same_cpu m m' -> current m' = current m.
Proof.
  intros [El Ec]. unfold current. rewrite El.
  assert (Ef : forall id k, find_apic id (cpus m') k = find_apic id (cpus m) k).
  { intros id. revert Ec. generalize (cpus m) (cpus m'). intros l. induction l as [|c l IH]; intros [|c' l'] Ec k; try done.
    injection Ec as Ea _ Et. simpl. rewrite Ea. by rewrite (IH l' Et). }
  rewrite Ef. destruct (find_apic _ (cpus m) 0) as [k|]; [|done]. simpl.
  pose proof (f_equal (fun l => l !! k) Ec) as Ek. cbv beta in Ek. rewrite !list_lookup_fmap in Ek.
  destruct (cpus m !! k), (cpus m' !! k); simpl in *; congruence.
Qed.

Lemma tidy_mycpu : tidy same_cpu mycpu.
Proof. intros m. unfold mycpu. destruct (has _ _); [done|]. destruct (find_apic _ _ _); simpl; [reflexivity|done]. Qed.
Lemma tidy_read_cpu : tidy same_cpu read_cpu.
Proof. apply tidy_bind; [exact _|apply tidy_mycpu|]. intros k m. destruct (cpus m !! k); simpl; [reflexivity|done]. Qed.
Lemma tidy_update_cpu f :
  (forall c, apicid (f c) = apicid c /\ cproc (f c) = cproc c) -> tidy same_cpu (update_cpu f).
Proof.
  intros Hf. apply tidy_bind; [exact _|apply tidy_mycpu|]. intros k. apply tidy_modify. intros m. split; [done|]. simpl.
  apply list_eq. intros j. rewrite !list_lookup_fmap. destruct (decide (k = j)) as [<-|].
  - rewrite list_lookup_alter_eq. destruct (cpus m !! k) as [c|]; [|done]. simpl. by destruct (Hf c) as [-> ->].
  - by rewrite list_lookup_alter_ne.
Qed.
#[export] Hint Resolve tidy_mycpu tidy_read_cpu : tidy.
#[export] Hint Extern 1 (tidy same_cpu (update_cpu _)) => apply tidy_update_cpu; intros; split; reflexivity : tidy.

Lemma tidy_read_lock lk : tidy same_cpu (read_lock lk).
Proof. intros m. unfold read_lock. destruct (locks m !! lk); simpl; [reflexivity|done]. Qed.
Lemma tidy_write_lock lk l : tidy same_cpu (write_lock lk l).
Proof. intros m. simpl. by split. Qed.
#[export] Hint Resolve tidy_read_lock tidy_write_lock : tidy.

Lemma tidy_pushcli : tidy same_cpu pushcli.
Proof. unfold pushcli. tidy. Qed.
Lemma tidy_popcli : tidy same_cpu popcli.
Proof. unfold popcli. tidy. Qed.
#[export] Hint Resolve tidy_pushcli tidy_popcli : tidy.

Lemma tidy_holding lk : tidy same_cpu (holding lk).
Proof. unfold holding. tidy. Qed.
#[export] Hint Resolve tidy_holding : tidy.

Lemma tidy_spin lk n : tidy same_cpu (spin lk n).
Proof. induction n as [|n IH]; cbn [spin]; unfold xchg_locked; tidy. Qed.
#[export] Hint Resolve tidy_spin : tidy.

#[local] Transparent acquire release.
Lemma tidy_acquire lk : tidy same_cpu (acquire lk).
Proof. unfold acquire. tidy. Qed.
Lemma tidy_release lk : tidy same_cpu (release lk).
Proof. unfold release. tidy. Qed.
#[export] Hint Resolve tidy_acquire tidy_release : tidy.

Lemma quiet_mycpu : quiet mycpu.
Proof. intros m. unfold mycpu. destruct (has _ _); [done|]. by destruct (find_apic _ _ _). Qed.
#[export] Hint Resolve quiet_mycpu : tidy.
Lemma quiet_read_cpu : quiet read_cpu.
Proof. apply quiet_bind; [quiet|]. intros k m. by destruct (cpus m !! k). Qed.
Lemma quiet_update_cpu f : quiet (update_cpu f).
Proof. unfold update_cpu. quiet. Qed.
#[export] Hint Resolve quiet_read_cpu quiet_update_cpu : tidy.
Lemma quiet_pushcli : quiet pushcli.
Proof. unfold pushcli. quiet. Qed.
Lemma quiet_popcli : quiet popcli.
Proof. unfold popcli. quiet. Qed.
#[export] Hint Resolve quiet_pushcli quiet_popcli : tidy.

Lemma read_cpu_current m :
  match read_cpu m with
  | Ok c m' => cproc c = current m /\ m' = m
  | Switch _ _ => False
  | _ => True
  end.
Proof.
  unfold read_cpu, bind, mycpu, current. destruct (has _ _); [done|]. destruct (find_apic _ _ _) as [k|]; [|done]. simpl.
  by destruct (cpus m !! k).
Qed.

(** [myproc] returns the process its processor runs, and does not wait. *)
Lemma myproc_current m :
  match myproc m with
  | Ok c m' => c = current m /\ same_cpu m m'
  | Switch _ _ => False
  | _ => True
  end.
Proof.
  unfold myproc, bind. pose proof (tidy_pushcli m) as H1. pose proof (quiet_pushcli m) as Q1.
  destruct (pushcli m) as [[] m1| | | |]; try done. simpl.
  pose proof (read_cpu_current m1) as H2. destruct (read_cpu m1) as [c m2| | | |]; try done. destruct H2 as [Hc ->]. simpl.
  pose proof (tidy_popcli m1) as H3. pose proof (quiet_popcli m1) as Q3. destruct (popcli m1) as [[] m3| | | |]; try done.
  simpl in *. split; [|by transitivity m1]. by rewrite Hc, (same_cpu_current m m1).
Qed.

(** * The life of the processes *)

(** Memory management does not touch the process table. *)
Definition same_table (v v' : vst) : Prop := ptable v' = ptable v.

#[global] Instance same_table_preorder : PreOrder same_table.
Proof. split; [done|]. intros a b c H1 H2. unfold same_table in *. congruence. Qed.

Lemma tidy_kst {A} (m : M kst A) : tidy same_table (lift m).
Proof. by apply tidy_foreign. Qed.
Lemma tidy_vmach {A} (m : M mach A) : tidy same_table (lift m).
Proof. by apply tidy_foreign. Qed.
Lemma tidy_lcr3 v : tidy same_table (lcr3 v).
Proof. by intros s. Qed.
Lemma tidy_add_ref i d : tidy same_table (add_ref i d).
Proof. intros s. unfold add_ref. by destruct (refcount_ok i). Qed.
Lemma tidy_read_proc p : tidy same_table (read_proc p).
Proof. intros s. unfold read_proc. by destruct (p ≫= _). Qed.
#[export] Hint Resolve tidy_kst tidy_vmach tidy_lcr3 tidy_add_ref tidy_read_proc : tidy.

Section vm.
Context `{Layout}.

Lemma tidy_walkpgdir pgdir va alloc : tidy same_table (walkpgdir pgdir va alloc).
Proof. unfold walkpgdir. tidy. Qed.
#[local] Hint Resolve tidy_walkpgdir : tidy.

Lemma tidy_mappages pgdir va size pa perm : tidy same_table (mappages pgdir va size pa perm).
Proof.
  unfold mappages. generalize (S (Z.to_nat (u32 (PGROUNDDOWN (u32 (va + size - 1)) - PGROUNDDOWN va) / PGSIZE))) as n.
  generalize (PGROUNDDOWN va) as a. intros a n. revert a pa. induction n as [|n IH]; intros; cbn [mappages_loop]; tidy.
Qed.
#[local] Hint Resolve tidy_mappages : tidy.

Lemma tidy_deallocuvm pgdir oldsz newsz : tidy same_table (deallocuvm pgdir oldsz newsz).
Proof.
  assert (L : forall n a, tidy same_table (deallocuvm_loop pgdir a oldsz n)).
  { induction n as [|n IH]; intros; cbn [deallocuvm_loop]; tidy. }
  unfold deallocuvm. tidy.
Qed.
#[local] Hint Resolve tidy_deallocuvm : tidy.

Lemma tidy_freevm pgdir : tidy same_table (freevm pgdir).
Proof.
  assert (L : forall n i, tidy same_table (freevm_loop pgdir i n)).
  { induction n as [|n IH]; intros; cbn [freevm_loop]; tidy. }
  unfold freevm. tidy.
Qed.
#[local] Hint Resolve tidy_freevm : tidy.

Lemma tidy_setupkvm : tidy same_table setupkvm.
Proof.
  assert (L : forall ks pgdir, tidy same_table (setupkvm_loop pgdir ks)).
  { induction ks as [|k ks IH]; intros; cbn [setupkvm_loop]; tidy. }
  unfold setupkvm. tidy.
Qed.
#[local] Hint Resolve tidy_setupkvm : tidy.

Lemma tidy_switchuvm p : tidy same_table (switchuvm p).
Proof. unfold switchuvm. tidy. Qed.

Lemma quiet_read_proc p : quiet (read_proc p).
Proof. intros s. unfold read_proc. by destruct (p ≫= _). Qed.
#[local] Hint Resolve quiet_read_proc : tidy.

Lemma quiet_switchuvm p : quiet (switchuvm p).
Proof. unfold switchuvm. quiet. Qed.

Lemma tidy_switchkvm : tidy same_table switchkvm.
Proof. unfold switchkvm. tidy. Qed.

Lemma tidy_allocuvm pgdir oldsz newsz : tidy same_table (allocuvm pgdir oldsz newsz).
Proof.
  assert (L : forall n a, tidy same_table (allocuvm_loop pgdir a oldsz newsz n)).
  { induction n as [|n IH]; intros; cbn [allocuvm_loop]; tidy. }
  unfold allocuvm. tidy.
Qed.

Lemma tidy_inituvm pgdir init size : tidy same_table (inituvm pgdir init size).
Proof. unfold inituvm. tidy. Qed.

Lemma tidy_copyuvm pgdir size : tidy same_table (copyuvm pgdir size).
Proof.
  assert (L : forall n d i, tidy same_table (copyuvm_loop pgdir d i size n)).
  { induction n as [|n IH]; intros; cbn [copyuvm_loop]; tidy. }
  unfold copyuvm. tidy.
Qed.

Lemma tidy_copyuvmcow pgdir size : tidy same_table (copyuvmcow pgdir size).
Proof.
  assert (L : forall n d i, tidy same_table (copyuvmcow_loop pgdir d i size n)).
  { induction n as [|n IH]; intros; cbn [copyuvmcow_loop]; tidy. }
  unfold copyuvmcow. tidy.
Qed.
End vm.
#[export] Hint Resolve tidy_deallocuvm tidy_freevm tidy_switchuvm quiet_switchuvm tidy_switchkvm tidy_allocuvm tidy_setupkvm tidy_inituvm : tidy.

Section kern.
Context {F : Type}.
Implicit Types s : kern F.

(** The states, pids, parents and channels of all processes are kept. *)
Definition same s s' : Prop :=
  life <$> tab s' = life <$> tab s /\ nextpid s' = nextpid s /\ initproc s' = initproc s.

#[global] Instance same_preorder : PreOrder same.
Proof. split; [by repeat split|]. intros a b c (? & ? & ?) (? & ? & ?). repeat split; congruence. Qed.

(** ... and so is the process that runs on this processor. *)
Definition same_run s s' : Prop := same s s' /\ same_cpu (mach_of s) (mach_of s').

#[global] Instance same_run_preorder : PreOrder same_run.
Proof. split; [by repeat split|]. intros a b c [] []. split; etransitivity; eassumption. Qed.

Lemma tidy_mach {A} (m : M mach A) : tidy same (lift m).
Proof. by apply tidy_foreign. Qed.
Lemma tidy_mach_run {A} (m : M mach A) : tidy same_cpu m -> tidy same_run (lift m).
Proof. by apply tidy_lift. Qed.
Lemma tidy_kkst {A} (m : M kst A) : tidy same (lift m).
Proof. by apply tidy_foreign. Qed.
Lemma tidy_vst {A} (m : M vst A) : tidy same_table m -> tidy same (lift m).
Proof. apply tidy_lift. intros t s Ht. repeat split. unfold tab. cbn. by rewrite Ht. Qed.

Lemma tidy_read_p p : tidy same_run (read_p p).
Proof. intros s. unfold read_p, lift, read_proc. cbn. destruct (p ≫= _); [|done]. by repeat split. Qed.
Lemma tidy_read_p_same p : tidy same (read_p p).
Proof. intros s. unfold read_p, lift, read_proc. cbn. destruct (p ≫= _); [|done]. by repeat split. Qed.

Lemma life_alter f (t : list proc) j : (forall q, life (f q) = life q) -> life <$> alter f j t = life <$> t.
Proof.
  intros Hf. apply list_eq. intros k. rewrite !list_lookup_fmap. destruct (decide (j = k)) as [<-|].
  - rewrite list_lookup_alter_eq. destruct (t !! j); [|done]. cbn. by rewrite Hf.
  - by rewrite list_lookup_alter_ne.
Qed.

Lemma tidy_upd_p p f : (forall q, life (f q) = life q) -> tidy same (upd_p p f).
Proof.
  intros Hf s. unfold upd_p, lift, update_proc. destruct p as [j|]; [|done]. cbn. destruct (decide _); [|done].
  repeat split. by apply life_alter.
Qed.
End kern.
#[export] Hint Resolve tidy_mach tidy_mach_run tidy_kkst tidy_vst tidy_read_p tidy_read_p_same : tidy.
#[export] Hint Extern 1 (tidy same (upd_p _ _)) => apply tidy_upd_p; intros; reflexivity : tidy.

Lemma tidy_cur_proc {F} : tidy (same_run (F := F)) cur_proc.
Proof. apply tidy_mach_run. unfold myproc. tidy. Qed.
Lemma tidy_lock_ptable {F} : tidy (same_run (F := F)) lock_ptable.
Proof. apply tidy_mach_run, tidy_acquire. Qed.
Lemma tidy_unlock_ptable {F} : tidy (same_run (F := F)) unlock_ptable.
Proof. apply tidy_mach_run, tidy_release. Qed.

#[export] Hint Resolve tidy_cur_proc tidy_lock_ptable tidy_unlock_ptable : tidy.
#[export] Hint Extern 2 (tidy same cur_proc) => apply tidy_mach : tidy.
#[export] Hint Extern 2 (tidy same lock_ptable) => apply tidy_mach : tidy.
#[export] Hint Extern 2 (tidy same unlock_ptable) => apply tidy_mach : tidy.

(** * The file layer *)

Class TidyFiles (F : Type) `{FileOps F} := {
  tidy_filedup f : tidy same (f_filedup f);
  tidy_fileclose f : tidy same (f_fileclose f);
  tidy_idup d : tidy same (f_idup d);
  tidy_iput d : tidy same (f_iput d);
  tidy_begin_op : tidy same f_begin_op;
  tidy_end_op : tidy same f_end_op;
  tidy_namei_root : tidy same f_namei_root
}.
#[export] Hint Resolve tidy_filedup tidy_fileclose tidy_idup tidy_iput tidy_begin_op tidy_end_op tidy_namei_root : tidy.

Section file.
Context `{Layout} `{DevSw}.

Lemma tidy_fs {A} (m : M fs A) : tidy (same (F := io)) (lift m).
Proof. by apply tidy_foreign. Qed.
Lemma tidy_lst {A} (m : M lst A) : tidy (same (F := io)) (lift m).
Proof. by apply tidy_foreign. Qed.
Lemma tidy_ctx {A} (m : M kctx A) : tidy (same (F := io)) (lift m).
Proof. by apply tidy_foreign. Qed.
Lemma tidy_setf f i : tidy same (setf f i).
Proof. by intros s. Qed.
Lemma tidy_kacquire lk : tidy (same (F := io)) (Klock.acquire lk).
Proof. apply tidy_ctx. Qed.
Lemma tidy_krelease lk : tidy (same (F := io)) (Klock.release lk).
Proof. apply tidy_ctx. Qed.
#[local] Hint Resolve tidy_fs tidy_lst tidy_setf tidy_kacquire tidy_krelease : tidy.

Lemma tidy_on_pipe {A} p (m : M pst A) : tidy same (on_pipe p m).
Proof.
  unfold on_pipe. apply tidy_bind; [exact _|apply tidy_mach|]. intros [i|]; [|apply tidy_fault]. intros s.
  generalize (m (pipe_view i p s)) as r. intros r. revert s.
  induction r as [a t| | | |t k IH]; intros s; cbn [pipe_result leaves]; try done.
Qed.
#[local] Hint Resolve tidy_on_pipe : tidy.

Lemma tidy_ffield {A} (f : file -> A) i : tidy same (ffield f i).
Proof. apply tidy_gets. exact _. Qed.
#[local] Hint Resolve tidy_ffield : tidy.

#[global] Instance io_tidy : TidyFiles io.
Proof.
  split; intros; cbn [f_filedup f_fileclose f_idup f_iput f_begin_op f_end_op f_namei_root io_fileops]; try apply tidy_fs; try apply tidy_lst.
  - unfold filedup. tidy.
  - unfold fileclose, fpipeclose. tidy.
Qed.

Lemma tidy_fileread f n : tidy same (fileread f n).
Proof. unfold fileread. tidy. Qed.

Lemma tidy_filewrite f src n : tidy same (filewrite f src n).
Proof.
  assert (L : forall k i, tidy same (filewrite_loop f src i n k)).
  { induction k as [|k IH]; intros; cbn [filewrite_loop]; tidy. }
  unfold filewrite. tidy.
Qed.
End file.
