(* ===== verification/ProcSystem.v ===== *)
(** The processes and schedulers of [proc.c] running together.

    [ProcTable.v] is about the changes [proc.c] makes to the process table;
    here the functions of [Proc.v] are shown to make no others.  A function is
    a resumption: between two points at which it gives up the processor it
    [moves] the table along transitions of its own, and when it is resumed the
    others have done the same ([rely]).  [obeys] is this contract, proved for
    every function of [proc.c] that changes the table; at the end the contract
    of each is what the others rely on, so that the invariant holds in every
    interleaving of the code. *)

From S2P Require Import Prelude Params Mem Spinlock Klock Kalloc Vm Bio Log Fs Proc ProcTable ProcSpec File Demo Tidy.
Open Scope Z_scope.
Open Scope xv6_scope.

(** * What concurrent code relies on *)

(** Entry [j] is being built by [fork], with the parent field [par]. *)
Definition embryo (j : nat) (par : option nat) (t : list proc) : Prop :=
  exists p, t !! j = Some p /\ state p = EMBRYO /\ parent p = par.

(** Entry [z] is a zombie for [k] to reap. *)
Definition zombie (k z : nat) (t : list proc) : Prop :=
  exists p, t !! z = Some p /\ state p = ZOMBIE /\ parent p = Some k.

Lemma embryo_life j par (t t' : list proc) : life <$> t = life <$> t' -> embryo j par t -> embryo j par t'.
Proof.
  intros E (p & Hp & Hs & Hpa). destruct (life_entry t' t j p E Hp) as (q & Hq & ? & ? & ? & ?).
  exists q. split_and!; congruence.
Qed.

Lemma zombie_life k z (t t' : list proc) : life <$> t = life <$> t' -> zombie k z t -> zombie k z t'.
Proof.
  intros E (p & Hp & Hs & Hpa). destruct (life_entry t' t z p E Hp) as (q & Hq & ? & ? & ? & ?).
  exists q. split_and!; congruence.
Qed.

(** The entry an actor builds, if any, and the process table. *)
Abbreviation view_t := (option nat * (list proc * Z))%type.

Lemma alter_alter (f g : proc -> proc) j (t : list proc) : alter f j (alter g j t) = alter (fun p => f (g p)) j t.
Proof.
  apply list_eq. intros k. destruct (decide (j = k)) as [<-|].
  - rewrite !list_lookup_alter_eq. by destruct (t !! j).
  - by rewrite !list_lookup_alter_ne.
Qed.

Lemma alter_ext_at (f g : proc -> proc) j (t : list proc) p : t !! j = Some p -> f p = g p -> alter f j t = alter g j t.
Proof.
  intros Hj E. apply list_eq. intros k. destruct (decide (j = k)) as [<-|].
  - rewrite !list_lookup_alter_eq, Hj. cbn. by rewrite E.
  - by rewrite !list_lookup_alter_ne.
Qed.

Lemma find_zombie_none i t : find_zombie (Some i) t = None <-> forall z, ~ zombie i z t.
Proof.
  split.
  - intros E z (p & Hz & Hs & Hp). pose proof (find_proc_none _ _ z p E Hz) as Hno. cbv beta in Hno.
    unfold is_child, is_state in Hno. by rewrite Hs, Hp, !bool_decide_eq_true_2 in Hno.
  - intros Hno. destruct (find_zombie (Some i) t) as [z|] eqn:E; [|done].
    destruct (find_proc_some _ _ _ E) as (p & Hz & [Hc Hs]%andb_true_iff). destruct (Hno z).
    exists p. split; [done|]. split; [by apply is_state_true|]. by apply bool_decide_eq_true in Hc.
Qed.

(** Waking does not affect embryos and zombies. *)
Lemma wake_still ch p : state p = EMBRYO \/ state p = ZOMBIE -> wake ch p = p.
Proof. intros Hs. destruct (wake_cases ch p) as [(E & _ & _)|[_ ->]]; [destruct Hs; congruence|done]. Qed.

(** [exit] keeps those that are not its own. *)
Lemma exit_still i init ch t j q p :
  i <> init -> t !! i = Some p -> state p = RUNNING ->
  t !! j = Some q -> state q = EMBRYO \/ state q = ZOMBIE -> parent q <> Some i ->
  alter (set_state ZOMBIE) i (reparent (Some i) (Some init) 0 NPROC (wakeup1 ch t)) !! j = Some q.
Proof.
  intros Hin Hi Hp Hj Hq Hne. assert (i <> j) by (intros ->; simplify_eq; destruct Hq; congruence).
  rewrite list_lookup_alter_ne, reparent_lookup by congruence. unfold wakeup1 at 2. rewrite list_lookup_fmap, Hj.
  cbn [fmap option_fmap option_map]. rewrite (wake_still ch q Hq), decide_False by (intros [_ ?]; done).
  match goal with |- context [existsb ?f ?l] => destruct (existsb f l) end; [|done]. by rewrite wake_still.
Qed.

Section moves.
Context (init : nat) (me : option nat).

(** The transitions of one actor, the process [me] or (for [None]) a
    scheduler: entries that others build and zombies that others are to reap
    stay what they are. *)
Record moves (b b' : view_t) : Prop := {
  mv_reach : treach init b.2 b'.2;
  mv_embryo : forall j par, b.1 <> Some j -> (forall c, me = Some c -> par <> Some c) ->
    embryo j par b.2.1 -> b'.1 <> Some j /\ embryo j par b'.2.1;
  mv_zombie : forall k z, me <> Some k -> zombie k z b.2.1 -> zombie k z b'.2.1
}.

Lemma treach_trans x y z : treach init x y -> treach init y z -> treach init x z.
Proof. intros Hxy Hyz. induction Hyz as [|y z w Hyz IH Hs]; [done|]. eapply tr_step; [by apply IH|exact Hs]. Qed.

#[global] Instance moves_preorder : PreOrder moves.
Proof.
  split.
  - intros b. split; [apply tr_refl|done|done].
  - intros a b c H1 H2. split.
    + eapply treach_trans; [apply H1|apply H2].
    + intros j par Hj Hp He. destruct (mv_embryo _ _ H1 j par Hj Hp He) as [? ?]. by apply (mv_embryo _ _ H2).
    + intros k z Hk Hz. by apply (mv_zombie _ _ H2), (mv_zombie _ _ H1).
Qed.

(** A transition that replaces one entry. *)
Lemma moves_alter o o' t n n' j f p :
  tstep init (t, n) (alter f j t, n') -> t !! j = Some p ->
  (state p = EMBRYO -> o = Some j) ->
  (forall k, state p = ZOMBIE -> parent p = Some k -> me = Some k) ->
  o' = o \/ o' = None \/ (o' = Some j /\ state p <> EMBRYO) ->
  moves (o, (t, n)) (o', (alter f j t, n')).
Proof.
  intros Ht Hj He Hz Ho. split; cbn [fst snd].
  - eapply tr_step; [apply tr_refl|done].
  - intros j' par Hne _ (q & Hq & Hs & Hp). assert (j' <> j) by (intros ->; simplify_eq; auto). split.
    + destruct Ho as [->|[->|[-> _]]]; congruence.
    + exists q. by rewrite list_lookup_alter_ne.
  - intros k z Hne (q & Hq & Hs & Hp). assert (z <> j) by (intros ->; simplify_eq; eauto).
    exists q. by rewrite list_lookup_alter_ne.
Qed.

(** A transition that keeps embryos and zombies, other than those [me] gives away. *)
Lemma moves_keep o t t' n :
  tstep init (t, n) (t', n) ->
  (forall j p, t !! j = Some p -> state p = EMBRYO \/ state p = ZOMBIE -> (parent p = None \/ parent p <> me) ->
     exists q, t' !! j = Some q /\ state q = state p /\ parent q = parent p) ->
  moves (o, (t, n)) (o, (t', n)).
Proof.
  intros Ht Hk. split; cbn [fst snd].
  - eapply tr_step; [apply tr_refl|done].
  - intros j par Hne Hp (p & Hj & Hs & Hpp). split; [done|].
    destruct (Hk j p Hj) as (q & Hq & E1 & E2); [by left| |exists q; split_and!; congruence].
    destruct (parent p) as [c|]; [right|by left]. intros E. by apply (Hp c).
  - intros k z Hne (p & Hj & Hs & Hpp).
    destruct (Hk z p Hj) as (q & Hq & E1 & E2); [by right|right; congruence|exists q; split_and!; congruence].
Qed.

Lemma moves_life o (t t' : list proc) n : life <$> t' = life <$> t -> moves (o, (t, n)) (o, (t', n)).
Proof.
  intros E. apply moves_keep; [by apply t_fields|]. intros j p Hj _ _. symmetry in E.
  destruct (life_entry t' t j p E Hj) as (q & Hq & ? & _ & ? & _). by exists q.
Qed.

Lemma moves_wakeup o t n ch : moves (o, (t, n)) (o, (wakeup1 ch t, n)).
Proof.
  apply moves_keep; [apply t_wakeup|]. intros j p Hj Hs _. exists p. unfold wakeup1.
  rewrite list_lookup_fmap, Hj. cbn [fmap option_fmap option_map]. by rewrite wake_still.
Qed.
End moves.

(** * The contract *)

Section obeys.
Context {F : Type} (init : nat) (me : option nat).
Implicit Types s : kern F.
#[local] Abbreviation moves := (moves init me).

Definition tabs s : list proc * Z := (tab s, nextpid s).

(** A state in which the actor may run. *)
Record fit s : Prop := {
  fit_inv : inv init (tab s) (nextpid s);
  fit_pos : 0 < nextpid s;
  fit_init : initproc s = Some init;
  fit_run : forall i, me = Some i -> exists p, tab s !! i = Some p /\ state p = RUNNING
}.

Definition runs s : Prop := forall i, me = Some i -> current (mach_of s) = Some i.

(** [nextpid++] does not overflow. *)
Definition few s : Prop := nextpid s < 2 ^ 31 - 1.

(** The entry the actor builds is its own. *)
Definition owned (o : option nat) (t : list proc) : Prop :=
  forall j, o = Some j -> exists par, embryo j par t /\ (par = None \/ par = me).

(** What the others may have done when an actor that gave up the processor in
    [s] is resumed in [s']. *)
Record rely (o : option nat) s s' : Prop := {
  re_fit : fit s';
  re_few : few s';
  re_runs : runs s';
  re_embryo : forall j par, o = Some j -> embryo j par (tab s) -> embryo j par (tab s');
  re_zombie : forall k z, me = Some k -> zombie k z (tab s) -> zombie k z (tab s')
}.

Definition guard (o : option nat) s : Prop := initproc s = Some init /\ owned o (tab s).

(** [r], run from the view [b], only moves the table, up to every point at
    which it gives up the processor, and ends with [Q]. *)
Fixpoint obeys {A} (r : result (kern F) A) (b : view_t) (Q : view_t -> A -> kern F -> Prop) : Prop :=
  match r with
  | Ok a s => Q b a s
  | Switch s k => exists o, moves b (o, tabs s) /\ guard o s /\
      forall s', rely o s s' -> obeys (k s') (o, tabs s') Q
  | _ => True
  end.

Lemma obeys_bind {A B} (m : M (kern F) A) (f : A -> M (kern F) B) s b Q :
  obeys (m s) b (fun b' a s' => obeys (f a s') b' Q) -> obeys (bind m f s) b Q.
Proof.
  unfold bind. generalize (m s) as r. intros r. revert b.
  induction r as [a s'| | | |s' k IH]; intros b; simpl; try done.
  intros (o & Hm & Hg & Hk). exists o. split_and!; [done..|]. intros s'' Hr. by apply IH, Hk.
Qed.

Lemma obeys_mono {A} (r : result (kern F) A) b (Q Q' : view_t -> A -> kern F -> Prop) :
  (forall b a s, Q b a s -> Q' b a s) -> obeys r b Q -> obeys r b Q'.
Proof.
  intros HQ. revert b. induction r as [a s'| | | |s' k IH]; intros b; simpl; try done; [auto|].
  intros (o & Hm & Hg & Hk). exists o. split_and!; [done..|]. intros s'' Hr. by apply IH, Hk.
Qed.

Lemma moves_same b o s s' : same s s' -> moves b (o, tabs s) -> moves b (o, tabs s').
Proof.
  intros (El & En & _) Hm. transitivity (o, tabs s); [done|]. unfold tabs. rewrite En. by apply moves_life.
Qed.

Lemma embryo_same j par s s' : same s s' -> embryo j par (tab s) -> embryo j par (tab s').
Proof. intros (E & _). by apply embryo_life. Qed.
Lemma zombie_same k z s s' : same s s' -> zombie k z (tab s) -> zombie k z (tab s').
Proof. intros (E & _). by apply zombie_life. Qed.

Lemma fit_same s s' : same s s' -> fit s -> fit s'.
Proof.
  intros (El & En & Ei) [I Hp Hi Hr]. split; [rewrite En; by apply (life_inv init (tab s))|lia|congruence|].
  intros i E. destruct (Hr i E) as (p & Hpi & Hs). symmetry in El.
  destruct (life_entry _ _ i p El Hpi) as (q & Hq & Es & _). exists q. split; congruence.
Qed.

(** Facts that tidy code and the others keep. *)
Definition stable (E : kern F -> kern F -> Prop) (o : option nat) (P : kern F -> Prop) : Prop :=
  (forall s s', E s s' -> P s -> P s') /\ (forall s s', P s -> rely o s s' -> P s') /\ (forall s, P s -> guard o s).

(** Running tidy code. *)
Lemma obeys_tidy {A} E o P (m : M (kern F) A) s b (Q : view_t -> A -> kern F -> Prop) :
  (forall s s', E s s' -> same s s') -> stable E o P -> tidy E m ->
  P s -> moves b (o, tabs s) ->
  (forall b' a s', P s' -> moves b' (o, tabs s') -> Q b' a s') ->
  obeys (m s) b Q.
Proof.
  intros HE (HP1 & HP2 & HP3) Ht Hs Hm HQ. specialize (Ht s). revert Ht.
  generalize (m s) as r. intros r. revert s b Hs Hm.
  induction r as [a s'| | | |s' k IH]; intros s b Hs Hm Ht; simpl in *; try done.
  - apply HQ; [by apply (HP1 s)|]. apply (moves_same b o s); [by apply HE|done].
  - destruct Ht as [H1 H2]. assert (Hs' : P s') by by apply (HP1 s). exists o.
    split_and!; [apply (moves_same b o s); [by apply HE|done]|by apply HP3..|].
    intros s'' Hr. apply (IH s'' s''); [by apply (HP2 s')|reflexivity|apply H2].
Qed.

(** ** Facts that are stable *)

Lemma guard_none s : initproc s = Some init -> guard None s.
Proof. intros E. split; [done|]. intros j [=]. Qed.

Lemma stable_init : stable same None (fun s => initproc s = Some init).
Proof.
  split_and!; [by intros s s' (_ & _ & ->)|intros s s' _ Hr; apply (fit_init _ (re_fit _ _ _ Hr))|apply guard_none].
Qed.

Lemma stable_fit : stable same None fit.
Proof.
  split_and!; [apply fit_same|intros s s' _; apply re_fit|intros s Hf; apply guard_none, (fit_init _ Hf)].
Qed.

Lemma runs_same s s' : same_run s s' -> runs s -> runs s'.
Proof. intros [_ E] Hr i Hi. rewrite (same_cpu_current _ _ E). by apply Hr. Qed.

Lemma stable_run : stable same_run None (fun s => fit s /\ runs s).
Proof.
  split_and!.
  - intros s s' E [? ?]. split; [apply (fit_same s); [apply E|done]|by apply (runs_same s)].
  - intros s s' _ Hr. split; apply Hr.
  - intros s [? ?]. by apply stable_fit.
Qed.

Lemma stable_start : stable same_run None (fun s => fit s /\ few s /\ runs s).
Proof.
  split_and!.
  - intros s s' E (? & Hw & ?). split_and!; [apply (fit_same s); [apply E|done]| |by apply (runs_same s)].
    destruct E as [(_ & E & _) _]. unfold few in *. by rewrite E.
  - intros s s' _ Hr. split_and!; apply Hr.
  - intros s (? & ? & ?). by apply stable_fit.
Qed.

Lemma stable_few : stable same None (fun s => fit s /\ few s).
Proof.
  split_and!.
  - intros s s' E [? Hf]. split; [by apply (fit_same s)|]. destruct E as (_ & E & _). unfold few in *. by rewrite E.
  - intros s s' _ Hr. split; apply Hr.
  - intros s [? ?]. by apply stable_fit.
Qed.

Lemma stable_embryo j par :
  par = None \/ par = me -> stable same (Some j) (fun s => fit s /\ embryo j par (tab s)).
Proof.
  intros Hpar. split_and!.
  - intros s s' E [? ?]. split; [by apply (fit_same s)|by apply (embryo_same _ _ s)].
  - intros s s' [_ He] Hr. split; [apply Hr|by apply (re_embryo _ _ _ Hr)].
  - intros s [Hf He]. split; [apply Hf|]. intros j' [= <-]. by exists par.
Qed.

Lemma stable_zombie k z :
  me = Some k -> stable same None (fun s => fit s /\ zombie k z (tab s)).
Proof.
  intros Hk. split_and!.
  - intros s s' E [? ?]. split; [by apply (fit_same s)|by apply (zombie_same _ _ s)].
  - intros s s' [_ He] Hr. split; [apply Hr|by apply (re_zombie _ _ _ Hr)].
  - intros s [Hf He]. by apply stable_fit.
Qed.

(** ** Rules for the primitives of [Proc.v] *)

Lemma obeys_quiet {A B} E o (m : M (kern F) A) (f : A -> M (kern F) B) s b Q :
  (forall s s', E s s' -> same s s') -> tidy E m -> quiet m -> moves b (o, tabs s) ->
  (forall a s', E s s' -> moves b (o, tabs s') -> obeys (f a s') b Q) ->
  obeys (bind m f s) b Q.
Proof.
  intros HE Ht Hq Hm HQ. unfold bind. specialize (Ht s). specialize (Hq s).
  destruct (m s) as [a s'| | | |]; simpl in *; try done. apply HQ; [done|]. apply (moves_same b o s); [by apply HE|done].
Qed.

Lemma obeys_cur {B} i o (f : option nat -> M (kern F) B) s b Q :
  me = Some i -> runs s -> moves b (o, tabs s) ->
  (forall s', same_run s s' -> moves b (o, tabs s') -> obeys (f (Some i) s') b Q) ->
  obeys (bind cur_proc f s) b Q.
Proof.
  intros Hi Hr Hm HQ. unfold bind, cur_proc, lift. pose proof (myproc_current (mach_of s)) as Hc.
  rewrite (Hr i Hi) in Hc. change (view s) with (mach_of s).
  destruct (myproc (mach_of s)) as [c m'| | | |]; try done. destruct Hc as [-> Hc].
  apply HQ; [by split|]. by apply (moves_same b o s).
Qed.

Lemma obeys_read {B} p (f : proc -> M (kern F) B) s b Q :
  (forall j q, p = Some j -> tab s !! j = Some q -> obeys (f q s) b Q) -> obeys (bind (read_p p) f s) b Q.
Proof.
  intros HQ. unfold bind. destruct p as [j|]; [|done]. destruct (tab s !! j) as [q|] eqn:E.
  - rewrite (read_p_ok s j q E). by apply (HQ j).
  - unfold read_p, lift, read_proc. cbn. fold (tab s). by rewrite E.
Qed.

Lemma obeys_upd {B} j g (f : unit -> M (kern F) B) s b Q :
  (forall p, tab s !! j = Some p -> obeys (f tt (with_tab (alter g j (tab s)) s)) b Q) ->
  obeys (bind (upd_p (Some j) g) f s) b Q.
Proof.
  intros HQ. unfold bind, upd_p, lift, update_proc. cbn. fold (tab s). destruct (decide _) as [Hlt|]; [|done].
  destruct (lookup_lt_is_Some_2 (tab s) j Hlt) as [p Hp]. apply (HQ p Hp).
Qed.

Lemma obeys_gets {A B} (g : kern F -> A) (f : A -> M (kern F) B) s b Q :
  obeys (f (g s) s) b Q -> obeys (bind (gets g) f s) b Q.
Proof. done. Qed.

Lemma obeys_table {B} g (f : unit -> M (kern F) B) s b Q :
  obeys (f tt (with_tab (g (tab s)) s)) b Q -> obeys (bind (upd_ptable g) f s) b Q.
Proof. done. Qed.

Lemma obeys_modify {B} g (f : unit -> M (kern F) B) s b Q :
  obeys (f tt (g s)) b Q -> obeys (bind (modify g) f s) b Q.
Proof. done. Qed.

Lemma obeys_switch {B} o (f : unit -> M (kern F) B) s b Q :
  moves b (o, tabs s) -> guard o s ->
  (forall s', rely o s s' -> obeys (f tt s') (o, tabs s') Q) -> obeys (bind switch f s) b Q.
Proof. intros Hm Hg Hf. simpl. by exists o. Qed.

Lemma run_same (s s' : kern F) : same_run s s' -> same s s'.
Proof. by intros []. Qed.

End obeys.
Arguments stable_init {F init me}.
Arguments stable_fit {F init me}.
Arguments stable_run {F init me}.
Arguments stable_start {F init me}.
Arguments stable_few {F init me}.
Arguments stable_embryo {F init me}.
Arguments stable_zombie {F init me}.

(** The next call is tidy; the facts of [St] survive it. *)
Tactic Notation "frame" uconstr(St) :=
  try apply obeys_bind; eapply obeys_tidy;
    [|refine St| |by cbv beta; split_and?|first [eassumption|reflexivity]|];
    [first [done | exact run_same]|solve [tidy]|].

#[local] Opaque reparent NPROC NOFILE WAITS.

Section ops.
Context `{Layout} {F : Type} `{FileOps F} `{!TidyFiles F}.
Context (trapret forkret_addr : Z) (init : nat) (me : option nat).
Implicit Types s : kern F.
#[local] Abbreviation moves := (moves init me).
#[local] Abbreviation obeys := (obeys init me).
#[local] Abbreviation fit := (fit init me).
#[local] Abbreviation runs := (runs me).

(** [sched] comes back to a running process. *)
Lemma obeys_sched {B} (f : unit -> M (kern F) B) s b Q :
  initproc s = Some init -> moves b (None, tabs s) ->
  (forall b' s', fit s' -> few s' -> runs s' -> moves b' (None, tabs s') -> obeys (f tt s') b' Q) ->
  obeys (bind sched f s) b Q.
Proof.
  intros Hi Hm HQ. apply obeys_bind. unfold sched.
  frame stable_init. intros b1 p s1 Hi1 Hm1.
  frame stable_init. intros b2 [] s2 Hi2 Hm2; cbn [negb]; [|done].
  frame stable_init. intros b3 c s3 Hi3 Hm3. destruct (ncli c =? 1); cbn [negb]; [|done].
  apply obeys_read. intros j q -> Hq. destruct (is_state RUNNING q); [done|].
  frame stable_init. intros b4 e s4 Hi4 Hm4. destruct (has e FL_IF); [done|].
  frame stable_init. intros b5 c' s5 Hi5 Hm5.
  apply (obeys_switch init me None); [done|by apply guard_none|]. intros s' [Hf Hw Hr _ _].
  frame stable_start. intros b6 [] s6 (? & ? & ?) Hm6. by apply HQ.
Qed.

(** A transition in which the actor goes on running. *)
Lemma fit_tab s t' n' :
  fit s -> tstep init (tabs s) (t', n') ->
  (forall i p, me = Some i -> tab s !! i = Some p -> state p = RUNNING -> exists p', t' !! i = Some p' /\ state p' = RUNNING) ->
  fit (set_nextpid n' (with_tab t' s)).
Proof.
  intros [I Hp Hi Hr] Ht Hk. destruct (tstep_inv init _ _ Ht I Hp) as [I' Hp']. split; [done..|].
  intros i E. destruct (Hr i E) as (p & Hpi & Hs). by apply (Hk i p).
Qed.

Lemma fit_alter s f j p :
  fit s -> tstep init (tabs s) (alter f j (tab s), nextpid s) -> tab s !! j = Some p ->
  state p <> RUNNING \/ state (f p) = RUNNING -> fit (with_tab (alter f j (tab s)) s).
Proof.
  intros Hf Ht Hj Hs. pose proof (fit_tab s _ _ Hf Ht) as H'. apply H'. clear H'. intros i q _ Hi Hq.
  destruct (decide (j = i)) as [<-|].
  - exists (f p). rewrite list_lookup_alter_eq, Hj. simplify_eq. by destruct Hs.
  - exists q. by rewrite list_lookup_alter_ne.
Qed.

(** The two ways an embryo ends. *)
Lemma moves_embryo b s j par f :
  fit s -> embryo j par (tab s) -> tstep init (tabs s) (alter f j (tab s), nextpid s) -> moves b (Some j, tabs s) ->
  moves b (None, tabs (with_tab (alter f j (tab s)) s)) /\ fit (with_tab (alter f j (tab s)) s).
Proof.
  intros Hf (p & Hj & Hs & Hp) Ht Hm. split.
  - transitivity (Some j, tabs s); [done|]. apply (moves_alter init me _ _ _ _ _ j f p); [done..| |].
    + congruence.
    + by right; left.
  - apply (fit_alter s f j p); [done..|]. left. congruence.
Qed.

Lemma moves_unalloc b s j :
  fit s -> embryo j None (tab s) -> moves b (Some j, tabs s) ->
  let s' := with_tab (alter (set_state UNUSED) j (tab s)) s in moves b (None, tabs s') /\ fit s'.
Proof.
  intros Hf He Hm. apply (moves_embryo b s j None); [done..| |done].
  destruct He as (p & Hj & Hs & Hp). by apply (t_unalloc init _ _ j p).
Qed.

Lemma obeys_allocproc {B} (f : option nat -> M (kern F) B) s b Q :
  fit s -> few s -> moves b (None, tabs s) ->
  (forall b' s', fit s' -> moves b' (None, tabs s') -> obeys (f None s') b' Q) ->
  (forall b' s' j, fit s' -> embryo j None (tab s') -> moves b' (Some j, tabs s') -> obeys (f (Some j) s') b' Q) ->
  obeys (bind (allocproc trapret forkret_addr) f s) b Q.
Proof.
  intros Hf Hw Hm H1 H2. apply obeys_bind. unfold allocproc.
  frame stable_few. intros b1 [] s1 [Hf1 Hw1] Hm1.
  apply obeys_gets. fold (tab s1).
  destruct (find_proc (is_state UNUSED) (tab s1)) as [j|] eqn:E.
  2:{ frame stable_fit. intros b2 [] s2 Hf2 Hm2. by apply H1. }
  destruct (find_proc_some _ _ _ E) as (p & Hj & Hu%is_state_true).
  apply obeys_upd. intros p0 _.
  apply obeys_gets.
  apply obeys_upd. intros p1 _.
  apply obeys_modify.
  set (s2 := set_nextpid _ _).
  set (t2 := alter (fun p => set_pid (nextpid s1) (set_state EMBRYO p)) j (tab s1)).
  assert (Hn : s32 (nextpid s1 + 1) = nextpid s1 + 1).
  { pose proof (fit_pos _ _ _ Hf1). unfold few in Hw1. rewrite s32_id by lia. done. }
  assert (Hs2 : s2 = set_nextpid (nextpid s1 + 1) (with_tab t2 s1)).
  { unfold s2, t2, with_tab. cbn. rewrite Hn. unfold tab. cbn. by rewrite alter_alter. }
  assert (Ht : tstep init (tabs s1) (t2, nextpid s1 + 1)) by by apply t_alloc.
  assert (Hf2 : fit s2).
  { rewrite Hs2. apply (fit_tab s1 t2 _ Hf1 Ht). intros i q _ Hi Hq. exists q. split; [|done]. unfold t2.
    rewrite list_lookup_alter_ne; [done|]. intros ->. congruence. }
  assert (He2 : embryo j None (tab s2)).
  { rewrite Hs2. eexists. cbn. unfold t2. rewrite list_lookup_alter_eq, Hj. split; [done|]. split; [done|]. cbn.
    by apply (i_unused _ _ _ (fit_inv _ _ _ Hf1) j p). }
  assert (Hm2 : moves b1 (Some j, tabs s2)).
  { transitivity (None : option nat, tabs s1); [done|]. rewrite Hs2. apply (moves_alter init me _ _ _ _ _ j _ p); [done..| | |].
    - congruence.
    - congruence.
    - right. right. split; congruence. }
  clearbody s2. clear - TidyFiles0 Hf2 He2 Hm2 H1 H2.
  pose proof (stable_embryo (F := F) (init := init) (me := me) j None (or_introl eq_refl)) as St.
  frame St. intros b3 [] s3 [Hf3 He3] Hm3.
  frame St. intros b4 ks s4 [Hf4 He4] Hm4.
  frame St. intros b5 [] s5 [Hf5 He5] Hm5.
  destruct (ks =? 0).
  - apply obeys_upd. intros q _. destruct (moves_unalloc b5 s5 j) as [Hm6 Hf6]; [done..|]. by apply H1.
  - cbv zeta. do 5 (frame St; intros ? [] ? [? ?] ?). by apply H2.
Qed.

(** A call that returns has moved the table and built every entry it began. *)
Definition ended {A} (b : view_t) (_ : A) s : Prop := initproc s = Some init /\ moves b (None, tabs s).

Lemma fit_ended {A} b (a : A) s : fit s -> moves b (None, tabs s) -> ended b a s.
Proof. intros Hf Hm. split; [apply Hf|done]. Qed.


(** ** [fork] *)

Lemma tidy_dup_files c np n : forall k, tidy (same (F := F)) (dup_files c np k n).
Proof. induction n as [|n IH]; intros k; cbn [dup_files]; tidy. Qed.
#[local] Hint Resolve tidy_dup_files : tidy.

Lemma obeys_make_runnable {B} j par (f : unit -> M (kern F) B) s b Q :
  par <> None -> par = me -> fit s -> embryo j par (tab s) -> moves b (Some j, tabs s) ->
  (forall b' s', fit s' -> moves b' (None, tabs s') -> obeys (f tt s') b' Q) ->
  obeys (bind (make_runnable (Some j)) f s) b Q.
Proof.
  intros Hp Hpar Hf He Hm HQ. apply obeys_bind. unfold make_runnable.
  pose proof (stable_embryo (F := F) (init := init) j par (or_intror Hpar)) as St.
  frame St. intros b1 [] s1 [Hf1 He1] Hm1. apply obeys_upd. intros p Hj.
  destruct (moves_embryo b1 s1 j par (set_state RUNNABLE)) as [Hm2 Hf2]; [done..| |done|].
  { destruct He1 as (q & Hq & Hs & Hqp). apply (t_publish init _ _ j q); congruence. }
  frame stable_fit. intros b3 [] s3 Hf3 Hm3. by apply HQ.
Qed.

(** [np->parent = curproc] *)
Lemma moves_adopt b s j i :
  me = Some i -> fit s -> embryo j None (tab s) -> moves b (Some j, tabs s) ->
  let s' := with_tab (alter (set_parent me) j (tab s)) s in
  moves b (Some j, tabs s') /\ fit s' /\ embryo j me (tab s').
Proof.
  intros Hi Hf (p & Hj & Hs & Hp) Hm.
  assert (Ht : tstep init (tabs s) (alter (set_parent me) j (tab s), nextpid s)).
  { destruct (fit_run _ _ _ Hf i Hi) as (q & Hq & Hqs). rewrite Hi. by apply (t_adopt init _ _ j p i q). }
  split_and!.
  - transitivity (Some j, tabs s); [done|]. apply (moves_alter init me _ _ _ _ _ j _ p); [done..| |by left]. congruence.
  - apply (fit_alter s _ j p); [done..|]. left. congruence.
  - eexists. cbn. rewrite list_lookup_alter_eq, Hj. done.
Qed.

Lemma fork_obeys copy i s b :
  (forall d n, tidy same_table (copy d n)) ->
  me = Some i -> fit s -> few s -> runs s -> moves b (None, tabs s) ->
  obeys (fork_with trapret forkret_addr copy s) b ended.
Proof.
  intros Hcopy Hi Hf Hw Hr Hm. unfold fork_with.
  apply (obeys_cur init me i None); [done..|]. intros s1 E1 Hm1.
  apply obeys_allocproc; [apply (fit_same _ _ s); [apply E1|done]| |done|intros; by apply fit_ended|].
  { destruct E1 as [(_ & E1 & _) _]. unfold few in *. by rewrite E1. }
  clear s Hf Hw Hr Hm s1 E1 Hm1. intros b1 s j Hf He Hm.
  apply obeys_read. intros i' x [= <-] Hx.
  pose proof (stable_embryo (F := F) (init := init) (me := me) j None (or_introl eq_refl)) as St.
  frame St. intros b2 pd s2 [Hf2 He2] Hm2.
  frame St. intros b3 [] s3 [Hf3 He3] Hm3. destruct (pd =? 0).
  - apply obeys_read. intros j' q [= <-] Hq.
    frame St. intros b4 [] s4 [Hf4 He4] Hm4. frame St. intros b5 [] s5 [Hf5 He5] Hm5.
    apply obeys_upd. intros p _. destruct (moves_unalloc b5 s5 j) as [Hm6 Hf6]; [done..|]. by apply fit_ended.
  - frame St. intros b4 [] s4 [Hf4 He4] Hm4. apply obeys_upd. intros p _.
    destruct (moves_adopt b4 s4 j i) as (Hm5 & Hf5 & He5); [done..|]. rewrite <- Hi in *.
    set (s5 := with_tab _ s4) in *. clearbody s5. clear - Hi TidyFiles0 Hm5 Hf5 He5.
    pose proof (stable_embryo (F := F) (init := init) j me (or_intror eq_refl)) as St.
    apply obeys_read. intros j' q [= <-] Hq.
    do 3 (frame St; clear - Hi TidyFiles0 St; intros b [] s [Hf He] Hm).
    apply obeys_bind. destruct (cwd x) as [d|]; [|done].
    frame St. intros b6 d' s6 [Hf6 He6] Hm6. frame St. intros b7 [] s7 [Hf7 He7] Hm7.
    frame St. intros b8 [] s8 [Hf8 He8] Hm8.
    apply obeys_read. intros j' q [= <-] Hq.
    apply (obeys_make_runnable j me); [congruence|done..|]. intros. by apply fit_ended.
Qed.

(** ** [sleep], [yield] *)

(** The running process changes its own entry. *)
Lemma moves_self b s i f p :
  me = Some i -> tab s !! i = Some p -> state p = RUNNING ->
  tstep init (tabs s) (alter f i (tab s), nextpid s) -> moves b (None, tabs s) ->
  moves b (None, tabs (with_tab (alter f i (tab s)) s)).
Proof.
  intros Hi Hp Hs Ht Hm. transitivity (None : option nat, tabs s); [done|].
  apply (moves_alter init me _ _ _ _ _ i f p); [done..| | |by left]; congruence.
Qed.

(** The middle of [sleep], with [ptable.lock] held. *)
Lemma obeys_doze {B} i ch (f : unit -> M (kern F) B) s b Q :
  me = Some i -> fit s -> moves b (None, tabs s) ->
  (ch = proc_chan (Some i) -> forall z, ~ zombie i z (tab s)) ->
  (forall b' s', fit s' -> runs s' -> moves b' (None, tabs s') -> obeys (f tt s') b' Q) ->
  obeys ((upd_p (Some i) (set_chan ch) ;;; upd_p (Some i) (set_state SLEEPING) ;;; sched ;;;
          bind (upd_p (Some i) (set_chan None)) f) s) b Q.
Proof.
  intros Hi Hf Hm Hz HQ. destruct (fit_run _ _ _ Hf i Hi) as (p & Hp & Hs).
  apply obeys_upd. intros p0 _. apply obeys_upd. intros p1 _.
  set (s1 := with_tab _ _). set (g := fun p => set_state SLEEPING (set_chan ch p)).
  assert (E1 : s1 = with_tab (alter g i (tab s)) s).
  { unfold s1, g. by rewrite <- (alter_alter (set_state SLEEPING) (set_chan ch)). }
  apply obeys_sched; [rewrite E1; apply Hf| |].
  { rewrite E1. apply (moves_self b s i g p); try done. apply (t_sleep init _ _ i p); [done..|].
    intros Hc. by apply find_zombie_none, Hz. }
  clear - Hi HQ. intros b1 s1 Hf _ Hr Hm. apply obeys_upd. intros p Hp.
  destruct (fit_run _ _ _ Hf i Hi) as (q & Hq & Hs). assert (p = q) as -> by congruence.
  assert (Ht : tstep init (tabs s1) (alter (set_chan None) i (tab s1), nextpid s1)) by by apply (t_tidy init _ _ i q).
  apply HQ; [|done|by apply (moves_self b1 s1 i _ q)]. apply (fit_alter s1 _ i q); [done..|]. by right.
Qed.

Lemma obeys_sleep i ch lk s b (Q : view_t -> unit -> kern F -> Prop) :
  me = Some i -> fit s -> runs s -> moves b (None, tabs s) ->
  (ch = proc_chan (Some i) -> lk = Some ptable_lock /\ forall z, ~ zombie i z (tab s)) ->
  (forall b' s', fit s' -> runs s' -> moves b' (None, tabs s') -> Q b' tt s') ->
  obeys (sleep ch lk s) b Q.
Proof.
  intros Hi Hf Hr Hm Hz HQ. unfold sleep, sleep_on.
  apply (obeys_cur init me i None); [done..|]. intros s1 E1 Hm1.
  assert (Hf1 : fit s1) by (apply (fit_same _ _ s); [apply E1|done]).
  assert (Hz1 : ch = proc_chan (Some i) -> lk = Some ptable_lock /\ forall z, ~ zombie i z (tab s1)).
  { intros Hc. destruct (Hz Hc) as [? Hno]. split; [done|]. intros z Hzz. apply (Hno z).
    apply (zombie_life _ _ (tab s1)); [apply E1|done]. }
  clear - TidyFiles0 Hi Hf1 Hm1 Hz1 HQ.
  destruct lk as [lk|]; [|done]. cbv zeta. destruct (decide (lk = ptable_lock)) as [->|Hne].
  - rewrite bool_decide_eq_true_2 by done. cbn [negb when].
    change (bind (ret tt) ?k s1) with (k tt s1). cbv beta.
    apply obeys_doze; [done..|intros Hc; by apply Hz1|]. intros b2 s2 Hf2 Hr2 Hm2. by apply HQ.
  - rewrite bool_decide_eq_false_2 by done. cbn [negb when]. apply obeys_bind.
    frame stable_fit. intros b2 [] s2 Hf2 Hm2. frame stable_fit. intros b3 [] s3 Hf3 Hm3.
    apply obeys_doze; [done..|intros Hc; by destruct (Hz1 Hc) as [[= ->] _]|]. intros b4 s4 Hf4 Hr4 Hm4.
    frame stable_run. intros b5 [] s5 [Hf5 Hr5] Hm5. frame stable_run. intros b6 [] s6 [Hf6 Hr6] Hm6. by apply HQ.
Qed.

Lemma yield_obeys i s b :
  me = Some i -> fit s -> runs s -> moves b (None, tabs s) -> obeys (yield s) b ended.
Proof.
  intros Hi Hf Hr Hm. unfold yield. frame stable_run. intros b1 [] s1 [Hf1 Hr1] Hm1.
  apply (obeys_cur init me i None); [done..|]. intros s2 E2 Hm2.
  assert (Hf2 : fit s2) by (apply (fit_same _ _ s1); [apply E2|done]).
  destruct (fit_run _ _ _ Hf2 i Hi) as (p & Hp & Hs). apply obeys_upd. intros p0 _.
  apply obeys_sched; [apply Hf2|apply (moves_self _ _ _ _ p); try done; by apply (t_yield init _ _ i p)|].
  intros b3 s3 Hf3 _ _ Hm3. frame stable_fit. intros b4 [] s4 Hf4 Hm4. by apply fit_ended.
Qed.

(** ** [wakeup], [kill] *)

Lemma wakeup_obeys ch s b : fit s -> moves b (None, tabs s) -> obeys (wakeup ch s) b ended.
Proof.
  intros Hf Hm. unfold wakeup. frame stable_fit. intros b1 [] s1 Hf1 Hm1.
  apply obeys_table.
  set (s2 := with_tab _ s1).
  assert (Hm2 : moves b1 (None, tabs s2)) by (transitivity (None : option nat, tabs s1); [done|apply moves_wakeup]).
  assert (Hi2 : initproc s2 = Some init) by apply Hf1. clearbody s2.
  frame stable_init. intros b3 [] s3 Hi3 Hm3. by split.
Qed.

Lemma moves_kill b s j n :
  find_proc (fun p => pid p =? n) (tab s) = Some j -> moves b (None, tabs s) ->
  moves b (None, tabs (with_tab (alter killed_proc j (tab s)) s)).
Proof.
  intros E Hm. transitivity (None : option nat, tabs s); [done|].
  apply moves_keep; [by apply (t_kill init _ _ j n)|]. intros k p Hk Hs _. cbn.
  destruct (decide (j = k)) as [<-|]; [|exists p; by rewrite list_lookup_alter_ne].
  exists (killed_proc p). rewrite list_lookup_alter_eq, Hk. split; [done|]. unfold killed_proc, is_state.
  rewrite bool_decide_eq_false_2; [done|]. cbn. destruct Hs; congruence.
Qed.

Lemma kill_obeys n s b : fit s -> moves b (None, tabs s) -> obeys (kill n s) b ended.
Proof.
  intros Hf Hm. unfold kill. frame stable_fit. intros b1 [] s1 Hf1 Hm1.
  apply obeys_gets. fold (tab s1).
  destruct (find_proc (fun p => pid p =? n) (tab s1)) as [j|] eqn:E.
  2:{ frame stable_fit. intros b2 [] s2 Hf2 Hm2. by apply fit_ended. }
  apply obeys_upd. intros p Hp. apply obeys_read. intros j' q [= <-] Hq. cbn in Hq.
  rewrite list_lookup_alter_eq, Hp in Hq. injection Hq as <-.
  pose proof (moves_kill b1 s1 j n E Hm1) as Hm2. set (s2 := with_tab _ s1) in Hm2.
  assert (Hi2 : initproc s2 = Some init) by apply Hf1.
  assert (End : obeys ((unlock_ptable ;;; ret 0) s2) b1 ended).
  { clearbody s2. frame stable_init. intros b3 [] s3 Hi3 Hm3. by split. }
  destruct (is_state SLEEPING (set_killed true p)) eqn:Es; cbn [when].
  - apply obeys_upd. intros p1 _. refine (eq_ind s2 (fun s => obeys (_ s) _ _) End _ _).
    unfold s2. rewrite (alter_ext_at killed_proc (fun p => set_state RUNNABLE (set_killed true p)) j (tab s1) p Hp).
    + by rewrite <- (alter_alter (set_state RUNNABLE) (set_killed true)).
    + unfold killed_proc. by rewrite Es.
  - change (bind (ret tt) ?k ?s) with (k tt s). cbv beta. refine (eq_ind s2 (fun s => obeys (_ s) _ _) End _ _).
    unfold s2. rewrite (alter_ext_at killed_proc (set_killed true) j (tab s1) p Hp); [done|].
    unfold killed_proc. by rewrite Es.
Qed.

(** ** [exit] *)

Lemma tidy_close_files c n : forall k, tidy (same (F := F)) (close_files c k n).
Proof. induction n as [|n IH]; intros k; cbn [close_files]; tidy. Qed.
#[local] Hint Resolve tidy_close_files : tidy.

Lemma exit_obeys i s b :
  me = Some i -> fit s -> runs s -> moves b (None, tabs s) -> obeys (exit s) b ended.
Proof.
  intros Hi Hf Hr Hm. unfold exit. apply (obeys_cur init me i None); [done..|]. intros s1 E1 Hm1.
  assert (Hf1 : fit s1) by (apply (fit_same _ _ s); [apply E1|done]). clear - TidyFiles0 Hi Hf1 Hm1.
  apply obeys_gets.
  rewrite (fit_init _ _ _ Hf1). destruct (bool_decide (Some i = Some init)) eqn:Ei; [done|].
  apply bool_decide_eq_false in Ei. assert (Hin : i <> init) by congruence.
  frame stable_fit. intros b2 [] s2 Hf2 Hm2. frame stable_fit. intros b3 [] s3 Hf3 Hm3.
  apply obeys_read. intros i' x [= <-] Hx. apply obeys_bind. destruct (cwd x) as [d|]; [|done].
  frame stable_fit. intros b4 [] s4 Hf4 Hm4. do 2 (frame stable_fit; clear - TidyFiles0 Hi Hin; intros b [] s Hf Hm).
  frame stable_fit. clear - TidyFiles0 Hi Hin. intros b [] s Hf Hm.
  apply obeys_read. intros i' p [= <-] Hp.
  apply obeys_table.
  apply obeys_gets.
  apply obeys_table.
  change (initproc (with_tab _ s)) with (initproc s). rewrite (fit_init _ _ _ Hf).
  apply obeys_upd. intros p' _. destruct (fit_run _ _ _ Hf i Hi) as (q & Hq & Hs).
  assert (q = p) as -> by congruence.
  apply obeys_sched; [apply Hf| |done].
  transitivity (None : option nat, tabs s); [done|]. apply moves_keep; [by apply (t_exit init _ _ i p)|].
  intros j r Hj Hr Hpar. exists r. split; [|done]. apply (exit_still i init _ _ j r p); try done.
  destruct Hpar; congruence.
Qed.

(** ** [wait] *)

(** Reaping a zombie child. *)
Lemma moves_reap b s i z :
  me = Some i -> fit s -> zombie i z (tab s) -> moves b (None, tabs s) ->
  moves b (None, tabs (with_tab (alter reaped z (tab s)) s)).
Proof.
  intros Hi Hf (p & Hz & Hs & Hp) Hm. destruct (fit_run _ _ _ Hf i Hi) as (q & Hq & Hqs).
  transitivity (None : option nat, tabs s); [done|].
  apply (moves_alter init me _ _ _ _ _ z _ p); [by apply (t_reap init _ _ i z p q)|done|congruence|congruence|by left].
Qed.

Lemma wait_loop_obeys i n : me = Some i -> forall s b,
  fit s -> runs s -> moves b (None, tabs s) -> obeys (wait_loop (Some i) n s) b ended.
Proof.
  intros Hi. induction n as [|n IH]; intros s b Hf Hr Hm; cbn [wait_loop]; [done|].
  apply obeys_gets. fold (tab s).
  destruct (find_zombie (Some i) (tab s)) as [z|] eqn:E.
  - destruct (find_proc_some _ _ _ E) as (p & Hz & [Hc Hs]%andb_true_iff).
    assert (Hzm : zombie i z (tab s)).
    { exists p. split; [done|]. split; [by apply is_state_true|]. by apply bool_decide_eq_true in Hc. }
    pose proof (stable_zombie (F := F) (init := init) i z Hi) as St. apply obeys_read. intros z' q [= <-] Hq.
    frame St. intros b1 [] s1 [Hf1 Hz1] Hm1. frame St. intros b2 [] s2 [Hf2 Hz2] Hm2.
    frame St. intros b3 [] s3 [Hf3 Hz3] Hm3. apply obeys_upd. intros p3 _.
    pose proof (moves_reap b3 s3 i z Hi Hf3 Hz3 Hm3) as Hm4. set (s4 := with_tab _ s3) in *.
    assert (Hi4 : initproc s4 = Some init) by apply Hf3. clearbody s4.
    frame stable_init. intros b5 [] s5 Hi5 Hm5. by split.
  - apply obeys_read. intros i' x [= <-] Hx. destruct (negb _ || killed x).
    + frame stable_fit. intros b1 [] s1 Hf1 Hm1. by apply fit_ended.
    + apply obeys_bind, (obeys_sleep i); [done..| |].
      * intros _. split; [done|]. by apply find_zombie_none.
      * intros b1 s1 Hf1 Hr1 Hm1. by apply IH.
Qed.

Lemma wait_obeys i s b :
  me = Some i -> fit s -> runs s -> moves b (None, tabs s) -> obeys (wait s) b ended.
Proof.
  intros Hi Hf Hr Hm. unfold wait. apply (obeys_cur init me i None); [done..|]. intros s1 E1 Hm1.
  assert (Hf1 : fit s1) by (apply (fit_same _ _ s); [apply E1|done]).
  assert (Hr1 : runs s1) by by apply (runs_same _ s).
  frame stable_run. intros b2 [] s2 [Hf2 Hr2] Hm2. by apply wait_loop_obeys.
Qed.

Lemma sleep_obeys i ch lk s b :
  me = Some i -> ch <> proc_chan (Some i) -> fit s -> runs s -> moves b (None, tabs s) ->
  obeys (sleep ch lk s) b ended.
Proof. intros Hi Hc Hf Hr Hm. apply (obeys_sleep i); [done..|]. intros. by apply fit_ended. Qed.

(** Any other code that keeps the life of the processes. *)
Lemma tidy_obeys {A} (m : M (kern F) A) s b :
  tidy same m -> fit s -> moves b (None, tabs s) -> obeys (m s) b ended.
Proof.
  intros Ht Hf Hm. apply (obeys_tidy init me same None fit); [done|apply stable_fit|done..|].
  intros. by apply fit_ended.
Qed.

Lemma tidy_growproc n : tidy (same (F := F)) (growproc n).
Proof. unfold growproc. tidy. Qed.

(** ** [scheduler] *)

Lemma obeys_run_all n : me = None -> forall k s b (Q : view_t -> unit -> kern F -> Prop),
  fit s -> moves b (None, tabs s) ->
  (forall b' s', fit s' -> moves b' (None, tabs s') -> Q b' tt s') ->
  obeys (run_all k n s) b Q.
Proof.
  intros Hn. induction n as [|n IH]; intros k s b Q Hf Hm HQ; cbn [run_all]; [by apply HQ|].
  apply obeys_read. intros k' x [= <-] Hx. destruct (is_state RUNNABLE x) eqn:Es; cbn [when].
  2:{ by apply IH. }
  apply is_state_true in Es. apply obeys_bind.
  apply (obeys_quiet init me same None); [done|tidy|quiet|done|]. intros [] s1 E1 Hm1.
  apply (obeys_quiet init me same None); [done|tidy|quiet|done|]. intros [] s2 E2 Hm2.
  pose proof (fit_same _ _ s1 s2 E2 (fit_same _ _ s s1 E1 Hf)) as Hf2.
  assert (exists y, tab s2 !! k = Some y /\ state y = RUNNABLE) as (y & Hy & Hys).
  { assert (E : same s s2) by by transitivity s1. destruct E as [E _]. symmetry in E.
    destruct (life_entry _ _ k x E Hx) as (y & Hy & Ey & _). exists y. split; congruence. }
  clear - Hn TidyFiles0 Hf2 Hm2 Hy Hys IH HQ. apply obeys_upd. intros p _. set (s3 := with_tab _ s2).
  assert (Ht : tstep init (tabs s2) (alter (set_state RUNNING) k (tab s2), nextpid s2)) by by apply (t_run init _ _ k y).
  assert (Hm3 : moves b (None, tabs s3)).
  { transitivity (None : option nat, tabs s2); [done|]. apply (moves_alter init me _ _ _ _ _ k _ y); [done..| | |by left]; congruence. }
  assert (Hf3 : fit s3).
  { apply (fit_tab s2 _ _ Hf2 Ht). intros i q Hi. congruence. }
  clearbody s3. apply (obeys_switch init me None); [done|by apply stable_fit|]. intros s4 [Hf4 _ _ _ _].
  frame stable_fit. intros b5 [] s5 Hf5 Hm5. frame stable_fit. intros b6 [] s6 Hf6 Hm6. by apply IH.
Qed.

Lemma scheduler_obeys n s b :
  me = None -> fit s -> moves b (None, tabs s) -> obeys (scheduler n s) b ended.
Proof.
  intros Hn Hf Hm. unfold scheduler. frame stable_fit. clear - Hn TidyFiles0. intros b [] s.
  revert b s. induction n as [|n IH]; intros b s Hf Hm; cbn [scheduler_loop]; [done|].
  frame stable_fit. intros b1 [] s1 Hf1 Hm1. frame stable_fit. intros b2 [] s2 Hf2 Hm2.
  apply obeys_bind, obeys_run_all; [done..|]. intros b3 s3 Hf3 Hm3.
  frame stable_fit. intros b4 [] s4 Hf4 Hm4. by apply IH.
Qed.
End ops.

(** * All of them together *)

Section system.
Context `{Layout} {F : Type} `{FileOps F} `{!TidyFiles F}.
Context (trapret forkret_addr : Z) (init : nat).
Implicit Types s : kern F.

(** The scheduler of a processor, or the process in an entry of the table. *)
Abbreviation actor := (nat + nat)%type.
Definition me_of (a : actor) : option nat := match a with inl _ => None | inr i => Some i end.

(** Kernel code an actor enters: the functions of [proc.c], and whatever else
    leaves the life of the processes alone. *)
Inductive entry : actor -> M (kern F) unit -> Prop :=
| e_fork i : entry (inr i) (fork trapret forkret_addr ;;; ret tt)
| e_forkcow i : entry (inr i) (forkcow trapret forkret_addr ;;; ret tt)
| e_exit i : entry (inr i) exit
| e_wait i : entry (inr i) (wait ;;; ret tt)
| e_yield i : entry (inr i) yield
| e_sleep i ch lk : ch <> proc_chan (Some i) -> entry (inr i) (sleep ch lk)
| e_kill i n : entry (inr i) (kill n ;;; ret tt)
| e_growproc i n : entry (inr i) (growproc n ;;; ret tt)
| e_wakeup a ch : entry a (wakeup ch)
| e_other a m : tidy same m -> entry a m
| e_scheduler c n : entry (inl c) (scheduler n).

(** The kernel, and the actors that have given up the processor inside it. *)
Record sys := Sys { sk : kern F; susp : gmap actor (M (kern F) unit) }.

(** A zombie does not run again; the next process in its entry starts afresh. *)
Definition gone (a : actor) s : bool :=
  match a with
  | inl _ => false
  | inr i => match tab s !! i with Some p => is_state ZOMBIE p | None => false end
  end.

Definition land (a : actor) (ths : gmap actor (M (kern F) unit)) (r : result (kern F) unit) : option sys :=
  match r with
  | Ok _ s => Some (Sys s (delete a ths))
  | Switch s k => Some (Sys s (if gone a s then delete a ths else <[a := k]> ths))
  | _ => None
  end.

(** One actor runs, from where it gave up the processor or from an entry
    point, to the next point at which it gives it up or leaves the kernel.
    Everything but the process table may have changed since the last step. *)
Inductive sstep : sys -> sys -> Prop :=
| s_step a (m : M (kern F) unit) s s0 (ths : gmap actor (M (kern F) unit)) y :
    ths !! a = Some m \/ (ths !! a = None /\ entry a m) ->
    tabs s0 = tabs s -> initproc s0 = initproc s ->
    (forall i, me_of a = Some i -> exists p, tab s0 !! i = Some p /\ state p = RUNNING) ->
    runs (me_of a) s0 -> few s0 ->
    land a ths (m s0) = Some y ->
    sstep (Sys s ths) y.

Lemma void_obeys {A} me (m : M (kern F) A) s b :
  obeys init me (m s) b (ended init me) -> obeys init me (bind m (fun _ => ret tt) s) b (ended init me).
Proof. intros Ho. apply obeys_bind. revert Ho. by apply obeys_mono. Qed.

Lemma entry_obeys a m s :
  entry a m -> fit init (me_of a) s -> few s -> runs (me_of a) s ->
  obeys init (me_of a) (m s) (None, tabs s) (ended init (me_of a)).
Proof.
  intros He Hf Hw Hr. destruct He; cbn [me_of] in *.
  - apply void_obeys, (fork_obeys trapret forkret_addr init (Some i) copyuvm i); try done. apply tidy_copyuvm.
  - apply void_obeys, (fork_obeys trapret forkret_addr init (Some i) copyuvmcow i); try done. apply tidy_copyuvmcow.
  - by apply (exit_obeys init (Some i) i).
  - by apply void_obeys, (wait_obeys init (Some i) i).
  - by apply (yield_obeys init (Some i) i).
  - by apply (sleep_obeys init (Some i) i).
  - by apply void_obeys, kill_obeys.
  - apply void_obeys, tidy_obeys; [apply tidy_growproc|done..].
  - by apply wakeup_obeys.
  - by apply tidy_obeys.
  - by apply scheduler_obeys.
Qed.

Lemma me_of_inj a a' c : me_of a = Some c -> me_of a' = Some c -> a = a'.
Proof. destruct a, a'; cbn; congruence. Qed.

Lemma embryo_det j par par' t : embryo j par t -> embryo j par' t -> par = par'.
Proof. intros (p & Hp & _ & <-) (q & Hq & _ & <-). congruence. Qed.

(** The contracts of the suspended actors, in the state [s]; [own] says which
    entry each of them is building. *)
Record joint (own : actor -> option nat) s (ths : gmap actor (M (kern F) unit)) : Prop := {
  jo_idle : forall a, ths !! a = None -> own a = None;
  jo_disj : forall a a' j, own a = Some j -> own a' = Some j -> a = a';
  jo_owned : forall a, owned (me_of a) (own a) (tab s);
  jo_rest : forall a (m : M (kern F) unit), ths !! a = Some m -> exists s1,
    (forall j par, own a = Some j -> embryo j par (tab s1) -> embryo j par (tab s)) /\
    (forall k z, me_of a = Some k -> zombie k z (tab s1) -> zombie k z (tab s)) /\
    forall s', rely init (me_of a) (own a) s1 s' ->
      obeys init (me_of a) (m s') (own a, tabs s') (ended init (me_of a))
}.

(** The others keep their contracts when [a] moves. *)
Lemma joint_move own s ths a o s' :
  joint own s ths -> moves init (me_of a) (own a, tabs s) (o, tabs s') ->
  (forall a' j, a' <> a -> own a' = Some j -> o <> Some j) /\
  (forall a', a' <> a -> owned (me_of a') (own a') (tab s')) /\
  (forall a' j par, a' <> a -> own a' = Some j -> embryo j par (tab s) -> embryo j par (tab s')) /\
  (forall a' k z, a' <> a -> me_of a' = Some k -> zombie k z (tab s) -> zombie k z (tab s')).
Proof.
  intros [J1 J2 J3 J4] [Hm1 Hm2 Hm3]. cbn [fst snd tabs] in *.
  assert (Em : forall a' j par, a' <> a -> own a' = Some j -> embryo j par (tab s) -> o <> Some j /\ embryo j par (tab s')).
  { intros a' j par Hne Hj He. apply Hm2; [intros E; apply Hne; by apply (J2 _ _ j)| |done].
    intros c Hc ->. destruct (J3 a' j Hj) as (par' & He' & Hp). assert (Some c = par') as <- by by apply (embryo_det j _ _ (tab s)).
    destruct Hp as [|Hp]; [done|]. apply Hne. by apply (me_of_inj _ _ c). }
  split_and!.
  - intros a' j Hne Hj. destruct (J3 a' j Hj) as (par & He & _). by apply (Em a' j par).
  - intros a' Hne j Hj. destruct (J3 a' j Hj) as (par & He & Hp). exists par. split; [by apply (Em a' j par)|done].
  - intros a' j par Hne Hj He. by apply (Em a' j par).
  - intros a' k z Hne Hk Hz. apply Hm3; [|done]. intros E. apply Hne. by apply (me_of_inj _ _ k).
Qed.

Definition set_own (a : actor) (o : option nat) (own : actor -> option nat) : actor -> option nat :=
  fun x => if decide (x = a) then o else own x.

Lemma set_own_eq a o own : set_own a o own a = o.
Proof. unfold set_own. by rewrite decide_True. Qed.
Lemma set_own_ne a o own x : x <> a -> set_own a o own x = own x.
Proof. intros. unfold set_own. by rewrite decide_False. Qed.

(** What [a] leaves behind: nothing, or a suspension with its contract. *)
Definition left_by (a : actor) (o : option nat) s (m : option (M (kern F) unit)) : Prop :=
  match m with
  | None => o = None
  | Some m => forall s', rely init (me_of a) o s s' ->
      obeys init (me_of a) (m s') (o, tabs s') (ended init (me_of a))
  end.

Lemma joint_step (own : actor -> option nat) s (ths ths' : gmap actor (M (kern F) unit)) (a : actor) (o o' : option nat) s' :
  joint own s ths -> moves init (me_of a) (own a, tabs s) (o, tabs s') ->
  o' = o \/ o' = None -> owned (me_of a) o' (tab s') ->
  (forall x, x <> a -> ths' !! x = ths !! x) -> left_by a o' s' (ths' !! a) ->
  joint (set_own a o' own) s' ths'.
Proof.
  intros J Hm Ho How Hths Hl. destruct (joint_move own s ths a o s' J Hm) as (M1 & M2 & M3 & M4).
  pose proof J as [J1 J2 J3 J4].
  assert (Hd : forall x j, x <> a -> own x = Some j -> o' <> Some j).
  { intros x j Hx Hj E. destruct Ho as [->|Ho]; [by apply (M1 x j)|congruence]. }
  split.
  - intros x Hx. destruct (decide (x = a)) as [->|Hne].
    + rewrite set_own_eq. by rewrite Hx in Hl.
    + rewrite set_own_ne by done. apply J1. by rewrite <- Hths.
  - intros x x' j. destruct (decide (x = a)) as [->|Hx], (decide (x' = a)) as [->|Hx'];
      rewrite ?set_own_eq, ?set_own_ne by done; intros E E'; [done| | |by apply (J2 _ _ j)].
    + by destruct (Hd x' j).
    + by destruct (Hd x j).
  - intros x. destruct (decide (x = a)) as [->|Hx]; rewrite ?set_own_eq, ?set_own_ne by done; [done|by apply M2].
  - intros x m. destruct (decide (x = a)) as [->|Hx]; rewrite ?set_own_eq, ?set_own_ne by done; intros E.
    + exists s'. rewrite E in Hl. split_and!; [done..|exact Hl].
    + rewrite Hths in E by done. destruct (J4 x m E) as (s1 & E1 & E2 & E3). exists s1. split_and!; [| |done].
      * intros j par Hj He. by apply (M3 x), E1.
      * intros k z Hk Hz. by apply (M4 x), E2.
Qed.

(** Every state of the system is reached by transitions of the table. *)
Definition sinv (x : list proc * Z) (y : sys) : Prop :=
  treach init x (tabs (sk y)) /\ initproc (sk y) = Some init /\ exists own, joint own (sk y) (susp y).

Lemma land_joint a ths (r : result (kern F) unit) o s0 own y x :
  joint own s0 ths -> own a = o -> obeys init (me_of a) r (o, tabs s0) (ended init (me_of a)) ->
  treach init x (tabs s0) -> land a ths r = Some y -> sinv x y.
Proof.
  intros J <- Ho Hx Hy. destruct r as [[] s'| | | |s' k]; try done; injection Hy as <-.
  - destruct Ho as [Hi Hm]. split; [eapply treach_trans; [done|apply Hm]|]. split; [done|].
    exists (set_own a None own). apply (joint_step own s0 ths _ a None None); [done..|by left|done| |].
    + intros z Hz. by apply lookup_delete_ne.
    + cbn. by rewrite lookup_delete_eq.
  - destruct Ho as (o & Hm & [Hi Hg] & Hk). split; [eapply treach_trans; [done|apply Hm]|]. split; [done|]. cbn [sk susp].
    destruct (gone a s').
    + exists (set_own a None own). apply (joint_step own s0 ths _ a o None); [done..|by right|done| |].
      * intros z Hz. by apply lookup_delete_ne.
      * by rewrite lookup_delete_eq.
    + exists (set_own a o own). apply (joint_step own s0 ths _ a o o); [done..|by left|done| |].
      * intros z Hz. by apply lookup_insert_ne.
      * by rewrite lookup_insert_eq.
Qed.

Lemma joint_tab own s s0 ths : tab s0 = tab s -> joint own s ths -> joint own s0 ths.
Proof. intros E [J1 J2 J3 J4]. split; rewrite ?E; done. Qed.

Lemma sstep_inv x y y' : inv init x.1 x.2 -> 0 < x.2 -> sstep y y' -> sinv x y -> sinv x y'.
Proof.
  intros I Hp Hst (Hx & Hi & own & J). destruct Hst as [a m s s0 ths y Hm Et Ei Hrun Hr Hw Hl]. cbn [sk susp] in *.
  injection Et as Et En.
  assert (Hx0 : treach init x (tabs s0)) by (unfold tabs; rewrite Et, En; exact Hx).
  assert (Hf : fit init (me_of a) s0).
  { destruct (treach_inv init _ _ Hx0 I Hp) as [I0 Hp0]. split; [done..|congruence|done]. }
  apply (land_joint a ths (m s0) (own a) s0 own); [by apply (joint_tab own s)|done| |done|done].
  destruct Hm as [Hm|[Hm He]].
  - destruct (jo_rest _ _ _ J a m Hm) as (s1 & E1 & E2 & E3). apply E3. split; [done..| |]; rewrite Et; done.
  - rewrite (jo_idle _ _ _ J a Hm). by apply entry_obeys.
Qed.

Lemma system_reach s0 y :
  inv init (tab s0) (nextpid s0) -> 0 < nextpid s0 -> initproc s0 = Some init ->
  rtc sstep (Sys s0 ∅) y -> treach init (tabs s0) (tabs (sk y)).
Proof.
  intros I Hp Hi Hr.
  assert (H0' : sinv (tabs s0) (Sys s0 ∅)).
  { split; [apply tr_refl|]. split; [done|]. exists (fun _ => None). by split. }
  assert (Hs : sinv (tabs s0) y); [|apply Hs].
  induction Hr as [y|y y' z Hst _ IH]; [done|]. apply IH. by apply (sstep_inv _ y).
Qed.
End system.

(** * From the first process on *)

Section boot.
Context `{Layout} {F : Type} `{FileOps F} `{!TidyFiles F}.
Context (trapret forkret_addr initcode initcode_size : Z).
Implicit Types s : kern F.

Lemma upd_p_inv j f s a s' : upd_p (Some j) f s = Ok a s' -> s' = with_tab (alter f j (tab s)) s.
Proof.
  unfold upd_p, lift, update_proc. cbn. fold (tab s). destruct (decide _); [|done]. by intros [= _ <-].
Qed.

Lemma life_alter_cong f j (t t' : list proc) :
  (forall p q, life p = life q -> life (f p) = life (f q)) -> life <$> t = life <$> t' ->
  life <$> alter f j t = life <$> alter f j t'.
Proof.
  intros Hf E. apply list_eq. intros k. pose proof (f_equal (fun l => l !! k) E) as Ek. cbv beta in Ek.
  rewrite !list_lookup_fmap in *. destruct (decide (j = k)) as [<-|]; [|by rewrite !list_lookup_alter_ne].
  rewrite !list_lookup_alter_eq. destruct (t !! j) as [p|], (t' !! j) as [q|]; try done. cbn in *. f_equal. apply Hf. congruence.
Qed.

(** The first process gets entry 0 and pid 1, and is still an embryo. *)
Lemma allocproc_first s p s' :
  life <$> tab s = life <$> replicate NPROC zero_proc -> nextpid s = 1 ->
  allocproc trapret forkret_addr s = Ok (Some p) s' ->
  p = 0%nat /\ nextpid s' = 2 /\
  life <$> tab s' = life <$> alter (fun p => set_pid 1 (set_state EMBRYO p)) 0%nat (replicate NPROC zero_proc).
Proof.
  intros Hl Hn E. unfold allocproc in E. apply bind_ok_inv in E as ([] & s1 & E1 & E).
  assert (same s s1) as (L1 & N1 & I1) by (apply (tidy_ok same lock_ptable s tt s1); [tidy|done]).
  rewrite Hl in L1. rewrite Hn in N1. apply bind_ok_inv in E as (t & s1' & E2 & E). injection E2 as <- <-. fold (tab s1) in E.
  assert (Hfind : find_proc (is_state UNUSED) (tab s1) = Some 0%nat).
  { destruct (tab s1) as [|q l] eqn:Et; [discriminate L1|]. injection L1 as L1 _ _ _ _. cbn. unfold is_state. by rewrite L1. }
  rewrite Hfind in E. cbv zeta in E.
  apply bind_ok_inv in E as ([] & s2 & ->%upd_p_inv & E). apply bind_ok_inv in E as (n & s2' & E3 & E). injection E3 as <- <-.
  apply bind_ok_inv in E as ([] & s3 & ->%upd_p_inv & E). apply bind_ok_inv in E as ([] & s4 & E4 & E). injection E4 as <-.
  change (nextpid (with_tab _ s1)) with (nextpid s1) in E. rewrite N1 in E. change (s32 (1 + 1)) with 2 in E.
  set (s4 := set_nextpid 2 _) in E.
  assert (L4 : life <$> tab s4 = life <$> alter (fun p => set_pid 1 (set_state EMBRYO p)) 0%nat (replicate NPROC zero_proc)).
  { unfold s4. cbn [tab with_tab set_nextpid kv set_kv ptable set_ptable]. fold (tab s1). rewrite alter_alter.
    apply life_alter_cong; [|done]. intros a b. unfold life. cbn. congruence. }
  assert (N4 : nextpid s4 = 2) by done. clearbody s4. clear - TidyFiles0 E L4 N4.
  apply bind_ok_inv in E as ([] & s5 & E5 & E). apply bind_ok_inv in E as (ks & s6 & E6 & E).
  apply bind_ok_inv in E as ([] & s7 & E7 & E). destruct (ks =? 0).
  { by apply bind_ok_inv in E as ([] & s8 & _ & [=]). }
  assert (S5 : same s4 s5) by (apply (tidy_ok same unlock_ptable s4 tt); [tidy|done]).
  assert (S6 : same s5 s6) by (revert E6; apply tidy_ok; tidy).
  assert (S7 : same s6 s7) by (revert E7; apply tidy_ok; tidy).
  assert (S8 : same s7 s') by (revert E; apply tidy_ok; tidy).
  assert (same s4 s') as (L & N & _) by by transitivity s5; [|transitivity s6; [|transitivity s7]].
  do 5 (apply bind_ok_inv in E as ([] & ? & _ & E)). injection E as <- _. split_and!; congruence.
Qed.

(** [userinit] leaves the first process runnable, alone in the table. *)
Lemma userinit_table s s' :
  life <$> tab s = life <$> replicate NPROC zero_proc -> nextpid s = 1 ->
  userinit trapret forkret_addr initcode initcode_size s = Ok tt s' ->
  life <$> tab s' = life <$> boot_table /\ nextpid s' = 2 /\ initproc s' = Some 0%nat.
Proof.
  intros Hl Hn E. unfold userinit in E. apply bind_ok_inv in E as (p & s1 & E1 & E).
  apply bind_ok_inv in E as ([] & s2 & E2 & E). injection E2 as <-.
  apply bind_ok_inv in E as (pd & s3 & E3 & E).
  assert (S3 : same (set_initproc p s1) s3) by (revert E3; apply tidy_ok; tidy).
  destruct p as [p|]; [|by apply bind_ok_inv in E as (? & ? & [=] & _)].
  destruct (allocproc_first s p s1 Hl Hn E1) as (-> & N1 & L1).
  apply bind_ok_inv in E as ([] & s4 & E4 & E).
  assert (S4 : same s3 s4) by (revert E4; apply tidy_ok; tidy). destruct (pd =? 0); [done|].
  apply bind_ok_inv in E as (x & s5 & E5 & E).
  assert (S5 : same s4 s5) by (revert E5; apply tidy_ok; tidy).
  assert (S : same (set_initproc (Some 0%nat) s1) s5) by by transitivity s3; [|transitivity s4].
  clear - TidyFiles0 E S N1 L1. cbv zeta in E.
  do 13 (apply bind_ok_inv in E as (? & ? & E6 & E); apply (tidy_ok same) in E6; [|solve [tidy]];
    pose proof (transitivity S E6) as S6; clear S E6; rename S6 into S).
  unfold make_runnable in E. apply bind_ok_inv in E as ([] & s7 & E7 & E).
  apply (tidy_ok same) in E7; [|solve [tidy]]. pose proof (transitivity S E7) as (L7 & N7 & I7). clear S E7.
  apply bind_ok_inv in E as ([] & s8 & ->%upd_p_inv & E).
  apply (tidy_ok same) in E; [|solve [tidy]]. destruct E as (L & N & I).
  split_and!; [|by rewrite N; change (nextpid s7 = 2); rewrite N7|by rewrite I; change (initproc s7 = Some 0%nat); rewrite I7].
  rewrite L. change (tab (with_tab ?t s7)) with t.
  transitivity (life <$> alter (set_state RUNNABLE) 0%nat (alter (fun p => set_pid 1 (set_state EMBRYO p)) 0%nat (replicate NPROC zero_proc)));
    [|by vm_compute].
  apply life_alter_cong; [intros a c; unfold life; cbn; congruence|]. by rewrite L7.
Qed.

Lemma userinit_inv s s' :
  life <$> tab s = life <$> replicate NPROC zero_proc -> nextpid s = 1 ->
  userinit trapret forkret_addr initcode initcode_size s = Ok tt s' ->
  inv 0 (tab s') (nextpid s') /\ initproc s' = Some 0%nat.
Proof.
  intros Hl Hn E. destruct (userinit_table s s' Hl Hn E) as (L & -> & I). split; [|done].
  apply (life_inv 0 boot_table); [apply boot_inv|done].
Qed.
End boot.

(** C5: The process table is safe in every interleaving of the code of
    [proc.c].  From a state with the invariant (as [userinit] leaves it),
    let the schedulers of any number of processors and the processes of the
    table run [fork], [forkcow], [exit], [wait], [yield], [sleep], [wakeup],
    [kill], [growproc] and other kernel code, each up to the points where it
    gives up the processor, in any order.  Then the table has changed only
    along the transitions of [tstep]; the pids in use are positive and
    pairwise different; every process but [init] has a live parent; and no
    process sleeps in [wait] while one of its children is a zombie. *)
Theorem proc_interleaving_safe `{Layout} `{DevSw} (trapret forkret_addr : Z) (init : nat) (s0 : kernel) (y : sys) :
  inv init (tab s0) (nextpid s0) -> 0 < nextpid s0 -> initproc s0 = Some init ->
  rtc (sstep trapret forkret_addr) (Sys s0 ∅) y ->
  treach init (tabs s0) (tabs (sk y)) /\ table_safe init (tab (sk y)) (nextpid (sk y)).
Proof.
  intros I Hp Hi Hr. pose proof (system_reach trapret forkret_addr init s0 y I Hp Hi Hr) as Ht. split; [done|].
  apply inv_safe. by destruct (treach_inv init _ _ Ht I Hp).
Qed.

(** * A parent that waits for a child that exits *)

Definition demo_entry (n : Z) (par : option nat) : proc :=
  Proc 0x1000 0x80401000 0x80400000 RUNNABLE n par 0 0 None false (replicate NOFILE None) (Some 0%nat) (replicate 16 0).
Definition two_table : list proc :=
  demo_entry 1 None :: demo_entry 2 (Some 0%nat) :: replicate (NPROC - 2) zero_proc.

Lemma two_inv : inv 0 two_table 3.
Proof.
  assert (Ht : treach 0 (boot_table, 2) (two_table, 3)).
  { eapply tr_step; [eapply tr_step; [eapply tr_step; [eapply tr_step; [eapply tr_step; [eapply tr_step;
      [apply tr_refl|] |] |] |] |] |].
    - eapply (t_run 0 _ _ 0); reflexivity.
    - eapply (t_alloc 0 _ _ 1). vm_compute. reflexivity.
    - eapply (t_adopt 0 _ _ 1 _ 0); [vm_compute; reflexivity|reflexivity|vm_compute; reflexivity|reflexivity].
    - eapply (t_publish 0 _ _ 1); [vm_compute; reflexivity|reflexivity|discriminate].
    - eapply (t_yield 0 _ _ 0); [vm_compute; reflexivity|reflexivity].
    - apply t_fields. vm_compute. reflexivity. }
  by destruct (treach_inv 0 _ _ Ht boot_inv ltac:(cbn; lia)) as [I _].
Qed.

(** A processor that runs [p], outside and inside a critical section. *)
Definition cpu_of (p : option nat) : mach := Mach [Cpu 0 0 0 p] 0 0 {[ptable_lock := free_lock; kmem_lock := free_lock]}.
Definition cpu_in (p : option nat) : mach := Mach [Cpu 0 1 0 p] 0 0 {[ptable_lock := Spin 1 (Some 0%nat); kmem_lock := free_lock]}.

Definition two_kernel : kernel :=
  Kern (Vst (Kst (cpu_of None) ∅ true 0) ∅ two_table 0x80402000 0 0 ∅) 3 (Some 0%nat)
    (Io (Fs (Lst (Bst (Kctx ∅ [] [] 2) [] ∅ 1000 []) 2 30 0 false 1 0 (replicate 30 0)) (Superblock 0 0 0 0 0 0 0)
         [Inode 1 1 2 free_sleeplock false 0 0 0 0 0 []]) [] ∅ 0 (Globals 0 0 0 0)).

(** One step of the system, with the machine in the state [m]. *)
Definition go (a : nat + nat) (m : mach) (code : M kernel unit) (y : sys) : sys :=
  default y (land a (susp y) (code (with_mach m (sk y)))).
Definition resumed (a : nat + nat) (y : sys) : M kernel unit := default (ret tt) (susp y !! a).

(** The conditions of a step, as computations. *)
Definition ready (a : nat + nat) (m : mach) (y : sys) : bool :=
  match a with
  | inl _ => true
  | inr i => match tab (F := io) (sk y) !! i with
             | Some p => is_state RUNNING p && bool_decide (current m = Some i)
             | None => false
             end
  end && (nextpid (sk y) <? 2 ^ 31 - 1).

Definition got {A} (x : option A) : bool := match x with Some _ => true | None => false end.

Lemma go_step `{Layout} `{DevSw} a m (code : M kernel unit) y :
  (got (susp y !! a) = true /\ code = resumed a y) \/ (got (susp y !! a) = false /\ entry 0 0 a code) ->
  ready a m y = true -> got (land a (susp y) (code (with_mach m (sk y)))) = true ->
  sstep 0 0 y (go a m code y).
Proof.
  intros Hc [Hr Hw%Z.ltb_lt]%andb_true_iff Hl. unfold go.
  destruct (land a (susp y) (code (with_mach m (sk y)))) as [y'|] eqn:El; [|done]. destruct y as [s ths]. cbn [sk susp default] in *.
  apply (s_step 0 0 a code s (with_mach m s)); [|done|done| | |done|done].
  - destruct Hc as [[Hs ->]|[Hs He]]; [left|right]; unfold resumed; cbn [susp]; by destruct (ths !! a).
  - intros i Hi. destruct a as [|i']; [done|]. injection Hi as ->. change (tab (with_mach m s)) with (tab s).
    destruct (tab s !! i) as [p|]; [|done]. apply andb_true_iff in Hr as [Hs _]. exists p. split; [done|]. by apply is_state_true.
  - intros i Hi. destruct a as [|i']; [done|]. injection Hi as ->.
    destruct (tab s !! i) as [p|]; [|done]. apply andb_true_iff in Hr as [_ Hs]. by apply bool_decide_eq_true in Hs.
Qed.

Section demo.
#[local] Instance demo_devices : DevSw := {| dev_read _ := None; dev_write _ := None |}.

Definition demo0 : sys := Sys two_kernel ∅.
Definition demo1 : sys := go (inl 0%nat) (cpu_of None) (scheduler 2) demo0.
Definition demo2 : sys := go (inr 0%nat) (cpu_of (Some 0%nat)) (wait ;;; ret tt) demo1.
Definition demo3 : sys := go (inl 0%nat) (cpu_in (Some 0%nat)) (resumed (inl 0%nat) demo2) demo2.
Definition demo4 : sys := go (inr 1%nat) (cpu_of (Some 1%nat)) exit demo3.
Definition demo5 : sys := go (inl 0%nat) (cpu_in (Some 1%nat)) (resumed (inl 0%nat) demo4) demo4.
Definition demo6 : sys := go (inr 0%nat) (cpu_in (Some 0%nat)) (resumed (inr 0%nat) demo5) demo5.

Ltac begins a m code e :=
  apply (go_step a m code); [right; split; [vm_compute; reflexivity|apply e]|vm_compute; reflexivity..].
Ltac goes_on a m y :=
  apply (go_step a m (resumed a y)); [left; split; [vm_compute; reflexivity|reflexivity]|vm_compute; reflexivity..].

(** The scheduler picks the parent, which sleeps in [wait]; it picks the child,
    which exits; it picks the parent again, which reaps the child. *)
Lemma demo_run : rtc (sstep 0 0) demo0 demo6.
Proof.
  apply (rtc_l _ demo0 demo1); [begins (inl 0%nat : nat + nat) (cpu_of None) (scheduler (F := io) 2) e_scheduler|].
  apply (rtc_l _ demo1 demo2); [begins (inr 0%nat : nat + nat) (cpu_of (Some 0%nat)) (wait (F := io) ;;; ret tt) e_wait|].
  apply (rtc_l _ demo2 demo3); [goes_on (inl 0%nat : nat + nat) (cpu_in (Some 0%nat)) demo2|].
  apply (rtc_l _ demo3 demo4); [begins (inr 1%nat : nat + nat) (cpu_of (Some 1%nat)) (exit (F := io)) e_exit|].
  apply (rtc_l _ demo4 demo5); [goes_on (inl 0%nat : nat + nat) (cpu_in (Some 1%nat)) demo4|].
  apply rtc_once. goes_on (inr 0%nat : nat + nat) (cpu_in (Some 0%nat)) demo5.
Qed.
End demo.

Lemma proc_interleaving_safe_witness :
  exists D : DevSw, rtc (sstep 0 0) demo0 demo6 /\
    take 3 (state <$> tab (sk demo4)) = [RUNNABLE; ZOMBIE; UNUSED] /\
    take 3 (state <$> tab (sk demo6)) = [RUNNING; UNUSED; UNUSED] /\
    table_safe 0 (tab (sk demo6)) (nextpid (sk demo6)).
Proof.
  exists demo_devices. split; [exact demo_run|]. split; [vm_compute; reflexivity|]. split; [vm_compute; reflexivity|].
  apply (@proc_interleaving_safe _ demo_devices 0 0 0 two_kernel demo6 two_inv eq_refl eq_refl demo_run).
Defined.
