(* ===== verification/Txn.v ===== *)
(** Blocks inside a transaction: what [bread], [log_write] and [brelse] mean
    to [fs.c].  A block has contents; reading a buffer gives them, storing in
    a held buffer and logging it changes them, releasing it changes nothing. *)

From S2P Require Import Prelude Params Spinlock Klock Bytes Bio Bcache Log Commit LogOps Fs.
Open Scope Z_scope.
Open Scope xv6_scope.

(** The contents of a block, as the running transaction sees it. *)
Definition blk (s : fs) (n : Z) : bytes := content (l_b (f_l s)) n.
Definition nblk (s : fs) : Z := disksize (l_b (f_l s)).
Definition slot (s : fs) (i : nat) : buf := getb (l_b (f_l s)) i.

(** The running process holds the buffers in [O] and no spinlock, and is
    inside a transaction. *)
Record txn (s : fs) (O : gset nat) : Prop := {
  tx_log : log_ok (f_l s);
  tx_inv : exists ord, binv (l_b (f_l s)) ord O;
  tx_held : held (bc_ctx (l_b (f_l s))) = ∅;
  tx_dirty : dirties (l_b (f_l s)) (logged (f_l s));
  tx_out : 1 <= lg_outstanding (f_l s);
  tx_size : lg_size (f_l s) <= NBUF;
  tx_len : forall n, length (blk s n) = Z.to_nat BSIZE
}.

(** Buffer [i] holds block [n] with data [d], which is logged or on disk. *)
Record holds (s : fs) (i : nat) (n : Z) (d : bytes) : Prop := {
  ho_block : b_blockno (slot s i) = n;
  ho_data : b_data (slot s i) = d;
  ho_sync : clean (slot s i) -> d = block_of (disk (l_b (f_l s))) n
}.

(** Nothing but the cache has changed, and the buffers in [O] not at all. *)
Record steady (O : gset nat) (s s' : fs) : Prop := {
  st_blk : forall n, blk s' n = blk s n;
  st_disk : disk (l_b (f_l s')) = disk (l_b (f_l s));
  st_nblk : nblk s' = nblk s;
  st_conf : log_conf (f_l s') = log_conf (f_l s);
  st_logged : logged (f_l s') = logged (f_l s);
  st_n : lh_n (f_l s') = lh_n (f_l s);
  st_pay : forall j, j ∈ O -> payload (slot s' j) = payload (slot s j);
  st_sb : f_sb s' = f_sb s;
  st_icache : f_icache s' = f_icache s;
  st_writes : writes (l_b (f_l s')) = writes (l_b (f_l s))
}.

Lemma steady_refl O s : steady O s s.
Proof. by constructor. Qed.

Lemma steady_trans O s s1 s2 : steady O s s1 -> steady O s1 s2 -> steady O s s2.
Proof.
  intros A B. constructor; intros.
  - by rewrite (st_blk _ _ _ B), (st_blk _ _ _ A).
  - by rewrite (st_disk _ _ _ B), (st_disk _ _ _ A).
  - by rewrite (st_nblk _ _ _ B), (st_nblk _ _ _ A).
  - by rewrite (st_conf _ _ _ B), (st_conf _ _ _ A).
  - by rewrite (st_logged _ _ _ B), (st_logged _ _ _ A).
  - by rewrite (st_n _ _ _ B), (st_n _ _ _ A).
  - by rewrite (st_pay _ _ _ B), (st_pay _ _ _ A).
  - by rewrite (st_sb _ _ _ B), (st_sb _ _ _ A).
  - by rewrite (st_icache _ _ _ B), (st_icache _ _ _ A).
  - by rewrite (st_writes _ _ _ B), (st_writes _ _ _ A).
Qed.

Lemma steady_weaken O O' s s' : O' ⊆ O -> steady O s s' -> steady O' s s'.
Proof. intros Hs A. destruct A. constructor; try done. set_solver. Qed.

Lemma holds_steady O s s' i n d : steady O s s' -> i ∈ O -> holds s i n d -> holds s' i n d.
Proof.
  intros A Hi [Hb Hd Hs]. destruct (payload_inv _ _ (st_pay _ _ _ A i Hi)) as (F & _ & N & D).
  constructor; [by rewrite N|by rewrite D|]. unfold clean. rewrite F, (st_disk _ _ _ A). done.
Qed.

(** How many more blocks the log takes. *)
Definition room (s : fs) (k : Z) : Prop := lh_n (f_l s) + k < lg_size (f_l s) /\ lh_n (f_l s) + k < NBUF.

Lemma room_le s k k' : room s k -> k' <= k -> room s k'.
Proof. unfold room. lia. Qed.

Lemma room_steady O s s' k : steady O s s' -> room s k -> room s' k.
Proof.
  intros A. pose proof (st_conf _ _ _ A) as E. injection E as _ E2 _ _ _.
  unfold room. by rewrite (st_n _ _ _ A), E2.
Qed.

(** Blocks outside the log. *)
Definition home (s : fs) (n : Z) : Prop := 0 <= n < nblk s /\ ~ in_log (f_l s) n.

Lemma home_steady O s s' n : steady O s s' -> home s n -> home s' n.
Proof.
  intros A. pose proof (st_conf _ _ _ A) as E. injection E as E1 E2 _ _ _.
  unfold home, in_log. by rewrite (st_nblk _ _ _ A), E1, E2.
Qed.

(** Running a cache operation on the file system. *)
Definition with_b (b : bst) (s : fs) : fs := put (put b (f_l s) : lst) s.

Lemma on_cache {A} (m : M bst A) s a b :
  m (l_b (f_l s)) = Ok a b -> lift (T := bst) m s = Ok a (with_b b s).
Proof. intros E. unfold lift. change (view s) with (l_b (f_l s)). by rewrite E. Qed.

Lemma log_ok_b l b : log_ok l -> disksize b = disksize (l_b l) -> log_ok (put (S := lst) b l).
Proof. intros [] E. constructor; cbn; rewrite ?E; done. Qed.

Lemma conf_b b s : log_conf (f_l (with_b b s)) = log_conf (f_l s).
Proof. done. Qed.

Lemma fbread_ok s O n :
  txn s O -> 0 <= n < nblk s -> (forall j, j ∈ O -> b_blockno (slot s j) <> n) -> room s (Z.of_nat (size O)) ->
  exists i s', fbread 1 n s = Ok i s' /\ (i ∉ O) /\ txn s' ({[i]} ∪ O) /\ holds s' i n (blk s n) /\ steady O s s'.
Proof.
  intros T Hn HO [_ Hr]. pose proof T as [Hok (ord & I) Hh Hd Ho Hs Hl]. pose proof (lo_n _ Hok) as Hn0.
  destruct (bread_ok (l_b (f_l s)) ord O I Hh n Hn) as (i & b & E & I' & P).
  - intros j (_ & _ & Hj) HjO. by destruct (HO j HjO).
  - right. apply (free_exists _ ord O (logged (f_l s)) I); [intros; by apply Hd|].
    rewrite (logged_length _ Hok). unfold HEAD. lia.
  - destruct (bread_wrote _ _ _ _ _ P) as [W X]. pose proof (bp_cached _ _ _ _ _ P) as (_ & _ & Hbn).
    pose proof (wr_disk _ _ _ W) as Wd. pose proof (wr_size _ _ _ W) as Ws. cbn in Wd.
    exists i, (with_b b s). split; [by apply on_cache|]. split; [apply P|]. split; [|split].
    + constructor; cbn.
      * by apply log_ok_b.
      * by exists ord.
      * by rewrite X.
      * change (logged _) with (logged (f_l s)). by apply (bread_dirties _ _ _ _ _ _ P).
      * done.
      * done.
      * intros m. unfold blk. cbn. rewrite (bp_content _ _ _ _ _ P). apply Hl.
    + constructor; [done|apply P|]. intros Hc. unfold blk. rewrite <- (bp_data _ _ _ _ _ P). by apply (bp_sync _ _ _ _ _ P).
    + constructor; try done; [apply P| |].
      * intros j Hj. unfold slot. cbn. rewrite (bp_others _ _ _ _ _ P); [done|]. intros ->. by apply (bp_fresh _ _ _ _ _ P).
      * cbn. by rewrite (wr_writes _ _ _ W), app_nil_r.
Qed.

Lemma bdata_ok s i n d : holds s i n d -> bdata i s = Ok d s.
Proof.
  intros [_ Hd _]. unfold bdata, field, gets, lift. cbn [lift_result]. f_equal; [done|].
  exact (put_view (S := fs) (T := bst) s).
Qed.

Lemma fbrelse_ok s O i n d :
  txn s O -> i ∈ O -> holds s i n d ->
  exists s', fbrelse i s = Ok tt s' /\ txn s' (O ∖ {[i]}) /\ steady O s s'.
Proof.
  intros [Hok (ord & I) Hh Hd Ho Hs Hl] Hi [Hb Hdat Hsy].
  destruct (brelse_ok (l_b (f_l s)) ord O I Hh i Hi) as (b & l1 & l2 & Hord & E & I' & P).
  { intros Hc. change (getb (l_b (f_l s)) i) with (slot s i). rewrite Hdat, Hb. by apply Hsy. }
  assert (Hc : forall m, content b m = content (l_b (f_l s)) m) by (apply content_payload; apply P).
  exists (with_b b s). split; [by apply on_cache|]. split.
  - constructor; cbn.
    + apply log_ok_b; [done|apply P].
    + by eexists.
    + by rewrite (rp_held _ _ P).
    + change (logged _) with (logged (f_l s)). by apply (brelse_dirties _ _ _ P).
    + done.
    + done.
    + intros m. unfold blk. cbn. rewrite Hc. apply Hl.
  - constructor; try done; [apply P|apply P| |apply P]. intros j _. apply P.
Qed.

(** One block has new contents, in the cache and in the log; the buffers in
    [O] have not changed. *)
Record changed (O : gset nat) (n : Z) (d : bytes) (s s' : fs) : Prop := {
  ch_blk : forall m, blk s' m = if decide (m = n) then d else blk s m;
  ch_nblk : nblk s' = nblk s;
  ch_conf : log_conf (f_l s') = log_conf (f_l s);
  ch_logged : logged (f_l s') = absorbed (logged (f_l s)) n;
  ch_disk : disk (l_b (f_l s')) = disk (l_b (f_l s));
  ch_pay : forall j, j ∈ O -> payload (slot s' j) = payload (slot s j);
  ch_sb : f_sb s' = f_sb s;
  ch_icache : f_icache s' = f_icache s;
  ch_writes : writes (l_b (f_l s')) = writes (l_b (f_l s))
}.

Lemma steady_changed O n d s s1 s2 : steady O s s1 -> changed O n d s1 s2 -> changed O n d s s2.
Proof.
  intros A B. constructor; intros.
  - by rewrite (ch_blk _ _ _ _ _ B), (st_blk _ _ _ A).
  - by rewrite (ch_nblk _ _ _ _ _ B), (st_nblk _ _ _ A).
  - by rewrite (ch_conf _ _ _ _ _ B), (st_conf _ _ _ A).
  - by rewrite (ch_logged _ _ _ _ _ B), (st_logged _ _ _ A).
  - by rewrite (ch_disk _ _ _ _ _ B), (st_disk _ _ _ A).
  - by rewrite (ch_pay _ _ _ _ _ B), (st_pay _ _ _ A).
  - by rewrite (ch_sb _ _ _ _ _ B), (st_sb _ _ _ A).
  - by rewrite (ch_icache _ _ _ _ _ B), (st_icache _ _ _ A).
  - by rewrite (ch_writes _ _ _ _ _ B), (st_writes _ _ _ A).
Qed.

Lemma changed_steady O n d s s1 s2 : changed O n d s s1 -> steady O s1 s2 -> changed O n d s s2.
Proof.
  intros A B. constructor; intros.
  - by rewrite (st_blk _ _ _ B), (ch_blk _ _ _ _ _ A).
  - by rewrite (st_nblk _ _ _ B), (ch_nblk _ _ _ _ _ A).
  - by rewrite (st_conf _ _ _ B), (ch_conf _ _ _ _ _ A).
  - by rewrite (st_logged _ _ _ B), (ch_logged _ _ _ _ _ A).
  - by rewrite (st_disk _ _ _ B), (ch_disk _ _ _ _ _ A).
  - by rewrite (st_pay _ _ _ B), (ch_pay _ _ _ _ _ A).
  - by rewrite (st_sb _ _ _ B), (ch_sb _ _ _ _ _ A).
  - by rewrite (st_icache _ _ _ B), (ch_icache _ _ _ _ _ A).
  - by rewrite (st_writes _ _ _ B), (ch_writes _ _ _ _ _ A).
Qed.

Lemma changed_weaken O O' n d s s' : O' ⊆ O -> changed O n d s s' -> changed O' n d s s'.
Proof. intros Hs A. destruct A. constructor; try done. set_solver. Qed.

Lemma holds_changed O s s' i n d m e : changed O m e s s' -> i ∈ O -> holds s i n d -> holds s' i n d.
Proof.
  intros A Hi [Hb Hd Hs]. destruct (payload_inv _ _ (ch_pay _ _ _ _ _ A i Hi)) as (F & _ & N & D).
  constructor; [by rewrite N|by rewrite D|]. unfold clean. rewrite F, (ch_disk _ _ _ _ _ A). done.
Qed.

Lemma on_log {A} (m : M lst A) s a l :
  m (f_l s) = Ok a l -> lift (T := lst) m s = Ok a (put l s).
Proof. intros E. unfold lift. change (view s) with (f_l s). by rewrite E. Qed.

Lemma absorbed_len bs b : length (absorbed bs b) = if decide (b ∈ bs) then length bs else S (length bs).
Proof. unfold absorbed. case_decide; [done|]. rewrite length_app. cbn. lia. Qed.

Lemma put_block s O i n d0 d :
  txn s O -> i ∈ O -> holds s i n d0 -> length d = Z.to_nat BSIZE -> home s n -> room s 1 ->
  exists s1 s2, set_bdata d i s = Ok tt s1 /\ flog_write i s1 = Ok tt s2 /\
    txn s2 O /\ holds s2 i n d /\ changed (O ∖ {[i]}) n d s s2.
Proof.
  intros [Hok (ord & I) Hh Hd Ho Hs Hl] Hi [Hb Hdat Hsy] Hlen [Hn Hlog] [Hr1 Hr2].
  destruct (store_ok (l_b (f_l s)) ord O i d I Hi) as (b1 & E1 & U1).
  destruct (held_upd_ok _ ord O I i Hi _ _ U1) as (I1 & C1 & G1). destruct U1 as [Hb1 _].
  set (l1 := put (S := lst) b1 (f_l s)).
  assert (Hok1 : log_ok l1) by (apply log_ok_b; [done|by rewrite Hb1]).
  assert (Hh1 : held (bc_ctx b1) = ∅) by by rewrite Hb1.
  assert (Hd1 : dirties b1 (logged (f_l s))).
  { intros j Hj. rewrite G1. destruct (decide (i = j)) as [<-|]; by apply Hd. }
  assert (Hbn : b_blockno (getb b1 i) = n) by (rewrite G1, decide_True by done; exact Hb).
  assert (Hb1d : b_data (getb b1 i) = d) by by rewrite G1, decide_True.
  destruct (log_write_ok l1 ord O i Hok1 I1 Hh1 Hi Hd1) as
    (l2 & E2 & Hok2 & I2 & Hlg & Hd2 & Hdy & C2 & W & X & Hcf & G2); change (l_b l1) with b1 in *;
    change (lh_n l1) with (lh_n (f_l s)); change (lg_size l1) with (lg_size (f_l s));
    [unfold LOGSIZE, NBUF in *; lia|lia|done|done|by rewrite Hbn|].
  rewrite Hbn in Hlg. change (logged l1) with (logged (f_l s)) in Hlg.
  pose proof Hcf as Hcf'. injection Hcf' as Hc1 Hc2 Hc3 _ _.
  pose proof (wr_disk _ _ _ W) as Wd. pose proof (wr_size _ _ _ W) as Ws. cbn in Wd.
  exists (put l1 s), (put l2 s). split; [by apply on_cache|]. split.
  { unfold flog_write. rewrite (on_log _ (put l1 s) tt l2); [done|exact E2]. }
  assert (Hblk : forall m, blk (put l2 s) m = if decide (m = n) then d else blk s m).
  { intros m. unfold blk. cbn. rewrite C2, C1. change (getb (l_b (f_l s)) i) with (slot s i). by rewrite Hb. }
  split; [|split].
  - constructor; cbn; [done|by exists ord|by rewrite X|done| | |].
    + by rewrite Hc3.
    + by rewrite Hc2.
    + intros m. rewrite Hblk. by destruct (decide (m = n)).
  - constructor; unfold slot; cbn; [by rewrite G2, decide_True|by rewrite G2, decide_True|].
    intros Hc. unfold clean in Hc. rewrite Hdy in Hc. discriminate Hc.
  - constructor; try done.
    + unfold nblk. cbn. by rewrite Ws, Hb1.
    + cbn. by rewrite Wd, Hb1.
    + intros j Hj. unfold slot. cbn. by rewrite G2, decide_False, G1, decide_False by set_solver.
    + cbn. by rewrite (wr_writes _ _ _ W), Hb1, app_nil_r.
Qed.

Lemma changed_room O O1 O2 n d s s' k :
  txn s O1 -> txn s' O2 -> changed O n d s s' -> room s (k + 1) -> room s' k.
Proof.
  intros T T' S [H1 H2]. pose proof (ch_conf _ _ _ _ _ S) as E. injection E as _ E2 _ _ _.
  pose proof (f_equal length (ch_logged _ _ _ _ _ S)) as L.
  rewrite absorbed_len, (logged_length _ (tx_log _ _ T)), (logged_length _ (tx_log _ _ T')) in L. unfold room. rewrite E2.
  pose proof (lo_n _ (tx_log _ _ T)). pose proof (lo_n _ (tx_log _ _ T')). case_decide; lia.
Qed.

Lemma changed_home O n d s s' m : changed O n d s s' -> home s m -> home s' m.
Proof.
  intros S. pose proof (ch_conf _ _ _ _ _ S) as E. injection E as E1 E2 _ _ _.
  unfold home, in_log. by rewrite (ch_nblk _ _ _ _ _ S), E1, E2.
Qed.

(** * Whole accesses *)

Lemma minus_own (i : nat) (O : gset nat) : i ∉ O -> ({[i]} ∪ O) ∖ {[i]} = O.
Proof. set_solver. Qed.

(** [bp = bread(..); ... bp->data ...; brelse(bp)]. *)
Lemma read_block s O n :
  txn s O -> 0 <= n < nblk s -> (forall j, j ∈ O -> b_blockno (slot s j) <> n) -> room s (Z.of_nat (size O)) ->
  exists i s1 s2, fbread 1 n s = Ok i s1 /\ bdata i s1 = Ok (blk s n) s1 /\ fbrelse i s1 = Ok tt s2 /\
    txn s2 O /\ steady O s s2.
Proof.
  intros T Hn HO Hr. destruct (fbread_ok s O n T Hn HO Hr) as (i & s1 & E1 & Hi & T1 & Hh & S1).
  destruct (fbrelse_ok s1 _ i n _ T1 ltac:(set_solver+) Hh) as (s2 & E2 & T2 & S2).
  exists i, s1, s2. split; [done|]. split; [by eapply bdata_ok|]. split; [done|].
  rewrite minus_own in T2 by done. split; [done|].
  apply (steady_trans _ _ s1); [done|]. eapply steady_weaken; [|done]. set_solver+.
Qed.

(** [bp = bread(..); bp->data = ...; log_write(bp); brelse(bp)]. *)
Lemma write_block s O n d :
  txn s O -> home s n -> (forall j, j ∈ O -> b_blockno (slot s j) <> n) ->
  room s (1 + Z.of_nat (size O)) -> length d = Z.to_nat BSIZE ->
  exists i s1 s2 s3 s4, fbread 1 n s = Ok i s1 /\ bdata i s1 = Ok (blk s n) s1 /\ set_bdata d i s1 = Ok tt s2 /\
    flog_write i s2 = Ok tt s3 /\ fbrelse i s3 = Ok tt s4 /\ txn s4 O /\ changed O n d s s4.
Proof.
  intros T Hn HO Hr Hl.
  destruct (fbread_ok s O n T (proj1 Hn) HO ltac:(eapply room_le; [done|lia])) as (i & s1 & E1 & Hi & T1 & Hh & S1).
  destruct (put_block s1 _ i n _ d T1 ltac:(set_solver+) Hh Hl) as (s2 & s3 & E2 & E3 & T3 & Hh3 & C3).
  { by apply (home_steady O s). }
  { apply (room_steady O s); [done|]. eapply room_le; [done|lia]. }
  rewrite minus_own in C3 by done.
  destruct (fbrelse_ok s3 _ i n _ T3 ltac:(set_solver+) Hh3) as (s4 & E4 & T4 & S4). rewrite minus_own in T4 by done.
  exists i, s1, s2, s3, s4. split; [done|]. split; [by eapply bdata_ok|]. do 3 (split; [done|]). split; [done|].
  eapply changed_steady; [by eapply steady_changed|]. eapply steady_weaken; [|done]. set_solver+.
Qed.

(** * What a transaction has touched *)

(** Between two points of a transaction nothing has been written to the disk,
    and only blocks in [X] have been added to the log. *)
Record inside (X : Z -> Prop) (s s' : fs) : Prop := {
  in_disk : disk (l_b (f_l s')) = disk (l_b (f_l s));
  in_writes : writes (l_b (f_l s')) = writes (l_b (f_l s));
  in_nblk : nblk s' = nblk s;
  in_conf : log_conf (f_l s') = log_conf (f_l s);
  in_logged : forall b, b ∈ logged (f_l s') -> b ∈ logged (f_l s) \/ X b;
  in_nodup : NoDup (logged (f_l s)) -> NoDup (logged (f_l s'))
}.

Lemma inside_steady O X s s' : steady O s s' -> inside X s s'.
Proof. intros S. constructor; try apply S; rewrite (st_logged _ _ _ S); [by left|done]. Qed.

Lemma inside_changed O (X : Z -> Prop) n d s s' : changed O n d s s' -> X n -> inside X s s'.
Proof.
  intros C Hn. constructor; try apply C; rewrite (ch_logged _ _ _ _ _ C); unfold absorbed; case_decide as Hd.
  - by left.
  - intros b [Hb| ->%list_elem_of_singleton]%elem_of_app; [by left|by right].
  - done.
  - intros Hu. apply NoDup_app. split; [done|]. split; [|apply NoDup_singleton]. intros x Hx ->%list_elem_of_singleton. by apply Hd.
Qed.

Lemma inside_trans X s s1 s2 : inside X s s1 -> inside X s1 s2 -> inside X s s2.
Proof.
  intros [A1 A2 A3 A4 A5 A6] [B1 B2 B3 B4 B5 B6]. constructor; [by rewrite B1|by rewrite B2|by rewrite B3|by rewrite B4| |auto].
  intros b [Hb|Hb]%B5; [by apply A5|by right].
Qed.

Lemma inside_weaken (X Y : Z -> Prop) s s' : (forall b, X b -> Y b) -> inside X s s' -> inside Y s s'.
Proof. intros H [A1 A2 A3 A4 A5 A6]. constructor; try done. intros b [Hb|Hb]%A5; [by left|right; by apply H]. Qed.
