(* ===== verification/FsBlocks.v ===== *)
(** The block allocator of [fs.c]: [balloc] and [bfree] as operations on the
    set of blocks in use. *)

From S2P Require Import Prelude Params Spinlock Klock Bytes Bio Bcache Log Commit LogOps Fs Txn.
Open Scope Z_scope.
Open Scope xv6_scope.

(** * The bits of the free map *)

(** Is the bit [bi] of a block of the free map set? *)
Definition bit_of (d : bytes) (bi : Z) : bool := Z.testbit (byte d (Z.to_nat (bi / 8))) (bi mod 8).

Lemma land_bit x k : 0 <= k -> (Z.land x (Z.shiftl 1 k) =? 0) = negb (Z.testbit x k).
Proof.
  intros Hk. rewrite Z.shiftl_1_l. destruct (Z.testbit x k) eqn:E; cbn.
  - apply Z.eqb_neq. intros H. apply (f_equal (fun z => Z.testbit z k)) in H. cbv beta in H.
    rewrite Z.land_spec, E, Z.pow2_bits_true, Z.bits_0 in H by done. discriminate H.
  - apply Z.eqb_eq. apply Z.bits_inj'. intros n Hn. rewrite Z.land_spec, Z.bits_0.
    destruct (Z.eq_dec n k) as [->|]; [by rewrite E|]. by rewrite Z.pow2_bits_false, andb_false_r by lia.
Qed.

Lemma bit_test d bi : 0 <= bi -> (Z.land (byte d (Z.to_nat (bi / 8))) (bit bi) =? 0) = negb (bit_of d bi).
Proof. intros. unfold bit. apply land_bit. apply Z.mod_pos_bound. lia. Qed.

Lemma byte_insert d i j v :
  (i < length d)%nat -> 0 <= v < 256 -> byte (<[i := v]> d) j = if decide (i = j) then v else byte d j.
Proof.
  intros Hi Hv. unfold byte. rewrite list_lookup_insert. case_decide as E.
  - destruct E as [-> _]. rewrite decide_True by done. cbn. by apply u8_id.
  - destruct (decide (i = j)) as [->|]; [tauto|done].
Qed.

Lemma testbit_u8 x k : 0 <= k < 8 -> Z.testbit (u8 x) k = Z.testbit x k.
Proof. intros. unfold u8. by rewrite Z.mod_pow2_bits_low by lia. Qed.

Lemma same_byte bi bj : 0 <= bi -> 0 <= bj -> Z.to_nat (bi / 8) = Z.to_nat (bj / 8) -> bi mod 8 = bj mod 8 -> bi = bj.
Proof. intros. assert (bi / 8 = bj / 8) by (apply Z2Nat.inj; [zdiv|zdiv|done]). zdiv. Qed.

Section bits.
Context (d : bytes) (bi : Z) (Hd : length d = Z.to_nat BSIZE) (Hbi : 0 <= bi < BPB).

Lemma bit_index : (Z.to_nat (bi / 8) < length d)%nat.
Proof using Hd Hbi. rewrite Hd. unfold BPB, BSIZE in *. apply Z2Nat.inj_lt; zdiv. Qed.

Lemma bit_of_set bj : 0 <= bj -> bit_of (set_bit bi d) bj = bit_of d bj || (bj =? bi).
Proof using Hd Hbi.
  intros Hj. unfold bit_of, set_bit. rewrite byte_insert by (apply bit_index || apply u8_range).
  pose proof (Z.mod_pos_bound bj 8). pose proof (Z.mod_pos_bound bi 8).
  destruct (decide (Z.to_nat (bi / 8) = Z.to_nat (bj / 8))) as [E|E].
  - rewrite testbit_u8, Z.lor_spec, E by lia. f_equal. unfold bit. rewrite Z.shiftl_1_l.
    destruct (Z.eqb_spec bj bi) as [->|Hne]; [by rewrite Z.pow2_bits_true by lia|].
    rewrite Z.pow2_bits_false; [done|]. intros Hm. apply Hne, same_byte; [lia|lia|by symmetry|by symmetry].
  - destruct (Z.eqb_spec bj bi) as [->|]; [done|by rewrite orb_false_r].
Qed.

Lemma bit_of_clear bj : 0 <= bj -> bit_of (clear_bit bi d) bj = bit_of d bj && negb (bj =? bi).
Proof using Hd Hbi.
  intros Hj. unfold bit_of, clear_bit. rewrite byte_insert by (apply bit_index || apply u8_range).
  pose proof (Z.mod_pos_bound bj 8). pose proof (Z.mod_pos_bound bi 8).
  destruct (decide (Z.to_nat (bi / 8) = Z.to_nat (bj / 8))) as [E|E].
  - rewrite testbit_u8, Z.land_spec, Z.lnot_spec, E by lia. f_equal. f_equal. unfold bit. rewrite Z.shiftl_1_l.
    destruct (Z.eqb_spec bj bi) as [->|Hne]; [by rewrite Z.pow2_bits_true by lia|].
    rewrite Z.pow2_bits_false; [done|]. intros Hm. apply Hne, same_byte; [lia|lia|by symmetry|by symmetry].
  - destruct (Z.eqb_spec bj bi) as [->|]; [done|by rewrite andb_true_r].
Qed.

Lemma set_bit_length : length (set_bit bi d) = Z.to_nat BSIZE.
Proof using Hd. unfold set_bit. by rewrite length_insert. Qed.

Lemma clear_bit_length : length (clear_bit bi d) = Z.to_nat BSIZE.
Proof using Hd. unfold clear_bit. by rewrite length_insert. Qed.
End bits.

(** The scan of one block of the free map. *)
Lemma find_clear_spec d b size fuel bi :
  0 <= bi -> (Z.to_nat (BPB - bi) <= fuel)%nat ->
  match find_clear d b size bi fuel with
  | Some r => bi <= r < BPB /\ b + r < size /\ bit_of d r = false /\ forall k, bi <= k < r -> bit_of d k = true
  | None => forall k, bi <= k < BPB -> b + k < size -> bit_of d k = true
  end.
Proof.
  revert bi. induction fuel as [|fuel IH]; intros bi Hbi Hf; cbn [find_clear].
  - intros k Hk. lia.
  - destruct (Z.ltb_spec bi BPB) as [Hlt|]; cbn [andb]; [|intros; lia].
    destruct (Z.ltb_spec (b + bi) size) as [Hs|]; [|intros; lia].
    rewrite bit_test by done. destruct (bit_of d bi) eqn:Eb; cbn [negb].
    + specialize (IH (bi + 1) ltac:(lia) ltac:(lia)). destruct (find_clear d b size (bi + 1) fuel) as [r|].
      * destruct IH as (Hr & Hrs & Hrb & Hall). split; [lia|]. split; [done|]. split; [done|].
        intros k Hk. destruct (decide (k = bi)) as [->|]; [done|]. apply Hall. lia.
      * intros k Hk Hks. destruct (decide (k = bi)) as [->|]; [done|]. apply IH; lia.
    + split; [lia|]. split; [done|]. split; [done|]. intros; lia.
Qed.

(** * Blocks in use *)

Definition used (s : fs) (b : Z) : bool := bit_of (blk s (BBLOCK b (f_sb s))) (b mod BPB).

(** The layout the superblock describes: the free map lies outside the log,
    covers every block of the file system, and marks itself, the boot block,
    the superblock and the log as used. *)
Record layout (s : fs) : Prop := {
  la_size : 0 <= sb_size (f_sb s) <= nblk s;
  la_start : 0 <= sb_bmapstart (f_sb s);
  la_map : forall b, 0 <= b < sb_size (f_sb s) -> home s (b / BPB + sb_bmapstart (f_sb s));
  la_home : forall b, 0 <= b < sb_size (f_sb s) -> used s b = false -> home s b;
  la_data : forall b c, 0 <= b < sb_size (f_sb s) -> 0 <= c < sb_size (f_sb s) -> used s b = false ->
    b <> c / BPB + sb_bmapstart (f_sb s);
  la_sb : superblock_of (blk s 1) = f_sb s;
  la_sb_used : 1 < sb_size (f_sb s) /\ used s 1 = true /\ 1 < sb_bmapstart (f_sb s);
  la_boot : used s 0 = true
}.

Section layout.
Context (s : fs) (O : gset nat) (T : txn s O) (L : layout s).

Lemma BBLOCK_eq b : 0 <= b < sb_size (f_sb s) -> BBLOCK b (f_sb s) = b / BPB + sb_bmapstart (f_sb s).
Proof using T L.
  intros Hb. unfold BBLOCK. apply u32_id. pose proof (la_map s L b Hb) as [Hn _].
  pose proof (lo_disk _ (tx_log s O T)). unfold nblk in Hn. lia.
Qed.

Lemma BBLOCK_home b : 0 <= b < sb_size (f_sb s) -> home s (BBLOCK b (f_sb s)).
Proof using T L. intros Hb. rewrite BBLOCK_eq by done. by apply L. Qed.
End layout.

(** * [bzero] *)

Lemma zero_block_length : length zero_block = Z.to_nat BSIZE.
Proof. apply length_replicate. Qed.

Lemma bzero_ok s O n :
  txn s O -> home s n -> (forall j, j ∈ O -> b_blockno (slot s j) <> n) -> room s (1 + Z.of_nat (size O)) ->
  exists s', bzero 1 n s = Ok tt s' /\ txn s' O /\ changed O n zero_block s s'.
Proof.
  intros T Hn HO Hr.
  destruct (write_block s O n zero_block T Hn HO Hr zero_block_length) as (i & s1 & s2 & s3 & s4 & E1 & _ & E2 & E3 & E4 & T4 & C).
  exists s4. split; [|done]. unfold bzero. step E1. step E2. step E3. exact E4.
Qed.

(** * [balloc] *)

Lemma used_steady O s s' b : steady O s s' -> used s' b = used s b.
Proof. intros A. unfold used. by rewrite (st_sb _ _ _ A), (st_blk _ _ _ A). Qed.

Lemma layout_steady O s s' : steady O s s' -> layout s -> layout s'.
Proof.
  intros A [].
  constructor; rewrite ?(st_sb _ _ _ A), ?(st_nblk _ _ _ A), ?(st_blk _ _ _ A), ?(used_steady _ _ _ _ A); try done.
  - intros b Hb. apply (home_steady _ _ _ _ A). auto.
  - intros b Hb. rewrite (used_steady _ _ _ _ A). intros. apply (home_steady _ _ _ _ A). auto.
  - intros b c Hb Hc. rewrite (used_steady _ _ _ _ A). auto.
Qed.

(** A block that holds data: in use, outside the log, and neither the
    superblock nor part of the free map. *)
Record datablock (s : fs) (n : Z) : Prop := {
  db_range : 1 < n < sb_size (f_sb s);
  db_used : used s n = true;
  db_home : home s n;
  db_map : forall c, 0 <= c < sb_size (f_sb s) -> n <> c / BPB + sb_bmapstart (f_sb s)
}.

Lemma datablock_steady O s s' n : steady O s s' -> datablock s n -> datablock s' n.
Proof.
  intros A []. constructor; rewrite ?(st_sb _ _ _ A), ?(used_steady _ _ _ _ A); try done.
  by apply (home_steady _ _ _ _ A).
Qed.

(** The buffers a caller of the allocator may hold. *)
Definition data_held (s : fs) (O : gset nat) : Prop := forall j, j ∈ O -> datablock s (b_blockno (slot s j)).

Lemma data_held_steady O s s' : steady O s s' -> data_held s O -> data_held s' O.
Proof.
  intros A H j Hj. destruct (payload_inv _ _ (st_pay _ _ _ A j Hj)) as (_ & _ & -> & _).
  by eapply datablock_steady, H.
Qed.

(** The effect of an allocation. *)
Record allocated (O : gset nat) (b : Z) (s s' : fs) : Prop := {
  al_blk : forall m, blk s' m = if decide (m = b) then zero_block
    else if decide (m = BBLOCK b (f_sb s)) then set_bit (b mod BPB) (blk s m) else blk s m;
  al_nblk : nblk s' = nblk s;
  al_conf : log_conf (f_l s') = log_conf (f_l s);
  al_disk : disk (l_b (f_l s')) = disk (l_b (f_l s));
  al_pay : forall j, j ∈ O -> payload (slot s' j) = payload (slot s j);
  al_sb : f_sb s' = f_sb s;
  al_icache : f_icache s' = f_icache s;
  al_room : forall k, room s (k + 2) -> room s' k;
  al_inside : inside (fun x => x = b \/ x = BBLOCK b (f_sb s)) s s'
}.

Lemma steady_allocated O b s s1 s2 : steady O s s1 -> allocated O b s1 s2 -> allocated O b s s2.
Proof.
  intros A B. constructor; intros.
  - by rewrite (al_blk _ _ _ _ B), !(st_blk _ _ _ A), (st_sb _ _ _ A).
  - by rewrite (al_nblk _ _ _ _ B), (st_nblk _ _ _ A).
  - by rewrite (al_conf _ _ _ _ B), (st_conf _ _ _ A).
  - by rewrite (al_disk _ _ _ _ B), (st_disk _ _ _ A).
  - by rewrite (al_pay _ _ _ _ B), (st_pay _ _ _ A).
  - by rewrite (al_sb _ _ _ _ B), (st_sb _ _ _ A).
  - by rewrite (al_icache _ _ _ _ B), (st_icache _ _ _ A).
  - apply (al_room _ _ _ _ B). by apply (room_steady _ _ _ _ A).
  - apply (inside_trans _ _ s1); [by eapply inside_steady|]. rewrite <- (st_sb _ _ _ A). apply B.
Qed.

Lemma BPB_pos : 0 < BPB.
Proof. reflexivity. Qed.

(** Marking a free block and zeroing it. *)
Lemma claim_block s O b :
  txn s O -> layout s -> data_held s O -> 0 <= b < sb_size (f_sb s) -> used s b = false ->
  room s (2 + Z.of_nat (size O)) ->
  exists bp s1 s2 s3 s4 s5,
    fbread 1 (BBLOCK b (f_sb s)) s = Ok bp s1 /\ bdata bp s1 = Ok (blk s (BBLOCK b (f_sb s))) s1 /\
    set_bdata (set_bit (b mod BPB) (blk s (BBLOCK b (f_sb s)))) bp s1 = Ok tt s2 /\
    flog_write bp s2 = Ok tt s3 /\ fbrelse bp s3 = Ok tt s4 /\ bzero 1 b s4 = Ok tt s5 /\
    txn s5 O /\ allocated O b s s5.
Proof.
  intros T L HO Hb Hu Hr. pose proof (BBLOCK_home s O T L b Hb) as Hhome.
  pose proof (BBLOCK_eq s O T L b Hb) as EB. pose proof (Z.mod_pos_bound b BPB BPB_pos) as Hm.
  set (n := BBLOCK b (f_sb s)) in *. set (d := set_bit (b mod BPB) (blk s n)).
  destruct (write_block s O n d T Hhome) as (bp & s1 & s2 & s3 & s4 & E1 & E2 & E3 & E4 & E5 & T4 & C4).
  { intros j Hj. rewrite EB. by apply (HO j Hj). }
  { eapply room_le; [done|lia]. }
  { apply set_bit_length, T. }
  destruct (bzero_ok s4 O b T4) as (s5 & E6 & T5 & C5).
  { eapply changed_home; [done|]. by apply (la_home s L). }
  { intros j Hj. destruct (payload_inv _ _ (ch_pay _ _ _ _ _ C4 j Hj)) as (_ & _ & -> & _).
    intros E. pose proof (db_used _ _ (HO j Hj)) as Hx. rewrite E, Hu in Hx. discriminate Hx. }
  { eapply (changed_room O O O); [exact T|exact T4|exact C4|]. eapply room_le; [done|lia]. }
  exists bp, s1, s2, s3, s4, s5. do 6 (split; [done|]). split; [done|]. constructor; intros.
  - rewrite (ch_blk _ _ _ _ _ C5), (ch_blk _ _ _ _ _ C4). destruct (decide (m = b)); [done|].
    change (BBLOCK b (f_sb s)) with n. destruct (decide (m = n)) as [->|]; done.
  - by rewrite (ch_nblk _ _ _ _ _ C5), (ch_nblk _ _ _ _ _ C4).
  - by rewrite (ch_conf _ _ _ _ _ C5), (ch_conf _ _ _ _ _ C4).
  - by rewrite (ch_disk _ _ _ _ _ C5), (ch_disk _ _ _ _ _ C4).
  - by rewrite (ch_pay _ _ _ _ _ C5), (ch_pay _ _ _ _ _ C4).
  - by rewrite (ch_sb _ _ _ _ _ C5), (ch_sb _ _ _ _ _ C4).
  - by rewrite (ch_icache _ _ _ _ _ C5), (ch_icache _ _ _ _ _ C4).
  - eapply (changed_room O O O); [exact T4|exact T5|exact C5|].
    eapply (changed_room O O O); [exact T|exact T4|exact C4|]. eapply room_le; [done|lia].
  - apply (inside_trans _ _ s4); [by apply (inside_changed _ _ _ _ _ _ C4); right|by apply (inside_changed _ _ _ _ _ _ C5); left].
Qed.

Lemma balloc_loop_ok O fuel s q :
  txn s O -> layout s -> data_held s O -> room s (2 + Z.of_nat (size O)) -> 0 <= q ->
  (forall c, 0 <= c < q * BPB -> used s c = true) -> (exists b, 0 <= b < sb_size (f_sb s) /\ used s b = false) ->
  sb_size (f_sb s) < (q + Z.of_nat fuel) * BPB ->
  exists b s', balloc_loop 1 (q * BPB) fuel s = Ok b s' /\ txn s' O /\ 0 <= b < sb_size (f_sb s) /\
    used s b = false /\ (forall c, 0 <= c < b -> used s c = true) /\ allocated O b s s'.
Proof.
  pose proof BPB_pos as HB. revert s q. induction fuel as [|fuel IH]; intros s q T L HO Hr Hq Hall (b0 & Hb0 & Hu0) Hf.
  { destruct (decide (b0 < q * BPB)); [|lia]. rewrite Hall in Hu0 by lia. discriminate Hu0. }
  cbn [balloc_loop]. unfold bind at 1, gets. cbn [seqr].
  assert (Hge : q * BPB <= b0) by (destruct (Z.le_gt_cases (q * BPB) b0); [done|]; rewrite Hall in Hu0 by lia; discriminate Hu0).
  rewrite (proj2 (Z.ltb_lt (q * BPB) _)) by lia.
  assert (Hq0 : 0 <= q * BPB < sb_size (f_sb s)) by lia.
  assert (EB : forall r, 0 <= r < BPB -> q * BPB + r < sb_size (f_sb s) -> BBLOCK (q * BPB + r) (f_sb s) = BBLOCK (q * BPB) (f_sb s)).
  { intros r Hr0 Hlt. rewrite !(BBLOCK_eq s O T L) by lia. rewrite Z.div_add_l, Z.div_mul by lia.
    rewrite (Z.div_small r) by lia. lia. }
  assert (EM : forall r, 0 <= r < BPB -> (q * BPB + r) mod BPB = r).
  { intros r Hr0. rewrite Z.add_comm, Z.mod_add by lia. by apply Z.mod_small. }
  set (n := BBLOCK (q * BPB) (f_sb s)) in *.
  assert (Hub : forall r, 0 <= r < BPB -> q * BPB + r < sb_size (f_sb s) -> used s (q * BPB + r) = bit_of (blk s n) r).
  { intros r Hr0 Hlt. unfold used. by rewrite EB, EM by lia. }
  pose proof (find_clear_spec (blk s n) (q * BPB) (sb_size (f_sb s)) (Z.to_nat BPB) 0 ltac:(lia) ltac:(lia)) as Hfc.
  destruct (find_clear _ _ _ _ _) as [r|] eqn:Ef.
  - destruct Hfc as (Hr0 & Hlt & Hbit & Hbef). set (b := q * BPB + r).
    assert (Hu : used s b = false) by (unfold b; by rewrite Hub by lia).
    assert (Hb : 0 <= b < sb_size (f_sb s)) by (unfold b; lia).
    destruct (claim_block s O b T L HO Hb Hu Hr) as (bp & s1 & s2 & s3 & s4 & s5 & E1 & E2 & E3 & E4 & E5 & E6 & T5 & A).
    assert (EBb : BBLOCK b (f_sb s) = n) by (unfold b; apply EB; lia).
    assert (EMb : b mod BPB = r) by (unfold b; apply EM; lia).
    rewrite EBb in *. rewrite EMb in *.
    exists b, s5. split; [|split; [done|split; [done|split; [done|split; [|done]]]]].
    + step E1. step E2. rewrite Ef. step E3. step E4. step E5. by step E6.
    + intros c Hc. destruct (decide (c < q * BPB)); [apply Hall; lia|].
      replace c with (q * BPB + (c - q * BPB)) by lia. rewrite Hub by lia. apply Hbef. lia.
  - destruct (read_block s O n T) as (bp & s1 & s2 & E1 & E2 & E3 & T2 & S2).
    { apply (BBLOCK_home s O T L). lia. }
    { intros j Hj. unfold n. rewrite (BBLOCK_eq s O T L) by lia. apply (db_map _ _ (HO j Hj)). lia. }
    { eapply room_le; [done|lia]. }
    destruct (IH s2 (q + 1)) as (b & s' & E & T' & Hb & Hu & Hlow & A).
    { done. }
    { by eapply layout_steady. }
    { by eapply data_held_steady. }
    { by eapply room_steady. }
    { lia. }
    { intros c Hc. rewrite (used_steady _ _ _ _ S2). destruct (decide (c < q * BPB)); [apply Hall; lia|].
      destruct (decide (c < sb_size (f_sb s))) as [Hlt|Hge'].
      - replace c with (q * BPB + (c - q * BPB)) by lia. rewrite Hub by lia. apply Hfc; lia.
      - exfalso. assert (b0 < (q + 1) * BPB) by lia.
        assert (used s b0 = true); [|congruence]. replace b0 with (q * BPB + (b0 - q * BPB)) by lia.
        rewrite Hub by lia. apply Hfc; lia. }
    { exists b0. by rewrite (used_steady _ _ _ _ S2), (st_sb _ _ _ S2). }
    { rewrite (st_sb _ _ _ S2). lia. }
    exists b, s'. rewrite (st_sb _ _ _ S2) in Hb. rewrite (used_steady _ _ _ _ S2) in Hu.
    split; [|split; [done|split; [done|split; [done|split; [|by eapply steady_allocated]]]]].
    + step E1. step E2. rewrite Ef. step E3. replace (q * BPB + BPB) with ((q + 1) * BPB) by lia. exact E.
    + intros c Hc. rewrite <- (used_steady _ _ _ _ S2). by apply Hlow.
Qed.

(** [balloc] returns the first free block, zeroed and marked. *)
Lemma balloc_ok s O :
  txn s O -> layout s -> data_held s O -> room s (2 + Z.of_nat (size O)) ->
  (exists b, 0 <= b < sb_size (f_sb s) /\ used s b = false) ->
  exists b s', balloc 1 s = Ok b s' /\ txn s' O /\ 0 <= b < sb_size (f_sb s) /\
    used s b = false /\ (forall c, 0 <= c < b -> used s c = true) /\ allocated O b s s'.
Proof.
  intros T L HO Hr Hex. apply (balloc_loop_ok O _ s 0); try done; [lia|].
  pose proof (la_size s L). pose proof BPB_pos.
  pose proof (Z.mod_pos_bound (sb_size (f_sb s)) BPB BPB_pos). pose proof (Z.div_mod (sb_size (f_sb s)) BPB).
  assert (0 <= sb_size (f_sb s) / BPB) by (apply Z.div_pos; lia). lia.
Qed.

(** * What an allocation means *)

Section allocated.
Context (s s' : fs) (O O' : gset nat) (b : Z) (T : txn s O') (L : layout s) (A : allocated O b s s').
Context (Hb : 0 <= b < sb_size (f_sb s)) (Hu : used s b = false).

Lemma map_block_ne c : 0 <= c < sb_size (f_sb s) -> BBLOCK c (f_sb s) <> b.
Proof using T L Hb Hu.
  intros Hc E. rewrite (BBLOCK_eq s O' T L) in E by done. by apply (la_data s L b c Hb Hc Hu).
Qed.

Lemma used_allocated c : 0 <= c < sb_size (f_sb s) -> used s' c = used s c || (c =? b).
Proof using All.
  intros Hc. unfold used. rewrite (al_sb _ _ _ _ A), (al_blk _ _ _ _ A), decide_False by by apply map_block_ne.
  pose proof (Z.mod_pos_bound b BPB BPB_pos). pose proof (Z.mod_pos_bound c BPB BPB_pos).
  destruct (decide (BBLOCK c (f_sb s) = BBLOCK b (f_sb s))) as [E|E].
  - rewrite bit_of_set by first [lia|apply (tx_len s O' T)]. rewrite E. f_equal.
    rewrite !(BBLOCK_eq s O' T L) in E by done.
    destruct (Z.eqb_spec (c mod BPB) (b mod BPB)), (Z.eqb_spec c b) as [->|Hne]; try done.
    destruct Hne. rewrite (Z.div_mod c BPB), (Z.div_mod b BPB) by (by intros X). lia.
  - destruct (Z.eqb_spec c b) as [->|]; [done|]. by rewrite orb_false_r.
Qed.

Lemma conf_home c : home s c -> home s' c.
Proof using A.
  pose proof (al_conf _ _ _ _ A) as E. injection E as E1 E2 _ _ _.
  unfold home, in_log. by rewrite (al_nblk _ _ _ _ A), E1, E2.
Qed.

Lemma layout_allocated : layout s'.
Proof using All.
  pose proof L as [H1 H2 H3 H4 H5 H6 (H7 & H8 & H9) H10].
  constructor; rewrite ?(al_sb _ _ _ _ A), ?(al_nblk _ _ _ _ A).
  - done.
  - done.
  - intros c Hc. by apply conf_home, H3.
  - intros c Hc. rewrite used_allocated by done. intros [Hf _]%orb_false_iff. by apply conf_home, H4.
  - intros c e Hc He. rewrite used_allocated by done. intros [Hf _]%orb_false_iff. by apply H5.
  - rewrite (al_blk _ _ _ _ A). rewrite decide_False by (intros <-; congruence).
    rewrite decide_False; [done|]. rewrite (BBLOCK_eq s O' T L) by done.
    assert (0 <= b / BPB) by (apply Z.div_pos; [lia|apply BPB_pos]). lia.
  - split; [done|]. split; [|done]. by rewrite used_allocated, H8 by lia.
  - by rewrite used_allocated, H10 by lia.
Qed.

Lemma datablock_allocated c : datablock s c -> datablock s' c.
Proof using All.
  intros [H1 H2 H3 H4]. constructor; rewrite ?(al_sb _ _ _ _ A); [done| |by apply conf_home|done].
  rewrite used_allocated by lia. by rewrite H2.
Qed.

Lemma datablock_new : datablock s' b.
Proof using All.
  pose proof (la_sb_used s L) as (_ & H1 & _). pose proof (la_boot s L) as H0.
  constructor; rewrite ?(al_sb _ _ _ _ A).
  - destruct (decide (b = 0)) as [->|]; [congruence|]. destruct (decide (b = 1)) as [->|]; [congruence|]. lia.
  - rewrite used_allocated, Hu by done. apply Z.eqb_refl.
  - by apply conf_home, (la_home s L).
  - intros c Hc. by apply (la_data s L).
Qed.

(** The data blocks keep their contents, and the new one is zero. *)
Lemma blk_allocated c : datablock s c -> blk s' c = blk s c.
Proof using All.
  intros [H1 H2 _ H3]. rewrite (al_blk _ _ _ _ A). rewrite decide_False by (intros ->; congruence).
  rewrite decide_False; [done|]. rewrite (BBLOCK_eq s O' T L) by done. by apply H3.
Qed.

Lemma blk_new : blk s' b = zero_block.
Proof using A. rewrite (al_blk _ _ _ _ A). by rewrite decide_True. Qed.
End allocated.

(** * [bfree] *)

Lemma lift_result_put {S T A} `{Lens S T} (r : result T A) (t : T) (s : S) :
  lift_result (put t s) r = lift_result s r.
Proof. destruct r; cbn; rewrite ?put_put; done. Qed.

Lemma lift_bind_ok {S T A B} `{Lens S T} (m : M T A) (f : A -> M T B) (s s1 : S) a :
  lift m s = Ok a s1 -> lift (bind m f) s = lift (f a) s1.
Proof.
  unfold lift, bind. destruct (m (view s)) as [a' t| | | |]; cbn; try done. intros [= <- <-].
  by rewrite lift_result_put, view_put.
Qed.

Lemma freadsb_ok s O :
  txn s O -> layout s -> data_held s O -> room s (Z.of_nat (size O)) ->
  exists s', freadsb 1 s = Ok tt s' /\ txn s' O /\ steady O s s'.
Proof.
  intros T L HO Hr. destruct (la_sb_used s L) as (Hs & _). pose proof (la_size s L).
  assert (H1 : forall j, j ∈ O -> b_blockno (slot s j) <> 1) by (intros j Hj; pose proof (db_range _ _ (HO j Hj)); lia).
  destruct (read_block s O 1 T ltac:(lia) H1 Hr) as (i & s1 & s2 & E1 & E2 & E3 & T2 & S2).
  unfold freadsb. assert (E : lift (T := bst) (readsb 1) s = Ok (f_sb s) s2).
  { unfold readsb. rewrite (lift_bind_ok (S := fs) (T := bst) _ _ _ _ _ E1), (lift_bind_ok (S := fs) (T := bst) _ _ _ _ _ E2).
    rewrite (lift_bind_ok (S := fs) (T := bst) _ _ _ _ _ E3). unfold lift, ret. cbn [lift_result]. rewrite (la_sb s L).
    f_equal. exact (put_view (S := fs) (T := bst) s2). }
  step E. exists s2. split; [|done]. unfold modify. f_equal. rewrite <- (st_sb _ _ _ S2). by destruct s2.
Qed.

Section bfree.
Context (s : fs) (O : gset nat) (b : Z).
Context (T : txn s O) (L : layout s) (HO : data_held s O).
Context (Hb : 0 <= b < sb_size (f_sb s)).

(** The effect of freeing a block. *)
Record freed (s' : fs) : Prop := {
  fr_blk : forall m, blk s' m = if decide (m = BBLOCK b (f_sb s)) then clear_bit (b mod BPB) (blk s m) else blk s m;
  fr_nblk : nblk s' = nblk s;
  fr_conf : log_conf (f_l s') = log_conf (f_l s);
  fr_sb : f_sb s' = f_sb s;
  fr_icache : f_icache s' = f_icache s
}.

Lemma bfree_changed :
  used s b = true -> room s (1 + Z.of_nat (size O)) ->
  exists s', bfree 1 b s = Ok tt s' /\ txn s' O /\
    changed O (BBLOCK b (f_sb s)) (clear_bit (b mod BPB) (blk s (BBLOCK b (f_sb s)))) s s'.
Proof using All.
  intros Hu Hr. destruct (freadsb_ok s O T L HO ltac:(eapply room_le; [done|lia])) as (s1 & E1 & T1 & S1).
  pose proof (st_sb _ _ _ S1) as Esb. set (n := BBLOCK b (f_sb s)).
  pose proof (Z.mod_pos_bound b BPB BPB_pos) as Hm.
  destruct (write_block s1 O n (clear_bit (b mod BPB) (blk s1 n)) T1) as (i & s2 & s3 & s4 & s5 & E2 & E3 & E4 & E5 & E6 & T5 & C5).
  { apply (home_steady _ _ _ _ S1). by apply (BBLOCK_home s O T L). }
  { intros j Hj. destruct (payload_inv _ _ (st_pay _ _ _ S1 j Hj)) as (_ & _ & -> & _).
    unfold n. rewrite (BBLOCK_eq s O T L) by done. by apply (HO j Hj). }
  { by apply (room_steady _ _ _ _ S1). }
  { apply clear_bit_length, T1. }
  exists s5. split; [|split; [done|rewrite <- (st_blk _ _ _ S1); by eapply steady_changed]].
  unfold bfree. step E1. unfold bind at 1, gets. cbn [seqr]. rewrite Esb. fold n. step E2. step E3.
  rewrite bit_test by lia. unfold used in Hu. fold n in Hu. rewrite (st_blk _ _ _ S1), Hu. cbn [negb].
  rewrite <- (st_blk _ _ _ S1). step E4. step E5. exact E6.
Qed.

Lemma changed_freed s' :
  changed O (BBLOCK b (f_sb s)) (clear_bit (b mod BPB) (blk s (BBLOCK b (f_sb s)))) s s' -> freed s'.
Proof.
  intros C. constructor; try apply C. intros m. rewrite (ch_blk _ _ _ _ _ C). by destruct (decide (m = _)) as [->|].
Qed.

Lemma bfree_ok :
  used s b = true -> room s (1 + Z.of_nat (size O)) -> exists s', bfree 1 b s = Ok tt s' /\ txn s' O /\ freed s'.
Proof using All. intros Hu Hr. destruct (bfree_changed Hu Hr) as (s' & E & T' & C). exists s'. split; [done|]. split; [done|]. by apply changed_freed. Qed.

(** Freeing a block twice is caught. *)
Lemma bfree_twice :
  used s b = false -> room s (1 + Z.of_nat (size O)) -> bfree 1 b s = Panic "freeing free block".
Proof using All.
  intros Hu Hr. destruct (freadsb_ok s O T L HO ltac:(eapply room_le; [done|lia])) as (s1 & E1 & T1 & S1).
  pose proof (st_sb _ _ _ S1) as Esb. set (n := BBLOCK b (f_sb s)). pose proof (Z.mod_pos_bound b BPB BPB_pos) as Hm.
  destruct (read_block s1 O n T1) as (i & s2 & s3 & E2 & E3 & _).
  { apply (home_steady _ _ _ _ S1). by apply (BBLOCK_home s O T L). }
  { intros j Hj. destruct (payload_inv _ _ (st_pay _ _ _ S1 j Hj)) as (_ & _ & -> & _).
    unfold n. rewrite (BBLOCK_eq s O T L) by done. by apply (HO j Hj). }
  { apply (room_steady _ _ _ _ S1). eapply room_le; [done|lia]. }
  unfold bfree. step E1. unfold bind at 1, gets. cbn [seqr]. rewrite Esb. fold n. step E2. step E3.
  rewrite bit_test by lia. unfold used in Hu. fold n in Hu. by rewrite (st_blk _ _ _ S1), Hu.
Qed.

Lemma used_freed s' c : freed s' -> 0 <= c < sb_size (f_sb s) -> used s' c = used s c && negb (c =? b).
Proof using T L Hb.
  intros A Hc. unfold used. rewrite (fr_sb _ A), (fr_blk _ A).
  pose proof (Z.mod_pos_bound b BPB BPB_pos). pose proof (Z.mod_pos_bound c BPB BPB_pos).
  destruct (decide (BBLOCK c (f_sb s) = BBLOCK b (f_sb s))) as [E|E].
  - rewrite bit_of_clear by first [lia|apply (tx_len s O T)]. f_equal. f_equal.
    rewrite !(BBLOCK_eq s O T L) in E by done.
    destruct (Z.eqb_spec (c mod BPB) (b mod BPB)), (Z.eqb_spec c b) as [->|Hne]; try done.
    destruct Hne. rewrite (Z.div_mod c BPB), (Z.div_mod b BPB) by (by intros X). lia.
  - destruct (Z.eqb_spec c b) as [->|]; [done|]. by rewrite andb_true_r.
Qed.
End bfree.
