(* ===== verification/FsRead.v ===== *)
(** File contents, [fs.c]: the map from file blocks to disk blocks, and
    [readi]. *)

From S2P Require Import Prelude Params Spinlock Klock Bytes Bio Bcache Log Commit LogOps Fs Txn FsBlocks.
Open Scope Z_scope.
Open Scope xv6_scope.

(** The disk block holding block [bn] of a file; 0 if there is none. *)
Definition addr_of (s : fs) (ip : inode) (bn : Z) : Z :=
  if bn <? Z.of_nat NDIRECT then default 0 (i_addrs ip !! Z.to_nat bn)
  else let a := default 0 (i_addrs ip !! NDIRECT) in
       if a =? 0 then 0 else get32 (blk s a) (4 * Z.to_nat (bn - Z.of_nat NDIRECT)).

(** The byte of a file at an offset. *)
Definition fbyte (s : fs) (ip : inode) (k : Z) : Z :=
  default 0 (blk s (addr_of s ip (k / BSIZE)) !! Z.to_nat (k mod BSIZE)).

Definition zseq (from : Z) (n : nat) : list Z := (fun k => from + Z.of_nat k) <$> seq 0 n.

Definition fslice (s : fs) (ip : inode) (off : Z) (n : nat) : bytes := fbyte s ip <$> zseq off n.

Lemma zseq_app from n m : zseq from (n + m) = zseq from n ++ zseq (from + Z.of_nat n) m.
Proof.
  unfold zseq. rewrite seq_app, fmap_app. f_equal. cbn. rewrite <- (Nat.add_0_r n) at 1.
  rewrite <- fmap_add_seq, <- list_fmap_compose. apply list_fmap_ext. intros ? k _. cbn. lia.
Qed.

Lemma zseq_length from n : length (zseq from n) = n.
Proof. unfold zseq. by rewrite length_fmap, length_seq. Qed.

Lemma zseq_lookup from n k : (k < n)%nat -> zseq from n !! k = Some (from + Z.of_nat k).
Proof. intros. unfold zseq. rewrite list_lookup_fmap, lookup_seq_lt by done. done. Qed.

Lemma fslice_app s ip off n m : fslice s ip off (n + m) = fslice s ip off n ++ fslice s ip (off + Z.of_nat n) m.
Proof. unfold fslice. by rewrite zseq_app, fmap_app. Qed.

Lemma fslice_length s ip off n : length (fslice s ip off n) = n.
Proof. unfold fslice. by rewrite length_fmap, zseq_length. Qed.

(** A piece of one block. *)
Lemma fslice_block s ip off m d :
  0 <= off -> blk s (addr_of s ip (off / BSIZE)) = d -> length d = Z.to_nat BSIZE ->
  Z.of_nat m <= BSIZE - off mod BSIZE ->
  fslice s ip off m = take m (drop (Z.to_nat (off mod BSIZE)) d).
Proof.
  intros Ho Hd Hl Hm. pose proof (Z.mod_pos_bound off BSIZE ltac:(reflexivity)) as Hb. unfold BSIZE in *.
  apply list_eq_same_length with m; [rewrite length_take, length_drop; lia|apply fslice_length|].
  intros k x y Hk. unfold fslice. rewrite list_lookup_fmap, zseq_lookup by done. cbn. intros [= <-].
  rewrite lookup_take_lt, lookup_drop by done. unfold fbyte, BSIZE.
  assert (E1 : (off + Z.of_nat k) / 512 = off / 512) by zdiv.
  assert (E2 : (off + Z.of_nat k) mod 512 = off mod 512 + Z.of_nat k) by zdiv.
  rewrite E1, E2, Hd. rewrite Z2Nat.inj_add, Nat2Z.id by lia. intros E. by rewrite E.
Qed.

Lemma addr_of_steady O s s' ip bn : steady O s s' -> addr_of s' ip bn = addr_of s ip bn.
Proof. intros A. unfold addr_of. by rewrite (st_blk _ _ _ A). Qed.

Lemma fbyte_steady O s s' ip k : steady O s s' -> fbyte s' ip k = fbyte s ip k.
Proof. intros A. unfold fbyte. by rewrite (addr_of_steady _ _ _ _ _ A), (st_blk _ _ _ A). Qed.

Lemma fslice_steady O s s' ip off n : steady O s s' -> fslice s' ip off n = fslice s ip off n.
Proof. intros A. unfold fslice. apply list_fmap_ext. intros. by apply (fbyte_steady O). Qed.

Lemma geti_steady O s s' i : steady O s s' -> geti s' i = geti s i.
Proof. intros A. unfold geti. by rewrite (st_icache _ _ _ A). Qed.

Lemma ifield_ok {A} (f : inode -> A) i s : ifield f i s = Ok (f (geti s i)) s.
Proof. done. Qed.

(** The block numbers in an inode lie on the disk. *)
Record addrs_ok (s : fs) (ip : inode) : Prop := {
  ao_dev : i_dev ip = 1;
  ao_ind : 0 <= default 0 (i_addrs ip !! NDIRECT) < nblk s;
  ao_blk : forall bn, 0 <= bn < MAXFILE -> 0 <= addr_of s ip bn < nblk s
}.

Lemma addrs_ok_steady O s s' ip : steady O s s' -> addrs_ok s ip -> addrs_ok s' ip.
Proof.
  intros A []. constructor; rewrite ?(st_nblk _ _ _ A); try done.
  intros bn Hb. rewrite (addr_of_steady O s s') by done. auto.
Qed.

Lemma no_own (s : fs) (n : Z) : forall j, j ∈ (∅ : gset nat) -> b_blockno (slot s j) <> n.
Proof. set_solver+. Qed.

(** [bmap] of a block that exists. *)
Lemma bmap_present s i bn :
  txn s ∅ -> room s 1 -> addrs_ok s (geti s i) -> 0 <= bn < MAXFILE -> addr_of s (geti s i) bn <> 0 ->
  exists s', bmap i bn s = Ok (addr_of s (geti s i) bn) s' /\ txn s' ∅ /\ steady ∅ s s'.
Proof.
  intros T Hr Ha Hbn Hnz. unfold bmap. step (@ifield_ok inode id i s). unfold addr_of in *. cbn [id].
  set (ip := geti s i) in *. destruct (Z.ltb_spec bn (Z.of_nat NDIRECT)) as [Hd|Hd].
  - rewrite (proj2 (Z.eqb_neq _ _)) by done. exists s. split; [done|]. split; [done|apply steady_refl].
  - unfold MAXFILE in Hbn. rewrite (proj2 (Z.ltb_lt _ _)) by lia.
    set (a := default 0 (i_addrs ip !! NDIRECT)) in *. destruct (Z.eqb_spec a 0) as [E|Hna]; [done|].
    unfold bind at 1, ret at 1. cbn [seqr].
    destruct (read_block s ∅ a T) as (bp & s1 & s2 & E1 & E2 & E3 & T2 & S2).
    { pose proof (ao_ind _ _ Ha). fold ip a in H. lia. }
    { apply no_own. }
    { rewrite size_empty. eapply room_le; [done|lia]. }
    rewrite (ao_dev _ _ Ha). step E1. step E2. rewrite (proj2 (Z.eqb_neq _ _)) by done.
    unfold bind at 1, ret at 1. cbn [seqr]. step E3. exists s2. done.
Qed.

Section readi.
Context `{DevSw}.

(** The blocks of a range of the file exist. *)
Definition backed (s : fs) (ip : inode) (off : Z) (n : Z) : Prop :=
  forall k, off <= k < off + n -> addr_of s ip (k / BSIZE) <> 0.

Lemma readi_loop_ok i fuel s off left :
  txn s ∅ -> room s 1 -> addrs_ok s (geti s i) -> 0 <= off -> 0 <= left -> off + left <= MAXFILE * BSIZE ->
  backed s (geti s i) off left -> (Z.to_nat left < fuel)%nat ->
  exists s', readi_loop i off left fuel s = Ok (fslice s (geti s i) off (Z.to_nat left)) s' /\ txn s' ∅ /\ steady ∅ s s'.
Proof.
  revert s off left. induction fuel as [|fuel IH]; intros s off left T Hr Ha Ho Hl Hmax Hb Hf; [lia|].
  cbn [readi_loop]. destruct (Z.ltb_spec 0 left) as [Hpos|Hz].
  2:{ replace left with 0 by lia. exists s. split; [done|]. split; [done|apply steady_refl]. }
  step (@ifield_ok inode id i s). cbn [id]. set (ip := geti s i) in *.
  unfold MAXFILE, NDIRECT, NINDIRECT in Hmax.
  assert (Hbn : 0 <= off / BSIZE < MAXFILE) by (unfold BSIZE, MAXFILE, NDIRECT, NINDIRECT in *; zdiv).
  destruct (bmap_present s i (off / BSIZE) T Hr Ha Hbn) as (s1 & E1 & T1 & S1); [apply Hb; lia|]. fold ip in E1. step E1.
  set (a := addr_of s ip (off / BSIZE)) in *.
  assert (Han : 0 <= a < nblk s1) by (rewrite (st_nblk _ _ _ S1); by apply Ha).
  destruct (read_block s1 ∅ a T1 Han (no_own s1 a)) as (bp & s2 & s3 & E2 & E3 & E4 & T3 & S3).
  { rewrite size_empty. eapply room_le; [by eapply room_steady|lia]. }
  rewrite (ao_dev _ _ Ha). step E2. step E3. step E4. rewrite (st_blk _ _ _ S1).
  pose proof (steady_trans _ _ _ _ S1 S3) as S03. set (m := Z.min left (BSIZE - off mod BSIZE)).
  pose proof (Z.mod_pos_bound off BSIZE ltac:(reflexivity)) as Hmod.
  assert (Hm : 0 < m <= left) by (unfold m; lia).
  assert (Hg : geti s3 i = ip) by apply (geti_steady _ _ _ _ S03).
  rewrite u32_id by (unfold BSIZE in *; lia).
  destruct (IH s3 (off + m) (left - m)) as (s4 & E5 & T4 & S4); rewrite ?Hg; try done; try lia.
  { by eapply room_steady. }
  { by eapply addrs_ok_steady. }
  { unfold MAXFILE, NDIRECT, NINDIRECT. lia. }
  { intros k Hk. rewrite (addr_of_steady _ _ _ _ _ S03). apply Hb. lia. }
  step E5. exists s4. split; [|split; [done|by eapply steady_trans]]. unfold ret. f_equal.
  rewrite Hg, (fslice_steady _ _ _ _ _ _ S03).
  replace (Z.to_nat left) with (Z.to_nat m + Z.to_nat (left - m))%nat by lia. rewrite fslice_app, Z2Nat.id by lia.
  f_equal. symmetry. apply fslice_block; [lia|done|apply (tx_len _ _ T)|]. rewrite Z2Nat.id by lia. unfold m. lia.
Qed.

(** How many bytes a read returns. *)
Definition read_len (ip : inode) (off n : Z) : Z := Z.min n (i_size ip - off).

Lemma readi_ok s i off n :
  txn s ∅ -> room s 1 -> addrs_ok s (geti s i) -> i_type (geti s i) <> T_DEV ->
  0 <= i_size (geti s i) <= MAXFILE * BSIZE -> backed s (geti s i) 0 (i_size (geti s i)) ->
  0 <= off <= i_size (geti s i) -> 0 <= n -> off + n < 2 ^ 32 ->
  exists s', readi i off n s = Ok (read_len (geti s i) off n, fslice s (geti s i) off (Z.to_nat (read_len (geti s i) off n))) s' /\
    txn s' ∅ /\ steady ∅ s s'.
Proof.
  intros T Hr Ha Ht Hsz Hb Ho Hn Hov. unfold readi. step (@ifield_ok inode id i s). cbn [id].
  set (ip := geti s i) in *. rewrite (proj2 (Z.eqb_neq _ _)) by done.
  rewrite (proj2 (Z.ltb_ge _ _)) by lia. rewrite u32_id by lia. rewrite (proj2 (Z.ltb_ge (off + n) off)) by lia. cbn [orb].
  assert (El : (if i_size ip <? off + n then i_size ip - off else n) = read_len ip off n).
  { unfold read_len. destruct (Z.ltb_spec (i_size ip) (off + n)); lia. }
  rewrite El. assert (Hrl : 0 <= read_len ip off n <= i_size ip - off) by (unfold read_len; lia).
  destruct (readi_loop_ok i (S (Z.to_nat (read_len ip off n))) s off (read_len ip off n) T Hr Ha) as (s' & E & T' & S');
    fold ip; try lia.
  { intros k Hk. apply Hb. lia. }
  fold ip in E. step E. exists s'. split; [|done]. unfold ret. rewrite s32_id; [done|].
  unfold MAXFILE, NDIRECT, NINDIRECT, BSIZE in *. lia.
Qed.

(** Reads past the end of the file, and lengths that wrap around, fail. *)
Lemma readi_rejects s i off n :
  i_type (geti s i) <> T_DEV -> i_size (geti s i) < off \/ u32 (off + n) < off -> readi i off n s = Ok (-1, []) s.
Proof.
  intros Ht Hbad. unfold readi. step (@ifield_ok inode id i s). cbn [id]. rewrite (proj2 (Z.eqb_neq _ _)) by done.
  assert (((i_size (geti s i) <? off) || (u32 (off + n) <? off)) = true) as ->; [|done].
  apply orb_true_iff. lia.
Qed.
End readi.
