(* ===== verification/FsWrite.v ===== *)
(** File contents, [fs.c]: [bmap] allocating direct and indirect blocks, and
    the ownership of blocks by files that it keeps. *)

From S2P Require Import Prelude Params Spinlock Klock Bytes Bio Bcache Log Commit LogOps Fs Txn FsBlocks FsRead.
Open Scope Z_scope.
Open Scope xv6_scope.

(** * States that differ in the inode cache only *)

Definition same_blocks (s s' : fs) : Prop := f_l s' = f_l s /\ f_sb s' = f_sb s.

Lemma same_blk s s' n : same_blocks s s' -> blk s' n = blk s n.
Proof. intros [E _]. unfold blk. by rewrite E. Qed.

Lemma same_txn s s' O : same_blocks s s' -> txn s O -> txn s' O.
Proof. intros [E _] []. constructor; rewrite ?E; try done. unfold blk. by rewrite E. Qed.

Lemma same_layout s s' : same_blocks s s' -> layout s -> layout s'.
Proof.
  intros [E1 E2] []. constructor; unfold used, home, nblk, blk in *; rewrite ?E1, ?E2; done.
Qed.

Lemma same_datablock s s' n : same_blocks s s' -> datablock s n -> datablock s' n.
Proof. intros [E1 E2] []. constructor; unfold used, home, nblk, blk in *; rewrite ?E1, ?E2; done. Qed.

Lemma same_room s s' k : same_blocks s s' -> room s k -> room s' k.
Proof. intros [E _]. unfold room. by rewrite E. Qed.

(** * Free blocks *)

Definition free_ge (s : fs) (k : nat) : Prop :=
  exists l, NoDup l /\ (k <= length l)%nat /\ forall b, b ∈ l -> 0 <= b < sb_size (f_sb s) /\ used s b = false.

Lemma free_ge_some s k : free_ge s (S k) -> exists b, 0 <= b < sb_size (f_sb s) /\ used s b = false.
Proof. intros ([|b l] & _ & Hl & Hb); [cbn in Hl; lia|]. exists b. apply Hb. set_solver+. Qed.

Lemma free_ge_le s k k' : free_ge s k -> (k' <= k)%nat -> free_ge s k'.
Proof. intros (l & Hd & Hl & Hb) Hk. exists l. split; [done|]. split; [lia|done]. Qed.

Lemma filter_ne_length (l : list Z) b : NoDup l -> (length l <= S (length (filter (fun c => c <> b) l)))%nat.
Proof.
  induction 1 as [|x l Hx Hd IH]; [cbn; lia|]. rewrite filter_cons.
  destruct (decide (x <> b)) as [Hne|He]; cbn [length]; [lia|].
  assert (x = b) as -> by (destruct (decide (x = b)); tauto).
  replace (filter (fun c => c <> b) l) with l; [lia|]. clear IH Hd He. induction l as [|y l IH]; [done|].
  rewrite filter_cons, decide_True by set_solver. f_equal. apply IH. set_solver.
Qed.

Lemma free_ge_allocated O O' b s s' k :
  txn s O' -> layout s -> allocated O b s s' -> 0 <= b < sb_size (f_sb s) -> used s b = false ->
  free_ge s (S k) -> free_ge s' k.
Proof.
  intros T L A Hb Hu (l & Hd & Hl & Hf). exists (filter (fun c => c <> b) l). split; [by apply NoDup_filter|].
  split; [pose proof (filter_ne_length l b Hd); lia|]. intros c [Hc Hin]%list_elem_of_filter.
  destruct (Hf c Hin) as [Hr Hn]. rewrite (al_sb _ _ _ _ A). split; [done|].
  rewrite (used_allocated s s' O O' b T L A Hb Hu) by done. rewrite Hn. by apply Z.eqb_neq.
Qed.

Lemma free_ge_steady O s s' k : steady O s s' -> free_ge s k -> free_ge s' k.
Proof.
  intros A (l & Hd & Hl & Hf). exists l. split; [done|]. split; [done|]. intros b Hb.
  rewrite (st_sb _ _ _ A), (used_steady _ _ _ _ A). by apply Hf.
Qed.

Lemma inside_same X s s' : same_blocks s s' -> inside X s s'.
Proof. intros [E _]. constructor; unfold nblk; rewrite E; try done. by left. Qed.

Lemma same_free s s' k : same_blocks s s' -> free_ge s k -> free_ge s' k.
Proof. intros [E1 E2]. unfold free_ge, used, blk. by rewrite E1, E2. Qed.

(** * Inodes that own their blocks *)

Definition ind_of (ip : inode) : Z := default 0 (i_addrs ip !! NDIRECT).

Record file_wf (s : fs) (ip : inode) : Prop := {
  fw_dev : i_dev ip = 1;
  fw_len : length (i_addrs ip) = S NDIRECT;
  fw_data : forall bn, 0 <= bn < MAXFILE -> addr_of s ip bn <> 0 -> datablock s (addr_of s ip bn);
  fw_ind : ind_of ip <> 0 -> datablock s (ind_of ip);
  fw_inj : forall bn bn', 0 <= bn < MAXFILE -> 0 <= bn' < MAXFILE -> addr_of s ip bn <> 0 ->
    addr_of s ip bn = addr_of s ip bn' -> bn = bn';
  fw_ind_ne : ind_of ip <> 0 -> forall bn, 0 <= bn < MAXFILE -> addr_of s ip bn <> ind_of ip
}.

Lemma file_wf_addrs s ip : layout s -> file_wf s ip -> addrs_ok s ip.
Proof.
  intros L [H1 H2 H3 H4 _ _]. pose proof (la_size s L). pose proof (la_sb_used s L) as (? & _). constructor; [done| |].
  - fold (ind_of ip). destruct (decide (ind_of ip = 0)) as [->|Hn]; [lia|]. pose proof (db_range _ _ (H4 Hn)). lia.
  - intros bn Hbn. destruct (decide (addr_of s ip bn = 0)) as [->|Hn]; [lia|]. pose proof (db_range _ _ (H3 bn Hbn Hn)). lia.
Qed.

(** Only the contents of the indirect block matter to the map. *)
Lemma addr_of_ext s s' ip bn :
  (ind_of ip <> 0 -> blk s' (ind_of ip) = blk s (ind_of ip)) -> addr_of s' ip bn = addr_of s ip bn.
Proof.
  intros E. unfold addr_of. fold (ind_of ip). destruct (_ <? _); [done|].
  destruct (Z.eqb_spec (ind_of ip) 0); [done|]. by rewrite E.
Qed.

Lemma file_wf_ext s s' ip :
  file_wf s ip -> (ind_of ip <> 0 -> blk s' (ind_of ip) = blk s (ind_of ip)) ->
  (forall n, datablock s n -> datablock s' n) -> file_wf s' ip.
Proof.
  intros [H1 H2 H3 H4 H5 H6] E D.
  assert (Ea : forall bn, addr_of s' ip bn = addr_of s ip bn) by (intros; by apply addr_of_ext).
  constructor; [done|done|..].
  - intros bn Hbn. rewrite Ea. intros. by apply D, H3.
  - intros. by apply D, H4.
  - intros bn bn'. rewrite !Ea. apply H5.
  - intros Hi bn. rewrite Ea. by apply H6.
Qed.

Lemma file_wf_steady O s s' ip : steady O s s' -> file_wf s ip -> file_wf s' ip.
Proof.
  intros A W. apply (file_wf_ext s); [done|intros; apply A|]. intros n. by apply (datablock_steady O).
Qed.

Lemma same_file_wf s s' ip : same_blocks s s' -> file_wf s ip -> file_wf s' ip.
Proof.
  intros A W. apply (file_wf_ext s); [done|intros; by apply same_blk|]. intros n. by apply same_datablock.
Qed.

(** * The effect of [bmap] *)

(** The blocks of the free map. *)
Definition bitmap (s : fs) (x : Z) : Prop := exists c, 0 <= c < sb_size (f_sb s) /\ x = BBLOCK c (f_sb s).

(** Block [bn] of inode [i] is now at [addr]; nothing else of the file has
    moved, no data block has changed but the indirect block of this file, and
    a block allocated for [bn] is zero. *)
Record mapped (i : nat) (bn addr : Z) (s s' : fs) : Prop := {
  mp_inode : exists a, geti s' i = set_iaddrs a (geti s i);
  mp_icache : length (f_icache s') = length (f_icache s) /\ forall j, j <> i -> geti s' j = geti s j;
  mp_addr : addr_of s' (geti s' i) bn = addr;
  mp_block : datablock s' addr;
  mp_others : forall b, 0 <= b < MAXFILE -> b <> bn -> addr_of s' (geti s' i) b = addr_of s (geti s i) b;
  mp_kept : addr_of s (geti s i) bn <> 0 -> addr = addr_of s (geti s i) bn;
  mp_same : addr_of s (geti s i) bn <> 0 -> geti s' i = geti s i;
  mp_new : addr_of s (geti s i) bn = 0 -> blk s' addr = zero_block;
  mp_wf : file_wf s' (geti s' i);
  mp_layout : layout s';
  mp_data : forall n, datablock s n -> datablock s' n /\ (n <> ind_of (geti s i) -> blk s' n = blk s n);
  mp_fresh : addr_of s (geti s i) bn = 0 -> ~ datablock s addr;
  mp_ind : ind_of (geti s' i) = ind_of (geti s i) \/ ~ datablock s (ind_of (geti s' i));
  mp_sb : f_sb s' = f_sb s;
  mp_room : forall k, room s (k + 5) -> room s' k;
  mp_free : forall k, free_ge s (2 + k) -> free_ge s' k;
  mp_ind_kept : ind_of (geti s i) <> 0 -> ind_of (geti s' i) = ind_of (geti s i);
  mp_inside : inside (fun x => x = addr \/ (x = ind_of (geti s' i) /\ x <> 0) \/ bitmap s x) s s'
}.

Lemma seti_ok f i s :
  seti f i s = Ok tt (set_icache (alter f i (f_icache s)) s).
Proof. done. Qed.

Section seti.
Context (f : inode -> inode) (i : nat) (s : fs) (Hi : (i < length (f_icache s))%nat).
Let s' := set_icache (alter f i (f_icache s)) s.

Lemma geti_alter_eq : geti s' i = f (geti s i).
Proof using Hi.
  unfold geti, s'. cbn. destruct (lookup_lt_is_Some_2 _ _ Hi) as [x Hx].
  rewrite list_lookup_alter_eq, Hx. done.
Qed.

Lemma geti_alter_ne j : j <> i -> geti s' j = geti s j.
Proof. intros Hj. unfold geti, s'. cbn. by rewrite list_lookup_alter_ne. Qed.

Lemma seti_same : same_blocks s s'.
Proof. done. Qed.
End seti.

(** Present blocks need no change. *)
Lemma mapped_refl s i bn O s' :
  steady O s s' -> layout s -> file_wf s (geti s i) -> 0 <= bn < MAXFILE -> addr_of s (geti s i) bn <> 0 ->
  mapped i bn (addr_of s (geti s i) bn) s s'.
Proof.
  intros A L W Hbn Hnz. pose proof (geti_steady _ _ _ i A) as Hg.
  constructor; rewrite ?Hg.
  - exists (i_addrs (geti s i)). by destruct (geti s i).
  - rewrite (st_icache _ _ _ A). split; [done|]. intros j _. by apply (geti_steady O).
  - by apply (addr_of_steady O).
  - apply (datablock_steady O s); [done|]. by apply W.
  - intros. by apply (addr_of_steady O).
  - done.
  - done.
  - done.
  - by apply (file_wf_steady O s).
  - by apply (layout_steady O s).
  - intros n Hn. split; [by apply (datablock_steady O s)|]. intros _. apply A.
  - done.
  - by left.
  - apply A.
  - intros k Hr. apply (room_steady O s); [done|]. eapply room_le; [done|lia].
  - intros k Hf. apply (free_ge_steady O s); [done|]. eapply free_ge_le; [done|lia].
  - done.
  - by eapply inside_steady.
Qed.

(** Adding a block to the map. *)
Lemma file_wf_insert s s' ip ip' bn b :
  file_wf s ip -> i_dev ip' = 1 -> length (i_addrs ip') = S NDIRECT -> ind_of ip' = ind_of ip ->
  datablock s' b -> b <> ind_of ip -> (forall c, 0 <= c < MAXFILE -> addr_of s ip c <> b) ->
  (forall c, 0 <= c < MAXFILE -> addr_of s' ip' c = if decide (c = bn) then b else addr_of s ip c) ->
  (forall n, datablock s n -> datablock s' n) -> file_wf s' ip'.
Proof.
  intros [H1 H2 H3 H4 H5 H6] Hd Hl Hi Hb Hbi Hbn Ha D. constructor; [done|done|..].
  - intros c Hc. rewrite Ha by done. destruct (decide (c = bn)); [done|]. intros. by apply D, H3.
  - rewrite Hi. intros. by apply D, H4.
  - intros c c' Hc Hc'. rewrite !Ha by done. destruct (decide (c = bn)) as [->|], (decide (c' = bn)) as [->|]; try done.
    + intros _ E. symmetry in E. by apply Hbn in E.
    + intros _ E. by apply Hbn in E.
    + intros Hz E. by apply H5.
  - rewrite Hi. intros Hn c Hc. rewrite Ha by done. destruct (decide (c = bn)); [done|]. by apply H6.
Qed.

Section direct.
Context (s : fs) (ip : inode) (k : nat) (b : Z) (Hk : (k < NDIRECT)%nat) (Hlen : length (i_addrs ip) = S NDIRECT).
Let ip' := set_iaddrs (<[k := b]> (i_addrs ip)) ip.

Lemma ind_of_direct : ind_of ip' = ind_of ip.
Proof using Hk Hlen. unfold ind_of, ip'. cbn [i_addrs set_iaddrs]. rewrite list_lookup_insert_ne; [done|]. lia. Qed.

Lemma addr_of_direct c : 0 <= c -> addr_of s ip' c = if decide (c = Z.of_nat k) then b else addr_of s ip c.
Proof using Hk Hlen.
  intros Hc. unfold addr_of. fold (ind_of ip') (ind_of ip). rewrite ind_of_direct.
  destruct (Z.ltb_spec c (Z.of_nat NDIRECT)).
  - unfold ip'. cbn [i_addrs set_iaddrs]. rewrite list_lookup_insert. case_decide as E.
    + destruct E as [-> _]. by rewrite decide_True by lia.
    + rewrite decide_False; [done|]. lia.
  - by rewrite decide_False by lia.
Qed.
End direct.

(** What is known after an allocation for a well-formed file. *)
Section after_alloc.
Context (s s1 : fs) (O O' : gset nat) (b : Z) (i : nat) (T : txn s O') (L : layout s) (A : allocated O b s s1).
Context (Hb : 0 <= b < sb_size (f_sb s)) (Hu : used s b = false).

Lemma fresh_not_data : ~ datablock s b.
Proof using Hu. intros D. pose proof (db_used _ _ D). congruence. Qed.

Lemma keep_data n : datablock s n -> datablock s1 n /\ blk s1 n = blk s n.
Proof using T L A Hb Hu.
  intros D. split; [by eapply datablock_allocated|by eapply blk_allocated].
Qed.

Lemma file_wf_alloc ip : file_wf s ip -> file_wf s1 ip.
Proof using T L A Hb Hu.
  intros W. apply (file_wf_ext s); [done| |intros n Hn; by apply keep_data].
  intros Hi. by apply keep_data, W.
Qed.

Lemma addr_of_alloc ip c : file_wf s ip -> addr_of s1 ip c = addr_of s ip c.
Proof using T L A Hb Hu. intros W. apply addr_of_ext. intros Hi. by apply keep_data, W. Qed.

Lemma fresh_addr ip c : file_wf s ip -> 0 <= c < MAXFILE -> addr_of s1 ip c <> b.
Proof using T L A Hb Hu.
  intros W Hc E. rewrite addr_of_alloc in E by done. apply fresh_not_data. rewrite <- E. apply W; [done|].
  rewrite E. intros ->. pose proof (la_boot s L). congruence.
Qed.

Lemma fresh_ind ip : file_wf s ip -> b <> ind_of ip.
Proof using T L A Hb Hu.
  intros W E. destruct (decide (ind_of ip = 0)) as [E0|Hn].
  - rewrite E0 in E. pose proof (la_boot s L). congruence.
  - apply fresh_not_data. rewrite E. by apply W.
Qed.
End after_alloc.

(** What an allocation adds to the log. *)
Lemma alloc_inside s b : 0 <= b < sb_size (f_sb s) -> forall (P : Z -> Prop) x,
  x = b \/ x = BBLOCK b (f_sb s) -> x = b \/ P x \/ bitmap s x.
Proof. intros Hb P x [->| ->]; [by left|]. do 2 right. by exists b. Qed.

Lemma bmap_direct_new s i bn :
  txn s ∅ -> layout s -> file_wf s (geti s i) -> (i < length (f_icache s))%nat -> 0 <= bn < Z.of_nat NDIRECT ->
  addr_of s (geti s i) bn = 0 -> room s 2 -> free_ge s 1 ->
  exists b s', bmap i bn s = Ok b s' /\ txn s' ∅ /\ mapped i bn b s s'.
Proof.
  intros T L W Hi Hbn Hz Hr Hf. set (ip := geti s i) in *.
  destruct (balloc_ok s ∅ T L) as (b & s1 & E1 & T1 & Hb & Hu & _ & A); [set_solver+|by rewrite size_empty|by eapply free_ge_some|].
  set (f := fun ip => set_iaddrs (<[Z.to_nat bn := b]> (i_addrs ip)) ip).
  set (s2 := set_icache (alter f i (f_icache s1)) s1).
  assert (Hi1 : (i < length (f_icache s1))%nat) by by rewrite (al_icache _ _ _ _ A).
  assert (Hg1 : geti s1 i = ip) by (unfold geti; by rewrite (al_icache _ _ _ _ A)).
  assert (Hg2 : geti s2 i = f ip) by (unfold s2; by rewrite geti_alter_eq, Hg1).
  assert (S2 : same_blocks s1 s2) by done.
  assert (Hk : (Z.to_nat bn < NDIRECT)%nat) by lia.
  assert (Ha : forall c, 0 <= c -> addr_of s2 (f ip) c = if decide (c = bn) then b else addr_of s ip c).
  { intros c Hc. rewrite (addr_of_ext s1 s2) by (intros; by apply same_blk). unfold f.
    rewrite addr_of_direct by first [done|apply (fw_len _ _ W)]. rewrite Z2Nat.id by lia. case_decide; [done|]. by apply (addr_of_alloc s s1 ∅ ∅ b T L A Hb Hu). }
  assert (D : forall n, datablock s n -> datablock s2 n).
  { intros n Hn. apply (same_datablock s1); [done|]. by apply (datablock_allocated s s1 ∅ ∅ b T L A Hb Hu). }
  assert (Db : datablock s2 b) by (apply (same_datablock s1); [done|]; by apply (datablock_new s s1 ∅ ∅ b T L A Hb Hu)).
  exists b, s2. split; [|split; [by apply (same_txn s1)|]].
  - unfold bmap. step (@ifield_ok inode id i s). cbn [id]. fold ip. rewrite (proj2 (Z.ltb_lt _ _)) by lia.
    unfold addr_of in Hz. rewrite (proj2 (Z.ltb_lt _ _)) in Hz by lia. rewrite Hz, (fw_dev _ _ W). cbn [Z.eqb]. by step E1.
  - constructor; fold ip; rewrite ?Hg2, ?Hz.
    + by eexists.
    + split; [unfold s2; cbn; by rewrite length_alter, (al_icache _ _ _ _ A)|]. intros j Hj. unfold s2.
      rewrite geti_alter_ne by done. unfold geti. by rewrite (al_icache _ _ _ _ A).
    + by rewrite Ha, decide_True by lia.
    + done.
    + intros c Hc Hne. by rewrite Ha, decide_False by lia.
    + done.
    + done.
    + intros _. rewrite (same_blk s1) by done. by apply (blk_new s s1 ∅ b A).
    + apply (file_wf_insert s _ ip _ bn b); try done.
      * apply W.
      * unfold f. cbn. rewrite length_insert. apply W.
      * apply ind_of_direct; [done|apply (fw_len _ _ W)].
      * by apply (fresh_ind s s1 ∅ ∅ b T L A Hb Hu).
      * intros c Hc. rewrite <- (addr_of_alloc s s1 ∅ ∅ b T L A Hb Hu) by done. by apply (fresh_addr s s1 ∅ ∅ b T L A Hb Hu).
      * intros c Hc. apply Ha. lia.
    + apply (same_layout s1); [done|]. by apply (layout_allocated s s1 ∅ ∅ b T L A Hb Hu).
    + intros n Hn. split; [by apply D|]. intros _. rewrite (same_blk s1) by done. by apply (blk_allocated s s1 ∅ ∅ b T L A Hb Hu).
    + intros _. by apply fresh_not_data.
    + left. apply ind_of_direct; [done|apply (fw_len _ _ W)].
    + apply A.
    + intros k Hk'. apply (same_room s1); [done|]. apply (al_room _ _ _ _ A). eapply room_le; [done|lia].
    + intros k Hk'. apply (same_free s1); [done|]. apply (free_ge_allocated ∅ ∅ b s s1 k T L A Hb Hu). eapply free_ge_le; [done|lia].
    + intros _. apply ind_of_direct; [done|apply (fw_len _ _ W)].
    + apply (inside_trans _ _ s1); [|by apply inside_same]. apply (inside_weaken _ _ _ _ (alloc_inside s b Hb _) (al_inside _ _ _ _ A)).
Qed.

(** * Changing a data block *)

Section changed_data.
Context (s s' : fs) (O O' : gset nat) (n : Z) (d : bytes) (T : txn s O') (L : layout s) (C : changed O n d s s') (Dn : datablock s n).

Lemma used_changed c : 0 <= c < sb_size (f_sb s) -> used s' c = used s c.
Proof using T L C Dn.
  intros Hc. unfold used. rewrite (ch_sb _ _ _ _ _ C), (ch_blk _ _ _ _ _ C), decide_False; [done|].
  rewrite (BBLOCK_eq s O' T L) by done. intros E. by apply (db_map _ _ Dn c Hc).
Qed.

Lemma layout_changed : layout s'.
Proof using T L C Dn.
  pose proof L as [H1 H2 H3 H4 H5 H6 (H7 & H8 & H9) H10]. pose proof (db_range _ _ Dn).
  constructor; rewrite ?(ch_sb _ _ _ _ _ C), ?(ch_nblk _ _ _ _ _ C).
  - done.
  - done.
  - intros b Hb. by apply (changed_home _ _ _ _ _ _ C), H3.
  - intros b Hb. rewrite used_changed by done. intros. by apply (changed_home _ _ _ _ _ _ C), H4.
  - intros b c Hb Hc. rewrite used_changed by done. by apply H5.
  - rewrite (ch_blk _ _ _ _ _ C), decide_False by lia. done.
  - split; [done|]. split; [|done]. by rewrite used_changed by lia.
  - by rewrite used_changed by lia.
Qed.

Lemma datablock_changed m : datablock s m -> datablock s' m.
Proof using T L C Dn.
  intros [A1 A2 A3 A4]. constructor; rewrite ?(ch_sb _ _ _ _ _ C); [done| |by apply (changed_home _ _ _ _ _ _ C)|done].
  by rewrite used_changed by lia.
Qed.

Lemma free_ge_changed k : free_ge s k -> free_ge s' k.
Proof using T L C Dn.
  intros (l & Hd & Hl & Hf). exists l. split; [done|]. split; [done|]. intros b Hb. destruct (Hf b Hb).
  rewrite (ch_sb _ _ _ _ _ C), used_changed by done. done.
Qed.
End changed_data.

Lemma holds_allocated O b s s' i n d : allocated O b s s' -> i ∈ O -> holds s i n d -> holds s' i n d.
Proof.
  intros A Hi [Hb Hd Hs]. destruct (payload_inv _ _ (al_pay _ _ _ _ A i Hi)) as (F & _ & N & D).
  constructor; [by rewrite N|by rewrite D|]. unfold clean. rewrite F, (al_disk _ _ _ _ A). done.
Qed.

(** * Entries of the indirect block *)

(** [bmap] from [bp = bread(ip->dev, addr)] on. *)
Definition entry (dev a : Z) (e : nat) : M fs Z :=
  bp <- fbread dev a ;;
  d <- bdata bp ;;
  let addr := get32 d (4 * e) in
  addr <- (if addr =? 0 then
             addr <- balloc dev ;;
             d <- bdata bp ;;
             set_bdata (put32 (4 * e) addr d) bp ;;;
             flog_write bp ;;;
             ret addr
           else ret addr) ;;
  fbrelse bp ;;;
  ret addr.

Lemma entry_addr s ip e : (e < NINDIRECT)%nat -> ind_of ip <> 0 ->
  addr_of s ip (Z.of_nat (NDIRECT + e)) = get32 (blk s (ind_of ip)) (4 * e).
Proof.
  intros He Hi. unfold addr_of. fold (ind_of ip). rewrite (proj2 (Z.ltb_ge _ _)) by lia.
  rewrite (proj2 (Z.eqb_neq _ _)) by done. repeat f_equal. lia.
Qed.

(** The map after the entry has been filled in. *)
Lemma addr_of_entry s s' ip e b c d :
  (e < NINDIRECT)%nat -> ind_of ip <> 0 -> length d = Z.to_nat BSIZE -> 0 <= b < 2 ^ 32 ->
  blk s (ind_of ip) = d -> blk s' (ind_of ip) = put32 (4 * e) b d -> 0 <= c < MAXFILE ->
  addr_of s' ip c = if decide (c = Z.of_nat (NDIRECT + e)) then b else addr_of s ip c.
Proof.
  intros He Hi Hl Hb Hd Hd' Hc. unfold MAXFILE, NINDIRECT, BSIZE in *. unfold addr_of. fold (ind_of ip).
  destruct (Z.ltb_spec c (Z.of_nat NDIRECT)) as [Hlt|Hge]; [by rewrite decide_False by lia|].
  rewrite (proj2 (Z.eqb_neq _ _)) by done. rewrite Hd, Hd'.
  destruct (decide (c = Z.of_nat (NDIRECT + e))) as [->|Hne].
  - replace (Z.to_nat (Z.of_nat (NDIRECT + e) - Z.of_nat NDIRECT)) with e by lia.
    rewrite get32_put32 by lia. by apply u32_id.
  - unfold put32. rewrite get32_splice_out; [done|cbn [length le32]; lia|cbn [length le32]; lia].
Qed.

Section entry.
Context (s : fs) (i e : nat).
Context (T : txn s ∅) (L : layout s) (W : file_wf s (geti s i)).
Context (He : (e < NINDIRECT)%nat) (Hind : ind_of (geti s i) <> 0).
Let ip := geti s i.
Let bn := Z.of_nat (NDIRECT + e).
Let a := ind_of ip.

Lemma entry_bn : 0 <= bn < MAXFILE.
Proof using He. clear -He. unfold bn, MAXFILE. lia. Qed.

Lemma entry_present :
  addr_of s ip bn <> 0 -> room s 1 ->
  exists s', entry 1 a e s = Ok (addr_of s ip bn) s' /\ txn s' ∅ /\ steady ∅ s s'.
Proof using T L W He Hind.
  intros Hnz Hr. pose proof (entry_addr s ip e He Hind) as Ea.
  destruct (read_block s ∅ a T) as (bp & s1 & s2 & E1 & E2 & E3 & T2 & S2).
  { apply (db_home _ _ (fw_ind _ _ W Hind)). }
  { apply no_own. }
  { rewrite size_empty. eapply room_le; [done|lia]. }
  exists s2. split; [|done]. unfold entry. step E1. step E2. unfold bn in *. rewrite Ea in *.
  change (blk s a) with (blk s (ind_of ip)). rewrite (proj2 (Z.eqb_neq _ _)) by done.
  unfold bind at 1, ret at 1. cbn [seqr]. by step E3.
Qed.

(** The block number is stored in the indirect block. *)
Record entered (b : Z) (s' : fs) : Prop := {
  en_range : 0 <= b < sb_size (f_sb s);
  en_fresh : used s b = false;
  en_blk : forall n, datablock s n -> blk s' n = if decide (n = a) then put32 (4 * e) b (blk s a) else blk s n;
  en_new : blk s' b = zero_block;
  en_data : forall n, datablock s n -> datablock s' n;
  en_block : datablock s' b;
  en_layout : layout s';
  en_sb : f_sb s' = f_sb s;
  en_icache : f_icache s' = f_icache s;
  en_room : forall k, room s (k + 3) -> room s' k;
  en_free : forall k, free_ge s (S k) -> free_ge s' k;
  en_inside : inside (fun x => x = b \/ x = a \/ bitmap s x) s s'
}.

Lemma entry_absent :
  addr_of s ip bn = 0 -> room s 4 -> free_ge s 1 ->
  exists b s', entry 1 a e s = Ok b s' /\ txn s' ∅ /\ entered b s'.
Proof using T L W He Hind.
  intros Hz Hr Hf. pose proof (entry_addr s ip e He Hind) as Ea. unfold bn in Hz. rewrite Ea in Hz.
  pose proof (fw_ind _ _ W Hind) as Da. fold ip a in Da. set (d := blk s a) in *.
  destruct (fbread_ok s ∅ a T (proj1 (db_home _ _ Da)) (no_own s a)) as (bp & s1 & E1 & _ & T1 & H1 & S1).
  { rewrite size_empty. eapply room_le; [done|lia]. }
  rewrite (right_id_L ∅ (∪)) in T1. pose proof (layout_steady _ _ _ S1 L) as L1.
  assert (Hbp : bp ∈ ({[bp]} : gset nat)) by set_solver+.
  destruct (balloc_ok s1 {[bp]} T1 L1) as (b & s2 & E2 & T2 & Hb & Hu & _ & A).
  { intros j ->%elem_of_singleton. rewrite (ho_block _ _ _ _ H1). by apply (datablock_steady _ _ _ _ S1). }
  { rewrite size_singleton. apply (room_steady _ _ _ _ S1). eapply room_le; [done|lia]. }
  { by eapply free_ge_some, (free_ge_steady _ _ _ _ S1). }
  pose proof (holds_allocated _ _ _ _ _ _ _ A Hbp H1) as H2.
  pose proof (layout_allocated s1 s2 _ _ b T1 L1 A Hb Hu) as L2.
  assert (Da2 : datablock s2 a).
  { apply (datablock_allocated s1 s2 _ _ b T1 L1 A Hb Hu). by apply (datablock_steady _ _ _ _ S1). }
  set (d' := put32 (4 * e) b d).
  assert (Hd' : length d' = Z.to_nat BSIZE).
  { assert (Hd : length d = Z.to_nat BSIZE) by apply (tx_len _ _ T). unfold d'.
    rewrite put32_length; rewrite Hd; [done|]. unfold NINDIRECT, BSIZE in *. lia. }
  destruct (put_block s2 _ bp a _ d' T2 Hbp H2 Hd') as (s3 & s4 & E3 & E4 & T4 & H4 & C4).
  { apply (db_home _ _ Da2). }
  { apply (al_room _ _ _ _ A), (room_steady _ _ _ _ S1). eapply room_le; [done|lia]. }
  destruct (fbrelse_ok s4 _ bp a _ T4 Hbp H4) as (s5 & E5 & T5 & S5).
  rewrite (difference_diag_L {[bp]}) in T5, C4.
  exists b, s5. split; [|split; [done|]].
  { unfold entry. step E1. step (bdata_ok _ _ _ _ H1). change (blk s (ind_of ip)) with d in Hz. fold d. rewrite Hz. cbn [Z.eqb].
    erewrite (bind_ok _ _ s1 b s4); [by step E5|]. step E2. step (bdata_ok _ _ _ _ H2). fold d d'. step E3. by step E4. }
  rewrite (st_sb _ _ _ S1) in Hb. assert (Hu0 : used s b = false) by by rewrite <- (used_steady _ _ _ _ S1).
  constructor; intros.
  - done.
  - done.
  - rewrite (st_blk _ _ _ S5), (ch_blk _ _ _ _ _ C4). destruct (decide (n = a)) as [->|]; [done|].
    rewrite (blk_allocated s1 s2 _ _ b T1 L1 A); [apply S1|by rewrite (st_sb _ _ _ S1)|done|by apply (datablock_steady _ _ _ _ S1)].
  - rewrite (st_blk _ _ _ S5), (ch_blk _ _ _ _ _ C4), decide_False; [apply (blk_new s1 s2 _ b A)|].
    intros ->. pose proof (db_used _ _ Da). congruence.
  - apply (datablock_steady _ _ _ _ S5), (datablock_changed s2 s4 _ _ a d' T2 L2 C4 Da2).
    apply (datablock_allocated s1 s2 _ _ b T1 L1 A); [by rewrite (st_sb _ _ _ S1)|done|by apply (datablock_steady _ _ _ _ S1)].
  - apply (datablock_steady _ _ _ _ S5), (datablock_changed s2 s4 _ _ a d' T2 L2 C4 Da2).
    apply (datablock_new s1 s2 _ _ b T1 L1 A); [by rewrite (st_sb _ _ _ S1)|done].
  - apply (layout_steady _ _ _ S5), (layout_changed s2 s4 _ _ a d' T2 L2 C4 Da2).
  - by rewrite (st_sb _ _ _ S5), (ch_sb _ _ _ _ _ C4), (al_sb _ _ _ _ A), (st_sb _ _ _ S1).
  - by rewrite (st_icache _ _ _ S5), (ch_icache _ _ _ _ _ C4), (al_icache _ _ _ _ A), (st_icache _ _ _ S1).
  - apply (room_steady _ _ _ _ S5). apply (changed_room _ _ _ _ _ _ _ _ T2 T4 C4).
    apply (al_room _ _ _ _ A), (room_steady _ _ _ _ S1). eapply room_le; [done|lia].
  - apply (free_ge_steady _ _ _ _ S5), (free_ge_changed s2 s4 _ _ a d' T2 L2 C4 Da2).
    apply (free_ge_allocated _ _ b s1 s2 k T1 L1 A); [by rewrite (st_sb _ _ _ S1)|done|by apply (free_ge_steady _ _ _ _ S1)].
  - apply (inside_trans _ _ s1); [by eapply inside_steady|]. apply (inside_trans _ _ s4); [|by eapply inside_steady].
    apply (inside_trans _ _ s2); [|apply (inside_changed _ _ _ _ _ _ C4); by right; left].
    refine (inside_weaken _ _ _ _ _ (al_inside _ _ _ _ A)). rewrite (st_sb _ _ _ S1). by apply alloc_inside.
Qed.
End entry.

Lemma entered_mapped s i e b s' :
  layout s -> txn s ∅ -> file_wf s (geti s i) -> (e < NINDIRECT)%nat -> ind_of (geti s i) <> 0 ->
  addr_of s (geti s i) (Z.of_nat (NDIRECT + e)) = 0 -> entered s i e b s' ->
  mapped i (Z.of_nat (NDIRECT + e)) b s s'.
Proof.
  intros L T W He Hind Hz E. set (ip := geti s i) in *. set (bn := Z.of_nat (NDIRECT + e)) in *.
  pose proof (fw_ind _ _ W Hind) as Da. pose proof (la_size s L). pose proof (lo_disk _ (tx_log _ _ T)) as Hdk.
  assert (Hg : geti s' i = ip) by (unfold geti; by rewrite (en_icache _ _ _ _ _ E)).
  pose proof (en_range _ _ _ _ _ E) as Hb. pose proof (en_fresh _ _ _ _ _ E) as Hu. unfold nblk in *.
  assert (Ha : forall c, 0 <= c < MAXFILE -> addr_of s' ip c = if decide (c = bn) then b else addr_of s ip c).
  { intros c Hc. apply (addr_of_entry s s' ip e b c (blk s (ind_of ip)) He Hind (tx_len _ _ T _)); [lia|done| |done].
    rewrite (en_blk _ _ _ _ _ E) by done. by rewrite decide_True. }
  assert (Hbn : 0 <= bn < MAXFILE) by apply (entry_bn e He).
  assert (Hnd : ~ datablock s b) by by apply fresh_not_data.
  constructor; fold ip; rewrite ?Hg, ?Hz.
  - exists (i_addrs ip). by destruct ip.
  - rewrite (en_icache _ _ _ _ _ E). split; [done|]. intros j _. unfold geti. by rewrite (en_icache _ _ _ _ _ E).
  - rewrite Ha by done. by rewrite decide_True.
  - exact (en_block _ _ _ _ _ E).
  - intros c Hc Hne. rewrite Ha by done. by rewrite decide_False.
  - done.
  - done.
  - intros _. exact (en_new _ _ _ _ _ E).
  - apply (file_wf_insert s s' ip ip bn b W); [apply W|apply W|done|exact (en_block _ _ _ _ _ E)| | |done|exact (en_data _ _ _ _ _ E)].
    + intros ->. by apply Hnd.
    + intros c Hc Ec. apply Hnd. rewrite <- Ec. apply W; [done|]. rewrite Ec. intros ->. pose proof (la_boot s L). congruence.
  - exact (en_layout _ _ _ _ _ E).
  - intros n Hn. split; [by apply (en_data _ _ _ _ _ E)|]. intros Hne. rewrite (en_blk _ _ _ _ _ E) by done. by rewrite decide_False.
  - done.
  - by left.
  - exact (en_sb _ _ _ _ _ E).
  - intros k Hk. apply (en_room _ _ _ _ _ E). eapply room_le; [done|lia].
  - intros k Hk. apply (en_free _ _ _ _ _ E). eapply free_ge_le; [done|lia].
  - done.
  - refine (inside_weaken _ _ _ _ _ (en_inside _ _ _ _ _ E)). intros x [->|[->|Hx]]; [by left|by right; left|by do 2 right].
Qed.

(** Giving the file an indirect block. *)
Lemma add_indirect s i :
  txn s ∅ -> layout s -> file_wf s (geti s i) -> (i < length (f_icache s))%nat -> ind_of (geti s i) = 0 ->
  room s 2 -> free_ge s 1 ->
  exists b s1 s2, balloc 1 s = Ok b s1 /\
    seti (fun ip => set_iaddrs (<[NDIRECT := b]> (i_addrs ip)) ip) i s1 = Ok tt s2 /\
    txn s2 ∅ /\ layout s2 /\ file_wf s2 (geti s2 i) /\ ind_of (geti s2 i) = b /\ ~ datablock s b /\ b <> 0 /\
    (exists l, geti s2 i = set_iaddrs l (geti s i)) /\
    (length (f_icache s2) = length (f_icache s) /\ forall j, j <> i -> geti s2 j = geti s j) /\
    (forall c, 0 <= c < MAXFILE -> addr_of s2 (geti s2 i) c = addr_of s (geti s i) c) /\
    (forall n, datablock s n -> datablock s2 n /\ blk s2 n = blk s n) /\ f_sb s2 = f_sb s /\
    (forall k, room s (k + 2) -> room s2 k) /\ (forall k, free_ge s (S k) -> free_ge s2 k) /\ inside (fun x => x = b \/ bitmap s x) s s2.
Proof.
  intros T L W Hi Hind Hr Hf. set (ip := geti s i) in *.
  destruct (balloc_ok s ∅ T L) as (b & s1 & E1 & T1 & Hb & Hu & _ & A); [set_solver+|by rewrite size_empty|by eapply free_ge_some|].
  set (f := fun ip => set_iaddrs (<[NDIRECT := b]> (i_addrs ip)) ip).
  set (s2 := set_icache (alter f i (f_icache s1)) s1).
  assert (Hi1 : (i < length (f_icache s1))%nat) by by rewrite (al_icache _ _ _ _ A).
  assert (Hg1 : geti s1 i = ip) by (unfold geti; by rewrite (al_icache _ _ _ _ A)).
  assert (Hg2 : geti s2 i = f ip) by (unfold s2; by rewrite geti_alter_eq, Hg1).
  assert (S2 : same_blocks s1 s2) by done. pose proof (fw_len _ _ W) as Hlen.
  assert (Hi2 : ind_of (f ip) = b).
  { unfold ind_of, f. cbn [i_addrs set_iaddrs]. rewrite list_lookup_insert_eq; [done|]. rewrite Hlen. lia. }
  assert (Hb0 : b <> 0) by (intros ->; pose proof (la_boot s L); congruence).
  assert (Ha : forall c, 0 <= c < MAXFILE -> addr_of s2 (f ip) c = addr_of s ip c).
  { intros c Hc. unfold addr_of. fold (ind_of (f ip)) (ind_of ip). rewrite Hi2, Hind. cbn [Z.eqb].
    destruct (Z.ltb_spec c (Z.of_nat NDIRECT)).
    - unfold f. cbn [i_addrs set_iaddrs]. rewrite list_lookup_insert_ne; [done|]. lia.
    - rewrite (proj2 (Z.eqb_neq _ _)) by done. rewrite (same_blk s1) by done. rewrite (blk_new s s1 _ b A).
      unfold get32, byte, zero_block. rewrite !lookup_replicate_2 by (unfold MAXFILE, NINDIRECT, BSIZE in *; lia). done. }
  pose proof (keep_data s s1 ∅ ∅ b T L A Hb Hu) as Hkeep.
  pose proof (same_datablock s1 s2 b S2 (datablock_new s s1 ∅ ∅ b T L A Hb Hu)) as Db.
  pose proof (fresh_not_data s b Hu) as Hnd.
  exists b, s1, s2. split; [done|]. split; [done|]. rewrite Hg2.
  split; [by apply (same_txn s1)|]. split; [apply (same_layout s1); [done|]; by apply (layout_allocated s s1 ∅ ∅ b)|].
  split; [|split; [done|split; [done|split; [done|split; [by eexists|split; [|split; [done|split; [|split; [apply A|split; [|split]]]]]]]]]].
  - constructor; [apply W|unfold f; cbn; by rewrite length_insert| | | |]; rewrite ?Hi2.
    + intros c Hc. rewrite Ha by done. intros. apply (same_datablock s1); [done|]. by apply Hkeep, W.
    + done.
    + intros c c' Hc Hc'. rewrite !Ha by done. by apply W.
    + intros _ c Hc. rewrite Ha by done. rewrite <- (addr_of_alloc s s1 ∅ ∅ b T L A Hb Hu) by done.
      by apply (fresh_addr s s1 ∅ ∅ b T L A Hb Hu).
  - split; [unfold s2; cbn; by rewrite length_alter, (al_icache _ _ _ _ A)|]. intros j Hj. unfold s2.
    rewrite geti_alter_ne by done. unfold geti. by rewrite (al_icache _ _ _ _ A).
  - intros n Hn. split; [apply (same_datablock s1); [done|]; by apply Hkeep|]. rewrite (same_blk s1) by done. by apply Hkeep.
  - intros k Hk. apply (same_room s1); [done|]. by apply (al_room _ _ _ _ A).
  - intros k Hk. apply (same_free s1); [done|]. by apply (free_ge_allocated ∅ ∅ b s s1 k T L A Hb Hu).
  - apply (inside_trans _ _ s1); [|by apply inside_same]. refine (inside_weaken _ _ _ _ _ (al_inside _ _ _ _ A)).
    intros x [->| ->]; [by left|right; by exists b].
Qed.

Lemma bmap_indirect s i e :
  i_dev (geti s i) = 1 -> (e < NINDIRECT)%nat ->
  bmap i (Z.of_nat (NDIRECT + e)) s =
    (a <- (if ind_of (geti s i) =? 0 then
             addr <- balloc 1 ;;
             seti (fun ip => set_iaddrs (<[NDIRECT := addr]> (i_addrs ip)) ip) i ;;;
             ret addr
           else ret (ind_of (geti s i))) ;;
     entry 1 a e) s.
Proof.
  intros Hd He. unfold bmap. step (@ifield_ok inode id i s). cbn [id]. rewrite Hd.
  rewrite (proj2 (Z.ltb_ge _ _)) by lia. rewrite (proj2 (Z.ltb_lt _ _)) by lia.
  replace (Z.to_nat (Z.of_nat (NDIRECT + e) - Z.of_nat NDIRECT)) with e by lia. done.
Qed.

(** Composing the allocation of the indirect block with that of the entry. *)
Lemma bmap_ok s i bn :
  txn s ∅ -> layout s -> file_wf s (geti s i) -> (i < length (f_icache s))%nat -> 0 <= bn < MAXFILE ->
  room s 6 -> free_ge s 2 ->
  exists addr s', bmap i bn s = Ok addr s' /\ txn s' ∅ /\ mapped i bn addr s s'.
Proof.
  intros T L W Hi Hbn Hr Hf. destruct (decide (addr_of s (geti s i) bn = 0)) as [Hz|Hnz].
  2:{ destruct (bmap_present s i bn T ltac:(eapply room_le; [done|lia]) (file_wf_addrs _ _ L W) Hbn Hnz) as (s' & E & T' & S').
      exists (addr_of s (geti s i) bn), s'. split; [done|]. split; [done|]. by apply (mapped_refl s i bn ∅). }
  destruct (decide (bn < Z.of_nat NDIRECT)) as [Hd|Hd].
  { apply bmap_direct_new; try done; [lia|eapply room_le; [done|lia]|eapply free_ge_le; [done|lia]]. }
  unfold MAXFILE in Hbn. set (e := Z.to_nat (bn - Z.of_nat NDIRECT)).
  assert (He : (e < NINDIRECT)%nat) by (unfold e; lia).
  replace bn with (Z.of_nat (NDIRECT + e)) in * by (unfold e; lia). clearbody e. clear Hd.
  rewrite bmap_indirect by (done || apply W). destruct (Z.eqb_spec (ind_of (geti s i)) 0) as [Hi0|Hi0].
  - destruct (add_indirect s i T L W Hi Hi0) as (b & s1 & s2 & E1 & E2 & T2 & L2 & W2 & Hb & Hnd & Hb0 & (l & Hg) &
      (Hlen & Hoth) & Ha & Hk & Hsb & Hrm & Hfr & Hin); [eapply room_le; [done|lia]|eapply free_ge_le; [done|lia]|].
    assert (Hz2 : addr_of s2 (geti s2 i) (Z.of_nat (NDIRECT + e)) = 0) by (rewrite Ha; [done|unfold MAXFILE; lia]).
    destruct (entry_absent s2 i e T2 L2 W2 He ltac:(by rewrite Hb) Hz2) as (c & s3 & E3 & T3 & En).
    { apply Hrm. eapply room_le; [done|lia]. }
    { by apply Hfr. }
    rewrite Hb in E3. exists c, s3. split; [|split; [done|]].
    { erewrite (bind_ok _ _ s b s2); [exact E3|]. step E1. by step E2. }
    pose proof (entered_mapped s2 i e c s3 L2 T2 W2 He ltac:(by rewrite Hb) Hz2 En) as Mp.
    destruct (mp_inode _ _ _ _ _ Mp) as (l' & Hg'). destruct (mp_icache _ _ _ _ _ Mp) as [Hl3 Ho3].
    constructor; rewrite ?Hz.
    + exists l'. rewrite Hg', Hg. done.
    + split; [by rewrite Hl3|]. intros j Hj. by rewrite Ho3, Hoth.
    + apply Mp.
    + apply (mp_block _ _ _ _ _ Mp).
    + intros x Hx Hne. rewrite (mp_others _ _ _ _ _ Mp) by done. by apply Ha.
    + done.
    + done.
    + intros _. by apply (mp_new _ _ _ _ _ Mp).
    + apply Mp.
    + apply (mp_layout _ _ _ _ _ Mp).
    + intros n Hn. destruct (Hk n Hn) as [Hn2 Hb2]. destruct (mp_data _ _ _ _ _ Mp n Hn2) as [Hn3 Hb3].
      split; [done|]. intros _. rewrite Hb3; [done|]. rewrite Hb. by intros ->.
    + intros _ Hc. apply (mp_fresh _ _ _ _ _ Mp Hz2). by apply Hk.
    + right. destruct (mp_ind _ _ _ _ _ Mp) as [->|Hx]; [by rewrite Hb|]. intros Hc. by apply Hx, Hk.
    + rewrite (mp_sb _ _ _ _ _ Mp). done.
    + intros k Hk'. apply (en_room _ _ _ _ _ En), Hrm. eapply room_le; [done|lia].
    + intros k Hk'. apply (en_free _ _ _ _ _ En), Hfr. eapply free_ge_le; [done|lia].
    + done.
    + assert (Hi3 : ind_of (geti s3 i) = b) by (rewrite (mp_ind_kept _ _ _ _ _ Mp); by rewrite ?Hb). rewrite Hi3. apply (inside_trans _ _ s2).
      * refine (inside_weaken _ _ _ _ _ Hin). intros x [->|Hx]; [by right; left|by do 2 right].
      * refine (inside_weaken _ _ _ _ _ (mp_inside _ _ _ _ _ Mp)). rewrite Hi3. unfold bitmap. by rewrite Hsb.
  - destruct (entry_absent s i e T L W He Hi0 Hz) as (c & s3 & E3 & T3 & En).
    { eapply room_le; [done|lia]. }
    { eapply free_ge_le; [done|lia]. }
    exists c, s3. split; [exact E3|]. split; [done|]. by apply entered_mapped.
Qed.
