(* ===== verification/FsInode.v ===== *)
(** Inodes on disk, [fs.c]: [iupdate] writes the structure that [ilock]
    reads. *)

From S2P Require Import Prelude Params Spinlock Klock Bytes Bio Bcache Log Commit LogOps Fs Txn FsBlocks FsRead FsWrite.
Open Scope Z_scope.
Open Scope xv6_scope.

(** * Fields of a structure inside a block *)

Lemma byte_splice_in i x d j :
  (i + length x <= length d)%nat -> (j < length x)%nat -> byte (splice i x d) (i + j) = byte x j.
Proof. intros. unfold byte. rewrite splice_lookup_in by lia. repeat f_equal. lia. Qed.

Lemma get16_splice_in i x d j :
  (i + length x <= length d)%nat -> (j + 2 <= length x)%nat -> get16 (splice i x d) (i + j) = get16 x j.
Proof. intros. unfold get16. by rewrite <- !Nat.add_assoc, !byte_splice_in by lia. Qed.

Lemma get32_splice_in i x d j :
  (i + length x <= length d)%nat -> (j + 4 <= length x)%nat -> get32 (splice i x d) (i + j) = get32 x j.
Proof. intros. unfold get32. by rewrite <- !Nat.add_assoc, !byte_splice_in by lia. Qed.

Lemma byte_app x y j : byte (x ++ y) (length x + j) = byte y j.
Proof. unfold byte. rewrite lookup_app_r by lia. repeat f_equal. lia. Qed.

Lemma get32_app x y j : get32 (x ++ y) (length x + j) = get32 y j.
Proof. unfold get32. by rewrite <- !Nat.add_assoc, !byte_app. Qed.

Lemma get32_le32 v y : get32 (le32 v ++ y) 0 = u32 v.
Proof. apply le32_join. Qed.

(** An array of words. *)
Lemma words_length l : length (concat (le32 <$> l)) = (4 * length l)%nat.
Proof. induction l; [done|]. cbn [fmap list_fmap concat]. rewrite length_app, IHl. cbn. lia. Qed.

Lemma get32_words l k v : l !! k = Some v -> get32 (concat (le32 <$> l)) (4 * k) = u32 v.
Proof.
  revert k. induction l as [|w l IH]; intros [|k] E; try done; cbn [fmap list_fmap concat].
  - injection E as ->. apply get32_le32.
  - replace (4 * S k)%nat with (length (le32 w) + 4 * k)%nat by (cbn; lia). rewrite get32_app. by apply IH.
Qed.

Lemma words_id l : Forall (fun v => 0 <= v < 2 ^ 32) l ->
  (fun k => get32 (concat (le32 <$> l)) (4 * k)) <$> seq 0 (length l) = l.
Proof.
  intros F. apply list_eq_same_length with (length l); [done|by rewrite length_fmap, length_seq|].
  intros k x y Hk. rewrite list_lookup_fmap, lookup_seq_lt by done. intros Hx Hy. injection Hx as <-.
  etrans; [apply (get32_words l k y Hy)|]. apply u32_id. by apply (Forall_lookup_1 _ _ _ _ F Hy).
Qed.

(** * [struct dinode] *)

(** The fields fit their types. *)
Record dinode_ok (ip : inode) : Prop := {
  di_type : -2 ^ 15 <= i_type ip < 2 ^ 15;
  di_major : -2 ^ 15 <= i_major ip < 2 ^ 15;
  di_minor : -2 ^ 15 <= i_minor ip < 2 ^ 15;
  di_nlink : -2 ^ 15 <= i_nlink ip < 2 ^ 15;
  di_size : 0 <= i_size ip < 2 ^ 32;
  di_len : length (i_addrs ip) = S NDIRECT;
  di_addrs : Forall (fun v => 0 <= v < 2 ^ 32) (i_addrs ip)
}.

Lemma DINODE_nat : Z.to_nat DINODE = 64%nat.
Proof. reflexivity. Qed.

Lemma dinode_length ip : length (i_addrs ip) = S NDIRECT -> length (dinode_bytes ip) = Z.to_nat DINODE.
Proof. intros H. unfold dinode_bytes. rewrite !length_app, words_length, H. reflexivity. Qed.

Lemma get16_le16 v y : get16 (le16 v ++ y) 0 = u16 v.
Proof. change (u8 (u8 v) + 2 ^ 8 * u8 (u8 (v / 2 ^ 8)) = u16 v). unfold u8, u16. rewrite !Zmod_mod. zdiv. Qed.

Lemma s16_u16 v : -2 ^ 15 <= v < 2 ^ 15 -> s16 (u16 v) = v.
Proof. unfold s16, u16. intros. zdiv. Qed.

(** Reading back an inode. *)
Lemma load_dinode_bytes ip ip0 o d :
  dinode_ok ip -> (o + Z.to_nat DINODE <= length d)%nat ->
  load_dinode (splice o (dinode_bytes ip) d) o ip0 =
    Inode (i_dev ip0) (i_inum ip0) (i_ref ip0) (i_lock ip0) (i_valid ip0)
          (i_type ip) (i_major ip) (i_minor ip) (i_nlink ip) (i_size ip) (i_addrs ip).
Proof.
  intros D Hl. pose proof (dinode_length ip (di_len _ D)) as Hb. rewrite <- Hb in Hl.
  assert (G16 : forall j, (j + 2 <= length (dinode_bytes ip))%nat ->
    get16 (splice o (dinode_bytes ip) d) (o + j) = get16 (dinode_bytes ip) j) by (intros; by apply get16_splice_in).
  assert (G32 : forall j, (j + 4 <= length (dinode_bytes ip))%nat ->
    get32 (splice o (dinode_bytes ip) d) (o + j) = get32 (dinode_bytes ip) j) by (intros; by apply get32_splice_in).
  unfold load_dinode. rewrite <- (Nat.add_0_r o) at 2. rewrite !G16, G32 by (rewrite Hb, DINODE_nat; lia).
  f_equal; try (rewrite <- s16_u16; [|apply D]; f_equal; apply get16_le16).
  - rewrite <- (u32_id (i_size ip)) by apply D. apply get32_le32.
  - etrans; [|apply (words_id (i_addrs ip)); apply D]. unfold get_addrs. rewrite (di_len _ D).
    apply list_fmap_ext. intros j k [-> Hk]%lookup_seq. rewrite <- Nat.add_assoc, G32 by (rewrite Hb, DINODE_nat; unfold NDIRECT in Hk; lia).
    change (dinode_bytes ip) with ((le16 (i_type ip) ++ le16 (i_major ip) ++ le16 (i_minor ip) ++ le16 (i_nlink ip) ++ le32 (i_size ip)) ++
      concat (le32 <$> i_addrs ip)). apply (get32_app (le16 _ ++ le16 _ ++ le16 _ ++ le16 _ ++ le32 _)).
Qed.

(** The other inodes of the block are not touched. *)
Lemma load_dinode_other ip ip0 o o' d :
  length (i_addrs ip) = S NDIRECT -> (o + Z.to_nat DINODE <= length d)%nat ->
  (o' + Z.to_nat DINODE <= o \/ o + Z.to_nat DINODE <= o')%nat ->
  load_dinode (splice o (dinode_bytes ip) d) o' ip0 = load_dinode d o' ip0.
Proof.
  intros Hn Hl Ho. pose proof (dinode_length ip Hn) as Hb. rewrite <- Hb in Hl, Ho. unfold load_dinode.
  rewrite !get16_splice_out, get32_splice_out by (rewrite Hb, DINODE_nat in *; lia). f_equal. unfold get_addrs.
  apply list_fmap_ext. intros j k [-> Hk]%lookup_seq. apply get32_splice_out; [lia|]. unfold NDIRECT in Hk. rewrite Hb, DINODE_nat in *. lia.
Qed.

Lemma dip_fits n : 0 <= n -> (dip n + Z.to_nat DINODE <= Z.to_nat BSIZE)%nat.
Proof. intros. unfold dip, DINODE, BSIZE. change IPB with 8. zdiv. Qed.

Lemma dip_apart n n' : 0 <= n -> 0 <= n' -> n mod IPB <> n' mod IPB ->
  (dip n' + Z.to_nat DINODE <= dip n \/ dip n + Z.to_nat DINODE <= dip n')%nat.
Proof. intros. unfold dip, DINODE in *. change IPB with 8 in *. zdiv. Qed.

(** * [iupdate] and [ilock] *)

Lemma iupdate_ok s i :
  txn s ∅ -> room s 1 -> i_dev (geti s i) = 1 -> 0 <= i_inum (geti s i) -> length (i_addrs (geti s i)) = S NDIRECT ->
  home s (IBLOCK (i_inum (geti s i)) (f_sb s)) ->
  exists s', iupdate i s = Ok tt s' /\ txn s' ∅ /\
    changed ∅ (IBLOCK (i_inum (geti s i)) (f_sb s))
      (splice (dip (i_inum (geti s i))) (dinode_bytes (geti s i)) (blk s (IBLOCK (i_inum (geti s i)) (f_sb s)))) s s'.
Proof.
  intros T Hr Hd Hn Hl Hh. set (ip := geti s i) in *. set (b := IBLOCK (i_inum ip) (f_sb s)) in *.
  destruct (write_block s ∅ b (splice (dip (i_inum ip)) (dinode_bytes ip) (blk s b)) T Hh (no_own s b))
    as (bp & t1 & t2 & t3 & s' & F1 & F2 & F3 & F4 & F5 & T' & C).
  { rewrite size_empty. exact Hr. }
  { rewrite splice_length; rewrite (tx_len _ _ T); [done|]. rewrite dinode_length by done. by apply dip_fits. }
  exists s'. split; [|done]. unfold iupdate. step (@ifield_ok inode id i s). cbn [id]. fold ip. rewrite Hd.
  unfold gets at 1, bind at 1. cbn [seqr]. fold b. step F1. step F2. step F3. step F4. exact F5.
Qed.

Lemma iref_ok i : slref_ok (iref i).
Proof. by constructor. Qed.

(** Nothing but the caches of blocks and inodes has changed. *)
Record stable (s s' : fs) : Prop := {
  sa_blk : forall n, blk s' n = blk s n;
  sa_nblk : nblk s' = nblk s;
  sa_conf : log_conf (f_l s') = log_conf (f_l s);
  sa_n : lh_n (f_l s') = lh_n (f_l s);
  sa_sb : f_sb s' = f_sb s;
  sa_inside : inside (fun _ => False) s s'
}.

Lemma stable_trans s s1 s2 : stable s s1 -> stable s1 s2 -> stable s s2.
Proof. intros [] []. constructor; intros; [etrans; eauto..|by apply (inside_trans _ s s1)]. Qed.

Lemma stable_steady O s s' : steady O s s' -> stable s s'.
Proof. intros S. constructor; try apply S. by eapply inside_steady. Qed.

Lemma stable_same s s' : same_blocks s s' -> stable s s'.
Proof. intros S. pose proof S as [E1 E2]. constructor; unfold blk, nblk; rewrite ?E1; try done. by apply inside_same. Qed.

(** The inode with a number, as it is on disk. *)
Definition disk_inode (s : fs) (inum : Z) (ip : inode) : inode := load_dinode (blk s (IBLOCK inum (f_sb s))) (dip inum) ip.

(** The inode as [ilock] leaves it. *)
Definition loaded (s : fs) (ip : inode) : inode :=
  set_ivalid true (load_dinode (blk s (IBLOCK (i_inum ip) (f_sb s))) (dip (i_inum ip))
    (set_ilock (Sleep true (curpid (bc_ctx (l_b (f_l s))))) ip)).

Lemma ilock_load s i :
  txn s ∅ -> room s 1 -> (i < length (f_icache s))%nat -> 1 <= i_ref (geti s i) -> sl_locked (i_lock (geti s i)) = false ->
  i_valid (geti s i) = false -> i_dev (geti s i) = 1 -> home s (IBLOCK (i_inum (geti s i)) (f_sb s)) ->
  i_type (loaded s (geti s i)) <> 0 ->
  exists s', ilock i s = Ok tt s' /\ geti s' i = loaded s (geti s i) /\ stable s s' /\ length (f_icache s') = length (f_icache s) /\ txn s' ∅ /\
    forall j, j <> i -> geti s' j = geti s j.
Proof.
  intros T Hr Hi Href Hlk Hv Hd Hh Ht. set (ip := geti s i) in *.
  set (s1 := sl_set (iref i) (Sleep true (curpid (view s))) s).
  assert (E1 : acquiresleep (iref i) s = Ok tt s1).
  { apply acquiresleep_free; [apply iref_ok| |exact Hlk]. change (view s) with (bc_ctx (l_b (f_l s))).
    rewrite (tx_held _ _ T). set_solver+. }
  assert (G1 : geti s1 i = set_ilock (Sleep true (curpid (view s))) ip) by by apply (geti_alter_eq _ i s).
  assert (S1 : same_blocks s s1) by done. pose proof (same_txn _ _ _ S1 T) as T1.
  set (b := IBLOCK (i_inum ip) (f_sb s)) in *.
  destruct (fbread_ok s1 ∅ b T1) as (bp & s2 & E2 & _ & T2 & Hold & S2); [apply Hh|apply no_own|rewrite size_empty; apply (room_le s 1 0 Hr); lia|].
  rewrite (same_blk s s1) in Hold by done.
  set (f := load_dinode (blk s b) (dip (i_inum ip))). set (s3 := set_icache (alter f i (f_icache s2)) s2).
  assert (S3 : same_blocks s2 s3) by done.
  assert (Hold3 : holds s3 bp b (blk s b)) by (destruct Hold; by constructor).
  destruct (fbrelse_ok s3 ({[bp]} ∪ ∅) bp b _ (same_txn _ _ _ S3 T2) ltac:(set_solver+) Hold3) as (s4 & E4 & T4 & S4).
  set (s5 := set_icache (alter (set_ivalid true) i (f_icache s4)) s4).
  assert (L2 : (i < length (f_icache s2))%nat) by (rewrite (st_icache _ _ _ S2); unfold s1; cbn; by rewrite length_alter).
  assert (G3 : geti s3 i = f (geti s1 i)) by (etrans; [by apply (geti_alter_eq _ i s2)|]; by rewrite (geti_steady _ _ _ _ S2)).
  assert (G5 : geti s5 i = loaded s ip).
  { etrans; [apply (geti_alter_eq _ i s4); rewrite (st_icache _ _ _ S4); unfold s3; cbn; by rewrite length_alter|].
    by rewrite (geti_steady _ _ _ _ S4), G3, G1. }
  exists s5. split; [|split; [done|split; [|split; [|split]]]].
  - unfold ilock. step (@ifield_ok Z i_ref i s). fold ip. rewrite (proj2 (Z.ltb_ge _ _)) by lia. step E1.
    step (@ifield_ok inode id i s1). cbn [id]. rewrite G1. change (i_valid (set_ilock _ ip)) with (i_valid ip). rewrite Hv.
    unfold gets at 1, bind at 1. cbn [seqr]. change (i_dev (set_ilock _ ip)) with (i_dev ip). rewrite Hd.
    change (i_inum (set_ilock _ ip)) with (i_inum ip). change (f_sb s1) with (f_sb s). fold b. step E2.
    step (bdata_ok s2 bp b _ Hold). unfold seti at 1, modify at 1, bind at 1. cbn [seqr]. fold f s3. step E4.
    unfold seti at 1, modify at 1, bind at 1. cbn [seqr]. fold s5. step (@ifield_ok Z i_type i s5). rewrite G5.
    by rewrite (proj2 (Z.eqb_neq _ _)).
  - apply (stable_trans s s1 s5 (stable_same s s1 S1)), (stable_trans s1 s2 s5 (stable_steady _ _ _ S2)).
    apply (stable_trans s2 s3 s5 (stable_same s2 s3 S3)), (stable_trans s3 s4 s5 (stable_steady _ _ _ S4)). by apply stable_same.
  - unfold s5. cbn. rewrite length_alter, (st_icache _ _ _ S4). unfold s3. cbn. rewrite length_alter, (st_icache _ _ _ S2). unfold s1. cbn. by rewrite length_alter.
  - apply (same_txn s4); [done|]. by rewrite minus_own in T4 by set_solver+.
  - intros j Hj. unfold s5. rewrite (geti_alter_ne _ i s4 j Hj), (geti_steady _ _ _ _ S4). unfold s3.
    rewrite (geti_alter_ne _ i s2 j Hj), (geti_steady _ _ _ _ S2). apply (geti_alter_ne _ i s j Hj).
Qed.

Lemma ilock_ok s i :
  txn s ∅ -> room s 1 -> (i < length (f_icache s))%nat -> 1 <= i_ref (geti s i) -> sl_locked (i_lock (geti s i)) = false ->
  i_valid (geti s i) = false -> i_dev (geti s i) = 1 -> home s (IBLOCK (i_inum (geti s i)) (f_sb s)) ->
  i_type (loaded s (geti s i)) <> 0 ->
  exists s', ilock i s = Ok tt s' /\ geti s' i = loaded s (geti s i) /\ stable s s' /\ length (f_icache s') = length (f_icache s) /\ txn s' ∅.
Proof. intros. destruct (ilock_load s i) as (s' & ? & ? & ? & ? & ? & _); eauto 10. Qed.
