(* ===== verification/FsContents.v ===== *)
(** [writei] on files as byte arrays, [fs.c]. *)

From S2P Require Import Prelude Params Spinlock Klock Bytes Bio Bcache Log Commit LogOps Fs Txn FsBlocks FsRead FsWrite FsInode.
Open Scope Z_scope.
Open Scope xv6_scope.

(** The bytes from [off] on, [n] of them, are those of [src]; the rest of the
    file is what it was, and no other file has changed. *)
Record written (i : nat) (off n : Z) (src : bytes) (s s' : fs) : Prop := {
  wn_inode : exists a, geti s' i = set_iaddrs a (geti s i);
  wn_same : (forall k, off <= k < off + n -> addr_of s (geti s i) (k / BSIZE) <> 0) -> geti s' i = geti s i;
  wn_icache : length (f_icache s') = length (f_icache s) /\ forall j, j <> i -> geti s' j = geti s j;
  wn_wf : file_wf s' (geti s' i);
  wn_layout : layout s';
  wn_addr : forall c, 0 <= c < MAXFILE -> addr_of s (geti s i) c <> 0 -> addr_of s' (geti s' i) c = addr_of s (geti s i) c;
  wn_fresh : forall c, 0 <= c < MAXFILE -> addr_of s (geti s i) c = 0 -> addr_of s' (geti s' i) c <> 0 ->
    ~ datablock s (addr_of s' (geti s' i) c);
  wn_ind : ind_of (geti s' i) = ind_of (geti s i) \/ ~ datablock s (ind_of (geti s' i));
  wn_backed : forall k, off <= k < off + n -> addr_of s' (geti s' i) (k / BSIZE) <> 0;
  wn_byte : forall k, off <= k < off + n -> fbyte s' (geti s' i) k = default 0 (src !! Z.to_nat (k - off));
  wn_keep : forall k, 0 <= k < MAXFILE * BSIZE -> ~ (off <= k < off + n) -> addr_of s (geti s i) (k / BSIZE) <> 0 ->
    fbyte s' (geti s' i) k = fbyte s (geti s i) k;
  wn_data : forall m, datablock s m -> datablock s' m;
  wn_frame : forall m, datablock s m -> m <> ind_of (geti s i) -> (forall c, 0 <= c < MAXFILE -> addr_of s (geti s i) c <> m) ->
    blk s' m = blk s m;
  wn_sb : f_sb s' = f_sb s;
  wn_inside : inside (fun x => 1 < x) s s'
}.

Lemma BSIZE_pos : 0 < BSIZE.
Proof. reflexivity. Qed.

Lemma block_range k : 0 <= k < MAXFILE * BSIZE -> 0 <= k / BSIZE < MAXFILE.
Proof. unfold MAXFILE, NDIRECT, NINDIRECT, BSIZE. intros. zdiv. Qed.

(** Nothing written. *)
Lemma written_nil i off src s : layout s -> file_wf s (geti s i) -> written i off 0 src s s.
Proof.
  intros L W. constructor; try done; try (intros; lia); try (by left); [|by apply inside_same].
  exists (i_addrs (geti s i)). by destruct (geti s i).
Qed.

(** One piece, then the rest. *)
Lemma written_app i off m n src s s1 s2 :
  0 <= m <= n -> Z.of_nat (length src) >= n -> 0 <= off -> off + n <= MAXFILE * BSIZE ->
  written i off m (take (Z.to_nat m) src) s s1 -> written i (off + m) (n - m) (drop (Z.to_nat m) src) s1 s2 ->
  written i off n src s s2.
Proof.
  intros Hm Hl Ho Hmax A B. destruct (wn_inode _ _ _ _ _ _ A) as (a1 & Ga), (wn_inode _ _ _ _ _ _ B) as (a2 & Gb).
  destruct (wn_icache _ _ _ _ _ _ A) as [La Oa], (wn_icache _ _ _ _ _ _ B) as [Lb Ob].
  assert (Haddr : forall c, 0 <= c < MAXFILE -> addr_of s (geti s i) c <> 0 -> addr_of s2 (geti s2 i) c = addr_of s (geti s i) c).
  { intros c Hc Hz. pose proof (wn_addr _ _ _ _ _ _ A c Hc Hz) as E. rewrite <- E. apply (wn_addr _ _ _ _ _ _ B); [done|by rewrite E]. }
  assert (Hbk : forall k, off <= k < off + m -> addr_of s2 (geti s2 i) (k / BSIZE) = addr_of s1 (geti s1 i) (k / BSIZE)).
  { intros k Hk. apply (wn_addr _ _ _ _ _ _ B); [apply block_range; lia|]. by apply (wn_backed _ _ _ _ _ _ A). }
  constructor.
  - exists a2. by rewrite Gb, Ga.
  - intros Hall. rewrite (wn_same _ _ _ _ _ _ B), (wn_same _ _ _ _ _ _ A); [done|intros k Hk; apply Hall; lia|].
    intros k Hk. rewrite (wn_addr _ _ _ _ _ _ A); [apply Hall; lia|apply block_range; lia|apply Hall; lia].
  - split; [by rewrite Lb|]. intros j Hj. by rewrite Ob, Oa.
  - apply B.
  - apply B.
  - exact Haddr.
  - intros c Hc Hz Hn Hd. destruct (decide (addr_of s1 (geti s1 i) c = 0)) as [E|E].
    + apply (wn_fresh _ _ _ _ _ _ B c Hc E Hn). by apply (wn_data _ _ _ _ _ _ A).
    + rewrite (wn_addr _ _ _ _ _ _ B) in Hd by done. by apply (wn_fresh _ _ _ _ _ _ A c Hc Hz E).
  - destruct (wn_ind _ _ _ _ _ _ B) as [->|Hx]; [apply A|right]. intros Hd. by apply Hx, (wn_data _ _ _ _ _ _ A).
  - intros k Hk. destruct (decide (k < off + m)).
    + rewrite Hbk by lia. apply (wn_backed _ _ _ _ _ _ A). lia.
    + apply (wn_backed _ _ _ _ _ _ B). lia.
  - intros k Hk. destruct (decide (k < off + m)).
    + rewrite (wn_keep _ _ _ _ _ _ B) by first [lia|apply (wn_backed _ _ _ _ _ _ A); lia].
      rewrite (wn_byte _ _ _ _ _ _ A) by lia. by rewrite lookup_take_lt by lia.
    + rewrite (wn_byte _ _ _ _ _ _ B) by lia. rewrite lookup_drop. repeat f_equal. lia.
  - intros k Hk Hn Hz. rewrite (wn_keep _ _ _ _ _ _ B); [apply (wn_keep _ _ _ _ _ _ A); [done|lia|done]|done|lia|].
    rewrite (wn_addr _ _ _ _ _ _ A); [done|by apply block_range|done].
  - intros x Hx. by apply (wn_data _ _ _ _ _ _ B), (wn_data _ _ _ _ _ _ A).
  - intros x Hx Hi Hc. rewrite (wn_frame _ _ _ _ _ _ B).
    + by apply (wn_frame _ _ _ _ _ _ A).
    + by apply (wn_data _ _ _ _ _ _ A).
    + intros ->. destruct (wn_ind _ _ _ _ _ _ A) as [E|E]; [by apply Hi|by apply E].
    + intros c Hcr E. subst x. destruct (decide (addr_of s (geti s i) c = 0)) as [Ez|Ez].
      * destruct (decide (addr_of s1 (geti s1 i) c = 0)) as [E0|E0].
        -- pose proof (db_range _ _ Hx). lia.
        -- by apply (wn_fresh _ _ _ _ _ _ A c Hcr Ez E0).
      * rewrite (wn_addr _ _ _ _ _ _ A) in Hc by done. by apply (Hc c Hcr).
  - rewrite (wn_sb _ _ _ _ _ _ B). apply A.
  - apply (inside_trans _ _ s1); [apply A|apply B].
Qed.

(** * One block *)

Lemma same_block off k : 0 <= off -> off <= k -> k < off + (BSIZE - off mod BSIZE) ->
  k / BSIZE = off / BSIZE /\ k mod BSIZE = off mod BSIZE + (k - off).
Proof. unfold BSIZE. intros. split; zdiv. Qed.

Lemma other_block off m k : 0 <= off -> 0 <= m <= BSIZE - off mod BSIZE -> 0 <= k -> ~ (off <= k < off + m) ->
  k / BSIZE = off / BSIZE -> k mod BSIZE < off mod BSIZE \/ off mod BSIZE + m <= k mod BSIZE < BSIZE.
Proof. unfold BSIZE. intros. zdiv. Qed.

Section one_block.
Context (i : nat) (off m : Z) (x : bytes) (addr : Z) (s s1 s2 : fs).
Context (T : txn s ∅) (T1 : txn s1 ∅) (Hm : Z.of_nat (length x) = m) (Hpos : 0 < m) (Ho : 0 <= off).
Context (Hfit : m <= BSIZE - off mod BSIZE) (Hmax : off + m <= MAXFILE * BSIZE).
Context (W : file_wf s (geti s i)).
Context (P : mapped i (off / BSIZE) addr s s1).
Context (C : changed ∅ addr (splice (Z.to_nat (off mod BSIZE)) x (blk s1 addr)) s1 s2).

Let ip1 := geti s1 i.

Lemma ob_geti j : geti s2 j = geti s1 j.
Proof using C. unfold geti. by rewrite (ch_icache _ _ _ _ _ C). Qed.

Lemma ob_bn : 0 <= off / BSIZE < MAXFILE.
Proof using Ho Hmax Hpos. clear -Ho Hmax Hpos. apply block_range. lia. Qed.

Lemma ob_addr_of c : addr_of s2 ip1 c = addr_of s1 ip1 c.
Proof using Ho Hmax Hpos P C.
  apply addr_of_ext. intros Hi. rewrite (ch_blk _ _ _ _ _ C), decide_False; [done|]. intros E.
  apply (fw_ind_ne _ _ (mp_wf _ _ _ _ _ P) Hi (off / BSIZE) ob_bn). fold ip1. rewrite E. exact (mp_addr _ _ _ _ _ P).
Qed.

Lemma ob_wf : file_wf s2 ip1.
Proof using All.
  apply (file_wf_ext s1); [apply P| |].
  - intros Hi. rewrite (ch_blk _ _ _ _ _ C), decide_False; [done|]. intros E.
    apply (fw_ind_ne _ _ (mp_wf _ _ _ _ _ P) Hi (off / BSIZE) ob_bn). fold ip1. rewrite E. exact (mp_addr _ _ _ _ _ P).
  - intros b. apply (datablock_changed s1 s2 ∅ ∅ addr _ T1 (mp_layout _ _ _ _ _ P) C (mp_block _ _ _ _ _ P)).
Qed.

Lemma ob_nz : addr <> 0.
Proof using P. clear -P. pose proof (db_range _ _ (mp_block _ _ _ _ _ P)). lia. Qed.

Lemma ob_addr c : 0 <= c < MAXFILE -> c <> off / BSIZE -> addr_of s2 ip1 c = addr_of s (geti s i) c.
Proof using Ho Hmax Hpos P C. intros Hc Hne. rewrite ob_addr_of. by apply P. Qed.

Lemma ob_blk_at : addr_of s2 ip1 (off / BSIZE) = addr.
Proof using Ho Hmax Hpos P C. rewrite ob_addr_of. exact (mp_addr _ _ _ _ _ P). Qed.

Lemma ob_new_byte k : off <= k < off + m -> fbyte s2 ip1 k = default 0 (x !! Z.to_nat (k - off)).
Proof using All.
  intros Hk. destruct (same_block off k) as [E1 E2]; [lia..|]. unfold fbyte. rewrite E1, E2, ob_blk_at.
  rewrite (ch_blk _ _ _ _ _ C), decide_True by done. pose proof (Z.mod_pos_bound off BSIZE BSIZE_pos).
  rewrite splice_lookup_in; [repeat f_equal; lia|rewrite (tx_len _ _ T1); lia|lia].
Qed.

Lemma ob_old_blk c : 0 <= c < MAXFILE -> addr_of s (geti s i) c <> 0 ->
  blk s1 (addr_of s (geti s i) c) = blk s (addr_of s (geti s i) c).
Proof using W P.
  intros Hc Hz. apply (mp_data _ _ _ _ _ P); [by apply W|]. intros E.
  apply (fw_ind_ne _ _ W) with c; [by rewrite <- E|done|done].
Qed.

Lemma ob_old_byte k : 0 <= k < MAXFILE * BSIZE -> ~ (off <= k < off + m) -> addr_of s (geti s i) (k / BSIZE) <> 0 ->
  fbyte s2 ip1 k = fbyte s (geti s i) k.
Proof using All.
  intros Hk Hout Hz. pose proof (block_range k Hk) as Hkb. pose proof (Z.mod_pos_bound off BSIZE BSIZE_pos).
  unfold fbyte. destruct (decide (k / BSIZE = off / BSIZE)) as [E|E].
  - rewrite E in Hz. rewrite E, ob_blk_at, (ch_blk _ _ _ _ _ C), decide_True by done.
    rewrite <- (ob_old_blk (off / BSIZE) ob_bn Hz), <- (mp_kept _ _ _ _ _ P Hz).
    pose proof (other_block off m k). pose proof (Z.mod_pos_bound k BSIZE BSIZE_pos).
    rewrite splice_lookup_out; [done|rewrite (tx_len _ _ T1); lia|lia].
  - rewrite (ob_addr _ Hkb E), (ch_blk _ _ _ _ _ C), decide_False.
    + by rewrite (ob_old_blk _ Hkb Hz).
    + intros Ea. apply E. apply (fw_inj _ _ ob_wf _ _ Hkb ob_bn); rewrite (ob_addr _ Hkb E); [done|].
      by rewrite ob_blk_at.
Qed.

Lemma ob_frame b : datablock s b -> b <> ind_of (geti s i) -> (forall c, 0 <= c < MAXFILE -> addr_of s (geti s i) c <> b) ->
  blk s2 b = blk s b.
Proof using Ho Hmax Hpos P C.
  intros Hb Hi Hc. rewrite (ch_blk _ _ _ _ _ C), decide_False; [by apply (proj2 (mp_data _ _ _ _ _ P b Hb))|].
  intros ->. destruct (decide (addr_of s (geti s i) (off / BSIZE) = 0)) as [E|E].
  - by apply (mp_fresh _ _ _ _ _ P E).
  - apply (Hc _ ob_bn). symmetry. exact (mp_kept _ _ _ _ _ P E).
Qed.

Lemma one_block_written : written i off m x s s2.
Proof using All.
  pose proof (mp_layout _ _ _ _ _ P) as L1. pose proof (mp_block _ _ _ _ _ P) as B1.
  destruct (mp_icache _ _ _ _ _ P) as [Hl Hj]. constructor; rewrite ?ob_geti; fold ip1.
  - apply P.
  - intros Hall. apply (mp_same _ _ _ _ _ P), Hall. lia.
  - rewrite (ch_icache _ _ _ _ _ C). split; [done|]. intros j. rewrite ob_geti. apply Hj.
  - exact ob_wf.
  - exact (layout_changed s1 s2 ∅ ∅ addr _ T1 L1 C B1).
  - intros c Hc Hz. destruct (decide (c = off / BSIZE)) as [->|E]; [|by apply ob_addr].
    rewrite ob_blk_at. exact (mp_kept _ _ _ _ _ P Hz).
  - intros c Hc Hz. destruct (decide (c = off / BSIZE)) as [->|E]; [|by rewrite ob_addr].
    rewrite ob_blk_at. intros _. exact (mp_fresh _ _ _ _ _ P Hz).
  - exact (mp_ind _ _ _ _ _ P).
  - intros k Hk. destruct (same_block off k) as [-> _]; [lia..|]. rewrite ob_blk_at. exact ob_nz.
  - exact ob_new_byte.
  - exact ob_old_byte.
  - intros b Hb. apply (datablock_changed s1 s2 ∅ ∅ addr _ T1 L1 C B1), (mp_data _ _ _ _ _ P b Hb).
  - exact ob_frame.
  - rewrite (ch_sb _ _ _ _ _ C). apply P.
  - apply (inside_trans _ _ s1); [|apply (inside_changed _ _ _ _ _ _ C), (db_range _ _ B1)]. refine (inside_weaken _ _ _ _ _ (mp_inside _ _ _ _ _ P)).
    intros b [->|[[-> Hb]|(c & Hc & ->)]]; [apply (db_range _ _ B1)|apply (db_range _ _ (fw_ind _ _ (mp_wf _ _ _ _ _ P) Hb))|].
    rewrite <- (mp_sb _ _ _ _ _ P) in *. rewrite (BBLOCK_eq s1 ∅ T1 L1 c Hc). pose proof (la_sb_used _ L1) as (_ & _ & Hbm).
    assert (0 <= c / BPB) by (apply Z.div_pos; [lia|reflexivity]). lia.
Qed.
End one_block.

(** * The loop of [writei] *)

(** The number of blocks a range of bytes touches. *)
Definition touched (off n : Z) : Z := if 0 <? n then (off + n - 1) / BSIZE - off / BSIZE + 1 else 0.

Lemma touched_pos off n : 0 <= off -> 0 < n -> 1 <= touched off n.
Proof. intros. unfold touched, BSIZE. rewrite (proj2 (Z.ltb_lt _ _)) by done. zdiv. Qed.

Lemma touched_step off n :
  0 <= off -> 0 < n -> let m := Z.min n (BSIZE - off mod BSIZE) in touched (off + m) (n - m) <= touched off n - 1.
Proof.
  intros Ho Hn m. pose proof (touched_pos off n Ho Hn). unfold touched, m, BSIZE in *. rewrite (proj2 (Z.ltb_lt 0 n)) in * by done.
  destruct (Z.ltb_spec 0 (n - Z.min n (512 - off mod 512))); [|lia]. rewrite Z.min_r in * by lia. zdiv.
Qed.

(** An account of the space in the log: it suffices for a block while blocks
    are left, writing a block uses it up by one, and when no block is left it
    suffices for the inode. *)
Record meter (i : nat) (R : Z -> fs -> Prop) : Prop := {
  me_room : forall t s, 1 <= t -> txn s ∅ -> R t s -> room s 6;
  me_le : forall t t' s, 0 <= t' <= t -> R t s -> R t' s;
  me_step : forall t s s1 s2 bn a d, 1 <= t -> txn s ∅ -> txn s1 ∅ -> txn s2 ∅ -> mapped i bn a s s1 -> changed ∅ a d s1 s2 -> R t s -> R (t - 1) s2;
  me_end : forall s, txn s ∅ -> R 0 s -> room s 1
}.

(** Six entries of the log for every block. *)
Lemma meter_blocks i s0 t0 :
  meter i (fun t s => room s (6 * t + 1) /\ forall k, room s0 (6 * t0 + 1 + k) -> room s (6 * t + 1 + k)).
Proof.
  constructor.
  - intros t s Ht _ [Hr _]. eapply room_le; [done|lia].
  - intros t t' s Ht [Hr Hk]. split; [eapply room_le; [done|lia]|]. intros k Hs. eapply room_le; [by apply Hk|lia].
  - intros t s s1 s2 bn a d Ht T T1 T2 P C [Hr Hk]. split.
    + apply (changed_room _ _ _ _ _ _ _ _ T1 T2 C), (mp_room _ _ _ _ _ P). eapply room_le; [exact Hr|lia].
    + intros k Hs. apply (changed_room _ _ _ _ _ _ _ _ T1 T2 C), (mp_room _ _ _ _ _ P). eapply room_le; [exact (Hk k Hs)|lia].
  - intros s _ [Hr _]. eapply room_le; [done|lia].
Qed.

(** The blocks in the log are among [X] and the indirect block of the file. *)
Definition distinct (i : nat) (t : Z) (s : fs) : Prop :=
  NoDup (logged (f_l s)) /\ exists X : gset Z,
    (forall b, b ∈ logged (f_l s) -> b ∈ X \/ (b = ind_of (geti s i) /\ b <> 0)) /\ (forall b, bitmap s b -> b ∈ X) /\
    Z.of_nat (size X) + t + 6 < lg_size (f_l s) /\ Z.of_nat (size X) + t + 6 < NBUF.

Lemma distinct_room i t s : txn s ∅ -> distinct i t s -> room s (5 + t).
Proof.
  intros T (Hu & X & HX & _ & H1 & H2). pose proof (lo_n _ (tx_log _ _ T)) as Hn. pose proof (logged_length _ (tx_log _ _ T)) as Hl.
  assert (Hs : (length (logged (f_l s)) <= size X + 1)%nat).
  { rewrite <- (size_list_to_set (C := gset Z) _ Hu). etrans; [apply (subseteq_size _ (X ∪ {[ind_of (geti s i)]}))|].
    - intros b [Hb|[-> _]]%elem_of_list_to_set%HX; set_solver.
    - rewrite size_union_alt. pose proof (subseteq_size ({[ind_of (geti s i)]} ∖ X) {[ind_of (geti s i)]} ltac:(set_solver+)) as Hle.
      rewrite size_singleton in Hle. lia. }
  unfold room. lia.
Qed.

Lemma meter_distinct i : meter i (distinct i).
Proof.
  constructor.
  - intros t s Ht T D. apply (room_le s (5 + t)); [by eapply distinct_room|lia].
  - intros t t' s Ht (Hu & X & H1 & H2 & H3 & H4). split; [done|]. exists X. do 2 (split; [done|]). lia.
  - intros t s s1 s2 bn a d Ht T T1 T2 P C (Hu & X & HX & HB & Hs1 & Hs2). pose proof (mp_inside _ _ _ _ _ P) as I1.
    pose proof (inside_changed _ (fun x => x = a) _ _ _ _ C eq_refl) as I2. assert (G2 : geti s2 i = geti s1 i) by (unfold geti; by rewrite (ch_icache _ _ _ _ _ C)).
    split; [by apply I2, I1|]. exists ({[a]} ∪ X). split; [|split].
    + intros b Hb. rewrite G2. apply (in_logged _ _ _ I2) in Hb as [Hb| ->]; [|set_solver+].
      apply (in_logged _ _ _ I1) in Hb as [Hb|[->|[Hb|Hb]]]; [|set_solver+|by right|left; apply HB in Hb; set_solver].
      apply HX in Hb as [Hb|[-> Hz]]; [set_solver|right]. by rewrite (mp_ind_kept _ _ _ _ _ P).
    + intros b Hb. apply elem_of_union_r, HB. unfold bitmap in *. by rewrite (ch_sb _ _ _ _ _ C), (mp_sb _ _ _ _ _ P) in Hb.
    + pose proof (in_conf _ _ _ (inside_trans _ _ _ _ (inside_weaken _ (fun _ => True) _ _ (fun _ _ => I) I1) (inside_weaken _ (fun _ => True) _ _ (fun _ _ => I) I2))) as Ec.
      injection Ec as _ Ec _ _ _. rewrite Ec. pose proof (size_union_alt {[a]} X) as Hsz. rewrite size_singleton in Hsz.
      pose proof (subseteq_size (X ∖ {[a]}) X ltac:(set_solver+)). lia.
  - intros s T D. apply (room_le s 5); [|lia]. by apply (distinct_room i 0).
Qed.

Section writei.
Context `{DevSw}.

Lemma writei_loop_ok i R : meter i R -> forall fuel s src off left,
  txn s ∅ -> layout s -> file_wf s (geti s i) -> (i < length (f_icache s))%nat -> 0 <= off -> 0 <= left ->
  off + left <= MAXFILE * BSIZE -> left <= Z.of_nat (length src) ->
  R (touched off left) s -> free_ge s (2 * Z.to_nat (touched off left)) -> (Z.to_nat left < fuel)%nat ->
  exists s', writei_loop i src off left fuel s = Ok (off + left) s' /\ txn s' ∅ /\ written i off left src s s' /\ R 0 s' /\
    (forall k, free_ge s (2 * Z.to_nat (touched off left) + k) -> free_ge s' k).
Proof.
  intros ME. induction fuel as [|fuel IH]; intros s src off left T L W Hi Ho Hl Hmax Hs Hr Hf Hfuel; [lia|].
  cbn [writei_loop]. destruct (Z.ltb_spec 0 left) as [Hpos|Hz].
  2:{ assert (left = 0) as -> by lia. exists s. split; [by rewrite Z.add_0_r|]. split; [done|].
      split; [by apply written_nil|done]. }
  pose proof (Z.mod_pos_bound off BSIZE BSIZE_pos) as Hmod. pose proof (touched_pos off left Ho Hpos) as Ht1.
  pose proof (touched_step off left Ho Hpos) as Ht. cbn zeta in Ht.
  set (m := Z.min left (BSIZE - off mod BSIZE)) in *. set (tt0 := touched off left) in *. clearbody tt0.
  assert (Hm : 0 < m <= left) by (unfold m, BSIZE in *; lia). pose proof (me_room _ _ ME _ _ Ht1 T Hr) as Hr6.
  step (@ifield_ok inode id i s). cbn [id]. rewrite (fw_dev _ _ W).
  destruct (bmap_ok s i (off / BSIZE) T L W Hi) as (a & s1 & E1 & T1 & P1).
  { apply block_range. lia. }
  { done. }
  { eapply free_ge_le; [done|lia]. }
  step E1. pose proof (mp_block _ _ _ _ _ P1) as Da. set (x := take (Z.to_nat m) src).
  assert (Hx : Z.of_nat (length x) = m) by (unfold x; rewrite length_take; lia).
  destruct (write_block s1 ∅ a (splice (Z.to_nat (off mod BSIZE)) x (blk s1 a)) T1 (db_home _ _ Da) (no_own s1 a))
    as (bp & t1 & t2 & t3 & s2 & F1 & F2 & F3 & F4 & F5 & T2 & C2).
  { rewrite size_empty. apply (mp_room _ _ _ _ _ P1). done. }
  { rewrite splice_length; rewrite (tx_len _ _ T1); [done|]. unfold m, BSIZE in *. lia. }
  step F1. step F2. step F3. step F4. step F5.
  pose proof (one_block_written i off m x a s s1 s2 T T1 Hx ltac:(lia) Ho ltac:(lia) ltac:(lia) W P1 C2) as W2.
  rewrite u32_id by (unfold MAXFILE, NDIRECT, NINDIRECT, BSIZE in *; lia).
  assert (Hf2 : forall k, free_ge s (2 * Z.to_nat tt0 + k) -> free_ge s2 (2 * Z.to_nat (touched (off + m) (left - m)) + k)).
  { intros k Hk. eapply free_ge_le; [apply (free_ge_changed s1 s2 ∅ ∅ a _ T1 (mp_layout _ _ _ _ _ P1) C2 Da)|].
    - apply (mp_free _ _ _ _ _ P1 (2 * Z.to_nat (tt0 - 1) + k)). eapply free_ge_le; [exact Hk|lia].
    - lia. }
  destruct (IH s2 (drop (Z.to_nat m) src) (off + m) (left - m)) as (s3 & E3 & T3 & W3 & R3 & Q3); try done; try lia.
  { apply W2. }
  { apply W2. }
  { by rewrite (proj1 (wn_icache _ _ _ _ _ _ W2)). }
  { rewrite length_drop. lia. }
  { apply (me_le _ _ ME (tt0 - 1)); [split; [|lia]; unfold touched; destruct (Z.ltb_spec 0 (left - m)); [unfold BSIZE; zdiv|lia]|].
    by apply (me_step _ _ ME tt0 s s1 s2 _ _ _ Ht1 T T1 T2 P1 C2). }
  { rewrite <- (Nat.add_0_r (2 * _)). apply Hf2. by rewrite Nat.add_0_r. }
  exists s3. split; [rewrite E3; f_equal; lia|]. split; [done|]. split; [|split; [done|]].
  - apply (written_app i off m left src s s2 s3); try done; lia.
  - intros k Hk. by apply Q3, Hf2.
Qed.

(** The block of the inode is apart from the contents of the file. *)
Record inode_apart (s : fs) (ip : inode) (b : Z) : Prop := {
  ia_data : datablock s b;
  ia_ind : ind_of ip <> b;
  ia_addr : forall c, 0 <= c < MAXFILE -> addr_of s ip c <> b
}.

Lemma written_apart i off n src s s' b :
  written i off n src s s' -> inode_apart s (geti s i) b -> inode_apart s' (geti s' i) b.
Proof.
  intros A [D I C]. pose proof (db_range _ _ D) as Hr. constructor.
  - by apply A.
  - intros E. destruct (wn_ind _ _ _ _ _ _ A) as [E'|E']; [by apply I; rewrite <- E'|by apply E'; rewrite E].
  - intros c Hc E. destruct (decide (addr_of s (geti s i) c = 0)) as [Hz|Hz].
    + apply (wn_fresh _ _ _ _ _ _ A c Hc Hz); rewrite E; [lia|done].
    + rewrite (wn_addr _ _ _ _ _ _ A) in E by done. by apply (C c Hc).
Qed.

(** Writing the inode leaves the contents alone. *)
Lemma apart_fbyte O s s' ip b d k :
  inode_apart s ip b -> changed O b d s s' -> 0 <= k < MAXFILE * BSIZE -> fbyte s' ip k = fbyte s ip k.
Proof.
  intros [D I A] C Hk. unfold fbyte. rewrite (addr_of_ext s s').
  - rewrite (ch_blk _ _ _ _ _ C), decide_False; [done|]. apply A. by apply block_range.
  - intros _. by rewrite (ch_blk _ _ _ _ _ C), decide_False.
Qed.

Lemma apart_wf s s' ip b d :
  txn s ∅ -> layout s -> inode_apart s ip b -> changed ∅ b d s s' -> file_wf s ip -> file_wf s' ip.
Proof.
  intros T L [D I A] C W. apply (file_wf_ext s); [done| |].
  - intros _. by rewrite (ch_blk _ _ _ _ _ C), decide_False.
  - intros n. apply (datablock_changed s s' ∅ ∅ b d T L C D).
Qed.

(** The effect of [writei]: the range holds the new bytes, the rest of the
    file is unchanged and so is every block that is neither the file's nor
    its inode's, and the size covers the range. *)
Record wrote (i : nat) (ib off n : Z) (src : bytes) (s s' : fs) : Prop := {
  wo_inode : exists a, geti s' i = set_isize (Z.max (i_size (geti s i)) (off + n)) (set_iaddrs a (geti s i));
  wo_others : length (f_icache s') = length (f_icache s) /\ forall j, j <> i -> geti s' j = geti s j;
  wo_wf : file_wf s' (geti s' i);
  wo_layout : layout s';
  wo_apart : inode_apart s' (geti s' i) ib;
  wo_addr : forall c, 0 <= c < MAXFILE -> addr_of s (geti s i) c <> 0 -> addr_of s' (geti s' i) c = addr_of s (geti s i) c;
  wo_data : forall b, datablock s b -> datablock s' b;
  wo_sb : f_sb s' = f_sb s;
  wo_backed : forall k, off <= k < off + n -> addr_of s' (geti s' i) (k / BSIZE) <> 0;
  wo_byte : forall k, off <= k < off + n -> fbyte s' (geti s' i) k = default 0 (src !! Z.to_nat (k - off));
  wo_keep : forall k, 0 <= k < MAXFILE * BSIZE -> ~ (off <= k < off + n) -> addr_of s (geti s i) (k / BSIZE) <> 0 ->
    fbyte s' (geti s' i) k = fbyte s (geti s i) k;
  wo_frame : forall b, datablock s b -> b <> ib -> b <> ind_of (geti s i) ->
    (forall c, 0 <= c < MAXFILE -> addr_of s (geti s i) c <> b) -> blk s' b = blk s b;
  wo_same : off + n <= i_size (geti s i) -> (forall k, off <= k < off + n -> addr_of s (geti s i) (k / BSIZE) <> 0) -> geti s' i = geti s i;
  wo_disk : blk s' ib = if i_size (geti s i) <? off + n
    then splice (dip (i_inum (geti s i))) (dinode_bytes (geti s' i)) (blk s ib) else blk s ib;
  wo_inside : inside (fun x => 1 < x) s s';
  wo_fresh : forall c, 0 <= c < MAXFILE -> addr_of s (geti s i) c = 0 -> addr_of s' (geti s' i) c <> 0 ->
    ~ datablock s (addr_of s' (geti s' i) c);
  wo_ind : ind_of (geti s' i) = ind_of (geti s i) \/ ~ datablock s (ind_of (geti s' i))
}.

Lemma written_wrote i ib off n src s s' :
  written i off n src s s' -> off + n <= i_size (geti s i) -> inode_apart s (geti s i) ib -> wrote i ib off n src s s'.
Proof.
  intros A Hs Hap. pose proof A as [[a Ha] A1 A2 A3 A4 A5 A6 A7 A8 A9 A10 A11 A12 A13 A14]. constructor; try done.
  - exists a. rewrite Ha, Z.max_l by lia. by destruct (geti s i).
  - by apply (written_apart i off n src s).
  - intros b Hb _. by apply A12.
  - rewrite (proj2 (Z.ltb_ge _ _)) by done. destruct Hap as [D I C]. by apply A12.
Qed.

Lemma addr_of_size s ip z c : addr_of s (set_isize z ip) c = addr_of s ip c.
Proof. done. Qed.

Lemma file_wf_size s ip z : file_wf s ip -> file_wf s (set_isize z ip).
Proof. by intros []. Qed.

Lemma grown_wrote i ib off n src s s2 s3 s4 :
  (i < length (f_icache s))%nat -> written i off n src s s2 -> txn s3 ∅ ->
  s3 = set_icache (alter (set_isize (off + n)) i (f_icache s2)) s2 -> 0 <= off -> 0 <= n -> off + n <= MAXFILE * BSIZE ->
  i_size (geti s i) < off + n -> inode_apart s (geti s i) ib ->
  changed ∅ ib (splice (dip (i_inum (geti s i))) (dinode_bytes (geti s3 i)) (blk s3 ib)) s3 s4 ->
  wrote i ib off n src s s4.
Proof.
  intros Hi A T3 Es Ho Hn Hmax Hs Hap C. destruct (wn_inode _ _ _ _ _ _ A) as [a Ha].
  destruct (wn_icache _ _ _ _ _ _ A) as [Hl Hj].
  assert (S3 : same_blocks s2 s3) by by rewrite Es.
  assert (G3 : geti s3 i = set_isize (off + n) (geti s2 i)) by (rewrite Es; apply geti_alter_eq; by rewrite Hl).
  assert (G4 : forall j, geti s4 j = geti s3 j) by (intros j; unfold geti; by rewrite (ch_icache _ _ _ _ _ C)).
  pose proof (same_layout _ _ S3 (wn_layout _ _ _ _ _ _ A)) as L3.
  assert (Hap3 : inode_apart s3 (geti s3 i) ib).
  { destruct (written_apart _ _ _ _ _ _ _ A Hap) as [D I Ad]. rewrite G3. constructor; [by apply (same_datablock s2)|exact I|].
    intros c Hc. rewrite addr_of_size, (addr_of_ext s2 s3) by (intros; by apply same_blk). by apply Ad. }
  assert (W3 : file_wf s3 (geti s3 i)).
  { rewrite G3. apply file_wf_size, (same_file_wf s2); [done|]. apply A. }
  assert (B4 : forall k, 0 <= k < MAXFILE * BSIZE -> fbyte s4 (geti s4 i) k = fbyte s2 (geti s2 i) k).
  { intros k Hk. rewrite G4, (apart_fbyte _ _ _ _ _ _ _ Hap3 C Hk), G3. unfold fbyte. rewrite addr_of_size.
    rewrite (addr_of_ext s2 s3) by (intros; by apply same_blk). by rewrite (same_blk s2 s3). }
  assert (A4 : forall c, addr_of s4 (geti s4 i) c = addr_of s2 (geti s2 i) c).
  { intros c. rewrite G4. rewrite (addr_of_ext s3 s4).
    - rewrite G3, addr_of_size. apply addr_of_ext. intros. by apply same_blk.
    - intros _. rewrite (ch_blk _ _ _ _ _ C), decide_False; [done|apply Hap3]. }
  constructor.
  - exists a. by rewrite G4, G3, Ha, Z.max_r by lia.
  - rewrite (ch_icache _ _ _ _ _ C). split; [rewrite Es; cbn; by rewrite length_alter|].
    intros j Hne. by rewrite G4, Es, geti_alter_ne, Hj.
  - rewrite G4. exact (apart_wf s3 s4 _ ib _ T3 L3 Hap3 C W3).
  - exact (layout_changed s3 s4 ∅ ∅ ib _ T3 L3 C (ia_data _ _ _ Hap3)).
  - constructor; rewrite ?G4; [|apply Hap3|].
    + exact (datablock_changed s3 s4 ∅ ∅ ib _ T3 L3 C (ia_data _ _ _ Hap3) ib (ia_data _ _ _ Hap3)).
    + intros c Hc. rewrite <- G4, A4. by apply (ia_addr _ _ _ (written_apart _ _ _ _ _ _ _ A Hap)).
  - intros c Hc Hz. rewrite A4. by apply (wn_addr _ _ _ _ _ _ A).
  - intros b Hb. apply (datablock_changed s3 s4 ∅ ∅ ib _ T3 L3 C (ia_data _ _ _ Hap3)), (same_datablock s2); [done|].
    by apply (wn_data _ _ _ _ _ _ A).
  - rewrite (ch_sb _ _ _ _ _ C), Es. apply A.
  - intros k Hk. rewrite A4. by apply (wn_backed _ _ _ _ _ _ A).
  - intros k Hk. rewrite B4 by lia. by apply (wn_byte _ _ _ _ _ _ A).
  - intros k Hk Hout Hz. rewrite B4 by done. by apply (wn_keep _ _ _ _ _ _ A).
  - intros b Hb Hne Hi' Hc. rewrite (ch_blk _ _ _ _ _ C), decide_False by done. rewrite (same_blk s2 s3) by done. by apply (wn_frame _ _ _ _ _ _ A).
  - lia.
  - rewrite (proj2 (Z.ltb_lt _ _)), (ch_blk _ _ _ _ _ C), decide_True, G4, (same_blk s2 s3) by done. f_equal.
    destruct Hap as [D I Ad]. by apply (wn_frame _ _ _ _ _ _ A).
  - apply (inside_trans _ _ s2); [apply A|]. apply (inside_trans _ _ s3); [by apply inside_same|].
    apply (inside_changed _ _ _ _ _ _ C), (db_range _ _ (ia_data _ _ _ Hap3)).
  - intros c Hc. rewrite A4. by apply (wn_fresh _ _ _ _ _ _ A).
  - rewrite G4, G3. apply (wn_ind _ _ _ _ _ _ A).
Qed.

(** [writei] on a file with enough room in the log and on the disk. *)
Lemma writei_metered i R src off n s :
  meter i R ->
  let ip := geti s i in let ib := IBLOCK (i_inum ip) (f_sb s) in
  txn s ∅ -> layout s -> file_wf s ip -> (i < length (f_icache s))%nat -> i_type ip <> T_DEV -> 0 <= i_inum ip ->
  inode_apart s ip ib -> 0 <= off <= i_size ip -> 0 <= n -> off + n <= MAXFILE * BSIZE -> n <= Z.of_nat (length src) ->
  R (touched off n) s -> free_ge s (2 * Z.to_nat (touched off n)) ->
  exists s', writei i src off n s = Ok n s' /\ txn s' ∅ /\ wrote i ib off n src s s' /\
    (exists s2, R 0 s2 /\ forall k, room s2 (k + 1) -> room s' k) /\ (forall k, free_ge s (2 * Z.to_nat (touched off n) + k) -> free_ge s' k).
Proof.
  intros ME ip ib T L W Hi Ht Hin Hap Ho Hn Hmax Hsrc Hr Hf.
  destruct (writei_loop_ok i R ME (S (Z.to_nat n)) s src off n) as (s2 & E2 & T2 & A & R2 & Q2); try done; try lia.
  destruct (wn_inode _ _ _ _ _ _ A) as [a Ha].
  assert (Hbig : off + n < 2 ^ 31) by (clear -Hmax; unfold MAXFILE, NDIRECT, NINDIRECT, BSIZE in *; lia).
  assert (Hgo : forall s', (off' <- ret (S := fs) (off + n) ;; ip <- ifield id i ;;
      when ((0 <? n) && (i_size ip <? off')) (seti (set_isize off') i ;;; iupdate i) ;;; ret (s32 n)) s2 = Ok n s' ->
      writei i src off n s = Ok n s').
  { intros s' E. unfold writei. step (@ifield_ok inode id i s). cbn [id]. fold ip.
    rewrite (proj2 (Z.eqb_neq _ _)) by done. rewrite !(u32_id (off + n)) by lia.
    rewrite (proj2 (Z.ltb_ge (i_size ip) off)) by lia. rewrite (proj2 (Z.ltb_ge (off + n) off)) by lia. cbn [orb].
    rewrite (proj2 (Z.ltb_ge (MAXFILE * BSIZE) (off + n))) by lia. step E2. exact E. }
  unfold bind at 1, ret at 1 in Hgo. cbn [seqr] in Hgo. rewrite (bind_ok _ _ _ _ _ (@ifield_ok inode id i s2)) in Hgo.
  cbn [id] in Hgo. rewrite Ha in Hgo. change (i_size (set_iaddrs a (geti s i))) with (i_size ip) in Hgo.
  rewrite s32_id in Hgo by lia. destruct (decide (i_size ip < off + n)) as [Hg|Hg].
  - rewrite (proj2 (Z.ltb_lt 0 n)), (proj2 (Z.ltb_lt (i_size ip) _)) in Hgo by lia. cbn [andb when] in Hgo.
    set (s3 := set_icache (alter (set_isize (off + n)) i (f_icache s2)) s2).
    assert (T3 : txn s3 ∅) by by apply (same_txn s2).
    assert (Hl2 : (i < length (f_icache s2))%nat) by by rewrite (proj1 (wn_icache _ _ _ _ _ _ A)).
    assert (G3 : geti s3 i = set_isize (off + n) (set_iaddrs a ip)) by (unfold s3; rewrite geti_alter_eq, Ha by done; done).
    assert (Esb : f_sb s3 = f_sb s) by exact (wn_sb _ _ _ _ _ _ A).
    pose proof (iupdate_ok s3 i T3) as U. rewrite Esb, G3 in U. cbn [i_inum i_dev i_addrs set_isize set_iaddrs] in U. fold ib in U.
    destruct U as (s4 & E4 & T4 & C4).
    { apply (same_room s2); [done|]. by apply (me_end _ _ ME). }
    { apply W. }
    { done. }
    { pose proof (fw_len _ _ (wn_wf _ _ _ _ _ _ A)) as Hlen. by rewrite Ha in Hlen. }
    { apply db_home, (same_datablock s2); [done|]. by apply A, Hap. }
    pose proof (ia_data _ _ _ Hap) as Dib. assert (D3 : datablock s3 ib) by (apply (same_datablock s2); [done|by apply A]).
    pose proof (same_layout s2 s3 ltac:(done) (wn_layout _ _ _ _ _ _ A)) as L3.
    exists s4. split; [apply Hgo|split; [done|split; [|split]]].
    + unfold bind at 1 2, seti at 1, modify at 1. cbn [seqr]. fold s3. rewrite E4. done.
    + apply (grown_wrote i ib off n src s s2 s3 s4); try done; try lia. by rewrite G3.
    + exists s2. split; [done|]. intros k Hk. apply (changed_room _ _ _ _ _ _ _ _ T3 T4 C4). by apply (same_room s2).
    + intros k Hk. apply (free_ge_changed s3 s4 ∅ ∅ ib _ T3 L3 C4 D3), (same_free s2); [done|]. by apply Q2.
  - exists s2. split; [apply Hgo|split; [done|split; [|split]]].
    + rewrite (proj2 (Z.ltb_ge (i_size ip) _)) by lia. by rewrite andb_false_r.
    + apply written_wrote; [done|fold ip; lia|done].
    + exists s2. split; [done|]. intros k Hk. eapply room_le; [exact Hk|lia].
    + exact Q2.
Qed.

Lemma writei_ok i src off n s :
  let ip := geti s i in let ib := IBLOCK (i_inum ip) (f_sb s) in
  txn s ∅ -> layout s -> file_wf s ip -> (i < length (f_icache s))%nat -> i_type ip <> T_DEV -> 0 <= i_inum ip ->
  inode_apart s ip ib -> 0 <= off <= i_size ip -> 0 <= n -> off + n <= MAXFILE * BSIZE -> n <= Z.of_nat (length src) ->
  room s (6 * touched off n + 1) -> free_ge s (2 * Z.to_nat (touched off n)) ->
  exists s', writei i src off n s = Ok n s' /\ txn s' ∅ /\ wrote i ib off n src s s' /\
    (forall k, room s (6 * touched off n + 1 + k) -> room s' k) /\ (forall k, free_ge s (2 * Z.to_nat (touched off n) + k) -> free_ge s' k).
Proof.
  intros ip ib T L W Hi Ht Hin Hap Ho Hn Hmax Hsrc Hr Hf.
  destruct (writei_metered i _ src off n s (meter_blocks i s (touched off n)) T L W Hi Ht Hin Hap Ho Hn Hmax Hsrc (conj Hr (fun _ H => H)) Hf)
    as (s' & E & T' & Wr & (s2 & [_ R2] & R') & Q). exists s'. do 3 (split; [done|]). split; [|done].
  intros k Hk. apply R'. eapply room_le; [exact (R2 k Hk)|lia].
Qed.
End writei.
