(* ===== verification/FsSpec.v ===== *)
(** The file system of [fs.c] as its callers see it: a set of blocks in use,
    inodes that survive on disk, and files that are arrays of bytes. *)

From S2P Require Import Prelude Params Spinlock Klock Bytes Bio Bcache Log Commit LogOps Recover CrashSpec Fs Txn FsBlocks FsRead FsWrite FsInode FsContents.
Open Scope Z_scope.
Open Scope xv6_scope.

(** * Files *)

Definition contents (s : fs) (i : nat) : bytes := fslice s (geti s i) 0 (Z.to_nat (i_size (geti s i))).

Definition inode_block (s : fs) (i : nat) : Z := IBLOCK (i_inum (geti s i)) (f_sb s).

Record file_ok (s : fs) (i : nat) : Prop := {
  fo_index : (i < length (f_icache s))%nat;
  fo_wf : file_wf s (geti s i);
  fo_type : i_type (geti s i) <> T_DEV;
  fo_inum : 0 <= i_inum (geti s i);
  fo_size : 0 <= i_size (geti s i) <= MAXFILE * BSIZE;
  fo_backed : backed s (geti s i) 0 (i_size (geti s i));
  fo_apart : inode_apart s (geti s i) (inode_block s i)
}.

Lemma file_contents_length s i : length (contents s i) = Z.to_nat (i_size (geti s i)).
Proof. apply fslice_length. Qed.

Lemma contents_lookup s i k : 0 <= k < i_size (geti s i) -> contents s i !! Z.to_nat k = Some (fbyte s (geti s i) k).
Proof.
  intros Hk. unfold contents, fslice. rewrite list_lookup_fmap, zseq_lookup by lia. cbn. do 2 f_equal. lia.
Qed.

Lemma fslice_contents s i off n :
  0 <= off -> 0 <= n -> off + n <= i_size (geti s i) ->
  fslice s (geti s i) off (Z.to_nat n) = take (Z.to_nat n) (drop (Z.to_nat off) (contents s i)).
Proof.
  intros Ho Hn Hs. apply list_eq_same_length with (Z.to_nat n).
  - rewrite length_take, length_drop, file_contents_length. lia.
  - apply fslice_length.
  - intros k x y Hk. rewrite lookup_take_lt, lookup_drop by done. unfold fslice at 1. rewrite list_lookup_fmap, zseq_lookup by done.
    replace (Z.to_nat off + k)%nat with (Z.to_nat (off + Z.of_nat k)) by lia. rewrite contents_lookup by lia. cbn. congruence.
Qed.

(** A file after [writei], as a byte array. *)
Lemma wrote_contents i ib off n src s s' :
  file_ok s i -> wrote i ib off n src s s' -> 0 <= off <= i_size (geti s i) -> 0 <= n -> off + n <= MAXFILE * BSIZE ->
  n <= Z.of_nat (length src) ->
  contents s' i = splice (Z.to_nat off) (take (Z.to_nat n) src) (contents s i).
Proof.
  intros F A Ho Hn Hmax Hsrc. destruct (wo_inode _ _ _ _ _ _ _ A) as [a Ha].
  set (z := i_size (geti s i)) in *. assert (Hz : i_size (geti s' i) = Z.max z (off + n)) by by rewrite Ha.
  assert (Hx : length (take (Z.to_nat n) src) = Z.to_nat n) by (rewrite length_take; lia).
  pose proof (file_contents_length s i) as Hc. fold z in Hc. pose proof (fo_size _ _ F) as Hsz. fold z in Hsz.
  apply list_eq_same_length with (Z.to_nat (Z.max z (off + n))).
  - unfold splice. rewrite !length_app, Hx, length_take, length_drop, Hc. lia.
  - by rewrite file_contents_length, Hz.
  - intros k x y Hk. rewrite <- (Nat2Z.id k) at 1. rewrite contents_lookup by lia. intros [= <-]. unfold splice.
    destruct (decide (off <= Z.of_nat k < off + n)) as [Hin|Hout].
    + rewrite (wo_byte _ _ _ _ _ _ _ A) by done. rewrite lookup_app_r; rewrite length_take, Hc, Nat.min_l by lia; [|lia].
      rewrite lookup_app_l by (rewrite Hx; lia). rewrite lookup_take_lt by lia.
      replace (k - Z.to_nat off)%nat with (Z.to_nat (Z.of_nat k - off)) by lia. by intros ->.
    + rewrite (wo_keep _ _ _ _ _ _ _ A); [|lia|done|apply (fo_backed _ _ F); fold z; lia].
      assert (E : contents s i !! k = Some (fbyte s (geti s i) (Z.of_nat k))).
      { rewrite <- (Nat2Z.id k) at 1. apply contents_lookup. fold z. lia. }
      destruct (decide (Z.of_nat k < off)).
      * rewrite lookup_app_l by (rewrite length_take, Hc; lia). rewrite lookup_take_lt, E by lia. congruence.
      * rewrite lookup_app_r; rewrite length_take, Hc, Nat.min_l by lia; [|lia]. rewrite lookup_app_r by (rewrite Hx; lia).
        rewrite lookup_drop, Hx. replace (_ + (_ - _ - _))%nat with k by lia. rewrite E. congruence.
Qed.

(** ... and it is still a file. *)
Lemma wrote_file_ok i off n src s s' :
  file_ok s i -> wrote i (inode_block s i) off n src s s' -> 0 <= off <= i_size (geti s i) -> 0 <= n ->
  off + n <= MAXFILE * BSIZE -> file_ok s' i.
Proof.
  intros F A Ho Hn Hmax. destruct (wo_inode _ _ _ _ _ _ _ A) as [a Ha]. destruct F as [F1 F2 F3 F4 F5 F6 F7].
  constructor; rewrite ?Ha; cbn [i_type i_inum i_size set_isize set_iaddrs]; try done.
  - by rewrite (proj1 (wo_others _ _ _ _ _ _ _ A)).
  - rewrite <- Ha. apply A.
  - lia.
  - rewrite <- Ha. intros k Hk. destruct (decide (off <= k < off + n)); [by apply (wo_backed _ _ _ _ _ _ _ A)|].
    rewrite (wo_addr _ _ _ _ _ _ _ A); [apply F6; lia|apply block_range; lia|apply F6; lia].
  - rewrite <- Ha. unfold inode_block. rewrite Ha, (wo_sb _ _ _ _ _ _ _ A). cbn [i_inum set_isize set_iaddrs].
    rewrite <- Ha. apply A.
Qed.

(** * Two files *)

(** The blocks that belong to a file: its contents and its indirect block. *)
Definition owns (s : fs) (ip : inode) (b : Z) : Prop :=
  b <> 0 /\ (ind_of ip = b \/ exists c, 0 <= c < MAXFILE /\ addr_of s ip c = b).

(** Files [i] and [j] are apart, and the inode of [i] lies outside [j]. *)
Definition files_apart (s : fs) (i j : nat) : Prop :=
  i <> j /\ forall b, owns s (geti s j) b -> b <> inode_block s i /\ ~ owns s (geti s i) b.

Lemma owns_data s ip b : file_wf s ip -> owns s ip b -> datablock s b.
Proof. intros W [Hz [<-|(c & Hc & <-)]]; by apply W. Qed.

Lemma wrote_owned i off n src s s' j b :
  file_ok s j -> files_apart s i j -> wrote i (inode_block s i) off n src s s' -> owns s (geti s j) b -> blk s' b = blk s b.
Proof.
  intros F [_ Hap] A Hb. destruct (Hap b Hb) as [H1 H2]. pose proof (proj1 Hb) as Hz.
  apply (wo_frame _ _ _ _ _ _ _ A); [by apply (owns_data _ _ _ (fo_wf _ _ F))|done| |].
  - intros E. apply H2. split; [done|]. by left.
  - intros c Hc E. apply H2. split; [done|]. right. eauto.
Qed.

Lemma wrote_other_addr i off n src s s' j c :
  file_ok s j -> files_apart s i j -> wrote i (inode_block s i) off n src s s' ->
  addr_of s' (geti s j) c = addr_of s (geti s j) c.
Proof.
  intros F Hap A. apply addr_of_ext. intros Hi. apply (wrote_owned i off n src s s' j); try done. split; [done|]. by left.
Qed.

Lemma wrote_other i off n src s s' j :
  file_ok s j -> files_apart s i j -> wrote i (inode_block s i) off n src s s' ->
  contents s' j = contents s j /\ file_ok s' j.
Proof.
  intros F Hap A. pose proof (proj1 Hap) as Hne. destruct (wo_others _ _ _ _ _ _ _ A) as [Hl Hg].
  assert (E : geti s' j = geti s j) by by apply Hg.
  assert (Ha : forall c, addr_of s' (geti s j) c = addr_of s (geti s j) c).
  { intros c. by apply (wrote_other_addr i off n src). }
  pose proof F as [F1 F2 F3 F4 F5 F6 F7]. split.
  - unfold contents. rewrite E. unfold fslice. apply list_fmap_ext. intros p k Hk.
    unfold zseq in Hk. rewrite list_lookup_fmap in Hk. apply fmap_Some in Hk as (q & Hq & ->). apply lookup_seq in Hq as [-> Hq].
    unfold fbyte. rewrite Ha, (wrote_owned i off n src s s' j); [done..|].
    split; [apply F6; lia|]. right. eexists. split; [|done]. apply block_range. lia.
  - constructor; unfold inode_block; rewrite ?E, ?Hl, ?(wo_sb _ _ _ _ _ _ _ A); try done.
    + apply (file_wf_ext s); [done| |apply A]. intros Hi. apply (wrote_owned i off n src s s' j); try done. split; [done|]. by left.
    + intros k Hk. rewrite Ha. by apply F6.
    + destruct F7. constructor; [by apply A|done|]. intros c Hc. rewrite Ha. auto.
Qed.

(** [writei] on a file. *)
Section write.
Context `{DevSw}.

Lemma writei_file s i src off n :
  txn s ∅ -> layout s -> file_ok s i -> 0 <= off <= i_size (geti s i) -> 0 <= n <= Z.of_nat (length src) ->
  off + n <= MAXFILE * BSIZE -> room s (6 * touched off n + 1) -> free_ge s (2 * Z.to_nat (touched off n)) ->
  exists s', writei i src off n s = Ok n s' /\ txn s' ∅ /\ layout s' /\ file_ok s' i /\
    contents s' i = splice (Z.to_nat off) (take (Z.to_nat n) src) (contents s i) /\ wrote i (inode_block s i) off n src s s' /\
    (forall k, room s (6 * touched off n + 1 + k) -> room s' k) /\ (forall k, free_ge s (2 * Z.to_nat (touched off n) + k) -> free_ge s' k).
Proof.
  intros T L F Ho Hn Hmax Hr Hf. pose proof F as [F1 F2 F3 F4 F5 F6 F7].
  destruct (writei_ok i src off n s) as (s' & E & T' & A & R' & Q'); try done; try lia.
  exists s'. split; [done|]. split; [done|]. split; [apply A|]. split; [apply (wrote_file_ok i off n src s); try done; lia|].
  split; [apply (wrote_contents i (inode_block s i)); try done; lia|done].
Qed.
End write.

(** * A disk with all blocks in use *)

Lemma balloc_loop_full fuel s q :
  txn s ∅ -> layout s -> room s 1 -> 0 <= q -> (forall c, 0 <= c < sb_size (f_sb s) -> used s c = true) ->
  sb_size (f_sb s) <= (q + Z.of_nat fuel - 1) * BPB -> (0 < fuel)%nat ->
  balloc_loop 1 (q * BPB) fuel s = Panic "balloc: out of blocks".
Proof.
  pose proof BPB_pos as HB. revert s q. induction fuel as [|fuel IH]; intros s q T L Hr Hq Hall Hf Hpos; [lia|].
  cbn [balloc_loop]. unfold bind at 1, gets. cbn [seqr].
  destruct (Z.ltb_spec (q * BPB) (sb_size (f_sb s))) as [Hlt|]; [|done].
  set (n := BBLOCK (q * BPB) (f_sb s)).
  destruct (read_block s ∅ n T) as (bp & s1 & s2 & E1 & E2 & E3 & T2 & S2).
  { apply (BBLOCK_home s ∅ T L). lia. }
  { apply no_own. }
  { rewrite size_empty. eapply room_le; [done|lia]. }
  step E1. step E2.
  pose proof (find_clear_spec (blk s n) (q * BPB) (sb_size (f_sb s)) (Z.to_nat BPB) 0 ltac:(lia) ltac:(lia)) as Hfc.
  destruct (find_clear _ _ _ _ _) as [r|].
  - exfalso. destruct Hfc as (Hr0 & Hlt' & Hbit & _). specialize (Hall (q * BPB + r) ltac:(lia)). unfold used in Hall.
    rewrite Z.add_comm, Z.mod_add, Z.mod_small, Z.add_comm in Hall by lia.
    rewrite !(BBLOCK_eq s ∅ T L) in * by lia. subst n. rewrite (BBLOCK_eq s ∅ T L) in Hbit by lia.
    rewrite Z.div_add_l, (Z.div_small r), Z.add_0_r in Hall by lia. rewrite Z.div_mul in Hbit by lia. congruence.
  - step E3. replace (q * BPB + BPB) with ((q + 1) * BPB) by lia. apply IH.
    + done.
    + by eapply layout_steady.
    + by eapply room_steady.
    + lia.
    + intros c. rewrite (st_sb _ _ _ S2), (used_steady _ _ _ _ S2). apply Hall.
    + rewrite (st_sb _ _ _ S2). lia.
    + destruct fuel; [|lia]. exfalso. lia.
Qed.

Lemma balloc_full s :
  txn s ∅ -> layout s -> room s 1 -> (forall c, 0 <= c < sb_size (f_sb s) -> used s c = true) ->
  balloc 1 s = Panic "balloc: out of blocks".
Proof.
  intros T L Hr Hall. unfold balloc, bind, gets. cbn [seqr]. apply (balloc_loop_full _ s 0); try done; [|lia].
  pose proof (la_size s L). pose proof BPB_pos as HB. pose proof (Z.div_mod (sb_size (f_sb s)) BPB).
  pose proof (Z.mod_pos_bound (sb_size (f_sb s)) BPB BPB_pos).
  assert (0 <= sb_size (f_sb s) / BPB) by (apply Z.div_pos; lia). lia.
Qed.

(** * A file system on a concrete disk *)

(** Blocks 0 to 63 are in use. *)
Definition demo_map : bytes := replicate 8 255 ++ replicate 504 0.
Definition demo_fsdisk : blockmap := {[1 := demo_super; 58 := demo_map]}.

(** An empty file, inode 5, in slot 0 of the cache, and an empty directory,
    inode 6, in slot 1. *)
Definition demo_inode (inum type : Z) : inode := Inode 1 inum 1 free_sleeplock true type 0 0 1 0 (replicate 13 0).

Definition no_inode : inode := Inode 0 0 0 free_sleeplock false 0 0 0 0 0 [].

Definition demo_fs (s : bst) : fs :=
  Fs (demo_log s) (superblock_of demo_super) (demo_inode 5 2 :: demo_inode 6 1 :: replicate 48 no_inode).

Lemma demo_used_all :
  forallb (fun b => Bool.eqb (bit_of demo_map (b mod BPB)) (b <? 64)) (zseq 0 1000) = true.
Proof. vm_compute. reflexivity. Qed.

Section demo.
Context (s : bst) (Hblk : content s 1 = demo_super /\ content s 58 = demo_map) (Hz : disksize s = 1000).

Lemma demo_used b : 0 <= b < 1000 -> used (demo_fs s) b = (b <? 64).
Proof using Hblk.
  intros Hb. unfold used, BBLOCK. replace (b / BPB) with 0 by (symmetry; apply Z.div_small; change BPB with 4096; lia).
  change (blk (demo_fs s) (u32 (0 + sb_bmapstart (f_sb (demo_fs s))))) with (content s 58). rewrite (proj2 Hblk).
  pose proof demo_used_all as H. rewrite forallb_forall in H. apply Bool.eqb_prop, H. apply list_elem_of_In.
  apply list_elem_of_lookup. exists (Z.to_nat b). rewrite zseq_lookup by lia. f_equal. lia.
Qed.

Lemma demo_home b : 0 <= b < 1000 -> ~ (2 <= b < 32) -> home (demo_fs s) b.
Proof using Hz. intros Hb Hn. split; [unfold nblk; cbn; by rewrite Hz|]. unfold in_log. cbn. lia. Qed.

Lemma demo_layout : layout (demo_fs s).
Proof using All.
  constructor; change (sb_size (f_sb (demo_fs s))) with 1000; change (sb_bmapstart (f_sb (demo_fs s))) with 58; change BPB with 4096.
  - unfold nblk. cbn. rewrite Hz. lia.
  - lia.
  - intros b Hb. apply demo_home; zdiv.
  - intros b Hb. rewrite demo_used by done. intros ?%Z.ltb_ge. apply demo_home; lia.
  - intros b c Hb Hc. rewrite demo_used by done. intros ?%Z.ltb_ge. zdiv.
  - change (superblock_of (content s 1) = superblock_of demo_super). by rewrite (proj1 Hblk).
  - rewrite demo_used by lia. done.
  - by rewrite demo_used by lia.
Qed.

Lemma demo_room : room (demo_fs s) 20.
Proof. by vm_compute. Qed.

Lemma demo_free k : (k <= 900)%nat -> free_ge (demo_fs s) k.
Proof using Hblk.
  intros Hk0. exists (zseq 64 k). split; [apply NoDup_fmap; [intros ???; lia|apply NoDup_seq]|]. split; [unfold zseq; by rewrite length_fmap, length_seq|].
  intros b (j & [= ->] & Hk)%list_elem_of_fmap. apply elem_of_seq in Hk. change (sb_size _) with 1000.
  rewrite demo_used by lia. split; [lia|]. apply Z.ltb_ge. lia.
Qed.

Lemma demo_addr n t c : 0 <= c < MAXFILE -> addr_of (demo_fs s) (demo_inode n t) c = 0.
Proof.
  intros Hc. unfold addr_of. destruct (Z.ltb_spec c (Z.of_nat NDIRECT)); [|done]. cbn [i_addrs demo_inode].
  by rewrite lookup_replicate_2 by (unfold NDIRECT in *; lia).
Qed.

Lemma demo_file i n t : geti (demo_fs s) i = demo_inode n t -> (i < 50)%nat -> t <> T_DEV -> 0 < n < 8 -> file_ok (demo_fs s) i.
Proof using All.
  intros G Hi Ht Hn. assert (Hib : inode_block (demo_fs s) i = 32).
  { unfold inode_block, IBLOCK. rewrite G. cbn. rewrite Z.div_small by (change IPB with 8; lia). done. }
  constructor; rewrite ?G, ?Hib; try done.
  - constructor; try done; intros; by rewrite demo_addr in *.
  - cbn. lia.
  - intros k Hk. cbn in Hk. lia.
  - constructor; [|done|].
    + constructor; [done|by rewrite demo_used by lia|apply demo_home; lia|].
      change (sb_size _) with 1000. change (sb_bmapstart _) with 58. change BPB with 4096. intros c Hc. zdiv.
    + intros c Hc. by rewrite demo_addr.
Qed.
End demo.

Lemma demo_fs_disk :
  exists s, (forall n, content s n = block_of demo_fsdisk n) /\ (content s 1 = demo_super /\ content s 58 = demo_map) /\ disksize s = 1000 /\ txn (demo_fs s) ∅.
Proof.
  destruct (binit_ok (Kctx ∅ [] [] 1) demo_fsdisk 1000) as (s & _ & I & Hc & Hd & Hz & _ & Hnc).
  assert (Hblk : forall n, content s n = block_of demo_fsdisk n).
  { intros n. rewrite <- Hd. apply content_uncached. apply Hnc. }
  exists s. split; [done|]. split; [by rewrite !Hblk|]. split; [done|]. constructor; cbn.
  - by apply demo_log_ok.
  - by eexists.
  - by rewrite Hc.
  - apply (empty_calm s _ I); [by rewrite Hc|done].
  - done.
  - done.
  - intros n. unfold blk. cbn. rewrite Hblk. unfold block_of, demo_fsdisk.
    destruct (decide (n = 1)) as [->|]; [done|]. rewrite lookup_insert_ne by done.
    destruct (decide (n = 58)) as [->|]; [done|]. by rewrite lookup_singleton_ne.
Qed.

Lemma demo_fs_ok :
  exists s, txn (demo_fs s) ∅ /\ layout (demo_fs s) /\ file_ok (demo_fs s) 0 /\ file_ok (demo_fs s) 1 /\ contents (demo_fs s) 0 = [] /\
    room (demo_fs s) 20 /\ free_ge (demo_fs s) 10 /\ forall b, 0 <= b < 1000 -> used (demo_fs s) b = (b <? 64).
Proof.
  destruct demo_fs_disk as (s & _ & Hblk & Hz & T). exists s. split; [done|]. split; [by apply demo_layout|].
  split; [apply (demo_file s Hblk Hz 0 5 2); [done|lia|done|lia]|]. split; [apply (demo_file s Hblk Hz 1 6 1); [done|lia|done|lia]|].
  split; [done|]. split; [apply demo_room|]. split; [apply demo_free; [done|lia]|by apply demo_used].
Qed.

(** * Correctness *)

(** [balloc] inside a transaction.  If a block is free, the first free one
    is returned: it is now marked, nothing else is, its contents are zero, and
    every data block keeps its contents.  If none is free the kernel panics
    with "balloc: out of blocks". *)
Theorem balloc_allocates (s : fs) :
  txn s ∅ -> layout s -> room s 2 ->
  ((exists b, 0 <= b < sb_size (f_sb s) /\ used s b = false) ->
   exists b s', balloc 1 s = Ok b s' /\ txn s' ∅ /\ layout s' /\ 0 <= b < sb_size (f_sb s) /\ used s b = false /\
     (forall c, 0 <= c < b -> used s c = true) /\ datablock s' b /\ blk s' b = zero_block /\
     (forall c, 0 <= c < sb_size (f_sb s) -> used s' c = used s c || (c =? b)) /\
     (forall c, datablock s c -> datablock s' c /\ blk s' c = blk s c)) /\
  ((forall c, 0 <= c < sb_size (f_sb s) -> used s c = true) -> balloc 1 s = Panic "balloc: out of blocks").
Proof.
  intros T L Hr. split; [|intros Hall; apply balloc_full; try done; eapply room_le; [done|lia]].
  intros Hex. destruct (balloc_ok s ∅ T L) as (b & s' & E & T' & Hb & Hu & Hlow & A); [set_solver+|by rewrite size_empty|done|].
  exists b, s'. do 2 (split; [done|]). split; [by apply (layout_allocated s s' ∅ ∅ b T L A)|]. do 3 (split; [done|]).
  split; [by apply (datablock_new s s' ∅ ∅ b T L A)|]. split; [by apply (blk_new s s' ∅ b A)|].
  split; [intros c; by apply (used_allocated s s' ∅ ∅ b T L A)|]. intros c Hc. split.
  - by apply (datablock_allocated s s' ∅ ∅ b T L A).
  - by apply (blk_allocated s s' ∅ ∅ b T L A).
Qed.

Lemma balloc_allocates_witness :
  exists s b s', balloc 1 s = Ok b s' /\ used s b = false /\ used s' b = true.
Proof.
  destruct demo_fs_ok as (s & T & L & _ & _ & _ & R & F & _).
  destruct (balloc_allocates (demo_fs s) T L (room_le _ 20 2 R ltac:(lia))) as [H _].
  destruct (H (free_ge_some _ _ (free_ge_le _ 10 1 F ltac:(lia)))) as (b & s' & E & _ & _ & Hb & Hu & _ & _ & _ & Hm & _).
  exists (demo_fs s), b, s'. split; [done|]. split; [done|]. rewrite Hm by done. by rewrite Hu, Z.eqb_refl.
Defined.

(** [bfree] of a block in use marks that block free and no other, and
    changes no block outside the free map; freeing a free block panics. *)
Theorem bfree_frees (s : fs) (b : Z) :
  txn s ∅ -> layout s -> room s 1 -> 0 <= b < sb_size (f_sb s) ->
  (used s b = true -> exists s', bfree 1 b s = Ok tt s' /\ txn s' ∅ /\
     (forall c, 0 <= c < sb_size (f_sb s) -> used s' c = used s c && negb (c =? b)) /\
     (forall c, datablock s c -> blk s' c = blk s c)) /\
  (used s b = false -> bfree 1 b s = Panic "freeing free block").
Proof.
  intros T L Hr Hb. assert (HO : data_held s ∅) by set_solver+.
  split; intros Hu; [|by apply (bfree_twice s ∅ b T L HO Hb)].
  destruct (bfree_ok s ∅ b T L HO Hb Hu Hr) as (s' & E & T' & A). exists s'. split; [done|]. split; [done|].
  split; [intros c Hc; by apply (used_freed s ∅ b T L Hb)|]. intros c Hc. rewrite (fr_blk _ _ _ A), decide_False; [done|].
  rewrite (BBLOCK_eq s ∅ T L) by done. by apply Hc.
Qed.

Lemma bfree_frees_witness :
  exists s s', bfree 1 40 s = Ok tt s' /\ used s' 40 = false /\ bfree 1 70 s = Panic "freeing free block".
Proof.
  destruct demo_fs_ok as (s & T & L & _ & _ & _ & R & _ & Hu). exists (demo_fs s).
  assert (R1 : room (demo_fs s) 1) by (apply (room_le _ 20 1 R); lia).
  destruct (proj1 (bfree_frees (demo_fs s) 40 T L R1 ltac:(done)) (Hu 40 ltac:(done))) as (s' & E & _ & Hm & _).
  exists s'. split; [done|]. split; [by rewrite Hm, andb_false_r by done|].
  exact (proj2 (bfree_frees (demo_fs s) 70 T L R1 ltac:(done)) (Hu 70 ltac:(done))).
Defined.

(** [iupdate] and [ilock] are inverse.  An inode written by [iupdate] is
    what [ilock] loads into any cache slot that has since been claimed for the
    same inode number, whatever the cache held before; and [ilock] of another
    inode of the same block finds what it would have found before. *)
Theorem iupdate_ilock (s : fs) (i : nat) :
  txn s ∅ -> room s 2 -> i_dev (geti s i) = 1 -> 0 <= i_inum (geti s i) -> dinode_ok (geti s i) ->
  i_type (geti s i) <> 0 -> home s (inode_block s i) ->
  exists s1, iupdate i s = Ok tt s1 /\ txn s1 ∅ /\
    (forall c j, let s2 := set_icache c s1 in let ip := geti s2 j in
       (j < length c)%nat -> i_dev ip = 1 -> i_inum ip = i_inum (geti s i) -> i_valid ip = false -> 1 <= i_ref ip ->
       sl_locked (i_lock ip) = false ->
       exists s3, ilock j s2 = Ok tt s3 /\ i_valid (geti s3 j) = true /\ i_type (geti s3 j) = i_type (geti s i) /\
         i_major (geti s3 j) = i_major (geti s i) /\ i_minor (geti s3 j) = i_minor (geti s i) /\
         i_nlink (geti s3 j) = i_nlink (geti s i) /\ i_size (geti s3 j) = i_size (geti s i) /\
         i_addrs (geti s3 j) = i_addrs (geti s i)) /\
    (forall n ip, 0 <= n -> n <> i_inum (geti s i) -> n / IPB = i_inum (geti s i) / IPB ->
       load_dinode (blk s1 (inode_block s i)) (dip n) ip = load_dinode (blk s (inode_block s i)) (dip n) ip).
Proof.
  intros T Hr Hd Hn D Ht Hh. unfold inode_block in *. set (b := IBLOCK (i_inum (geti s i)) (f_sb s)) in *.
  destruct (iupdate_ok s i T ltac:(eapply room_le; [done|lia]) Hd Hn (di_len _ D) Hh) as (s1 & E1 & T1 & C1). fold b in C1.
  assert (Hb : blk s1 b = splice (dip (i_inum (geti s i))) (dinode_bytes (geti s i)) (blk s b)).
  { by rewrite (ch_blk _ _ _ _ _ C1), decide_True. }
  pose proof (tx_len _ _ T b) as Hlen. pose proof (dip_fits _ Hn) as Hfit. rewrite <- Hlen in Hfit.
  exists s1. split; [done|]. split; [done|]. split.
  - intros c j. set (s2 := set_icache c s1). set (ip := geti s2 j). intros Hj Hdev Hnum Hv Href Hlk.
    assert (Eb : IBLOCK (i_inum ip) (f_sb s2) = b) by (rewrite Hnum; change (f_sb s2) with (f_sb s1); by rewrite (ch_sb _ _ _ _ _ C1)).
    assert (El : load_dinode (blk s2 b) (dip (i_inum ip)) (set_ilock (Sleep true (curpid (bc_ctx (l_b (f_l s2))))) ip) =
      Inode (i_dev ip) (i_inum ip) (i_ref ip) (Sleep true (curpid (bc_ctx (l_b (f_l s2))))) (i_valid ip)
        (i_type (geti s i)) (i_major (geti s i)) (i_minor (geti s i)) (i_nlink (geti s i)) (i_size (geti s i)) (i_addrs (geti s i))).
    { rewrite (same_blk s1 s2) by done. rewrite Hb, <- Hnum. rewrite load_dinode_bytes; [done|done|by rewrite Hnum]. }
    destruct (ilock_ok s2 j) as (s3 & E3 & G3 & _); fold ip; unfold loaded; rewrite ?Eb, ?El; try done.
    { by apply (same_txn s1). }
    { apply (same_room s1); [done|]. by apply (changed_room _ _ _ _ _ _ _ 1 T T1 C1). }
    { exact (changed_home _ _ _ _ _ _ C1 Hh). }
    exists s3. split; [done|]. fold ip in G3. unfold loaded in G3. rewrite Eb, El in G3. by rewrite G3.
  - intros n ip Hn' Hne Hq. rewrite Hb. apply load_dinode_other; [apply D|done|]. apply dip_apart; try done.
    intros Hm. apply Hne. rewrite (Z.div_mod n IPB), (Z.div_mod (i_inum (geti s i)) IPB) by done. congruence.
Qed.

Lemma iupdate_ilock_witness :
  exists s s1 s3, iupdate 0 s = Ok tt s1 /\
    ilock 3 (set_icache (replicate 4 (Inode 1 5 1 free_sleeplock false 0 0 0 0 0 [])) s1) = Ok tt s3 /\
    i_type (geti s3 3) = 2 /\ i_nlink (geti s3 3) = 1.
Proof.
  destruct demo_fs_ok as (s & T & L & F & _ & _ & R & _). exists (demo_fs s).
  destruct (iupdate_ilock (demo_fs s) 0 T (room_le _ 20 2 R ltac:(lia))) as (s1 & E1 & _ & H & _); try done.
  { constructor; try done. by apply Forall_replicate. }
  { apply db_home, (fo_apart _ _ F). }
  destruct (H (replicate 4 (Inode 1 5 1 free_sleeplock false 0 0 0 0 0 [])) 3%nat) as (s3 & E3 & _ & H1 & _ & _ & H2 & _); try done.
  { cbn. lia. }
  exists s1, s3. split; [exact E1|]. split; [exact E3|]. by rewrite H1, H2.
Defined.

Section byte_arrays.
Context `{DevSw}.

Lemma readi_file (s : fs) (i : nat) (off n : Z) :
  txn s ∅ -> layout s -> room s 1 -> file_ok s i -> 0 <= off < 2 ^ 32 -> 0 <= n < 2 ^ 32 -> off <= i_size (geti s i) -> off + n < 2 ^ 32 ->
  exists s', let d := take (Z.to_nat n) (drop (Z.to_nat off) (contents s i)) in
    readi i off n s = Ok (Z.of_nat (length d), d) s' /\ txn s' ∅ /\ steady ∅ s s'.
Proof.
  intros T L Hr [F1 F2 F3 F4 F5 F6 F7] Ho Hn Hoff Hov.
  destruct (readi_ok s i off n) as (s' & E & T' & S'); try done; try lia; [by apply file_wf_addrs|].
  exists s'. cbn zeta. unfold read_len in E. rewrite fslice_contents in E by lia.
  assert (Et : take (Z.to_nat (Z.min n (i_size (geti s i) - off))) (drop (Z.to_nat off) (contents s i)) =
               take (Z.to_nat n) (drop (Z.to_nat off) (contents s i))).
  { pose proof (file_contents_length s i). destruct (Z.le_ge_cases n (i_size (geti s i) - off)); [by rewrite Z.min_l|].
    rewrite Z.min_r, !take_ge by (rewrite ?length_drop; lia). done. }
  rewrite Et in E. split; [|done]. rewrite E. do 2 f_equal. rewrite length_take, length_drop, file_contents_length. lia.
Qed.

(** C7: [readi] reads the byte array.  An offset past the end, or a length
    that wraps around, is refused with -1; otherwise the bytes from the offset
    on are returned, at most the length asked for and at most up to the end of
    the file, and the file system is as it was. *)
Theorem readi_refines (s : fs) (i : nat) (off n : Z) :
  txn s ∅ -> layout s -> room s 1 -> file_ok s i -> 0 <= off < 2 ^ 32 -> 0 <= n < 2 ^ 32 ->
  (i_size (geti s i) < off \/ 2 ^ 32 <= off + n -> readi i off n s = Ok (-1, []) s) /\
  (off <= i_size (geti s i) -> off + n < 2 ^ 32 ->
   exists s', let d := take (Z.to_nat n) (drop (Z.to_nat off) (contents s i)) in
     readi i off n s = Ok (Z.of_nat (length d), d) s' /\ txn s' ∅ /\ steady ∅ s s').
Proof.
  intros T L Hr F Ho Hn. pose proof (fo_type _ _ F) as F3. split.
  - intros Hbad. apply readi_rejects; [done|]. destruct (decide (i_size (geti s i) < off)); [by left|right].
    unfold u32. zdiv.
  - intros Hoff Hov. by apply readi_file.
Qed.

(** C6: [writei] updates the byte array.  Within the limits of a file and
    with room in the log and on the disk, it returns the length, the file is
    overwritten and extended at the offset, and remains well formed; the size
    grows if the range ends past it, and then the inode on disk, and it alone
    of its block, is written; a file that shares no block with this one keeps
    its contents. *)
Theorem writei_refines (s : fs) (i : nat) (src : bytes) (off n : Z) :
  txn s ∅ -> layout s -> file_ok s i -> 0 <= off <= i_size (geti s i) -> 0 <= n <= Z.of_nat (length src) ->
  off + n <= MAXFILE * BSIZE -> room s (6 * touched off n + 1) -> free_ge s (2 * Z.to_nat (touched off n)) ->
  exists s', writei i src off n s = Ok n s' /\ txn s' ∅ /\ layout s' /\ file_ok s' i /\
    contents s' i = splice (Z.to_nat off) (take (Z.to_nat n) src) (contents s i) /\
    blk s' (inode_block s i) = (if i_size (geti s i) <? off + n
      then splice (dip (i_inum (geti s i))) (dinode_bytes (geti s' i)) (blk s (inode_block s i)) else blk s (inode_block s i)) /\
    (forall j, file_ok s j -> files_apart s i j -> contents s' j = contents s j /\ file_ok s' j).
Proof.
  intros T L F Ho Hn Hmax Hr Hf. destruct (writei_file s i src off n) as (s' & E & T' & L' & F' & C & A & _); try done.
  exists s'. do 5 (split; [done|]). split.
  - apply A.
  - intros j Fj Hap. by apply (wrote_other i off n src).
Qed.
End byte_arrays.

(** No devices. *)
#[local] Instance no_devices : DevSw := {| dev_read _ := None; dev_write _ := None |}.

Lemma writei_refines_witness :
  exists s s', writei 0 [104; 105; 33] 0 3 s = Ok 3 s' /\ contents s' 0 = [104; 105; 33].
Proof.
  destruct demo_fs_ok as (s & T & L & F & _ & Hc & R & Hf & _). exists (demo_fs s).
  destruct (writei_refines (demo_fs s) 0 [104; 105; 33] 0 3 T L F) as (s' & E & _ & _ & _ & Hs & _); try done.
  { exact (free_ge_le _ 10 2 Hf ltac:(lia)). }
  exists s'. split; [done|]. rewrite Hs, Hc. done.
Defined.
