(* ===== verification/FsDir.v ===== *)
(** Directories, [fs.c]: [dirlookup] and [dirlink] on a directory that is a
    finite map from names to inode numbers. *)

From S2P Require Import Prelude Params Spinlock Klock Bytes Bio Bcache Log Commit LogOps Fs Txn FsBlocks FsRead FsWrite FsInode FsContents FsSpec.
Open Scope Z_scope.
Open Scope xv6_scope.

(** * Names *)

Lemma strncmp_refl n p : strncmp_l n p p = 0.
Proof. revert p. induction n as [|n IH]; intros p; [done|]. cbn. rewrite Z.eqb_refl, orb_false_r. destruct (_ =? 0); [lia|apply IH]. Qed.

(** A name compares as the copy of it in an entry does. *)
Lemma strncmp_copy n : forall x t, strncmp_l n x (strncpy_l n t) = strncmp_l n x t.
Proof.
  induction n as [|n IH]; intros x t; [done|]. cbn [strncmp_l strncpy_l hd tl]. destruct (hd 0 x =? 0) eqn:Ex; [done|].
  destruct (Z.eqb_spec (hd 0 x) (hd 0 t)) as [E|E]; [|done]. cbn [orb negb]. rewrite <- E, Ex. apply IH.
Qed.

Lemma strncpy_length n : forall t, length (strncpy_l n t) = n.
Proof. induction n as [|n IH]; intros t; [done|]. cbn. by rewrite IH. Qed.

(** * Entries *)

Definition DE : nat := 16.

Definition entry_at (d : bytes) (k : nat) : bytes := take DE (drop (DE * k) d).
Definition nentries (d : bytes) : nat := (length d / DE)%nat.

(** Entry [k] is in use and has the name. *)
Definition hit (d : bytes) (name : list Z) (k : nat) : bool :=
  negb (de_inum (entry_at d k) =? 0) && (namecmp name (de_name (entry_at d k)) =? 0).

(** The directory as a map: the first entry with the name. *)
Definition dlookup (d : bytes) (name : list Z) : option nat := List.find (hit d name) (seq 0 (nentries d)).

Definition dir_inum (d : bytes) (name : list Z) : option Z := (fun k => de_inum (entry_at d k)) <$> dlookup d name.

Lemma dirent_length name inum : length (dirent_bytes name inum) = DE.
Proof. unfold dirent_bytes. rewrite length_app, strncpy_length. reflexivity. Qed.

Lemma dirent_inum name inum : 0 <= inum < 2 ^ 16 -> de_inum (dirent_bytes name inum) = inum.
Proof. intros Hi. unfold de_inum, dirent_bytes. rewrite get16_le16. unfold u16. by apply Z.mod_small. Qed.

Lemma dirent_name x name inum : namecmp x (de_name (dirent_bytes name inum)) = namecmp x name.
Proof. apply strncmp_copy. Qed.

(** Writing entry [k], or one past the end. *)
Lemma entry_splice d x k j :
  length x = DE -> (DE * k <= length d)%nat ->
  entry_at (splice (DE * k) x d) j = if decide (j = k) then x else entry_at d j.
Proof.
  intros Hx Hk. unfold entry_at. destruct (decide (j = k)) as [->|Hne].
  - unfold splice. rewrite drop_app_ge by (rewrite length_take; lia). rewrite length_take, Nat.min_l by done.
    rewrite Nat.sub_diag, drop_0, take_app_le by lia. rewrite take_ge by lia. done.
  - apply list_eq. intros i. destruct (decide (i < DE)%nat) as [Hi|Hi]; [|by rewrite !lookup_take_ge by lia].
    rewrite !lookup_take_lt, !lookup_drop by done. unfold splice. unfold DE in *.
    destruct (decide (16 * j + i < 16 * k)%nat) as [Hlt|Hge].
    + rewrite lookup_app_l by (rewrite length_take; lia). by apply lookup_take_lt.
    + rewrite lookup_app_r by (rewrite length_take; lia). rewrite length_take, Nat.min_l by done.
      rewrite lookup_app_r by lia. rewrite lookup_drop. f_equal. lia.
Qed.

Lemma find_ext {A} (f g : A -> bool) l : (forall x, In x l -> f x = g x) -> List.find f l = List.find g l.
Proof. induction l as [|x l IH]; intros H; [done|]. cbn. rewrite (H x) by (by left). destruct (g x); [done|]. apply IH. intros. apply H. by right. Qed.

Lemma find_app {A} (f : A -> bool) l l' : List.find f (l ++ l') = match List.find f l with Some x => Some x | None => List.find f l' end.
Proof. induction l as [|x l IH]; [done|]. cbn. by destruct (f x). Qed.

Section linked.
Context (d : bytes) (name : list Z) (inum : Z) (k : nat).
Context (Hi : 0 < inum < 2 ^ 16) (Hd : length d = (DE * nentries d)%nat) (Hk : (k <= nentries d)%nat).
Context (Hfree : (k < nentries d)%nat -> de_inum (entry_at d k) = 0).
Context (Habs : dlookup d name = None).

Let d' := splice (DE * k) (dirent_bytes name inum) d.

Lemma linked_entry j : entry_at d' j = if decide (j = k) then dirent_bytes name inum else entry_at d j.
Proof using All. apply entry_splice; [apply dirent_length|unfold DE in *; lia]. Qed.

Lemma linked_length : length d' = if decide (k = nentries d) then (DE * S (nentries d))%nat else length d.
Proof using All.
  unfold d', splice. rewrite !length_app, length_take, length_drop, dirent_length. unfold DE in *. case_decide; lia.
Qed.

Lemma linked_count : nentries d' = if decide (k = nentries d) then S (nentries d) else nentries d.
Proof using All.
  unfold nentries at 1. rewrite linked_length. case_decide; [|done]. by rewrite Nat.mul_comm, Nat.div_mul.
Qed.

Lemma linked_hit x j : j <> k -> hit d' x j = hit d x j.
Proof using All. intros Hne. unfold hit. by rewrite linked_entry, decide_False. Qed.

Lemma linked_self : hit d' name k = true.
Proof using All.
  unfold hit. rewrite linked_entry, decide_True, dirent_inum, dirent_name by (done || lia).
  unfold namecmp. rewrite strncmp_refl. rewrite (proj2 (Z.eqb_neq _ _)) by lia. done.
Qed.

Lemma linked_other x : namecmp x name <> 0 -> hit d' x k = false.
Proof using All. intros Hx. unfold hit. rewrite linked_entry, decide_True, dirent_name by done. rewrite (proj2 (Z.eqb_neq _ _) Hx). apply andb_false_r. Qed.

Lemma absent_hit j : (j < nentries d)%nat -> hit d name j = false.
Proof using All. intros Hj. apply (find_none _ _ Habs). apply in_seq. lia. Qed.

Lemma dlookup_linked : dlookup d' name = Some k.
Proof using All.
  unfold dlookup. rewrite linked_count. set (n' := if decide _ then _ else _). assert (Hn : (k < n')%nat) by (unfold n'; case_decide; lia).
  replace n' with (k + S (n' - k - 1))%nat by lia. rewrite seq_app, find_app.
  assert (E : List.find (hit d' name) (seq 0 k) = None).
  { destruct (List.find _ _) as [j|] eqn:Ej; [|done]. apply find_some in Ej as [Hj%in_seq Hh].
    rewrite linked_hit, absent_hit in Hh by lia. done. }
  rewrite E. change (0 + k)%nat with k. cbn [seq List.find]. by rewrite linked_self.
Qed.

Lemma dlookup_unlinked x : namecmp x name <> 0 -> dlookup d' x = dlookup d x.
Proof using All.
  intros Hx. unfold dlookup. rewrite linked_count. destruct (decide (k = nentries d)) as [Ek|Hne].
  - rewrite seq_S, find_app. change (0 + nentries d)%nat with (nentries d). cbn [List.find]. rewrite <- Ek, linked_other by done.
    rewrite (find_ext (hit d' x) (hit d x)); [by destruct (List.find _ _)|]. intros j Hj%in_seq. apply linked_hit. lia.
  - apply find_ext. intros j Hj%in_seq. destruct (decide (j = k)) as [->|]; [|by apply linked_hit].
    rewrite linked_other by done. unfold hit. by rewrite Hfree by lia.
Qed.

(** In inode numbers. *)
Lemma dir_inum_linked : dir_inum d' name = Some inum.
Proof using All. unfold dir_inum. rewrite dlookup_linked. change (Some (de_inum (entry_at d' k)) = Some inum). by rewrite linked_entry, decide_True, dirent_inum by (done || lia). Qed.

Lemma dir_inum_unlinked x : namecmp x name <> 0 -> dir_inum d' x = dir_inum d x.
Proof using All.
  intros Hx. unfold dir_inum. rewrite dlookup_unlinked by done. destruct (dlookup d x) as [j|] eqn:E; [|done].
  change (Some (de_inum (entry_at d' j)) = Some (de_inum (entry_at d j))). f_equal.
  rewrite linked_entry. case_decide as Ej; [|done]. subst j. apply find_some in E as [Hj%in_seq Hh].
  unfold hit in Hh. rewrite Hfree in Hh by lia. done.
Qed.
End linked.

(** * A directory and what leaves it alone *)

Record dir_ok (s : fs) (dp : nat) : Prop := {
  do_file : file_ok s dp;
  do_type : i_type (geti s dp) = T_DIR;
  do_size : i_size (geti s dp) mod DIRENT = 0
}.

Lemma contents_steady s s' i : steady ∅ s s' -> contents s' i = contents s i.
Proof. intros S. unfold contents. by rewrite (geti_steady _ _ _ _ S), (fslice_steady _ _ _ _ _ _ S). Qed.

Lemma file_ok_steady s s' i : steady ∅ s s' -> file_ok s i -> file_ok s' i.
Proof.
  intros S [F1 F2 F3 F4 F5 F6 [A1 A2 A3]]. pose proof (geti_steady _ _ _ i S) as G.
  assert (Hib : inode_block s' i = inode_block s i) by (unfold inode_block; by rewrite G, (st_sb _ _ _ S)).
  constructor; rewrite ?G, ?Hib; try done.
  - by rewrite (st_icache _ _ _ S).
  - by apply (file_wf_steady ∅ s).
  - intros k Hk. rewrite (addr_of_steady _ _ _ _ _ S). by apply F6.
  - constructor; [by apply (datablock_steady ∅ s)|done|]. intros c Hc. rewrite (addr_of_steady _ _ _ _ _ S). by apply A3.
Qed.

Lemma dir_ok_steady s s' dp : steady ∅ s s' -> dir_ok s dp -> dir_ok s' dp.
Proof. intros S [D1 D2 D3]. pose proof (geti_steady _ _ _ dp S) as G. constructor; rewrite ?G; try done. by apply (file_ok_steady s). Qed.

Lemma files_apart_steady s s' i j : steady ∅ s s' -> files_apart s i j -> files_apart s' i j.
Proof.
  intros S [Hne Hap]. split; [done|]. assert (Ho : forall k b, owns s' (geti s' k) b -> owns s (geti s k) b).
  { intros k b. rewrite (geti_steady _ _ _ k S). unfold owns. intros [Hz [Hi|(c & Hc & E)]]; (split; [done|]); [by left|right].
    exists c. by rewrite <- (addr_of_steady _ _ _ _ _ S). }
  intros b Hb. destruct (Hap b (Ho _ _ Hb)) as [H1 H2]. split; [|by intros ?%Ho].
  unfold inode_block. by rewrite (geti_steady _ _ _ i S), (st_sb _ _ _ S).
Qed.

Lemma dir_count s dp : dir_ok s dp ->
  i_size (geti s dp) = DIRENT * Z.of_nat (nentries (contents s dp)) /\ length (contents s dp) = (DE * nentries (contents s dp))%nat.
Proof.
  intros [F _ Hm]. pose proof (fo_size _ _ F). pose proof (file_contents_length s dp) as Hl. unfold nentries. rewrite Hl.
  unfold DIRENT, DE in *. set (z := i_size (geti s dp)) in *. assert (Hz : z = 16 * (z / 16)) by zdiv.
  assert (E : (Z.to_nat z / 16)%nat = Z.to_nat (z / 16)) by (rewrite Z2Nat.inj_div by lia; done). rewrite E. lia.
Qed.

Section dirs.
Context `{DevSw}.

Lemma read_entry s dp k :
  txn s ∅ -> layout s -> room s 1 -> dir_ok s dp -> (k < nentries (contents s dp))%nat ->
  exists s', readi dp (DIRENT * Z.of_nat k) DIRENT s = Ok (DIRENT, entry_at (contents s dp) k) s' /\ txn s' ∅ /\ steady ∅ s s'.
Proof.
  intros T L Hr D Hk. destruct (dir_count s dp D) as [Hsz Hlen]. pose proof (do_file _ _ D) as [F1 F2 F3 F4 F5 F6 F7].
  unfold DIRENT in *. assert (Hb : MAXFILE * BSIZE < 2 ^ 31) by done.
  destruct (readi_ok s dp (16 * Z.of_nat k) 16) as (s' & E & T' & S'); try done; try lia; [by apply file_wf_addrs|].
  exists s'. split; [|done]. rewrite E. unfold read_len. rewrite Z.min_l by lia. rewrite fslice_contents by lia. unfold entry_at, DE.
  do 4 f_equal. lia.
Qed.

(** Scanning from entry [k] on. *)
Lemma dirlookup_loop_ok dp name fuel : forall m s k,
  txn s ∅ -> layout s -> room s 1 -> dir_ok s dp -> (k + m = nentries (contents s dp))%nat -> (m < fuel)%nat ->
  exists s', txn s' ∅ /\ steady ∅ s s' /\
    dirlookup_loop dp name (DIRENT * Z.of_nat k) fuel s =
    match List.find (hit (contents s dp) name) (seq k m) with
    | None => Ok None s'
    | Some j => (i <- iget 1 (de_inum (entry_at (contents s dp) j)) ;; ret (Some (i, DIRENT * Z.of_nat j))) s'
    end.
Proof.
  induction fuel as [|fuel IH]; intros m s k T L Hr D Hkm Hf; [lia|]. destruct (dir_count s dp D) as [Hsz Hlen].
  pose proof (fo_size _ _ (do_file _ _ D)) as Hmax. assert (Hb : MAXFILE * BSIZE < 2 ^ 31) by done. unfold DIRENT in *.
  cbn [dirlookup_loop]. step (@ifield_ok inode id dp s). cbn [id]. destruct m as [|m].
  { rewrite (proj2 (Z.ltb_ge _ _)) by lia. exists s. split; [done|]. split; [apply steady_refl|done]. }
  rewrite (proj2 (Z.ltb_lt _ _)) by lia. destruct (read_entry s dp k T L Hr D ltac:(lia)) as (s1 & E1 & T1 & S1).
  unfold DIRENT in E1. step E1. rewrite Z.eqb_refl. cbn [negb seq List.find]. unfold hit at 1. set (de := entry_at (contents s dp) k).
  change (16 * Z.of_nat k + DIRENT) with (16 * Z.of_nat k + 16). rewrite u32_id by lia. replace (16 * Z.of_nat k + 16) with (16 * Z.of_nat (S k)) by lia.
  pose proof (contents_steady s s1 dp S1) as Ec.
  destruct (IH m s1 (S k)) as (s2 & T2 & S2 & E2); rewrite ?Ec; try lia; try done.
  { by eapply layout_steady. }
  { by eapply room_steady. }
  { by eapply dir_ok_steady. }
  rewrite Ec in E2. destruct (Z.eqb_spec (de_inum de) 0) as [Hz|Hz]; cbn [negb andb].
  { exists s2. split; [done|]. split; [by eapply steady_trans|done]. }
  destruct (namecmp name (de_name de) =? 0).
  - exists s1. split; [done|]. split; [done|]. by rewrite (fw_dev _ _ (fo_wf _ _ (do_file _ _ D))).
  - exists s2. split; [done|]. split; [by eapply steady_trans|done].
Qed.

Lemma dirlookup_ok s dp name :
  txn s ∅ -> layout s -> room s 1 -> dir_ok s dp ->
  exists s', txn s' ∅ /\ steady ∅ s s' /\
    dirlookup dp name s =
    match dlookup (contents s dp) name with
    | None => Ok None s'
    | Some j => (i <- iget 1 (de_inum (entry_at (contents s dp) j)) ;; ret (Some (i, DIRENT * Z.of_nat j))) s'
    end.
Proof.
  intros T L Hr D. unfold dirlookup. step (@ifield_ok inode id dp s). cbn [id]. rewrite (do_type _ _ D). cbn [Z.eqb Pos.eqb T_DIR negb].
  destruct (dir_count s dp D) as [Hsz _].
  apply (dirlookup_loop_ok dp name _ (nentries (contents s dp)) s 0); try done. rewrite Hsz, Z.mul_comm, Z.div_mul by done. lia.
Qed.

(** The first empty entry, or the end. *)
Lemma empty_loop_ok dp fuel : forall m s k,
  txn s ∅ -> layout s -> room s 1 -> dir_ok s dp -> (k + m = nentries (contents s dp))%nat -> (m < fuel)%nat ->
  exists s' j, txn s' ∅ /\ steady ∅ s s' /\ (j <= nentries (contents s dp))%nat /\
    ((j < nentries (contents s dp))%nat -> de_inum (entry_at (contents s dp) j) = 0) /\
    empty_loop dp (DIRENT * Z.of_nat k) fuel s = Ok (DIRENT * Z.of_nat j) s'.
Proof.
  induction fuel as [|fuel IH]; intros m s k T L Hr D Hkm Hf; [lia|]. destruct (dir_count s dp D) as [Hsz Hlen].
  unfold DIRENT in *. cbn [empty_loop]. step (@ifield_ok Z i_size dp s). destruct m as [|m].
  { rewrite (proj2 (Z.ltb_ge _ _)) by lia. exists s, k. split; [done|]. split; [apply steady_refl|]. split; [lia|]. split; [lia|done]. }
  rewrite (proj2 (Z.ltb_lt _ _)) by lia. destruct (read_entry s dp k T L Hr D ltac:(lia)) as (s1 & E1 & T1 & S1).
  unfold DIRENT in E1. step E1. rewrite Z.eqb_refl. cbn [negb]. set (de := entry_at (contents s dp) k).
  destruct (Z.eqb_spec (de_inum de) 0) as [Hz|Hz].
  { exists s1, k. split; [done|]. split; [done|]. split; [lia|]. done. }
  replace (16 * Z.of_nat k + DIRENT) with (16 * Z.of_nat (S k)) by (unfold DIRENT; lia).
  pose proof (contents_steady s s1 dp S1) as Ec.
  destruct (IH m s1 (S k)) as (s2 & j & T2 & S2 & Hj & Hz2 & E2); rewrite ?Ec; try lia; try done.
  { by eapply layout_steady. }
  { by eapply room_steady. }
  { by eapply dir_ok_steady. }
  rewrite Ec in Hj, Hz2. exists s2, j. split; [done|]. split; [by eapply steady_trans|]. done.
Qed.

Lemma touched_entry k : touched (DIRENT * Z.of_nat k) DIRENT = 1.
Proof. unfold touched, DIRENT, BSIZE. cbn [Z.ltb Z.compare]. zdiv. Qed.

(** Writing one entry, in place or at the end. *)
Lemma write_entry s dp x k :
  txn s ∅ -> layout s -> dir_ok s dp -> length x = DE -> (k <= nentries (contents s dp))%nat ->
  i_size (geti s dp) + DIRENT <= MAXFILE * BSIZE -> room s 7 -> free_ge s 2 ->
  exists s', writei dp x (DIRENT * Z.of_nat k) DIRENT s = Ok DIRENT s' /\ txn s' ∅ /\ layout s' /\ dir_ok s' dp /\
    contents s' dp = splice (DE * k) x (contents s dp) /\
    wrote dp (inode_block s dp) (DIRENT * Z.of_nat k) DIRENT x s s' /\
    (forall q, room s (7 + q) -> room s' q) /\ (forall q, free_ge s (2 + q) -> free_ge s' q).
Proof.
  intros T L D Hx Hk Hmax Hr Hf. destruct (dir_count s dp D) as [Hsz Hlen]. pose proof D as [F Ht Hm].
  assert (E16 : Z.of_nat (length x) = DIRENT) by (rewrite Hx; done). pose proof (touched_entry k) as Htc.
  destruct (writei_file s dp x (DIRENT * Z.of_nat k) DIRENT) as (s' & E & T' & L' & F' & C & W & R' & Q'); rewrite ?Htc; try done;
    [unfold DIRENT in *; lia..|].
  exists s'. do 3 (split; [done|]). split.
  - destruct (wo_inode _ _ _ _ _ _ _ W) as (a & G). constructor; rewrite ?G; try done. cbn. unfold DIRENT in *. zdiv.
  - rewrite Htc in R', Q'. split; [|done]. rewrite C, take_ge by (unfold DIRENT, DE in *; lia). f_equal. unfold DIRENT, DE. lia.
Qed.

Lemma dirlink_ok (s : fs) (dp : nat) (name : list Z) (inum : Z) :
  txn s ∅ -> layout s -> dir_ok s dp -> dir_inum (contents s dp) name = None -> 0 < inum < 2 ^ 16 ->
  i_size (geti s dp) + DIRENT <= MAXFILE * BSIZE -> room s 7 -> free_ge s 2 ->
  exists s1 s' k, dirlink dp name inum s = Ok 0 s' /\ txn s' ∅ /\ layout s' /\ dir_ok s' dp /\ steady ∅ s s1 /\
    (k <= nentries (contents s dp))%nat /\ wrote dp (inode_block s1 dp) (DIRENT * Z.of_nat k) DIRENT (dirent_bytes name inum) s1 s' /\
    dir_inum (contents s' dp) name = Some inum /\
    (forall x, namecmp x name <> 0 -> dir_inum (contents s' dp) x = dir_inum (contents s dp) x) /\
    (forall q, room s (7 + q) -> room s' q) /\ (forall q, free_ge s (2 + q) -> free_ge s' q).
Proof.
  intros T L D Habs Hi Hmax Hr Hf. apply fmap_None in Habs. destruct (dir_count s dp D) as [Hsz Hlen].
  assert (R1 : room s 1) by (eapply room_le; [exact Hr|lia]).
  destruct (dirlookup_ok s dp name T L R1 D) as (s1 & T1 & S1 & E1). rewrite Habs in E1.
  unfold dirlink. step E1. step (@ifield_ok Z i_size dp s1). rewrite (geti_steady _ _ _ dp S1).
  pose proof (contents_steady _ _ dp S1) as C1. pose proof (dir_ok_steady _ _ _ S1 D) as D1.
  destruct (empty_loop_ok dp (S (S (Z.to_nat (i_size (geti s dp) / DIRENT)))) (nentries (contents s dp)) s1 0)
    as (s2 & k & T2 & S2 & Hk & Hfree & E2); rewrite ?C1; try done.
  { by eapply layout_steady. }
  { by eapply room_steady. }
  { rewrite Hsz, Z.mul_comm, Z.div_mul by done. lia. }
  rewrite C1 in Hk, Hfree. step E2. pose proof (steady_trans _ _ _ _ S1 S2) as S12. pose proof (contents_steady _ _ dp S12) as C2.
  destruct (write_entry s2 dp (dirent_bytes name inum) k) as (s' & E & T' & L' & D' & Cs & W & R' & Q'); rewrite ?C2; try done.
  { by eapply layout_steady. }
  { by eapply dir_ok_steady. }
  { by rewrite (geti_steady _ _ _ dp S12). }
  { by eapply room_steady. }
  { by eapply free_ge_steady. }
  step E. exists s2, s', k. rewrite Cs, C2. do 7 (split; [done|]). split; [by apply dir_inum_linked|].
  split; [intros x; by apply dir_inum_unlinked|]. split; intros q Hq; [apply R'; by eapply room_steady|apply Q'; by eapply free_ge_steady].
Qed.

(** C21: [dirlink] updates the map from names to inode numbers.  On a
    directory without the name, with room for one more entry, it returns 0;
    the directory then has the name with the inode number, every other name
    has the number it had, and the directory remains well formed; a file that
    shares no block with it keeps its contents. *)
Theorem dirlink_refines (s : fs) (dp : nat) (name : list Z) (inum : Z) :
  txn s ∅ -> layout s -> dir_ok s dp -> dir_inum (contents s dp) name = None -> 0 < inum < 2 ^ 16 ->
  i_size (geti s dp) + DIRENT <= MAXFILE * BSIZE -> room s 7 -> free_ge s 2 ->
  exists s', dirlink dp name inum s = Ok 0 s' /\ txn s' ∅ /\ layout s' /\ dir_ok s' dp /\
    dir_inum (contents s' dp) name = Some inum /\
    (forall x, namecmp x name <> 0 -> dir_inum (contents s' dp) x = dir_inum (contents s dp) x) /\
    (forall j, file_ok s j -> files_apart s dp j -> contents s' j = contents s j /\ file_ok s' j).
Proof.
  intros T L D Habs Hi Hmax Hr Hf.
  destruct (dirlink_ok s dp name inum T L D Habs Hi Hmax Hr Hf) as (s1 & s' & k & E & T' & L' & D' & S1 & _ & W & Hn & Ho & _).
  exists s'. do 6 (split; [done|]). intros j Fj Hap.
  rewrite <- (contents_steady _ _ j S1). apply (wrote_other dp (DIRENT * Z.of_nat k) DIRENT (dirent_bytes name inum)); [..|done].
  - by eapply file_ok_steady.
  - by eapply files_apart_steady.
Qed.
End dirs.

#[local] Instance no_devices : DevSw := {| dev_read _ := None; dev_write _ := None |}.

Lemma dirlink_refines_witness :
  exists s s', dirlink 1 [104; 105] 5 s = Ok 0 s' /\ dir_inum (contents s' 1) [104; 105] = Some 5 /\
    dir_inum (contents s' 1) [104; 111] = None /\ contents s' 0 = [].
Proof.
  destruct demo_fs_ok as (s & T & L & F & F1 & Hc & R & Hf & _). exists (demo_fs s).
  destruct (dirlink_refines (demo_fs s) 1 [104; 105] 5 T L) as (s' & E & _ & _ & _ & Hn & Ho & Hj); try done.
  { exact (free_ge_le _ 10 2 Hf ltac:(lia)). }
  exists s'. split; [done|]. split; [done|]. split; [by rewrite Ho|]. rewrite <- Hc. apply Hj; [done|].
  split; [done|]. intros b (Hb & [E0|(c & Hcc & E0)]); [done|].
  change (geti (demo_fs s) 0) with (demo_inode 5 2) in E0. by rewrite demo_addr in E0.
Defined.
