(* ===== verification/FsCache.v ===== *)
(** The inode cache, [fs.c]: which slot stands for which inode, the references
    that [iget], [idup] and [iput] count, the locks of [ilock] and [iunlock],
    and the copies of the structures on disk. *)

From S2P Require Import Prelude Params Spinlock Klock Bytes Bio Bcache Log Commit LogOps Fs Txn FsBlocks FsRead FsWrite FsInode FsContents FsSpec FsDir.
Open Scope Z_scope.
Open Scope xv6_scope.

(** * What a slot has of an inode *)

(** A cached inode without what only the cache has: the references, the lock
    and whether it has been read. *)
Definition core (ip : inode) : inode := set_ivalid true (set_ilock free_sleeplock (set_iref 0 ip)).

(** Inode [n] of device 1, as it is on disk. *)
Definition dnode (s : fs) (n : Z) : inode := disk_inode s n (Inode 1 n 0 free_sleeplock true 0 0 0 0 0 []).

Lemma core_loaded s ip : i_dev ip = 1 -> core (loaded s ip) = dnode s (i_inum ip).
Proof. destruct ip. cbn. by intros ->. Qed.

Lemma dnode_stable s s' n : stable s s' -> dnode s' n = dnode s n.
Proof. intros [B _ _ _ E]. unfold dnode, disk_inode. by rewrite B, E. Qed.

Lemma stable_refl s : stable s s.
Proof. by apply stable_same. Qed.

Lemma stable_room s s' k : stable s s' -> room s k -> room s' k.
Proof. intros [_ _ C N _]. injection C as _ C _ _ _. unfold room. by rewrite N, C. Qed.

Lemma stable_home s s' n : stable s s' -> home s n -> home s' n.
Proof. intros [_ Z C _ _]. injection C as C1 C2 _ _ _. unfold home, in_log. by rewrite Z, C1, C2. Qed.

Lemma stable_used s s' b : stable s s' -> used s' b = used s b.
Proof. intros [B _ _ _ E]. unfold used. by rewrite B, E. Qed.

Lemma stable_layout s s' : stable s s' -> layout s -> layout s'.
Proof.
  intros S []. pose proof S as [B Z _ _ E]. constructor; intros; rewrite ?Z, ?E, ?B, ?(stable_used _ _ _ S) in *; try done;
    try apply (stable_home _ _ _ S); auto.
Qed.

Lemma stable_datablock s s' n : stable s s' -> datablock s n -> datablock s' n.
Proof.
  intros S []. pose proof S as [_ _ _ _ E]. constructor; rewrite ?E, ?(stable_used _ _ _ S); try done. by apply (stable_home _ _ _ S).
Qed.

(** * The cache *)

(** One slot; [k] tells whether it is locked. *)
Record islot_ok (s : fs) (k : bool) (ip : inode) : Prop := {
  sk_ref : 0 <= i_ref ip;
  sk_dev : 0 < i_ref ip -> i_dev ip = 1;
  sk_lock : sl_locked (i_lock ip) = k;
  sk_held : k = true -> 0 < i_ref ip;
  sk_copy : 0 < i_ref ip -> i_valid ip = true -> core ip = dnode s (i_inum ip);
  sk_type : 0 < i_ref ip -> i_valid ip = true -> i_type ip <> 0
}.

(** The slots in [L] are locked, no inode has two slots, and what has been
    read is what the disk has, of an inode in use. *)
Record icache_ok (s : fs) (L : gset nat) : Prop := {
  ic_slot : forall i, islot_ok s (bool_decide (i ∈ L)) (geti s i);
  ic_uniq : forall i j, 0 < i_ref (geti s i) -> 0 < i_ref (geti s j) -> i_inum (geti s i) = i_inum (geti s j) -> i = j
}.

(** Slot [i] is inode [n], with a reference. *)
Record got (s : fs) (n : Z) (i : nat) : Prop := {
  gt_ref : 0 < i_ref (geti s i);
  gt_inum : i_inum (geti s i) = n
}.

Lemma ref_index s i : 0 < i_ref (geti s i) -> (i < length (f_icache s))%nat.
Proof.
  unfold geti. intros Hr. destruct (f_icache s !! i) eqn:E; [by apply lookup_lt_Some in E|]. cbn in Hr. lia.
Qed.

(** The references have changed by [h], and nothing else a client sees. *)
Record shifted (h : nat -> Z) (s s' : fs) : Prop := {
  sh_stable : stable s s';
  sh_len : length (f_icache s') = length (f_icache s);
  sh_ref : forall j, i_ref (geti s' j) = i_ref (geti s j) + h j;
  sh_inum : forall j, 0 < i_ref (geti s j) -> 0 < i_ref (geti s' j) -> i_inum (geti s' j) = i_inum (geti s j)
}.

Definition one (i : nat) : nat -> Z := fun j => if decide (j = i) then 1 else 0.
Definition none : nat -> Z := fun _ => 0.

Lemma one_eq i : one i i = 1.
Proof. unfold one. by rewrite decide_True. Qed.

Lemma one_ne i j : j <> i -> one i j = 0.
Proof. intros. unfold one. by rewrite decide_False. Qed.

Lemma one_pos i j : 0 <= one i j <= 1.
Proof. unfold one. case_decide; lia. Qed.

Lemma shifted_ext h h' s s' : (forall j, h j = h' j) -> shifted h s s' -> shifted h' s s'.
Proof. intros E []. constructor; try done. intros j. by rewrite <- E. Qed.

Lemma shifted_trans h h' s s1 s2 :
  shifted h s s1 -> shifted h' s1 s2 -> (forall j, 0 < i_ref (geti s j) -> 0 < i_ref (geti s2 j) -> 0 < i_ref (geti s1 j)) ->
  shifted (fun j => h j + h' j) s s2.
Proof.
  intros [A1 A2 A3 A4] [B1 B2 B3 B4] H. constructor.
  - by eapply stable_trans.
  - by rewrite B2.
  - intros j. rewrite B3, A3. lia.
  - intros j H1 H2. rewrite B4, A4 by auto. done.
Qed.

Lemma got_shifted h s s' n i : shifted h s s' -> got s n i -> 0 < i_ref (geti s' i) -> got s' n i.
Proof. intros S [R E] R'. constructor; [done|]. by rewrite (sh_inum _ _ _ S). Qed.

(** Changing one slot. *)
Lemma islot_stable s s' k ip : stable s s' -> islot_ok s k ip -> islot_ok s' k ip.
Proof. intros S []. constructor; try done. rewrite (dnode_stable _ _ _ S). done. Qed.

Lemma icache_set s s' i L L' :
  icache_ok s L -> stable s s' -> (forall j, j <> i -> geti s' j = geti s j) -> (forall j, j <> i -> j ∈ L' <-> j ∈ L) ->
  islot_ok s (bool_decide (i ∈ L')) (geti s' i) ->
  (forall j, j <> i -> 0 < i_ref (geti s' i) -> 0 < i_ref (geti s j) -> i_inum (geti s' i) <> i_inum (geti s j)) ->
  icache_ok s' L'.
Proof.
  intros [I U] S G HL Hi Hu. constructor.
  - intros j. apply (islot_stable s); [done|]. destruct (decide (j = i)) as [->|Hj]; [done|]. rewrite G by done.
    rewrite (bool_decide_ext _ _ (HL j Hj)). apply I.
  - intros j k. destruct (decide (j = i)) as [->|Hj], (decide (k = i)) as [->|Hk]; [done|..].
    + rewrite (G k Hk). intros H1 H2 E. by destruct (Hu k Hk H1 H2).
    + rewrite (G j Hj). intros H1 H2 E. by destruct (Hu j Hj H2 H1 (eq_sym E)).
    + rewrite (G j Hj), (G k Hk). apply U.
Qed.

(** The slot keeps its inode. *)
Lemma icache_keep s s' i L L' :
  icache_ok s L -> stable s s' -> (forall j, j <> i -> geti s' j = geti s j) -> (forall j, j <> i -> j ∈ L' <-> j ∈ L) ->
  0 < i_ref (geti s i) -> i_inum (geti s' i) = i_inum (geti s i) ->
  islot_ok s (bool_decide (i ∈ L')) (geti s' i) -> icache_ok s' L'.
Proof.
  intros I S G HL Hr En Hi. apply (icache_set s s' i L L'); try done. intros j Hj _ Hrj. rewrite En. intros E. by destruct Hj, (ic_uniq _ _ I i j).
Qed.

(** * References *)

Lemma lock_none s O lk : txn s O -> lk ∉ held (view s).
Proof. intros T. change (view s) with (bc_ctx (l_b (f_l s))). rewrite (tx_held _ _ T). set_solver+. Qed.

(** Changing a slot under [icache.lock]. *)
Lemma under_icache_lock s O f i :
  txn s O -> exists s1 s2, Klock.acquire icache_lock s = Ok tt s1 /\ f_icache s1 = f_icache s /\ geti s1 i = geti s i /\
    Klock.release icache_lock s1 = Ok tt s /\
    seti f i s1 = Ok tt s2 /\ Klock.release icache_lock s2 = Ok tt (set_icache (alter f i (f_icache s)) s).
Proof.
  intros T. pose proof (lock_none s O icache_lock T) as Hn. set (c1 := set_held ({[icache_lock]} ∪ held (view s)) (view s)).
  exists (put c1 s), (set_icache (alter f i (f_icache s)) (put c1 s)). split; [by apply Klock.acquire_ok|]. do 2 (split; [done|]). split.
  - rewrite (Klock.release_after icache_lock (view s)) by done. by rewrite put_put, put_view.
  - split; [done|]. rewrite (Klock.release_after icache_lock (view s)) by done.
    f_equal. by destruct s as [[[] ? ? ? ? ? ? ?] ? ?].
Qed.

Lemma iget_scan_spec dev inum l : forall k e,
  match iget_scan dev inum l k e with
  | inl i => exists j ip, i = (k + j)%nat /\ l !! j = Some ip /\ 0 < i_ref ip /\ i_dev ip = dev /\ i_inum ip = inum
  | inr r =>
      (forall ip, ip ∈ l -> 0 < i_ref ip -> i_dev ip = dev -> i_inum ip <> inum) /\
      match r with
      | Some i => e = Some i \/ exists j ip, i = (k + j)%nat /\ l !! j = Some ip /\ i_ref ip = 0
      | None => e = None /\ forall ip, ip ∈ l -> i_ref ip <> 0
      end
  end.
Proof.
  induction l as [|ip l IH]; intros k e; cbn [iget_scan].
  { split; [intros ip ?%elem_of_nil; done|]. destruct e; [by left|]. split; [done|]. intros ip ?%elem_of_nil. done. }
  destruct ((0 <? i_ref ip) && (i_dev ip =? dev) && (i_inum ip =? inum)) eqn:Em.
  { apply andb_true_iff in Em as [[?%Z.ltb_lt ?%Z.eqb_eq]%andb_true_iff ?%Z.eqb_eq]. exists 0%nat, ip. split; [lia|]. done. }
  assert (Hm : 0 < i_ref ip -> i_dev ip = dev -> i_inum ip <> inum).
  { intros H1 H2 H3. apply Z.ltb_lt in H1. apply Z.eqb_eq in H2, H3. by rewrite H1, H2, H3 in Em. }
  set (e' := match e with None => if i_ref ip =? 0 then Some k else None | Some _ => e end). specialize (IH (S k) e').
  destruct (iget_scan dev inum l (S k) e') as [i|r].
  - destruct IH as (j & jp & -> & Hj & H). exists (S j), jp. split; [lia|]. done.
  - destruct IH as [H1 H2]. split; [intros jp [->|Hin]%elem_of_cons; [exact Hm|by apply H1]|]. destruct r as [i|].
    + destruct H2 as [E|(j & jp & -> & Hj & H2)].
      * destruct e; [by left|]. cbn in E. destruct (Z.eqb_spec (i_ref ip) 0) as [Hz|Hz]; [|done]. injection E as <-. right.
        exists 0%nat, ip. split; [lia|]. done.
      * right. exists (S j), jp. split; [lia|]. done.
    + destruct H2 as [E H2]. destruct e; [done|]. split; [done|]. cbn in E. destruct (Z.eqb_spec (i_ref ip) 0) as [Hz|Hz]; [done|].
      intros jp [->|Hin]%elem_of_cons; [done|by apply H2].
Qed.

(** The cache has a slot for the inode, or an empty one. *)
Definition cacheable (s : fs) (n : Z) : Prop :=
  (exists i, got s n i) \/ exists i, (i < length (f_icache s))%nat /\ i_ref (geti s i) = 0.

Lemma geti_lookup s i ip : f_icache s !! i = Some ip -> geti s i = ip.
Proof. unfold geti. by intros ->. Qed.

Lemma geti_in s i : (i < length (f_icache s))%nat -> geti s i ∈ f_icache s.
Proof. intros [ip H]%lookup_lt_is_Some. rewrite (geti_lookup s i ip H). by apply list_elem_of_lookup_2 in H. Qed.

Lemma islot_ref s k ip r : islot_ok s k ip -> 0 < i_ref ip -> 0 <= r -> (k = true -> 0 < r) -> islot_ok s k (set_iref r ip).
Proof.
  intros [H1 H2 H3 H4 H5 H6] Hp H0 Hk. constructor; [exact H0|intros _; by apply H2|exact H3|exact Hk|intros _; by apply H5|intros _; by apply H6].
Qed.

(** Counting references of one slot. *)
Lemma add_ref s L i d :
  icache_ok s L -> 0 < i_ref (geti s i) -> 0 <= i_ref (geti s i) + d < 2 ^ 31 -> (i ∈ L -> 0 < i_ref (geti s i) + d) ->
  let s' := set_icache (alter (fun ip => set_iref (s32 (i_ref ip + d)) ip) i (f_icache s)) s in
  icache_ok s' L /\ shifted (fun j => d * one i j) s s' /\ i_inum (geti s' i) = i_inum (geti s i).
Proof.
  intros I Hr Hd HL s'. pose proof (ref_index s i Hr) as Hi.
  set (f := fun ip => set_iref (s32 (i_ref ip + d)) ip) in s'.
  assert (Gi : geti s' i = set_iref (i_ref (geti s i) + d) (geti s i)) by (unfold s'; rewrite geti_alter_eq by done; unfold f; by rewrite s32_id by lia).
  assert (Gj : forall j, j <> i -> geti s' j = geti s j) by (intros; by apply geti_alter_ne).
  assert (S : stable s s') by by apply stable_same. split; [|split].
  - apply (icache_keep s s' i L L); try done; [by rewrite Gi|]. rewrite Gi. apply islot_ref; [apply I|done|lia|].
    intros ?%bool_decide_eq_true. auto.
  - constructor; [done|unfold s'; cbn; by rewrite length_alter| |].
    + intros j. destruct (decide (j = i)) as [->|Hj]; [rewrite Gi, one_eq; cbn; lia|]. rewrite Gj, one_ne by done. lia.
    + intros j _ _. destruct (decide (j = i)) as [->|Hj]; [by rewrite Gi|]. by rewrite Gj.
  - by rewrite Gi.
Qed.

Lemma iget_ok s L n :
  txn s ∅ -> icache_ok s L -> cacheable s n -> (forall i, got s n i -> i_ref (geti s i) < 2 ^ 31 - 1) ->
  exists i s', iget 1 n s = Ok i s' /\ txn s' ∅ /\ icache_ok s' L /\ shifted (one i) s s' /\ got s' n i /\ (i ∈ L -> got s n i) /\
    forall j, j <> i -> geti s' j = geti s j.
Proof.
  intros T I HC Hmax. unfold iget. pose proof (iget_scan_spec 1 n (f_icache s) 0 None) as H.
  destruct (iget_scan 1 n (f_icache s) 0 None) as [i|[i|]] eqn:Es.
  - destruct H as (j & ip & -> & Hj & Hr & Hd & Hn). set (f := fun ip => set_iref (s32 (i_ref ip + 1)) ip). change (0 + j)%nat with j in *.
    destruct (under_icache_lock s ∅ f j T) as (s1 & s2 & E1 & Hc & _ & _ & E2 & E3). pose proof (geti_lookup _ _ _ Hj) as G.
    assert (Hg : got s n j) by (constructor; by rewrite G). pose proof (Hmax j Hg) as Hlt.
    destruct (add_ref s L j 1 I) as (I' & S' & En); [by rewrite G|rewrite G in *; lia|rewrite G; lia|]. fold f in I', S', En.
    set (s' := set_icache (alter f j (f_icache s)) s) in *. exists j, s'.
    split; [|split; [by apply (same_txn s)|split; [done|split; [|split; [|split; [done|intros; by apply geti_alter_ne]]]]]].
    + step E1. unfold bind at 1, gets. cbn [seqr]. rewrite Hc, Es. step E2. by step E3.
    + apply (shifted_ext _ _ _ _ (fun k => Z.mul_1_l (one j k)) S').
    + constructor; [rewrite (sh_ref _ _ _ S'), one_eq, G; lia|by rewrite En, G].
  - destruct H as [Hno [?|(j & ip & -> & Hj & Hz)]]; [done|]. change (0 + j)%nat with j in *.
    set (f := fun ip => Inode 1 n 1 (i_lock ip) false (i_type ip) (i_major ip) (i_minor ip) (i_nlink ip) (i_size ip) (i_addrs ip)).
    destruct (under_icache_lock s ∅ f j T) as (s1 & s2 & E1 & Hc & _ & _ & E2 & E3). pose proof (geti_lookup _ _ _ Hj) as G.
    pose proof (lookup_lt_Some _ _ _ Hj) as Hlen. set (s' := set_icache (alter f j (f_icache s)) s) in *.
    assert (Gi : geti s' j = f ip) by (unfold s'; rewrite geti_alter_eq, G; done).
    assert (Gj : forall k, k <> j -> geti s' k = geti s k) by (intros; by apply geti_alter_ne).
    assert (HL : j ∉ L).
    { intros Hin. pose proof (sk_held _ _ _ (ic_slot _ _ I j)) as X. rewrite bool_decide_true, G in X by done. specialize (X eq_refl). lia. }
    exists j, s'. split; [|split; [by apply (same_txn s)|split; [|split; [|split; [by constructor; rewrite Gi|split; [done|exact Gj]]]]]].
    + step E1. unfold bind at 1, gets. cbn [seqr]. rewrite Hc, Es. step E2. by step E3.
    + apply (icache_set s s' j L L); try done; try by apply stable_same.
      * rewrite Gi. constructor; cbn; try done; try lia. rewrite <- G. apply I.
      * intros k Hk _ Hrk. rewrite Gi. cbn. intros E. apply (Hno (geti s k)); [by apply geti_in, ref_index|done|by apply I|done].
    + constructor; [by apply stable_same|unfold s'; cbn; by rewrite length_alter| |].
      * intros k. destruct (decide (k = j)) as [->|Hk]; [rewrite Gi, one_eq, G, Hz; done|]. rewrite Gj, one_ne by done. lia.
      * intros k Hk _. destruct (decide (k = j)) as [->|Hne]; [rewrite G in Hk; lia|]. by rewrite Gj.
  - destruct H as [Hno [_ Hfull]]. exfalso. destruct HC as [(i & Hr & Hn)|(i & Hi & Hz)].
    + by apply (Hno (geti s i)); [apply geti_in, ref_index|done|apply I|].
    + by apply (Hfull (geti s i)); [apply geti_in|].
Qed.

(** A full cache. *)
Lemma iget_full s L n : txn s ∅ -> icache_ok s L -> ~ cacheable s n -> iget 1 n s = Panic "iget: no inodes".
Proof.
  intros T I HC. unfold iget. pose proof (iget_scan_spec 1 n (f_icache s) 0 None) as H.
  destruct (under_icache_lock s ∅ id 0 T) as (s1 & _ & E1 & Hc & _). step E1. unfold bind at 1, gets. cbn [seqr]. rewrite Hc.
  destruct (iget_scan 1 n (f_icache s) 0 None) as [i|[i|]]; [..|done]; exfalso; apply HC.
  - destruct H as (j & ip & -> & Hj & Hr & _ & Hn). left. exists j. constructor; by rewrite (geti_lookup _ _ _ Hj).
  - destruct H as [_ [?|(j & ip & -> & Hj & Hz)]]; [done|]. right. exists j. split; [by apply lookup_lt_Some in Hj|]. by rewrite (geti_lookup _ _ _ Hj).
Qed.

Lemma idup_ok s L n i :
  txn s ∅ -> icache_ok s L -> got s n i -> i_ref (geti s i) < 2 ^ 31 - 1 ->
  exists s', idup i s = Ok i s' /\ txn s' ∅ /\ icache_ok s' L /\ shifted (one i) s s' /\ got s' n i.
Proof.
  intros T I [Hr Hn] Hm. set (f := fun ip => set_iref (s32 (i_ref ip + 1)) ip).
  destruct (under_icache_lock s ∅ f i T) as (s1 & s2 & E1 & _ & _ & _ & E2 & E3).
  destruct (add_ref s L i 1 I Hr) as (I' & S' & En); [lia|lia|]. fold f in I', S', En. set (s' := set_icache _ s) in *. exists s'.
  split; [|split; [by apply (same_txn s)|split; [done|split]]].
  - unfold idup. step E1. step E2. by step E3.
  - apply (shifted_ext _ _ _ _ (fun k => Z.mul_1_l (one i k)) S').
  - constructor; [rewrite (sh_ref _ _ _ S'), one_eq; lia|by rewrite En].
Qed.

(** * Locks *)

Lemma ctx_stable s (c : kctx) : stable s (put c s).
Proof. constructor; try done. constructor; try done. by left. Qed.

Lemma ctx_txn s O (c : kctx) : held c = ∅ -> txn s O -> txn (put c s) O.
Proof.
  intros Hc [[] [ord []] T3 T4 T5 T6 T7]. constructor; try done.
  exists ord. by constructor.
Qed.

(** The slot after [acquiresleep] and after [releasesleep]. *)
Lemma take_lock s i :
  txn s ∅ -> sl_locked (i_lock (geti s i)) = false ->
  exists s', acquiresleep (iref i) s = Ok tt s' /\ txn s' ∅ /\ same_blocks s s' /\ length (f_icache s') = length (f_icache s) /\
    (forall j, j <> i -> geti s' j = geti s j) /\
    ((i < length (f_icache s))%nat -> exists p, geti s' i = set_ilock (Sleep true p) (geti s i)).
Proof.
  intros T Hl. set (s' := sl_set (iref i) (Sleep true (curpid (view s))) s). exists s'.
  split; [apply acquiresleep_free; [apply iref_ok|by eapply lock_none|done]|]. split; [by apply (same_txn s)|]. split; [done|].
  split; [unfold s'; cbn; by rewrite length_alter|]. split; [intros j Hj; by apply geti_alter_ne|]. intros Hi. eexists. by apply (geti_alter_eq _ i s).
Qed.

Lemma drop_lock s i :
  txn s ∅ ->
  exists s', releasesleep (iref i) s = Ok tt s' /\ txn s' ∅ /\ stable s s' /\ length (f_icache s') = length (f_icache s) /\
    (forall j, j <> i -> geti s' j = geti s j) /\ ((i < length (f_icache s))%nat -> geti s' i = set_ilock free_sleeplock (geti s i)).
Proof.
  intros T. set (s' := released (iref i) s). exists s'. split; [apply releasesleep_ok; [apply iref_ok|by eapply lock_none]|].
  set (s1 := set_icache (alter (set_ilock free_sleeplock) i (f_icache s)) s). set (c := set_woken (woken (view s) ++ [sl_chan (iref i)]) (view s)).
  change s' with (put c s1). split; [apply ctx_txn; [apply (tx_held _ _ T)|by apply (same_txn s)]|].
  split; [apply (stable_trans s s1); [by apply stable_same|apply ctx_stable]|]. split; [cbn; by rewrite length_alter|].
  split; [intros j Hj; by apply (geti_alter_ne _ i s)|]. intros Hi. by apply (geti_alter_eq _ i s).
Qed.

(** A change of one slot that keeps its references. *)
Lemma shifted_none s s' i :
  stable s s' -> length (f_icache s') = length (f_icache s) -> (forall j, j <> i -> geti s' j = geti s j) ->
  i_ref (geti s' i) = i_ref (geti s i) -> i_inum (geti s' i) = i_inum (geti s i) -> shifted none s s'.
Proof.
  intros S Hl G Hr Hn. constructor; [done|done|..].
  - intros j. unfold none. destruct (decide (j = i)) as [->|Hj]; [lia|]. rewrite G by done. lia.
  - intros j _ _. destruct (decide (j = i)) as [->|Hj]; [done|]. by rewrite G.
Qed.

Lemma shifted_refl s : shifted none s s.
Proof. apply (shifted_none s s 0); try done. apply stable_refl. Qed.

Lemma ilock_locks s L n i :
  txn s ∅ -> room s 1 -> icache_ok s L -> got s n i -> i ∉ L -> home s (IBLOCK n (f_sb s)) -> i_type (dnode s n) <> 0 ->
  exists s', ilock i s = Ok tt s' /\ txn s' ∅ /\ icache_ok s' ({[i]} ∪ L) /\ shifted none s s' /\ core (geti s' i) = dnode s n /\
    i_valid (geti s' i) = true /\ forall j, j <> i -> geti s' j = geti s j.
Proof.
  intros T Hr I [Hp Hn] HL Hh Ht. pose proof (ref_index s i Hp) as Hi. pose proof (ic_slot _ _ I i) as K. rewrite bool_decide_false in K by done.
  assert (HU : forall j, j <> i -> j ∈ {[i]} ∪ L <-> j ∈ L) by set_solver.
  destruct (i_valid (geti s i)) eqn:Ev.
  - destruct (take_lock s i T (sk_lock _ _ _ K)) as (s' & E & T' & B & Hl & Gj & Gi). destruct (Gi Hi) as [p G]. exists s'.
    assert (S : stable s s') by by apply stable_same. pose proof (sk_copy _ _ _ K Hp Ev) as Hc.
    split; [|split; [done|split; [|split; [by apply (shifted_none s s' i); rewrite ?G|split; [by rewrite G, <- Hn, <- Hc|split; [by rewrite G|exact Gj]]]]]].
    + unfold ilock. step (@ifield_ok Z i_ref i s). rewrite (proj2 (Z.ltb_ge _ _)) by lia. step E. step (@ifield_ok inode id i s').
      cbn [id]. rewrite G. cbn [i_valid set_ilock]. by rewrite Ev.
    + apply (icache_keep s s' i L); try done; [by rewrite G|]. rewrite G, bool_decide_true by set_solver+.
      constructor; cbn; try done; [lia|intros _; by apply K|intros _; by apply K].
  - assert (Hld : i_type (loaded s (geti s i)) = i_type (dnode s n)) by by rewrite <- Hn.
    destruct (ilock_load s i T Hr Hi) as (s' & E & G & S & Hl & T' & Gj); try done; rewrite ?Hn, ?Hld; try done.
    { lia. }
    { apply K. }
    { by apply K. }
    assert (Hcore : core (geti s' i) = dnode s n) by (rewrite G, <- Hn; apply core_loaded; by apply K).
    exists s'. split; [done|]. split; [done|]. split; [|split; [by apply (shifted_none s s' i); rewrite ?G|split; [done|split; [by rewrite G|exact Gj]]]].
    apply (icache_keep s s' i L); try done; [by rewrite G|]. rewrite bool_decide_true by set_solver+.
    constructor; [rewrite G; cbn; lia|intros _; rewrite G; by apply K|by rewrite G|intros _; rewrite G; exact Hp|..]; intros _ _.
    + rewrite Hcore. by rewrite G, <- Hn.
    + by rewrite G, Hld.
Qed.

Lemma iunlock_unlocks s L n i :
  txn s ∅ -> icache_ok s L -> got s n i -> i ∈ L ->
  exists s', iunlock i s = Ok tt s' /\ txn s' ∅ /\ icache_ok s' (L ∖ {[i]}) /\ shifted none s s' /\ core (geti s' i) = core (geti s i) /\
    i_valid (geti s' i) = i_valid (geti s i).
Proof.
  intros T I [Hp Hn] HL. pose proof (ref_index s i Hp) as Hi. pose proof (ic_slot _ _ I i) as K. rewrite bool_decide_true in K by done.
  destruct (drop_lock s i T) as (s' & E & T' & S & Hl & Gj & Gi). specialize (Gi Hi). exists s'.
  split; [|split; [done|split; [|split; [by apply (shifted_none s s' i); rewrite ?Gi|by rewrite Gi]]]].
  - unfold iunlock. assert (Eh : holdingsleep (iref i) s = Ok true s).
    { rewrite holdingsleep_ok; [|apply iref_ok|by eapply lock_none]. f_equal. apply K. }
    step Eh. cbn [negb]. step (@ifield_ok Z i_ref i s). rewrite (proj2 (Z.ltb_ge _ _)) by lia. exact E.
  - apply (icache_keep s s' i L); try done; [set_solver|by rewrite Gi|]. rewrite Gi, bool_decide_false by set_solver+.
    destruct K. constructor; cbn; done.
Qed.

(** [iput] of an inode that stays: it has a link, or another reference, or it
    was never read. *)
Lemma iput_keeps s L n i :
  txn s ∅ -> icache_ok s L -> got s n i -> i ∉ L -> i_ref (geti s i) < 2 ^ 31 ->
  i_valid (geti s i) = false \/ i_nlink (dnode s n) <> 0 \/ 1 < i_ref (geti s i) ->
  exists s', iput i s = Ok tt s' /\ txn s' ∅ /\ icache_ok s' L /\ shifted (fun j => - one i j) s s'.
Proof.
  intros T I [Hp Hn] HL Hmax Hst. pose proof (ref_index s i Hp) as Hi. pose proof (ic_slot _ _ I i) as K. rewrite bool_decide_false in K by done.
  destruct (take_lock s i T (sk_lock _ _ _ K)) as (s1 & E1 & T1 & B1 & Hl1 & Gj1 & Gi1). destruct (Gi1 Hi) as [p G1].
  assert (E2 : forall m k, (ip <- ifield id i ;; when (i_valid ip && (i_nlink ip =? 0))
      (Klock.acquire icache_lock ;;; r <- ifield i_ref i ;; Klock.release icache_lock ;;; when (r =? 1) m) ;;; k) s1 = (k : M fs unit) s1).
  { intros m k. step (@ifield_ok inode id i s1). cbn [id]. rewrite G1. cbn [i_valid i_nlink set_ilock].
    destruct (i_valid (geti s i)) eqn:Ev; [|done]. destruct (Z.eqb_spec (i_nlink (geti s i)) 0) as [Hz|Hz]; [|done]. cbn [andb when].
    destruct (under_icache_lock s1 ∅ id i T1) as (t1 & _ & F1 & _ & Gt & F2 & _).
    assert (E : (Klock.acquire icache_lock ;;; r <- ifield i_ref i ;; Klock.release icache_lock ;;; when (r =? 1) m) s1 = Ok tt s1).
    { step F1. step (@ifield_ok Z i_ref i t1). rewrite Gt, G1. step F2. cbn [i_ref set_ilock].
      rewrite (proj2 (Z.eqb_neq _ _)); [done|]. destruct Hst as [?|[Hk|?]]; [done| |lia].
      destruct Hk. rewrite <- Hn, <- (sk_copy _ _ _ K Hp Ev). exact Hz. }
    by step E. }
  destruct (drop_lock s1 i T1) as (s2 & E3 & T2 & S2 & Hl2 & Gj2 & Gi2). rewrite Hl1 in Gi2. specialize (Gi2 Hi). rewrite G1 in Gi2.
  assert (S12 : stable s s2) by (eapply stable_trans; [by apply stable_same|done]).
  assert (Gj : forall j, j <> i -> geti s2 j = geti s j) by (intros; rewrite Gj2, Gj1; done).
  assert (Hr2 : i_ref (geti s2 i) = i_ref (geti s i)) by by rewrite Gi2.
  assert (I2 : icache_ok s2 L).
  { apply (icache_keep s s2 i L); try done; [by rewrite Gi2|]. rewrite Gi2, bool_decide_false by done. destruct K. constructor; cbn; done. }
  destruct (add_ref s2 L i (-1) I2) as (I3 & S3 & _); [lia|lia|done|]. set (f := fun ip => set_iref (s32 (i_ref ip + -1)) ip) in *.
  destruct (under_icache_lock s2 ∅ f i T2) as (t1 & t2 & F1 & _ & _ & _ & F2 & F3). set (s3 := set_icache _ s2) in *.
  assert (Sh : shifted none s s2) by (apply (shifted_none s s2 i); rewrite ?Gi2, ?Hl2; done).
  exists s3. split; [|split; [by apply (same_txn s2)|split; [done|]]].
  - unfold iput. step E1. rewrite E2. step E3. step F1. step F2. exact F3.
  - eapply shifted_ext; [|apply (shifted_trans _ _ _ _ _ Sh S3)]; [intros j; unfold none; lia|]. intros j. by rewrite (sh_ref _ _ _ Sh), Z.add_0_r.
Qed.
