(* ===== verification/FsPath.v ===== *)
(** Path names, [fs.c]: [namex] walks the tree of directories that is on
    disk, element by element. *)

From S2P Require Import Prelude Params Spinlock Klock Bytes Bio Bcache Log Commit LogOps Fs Txn FsBlocks FsRead FsWrite FsInode FsContents FsSpec FsDir FsCache.
Open Scope Z_scope.
Open Scope xv6_scope.

(** * The elements of a path *)

Fixpoint split_slash (p : list Z) : list (list Z) :=
  match p with
  | [] => [[]]
  | c :: p =>
      if c =? SLASH then [] :: split_slash p
      else match split_slash p with [] => [[c]] | e :: es => (c :: e) :: es end
  end.

(** What is between the slashes, each cut to [DIRSIZ] characters. *)
Definition elements (path : list Z) : list (list Z) := take DIRSIZ <$> filter (fun e => e <> []) (split_slash path).

Lemma elements_slash p : elements (SLASH :: p) = elements p.
Proof. reflexivity. Qed.

Lemma elements_skip p : elements (skip_slashes p) = elements p.
Proof.
  induction p as [|c p IH]; [done|]. cbn [skip_slashes]. destruct (Z.eqb_spec c SLASH) as [->|]; [|done]. by rewrite elements_slash.
Qed.

Lemma skip_slashes_length p : (length (skip_slashes p) <= length p)%nat.
Proof. induction p as [|c p IH]; cbn; [lia|]. destruct (c =? SLASH); cbn; lia. Qed.

Lemma skip_slashes_hd p c r : skip_slashes p = c :: r -> c <> SLASH.
Proof. induction p as [|d p IH]; [done|]. cbn. destruct (Z.eqb_spec d SLASH); [done|]. by intros [= <- <-]. Qed.

Lemma path_elem_split p : forall e r, path_elem p = (e, r) ->
  (length e + length r = length p)%nat /\
  ((r = [] /\ split_slash p = [e]) \/ exists r', r = SLASH :: r' /\ split_slash p = e :: split_slash r').
Proof.
  induction p as [|c p IH]; intros e r; cbn [path_elem split_slash].
  - intros [= <- <-]. split; [done|]. by left.
  - destruct (Z.eqb_spec c SLASH) as [->|Hc].
    + intros [= <- <-]. split; [done|]. right. by exists p.
    + destruct (path_elem p) as [e' r'] eqn:Ep. intros [= <- <-]. destruct (IH e' r' eq_refl) as [Hl [[-> ->]|(r & -> & ->)]].
      * split; [cbn in *; lia|]. by left.
      * split; [cbn in *; lia|]. right. by exists r.
Qed.

(** [skipelem] takes off the first element. *)
Lemma skipelem_elements path :
  match skipelem path with
  | None => elements path = []
  | Some (e, r) => elements path = e :: elements r /\ (length r < length path)%nat /\ (r = [] <-> elements r = [])
  end.
Proof.
  unfold skipelem. rewrite <- (elements_skip path). pose proof (skip_slashes_length path) as Hl.
  destruct (skip_slashes path) as [|c p] eqn:Es; [done|]. pose proof (skip_slashes_hd _ _ _ Es) as Hc.
  assert (Hne : forall p, p = [] \/ hd 0 p <> SLASH -> p = [] <-> elements p = []).
  { intros [|d q] Hd; [done|]. split; [done|]. destruct Hd as [?|Hd]; [done|]. cbn in Hd. unfold elements. cbn [split_slash].
    rewrite (proj2 (Z.eqb_neq _ _) Hd). by destruct (split_slash q). }
  assert (Hsk : forall r, skip_slashes r = [] \/ hd 0 (skip_slashes r) <> SLASH).
  { intros r. destruct (skip_slashes r) eqn:E; [by left|right]. by apply (skip_slashes_hd r z l). }
  destruct (path_elem (c :: p)) as [e r] eqn:Ep. destruct (path_elem_split _ _ _ Ep) as [Hlen Hsp].
  assert (He : e <> []) by (cbn in Ep; rewrite (proj2 (Z.eqb_neq _ _) Hc) in Ep; destruct (path_elem p); congruence).
  assert (H1 : (1 <= length e)%nat) by (destruct e; [done|cbn; lia]). split; [|split].
  - rewrite elements_skip. unfold elements. destruct Hsp as [[-> ->]|(r' & -> & ->)]; rewrite filter_cons, decide_True by done; done.
  - pose proof (skip_slashes_length r). lia.
  - apply Hne, Hsk.
Qed.

(** * The tree on disk *)

Definition dtype (s : fs) (n : Z) : Z := i_type (dnode s n).
Definition dcontents (s : fs) (n : Z) : bytes := fslice s (dnode s n) 0 (Z.to_nat (i_size (dnode s n))).

(** Inode [n] on disk is a file or a directory that can be read. *)
Record disk_file (s : fs) (n : Z) : Prop := {
  df_wf : file_wf s (dnode s n);
  df_type : dtype s n <> T_DEV;
  df_inum : 0 <= n;
  df_size : 0 <= i_size (dnode s n) <= MAXFILE * BSIZE;
  df_backed : backed s (dnode s n) 0 (i_size (dnode s n));
  df_apart : inode_apart s (dnode s n) (IBLOCK n (f_sb s))
}.

(** The inodes that paths from the root lead to. *)
Inductive reach (s : fs) : Z -> Prop :=
| reach_root : reach s ROOTINO
| reach_entry n name n' :
    reach s n -> dtype s n = T_DIR -> dir_inum (dcontents s n) name = Some n' -> reach s n'.

Record node_ok (s : fs) (n : Z) : Prop := {
  no_home : home s (IBLOCK n (f_sb s));
  no_type : dtype s n <> 0;
  no_link : i_nlink (dnode s n) <> 0;
  no_dir : dtype s n = T_DIR -> disk_file s n /\ i_size (dnode s n) mod DIRENT = 0
}.

Definition tree_ok (s : fs) : Prop := forall n, reach s n -> node_ok s n.

(** Where a path leads from directory [n]: to the inode its elements name, or,
    for [nameiparent], to the directory the last element is looked up in. *)
Fixpoint walk (s : fs) (parent : bool) (n : Z) (es : list (list Z)) : option Z :=
  match es with
  | [] => if parent then None else Some n
  | e :: es =>
      if negb (dtype s n =? T_DIR) then None
      else if parent && bool_decide (es = []) then Some n
      else n' ← dir_inum (dcontents s n) e; walk s parent n' es
  end.

(** * A locked directory *)

Lemma addr_of_stable s s' ip c : stable s s' -> addr_of s' ip c = addr_of s ip c.
Proof. intros [B _ _ _ _]. unfold addr_of. by rewrite B. Qed.

Lemma fslice_stable s s' ip off n : stable s s' -> fslice s' ip off n = fslice s ip off n.
Proof. intros S. unfold fslice. apply list_fmap_ext. intros. unfold fbyte. by rewrite (addr_of_stable _ _ _ _ S), (sa_blk _ _ S). Qed.

Lemma file_wf_stable s s' ip : stable s s' -> file_wf s ip -> file_wf s' ip.
Proof. intros S W. apply (file_wf_ext s); [done|intros _; by apply S|]. intros n. by apply stable_datablock. Qed.

Lemma file_wf_core s ip : file_wf s (core ip) -> file_wf s ip.
Proof. intros []. by constructor. Qed.

Section slot.
Context (s0 s : fs) (S : stable s0 s) (n : Z) (i : nat).
Context (Hi : (i < length (f_icache s))%nat) (Hc : core (geti s i) = dnode s0 n) .

Lemma core_contents : contents s i = dcontents s0 n.
Proof using S Hc. unfold dcontents. rewrite <- Hc, <- (fslice_stable s0 s) by done. done. Qed.

Lemma core_type : i_type (geti s i) = dtype s0 n.
Proof using Hc. unfold dtype. by rewrite <- Hc. Qed.

Lemma core_file : disk_file s0 n -> file_ok s i.
Proof using All.
  intros [W T N Z B A]. assert (En : i_inum (geti s i) = n) by (change (i_inum (core (geti s i)) = n); by rewrite Hc).
  unfold dtype in T. rewrite <- Hc in W, T, Z, B, A. constructor; try done.
  - apply file_wf_core. by apply (file_wf_stable s0).
  - by rewrite En.
  - intros k Hk. rewrite (addr_of_stable s0 s) by done. by apply (B k).
  - unfold inode_block. rewrite En, (sa_sb _ _ S). destruct A as [A1 A2 A3]. constructor; [by apply (stable_datablock s0)|exact A2|].
    intros c Hcr. rewrite (addr_of_stable s0 s) by done. by apply (A3 c).
Qed.

Lemma core_dir : node_ok s0 n -> dtype s0 n = T_DIR -> dir_ok s i.
Proof using All.
  intros N Ht. destruct (no_dir _ _ N Ht) as [F Hm]. constructor; [by apply core_file|by rewrite core_type|].
  rewrite <- Hc in Hm. exact Hm.
Qed.
End slot.

Lemma icache_same s s' L : stable s s' -> f_icache s' = f_icache s -> icache_ok s L -> icache_ok s' L.
Proof.
  intros S E [I U]. assert (G : forall i, geti s' i = geti s i) by (intros; unfold geti; by rewrite E).
  constructor; [intros i; rewrite G; by apply (islot_stable s)|]. intros i j. rewrite !G. apply U.
Qed.

Lemma shifted_steady O s s' : steady O s s' -> shifted none s s'.
Proof.
  intros S. assert (G : forall i, geti s' i = geti s i) by (intros; by eapply geti_steady).
  apply (shifted_none s s' 0); [by eapply stable_steady|by rewrite (st_icache _ _ _ S)|intros; apply G|by rewrite G|by rewrite G].
Qed.

(** Later changes, seen from a state with fewer references. *)
Lemma shifted_base h h' s s1 s2 : (forall j, 0 <= h j) -> shifted h s s1 -> shifted h' s1 s2 -> shifted (fun j => h j + h' j) s s2.
Proof. intros Hh A B. apply (shifted_trans h h' s s1); try done. intros j Hj _. rewrite (sh_ref _ _ _ A). specialize (Hh j). lia. Qed.

Lemma shifted_keep h s s1 s2 : (forall j, 0 <= h j) -> shifted h s s1 -> shifted none s1 s2 -> shifted h s s2.
Proof. intros Hh A B. eapply shifted_ext; [|by apply (shifted_base h none s s1)]. intros j. unfold none. lia. Qed.

Lemma iunlockput_ok s L n i :
  txn s ∅ -> icache_ok s L -> got s n i -> i ∈ L -> i_ref (geti s i) < 2 ^ 31 -> i_nlink (dnode s n) <> 0 ->
  exists s', iunlockput i s = Ok tt s' /\ txn s' ∅ /\ icache_ok s' (L ∖ {[i]}) /\ shifted (fun j => - one i j) s s'.
Proof.
  intros T I G HL Hm Hk. destruct (iunlock_unlocks s L n i T I G HL) as (s1 & E1 & T1 & I1 & S1 & _).
  pose proof (sh_ref _ _ _ S1 i) as Hr. unfold none in Hr. pose proof (gt_ref _ _ _ G) as Hp.
  destruct (iput_keeps s1 (L ∖ {[i]}) n i T1 I1) as (s2 & E2 & T2 & I2 & S2); [by apply (got_shifted none s); [..|lia]|set_solver+|lia| |].
  { right. left. by rewrite (dnode_stable s s1) by apply S1. }
  exists s2. split; [unfold iunlockput; step E1; exact E2|]. split; [done|]. split; [done|].
  refine (shifted_ext _ _ _ _ _ (shifted_base none _ s s1 s2 _ S1 S2)); intros j; unfold none; lia.
Qed.

(** * The walk *)

Section walk.
Context `{DevSw}.
Context (s0 : fs) (I0 : icache_ok s0 ∅) (LY : layout s0) (RM : room s0 1) (TR : tree_ok s0).
(** Two empty slots, and counters that do not overflow. *)
Context (f1 f2 : nat) (Hf : f1 <> f2) (Hf1 : (f1 < length (f_icache s0))%nat) (Hf2 : (f2 < length (f_icache s0))%nat).
Context (Hz1 : i_ref (geti s0 f1) = 0) (Hz2 : i_ref (geti s0 f2) = 0) (Hmax : forall j, i_ref (geti s0 j) < 2 ^ 31 - 2).

Lemma one_nonneg i j : 0 <= one i j.
Proof. apply one_pos. Qed.

(** With one inode held there is an empty slot. *)
Lemma walk_cacheable s i n : shifted (one i) s0 s -> cacheable s n.
Proof using All.
  intros S. right. destruct (decide (f1 = i)) as [<-|Hne].
  - exists f2. rewrite (sh_len _ _ _ S), (sh_ref _ _ _ S), one_ne by congruence. lia.
  - exists f1. rewrite (sh_len _ _ _ S), (sh_ref _ _ _ S), one_ne by done. lia.
Qed.

(** [ilock] of a node, as far as the type test. *)
Lemma lock_node s i n :
  txn s ∅ -> icache_ok s ∅ -> shifted (one i) s0 s -> got s n i -> reach s0 n ->
  exists s1, ilock i s = Ok tt s1 /\ txn s1 ∅ /\ icache_ok s1 {[i]} /\ shifted (one i) s0 s1 /\ got s1 n i /\ core (geti s1 i) = dnode s0 n.
Proof using All.
  intros T I S G HR. pose proof (TR n HR) as N. pose proof (sh_stable _ _ _ S) as St.
  destruct (ilock_locks s ∅ n i T (stable_room _ _ _ St RM) I G) as (s1 & E1 & T1 & I1 & S1 & C1 & _).
  { set_solver+. }
  { rewrite (sa_sb _ _ St). apply (stable_home s0); [done|apply N]. }
  { rewrite (dnode_stable _ _ _ St). apply N. }
  rewrite (dnode_stable _ _ _ St) in C1. rewrite union_empty_r_L in I1. exists s1. split; [done|]. split; [done|]. split; [done|].
  split; [by apply (shifted_keep (one i) s0 s s1 (one_nonneg i))|]. split; [|done]. apply (got_shifted none s); try done.
  rewrite (sh_ref _ _ _ S1). unfold none. pose proof (gt_ref _ _ _ G). lia.
Qed.

(** Giving the node up. *)
Lemma leave_node s h i n :
  txn s ∅ -> icache_ok s {[i]} -> (forall j, 0 <= h j <= 1) -> shifted (fun j => one i j + h j) s0 s -> got s n i -> reach s0 n ->
  exists s1, iunlockput i s = Ok tt s1 /\ txn s1 ∅ /\ icache_ok s1 ∅ /\ shifted h s0 s1 /\ shifted (fun j => - one i j) s s1.
Proof using All.
  intros T I Hh S G HR. destruct (iunlockput_ok s {[i]} n i T I G) as (s1 & E1 & T1 & I1 & S1).
  { set_solver+. }
  { rewrite (sh_ref _ _ _ S), one_eq. pose proof (Hmax i). pose proof (Hh i). lia. }
  { rewrite (dnode_stable _ _ _ (sh_stable _ _ _ S)). apply (TR n HR). }
  rewrite difference_diag_L in I1. exists s1. split; [done|]. split; [done|]. split; [done|]. split; [|done].
  refine (shifted_ext _ _ _ _ _ (shifted_base _ _ s0 s s1 _ S S1)); intros j; pose proof (one_pos i j); pose proof (Hh j); cbn; lia.
Qed.

(** The name is looked up in the directory, and the directory given up. *)
Lemma lookup_node s i n name :
  txn s ∅ -> icache_ok s {[i]} -> shifted (one i) s0 s -> got s n i -> core (geti s i) = dnode s0 n -> reach s0 n -> dtype s0 n = T_DIR ->
  match dir_inum (dcontents s0 n) name with
  | None => exists s1 s2, dirlookup i name s = Ok None s1 /\ iunlockput i s1 = Ok tt s2 /\ txn s2 ∅ /\ icache_ok s2 ∅ /\ shifted none s0 s2
  | Some n' => exists k off s1 s2, dirlookup i name s = Ok (Some (k, off)) s1 /\ iunlockput i s1 = Ok tt s2 /\ txn s2 ∅ /\ icache_ok s2 ∅ /\
      shifted (one k) s0 s2 /\ got s2 n' k
  end.
Proof using All.
  intros T I S G C HR Ht. pose proof (sh_stable _ _ _ S) as St. pose proof (ref_index s i (gt_ref _ _ _ G)) as Hi.
  pose proof (core_dir s0 s St n i Hi C (TR n HR) Ht) as D.
  destruct (dirlookup_ok s i name T (stable_layout _ _ St LY) (stable_room _ _ _ St RM) D) as (s1 & T1 & S1 & E1).
  pose proof (shifted_steady _ _ _ S1) as Sh1. pose proof (shifted_keep _ _ _ _ (one_nonneg i) S Sh1) as S01.
  assert (I1 : icache_ok s1 {[i]}) by (apply (icache_same s); [by eapply stable_steady|apply S1|done]).
  assert (G1 : got s1 n i) by (apply (got_shifted none s); [done|done|]; rewrite (sh_ref _ _ _ Sh1); unfold none; pose proof (gt_ref _ _ _ G); lia).
  rewrite (core_contents s0 s St n i C) in E1. unfold dir_inum. destruct (dlookup (dcontents s0 n) name) as [j|]; cbn [fmap option_fmap option_map].
  - set (n' := de_inum (entry_at (dcontents s0 n) j)) in *.
    destruct (iget_ok s1 {[i]} n' T1 I1 (walk_cacheable s1 i n' S01)) as (k & s2 & E2 & T2 & I2 & S2 & G2 & _).
    { intros k _. rewrite (sh_ref _ _ _ S01). pose proof (one_pos i k). pose proof (Hmax k). lia. }
    pose proof (shifted_base _ _ s0 s1 s2 (one_nonneg i) S01 S2) as S02.
    destruct (leave_node s2 (one k) i n T2 I2 (one_pos k) S02) as (s3 & E3 & T3 & I3 & S3 & S23); [|done|].
    { apply (got_shifted (one k) s1); try done. rewrite (sh_ref _ _ _ S2). pose proof (one_pos k i). pose proof (gt_ref _ _ _ G1). lia. }
    exists k, (DIRENT * Z.of_nat j), s2, s3. split; [rewrite E1; by step E2|]. do 4 (split; [done|]).
    apply (got_shifted _ s2 s3 _ _ S23 G2). rewrite (sh_ref _ _ _ S3), one_eq. pose proof (sk_ref _ _ _ (ic_slot _ _ I0 k)). lia.
  - destruct (leave_node s1 none i n T1 I1) as (s2 & E2 & T2 & I2 & S2 & _); try done.
    { refine (shifted_ext _ _ _ _ _ S01). intros j. unfold none. lia. }
    exists s1, s2. done.
Qed.

(** What is promised of the slot returned. *)
Definition found (s' : fs) (w : option Z) (r : option nat) : Prop :=
  match w, r with
  | Some n, Some i => got s' n i /\ shifted (one i) s0 s'
  | None, None => shifted none s0 s'
  | _, _ => False
  end.

Lemma namex_loop_ok parent fuel : forall s i n path name,
  txn s ∅ -> icache_ok s ∅ -> shifted (one i) s0 s -> got s n i -> reach s0 n -> (length path < fuel)%nat ->
  exists r nm s', namex_loop i path parent name fuel s = Ok (r, nm) s' /\ txn s' ∅ /\ icache_ok s' ∅ /\
    found s' (walk s0 parent n (elements path)) r /\ (parent = true -> is_Some r -> last (elements path) = Some nm).
Proof using All.
  induction fuel as [|fuel IH]; intros s i n path name T I S G HR Hlen; [lia|]. cbn [namex_loop].
  pose proof (skipelem_elements path) as Hel. destruct (skipelem path) as [[e rest]|].
  2: { rewrite Hel. cbn [walk]. destruct parent.
    - destruct (iput_keeps s ∅ n i T I G) as (s' & E & T' & I' & S').
      { set_solver+. }
      { rewrite (sh_ref _ _ _ S), one_eq. pose proof (Hmax i). lia. }
      { right. left. rewrite (dnode_stable _ _ _ (sh_stable _ _ _ S)). apply (TR n HR). }
      exists None, name, s'. split; [by step E|]. do 2 (split; [done|]). split; [|by intros _ []].
      refine (shifted_ext _ _ _ _ _ (shifted_base _ _ s0 s s' (one_nonneg i) S S')). intros j. unfold none. lia.
    - exists (Some i), name, s. do 4 (split; [done|]). done. }
  destruct Hel as (Hel & Hl & Hnil). rewrite Hel. cbn [walk].
  destruct (lock_node s i n T I S G HR) as (s1 & E1 & T1 & I1 & S1 & G1 & C1). step E1. step (@ifield_ok Z i_type i s1).
  rewrite (core_type s0 s1 n i C1). destruct (Z.eqb_spec (dtype s0 n) T_DIR) as [Ht|Ht]; cbn [negb].
  2: { destruct (leave_node s1 none i n T1 I1) as (s2 & E2 & T2 & I2 & S2 & _); try done.
    { refine (shifted_ext _ _ _ _ _ S1). intros j. unfold none. lia. }
    exists None, e, s2. split; [by step E2|]. do 3 (split; [done|]). by intros _ []. }
  rewrite <- (bool_decide_ext _ _ Hnil). destruct (parent && bool_decide (rest = [])) eqn:Ep.
  { apply andb_true_iff in Ep as [-> Er%bool_decide_eq_true]. destruct (iunlock_unlocks s1 {[i]} n i T1 I1 G1) as (s2 & E2 & T2 & I2 & S2 & _); [set_solver+|].
    rewrite difference_diag_L in I2. exists (Some i), e, s2. split; [by step E2|]. do 2 (split; [done|]). split.
    - split; [|by apply (shifted_keep _ s0 s1 s2 (one_nonneg i))]. apply (got_shifted none s1); try done.
      rewrite (sh_ref _ _ _ S2). unfold none. pose proof (gt_ref _ _ _ G1). lia.
    - intros _ _. by rewrite (proj1 Hnil Er). }
  pose proof (lookup_node s1 i n e T1 I1 S1 G1 C1 HR Ht) as Hlk. destruct (dir_inum (dcontents s0 n) e) as [n'|] eqn:En; cbn [mbind option_bind].
  - destruct Hlk as (k & off & s2 & s3 & E2 & E3 & T3 & I3 & S3 & G3). step E2. step E3.
    destruct (IH s3 k n' rest e T3 I3 S3 G3) as (r & nm & s4 & E4 & T4 & I4 & F4 & Hn4); [by apply (reach_entry s0 n e)|lia|].
    exists r, nm, s4. split; [exact E4|]. do 3 (split; [done|]). intros -> Hr. rewrite last_cons, (Hn4 eq_refl Hr). done.
  - destruct Hlk as (s2 & s3 & E2 & E3 & T3 & I3 & S3). step E2. step E3. exists None, e, s3. do 4 (split; [done|]). by intros _ [].
Qed.
End walk.

(** * Correctness *)

(** The cache as [namex] needs it: inside a transaction, no inode locked, two
    empty slots, and references that can be counted. *)
Record icache_idle (s : fs) : Prop := {
  id_txn : txn s ∅;
  id_room : room s 1;
  id_cache : icache_ok s ∅;
  id_empty : exists f1 f2, f1 <> f2 /\ (f1 < length (f_icache s))%nat /\ (f2 < length (f_icache s))%nat /\
    i_ref (geti s f1) = 0 /\ i_ref (geti s f2) = 0;
  id_refs : forall j, i_ref (geti s j) < 2 ^ 31 - 2
}.

(** The state [namex] is called in: there is also a tree on disk. *)
Record walkable (s : fs) : Prop := {
  wk_idle : icache_idle s;
  wk_layout : layout s;
  wk_tree : tree_ok s
}.

(** The inode a path starts from. *)
Definition starts (s : fs) (cwd : option nat) (path : list Z) (n : Z) : Prop :=
  if hd 0 path =? SLASH then n = ROOTINO else exists c, cwd = Some c /\ got s n c /\ reach s n.

Section namex.
Context `{DevSw}.

Lemma namex_ok (s : fs) (cwd : option nat) (path : list Z) (parent : bool) (n : Z) :
  walkable s -> starts s cwd path n ->
  exists r name s', namex cwd path parent s = Ok (r, name) s' /\ txn s' ∅ /\ icache_ok s' ∅ /\
    found s s' (walk s parent n (elements path)) r /\ (parent = true -> is_Some r -> last (elements path) = Some name).
Proof.
  intros [[T R I (f1 & f2 & Hf & Hf1 & Hf2 & Hz1 & Hz2) Hm] L TR] Hst. unfold namex. unfold starts in Hst.
  assert (HG : exists i s1, (if hd 0 path =? SLASH then iget ROOTDEV ROOTINO else match cwd with Some c => idup c | None => fault 0 end) s = Ok i s1 /\
    txn s1 ∅ /\ icache_ok s1 ∅ /\ shifted (one i) s s1 /\ got s1 n i /\ reach s n).
  { destruct (hd 0 path =? SLASH).
    - subst n. destruct (iget_ok s ∅ ROOTINO T I) as (i & s1 & E1 & T1 & I1 & S1 & G1 & _).
      { right. by exists f1. }
      { intros i _. pose proof (Hm i). lia. }
      exists i, s1. split; [exact E1|]. do 4 (split; [done|]). constructor.
    - destruct Hst as (c & -> & G & HR). destruct (idup_ok s ∅ n c T I G) as (s1 & E1 & T1 & I1 & S1 & G1); [pose proof (Hm c); lia|].
      by exists c, s1. }
  destruct HG as (i & s1 & E1 & T1 & I1 & S1 & G1 & HR). step E1.
  apply (namex_loop_ok s I L R TR f1 f2 Hf Hf1 Hf2 Hz1 Hz2 Hm parent (S (length path)) s1 i n path []); try done. lia.
Qed.

(** C9: Path resolution.  [namei] and [nameiparent] (the flag) return, and find
    the inode that the elements of the path lead to in the tree of directories
    that is on disk: the cache slot returned is that inode's, with one more
    reference and every other slot with the references it had, nothing on disk
    has changed and no inode is left locked.  When an element is missing, or
    one before the end is not a directory, no inode is returned and no
    reference is kept. *)
Theorem namex_walks (s : fs) (cwd : option nat) (path : list Z) (parent : bool) (n : Z) :
  walkable s -> starts s cwd path n ->
  exists r name s', namex cwd path parent s = Ok (r, name) s' /\ txn s' ∅ /\ icache_ok s' ∅ /\
    match walk s parent n (elements path) with
    | Some m => exists i, r = Some i /\ got s' m i /\ shifted (one i) s s' /\ (parent = true -> last (elements path) = Some name)
    | None => r = None /\ shifted none s s'
    end.
Proof.
  intros W St. destruct (namex_ok s cwd path parent n W St) as (r & nm & s' & E & T & I & F & Hl).
  exists r, nm, s'. do 3 (split; [done|]). destruct (walk _ _ _ _), r as [i|]; try done. exists i. destruct F. eauto.
Qed.
End namex.
