(* ===== verification/FsFree.v ===== *)
(** Freeing a file, [fs.c]: [itrunc] gives every block of an inode back, and
    [iput] of the last reference to an inode without links frees the inode. *)

From S2P Require Import Prelude Params Spinlock Klock Bytes Bio Bcache Log Commit LogOps Recover CrashSpec Fs Txn FsBlocks FsRead FsWrite FsInode FsContents FsSpec FsDir FsCache FsPath.
Open Scope Z_scope.
Open Scope xv6_scope.

(** * Sets of freed blocks *)

(** Block [n] is not part of the free map. *)
Definition off_map (s : fs) (n : Z) : Prop := forall c, 0 <= c < sb_size (f_sb s) -> n <> c / BPB + sb_bmapstart (f_sb s).

(** The blocks in [X] have been marked free, and nothing else has changed on
    disk; the buffers in [O] are as they were. *)
Record unused (O : gset nat) (X : gset Z) (s s' : fs) : Prop := {
  un_used : forall c, 0 <= c < sb_size (f_sb s) -> used s' c = used s c && negb (bool_decide (c ∈ X));
  un_blk : forall n, off_map s n -> blk s' n = blk s n;
  un_nblk : nblk s' = nblk s;
  un_conf : log_conf (f_l s') = log_conf (f_l s);
  un_sb : f_sb s' = f_sb s;
  un_disk : disk (l_b (f_l s')) = disk (l_b (f_l s));
  un_pay : forall j, j ∈ O -> payload (slot s' j) = payload (slot s j)
}.

Lemma unused_steady O s s' : steady O s s' -> unused O ∅ s s'.
Proof.
  intros S. constructor; try apply S.
  - intros c _. rewrite (used_steady _ _ _ _ S), bool_decide_false by set_solver+. by rewrite andb_true_r.
  - intros n _. apply S.
Qed.

Lemma unused_same O s s' : same_blocks s s' -> unused O ∅ s s'.
Proof.
  intros [E1 E2]. constructor; unfold blk, nblk, slot; rewrite ?E1; try done.
  intros c _. unfold used, blk. rewrite E1, E2, bool_decide_false by set_solver+. by rewrite andb_true_r.
Qed.

Lemma unused_trans O X Y s s1 s2 : unused O X s s1 -> unused O Y s1 s2 -> unused O (X ∪ Y) s s2.
Proof.
  intros A B. pose proof (un_sb _ _ _ _ A) as E. constructor.
  - intros c Hc. rewrite (un_used _ _ _ _ B) by by rewrite E. rewrite (un_used _ _ _ _ A), <- andb_assoc by done. f_equal.
    rewrite <- negb_orb. f_equal. symmetry. destruct (bool_decide_reflect (c ∈ X)), (bool_decide_reflect (c ∈ Y)); cbn;
      [apply bool_decide_true; set_solver..|apply bool_decide_false; set_solver].
  - intros n Hn. rewrite (un_blk _ _ _ _ B), (un_blk _ _ _ _ A); [done|done|]. unfold off_map. by rewrite E.
  - by rewrite (un_nblk _ _ _ _ B), (un_nblk _ _ _ _ A).
  - by rewrite (un_conf _ _ _ _ B), (un_conf _ _ _ _ A).
  - by rewrite (un_sb _ _ _ _ B), (un_sb _ _ _ _ A).
  - by rewrite (un_disk _ _ _ _ B), (un_disk _ _ _ _ A).
  - intros j Hj. by rewrite (un_pay _ _ _ _ B), (un_pay _ _ _ _ A).
Qed.

Lemma unused_weaken O O' X s s' : O' ⊆ O -> unused O X s s' -> unused O' X s s'.
Proof. intros H []. constructor; try done. set_solver. Qed.

Section unused.
Context (O : gset nat) (X : gset Z) (s s' : fs) (U : unused O X s s').

Lemma unused_home n : home s n -> home s' n.
Proof using U. pose proof (un_conf _ _ _ _ U) as E. injection E as E1 E2 _ _ _. unfold home, in_log. by rewrite (un_nblk _ _ _ _ U), E1, E2. Qed.

Lemma unused_datablock n : datablock s n -> n ∉ X -> datablock s' n.
Proof using U.
  intros [H1 H2 H3 H4] Hn. constructor; rewrite ?(un_sb _ _ _ _ U); try done; [|by apply unused_home].
  rewrite (un_used _ _ _ _ U), H2, bool_decide_false by (done || lia). done.
Qed.

Lemma unused_data n : datablock s n -> blk s' n = blk s n.
Proof using U. intros D. apply U. exact (db_map _ _ D). Qed.

Lemma unused_holds i n d : i ∈ O -> holds s i n d -> holds s' i n d.
Proof using U.
  intros Hi [Hb Hd Hs]. destruct (payload_inv _ _ (un_pay _ _ _ _ U i Hi)) as (F & _ & N & D).
  constructor; [by rewrite N|by rewrite D|]. unfold clean. rewrite F, (un_disk _ _ _ _ U). done.
Qed.

Lemma unused_layout : layout s -> (forall b, b ∈ X -> datablock s b) -> layout s'.
Proof using U.
  intros [H1 H2 H3 H4 H5 H6 (H7 & H8 & H9) H10] HX. pose proof (un_sb _ _ _ _ U) as E.
  assert (Hf : forall b, 0 <= b < sb_size (f_sb s) -> used s' b = false -> used s b = false \/ datablock s b).
  { intros b Hb. rewrite (un_used _ _ _ _ U) by done. intros [?|Hx]%andb_false_iff; [by left|right].
    apply negb_false_iff, bool_decide_eq_true in Hx. by apply HX. }
  assert (Hk : forall b, 0 <= b <= 1 -> used s b = true -> used s' b = true).
  { intros b Hb Hu. rewrite (un_used _ _ _ _ U), Hu, bool_decide_false by (lia || (intros ?%HX%db_range; lia)). done. }
  constructor; rewrite ?E, ?(un_nblk _ _ _ _ U).
  - done.
  - done.
  - intros b Hb. by apply unused_home, H3.
  - intros b Hb Hu. apply unused_home. destruct (Hf b Hb Hu) as [?|D]; [by apply H4|apply D].
  - intros b c Hb Hc Hu. destruct (Hf b Hb Hu) as [?|D]; [by apply H5|by apply D].
  - rewrite (un_blk _ _ _ _ U); [done|]. intros c Hc. assert (0 <= c / BPB) by (apply Z.div_pos; [lia|apply BPB_pos]). lia.
  - split; [done|]. split; [apply Hk; [lia|done]|done].
  - apply Hk; [lia|done].
Qed.
End unused.

(** * Freeing blocks in a log with little room *)

(** The log has room for [k] blocks, the block of the free map not counted. *)
Definition slack (s : fs) (k : Z) : Prop :=
  room s k /\ (sb_bmapstart (f_sb s) ∈ logged (f_l s) \/ room s (k + 1)).

Lemma room_slack s k : room s (k + 1) -> slack s k.
Proof. intros H. split; [eapply room_le; [done|lia]|by right]. Qed.

Lemma slack_steady O s s' k : steady O s s' -> slack s k -> slack s' k.
Proof. intros S [H1 H2]. split; [by eapply room_steady|]. rewrite (st_sb _ _ _ S), (st_logged _ _ _ S). destruct H2; [by left|right; by eapply room_steady]. Qed.

Lemma slack_same s s' k : same_blocks s s' -> slack s k -> slack s' k.
Proof. intros [E1 E2]. unfold slack, room. by rewrite E1, E2. Qed.

Lemma room_absorbed O O1 O2 n d s s' k :
  txn s O1 -> txn s' O2 -> changed O n d s s' -> n ∈ logged (f_l s) -> room s k -> room s' k.
Proof.
  intros T T' C Hn [H1 H2]. pose proof (ch_conf _ _ _ _ _ C) as E. injection E as _ E2 _ _ _.
  pose proof (f_equal length (ch_logged _ _ _ _ _ C)) as L.
  rewrite absorbed_len, decide_True, (logged_length _ (tx_log _ _ T)), (logged_length _ (tx_log _ _ T')) in L by done. unfold room. rewrite E2.
  pose proof (lo_n _ (tx_log _ _ T)). pose proof (lo_n _ (tx_log _ _ T')). lia.
Qed.

Lemma elem_absorbed bs b : b ∈ absorbed bs b.
Proof. unfold absorbed. case_decide; [done|]. set_solver. Qed.

Lemma bfree_unused s O b k :
  txn s O -> layout s -> data_held s O -> datablock s b -> sb_size (f_sb s) <= BPB -> slack s k -> 1 + Z.of_nat (size O) <= k ->
  exists s', bfree 1 b s = Ok tt s' /\ txn s' O /\ unused O {[b]} s s' /\ slack s' k /\ f_icache s' = f_icache s.
Proof.
  intros T L HO D Hone [Hr Hs] Hk. pose proof (db_range _ _ D) as Hb. assert (Hbr : 0 <= b < sb_size (f_sb s)) by lia.
  destruct (bfree_changed s O b T L HO Hbr (db_used _ _ D) ltac:(eapply room_le; [done|lia])) as (s' & E & T' & C).
  assert (HM : BBLOCK b (f_sb s) = sb_bmapstart (f_sb s)) by (rewrite (BBLOCK_eq s O T L) by done; rewrite Z.div_small by lia; lia).
  exists s'. split; [done|]. split; [done|]. split; [|split; [|apply C]].
  - constructor; try apply C.
    + intros c Hc. rewrite (used_freed s O b T L Hbr s' c (changed_freed s O b s' C) Hc). f_equal. f_equal.
      destruct (Z.eqb_spec c b) as [->|Hne]; [symmetry; apply bool_decide_true; set_solver+|symmetry; apply bool_decide_false; set_solver].
    + intros n Hn. rewrite (ch_blk _ _ _ _ _ C), decide_False; [done|]. rewrite HM. intros ->. apply (Hn b Hbr). rewrite Z.div_small by lia. lia.
  - split.
    + destruct Hs as [Hs|Hs]; [apply (room_absorbed O O O _ _ s s' k T T' C); [by rewrite HM|done]|by apply (changed_room O O O _ _ s s' k T T' C)].
    + left. rewrite (ch_sb _ _ _ _ _ C), (ch_logged _ _ _ _ _ C), HM. apply elem_absorbed.
Qed.

(** * The loops *)

(** The block numbers of a list of addresses. *)
Definition nz (l : list Z) : gset Z := list_to_set (filter (fun b => b <> 0) l).

Lemma elem_of_nz b l : b ∈ nz l <-> (b ∈ l /\ b <> 0).
Proof. unfold nz. rewrite elem_of_list_to_set, list_elem_of_filter. tauto. Qed.

Lemma nz_zero l : nz (0 :: l) = nz l.
Proof. done. Qed.

Lemma nz_cons b l : b <> 0 -> nz (b :: l) = {[b]} ∪ nz l.
Proof. intros H. unfold nz. by rewrite filter_cons, decide_True. Qed.

(** They are different blocks that hold data. *)
Record blocks_ok (s : fs) (l : list Z) : Prop := {
  bo_nodup : NoDup (filter (fun b => b <> 0) l);
  bo_data : forall b, b ∈ l -> b <> 0 -> datablock s b
}.

Lemma blocks_ok_zero s l : blocks_ok s (0 :: l) -> blocks_ok s l.
Proof. intros [H1 H2]. constructor; [done|]. intros b Hb. apply H2. by right. Qed.

Lemma blocks_ok_cons s b l : b <> 0 -> blocks_ok s (b :: l) -> datablock s b /\ (b ∉ nz l) /\ blocks_ok s l.
Proof.
  intros Hb [H1 H2]. rewrite filter_cons, decide_True in H1 by done. apply NoDup_cons in H1 as [Hn H1]. split; [apply H2; [by left|done]|].
  split; [by rewrite elem_of_nz, <- (and_comm (b <> 0)), <- (list_elem_of_filter (fun b => b <> 0))|]. constructor; [done|]. intros c Hc. apply H2. by right.
Qed.

Lemma blocks_ok_unused O X s s' l : unused O X s s' -> X ## nz l -> blocks_ok s l -> blocks_ok s' l.
Proof.
  intros U HX [H1 H2]. constructor; [done|]. intros b Hb Hz. apply (unused_datablock O X s s' U); [by apply H2|].
  intros Hin. apply (HX b Hin). by apply elem_of_nz.
Qed.

Lemma free_direct_ok i l k : forall s pre post,
  txn s ∅ -> layout s -> sb_size (f_sb s) <= BPB -> slack s k -> 1 <= k -> (i < length (f_icache s))%nat -> i_dev (geti s i) = 1 ->
  i_addrs (geti s i) = pre ++ l ++ post -> blocks_ok s l ->
  exists s', free_direct i (length l) (length pre) s = Ok tt s' /\ txn s' ∅ /\ unused ∅ (nz l) s s' /\ slack s' k /\
    geti s' i = set_iaddrs (pre ++ replicate (length l) 0 ++ post) (geti s i) /\
    length (f_icache s') = length (f_icache s) /\ forall j, j <> i -> geti s' j = geti s j.
Proof.
  induction l as [|a l IH]; intros s pre post T L Hone Hs Hk Hi Hd Ha Hb; cbn [length free_direct].
  { exists s. split; [done|]. split; [done|]. split; [apply unused_steady, steady_refl|]. split; [done|]. split; [|done].
    cbn. cbn in Ha. rewrite <- Ha. by destruct (geti s i). }
  step (@ifield_ok inode id i s). cbn [id]. rewrite Ha, Hd.
  assert (El : (pre ++ (a :: l) ++ post) !! length pre = Some a) by (rewrite lookup_app_r, Nat.sub_diag by lia; done). rewrite El. change (default 0 (Some a)) with a.
  assert (Hpre : S (length pre) = length (pre ++ [0])) by (rewrite length_app; cbn; lia).
  assert (Hend : forall ip, set_iaddrs ((pre ++ [0]) ++ replicate (length l) 0 ++ post) ip = set_iaddrs (pre ++ replicate (length (a :: l)) 0 ++ post) ip) by (intros; by rewrite <- app_assoc).
  destruct (Z.eqb_spec a 0) as [->|Hz].
  { destruct (IH s (pre ++ [0]) post T L Hone Hs Hk Hi Hd) as (s' & E & T' & U & S' & G & Hl & Gj); [by rewrite Ha, <- app_assoc|by apply blocks_ok_zero|].
    exists s'. cbn [negb]. rewrite (bind_ok (when false _) _ s tt s eq_refl), Hpre. rewrite Hend in G. by rewrite nz_zero. }
  destruct (blocks_ok_cons s a l Hz Hb) as (Da & Hna & Hbl).
  destruct (bfree_unused s ∅ a k T L ltac:(set_solver+) Da Hone Hs ltac:(rewrite size_empty; lia)) as (s1 & E1 & T1 & U1 & S1 & Hic).
  set (f := fun ip => set_iaddrs (<[length pre := 0]> (i_addrs ip)) ip). set (s2 := set_icache (alter f i (f_icache s1)) s1).
  assert (G12 : forall j, geti s1 j = geti s j) by (intros j; unfold geti; by rewrite Hic).
  assert (G2 : geti s2 i = set_iaddrs ((pre ++ [0]) ++ l ++ post) (geti s i)).
  { unfold s2. rewrite geti_alter_eq, G12 by by rewrite Hic. unfold f. rewrite Ha. f_equal. rewrite insert_app_r_alt, Nat.sub_diag by lia. by rewrite <- app_assoc. }
  assert (B2 : same_blocks s1 s2) by done. pose proof (unused_trans _ _ _ _ _ _ U1 (unused_same ∅ _ _ B2)) as U2. rewrite union_empty_r_L in U2.
  destruct (IH s2 (pre ++ [0]) post) as (s3 & E3 & T3 & U3 & S3 & G3 & Hl3 & Gj3).
  { by apply (same_txn s1). }
  { apply (unused_layout ∅ {[a]} s s2 U2 L). intros b ->%elem_of_singleton. exact Da. }
  { by rewrite (un_sb _ _ _ _ U2). }
  { by apply (slack_same s1). }
  { done. }
  { unfold s2. cbn. by rewrite length_alter, Hic. }
  { by rewrite G2. }
  { by rewrite G2. }
  { apply (blocks_ok_unused ∅ {[a]} s s2); [done|set_solver|done]. }
  exists s3. split; [|split; [done|split; [|split; [done|split; [|split]]]]].
  - assert (Ew : (bfree 1 a ;;; seti f i) s = Ok tt s2) by (by step E1).
    cbn [negb]. rewrite (bind_ok (when true _) _ s tt s2 Ew), Hpre. exact E3.
  - rewrite nz_cons by done. by eapply unused_trans.
  - rewrite G3, G2, Hend. by destruct (geti s i).
  - rewrite Hl3. unfold s2. cbn. by rewrite length_alter, Hic.
  - intros j Hj. rewrite Gj3 by done. unfold s2. by rewrite geti_alter_ne, G12.
Qed.

Lemma free_indirect_ok bp b d n k : forall j s,
  txn s {[bp]} -> layout s -> holds s bp b d -> datablock s b -> sb_size (f_sb s) <= BPB -> slack s k -> 2 <= k ->
  let l := (fun j => get32 d (4 * j)) <$> seq j n in
  blocks_ok s l -> b ∉ nz l ->
  exists s', free_indirect 1 bp n j s = Ok tt s' /\ txn s' {[bp]} /\ unused {[bp]} (nz l) s s' /\ slack s' k /\ f_icache s' = f_icache s.
Proof.
  induction n as [|n IH]; intros j s T L Hh Db Hone Hs Hk l Hb Hnb; cbn [free_indirect].
  { exists s. split; [done|]. split; [done|]. split; [apply unused_steady, steady_refl|]. done. }
  step (bdata_ok s bp b d Hh). cbn [seq fmap list_fmap] in l. set (a := get32 d (4 * j)) in *. set (l' := (fun j => get32 d (4 * j)) <$> seq (S j) n) in *.
  destruct (Z.eqb_spec a 0) as [Ha|Ha].
  { subst l. rewrite Ha in *. rewrite nz_zero in *. cbn [negb]. rewrite (bind_ok (when false _) _ s tt s eq_refl).
    apply (IH (S j) s T L Hh Db Hone Hs Hk); [by apply blocks_ok_zero|done]. }
  destruct (blocks_ok_cons s a l' Ha Hb) as (Da & Hna & Hbl). unfold l in Hnb |- *. rewrite nz_cons in Hnb |- * by done.
  destruct (bfree_unused s {[bp]} a k T L) as (s1 & E1 & T1 & U1 & S1 & Hic); try done.
  { intros q ->%elem_of_singleton. by rewrite (ho_block _ _ _ _ Hh). }
  { rewrite size_singleton. lia. }
  destruct (IH (S j) s1 T1) as (s2 & E2 & T2 & U2 & S2 & Hic2); try done.
  { apply (unused_layout _ _ _ _ U1 L). by intros c ->%elem_of_singleton. }
  { apply (unused_holds _ _ _ _ U1); [set_solver+|done]. }
  { apply (unused_datablock _ _ _ _ U1); [done|set_solver]. }
  { by rewrite (un_sb _ _ _ _ U1). }
  { apply (blocks_ok_unused _ _ _ _ _ U1); [set_solver|done]. }
  { set_solver. }
  exists s2. cbn [negb]. rewrite (bind_ok (when true _) _ s tt s1 E1). split; [exact E2|]. split; [done|]. split; [by eapply unused_trans|]. split; [done|]. by rewrite Hic2.
Qed.

(** * The blocks of a file *)

Definition addrs_from (s : fs) (ip : inode) (k n : nat) : list Z := (fun c => addr_of s ip (Z.of_nat c)) <$> seq k n.

Lemma elem_of_addrs s ip k n b : b ∈ addrs_from s ip k n <-> exists c, Z.of_nat k <= c < Z.of_nat (k + n) /\ addr_of s ip c = b.
Proof.
  unfold addrs_from. rewrite list_elem_of_fmap. split.
  - intros (c & -> & Hc%elem_of_seq). exists (Z.of_nat c). split; [lia|done].
  - intros (c & Hc & <-). exists (Z.to_nat c). rewrite elem_of_seq. split; [f_equal; lia|lia].
Qed.

Lemma nodup_seq (f : nat -> Z) n : forall k,
  (forall x y, (k <= x < k + n)%nat -> (k <= y < k + n)%nat -> f x <> 0 -> f x = f y -> x = y) -> NoDup (filter (fun b => b <> 0) (f <$> seq k n)).
Proof.
  induction n as [|n IH]; intros k H; [by constructor|]. cbn [seq fmap list_fmap]. rewrite filter_cons.
  assert (IHk : NoDup (filter (fun b => b <> 0) (f <$> seq (S k) n))) by (apply IH; intros x y Hx Hy; apply H; lia).
  destruct (decide (f k <> 0)) as [Hz|Hz]; [|done]. apply NoDup_cons. split; [|done].
  rewrite list_elem_of_filter, list_elem_of_fmap. intros (_ & x & E & Hx%elem_of_seq). specialize (H k x ltac:(lia) ltac:(lia) Hz E). lia.
Qed.

Section wf.
Context (s : fs) (ip : inode) (W : file_wf s ip).

Lemma addrs_blocks k n : (k + n <= NDIRECT + NINDIRECT)%nat -> blocks_ok s (addrs_from s ip k n).
Proof using W.
  intros Hk. unfold NDIRECT, NINDIRECT in Hk. assert (HM : MAXFILE = 140) by done. constructor.
  - apply nodup_seq. intros x y Hx Hy Hz E. apply (fw_inj _ _ W) in E; [lia|lia|lia|done].
  - intros b (c & Hc & <-)%elem_of_addrs. apply (fw_data _ _ W). lia.
Qed.

Lemma addrs_direct : i_addrs ip = addrs_from s ip 0 NDIRECT ++ [ind_of ip].
Proof using W.
  pose proof (fw_len _ _ W) as Hl. apply list_eq_same_length with (S NDIRECT); [done|done|]. intros c x y Hc Hx.
  destruct (decide (c = NDIRECT)) as [->|Hne].
  - rewrite lookup_app_r by done. cbn. intros [= <-]. unfold ind_of. by rewrite Hx.
  - rewrite lookup_app_l by (cbn; unfold NDIRECT in *; lia). unfold addrs_from. rewrite list_lookup_fmap, lookup_seq_lt by (unfold NDIRECT in *; lia).
    cbn. intros [= <-]. unfold addr_of. rewrite (proj2 (Z.ltb_lt _ _)) by (unfold NDIRECT in *; lia). by rewrite Nat2Z.id, Hx.
Qed.

Lemma addrs_indirect : ind_of ip <> 0 -> (fun j => get32 (blk s (ind_of ip)) (4 * j)) <$> seq 0 NINDIRECT = addrs_from s ip NDIRECT NINDIRECT.
Proof using W.
  intros Hz. unfold addrs_from. change (seq NDIRECT NINDIRECT) with (seq (NDIRECT + 0) NINDIRECT). rewrite <- fmap_add_seq, <- list_fmap_compose.
  apply list_fmap_ext. intros _ j _. unfold compose, addr_of. fold (ind_of ip). rewrite (proj2 (Z.ltb_ge _ _)), (proj2 (Z.eqb_neq _ _)) by (done || lia).
  f_equal. lia.
Qed.

(** What [itrunc] frees. *)
Definition file_blocks : gset Z := nz (addrs_from s ip 0 NDIRECT) ∪ (nz (addrs_from s ip NDIRECT NINDIRECT) ∪ nz [ind_of ip]).

Lemma elem_file_blocks b : b ∈ file_blocks <-> owns s ip b.
Proof using Type.
  unfold file_blocks, owns. rewrite !elem_of_union, !elem_of_nz, !elem_of_addrs, list_elem_of_singleton.
  assert (HM : MAXFILE = Z.of_nat (NDIRECT + NINDIRECT)) by done. split.
  - intros [[(c & Hc & E) Hz]|[[(c & Hc & E) Hz]|[-> Hz]]]; (split; [done|]); [right; exists c; split; [lia|done]..|by left].
  - intros [Hz [<-|(c & Hc & E)]]; [by right; right|]. destruct (decide (c < Z.of_nat NDIRECT)); [left|right; left]; (split; [|done]); exists c; (split; [lia|done]).
Qed.

Lemma addrs_indirect_none : ind_of ip = 0 -> nz (addrs_from s ip NDIRECT NINDIRECT) = ∅.
Proof using Type.
  intros Hz. apply set_eq. intros b. rewrite elem_of_nz, elem_of_addrs. split; [|intros Hx; by apply not_elem_of_empty in Hx]. intros [(c & Hc & <-) Hne]. destruct Hne.
  unfold addr_of. fold (ind_of ip). rewrite Hz, (proj2 (Z.ltb_ge _ _)) by lia. done.
Qed.

Lemma indirect_apart : nz (addrs_from s ip 0 NDIRECT) ## nz (addrs_from s ip NDIRECT NINDIRECT).
Proof using W.
  intros b [(c & Hc & <-)%elem_of_addrs Hz]%elem_of_nz [(c' & Hc' & E)%elem_of_addrs _]%elem_of_nz.
  assert (HM : MAXFILE = Z.of_nat (NDIRECT + NINDIRECT)) by done.
  apply (fw_inj _ _ W) in E; [lia|lia|lia|]. by rewrite E.
Qed.

Lemma ind_apart k n : (k + n <= NDIRECT + NINDIRECT)%nat -> ind_of ip <> 0 -> ind_of ip ∉ nz (addrs_from s ip k n).
Proof using W.
  intros Hk Hz [(c & Hc & E)%elem_of_addrs _]%elem_of_nz. assert (HM : MAXFILE = Z.of_nat (NDIRECT + NINDIRECT)) by done.
  apply (fw_ind_ne _ _ W Hz c); [lia|done].
Qed.
End wf.

(** * [itrunc] *)

(** The second half: the indirect block and what it lists. *)
Lemma free_ind_ok s b k :
  txn s ∅ -> layout s -> datablock s b -> sb_size (f_sb s) <= BPB -> slack s k -> 2 <= k ->
  let l := (fun j => get32 (blk s b) (4 * j)) <$> seq 0 NINDIRECT in
  blocks_ok s l -> b ∉ nz l ->
  exists bp s1 s2 s3 s4, fbread 1 b s = Ok bp s1 /\ free_indirect 1 bp NINDIRECT 0 s1 = Ok tt s2 /\ fbrelse bp s2 = Ok tt s3 /\
    bfree 1 b s3 = Ok tt s4 /\ txn s4 ∅ /\ unused ∅ (nz l ∪ {[b]}) s s4 /\ slack s4 k /\ f_icache s4 = f_icache s.
Proof.
  intros T L Db Hone Hs Hk l Hb Hn.
  destruct (fbread_ok s ∅ b T (proj1 (db_home _ _ Db)) (no_own s b)) as (bp & s1 & E1 & _ & T1 & Hh & S1).
  { rewrite size_empty. eapply room_le; [apply Hs|lia]. }
  rewrite union_empty_r_L in T1. pose proof (unused_steady _ _ _ S1) as U1.
  destruct (free_indirect_ok bp b (blk s b) NINDIRECT k 0 s1 T1) as (s2 & E2 & T2 & U2 & S2 & Hi2); try done.
  { by eapply layout_steady. }
  { by eapply datablock_steady. }
  { by rewrite (st_sb _ _ _ S1). }
  { by eapply slack_steady. }
  { apply (blocks_ok_unused _ _ _ _ _ U1); [apply disjoint_empty_l|exact Hb]. }
  fold l in U2. clearbody l. destruct (fbrelse_ok s2 {[bp]} bp b (blk s b) T2) as (s3 & E3 & T3 & S3); [set_solver+|apply (unused_holds _ _ _ _ U2); [set_solver+|done]|].
  rewrite difference_diag_L in T3. assert (S3' : steady ∅ s2 s3) by (eapply steady_weaken; [|done]; set_solver+).
  assert (U3 : unused ∅ (nz l) s s3).
  { replace (nz l) with (∅ ∪ (nz l ∪ ∅)) by (by rewrite union_empty_r_L, union_empty_l_L). eapply unused_trans; [exact U1|]. eapply unused_trans; [|by apply unused_steady].
    eapply unused_weaken; [|exact U2]. set_solver+. }
  destruct (bfree_unused s3 ∅ b k T3) as (s4 & E4 & T4 & U4 & S4 & Hi4).
  { apply (unused_layout _ _ _ _ U3 L). intros c [Hc Hz]%elem_of_nz. by apply (bo_data _ _ Hb). }
  { set_solver+. }
  { by apply (unused_datablock _ _ _ _ U3). }
  { by rewrite (un_sb _ _ _ _ U3). }
  { by apply (slack_steady _ s2 s3 k S3'). }
  { rewrite size_empty. lia. }
  exists bp, s1, s2, s3, s4. do 5 (split; [done|]). split; [by eapply unused_trans|]. split; [done|].
  by rewrite Hi4, (st_icache _ _ _ S3), Hi2, (st_icache _ _ _ S1).
Qed.

(** An empty inode. *)
Definition emptied (ip : inode) : inode := set_isize 0 (set_iaddrs (replicate (S NDIRECT) 0) ip).

Lemma itrunc_frees_blocks s i k :
  txn s ∅ -> layout s -> file_wf s (geti s i) -> (i < length (f_icache s))%nat -> sb_size (f_sb s) <= BPB -> slack s k -> 2 <= k ->
  exists s1, itrunc i s = iupdate i s1 /\ txn s1 ∅ /\ unused ∅ (file_blocks s (geti s i)) s s1 /\ slack s1 k /\
    geti s1 i = emptied (geti s i) /\ length (f_icache s1) = length (f_icache s) /\ forall j, j <> i -> geti s1 j = geti s j.
Proof.
  intros T L W Hi Hone Hs Hk. set (ip := geti s i) in *. pose proof (addrs_direct s ip W) as Ha. set (ld := addrs_from s ip 0 NDIRECT) in *.
  assert (Hb : blocks_ok s ld) by (apply addrs_blocks; [done|unfold NDIRECT, NINDIRECT; lia]).
  destruct (free_direct_ok i ld k s [] [ind_of ip] T L Hone Hs ltac:(lia) Hi (fw_dev _ _ W) Ha Hb) as (s1 & E1 & T1 & U1 & S1 & G1 & Hl1 & Gj1). cbn [app] in G1.
  change (length ld) with NDIRECT in *. change (length []) with 0%nat in E1.
  assert (L1 : layout s1) by (apply (unused_layout _ _ _ _ U1 L); intros c [Hc Hz]%elem_of_nz; by apply (bo_data _ _ Hb)).
  assert (Hx : default 0 (i_addrs (geti s1 i) !! NDIRECT) = ind_of ip) by by rewrite G1.
  assert (Hd1 : i_dev (geti s1 i) = 1) by (rewrite G1; apply W).
  assert (Hrest : exists s2, (when (negb (ind_of ip =? 0))
      (bp <- fbread 1 (ind_of ip) ;; free_indirect 1 bp NINDIRECT 0 ;;; fbrelse bp ;;; bfree 1 (ind_of ip) ;;;
       seti (fun ip => set_iaddrs (<[NDIRECT := 0]> (i_addrs ip)) ip) i)) s1 = Ok tt s2 /\ txn s2 ∅ /\
    unused ∅ (nz (addrs_from s ip NDIRECT NINDIRECT) ∪ nz [ind_of ip]) s1 s2 /\ slack s2 k /\
    geti s2 i = set_iaddrs (replicate (S NDIRECT) 0) ip /\ length (f_icache s2) = length (f_icache s1) /\ forall j, j <> i -> geti s2 j = geti s1 j).
  { destruct (Z.eqb_spec (ind_of ip) 0) as [Hz|Hz]; cbn [negb].
    - exists s1. split; [done|]. split; [done|]. split; [rewrite addrs_indirect_none, Hz by done; apply unused_steady, steady_refl|]. split; [done|].
      split; [by rewrite G1, Hz|done].
    - pose proof (fw_ind _ _ W Hz) as Di. pose proof (unused_data _ _ _ _ U1 _ Di) as Ebl. pose proof (addrs_indirect s ip W Hz) as El. rewrite <- Ebl in El.
      assert (Hn1 : ind_of ip ∉ nz ld) by (apply ind_apart; [done|unfold NDIRECT, NINDIRECT; lia|done]).
      destruct (free_ind_ok s1 (ind_of ip) k T1 L1) as (bp & t1 & t2 & t3 & t4 & F1 & F2 & F3 & F4 & T4 & U4 & S4 & Hi4); rewrite ?El; try assumption.
      { by apply (unused_datablock _ _ _ _ U1). }
      { by rewrite (un_sb _ _ _ _ U1). }
      { apply (blocks_ok_unused _ _ _ _ _ U1); [by apply indirect_apart|]. by apply addrs_blocks. }
      { apply ind_apart; [done|lia|done]. }
      rewrite El in U4. set (f := fun ip => set_iaddrs (<[NDIRECT := 0]> (i_addrs ip)) ip). set (t5 := set_icache (alter f i (f_icache t4)) t4).
      assert (G4 : forall j, geti t4 j = geti s1 j) by (intros j; unfold geti; by rewrite Hi4).
      exists t5. split; [unfold when; step F1; step F2; step F3; by step F4|]. split; [by apply (same_txn t4)|].
      split; [|split; [by apply (slack_same t4)|split; [|split]]].
      + replace (nz [ind_of ip]) with ({[ind_of ip]} ∪ (∅ : gset Z)) by (by rewrite nz_cons). rewrite (assoc_L (∪)). eapply unused_trans; [exact U4|by apply unused_same].
      + unfold t5. rewrite geti_alter_eq, G4, G1 by by rewrite Hi4, Hl1. unfold f. cbn [i_addrs set_iaddrs]. done.
      + unfold t5. cbn. by rewrite length_alter, Hi4.
      + intros j Hj. unfold t5. by rewrite geti_alter_ne, G4. }
  destruct Hrest as (s2 & E2 & T2 & U2 & S2 & G2 & Hl2 & Gj2). set (s3 := set_icache (alter (set_isize 0) i (f_icache s2)) s2).
  exists s3. split; [|split; [by apply (same_txn s2)|split; [|split; [by apply (slack_same s2)|split; [|split]]]]].
  - unfold itrunc. step E1. step (@ifield_ok inode id i s1). cbn [id]. rewrite Hx, Hd1. rewrite (bind_ok _ _ _ _ _ E2). step (seti_ok (set_isize 0) i s2). done.
  - unfold file_blocks. fold ld. replace (nz ld ∪ _) with (nz ld ∪ ((nz (addrs_from s ip NDIRECT NINDIRECT) ∪ nz [ind_of ip]) ∪ ∅)) by set_solver+.
    eapply unused_trans; [exact U1|]. eapply unused_trans; [exact U2|by apply unused_same].
  - unfold s3. rewrite geti_alter_eq, G2 by by rewrite Hl2, Hl1. done.
  - unfold s3. cbn. by rewrite length_alter, Hl2, Hl1.
  - intros j Hj. unfold s3. by rewrite geti_alter_ne, Gj2, Gj1.
Qed.

Lemma itrunc_ok s i k :
  txn s ∅ -> layout s -> file_ok s i -> sb_size (f_sb s) <= BPB -> slack s k -> 2 <= k ->
  exists s1 s', itrunc i s = Ok tt s' /\ txn s' ∅ /\ unused ∅ (file_blocks s (geti s i)) s s1 /\ room s' (k - 1) /\
    changed ∅ (inode_block s i) (splice (dip (i_inum (geti s i))) (dinode_bytes (emptied (geti s i))) (blk s (inode_block s i))) s1 s' /\
    txn s1 ∅ /\ geti s' i = emptied (geti s i) /\ length (f_icache s') = length (f_icache s) /\ forall j, j <> i -> geti s' j = geti s j.
Proof.
  intros T L F Hone Hs Hk. pose proof (ia_data _ _ _ (fo_apart _ _ F)) as Dib.
  destruct (itrunc_frees_blocks s i k T L (fo_wf _ _ F) (fo_index _ _ F) Hone Hs Hk) as (s1 & E1 & T1 & U1 & S1 & G1 & Hl1 & Gj1).
  pose proof (unused_data _ _ _ _ U1 _ Dib) as Hbl.
  destruct (iupdate_ok s1 i T1) as (s' & E' & T' & C').
  { eapply room_le; [apply S1|lia]. }
  { rewrite G1. apply (fo_wf _ _ F). }
  { rewrite G1. apply F. }
  { by rewrite G1. }
  { rewrite G1, (un_sb _ _ _ _ U1). apply (unused_home _ _ _ _ U1), Dib. }
  rewrite G1, (un_sb _ _ _ _ U1) in C'. change (i_inum (emptied (geti s i))) with (i_inum (geti s i)) in C'. fold (inode_block s i) in C'. rewrite Hbl in C'.
  assert (G' : forall j, geti s' j = geti s1 j) by (intros j; unfold geti; by rewrite (ch_icache _ _ _ _ _ C')).
  exists s1, s'. split; [by rewrite E1|]. split; [done|]. split; [done|]. split; [apply (changed_room _ _ _ _ _ _ _ _ T1 T' C'); eapply room_le; [apply S1|lia]|].
  split; [done|]. split; [done|]. split; [by rewrite G'|]. split; [by rewrite (ch_icache _ _ _ _ _ C')|]. intros j Hj. by rewrite G', Gj1.
Qed.

(** A file whose blocks are left alone. *)
Lemma file_survives s s' j :
  file_ok s j -> geti s' j = geti s j -> f_sb s' = f_sb s -> length (f_icache s') = length (f_icache s) ->
  (forall b, owns s (geti s j) b -> datablock s' b /\ blk s' b = blk s b) -> datablock s' (inode_block s j) ->
  contents s' j = contents s j /\ file_ok s' j.
Proof.
  intros F G Esb Hl Ho Hib. pose proof F as [F1 F2 F3 F4 F5 F6 F7].
  assert (Ha : forall c, addr_of s' (geti s j) c = addr_of s (geti s j) c) by (intros c; apply addr_of_ext; intros Hi; apply Ho; split; [done|by left]).
  assert (Hd : forall c, 0 <= c < MAXFILE -> addr_of s (geti s j) c <> 0 -> datablock s' (addr_of s (geti s j) c)) by (intros c Hc Hz; apply Ho; split; [done|right; eauto]).
  split.
  - unfold contents. rewrite G. unfold fslice. apply list_fmap_ext. intros p k Hk.
    unfold zseq in Hk. rewrite list_lookup_fmap in Hk. apply fmap_Some in Hk as (q & Hq & ->). apply lookup_seq in Hq as [-> Hq].
    set (c := (0 + Z.of_nat (0 + p)) / BSIZE). assert (Hc : 0 <= c < MAXFILE) by (apply block_range; lia).
    unfold fbyte. fold c. rewrite Ha. destruct (Ho (addr_of s (geti s j) c)) as [_ ->]; [|done]. split; [apply F6; lia|eauto].
  - constructor; unfold inode_block; rewrite ?G, ?Hl, ?Esb; try done.
    + destruct F2 as [W1 W2 W3 W4 W5 W6]. constructor; [done|done|..].
      * intros bn. rewrite Ha. apply Hd.
      * intros Hz. apply Ho. split; [done|by left].
      * intros bn bn'. rewrite !Ha. apply W5.
      * intros Hz bn Hbn. rewrite Ha. by apply W6.
    + intros k Hk. rewrite Ha. by apply F6.
    + destruct F7. constructor; [done|done|]. intros c Hc. rewrite Ha. auto.
Qed.

(** An inode that has been emptied. *)
Lemma emptied_addr s ip c : 0 <= c < MAXFILE -> addr_of s (emptied ip) c = 0.
Proof.
  intros Hc. unfold addr_of. destruct (Z.ltb_spec c (Z.of_nat NDIRECT)); [|done]. cbn [i_addrs emptied set_isize set_iaddrs].
  by rewrite lookup_replicate_2 by (unfold NDIRECT in *; lia).
Qed.

Lemma emptied_file s s' i :
  file_ok s i -> geti s' i = emptied (geti s i) -> f_sb s' = f_sb s -> length (f_icache s') = length (f_icache s) ->
  datablock s' (inode_block s i) -> file_ok s' i /\ contents s' i = [].
Proof.
  intros [F1 F2 F3 F4 F5 F6 F7] G Esb Hl D. split; [|unfold contents; by rewrite G]. pose proof (db_range _ _ D).
  constructor; unfold inode_block; rewrite ?G, ?Hl, ?Esb; try done.
  - constructor; try done; [apply F2|..]; intros; by rewrite emptied_addr in *.
  - intros k Hk. cbn in Hk. lia.
  - constructor; [done| |intros c Hc; rewrite emptied_addr by done]; change (IBLOCK _ _) with (inode_block s i); [change (ind_of _) with 0|]; lia.
Qed.

Section itrunc.
Context (s s1 s' : fs) (i : nat) (F : file_ok s i) (T1 : txn s1 ∅) (L : layout s).
Context (U : unused ∅ (file_blocks s (geti s i)) s s1) (d : bytes) (C : changed ∅ (inode_block s i) d s1 s').

Lemma truncated_layout : layout s1.
Proof using U L F. apply (unused_layout _ _ _ _ U L). intros b Hb%elem_file_blocks. by apply (owns_data _ _ _ (fo_wf _ _ F)). Qed.

Lemma truncated_inode_block : datablock s1 (inode_block s i).
Proof using U F.
  pose proof (fo_apart _ _ F) as [A1 A2 A3]. apply (unused_datablock _ _ _ _ U); [done|]. rewrite elem_file_blocks. intros [_ [?|(c & Hc & ?)]]; [done|by apply (A3 c)].
Qed.

Lemma truncated_used b : 0 <= b < sb_size (f_sb s) -> used s' b = used s b && negb (bool_decide (b ∈ file_blocks s (geti s i))).
Proof using U C T1 L F.
  intros Hb. rewrite (used_changed s1 s' ∅ ∅ _ _ T1 truncated_layout C truncated_inode_block) by by rewrite (un_sb _ _ _ _ U). by apply U.
Qed.

Lemma truncated_datablock b : datablock s b -> ~ owns s (geti s i) b -> datablock s' b.
Proof using U C T1 L F.
  intros Db Ho. apply (datablock_changed s1 s' ∅ ∅ _ _ T1 truncated_layout C truncated_inode_block).
  apply (unused_datablock _ _ _ _ U); [done|]. by rewrite elem_file_blocks.
Qed.

Lemma truncated_blk b : datablock s b -> b <> inode_block s i -> blk s' b = blk s b.
Proof using U C. intros Db Hb. rewrite (ch_blk _ _ _ _ _ C), decide_False by done. by apply (unused_data _ _ _ _ U). Qed.
End itrunc.

(** C11: [itrunc] gives a file's blocks back.  On a volume with one block of free
    map, with room for two blocks and the block of the inode in the log, it
    returns; exactly the blocks of the file (its contents and its indirect
    block) are now marked free, the inode is empty, in the cache and on disk,
    and a file that shares no block with it has the contents it had. *)
Theorem itrunc_frees (s : fs) (i : nat) :
  txn s ∅ -> layout s -> file_ok s i -> dinode_ok (geti s i) -> sb_size (f_sb s) <= BPB -> room s 3 ->
  exists s', itrunc i s = Ok tt s' /\ txn s' ∅ /\ layout s' /\ file_ok s' i /\ contents s' i = [] /\
    (forall b, 0 <= b < sb_size (f_sb s) -> used s' b = true <-> used s b = true /\ ~ owns s (geti s i) b) /\
    core (geti s' i) = dnode s' (i_inum (geti s i)) /\
    (forall j, file_ok s j -> files_apart s i j -> files_apart s j i -> contents s' j = contents s j /\ file_ok s' j).
Proof.
  intros T L F HD Hone Hr. destruct (itrunc_ok s i 2 T L F Hone (room_slack s 2 Hr) ltac:(lia)) as (s1 & s' & E & T' & U & _ & C & T1 & G & Hl & Gj).
  pose proof (truncated_layout s s1 i F L U) as L1. pose proof (truncated_inode_block s s1 i F U) as D1.
  pose proof (layout_changed s1 s' ∅ ∅ _ _ T1 L1 C D1) as L'. assert (Esb : f_sb s' = f_sb s) by (rewrite (ch_sb _ _ _ _ _ C); apply U).
  destruct (emptied_file s s' i F G Esb Hl) as [F' Hc]; [by apply (datablock_changed s1 s' ∅ ∅ _ _ T1 L1 C D1)|].
  exists s'. do 5 (split; [done|]). split; [|split].
  - intros b Hb. rewrite (truncated_used s s1 s' i F T1 L U _ C b Hb), andb_true_iff, negb_true_iff, bool_decide_eq_false, elem_file_blocks. done.
  - rewrite G. unfold dnode, disk_inode. rewrite Esb. fold (inode_block s i). rewrite (ch_blk _ _ _ _ _ C), decide_True by done.
    rewrite load_dinode_bytes; [|destruct HD; constructor; try done; repeat constructor; lia|rewrite (tx_len _ _ T); apply dip_fits, F].
    cbn. pose proof (fw_dev _ _ (fo_wf _ _ F)) as Hdev. destruct (geti s i). cbn in *. by subst.
  - intros j Fj [Hne A1] [_ A2]. apply (file_survives s s' j Fj); try done; [by apply Gj| |].
    + intros b Hb. destruct (A1 b Hb). pose proof (owns_data _ _ _ (fo_wf _ _ Fj) Hb) as Db. split; [by apply (truncated_datablock s s1 s' i F T1 L U _ C)|by apply (truncated_blk s s1 s' i U _ C)].
    + apply (truncated_datablock s s1 s' i F T1 L U _ C); [apply Fj|]. intros Ho. by destruct (A2 _ Ho).
Qed.

(** * A file of one block *)

Definition block_inode : inode := Inode 1 5 1 free_sleeplock true T_FILE 0 0 1 3 (60 :: replicate NDIRECT 0).
Definition block_fs (s : bst) : fs := Fs (demo_log s) (superblock_of demo_super) (block_inode :: replicate 49 no_inode).

Lemma block_addr s c : 0 <= c < MAXFILE -> addr_of (block_fs s) block_inode c = if c =? 0 then 60 else 0.
Proof.
  intros Hc. destruct (Z.eqb_spec c 0) as [->|Hz]; [done|]. unfold addr_of. destruct (Z.ltb_spec c (Z.of_nat NDIRECT)); [|done]. cbn [i_addrs block_inode].
  rewrite lookup_cons_ne_0, lookup_replicate_2 by (unfold NDIRECT in *; lia). done.
Qed.

Lemma block_fs_ok : exists s, txn (block_fs s) ∅ /\ layout (block_fs s) /\ room (block_fs s) 20 /\ file_ok (block_fs s) 0 /\ used (block_fs s) 60 = true.
Proof.
  destruct demo_fs_disk as (s & Hblk & Hm & Hz & T). exists s. assert (B : same_blocks (demo_fs s) (block_fs s)) by done.
  split; [by apply (same_txn _ _ _ B)|]. split; [by apply (same_layout _ _ B), demo_layout|]. split; [apply demo_room|].
  assert (D : forall b, 32 <= b < 64 -> b <> 58 -> datablock (block_fs s) b).
  { intros b Hb Hne. apply (same_datablock _ _ _ B). constructor; [change (sb_size _) with 1000; lia| |apply demo_home; [done|lia|lia]|].
    - rewrite demo_used by (done || lia). apply Z.ltb_lt. lia.
    - change (sb_size _) with 1000. change (sb_bmapstart _) with 58. change BPB with 4096. intros c Hc. zdiv. }
  assert (D60 : datablock (block_fs s) 60) by (apply D; lia).
  assert (D32 : datablock (block_fs s) (inode_block (block_fs s) 0)) by (change (inode_block (block_fs s) 0) with 32; apply D; lia).
  split; [|apply D60]. constructor; change (geti (block_fs s) 0) with block_inode; try done; [cbn; lia|..].
  - constructor; try done; intros c.
    + intros Hc. rewrite block_addr by done. by destruct (c =? 0).
    + intros c' Hc Hc'. rewrite !block_addr by done. destruct (Z.eqb_spec c 0), (Z.eqb_spec c' 0); subst; done.
  - intros k Hk. rewrite block_addr; cbn [i_size block_inode] in Hk; rewrite Z.div_small by (unfold BSIZE; lia); done.
  - constructor; [done|done|]. intros c Hc. rewrite block_addr by done. by destruct (c =? 0).
Qed.

Lemma itrunc_frees_witness :
  exists s s', itrunc 0 s = Ok tt s' /\ contents s 0 <> [] /\ used s 60 = true /\ contents s' 0 = [] /\ used s' 60 = false.
Proof.
  destruct block_fs_ok as (s & T & L & R & F & Hu). exists (block_fs s).
  destruct (itrunc_frees (block_fs s) 0 T L F) as (s' & E & _ & _ & _ & Hc & Hus & _).
  - constructor; try done; cbn; try lia. repeat constructor; lia.
  - done.
  - exact (room_le _ 20 3 R ltac:(lia)).
  - exists s'. split; [exact E|]. split; [|split; [exact Hu|split; [exact Hc|]]].
    + intros H. apply (f_equal length) in H. rewrite file_contents_length in H. done.
    + destruct (used s' 60) eqn:H60; [|done]. apply Hus in H60 as [_ H60]; [|done]. destruct H60. split; [done|]. right. exists 0. done.
Defined.
