(* ===== verification/FsAlloc.v ===== *)
(** Inodes coming and going, [fs.c]: [ialloc] takes the first free inode of the
    table on disk, and [iput] of the last reference to an inode that no
    directory names makes it free again. *)

From S2P Require Import Prelude Params Spinlock Klock Bytes Bio Bcache Log Commit LogOps Recover CrashSpec Fs Txn FsBlocks FsRead FsWrite FsInode FsContents FsSpec FsDir FsCache FsPath FsFree.
Open Scope Z_scope.
Open Scope xv6_scope.

(** * The table of inodes *)

(** The blocks of the table hold data. *)
Record itable_ok (s : fs) : Prop := {
  it_start : 0 <= sb_inodestart (f_sb s);
  it_block : forall n, 0 <= n < sb_ninodes (f_sb s) -> datablock s (n / IPB + sb_inodestart (f_sb s))
}.

Lemma IPB_pos : 0 < IPB.
Proof. reflexivity. Qed.

Section itable.
Context (s : fs) (O : gset nat) (T : txn s O) (L : layout s) (IT : itable_ok s).

Lemma IBLOCK_table n : 0 <= n < sb_ninodes (f_sb s) -> IBLOCK n (f_sb s) = n / IPB + sb_inodestart (f_sb s).
Proof using T L IT.
  intros Hn. unfold IBLOCK. apply u32_id. pose proof (db_range _ _ (it_block _ IT n Hn)). pose proof (la_size s L).
  pose proof (lo_disk _ (tx_log s O T)). unfold nblk in *. lia.
Qed.

Lemma IBLOCK_data n : 0 <= n < sb_ninodes (f_sb s) -> datablock s (IBLOCK n (f_sb s)).
Proof using T L IT. intros Hn. rewrite IBLOCK_table by done. by apply IT. Qed.

(** Inodes of one block have places of their own. *)
Lemma same_iblock n m : 0 <= n < sb_ninodes (f_sb s) -> 0 <= m < sb_ninodes (f_sb s) -> n <> m ->
  IBLOCK n (f_sb s) = IBLOCK m (f_sb s) -> n mod IPB <> m mod IPB.
Proof using T L IT.
  intros Hn Hm Hne E Em. rewrite !IBLOCK_table in E by done. apply Hne. rewrite (Z.div_mod n IPB), (Z.div_mod m IPB) by done. lia.
Qed.
End itable.

(** An inode with the fields of a [struct dinode] only. *)
Definition as_disk (n : Z) (ip : inode) : inode :=
  Inode 1 n 0 free_sleeplock true (i_type ip) (i_major ip) (i_minor ip) (i_nlink ip) (i_size ip) (i_addrs ip).

Section update.
Context (s s' : fs) (O O' : gset nat) (n : Z) (ip : inode).
Context (T : txn s O) (L : layout s) (IT : itable_ok s) (Hn : 0 <= n < sb_ninodes (f_sb s)).
Context (C : changed O' (IBLOCK n (f_sb s)) (splice (dip n) (dinode_bytes ip) (blk s (IBLOCK n (f_sb s)))) s s').

Lemma dnode_updated : dinode_ok ip -> dnode s' n = as_disk n ip.
Proof using T Hn C.
  intros HD. unfold dnode, disk_inode. rewrite (ch_sb _ _ _ _ _ C), (ch_blk _ _ _ _ _ C), decide_True by done.
  rewrite load_dinode_bytes; [done|done|]. rewrite (tx_len _ _ T). apply dip_fits. lia.
Qed.

Lemma dnode_others m : length (i_addrs ip) = S NDIRECT -> 0 <= m < sb_ninodes (f_sb s) -> m <> n -> dnode s' m = dnode s m.
Proof using T L IT Hn C.
  intros Hl Hm Hne. unfold dnode, disk_inode. rewrite (ch_sb _ _ _ _ _ C), (ch_blk _ _ _ _ _ C). destruct (decide _) as [E|]; [|done]. rewrite E.
  apply load_dinode_other; [done|rewrite (tx_len _ _ T); apply dip_fits; lia|]. apply dip_apart; [lia|lia|].
  apply (same_iblock s O T L IT); try done; lia.
Qed.

Lemma itable_updated : itable_ok s'.
Proof using T L IT Hn C.
  pose proof (IBLOCK_data s O T L IT n Hn) as Dn. destruct IT as [H1 H2]. constructor; rewrite ?(ch_sb _ _ _ _ _ C); [done|].
  intros m Hm. apply (datablock_changed s s' O' O _ _ T L C Dn). by apply H2.
Qed.
End update.

(** Nothing has changed on disk but the block of inode [n], and no other inode
    in it. *)
Record table_changed (n : Z) (s s' : fs) : Prop := {
  tc_other : forall m, 0 <= m < sb_ninodes (f_sb s) -> m <> n -> dnode s' m = dnode s m;
  tc_blk : forall b, b <> IBLOCK n (f_sb s) -> blk s' b = blk s b;
  tc_sb : f_sb s' = f_sb s;
  tc_data : forall b, datablock s b -> datablock s' b;
  tc_free : forall k, free_ge s k -> free_ge s' k;
  tc_layout : layout s';
  tc_table : itable_ok s'
}.

Lemma table_changed_trans n s s1 s2 : table_changed n s s1 -> table_changed n s1 s2 -> table_changed n s s2.
Proof.
  intros [A1 A2 A3 A4 A5 A6 A7] [B1 B2 B3 B4 B5 B6 B7]. rewrite A3 in *. constructor; try done.
  - intros m Hm Hn. by rewrite B1, A1.
  - intros b Hb. by rewrite B2, A2.
  - auto.
  - auto.
Qed.

Lemma itable_stable s s' : stable s s' -> itable_ok s -> itable_ok s'.
Proof. intros S [I1 I2]. constructor; rewrite (sa_sb _ _ S); [done|]. intros m Hm. apply (stable_datablock s s' _ S). by apply I2. Qed.

Lemma stable_free s s' k : stable s s' -> free_ge s k -> free_ge s' k.
Proof.
  intros S (l & Hd & Hl & Hf). exists l. split; [done|]. split; [done|]. intros b Hb. rewrite (sa_sb _ _ S), (stable_used _ _ _ S). by apply Hf.
Qed.

Lemma table_stable n s s' : stable s s' -> layout s -> itable_ok s -> table_changed n s s'.
Proof.
  intros S L IT. constructor.
  - intros. by apply dnode_stable.
  - intros. apply S.
  - apply S.
  - intros b. by apply stable_datablock.
  - intros k. by apply stable_free.
  - by apply (stable_layout s).
  - by apply (itable_stable s).
Qed.

Lemma table_update s s' O O' n ip :
  txn s O -> layout s -> itable_ok s -> 0 <= n < sb_ninodes (f_sb s) -> length (i_addrs ip) = S NDIRECT ->
  changed O' (IBLOCK n (f_sb s)) (splice (dip n) (dinode_bytes ip) (blk s (IBLOCK n (f_sb s)))) s s' -> table_changed n s s'.
Proof.
  intros T L IT Hn Hl C. pose proof (IBLOCK_data s O T L IT n Hn) as Dn. constructor.
  - intros m Hm Hne. by apply (dnode_others s s' O O' n ip T L IT Hn C m).
  - intros b Hb. by rewrite (ch_blk _ _ _ _ _ C), decide_False.
  - apply C.
  - apply (datablock_changed s s' O' O _ _ T L C Dn).
  - intros k. apply (free_ge_changed s s' O' O _ _ T L C Dn).
  - apply (layout_changed s s' O' O _ _ T L C Dn).
  - by apply (itable_updated s s' O O' n ip).
Qed.

(** The slots in use are of inodes in the table. *)
Record inodes_ok (s : fs) (L : gset nat) : Prop := {
  io_cache : icache_ok s L;
  io_table : itable_ok s;
  io_range : forall i, 0 < i_ref (geti s i) -> 0 <= i_inum (geti s i) < sb_ninodes (f_sb s)
}.

(** * [ialloc] *)

Definition new_inode (type : Z) : inode := set_itype type zero_inode.

Lemma splice_prefix o x p q d : (o <= length d)%nat -> length x = length p -> splice o x (splice o (p ++ q) d) = splice o (x ++ q) d.
Proof.
  intros Ho Hl. unfold splice at 2. rewrite <- (length_take_le d o Ho) at 1. rewrite splice_app, Hl. unfold splice.
  rewrite <- app_assoc, drop_app_length, <- app_assoc. by rewrite !length_app, Hl.
Qed.

Lemma new_dinode o type d : (o <= length d)%nat ->
  put16 o type (splice o (replicate (Z.to_nat DINODE) 0) d) = splice o (dinode_bytes (new_inode type)) d.
Proof. intros Ho. change (replicate (Z.to_nat DINODE) 0) with ([0; 0] ++ replicate 62 0). unfold put16. rewrite splice_prefix by done. reflexivity. Qed.

Lemma new_dinode_ok type : -2 ^ 15 <= type < 2 ^ 15 -> dinode_ok (new_inode type).
Proof. intros Ht. constructor; try done; try (cbn; lia). repeat constructor; lia. Qed.

(** Looking at an inode of the table. *)
Lemma dtype_block s n : s16 (get16 (blk s (IBLOCK n (f_sb s))) (dip n)) = dtype s n.
Proof. done. Qed.

Lemma dtype_steady O s s' n : steady O s s' -> dtype s' n = dtype s n.
Proof. intros S. unfold dtype. by rewrite (dnode_stable s s') by by eapply stable_steady. Qed.

Lemma itable_steady O s s' : steady O s s' -> itable_ok s -> itable_ok s'.
Proof. intros S. apply itable_stable. by eapply stable_steady. Qed.

(** A change of the disk inode [n], which no slot has read. *)
Lemma icache_disk s s' L n :
  inodes_ok s L -> (forall j, geti s' j = geti s j) -> dtype s n = 0 ->
  (forall m, 0 <= m < sb_ninodes (f_sb s) -> m <> n -> dnode s' m = dnode s m) -> icache_ok s' L.
Proof.
  intros [[I U] _ HR] G Hz Hm. constructor; [|intros i j; rewrite !G; apply U]. intros i. rewrite G. pose proof (I i) as K. destruct K as [K1 K2 K3 K4 K5 K6].
  constructor; try done. intros Hp Hv. rewrite Hm; [by apply K5|by apply HR|]. intros E. apply (K6 Hp Hv). rewrite <- Hz, <- E. unfold dtype. by rewrite <- K5.
Qed.

Lemma ialloc_scan s n fuel type :
  txn s ∅ -> layout s -> itable_ok s -> room s 1 -> 0 <= n -> (forall m, n <= m < sb_ninodes (f_sb s) -> dtype s m <> 0) ->
  (0 < fuel)%nat -> sb_ninodes (f_sb s) < n + Z.of_nat fuel -> ialloc_loop 1 type n fuel s = Panic "ialloc: no inodes".
Proof.
  revert s n. induction fuel as [|fuel IH]; intros s n T L IT Hr H0 Hty H1 Hf; [lia|]. cbn [ialloc_loop].
  unfold gets at 1, bind at 1. cbn [seqr]. destruct (Z.ltb_spec n (sb_ninodes (f_sb s))) as [Hlt|Hge]; [|done].
  destruct (read_block s ∅ (IBLOCK n (f_sb s)) T) as (bp & s1 & s2 & E1 & E2 & E3 & T2 & S2).
  { apply (db_home _ _ (IBLOCK_data s ∅ T L IT n ltac:(lia))). }
  { apply no_own. }
  { rewrite size_empty. eapply room_le; [done|lia]. }
  step E1. step E2. rewrite dtype_block, (proj2 (Z.eqb_neq _ _)) by (apply Hty; lia). step E3.
  apply IH; rewrite ?(st_sb _ _ _ S2); try done; try lia.
  - by eapply layout_steady.
  - by eapply itable_steady.
  - by eapply room_steady.
  - intros m Hm. rewrite (dtype_steady ∅ s _ _ S2). apply Hty. lia.
Qed.

(** The effect of [ialloc]: inode [n] on disk is new, and has a slot. *)
Record inode_allocated (type n : Z) (i : nat) (s s' : fs) : Prop := {
  ia_new : dnode s' n = as_disk n (new_inode type);
  ia_table : table_changed n s s';
  ia_got : got s' n i;
  ia_ref : forall j, i_ref (geti s' j) = i_ref (geti s j) + one i j;
  ia_slots : length (f_icache s') = length (f_icache s) /\ forall j, j <> i -> geti s' j = geti s j;
  ia_room : forall k, room s (k + 1) -> room s' k
}.

Lemma ialloc_loop_ok L type n fuel : forall s m,
  txn s ∅ -> layout s -> inodes_ok s L -> room s 1 -> -2 ^ 15 <= type < 2 ^ 15 -> 0 <= m <= n -> n < sb_ninodes (f_sb s) ->
  (forall k, m <= k < n -> dtype s k <> 0) -> dtype s n = 0 -> n < m + Z.of_nat fuel ->
  cacheable s n -> (forall i, got s n i -> i_ref (geti s i) < 2 ^ 31 - 1) ->
  exists i s', ialloc_loop 1 type m fuel s = Ok i s' /\ txn s' ∅ /\ layout s' /\ inodes_ok s' L /\ inode_allocated type n i s s' /\ (i ∈ L -> got s n i).
Proof.
  induction fuel as [|fuel IH]; intros s m T LY IO Hr Ht Hm Hn Hty Hfr Hf HC Hmax; [lia|]. cbn [ialloc_loop].
  unfold gets at 1, bind at 1. cbn [seqr]. rewrite (proj2 (Z.ltb_lt _ _)) by lia. pose proof (io_table _ _ IO) as IT.
  destruct (decide (m = n)) as [->|Hne].
  - set (b := IBLOCK n (f_sb s)). pose proof (IBLOCK_data s ∅ T LY IT n ltac:(lia)) as Db. fold b in Db.
    assert (Hfit : (dip n <= length (blk s b))%nat) by (rewrite (tx_len _ _ T); pose proof (dip_fits n ltac:(lia)); lia).
    pose proof (new_dinode (dip n) type (blk s b) Hfit) as End.
    destruct (write_block s ∅ b (splice (dip n) (dinode_bytes (new_inode type)) (blk s b)) T (db_home _ _ Db) (no_own s b))
      as (bp & t1 & t2 & t3 & s1 & F1 & F2 & F3 & F4 & F5 & T1 & C).
    { by rewrite size_empty. }
    { rewrite splice_length; rewrite (tx_len _ _ T); [done|]. rewrite dinode_length by done. apply dip_fits. lia. }
    step F1. step F2. unfold b at 1. rewrite dtype_block, Hfr. cbn [Z.eqb]. rewrite End. step F3. step F4. step F5.
    pose proof (dnode_updated s s1 ∅ ∅ n (new_inode type) T ltac:(lia) C (new_dinode_ok type Ht)) as Dn.
    pose proof (fun m => dnode_others s s1 ∅ ∅ n (new_inode type) T LY IT ltac:(lia) C m eq_refl) as Do.
    assert (G1 : forall j, geti s1 j = geti s j) by (intros j; unfold geti; by rewrite (ch_icache _ _ _ _ _ C)).
    assert (I1 : icache_ok s1 L) by (apply (icache_disk s s1 L n IO G1); [done|intros; by apply Do]).
    assert (HC1 : cacheable s1 n).
    { destruct HC as [(i & [])|(i & Hi & Hz)]; [left|right]; exists i; [constructor; by rewrite G1|]. by rewrite G1, (ch_icache _ _ _ _ _ C). }
    destruct (iget_ok s1 L n T1 I1 HC1) as (i & s2 & E2 & T2 & I2 & S2 & Gt & HL & Gj).
    { intros i [R1 R2]. rewrite G1 in *. by apply Hmax. }
    pose proof (sh_stable _ _ _ S2) as St. pose proof (table_update s s1 ∅ ∅ n (new_inode type) T LY IT ltac:(lia) eq_refl C) as TC1.
    pose proof (table_changed_trans n s s1 s2 TC1 (table_stable n s1 s2 St (tc_layout _ _ _ TC1) (tc_table _ _ _ TC1))) as TC.
    exists i, s2. split; [exact E2|]. split; [done|]. split; [apply TC|].
    split; [constructor; [done|apply TC|]|split; [constructor; try done|]].
    + intros j Hj. rewrite (tc_sb _ _ _ TC). destruct (decide (j = i)) as [->|Hji]; [rewrite (gt_inum _ _ _ Gt); lia|].
      rewrite Gj, G1 in * by done. by apply IO.
    + by rewrite (dnode_stable s1 s2).
    + intros j. by rewrite (sh_ref _ _ _ S2), G1.
    + split; [by rewrite (sh_len _ _ _ S2), (ch_icache _ _ _ _ _ C)|]. intros j Hj. by rewrite Gj.
    + intros k Hk. apply (stable_room s1 s2 k St). by apply (changed_room _ _ _ _ _ _ _ _ T T1 C).
    + intros [R1 R2]%HL. constructor; by rewrite <- G1.
  - destruct (read_block s ∅ (IBLOCK m (f_sb s)) T) as (bp & s1 & s2 & E1 & E2 & E3 & T2 & S2).
    { apply (db_home _ _ (IBLOCK_data s ∅ T LY IT m ltac:(lia))). }
    { apply no_own. }
    { rewrite size_empty. eapply room_le; [done|lia]. }
    step E1. step E2. rewrite dtype_block, (proj2 (Z.eqb_neq _ _)) by (apply Hty; lia). step E3.
    pose proof (stable_steady _ _ _ S2) as St. assert (G2 : forall j, geti s2 j = geti s j) by (intros; by eapply geti_steady).
    destruct (IH s2 (m + 1)) as (i & s3 & E & T3 & L3 & IO3 & [A1 A2 A3 A4 A5 A6] & HL); rewrite ?(st_sb _ _ _ S2); try done; try lia.
    { by eapply layout_steady. }
    { constructor; [by apply (icache_same s); [..|apply IO]; [|apply S2]|by eapply itable_steady|]. intros j. rewrite G2, (st_sb _ _ _ S2). apply IO. }
    { by eapply room_steady. }
    { intros k Hk. rewrite (dtype_steady ∅ s _ _ S2). apply Hty. lia. }
    { by rewrite (dtype_steady ∅ s _ _ S2). }
    { destruct HC as [(i & [])|(i & Hi & Hz)]; [left|right]; exists i; [constructor; by rewrite G2|]. by rewrite G2, (st_icache _ _ _ S2). }
    { intros i [R1 R2]. rewrite G2 in *. by apply Hmax. }
    exists i, s3. do 4 (split; [done|]). split; [|intros Hi; destruct (HL Hi); constructor; by rewrite <- G2].
    constructor; [done|..|done| | |].
    + apply (table_changed_trans n s s2); [|done]. by apply (table_stable n s s2).
    + intros j. by rewrite A4, G2.
    + split; [by rewrite (proj1 A5), (st_icache _ _ _ S2)|]. intros j Hj. by rewrite (proj2 A5), G2.
    + intros k Hk. apply A6. by eapply room_steady.
Qed.

Lemma dnode_ok s n : dinode_ok (dnode s n).
Proof.
  assert (H16 : forall d o, -2 ^ 15 <= s16 (get16 d o) < 2 ^ 15) by (intros d o; pose proof (get16_range d o); unfold s16; zdiv).
  constructor; try apply H16; [apply get32_range|done|]. cbn [i_addrs dnode disk_inode load_dinode]. unfold get_addrs.
  apply Forall_fmap, Forall_forall. intros k _. apply get32_range.
Qed.

(** * The last [iput] *)

Lemma dnode_unused O X s s' m : unused O X s s' -> off_map s (IBLOCK m (f_sb s)) -> dnode s' m = dnode s m.
Proof. intros U H. unfold dnode, disk_inode. by rewrite (un_sb _ _ _ _ U), (un_blk _ _ _ _ U). Qed.

Lemma itable_unused O X s s' : unused O X s s' -> (forall m, 0 <= m < sb_ninodes (f_sb s) -> m / IPB + sb_inodestart (f_sb s) ∉ X) -> itable_ok s -> itable_ok s'.
Proof. intros U HX [I1 I2]. constructor; rewrite (un_sb _ _ _ _ U); [done|]. intros m Hm. apply (unused_datablock _ _ _ _ U); auto. Qed.

(** The blocks of the inode are not blocks of the table. *)
Definition off_table (s : fs) (ip : inode) : Prop :=
  forall m, 0 <= m < sb_ninodes (f_sb s) -> ~ owns s ip (m / IPB + sb_inodestart (f_sb s)).

(** The effect on disk of freeing an inode: its blocks and the inode are free,
    and every other inode is as it was. *)
Record inode_freed (n : Z) (ip : inode) (s s' : fs) : Prop := {
  if_type : dtype s' n = 0;
  if_other : forall m, 0 <= m < sb_ninodes (f_sb s) -> m <> n -> dnode s' m = dnode s m;
  if_used : forall b, 0 <= b < sb_size (f_sb s) -> used s' b = true <-> used s b = true /\ ~ owns s ip b;
  if_sb : f_sb s' = f_sb s;
  if_layout : layout s';
  if_table : itable_ok s'
}.

(** What [iput] does under the lock. *)
Definition free_inode (i : nat) : M fs unit :=
  itrunc i ;;; seti (set_itype 0) i ;;; iupdate i ;;; seti (set_ivalid false) i.

Lemma free_inode_ok s n i :
  txn s ∅ -> layout s -> itable_ok s -> file_ok s i -> core (geti s i) = dnode s n -> 0 <= n < sb_ninodes (f_sb s) -> off_table s (geti s i) ->
  sb_size (f_sb s) <= BPB -> room s 3 ->
  exists s', free_inode i s = Ok tt s' /\ txn s' ∅ /\ inode_freed n (geti s i) s s' /\
    length (f_icache s') = length (f_icache s) /\ (forall j, j <> i -> geti s' j = geti s j) /\
    i_ref (geti s' i) = i_ref (geti s i) /\ i_inum (geti s' i) = i_inum (geti s i) /\ i_lock (geti s' i) = i_lock (geti s i) /\ i_valid (geti s' i) = false.
Proof.
  intros T L IT F Hc Hn Hoff Hone Hr. set (ip := geti s i) in *. assert (En : i_inum ip = n) by (change (i_inum (core ip) = n); by rewrite Hc).
  assert (Hib : inode_block s i = IBLOCK n (f_sb s)) by (unfold inode_block; by rewrite <- En).
  destruct (itrunc_ok s i 2 T L F Hone (room_slack s 2 Hr) ltac:(lia)) as (s1 & s2 & E & T2 & U & R2 & C & T1 & G & Hl & Gj). fold ip in U, C, G.
  pose proof (truncated_layout s s1 i F L U) as L1. pose proof (truncated_inode_block s s1 i F U) as D1.
  pose proof (layout_changed s1 s2 ∅ ∅ _ _ T1 L1 C D1) as L2. assert (Esb1 : f_sb s1 = f_sb s) by apply U. assert (Esb2 : f_sb s2 = f_sb s) by (rewrite (ch_sb _ _ _ _ _ C); apply U).
  pose proof (unused_data _ _ _ _ U _ (ia_data _ _ _ (fo_apart _ _ F))) as Hbl.
  assert (IT1 : itable_ok s1) by (apply (itable_unused _ _ _ _ U); [intros m Hm; rewrite elem_file_blocks; by apply Hoff|done]).
  pose proof (truncated_used s s1 s2 i F T1 L U _ C) as Hus. rewrite En, <- Hbl, Hib, <- Esb1 in C. assert (Hn1 : 0 <= n < sb_ninodes (f_sb s1)) by by rewrite Esb1.
  pose proof (itable_updated s1 s2 ∅ ∅ n _ T1 L1 IT1 Hn1 C) as IT2.
  assert (Do2 : forall m, 0 <= m < sb_ninodes (f_sb s) -> m <> n -> dnode s2 m = dnode s m).
  { intros m Hm Hne. rewrite (dnode_others s1 s2 ∅ ∅ n (emptied ip) T1 L1 IT1 Hn1 C m) by (done || by rewrite Esb1).
    apply (dnode_unused _ _ _ _ m U). exact (db_map _ _ (IBLOCK_data s ∅ T L IT m Hm)). }
  set (s3 := set_icache (alter (set_itype 0) i (f_icache s2)) s2). assert (B3 : same_blocks s2 s3) by done.
  assert (G3 : geti s3 i = set_itype 0 (emptied ip)) by (unfold s3; rewrite geti_alter_eq, G; [done|rewrite Hl; apply F]).
  pose proof (same_txn _ _ _ B3 T2) as T3. pose proof (same_layout _ _ B3 L2) as L3. pose proof (itable_stable _ _ (stable_same _ _ B3) IT2) as IT3.
  assert (Hn3 : 0 <= n < sb_ninodes (f_sb s3)) by (change (f_sb s3) with (f_sb s2); by rewrite Esb2).
  pose proof (IBLOCK_data s3 ∅ T3 L3 IT3 n Hn3) as D3.
  destruct (iupdate_ok s3 i T3) as (s4 & E4 & T4 & C4); rewrite ?G3; change (i_inum (set_itype 0 (emptied ip))) with (i_inum ip); rewrite ?En.
  { by apply (same_room s2). }
  { apply (fw_dev _ _ (fo_wf _ _ F)). }
  { lia. }
  { done. }
  { apply D3. }
  rewrite G3 in C4. change (i_inum (set_itype 0 (emptied ip))) with (i_inum ip) in C4. rewrite En in C4.
  set (s5 := set_icache (alter (set_ivalid false) i (f_icache s4)) s4). assert (B5 : same_blocks s4 s5) by done.
  assert (HD : dinode_ok (set_itype 0 (emptied ip))).
  { pose proof (dnode_ok s n) as [? ? ? ? ? ? ?]. rewrite <- Hc in *. constructor; try done; cbn; try lia. repeat constructor; lia. }
  assert (G4 : forall j, geti s4 j = geti s3 j) by (intros j; unfold geti; by rewrite (ch_icache _ _ _ _ _ C4)).
  assert (Esb4 : f_sb s4 = f_sb s) by (rewrite (ch_sb _ _ _ _ _ C4); exact Esb2). pose proof (stable_same _ _ B5) as St5. pose proof (stable_same _ _ B3) as St3.
  assert (Hl4 : length (f_icache s4) = length (f_icache s)) by (rewrite (ch_icache _ _ _ _ _ C4); unfold s3; cbn; by rewrite length_alter).
  assert (G5 : geti s5 i = set_ivalid false (set_itype 0 (emptied ip))) by (unfold s5; rewrite geti_alter_eq, G4, G3; [done|rewrite Hl4; apply F]).
  exists s5. split; [|split; [by apply (same_txn s4)|split; [constructor|split; [|split]]]].
  - unfold free_inode. step E. step (seti_ok (set_itype 0) i s2). fold s3. step E4. done.
  - unfold dtype. rewrite (dnode_stable _ _ _ St5), (dnode_updated s3 s4 ∅ ∅ n _ T3 Hn3 C4 HD). done.
  - intros m Hm Hne. rewrite (dnode_stable _ _ _ St5), (dnode_others s3 s4 ∅ ∅ n _ T3 L3 IT3 Hn3 C4 m); [|done|by change (f_sb s3) with (f_sb s2); rewrite Esb2|done].
    rewrite (dnode_stable _ _ _ St3). by apply Do2.
  - intros b Hb. rewrite (stable_used _ _ _ St5), (used_changed s3 s4 ∅ ∅ _ _ T3 L3 C4 D3), (stable_used _ _ _ St3) by by change (f_sb s3) with (f_sb s2); rewrite Esb2.
    rewrite (Hus b Hb), andb_true_iff, negb_true_iff, bool_decide_eq_false, elem_file_blocks. done.
  - done.
  - apply (same_layout s4 s5 B5), (layout_changed s3 s4 ∅ ∅ _ _ T3 L3 C4 D3).
  - apply (itable_stable s4 s5 St5), (itable_updated s3 s4 ∅ ∅ n (set_itype 0 (emptied ip)) T3 L3 IT3 Hn3 C4).
  - unfold s5. cbn. by rewrite length_alter.
  - intros j Hj. unfold s5. rewrite geti_alter_ne, G4 by done. unfold s3. rewrite geti_alter_ne by done. by apply Gj.
  - by rewrite G5.
Qed.

Lemma owns_core s ip b : owns s (core ip) b <-> owns s ip b.
Proof. done. Qed.

Lemma inodes_shifted s s' h L L' : inodes_ok s L -> icache_ok s' L' -> shifted h s s' -> (forall j, h j <= 0) -> inodes_ok s' L'.
Proof.
  intros [I IT R] I' S Hh. constructor; [done|by apply (itable_stable s s'); [apply S|]|]. intros j Hj.
  assert (Hp : 0 < i_ref (geti s j)) by (pose proof (sh_ref _ _ _ S j); specialize (Hh j); lia).
  rewrite (sh_inum _ _ _ S j Hp Hj), (sa_sb _ _ (sh_stable _ _ _ S)). by apply R.
Qed.

Lemma iput_frees_inode s L n i :
  txn s ∅ -> layout s -> inodes_ok s L -> got s n i -> i ∉ L -> i_ref (geti s i) = 1 -> i_valid (geti s i) = true -> i_nlink (dnode s n) = 0 ->
  disk_file s n -> off_table s (dnode s n) -> sb_size (f_sb s) <= BPB -> room s 3 ->
  exists s', iput i s = Ok tt s' /\ txn s' ∅ /\ inodes_ok s' L /\ inode_freed n (dnode s n) s s' /\
    forall j, i_ref (geti s' j) = i_ref (geti s j) - one i j.
Proof.
  intros T LY IO [Hp Hn] HL Hr1 Hv Hz DF Hoff Hone Hr. pose proof IO as [I IT HR]. pose proof (ref_index s i Hp) as Hi.
  pose proof (ic_slot _ _ I i) as K. rewrite bool_decide_false in K by done. pose proof (sk_copy _ _ _ K Hp Hv) as Hc. rewrite Hn in Hc.
  destruct (take_lock s i T (sk_lock _ _ _ K)) as (s1 & E1 & T1 & B1 & Hl1 & Gj1 & Gi1). destruct (Gi1 Hi) as [p G1]. pose proof (stable_same _ _ B1) as St1.
  assert (Hc1 : core (geti s1 i) = dnode s n) by (rewrite G1; exact Hc). assert (Hi1 : (i < length (f_icache s1))%nat) by by rewrite Hl1.
  pose proof (core_file s s1 St1 n i Hi1 Hc1 DF) as F1. assert (Esb1 : f_sb s1 = f_sb s) by apply B1.
  assert (Hown : forall b, owns s1 (geti s1 i) b <-> owns s (dnode s n) b).
  { intros b. rewrite <- Hc1, owns_core. unfold owns. setoid_rewrite (addr_of_stable s s1 _ _ St1). done. }
  destruct (free_inode_ok s1 n i T1 (stable_layout _ _ St1 LY) (itable_stable _ _ St1 IT) F1) as (s2 & E2 & T2 & FR & Hl2 & Gj2 & H1 & H2 & H3 & H4).
  { by rewrite (dnode_stable _ _ _ St1). }
  { rewrite Esb1, <- Hn. by apply HR. }
  { intros m. rewrite Esb1, Hown. apply Hoff. }
  { by rewrite Esb1. }
  { by apply (stable_room s). }
  assert (FR' : inode_freed n (dnode s n) s s2).
  { destruct FR as [A1 A2 A3 A4 A5 A6]. rewrite Esb1 in *. constructor; try done.
    - intros m Hm Hne. rewrite A2 by done. by apply dnode_stable.
    - intros b Hb. by rewrite A3, (stable_used _ _ _ St1), Hown. }
  destruct (drop_lock s2 i T2) as (s3 & E3 & T3 & St3 & Hl3 & Gj3 & Gi3). rewrite Hl2 in Gi3. specialize (Gi3 Hi1).
  set (f := fun ip => set_iref (s32 (i_ref ip - 1)) ip).
  destruct (under_icache_lock s3 ∅ f i T3) as (t1 & t2 & F2 & _ & _ & _ & F3 & F4). set (s4 := set_icache (alter f i (f_icache s3)) s3) in *.
  assert (B4 : same_blocks s3 s4) by done. pose proof (stable_trans _ _ _ St3 (stable_same _ _ B4)) as St4.
  assert (Gj4 : forall j, j <> i -> geti s4 j = geti s j) by (intros j Hj; unfold s4; rewrite geti_alter_ne, Gj3, Gj2, Gj1; done).
  assert (G4 : geti s4 i = f (set_ilock free_sleeplock (geti s2 i))) by (unfold s4; rewrite geti_alter_eq, Gi3; [done|by rewrite Hl3, Hl2]).
  assert (Hr4 : i_ref (geti s4 i) = 0) by (rewrite G4; cbn; by rewrite H1, G1; cbn; rewrite Hr1).
  destruct FR' as [A1 A2 A3 A4 A5 A6].
  exists s4. split; [|split; [by apply (same_txn s3)|split; [constructor|split; [constructor|]]]].
  - unfold iput. step E1. step (@ifield_ok inode id i s1). cbn [id].
    destruct (under_icache_lock s1 ∅ id i T1) as (u1 & _ & U1 & _ & Gu & U2 & _).
    assert (Ew : when (i_valid (geti s1 i) && (i_nlink (geti s1 i) =? 0)) (Klock.acquire icache_lock ;;; r <- ifield i_ref i ;;
      Klock.release icache_lock ;;; when (r =? 1) (free_inode i)) s1 = Ok tt s2).
    { rewrite G1. cbn [i_valid i_nlink set_ilock]. rewrite Hv. change (i_nlink (geti s i)) with (i_nlink (core (geti s i))). rewrite Hc, Hz. cbn [andb Z.eqb when].
      step U1. step (@ifield_ok Z i_ref i u1). rewrite Gu, G1. step U2. cbn [i_ref set_ilock]. rewrite Hr1. exact E2. }
    rewrite (bind_ok _ _ _ _ _ Ew). step E3. step F2. step F3. exact F4.
  - constructor.
    + intros j. destruct (decide (j = i)) as [->|Hj].
      * rewrite bool_decide_false by done. constructor; rewrite ?Hr4; try lia; try done. by rewrite G4.
      * rewrite Gj4 by done. destruct (ic_slot _ _ I j) as [K1 K2 K3 K4 K5 K6]. constructor; try done. intros Hpj Hvj.
        rewrite (dnode_stable _ _ _ St4), A2; [by apply K5|by apply HR|]. intros E. apply Hj, (ic_uniq _ _ I); [done|done|by rewrite Hn].
    + intros j k. destruct (decide (j = i)) as [->|Hj]; [rewrite Hr4; lia|]. destruct (decide (k = i)) as [->|Hk]; [rewrite Hr4; lia|].
      rewrite !Gj4 by done. apply I.
  - by apply (itable_stable s2 s4).
  - intros j. destruct (decide (j = i)) as [->|Hj]; [rewrite Hr4; lia|]. rewrite (sa_sb _ _ St4), A4, Gj4 by done. apply HR.
  - unfold dtype. by rewrite (dnode_stable _ _ _ St4).
  - intros m Hm Hne. rewrite (dnode_stable _ _ _ St4). by apply A2.
  - intros b Hb. rewrite (stable_used _ _ _ St4). by apply A3.
  - by rewrite (sa_sb _ _ St4).
  - by apply (stable_layout s2).
  - by apply (itable_stable s2).
  - intros j. destruct (decide (j = i)) as [->|Hj]; [rewrite Hr4, one_eq; lia|]. rewrite Gj4, one_ne by done. lia.
Qed.

(** * Correctness *)

(** C12: Dropping a reference.  [iput] of an unlocked slot takes one from its
    references and leaves every other slot's alone.  If the inode has a link or
    another reference, or the slot was never read, nothing else changes.  If
    this was the last reference to an inode without links whose slot has been
    read, and the inode is a well-formed file outside the inode table on a
    volume with one block of free map, the inode and exactly the blocks of its
    file become free, and every other inode is as it was.  A slot that was
    never read keeps its inode: without links and without references it stays
    allocated on disk as it was, although the comment at fs.c:328 promises that
    it is freed. *)
Theorem iput_drops (s : fs) (L : gset nat) (n : Z) (i : nat) :
  txn s ∅ -> layout s -> inodes_ok s L -> got s n i -> i ∉ L -> i_ref (geti s i) < 2 ^ 31 ->
  (i_valid (geti s i) = false \/ i_nlink (dnode s n) <> 0 \/ 1 < i_ref (geti s i) ->
   exists s', iput i s = Ok tt s' /\ txn s' ∅ /\ inodes_ok s' L /\ shifted (fun j => - one i j) s s') /\
  (i_valid (geti s i) = true -> i_nlink (dnode s n) = 0 -> i_ref (geti s i) = 1 ->
   disk_file s n -> off_table s (dnode s n) -> sb_size (f_sb s) <= BPB -> room s 3 ->
   exists s', iput i s = Ok tt s' /\ txn s' ∅ /\ inodes_ok s' L /\ inode_freed n (dnode s n) s s' /\
     forall j, i_ref (geti s' j) = i_ref (geti s j) - one i j) /\
  (i_valid (geti s i) = false -> i_nlink (dnode s n) = 0 -> i_ref (geti s i) = 1 ->
   exists s', iput i s = Ok tt s' /\ i_ref (geti s' i) = 0 /\ dnode s' n = dnode s n /\ forall b, used s' b = used s b).
Proof.
  intros T LY IO G HL Hm. assert (K := iput_keeps s L n i T (io_cache _ _ IO) G HL Hm). split; [|split].
  - intros Hk. destruct (K Hk) as (s' & E & T' & I' & S'). exists s'. do 2 (split; [done|]).
    split; [|done]. apply (inodes_shifted s s' _ L L IO I' S'). intros j. pose proof (one_pos i j). lia.
  - intros. by apply iput_frees_inode.
  - intros Hv Hl Hr. destruct (K (or_introl Hv)) as (s' & E & _ & _ & S'). exists s'. split; [done|].
    split; [rewrite (sh_ref _ _ _ S'), one_eq; lia|]. split; [by apply dnode_stable, S'|]. intros b. by rewrite (stable_used _ _ b (sh_stable _ _ _ S')).
Qed.

(** C13: [ialloc] takes the first inode of the table whose type on disk is 0:
    on disk it has the type and is otherwise zero, every other inode is as it
    was, no block but the one of the inode has changed, and the slot returned
    is that inode's, with one more reference.  If no inode is free the kernel
    panics. *)
Theorem ialloc_allocates (s : fs) (L : gset nat) (type : Z) :
  txn s ∅ -> layout s -> inodes_ok s L -> room s 1 -> -2 ^ 15 <= type < 2 ^ 15 ->
  (forall n, 1 <= n < sb_ninodes (f_sb s) -> dtype s n = 0 -> (forall m, 1 <= m < n -> dtype s m <> 0) ->
   cacheable s n -> (forall i, got s n i -> i_ref (geti s i) < 2 ^ 31 - 1) ->
   exists i s', ialloc 1 type s = Ok i s' /\ txn s' ∅ /\ layout s' /\ inodes_ok s' L /\ inode_allocated type n i s s') /\
  ((forall n, 1 <= n < sb_ninodes (f_sb s) -> dtype s n <> 0) -> ialloc 1 type s = Panic "ialloc: no inodes").
Proof.
  intros T LY IO Hr Ht. unfold ialloc, gets, bind. cbn [seqr]. split.
  - intros n Hn Hfr Hlow HC Hm. destruct (ialloc_loop_ok L type n (S (Z.to_nat (sb_ninodes (f_sb s)))) s 1) as (i & s' & E & T' & L' & IO' & A & _); try done; try lia. by exists i, s'.
  - intros Hall. apply ialloc_scan; try done; try lia; try apply IO.
Qed.

(** * A volume without files *)

(** The disk of [demo_fs], with an empty cache. *)
Definition bare_fs (s : bst) : fs := Fs (demo_log s) (superblock_of demo_super) (replicate 50 no_inode).

Lemma bare_slot s i : geti (bare_fs s) i = no_inode \/ geti (bare_fs s) i = zero_inode.
Proof.
  unfold geti. cbn [f_icache bare_fs]. destruct (replicate 50 no_inode !! i) as [ip|] eqn:E; [|by right].
  apply lookup_replicate_1 in E as [-> _]. by left.
Qed.

(** The blocks of the inode table. *)
Lemma demo_table s : (content s 1 = demo_super /\ content s 58 = demo_map) -> disksize s = 1000 -> forall n, 0 <= n < 200 -> datablock (demo_fs s) (n / IPB + 32).
Proof.
  intros Hm Hz n Hn. assert (H25 : 0 <= n / IPB <= 24) by (change IPB with 8; zdiv). constructor.
  - change (sb_size _) with 1000. lia.
  - rewrite demo_used by (done || lia). apply Z.ltb_lt. lia.
  - apply demo_home; [done|lia|lia].
  - change (sb_size _) with 1000. change (sb_bmapstart _) with 58. change BPB with 4096. intros c Hc. zdiv.
Qed.

Lemma bare_fs_ok : exists s, txn (bare_fs s) ∅ /\ layout (bare_fs s) /\ room (bare_fs s) 20 /\ inodes_ok (bare_fs s) ∅ /\ free_ge (bare_fs s) 10 /\
  forall n, 0 <= n < 200 -> dtype (bare_fs s) n = 0.
Proof.
  destruct demo_fs_disk as (s & Hblk & Hm & Hz & T). exists s. assert (B : same_blocks (demo_fs s) (bare_fs s)) by done.
  split; [by apply (same_txn _ _ _ B)|]. split; [by apply (same_layout _ _ B), demo_layout|]. split; [apply demo_room|].
  assert (H25 : forall n, 0 <= n < 200 -> 0 <= n / IPB <= 24) by (intros n Hn; change IPB with 8; zdiv). split.
  - constructor; [constructor| |].
    + intros i. rewrite bool_decide_false by set_solver+. destruct (bare_slot s i) as [-> | ->]; by constructor.
    + intros i j. destruct (bare_slot s i) as [-> | ->]; done.
    + constructor; [done|]. change (sb_ninodes (f_sb (bare_fs s))) with 200. change (sb_inodestart (f_sb (bare_fs s))) with 32. intros n Hn.
      by apply (same_datablock _ _ _ B), demo_table.
    + intros i. destruct (bare_slot s i) as [-> | ->]; done.
  - split; [apply (same_free _ _ _ B); apply demo_free; [done|lia]|]. intros n Hn. specialize (H25 n Hn). rewrite <- dtype_block. unfold IBLOCK. change (sb_inodestart (f_sb (bare_fs s))) with 32.
    rewrite u32_id by lia. change (blk (bare_fs s) (n / IPB + 32)) with (content s (n / IPB + 32)). rewrite Hblk. unfold block_of, demo_fsdisk.
    rewrite lookup_insert_ne, lookup_singleton_ne by lia. cbn [default]. assert (Hb : forall o, byte zero_block o = 0).
    { intros o. unfold byte, zero_block. destruct (replicate _ _ !! o) eqn:E; [|done]. by apply lookup_replicate_1 in E as [-> _]. }
    change (default zero_block None) with zero_block. unfold get16. by rewrite !Hb.
Qed.

Lemma ialloc_allocates_witness :
  exists s i s', ialloc 1 T_FILE s = Ok i s' /\ dtype s 1 = 0 /\ dtype s' 1 = T_FILE /\ dtype s' 2 = 0 /\ got s' 1 i.
Proof.
  destruct bare_fs_ok as (s & T & L & R & IO & _ & Hz). exists (bare_fs s).
  destruct (proj1 (ialloc_allocates (bare_fs s) ∅ T_FILE T L IO (room_le _ 20 1 R ltac:(lia)) ltac:(done)) 1) as (i & s' & E & _ & _ & _ & [A1 A2 A4 _ _ _]).
  - done.
  - by apply Hz.
  - lia.
  - right. exists 0%nat. split; [cbn; lia|done].
  - intros i [Hp _]. destruct (bare_slot s i) as [E|E]; rewrite E in Hp; done.
  - exists i, s'. split; [exact E|]. split; [by apply Hz|]. split; [unfold dtype; by rewrite A1|]. split; [|exact A4].
    unfold dtype. rewrite (tc_other _ _ _ A2) by done. by apply Hz.
Defined.

(** A new inode is an empty file. *)
Lemma empty_disk_file s n ip :
  dnode s n = as_disk n ip -> i_addrs ip = replicate (S NDIRECT) 0 -> i_size ip = 0 -> i_type ip <> T_DEV -> 0 <= n -> datablock s (IBLOCK n (f_sb s)) ->
  disk_file s n /\ off_table s (dnode s n).
Proof.
  destruct ip as [dv nu rf lk va ty mj mn nl sz ad]. cbn [i_addrs i_size i_type]. intros E -> -> Ht Hn D. set (ip := Inode _ _ _ _ _ _ _ _ _ _ _) in E.
  assert (Ha : forall c, 0 <= c < MAXFILE -> addr_of s (dnode s n) c = 0) by (intros c Hc; rewrite E; exact (emptied_addr s (as_disk n ip) c Hc)).
  assert (Hi : ind_of (dnode s n) = 0) by by rewrite E. pose proof (db_range _ _ D) as Hr. split.
  - constructor; unfold dtype; rewrite ?E; try done; rewrite <- ?E.
    + constructor; rewrite ?E; try done; rewrite <- ?E; intros; by rewrite Ha in *.
    + rewrite E. intros k Hk. cbn in Hk. lia.
    + constructor; [done|rewrite Hi; lia|]. intros c Hc. rewrite Ha by done. lia.
  - intros m Hm [Hz [Hx|(c & Hc & Hx)]]; [by rewrite Hi in Hx|by rewrite Ha in Hx].
Qed.

(** An inode that was allocated and not linked is freed by the [iput] of its
    only reference. *)
Lemma iput_drops_witness :
  exists s i s', got s 1 i /\ dtype s 1 = T_FILE /\ iput i s = Ok tt s' /\ dtype s' 1 = 0 /\ i_ref (geti s' i) = 0.
Proof.
  destruct bare_fs_ok as (s & T & L & R & IO & _ & Hz).
  destruct (ialloc_loop_ok ∅ T_FILE 1 201 (bare_fs s) 1 T L IO (room_le _ 20 1 R ltac:(lia))) as (i & s1 & _ & T1 & L1 & IO1 & [A1 A2 A4 A5 _ A6] & _); try done; try lia.
  { by apply Hz. }
  { right. exists 0%nat. split; [cbn; lia|done]. }
  { intros i [Hp _]. destruct (bare_slot s i) as [E|E]; rewrite E in Hp; done. }
  specialize (A6 19 R). pose proof (A5 i) as Hr1. rewrite one_eq in Hr1. assert (Hz0 : i_ref (geti (bare_fs s) i) = 0) by (destruct (bare_slot s i) as [E|E]; by rewrite E).
  pose proof (tc_sb _ _ _ A2) as A7. assert (Hn1 : 0 <= 1 < sb_ninodes (f_sb s1)) by by rewrite A7. pose proof (IBLOCK_data s1 ∅ T1 L1 (io_table _ _ IO1) 1 Hn1) as D1.
  destruct (ilock_locks s1 ∅ 1 i T1 (room_le _ 19 1 A6 ltac:(lia)) (io_cache _ _ IO1) A4) as (s2 & _ & T2 & I2 & S2 & C2 & V2 & _); [set_solver+|apply D1|by rewrite A1|].
  assert (G2 : got s2 1 i) by (apply (got_shifted none s1); [done|done|]; rewrite (sh_ref _ _ _ S2); unfold none; lia).
  destruct (iunlock_unlocks s2 _ 1 i T2 I2 G2) as (s3 & _ & T3 & I3 & S3 & C3 & V3); [set_solver+|].
  replace (({[i]} ∪ ∅) ∖ {[i]}) with (∅ : gset nat) in I3 by set_solver+. rewrite V2 in V3.
  assert (S13 : shifted none s1 s3) by (apply (shifted_keep none s1 s2 s3); [done|done|exact S3]). pose proof (sh_stable _ _ _ S13) as St.
  assert (E3 : dnode s3 1 = as_disk 1 (new_inode T_FILE)) by (rewrite (dnode_stable _ _ _ St); exact A1).
  assert (D3 : datablock s3 (IBLOCK 1 (f_sb s3))) by (rewrite (sa_sb _ _ St); by apply (stable_datablock s1)).
  destruct (empty_disk_file s3 1 (new_inode T_FILE) E3 eq_refl eq_refl ltac:(done) ltac:(lia) D3) as [DF OT].
  assert (Hr3 : i_ref (geti s3 i) = 1) by (rewrite (sh_ref _ _ _ S13); unfold none; lia).
  assert (G3 : got s3 1 i) by (apply (got_shifted none s1); [done|done|lia]).
  assert (IO3 : inodes_ok s3 ∅) by by apply (inodes_shifted s1 s3 none ∅).
  destruct (iput_drops s3 ∅ 1 i T3 (stable_layout _ _ St L1) IO3 G3 ltac:(set_solver+) ltac:(lia)) as (_ & H & _).
  destruct (H V3) as (s4 & E4 & _ & _ & [B1 _ _ _ _ _] & B5); [by rewrite E3|done|done|done| |exact (stable_room s1 s3 3 St (room_le _ 19 3 A6 ltac:(lia)))|].
  { rewrite (sa_sb _ _ St), A7. done. }
  exists s3, i, s4. split; [exact G3|]. split; [unfold dtype; by rewrite E3|]. split; [exact E4|]. split; [exact B1|].
  rewrite B5, Hr3, one_eq. done.
Defined.
