(* ===== verification/FsCreate.v ===== *)
(** Creating a file, [create] of [sysfile.c]: an inode is allocated and a
    directory given an entry for it, after which the path names the inode. *)

From S2P Require Import Prelude Params Spinlock Klock Bytes Bio Bcache Log Commit LogOps Recover CrashSpec Fs Sysfile Txn FsBlocks FsRead FsWrite FsInode FsContents FsSpec FsDir FsCache FsPath FsFree FsAlloc.
Open Scope Z_scope.
Open Scope xv6_scope.

(** * Names that compare equal *)

Definition chars (p : list Z) : Prop := Forall (fun c => 0 <= c < 256) p.

Lemma chars_hd p : chars p -> 0 <= hd 0 p < 256.
Proof. intros [|c q Hc _]; cbn; lia. Qed.

Lemma chars_tl p : chars p -> chars (tl p).
Proof. by intros [|c q _ H]; [constructor|]. Qed.

(** Such names find the same entries. *)
Lemma strncmp_same n : forall p p' q, chars p -> chars p' -> strncmp_l n p p' = 0 -> strncmp_l n p q = strncmp_l n p' q.
Proof.
  induction n as [|n IH]; intros p p' q Hp Hp'; [done|]. cbn [strncmp_l]. pose proof (chars_hd p Hp) as H1. pose proof (chars_hd p' Hp') as H2.
  destruct (Z.eqb_spec (hd 0 p) 0) as [E0|E0]; cbn [orb].
  - rewrite !u8_id by lia. intros E. rewrite E0 in *. assert (hd 0 p' = 0) as -> by lia. done.
  - destruct (Z.eqb_spec (hd 0 p) (hd 0 p')) as [E|E]; cbn [negb]; [|rewrite !u8_id by lia; lia].
    intros Hn. rewrite <- E, (proj2 (Z.eqb_neq _ _) E0). cbn [orb]. destruct (negb _); [done|]. by apply IH; [apply chars_tl..|].
Qed.

Lemma dir_inum_same d x y : chars x -> chars y -> namecmp x y = 0 -> dir_inum d x = dir_inum d y.
Proof.
  intros Hx Hy E. unfold dir_inum, dlookup. f_equal. apply find_ext. intros k _. unfold hit, namecmp. by rewrite (strncmp_same DIRSIZ x y).
Qed.

Lemma elements_chars path : chars path -> Forall chars (elements path).
Proof.
  intros Hp. assert (Hs : Forall chars (split_slash path)).
  { induction Hp as [|c p Hc Hp IH]; [repeat constructor|]. cbn. destruct (c =? SLASH); [constructor; [constructor|exact IH]|].
    destruct (split_slash p) as [|e es]; [constructor; [constructor; [exact Hc|constructor]|constructor]|]. apply Forall_cons in IH as [He Hes]. constructor; [by constructor|done]. }
  unfold elements. apply Forall_fmap, Forall_forall. intros e [_ He]%list_elem_of_filter. apply Forall_take. by apply (Forall_forall chars (split_slash path)).
Qed.

(** * The walk after an entry has been added *)

Section linked_walk.
Context (s s' : fs) (d m : Z) (x : list Z) (Hx : chars x).
Context (Hdir : dtype s d = T_DIR -> dtype s' d = T_DIR).
Context (Hnone : dir_inum (dcontents s d) x = None) (Hnew : dir_inum (dcontents s' d) x = Some m).
Context (Hkept : forall y, namecmp y x <> 0 -> dir_inum (dcontents s' d) y = dir_inum (dcontents s d) y).
Context (Hother : forall n, reach s n -> dtype s n = T_DIR -> n <> d -> dtype s' n = T_DIR /\ dcontents s' n = dcontents s n).

(** The path that led to the directory of [x] now leads to [m]. *)
Lemma walk_linked es : forall n, reach s n -> Forall chars es -> walk s true n es = Some d -> last es = Some x -> walk s' false n es = Some m.
Proof using All.
  induction es as [|e es IH]; intros n HR He; [done|]. apply Forall_cons in He as [Hc He]. cbn [walk].
  destruct (Z.eqb_spec (dtype s n) T_DIR) as [Ht|]; [|done]. cbn [negb andb]. destruct es as [|e2 es].
  - rewrite bool_decide_true by done. intros [= ->] [= ->]. rewrite (Hdir Ht). cbn [negb T_DIR Z.eqb Pos.eqb]. by rewrite Hnew.
  - rewrite bool_decide_false by done. intros Hw Hl. destruct (dir_inum (dcontents s n) e) as [n'|] eqn:En; [|done]. cbn [mbind option_bind] in Hw.
    assert (H' : dtype s' n = T_DIR /\ dir_inum (dcontents s' n) e = Some n').
    { destruct (decide (n = d)) as [->|Hne]; [|destruct (Hother n HR Ht Hne) as [? ->]; done]. split; [by apply Hdir|]. rewrite Hkept; [done|].
      intros E. by rewrite (dir_inum_same _ e x Hc Hx E), Hnone in En. }
    destruct H' as [-> ->]. cbn [negb T_DIR Z.eqb Pos.eqb mbind option_bind].
    apply (IH n'); [by apply (reach_entry s n e)|done|exact Hw|exact Hl].
Qed.
End linked_walk.

(** * What a write to a file does to the table of inodes *)

Lemma file_wf_dinode s ip : txn s ∅ -> layout s -> file_wf s ip -> Forall (fun v => 0 <= v < 2 ^ 32) (i_addrs ip).
Proof.
  intros T L W. rewrite (addrs_direct s ip W). pose proof (la_size s L). pose proof (lo_disk _ (tx_log _ _ T)) as Hd. unfold nblk in *.
  assert (Hv : forall b, (b <> 0 -> datablock s b) -> 0 <= b < 2 ^ 32).
  { intros b Hb. destruct (decide (b = 0)) as [->|Hz]; [lia|]. pose proof (db_range _ _ (Hb Hz)). lia. }
  apply Forall_app. split; [|constructor; [|done]; apply Hv, W]. apply Forall_forall. intros b (c & Hc & <-)%elem_of_addrs. apply Hv, W.
  assert (MAXFILE = Z.of_nat (NDIRECT + NINDIRECT)) by done. lia.
Qed.

Lemma as_disk_core n ip : i_dev ip = 1 -> i_inum ip = n -> as_disk n ip = core ip.
Proof. destruct ip. cbn. by intros -> ->. Qed.

Section wrote.
Context (s s' : fs) (i : nat) (n off len : Z) (src : bytes).
Context (T : txn s ∅) (T' : txn s' ∅) (L : layout s) (IT : itable_ok s) (F : file_ok s i) (Hc : core (geti s i) = dnode s n).
Context (Hn : 0 <= n < sb_ninodes (f_sb s)) (Hoff : off_table s (geti s i)).
Context (W : wrote i (inode_block s i) off len src s s') (H0 : 0 <= off <= i_size (geti s i)) (Hlen : 0 <= len) (Hmax : off + len <= MAXFILE * BSIZE).

Lemma wrote_inum : i_inum (geti s i) = n.
Proof using Hc. change (i_inum (core (geti s i)) = n). by rewrite Hc. Qed.

Lemma wrote_ib : inode_block s i = IBLOCK n (f_sb s).
Proof using Hc. unfold inode_block. by rewrite wrote_inum. Qed.

Lemma wrote_dinode : dinode_ok (geti s' i).
Proof using T' Hc W Hlen Hmax H0 F.
  destruct (wo_inode _ _ _ _ _ _ _ W) as [a Ha]. pose proof (dnode_ok s n) as [D1 D2 D3 D4 D5 _ _]. rewrite <- Hc in D1, D2, D3, D4, D5.
  assert (Hb : MAXFILE * BSIZE < 2 ^ 32) by done. pose proof (wo_wf _ _ _ _ _ _ _ W) as W'.
  pose proof (fw_len _ _ W') as Hl. pose proof (file_wf_dinode s' _ T' (wo_layout _ _ _ _ _ _ _ W) W') as Hf. pose proof (fo_size _ _ F).
  constructor; try done; rewrite Ha; try done. cbn [i_size set_isize]. lia.
Qed.

Lemma wrote_self : dnode s' n = core (geti s' i).
Proof using All.
  pose proof wrote_inum as En. destruct (wo_inode _ _ _ _ _ _ _ W) as [a Ha]. pose proof (fw_dev _ _ (fo_wf _ _ F)) as Hdev.
  pose proof (wo_disk _ _ _ _ _ _ _ W) as Hd. rewrite wrote_ib, En in Hd. destruct (Z.ltb_spec (i_size (geti s i)) (off + len)) as [Hg|Hg].
  - rewrite <- (as_disk_core n (geti s' i)) by (by rewrite Ha). unfold dnode, disk_inode. rewrite (wo_sb _ _ _ _ _ _ _ W), Hd.
    rewrite load_dinode_bytes; [done|apply wrote_dinode|]. rewrite (tx_len _ _ T). apply dip_fits. lia.
  - rewrite (wo_same _ _ _ _ _ _ _ W Hg), Hc by (intros k Hk; apply (fo_backed _ _ F); lia).
    unfold dnode, disk_inode. by rewrite (wo_sb _ _ _ _ _ _ _ W), Hd.
Qed.

Lemma wrote_others m : 0 <= m < sb_ninodes (f_sb s) -> m <> n -> dnode s' m = dnode s m.
Proof using All.
  intros Hm Hne. pose proof (wo_disk _ _ _ _ _ _ _ W) as Hd. rewrite wrote_ib, wrote_inum in Hd. unfold dnode, disk_inode. rewrite (wo_sb _ _ _ _ _ _ _ W).
  destruct (decide (IBLOCK m (f_sb s) = IBLOCK n (f_sb s))) as [E|E].
  - rewrite E, Hd. destruct (_ <? _); [|done].
    apply load_dinode_other; [apply (fw_len _ _ (wo_wf _ _ _ _ _ _ _ W))|rewrite (tx_len _ _ T); apply dip_fits; lia|].
    apply dip_apart; [lia|lia|]. apply (same_iblock s ∅ T L IT); try done; lia.
  - pose proof (IBLOCK_data s ∅ T L IT m Hm) as Dm. rewrite (wo_frame _ _ _ _ _ _ _ W); [done|done|by rewrite wrote_ib|..].
    + intros Ei. apply (Hoff m Hm). rewrite <- (IBLOCK_table s ∅ T L IT) by done. pose proof (db_range _ _ Dm). split; [lia|by left].
    + intros c Hcr Ec. apply (Hoff m Hm). rewrite <- (IBLOCK_table s ∅ T L IT) by done. pose proof (db_range _ _ Dm). split; [lia|eauto].
Qed.

Lemma wrote_table : itable_ok s'.
Proof using All. destruct IT as [I1 I2]. constructor; rewrite (wo_sb _ _ _ _ _ _ _ W); [done|]. intros m Hm. apply (wo_data _ _ _ _ _ _ _ W). by apply I2. Qed.

(** The blocks the file has got were not in use. *)
Lemma wrote_owns b : owns s' (geti s' i) b -> owns s (geti s i) b \/ ~ datablock s b.
Proof using W.
  clear -W. intros [Hz [Hb|(c & Hc & Hb)]].
  - destruct (wo_ind _ _ _ _ _ _ _ W) as [E|E]; [left; split; [done|left; by rewrite <- E]|right; by rewrite <- Hb].
  - destruct (decide (addr_of s (geti s i) c = 0)) as [E|E]; [right; rewrite <- Hb; apply (wo_fresh _ _ _ _ _ _ _ W); [done|done|by rewrite Hb]|].
    left. split; [done|right]. exists c. split; [done|]. by rewrite <- (wo_addr _ _ _ _ _ _ _ W).
Qed.

(** The blocks of another file. *)
Lemma wrote_blocks_other m b : disk_file s m -> off_table s (dnode s m) -> owns s (dnode s m) b -> ~ owns s (geti s i) b -> blk s' b = blk s b.
Proof using All.
  intros [D1 _ _ _ _ _] Ho Hb Hnb. pose proof (proj1 Hb) as Hz. apply (wo_frame _ _ _ _ _ _ _ W).
  - by apply (owns_data _ _ _ D1).
  - intros ->. apply (Ho n Hn). by rewrite <- (IBLOCK_table s ∅ T L IT), <- wrote_ib.
  - intros E. apply Hnb. split; [done|by left].
  - intros c Hcr E. apply Hnb. split; [done|eauto].
Qed.
End wrote.

(** * Changing a locked inode, in the cache and on disk *)

Lemma inodes_rewrite s s' i n L :
  inodes_ok s L -> got s n i -> (forall j, j <> i -> geti s' j = geti s j) -> i_ref (geti s' i) = i_ref (geti s i) ->
  i_lock (geti s' i) = i_lock (geti s i) -> core (geti s' i) = dnode s' n -> i_type (geti s' i) <> 0 -> f_sb s' = f_sb s -> itable_ok s' ->
  (forall m, 0 <= m < sb_ninodes (f_sb s) -> m <> n -> dnode s' m = dnode s m) -> inodes_ok s' L.
Proof.
  intros [[I U] IT R] [Hp Hn] G Hr Hl Hc Ht Esb IT' Hm.
  assert (En : i_inum (geti s' i) = n) by (change (i_inum (core (geti s' i)) = n); by rewrite Hc).
  assert (Ed : i_dev (geti s' i) = 1) by (change (i_dev (core (geti s' i)) = 1); by rewrite Hc).
  assert (Hinum : forall j, i_inum (geti s' j) = i_inum (geti s j)) by (intros j; destruct (decide (j = i)) as [->|Hj]; [by rewrite En|by rewrite G]).
  assert (Href : forall j, i_ref (geti s' j) = i_ref (geti s j)) by (intros j; destruct (decide (j = i)) as [->|Hj]; [done|by rewrite G]).
  constructor; [constructor| |].
  - intros j. destruct (decide (j = i)) as [->|Hj].
    + destruct (I i) as [K1 K2 K3 K4 K5 K6]. constructor; rewrite ?Hr, ?Hl; try done. intros _ _. by rewrite En.
    + rewrite G by done. destruct (I j) as [K1 K2 K3 K4 K5 K6]. constructor; try done. intros Hpj Hvj.
      rewrite Hm; [by apply K5|by apply R|]. intros E. apply Hj, U; [done|done|by rewrite Hn].
  - intros j k. rewrite !Href, !Hinum. apply U.
  - done.
  - intros j. rewrite Href, Hinum, Esb. apply R.
Qed.

(** * A new inode *)

(** An inode as [create] fills it in. *)
Definition made (type major minor : Z) : inode := Inode 0 0 0 free_sleeplock false type major minor 1 0 (replicate (S NDIRECT) 0).

Record inode_made (type major minor m : Z) (i : nat) (s s' : fs) : Prop := {
  im_new : dnode s' m = as_disk m (made type major minor);
  im_table : table_changed m s s';
  im_got : got s' m i;
  im_core : core (geti s' i) = dnode s' m;
  im_ref : forall j, i_ref (geti s' j) = i_ref (geti s j) + one i j;
  im_slots : length (f_icache s') = length (f_icache s) /\ forall j, j <> i -> geti s' j = geti s j;
  im_room : forall k, room s (k + 2) -> room s' k
}.

Lemma make_inode s L m type major minor :
  txn s ∅ -> layout s -> inodes_ok s L -> room s 3 -> -2 ^ 15 <= type < 2 ^ 15 -> type <> 0 ->
  -2 ^ 15 <= major < 2 ^ 15 -> -2 ^ 15 <= minor < 2 ^ 15 ->
  1 <= m < sb_ninodes (f_sb s) -> dtype s m = 0 -> (forall k, 1 <= k < m -> dtype s k <> 0) ->
  cacheable s m -> (forall i, got s m i -> i_ref (geti s i) < 2 ^ 31 - 1) -> (forall j, j ∈ L -> ~ got s m j) ->
  exists i s1 s2 s3, ialloc 1 type s = Ok i s1 /\ ilock i s1 = Ok tt s2 /\
    iupdate i (set_icache (alter (set_idev major minor 1) i (f_icache s2)) s2) = Ok tt s3 /\ txn s3 ∅ /\ (i ∉ L) /\ inodes_ok s3 ({[i]} ∪ L) /\ inode_made type major minor m i s s3.
Proof.
  intros T LY IO Hr Ht Htz Hma Hmi Hm Hfr Hlow HC Hmax HnL.
  destruct (ialloc_loop_ok L type m (S (Z.to_nat (sb_ninodes (f_sb s)))) s 1) as (i & s1 & E1 & T1 & L1 & IO1 & [A1 A2 A3 A4 A5 A6] & HL); try done; try lia.
  { eapply room_le; [done|lia]. }
  assert (HiL : i ∉ L) by (intros Hi; by apply (HnL i Hi), HL). pose proof (tc_sb _ _ _ A2) as Esb1. assert (Hm1 : 0 <= m < sb_ninodes (f_sb s1)) by (rewrite Esb1; lia).
  pose proof (IBLOCK_data s1 ∅ T1 L1 (io_table _ _ IO1) m Hm1) as D1. assert (R1 : room s1 2) by by apply A6.
  destruct (ilock_locks s1 L m i T1 (room_le _ 2 1 R1 ltac:(lia)) (io_cache _ _ IO1) A3 HiL) as (s2 & E2 & T2 & I2 & S2 & C2 & V2 & Gj2); [apply D1|by rewrite A1|].
  pose proof (sh_stable _ _ _ S2) as St2. assert (Esb2 : f_sb s2 = f_sb s1) by apply St2. rewrite A1 in C2.
  assert (G2 : got s2 m i) by (apply (got_shifted none s1); [done|done|]; rewrite (sh_ref _ _ _ S2); unfold none; pose proof (gt_ref _ _ _ A3); lia).
  pose proof (ref_index s2 i (gt_ref _ _ _ G2)) as Hi2.
  assert (IO2 : inodes_ok s2 ({[i]} ∪ L)) by by apply (inodes_shifted s1 s2 none L).
  set (s3 := set_icache (alter (set_idev major minor 1) i (f_icache s2)) s2). assert (B3 : same_blocks s2 s3) by done.
  assert (G3 : geti s3 i = set_idev major minor 1 (geti s2 i)) by (unfold s3; by rewrite geti_alter_eq).
  assert (G3d : as_disk m (geti s3 i) = as_disk m (made type major minor)).
  { rewrite G3. pose proof (f_equal i_type C2) as X1. pose proof (f_equal i_size C2) as X2. pose proof (f_equal i_addrs C2) as X3.
    unfold as_disk. cbn in *. by rewrite X1, X2, X3. }
  assert (Hdev3 : i_dev (geti s3 i) = 1) by (rewrite G3; by pose proof (f_equal i_dev C2)).
  assert (Hin3 : i_inum (geti s3 i) = m) by (rewrite G3; by pose proof (f_equal i_inum C2)).
  assert (HD : dinode_ok (geti s3 i)).
  { assert (HM : dinode_ok (as_disk m (made type major minor))) by (constructor; cbn; try done; try lia; repeat constructor; lia).
    rewrite <- G3d in HM. destruct HM. by constructor. }
  assert (L3 : layout s3) by (apply (same_layout s2 s3 B3), (stable_layout s1 s2 St2 L1)).
  pose proof (itable_stable _ _ (stable_same _ _ B3) (io_table _ _ IO2)) as IT3. assert (T3 : txn s3 ∅) by by apply (same_txn s2).
  destruct (iupdate_ok s3 i T3) as (s4 & E4 & T4 & C4); rewrite ?Hin3.
  { apply (same_room s2 s3 1 B3), (stable_room s1 s2 1 St2). eapply room_le; [done|lia]. }
  { done. }
  { lia. }
  { apply HD. }
  { change (f_sb s3) with (f_sb s2). rewrite Esb2. apply (stable_home s2 s3 _ (stable_same _ _ B3)), (stable_home s1 s2 _ St2), D1. }
  rewrite Hin3 in C4. assert (Hm3 : 0 <= m < sb_ninodes (f_sb s3)) by (change (f_sb s3) with (f_sb s2); by rewrite Esb2).
  pose proof (table_update s3 s4 ∅ ∅ m (geti s3 i) T3 L3 IT3 Hm3 (di_len _ HD) C4) as TC4.
  assert (G4 : forall j, geti s4 j = geti s3 j) by (intros j; unfold geti; by rewrite (ch_icache _ _ _ _ _ C4)).
  assert (D4 : dnode s4 m = as_disk m (made type major minor)) by by rewrite (dnode_updated s3 s4 ∅ ∅ m _ T3 Hm3 C4 HD).
  assert (Gj3 : forall j, j <> i -> geti s3 j = geti s2 j) by (intros; by apply geti_alter_ne).
  assert (Hc4 : core (geti s4 i) = dnode s4 m) by (rewrite D4, G4, <- G3d; symmetry; by apply as_disk_core).
  assert (TC3 : table_changed m s1 s3) by (apply (table_stable m s1 s3); [eapply stable_trans; [done|by apply stable_same]|done|apply IO1]).
  exists i, s1, s2, s4. split; [exact E1|]. split; [exact E2|]. split; [exact E4|]. split; [done|]. split; [done|]. split.
  - apply (inodes_rewrite s2 s4 i m); try done.
    + intros j Hj. by rewrite G4, Gj3.
    + by rewrite G4, G3.
    + by rewrite G4, G3.
    + change (i_type (core (geti s4 i)) <> 0). by rewrite Hc4, D4.
    + rewrite (tc_sb _ _ _ TC4). done.
    + apply TC4.
    + intros k Hk Hne. apply TC4; [done|done].
  - constructor; try done.
    + eapply table_changed_trans; [exact A2|]. by eapply table_changed_trans.
    + constructor; [rewrite G4, G3; apply G2|by rewrite G4].
    + intros j. rewrite <- A4, G4. destruct (decide (j = i)) as [->|Hj]; [rewrite G3; cbn; rewrite (sh_ref _ _ _ S2); unfold none; lia|].
      by rewrite Gj3, Gj2.
    + split; [rewrite (ch_icache _ _ _ _ _ C4); unfold s3; cbn; rewrite length_alter, (sh_len _ _ _ S2); apply A5|]. intros j Hj. rewrite G4, Gj3, Gj2 by done. by apply A5.
    + intros k Hk. apply (changed_room _ _ _ _ _ _ _ _ T3 T4 C4), (same_room s2 s3 _ B3), (stable_room s1 s2 _ St2), A6. eapply room_le; [done|lia].
Qed.

(** * Files on disk that are left alone *)

Section kept.
Context (s s' : fs) (n : Z) (Hd : dnode s' n = dnode s n) (Esb : f_sb s' = f_sb s).
Context (Hb : forall b, owns s (dnode s n) b -> blk s' b = blk s b).

Lemma kept_addr c : addr_of s' (dnode s n) c = addr_of s (dnode s n) c.
Proof using Hb. apply addr_of_ext. intros Hi. apply Hb. split; [done|by left]. Qed.

Lemma kept_owns b : owns s' (dnode s' n) b <-> owns s (dnode s n) b.
Proof using Hd Hb. rewrite Hd. unfold owns. by setoid_rewrite kept_addr. Qed.

Lemma kept_contents : disk_file s n -> dcontents s' n = dcontents s n.
Proof using Hd Hb.
  intros [D1 D2 D3 D4 D5 D6]. unfold dcontents. rewrite Hd. unfold fslice. apply list_fmap_ext. intros p k Hk. unfold zseq in Hk.
  rewrite list_lookup_fmap in Hk. apply fmap_Some in Hk as (q & Hq & ->). apply lookup_seq in Hq as [-> Hq].
  set (c := (0 + Z.of_nat (0 + p)) / BSIZE). assert (Hcr : 0 <= c < MAXFILE) by (apply block_range; lia).
  unfold fbyte. fold c. rewrite kept_addr, Hb; [done|]. split; [apply D5; lia|eauto].
Qed.

Lemma kept_off : off_table s (dnode s n) -> off_table s' (dnode s' n).
Proof using Hd Hb Esb. intros H m. rewrite Esb, kept_owns. apply H. Qed.

Lemma kept_file : (forall b, datablock s b -> datablock s' b) -> disk_file s n -> disk_file s' n.
Proof using Hd Hb Esb.
  intros HD [D1 D2 D3 D4 D5 [A1 A2 A3]]. constructor; unfold dtype; rewrite ?Hd, ?Esb; try done.
  - apply (file_wf_ext s); [done|intros Hi; apply Hb; split; [done|by left]|done].
  - intros k Hk. rewrite kept_addr. by apply D5.
  - constructor; [by apply HD|done|]. intros c Hc. rewrite kept_addr. by apply A3.
Qed.
End kept.

Lemma off_table_block s m ip b : txn s ∅ -> layout s -> itable_ok s -> 0 <= m < sb_ninodes (f_sb s) -> off_table s ip -> owns s ip b -> b <> IBLOCK m (f_sb s).
Proof. intros T L IT Hm Ho Hb ->. apply (Ho m Hm). by rewrite <- (IBLOCK_table s ∅ T L IT). Qed.

(** A change of the inode [m] only. *)
Lemma table_kept s s' m n :
  txn s ∅ -> layout s -> itable_ok s -> table_changed m s s' -> 0 <= m < sb_ninodes (f_sb s) -> 0 <= n < sb_ninodes (f_sb s) -> n <> m -> off_table s (dnode s n) ->
  dnode s' n = dnode s n /\ forall b, owns s (dnode s n) b -> blk s' b = blk s b.
Proof.
  intros T L IT C Hm Hn Hne Ho. split; [by apply C|]. intros b Hb. apply C. by apply (off_table_block s m (dnode s n)).
Qed.

Lemma wrote_steady i ib off n src s s1 s2 : steady ∅ s s1 -> wrote i ib off n src s1 s2 -> wrote i ib off n src s s2.
Proof.
  intros S W. pose proof (geti_steady _ _ _ i S) as Gi. assert (Ha : forall c, addr_of s1 (geti s i) c = addr_of s (geti s i) c) by (intros; by eapply addr_of_steady).
  destruct W as [W1 W2 W3 W4 W5 W6 W7 W8 W9 W10 W11 W12 W13 W14 W15 W16 W17]. rewrite Gi in *. constructor; try done.
  - rewrite <- (st_icache _ _ _ S). split; [apply W2|]. intros j Hj. rewrite (proj2 W2 j Hj). by eapply geti_steady.
  - intros c Hc. rewrite <- Ha. by apply W6.
  - intros b Hb. apply W7. by eapply datablock_steady.
  - rewrite W8. apply S.
  - intros k Hk Ho. rewrite <- Ha. intros Hz. rewrite W11 by done. by eapply fbyte_steady.
  - intros b Hb H1 H2 H3. rewrite W12; [apply S|by eapply datablock_steady|done|done|]. intros c Hc. rewrite Ha. by apply H3.
  - intros H1 H2. apply W13; [done|]. intros k Hk. rewrite Ha. by apply H2.
  - rewrite W14, (st_blk _ _ _ S). done.
  - apply (inside_trans _ _ s1); [by eapply inside_steady|done].
  - intros c Hc. rewrite <- Ha. intros Hz Hn Hd. apply (W16 c Hc Hz Hn). by eapply datablock_steady.
  - destruct W17 as [E|E]; [by left|right]. intros Hd. apply E. by eapply datablock_steady.
Qed.

(** * [create] *)

(** A volume whose directories form a tree: every inode a path leads to is in
    the table, and directories share no block with it or each other. *)
Record fs_tree (s : fs) : Prop := {
  ft_walk : walkable s;
  ft_inodes : inodes_ok s ∅;
  ft_range : forall n, reach s n -> 0 <= n < sb_ninodes (f_sb s);
  ft_off : forall n, reach s n -> dtype s n = T_DIR -> off_table s (dnode s n);
  ft_apart : forall n n' b, reach s n -> reach s n' -> dtype s n = T_DIR -> dtype s n' = T_DIR -> n <> n' ->
    owns s (dnode s n) b -> ~ owns s (dnode s n') b
}.

Lemma walk_parent s es : forall n d, reach s n -> walk s true n es = Some d -> reach s d /\ dtype s d = T_DIR.
Proof.
  induction es as [|e es IH]; intros n d HR; [done|]. cbn [walk andb]. destruct (Z.eqb_spec (dtype s n) T_DIR) as [Ht|]; [|done]. cbn [negb].
  destruct (bool_decide (es = [])); [by intros [= ->]|]. destruct (dir_inum (dcontents s n) e) as [n'|] eqn:E; [|done]. cbn [mbind option_bind].
  apply IH. by apply (reach_entry s n e).
Qed.

(** The slots after a directory has been taken. *)
Lemma inodes_taken s s1 L i d :
  inodes_ok s ∅ -> icache_ok s1 L -> shifted (one i) s s1 -> got s1 d i -> 0 <= d < sb_ninodes (f_sb s) -> inodes_ok s1 L.
Proof.
  intros [I IT R] I1 S G Hd. pose proof (sh_stable _ _ _ S) as St. constructor; [done|by apply (itable_stable s)|]. intros j Hj. rewrite (sa_sb _ _ St).
  destruct (decide (j = i)) as [->|Hne]; [by rewrite (gt_inum _ _ _ G)|]. pose proof (sh_ref _ _ _ S j) as Hr. rewrite one_ne in Hr by done.
  rewrite (sh_inum _ _ _ S j) by lia. apply R. lia.
Qed.

Section create.
Context `{DevSw}.
Context (s : fs) (FT : fs_tree s) (d : Z) (HR : reach s d) (Hdir : dtype s d = T_DIR).

(** From the directory, taken and locked, to the entry. *)
Section entry.
Context (dp : nat) (s2 : fs) (x : list Z) (T2 : txn s2 ∅) (I2 : icache_ok s2 {[dp]}) (S2 : shifted (one dp) s s2) (G2 : got s2 d dp) (C2 : core (geti s2 dp) = dnode s d).
Context (Hnone : dir_inum (dcontents s d) x = None).
Context (m type major minor : Z) (Ht : -2 ^ 15 <= type < 2 ^ 15) (Htz : type <> 0).
Context (Hma : -2 ^ 15 <= major < 2 ^ 15) (Hmi : -2 ^ 15 <= minor < 2 ^ 15).
Context (Hm : 1 <= m < sb_ninodes (f_sb s)) (Hm16 : m < 2 ^ 16) (Hfr : dtype s m = 0) (Hlow : forall k, 1 <= k < m -> dtype s k <> 0).
Context (Hsz : i_size (dnode s d) + DIRENT <= MAXFILE * BSIZE) (Hroom : room s 9) (Hfree : free_ge s 2).

Let St2 : stable s s2 := sh_stable _ _ _ S2.
Let LY : layout s := wk_layout _ (ft_walk _ FT).

Lemma entry_ne : d <> m.
Proof using All. clear -Hdir Hfr. intros ->. by rewrite Hdir in Hfr. Qed.

Lemma entry_dir : dir_ok s2 dp /\ contents s2 dp = dcontents s d.
Proof using All.
  pose proof (ref_index s2 dp (gt_ref _ _ _ G2)) as Hi. split; [|by apply (core_contents s s2 St2)].
  apply (core_dir s s2 St2 d dp Hi C2); [by apply (wk_tree _ (ft_walk _ FT))|done].
Qed.

(** After the inode has been made. *)
Record allocated_in (i : nat) (s6 : fs) : Prop := {
  ai_txn : txn s6 ∅;
  ai_ne : i <> dp;
  ai_inodes : inodes_ok s6 ({[i]} ∪ {[dp]});
  ai_new : dnode s6 m = as_disk m (made type major minor);
  ai_table : table_changed m s s6;
  ai_got : got s6 m i;
  ai_ref : forall j, i_ref (geti s6 j) = i_ref (geti s j) + one dp j + one i j;
  ai_slot : geti s6 dp = geti s2 dp;
  ai_dir : dir_ok s6 dp;
  ai_contents : contents s6 dp = dcontents s d;
  ai_room : room s6 7;
  ai_free : free_ge s6 2
}.

Lemma create_alloc :
  exists s3 i s4 s5 s6, dirlookup dp x s2 = Ok None s3 /\ i_dev (geti s3 dp) = 1 /\ ialloc 1 type s3 = Ok i s4 /\ ilock i s4 = Ok tt s5 /\
    iupdate i (set_icache (alter (set_idev major minor 1) i (f_icache s5)) s5) = Ok tt s6 /\ allocated_in i s6.
Proof using All.
  destruct entry_dir as [D2 Hc2]. pose proof (ft_walk _ FT) as [[T R I (f1 & f2 & Hf & Hf1 & Hf2 & Hz1 & Hz2) Hmax] _ TR].
  assert (L2 : layout s2) by (by apply (stable_layout s)).
  destruct (dirlookup_ok s2 dp x T2 L2 (stable_room _ _ _ St2 R) D2) as (s3 & T3 & S3 & E3). rewrite Hc2 in E3.
  pose proof Hnone as Hdl. apply fmap_None in Hdl. rewrite Hdl in E3. pose proof (shifted_steady _ _ _ S3) as Sh3.
  pose proof (shifted_keep _ _ _ _ (one_nonneg dp) S2 Sh3) as S03. pose proof (sh_stable _ _ _ S03) as St3.
  assert (Gd : geti s3 dp = geti s2 dp) by by eapply geti_steady. assert (G3 : got s3 d dp) by (destruct G2; constructor; by rewrite Gd).
  assert (I3 : icache_ok s3 {[dp]}) by (apply (icache_same s2); [by eapply stable_steady|apply S3|done]).
  pose proof (inodes_taken s s3 {[dp]} dp d (ft_inodes _ FT) I3 S03 G3 (ft_range _ FT d HR)) as IO3. assert (Esb : f_sb s3 = f_sb s) by apply St3.
  assert (L3 : layout s3) by by apply (stable_layout s).
  destruct (make_inode s3 {[dp]} m type major minor T3 L3 IO3) as (i & s4 & s5 & s6 & E4 & E5 & E6 & T6 & Hni & IO6 & [M1 M2 M3 M4 M5 [M6 M7] M8]); rewrite ?Esb; try done.
  { apply (stable_room s s3 _ St3), (room_le s 9 3 Hroom). lia. }
  { unfold dtype. rewrite (dnode_stable _ _ _ St3). exact Hfr. }
  { intros k Hk. unfold dtype. rewrite (dnode_stable _ _ _ St3). by apply Hlow. }
  { apply (walk_cacheable s I LY R TR f1 f2 Hf Hf1 Hf2 Hz1 Hz2 Hmax s3 dp m S03). }
  { intros j _. rewrite (sh_ref _ _ _ S03). pose proof (one_pos dp j). pose proof (Hmax j). lia. }
  { intros j ->%elem_of_singleton [_ Hm2]. rewrite (gt_inum _ _ _ G3) in Hm2. by apply entry_ne. }
  assert (Hne : i <> dp) by set_solver. assert (Gd6 : geti s6 dp = geti s2 dp) by (rewrite M7; [done|congruence]).
  pose proof (do_file _ _ (dir_ok_steady _ _ _ S3 D2)) as F3. assert (Hoff : off_table s (geti s2 dp)) by (intros k Hk; rewrite <- owns_core, C2; by apply (ft_off _ FT)).
  destruct (file_survives s3 s6 dp F3) as [Hc6 F6]; [by rewrite Gd6, Gd|apply M2|done| |apply (tc_data _ _ _ M2), F3|].
  { intros b Hb. split; [apply (tc_data _ _ _ M2); by apply (owns_data _ _ _ (fo_wf _ _ F3))|]. apply (tc_blk _ _ _ M2). rewrite Esb, Gd in *.
    apply (off_table_block s m (geti s2 dp) b T LY (io_table _ _ (ft_inodes _ FT))); [lia|done|].
    destruct Hb as [Hz Hb]. split; [done|]. destruct Hb as [Hb|(c & Hcr & Hb)]; [by left|right]. exists c. by rewrite <- (addr_of_stable s s3). }
  assert (TC3 : table_changed m s s3) by (apply (table_stable m s s3 St3 LY), (ft_inodes _ FT)).
  exists s3, i, s4, s5, s6. split; [exact E3|]. split; [rewrite Gd; apply (fw_dev _ _ (fo_wf _ _ (do_file _ _ D2)))|]. do 3 (split; [done|]).
  constructor; try done.
  - by apply (table_changed_trans m s s3).
  - intros j. rewrite M5, (sh_ref _ _ _ S03). lia.
  - pose proof (dir_ok_steady _ _ _ S3 D2) as [_ D3t D3m]. constructor; [done|by rewrite Gd6, <- Gd|by rewrite Gd6, <- Gd].
  - rewrite Hc6, (contents_steady _ _ dp S3). exact Hc2.
  - apply M8. by apply (stable_room s s3).
  - apply (tc_free _ _ _ M2), (tc_free _ _ _ TC3). exact Hfree.
Qed.

(** What [create] leaves behind. *)
Record created (i : nat) (s8 : fs) : Prop := {
  cr_txn : txn s8 ∅;
  cr_inodes : inodes_ok s8 {[i]};
  cr_layout : layout s8;
  cr_got : got s8 m i;
  cr_ref : forall j, i_ref (geti s8 j) = i_ref (geti s j) + one i j;
  cr_new : dnode s8 m = as_disk m (made type major minor);
  cr_nodes : forall k, 0 <= k < sb_ninodes (f_sb s) -> k <> m -> k <> d -> dnode s8 k = dnode s k;
  cr_dir : dtype s8 d = T_DIR;
  cr_entry : dir_inum (dcontents s8 d) x = Some m;
  cr_names : forall y, namecmp y x <> 0 -> dir_inum (dcontents s8 d) y = dir_inum (dcontents s d) y;
  cr_files : forall k, 0 <= k < sb_ninodes (f_sb s) -> k <> m -> k <> d -> disk_file s k -> off_table s (dnode s k) ->
    (forall b, owns s (dnode s k) b -> ~ owns s (dnode s d) b) -> dcontents s8 k = dcontents s k
}.

(** The directory before the entry is added. *)
Lemma allocated_dir i s6 : allocated_in i s6 ->
  core (geti s6 dp) = dnode s6 d /\ got s6 d dp /\ (forall b, owns s6 (geti s6 dp) b <-> owns s (dnode s d) b) /\ off_table s6 (geti s6 dp).
Proof using All.
  intros [A1 A2 A3 A4 A5 A6 A7 A8 A9 A10 A11 A12]. pose proof (ft_walk _ FT) as [[T _ _ _ _] _ _].
  assert (Hmr : 0 <= m < sb_ninodes (f_sb s)) by lia.
  destruct (table_kept s s6 m d T LY (io_table _ _ (ft_inodes _ FT)) A5 Hmr (ft_range _ FT d HR) entry_ne (ft_off _ FT d HR Hdir)) as [Kd Kb].
  assert (Hc : core (geti s6 dp) = dnode s6 d) by (by rewrite A8, Kd). split; [done|]. split; [destruct G2; constructor; by rewrite A8|].
  assert (Ho : forall b, owns s6 (geti s6 dp) b <-> owns s (dnode s d) b) by (intros b; rewrite <- owns_core, Hc; by apply (kept_owns s s6 d Kd Kb)).
  split; [done|]. intros k. rewrite (tc_sb _ _ _ A5), Ho. apply (ft_off _ FT d HR Hdir).
Qed.

Lemma create_link i s6 : allocated_in i s6 -> exists s7 s8, dirlink dp x m s6 = Ok 0 s7 /\ iunlockput dp s7 = Ok tt s8 /\ created i s8.
Proof using All.
  intros AI. destruct (allocated_dir i s6 AI) as (Hc6 & Gt6 & Ho6 & Hoff6). destruct AI as [T6 A2 A3 A4 A5 A6 A7 A8 A9 A10 A11 A12].
  pose proof (tc_sb _ _ _ A5) as Esb6. pose proof (tc_layout _ _ _ A5) as L6. pose proof (tc_table _ _ _ A5) as IT6.
  pose proof (ft_walk _ FT) as [[T _ _ _ Hmax] _ TR]. destruct (dir_count s6 dp A9) as [Hcn _].
  assert (Hsz6 : i_size (geti s6 dp) = i_size (dnode s d)) by (rewrite A8, <- C2; done). pose proof (ft_range _ FT d HR) as Hdr.
  destruct (dirlink_ok s6 dp x m T6 L6 A9) as (s6' & s7 & k & E7 & T7 & L7 & D7 & S6 & Hk & W & Hnew & Hkeep & _); try done; [by rewrite A10|lia|by rewrite Hsz6|].
  replace (inode_block s6' dp) with (inode_block s6 dp) in W by (unfold inode_block; by rewrite (geti_steady _ _ _ dp S6), (st_sb _ _ _ S6)).
  apply (wrote_steady _ _ _ _ _ s6) in W; [|done]. set (off := DIRENT * Z.of_nat k) in *.
  assert (H0 : 0 <= off <= i_size (geti s6 dp)) by (unfold off, DIRENT in *; lia). assert (Hmx : off + DIRENT <= MAXFILE * BSIZE) by (unfold DIRENT in *; lia).
  assert (Hd6 : 0 <= d < sb_ninodes (f_sb s6)) by by rewrite Esb6. assert (Hde : 0 <= DIRENT) by done. pose proof (do_file _ _ A9) as F6.
  pose proof (wrote_self s6 s7 dp d off DIRENT _ T6 T7 L6 IT6 F6 Hc6 Hd6 Hoff6 W H0 Hde Hmx) as Hself.
  pose proof (wrote_others s6 s7 dp d off DIRENT _ T6 T7 L6 IT6 F6 Hc6 Hd6 Hoff6 W H0 Hde Hmx) as Hoth. rewrite Esb6 in Hoth.
  pose proof (wrote_table s6 s7 dp d off DIRENT _ T6 T7 L6 IT6 F6 Hc6 Hd6 Hoff6 W H0 Hde Hmx) as IT7.
  destruct (wo_inode _ _ _ _ _ _ _ W) as [a Ha]. destruct (wo_others _ _ _ _ _ _ _ W) as [_ Gj7].
  assert (Esb7 : f_sb s7 = f_sb s) by (rewrite (wo_sb _ _ _ _ _ _ _ W); exact Esb6).
  assert (IO7 : inodes_ok s7 ({[i]} ∪ {[dp]})).
  { apply (inodes_rewrite s6 s7 dp d); try done; [by rewrite Ha|by rewrite Ha| |by rewrite Esb7|by rewrite Esb6].
    change (i_type (core (geti s7 dp)) <> 0). rewrite Ha. change (i_type (core (geti s6 dp)) <> 0). rewrite Hc6, (tc_other _ _ _ A5 d Hdr entry_ne). fold (dtype s d). by rewrite Hdir. }
  assert (Hr7 : forall j, i_ref (geti s7 j) = i_ref (geti s6 j)) by (intros j; destruct (decide (j = dp)) as [->|Hj]; [by rewrite Ha|by rewrite Gj7]).
  assert (Gt7 : got s7 d dp) by (destruct Gt6 as [X1 X2]; constructor; [by rewrite Hr7|by rewrite Ha]).
  destruct (iunlockput_ok s7 _ d dp T7 (io_cache _ _ IO7) Gt7) as (s8 & E8 & T8 & I8 & S8).
  { set_solver+. }
  { rewrite Hr7, A7, one_eq, one_ne by congruence. pose proof (Hmax dp). lia. }
  { rewrite Hself, Ha. change (i_nlink (core (geti s6 dp)) <> 0). rewrite Hc6, (tc_other _ _ _ A5 d Hdr entry_ne). apply (TR d HR). }
  replace (({[i]} ∪ {[dp]}) ∖ {[dp]}) with ({[i]} : gset nat) in I8 by (clear -A2; set_solver). pose proof (sh_stable _ _ _ S8) as St8.
  assert (IO8 : inodes_ok s8 {[i]}) by (apply (inodes_shifted s7 s8 _ _ _ IO7 I8 S8); intros j; pose proof (one_pos dp j); lia).
  assert (Hdc : dcontents s8 d = contents s7 dp).
  { unfold dcontents. rewrite (dnode_stable _ _ _ St8), (fslice_stable _ _ _ _ _ St8). symmetry. apply (core_contents s7 s7 (stable_refl s7) d dp). by rewrite Hself. }
  exists s7, s8. split; [done|]. split; [done|]. constructor; try done.
  - by apply (stable_layout s7).
  - apply (got_shifted _ s7 s8 m i S8); [constructor; [rewrite Hr7; apply A6|rewrite Gj7 by done; apply A6]|]. rewrite (sh_ref _ _ _ S8), Hr7, one_ne by done.
    pose proof (gt_ref _ _ _ A6). lia.
  - intros j. rewrite (sh_ref _ _ _ S8), Hr7, A7. lia.
  - rewrite (dnode_stable _ _ _ St8), Hoth; [done|lia|]. intros E. by apply entry_ne.
  - intros q Hq H1 H2. rewrite (dnode_stable _ _ _ St8), Hoth by done. by apply A5.
  - unfold dtype. rewrite (dnode_stable _ _ _ St8), Hself, Ha. change (i_type (core (geti s6 dp)) = T_DIR). rewrite Hc6, (tc_other _ _ _ A5 d Hdr entry_ne). exact Hdir.
  - by rewrite Hdc.
  - intros y Hy. rewrite Hdc, Hkeep by done. by rewrite A10.
  - intros q Hq H1 H2 DF Hoq Hap. assert (Hmr : 0 <= m < sb_ninodes (f_sb s)) by lia.
    destruct (table_kept s s6 m q T LY (io_table _ _ (ft_inodes _ FT)) A5 Hmr Hq H1 Hoq) as [Kd Kb].
    pose proof (kept_file s s6 q Kd Esb6 Kb (tc_data _ _ _ A5) DF) as DF6. pose proof (kept_off s s6 q Kd Esb6 Kb Hoq) as Hoq6.
    unfold dcontents at 1. rewrite (dnode_stable _ _ _ St8), (fslice_stable _ _ _ _ _ St8). fold (dcontents s7 q).
    rewrite <- (kept_contents s s6 q Kd Kb DF). apply (kept_contents s6 s7 q (Hoth q Hq H2)); [|done]. intros b Hb.
    apply (wrote_blocks_other s6 s7 dp d off DIRENT _ T6 T7 L6 IT6 F6 Hc6 Hd6 Hoff6 W H0 Hde Hmx q b DF6 Hoq6 Hb). rewrite Ho6. apply Hap.
    by apply (kept_owns s s6 q Kd Kb).
Qed.
End entry.
End create.

Lemma starts_reach s cwd path n : starts s cwd path n -> reach s n.
Proof. unfold starts. destruct (_ =? _); [intros ->; constructor|by intros (c & _ & _ & HR)]. Qed.

(** The directory of the new name, found and locked. *)
Lemma parent_locked `{DevSw} s cwd path n d :
  fs_tree s -> starts s cwd path n -> walk s true n (elements path) = Some d ->
  exists dp x s1 s2, nameiparent cwd path s = Ok (Some dp, x) s1 /\ ilock dp s1 = Ok tt s2 /\ last (elements path) = Some x /\ txn s2 ∅ /\
    icache_ok s2 {[dp]} /\ shifted (one dp) s s2 /\ got s2 d dp /\ core (geti s2 dp) = dnode s d.
Proof.
  intros FT Hst Hw. pose proof (ft_walk _ FT) as [[T R I (f1 & f2 & Hf & Hf1 & Hf2 & Hz1 & Hz2) Hmax] L TR].
  destruct (namex_ok s cwd path true n (ft_walk _ FT) Hst) as (r & x & s1 & E & T1 & I1 & F & Hl). rewrite Hw in F. destruct r as [dp|]; [|done].
  destruct F as [G S]. destruct (walk_parent s _ n d (starts_reach _ _ _ _ Hst) Hw) as [HR _].
  destruct (lock_node s I L R TR f1 f2 Hf Hf1 Hf2 Hz1 Hz2 Hmax s1 dp d T1 I1 S G HR) as (s2 & E2 & T2 & I2 & S2 & G2 & C2).
  exists dp, x, s1, s2. split; [exact E|]. split; [done|]. split; [apply Hl; [done|by eexists]|done].
Qed.

(** A name that is there already: [create] of a file returns a file of that
    name, locked, and in every other case nothing, with no reference kept. *)
Theorem create_existing `{DevSw} (s : fs) (cwd : option nat) (path x : list Z) (n d e type major minor : Z) :
  fs_tree s -> starts s cwd path n -> walk s true n (elements path) = Some d -> last (elements path) = Some x ->
  dir_inum (dcontents s d) x = Some e ->
  exists r s', create cwd path type major minor s = Ok r s' /\ txn s' ∅ /\
    if (type =? T_FILE) && (dtype s e =? T_FILE) then exists i, r = Some i /\ got s' e i /\ icache_ok s' {[i]} /\ shifted (one i) s s'
    else r = None /\ icache_ok s' ∅ /\ shifted none s s'.
Proof.
  intros FT Hst Hw Hx He. destruct (parent_locked s cwd path n d FT Hst Hw) as (dp & x' & s1 & s2 & E1 & E2 & Hx' & T2 & I2 & S2 & G2 & C2).
  assert (x' = x) as -> by congruence. destruct (walk_parent s _ n d (starts_reach _ _ _ _ Hst) Hw) as [HR Hdir].
  pose proof (ft_walk _ FT) as [[T R I (f1 & f2 & Hf & Hf1 & Hf2 & Hz1 & Hz2) Hmax] L TR].
  pose proof (lookup_node s I L R TR f1 f2 Hf Hf1 Hf2 Hz1 Hz2 Hmax s2 dp d x T2 I2 S2 G2 C2 HR Hdir) as HL. rewrite He in HL.
  destruct HL as (k & off & s3 & s4 & E3 & E4 & T4 & I4 & S4 & G4). assert (HRe : reach s e) by by apply (reach_entry s d x).
  destruct (lock_node s I L R TR f1 f2 Hf Hf1 Hf2 Hz1 Hz2 Hmax s4 k e T4 I4 S4 G4 HRe) as (s5 & E5 & T5 & I5 & S5 & G5 & C5).
  assert (Et : i_type (geti s5 k) = dtype s e) by (unfold dtype; by rewrite <- C5).
  assert (Hrun : create cwd path type major minor s = (if (type =? T_FILE) && (dtype s e =? T_FILE) then ret (Some k) else iunlockput k ;;; ret None) s5).
  { unfold create. step E1. step E2. step E3. step E4. step E5. rewrite (bind_ok (ifield i_type k) _ s5 (i_type (geti s5 k)) s5 eq_refl). by rewrite Et. }
  rewrite Hrun. destruct (_ && _); [exists (Some k), s5; split; [done|]; split; [done|]; by exists k|].
  destruct (leave_node s I L R TR f1 f2 Hf Hf1 Hf2 Hz1 Hz2 Hmax s5 none k e T5 I5) as (s6 & E6 & T6 & I6 & S6 & _); try done.
  { apply (shifted_ext (one k)); [intros j; unfold none; lia|done]. }
  exists None, s6. step E6. done.
Qed.

(** C10: Making a file.  When the path leads to a directory that has no entry
    of its last element, [create] of a file or a device returns its inode: the
    first free one of the table, locked, with one reference more and every other
    slot with the references it had, and it is on disk with the type and the
    device numbers asked for and one link.  The path now leads to it.  Every
    other name of the directory still names what it did, and every other inode
    is unchanged, with the bytes of every file that shares no block with the
    directory. *)
Theorem create_names `{DevSw} (s : fs) (cwd : option nat) (path x : list Z) (n d m type major minor : Z) :
  fs_tree s -> starts s cwd path n -> chars path -> walk s true n (elements path) = Some d -> last (elements path) = Some x ->
  dir_inum (dcontents s d) x = None -> i_size (dnode s d) + DIRENT <= MAXFILE * BSIZE ->
  (-2 ^ 15 <= type < 2 ^ 15 /\ type <> 0 /\ type <> T_DIR) -> -2 ^ 15 <= major < 2 ^ 15 -> -2 ^ 15 <= minor < 2 ^ 15 ->
  (1 <= m < sb_ninodes (f_sb s) /\ m < 2 ^ 16 /\ dtype s m = 0 /\ forall k, 1 <= k < m -> dtype s k <> 0) -> room s 9 -> free_ge s 2 ->
  exists i s', create cwd path type major minor s = Ok (Some i) s' /\ created s d x m type major minor i s' /\
    walk s' false n (elements path) = Some m.
Proof.
  intros FT Hst Hp Hw Hx Hnone Hsz (Ht & Htz & Htd) Hma Hmi (Hm & Hm16 & Hfr & Hlow) Hroom Hfree.
  destruct (parent_locked s cwd path n d FT Hst Hw) as (dp & x' & s1 & s2 & E1 & E2 & Hx' & T2 & I2 & S2 & G2 & C2).
  assert (x' = x) as -> by congruence. destruct (walk_parent s _ n d (starts_reach _ _ _ _ Hst) Hw) as [HR Hdir].
  destruct (create_alloc s FT d HR Hdir dp s2 x T2 I2 S2 G2 C2 Hnone m type major minor Ht Htz Hma Hmi Hm Hm16 Hfr Hlow Hsz Hroom Hfree)
    as (s3 & i & s4 & s5 & s6 & E3 & Hdev & E4 & E5 & E6 & AI).
  destruct (create_link s FT d HR Hdir dp s2 x T2 I2 S2 G2 C2 Hnone m type major minor Ht Htz Hma Hmi Hm Hm16 Hfr Hlow Hsz Hroom Hfree i s6 AI)
    as (s7 & s8 & E7 & E8 & CR).
  exists i, s8. split.
  { unfold create. step E1. step E2. step E3. rewrite (bind_ok (ifield id dp) _ s3 (geti s3 dp) s3 eq_refl). rewrite Hdev. step E4. step E5.
    rewrite (bind_ok (seti _ i) _ s5 tt _ eq_refl). step E6. rewrite (bind_ok (ifield id i) _ s6 (geti s6 i) s6 eq_refl).
    rewrite (gt_inum _ _ _ (ai_got _ _ _ _ _ _ _ _ _ _ AI)). replace (type =? T_DIR) with false by (symmetry; by apply Z.eqb_neq).
    rewrite (bind_ok (when false _) _ s6 tt s6 eq_refl). step E7. cbn [Z.ltb Z.compare]. by step E8. }
  split; [done|]. assert (Hc : Forall chars (elements path)) by by apply elements_chars.
  assert (Hcx : chars x) by (apply last_Some in Hx as [l Hl]; rewrite Hl in Hc; apply Forall_app in Hc as [_ Hc]; by inversion Hc).
  apply (walk_linked s s8 d m x Hcx (fun _ => cr_dir _ _ _ _ _ _ _ _ _ CR) Hnone (cr_entry _ _ _ _ _ _ _ _ _ CR) (cr_names _ _ _ _ _ _ _ _ _ CR)); try done; [|by apply (starts_reach s cwd path)].
  intros k Hk Hkd Hne. assert (k <> m) by (intros ->; by rewrite Hkd in Hfr). pose proof (ft_range _ FT k Hk) as Hkr. split.
  - unfold dtype. by rewrite (cr_nodes _ _ _ _ _ _ _ _ _ CR).
  - apply (cr_files _ _ _ _ _ _ _ _ _ CR); try done; [|by apply (ft_off _ FT)|intros b; by apply (ft_apart _ FT)].
    by apply (wk_tree _ (ft_walk _ FT)).
Qed.

(** A volume with an empty root directory: the bare one, after its first inode
    has been made a directory. *)
Lemma root_tree s :
  icache_idle s -> layout s -> inodes_ok s ∅ -> dnode s 1 = as_disk 1 (made T_DIR 0 0) -> 1 < sb_ninodes (f_sb s) -> fs_tree s /\ dcontents s 1 = [].
Proof.
  intros ID L IO E Hn. assert (Hr : 0 <= 1 < sb_ninodes (f_sb s)) by lia. pose proof (IBLOCK_data s ∅ (id_txn _ ID) L (io_table _ _ IO) 1 Hr) as D.
  destruct (empty_disk_file s 1 (made T_DIR 0 0) E eq_refl eq_refl ltac:(done) ltac:(lia) D) as [DF OT].
  assert (Hc : dcontents s 1 = []) by (unfold dcontents; by rewrite E).
  assert (HR : forall n, reach s n -> n = 1) by (induction 1 as [|n x n' _ -> _ Hx]; [done|]; by rewrite Hc in Hx).
  split; [|done]. constructor; [constructor; [done|done|]|done| | |].
  - intros n ->%HR. constructor; [apply D|unfold dtype; by rewrite E|by rewrite E|]. intros _. split; [done|by rewrite E].
  - by intros n ->%HR.
  - by intros n ->%HR.
  - by intros n n' b ->%HR ->%HR.
Qed.

Lemma root_fs : exists s, fs_tree s /\ dnode s 1 = as_disk 1 (made T_DIR 0 0) /\ dcontents s 1 = [] /\ sb_ninodes (f_sb s) = 200 /\ dtype s 2 = 0 /\ room s 9 /\ free_ge s 2.
Proof.
  destruct bare_fs_ok as (s & T & L & R & IO & Q & Hz). assert (Hz0 : forall j, i_ref (geti (bare_fs s) j) = 0) by (intros j; destruct (bare_slot s j) as [E|E]; by rewrite E).
  assert (Hc : cacheable (bare_fs s) 1) by (right; exists 0%nat; split; [cbn; lia|done]).
  destruct (make_inode (bare_fs s) ∅ 1 T_DIR 0 0 T L IO (room_le _ 20 3 R ltac:(lia))) as (i & s1 & s2 & s3 & _ & _ & _ & T3 & _ & IO3 & [M1 M2 M3 M4 M5 [M6 M7] M8]); try done; try lia.
  { by apply Hz. }
  { intros i _. rewrite Hz0. lia. }
  rewrite union_empty_r_L in IO3. pose proof (tc_sb _ _ _ M2) as Esb. destruct (iunlockput_ok s3 {[i]} 1 i T3 (io_cache _ _ IO3) M3) as (s4 & _ & T4 & I4 & S4).
  { set_solver+. }
  { rewrite M5, Hz0, one_eq. lia. }
  { by rewrite M1. }
  rewrite difference_diag_L in I4. pose proof (sh_stable _ _ _ S4) as St. exists s4.
  assert (IO4 : inodes_ok s4 ∅) by (apply (inodes_shifted s3 s4 _ _ _ IO3 I4 S4); intros j; pose proof (one_pos i j); lia).
  assert (Esb4 : sb_ninodes (f_sb s4) = 200) by by rewrite (sa_sb _ _ St), Esb. assert (Hr4 : forall j, i_ref (geti s4 j) = 0).
  { intros j. rewrite (sh_ref _ _ _ S4), M5, Hz0. lia. }
  assert (E4 : dnode s4 1 = as_disk 1 (made T_DIR 0 0)) by (rewrite (dnode_stable _ _ _ St); exact M1).
  assert (R4 : room s4 18) by (apply (stable_room s3); [done|by apply M8]). assert (Hl : length (f_icache s4) = 50%nat) by (rewrite (sh_len _ _ _ S4), M6; done).
  assert (ID : icache_idle s4).
  { constructor; [done|apply (room_le _ 18 1 R4); lia|done| |intros j; rewrite Hr4; lia]. exists 0%nat, 1%nat. rewrite Hl, !Hr4. repeat split; lia. }
  destruct (root_tree s4 ID (stable_layout _ _ St (tc_layout _ _ _ M2)) IO4 E4) as [FT Hd]; [rewrite Esb4; lia|].
  split; [done|]. split; [done|]. split; [done|]. split; [done|]. split.
  - unfold dtype. rewrite (dnode_stable _ _ _ St), (tc_other _ _ _ M2 2) by done. by apply Hz.
  - split; [apply (room_le _ 18 9 R4); lia|]. apply (stable_free s3 s4 2 St), (tc_free _ _ _ M2), (free_ge_le _ 10 2 Q). lia.
Qed.

(** The file [/a] is made in an empty root directory. *)
Lemma create_names_witness :
  exists (D : DevSw) s i s', dcontents s 1 = [] /\ create None [47; 97] T_FILE 0 0 s = Ok (Some i) s' /\ got s' 2 i /\ walk s' false ROOTINO (elements [47; 97]) = Some 2.
Proof.
  exists FsDir.no_devices. destruct root_fs as (s & FT & E & Hc & Hn & Hz & R & Q). assert (Ht : dtype s 1 = T_DIR) by (unfold dtype; by rewrite E).
  destruct (@create_names FsDir.no_devices s None [47; 97] [97] 1 1 2 T_FILE 0 0 FT) as (i & s' & E1 & C & W); try done.
  - repeat constructor; lia.
  - change (elements [47; 97]) with [[97]]. cbn [walk]. by rewrite Ht.
  - by rewrite Hc.
  - by rewrite E.
  - rewrite Hn. do 2 (split; [done|]). split; [done|]. intros k Hk. replace k with 1 by lia. by rewrite Ht.
  - exists s, i, s'. split; [done|]. split; [exact E1|]. split; [apply C|exact W].
Defined.
