(* ===== verification/FsCommit.v ===== *)
(** File system transactions as a whole: from a volume at rest, through
    [begin_op] and the operations, to [end_op] and a volume at rest again, and
    what a crash at any block write in between leaves. *)

From S2P Require Import Prelude Params Spinlock Klock Bytes Bio Bcache Log Commit LogOps Recover CrashSpec Pipe Kalloc Vm Proc Fs File Txn FsBlocks FsRead FsWrite FsInode FsContents FsSpec FsDir FsCache FsPath FsFree FsAlloc FsCreate.
Open Scope Z_scope.
Open Scope xv6_scope.

(** * States with the same files *)

Record same_files (s s' : fs) : Prop := {
  sf_data : forall b, datablock s b -> datablock s' b /\ blk s' b = blk s b;
  sf_sb : f_sb s' = f_sb s;
  sf_node : forall k, 0 <= k < sb_ninodes (f_sb s) -> dnode s' k = dnode s k
}.

Lemma same_files_stable s s' : stable s s' -> same_files s s'.
Proof. intros S. constructor; [intros b Hb; split; [by apply (stable_datablock s)|apply S]|apply S|]. intros k _. by apply dnode_stable. Qed.

Section same_files.
Context (s s' : fs) (S : same_files s s') (k : Z) (Hk : 0 <= k < sb_ninodes (f_sb s)) (DF : disk_file s k).

Lemma same_owned b : owns s (dnode s k) b -> blk s' b = blk s b.
Proof using S DF. intros Ho. by apply S, (owns_data _ _ _ (df_wf _ _ DF)). Qed.

Lemma same_file : disk_file s' k.
Proof using S Hk DF. apply (kept_file s s' k (sf_node _ _ S k Hk) (sf_sb _ _ S) same_owned); [|done]. intros b Hb. by apply S. Qed.

Lemma same_off : off_table s (dnode s k) -> off_table s' (dnode s' k).
Proof using S Hk DF. by apply (kept_off s s' k (sf_node _ _ S k Hk) (sf_sb _ _ S) same_owned). Qed.

Lemma same_owns b : owns s' (dnode s' k) b <-> owns s (dnode s k) b.
Proof using S Hk DF. by apply (kept_owns s s' k (sf_node _ _ S k Hk) same_owned). Qed.

Lemma same_contents : dcontents s' k = dcontents s k.
Proof using S Hk DF. by apply (kept_contents s s' k (sf_node _ _ S k Hk) same_owned). Qed.
End same_files.

(** * States that agree outside the log *)

Section agree.
Context (s s' : fs) (LY : layout s) (IT : itable_ok s) (Hd : nblk s < 2 ^ 31).
Context (A : forall m, home s m -> blk s' m = blk s m) (Esb : f_sb s' = f_sb s).

Lemma agree_map b : 0 <= b < sb_size (f_sb s) -> home s (BBLOCK b (f_sb s)).
Proof using LY Hd.
  intros Hb. pose proof (la_map s LY b Hb) as Hh. unfold BBLOCK. rewrite u32_id; [done|]. destruct Hh as [Hr _]. lia.
Qed.

Lemma agree_used b : 0 <= b < sb_size (f_sb s) -> used s' b = used s b.
Proof using LY Hd A Esb. intros Hb. unfold used. rewrite Esb, A; [done|]. by apply agree_map. Qed.

Lemma agree_inode_home n : 0 <= n < sb_ninodes (f_sb s) -> home s (IBLOCK n (f_sb s)).
Proof using LY IT Hd.
  intros Hn. pose proof (it_block _ IT n Hn) as D. pose proof (db_range _ _ D). pose proof (la_size _ LY). unfold IBLOCK. rewrite u32_id by lia. apply D.
Qed.

Lemma agree_dnode n : 0 <= n < sb_ninodes (f_sb s) -> dnode s' n = dnode s n.
Proof using LY IT Hd A Esb. intros Hn. unfold dnode, disk_inode. rewrite Esb, A; [done|]. by apply agree_inode_home. Qed.

Lemma agree_owned ip b : file_wf s ip -> owns s ip b -> blk s' b = blk s b.
Proof using A. intros W Ho. by apply A, (owns_data _ _ _ W). Qed.

Lemma agree_contents n : 0 <= n < sb_ninodes (f_sb s) -> disk_file s n -> dcontents s' n = dcontents s n.
Proof using LY IT Hd A Esb.
  intros Hn DF. apply kept_contents; [by apply agree_dnode| |done]. intros b. by apply agree_owned, DF.
Qed.

Context (Hh : forall m, home s m -> home s' m) (Hz : nblk s' = nblk s) (H1 : home s 1).

Lemma agree_datablock b : datablock s b -> datablock s' b.
Proof using LY Hd A Esb Hh.
  intros [D1 D2 D3 D4]. constructor; rewrite ?Esb; try done; [rewrite agree_used by lia; done|by apply Hh].
Qed.

Lemma agree_layout : layout s'.
Proof using LY Hd A Esb Hh Hz H1.
  pose proof LY as [L1 L2 L3 L4 L5 L6 (L7 & L8 & L9) L10]. constructor; rewrite ?Esb, ?Hz; try done.
  - intros b Hb. by apply Hh, L3.
  - intros b Hb. rewrite agree_used by done. intros Hu. by apply Hh, L4.
  - intros b c Hb Hc. rewrite agree_used by done. by apply L5.
  - by rewrite A.
  - rewrite agree_used by lia. done.
  - rewrite agree_used by lia. done.
Qed.

Lemma agree_itable : itable_ok s'.
Proof using LY IT Hd A Esb Hh. destruct IT as [I1 I2]. constructor; rewrite Esb; [done|]. intros n Hn. by apply agree_datablock, I2. Qed.

Lemma agree_free k : free_ge s k -> free_ge s' k.
Proof using LY Hd A Esb.
  intros (l & Hu & Hl & Hf). exists l. do 2 (split; [done|]). intros b Hb. rewrite Esb. destruct (Hf b Hb) as [Hr Hx]. split; [done|]. by rewrite agree_used.
Qed.

Lemma agree_same : same_files s s'.
Proof using LY IT Hd A Esb Hh. constructor; [intros b Hb; split; [by apply agree_datablock|by apply A, Hb]|done|exact agree_dnode]. Qed.

Lemma agree_inodes L : f_icache s' = f_icache s -> inodes_ok s L -> inodes_ok s' L.
Proof using LY IT Hd A Esb Hh.
  intros Ei [[I U] _ R]. assert (G : forall j, geti s' j = geti s j) by (intros j; unfold geti; by rewrite Ei).
  constructor; [constructor| |].
  - intros j. rewrite G. destruct (I j) as [K1 K2 K3 K4 K5 K6]. constructor; try done. intros Hr Hv. rewrite agree_dnode by by apply R. by apply K5.
  - intros j k. rewrite !G. apply U.
  - exact agree_itable.
  - intros j. rewrite G, Esb. apply R.
Qed.
End agree.

(** * The volume at rest *)

(** No transaction is running, nothing is logged, and the disk can be booted. *)
Record rest (s : fs) : Prop := {
  re_log : log_ok (f_l s);
  re_calm : exists ord, calm (l_b (f_l s)) ord [];
  re_n : lh_n (f_l s) = 0;
  re_out : lg_outstanding (f_l s) = 0;
  re_comm : lg_committing (f_l s) = false;
  re_size : lg_size (f_l s) <= NBUF;
  re_len : forall n, length (blk s n) = Z.to_nat BSIZE;
  re_pos : 1 < lg_start (f_l s);
  re_start : s32 (sb_logstart (superblock_of (blk s 1))) = lg_start (f_l s);
  re_nlog : s32 (sb_nlog (superblock_of (blk s 1))) = lg_size (f_l s);
  re_header : header_n (blk s (lg_start (f_l s))) = 0
}.

Lemma rest_disk s m : rest s -> block_of (disk (l_b (f_l s))) m = blk s m.
Proof. intros [_ (ord & C) _ _ _ _ _ _ _ _ _]. symmetry. by eapply calm_content. Qed.

Lemma rest_super s : rest s -> home s 1.
Proof.
  intros R. pose proof (lo_n _ (re_log _ R)). pose proof (lo_end _ (re_log _ R)). pose proof (re_pos _ R). split; [unfold nblk; lia|]. unfold in_log. lia.
Qed.

Lemma rest_none_logged s : rest s -> logged (f_l s) = [].
Proof. intros R. unfold logged. by rewrite (re_n _ R). Qed.

(** The state in which [begin_op] has let an operation in. *)
Definition begun (s : fs) : fs := put (set_outstanding 1 (f_l s)) s.

Lemma begin_rest s : rest s -> begin_op (f_l s) = Ok tt (f_l (begun s)) /\ txn (begun s) ∅.
Proof.
  intros R. pose proof R as [H1 (ord & [C1 C2 C3]) H3 H4 H5 H6 H7 _ _ _ _]. split.
  - rewrite begin_op_room; [by rewrite H4|done|]. split; [done|]. rewrite H3, H4. done.
  - constructor; cbn; try done; [by destruct H1; constructor|by exists ord|]. change (logged _) with (logged (f_l s)). by rewrite (rest_none_logged _ R).
Qed.

(** * The end of a transaction *)

Lemma replay_len ws d m :
  (forall w, w ∈ ws -> length w.2 = Z.to_nat BSIZE) -> length (block_of d m) = Z.to_nat BSIZE -> length (block_of (replay ws d) m) = Z.to_nat BSIZE.
Proof.
  revert d. induction ws as [|[n x] ws IH]; intros d Hw Hd; [done|]. change (replay ((n, x) :: ws) d) with (replay ws (replay [(n, x)] d)).
  apply IH; [intros w H; apply Hw; by right|]. destruct (decide (n = m)) as [->|Hne].
  - rewrite block_of_replay1. apply (Hw (m, x)). by left.
  - by rewrite block_of_replay1_ne.
Qed.

Lemma commit_writes_len l h1 h0 w :
  (forall m, length (content (l_b l) m) = Z.to_nat BSIZE) -> length h1 = Z.to_nat BSIZE -> length h0 = Z.to_nat BSIZE ->
  w ∈ commit_writes l h1 h0 -> length w.2 = Z.to_nat BSIZE.
Proof.
  intros Hc Hh1 Hh0. unfold commit_writes. assert (HL : forall a bs, w ∈ log_copies a bs (content (l_b l)) -> length w.2 = Z.to_nat BSIZE).
  { intros a bs. revert a. induction bs as [|b bs IH]; intros a; [by intros ?%not_elem_of_nil|]. intros [->|H]%elem_of_cons; [apply Hc|by eapply IH]. }
  rewrite !elem_of_app. intros [H|[->%list_elem_of_singleton|[H| ->%list_elem_of_singleton]]]; [by eapply HL|done| |done].
  unfold homes in H. apply list_elem_of_fmap in H as (b & -> & _). apply Hc.
Qed.

(** A resting log differs from the log before the commit in little. *)
Lemma log_ok_done l b c : log_ok l -> disksize b = disksize (l_b l) -> held c = ∅ ->
  log_ok (put c (set_committing false (put b (set_lh 0 (lh_block l) (set_committing true (set_outstanding 0 l)))))).
Proof.
  intros [H1 H2 H3 H4 H5 H6 H7 H8] Hz Hh. constructor; cbn; rewrite ?Hz; try done; [lia|]. intros b' Hb. by apply not_elem_of_nil in Hb.
Qed.

Lemma calm_ctx (b : bst) (c : kctx) ord : calm b ord [] -> held c = ∅ -> calm (put c b) ord [].
Proof. intros [[] H D] Hc. constructor; [by constructor|done|done]. Qed.

(** Booting a disk with an empty header. *)
Lemma rest_boot s : rest s -> exists r, boot (cold (disk (l_b (f_l s))) (nblk s)) = Ok tt r /\ forall m, home s m -> content (l_b r) m = blk s m.
Proof.
  intros R. pose proof (re_log _ R) as Hok. pose proof (lo_n _ Hok) as Hn. rewrite (re_n _ R) in Hn.
  destruct (boot_ok (disk (l_b (f_l s))) (nblk s) (lg_start (f_l s)) (lg_size (f_l s))) as (r & h0 & E & _ & Hd & Hc).
  { constructor; rewrite ?rest_disk by done; try apply R; try apply Hok; rewrite ?(re_header _ R); [lia|done|].
    intros b Hb. unfold header_list in Hb. rewrite (re_header _ R) in Hb. by apply not_elem_of_nil in Hb. }
  exists r. split; [exact E|]. intros m [_ Hm]. rewrite Hc, Hd. unfold header_list. rewrite rest_disk, (re_header _ R) by done.
  change (block_of (replay [(lg_start (f_l s), h0)] (disk (l_b (f_l s)))) m = blk s m). rewrite block_of_replay1_ne; [by apply rest_disk|]. intros ->. apply Hm. unfold in_log. lia.
Qed.

(** A transaction that began at [s0] and had reached [s] has been committed;
    [ws] are its block writes, and a crash after any of them leaves [s0] or
    [s]. *)
Record committed (ws : list (Z * bytes)) (s0 s s' : fs) : Prop := {
  co_rest : rest s';
  co_blk : forall m, home s m -> blk s' m = blk s m;
  co_conf : lg_start (f_l s') = lg_start (f_l s0) /\ lg_size (f_l s') = lg_size (f_l s0);
  co_wrote : Commit.wrote ws (l_b (f_l s0)) (l_b (f_l s'));
  co_crash : forall k, exists r, boot (cold (replay (take k ws) (disk (l_b (f_l s0)))) (nblk s0)) = Ok tt r /\
    ((forall m, home s0 m -> content (l_b r) m = blk s0 m) \/ (forall m, home s0 m -> content (l_b r) m = blk s m))
}.

Section end_op.
Context (s0 s : fs) (R : rest s0) (T : txn s ∅) (IN : inside (fun x => 1 < x) (begun s0) s).
Let l := f_l s.
Let l0 := set_committing true (set_outstanding 0 l).

Lemma end_conf : lg_start l = lg_start (f_l s0) /\ lg_size l = lg_size (f_l s0) /\ lg_outstanding l = 1 /\ lg_committing l = false.
Proof using R IN. pose proof (in_conf _ _ _ IN) as E. injection E as E1 E2 E3 E4 _. unfold l. rewrite E1, E2, E3, E4. cbn. by rewrite (re_comm _ R). Qed.

Lemma end_home m : home s m <-> home s0 m.
Proof using R IN.
  destruct end_conf as (E1 & E2 & _). unfold home, in_log. fold l. rewrite E1, E2, (in_nblk _ _ _ IN). done.
Qed.

Lemma end_disk m : block_of (disk (l_b l)) m = blk s0 m.
Proof using R IN. unfold l. rewrite (in_disk _ _ _ IN). exact (rest_disk s0 m R). Qed.

Lemma end_super : 1 ∉ logged l.
Proof using R IN.
  intros H. apply (in_logged _ _ _ IN) in H as [H|H]; [|lia]. change (logged _) with (logged (f_l s0)) in H. rewrite (rest_none_logged _ R) in H. by apply not_elem_of_nil in H.
Qed.

Lemma end_calm : exists ord, calm (l_b l) ord (logged l).
Proof using T. destruct (tx_inv _ _ T) as [ord I]. exists ord. constructor; [done|apply T|apply T]. Qed.

Lemma end_txn ord : calm (l_b l) ord (logged l) -> 0 < lh_n l -> txn_ok l0 ord.
Proof using R T IN.
  intros C Hn. destruct end_conf as (E1 & E2 & _). pose proof (Txn.tx_log _ _ T) as [K1 K2 K3 K4 K5 K6 K7 K8].
  constructor; change (disk (l_b l0)) with (disk (l_b l)); change (lg_start l0) with (lg_start l); change (lg_size l0) with (lg_size l);
    rewrite ?end_disk, ?E1, ?E2; try apply R; try done. exact end_super.
Qed.

Lemma end_blk ord m : calm (l_b l) ord (logged l) -> m ∉ logged l -> blk s m = blk s0 m.
Proof using R IN. intros C Hm. rewrite <- end_disk. by apply (clean_content _ ord (logged l)). Qed.

(** With nothing logged nothing is written. *)
Lemma end_empty : lh_n l = 0 -> exists l', end_op l = Ok tt l' /\ committed [] s0 s (put l' s).
Proof using R T IN.
  intros Hn. destruct end_conf as (E1 & E2 & E3 & E4). destruct end_calm as [ord C]. assert (Hl : logged l = []) by (unfold logged; by rewrite Hn).
  assert (Ec : commit l0 = Ok tt l0).
  { unfold commit, bind, gets. cbn [seqr]. unfold when. change (lh_n l0) with (lh_n l). by rewrite Hn. }
  assert (Hh : held (bc_ctx (l_b l)) = ∅) by apply C. rewrite end_op_unfold by done. rewrite (bind_ok _ _ _ _ _ Ec), end_finish_ok by done.
  eexists. split; [reflexivity|]. set (c := set_woken _ _). set (l' := put c (set_committing false l0)).
  assert (Hb : forall m, blk (put l' s) m = blk s0 m) by (intros m; change (blk (put l' s) m) with (blk s m); apply (end_blk ord); [done|]; rewrite Hl; apply not_elem_of_nil).
  pose proof (Txn.tx_log _ _ T) as K. assert (Hn0 : lh_n l' = 0) by exact Hn. constructor.
  - constructor; cbn [f_l put fs_lst]; try done; rewrite ?Hb; try (change (lg_start l') with (lg_start l); rewrite E1); try (change (lg_size l') with (lg_size l); rewrite E2); try apply R.
    + destruct K as [K1 K2 K3 K4 K5 K6 K7 K8]. constructor; cbn; try done.
    + exists ord. rewrite <- Hl. destruct C as [[] C2 C3]. constructor; [by constructor|done|done].
    + intros n. rewrite Hb. apply R.
  - done.
  - done.
  - apply wrote_nil; [exact (in_writes _ _ _ IN)|exact (in_disk _ _ _ IN)|exact (in_nblk _ _ _ IN)].
  - intros k. rewrite take_nil. destruct (rest_boot s0 R) as (r & E & Hr). exists r. split; [exact E|]. by left.
Qed.
Lemma end_some : 0 < lh_n l -> exists l' ws, end_op l = Ok tt l' /\ committed ws s0 s (put l' s).
Proof using R T IN.
  intros Hn. destruct end_conf as (E1 & E2 & E3 & E4). destruct end_calm as [ord C]. pose proof (end_txn ord C Hn) as TX.
  pose proof (Txn.tx_log _ _ T) as K. fold l in K. assert (K0 : log_ok l0) by (destruct K; by constructor). pose proof (lo_n _ K) as Hln.
  pose proof (tx_h0_n l0 ord TX) as Hh0. pose proof (crash_point l0 ord TX) as Hcr. cbn zeta in Hcr.
  destruct (commit_ok l0 ord K0 C Hn) as (b & ord' & Ec & C' & W). set (h1 := header _ _ _) in *. set (ws := commit_writes l0 h1 (put32 0 0 h1)) in *.
  assert (Hh1 : length h1 = Z.to_nat BSIZE).
  { assert (Hl : length (content (l_b l0) (lg_start l0)) = Z.to_nat BSIZE) by apply (tx_len _ _ T). 
    assert (Hp : length (put32 0 (lh_n l0) (content (l_b l0) (lg_start l0))) = Z.to_nat BSIZE) by (rewrite put32_length; rewrite Hl; [done|unfold BSIZE; lia]).
    unfold h1, header. rewrite header_blocks_length; rewrite Hp; [done|]. pose proof (logged_length l0 K0) as Hlg. rewrite Hlg. pose proof (lo_small _ K0). unfold NBUF, MAXOPBLOCKS, BSIZE in *. lia. }
  assert (Hst : ~ home s (lg_start l)) by (intros [_ H]; apply H; unfold in_log; fold l; lia).
  assert (Hh : held (bc_ctx (l_b l)) = ∅) by apply C. rewrite end_op_unfold by done. rewrite (bind_ok _ _ _ _ _ Ec), end_finish_ok by apply C'.
  eexists _, ws. split; [reflexivity|]. set (c := set_woken _ _). set (l' := put c _).
  assert (Hc : held c = ∅) by apply C'. assert (Hb : forall m, blk (put l' s) m = block_of (disk b) m) by (intros m; exact (calm_content b ord' m C')).
  assert (Hhome : forall m, home s m -> blk (put l' s) m = blk s m).
  { intros m [_ Hm]. rewrite Hb, (commit_home l0 b _ _ m K0 W Hm). case_decide as Hd; [done|]. symmetry. by apply (clean_content _ ord (logged l)). }
  assert (H1 : blk (put l' s) 1 = blk s0 1) by (rewrite Hhome; [by apply (end_blk ord), end_super|by apply end_home, rest_super]).
  constructor.
  - constructor; rewrite ?H1; change (f_l (put l' s)) with l'; try done; try (change (lg_start l') with (lg_start l); rewrite E1);
      try (change (lg_size l') with (lg_size l); rewrite E2); try apply R.
    + apply log_ok_done; [done|apply (wr_size _ _ _ W)|done].
    + exists ord'. by apply calm_ctx.
    + intros n. rewrite Hb, (wr_disk _ _ _ W). apply replay_len.
      * intros w. apply commit_writes_len; [apply (tx_len _ _ T)|done|]. rewrite put32_length; [done|]. rewrite Hh1. unfold BSIZE. lia.
      * change (disk (l_b l0)) with (disk (l_b l)). rewrite end_disk. apply R.
    + rewrite Hb, (wr_disk _ _ _ W). unfold ws, commit_writes. rewrite !replay_app, <- E1. change (lg_start l0) with (lg_start l). rewrite block_of_replay1. exact Hh0.
  - exact Hhome.
  - done.
  - destruct W as [W1 W2 W3]. constructor; cbn [f_l put fs_lst].
    + change (writes b = writes (l_b (f_l s0)) ++ ws). rewrite W1. f_equal. exact (in_writes _ _ _ IN).
    + change (disk b = replay ws (disk (l_b (f_l s0)))). rewrite W2. f_equal. exact (in_disk _ _ _ IN).
    + change (disksize b = nblk s0). rewrite W3. exact (in_nblk _ _ _ IN).
  - intros k. destruct (Hcr k) as (r & E & Hr). exists r. split.
    + rewrite <- E. f_equal. f_equal; [|symmetry; exact (in_nblk _ _ _ IN)]. f_equal. symmetry. exact (in_disk _ _ _ IN).
    + destruct Hr as [Hr|Hr]; [left|right]; intros m [_ Hm]%end_home; rewrite (Hr m Hm); [|done]. exact (end_disk m).
Qed.

Lemma end_rest : exists l' ws, end_op l = Ok tt l' /\ committed ws s0 s (put l' s).
Proof using R T IN.
  destruct (decide (lh_n l = 0)) as [Hz|Hz]; [destruct (end_empty Hz) as (l' & H); by exists l', []|].
  apply end_some. pose proof (lo_n _ (Txn.tx_log _ _ T)) as H. fold l in H. lia.
Qed.
End end_op.

(** * One transaction of [filewrite] *)

(** The volume at rest, as [mkfs] lays it out: its log has [LOGSIZE] blocks and
    its free map one. *)
Record volume (s : fs) : Prop := {
  vo_rest : rest s;
  vo_layout : layout s;
  vo_inodes : inodes_ok s ∅;
  vo_map : sb_size (f_sb s) <= BPB;
  vo_log : lg_size (f_l s) = LOGSIZE
}.

(** Inode [n] is a file, and slot [ip] of the cache stands for it. *)
Record opened (s : fs) (n : Z) (ip : nat) : Prop := {
  op_got : got s n ip;
  op_file : disk_file s n;
  op_off : off_table s (dnode s n);
  op_type : dtype s n <> 0
}.

(** Another file. *)
Record bystander (s : fs) (n k : Z) : Prop := {
  by_range : 0 <= k < sb_ninodes (f_sb s);
  by_ne : k <> n;
  by_file : disk_file s k;
  by_off : off_table s (dnode s k);
  by_apart : forall b, owns s (dnode s k) b -> ~ owns s (dnode s n) b
}.

Lemma opened_range s n ip L : inodes_ok s L -> opened s n ip -> 0 <= n < sb_ninodes (f_sb s).
Proof. intros IO [[G1 G2] _ _ _]. rewrite <- G2. by apply IO. Qed.

Lemma touched_chunk off c : 0 <= off -> 0 <= c <= FWMAX -> touched off c <= 14.
Proof. change FWMAX with 6656. intros. unfold touched, BSIZE. destruct (Z.ltb_spec 0 c); [zdiv|lia]. Qed.

Lemma volume_disk s : volume s -> nblk s < 2 ^ 31.
Proof. intros V. apply (lo_disk _ (re_log _ (vo_rest _ V))). Qed.

Lemma bystander_same s s' n k :
  same_files s s' -> 0 <= n < sb_ninodes (f_sb s) -> disk_file s n -> bystander s n k -> bystander s' n k /\ dcontents s' k = dcontents s k.
Proof.
  intros SF Hn DF [B1 B2 B3 B4 B5]. split; [|by apply same_contents]. constructor; [by rewrite (sf_sb _ _ SF)|done|by apply (same_file s)|by apply (same_off s)|].
  intros b. rewrite !(same_owns s s') by done. apply B5.
Qed.

Lemma opened_same s s' n ip : same_files s s' -> 0 <= n < sb_ninodes (f_sb s) -> got s' n ip -> opened s n ip -> opened s' n ip.
Proof.
  intros SF Hn G [_ DF OT Ht]. constructor; [done|by apply (same_file s)|by apply (same_off s)|]. unfold dtype. by rewrite (sf_node _ _ SF).
Qed.

(** A cached copy that agrees with the disk. *)
Lemma file_ok_disk s n ip : file_ok s ip -> dnode s n = core (geti s ip) -> disk_file s n.
Proof.
  intros [F1 F2 F3 F4 F5 F6 F7] E. assert (En : i_inum (geti s ip) = n) by (change (i_inum (core (geti s ip)) = n); by rewrite <- E).
  unfold inode_block in F7. rewrite En in F7, F4. destruct F7 as [A1 A2 A3]. constructor; unfold dtype; rewrite ?E; try done.
  destruct F2. by constructor.
Qed.

Section chunk.
Context `{DevSw}.
Context (s : fs) (V : volume s) (n : Z) (ip : nat) (OP : opened s n ip).

Let R : rest s := vo_rest _ V.
Let LY : layout s := vo_layout _ V.

Lemma begun_layout : layout (begun s).
Proof using V. apply (agree_layout s (begun s) LY (volume_disk s V)); try done. by apply rest_super. Qed.

Lemma begun_inodes : inodes_ok (begun s) ∅.
Proof using V. by apply (agree_inodes s (begun s) LY (io_table _ _ (vo_inodes _ V)) (volume_disk s V)); [..|apply V]. Qed.

Lemma begun_same : same_files s (begun s).
Proof using V. by apply (agree_same s (begun s) LY (io_table _ _ (vo_inodes _ V)) (volume_disk s V)). Qed.

Lemma begun_room k : k < LOGSIZE -> room (begun s) k.
Proof using V. intros Hk. split; cbn; rewrite (re_n _ R); [by rewrite (vo_log _ V)|done]. Qed.

(** The inode locked. *)
Record locked_in (s2 : fs) : Prop := {
  lk_txn : txn s2 ∅;
  lk_inodes : inodes_ok s2 {[ip]};
  lk_shift : shifted none (begun s) s2;
  lk_got : got s2 n ip;
  lk_core : core (geti s2 ip) = dnode s2 n;
  lk_dnode : dnode s2 n = dnode s n;
  lk_file : file_ok s2 ip;
  lk_contents : contents s2 ip = dcontents s n
}.

Lemma chunk_lock : exists s2, ilock ip (begun s) = Ok tt s2 /\ locked_in s2.
Proof using V OP.
  destruct OP as [G DF OT Ht]. pose proof begun_inodes as IO. pose proof (opened_range _ _ _ _ (vo_inodes _ V) OP) as Hn.
  destruct (begin_rest s R) as [_ T1]. assert (G1 : got (begun s) n ip) by (destruct G; by constructor).
  destruct (ilock_locks (begun s) ∅ n ip T1 (begun_room 1 ltac:(done)) (io_cache _ _ IO) G1) as (s2 & E2 & T2 & I2 & S2 & C2 & _); [set_solver+| |done|].
  { apply (agree_inode_home s LY (io_table _ _ (vo_inodes _ V)) (volume_disk s V) n Hn). }
  rewrite union_empty_r_L in I2. pose proof (sh_stable _ _ _ S2) as St. change (dnode (begun s) n) with (dnode s n) in C2.
  assert (G2 : got s2 n ip) by (apply (got_shifted none (begun s)); [done|done|]; rewrite (sh_ref _ _ _ S2); unfold none; pose proof (gt_ref _ _ _ G1); lia).
  exists s2. split; [done|]. assert (D2 : dnode s2 n = dnode s n) by by rewrite (dnode_stable _ _ _ St). constructor; try done.
  - apply (inodes_shifted (begun s) s2 none ∅); [done|done|done|]. intros j. unfold none. lia.
  - by rewrite C2.
  - apply (core_file (begun s) s2 St n ip (ref_index _ _ (gt_ref _ _ _ G2)) C2). by apply (same_file s (begun s) begun_same).
  - exact (core_contents (begun s) s2 St n ip C2).
Qed.

(** Files are as they were before the transaction. *)
Lemma locked_same s2 : locked_in s2 -> same_files s s2.
Proof using V.
  intros K. destruct (same_files_stable _ _ (sh_stable _ _ _ (lk_shift _ K))) as [B1 B2 B3]. destruct begun_same as [A1 A2 A3]. constructor.
  - intros b Hb. destruct (A1 b Hb) as [Hb1 E1]. destruct (B1 b Hb1) as [Hb2 E2]. split; [done|]. by rewrite E2.
  - by rewrite B2.
  - intros k Hk. by rewrite B3.
Qed.

Context (src : bytes) (off c : Z) (Hoff : 0 <= off <= i_size (dnode s n)) (Hc : 0 <= c <= FWMAX) (Hsrc : c <= Z.of_nat (length src)).
Context (Hmax : off + c <= MAXFILE * BSIZE) (Hfree : free_ge s (2 * Z.to_nat (touched off c))).

(** The log has room for the blocks of one call of [writei]. *)
Lemma chunk_distinct s2 : locked_in s2 -> distinct ip (touched off c) s2.
Proof using All.
  intros K. pose proof (sh_stable _ _ _ (lk_shift _ K)) as St. pose proof (sa_inside _ _ St) as IN. pose proof (in_conf _ _ _ IN) as Ec. injection Ec as _ Ec _ _ _.
  assert (Hl : logged (f_l (begun s)) = []) by apply (rest_none_logged s R). split; [apply IN; rewrite Hl; constructor|].
  exists {[BBLOCK 0 (f_sb s)]}. split; [|split].
  - intros b Hb. apply (in_logged _ _ _ IN) in Hb as [Hb|[]]. rewrite Hl in Hb. by apply not_elem_of_nil in Hb.
  - intros b (x & Hx & ->). rewrite (sa_sb _ _ St) in *. cbn in Hx |- *. pose proof (vo_map _ V) as Hm. apply elem_of_singleton. unfold BBLOCK.
    rewrite (Z.div_small x) by lia. by rewrite (Z.div_small 0).
  - rewrite size_singleton, Ec. change (lg_size (f_l (begun s))) with (lg_size (f_l s)). rewrite (vo_log _ V).
    pose proof (touched_chunk off c (proj1 Hoff) Hc). unfold LOGSIZE, NBUF, MAXOPBLOCKS. lia.
Qed.

(** After [writei]. *)
Record wrote_in (s3 : fs) : Prop := {
  wi_txn : txn s3 ∅;
  wi_layout : layout s3;
  wi_inodes : inodes_ok s3 {[ip]};
  wi_got : got s3 n ip;
  wi_dnode : dnode s3 n = core (geti s3 ip);
  wi_file : file_ok s3 ip;
  wi_contents : contents s3 ip = splice (Z.to_nat off) (take (Z.to_nat c) src) (dcontents s n);
  wi_off : off_table s3 (dnode s3 n);
  wi_type : dtype s3 n = dtype s n;
  wi_sb : f_sb s3 = f_sb s;
  wi_ref : forall j, i_ref (geti s3 j) = i_ref (geti s j);
  wi_inside : inside (fun x => 1 < x) (begun s) s3;
  wi_nodes : forall k, 0 <= k < sb_ninodes (f_sb s) -> k <> n -> dnode s3 k = dnode s k;
  wi_others : forall k, bystander s n k -> bystander s3 n k /\ dcontents s3 k = dcontents s k;
  wi_free : forall q, free_ge s (2 * Z.to_nat (touched off c) + q) -> free_ge s3 q
}.

Lemma chunk_write s2 : locked_in s2 -> exists s3, writei ip src off c s2 = Ok c s3 /\ wrote_in s3.
Proof using All.
  intros K. pose proof K as [T2 IO2 S2 G2 C2 D2 F2 Hc2]. pose proof (sh_stable _ _ _ S2) as St. pose proof (sa_sb _ _ St) as Esb. cbn in Esb.
  pose proof (stable_layout _ _ St begun_layout) as L2. pose proof F2 as [F21 F22 F23 F24 F25 F26 F27].
  pose proof (opened_range _ _ _ _ (vo_inodes _ V) OP) as Hn. assert (Hn2 : 0 <= n < sb_ninodes (f_sb s2)) by by rewrite Esb.
  assert (Hsz : i_size (geti s2 ip) = i_size (dnode s n)) by (rewrite <- D2, <- C2; done). assert (Ho2 : 0 <= off <= i_size (geti s2 ip)) by by rewrite Hsz.
  assert (Q2 : forall q, free_ge s q -> free_ge s2 q) by (intros q Hq; apply (stable_free (begun s) s2 q St); exact Hq).
  destruct (writei_metered ip (distinct ip) src off c s2 (meter_distinct ip) T2 L2 F22 F21 F23 F24 F27 Ho2 (proj1 Hc) Hmax Hsrc (chunk_distinct s2 K) (Q2 _ Hfree))
    as (s3 & E3 & T3 & W & _ & Q3). fold (inode_block s2 ip) in W.
  pose proof (locked_same s2 K) as SF. pose proof (same_owns s s2 SF n Hn (op_file _ _ _ OP)) as Hon2.
  pose proof (same_off s s2 SF n Hn (op_file _ _ _ OP) (op_off _ _ _ OP)) as Hof2.
  assert (Hoff2 : off_table s2 (geti s2 ip)) by (intros k Hk; rewrite <- owns_core, C2; by apply Hof2).
  pose proof (io_table _ _ IO2) as IT2.
  pose proof (wrote_self s2 s3 ip n off c src T2 T3 L2 IT2 F2 C2 Hn2 Hoff2 W Ho2 (proj1 Hc) Hmax) as Hself.
  pose proof (wrote_others s2 s3 ip n off c src T2 T3 L2 IT2 F2 C2 Hn2 Hoff2 W Ho2 (proj1 Hc) Hmax) as Hoth. rewrite Esb in Hoth.
  pose proof (wrote_table s2 s3 ip n off c src T2 T3 L2 IT2 F2 C2 Hn2 Hoff2 W Ho2 (proj1 Hc) Hmax) as IT3.
  destruct (wo_inode _ _ _ _ _ _ _ W) as [a Ha]. destruct (wo_others _ _ _ _ _ _ _ W) as [_ Gj].
  assert (Esb3 : f_sb s3 = f_sb s) by (rewrite (wo_sb _ _ _ _ _ _ _ W); exact Esb).
  assert (Ht3 : i_type (geti s3 ip) = dtype s n) by (rewrite Ha; unfold dtype; rewrite <- D2, <- C2; done).
  assert (Hr3 : forall j, i_ref (geti s3 j) = i_ref (geti s2 j)) by (intros j; destruct (decide (j = ip)) as [->|Hj]; [by rewrite Ha|by rewrite Gj]).
  assert (Hon3 : forall b, owns s3 (dnode s3 n) b -> owns s (dnode s n) b \/ ~ datablock s2 b).
  { intros b Hb. rewrite Hself, owns_core in Hb. destruct (wrote_owns s2 s3 ip off c src W b Hb) as [Ho|Ho]; [left|by right]. rewrite <- Hon2, <- C2, owns_core. exact Ho. }
  exists s3. split; [exact E3|]. constructor; try done.
  - apply W.
  - apply (inodes_rewrite s2 s3 ip n); try done; [by rewrite Ha|rewrite Ht3; apply OP|by rewrite Esb3|by rewrite Esb].
  - destruct G2 as [G21 G22]. constructor; [by rewrite Hr3|by rewrite Ha].
  - by apply (wrote_file_ok ip off c src s2); [..|lia|].
  - rewrite <- Hc2. apply (wrote_contents ip (inode_block s2 ip) off c src s2 s3); try done; lia.
  - intros m Hm Hb. rewrite Esb3 in *. destruct (Hon3 _ Hb) as [Ho|Ho]; [by apply (op_off _ _ _ OP m)|]. apply Ho. rewrite <- Esb. apply (it_block _ IT2). by rewrite Esb.
  - unfold dtype at 1. rewrite Hself. exact Ht3.
  - intros j. rewrite Hr3, (sh_ref _ _ _ S2). unfold none. change (geti (begun s) j) with (geti s j). lia.
  - apply (inside_trans _ _ s2); [|apply W]. refine (inside_weaken _ _ _ _ _ (sa_inside _ _ St)). by intros b [].
  - intros k Hk Hne. rewrite Hoth by done. by rewrite (dnode_stable _ _ _ St).
  - intros k [B1 B2 B3 B4 B5]. pose proof (same_file s s2 SF k B1 B3) as DFk. pose proof (same_off s s2 SF k B1 B3 B4) as Hofk. pose proof (same_owns s s2 SF k B1 B3) as Honk.
    assert (Hd3 : dnode s3 k = dnode s2 k) by by apply Hoth. assert (Hsb3 : f_sb s3 = f_sb s2) by apply W.
    assert (Hb3 : forall b, owns s2 (dnode s2 k) b -> blk s3 b = blk s2 b).
    { intros b Hb. apply (wrote_blocks_other s2 s3 ip n off c src T2 T3 L2 IT2 F2 C2 Hn2 Hoff2 W Ho2 (proj1 Hc) Hmax k b DFk Hofk Hb). rewrite <- owns_core, C2, Hon2. apply B5. by apply Honk. }
    split; [|rewrite <- (same_contents s s2 SF k B1 B3); by apply (kept_contents s2 s3 k Hd3 Hb3)]. constructor; [by rewrite Esb3|done| | |].
    + by apply (kept_file s2 s3 k Hd3 Hsb3 Hb3 (wo_data _ _ _ _ _ _ _ W)).
    + by apply (kept_off s2 s3 k Hd3 Hsb3 Hb3).
    + intros b Hb Hnb. apply (kept_owns s2 s3 k Hd3 Hb3) in Hb. destruct (Hon3 b Hnb) as [Ho|Ho]; [by apply (B5 b); [apply Honk|]|].
      apply Ho. by apply (owns_data _ _ _ (df_wf _ _ DFk)).
  - intros q Hq. by apply Q3, Q2.
Qed.

(** After a crash, the machine has booted with the disk of [r]; the inode cache
    is empty. *)
Definition rebooted (r : lst) : fs := Fs r (f_sb s) [].

(** The transaction is over: [s5] is at rest with the bytes written, and a crash
    at any of its block writes leaves the file as it was or as it is. *)
Record chunk_done (ws : list (Z * bytes)) (s5 : fs) : Prop := {
  cd_volume : volume s5;
  cd_opened : opened s5 n ip;
  cd_contents : dcontents s5 n = splice (Z.to_nat off) (take (Z.to_nat c) src) (dcontents s n);
  cd_sb : f_sb s5 = f_sb s;
  cd_ref : forall j, i_ref (geti s5 j) = i_ref (geti s j);
  cd_nodes : forall k, 0 <= k < sb_ninodes (f_sb s) -> k <> n -> dnode s5 k = dnode s k;
  cd_others : forall k, bystander s n k -> bystander s5 n k /\ dcontents s5 k = dcontents s k;
  cd_free : forall q, free_ge s (2 * Z.to_nat (touched off c) + q) -> free_ge s5 q;
  cd_wrote : Commit.wrote ws (l_b (f_l s)) (l_b (f_l s5));
  cd_crash : forall k, exists r, boot (cold (replay (take k ws) (disk (l_b (f_l s)))) (nblk s)) = Ok tt r /\
    (dcontents (rebooted r) n = dcontents s n \/ dcontents (rebooted r) n = dcontents s5 n) /\
    forall j, bystander s n j -> dcontents (rebooted r) j = dcontents s j
}.

Lemma wrote_opened s3 : wrote_in s3 -> opened s3 n ip.
Proof using OP. intros W. constructor; [apply W|by apply (file_ok_disk s3 n ip); apply W|apply W|]. rewrite (wi_type _ W). apply OP. Qed.

(** The state of the disk at the commit: that of [s4]. *)
Lemma chunk_commit s4 :
  txn s4 ∅ -> layout s4 -> inodes_ok s4 ∅ -> opened s4 n ip -> dcontents s4 n = splice (Z.to_nat off) (take (Z.to_nat c) src) (dcontents s n) ->
  f_sb s4 = f_sb s -> (forall j, i_ref (geti s4 j) = i_ref (geti s j)) -> inside (fun x => 1 < x) (begun s) s4 ->
  (forall k, 0 <= k < sb_ninodes (f_sb s) -> k <> n -> dnode s4 k = dnode s k) ->
  (forall k, bystander s n k -> bystander s4 n k /\ dcontents s4 k = dcontents s k) ->
  (forall q, free_ge s (2 * Z.to_nat (touched off c) + q) -> free_ge s4 q) ->
  exists l5 ws, end_op (f_l s4) = Ok tt l5 /\ chunk_done ws (put l5 s4).
Proof using V OP.
  intros T4 L4 IO4 O4 Hc4 Esb4 Hr4 IN4 Hn4 Ho4 Q4. destruct (end_rest s s4 R T4 IN4) as (l5 & ws & E5 & [C1 C2 [C3 C4] C5 C6]). exists l5, ws. split; [done|].
  set (s5 := put l5 s4) in *. pose proof (io_table _ _ IO4) as IT4. assert (Hz4 : nblk s4 = nblk s) by exact (in_nblk _ _ _ IN4).
  assert (Hz5 : nblk s5 = nblk s4) by (rewrite Hz4; exact (wr_size _ _ _ C5)). assert (Hd4 : nblk s4 < 2 ^ 31) by (rewrite Hz4; by apply volume_disk).
  assert (Hh5 : forall m, home s4 m -> home s5 m) by (intros m Hm; apply (end_home s s4 R IN4) in Hm; unfold home, in_log in *; by rewrite Hz5, Hz4, C3, C4).
  assert (H41 : home s4 1) by by apply (end_home s s4 R IN4), rest_super. pose proof (agree_same s4 s5 L4 IT4 Hd4 C2 eq_refl Hh5) as SF.
  pose proof (opened_range _ _ _ _ IO4 O4) as Hn. constructor; try done.
  - constructor; [done|by apply (agree_layout s4)|by apply (agree_inodes s4)|rewrite (sf_sb _ _ SF), Esb4; apply V|by rewrite C4; apply V].
  - apply (opened_same s4 s5 n ip SF Hn); [|done]. destruct (op_got _ _ _ O4). by constructor.
  - rewrite <- Hc4. by apply (same_contents s4 s5 SF n Hn), O4.
  - intros k Hk Hne. rewrite (sf_node _ _ SF) by by rewrite Esb4. by apply Hn4.
  - intros k B. destruct (Ho4 k B) as [B4 E]. rewrite <- E. apply bystander_same; [done|done|apply O4|done].
  - intros q Hq. by apply (agree_free s4), Q4.
  - intros k. destruct (C6 k) as (r & E & Hr). exists r. split; [exact E|]. rewrite (same_contents s4 s5 SF n Hn (op_file _ _ _ O4)).
    pose proof (io_table _ _ (vo_inodes _ V)) as IT. pose proof (volume_disk s V) as Hd. assert (Hns : 0 <= n < sb_ninodes (f_sb s)) by by rewrite <- Esb4.
    destruct Hr as [Hr|Hr].
    + assert (HA : forall m, home s m -> blk (rebooted r) m = blk s m) by exact Hr. split.
      * left. by apply (agree_contents s (rebooted r) LY IT Hd HA eq_refl n Hns), OP.
      * intros j B. apply (agree_contents s (rebooted r) LY IT Hd HA eq_refl j); apply B.
    + assert (HA : forall m, home s4 m -> blk (rebooted r) m = blk s4 m) by (intros m Hm; apply Hr; by apply (end_home s s4 R IN4)). split.
      * right. apply (agree_contents s4 (rebooted r) L4 IT4 Hd4 HA (eq_sym Esb4) n Hn), O4.
      * intros j B. destruct (Ho4 j B) as [B4 Ej]. rewrite <- Ej. apply (agree_contents s4 (rebooted r) L4 IT4 Hd4 HA (eq_sym Esb4) j); apply B4.
Qed.

Lemma chunk_end s3 : wrote_in s3 ->
  exists s4 l5 ws, iunlock ip s3 = Ok tt s4 /\ end_op (f_l s4) = Ok tt l5 /\ chunk_done ws (put l5 s4).
Proof using V OP.
  intros W. pose proof (wrote_opened s3 W) as O3. destruct W as [T3 L3 IO3 G3 D3 F3 Hc3 Of3 Ht3 Esb3 Hr3 IN3 Hn3 Ho3 Q3].
  destruct (iunlock_unlocks s3 {[ip]} n ip T3 (io_cache _ _ IO3) G3) as (s4 & E4 & T4 & I4 & S4 & _); [set_solver+|].
  rewrite difference_diag_L in I4. pose proof (sh_stable _ _ _ S4) as St. pose proof (same_files_stable _ _ St) as SF. pose proof (opened_range _ _ _ _ IO3 O3) as Hn.
  assert (G4 : got s4 n ip) by (apply (got_shifted none s3); [done|done|]; rewrite (sh_ref _ _ _ S4); unfold none; pose proof (gt_ref _ _ _ G3); lia).
  destruct (chunk_commit s4) as (l5 & ws & E5 & CD); [..|by exists s4, l5, ws].
  - done.
  - by apply (stable_layout s3).
  - apply (inodes_shifted s3 s4 none {[ip]}); [done|done|done|]. intros j. unfold none. lia.
  - by apply (opened_same s3).
  - rewrite (same_contents s3 s4 SF n Hn (op_file _ _ _ O3)), <- Hc3. symmetry. by apply (core_contents s3 s3 (stable_refl s3)).
  - by rewrite (sa_sb _ _ St).
  - intros j. rewrite (sh_ref _ _ _ S4), Hr3. unfold none. lia.
  - apply (inside_trans _ _ s3); [done|]. refine (inside_weaken _ _ _ _ _ (sa_inside _ _ St)). by intros b [].
  - intros k Hk Hne. rewrite (dnode_stable _ _ _ St). by apply Hn3.
  - intros k B. destruct (Ho3 k B) as [B3 E]. rewrite <- E. apply bystander_same; [done|done|apply O3|done].
  - intros q Hq. by apply (stable_free s3 s4 q St), Q3.
Qed.
End chunk.

(** * [filewrite] *)

(** The kernel with file system [F] and file table [t]. *)
Definition at_files (F : fs) (t : list file) (s : kernel) : kernel := set_kf (set_ftable t (set_fs F (kf s))) s.

Lemma on_files {A} (m : M fs A) F t s a F' : m F = Ok a F' -> lift (T := fs) m (at_files F t s) = Ok a (at_files F' t s).
Proof. intros E. exact (@lift_ok kernel fs A kernel_fs m (at_files F t s) a F' E). Qed.

Lemma on_files_log {A} (m : M lst A) F t s a l : m (f_l F) = Ok a l -> lift (T := lst) m (at_files F t s) = Ok a (at_files (put l F) t s).
Proof. intros E. exact (@lift_ok kernel lst A kernel_lst m (at_files F t s) a l E). Qed.

Lemma splice_none (o : nat) (src d : bytes) : splice o (take (Z.to_nat 0) src) d = d.
Proof. change (take (Z.to_nat 0) src) with (@nil Z). unfold splice. cbn [length app]. rewrite Nat.add_0_r. apply take_drop. Qed.

Lemma splice_splice (o : nat) (x y d : bytes) :
  (o <= length d)%nat -> splice (o + length x) y (splice o x d) = splice o (x ++ y) d.
Proof.
  intros Ho. assert (E : length (take o d ++ x) = (o + length x)%nat) by (rewrite length_app, length_take; lia).
  unfold splice at 2. rewrite app_assoc. rewrite <- E at 1. rewrite splice_app, drop_drop. unfold splice. rewrite length_app, <- !app_assoc, Nat.add_assoc. done.
Qed.

Lemma dcontents_length s n : disk_file s n -> Z.of_nat (length (dcontents s n)) = i_size (dnode s n).
Proof. intros DF. unfold dcontents. rewrite fslice_length. pose proof (df_size _ _ DF). lia. Qed.

Lemma chunk_contents (src : bytes) (off : nat) (i c m : Z) (d : bytes) :
  0 <= i -> 0 <= c -> 0 <= m -> i + c <= Z.of_nat (length src) -> (off <= length d)%nat ->
  splice (Z.to_nat (Z.of_nat off + c)) (take (Z.to_nat m) (drop (Z.to_nat (i + c)) src)) (splice off (take (Z.to_nat c) (drop (Z.to_nat i) src)) d) =
  splice off (take (Z.to_nat (c + m)) (drop (Z.to_nat i) src)) d.
Proof.
  intros Hi Hc Hm Hl Ho. set (y := drop (Z.to_nat i) src). assert (Hy : length (take (Z.to_nat c) y) = Z.to_nat c) by (unfold y; rewrite length_take, length_drop; lia).
  replace (Z.to_nat (Z.of_nat off + c)) with (off + length (take (Z.to_nat c) y))%nat by (rewrite Hy; lia). rewrite splice_splice by done. f_equal.
  replace (drop (Z.to_nat (i + c)) src) with (drop (Z.to_nat c) y) by (unfold y; rewrite drop_drop; f_equal; lia).
  rewrite Z2Nat.inj_add by done. apply take_take_drop.
Qed.

(** What [len] bytes of [src] written at [off] of file [n], open in slot [ip],
    leave: [F'] is at rest with the bytes in place, and a crash at any of the
    block writes [ws] leaves some of them, from the beginning on. *)
Record file_written (n : Z) (ip : nat) (src : bytes) (off len : Z) (ws : list (Z * bytes)) (F F' : fs) : Prop := {
  ff_volume : volume F';
  ff_opened : opened F' n ip;
  ff_contents : dcontents F' n = splice (Z.to_nat off) (take (Z.to_nat len) src) (dcontents F n);
  ff_sb : f_sb F' = f_sb F;
  ff_ref : forall j, i_ref (geti F' j) = i_ref (geti F j);
  ff_nodes : forall k, 0 <= k < sb_ninodes (f_sb F) -> k <> n -> dnode F' k = dnode F k;
  ff_others : forall k, bystander F n k -> bystander F' n k /\ dcontents F' k = dcontents F k;
  ff_wrote : Commit.wrote ws (l_b (f_l F)) (l_b (f_l F'));
  ff_crash : forall k, exists r part, boot (cold (replay (take k ws) (disk (l_b (f_l F)))) (nblk F)) = Ok tt r /\ 0 <= part <= len /\
    dcontents (rebooted F r) n = splice (Z.to_nat off) (take (Z.to_nat part) src) (dcontents F n) /\
    forall j, bystander F n j -> dcontents (rebooted F r) j = dcontents F j
}.

(** One transaction, then the rest. *)
Lemma file_written_app n ip src i off c len ws ws' F F1 F2 :
  volume F -> opened F n ip -> 0 <= off <= i_size (dnode F n) -> 0 <= i -> 0 <= c <= len -> i + c <= Z.of_nat (length src) ->
  chunk_done F n ip (drop (Z.to_nat i) src) off c ws F1 ->
  file_written n ip (drop (Z.to_nat (i + c)) src) (off + c) (len - c) ws' F1 F2 ->
  file_written n ip (drop (Z.to_nat i) src) off len (ws ++ ws') F F2.
Proof.
  intros V O Ho Hi Hc Hl [A1 A2 A3 A4 A5 A6 A7 A8 A9 A10] [B1 B2 B3 B4 B5 B6 B7 B8 B9].
  pose proof (dcontents_length F n (op_file _ _ _ O)) as Hd.
  assert (HS : forall m, 0 <= m -> splice (Z.to_nat (off + c)) (take (Z.to_nat m) (drop (Z.to_nat (i + c)) src)) (dcontents F1 n) =
    splice (Z.to_nat off) (take (Z.to_nat (c + m)) (drop (Z.to_nat i) src)) (dcontents F n)).
  { intros m Hm. rewrite A3. pose proof (chunk_contents src (Z.to_nat off) i c m (dcontents F n)) as E. rewrite Z2Nat.id in E by lia. apply E; lia. }
  constructor; try done.
  - rewrite B3, HS by lia. do 3 f_equal. lia.
  - by rewrite B4.
  - intros j. by rewrite B5.
  - intros k Hk Hne. rewrite B6, A6; [done..|by rewrite A4|done].
  - intros k B. destruct (A7 k B) as [Bk <-]. by apply B7.
  - by apply (wrote_trans _ _ _ (l_b (f_l F1))).
  - intros k. destruct (decide (k <= length ws)%nat) as [Hk|Hk].
    + rewrite take_app_le by done. destruct (A10 k) as (r & E & [Hr|Hr] & Hb); exists r; [exists 0|exists c]; (split; [exact E|split; [lia|split; [|exact Hb]]]).
      * by rewrite Hr, splice_none.
      * by rewrite Hr, A3.
    + rewrite take_app_ge by lia. rewrite replay_app, <- (wr_disk _ _ _ A9). destruct (B9 (k - length ws)%nat) as (r & part & E & Hp & Hr & Hb).
      assert (Er : rebooted F1 r = rebooted F r) by (unfold rebooted; by rewrite A4). rewrite Er in *.
      exists r, (c + part). split; [rewrite <- E; do 2 f_equal; symmetry; exact (wr_size _ _ _ A9)|]. split; [lia|]. split; [rewrite Hr; apply HS; lia|].
      intros j B. destruct (A7 j B) as [Bj <-]. by apply Hb.
Qed.

Lemma file_written_nil n ip src off F : volume F -> opened F n ip -> file_written n ip src off 0 [] F F.
Proof.
  intros V O. constructor; try done; [by rewrite splice_none|by apply wrote_nil|]. intros k. rewrite take_nil. destruct (rest_boot F (vo_rest _ V)) as (r & E & Hr).
  exists r, 0. split; [exact E|]. split; [lia|]. clear E. pose proof (io_table _ _ (vo_inodes _ V)) as IT. pose proof (volume_disk _ V) as Hd.
  assert (HA : forall j, 0 <= j < sb_ninodes (f_sb F) -> disk_file F j -> dcontents (rebooted F r) j = dcontents F j) by exact (agree_contents F (rebooted F r) (vo_layout _ V) IT Hd Hr eq_refl).
  rewrite splice_none. split; [apply HA; [by eapply opened_range; [apply V|]|apply O]|]. intros j B. apply HA; apply B.
Qed.

(** The transactions of a write of [len] bytes. *)
Definition chunks (len : Z) : Z := (len + FWMAX - 1) / FWMAX.

Lemma chunks_step len : 0 < len -> let c := if FWMAX <? len then FWMAX else len in 0 < c <= FWMAX /\ c <= len /\ chunks (len - c) = chunks len - 1 /\ 1 <= chunks len.
Proof.
  unfold chunks. change FWMAX with 6656. intros Hl. cbv zeta. destruct (Z.ltb_spec 6656 len); (split; [lia|]; split; [lia|]; split; zdiv).
Qed.

Section filewrite.
Context `{DevSw}.

Lemma filewrite_loop_ok f src n : forall fuel (s : kernel) F t x i len nd,
  volume F -> opened F nd (fl_ip x) -> t !! f = Some x -> 0 <= fl_off x <= i_size (dnode F nd) -> 0 <= i -> len = n - i -> 0 <= len ->
  n <= Z.of_nat (length src) -> fl_off x + len <= MAXFILE * BSIZE -> free_ge F (28 * Z.to_nat (chunks len)) -> (Z.to_nat len < fuel)%nat ->
  exists F' t' ws, filewrite_loop f src i n fuel (at_files F t s) = Ok n (at_files F' t' s) /\
    file_written nd (fl_ip x) (drop (Z.to_nat i) src) (fl_off x) len ws F F' /\ t' = <[f := set_off (fl_off x + len) x]> t.
Proof.
  induction fuel as [|fuel IH]; intros s F t x i len nd V O Hx Ho Hi El Hl Hs Hmax Hf Hfuel; [lia|]. cbn [filewrite_loop].
  destruct (Z.ltb_spec i n) as [Hlt|Hge].
  2:{ assert (len = 0) as -> by lia. assert (i = n) as -> by lia. exists F, t, []. split; [done|]. split; [by apply file_written_nil|].
      rewrite Z.add_0_r, list_insert_id; [done|]. by destruct x. }
  destruct (chunks_step len ltac:(lia)) as (Hc1 & Hc2 & Hck & Hck1). rewrite <- El. set (c := if FWMAX <? len then FWMAX else len) in *. clearbody c.
  assert (Hsr : c <= Z.of_nat (length (drop (Z.to_nat i) src))) by (rewrite length_drop; lia). pose proof (touched_chunk (fl_off x) c ltac:(lia) ltac:(lia)) as Htc.
  assert (Hfc : free_ge F (2 * Z.to_nat (touched (fl_off x) c) + 28 * Z.to_nat (chunks (len - c)))) by (eapply free_ge_le; [exact Hf|lia]).
  destruct (begin_rest F (vo_rest _ V)) as [E1 _]. destruct (chunk_lock F V nd (fl_ip x) O) as (s2 & E2 & K).
  destruct (chunk_write F V nd (fl_ip x) O (drop (Z.to_nat i) src) (fl_off x) c Ho ltac:(lia) Hsr ltac:(lia) ltac:(eapply free_ge_le; [exact Hfc|lia]) s2 K) as (s3 & E3 & W).
  destruct (chunk_end F V nd (fl_ip x) O _ _ c s3 W) as (s4 & l5 & ws & E4 & E5 & CD). set (F5 := put l5 s4) in *.
  set (t1 := alter (fun y => set_off (u32 (fl_off y + c)) y) f t). set (x1 := set_off (fl_off x + c) x).
  assert (Hbig : MAXFILE * BSIZE < 2 ^ 32) by done. assert (Ht1 : t1 = <[f := x1]> t).
  { unfold t1, x1. rewrite list_insert_alter. apply list_alter_ext; [|done]. intros y Hy. rewrite Hx in Hy. injection Hy as <-. by rewrite u32_id by lia. }
  assert (Hx1 : t1 !! f = Some x1) by (rewrite Ht1; apply list_lookup_insert_eq; by eapply lookup_lt_Some).
  assert (Hsz : fl_off x1 <= i_size (dnode F5 nd)).
  { rewrite <- (dcontents_length F5 nd (op_file _ _ _ (cd_opened _ _ _ _ _ _ _ _ CD))), (cd_contents _ _ _ _ _ _ _ _ CD). unfold splice. rewrite !length_app, length_take, length_take.
    pose proof (dcontents_length F nd (op_file _ _ _ O)). cbn [fl_off x1 set_off]. lia. }
  destruct (IH s F5 t1 x1 (i + c) (len - c) nd) as (F' & t' & ws' & E6 & FW & Ht'); try (cbn [fl_ip fl_off x1 set_off]; lia).
  { apply CD. }
  { apply CD. }
  { done. }
  { split; [cbn [fl_off x1 set_off]; lia|exact Hsz]. }
  { by apply (cd_free _ _ _ _ _ _ _ _ CD). }
  exists F', t', (ws ++ ws'). split; [|split].
  - rewrite (bind_ok _ _ _ _ _ (on_files_log _ F t s tt _ E1)). change (put (f_l (begun F)) F) with (begun F).
    assert (G : forall F0, getf (at_files F0 t s) f = x) by (intros F0; unfold getf; cbn; by rewrite Hx).
    rewrite (bind_ok (ffield id f) _ _ x (at_files (begun F) t s) ltac:(unfold ffield, gets; f_equal; exact (G (begun F)))). rewrite (bind_ok _ _ _ _ _ (on_files _ (begun F) t s tt _ E2)).
    rewrite (bind_ok (ffield fl_off f) _ _ (fl_off x) (at_files s2 t s) ltac:(unfold ffield, gets; f_equal; exact (f_equal fl_off (G s2)))). rewrite (bind_ok _ _ _ _ _ (on_files _ s2 t s c _ E3)).
    replace (0 <? c) with true by (symmetry; apply Z.ltb_lt; lia). cbn [when].
    assert (Ew : setf (fun y => set_off (u32 (fl_off y + c)) y) f (at_files s3 t s) = Ok tt (at_files s3 t1 s)) by done. step Ew.
    rewrite (bind_ok _ _ _ _ _ (on_files _ s3 t1 s tt _ E4)), (bind_ok _ _ _ _ _ (on_files_log _ s4 t1 s tt _ E5)).
    replace (c <? 0) with false by (symmetry; apply Z.ltb_ge; lia). rewrite Z.eqb_refl. cbn [negb]. exact E6.
  - apply (file_written_app nd (fl_ip x) src i (fl_off x) c len ws ws' F F5 F'); try done; lia.
  - rewrite Ht', Ht1, list_insert_insert_eq. f_equal. unfold x1, set_off. cbn. f_equal. lia.
Qed.

(** C8: A write to an open file, from the system call's side down to the block
    writes.  [filewrite] returns, having written all its bytes, in as many
    transactions as its limit on their size asks for: the file has the new bytes
    at the offset and is otherwise unchanged, the offset has moved on, and every
    other open file, inode and file is as it was.  Everything is on disk: the
    log is empty and no transaction is open.  Whatever block write a crash
    interrupts, the machine boots, and the file then has a beginning of the new
    bytes in place and every other file its contents. *)
Theorem filewrite_writes (s : kernel) (f : nat) (x : file) (src : bytes) (n nd : Z) :
  let F := io_fs (kf s) in
  io_ftable (kf s) !! f = Some x -> fl_type x = FD_INODE -> fl_writable x = true ->
  volume F -> opened F nd (fl_ip x) -> 0 <= fl_off x <= i_size (dnode F nd) -> 0 <= n <= Z.of_nat (length src) ->
  fl_off x + n <= MAXFILE * BSIZE -> free_ge F (28 * Z.to_nat (chunks n)) ->
  exists F' ws, filewrite f src n s = Ok n (at_files F' (<[f := set_off (fl_off x + n) x]> (io_ftable (kf s))) s) /\
    file_written nd (fl_ip x) src (fl_off x) n ws F F'.
Proof.
  intros F Hx Ht Hw V O Ho Hn Hmax Hf. assert (Es : s = at_files F (io_ftable (kf s)) s) by by destruct s as [? ? ? []].
  destruct (filewrite_loop_ok f src n (S (Z.to_nat n)) s F (io_ftable (kf s)) x 0 n nd) as (F' & t' & ws & E & FW & ->); try done; try lia.
  exists F', ws. split; [|exact FW]. unfold filewrite. assert (G : getf s f = x) by (unfold getf; by rewrite Hx).
  rewrite (bind_ok (ffield id f) _ s x s ltac:(unfold ffield, gets; f_equal; exact G)). rewrite Hw, Ht. cbn [negb].
  rewrite Es at 1. rewrite (bind_ok _ _ _ _ _ E), Z.eqb_refl. done.
Qed.
End filewrite.

(** * A volume with one empty file *)

Definition file_block : bytes := splice (dip 1) (dinode_bytes (made T_FILE 0 0)) zero_block.
Definition file_disk : blockmap := <[32 := file_block]> demo_fsdisk.
Definition file_fs (b : bst) : fs :=
  Fs (set_outstanding 0 (demo_log b)) (superblock_of demo_super) (Inode 1 1 1 free_sleeplock false 0 0 0 0 0 [] :: replicate 49 no_inode).
Definition file_kernel (b : bst) : kernel :=
  Kern (Vst (Kst (Mach [] 0 0 ∅) ∅ true 0) ∅ [] 0 0 0 ∅) 1 None (Io (file_fs b) [File FD_INODE 1 true true 0 0 0] ∅ 0 (Globals 0 0 0 0)).

Lemma file_disk_blocks n : block_of file_disk n = if decide (n = 32) then file_block else block_of demo_fsdisk n.
Proof. unfold block_of, file_disk. case_decide as E; [subst; by rewrite lookup_insert_eq|by rewrite lookup_insert_ne]. Qed.

Lemma file_fs_ok : exists b, volume (file_fs b) /\ opened (file_fs b) 1 0 /\ dnode (file_fs b) 1 = as_disk 1 (made T_FILE 0 0) /\ free_ge (file_fs b) 28.
Proof.
  destruct (binit_ok (Kctx ∅ [] [] 1) file_disk 1000) as (b & _ & I & Hc & Hd & Hz & _ & Hnc).
  assert (Hblk : forall n, content b n = if decide (n = 32) then file_block else block_of demo_fsdisk n) by (intros n; rewrite <- file_disk_blocks, <- Hd; apply content_uncached, Hnc).
  assert (Hm : content b 1 = demo_super /\ content b 58 = demo_map) by by rewrite !Hblk. assert (Hd0 : nblk (demo_fs b) < 2 ^ 31) by (unfold nblk; cbn; rewrite Hz; done).
  assert (E : dnode (file_fs b) 1 = as_disk 1 (made T_FILE 0 0)).
  { unfold dnode, disk_inode. change (blk (file_fs b) (IBLOCK 1 (f_sb (file_fs b)))) with (content b 32). rewrite Hblk. vm_compute. reflexivity. }
  assert (D32 : datablock (file_fs b) 32) by (apply (agree_datablock (demo_fs b) (file_fs b) (demo_layout b Hm Hz) Hd0); [done..|]; by apply (demo_table b Hm Hz 0)).
  assert (H1 : home (demo_fs b) 1) by (apply demo_home; [done|lia|lia]). assert (LY : layout (file_fs b)) by by apply (agree_layout (demo_fs b) (file_fs b) (demo_layout b Hm Hz) Hd0).
  assert (Hs : forall j, geti (file_fs b) j = no_inode \/ geti (file_fs b) j = zero_inode \/ j = 0%nat).
  { intros [|j]; [by do 2 right|]. unfold geti. cbn [f_icache file_fs]. change ((_ :: ?l) !! S j) with (l !! j). destruct (replicate 49 no_inode !! j) as [y|] eqn:Ey; [|by right; left].
    apply lookup_replicate_1 in Ey as [-> _]. by left. }
  exists b. split; [|split; [|split; [done|]]].
  - constructor; [|done| |done|done].
    + constructor; try done; [by destruct (demo_log_ok b Hz); constructor|exists (rev (seq 0 HEAD)); apply (empty_calm b _ I); [by rewrite Hc|done]| | | |].
      * intros n. unfold blk. cbn. rewrite Hblk. case_decide; [done|]. unfold block_of, demo_fsdisk. destruct (decide (n = 1)) as [->|]; [done|].
        rewrite lookup_insert_ne by done. destruct (decide (n = 58)) as [->|]; [done|]. by rewrite lookup_singleton_ne.
      * change (blk (file_fs b) 1) with (content b 1). rewrite (proj1 Hm). vm_compute. reflexivity.
      * change (blk (file_fs b) 1) with (content b 1). rewrite (proj1 Hm). vm_compute. reflexivity.
      * change (blk (file_fs b) (lg_start (f_l (file_fs b)))) with (content b 2). rewrite Hblk. vm_compute. reflexivity.
    + constructor; [constructor| |].
      * intros j. rewrite bool_decide_false by set_solver+. destruct (Hs j) as [-> |[-> | ->]]; by constructor.
      * intros i j. destruct (Hs i) as [-> |[-> | ->]]; [done|done|]. destruct (Hs j) as [-> |[-> | ->]]; done.
      * constructor; [done|]. intros n Hn. apply (agree_datablock (demo_fs b) (file_fs b) (demo_layout b Hm Hz) Hd0); [done..|]. by apply demo_table.
      * intros j. destruct (Hs j) as [-> |[-> | ->]]; done.
  - destruct (empty_disk_file (file_fs b) 1 (made T_FILE 0 0) E eq_refl eq_refl ltac:(done) ltac:(lia) D32) as [DF OT].
    constructor; [done|done|done|]. unfold dtype. by rewrite E.
  - apply (agree_free (demo_fs b) (file_fs b) (demo_layout b Hm Hz) Hd0); [done..|]. apply demo_free; [done|lia].
Qed.

(** Three bytes written to it are in the file afterwards. *)
Lemma filewrite_writes_witness :
  exists b F', volume (file_fs b) /\ dcontents (file_fs b) 1 = [] /\ dcontents F' 1 = [104; 105; 33] /\ rest F' /\
    @filewrite FsDir.no_devices 0 [104; 105; 33] 3 (file_kernel b) = Ok 3 (at_files F' [File FD_INODE 1 true true 0 0 3] (file_kernel b)).
Proof.
  destruct file_fs_ok as (b & V & O & E & Q). exists b.
  destruct (@filewrite_writes FsDir.no_devices (file_kernel b) 0 (File FD_INODE 1 true true 0 0 0) [104; 105; 33] 3 1) as (F' & ws & Ew & FW); try done.
  - change (0 <= 0 <= i_size (dnode (file_fs b) 1)). rewrite E. done.
  - exists F'. assert (Hc : dcontents (file_fs b) 1 = []) by (unfold dcontents; by rewrite E). split; [done|]. split; [done|].
    split; [rewrite (ff_contents _ _ _ _ _ _ _ _ FW); change (io_fs (kf (file_kernel b))) with (file_fs b); by rewrite Hc|]. split; [apply FW|exact Ew].
Defined.
