(* ===== verification/Mkfs.v ===== *)
(** The file system builder, [mkfs.c], which runs on the build host and writes
    the disk image: blocks are handed out in order, files are appended to, and
    the free map is written last. *)

From S2P Require Import Prelude Params Klock Bytes Bio Log Fs.
Open Scope Z_scope.
Open Scope xv6_scope.

Definition NINODES : Z := 200.

(** * Byte order

    The host is little-endian, like the machines the kernel is built on: a
    variable of type [uint] in memory is the bytes [le32] of its value. *)

Definition xshort (x : Z) : Z := get16 (le16 x) 0.
Definition xint (x : Z) : Z := get32 (le32 x) 0.

(** * The disk layout

    [ boot block | sb block | log | inode blocks | free bit map | data blocks ] *)

Definition nbitmap : Z := FSSIZE / (BSIZE * 8) + 1.
Definition ninodeblocks : Z := NINODES / IPB + 1.
Definition nlog : Z := LOGSIZE.
Definition nmeta : Z := 2 + nlog + ninodeblocks + nbitmap.
Definition nblocks : Z := FSSIZE - nmeta.

Definition mk_sb : superblock :=
  Superblock (xint FSSIZE) (xint nblocks) (xint NINODES) (xint nlog) (xint 2) (xint (2 + nlog)) (xint (2 + nlog + ninodeblocks)).

(** [struct superblock] in memory. *)
Definition sb_bytes (sb : superblock) : bytes :=
  le32 (sb_size sb) ++ le32 (sb_nblocks sb) ++ le32 (sb_ninodes sb) ++ le32 (sb_nlog sb) ++
  le32 (sb_logstart sb) ++ le32 (sb_inodestart sb) ++ le32 (sb_bmapstart sb).

(** * State: the image file by sectors, [freeinode] and [freeblock] *)

Record mk := Mk { mk_img : list bytes; freeinode : Z; freeblock : Z }.

Definition set_img (d : list bytes) (s : mk) : mk := Mk d (freeinode s) (freeblock s).

(** Writing past the end of a file leaves a hole of zeroes. *)
Definition wsect (sec : Z) (buf : bytes) : M mk unit :=
  modify (fun s =>
    let d := mk_img s in let n := Z.to_nat sec in
    set_img (if (n <? length d)%nat then <[n := buf]> d else d ++ replicate (n - length d) zero_block ++ [buf]) s).

(** A short read ends the program. *)
Definition rsect (sec : Z) : M mk bytes :=
  s <- get ;;
  match mk_img s !! Z.to_nat sec with
  | Some d => ret d
  | None => panic "read"
  end.

(** [struct dinode] is kept as an inode of [fs.c] whose other fields are not
    used. *)
Definition winode (inum : Z) (ip : inode) : M mk unit :=
  let bn := IBLOCK inum mk_sb in
  buf <- rsect bn ;;
  wsect bn (splice (dip inum) (dinode_bytes ip) buf).

Definition rinode (inum : Z) : M mk inode :=
  let bn := IBLOCK inum mk_sb in
  buf <- rsect bn ;;
  ret (load_dinode buf (dip inum) zero_inode).

(** [freeinode++] and [freeblock++]. *)
Definition next_inode : M mk Z :=
  s <- get ;; modify (fun s => Mk (mk_img s) (u32 (freeinode s + 1)) (freeblock s)) ;;; ret (freeinode s).
Definition next_block : M mk Z :=
  s <- get ;; modify (fun s => Mk (mk_img s) (freeinode s) (u32 (freeblock s + 1))) ;;; ret (freeblock s).

Definition mk_ialloc (type : Z) : M mk Z :=
  inum <- next_inode ;;
  winode inum (set_isize (xint 0) (set_inlink (xshort 1) (set_itype (xshort type) zero_inode))) ;;;
  ret inum.

(** The loop of [balloc] over the bits. *)
Fixpoint set_bits (n : nat) (buf : bytes) : bytes :=
  match n with
  | O => buf
  | S n => set_bit (Z.of_nat n) (set_bits n buf)
  end.

Definition mk_balloc (used : Z) : M mk unit :=
  if negb (used <? BSIZE * 8) then panic "assert" else
  wsect (sb_bmapstart mk_sb) (set_bits (Z.to_nat used) zero_block).

(** The part of the loop of [iappend] that finds the disk block for [fbn],
    with the inode as it leaves it. *)
Definition append_block (din : inode) (fbn : Z) : M mk (Z * inode) :=
  let k := Z.to_nat fbn in
  if fbn <? Z.of_nat NDIRECT then
    din <- (if xint (default 0 (i_addrs din !! k)) =? 0
            then b <- next_block ;; ret (set_iaddrs (<[k := xint b]> (i_addrs din)) din)
            else ret din) ;;
    ret (xint (default 0 (i_addrs din !! k)), din)
  else
    din <- (if xint (default 0 (i_addrs din !! NDIRECT)) =? 0
            then b <- next_block ;; ret (set_iaddrs (<[NDIRECT := xint b]> (i_addrs din)) din)
            else ret din) ;;
    let a := xint (default 0 (i_addrs din !! NDIRECT)) in
    let o := (4 * (k - NDIRECT))%nat in
    indirect <- rsect a ;;
    indirect <- (if get32 indirect o =? 0
                 then b <- next_block ;;
                      wsect a (put32 o (xint b) indirect) ;;;
                      ret (put32 o (xint b) indirect)
                 else ret indirect) ;;
    ret (xint (get32 indirect o), din).

(** The [while] loop; [p] holds the bytes still to append. *)
Fixpoint append_loop (din : inode) (off : Z) (p : bytes) (fuel : nat) : M mk (inode * Z) :=
  match fuel with
  | O => nofuel
  | S fuel =>
      let n := Z.of_nat (length p) in
      if 0 <? n then
        let fbn := off / BSIZE in
        if negb (fbn <? MAXFILE) then panic "assert" else
        r <- append_block din fbn ;;
        let '(x, din) := r : Z * inode in
        let n1 := Z.min n (u32 ((fbn + 1) * BSIZE - off)) in
        buf <- rsect x ;;
        wsect x (splice (Z.to_nat (off - fbn * BSIZE)) (take (Z.to_nat n1) p) buf) ;;;
        append_loop din (u32 (off + n1)) (drop (Z.to_nat n1) p) fuel
      else ret (din, off)
  end.

Definition iappend (inum : Z) (p : bytes) : M mk unit :=
  din <- rinode inum ;;
  r <- append_loop din (xint (i_size din)) p (S (length p)) ;;
  let '(din, off) := r : inode * Z in
  winode inum (set_isize (xint off) din).

(** * [main] *)

(** [wsect(i, zeroes)] for every sector. *)
Fixpoint zero_sectors (n : nat) : M mk unit :=
  match n with
  | O => ret tt
  | S n => zero_sectors n ;;; wsect (Z.of_nat n) zero_block
  end.

Definition DOT : bytes := [46].
Definition DOTDOT : bytes := [46; 46].
Definition UNDERSCORE : Z := 95.

(** A directory entry: [bzero], [de.inum = xshort(inum)], and the name, by
    [strcpy] for the first two, which is the same for such short names, and
    [strncpy]. *)
Definition mk_dirent (name : bytes) (inum : Z) : bytes := le16 (xshort inum) ++ strncpy_l DIRSIZ name.

(** The loop that copies a file by the pieces [read] returns. *)
Fixpoint append_all (inum : Z) (reads : list bytes) : M mk unit :=
  match reads with
  | [] => ret tt
  | buf :: reads => iappend inum buf ;;; append_all inum reads
  end.

(** Skip leading _ in name when writing to file system. *)
Definition skip_underscore (arg : bytes) : bytes :=
  match arg with
  | c :: arg' => if c =? UNDERSCORE then arg' else arg
  | [] => []
  end.

(** The host's files: the pieces successive reads return, or nothing if the
    file cannot be opened. *)
Definition add_file (host : bytes -> option (list bytes)) (rootino : Z) (arg : bytes) : M mk unit :=
  if bool_decide (SLASH ∈ arg) then panic "assert" else
  match host arg with
  | None => panic "open"
  | Some reads =>
      inum <- mk_ialloc T_FILE ;;
      iappend rootino (mk_dirent (skip_underscore arg) inum) ;;;
      append_all inum reads
  end.

Fixpoint add_files (host : bytes -> option (list bytes)) (rootino : Z) (args : list bytes) : M mk unit :=
  match args with
  | [] => ret tt
  | arg :: args => add_file host rootino arg ;;; add_files host rootino args
  end.

(** The size of the root directory is rounded up to whole blocks. *)
Definition fix_root (rootino : Z) : M mk unit :=
  din <- rinode rootino ;;
  let off := xint (i_size din) in
  let off := u32 ((off / BSIZE + 1) * BSIZE) in
  winode rootino (set_isize (xint off) din).

(** [args] are the arguments after the name of the image, which is empty when
    it has been opened. *)
Definition mkfs (host : bytes -> option (list bytes)) (args : list bytes) : M mk unit :=
  modify (fun s => Mk (mk_img s) (freeinode s) nmeta) ;;;
  zero_sectors (Z.to_nat FSSIZE) ;;;
  wsect 1 (splice 0 (sb_bytes mk_sb) zero_block) ;;;
  rootino <- mk_ialloc T_DIR ;;
  if negb (rootino =? ROOTINO) then panic "assert" else
  iappend rootino (mk_dirent DOT rootino) ;;;
  iappend rootino (mk_dirent DOTDOT rootino) ;;;
  add_files host rootino args ;;;
  fix_root rootino ;;;
  s <- get ;;
  mk_balloc (freeblock s).

(** Before the first statement. *)
Definition mk_start : mk := Mk [] 1 0.
