(* ===== verification/MkfsFiles.v ===== *)
(** One file of the image [mkfs.c] builds: which blocks it has, what they hold,
    and what giving it another block and storing in its last block do. *)

From S2P Require Import Prelude Params Klock Bytes Bio Log Fs FsBlocks FsRead FsWrite FsInode Mkfs.
Open Scope Z_scope.
Open Scope xv6_scope.

(** The disk block holding block [c] of a file, as [addr_of], of blocks with
    contents [B]. *)
Definition iaddr (B : Z -> bytes) (ip : inode) (c : Z) : Z :=
  if c <? Z.of_nat NDIRECT then default 0 (i_addrs ip !! Z.to_nat c)
  else if ind_of ip =? 0 then 0 else get32 (B (ind_of ip)) (4 * Z.to_nat (c - Z.of_nat NDIRECT)).

(** A file: its inode, whether it has an indirect block, its number of blocks,
    and its bytes. *)
Record file := File { fi_ino : inode; fi_ind : bool; fi_nb : Z; fi_data : bytes }.

Definition own (B : Z -> bytes) (F : file) (b : Z) : Prop :=
  (fi_ind F = true /\ b = ind_of (fi_ino F)) \/ exists c, 0 <= c < fi_nb F /\ b = iaddr B (fi_ino F) c.

(** An inode with only the fields of [struct dinode]. *)
Definition bare (ip : inode) : Prop :=
  Inode (i_dev zero_inode) (i_inum zero_inode) (i_ref zero_inode) (i_lock zero_inode) (i_valid zero_inode)
    (i_type ip) (i_major ip) (i_minor ip) (i_nlink ip) (i_size ip) (i_addrs ip) = ip.

(** The file is laid out in blocks below [fb], each of its own; what is left
    of the last block is zero. *)
Record stored (B : Z -> bytes) (fb : Z) (F : file) : Prop := {
  so_bare : bare (fi_ino F);
  so_ino : dinode_ok (fi_ino F);
  so_nb : 0 <= fi_nb F <= MAXFILE;
  so_in : forall c, 0 <= c < fi_nb F -> nmeta <= iaddr B (fi_ino F) c < fb;
  so_out : forall c, fi_nb F <= c < MAXFILE -> iaddr B (fi_ino F) c = 0;
  so_ind : fi_ind F = true -> nmeta <= ind_of (fi_ino F) < fb;
  so_noind : fi_ind F = false -> ind_of (fi_ino F) = 0 /\ fi_nb F <= 12;
  so_inj : forall c c', 0 <= c < fi_nb F -> 0 <= c' < fi_nb F -> iaddr B (fi_ino F) c = iaddr B (fi_ino F) c' -> c = c';
  so_ne : fi_ind F = true -> forall c, 0 <= c < fi_nb F -> iaddr B (fi_ino F) c <> ind_of (fi_ino F);
  so_len : Z.of_nat (length (fi_data F)) <= BSIZE * fi_nb F;
  so_byte : forall k, 0 <= k < BSIZE * fi_nb F ->
    B (iaddr B (fi_ino F) (k / BSIZE)) !! Z.to_nat (k mod BSIZE) = Some (default 0 (fi_data F !! Z.to_nat k))
}.

Lemma nmeta_eq : nmeta = 59.
Proof. reflexivity. Qed.

Section stored.
Context (B : Z -> bytes) (fb : Z) (F : file) (SF : stored B fb F).

Lemma own_range b : own B F b -> nmeta <= b < fb.
Proof using SF. intros [[H ->]|(c & Hc & ->)]; [by apply (so_ind _ _ _ SF)|by apply (so_in _ _ _ SF)]. Qed.

(** Only the file's own blocks matter. *)
Lemma iaddr_frame B' c : (fi_ind F = true -> B' (ind_of (fi_ino F)) = B (ind_of (fi_ino F))) -> iaddr B' (fi_ino F) c = iaddr B (fi_ino F) c.
Proof using SF.
  intros H. unfold iaddr. destruct (_ <? _); [done|]. destruct (fi_ind F) eqn:E; [by rewrite H|].
  by rewrite (proj1 (so_noind _ _ _ SF E)).
Qed.

Lemma own_frame B' b : (fi_ind F = true -> B' (ind_of (fi_ino F)) = B (ind_of (fi_ino F))) -> own B' F b <-> own B F b.
Proof using SF. intros H. unfold own. by setoid_rewrite (fun c => iaddr_frame B' c H). Qed.

Lemma stored_frame B' fb' : (forall b, own B F b -> B' b = B b) -> fb <= fb' -> stored B' fb' F.
Proof using SF.
  intros H Hle. assert (Hi : fi_ind F = true -> B' (ind_of (fi_ino F)) = B (ind_of (fi_ino F))) by (intros; apply H; by left).
  pose proof (fun c => iaddr_frame B' c Hi) as Ha. destruct SF. constructor; try done; intros; rewrite ?Ha in *; auto.
  - pose proof (so_in0 c). lia.
  - pose proof (so_ind0). intuition lia.
  - rewrite H; [auto|]. right. exists (k / BSIZE). split; [|done]. unfold BSIZE in *. zdiv.
Qed.

(** * A new block *)

Definition with_ino (ip : inode) (ind : bool) (nb : Z) : file := File ip ind nb (fi_data F).

Lemma u32_fb x : nmeta <= x <= FSSIZE + 1 -> xint x = x.
Proof. intros. unfold xint. rewrite <- (app_nil_r (le32 x)), get32_le32. apply u32_id. rewrite nmeta_eq in *. unfold FSSIZE in *. lia. Qed.

Lemma zero_lookup k : 0 <= k < BSIZE -> zero_block !! Z.to_nat k = Some 0.
Proof. intros. apply lookup_replicate_2. unfold BSIZE in *. lia. Qed.

Lemma past_data k : BSIZE * fi_nb F <= k -> fi_data F !! Z.to_nat k = None.
Proof using SF. intros. apply lookup_ge_None_2. pose proof (so_len _ _ _ SF). lia. Qed.

Lemma set_addr_ok k v : (k < 13)%nat -> 0 <= v < 2 ^ 32 ->
  bare (set_iaddrs (<[k := v]> (i_addrs (fi_ino F))) (fi_ino F)) /\ dinode_ok (set_iaddrs (<[k := v]> (i_addrs (fi_ino F))) (fi_ino F)).
Proof using SF.
  intros Hk Hv. pose proof (so_bare _ _ _ SF) as Hb. pose proof (so_ino _ _ _ SF) as []. unfold bare in Hb. rewrite <- Hb.
  split; [done|]. constructor; try done; cbn [i_addrs set_iaddrs]; [by rewrite length_insert|]. apply Forall_insert; done.
Qed.

(** The common part: the file with one more block, at address [b]. *)
Lemma grow_stored B' fb' ip ind b :
  bare ip -> dinode_ok ip -> fi_nb F < MAXFILE -> fb <= fb' -> nmeta <= b < fb' -> B' b = zero_block ->
  (forall x, own B F x -> x <> ind_of ip \/ ind = false -> B' x = B x) -> (forall x, own B F x -> x <> b) ->
  (ind = true -> nmeta <= ind_of ip < fb' /\ ind_of ip <> b /\ forall c, 0 <= c < fi_nb F -> iaddr B (fi_ino F) c <> ind_of ip) ->
  (ind = false -> ind_of ip = 0 /\ fi_nb F < 12) ->
  (forall c, 0 <= c < MAXFILE -> iaddr B' ip c = if c =? fi_nb F then b else iaddr B (fi_ino F) c) ->
  stored B' fb' (with_ino ip ind (fi_nb F + 1)).
Proof using SF.
  intros Hb Hd Hnb Hle Hr Hzb Hsame Hnew Hi Hni Ha. pose proof (so_nb _ _ _ SF) as Hn. pose proof (so_len _ _ _ SF) as Hl.
  assert (Hx : forall c, 0 <= c < fi_nb F -> own B F (iaddr B (fi_ino F) c)) by (intros c Hc; right; by exists c).
  constructor; cbn [with_ino fi_ino fi_ind fi_nb fi_data]; try done.
  - lia.
  - intros c Hc. rewrite Ha by lia. destruct (Z.eqb_spec c (fi_nb F)); [lia|]. pose proof (so_in _ _ _ SF c). lia.
  - intros c Hc. rewrite Ha by lia. rewrite (proj2 (Z.eqb_neq _ _)) by lia. apply (so_out _ _ _ SF). lia.
  - intros E. by apply Hi.
  - intros E. destruct (Hni E). split; [done|lia].
  - intros c c' Hc Hc'. rewrite !Ha by lia. destruct (Z.eqb_spec c (fi_nb F)), (Z.eqb_spec c' (fi_nb F)); try lia.
    + intros E. by destruct (Hnew _ (Hx c' ltac:(lia))).
    + intros E. by destruct (Hnew _ (Hx c ltac:(lia))).
    + apply (so_inj _ _ _ SF); lia.
  - intros E c Hc. rewrite Ha by lia. destruct (Hi E) as (_ & Hib & Hic). destruct (Z.eqb_spec c (fi_nb F)); [done|]. apply Hic. lia.
  - unfold BSIZE in *. lia.
  - intros k Hk. unfold BSIZE in *. assert (Hc : 0 <= k / 512 < fi_nb F + 1) by zdiv. rewrite Ha by lia.
    destruct (Z.eqb_spec (k / 512) (fi_nb F)) as [E|E].
    + rewrite Hzb, past_data by (unfold BSIZE; zdiv). apply zero_lookup. unfold BSIZE. zdiv.
    + rewrite Hsame; [apply (so_byte _ _ _ SF); unfold BSIZE; zdiv|apply Hx; lia|].
      destruct ind; [left; apply (Hi eq_refl); lia|by right].
Qed.

Lemma grow_own B' ip ind b x :
  0 <= fi_nb F < MAXFILE -> (ind = true -> fi_ind F = true /\ ind_of ip = ind_of (fi_ino F)) -> (ind = false -> fi_ind F = false) ->
  (forall c, 0 <= c < MAXFILE -> iaddr B' ip c = if c =? fi_nb F then b else iaddr B (fi_ino F) c) ->
  own B' (with_ino ip ind (fi_nb F + 1)) x <-> own B F x \/ x = b.
Proof.
  intros Hn Hi Hni Ha. unfold own. cbn [with_ino fi_ino fi_ind fi_nb]. split.
  - intros [[E ->]|(c & Hc & ->)]; [left; left; by destruct (Hi E)|]. rewrite Ha by lia.
    destruct (Z.eqb_spec c (fi_nb F)); [by right|]. left. right. exists c. split; [lia|done].
  - intros [[[E ->]|(c & Hc & ->)]| ->].
    + left. destruct ind; [by destruct (Hi eq_refl)|by rewrite Hni in E].
    + right. exists c. split; [lia|]. rewrite Ha by lia. by rewrite (proj2 (Z.eqb_neq _ _)) by lia.
    + right. exists (fi_nb F). split; [lia|]. rewrite Ha by lia. by rewrite Z.eqb_refl.
Qed.

Context (Hfb : nmeta <= fb < FSSIZE) (Hz : B fb = zero_block).

Lemma own_old x : own B F x -> x <> fb.
Proof using SF. intros Hx%own_range. lia. Qed.

(** ** Directly *)

Definition direct_ino : inode := set_iaddrs (<[Z.to_nat (fi_nb F) := fb]> (i_addrs (fi_ino F))) (fi_ino F).

Lemma direct_addr : fi_ind F = false -> fi_nb F < 12 -> ind_of direct_ino = 0 /\
  forall c, 0 <= c < MAXFILE -> iaddr B direct_ino c = if c =? fi_nb F then fb else iaddr B (fi_ino F) c.
Proof using SF.
  intros Hi Hn. destruct (so_noind _ _ _ SF Hi) as [H0 _]. pose proof (so_nb _ _ _ SF) as Hnb. pose proof (di_len _ (so_ino _ _ _ SF)) as Hl.
  assert (Hi' : ind_of direct_ino = 0). { unfold ind_of, direct_ino. cbn. rewrite list_lookup_insert_ne by (unfold NDIRECT; lia). exact H0. }
  split; [done|]. intros c Hc. unfold iaddr. rewrite Hi', H0. change (Z.of_nat NDIRECT) with 12. destruct (Z.ltb_spec c 12).
  - unfold direct_ino. cbn. destruct (Z.eqb_spec c (fi_nb F)) as [->|].
    + by rewrite list_lookup_insert_eq by (rewrite Hl; unfold NDIRECT; lia).
    + by rewrite list_lookup_insert_ne by lia.
  - by rewrite (proj2 (Z.eqb_neq c (fi_nb F))) by lia.
Qed.

Lemma direct_stored : fi_ind F = false -> fi_nb F < 12 -> stored B (fb + 1) (with_ino direct_ino false (fi_nb F + 1)).
Proof using SF Hfb Hz.
  intros Hi Hn. destruct (direct_addr Hi Hn) as [H0 Ha]. unfold FSSIZE in *. rewrite nmeta_eq in *.
  pose proof (so_nb _ _ _ SF). destruct (set_addr_ok (Z.to_nat (fi_nb F)) fb) as [? ?]; [lia|lia|].
  apply (grow_stored B (fb + 1) direct_ino false fb); try done; rewrite ?nmeta_eq; try (unfold MAXFILE, NDIRECT, NINDIRECT; lia).
  apply own_old.
Qed.

(** ** The indirect block *)

Definition ind_ino (a : Z) : inode := set_iaddrs (<[NDIRECT := a]> (i_addrs (fi_ino F))) (fi_ino F).

Lemma get32_zero k : get32 zero_block k = 0.
Proof.
  assert (Hb : forall j, byte zero_block j = 0).
  { intros j. unfold byte, zero_block. destruct (decide (j < Z.to_nat BSIZE)%nat); [by rewrite lookup_replicate_2|].
    by rewrite lookup_ge_None_2 by (rewrite length_replicate; lia). }
  unfold get32. by rewrite !Hb.
Qed.

Lemma ind_addr : fi_ind F = false -> ind_of (ind_ino fb) = fb /\ forall c, 0 <= c < MAXFILE -> iaddr B (ind_ino fb) c = iaddr B (fi_ino F) c.
Proof using SF Hz.
  intros Hi. destruct (so_noind _ _ _ SF Hi) as [H0 _]. pose proof (di_len _ (so_ino _ _ _ SF)) as Hl.
  assert (Hi' : ind_of (ind_ino fb) = fb). { unfold ind_of, ind_ino. cbn [i_addrs set_iaddrs]. by rewrite list_lookup_insert_eq by lia. }
  split; [done|]. intros c Hc. unfold iaddr. rewrite Hi', H0. destruct (Z.ltb_spec c (Z.of_nat NDIRECT)).
  - unfold ind_ino. cbn [i_addrs set_iaddrs]. by rewrite list_lookup_insert_ne by lia.
  - rewrite Hz, get32_zero. by destruct (_ =? _).
Qed.

Lemma ind_stored : fi_ind F = false -> stored B (fb + 1) (with_ino (ind_ino fb) true (fi_nb F)).
Proof using SF Hfb Hz.
  intros Hi. destruct (ind_addr Hi) as [H0 Ha]. unfold FSSIZE in *. rewrite nmeta_eq in *. pose proof (so_nb _ _ _ SF).
  destruct (set_addr_ok NDIRECT fb) as [? ?]; [unfold NDIRECT; lia|lia|].
  assert (Hc : forall c, 0 <= c < fi_nb F -> iaddr B (fi_ino F) c <> fb) by (intros; apply own_old; right; by exists c).
  pose proof (so_in _ _ _ SF) as Hin. rewrite nmeta_eq in Hin.
  constructor; cbn [with_ino fi_ino fi_ind fi_nb fi_data]; rewrite ?H0, ?nmeta_eq; try done; intros; rewrite ?Ha in * by lia; auto; try lia.
  - pose proof (Hin c). lia.
  - by apply (so_out _ _ _ SF).
  - by apply (so_inj _ _ _ SF).
  - by apply (so_len _ _ _ SF).
  - rewrite Ha by (unfold BSIZE in *; zdiv). by apply (so_byte _ _ _ SF).
Qed.

Lemma ind_own x : fi_ind F = false -> own B (with_ino (ind_ino fb) true (fi_nb F)) x <-> own B F x \/ x = fb.
Proof using SF Hz.
  intros Hi. destruct (ind_addr Hi) as [H0 Ha]. pose proof (so_nb _ _ _ SF). unfold own. cbn [with_ino fi_ino fi_ind fi_nb]. rewrite H0, Hi. split.
  - intros [[_ ->]|(c & Hc & ->)]; [by right|]. left. right. exists c. split; [done|]. by rewrite Ha by lia.
  - intros [[[E ->]|(c & Hc & ->)]| ->]; [done| |by left]. right. exists c. split; [done|]. by rewrite Ha by lia.
Qed.
End stored.

(** ** Through the indirect block *)
Section through.
Context (B B' : Z -> bytes) (fb : Z) (F : file) (SF : stored B fb F).
Context (Hi : fi_ind F = true) (Hnb : 12 <= fi_nb F < MAXFILE) (Hfb : nmeta <= fb < FSSIZE) (Hz : B fb = zero_block).
Let a : Z := ind_of (fi_ino F).
Let o : nat := (4 * (Z.to_nat (fi_nb F) - NDIRECT))%nat.
Context (Hla : length (B a) = Z.to_nat BSIZE) (Ha : B' a = put32 o fb (B a)) (Hb : forall b, b <> a -> B' b = B b).

Lemma through_addr c : 0 <= c < MAXFILE -> iaddr B' (fi_ino F) c = if c =? fi_nb F then fb else iaddr B (fi_ino F) c.
Proof using Hla Ha Hi Hnb Hfb SF.
  intros Hc. pose proof (so_ind _ _ _ SF Hi) as Hr. fold a in Hr. unfold iaddr. fold a. unfold MAXFILE in *. rewrite nmeta_eq in *.
  change (Z.of_nat NDIRECT) with 12. destruct (Z.ltb_spec c 12); [by rewrite (proj2 (Z.eqb_neq c (fi_nb F))) by lia|].
  rewrite (proj2 (Z.eqb_neq a 0)) by lia. rewrite Ha. unfold FSSIZE, NDIRECT, NINDIRECT, BSIZE in *.
  destruct (Z.eqb_spec c (fi_nb F)) as [->|Hne].
  - replace (4 * _)%nat with o by (unfold o, NDIRECT; lia). rewrite get32_put32 by (rewrite Hla; unfold o, NDIRECT; lia). apply u32_id. lia.
  - apply get32_splice_out; unfold o, NDIRECT; cbn [le32 length]; lia.
Qed.

Lemma through_stored : stored B' (fb + 1) (with_ino F (fi_ino F) true (fi_nb F + 1)).
Proof using All.
  pose proof (so_ind _ _ _ SF Hi) as Hr. fold a in Hr. pose proof nmeta_eq as HM.
  apply (grow_stored B fb F SF B' (fb + 1) (fi_ino F) true fb); try lia; try done; try apply SF.
  - rewrite Hb; [done|lia].
  - intros x _ [Hx|]; [|done]. by apply Hb.
  - apply (own_old B fb F SF).
  - intros _. fold a. split; [lia|]. split; [lia|]. by apply (so_ne _ _ _ SF).
  - apply through_addr.
Qed.

Lemma through_own x : own B' (with_ino F (fi_ino F) true (fi_nb F + 1)) x <-> own B F x \/ x = fb.
Proof using Hla Ha Hi Hnb Hfb SF.
  apply grow_own; [lia|done|done|]. intros c Hc. by apply through_addr.
Qed.
End through.

(** * Storing in the last block *)
Section last_block.
Context (B B' : Z -> bytes) (fb : Z) (F : file) (SF : stored B fb F) (x : bytes).
Let n : Z := Z.of_nat (length (fi_data F)).
Let a : Z := iaddr B (fi_ino F) (fi_nb F - 1).
Context (Hn : BSIZE * (fi_nb F - 1) <= n) (Hx : n + Z.of_nat (length x) <= BSIZE * fi_nb F) (Hpos : 0 < fi_nb F).
Context (Hla : length (B a) = Z.to_nat BSIZE) (Ha : B' a = splice (Z.to_nat (n - BSIZE * (fi_nb F - 1))) x (B a)) (Hb : forall b, b <> a -> B' b = B b).

Lemma last_ind : fi_ind F = true -> B' (ind_of (fi_ino F)) = B (ind_of (fi_ino F)).
Proof using Hb SF Hpos. intros Hi. apply Hb. intros E. apply (so_ne _ _ _ SF Hi (fi_nb F - 1)); [clear - Hpos; lia|done]. Qed.

Lemma last_byte k : 0 <= k < BSIZE * fi_nb F ->
  B' (iaddr B (fi_ino F) (k / BSIZE)) !! Z.to_nat (k mod BSIZE) = Some (default 0 ((fi_data F ++ x) !! Z.to_nat k)).
Proof using All.
  intros Hk. pose proof (so_byte _ _ _ SF k Hk) as Hold. unfold BSIZE in *. assert (Hc : 0 <= k / 512 < fi_nb F) by zdiv.
  destruct (decide (k / 512 = fi_nb F - 1)) as [E|E].
  2:{ rewrite Hb. { rewrite lookup_app_l; [done|]. zdiv. }
      intros Ea. apply E. apply (so_inj _ _ _ SF) in Ea; [done|lia|lia]. }
  assert (Hkl : 512 * (fi_nb F - 1) <= k) by zdiv. rewrite E in *. fold a in Hold |- *. rewrite Ha. assert (Hkm : k mod 512 = k - 512 * (fi_nb F - 1)) by zdiv. rewrite Hkm in *.
  destruct (decide (n <= k < n + Z.of_nat (length x))) as [Hin|Hout].
  - rewrite splice_lookup_in by (rewrite ?Hla; lia). rewrite lookup_app_r by lia.
    replace (Z.to_nat (k - _) - Z.to_nat (n - _))%nat with (Z.to_nat k - length (fi_data F))%nat by lia.
    destruct (lookup_lt_is_Some_2 x (Z.to_nat k - length (fi_data F))) as [v ->]; [lia|done].
  - rewrite splice_lookup_out by (rewrite ?Hla; lia). rewrite Hold. destruct (decide (k < n)); [by rewrite lookup_app_l by lia|].
    by rewrite !lookup_ge_None_2 by (rewrite ?length_app; lia).
Qed.

Lemma last_stored : stored B' fb (File (fi_ino F) (fi_ind F) (fi_nb F) (fi_data F ++ x)).
Proof using All.
  pose proof (fun c => iaddr_frame B fb F SF B' c last_ind) as Hf. pose proof SF as [].
  constructor; cbn [fi_ino fi_ind fi_nb fi_data]; try done; intros; rewrite ?Hf in *; auto.
  - rewrite length_app. lia.
  - by apply last_byte.
Qed.

Lemma last_own y d : own B' (File (fi_ino F) (fi_ind F) (fi_nb F) d) y <-> own B F y.
Proof using Hb SF Hpos. apply (own_frame B fb F SF B'). apply last_ind. Qed.
End last_block.
