(* ===== verification/MkfsVolume.v ===== *)
(** The image [mkfs.c] has built so far: files that share no block, blocks
    handed out in order with none lost, and zeroes beyond; [iappend] and
    [ialloc] keep it so. *)

From S2P Require Import Prelude Params Klock Bytes Bio Log Fs FsBlocks FsRead FsWrite FsInode Mkfs MkfsFiles.
Open Scope Z_scope.
Open Scope xv6_scope.

(** * Sectors *)

Definition iblk (s : mk) (n : Z) : bytes := if 0 <=? n then default zero_block (mk_img s !! Z.to_nat n) else zero_block.

Record disk_ok (s : mk) : Prop := {
  dk_size : length (mk_img s) = Z.to_nat FSSIZE;
  dk_len : forall n, length (iblk s n) = Z.to_nat BSIZE
}.

Definition upd (n : Z) (d : bytes) (s : mk) : mk := set_img (<[Z.to_nat n := d]> (mk_img s)) s.
Definition set_fb (fb : Z) (s : mk) : mk := Mk (mk_img s) (freeinode s) fb.

Lemma iblk_img s s' n : mk_img s' = mk_img s -> iblk s' n = iblk s n.
Proof. intros E. unfold iblk. by rewrite E. Qed.

Lemma disk_img s s' : mk_img s' = mk_img s -> disk_ok s -> disk_ok s'.
Proof. intros E [H1 H2]. constructor; [by rewrite E|]. intros n. by rewrite (iblk_img s). Qed.

Section sectors.
Context (s : mk) (D : disk_ok s) (n : Z) (Hn : 0 <= n < FSSIZE).

Lemma wsect_ok d : wsect n d s = Ok tt (upd n d s).
Proof using D Hn.
  unfold wsect, modify, upd. pose proof (dk_size s D). unfold FSSIZE in *. by rewrite (proj2 (Nat.ltb_lt _ _)) by lia.
Qed.

Lemma rsect_ok : rsect n s = Ok (iblk s n) s.
Proof using D Hn.
  unfold rsect, get, bind. cbn [seqr]. unfold iblk. rewrite (proj2 (Z.leb_le _ _)) by lia. pose proof (dk_size s D). unfold FSSIZE in *.
  destruct (lookup_lt_is_Some_2 (mk_img s) (Z.to_nat n)) as [d ->]; [lia|done].
Qed.

Lemma iblk_upd d b : iblk (upd n d s) b = if decide (b = n) then d else iblk s b.
Proof using D Hn.
  unfold iblk, upd. cbn. pose proof (dk_size s D). unfold FSSIZE in *. destruct (Z.leb_spec 0 b); destruct (decide (b = n)) as [->|]; try lia; try done.
  - by rewrite list_lookup_insert_eq by lia.
  - by rewrite list_lookup_insert_ne by lia.
Qed.

Lemma upd_ok d : length d = Z.to_nat BSIZE -> disk_ok (upd n d s).
Proof using D Hn.
  intros Hd. constructor; [unfold upd; cbn; rewrite length_insert; apply D|]. intros b. rewrite iblk_upd.
  destruct (decide (b = n)); [done|apply D].
Qed.
End sectors.

(** * Files *)

Definition cost (F : file) : Z := fi_nb F + (if fi_ind F then 1 else 0).
Definition total (V : list file) : Z := foldr (fun F z => cost F + z) 0 V.

Lemma vtotal_app V W : total (V ++ W) = total V + total W.
Proof. induction V as [|F V IH]; cbn; [done|]. fold (total (V ++ W)) (total V). lia. Qed.

Lemma total_insert V k F G : V !! k = Some F -> total (<[k := G]> V) = total V - cost F + cost G.
Proof.
  intros Hk. rewrite <- (take_drop_middle V k F Hk) at 2. rewrite insert_take_drop by (by apply lookup_lt_Some in Hk).
  rewrite !vtotal_app. cbn. lia.
Qed.

Record volume (s : mk) (V : list file) : Prop := {
  vo_disk : disk_ok s;
  vo_fb : freeblock s = nmeta + total V;
  vo_max : nmeta <= freeblock s <= FSSIZE;
  vo_zero : forall b, freeblock s <= b < FSSIZE -> iblk s b = zero_block;
  vo_file : forall k F, V !! k = Some F -> stored (iblk s) (freeblock s) F;
  vo_apart : forall j k F G b, V !! j = Some F -> V !! k = Some G -> own (iblk s) F b -> own (iblk s) G b -> j = k;
  vo_all : forall b, nmeta <= b < freeblock s -> exists k F, V !! k = Some F /\ own (iblk s) F b
}.

(** Of the data blocks, only those of file [k], and those newly given to it,
    change. *)
Lemma volume_step s s' V k F F' :
  volume s V -> V !! k = Some F -> disk_ok s' -> freeblock s <= freeblock s' <= FSSIZE ->
  freeblock s' = freeblock s - cost F + cost F' -> stored (iblk s') (freeblock s') F' ->
  (forall b, nmeta <= b -> ~ own (iblk s) F b -> ~ (freeblock s <= b < freeblock s') -> iblk s' b = iblk s b) ->
  (forall b, own (iblk s') F' b <-> own (iblk s) F b \/ freeblock s <= b < freeblock s') ->
  volume s' (<[k := F']> V).
Proof.
  intros [H1 H2 H3 H4 H5 H6 H7] Hk D Hle Hfb SF' Hfr Hown. pose proof (lookup_lt_Some _ _ _ Hk) as Hlt.
  assert (Hother : forall j G, j <> k -> V !! j = Some G -> forall b, own (iblk s) G b -> iblk s' b = iblk s b).
  { intros j G Hj HG b Hb. pose proof (own_range _ _ _ (H5 _ _ HG) b Hb). apply Hfr; [lia|intros Hb'; apply Hj; by eapply H6|lia]. }
  assert (Hoo : forall j G b, j <> k -> V !! j = Some G -> own (iblk s') G b <-> own (iblk s) G b).
  { intros j G b Hj HG. apply (own_frame _ _ _ (H5 _ _ HG)). intros Hi. apply (Hother j G Hj HG). by left. }
  assert (Hget : forall j G, <[k := F']> V !! j = Some G -> (j = k /\ G = F') \/ (j <> k /\ V !! j = Some G)).
  { intros j G. destruct (decide (j = k)) as [->|]; [rewrite list_lookup_insert_eq by done; intros [= <-]; by left|].
    rewrite list_lookup_insert_ne by done. by right. }
  constructor; try done.
  - rewrite (total_insert _ _ _ _ Hk). lia.
  - lia.
  - intros b Hb. rewrite Hfr, H4; [done|lia|lia| |lia]. intros Hb'. pose proof (own_range _ _ _ (H5 _ _ Hk) b Hb'). lia.
  - intros j G [[-> ->]|[Hj HG]]%Hget; [done|]. apply (stored_frame _ _ _ (H5 _ _ HG)); [by apply (Hother j)|lia].
  - assert (Hsep : forall j G b, j <> k -> V !! j = Some G -> own (iblk s') F' b -> own (iblk s') G b -> False).
    { intros j G b Hj HG Hb Hb'. rewrite (Hoo j) in Hb' by done. pose proof (own_range _ _ _ (H5 _ _ HG) b Hb').
      apply Hown in Hb as [Hb|Hb]; [|lia]. apply Hj. by eapply H6. }
    intros i j G G' b [[-> ->]|[Hi HG]]%Hget [[-> ->]|[Hj HG']]%Hget Hb Hb'; try done.
    + by destruct (Hsep j G' b).
    + by destruct (Hsep i G b).
    + rewrite (Hoo i) in Hb by done. rewrite (Hoo j) in Hb' by done. by eapply H6.
  - intros b Hb. destruct (decide (freeblock s <= b)).
    { exists k, F'. rewrite list_lookup_insert_eq by done. split; [done|]. apply Hown. right. lia. }
    destruct (H7 b ltac:(lia)) as (j & G & HG & Ho). destruct (decide (j = k)) as [->|Hj].
    + exists k, F'. rewrite list_lookup_insert_eq by done. split; [done|]. apply Hown. left. congruence.
    + exists j, G. rewrite list_lookup_insert_ne by done. split; [done|]. by apply (Hoo j).
Qed.

(** * Finding the block to append to *)

Lemma next_block_ok s : nmeta <= freeblock s <= FSSIZE -> next_block s = Ok (freeblock s) (set_fb (freeblock s + 1) s).
Proof.
  intros H. rewrite nmeta_eq in H. unfold FSSIZE in H. unfold next_block, get, modify, ret, bind. cbn [seqr]. unfold set_fb.
  by rewrite u32_id by lia.
Qed.

Lemma set_fb_img fb s b : iblk (set_fb fb s) b = iblk s b.
Proof. done. Qed.

Section append_block.
Context (s : mk) (V : list file) (VO : volume s V) (k : nat) (F : file) (Hk : V !! k = Some F).
Let SF : stored (iblk s) (freeblock s) F := vo_file s V VO k F Hk.

Lemma addr_xint c : 0 <= c < fi_nb F -> xint (iaddr (iblk s) (fi_ino F) c) = iaddr (iblk s) (fi_ino F) c /\ iaddr (iblk s) (fi_ino F) c <> 0 /\
  0 <= iaddr (iblk s) (fi_ino F) c < FSSIZE.
Proof using SF.
  intros Hc. pose proof (so_in _ _ _ SF c Hc). pose proof (vo_max s V VO). pose proof nmeta_eq.
  split; [|split]; [apply u32_fb; lia|lia|lia].
Qed.

Lemma ind_xint : fi_ind F = true -> xint (ind_of (fi_ino F)) = ind_of (fi_ino F) /\ ind_of (fi_ino F) <> 0 /\ 0 <= ind_of (fi_ino F) < FSSIZE.
Proof using SF.
  intros Hi. pose proof (so_ind _ _ _ SF Hi). pose proof (vo_max s V VO). pose proof nmeta_eq.
  split; [|split]; [apply u32_fb; lia|lia|lia].
Qed.

Lemma append_block_old c : 0 <= c < fi_nb F -> append_block (fi_ino F) c s = Ok (iaddr (iblk s) (fi_ino F) c, fi_ino F) s.
Proof using SF.
  intros Hc. destruct (addr_xint c Hc) as (Hx & Hnz & _). unfold append_block. revert Hx Hnz. unfold iaddr.
  destruct (Z.ltb_spec c (Z.of_nat NDIRECT)) as [Hd|Hd]; intros Hx Hnz.
  { rewrite Hx, (proj2 (Z.eqb_neq _ _)) by done. unfold bind, ret. cbn [seqr]. by rewrite Hx. }
  assert (Hi : fi_ind F = true). { destruct (fi_ind F) eqn:E; [done|]. pose proof (so_noind _ _ _ SF E). unfold NDIRECT in Hd. lia. }
  destruct (ind_xint Hi) as (Hix & Hinz & Hir). fold (ind_of (fi_ino F)). rewrite Hix. rewrite (proj2 (Z.eqb_neq _ 0)) in * by done.
  unfold bind at 1, ret at 1. cbn [seqr]. fold (ind_of (fi_ino F)). rewrite Hix. step (rsect_ok s (vo_disk s V VO) _ Hir).
  replace (4 * (Z.to_nat c - NDIRECT))%nat with (4 * Z.to_nat (c - Z.of_nat NDIRECT))%nat by lia.
  rewrite (proj2 (Z.eqb_neq _ 0)) by done. unfold bind, ret. cbn [seqr]. by rewrite Hx.
Qed.

(** The block is new. *)
Definition appended (x : Z) (ip : inode) (s' : mk) (V' : list file) : Prop :=
  exists F', V' = <[k := F']> V /\ volume s' V' /\ ip = fi_ino F' /\ fi_nb F' = fi_nb F + 1 /\ fi_ind F' = (12 <? fi_nb F + 1) /\
    fi_data F' = fi_data F /\ i_type ip = i_type (fi_ino F) /\ i_nlink ip = i_nlink (fi_ino F) /\
    x = iaddr (iblk s') ip (fi_nb F) /\ freeinode s' = freeinode s /\ (forall b, b < nmeta -> iblk s' b = iblk s b).

Lemma append_block_direct :
  fi_nb F < 12 -> fi_ind F = false -> freeblock s < FSSIZE ->
  exists x ip s' V', append_block (fi_ino F) (fi_nb F) s = Ok (x, ip) s' /\ appended x ip s' V'.
Proof using SF.
  intros Hn Hi Hr. pose proof (so_nb _ _ _ SF) as Hnb. pose proof (vo_max s V VO) as Hm. set (fb := freeblock s) in *.
  assert (Hz : iblk s fb = zero_block) by (apply (vo_zero s V VO); unfold fb in *; lia).
  assert (Hfb : nmeta <= fb < FSSIZE) by lia.
  destruct (direct_addr (iblk s) fb F SF Hi Hn) as [_ Ha].
  assert (Hx : xint fb = fb) by (apply u32_fb; lia).
  exists fb, (direct_ino fb F), (set_fb (fb + 1) s), (<[k := with_ino F (direct_ino fb F) false (fi_nb F + 1)]> V). split.
  - unfold append_block. rewrite (proj2 (Z.ltb_lt _ _)) by done.
    assert (H0 : default 0 (i_addrs (fi_ino F) !! Z.to_nat (fi_nb F)) = 0).
    { pose proof (so_out _ _ _ SF (fi_nb F)) as H. unfold iaddr in H. rewrite (proj2 (Z.ltb_lt _ _)) in H by done. apply H. unfold MAXFILE, NDIRECT, NINDIRECT. lia. }
    rewrite H0. change (xint 0 =? 0) with true. cbn iota. unfold bind at 1. rewrite (bind_ok _ _ _ _ _ (next_block_ok s Hm)). cbn [ret seqr].
    fold fb. rewrite Hx. unfold ret. f_equal. fold (direct_ino fb F). f_equal. etrans; [|exact Hx]. f_equal. unfold direct_ino. cbn [i_addrs set_iaddrs].
    by rewrite list_lookup_insert_eq by (rewrite (di_len _ (so_ino _ _ _ SF)); unfold NDIRECT; lia).
  - exists (with_ino F (direct_ino fb F) false (fi_nb F + 1)). split; [done|]. split.
    + apply (volume_step s _ V k F); try done; fold fb; cbn [freeblock set_fb].
      * apply (disk_img s); [done|apply VO].
      * lia.
      * unfold cost. cbn. rewrite Hi. lia.
      * by apply direct_stored.
      * intros b. etrans; [apply (grow_own (iblk s) F (iblk s) (direct_ino fb F) false fb b); [unfold MAXFILE, NDIRECT, NINDIRECT; lia|done|done|done]|].
        split; intros [?|?]; [by left|right; lia|by left|right; lia].
    + do 2 (split; [done|]). split; [symmetry; apply Z.ltb_ge; lia|]. do 3 (split; [done|]). split; [|done].
      symmetry. etrans; [apply (Ha (fi_nb F)); unfold MAXFILE, NDIRECT, NINDIRECT; lia|]. by rewrite Z.eqb_refl.
Qed.

(** The last part of the indirect case, once there is an indirect block. *)
Definition through (din : inode) (c : Z) : M mk (Z * inode) :=
  let a := xint (default 0 (i_addrs din !! NDIRECT)) in
  let o := (4 * (Z.to_nat c - NDIRECT))%nat in
  indirect <- rsect a ;;
  indirect <- (if get32 indirect o =? 0
               then b <- next_block ;; wsect a (put32 o (xint b) indirect) ;;; ret (put32 o (xint b) indirect)
               else ret indirect) ;;
  ret (xint (get32 indirect o), din).

Lemma append_block_through :
  12 <= fi_nb F < MAXFILE -> fi_ind F = true -> freeblock s < FSSIZE ->
  exists x s' V', through (fi_ino F) (fi_nb F) s = Ok (x, fi_ino F) s' /\ appended x (fi_ino F) s' V'.
Proof using SF.
  intros Hn Hi Hr. pose proof (vo_max s V VO) as Hm. set (fb := freeblock s) in *. set (a := ind_of (fi_ino F)).
  pose proof (vo_disk s V VO) as D. destruct (ind_xint Hi) as (Hax & Hanz & Har). fold a in Hax, Hanz, Har.
  assert (Hz : iblk s fb = zero_block) by (apply (vo_zero s V VO); unfold fb in *; lia).
  assert (Hfb : nmeta <= fb < FSSIZE) by lia. assert (Hx : xint fb = fb) by (apply u32_fb; lia).
  set (o := (4 * (Z.to_nat (fi_nb F) - NDIRECT))%nat). set (d := put32 o fb (iblk s a)). set (s' := upd a d (set_fb (fb + 1) s)).
  assert (Ho : (o + 4 <= length (iblk s a))%nat) by (rewrite (dk_len s D); unfold o, BSIZE, MAXFILE, NDIRECT, NINDIRECT in *; lia).
  assert (D1 : disk_ok (set_fb (fb + 1) s)) by (apply (disk_img s); done).
  assert (Hb : forall b, iblk s' b = if decide (b = a) then d else iblk s b).
  { intros b. unfold s'. by rewrite (iblk_upd _ D1 a Har). }
  assert (Hba : iblk s' a = d) by (by rewrite Hb, decide_True). assert (Hbn : forall b, b <> a -> iblk s' b = iblk s b) by (intros; by rewrite Hb, decide_False).
  pose proof (through_addr (iblk s) (iblk s') fb F SF Hi Hn Hfb (dk_len s D a) Hba) as Ha.
  exists fb, s', (<[k := with_ino F (fi_ino F) true (fi_nb F + 1)]> V). split.
  - unfold through. fold (ind_of (fi_ino F)). fold a. rewrite Hax. step (rsect_ok s D a Har). fold o.
    assert (H0 : get32 (iblk s a) o = 0).
    { pose proof (so_out _ _ _ SF (fi_nb F) ltac:(lia)) as H. unfold iaddr in H. fold a in H.
      rewrite (proj2 (Z.ltb_ge _ _)), (proj2 (Z.eqb_neq _ 0)) in H by (done || unfold NDIRECT; lia).
      rewrite <- H. unfold o. f_equal. lia. }
    rewrite H0, Z.eqb_refl. unfold bind at 1. rewrite (bind_ok _ _ _ _ _ (next_block_ok s Hm)). fold fb. rewrite Hx. fold d.
    rewrite (bind_ok _ _ _ _ _ (wsect_ok _ D1 a Har d)). fold s'. cbn [ret seqr]. unfold ret. do 2 f_equal.
    unfold d. rewrite get32_put32 by done. rewrite u32_id; [exact Hx|]. pose proof nmeta_eq. unfold FSSIZE in *. lia.
  - exists (with_ino F (fi_ino F) true (fi_nb F + 1)). split; [done|]. split.
    + apply (volume_step s _ V k F); try done; fold fb.
      * apply upd_ok; try done. unfold d. by rewrite put32_length, (dk_len s D).
      * unfold s'. cbn. lia.
      * unfold s', cost. cbn. rewrite Hi. lia.
      * by apply (through_stored (iblk s) (iblk s') fb F SF Hi Hn Hfb Hz (dk_len s D a)).
      * intros b _ Hno _. apply Hbn. intros ->. apply Hno. by left.
      * intros b. etrans; [apply (through_own (iblk s) (iblk s') fb F SF Hi Hn Hfb (dk_len s D a) Hba)|].
        unfold s'. cbn. split; intros [?|?]; [by left|right; lia|by left|right; lia].
    + do 2 (split; [done|]). split; [symmetry; apply Z.ltb_lt; lia|]. do 3 (split; [done|]). split; [|split; [done|]].
      * symmetry. etrans; [apply (Ha (fi_nb F)); lia|]. by rewrite Z.eqb_refl.
      * intros b Hbm. apply Hbn. pose proof (so_ind _ _ _ SF Hi) as Hia. fold a in Hia. lia.
Qed.
End append_block.

(** How many blocks a file of so many blocks takes. *)
Definition blocks_for (nb : Z) : Z := nb + (if 12 <? nb then 1 else 0).

Lemma append_block_new s V k F :
  volume s V -> V !! k = Some F -> fi_nb F < MAXFILE -> fi_ind F = (12 <? fi_nb F) ->
  freeblock s - blocks_for (fi_nb F) + blocks_for (fi_nb F + 1) <= FSSIZE ->
  exists x ip s' V', append_block (fi_ino F) (fi_nb F) s = Ok (x, ip) s' /\ appended s V k F x ip s' V'.
Proof.
  intros VO Hk Hn Hi Hr. pose proof (vo_file s V VO k F Hk) as SF. pose proof (so_nb _ _ _ SF) as Hnb. unfold blocks_for in Hr.
  destruct (Z.lt_trichotomy (fi_nb F) 12) as [Hd|[Hd|Hd]].
  - rewrite !(proj2 (Z.ltb_ge 12 _)) in * by lia. apply append_block_direct; try done. lia.
  - rewrite Hd in Hr, Hi. change (12 <? 12) with false in *. change (12 <? 12 + 1) with true in Hr. pose proof (vo_max s V VO) as Hm. set (fb := freeblock s) in *.
    assert (Hz : iblk s fb = zero_block) by (apply (vo_zero s V VO); unfold fb in *; lia).
    assert (Hfb : nmeta <= fb < FSSIZE) by lia. assert (Hx : xint fb = fb) by (apply u32_fb; lia).
    set (F1 := with_ino F (ind_ino F fb) true (fi_nb F)). set (s1 := set_fb (fb + 1) s).
    assert (V1 : volume s1 (<[k := F1]> V)).
    { apply (volume_step s s1 V k F); try done; fold fb; cbn [freeblock s1 set_fb].
      - apply (disk_img s); [done|apply VO].
      - lia.
      - unfold cost. cbn. rewrite Hi. lia.
      - by apply ind_stored.
      - intros b. etrans; [by apply (ind_own (iblk s) fb F SF Hz)|]. split; intros [?|?]; [by left|right; lia|by left|right; lia]. }
    assert (Hk1 : <[k := F1]> V !! k = Some F1) by (apply list_lookup_insert_eq; by eapply lookup_lt_Some).
    destruct (append_block_through s1 _ V1 k F1 Hk1) as (x & s' & V' & E & F' & -> & VO' & Hip & HF); [cbn [fi_nb F1 with_ino]; lia|done|cbn; lia|].
    exists x, (ind_ino F fb), s', (<[k := F']> V). rewrite list_insert_insert, decide_True in VO' by done. split; [|exists F'; by repeat (split; [done|])].
    unfold append_block. rewrite (proj2 (Z.ltb_ge _ _)) by (unfold NDIRECT; lia). fold (ind_of (fi_ino F)).
    destruct (so_noind _ _ _ SF Hi) as [-> _]. change (xint 0 =? 0) with true. cbn iota. unfold bind at 1.
    rewrite (bind_ok _ _ _ _ _ (next_block_ok s Hm)). fold fb s1. rewrite Hx. cbn [ret seqr]. exact E.
  - assert (Hi' : fi_ind F = true) by (rewrite Hi; apply Z.ltb_lt; lia). rewrite !(proj2 (Z.ltb_lt 12 _)) in Hr by lia.
    destruct (append_block_through s V VO k F Hk) as (x & s' & V' & E & HA); [lia|done|lia|].
    exists x, (fi_ino F), s', V'. split; [|done]. unfold append_block. rewrite (proj2 (Z.ltb_ge _ _)) by (unfold NDIRECT; lia).
    fold (ind_of (fi_ino F)). destruct (ind_xint s V VO k F Hk Hi') as (Hax & Hanz & _). rewrite Hax, (proj2 (Z.eqb_neq _ 0)) by done. exact E.
Qed.

(** * Appending *)

Definition nblocks_of (n : Z) : Z := (n + (BSIZE - 1)) / BSIZE.
Definition flen (F : file) : Z := Z.of_nat (length (fi_data F)).

(** The file has just the blocks it needs. *)
Definition tight (F : file) : Prop := fi_nb F = nblocks_of (flen F) /\ fi_ind F = (12 <? fi_nb F).

(** How many blocks so many bytes take. *)
Definition space (n : Z) : Z := blocks_for (nblocks_of n).

Lemma space_mono m n : m <= n -> space m <= space n.
Proof.
  intros H. unfold space, blocks_for. assert (nblocks_of m <= nblocks_of n) by (unfold nblocks_of, BSIZE; zdiv).
  destruct (Z.ltb_spec 12 (nblocks_of m)), (Z.ltb_spec 12 (nblocks_of n)); lia.
Qed.

(** What appending to file [k] leaves alone. *)
Record same_meta (s s' : mk) : Prop := {
  sm_inode : freeinode s' = freeinode s;
  sm_blk : forall b, b < nmeta -> iblk s' b = iblk s b
}.

Lemma same_meta_trans s1 s2 s3 : same_meta s1 s2 -> same_meta s2 s3 -> same_meta s1 s3.
Proof. intros [A1 A2] [B1 B2]. constructor; [congruence|]. intros. by rewrite B2, A2. Qed.

Record same_kind (F F' : file) : Prop := {
  sk_type : i_type (fi_ino F') = i_type (fi_ino F);
  sk_nlink : i_nlink (fi_ino F') = i_nlink (fi_ino F)
}.

Lemma append_block_ok s V k F :
  volume s V -> V !! k = Some F -> tight F -> flen F < MAXFILE * BSIZE ->
  freeblock s - space (flen F) + space (flen F + 1) <= FSSIZE ->
  exists s1 F1, append_block (fi_ino F) (flen F / BSIZE) s = Ok (iaddr (iblk s1) (fi_ino F1) (flen F / BSIZE), fi_ino F1) s1 /\
    volume s1 (<[k := F1]> V) /\ fi_nb F1 = flen F / BSIZE + 1 /\ fi_ind F1 = (12 <? fi_nb F1) /\ fi_data F1 = fi_data F /\
    same_kind F F1 /\ same_meta s s1 /\ freeblock s1 = freeblock s - space (flen F) + space (flen F + 1).
Proof.
  intros VO Hk [T1 T2] Hl Hr. pose proof (vo_file s V VO k F Hk) as SF. assert (0 <= flen F) by (unfold flen; lia).
  assert (E1 : nblocks_of (flen F + 1) = flen F / BSIZE + 1) by (unfold nblocks_of, BSIZE; zdiv).
  unfold space in *. rewrite <- T1, E1 in *. destruct (decide (flen F / BSIZE < fi_nb F)) as [Hc|Hc].
  - assert (Enb : fi_nb F = flen F / BSIZE + 1) by (rewrite T1 in *; unfold nblocks_of, BSIZE in *; zdiv).
    exists s, F. rewrite (append_block_old s V VO k F Hk) by (unfold BSIZE in *; zdiv). rewrite list_insert_id by done.
    do 5 (split; [done|]). split; [done|]. split; [done|]. rewrite <- Enb. lia.
  - assert (Enb : flen F / BSIZE = fi_nb F) by (rewrite T1 in *; unfold nblocks_of, BSIZE in *; zdiv). rewrite Enb in *.
    destruct (append_block_new s V k F VO Hk) as (x & ip & s' & V' & E & F' & -> & VO' & -> & H1 & H2 & H3 & H4 & H5 & -> & H6 & H7); try done.
    { unfold MAXFILE, NDIRECT, NINDIRECT, BSIZE in *. zdiv. }
    exists s', F'. split; [done|]. split; [done|]. split; [done|]. split; [by rewrite H1|]. do 3 (split; [done|]).
    pose proof (vo_fb _ _ VO) as G1. pose proof (vo_fb _ _ VO') as G2. rewrite (total_insert _ _ _ _ Hk) in G2.
    unfold cost in G2. rewrite T2, H2, H1 in G2. unfold blocks_for. lia.
Qed.

(** Storing a piece in the last block. *)
Lemma append_piece_ok s V k F x :
  volume s V -> V !! k = Some F -> BSIZE * (fi_nb F - 1) <= flen F -> flen F + Z.of_nat (length x) <= BSIZE * fi_nb F -> 0 < fi_nb F ->
  let a := iaddr (iblk s) (fi_ino F) (fi_nb F - 1) in
  let s' := upd a (splice (Z.to_nat (flen F - BSIZE * (fi_nb F - 1))) x (iblk s a)) s in
  rsect a s = Ok (iblk s a) s /\ (forall d, wsect a d s = Ok tt (upd a d s)) /\
  volume s' (<[k := File (fi_ino F) (fi_ind F) (fi_nb F) (fi_data F ++ x)]> V) /\ same_meta s s'.
Proof.
  intros VO Hk Hl Hx Hp a s'. pose proof (vo_file s V VO k F Hk) as SF. pose proof (vo_disk s V VO) as D.
  destruct (addr_xint s V VO k F Hk (fi_nb F - 1) ltac:(lia)) as (_ & _ & Har). fold a in Har.
  pose proof (so_in _ _ _ SF (fi_nb F - 1) ltac:(lia)) as Hin. fold a in Hin. pose proof (vo_max _ _ VO) as Hm.
  split; [by apply rsect_ok|]. split; [intros; by apply wsect_ok|].
  set (d := splice (Z.to_nat (flen F - BSIZE * (fi_nb F - 1))) x (iblk s a)) in *.
  assert (Hd : length d = Z.to_nat BSIZE) by (unfold d; rewrite splice_length; rewrite (dk_len s D); unfold BSIZE in *; lia).
  assert (Hba : iblk s' a = d) by (unfold s'; by rewrite (iblk_upd s D a Har), decide_True).
  assert (Hbn : forall b, b <> a -> iblk s' b = iblk s b) by (intros; unfold s'; by rewrite (iblk_upd s D a Har), decide_False).
  split; [|split; [done|intros b Hb; apply Hbn; lia]].
  apply (volume_step s s' V k F); try done; cbn [freeblock s' upd set_img].
  - by apply upd_ok.
  - lia.
  - unfold cost. cbn. lia.
  - by apply (last_stored (iblk s) (iblk s') (freeblock s) F SF x Hl Hx Hp (dk_len s D a)).
  - intros b _ Hno _. apply Hbn. intros ->. apply Hno. right. exists (fi_nb F - 1). split; [lia|done].
  - intros b. etrans; [by apply (last_own (iblk s) (iblk s') (freeblock s) F SF Hp Hbn)|]. split; [by left|]. intros [?|?]; [done|lia].
Qed.

(** The file after appending [p]. *)
Record appends (F : file) (p : bytes) (F' : file) : Prop := {
  ap_tight : tight F';
  ap_data : fi_data F' = fi_data F ++ p;
  ap_kind : same_kind F F'
}.

Lemma append_loop_ok k fuel : forall s V F p,
  volume s V -> V !! k = Some F -> tight F -> flen F + Z.of_nat (length p) <= MAXFILE * BSIZE ->
  freeblock s - space (flen F) + space (flen F + Z.of_nat (length p)) <= FSSIZE -> (length p < fuel)%nat ->
  exists s' F', append_loop (fi_ino F) (flen F) p fuel s = Ok (fi_ino F', flen F + Z.of_nat (length p)) s' /\
    volume s' (<[k := F']> V) /\ appends F p F' /\ same_meta s s'.
Proof.
  induction fuel as [|fuel IH]; intros s V F p VO Hk T Hl Hr Hf; [lia|]. cbn [append_loop].
  destruct (Z.ltb_spec 0 (Z.of_nat (length p))) as [Hp|Hp].
  2:{ destruct p; [|cbn in Hp; lia]. exists s, F. rewrite Z.add_0_r, list_insert_id by done. split; [done|]. split; [done|].
      split; [constructor; [done|by rewrite app_nil_r|done]|done]. }
  set (n := Z.of_nat (length p)) in *. assert (H0 : 0 <= flen F) by (unfold flen; lia).
  assert (Hmx : MAXFILE * BSIZE = 71680) by done.
  rewrite (proj2 (Z.ltb_lt (flen F / BSIZE) MAXFILE)) by (unfold BSIZE, MAXFILE, NDIRECT, NINDIRECT in *; zdiv). cbn [negb].
  pose proof (space_mono (flen F + 1) (flen F + n) ltac:(lia)) as Hsp.
  destruct (append_block_ok s V k F VO Hk T ltac:(lia) ltac:(lia)) as (s1 & F1 & E1 & VO1 & Hnb & Hi & Hdat & K1 & M1 & Hfb).
  step E1. assert (Hk1 : <[k := F1]> V !! k = Some F1) by (apply list_lookup_insert_eq; by eapply lookup_lt_Some).
  assert (El : flen F1 = flen F) by (unfold flen; by rewrite Hdat).
  set (c := flen F / BSIZE) in *. assert (Hc : 0 <= BSIZE * c <= flen F /\ flen F < BSIZE * (c + 1)) by (unfold c, BSIZE; zdiv). unfold BSIZE in Hc.
  rewrite (u32_id ((c + 1) * BSIZE - flen F)) by (unfold BSIZE in *; lia). set (n1 := Z.min n ((c + 1) * BSIZE - flen F)).
  assert (Hn1 : 0 < n1 <= n /\ flen F + n1 <= 512 * (c + 1)) by (unfold n1, BSIZE in *; lia).
  assert (Hx : Z.of_nat (length (take (Z.to_nat n1) p)) = n1) by (rewrite length_take; lia).
  destruct (append_piece_ok s1 _ k F1 (take (Z.to_nat n1) p) VO1 Hk1) as (R & W & VO2 & M2); try (unfold BSIZE in *; lia).
  rewrite Hnb in R, W, VO2, M2. replace (c + 1 - 1) with c in R, W, VO2, M2 by lia. rewrite El in VO2, M2.
  replace (BSIZE * c) with (c * BSIZE) in VO2, M2 by lia. step R. step (W (splice (Z.to_nat (flen F - c * BSIZE)) (take (Z.to_nat n1) p) (iblk s1 (iaddr (iblk s1) (fi_ino F1) c)))).
  set (s2 := upd _ _ s1) in *. rewrite list_insert_insert, decide_True in VO2 by done.
  set (F2 := File _ _ _ _) in VO2. assert (Hk2 : <[k := F2]> V !! k = Some F2) by (apply list_lookup_insert_eq; by eapply lookup_lt_Some).
  assert (El2 : flen F2 = flen F + n1) by (unfold flen, F2; cbn [fi_data]; rewrite length_app, Hdat; unfold flen in *; lia).
  assert (Hnb2 : nblocks_of (flen F2) = c + 1) by (rewrite El2; unfold nblocks_of, BSIZE; zdiv).
  assert (T2 : tight F2) by (split; [cbn; by rewrite Hnb2|exact (eq_trans Hi (f_equal _ Hnb))]).
  assert (Hrest : Z.of_nat (length (drop (Z.to_nat n1) p)) = n - n1) by (rewrite length_drop; lia).
  assert (Hsp2 : space (flen F2) = space (flen F + 1)).
  { unfold space. f_equal. rewrite Hnb2. unfold nblocks_of, c, BSIZE. zdiv. }
  destruct (IH s2 _ F2 (drop (Z.to_nat n1) p) VO2 Hk2 T2) as (s' & F' & E & VO' & [A1 A2 A3] & M'); rewrite ?Hrest, ?El2; try lia.
  { rewrite <- El2, Hsp2. change (freeblock s2) with (freeblock s1). rewrite Hfb. replace (flen F2 + (n - n1)) with (flen F + n) by lia. lia. }
  rewrite u32_id by lia. exists s', F'. rewrite list_insert_insert, decide_True in VO' by done. split; [|split; [done|split]].
  - change (fi_ino F1) with (fi_ino F2). rewrite <- El2, E, Hrest. do 2 f_equal. lia.
  - constructor; [done| |destruct K1, A3; constructor; cbn in *; congruence]. rewrite A2. cbn. by rewrite Hdat, <- app_assoc, take_drop.
  - exact (same_meta_trans _ _ _ M1 (same_meta_trans _ _ _ M2 M')).
Qed.

(** * The inode table *)

Definition ninum (k : nat) : Z := Z.of_nat k + 1.

(** What block [B] of the table holds for inode [n]. *)
Definition slot_at (B : Z -> bytes) (n : Z) : inode := load_dinode (B (IBLOCK n mk_sb)) (dip n) zero_inode.

(** The inodes of the files, and zeroes for all others. *)
Record table (s : mk) (V : list file) : Prop := {
  tb_file : forall k F, V !! k = Some F -> slot_at (iblk s) (ninum k) = fi_ino F;
  tb_free : forall n, 0 <= n < 208 -> n = 0 \/ Z.of_nat (length V) < n -> slot_at (iblk s) n = zero_inode
}.

Lemma slot_zero B n : 0 <= n -> B (IBLOCK n mk_sb) = zero_block -> slot_at B n = zero_inode.
Proof.
  intros Hn E. unfold slot_at. rewrite E. unfold dip. assert (H : 0 <= n mod IPB < 8) by (by apply Z.mod_pos_bound).
  assert (C : forall k, (k < 8)%nat -> load_dinode zero_block (Z.to_nat (Z.of_nat k * DINODE)) zero_inode = zero_inode) by (intros k Hk; do 8 (destruct k as [|k]; [vm_compute; reflexivity|]); lia).
  rewrite <- (C (Z.to_nat (n mod IPB))) by lia. by rewrite Z2Nat.id by lia.
Qed.

Lemma table_frame s s' V : table s V -> Z.of_nat (length V) < 208 -> (forall b, 32 <= b < 58 -> iblk s' b = iblk s b) -> table s' V.
Proof.
  intros [T1 T2] Hl Hb. assert (E : forall n, 0 <= n < 208 -> slot_at (iblk s') n = slot_at (iblk s) n).
  { intros n Hn. unfold slot_at. rewrite Hb; [done|]. unfold IBLOCK. change IPB with 8. change (sb_inodestart mk_sb) with 32. rewrite u32_id by zdiv. zdiv. }
  constructor; [|intros n Hn Hf; rewrite E by done; by apply T2].
  intros k F HF. pose proof (lookup_lt_Some _ _ _ HF). rewrite E by (unfold ninum; lia). by apply T1.
Qed.

Lemma IBLOCK_eq n : 0 <= n < 208 -> IBLOCK n mk_sb = n / 8 + 32 /\ 32 <= IBLOCK n mk_sb < 58.
Proof. intros H. unfold IBLOCK. change IPB with 8. change (sb_inodestart mk_sb) with 32. rewrite u32_id by zdiv. zdiv. Qed.

Section winode.
Context (s : mk) (D : disk_ok s) (n : Z) (Hn : 0 <= n < 208) (ip : inode) (HB : bare ip) (HD : dinode_ok ip).
Let b : Z := IBLOCK n mk_sb.
Let s' : mk := upd b (splice (dip n) (dinode_bytes ip) (iblk s b)) s.

Lemma winode_ok : winode n ip s = Ok tt s' /\ disk_ok s'.
Proof using All.
  destruct (IBLOCK_eq n Hn) as [_ Hr]. fold b in Hr. assert (Hb : 0 <= b < FSSIZE) by (unfold FSSIZE; lia). split.
  - unfold winode. fold b. step (rsect_ok s D b Hb). by apply wsect_ok.
  - apply upd_ok; try done. rewrite splice_length; rewrite (dk_len s D); [done|]. rewrite dinode_length by apply HD. apply dip_fits. lia.
Qed.

Lemma winode_same : load_dinode (iblk s' b) (dip n) zero_inode = ip.
Proof using All.
  destruct (IBLOCK_eq n Hn) as [_ Hr]. fold b in Hr. unfold s'. rewrite (iblk_upd s D b), decide_True by (done || unfold FSSIZE; lia).
  rewrite load_dinode_bytes; [exact HB|done|]. rewrite (dk_len s D). apply dip_fits. lia.
Qed.

Lemma winode_other m : 0 <= m < 208 -> m <> n ->
  load_dinode (iblk s' (IBLOCK m mk_sb)) (dip m) zero_inode = load_dinode (iblk s (IBLOCK m mk_sb)) (dip m) zero_inode.
Proof using All.
  intros Hm Hne. destruct (IBLOCK_eq n Hn) as [En Hr], (IBLOCK_eq m Hm) as [Em Hrm]. fold b in En, Hr. unfold s'.
  rewrite (iblk_upd s D b) by (unfold FSSIZE; lia). destruct (decide (IBLOCK m mk_sb = b)) as [E|E]; [|done].
  rewrite E. apply load_dinode_other; [apply HD|rewrite (dk_len s D); apply dip_fits; lia|]. apply dip_apart; try lia. change IPB with 8. zdiv.
Qed.

Lemma winode_blk c : ~ (32 <= c < 58) -> iblk s' c = iblk s c.
Proof using All.
  intros Hc. destruct (IBLOCK_eq n Hn) as [_ Hr]. fold b in Hr. unfold s'. rewrite (iblk_upd s D b) by (unfold FSSIZE; lia).
  rewrite decide_False by lia. done.
Qed.
End winode.

(** * The image *)

(** Inodes are handed out in order too; the boot block, the log and, until the
    end, the free map are zero. *)
Record image (s : mk) (V : list file) : Prop := {
  im_vol : volume s V;
  im_table : table s V;
  im_inode : freeinode s = 1 + Z.of_nat (length V);
  im_count : Z.of_nat (length V) < 208;
  im_tight : forall k F, V !! k = Some F -> tight F /\ i_size (fi_ino F) = flen F /\ i_nlink (fi_ino F) = 1;
  im_super : iblk s 1 = splice 0 (sb_bytes mk_sb) zero_block;
  im_zero : forall b, b < nmeta -> b <> 1 -> ~ (32 <= b < 58) -> iblk s b = zero_block
}.

Definition resize (z : Z) (F : file) : file := File (set_isize z (fi_ino F)) (fi_ind F) (fi_nb F) (fi_data F).

Lemma resize_bare z ip : bare ip -> bare (set_isize z ip).
Proof. unfold bare. intros E. rewrite <- E. done. Qed.

Lemma resize_ino z ip : 0 <= z < 2 ^ 32 -> dinode_ok ip -> dinode_ok (set_isize z ip).
Proof. intros Hz []. by constructor. Qed.

Lemma xint_id x : 0 <= x < 2 ^ 32 -> xint x = x.
Proof. intros. unfold xint. rewrite <- (app_nil_r (le32 x)), get32_le32. by apply u32_id. Qed.

(** Writing back the inode of file [k] with a size. *)
Lemma write_back s V V0 k F z :
  volume s V -> V !! k = Some F -> table s V0 -> V = <[k := F]> V0 -> Z.of_nat (length V0) < 208 -> 0 <= z < 2 ^ 32 ->
  exists s', winode (ninum k) (set_isize z (fi_ino F)) s = Ok tt s' /\ volume s' (<[k := resize z F]> V0) /\ table s' (<[k := resize z F]> V0) /\
    freeinode s' = freeinode s /\ (forall b, ~ (32 <= b < 58) -> iblk s' b = iblk s b).
Proof.
  intros VO Hk T EV Hlen Hz. pose proof (vo_file s V VO k F Hk) as SF. pose proof (vo_disk s V VO) as D.
  pose proof (lookup_lt_Some _ _ _ Hk) as Hlt. rewrite EV, length_insert in Hlt.
  assert (Hn : 0 <= ninum k < 208) by (unfold ninum; lia).
  pose proof (resize_bare z _ (so_bare _ _ _ SF)) as HB. pose proof (resize_ino z _ Hz (so_ino _ _ _ SF)) as HD.
  destruct (winode_ok s D _ Hn _ HB HD) as [E D']. pose proof (winode_same s D _ Hn _ HB HD) as Es.
  pose proof (winode_other s D _ Hn _ HB HD) as Eo. pose proof (winode_blk s D _ Hn _ HB HD) as Eb. set (s' := upd _ _ s) in *.
  exists s'. split; [done|]. split; [|split; [|by split]].
  - replace (<[k := resize z F]> V0) with (<[k := resize z F]> V) by (rewrite EV, list_insert_insert, decide_True; done).
    pose proof nmeta_eq as HM. pose proof (vo_max _ _ VO) as Hm. assert (Hfr : forall b, own (iblk s) F b -> iblk s' b = iblk s b).
    { intros b Hb. apply Eb. pose proof (own_range _ _ _ SF b Hb). lia. }
    pose proof (stored_frame _ _ _ SF (iblk s') (freeblock s) Hfr ltac:(lia)) as [].
    apply (volume_step s s' V k F); try done; cbn [freeblock s' upd set_img].
    + lia.
    + unfold cost. cbn. lia.
    + intros b Hb _ _. apply Eb. lia.
    + intros b. etrans; [apply (own_frame _ _ _ SF); intros Hi; apply Hfr; by left|]. split; [by left|]. intros [?|?]; [done|lia].
  - constructor.
    + intros j G. destruct (decide (j = k)) as [->|Hj]; [rewrite list_lookup_insert_eq by done; by intros [= <-]|].
      rewrite list_lookup_insert_ne by done. intros HG. pose proof (lookup_lt_Some _ _ _ HG). unfold slot_at. rewrite Eo by (unfold ninum; lia). by apply T.
    + intros n H208 Hf. rewrite length_insert in Hf. unfold slot_at. rewrite Eo by (unfold ninum; lia). by apply T.
Qed.

Lemma iappend_ok s V k F p :
  image s V -> V !! k = Some F -> flen F + Z.of_nat (length p) <= MAXFILE * BSIZE ->
  freeblock s - space (flen F) + space (flen F + Z.of_nat (length p)) <= FSSIZE ->
  exists s' F', iappend (ninum k) p s = Ok tt s' /\ image s' (<[k := F']> V) /\ appends F p F' /\
    freeblock s' = freeblock s - space (flen F) + space (flen F + Z.of_nat (length p)).
Proof.
  intros [I1 I2 I3 I4 I5 I6 I7] Hk Hl Hr. destruct (I5 k F Hk) as (T & Hsz & Hnl). pose proof (lookup_lt_Some _ _ _ Hk) as Hlt.
  destruct (append_loop_ok k (S (length p)) s V F p I1 Hk T Hl Hr ltac:(lia)) as (s1 & F1 & E1 & VO1 & [A1 A2 A3] & M1).
  assert (Hk1 : <[k := F1]> V !! k = Some F1) by (by apply list_lookup_insert_eq).
  assert (Hn : 0 <= ninum k < 208) by (unfold ninum; lia). destruct (IBLOCK_eq _ Hn) as [_ Hib]. pose proof nmeta_eq as HM.
  set (z := flen F + Z.of_nat (length p)) in *. assert (Hz : 0 <= z < 2 ^ 32). { unfold z, flen in *. change (MAXFILE * BSIZE) with 71680 in Hl. lia. }
  assert (T1 : table s1 V). { apply (table_frame s); [done|done|]. intros b Hb. apply (sm_blk _ _ M1). lia. }
  destruct (write_back s1 _ V k F1 z VO1 Hk1 T1 eq_refl ltac:(lia) Hz) as (s2 & E2 & VO2 & T2 & Hfi & Hb2).
  assert (Hfl : flen F1 = z) by (unfold flen; rewrite A2, length_app; unfold z, flen; lia).
  exists s2, (resize z F1). split; [|split; [constructor; try done|split]].
  - unfold iappend, rinode. unfold bind at 1. rewrite (bind_ok _ _ _ _ _ (rsect_ok s (vo_disk _ _ I1) (IBLOCK (ninum k) mk_sb) ltac:(unfold FSSIZE; lia))). cbn [ret seqr].
    change (load_dinode _ _ _) with (slot_at (iblk s) (ninum k)). rewrite (tb_file _ _ I2 k F Hk), Hsz. rewrite (xint_id (flen F)) by (clear - Hz; unfold z, flen in *; lia). rewrite (bind_ok _ _ _ _ _ E1), xint_id by done. exact E2.
  - rewrite Hfi, (sm_inode _ _ M1), length_insert. done.
  - by rewrite length_insert.
  - intros j G. destruct (decide (j = k)) as [->|Hj]; [rewrite list_lookup_insert_eq by done; intros [= <-]|rewrite list_lookup_insert_ne by done; apply I5].
    split; [exact A1|]. split; [by rewrite <- Hfl at 1|]. etrans; [apply (sk_nlink _ _ A3)|done].
  - rewrite Hb2, (sm_blk _ _ M1) by lia. done.
  - intros b Hb1 Hb0 Hb3. rewrite Hb2, (sm_blk _ _ M1) by done. by apply I7.
  - constructor; [exact A1|exact A2|]. destruct A3. by constructor.
  - pose proof (vo_fb _ _ VO2) as G2. pose proof (vo_fb _ _ I1) as G1. rewrite (total_insert _ _ _ _ Hk) in G2.
    unfold cost in G2. cbn in G2. destruct T as [Ta Tb], A1 as [Ua Ub]. rewrite Tb, Ub, Ta, Ua, Hfl in G2. unfold space, blocks_for. lia.
Qed.

(** * A new inode *)

Definition new_file (type : Z) : file := File (set_isize 0 (set_inlink 1 (set_itype type zero_inode))) false 0 [].

Lemma new_stored B fb type : 0 <= type < 2 ^ 15 -> stored B fb (new_file type).
Proof.
  intros Ht. assert (Ha : forall c, 0 <= c < MAXFILE -> iaddr B (fi_ino (new_file type)) c = 0).
  { intros c Hc. unfold iaddr. destruct (Z.ltb_spec c (Z.of_nat NDIRECT)); [|done].
    change (default 0 (replicate 13 0 !! Z.to_nat c) = 0). by rewrite lookup_replicate_2 by (unfold NDIRECT in *; lia). }
  constructor; cbn [new_file fi_nb fi_ind fi_data]; try done; try lia.
  constructor; cbn; try lia; try done. repeat constructor; lia.
Qed.

Lemma new_own B type b : ~ own B (new_file type) b.
Proof. intros [[? _]|(c & Hc & _)]; [done|]. cbn in Hc. lia. Qed.

Lemma volume_new s s' V type :
  volume s V -> disk_ok s' -> freeblock s' = freeblock s -> (forall b, nmeta <= b -> iblk s' b = iblk s b) -> 0 <= type < 2 ^ 15 ->
  volume s' (V ++ [new_file type]).
Proof.
  intros [H1 H2 H3 H4 H5 H6 H7] D Hfb Hsame Ht.
  assert (Hget : forall j G, (V ++ [new_file type]) !! j = Some G -> V !! j = Some G \/ G = new_file type).
  { intros j G [?|[_ [_ <-]%list_lookup_singleton_Some]]%lookup_app_Some; [by left|by right]. }
  assert (HG : forall j G, V !! j = Some G -> forall b, own (iblk s) G b -> iblk s' b = iblk s b).
  { intros j G HG b Hb. apply Hsame. pose proof (own_range _ _ _ (H5 _ _ HG) b Hb). lia. }
  assert (Ho : forall j G b, V !! j = Some G -> own (iblk s') G b <-> own (iblk s) G b).
  { intros j G b HV. apply (own_frame _ _ _ (H5 _ _ HV)). intros. apply (HG j G HV). by left. }
  constructor; rewrite ?Hfb; try done.
  - rewrite vtotal_app. change (total [new_file type]) with 0. lia.
  - intros b Hb. rewrite Hsame by lia. by apply H4.
  - intros j G [HV| ->]%Hget; [apply (stored_frame _ _ _ (H5 _ _ HV)); [by apply (HG j)|lia]|by apply new_stored].
  - intros i j G G' b [HV| ->]%Hget [HV'| ->]%Hget; try (by intros ?%new_own); try (by intros ? ?%new_own).
    rewrite (Ho i), (Ho j) by done. by apply H6.
  - intros b Hb. destruct (H7 b Hb) as (j & G & HV & Hown). exists j, G. split; [by apply lookup_app_l_Some|]. by apply (Ho j).
Qed.

Lemma xshort_id x : 0 <= x < 2 ^ 16 -> xshort x = x.
Proof. intros. unfold xshort. rewrite <- (app_nil_r (le16 x)), get16_le16. unfold u16. by apply Z.mod_small. Qed.

Lemma ialloc_ok s V type :
  image s V -> Z.of_nat (length V) < 207 -> 0 <= type < 2 ^ 15 ->
  exists s', mk_ialloc type s = Ok (ninum (length V)) s' /\ image s' (V ++ [new_file type]) /\ freeblock s' = freeblock s.
Proof.
  intros [I1 I2 I3 I4 I5 I6 I7] Hlen Ht. pose proof (vo_disk _ _ I1) as D. set (n := ninum (length V)).
  assert (En : freeinode s = n) by (unfold n, ninum; lia). assert (Hn : 0 <= n < 208) by (unfold n, ninum; lia).
  set (s0 := Mk (mk_img s) (n + 1) (freeblock s)). assert (D0 : disk_ok s0) by (by apply (disk_img s)).
  assert (E0 : next_inode s = Ok n s0).
  { unfold next_inode, get, modify, ret, bind. cbn [seqr]. rewrite En, u32_id by lia. done. }
  pose proof (new_stored (iblk s0) 0 type Ht) as SN. pose proof (so_bare _ _ _ SN) as HB. pose proof (so_ino _ _ _ SN) as HD.
  destruct (winode_ok s0 D0 n Hn _ HB HD) as [E D']. pose proof (winode_same s0 D0 n Hn _ HB HD) as Es.
  pose proof (winode_other s0 D0 n Hn _ HB HD) as Eo. pose proof (winode_blk s0 D0 n Hn _ HB HD) as Eb. set (s' := upd _ _ s0) in *.
  pose proof nmeta_eq as HM. exists s'. split; [|split; [constructor|done]].
  - unfold mk_ialloc. step E0. rewrite (xshort_id type) by lia. rewrite (xshort_id 1) by lia. rewrite (xint_id 0) by lia. step E. done.
  - apply (volume_new s); try done. intros b Hb. apply Eb. lia.
  - constructor.
    + intros j G [HV|[Hj [E1 <-]%list_lookup_singleton_Some]]%lookup_app_Some; [|replace j with (length V) by lia; exact Es].
      pose proof (lookup_lt_Some _ _ _ HV). unfold slot_at. rewrite Eo by (unfold n, ninum; lia). by apply I2.
    + intros m Hm Hf. rewrite length_app in Hf. cbn in Hf. unfold slot_at. rewrite Eo by (unfold n, ninum; lia). apply I2; lia.
  - rewrite length_app. cbn. unfold n, ninum. lia.
  - rewrite length_app. cbn. lia.
  - intros j G [HV|[Hj [E1 <-]%list_lookup_singleton_Some]]%lookup_app_Some; [by apply (I5 j)|done].
  - rewrite Eb by lia. done.
  - intros b Hb1 Hb2 Hb3. rewrite Eb by done. by apply I7.
Qed.
