(* ===== verification/MkfsRun.v ===== *)
(** Running [main] of [mkfs.c]: for arguments that fit it returns, and the image
    holds the root directory and the files. *)

From S2P Require Import Prelude Params Klock Bytes Bio Log Fs FsBlocks FsRead FsWrite FsInode FsDir Mkfs MkfsFiles MkfsVolume.
Open Scope Z_scope.
Open Scope xv6_scope.

(** * Running [main] *)

Lemma zero_sectors_ok s n : mk_img s = [] -> zero_sectors n s = Ok tt (set_img (replicate n zero_block) s).
Proof.
  intros E. induction n as [|n IH]; cbn [zero_sectors].
  - destruct s. cbn in E. by subst.
  - step IH. unfold wsect, modify, set_img. cbn [mk_img freeinode freeblock]. rewrite length_replicate, Nat2Z.id, Nat.ltb_irrefl, Nat.sub_diag.
    cbn [replicate app]. by rewrite <- replicate_cons_app.
Qed.

(** The empty image. *)
Definition mk_empty : mk := upd 1 (splice 0 (sb_bytes mk_sb) zero_block) (Mk (replicate (Z.to_nat FSSIZE) zero_block) 1 nmeta).

Lemma mk_empty_start {A} (m : M mk A) :
  (modify (fun s => Mk (mk_img s) (freeinode s) nmeta) ;;; zero_sectors (Z.to_nat FSSIZE) ;;; wsect 1 (splice 0 (sb_bytes mk_sb) zero_block) ;;; m) mk_start =
  m mk_empty.
Proof.
  set (s0 := Mk [] 1 nmeta). set (s1 := Mk (replicate (Z.to_nat FSSIZE) zero_block) 1 nmeta).
  assert (E1 : zero_sectors (Z.to_nat FSSIZE) s0 = Ok tt s1) by (by apply zero_sectors_ok).
  unfold modify at 1, bind at 1. cbn [seqr]. change (Mk _ _ _) with s0. step E1. unfold wsect, bind, modify. cbn [seqr].
  change (mk_img s1) with (replicate (Z.to_nat FSSIZE) zero_block). rewrite length_replicate.
  rewrite (proj2 (Nat.ltb_lt (Z.to_nat 1) (Z.to_nat FSSIZE))) by (unfold FSSIZE; lia). done.
Qed.

Lemma empty_image : image mk_empty [].
Proof.
  set (s1 := Mk (replicate (Z.to_nat FSSIZE) zero_block) 1 nmeta).
  assert (Hb : forall b, iblk s1 b = zero_block).
  { intros b. unfold iblk. destruct (0 <=? b); [|done]. cbn [mk_img s1]. destruct (decide (Z.to_nat b < Z.to_nat FSSIZE)%nat).
    - by rewrite lookup_replicate_2.
    - by rewrite lookup_ge_None_2 by (rewrite length_replicate; lia). }
  assert (D1 : disk_ok s1) by (constructor; [apply length_replicate|intros n; by rewrite Hb]).
  pose proof (iblk_upd s1 D1 1 ltac:(done) (splice 0 (sb_bytes mk_sb) zero_block)) as Hu. fold mk_empty in Hu.
  pose proof (upd_ok s1 D1 1 ltac:(done) (splice 0 (sb_bytes mk_sb) zero_block) eq_refl) as D. fold mk_empty in D.
  constructor; try done.
  - constructor; try done.
    + intros b Hr. rewrite Hu, decide_False by (change (freeblock mk_empty) with 59 in Hr; lia). done.
    + intros b Hr. change (freeblock mk_empty) with nmeta in Hr. lia.
  - constructor; [done|]. intros n Hn _. apply slot_zero; [lia|]. destruct (IBLOCK_eq n Hn). rewrite Hu, decide_False by lia. done.
  - intros b _ Hb1 _. by rewrite Hu, decide_False.
Qed.

(** What a file is, for the builder's user. *)
Definition descr (F : file) : Z * bytes := (i_type (fi_ino F), fi_data F).

Lemma descr_appends F p F' : appends F p F' -> descr F' = (i_type (fi_ino F), fi_data F ++ p).
Proof. intros [_ A2 A3]. unfold descr. by rewrite A2, (sk_type _ _ A3). Qed.

Definition dlen (x : Z * bytes) : Z := Z.of_nat (length x.2).

(** [iappend] on descriptions. *)
Lemma iappend_descr s V k t d p :
  image s V -> (descr <$> V) !! k = Some (t, d) -> Z.of_nat (length d) + Z.of_nat (length p) <= MAXFILE * BSIZE ->
  freeblock s - space (Z.of_nat (length d)) + space (Z.of_nat (length d) + Z.of_nat (length p)) <= FSSIZE ->
  exists s' V', iappend (ninum k) p s = Ok tt s' /\ image s' V' /\ descr <$> V' = <[k := (t, d ++ p)]> (descr <$> V) /\
    freeblock s' = freeblock s - space (Z.of_nat (length d)) + space (Z.of_nat (length d) + Z.of_nat (length p)).
Proof.
  intros I Hk Hl Hr. apply list_lookup_fmap_Some in Hk as (F & E & Hk). injection E as -> ->.
  destruct (iappend_ok s V k F p I Hk Hl Hr) as (s' & F' & E & I' & A & Hfb).
  exists s', (<[k := F']> V). split; [done|]. split; [done|]. split; [|exact Hfb]. by rewrite list_fmap_insert, (descr_appends F p F' A).
Qed.

Lemma ialloc_descr s V type :
  image s V -> Z.of_nat (length V) < 207 -> 0 <= type < 2 ^ 15 ->
  exists s' V', mk_ialloc type s = Ok (ninum (length V)) s' /\ image s' V' /\ descr <$> V' = (descr <$> V) ++ [(type, [])] /\ freeblock s' = freeblock s.
Proof.
  intros I Hl Ht. destruct (ialloc_ok s V type I Hl Ht) as (s' & E & I' & Hfb). exists s', (V ++ [new_file type]).
  split; [done|]. split; [done|]. split; [|done]. by rewrite fmap_app.
Qed.

Lemma append_all_ok k t reads : forall s V d,
  image s V -> (descr <$> V) !! k = Some (t, d) -> Z.of_nat (length d) + Z.of_nat (length (concat reads)) <= MAXFILE * BSIZE ->
  freeblock s - space (Z.of_nat (length d)) + space (Z.of_nat (length d) + Z.of_nat (length (concat reads))) <= FSSIZE ->
  exists s' V', append_all (ninum k) reads s = Ok tt s' /\ image s' V' /\ descr <$> V' = <[k := (t, d ++ concat reads)]> (descr <$> V) /\
    freeblock s' = freeblock s - space (Z.of_nat (length d)) + space (Z.of_nat (length d) + Z.of_nat (length (concat reads))).
Proof.
  induction reads as [|p reads IH]; intros s V d I Hk Hl Hr; cbn [append_all concat] in *.
  { exists s, V. rewrite app_nil_r, list_insert_id by done. rewrite Z.add_0_r. split; [done|]. split; [done|]. split; [done|]. lia. }
  rewrite length_app, Nat2Z.inj_add in *.
  pose proof (space_mono (Z.of_nat (length d) + Z.of_nat (length p)) (Z.of_nat (length d) + (Z.of_nat (length p) + Z.of_nat (length (concat reads)))) ltac:(lia)).
  destruct (iappend_descr s V k t d p I Hk ltac:(lia) ltac:(lia)) as (s1 & V1 & E1 & I1 & D1 & F1). step E1.
  assert (Hlt : (k < length (descr <$> V))%nat) by (by eapply lookup_lt_Some).
  destruct (IH s1 V1 (d ++ p) I1) as (s2 & V2 & E2 & I2 & D2 & F2).
  { rewrite D1. by apply list_lookup_insert_eq. }
  { rewrite length_app. lia. }
  { rewrite F1, length_app, Nat2Z.inj_add, <- !Z.add_assoc. lia. }
  exists s2, V2. split; [done|]. split; [done|]. rewrite D2, D1, list_insert_insert, decide_True, <- app_assoc by done. split; [done|].
  rewrite F2, F1, length_app, Nat2Z.inj_add, <- !Z.add_assoc. lia.
Qed.

(** * The free map *)

Lemma set_bits_length n : length (set_bits n zero_block) = Z.to_nat BSIZE.
Proof. induction n as [|n IH]; [done|]. cbn [set_bits]. by apply set_bit_length. Qed.

Lemma set_bits_spec n : Z.of_nat n <= BPB -> forall b, 0 <= b -> bit_of (set_bits n zero_block) b = (b <? Z.of_nat n).
Proof.
  induction n as [|n IH]; intros Hn b Hb.
  - rewrite (proj2 (Z.ltb_ge _ _)) by lia. unfold bit_of, byte. cbn [set_bits]. unfold zero_block.
    destruct (replicate _ _ !! _) as [v|] eqn:E; [apply lookup_replicate_1 in E as [-> _]|]; apply Z.testbit_0_l.
  - cbn [set_bits]. rewrite bit_of_set, IH by (lia || apply set_bits_length).
    destruct (Z.eqb_spec b (Z.of_nat n)), (Z.ltb_spec b (Z.of_nat n)), (Z.ltb_spec b (Z.of_nat (S n))); try done; lia.
Qed.

(** * The finished image *)

Record final (s : mk) (V : list file) : Prop := {
  fn_vol : volume s V;
  fn_table : table s V;
  fn_count : Z.of_nat (length V) < 208;
  fn_super : iblk s 1 = splice 0 (sb_bytes mk_sb) zero_block;
  fn_map : iblk s 58 = set_bits (Z.to_nat (freeblock s)) zero_block;
  fn_zero : forall b, b < 32 -> b <> 1 -> iblk s b = zero_block;
  fn_size : forall k F, V !! k = Some F -> k <> 0%nat -> i_size (fi_ino F) = flen F;
  fn_root : forall F, V !! 0%nat = Some F -> i_size (fi_ino F) = (flen F / BSIZE + 1) * BSIZE;
  fn_fits : forall k F, V !! k = Some F -> i_size (fi_ino F) <= BSIZE * fi_nb F;
  fn_links : forall k F, V !! k = Some F -> i_nlink (fi_ino F) = 1
}.

(** A change of a block outside the files and the table. *)
Lemma volume_other s V b d : volume s V -> 0 <= b < nmeta -> length d = Z.to_nat BSIZE -> volume (upd b d s) V.
Proof.
  intros VO Hb Hd. pose proof (vo_disk _ _ VO) as D. pose proof nmeta_eq as HM. pose proof (vo_max _ _ VO) as Hm.
  assert (Hbr : 0 <= b < FSSIZE) by (unfold FSSIZE in *; lia).
  assert (Hs : forall c, nmeta <= c -> iblk (upd b d s) c = iblk s c) by (intros c Hc; rewrite (iblk_upd s D b Hbr), decide_False; [done|lia]).
  destruct VO as [H1 H2 H3 H4 H5 H6 H7].
  assert (Ho : forall j G c, V !! j = Some G -> own (iblk (upd b d s)) G c <-> own (iblk s) G c).
  { intros j G c HV. apply (own_frame _ _ _ (H5 _ _ HV)). intros Hi. apply Hs. pose proof (so_ind _ _ _ (H5 _ _ HV) Hi). lia. }
  constructor; try done.
  - by apply upd_ok.
  - intros c Hc. cbn in Hc. rewrite Hs by lia. by apply H4.
  - intros j G HV. apply (stored_frame _ _ _ (H5 _ _ HV)); [|cbn; lia]. intros c Hc. apply Hs.
    pose proof (own_range _ _ _ (H5 _ _ HV) c Hc). lia.
  - intros i j G G' c HV HV'. rewrite (Ho i), (Ho j) by done. by apply H6.
  - intros c Hc. destruct (H7 c Hc) as (j & G & HV & Hown). exists j, G. split; [done|]. by apply (Ho j).
Qed.

Lemma finish_ok s V F : image s V -> V !! 0%nat = Some F -> flen F mod BSIZE <> 0 ->
  exists s', (fix_root ROOTINO ;;; s <- get ;; mk_balloc (freeblock s)) s = Ok tt s' /\ final s' (<[0%nat := resize ((flen F / BSIZE + 1) * BSIZE) F]> V).
Proof.
  intros [I1 I2 I3 I4 I5 I6 I7] HF Hmod. set (z := (flen F / BSIZE + 1) * BSIZE). destruct (I5 _ _ HF) as (T & Hsz & Hnl).
  pose proof (vo_file _ _ I1 _ _ HF) as SF. pose proof (so_nb _ _ _ SF) as Hnb. pose proof nmeta_eq as HM.
  assert (H0 : 0 <= flen F) by (unfold flen; lia). assert (Hnz : BSIZE * fi_nb F = z) by (rewrite (proj1 T); unfold z, nblocks_of, BSIZE in *; zdiv).
  assert (Hz : 0 <= z < 2 ^ 32) by (rewrite <- Hnz; unfold BSIZE, MAXFILE, NDIRECT, NINDIRECT in *; lia).
  assert (Hff : flen F <= z) by (rewrite <- Hnz; apply (so_len _ _ _ SF)).
  destruct (write_back s V V 0 F z I1 HF I2 (eq_sym (list_insert_id _ _ _ HF)) I4 Hz) as (s1 & E1 & VO1 & T1 & Hfi & Hb1).
  set (V' := <[0%nat := resize z F]> V) in *. pose proof (vo_max _ _ VO1) as Hm.
  set (d := set_bits (Z.to_nat (freeblock s1)) zero_block). pose proof (set_bits_length (Z.to_nat (freeblock s1))) as Hd. fold d in Hd.
  pose proof (volume_other s1 V' 58 d VO1 ltac:(lia) Hd) as VO2. pose proof (vo_disk _ _ VO1) as D1.
  assert (Hr58 : 0 <= 58 < FSSIZE) by done. pose proof (iblk_upd s1 D1 58 Hr58 d) as Hu. set (s2 := upd 58 d s1) in *.
  assert (Hlt : (0 < length V)%nat) by (by eapply lookup_lt_Some).
  exists s2. split; [|constructor; try done].
  - unfold fix_root, rinode. unfold bind at 1 2. rewrite (bind_ok _ _ _ _ _ (rsect_ok s (vo_disk _ _ I1) (IBLOCK ROOTINO mk_sb) ltac:(done))). cbn [ret seqr].
    change ROOTINO with (ninum 0) in *. change (load_dinode _ _ _) with (slot_at (iblk s) (ninum 0)). rewrite (tb_file _ _ I2 _ _ HF), Hsz, (xint_id (flen F)) by lia. fold z. rewrite u32_id, xint_id by done.
    rewrite E1. cbn [seqr]. unfold get at 1, bind. cbn [seqr]. unfold mk_balloc. rewrite (proj2 (Z.ltb_lt _ _)) by (change (BSIZE * 8) with 4096; unfold FSSIZE in Hm; lia).
    cbn [negb]. fold d. by apply (wsect_ok s1 D1 58 Hr58).
  - apply (table_frame s1); [done|unfold V'; by rewrite length_insert|]. intros b Hb. rewrite Hu, decide_False by lia. done.
  - unfold V'. by rewrite length_insert.
  - rewrite Hu, decide_False, Hb1 by lia. done.
  - intros b Hb Hne. rewrite Hu, decide_False, Hb1 by lia. apply I7; lia.
  - intros j G HG Hj. unfold V' in HG. rewrite list_lookup_insert_ne in HG by done. by apply (I5 j G HG).
  - intros G. unfold V'. rewrite list_lookup_insert_eq by done. by intros [= <-].
  - intros j G. unfold V'. destruct (decide (j = 0%nat)) as [->|Hj].
    + rewrite list_lookup_insert_eq by done. intros [= <-]. cbn. lia.
    + rewrite list_lookup_insert_ne by done. intros HG. destruct (I5 j G HG) as (TG & -> & _). apply (so_len _ _ _ (vo_file _ _ I1 _ _ HG)).
  - intros j G. unfold V'. destruct (decide (j = 0%nat)) as [->|Hj]; [rewrite list_lookup_insert_eq by done; by intros [= <-]|].
    rewrite list_lookup_insert_ne by done. intros HG. by apply (I5 j G HG).
Qed.

(** * The files *)

(** The names in the root directory with their inodes. *)
Fixpoint file_entries (inum : Z) (args : list bytes) : list (bytes * Z) :=
  match args with
  | [] => []
  | arg :: args => (skip_underscore arg, inum) :: file_entries (inum + 1) args
  end.

Definition root_entries (args : list bytes) : list (bytes * Z) := (DOT, ROOTINO) :: (DOTDOT, ROOTINO) :: file_entries 2 args.

Definition entry_bytes (e : bytes * Z) : bytes := mk_dirent e.1 e.2.

Section files.
Context (host : bytes -> option (list bytes)).

Definition host_bytes (arg : bytes) : bytes := default [] (concat (A := Z) <$> host arg).

(** An argument names a file that can be read and is not too long. *)
Record arg_ok (arg : bytes) : Prop := {
  ar_slash : SLASH ∉ arg;
  ar_open : is_Some (host arg);
  ar_len : Z.of_nat (length (host_bytes arg)) <= MAXFILE * BSIZE
}.

Definition file_of (arg : bytes) : Z * bytes := (T_FILE, host_bytes arg).

(** The blocks the contents of the files take. *)
Definition files_space (args : list bytes) : Z := foldr (fun arg z => space (Z.of_nat (length (host_bytes arg))) + z) 0 args.

Lemma space_nonneg n : 0 <= n -> 0 <= space n.
Proof. intros H. pose proof (space_mono 0 n H). change (space 0) with 0 in *. lia. Qed.

Lemma mk_dirent_length name inum : length (mk_dirent name inum) = 16%nat.
Proof. unfold mk_dirent. rewrite length_app, strncpy_length. reflexivity. Qed.

Lemma add_file_ok s V d L arg :
  image s V -> descr <$> V = (T_DIR, d) :: L -> arg_ok arg -> Z.of_nat (length V) < 207 ->
  Z.of_nat (length d) + 16 <= MAXFILE * BSIZE ->
  freeblock s - space (Z.of_nat (length d)) + space (Z.of_nat (length d) + 16) + space (Z.of_nat (length (host_bytes arg))) <= FSSIZE ->
  exists s' V', add_file host ROOTINO arg s = Ok tt s' /\ image s' V' /\
    descr <$> V' = (T_DIR, d ++ entry_bytes (skip_underscore arg, ninum (length V))) :: L ++ [file_of arg] /\
    freeblock s' = freeblock s - space (Z.of_nat (length d)) + space (Z.of_nat (length d) + 16) + space (Z.of_nat (length (host_bytes arg))).
Proof using Type.
  intros I HD [A1 (reads & A2) A3] Hl Hd Hr. assert (Hh : host_bytes arg = concat reads) by (unfold host_bytes; by rewrite A2).
  rewrite Hh in A3, Hr |- *. pose proof (space_nonneg (Z.of_nat (length (concat reads))) ltac:(lia)) as Hsp.
  assert (HlV : length V = S (length L)) by (by rewrite <- (length_fmap descr V), HD).
  destruct (ialloc_descr s V T_FILE I Hl ltac:(done)) as (s1 & V1 & E1 & I1 & D1 & F1).
  set (de := mk_dirent (skip_underscore arg) (ninum (length V))).
  assert (Hde : length de = 16%nat) by apply mk_dirent_length. rewrite HD in D1.
  destruct (iappend_descr s1 V1 0 T_DIR d de I1) as (s2 & V2 & E2 & I2 & D2 & F2); rewrite ?Hde; change (Z.of_nat 16) with 16; try lia; [by rewrite D1|].
  rewrite D1 in D2. cbn [insert list_insert app] in D2.
  destruct (append_all_ok (length V) T_FILE reads s2 V2 [] I2) as (s3 & V3 & E3 & I3 & D3 & F3); try done.
  { rewrite D2, HlV. by apply (list_lookup_middle ((T_DIR, d ++ de) :: L) []). }
  { rewrite Hde in F2. change (space (Z.of_nat (length []))) with 0. cbn [length]. rewrite Z.add_0_l. change (Z.of_nat 16) with 16 in F2. lia. }
  exists s3, V3. split; [|split; [done|split]].
  - unfold add_file. rewrite bool_decide_eq_false_2, A2 by done. step E1. fold de. change ROOTINO with (ninum 0). step E2. exact E3.
  - rewrite D3, D2. etrans; [apply (insert_app_r_alt ((T_DIR, d ++ de) :: L) [(T_FILE, [])] _ _); cbn; lia|].
    rewrite HlV at 1. rewrite Nat.sub_diag. unfold file_of. by rewrite Hh.
  - rewrite F3, F2, F1, Hde. change (space (Z.of_nat (length []))) with 0. cbn [length]. rewrite Z.add_0_l. change (Z.of_nat 16) with 16. lia.
Qed.

Lemma add_files_ok args : forall s V d L,
  image s V -> descr <$> V = (T_DIR, d) :: L -> Forall arg_ok args -> Z.of_nat (length V) + Z.of_nat (length args) <= 207 ->
  Z.of_nat (length d) + 16 * Z.of_nat (length args) <= MAXFILE * BSIZE ->
  freeblock s - space (Z.of_nat (length d)) + space (Z.of_nat (length d) + 16 * Z.of_nat (length args)) + files_space args <= FSSIZE ->
  exists s' V', add_files host ROOTINO args s = Ok tt s' /\ image s' V' /\
    descr <$> V' = (T_DIR, d ++ concat (entry_bytes <$> file_entries (ninum (length V)) args)) :: L ++ (file_of <$> args) /\
    freeblock s' = freeblock s - space (Z.of_nat (length d)) + space (Z.of_nat (length d) + 16 * Z.of_nat (length args)) + files_space args.
Proof using Type.
  induction args as [|arg args IH]; intros s V d L I HD HF Hl Hd Hr.
  { exists s, V. split; [done|]. split; [done|]. cbn [file_entries fmap list_fmap concat length files_space foldr] in *.
    rewrite !app_nil_r in *. change (16 * Z.of_nat 0) with 0 in *. rewrite !Z.add_0_r in *. split; [done|]. lia. }
  apply Forall_cons in HF as [HA HF]. cbn [length files_space foldr] in *. fold (files_space args) in *.
  replace (Z.of_nat (length d) + 16 * Z.of_nat (S (length args))) with (Z.of_nat (length d) + 16 + 16 * Z.of_nat (length args)) in * by lia.
  assert (Hfs : 0 <= files_space args).
  { clear. induction args as [|a args IH]; [done|]. cbn. pose proof (space_nonneg (Z.of_nat (length (host_bytes a))) ltac:(lia)). fold (files_space args). lia. }
  pose proof (space_mono (Z.of_nat (length d) + 16) (Z.of_nat (length d) + 16 + 16 * Z.of_nat (length args)) ltac:(lia)).
  destruct (add_file_ok s V d L arg I HD HA ltac:(lia) ltac:(lia) ltac:(lia)) as (s1 & V1 & E1 & I1 & D1 & F1).
  assert (HlV : length V1 = S (length V)).
  { rewrite <- (length_fmap descr V1), D1, <- (length_fmap descr V), HD. cbn. rewrite length_app. cbn. lia. }
  set (de := entry_bytes _) in D1. assert (Hde : Z.of_nat (length (d ++ de)) = Z.of_nat (length d) + 16) by (rewrite length_app; unfold de, entry_bytes; rewrite mk_dirent_length; lia).
  destruct (IH s1 V1 (d ++ de) _ I1 D1 HF) as (s2 & V2 & E2 & I2 & D2 & F2); rewrite ?Hde; try lia.
  exists s2, V2. cbn [add_files]. step E1. split; [done|]. split; [done|]. rewrite Hde in F2. split; [|lia].
  rewrite D2, HlV. cbn [file_entries fmap list_fmap concat]. rewrite <- !app_assoc. fold de. by replace (ninum (S (length V))) with (ninum (length V) + 1) by (unfold ninum; lia).
Qed.

(** The arguments the builder is for: as many files as there are inodes, which
    fit on the disk; and the last block of the root directory is not full. *)
Record args_ok (args : list bytes) : Prop := {
  ag_each : Forall arg_ok args;
  ag_count : Z.of_nat (length args) + 2 <= NINODES;
  ag_space : nmeta + space (16 * (Z.of_nat (length args) + 2)) + files_space args <= FSSIZE;
  ag_root : (Z.of_nat (length args) + 2) mod 32 <> 0
}.

Definition root_data (args : list bytes) : bytes := concat (entry_bytes <$> root_entries args).

Lemma entries_length l : Z.of_nat (length (concat (entry_bytes <$> l))) = 16 * Z.of_nat (length l).
Proof. induction l as [|e l IH]; [done|]. cbn [fmap list_fmap concat length]. rewrite length_app. unfold entry_bytes at 1. rewrite mk_dirent_length. lia. Qed.

Lemma file_entries_length args : forall n, length (file_entries n args) = length args.
Proof. induction args as [|a args IH]; intros n; [done|]. cbn. by rewrite IH. Qed.

Lemma root_data_length args : Z.of_nat (length (root_data args)) = 16 * (Z.of_nat (length args) + 2).
Proof. unfold root_data. rewrite entries_length. cbn [root_entries length]. rewrite file_entries_length. lia. Qed.

(** The image before the root directory is rounded up. *)
Lemma mkfs_files args : args_ok args ->
  exists s V, image s V /\ descr <$> V = (T_DIR, root_data args) :: (file_of <$> args) /\
    mkfs host args mk_start = (fix_root ROOTINO ;;; s <- get ;; mk_balloc (freeblock s)) s.
Proof using Type.
  intros [A1 A2 A3 A4]. unfold NINODES in A2.
  assert (Hfs : 0 <= files_space args). { clear. induction args as [|a args IH]; [done|]. cbn. pose proof (space_nonneg (Z.of_nat (length (host_bytes a))) ltac:(lia)). fold (files_space args). lia. }
  assert (HM : MAXFILE * BSIZE = 71680) by done.
  destruct (ialloc_descr mk_empty [] T_DIR empty_image ltac:(done) ltac:(done)) as (s1 & V1 & E1 & I1 & D1 & F1). cbn in D1.
  change (freeblock mk_empty) with nmeta in F1. change (ninum (length [])) with ROOTINO in E1.
  pose proof (space_mono 32 (16 * (Z.of_nat (length args) + 2)) ltac:(lia)) as Hsp. change (space 32) with 1 in Hsp.
  set (d1 := mk_dirent DOT ROOTINO). set (d2 := mk_dirent DOTDOT ROOTINO).
  destruct (iappend_descr s1 V1 0 T_DIR [] d1 I1) as (s2 & V2 & E2 & I2 & D2 & F2); [by rewrite D1|done|rewrite F1; done|].
  rewrite D1 in D2. cbn [app insert list_insert] in D2. change (space _ ) with 0 in F2 at 1. change (space _) with 1 in F2.
  destruct (iappend_descr s2 V2 0 T_DIR d1 d2 I2) as (s3 & V3 & E3 & I3 & D3 & F3); [by rewrite D2|done|rewrite F2, F1; done|].
  rewrite D2 in D3. cbn [insert list_insert] in D3.
  change (space (Z.of_nat (length d1))) with 1 in F3. change (space (Z.of_nat (length d1) + Z.of_nat (length d2))) with 1 in F3.
  assert (Hl3 : length V3 = 1%nat) by (by rewrite <- (length_fmap descr V3), D3).
  assert (Hd : Z.of_nat (length (d1 ++ d2)) = 32) by done.
  destruct (add_files_ok args s3 V3 (d1 ++ d2) [] I3 D3 A1) as (s4 & V4 & E4 & I4 & D4 & F4); rewrite ?Hd, ?Hl3; try lia.
  { replace (32 + 16 * Z.of_nat (length args)) with (16 * (Z.of_nat (length args) + 2)) by lia. change (space 32) with 1. lia. }
  exists s4, V4. split; [done|]. split.
  - rewrite D4, Hl3. unfold root_data. cbn [app root_entries fmap list_fmap concat]. by rewrite <- app_assoc.
  - unfold mkfs. rewrite mk_empty_start. step E1. rewrite Z.eqb_refl. cbn [negb]. fold d1 d2. change ROOTINO with (ninum 0) in E4 |- *.
    step E2. step E3. step E4. done.
Qed.

Lemma mkfs_run args : args_ok args ->
  exists s V, mkfs host args mk_start = Ok tt s /\ final s V /\ descr <$> V = (T_DIR, root_data args) :: (file_of <$> args).
Proof using Type.
  intros A. destruct (mkfs_files args A) as (s & V & I & HD & E). rewrite E.
  assert (exists F, V !! 0%nat = Some F /\ fi_data F = root_data args) as (F & HF & Hdat).
  { clear - HD. destruct V as [|F V]; [discriminate|]. injection HD as E0 E1 _. by exists F. }
  assert (Hfl : flen F = 16 * (Z.of_nat (length args) + 2)) by (unfold flen; by rewrite Hdat, root_data_length).
  destruct (finish_ok s V F I HF) as (s' & E' & FN). { rewrite Hfl. change BSIZE with (16 * 32). rewrite Zmult_mod_distr_l. pose proof (ag_root _ A). lia. }
  exists s'. eexists. split; [exact E'|]. split; [exact FN|]. rewrite list_fmap_insert, <- HD. apply list_insert_id.
  rewrite list_lookup_fmap, HF. done.
Qed.
End files.
