(* ===== verification/MkfsSpec.v ===== *)
(** What [mkfs.c] builds is what the kernel reads: the image has the layout the
    file system relies on, the log is empty, every inode is the one that was
    built or zero, every block in use has one owner, the root directory
    names the files, and each file has the bytes it had on the build host. *)

From S2P Require Import Prelude Params Spinlock Klock Bytes Bio Bcache Log Commit LogOps Recover CrashSpec Fs Txn FsBlocks FsRead FsWrite FsInode FsContents FsSpec FsDir FsCache FsPath Mkfs MkfsFiles MkfsVolume MkfsRun.
Open Scope Z_scope.
Open Scope xv6_scope.

(** The kernel runs on a disk with the image: the blocks are those of the
    image, and the superblock has been read. *)
Record mounted (m : mk) (s : fs) : Prop := {
  mt_blk : forall n, 0 <= n < FSSIZE -> blk s n = iblk m n;
  mt_size : nblk s = FSSIZE;
  mt_sb : f_sb s = superblock_of (blk s 1);
  mt_start : lg_start (f_l s) = sb_logstart (f_sb s);
  mt_log : lg_size (f_l s) = sb_nlog (f_sb s)
}.

Section mounted.
Context (m : mk) (V : list file) (FN : final m V) (s : fs) (MT : mounted m s).

Lemma mounted_sb : f_sb s = mk_sb.
Proof using FN MT. rewrite (mt_sb _ _ MT), (mt_blk _ _ MT), (fn_super _ _ FN) by done. vm_compute. reflexivity. Qed.

Lemma mounted_used b : 0 <= b < FSSIZE -> used s b = (b <? freeblock m).
Proof using FN MT.
  intros Hb. unfold used, BBLOCK. rewrite mounted_sb. change BPB with 4096. unfold FSSIZE in *. rewrite Z.div_small, Z.mod_small by lia.
  change (u32 (0 + sb_bmapstart mk_sb)) with 58. rewrite (mt_blk _ _ MT), (fn_map _ _ FN) by done.
  pose proof (vo_max _ _ (fn_vol _ _ FN)) as Hm. pose proof nmeta_eq. unfold FSSIZE in Hm.
  rewrite set_bits_spec by (change BPB with 4096; lia). rewrite Z2Nat.id by lia. done.
Qed.

Lemma mounted_home b : 0 <= b < FSSIZE -> ~ (2 <= b < 32) -> home s b.
Proof using FN MT.
  intros Hb Hn. split; [by rewrite (mt_size _ _ MT)|]. unfold in_log. rewrite (mt_start _ _ MT), (mt_log _ _ MT), mounted_sb.
  change (sb_logstart mk_sb) with 2. change (sb_nlog mk_sb) with 30. lia.
Qed.

Lemma mounted_layout : layout s.
Proof using FN MT.
  pose proof (vo_max _ _ (fn_vol _ _ FN)) as Hm. pose proof nmeta_eq as HM. pose proof mounted_used as Hu. unfold FSSIZE in *.
  constructor; rewrite ?mounted_sb; change (sb_size mk_sb) with 1000; change (sb_bmapstart mk_sb) with 58; change BPB with 4096.
  - rewrite (mt_size _ _ MT). unfold FSSIZE. lia.
  - lia.
  - intros b Hb. apply mounted_home; unfold FSSIZE; zdiv.
  - intros b Hb. rewrite Hu by lia. intros ?%Z.ltb_ge. apply mounted_home; unfold FSSIZE; lia.
  - intros b c Hb Hc. rewrite Hu by lia. intros ?%Z.ltb_ge. zdiv.
  - by rewrite <- (mt_sb _ _ MT), mounted_sb.
  - rewrite Hu by lia. split; [lia|]. split; [apply Z.ltb_lt; lia|lia].
  - rewrite Hu by lia. apply Z.ltb_lt. lia.
Qed.

Lemma mounted_datablock b : nmeta <= b < freeblock m -> datablock s b.
Proof using FN MT.
  intros Hb. pose proof (vo_max _ _ (fn_vol _ _ FN)) as Hm. pose proof nmeta_eq as HM. unfold FSSIZE in *.
  constructor; rewrite ?mounted_sb; change (sb_size mk_sb) with 1000; change (sb_bmapstart mk_sb) with 58; change BPB with 4096.
  - lia.
  - rewrite mounted_used by (unfold FSSIZE; lia). apply Z.ltb_lt. lia.
  - apply mounted_home; unfold FSSIZE; lia.
  - intros c Hc. zdiv.
Qed.

Section file.
Context (k : nat) (F : file) (HF : V !! k = Some F).
Let SF : stored (iblk m) (freeblock m) F := vo_file _ _ (fn_vol _ _ FN) k F HF.

Lemma mounted_num : 0 <= ninum k < 208.
Proof using FN HF. pose proof (lookup_lt_Some _ _ _ HF). pose proof (fn_count _ _ FN). unfold ninum. lia. Qed.

Lemma mounted_inode ip : let ip' := disk_inode s (ninum k) ip in
  i_type ip' = i_type (fi_ino F) /\ i_size ip' = i_size (fi_ino F) /\ i_addrs ip' = i_addrs (fi_ino F).
Proof using FN MT HF.
  cbn zeta. pose proof (tb_file _ _ (fn_table _ _ FN) k F HF) as <-. destruct (IBLOCK_eq (ninum k) mounted_num) as [_ Hr].
  unfold disk_inode. rewrite mounted_sb, (mt_blk _ _ MT) by (unfold FSSIZE; lia). done.
Qed.

(** A cached inode that has been read from disk. *)
Context (ip : inode) (Ha : i_addrs ip = i_addrs (fi_ino F)).

Lemma mounted_ind : ind_of ip = ind_of (fi_ino F).
Proof using Ha. unfold ind_of. by rewrite Ha. Qed.

Lemma mounted_addr c : addr_of s ip c = iaddr (iblk m) (fi_ino F) c.
Proof using FN MT HF Ha.
  unfold addr_of, iaddr. fold (ind_of ip). rewrite mounted_ind, Ha. destruct (_ <? _); [done|]. destruct (Z.eqb_spec (ind_of (fi_ino F)) 0); [done|].
  rewrite (mt_blk _ _ MT); [done|]. destruct (fi_ind F) eqn:Ei; [|by destruct (so_noind _ _ _ SF Ei)].
  pose proof (so_ind _ _ _ SF Ei). pose proof (vo_max _ _ (fn_vol _ _ FN)). pose proof nmeta_eq. lia.
Qed.

Lemma mounted_addr_in c : 0 <= c < MAXFILE -> addr_of s ip c <> 0 -> c < fi_nb F /\ nmeta <= addr_of s ip c < freeblock m.
Proof using FN MT HF Ha.
  rewrite mounted_addr. intros Hc Hnz. destruct (decide (c < fi_nb F)); [split; [done|apply (so_in _ _ _ SF); lia]|].
  destruct Hnz. apply (so_out _ _ _ SF). lia.
Qed.

Lemma mounted_ind_in : ind_of ip <> 0 -> fi_ind F = true /\ nmeta <= ind_of ip < freeblock m.
Proof using FN HF Ha.
  rewrite mounted_ind. intros Hnz. destruct (fi_ind F) eqn:Ei; [split; [done|by apply (so_ind _ _ _ SF)]|]. by destruct (so_noind _ _ _ SF Ei).
Qed.

Lemma mounted_wf : i_dev ip = 1 -> file_wf s ip.
Proof using FN MT HF Ha.
  intros Hd. constructor; try done.
  - rewrite Ha. apply (so_ino _ _ _ SF).
  - intros c Hc Hnz. apply mounted_datablock, (mounted_addr_in c Hc Hnz).
  - intros Hnz. by apply mounted_datablock, mounted_ind_in.
  - intros c c' Hc Hc' Hnz E. destruct (mounted_addr_in c Hc Hnz). rewrite E in Hnz. destruct (mounted_addr_in c' Hc' Hnz).
    rewrite !mounted_addr in E. apply (so_inj _ _ _ SF) in E; [done|lia|lia].
  - intros Hnz c Hc E. destruct (mounted_ind_in Hnz) as [Hi _]. rewrite <- E in Hnz. destruct (mounted_addr_in c Hc Hnz).
    rewrite mounted_addr, mounted_ind in E. apply (so_ne _ _ _ SF Hi c) in E; [done|lia].
Qed.

Lemma mounted_byte j : 0 <= j < BSIZE * fi_nb F -> fbyte s ip j = default 0 (fi_data F !! Z.to_nat j).
Proof using FN MT HF Ha.
  intros Hj. unfold fbyte. rewrite mounted_addr. pose proof (so_in _ _ _ SF (j / BSIZE) ltac:(unfold BSIZE in *; zdiv)).
  pose proof (vo_max _ _ (fn_vol _ _ FN)). pose proof nmeta_eq. rewrite (mt_blk _ _ MT) by lia. by rewrite (so_byte _ _ _ SF j Hj).
Qed.

Lemma mounted_slice n : Z.of_nat (length (fi_data F)) <= n -> n <= BSIZE * fi_nb F ->
  fslice s ip 0 (Z.to_nat n) = fi_data F ++ replicate (Z.to_nat n - length (fi_data F)) 0.
Proof using FN MT HF Ha.
  intros H1 H2. apply list_eq_same_length with (Z.to_nat n); [rewrite length_app, length_replicate; lia|apply fslice_length|].
  intros j x y Hj. unfold fslice. rewrite list_lookup_fmap, zseq_lookup by done. cbn. intros [= <-]. rewrite mounted_byte by lia. replace (Z.to_nat (0 + Z.of_nat j)) with j by lia.
  destruct (decide (j < length (fi_data F))%nat) as [Hlt|Hge]; [rewrite lookup_app_l by done; by intros ->|].
  rewrite lookup_app_r by lia. rewrite (lookup_ge_None_2 (fi_data F)) by lia. intros [-> _]%lookup_replicate_1. done.
Qed.

Lemma mounted_owns b : owns s ip b <-> own (iblk m) F b.
Proof using FN MT HF Ha.
  pose proof nmeta_eq as HM. pose proof (so_nb _ _ _ SF) as Hnb. split.
  - intros [Hnz [E|(c & Hc & E)]]; rewrite <- E in Hnz |- *.
    + left. destruct (mounted_ind_in Hnz) as [Hi _]. split; [done|apply mounted_ind].
    + right. exists c. destruct (mounted_addr_in c Hc Hnz). split; [lia|apply mounted_addr].
  - intros Ho. pose proof (own_range _ _ _ SF b Ho). split; [lia|]. destruct Ho as [[Hi ->]|(c & Hc & ->)].
    + left. apply mounted_ind.
    + right. exists c. split; [lia|apply mounted_addr].
Qed.
End file.

(** Slot [i] of the inode cache holds the inode of file [k], as [ilock] reads it. *)
Record slot_of (i k : nat) (F : file) : Prop := {
  so_index : (i < length (f_icache s))%nat;
  so_dev : i_dev (geti s i) = 1;
  so_inum : i_inum (geti s i) = ninum k;
  so_type : i_type (geti s i) = i_type (fi_ino F);
  so_size : i_size (geti s i) = i_size (fi_ino F);
  so_addrs : i_addrs (geti s i) = i_addrs (fi_ino F)
}.

(** An inode with the number, size and blocks of file [k]. *)
Lemma mounted_layout_of k F ip : V !! k = Some F -> i_size ip = i_size (fi_ino F) -> i_addrs ip = i_addrs (fi_ino F) ->
  0 <= ninum k /\ 0 <= i_size ip <= MAXFILE * BSIZE /\ backed s ip 0 (i_size ip) /\ inode_apart s ip (IBLOCK (ninum k) (f_sb s)).
Proof using FN MT.
  intros HF S5 S6. pose proof (vo_file _ _ (fn_vol _ _ FN) k F HF) as SF. pose proof nmeta_eq as HM.
  pose proof (so_nb _ _ _ SF) as Hnb. pose proof (di_size _ (so_ino _ _ _ SF)) as Hsz. pose proof (fn_fits _ _ FN k F HF) as Hfit.
  pose proof (mounted_num k F HF) as Hn. destruct (IBLOCK_eq _ Hn) as [_ Hib]. pose proof (vo_max _ _ (fn_vol _ _ FN)) as Hm.
  rewrite S5, mounted_sb. split; [lia|]. split; [unfold BSIZE in *; lia|]. split.
  - intros j Hj. rewrite (mounted_addr k F HF _ S6). pose proof (so_in _ _ _ SF (j / BSIZE) ltac:(unfold BSIZE in *; zdiv)). lia.
  - constructor.
    + constructor; rewrite ?mounted_sb; change (sb_size mk_sb) with 1000; change (sb_bmapstart mk_sb) with 58; change BPB with 4096.
      * lia.
      * rewrite mounted_used by (unfold FSSIZE; lia). apply Z.ltb_lt. lia.
      * apply mounted_home; [unfold FSSIZE; lia|lia].
      * intros c Hc. zdiv.
    + intros E. destruct (decide (ind_of ip = 0)) as [E0|E0]; [lia|]. pose proof (mounted_ind_in k F HF _ S6 E0). lia.
    + intros c Hc E. destruct (decide (addr_of s ip c = 0)) as [E0|E0]; [lia|]. pose proof (mounted_addr_in k F HF _ S6 c Hc E0). lia.
Qed.

Lemma mounted_file i k F : V !! k = Some F -> slot_of i k F -> i_type (fi_ino F) <> T_DEV -> file_ok s i.
Proof using FN MT.
  intros HF [S1 S2 S3 S4 S5 S6] Ht. destruct (mounted_layout_of k F _ HF S5 S6) as (H1 & H2 & H3 & H4).
  constructor; unfold inode_block; rewrite ?S3, ?S4; try done. by apply (mounted_wf k F HF).
Qed.

Lemma mounted_contents i k F : V !! k = Some F -> slot_of i k F ->
  contents s i = fi_data F ++ replicate (Z.to_nat (i_size (fi_ino F)) - length (fi_data F)) 0.
Proof using FN MT.
  intros HF [S1 S2 S3 S4 S5 S6]. unfold contents. rewrite S5. apply (mounted_slice k F HF _ S6); [|by apply (fn_fits _ _ FN k F HF)].
  fold (flen F). assert (0 <= flen F) by (unfold flen; lia). destruct (decide (k = 0%nat)) as [->|Hk].
  - rewrite (fn_root _ _ FN F HF). unfold BSIZE. zdiv.
  - by rewrite (fn_size _ _ FN k F HF Hk).
Qed.
End mounted.

Lemma mounted_stable m s s' : mounted m s -> stable s s' -> mounted m s'.
Proof.
  intros [H1 H2 H3 H4 H5] [B1 B2 B3 B4 B5]. injection B3 as C1 C2 _ _ _. constructor; intros; rewrite ?B1, ?B2, ?B5, ?C1, ?C2; auto.
Qed.

(** A slot of the cache that has been given to an inode, but not read. *)
Record claimed (s : fs) (i : nat) (inum : Z) : Prop := {
  cl_index : (i < length (f_icache s))%nat;
  cl_dev : i_dev (geti s i) = 1;
  cl_inum : i_inum (geti s i) = inum;
  cl_ref : 1 <= i_ref (geti s i);
  cl_free : sl_locked (i_lock (geti s i)) = false;
  cl_valid : i_valid (geti s i) = false
}.

Lemma ilock_mounted m V s i k F : final m V -> mounted m s -> txn s ∅ -> room s 1 -> claimed s i (ninum k) -> V !! k = Some F -> i_type (fi_ino F) <> 0 ->
  exists s', ilock i s = Ok tt s' /\ mounted m s' /\ txn s' ∅ /\ room s' 1 /\ slot_of s' i k F.
Proof.
  intros FN MT T Hr [C1 C2 C3 C4 C5 C6] HF Ht. pose proof (mounted_num m V FN k F HF) as Hn. destruct (IBLOCK_eq _ Hn) as [_ Hib].
  destruct (mounted_inode m V FN s MT k F HF (set_ilock (Sleep true (curpid (bc_ctx (l_b (f_l s))))) (geti s i))) as (E1 & E2 & E3).
  unfold disk_inode in *. destruct (ilock_ok s i T Hr C1 C4 C5 C6 C2) as (s' & E & G & ST & Hl & T').
  { rewrite C3, (mounted_sb m V FN s MT). apply (mounted_home m V FN s MT); [unfold FSSIZE; lia|lia]. }
  { unfold loaded. rewrite C3. cbn [i_type set_ivalid]. rewrite E1. done. }
  exists s'. split; [done|]. split; [by apply (mounted_stable m s)|]. split; [done|]. split.
  - destruct ST as [_ _ B3 B4 _]. injection B3 as _ B3 _ _ _. unfold room in *. by rewrite B4, B3.
  - rewrite <- C3 in E1, E2, E3. constructor; rewrite ?G; [by rewrite Hl|done|done|exact E1|exact E2|exact E3].
Qed.

(** * Names *)

(** The inode a name stands for. *)
Definition names (l : list (bytes * Z)) (x : list Z) : option Z := snd <$> List.find (fun e => namecmp x e.1 =? 0) l.

Definition entry_ok (e : bytes * Z) : Prop := 0 < e.2 < 2 ^ 16.

Lemma entry_bytes_eq e : entry_ok e -> entry_bytes e = dirent_bytes e.1 e.2.
Proof. intros He. unfold entry_bytes, mk_dirent, dirent_bytes. unfold entry_ok in He. by rewrite xshort_id by lia. Qed.

Lemma entries_lookup l p j e : Forall entry_ok l -> l !! j = Some e -> entry_at (concat (entry_bytes <$> l) ++ p) j = dirent_bytes e.1 e.2.
Proof.
  intros HF. revert j. induction HF as [|e0 l He HF IH]; intros j Hj; [done|]. cbn [fmap list_fmap concat]. rewrite <- app_assoc.
  pose proof (mk_dirent_length e0.1 e0.2) as Hl. fold (entry_bytes e0) in Hl. unfold entry_at, DE. destruct j as [|j].
  - injection Hj as ->. rewrite Nat.mul_0_r, drop_0, take_app_le, take_ge by lia. by apply entry_bytes_eq.
  - replace (16 * S j)%nat with (length (entry_bytes e0) + 16 * j)%nat by lia. rewrite <- drop_drop, drop_app_length. by apply IH.
Qed.

Lemma find_entries d x l : forall k,
  (forall j e, l !! j = Some e -> entry_at d (k + j) = dirent_bytes e.1 e.2) -> Forall entry_ok l ->
  (fun k => de_inum (entry_at d k)) <$> List.find (hit d x) (seq k (length l)) = names l x.
Proof.
  induction l as [|e l IH]; intros k Hd HF; [done|]. apply Forall_cons in HF as [He HF]. cbn [length seq List.find]. unfold names. cbn [List.find].
  pose proof (Hd 0%nat e eq_refl) as E0. rewrite Nat.add_0_r in E0. unfold entry_ok in He. unfold hit at 1. rewrite E0, dirent_inum, dirent_name by lia.
  rewrite (proj2 (Z.eqb_neq _ 0)) by lia. cbn [negb andb]. destruct (namecmp x e.1 =? 0).
  - change (Some (de_inum (entry_at d k)) = Some e.2). rewrite E0, dirent_inum by lia. done.
  - apply IH; [|done]. intros j e' Hj. rewrite Nat.add_succ_comm. by apply Hd.
Qed.

(** A directory of these entries, with unused ones after them. *)
Lemma dir_inum_entries l n x : Forall entry_ok l ->
  dir_inum (concat (entry_bytes <$> l) ++ replicate (16 * n) 0) x = names l x.
Proof.
  intros HF. set (d := concat (entry_bytes <$> l) ++ replicate (16 * n) 0). pose proof (entries_length l) as Hl.
  assert (Hn : nentries d = (length l + n)%nat).
  { unfold nentries, DE, d. rewrite length_app, length_replicate. replace (length (concat (entry_bytes <$> l))) with (length l * 16)%nat by lia.
    replace (length l * 16 + 16 * n)%nat with ((length l + n) * 16)%nat by lia. by apply Nat.div_mul. }
  unfold dir_inum, dlookup. rewrite Hn, seq_app, find_app.
  assert (Hz : forall q k, (length l <= k)%nat -> (k + q <= length l + n)%nat -> List.find (hit d x) (seq k q) = None).
  { induction q as [|q IH]; intros k Hk Hq; [done|]. cbn [seq List.find]. unfold hit at 1.
    assert (E : entry_at d k = replicate 16 0).
    { unfold entry_at, DE, d. rewrite drop_app_ge by lia. rewrite drop_replicate, take_replicate. f_equal. lia. }
    rewrite E. change (de_inum (replicate 16 0) =? 0) with true. apply IH; lia. }
  rewrite (Hz n (0 + length l)%nat) by lia. rewrite <- (find_entries d x l 0); [by destruct (List.find _ _)| |done].
  intros j e Hj. by apply entries_lookup.
Qed.

Lemma file_entries_ok args : forall n, 0 < n -> n + Z.of_nat (length args) <= 2 ^ 16 -> Forall entry_ok (file_entries n args).
Proof. induction args as [|a args IH]; intros n H0 Hn; [done|]. cbn in *. constructor; [unfold entry_ok; cbn; lia|]. apply IH; lia. Qed.

(** * The image and the kernel *)

Section correctness.
Context (host : bytes -> option (list bytes)) (args : list bytes) (AO : args_ok host args).

(** The file of an argument in the image. *)
Lemma arg_file V j arg : descr <$> V = (T_DIR, root_data args) :: (file_of host <$> args) -> args !! j = Some arg ->
  exists F, V !! S j = Some F /\ i_type (fi_ino F) = T_FILE /\ fi_data F = host_bytes host arg.
Proof using Type.
  intros HD Hj. assert (H : (descr <$> V) !! S j = Some (file_of host arg)) by (rewrite HD; change ((file_of host <$> args) !! j = Some (file_of host arg)); by rewrite list_lookup_fmap, Hj).
  apply list_lookup_fmap_Some in H as (F & E & HF). exists F. split; [done|]. by injection E.
Qed.

Lemma root_file V : descr <$> V = (T_DIR, root_data args) :: (file_of host <$> args) ->
  exists F, V !! 0%nat = Some F /\ i_type (fi_ino F) = T_DIR /\ fi_data F = root_data args.
Proof using Type.
  intros HD. assert (H : (descr <$> V) !! 0%nat = Some (T_DIR, root_data args)) by (by rewrite HD).
  apply list_lookup_fmap_Some in H as (F & E & HF). exists F. split; [done|]. by injection E.
Qed.

Lemma descr_length V : descr <$> V = (T_DIR, root_data args) :: (file_of host <$> args) -> length V = S (length args).
Proof using Type. intros HD. by rewrite <- (length_fmap descr V), HD; cbn; rewrite length_fmap. Qed.

Context `{DevSw}.

(** Round trip.  Each file the builder was given is inode [j + 2] of the
    image for argument [j]: [ilock] of a slot claimed for it succeeds, and
    [readi] then returns the bytes the file had on the host. *)
Theorem mkfs_read_back :
  exists m, mkfs host args mk_start = Ok tt m /\ forall s j arg i off n,
    mounted m s -> txn s ∅ -> room s 1 -> args !! j = Some arg -> claimed s i (Z.of_nat j + 2) ->
    0 <= off <= Z.of_nat (length (host_bytes host arg)) -> 0 <= n < 2 ^ 31 ->
    exists s1 s2, let d := take (Z.to_nat n) (drop (Z.to_nat off) (host_bytes host arg)) in
      ilock i s = Ok tt s1 /\ readi i off n s1 = Ok (Z.of_nat (length d), d) s2.
Proof using AO.
  destruct (mkfs_run host args AO) as (m & V & E & FN & HD). exists m. split; [exact E|]. intros s j arg i off n MT T Hr Hj C Ho Hn.
  destruct (arg_file V j arg HD Hj) as (F & HF & Ht & Hdat). replace (Z.of_nat j + 2) with (ninum (S j)) in C by (unfold ninum; lia).
  destruct (ilock_mounted m V s i (S j) F FN MT T Hr C HF) as (s1 & E1 & MT1 & T1 & R1 & SO); [by rewrite Ht|].
  assert (FO : file_ok s1 i) by (apply (mounted_file m V FN s1 MT1 i (S j) F HF SO); by rewrite Ht).
  assert (Hc : contents s1 i = host_bytes host arg).
  { rewrite (mounted_contents m V FN s1 MT1 i (S j) F HF SO), (fn_size _ _ FN (S j) F HF) by done.
    unfold flen. rewrite Nat2Z.id, Nat.sub_diag, app_nil_r. done. }
  pose proof (file_contents_length s1 i) as Hl. rewrite Hc in Hl. pose proof (fo_size _ _ FO) as Hsz. change (MAXFILE * BSIZE) with 71680 in Hsz.
  destruct (readi_file s1 i off n T1 (mounted_layout m V FN s1 MT1) R1 FO) as (s2 & E2 & _); try lia.
  exists s1, s2. cbn zeta. rewrite Hc in E2. exact (conj E1 E2).
Qed.

(** Names.  [dirlookup] in the root directory of the image finds what the
    builder put there: ".", ".." and the arguments without a leading
    underscore, in this order, up to [DIRSIZ] characters; and nothing else. *)
Theorem mkfs_names :
  exists m, mkfs host args mk_start = Ok tt m /\ forall s i x,
    mounted m s -> txn s ∅ -> room s 1 -> claimed s i ROOTINO ->
    exists s1 s2, ilock i s = Ok tt s1 /\
      match names (root_entries args) x with
      | None => dirlookup i x s1 = Ok None s2
      | Some inum => exists off, dirlookup i x s1 = (ip <- iget 1 inum ;; ret (Some (ip, off))) s2
      end.
Proof using AO.
  destruct (mkfs_run host args AO) as (m & V & E & FN & HD). exists m. split; [exact E|]. intros s i x MT T Hr C.
  destruct (root_file V HD) as (F & HF & Ht & Hdat). change ROOTINO with (ninum 0) in C.
  destruct (ilock_mounted m V s i 0 F FN MT T Hr C HF) as (s1 & E1 & MT1 & T1 & R1 & SO); [by rewrite Ht|].
  assert (FO : file_ok s1 i) by (apply (mounted_file m V FN s1 MT1 i 0 F HF SO); by rewrite Ht).
  pose proof (fn_root _ _ FN F HF) as Hz. assert (Hfl : flen F = 16 * (Z.of_nat (length args) + 2)) by (unfold flen; by rewrite Hdat, root_data_length).
  assert (DO : dir_ok s1 i).
  { constructor; [done|by rewrite (so_type _ _ _ _ SO)|]. rewrite (so_size _ _ _ _ SO), Hz. change BSIZE with (32 * DIRENT). rewrite Z.mul_assoc. apply Z_mod_mult. }
  set (p := (32 * (flen F / 512 + 1)) - (Z.of_nat (length args) + 2)). assert (Hp : 0 <= p) by (unfold p; rewrite Hfl; clear; zdiv).
  assert (Hc : contents s1 i = concat (entry_bytes <$> root_entries args) ++ replicate (16 * Z.to_nat p) 0).
  { rewrite (mounted_contents m V FN s1 MT1 i 0 F HF SO), Hdat, Hz. unfold root_data. do 2 f_equal. fold (root_data args).
    pose proof (root_data_length args). unfold p, BSIZE in *. lia. }
  assert (HE : Forall entry_ok (root_entries args)).
  { pose proof (ag_count _ _ AO). unfold NINODES in *. repeat constructor. apply file_entries_ok; lia. }
  destruct (dirlookup_ok s1 i x T1 (mounted_layout m V FN s1 MT1) R1 DO) as (s2 & _ & _ & E2). exists s1, s2. split; [exact E1|].
  rewrite <- (dir_inum_entries (root_entries args) (Z.to_nat p) x HE), <- Hc. unfold dir_inum. rewrite E2.
  destruct (dlookup (contents s1 i) x) as [k|]; [|done]. cbn. by eexists.
Qed.
End correctness.

(** * A kernel on the image of one file *)

Definition demo_host (arg : bytes) : option (list bytes) := Some [[104; 105]; [10]].
Definition demo_args : list bytes := [[95; 97]].

Lemma demo_args_ok : args_ok demo_host demo_args.
Proof.
  constructor; [|done|vm_compute; discriminate|done]. constructor; [|done]. constructor; [|by eexists|done].
  by apply (bool_decide_unpack _).
Qed.

(** Slots claimed for inodes 1 and 2. *)
Definition unread (inum : Z) : inode := Inode 1 inum 1 free_sleeplock false 0 0 0 0 0 [].
Definition demo_slots : list inode := unread 1 :: unread 2 :: replicate 48 no_inode.
Definition demo_kernel (s : bst) : fs := Fs (demo_log s) mk_sb demo_slots.

Lemma demo_mounted m V : final m V ->
  exists s, mounted m s /\ txn s ∅ /\ room s 1 /\ f_icache s = demo_slots /\ claimed s 0 1 /\ claimed s 1 2.
Proof.
  intros FN. pose proof (vo_disk _ _ (fn_vol _ _ FN)) as D.
  destruct (binit_ok (Kctx ∅ [] [] 1) (map_seqZ 0 (mk_img m)) 1000) as (s & _ & I & Hc & Hd & Hz & _ & Hnc).
  assert (Hblk : forall n, content s n = iblk m n).
  { intros n. transitivity (block_of (map_seqZ 0 (mk_img m)) n); [rewrite <- Hd; apply content_uncached, Hnc|]. unfold block_of, iblk.
    destruct (Z.leb_spec 0 n); [by rewrite lookup_map_seqZ_0|]. by rewrite (proj2 (lookup_map_seqZ_None 0 (mk_img m) n)) by lia. }
  exists (demo_kernel s). split; [|split; [constructor; cbn|split; [by vm_compute|split; [done|split; constructor; cbn; lia || done]]]].
  - constructor; [intros n _; apply Hblk|exact Hz| |done|done]. change (f_sb (demo_kernel s)) with mk_sb. change (blk (demo_kernel s) 1) with (content s 1). rewrite Hblk, (fn_super _ _ FN). vm_compute. reflexivity.
  - by apply demo_log_ok.
  - by eexists.
  - by rewrite Hc.
  - apply (empty_calm s _ I); [by rewrite Hc|done].
  - done.
  - done.
  - intros n. unfold blk. cbn. rewrite Hblk. apply D.
Qed.

Lemma mkfs_read_back_witness :
  exists s s1 s2, ilock 1 s = Ok tt s1 /\ @readi no_devices 1 0 512 s1 = Ok (3, [104; 105; 10]) s2.
Proof.
  destruct (mkfs_read_back demo_host demo_args demo_args_ok (H := no_devices)) as (m & E & H).
  destruct (mkfs_run demo_host demo_args demo_args_ok) as (m' & V & E' & FN & _). rewrite E in E'. injection E' as <-.
  destruct (demo_mounted m V FN) as (s & MT & T & R & _ & _ & C).
  clear E. destruct (H s 0%nat [95; 97] 1%nat 0 512 MT T R eq_refl C ltac:(done) ltac:(done)) as (s1 & s2 & E1 & E2).
  exists s, s1, s2. split; [exact E1|]. exact E2.
Defined.

(** From its second byte on, the file reads as "i" and a line end; past its end
    nothing can be read. *)
Lemma readi_refines_witness :
  exists s s', @readi no_devices 1 1 512 s = Ok (2, [105; 10]) s' /\ @readi no_devices 1 4 1 s = Ok (-1, []) s.
Proof.
  destruct (mkfs_run demo_host demo_args demo_args_ok) as (m & V & E & FN & HD). clear E.
  destruct (demo_mounted m V FN) as (s & MT & T & R & _ & _ & C). destruct (arg_file demo_host demo_args V 0 [95; 97] HD eq_refl) as (F & HF & Ht & Hdat).
  destruct (ilock_mounted m V s 1 1 F FN MT T R C HF) as (s1 & _ & MT1 & T1 & R1 & SO); [by rewrite Ht|].
  assert (FO : file_ok s1 1) by (apply (mounted_file m V FN s1 MT1 1 1 F HF SO); by rewrite Ht).
  assert (Hc : contents s1 1 = [104; 105; 10]).
  { rewrite (mounted_contents m V FN s1 MT1 1 1 F HF SO), (fn_size _ _ FN 1 F HF) by done. unfold flen. rewrite Nat2Z.id, Nat.sub_diag, app_nil_r. exact Hdat. }
  pose proof (file_contents_length s1 1) as Hl. rewrite Hc in Hl. cbn in Hl. pose proof (fo_size _ _ FO) as Hsz.
  destruct (proj2 (@readi_refines no_devices s1 1 1 512 T1 (mounted_layout m V FN s1 MT1) R1 FO ltac:(done) ltac:(done)) ltac:(lia) ltac:(done)) as (s2 & E2 & _).
  exists s1, s2. rewrite Hc in E2. split; [exact E2|].
  apply (proj1 (@readi_refines no_devices s1 1 4 1 T1 (mounted_layout m V FN s1 MT1) R1 FO ltac:(done) ltac:(done))). left. lia.
Defined.

Lemma mkfs_names_witness :
  exists s s1 s2 off, ilock 0 s = Ok tt s1 /\ @dirlookup no_devices 0 [97; 0] s1 = (ip <- iget 1 2 ;; ret (Some (ip, off))) s2.
Proof.
  destruct (mkfs_names demo_host demo_args demo_args_ok (H := no_devices)) as (m & E & H).
  destruct (mkfs_run demo_host demo_args demo_args_ok) as (m' & V & E' & FN & _). rewrite E in E'. injection E' as <-.
  destruct (demo_mounted m V FN) as (s & MT & T & R & _ & C & _).
  destruct (H s 0%nat [97; 0] MT T R C) as (s1 & s2 & E1 & E2).
  assert (En : names (root_entries demo_args) [97; 0] = Some 2) by (vm_compute; reflexivity). rewrite En in E2.
  destruct E2 as (off & E2). exists s, s1, s2, off. split; [exact E1|exact E2].
Defined.

(** * The image as a tree of directories

    The paths the kernel resolves on it, and what it reads from the files they
    name. *)

Lemma names_range args x n : names (root_entries args) x = Some n -> 1 <= n <= 1 + Z.of_nat (length args).
Proof.
  unfold names. intros (e & He & ->)%fmap_Some. apply find_some in He as [Hin _].
  assert (HE : forall l k e, In e (file_entries k l) -> k <= e.2 < k + Z.of_nat (length l)).
  { induction l as [|a l IH]; intros k e'; [done|]. cbn [file_entries length In]. intros [<-|H]; [cbn; lia|]. apply IH in H. lia. }
  destruct Hin as [<-|[<-|Hin]]; [cbn; unfold ROOTINO; lia..|]. apply HE in Hin. lia.
Qed.

Section tree.
Context (host : bytes -> option (list bytes)) (args : list bytes) (AO : args_ok host args).
Context (m : mk) (V : list file) (FN : final m V) (HD : descr <$> V = (T_DIR, root_data args) :: (file_of host <$> args)).
Context (s : fs) (MT : mounted m s).

Lemma tree_node k F : V !! k = Some F ->
  dtype s (ninum k) = i_type (fi_ino F) /\ i_size (dnode s (ninum k)) = i_size (fi_ino F) /\ i_addrs (dnode s (ninum k)) = i_addrs (fi_ino F) /\
  i_nlink (dnode s (ninum k)) = 1.
Proof using FN MT.
  intros HF. destruct (mounted_inode m V FN s MT k F HF (Inode 1 (ninum k) 0 free_sleeplock true 0 0 0 0 0 [])) as (E1 & E2 & E3).
  do 3 (split; [done|]). rewrite <- (fn_links _ _ FN k F HF), <- (tb_file _ _ (fn_table _ _ FN) k F HF). destruct (IBLOCK_eq _ (mounted_num m V FN k F HF)) as [_ Hr].
  unfold dnode, disk_inode. rewrite (mounted_sb m V FN s MT), (mt_blk _ _ MT) by (unfold FSSIZE; lia). done.
Qed.

Lemma tree_file k F : V !! k = Some F -> i_type (fi_ino F) <> T_DEV -> disk_file s (ninum k).
Proof using FN MT.
  intros HF Ht. destruct (tree_node k F HF) as (E1 & E2 & E3 & _). destruct (mounted_layout_of m V FN s MT k F _ HF E2 E3) as (H1 & H2 & H3 & H4).
  constructor; try done; [by apply (mounted_wf m V FN s MT k F HF)|by rewrite E1].
Qed.

Lemma tree_contents k F : V !! k = Some F ->
  dcontents s (ninum k) = fi_data F ++ replicate (Z.to_nat (i_size (fi_ino F)) - length (fi_data F)) 0.
Proof using FN MT.
  intros HF. destruct (tree_node k F HF) as (_ & E2 & E3 & _). unfold dcontents. rewrite E2.
  apply (mounted_slice m V FN s MT k F HF _ E3); [|by apply (fn_fits _ _ FN k F HF)]. fold (flen F). assert (0 <= flen F) by (unfold flen; lia).
  destruct (decide (k = 0%nat)) as [->|Hk]; [rewrite (fn_root _ _ FN F HF); unfold BSIZE; zdiv|by rewrite (fn_size _ _ FN k F HF Hk)].
Qed.

(** The root directory has the names of the arguments. *)
Lemma tree_root x : dtype s ROOTINO = T_DIR /\ i_size (dnode s ROOTINO) mod DIRENT = 0 /\ dir_inum (dcontents s ROOTINO) x = names (root_entries args) x.
Proof using FN MT AO HD.
  destruct (root_file host args V HD) as (F & HF & Ht & Hdat). pose proof (tree_contents 0 F HF) as Hc. change (ninum 0) with ROOTINO in Hc.
  destruct (tree_node 0 F HF) as (E1 & E2 & _). change (ninum 0) with ROOTINO in E1, E2. rewrite E1, E2. split; [done|].
  pose proof (fn_root _ _ FN F HF) as Hz. assert (Hfl : flen F = 16 * (Z.of_nat (length args) + 2)) by (unfold flen; by rewrite Hdat, root_data_length).
  split; [rewrite Hz; change BSIZE with (32 * DIRENT); rewrite Z.mul_assoc; apply Z_mod_mult|].
  set (p := (32 * (flen F / 512 + 1)) - (Z.of_nat (length args) + 2)). assert (Hp : 0 <= p) by (unfold p; rewrite Hfl; clear; zdiv).
  rewrite <- (dir_inum_entries (root_entries args) (Z.to_nat p) x).
  - f_equal. rewrite Hc, Hdat, Hz. unfold root_data. do 2 f_equal. fold (root_data args). pose proof (root_data_length args). unfold p, BSIZE in *. lia.
  - pose proof (ag_count _ _ AO). unfold NINODES in *. repeat constructor. apply file_entries_ok; lia.
Qed.

Lemma tree_number n : 1 <= n <= 1 + Z.of_nat (length args) -> exists k F, V !! k = Some F /\ n = ninum k /\ i_type (fi_ino F) = (if decide (n = 1) then T_DIR else T_FILE).
Proof using HD.
  intros Hn. destruct (decide (n = 1)) as [->|Hne].
  - destruct (root_file host args V HD) as (F & HF & Ht & _). by exists 0%nat, F.
  - destruct (lookup_lt_is_Some_2 args (Z.to_nat (n - 2))) as [arg Ha]; [lia|]. destruct (arg_file host args V _ arg HD Ha) as (F & HF & Ht & _).
    exists (S (Z.to_nat (n - 2))), F. split; [done|]. split; [unfold ninum; lia|done].
Qed.

Lemma tree_reach n : reach s n -> 1 <= n <= 1 + Z.of_nat (length args).
Proof using FN MT AO HD.
  induction 1 as [|n x n' HR IH Ht He]; [unfold ROOTINO; lia|]. destruct (tree_number n IH) as (k & F & HF & -> & Hty).
  rewrite (proj1 (tree_node k F HF)), Hty in Ht. case_decide as Hk; [|done]. rewrite Hk in He. change 1 with ROOTINO in He.
  rewrite (proj2 (proj2 (tree_root x))) in He. by apply names_range in He.
Qed.

Lemma image_tree : tree_ok s.
Proof using FN MT AO HD.
  intros n HR. pose proof (tree_reach n HR) as Hn. destruct (tree_number n Hn) as (k & F & HF & -> & Ht).
  destruct (tree_node k F HF) as (E1 & E2 & E3 & E4). destruct (IBLOCK_eq _ (mounted_num m V FN k F HF)) as [_ Hr].
  constructor; rewrite ?E1, ?Ht.
  - rewrite (mounted_sb m V FN s MT). apply (mounted_home m V FN s MT); [unfold FSSIZE; lia|lia].
  - by case_decide.
  - by rewrite E4.
  - case_decide as Hk; [|done]. intros _. split; [apply (tree_file k F HF); by rewrite Ht|]. rewrite Hk. apply (tree_root []).
Qed.

Lemma tree_owns k F b : V !! k = Some F -> owns s (disk_inode s (ninum k) zero_inode) b <-> own (iblk m) F b.
Proof using FN MT. intros HF. apply (mounted_owns m V FN s MT k F HF). by apply (mounted_inode m V FN s MT k F HF). Qed.

Lemma tree_unused n : 0 <= n < sb_ninodes (f_sb s) -> n = 0 \/ 1 + Z.of_nat (length args) < n -> disk_inode s n zero_inode = zero_inode.
Proof using FN MT HD.
  rewrite (mounted_sb m V FN s MT). change (sb_ninodes mk_sb) with 200. intros Hn Hf. pose proof (descr_length host args V HD) as Hl.
  destruct (IBLOCK_eq n ltac:(lia)) as [_ Hr]. unfold disk_inode. rewrite (mounted_sb m V FN s MT), (mt_blk _ _ MT) by (unfold FSSIZE; lia).
  apply (tb_free _ _ (fn_table _ _ FN)); lia.
Qed.

Lemma tree_owner b : nmeta <= b < freeblock m ->
  exists n, 1 <= n <= 1 + Z.of_nat (length args) /\ owns s (disk_inode s n zero_inode) b  /\
    forall n', 1 <= n' <= 1 + Z.of_nat (length args) -> owns s (disk_inode s n' zero_inode) b -> n' = n.
Proof using FN MT HD.
  pose proof (descr_length host args V HD) as Hl.
  intros Hb. destruct (vo_all _ _ (fn_vol _ _ FN) b Hb) as (k & F & HF & Ho). pose proof (lookup_lt_Some _ _ _ HF).
  exists (ninum k). split; [unfold ninum; lia|]. split; [by apply (tree_owns k F)|]. intros n' Hn' Ho'.
  destruct (lookup_lt_is_Some_2 V (Z.to_nat (n' - 1))) as [G HG]; [lia|].
  assert (En : n' = ninum (Z.to_nat (n' - 1))) by (unfold ninum; lia). rewrite En in Ho' |- *.
  rewrite (vo_apart _ _ (fn_vol _ _ FN) _ _ _ _ b HG HF); [done| |done]. by apply (tree_owns (Z.to_nat (n' - 1)) G).
Qed.
End tree.

(** * A well-formed image *)

(** What the kernel finds on the disk, for the files [args] of the host and the
    first block not handed out. *)
Record well_formed (host : bytes -> option (list bytes)) (args : list bytes) (fb : Z) (s : fs) : Prop := {
  wf_layout : layout s;
  wf_super : f_sb s = mk_sb;
  wf_boot : blk s 0 = zero_block;
  wf_log : forall b, sb_logstart (f_sb s) <= b < sb_logstart (f_sb s) + sb_nlog (f_sb s) -> blk s b = zero_block;
  wf_header : header_n (blk s (sb_logstart (f_sb s))) = 0;
  wf_used : forall b, 0 <= b < FSSIZE -> used s b = (b <? fb);
  wf_root : let ip := disk_inode s ROOTINO zero_inode in
    i_type ip = T_DIR /\ i_nlink ip = 1 /\ i_size ip = (16 * (Z.of_nat (length args) + 2) / BSIZE + 1) * BSIZE;
  wf_file : forall j arg, args !! j = Some arg -> let ip := disk_inode s (Z.of_nat j + 2) zero_inode in
    i_type ip = T_FILE /\ i_nlink ip = 1 /\ i_size ip = Z.of_nat (length (host_bytes host arg));
  wf_inode : forall n, 1 <= n <= 1 + Z.of_nat (length args) -> disk_file s n;
  wf_unused : forall n, 0 <= n < sb_ninodes (f_sb s) -> n = 0 \/ 1 + Z.of_nat (length args) < n -> disk_inode s n zero_inode = zero_inode;
  wf_owner : forall b, nmeta <= b < fb -> exists n, 1 <= n <= 1 + Z.of_nat (length args) /\ owns s (disk_inode s n zero_inode) b  /\
    forall n', 1 <= n' <= 1 + Z.of_nat (length args) -> owns s (disk_inode s n' zero_inode) b -> n' = n
}.

(** C15: Well-formedness.  For host files that can be opened, have no slash in
    their names and fit (at most 198 of them, each at most [MAXFILE] blocks,
    all together within the disk), and whose number plus two is not a multiple
    of 32 ([args_ok]; for a multiple of 32 the size that [main] gives the root
    directory, mkfs.c:161, exceeds its blocks), [mkfs] finishes, and a kernel
    that runs on the image finds the superblock, a log whose blocks are zero
    and whose header counts no block, exactly the blocks up to the last one
    handed out marked in use, the root directory as inode 1 and the file of
    argument [j] as inode [j + 2], each with its type, one link, its size and
    blocks inside the data area that back this size, zeroes in all other
    inodes, and each block after the free map that is in use in exactly one of
    the inodes built. *)
Theorem mkfs_wellformed host args : args_ok host args ->
  exists m, mkfs host args mk_start = Ok tt m /\ forall s, mounted m s -> well_formed host args (freeblock m) s.
Proof.
  intros AO. destruct (mkfs_run host args AO) as (m & V & E & FN & HD). exists m. split; [exact E|]. clear E. intros s MT.
  pose proof (mounted_sb m V FN s MT) as Hsb. constructor; rewrite ?Hsb.
  - by apply (mounted_layout m V).
  - done.
  - rewrite (mt_blk _ _ MT) by done. by apply (fn_zero _ _ FN).
  - change (sb_logstart mk_sb) with 2. change (sb_nlog mk_sb) with 30. intros b Hb. rewrite (mt_blk _ _ MT) by (unfold FSSIZE; lia). apply (fn_zero _ _ FN); lia.
  - change (sb_logstart mk_sb) with 2. rewrite (mt_blk _ _ MT), (fn_zero _ _ FN) by done. vm_compute. reflexivity.
  - by apply (mounted_used m V).
  - destruct (root_file host args V HD) as (F & HF & Ht & Hdat). destruct (tree_node m V FN s MT 0 F HF) as (E1 & E2 & _ & E4).
    cbn zeta. split; [rewrite <- Ht; exact E1|]. split; [exact E4|]. etrans; [exact E2|]. rewrite (fn_root _ _ FN F HF). unfold flen. by rewrite Hdat, root_data_length.
  - intros j arg Hj. destruct (arg_file host args V j arg HD Hj) as (F & HF & Ht & Hdat). destruct (tree_node m V FN s MT (S j) F HF) as (E1 & E2 & _ & E4).
    replace (Z.of_nat j + 2) with (ninum (S j)) by (unfold ninum; lia). cbn zeta.
    split; [rewrite <- Ht; exact E1|]. split; [exact E4|]. etrans; [exact E2|]. rewrite (fn_size _ _ FN (S j) F HF) by done. unfold flen. by rewrite Hdat.
  - intros n Hn. destruct (tree_number host args V HD n Hn) as (k & F & HF & -> & Ht). apply (tree_file m V FN s MT k F HF). rewrite Ht. by case_decide.
  - rewrite <- Hsb. by apply (tree_unused host args m V FN HD s MT).
  - by apply (tree_owner host args m V FN HD s MT).
Qed.

Lemma mkfs_wellformed_witness :
  exists m s, mkfs demo_host demo_args mk_start = Ok tt m /\ layout s /\ used s 60 = true /\ used s 61 = false /\
    i_nlink (disk_inode s 2 zero_inode) = 1 /\ i_size (disk_inode s 2 zero_inode) = 3.
Proof.
  destruct (mkfs_wellformed demo_host demo_args demo_args_ok) as (m & E & H).
  destruct (mkfs_run demo_host demo_args demo_args_ok) as (m' & V & E' & FN & _). rewrite E in E'. injection E' as <-.
  destruct (demo_mounted m V FN) as (s & MT & _). destruct (H s MT) as [L _ _ _ _ Hu _ Hf _ _ _]. exists m, s. split; [exact E|]. split; [exact L|].
  assert (Hfb : freeblock m = 61).
  { assert (Ec : match mkfs demo_host demo_args mk_start with Ok _ m => freeblock m | _ => 0 end = 61) by (vm_compute; reflexivity).
    rewrite E in Ec. exact Ec. }
  clear E. rewrite !Hu, Hfb by done. do 2 (split; [done|]). exact (proj2 (Hf 0%nat [95; 97] eq_refl)).
Defined.

(** * Reading a file by its name *)

Section open.
Context (host : bytes -> option (list bytes)) (args : list bytes) (AO : args_ok host args).
Context `{DevSw}.

End open.

(** * The image of one file *)

#[local] Instance tree_devices : DevSw := {| dev_read _ := None; dev_write _ := None |}.

Lemma demo_slots_ok s : f_icache s = demo_slots -> icache_ok s ∅.
Proof.
  intros E. assert (G : forall i, geti s i = match i with 0 => unread 1 | 1 => unread 2 | _ => geti s i end%nat /\ ((1 < i)%nat -> geti s i = no_inode \/ geti s i = zero_inode)).
  { intros [|[|i]]; unfold geti; rewrite E; [split; [done|lia]..|]. split; [done|]. intros _. change (demo_slots !! S (S i)) with (replicate 48 no_inode !! i).
    destruct (replicate 48 no_inode !! i) as [ip|] eqn:Ei; [|by right]. apply lookup_replicate_1 in Ei as [-> _]. by left. }
  constructor.
  - intros i. rewrite bool_decide_false by set_solver+. destruct (G i) as [G1 G2]. destruct i as [|[|i]]; [rewrite G1; by constructor..|].
    destruct G2 as [-> | ->]; [lia|by constructor..].
  - intros i j. destruct (G i) as [Gi1 Gi2], (G j) as [Gj1 Gj2].
    destruct i as [|[|i]]; [rewrite Gi1|rewrite Gi1|destruct Gi2 as [-> | ->]; [lia|done..]];
    (destruct j as [|[|j]]; [rewrite Gj1|rewrite Gj1|destruct Gj2 as [-> | ->]; [lia|done..]]); done.
Qed.

Lemma demo_idle m V : final m V -> exists s, mounted m s /\ icache_idle s.
Proof.
  intros FN. destruct (demo_mounted m V FN) as (s & MT & T & R & E & _). exists s. split; [done|].
  assert (G : forall i, i_ref (geti s i) <= 1).
  { intros i. unfold geti. rewrite E. destruct (demo_slots !! i) as [ip|] eqn:Ei; [|done]. apply list_elem_of_lookup_2 in Ei.
    unfold demo_slots in Ei. rewrite !elem_of_cons in Ei. destruct Ei as [->|[->|[-> _]%elem_of_replicate]]; done. }
  constructor; [done|done|by apply demo_slots_ok| |intros j; specialize (G j); lia].
  exists 2%nat, 3%nat. unfold geti. rewrite E. split; [done|]. do 2 (split; [cbn; lia|]). done.
Qed.

(** "/./a" is inode 2, in the root directory. *)
Lemma namex_walks_witness :
  exists s i j s1 s2 name, namex None [47; 46; 47; 97] false s = Ok (Some i, name) s1 /\ got s1 2 i /\
    namex None [47; 46; 47; 97] true s = Ok (Some j, [97]) s2 /\ got s2 ROOTINO j.
Proof.
  destruct (mkfs_run demo_host demo_args demo_args_ok) as (m & V & E & FN & HD). clear E. destruct (demo_idle m V FN) as (s & MT & ID).
  assert (W : walkable s) by (constructor; [done|by apply (mounted_layout m V FN)|by apply (image_tree demo_host demo_args demo_args_ok m V FN HD)]).
  assert (Hel : elements [47; 46; 47; 97] = [[46]; [97]]) by (vm_compute; reflexivity).
  pose proof (tree_root demo_host demo_args demo_args_ok m V FN HD s MT [46]) as (Ht & _ & H1).
  pose proof (tree_root demo_host demo_args demo_args_ok m V FN HD s MT [97]) as (_ & _ & H2).
  assert (N1 : names (root_entries demo_args) [46] = Some ROOTINO) by (vm_compute; reflexivity).
  assert (N2 : names (root_entries demo_args) [97] = Some 2) by (vm_compute; reflexivity).
  assert (Hw : forall p, walk s p ROOTINO (elements [47; 46; 47; 97]) = Some (if p then ROOTINO else 2)).
  { intros p. rewrite Hel. cbn [walk]. rewrite Ht. change (negb (T_DIR =? T_DIR)) with false. cbv iota.
    rewrite (bool_decide_false ([[97]] = [])) by done. rewrite andb_false_r, H1, N1. cbn [mbind option_bind walk]. rewrite Ht.
    change (negb (T_DIR =? T_DIR)) with false. cbv iota. rewrite bool_decide_true, H2, N2 by done. by destruct p. }
  destruct (namex_walks s None [47; 46; 47; 97] false ROOTINO W eq_refl) as (r1 & nm1 & s1 & E1 & _ & _ & F1). rewrite Hw in F1.
  destruct (namex_walks s None [47; 46; 47; 97] true ROOTINO W eq_refl) as (r2 & nm2 & s2 & E2 & _ & _ & F2). rewrite Hw, Hel in F2.
  destruct F1 as (i & -> & G1 & _), F2 as (j & -> & G2 & _ & Hn). specialize (Hn eq_refl). injection Hn as <-.
  exists s, i, j, s1, s2, nm1. exact (conj E1 (conj G1 (conj E2 G2))).
Defined.

