(* ===== verification/Kbd.v ===== *)
(** Port input and output, and the keyboard, [kbd.c] and [kbd.h]. *)

From S2P Require Import Prelude.
Open Scope Z_scope.

(** * Ports, [inb] and [outb] of [x86.h]

    [W] is the state of the hardware; a read may change it. *)
Class Ports (W : Type) := {
  port_in : Z -> W -> Z * W;
  port_out : Z -> Z -> W -> W
}.

Section ports.
Context {W : Type} `{Ports W}.

Definition inb (port : Z) (w : W) : Z * W := let '(v, w) := port_in port w in (u8 v, w).
Definition outb (port v : Z) (w : W) : W := port_out port (u8 v) w.
End ports.

(** * Key codes *)

Definition KBSTATP : Z := 0x64.
Definition KBS_DIB : Z := 0x01.
Definition KBDATAP : Z := 0x60.

Definition SHIFT : Z := Z.shiftl 1 0.
Definition CTL : Z := Z.shiftl 1 1.
Definition ALT : Z := Z.shiftl 1 2.
Definition CAPSLOCK : Z := Z.shiftl 1 3.
Definition NUMLOCK : Z := Z.shiftl 1 4.
Definition SCROLLLOCK : Z := Z.shiftl 1 5.
Definition E0ESC : Z := Z.shiftl 1 6.

Definition KEY_HOME : Z := 0xE0.
Definition KEY_END : Z := 0xE1.
Definition KEY_UP : Z := 0xE2.
Definition KEY_DN : Z := 0xE3.
Definition KEY_LF : Z := 0xE4.
Definition KEY_RT : Z := 0xE5.
Definition KEY_PGUP : Z := 0xE6.
Definition KEY_PGDN : Z := 0xE7.
Definition KEY_INS : Z := 0xE8.
Definition KEY_DEL : Z := 0xE9.

(** An array of 256 bytes from its first elements and its designated ones. *)
Definition table (xs : list Z) (ds : list (Z * Z)) : list Z :=
  foldl (fun t d => <[Z.to_nat d.1 := d.2]> t) (xs ++ replicate (256 - length xs) 0) ds.

Definition shiftcode : list Z := table []
  [ (0x1D, CTL); (0x2A, SHIFT); (0x36, SHIFT); (0x38, ALT); (0x9D, CTL); (0xB8, ALT) ].

Definition togglecode : list Z := table []
  [ (0x3A, CAPSLOCK); (0x45, NUMLOCK); (0x46, SCROLLLOCK) ].

(** Characters by their codes. *)
Definition normalmap : list Z := table
  [ 0; 27; 49; 50; 51; 52; 53; 54;
    55; 56; 57; 48; 45; 61; 8; 9;
    113; 119; 101; 114; 116; 121; 117; 105;
    111; 112; 91; 93; 10; 0; 97; 115;
    100; 102; 103; 104; 106; 107; 108; 59;
    39; 96; 0; 92; 122; 120; 99; 118;
    98; 110; 109; 44; 46; 47; 0; 42;
    0; 32; 0; 0; 0; 0; 0; 0;
    0; 0; 0; 0; 0; 0; 0; 55;
    56; 57; 45; 52; 53; 54; 43; 49;
    50; 51; 48; 46; 0; 0; 0; 0 ]
  [ (0x9C, 10); (0xB5, 47); (0xC8, KEY_UP); (0xD0, KEY_DN);
    (0xC9, KEY_PGUP); (0xD1, KEY_PGDN);
    (0xCB, KEY_LF); (0xCD, KEY_RT);
    (0x97, KEY_HOME); (0xCF, KEY_END); (0xD2, KEY_INS); (0xD3, KEY_DEL) ].

Definition shiftmap : list Z := table
  [ 0; 27; 33; 64; 35; 36; 37; 94;
    38; 42; 40; 41; 95; 43; 8; 9;
    81; 87; 69; 82; 84; 89; 85; 73;
    79; 80; 123; 125; 10; 0; 65; 83;
    68; 70; 71; 72; 74; 75; 76; 58;
    34; 126; 0; 124; 90; 88; 67; 86;
    66; 78; 77; 60; 62; 63; 0; 42;
    0; 32; 0; 0; 0; 0; 0; 0;
    0; 0; 0; 0; 0; 0; 0; 55;
    56; 57; 45; 52; 53; 54; 43; 49;
    50; 51; 48; 46; 0; 0; 0; 0 ]
  [ (0x9C, 10); (0xB5, 47); (0xC8, KEY_UP); (0xD0, KEY_DN);
    (0xC9, KEY_PGUP); (0xD1, KEY_PGDN);
    (0xCB, KEY_LF); (0xCD, KEY_RT);
    (0x97, KEY_HOME); (0xCF, KEY_END); (0xD2, KEY_INS); (0xD3, KEY_DEL) ].

Definition ctlmap : list Z := table
  [ 0; 0; 0; 0; 0; 0; 0; 0;
    0; 0; 0; 0; 0; 0; 0; 0;
    17; 23; 5; 18; 20; 25; 21; 9;
    15; 16; 0; 0; 13; 0; 1; 19;
    4; 6; 7; 8; 10; 11; 12; 0;
    0; 0; 0; 28; 26; 24; 3; 22;
    2; 14; 13; 0; 0; 239; 0; 0 ]
  [ (0x9C, 13); (0xB5, 239); (0xC8, KEY_UP); (0xD0, KEY_DN);
    (0xC9, KEY_PGUP); (0xD1, KEY_PGDN);
    (0xCB, KEY_LF); (0xCD, KEY_RT);
    (0x97, KEY_HOME); (0xCF, KEY_END); (0xD2, KEY_INS); (0xD3, KEY_DEL) ].

(** * [kbdgetc] *)

(** [charcode[shift & (CTL | SHIFT)][data]]. *)
Definition charcode : list (list Z) := [normalmap; shiftmap; ctlmap; ctlmap].

Definition at_ (t : list Z) (i : Z) : Z := default 0 (t !! Z.to_nat i).

(** The part of [kbdgetc] after a byte has been read: the character, or 0, and
    the new [shift]. *)
Definition kbd_byte (shift data : Z) : Z * Z :=
  if data =? 0xE0 then (0, Z.lor shift E0ESC)
  else if negb (Z.land data 0x80 =? 0) then
    let data := if negb (Z.land shift E0ESC =? 0) then data else Z.land data 0x7F in
    (0, Z.land shift (not32 (Z.lor (at_ shiftcode data) E0ESC)))
  else
    let '(data, shift) :=
      if negb (Z.land shift E0ESC =? 0)
      then (Z.lor data 0x80, Z.land shift (not32 E0ESC)) else (data, shift) in
    let shift := Z.lor shift (at_ shiftcode data) in
    let shift := Z.lxor shift (at_ togglecode data) in
    let c := at_ (default [] (charcode !! Z.to_nat (Z.land shift (Z.lor CTL SHIFT)))) data in
    let c :=
      if negb (Z.land shift CAPSLOCK =? 0) then
        if (97 <=? c) && (c <=? 122) then c + (65 - 97)
        else if (65 <=? c) && (c <=? 90) then c + (97 - 65) else c
      else c in
    (c, shift).

(** The result, the new [shift], and the hardware. *)
Definition kbdgetc {W} `{Ports W} (shift : Z) (w : W) : Z * Z * W :=
  let '(st, w) := inb KBSTATP w in
  if Z.land st KBS_DIB =? 0 then (-1, shift, w) else
  let '(data, w) := inb KBDATAP w in
  let '(c, shift) := kbd_byte shift data in
  (c, shift, w).

(** * Typing *)

(** The characters a sequence of bytes from the keyboard stands for, and the
    state of the modifiers after it; a result of 0 is no character. *)
Fixpoint kbd_chars (shift : Z) (codes : list Z) : list Z * Z :=
  match codes with
  | [] => ([], shift)
  | d :: codes =>
      let '(c, shift) := kbd_byte shift d in
      let '(cs, shift) := kbd_chars shift codes in
      (if c =? 0 then cs else c :: cs, shift)
  end.

Lemma kbd_chars_app shift xs ys :
  kbd_chars shift (xs ++ ys) =
  let '(cs, shift) := kbd_chars shift xs in let '(ds, shift) := kbd_chars shift ys in (cs ++ ds, shift).
Proof.
  revert shift. induction xs as [|d xs IH]; intros shift; cbn; [by destruct (kbd_chars shift ys)|].
  destruct (kbd_byte shift d) as [c sh]. rewrite IH. destruct (kbd_chars sh xs) as [cs sh']. destruct (kbd_chars sh' ys) as [ds sh''].
  by destruct (c =? 0).
Qed.

(** The results of [kbdgetc] byte by byte, 0 included. *)
Fixpoint kbd_results (shift : Z) (codes : list Z) : list Z :=
  match codes with
  | [] => []
  | d :: codes => (kbd_byte shift d).1 :: kbd_results (kbd_byte shift d).2 codes
  end.

Lemma kbd_results_chars shift codes : List.filter (fun c => negb (c =? 0)) (kbd_results shift codes) = (kbd_chars shift codes).1.
Proof.
  revert shift. induction codes as [|d codes IH]; intros shift; [done|]. cbn. destruct (kbd_byte shift d) as [c sh]. cbn.
  rewrite IH. destruct (kbd_chars sh codes) as [cs sh']. by destruct (c =? 0).
Qed.

(** The maps hold bytes. *)
Lemma maps_check : forallb (forallb (fun x => (0 <=? x) && (x <? 256))) charcode = true.
Proof. vm_compute. reflexivity. Qed.

Lemma charcode_range k i : 0 <= at_ (default [] (charcode !! k)) i < 256.
Proof.
  destruct (charcode !! k) as [m|] eqn:Ek; cbn [from_option id]; [|by unfold at_; rewrite lookup_nil].
  unfold at_. destruct (m !! Z.to_nat i) as [x|] eqn:Ex; cbn [from_option id]; [|lia].
  pose proof maps_check as H. rewrite forallb_forall in H. specialize (H m). rewrite forallb_forall in H.
  apply list_elem_of_lookup_2, list_elem_of_In in Ek. apply list_elem_of_lookup_2, list_elem_of_In in Ex. specialize (H Ek x Ex). lia.
Qed.

Lemma kbd_byte_range shift d : 0 <= (kbd_byte shift d).1 < 256.
Proof.
  unfold kbd_byte. destruct (d =? 0xE0); [cbn; lia|]. destruct (negb (Z.land d 0x80 =? 0)); [cbn; lia|].
  destruct (if negb (Z.land shift E0ESC =? 0) then _ else _) as [d' sh]. cbn zeta. cbn [fst].
  set (c := at_ (default [] _) d'). assert (Hc : 0 <= c < 256) by apply charcode_range.
  destruct (negb _); [|done]. destruct ((97 <=? c) && (c <=? 122)) eqn:E1; [lia|]. destruct ((65 <=? c) && (c <=? 90)) eqn:E2; lia.
Qed.

Lemma kbd_results_range shift codes c : c ∈ kbd_results shift codes -> 0 <= c < 256.
Proof.
  revert shift. induction codes as [|d codes IH]; intros shift; [by intros ?%elem_of_nil|]. cbn.
  intros [->|Hin]%elem_of_cons; [apply kbd_byte_range|by eapply IH].
Qed.

(** The key with a character in a map. *)
Definition key_in (m : list Z) (c : Z) : option Z :=
  List.find (fun k => at_ m k =? c) (Z.of_nat <$> seq 1 87).

(** What the keyboard sends when a character is typed: a key is pressed and
    released, between the same for the left shift key if it is needed. *)
Definition keys (c : Z) : list Z :=
  match key_in normalmap c with
  | Some k => [k; Z.lor k 0x80]
  | None => match key_in shiftmap c with
            | Some k => [0x2A; k; Z.lor k 0x80; 0xAA]
            | None => []
            end
  end.

Definition typeable (c : Z) : bool := ((32 <=? c) && (c <? 127)) || (c =? 8) || (c =? 9) || (c =? 10) || (c =? 27).

Lemma keys_check :
  forallb (fun c => implb (typeable c) (bool_decide (kbd_chars 0 (keys c) = ([c], 0)))) (Z.of_nat <$> seq 0 128) = true.
Proof. vm_compute. reflexivity. Qed.

Lemma typeable_range c : typeable c = true -> c ∈ Z.of_nat <$> seq 0 128.
Proof.
  unfold typeable. intros Hc. apply list_elem_of_fmap. exists (Z.to_nat c). split; [lia|]. apply elem_of_seq. lia.
Qed.

Lemma keys_ok c : typeable c = true -> kbd_chars 0 (keys c) = ([c], 0).
Proof.
  intros Hc. pose proof keys_check as H. rewrite forallb_forall in H. specialize (H c). rewrite Hc in H. cbn [implb] in H.
  apply bool_decide_eq_true in H; [done|]. by apply list_elem_of_In, typeable_range.
Qed.

Lemma keys_bytes_check : forallb (fun c => implb (typeable c) (forallb (fun k => u8 k =? k) (keys c))) (Z.of_nat <$> seq 0 128) = true.
Proof. vm_compute. reflexivity. Qed.

Lemma keys_bytes c : typeable c = true -> u8 <$> keys c = keys c.
Proof.
  intros Hc. pose proof keys_bytes_check as H. rewrite forallb_forall in H. specialize (H c). rewrite Hc in H. cbn [implb] in H.
  rewrite forallb_forall in H by (by apply list_elem_of_In, typeable_range).
  rewrite <- (list_fmap_id (keys c)) at 2. apply list_fmap_ext. intros j k Hk. cbn. apply Z.eqb_eq, H.
  - by apply list_elem_of_In, typeable_range.
  - by eapply list_elem_of_In, list_elem_of_lookup_2.
Qed.

(** Typing a text delivers the text: for every sequence of printable
    characters, line ends, tabs, backspaces and escapes, the bytes sent as the
    keys are pressed and released, with the shift key where a character needs
    it, are decoded to that sequence, and no modifier is left set. *)
Lemma keys_typed text : forallb typeable text = true -> kbd_chars 0 (text ≫= keys) = (text, 0) /\ u8 <$> (text ≫= keys) = text ≫= keys.
Proof.
  induction text as [|c text IH]; [done|]. cbn [forallb]. intros [Hc Ht]%andb_true_iff. destruct (IH Ht) as [E1 E2].
  rewrite bind_cons. split; [by rewrite kbd_chars_app, keys_ok, E1|]. by rewrite fmap_app, keys_bytes, E2.
Qed.
