(* ===== verification/Apic.v ===== *)
(** The interrupt controllers, [ioapic.c], [picirq.c] and the local APIC part
    of [lapic.c], over ports and memory-mapped registers. *)

From S2P Require Import Prelude Params Kbd.
Open Scope Z_scope.

(** * Memory-mapped device registers

    Reads and writes of 32-bit words through [volatile] pointers. *)
Class Mmio (W : Type) := {
  mmio_in : Z -> W -> Z * W;
  mmio_out : Z -> Z -> W -> W
}.

Section apic.
Context {W : Type} `{Ports W} `{Mmio W}.

Definition readw (a : Z) (w : W) : Z * W := let '(v, w) := mmio_in (u32 a) w in (u32 v, w).
Definition writew (a v : Z) (w : W) : W := mmio_out (u32 a) (u32 v) w.

(** * [picirq.c] *)

Definition picinit (w : W) : W := outb (0xA0 + 1) 0xFF (outb (0x20 + 1) 0xFF w).

(** * [ioapic.c] *)

Definition IOAPIC : Z := 0xFEC00000.
Definition REG_ID : Z := 0x00.
Definition REG_VER : Z := 0x01.
Definition REG_TABLE : Z := 0x10.
Definition INT_DISABLED : Z := 0x00010000.

(** [struct ioapic]: [reg] at offset 0, [data] at offset 16. *)
Definition ioapicread (reg : Z) (w : W) : Z * W := readw (IOAPIC + 16) (writew IOAPIC reg w).
Definition ioapicwrite (reg data : Z) (w : W) : W := writew (IOAPIC + 16) data (writew IOAPIC reg w).

(** The loop of [ioapicinit] from [i] on, [n] more interrupts. *)
Fixpoint mask_from (i : Z) (n : nat) (w : W) : W :=
  match n with
  | O => w
  | S n => mask_from (i + 1) n (ioapicwrite (REG_TABLE + 2 * i + 1) 0 (ioapicwrite (REG_TABLE + 2 * i) (Z.lor INT_DISABLED (T_IRQ0 + i)) w))
  end.

(** [ioapicinit] with what it prints. *)
Definition ioapicinit (ioapicid : Z) (w : W) : list string * W :=
  let '(ver, w) := ioapicread REG_VER w in
  let maxintr := Z.land (Z.shiftr ver 16) 0xFF in
  let '(idr, w) := ioapicread REG_ID w in
  let id := Z.shiftr idr 24 in
  ((if negb (id =? ioapicid) then ["ioapicinit: id isn't equal to ioapicid; not a MP"%string] else []),
   mask_from 0 (Z.to_nat (maxintr + 1)) w).

Definition ioapicenable (irq cpunum : Z) (w : W) : W :=
  ioapicwrite (REG_TABLE + 2 * irq + 1) (Z.shiftl cpunum 24) (ioapicwrite (REG_TABLE + 2 * irq) (T_IRQ0 + irq) w).

(** * [lapic.c] *)

Inductive lapic_reg := ID | VER | TPR | EOI | SVR | ESR | ICRLO | ICRHI | TIMER | PCINT | LINT0 | LINT1 | ERROR | TICR | TCCR | TDCR.

(** The registers as indices of [uint]s. *)
Definition lapic_index (r : lapic_reg) : Z :=
  match r with
  | ID => 0x0020 / 4 | VER => 0x0030 / 4 | TPR => 0x0080 / 4 | EOI => 0x00B0 / 4 | SVR => 0x00F0 / 4 | ESR => 0x0280 / 4
  | ICRLO => 0x0300 / 4 | ICRHI => 0x0310 / 4 | TIMER => 0x0320 / 4 | PCINT => 0x0340 / 4 | LINT0 => 0x0350 / 4
  | LINT1 => 0x0360 / 4 | ERROR => 0x0370 / 4 | TICR => 0x0380 / 4 | TCCR => 0x0390 / 4 | TDCR => 0x03E0 / 4
  end.

Definition ENABLE : Z := 0x00000100.
Definition INIT : Z := 0x00000500.
Definition STARTUP : Z := 0x00000600.
Definition DELIVS : Z := 0x00001000.
Definition ASSERT : Z := 0x00004000.
Definition LEVEL : Z := 0x00008000.
Definition BCAST : Z := 0x00080000.
Definition X1 : Z := 0x0000000B.
Definition PERIODIC : Z := 0x00020000.
Definition MASKED : Z := 0x00010000.

(** [lapic] is the address [mpinit] found, 0 if none. *)
Context (lapic : Z).

Definition lapicr (r : lapic_reg) (w : W) : Z * W := readw (lapic + 4 * lapic_index r) w.
Definition lapicw (r : lapic_reg) (value : Z) (w : W) : W :=
  snd (lapicr ID (writew (lapic + 4 * lapic_index r) value w)).

(** [while(lapic[ICRLO] & DELIVS)]. *)
Fixpoint wait_delivered (fuel : nat) (w : W) : option W :=
  match fuel with
  | O => None
  | S fuel => let '(v, w) := lapicr ICRLO w in if Z.land v DELIVS =? 0 then Some w else wait_delivered fuel w
  end.

Definition lapicinit (fuel : nat) (w : W) : option W :=
  if lapic =? 0 then Some w else
  let w := lapicw SVR (Z.lor ENABLE (T_IRQ0 + IRQ_SPURIOUS)) w in
  let w := lapicw TDCR X1 w in
  let w := lapicw TIMER (Z.lor PERIODIC (T_IRQ0 + IRQ_TIMER)) w in
  let w := lapicw TICR 10000000 w in
  let w := lapicw LINT0 MASKED w in
  let w := lapicw LINT1 MASKED w in
  let '(ver, w) := lapicr VER w in
  let w := if 4 <=? Z.land (Z.shiftr ver 16) 0xFF then lapicw PCINT MASKED w else w in
  let w := lapicw ERROR (T_IRQ0 + IRQ_ERROR) w in
  let w := lapicw ESR 0 w in
  let w := lapicw ESR 0 w in
  let w := lapicw EOI 0 w in
  let w := lapicw ICRHI 0 w in
  let w := lapicw ICRLO (Z.lor (Z.lor BCAST INIT) LEVEL) w in
  match wait_delivered fuel w with
  | None => None
  | Some w => Some (lapicw TPR 0 w)
  end.

Definition lapicid (w : W) : Z * W :=
  if lapic =? 0 then (0, w) else let '(v, w) := lapicr ID w in (Z.shiftr v 24, w).

Definition lapiceoi (w : W) : W := if lapic =? 0 then w else lapicw EOI 0 w.

(** The warm reset vector is a pair of 16-bit words of memory. *)
Context (poke16 : Z -> Z -> W -> W).

Definition lapicstartap (apicid addr : Z) (w : W) : W :=
  let w := outb 0x70 0xF w in
  let w := outb (0x70 + 1) 0x0A w in
  let wrv := P2V (Z.lor (Z.shiftl 0x40 4) 0x67) in
  let w := poke16 wrv 0 w in
  let w := poke16 (wrv + 2) (u16 (Z.shiftr addr 4)) w in
  let w := lapicw ICRHI (Z.shiftl apicid 24) w in
  let w := lapicw ICRLO (Z.lor (Z.lor INIT LEVEL) ASSERT) w in
  let w := lapicw ICRLO (Z.lor INIT LEVEL) w in
  let w := lapicw ICRHI (Z.shiftl apicid 24) w in
  let w := lapicw ICRLO (Z.lor STARTUP (Z.shiftr addr 12)) w in
  let w := lapicw ICRHI (Z.shiftl apicid 24) w in
  lapicw ICRLO (Z.lor STARTUP (Z.shiftr addr 12)) w.
End apic.

(** * What the I/O APIC is told

    Its data sheet: the register written at offset 0 selects one of the
    registers reached at offset 16. *)
Class IoApic (W : Type) `{Mmio W} := {
  io_sel : W -> Z;
  io_regs : W -> gmap Z Z;
  io_select : forall x w, io_sel (mmio_out IOAPIC x w) = x /\ io_regs (mmio_out IOAPIC x w) = io_regs w;
  io_write : forall x w, io_sel (mmio_out (IOAPIC + 16) x w) = io_sel w /\ io_regs (mmio_out (IOAPIC + 16) x w) = <[io_sel w := x]> (io_regs w);
  io_read : forall w, (mmio_in (IOAPIC + 16) w).1 = default 0 (io_regs w !! io_sel w) /\
    io_sel (mmio_in (IOAPIC + 16) w).2 = io_sel w /\ io_regs (mmio_in (IOAPIC + 16) w).2 = io_regs w
}.

Section ioapic.
Context {W : Type} `{IoApic W}.

Lemma ioapicwrite_regs r x w : 0 <= r < 2 ^ 32 -> io_regs (ioapicwrite r x w) = <[r := u32 x]> (io_regs w).
Proof.
  intros Hr. unfold ioapicwrite, writew. change (u32 (IOAPIC + 16)) with (IOAPIC + 16). change (u32 IOAPIC) with IOAPIC.
  destruct (io_write (u32 x) (mmio_out IOAPIC (u32 r) w)) as [_ ->]. destruct (io_select (u32 r) w) as [-> ->]. by rewrite u32_id.
Qed.

Lemma ioapicread_ok r w : 0 <= r < 2 ^ 32 -> exists w', ioapicread r w = (u32 (default 0 (io_regs w !! r)), w') /\ io_regs w' = io_regs w.
Proof.
  intros Hr. unfold ioapicread, readw, writew. change (u32 (IOAPIC + 16)) with (IOAPIC + 16). change (u32 IOAPIC) with IOAPIC.
  destruct (io_read (mmio_out IOAPIC (u32 r) w)) as (E1 & E2 & E3). destruct (io_select (u32 r) w) as [S1 S2]. rewrite u32_id in * by done.
  rewrite S1, S2 in E1. destruct (mmio_in (IOAPIC + 16) (mmio_out IOAPIC r w)) as [v w']. cbn in E1, E3. exists w'. rewrite E1. split; [done|]. by rewrite E3.
Qed.

(** Entry [i] of the redirection table. *)
Definition redirection (w : W) (i : Z) : option Z * option Z := (io_regs w !! (REG_TABLE + 2 * i), io_regs w !! (REG_TABLE + 2 * i + 1)).

Lemma mask_from_ok n : forall i w, 0 <= i -> i + Z.of_nat n <= 256 -> forall j, 0 <= j < 256 ->
  redirection (mask_from i n w) j = if decide (i <= j < i + Z.of_nat n) then (Some (Z.lor INT_DISABLED (T_IRQ0 + j)), Some 0) else redirection w j.
Proof.
  induction n as [|n IH]; intros i w Hi Hn j Hj; cbn [mask_from]; [by rewrite decide_False by lia|]. rewrite IH by lia.
  unfold redirection, REG_TABLE. rewrite !ioapicwrite_regs by lia. assert (Hu : u32 (Z.lor INT_DISABLED (T_IRQ0 + i)) = Z.lor INT_DISABLED (T_IRQ0 + i)).
  { apply u32_id. assert (0 <= Z.lor INT_DISABLED (T_IRQ0 + i) < 2 ^ 17) by (apply lor_bound; unfold INT_DISABLED, T_IRQ0; lia). lia. }
  rewrite Hu. destruct (decide (j = i)) as [->|Hne].
  - rewrite decide_False by lia. rewrite decide_True by lia. rewrite lookup_insert_ne, !lookup_insert_eq by lia. done.
  - rewrite !lookup_insert_ne by lia. destruct (decide (i + 1 <= j < i + 1 + Z.of_nat n)); [by rewrite decide_True by lia|]. by rewrite decide_False by lia.
Qed.

(** After [ioapicinit] and [ioapicenable], exactly the one interrupt is
    unmasked, and it is routed to the processor given. *)
Theorem ioapic_routes (w : W) (ioapicid irq cpu maxintr : Z) :
  default 0 (io_regs w !! REG_VER) = 2 ^ 16 * maxintr -> 0 <= maxintr < 240 -> 0 <= irq <= maxintr -> 0 <= cpu < 256 ->
  forall i, 0 <= i <= maxintr ->
  redirection (ioapicenable irq cpu (ioapicinit ioapicid w).2) i =
    if i =? irq then (Some (T_IRQ0 + irq), Some (2 ^ 24 * cpu)) else (Some (Z.lor INT_DISABLED (T_IRQ0 + i)), Some 0).
Proof.
  intros Hv Hm Hirq Hcpu i Hi. unfold ioapicinit. destruct (ioapicread_ok REG_VER w ltac:(done)) as (w1 & E1 & R1). rewrite E1, Hv.
  rewrite u32_id by lia. rewrite Z.shiftr_div_pow2, (Z.mul_comm (2 ^ 16)), Z.div_mul by lia. change 0xFF with (Z.ones 8). rewrite Z.land_ones, Z.mod_small by lia.
  destruct (ioapicread_ok REG_ID w1 ltac:(done)) as (w2 & E2 & R2). rewrite E2. cbn [snd].
  pose proof (mask_from_ok (Z.to_nat (maxintr + 1)) 0 w2 ltac:(lia) ltac:(lia) i ltac:(lia)) as Hmask. rewrite decide_True in Hmask by lia.
  set (w3 := mask_from 0 (Z.to_nat (maxintr + 1)) w2) in *. unfold redirection, ioapicenable, REG_TABLE in *. rewrite !ioapicwrite_regs by lia.
  rewrite Z.shiftl_mul_pow2 by lia. rewrite (u32_id (T_IRQ0 + irq)) by (unfold T_IRQ0; lia). rewrite (u32_id (cpu * 2 ^ 24)) by lia.
  destruct (Z.eqb_spec i irq) as [->|Hne].
  - rewrite lookup_insert_ne, !lookup_insert_eq by lia. do 2 f_equal. lia.
  - rewrite !lookup_insert_ne by lia. exact Hmask.
Qed.
End ioapic.

#[local] Instance demo_mmio : Mmio (Z * gmap Z Z) := {|
  mmio_in _ w := (default 0 (w.2 !! w.1), w);
  mmio_out a x w := if a =? IOAPIC then (x, w.2) else (w.1, <[w.1 := x]> w.2)
|}.

#[local, program] Instance demo_ioapic : IoApic (Z * gmap Z Z) := {| io_sel := fst; io_regs := snd |}.
Solve All Obligations with done.

Lemma ioapic_routes_witness :
  redirection (ioapicenable IRQ_IDE 1 (ioapicinit 0 (0, {[REG_VER := 2 ^ 16 * 23]})).2) 14 = (Some 46, Some (2 ^ 24)) /\
  redirection (ioapicenable IRQ_IDE 1 (ioapicinit 0 (0, {[REG_VER := 2 ^ 16 * 23]})).2) 1 = (Some 0x10021, Some 0).
Proof.
  pose proof (ioapic_routes (0, {[REG_VER := 2 ^ 16 * 23]}) 0 IRQ_IDE 1 23) as H. unfold IRQ_IDE in *.
  specialize (H eq_refl ltac:(lia) ltac:(lia) ltac:(lia)). split; [exact (H 14 ltac:(lia))|exact (H 1 ltac:(lia))].
Defined.
