(* ===== verification/Mp.v ===== *)
(** Finding the processors, [mp.c] and [mp.h]: the search for the tables of the
    MultiProcessor specification in low memory, and reading them. *)

From S2P Require Import Prelude Params Mem Kbd.
Open Scope Z_scope.
Open Scope xv6_scope.

(** A pointer into the direct map is its physical address. *)

(** * [struct mp] and [struct mpconf] *)

Definition rd16 (m : mem) (a : Z) : Z := rd m a + 2 ^ 8 * rd m (a + 1).

Definition MPSIZE : Z := 16.
Definition mp_physaddr (m : mem) (mp : Z) : Z := load32 m (mp + 4).
Definition mp_imcrp (m : mem) (mp : Z) : Z := rd m (mp + 12).

Definition CONFSIZE : Z := 44.
Definition conf_length (m : mem) (conf : Z) : Z := rd16 m (conf + 4).
Definition conf_version (m : mem) (conf : Z) : Z := rd m (conf + 6).
Definition conf_lapicaddr (m : mem) (conf : Z) : Z := load32 m (conf + 36).

Definition MPPROC : Z := 0x00.
Definition MPBUS : Z := 0x01.
Definition MPIOAPIC : Z := 0x02.
Definition MPIOINTR : Z := 0x03.
Definition MPLINTR : Z := 0x04.
Definition PROCSIZE : Z := 20.
Definition IOAPICSIZE : Z := 8.

(** Four characters. *)
Definition sig_is (m : mem) (p : Z) (s : list Z) : bool := bool_decide ([rd m p; rd m (p + 1); rd m (p + 2); rd m (p + 3)] = s).
Definition sig_MP : list Z := [95; 77; 80; 95].
Definition sig_PCMP : list Z := [80; 67; 77; 80].

(** * Searching *)

(** The loop of [sum], over [n] bytes. *)
Fixpoint sum_bytes (m : mem) (addr : Z) (n : nat) : Z :=
  match n with
  | O => 0
  | S n => s32 (sum_bytes m addr n + rd m (addr + Z.of_nat n))
  end.

Definition sum (m : mem) (addr len : Z) : Z := u8 (sum_bytes m addr (Z.to_nat len)).

Definition is_mp (m : mem) (p : Z) : bool := sig_is m p sig_MP && (sum m p MPSIZE =? 0).

Fixpoint search_loop (m : mem) (p e : Z) (fuel : nat) : option Z :=
  match fuel with
  | O => None
  | S fuel => if p <? e then if is_mp m p then Some p else search_loop m (p + MPSIZE) e fuel else None
  end.

Definition mpsearch1 (m : mem) (a len : Z) : option Z := search_loop m a (a + len) (S (Z.to_nat (len / MPSIZE))).

Definition mpsearch (m : mem) : option Z :=
  let bda := 0x400 in
  let p := u32 (Z.shiftl (Z.lor (Z.shiftl (rd m (bda + 0x0F)) 8) (rd m (bda + 0x0E))) 4) in
  let mp := if negb (p =? 0) then mpsearch1 m p 1024
            else let p := u32 (Z.lor (Z.shiftl (rd m (bda + 0x14)) 8) (rd m (bda + 0x13)) * 1024) in
                 mpsearch1 m (u32 (p - 1024)) 1024 in
  match mp with
  | Some mp => Some mp
  | None => mpsearch1 m 0xF0000 0x10000
  end.

(** The addresses of [mp] and [conf]. *)
Definition mpconfig (m : mem) : option (Z * Z) :=
  match mpsearch m with
  | None => None
  | Some mp =>
      if mp_physaddr m mp =? 0 then None else
      let conf := mp_physaddr m mp in
      if negb (sig_is m conf sig_PCMP) then None else
      if negb (conf_version m conf =? 1) && negb (conf_version m conf =? 4) then None else
      if negb (sum m conf (conf_length m conf) =? 0) then None else
      Some (mp, conf)
  end.

(** * [mpinit] *)

(** Memory, [apicid] of [cpus], [ioapicid], [lapic], and the hardware; [ncpu]
    is the length of the list. *)
Record mpst (W : Type) := Mpst { mp_mem : mem; mp_cpus : list Z; mp_ioapicid : Z; mp_lapic : Z; mp_hw : W }.
Arguments Mpst {W}.
Arguments mp_mem {W}.
Arguments mp_cpus {W}.
Arguments mp_ioapicid {W}.
Arguments mp_lapic {W}.
Arguments mp_hw {W}.

Section mpinit.
Context {W : Type} `{Ports W}.

Definition add_cpu (apicid : Z) (s : mpst W) : mpst W :=
  if (length (mp_cpus s) <? NCPU)%nat then Mpst (mp_mem s) (mp_cpus s ++ [apicid]) (mp_ioapicid s) (mp_lapic s) (mp_hw s) else s.
Definition set_ioapicid (x : Z) (s : mpst W) : mpst W := Mpst (mp_mem s) (mp_cpus s) x (mp_lapic s) (mp_hw s).
Definition set_lapic (x : Z) (s : mpst W) : mpst W := Mpst (mp_mem s) (mp_cpus s) (mp_ioapicid s) x (mp_hw s).

(** The loop over the entries; its value is [ismp].  The [break] of the last
    case leaves the [switch], not the loop. *)
Fixpoint mp_loop (p e : Z) (ismp : bool) (fuel : nat) : M (mpst W) bool :=
  match fuel with
  | O => nofuel
  | S fuel =>
      if p <? e then
        m <- gets mp_mem ;;
        let t := rd m p in
        if t =? MPPROC then modify (add_cpu (rd m (p + 1))) ;;; mp_loop (p + PROCSIZE) e ismp fuel
        else if t =? MPIOAPIC then modify (set_ioapicid (rd m (p + 1))) ;;; mp_loop (p + IOAPICSIZE) e ismp fuel
        else if (t =? MPBUS) || (t =? MPIOINTR) || (t =? MPLINTR) then mp_loop (p + 8) e ismp fuel
        else mp_loop p e false fuel
      else ret ismp
  end.

Definition mpinit (fuel : nat) : M (mpst W) unit :=
  m <- gets mp_mem ;;
  match mpconfig m with
  | None => panic "Expect to run on an SMP"
  | Some (mp, conf) =>
      modify (set_lapic (conf_lapicaddr m conf)) ;;;
      ismp <- mp_loop (conf + CONFSIZE) (conf + conf_length m conf) true fuel ;;
      if negb (ismp : bool) then panic "Didn't find a suitable machine" else
      if negb (mp_imcrp m mp =? 0) then
        modify (fun s => Mpst (mp_mem s) (mp_cpus s) (mp_ioapicid s) (mp_lapic s)
                          (let w := outb 0x22 0x70 (mp_hw s) in let '(v, w) := inb 0x23 w in outb 0x23 (Z.lor v 1) w))
      else ret tt
  end.

(** Enough for a table without unknown entries: each is at least eight bytes
    long, and the length has sixteen bits. *)
Definition MPFUEL : nat := Z.to_nat 8193.
End mpinit.

(** * The tables *)

Inductive mpentry := EProc (apicid : Z) | EIoapic (id : Z) | EOther (t : Z).

Definition entry_size (e : mpentry) : Z := match e with EProc _ => PROCSIZE | _ => 8 end.

Definition entry_in (m : mem) (p : Z) (e : mpentry) : Prop :=
  match e with
  | EProc a => rd m p = MPPROC /\ rd m (p + 1) = a
  | EIoapic i => rd m p = MPIOAPIC /\ rd m (p + 1) = i
  | EOther t => rd m p = t /\ t ∈ [MPBUS; MPIOINTR; MPLINTR]
  end.

(** The entries from an address on, and where they end. *)
Fixpoint table_in (m : mem) (p : Z) (es : list mpentry) : Prop :=
  match es with
  | [] => True
  | e :: es => entry_in m p e /\ table_in m (p + entry_size e) es
  end.

Definition table_size (es : list mpentry) : Z := foldr (fun e z => entry_size e + z) 0 es.

Definition procs (es : list mpentry) : list Z := omap (fun e => match e with EProc a => Some a | _ => None end) es.
Definition ioapics (es : list mpentry) : list Z := omap (fun e => match e with EIoapic i => Some i | _ => None end) es.

Lemma table_size_ge es : 8 * Z.of_nat (length es) <= table_size es.
Proof.
  induction es as [|e es IH]; [done|]. cbn [table_size foldr length]. fold (table_size es).
  assert (8 <= entry_size e) by (destruct e; done). lia.
Qed.

(** The sum of the bytes, as the specification defines the checksum. *)
Definition byte_sum (m : mem) (addr : Z) (n : nat) : Z := foldr (fun i z => rd m (addr + Z.of_nat i) + z) 0 (seq 0 n).

Lemma byte_sum_S m addr n : byte_sum m addr (S n) = byte_sum m addr n + rd m (addr + Z.of_nat n).
Proof.
  assert (Hf : forall l z, foldr (fun i z => rd m (addr + Z.of_nat i) + z) z l = foldr (fun i z => rd m (addr + Z.of_nat i) + z) 0 l + z).
  { induction l as [|i l IH]; intros z; cbn; [done|]. rewrite IH. lia. }
  unfold byte_sum. rewrite seq_S, foldr_app, Hf. cbn. lia.
Qed.

(** The [int] accumulator may wrap; its low byte does not notice. *)
Lemma sum_spec m addr len : sum m addr len = byte_sum m addr (Z.to_nat len) mod 256.
Proof.
  unfold sum, u8. change (2 ^ 8) with 256. generalize (Z.to_nat len). induction n as [|n IH]; [done|]. cbn [sum_bytes]. rewrite byte_sum_S.
  assert (Hs : forall x, s32 x mod 256 = x mod 256) by (intros x; unfold s32; zdiv). rewrite Hs, Zplus_mod, IH, <- Zplus_mod. done.
Qed.

(** A floating pointer structure at an address. *)
Definition mp_at (m : mem) (p : Z) : Prop := sig_is m p sig_MP = true /\ byte_sum m p 16 mod 256 = 0.

Lemma is_mp_at m p : is_mp m p = true <-> mp_at m p.
Proof. unfold is_mp, mp_at. rewrite sum_spec, andb_true_iff, Z.eqb_eq. done. Qed.

Lemma search_loop_ok m n : forall p e, e = p + MPSIZE * Z.of_nat n ->
  match search_loop m p e (S n) with
  | Some q => exists k, 0 <= k < Z.of_nat n /\ q = p + MPSIZE * k /\ mp_at m q /\ forall j, 0 <= j < k -> ~ mp_at m (p + MPSIZE * j)
  | None => forall j, 0 <= j < Z.of_nat n -> ~ mp_at m (p + MPSIZE * j)
  end.
Proof.
  pose proof (eq_refl : MPSIZE = 16) as HM. induction n as [|n IH]; intros p e ->; cbn [search_loop].
  { rewrite (proj2 (Z.ltb_ge _ _)) by lia. lia. }
  rewrite (proj2 (Z.ltb_lt _ _)) by lia. destruct (is_mp m p) eqn:E.
  { exists 0. split; [lia|]. split; [lia|]. split; [by apply is_mp_at|lia]. }
  assert (H0 : ~ mp_at m p) by (intros Hp%is_mp_at; congruence).
  assert (Hj : forall j, j <> 0 -> p + MPSIZE * j = p + MPSIZE + MPSIZE * (j - 1)) by lia.
  specialize (IH (p + MPSIZE) (p + MPSIZE * Z.of_nat (S n)) ltac:(lia)). cbn [search_loop] in IH.
  destruct (if p + MPSIZE <? p + MPSIZE * Z.of_nat (S n) then _ else _) as [q|].
  - destruct IH as (k & Hk & -> & Hm & Hn). exists (k + 1). split; [lia|]. split; [lia|]. split; [done|]. intros j Hj'.
    destruct (decide (j = 0)) as [->|Hj0]; [by rewrite Z.mul_0_r, Z.add_0_r|]. rewrite Hj by done. apply Hn. lia.
  - intros j Hj'. destruct (decide (j = 0)) as [->|Hj0]; [by rewrite Z.mul_0_r, Z.add_0_r|]. rewrite Hj by done. apply IH. lia.
Qed.

(** [mpsearch1] finds the first aligned structure of the range. *)
Lemma mpsearch1_first m a n : match mpsearch1 m a (MPSIZE * Z.of_nat n) with
  | Some q => exists k, 0 <= k < Z.of_nat n /\ q = a + MPSIZE * k /\ mp_at m q /\ forall j, 0 <= j < k -> ~ mp_at m (a + MPSIZE * j)
  | None => forall j, 0 <= j < Z.of_nat n -> ~ mp_at m (a + MPSIZE * j)
  end.
Proof. unfold mpsearch1. rewrite Z.mul_comm, Z.div_mul, Nat2Z.id by done. apply search_loop_ok. lia. Qed.

Section mp_spec.
Context {W : Type} `{Ports W}.

(** What one entry does. *)
Definition see (s : mpst W) (e : mpentry) : mpst W :=
  match e with
  | EProc a => add_cpu a s
  | EIoapic i => set_ioapicid i s
  | EOther _ => s
  end.

Lemma see_mem s e : mp_mem (see s e) = mp_mem s.
Proof. destruct e; try done. cbn. unfold add_cpu. by destruct (_ <? _)%nat. Qed.

Lemma mp_loop_entry p e x ismp s fuel : p < e -> entry_in (mp_mem s) p x ->
  mp_loop p e ismp (S fuel) s = mp_loop (p + entry_size x) e ismp fuel (see s x).
Proof.
  intros Hp Hx. cbn [mp_loop]. rewrite (proj2 (Z.ltb_lt _ _)) by done. unfold gets, bind. cbn [seqr].
  destruct x as [a|i|t]; cbn in Hx; destruct Hx as [-> Hx]; [by rewrite Hx|by rewrite Hx|].
  rewrite !elem_of_cons in Hx. destruct Hx as [-> | [-> | [-> | Hx]]]; [done..|]. by apply elem_of_nil in Hx.
Qed.

Lemma mp_loop_table es : forall p e ismp s fuel,
  table_in (mp_mem s) p es -> p + table_size es <= e ->
  mp_loop p e ismp (length es + fuel) s = mp_loop (p + table_size es) e ismp fuel (foldl see s es).
Proof.
  induction es as [|x es IH]; intros p e ismp s fuel Ht He; [by rewrite Z.add_0_r|]. destruct Ht as [Hx Ht]. cbn [table_size foldr] in *. fold (table_size es) in *.
  pose proof (table_size_ge es). assert (8 <= entry_size x) by (destruct x; done).
  cbn [length Nat.add foldl]. rewrite (mp_loop_entry p e x) by (done || lia). rewrite IH; [f_equal; lia|by rewrite see_mem|lia].
Qed.

Lemma mp_loop_short es : forall p e ismp (s : mpst W) fuel,
  table_in (mp_mem s) p es -> p + table_size es <= e -> (fuel <= length es)%nat -> mp_loop p e ismp fuel s = NoFuel.
Proof.
  induction es as [|x es IH]; intros p e ismp s fuel Ht He Hf; (destruct fuel as [|fuel]; [done|]); cbn [length] in Hf; [lia|].
  destruct Ht as [Hx Ht]. cbn [table_size foldr] in He. fold (table_size es) in He. pose proof (table_size_ge es). assert (8 <= entry_size x) by (destruct x; done).
  rewrite (mp_loop_entry p e x) by (done || lia). apply IH; [by rewrite see_mem|lia|lia].
Qed.

Lemma see_cpus es : forall s, mp_cpus (foldl see s es) = take (Nat.max NCPU (length (mp_cpus s))) (mp_cpus s ++ procs es).
Proof.
  induction es as [|x es IH]; intros s; cbn [foldl].
  { unfold procs. cbn. rewrite app_nil_r, take_ge by lia. done. }
  rewrite IH. destruct x as [a|i|t]; try done. change (procs (EProc a :: es)) with (a :: procs es). cbn [see]. unfold add_cpu.
  destruct (Nat.ltb_spec (length (mp_cpus s)) NCPU) as [Hl|Hl]; cbn [mp_cpus].
  - rewrite length_app, <- app_assoc. cbn [length app]. rewrite !Nat.max_l by lia. done.
  - rewrite !Nat.max_r by lia. by rewrite !take_app_length.
Qed.

Lemma see_rest es : forall s, mp_ioapicid (foldl see s es) = default (mp_ioapicid s) (last (ioapics es)) /\
  mp_lapic (foldl see s es) = mp_lapic s /\ mp_hw (foldl see s es) = mp_hw s /\ mp_mem (foldl see s es) = mp_mem s.
Proof.
  induction es as [|x es IH]; intros s; [done|]. cbn [foldl]. destruct (IH (see s x)) as (-> & -> & -> & ->).
  destruct x as [a|i|t]; cbn [see].
  - unfold add_cpu. by destruct (_ <? _)%nat.
  - change (ioapics (EIoapic i :: es)) with (i :: ioapics es). rewrite last_cons. by destruct (last (ioapics es)).
  - done.
Qed.

(** C28: [mpinit] on a well-formed table that [mpconfig] accepts records the processors in the order
    of the table, up to [NCPU] of them, the last I/O APIC, and the address of
    the local APIC. *)
Theorem mpinit_enumerates (s : mpst W) (mp conf : Z) (es : list mpentry) :
  let m := mp_mem s in
  mpconfig m = Some (mp, conf) -> mp_cpus s = [] -> table_in m (conf + CONFSIZE) es -> conf_length m conf = CONFSIZE + table_size es ->
  exists s', mpinit MPFUEL s = Ok tt s' /\ mp_cpus s' = take NCPU (procs es) /\
    mp_ioapicid s' = default (mp_ioapicid s) (last (ioapics es)) /\ mp_lapic s' = conf_lapicaddr m conf.
Proof.
  intros m Hc Hcpu Ht Hl. unfold mpinit. unfold gets at 1, bind at 1. cbn [seqr]. fold m. rewrite Hc.
  unfold modify at 1, bind at 1. cbn [seqr]. set (s1 := set_lapic (conf_lapicaddr m conf) s).
  pose proof (table_size_ge es) as Hge. assert (Hlen : 0 <= conf_length m conf < 2 ^ 16).
  { unfold conf_length, rd16. pose proof (rd_range m (conf + 4)). pose proof (rd_range m (conf + 4 + 1)). lia. }
  unfold CONFSIZE in *. assert (Hf : MPFUEL = (length es + S (MPFUEL - length es - 1))%nat) by (unfold MPFUEL; lia).
  assert (E : mp_loop (conf + 44) (conf + conf_length m conf) true MPFUEL s1 = Ok true (foldl see s1 es)).
  { rewrite Hf, mp_loop_table by (done || lia). cbn [mp_loop]. by rewrite (proj2 (Z.ltb_ge _ _)) by lia. }
  step E. cbn [negb]. destruct (see_rest es s1) as (Hi & Hla & _). pose proof (see_cpus es s1) as Hcs. change (mp_cpus s1) with (mp_cpus s) in Hcs. rewrite Hcpu in Hcs.
  destruct (negb (mp_imcrp m mp =? 0)); eexists; (split; [reflexivity|]); cbn; rewrite ?Hcs, ?Hi, ?Hla; done.
Qed.

(** An entry of an unknown kind does not lead to the panic "Didn't find a
    suitable machine": [mpinit] looks at it forever. *)
Theorem mpinit_unknown_entry (s : mpst W) (mp conf : Z) (es : list mpentry) (fuel : nat) :
  let m := mp_mem s in
  mpconfig m = Some (mp, conf) -> table_in m (conf + CONFSIZE) es ->
  conf + CONFSIZE + table_size es < conf + conf_length m conf -> MPLINTR < rd m (conf + CONFSIZE + table_size es) ->
  mpinit fuel s = NoFuel.
Proof.
  intros m Hc Ht Hl Hbad. unfold mpinit. unfold gets at 1, bind at 1. cbn [seqr]. fold m. rewrite Hc.
  unfold modify at 1, bind at 1. cbn [seqr]. set (s1 := set_lapic (conf_lapicaddr m conf) s).
  set (p := conf + CONFSIZE + table_size es) in *. set (e := conf + conf_length m conf) in *.
  assert (Hloop : forall n s ismp, mp_mem s = m -> mp_loop p e ismp n s = NoFuel (S := mpst W)).
  { induction n as [|n IH]; intros s0 ismp Hm; [done|]. cbn [mp_loop]. rewrite (proj2 (Z.ltb_lt _ _)) by done. unfold gets, bind. cbn [seqr]. rewrite Hm.
    unfold MPLINTR, MPPROC, MPIOAPIC, MPBUS, MPIOINTR in *. rewrite !(proj2 (Z.eqb_neq _ _)) by lia. cbn [orb]. by apply IH. }
  assert (E : mp_loop (conf + CONFSIZE) e true fuel s1 = NoFuel).
  { destruct (decide (length es <= fuel)%nat) as [Hle|Hgt].
    - replace fuel with (length es + (fuel - length es))%nat by lia. rewrite mp_loop_table by (done || lia). apply Hloop.
      by destruct (see_rest es s1) as (_ & _ & _ & ->).
    - apply (mp_loop_short es); [done|unfold p, e in *; lia|lia]. }
  unfold bind. by rewrite E.
Qed.
End mp_spec.

(** * A machine with two processors *)

Definition poke (a : Z) (xs : list Z) (m : mem) : mem := foldr (fun '(i, x) m => <[a + Z.of_nat i := x]> m) m (imap pair xs).

Definition demo_mp : list Z := [95; 77; 80; 95; 16; 0; 15; 0; 1; 4; 129; 0; 0; 0; 0; 0].
Definition demo_conf : list Z := [80; 67; 77; 80; 92; 0; 4; 141; 0; 0; 0; 0; 0; 0; 0; 0; 0; 0; 0; 0; 0; 0; 0; 0; 0; 0; 0; 0; 0; 0; 0; 0; 0; 0; 0; 0; 0; 0; 224; 254; 0; 0; 0; 0].
Definition demo_entries : list Z := [0; 0; 0; 0; 0; 0; 0; 0; 0; 0; 0; 0; 0; 0; 0; 0; 0; 0; 0; 0; 0; 1; 0; 0; 0; 0; 0; 0; 0; 0; 0; 0; 0; 0; 0; 0; 0; 0; 0; 0; 2; 2; 0; 0; 0; 0; 0; 0].
Definition demo_mem : mem := poke 0xF0000 (demo_mp ++ demo_conf ++ demo_entries) ∅.

(** The last entry is of kind 9. *)
Definition demo_bad_conf : list Z := [80; 67; 77; 80; 92; 0; 4; 134; 0; 0; 0; 0; 0; 0; 0; 0; 0; 0; 0; 0; 0; 0; 0; 0; 0; 0; 0; 0; 0; 0; 0; 0; 0; 0; 0; 0; 0; 0; 224; 254; 0; 0; 0; 0].
Definition demo_bad_entries : list Z := [0; 0; 0; 0; 0; 0; 0; 0; 0; 0; 0; 0; 0; 0; 0; 0; 0; 0; 0; 0; 0; 1; 0; 0; 0; 0; 0; 0; 0; 0; 0; 0; 0; 0; 0; 0; 0; 0; 0; 0; 9; 2; 0; 0; 0; 0; 0; 0].
Definition demo_bad_mem : mem := poke 0xF0000 (demo_mp ++ demo_bad_conf ++ demo_bad_entries) ∅.

#[local] Instance demo_ports : Ports unit := {| port_in _ w := (0, w); port_out _ _ w := w |}.

Lemma mpinit_enumerates_witness :
  exists s', mpinit MPFUEL (Mpst demo_mem [] 0 0 tt) = Ok tt s' /\ mp_cpus s' = [0; 1] /\ mp_ioapicid s' = 2 /\ mp_lapic s' = 0xFEE00000.
Proof.
  apply (mpinit_enumerates (Mpst demo_mem [] 0 0 tt) 0xF0000 0xF0010 [EProc 0; EProc 1; EIoapic 2]).
  - vm_compute. reflexivity.
  - reflexivity.
  - vm_compute. repeat split.
  - vm_compute. reflexivity.
Defined.

Lemma mpinit_unknown_entry_witness : mpinit 1000 (Mpst demo_bad_mem [] 0 0 tt) = NoFuel.
Proof.
  apply (mpinit_unknown_entry (Mpst demo_bad_mem [] 0 0 tt) 0xF0000 0xF0010 [EProc 0; EProc 1]).
  - vm_compute. reflexivity.
  - vm_compute. repeat split.
  - vm_compute. reflexivity.
  - vm_compute. reflexivity.
Defined.
