(* ===== verification/Seg.v ===== *)
(** Segments, gates and the task state: [mmu.h], [seginit] and the descriptor
    part of [switchuvm] in [vm.c], and [tvinit] and [idtinit] in [trap.c]; and
    what the processor makes of them. *)

From S2P Require Import Prelude Params.
Open Scope Z_scope.

Definition STA_X : Z := 0x8.
Definition STA_W : Z := 0x2.
Definition STA_R : Z := 0x2.
Definition STS_T32A : Z := 0x9.
Definition STS_IG32 : Z := 0xE.
Definition STS_TG32 : Z := 0xF.

(** * Segment descriptors *)

Record segdesc := Segdesc {
  lim_15_0 : Z; base_15_0 : Z; base_23_16 : Z; sg_type : Z; sg_s : Z; sg_dpl : Z; sg_p : Z;
  lim_19_16 : Z; sg_avl : Z; sg_rsv1 : Z; sg_db : Z; sg_g : Z; base_31_24 : Z
}.

(** Storing in a bit field of so many bits. *)
Definition field_of (bits x : Z) : Z := x mod 2 ^ bits.

Definition mk_seg (l0 b0 b1 type s dpl p l1 avl rsv db g b2 : Z) : segdesc :=
  Segdesc (field_of 16 l0) (field_of 16 b0) (field_of 8 b1) (field_of 4 type) (field_of 1 s) (field_of 2 dpl) (field_of 1 p)
    (field_of 4 l1) (field_of 1 avl) (field_of 1 rsv) (field_of 1 db) (field_of 1 g) (field_of 8 b2).

Definition SEG (type base lim dpl : Z) : segdesc :=
  mk_seg (Z.land (Z.shiftr lim 12) 0xffff) (Z.land (u32 base) 0xffff) (Z.land (Z.shiftr (u32 base) 16) 0xff) type 1 dpl 1
    (Z.shiftr (u32 lim) 28) 0 0 1 1 (Z.shiftr (u32 base) 24).

Definition SEG16 (type base lim dpl : Z) : segdesc :=
  mk_seg (Z.land lim 0xffff) (Z.land (u32 base) 0xffff) (Z.land (Z.shiftr (u32 base) 16) 0xff) type 1 dpl 1
    (Z.shiftr (u32 lim) 16) 0 0 1 0 (Z.shiftr (u32 base) 24).

Definition set_s (x : Z) (d : segdesc) : segdesc :=
  Segdesc (lim_15_0 d) (base_15_0 d) (base_23_16 d) (sg_type d) (field_of 1 x) (sg_dpl d) (sg_p d)
    (lim_19_16 d) (sg_avl d) (sg_rsv1 d) (sg_db d) (sg_g d) (base_31_24 d).

(** * Gates *)

Record gatedesc := Gatedesc {
  off_15_0 : Z; gd_cs : Z; gd_args : Z; gd_rsv1 : Z; gd_type : Z; gd_s : Z; gd_dpl : Z; gd_p : Z; off_31_16 : Z
}.

Definition SETGATE (istrap : bool) (sel off d : Z) : gatedesc :=
  Gatedesc (field_of 16 (Z.land (u32 off) 0xffff)) (field_of 16 sel) 0 0 (field_of 4 (if istrap then STS_TG32 else STS_IG32)) 0
    (field_of 2 d) 1 (field_of 16 (Z.shiftr (u32 off) 16)).

(** * The task state segment *)

Record taskstate := Taskstate {
  ts_link : Z; ts_esp0 : Z; ts_ss0 : Z; ts_esp1 : Z; ts_ss1 : Z; ts_esp2 : Z; ts_ss2 : Z; ts_cr3 : Z; ts_eip : Z; ts_eflags : Z;
  ts_eax : Z; ts_ecx : Z; ts_edx : Z; ts_ebx : Z; ts_esp : Z; ts_ebp : Z; ts_esi : Z; ts_edi : Z;
  ts_es : Z; ts_cs : Z; ts_ss : Z; ts_ds : Z; ts_fs : Z; ts_gs : Z; ts_ldt : Z; ts_t : Z; ts_iomb : Z
}.

(** [sizeof(struct taskstate)]: fifteen [uint]s and pointers and twenty-two
    [ushort]s, the padding among them. *)
Definition TSSIZE : Z := 104.

Definition set_stack (ss0 esp0 iomb : Z) (t : taskstate) : taskstate :=
  Taskstate (ts_link t) (u32 esp0) (u16 ss0) (ts_esp1 t) (ts_ss1 t) (ts_esp2 t) (ts_ss2 t) (ts_cr3 t) (ts_eip t) (ts_eflags t)
    (ts_eax t) (ts_ecx t) (ts_edx t) (ts_ebx t) (ts_esp t) (ts_ebp t) (ts_esi t) (ts_edi t)
    (ts_es t) (ts_cs t) (ts_ss t) (ts_ds t) (ts_fs t) (ts_gs t) (ts_ldt t) (ts_t t) (u16 iomb).

(** * One processor

    Its [gdt] and [ts] in [struct cpu] at the addresses given, and the operands
    of the last [lgdt], [lidt] and [ltr]. *)

Record cpuseg := Cpuseg { cs_gdt : list segdesc; cs_ts : taskstate; cs_gdtr : list Z; cs_idtr : list Z; cs_tr : Z }.

(** The pseudo-descriptor [pd] of [lgdt] and [lidt]. *)
Definition pseudo_desc (p size : Z) : list Z := [u16 (size - 1); u16 p; u16 (Z.shiftr (u32 p) 16)].

Definition lgdt (p size : Z) (c : cpuseg) : cpuseg := Cpuseg (cs_gdt c) (cs_ts c) (pseudo_desc p size) (cs_idtr c) (cs_tr c).
Definition lidt (p size : Z) (c : cpuseg) : cpuseg := Cpuseg (cs_gdt c) (cs_ts c) (cs_gdtr c) (pseudo_desc p size) (cs_tr c).
Definition ltr (sel : Z) (c : cpuseg) : cpuseg := Cpuseg (cs_gdt c) (cs_ts c) (cs_gdtr c) (cs_idtr c) (u16 sel).

Definition set_gdt (i : Z) (d : segdesc) (c : cpuseg) : cpuseg :=
  Cpuseg (<[Z.to_nat i := d]> (cs_gdt c)) (cs_ts c) (cs_gdtr c) (cs_idtr c) (cs_tr c).

(** [gdt] is the address of [c->gdt]; a descriptor has eight bytes. *)
Definition seginit (gdt : Z) (c : cpuseg) : cpuseg :=
  let c := set_gdt SEG_KCODE (SEG (Z.lor STA_X STA_R) 0 0xffffffff 0) c in
  let c := set_gdt SEG_KDATA (SEG STA_W 0 0xffffffff 0) c in
  let c := set_gdt SEG_UCODE (SEG (Z.lor STA_X STA_R) 0 0xffffffff DPL_USER) c in
  let c := set_gdt SEG_UDATA (SEG STA_W 0 0xffffffff DPL_USER) c in
  lgdt gdt (8 * Z.of_nat NSEGS) c.

(** The descriptor part of [switchuvm]; [ts] is the address of [mycpu()->ts]. *)
Definition switchuvm_tss (ts kstack : Z) (c : cpuseg) : cpuseg :=
  let c := set_gdt SEG_TSS (SEG16 STS_T32A ts (TSSIZE - 1) 0) c in
  let c := Cpuseg (alter (set_s 0) (Z.to_nat SEG_TSS) (cs_gdt c)) (cs_ts c) (cs_gdtr c) (cs_idtr c) (cs_tr c) in
  let c := Cpuseg (cs_gdt c) (set_stack (Z.shiftl SEG_KDATA 3) (kstack + KSTACKSIZE) 0xFFFF (cs_ts c)) (cs_gdtr c) (cs_idtr c) (cs_tr c) in
  ltr (Z.shiftl SEG_TSS 3) c.

(** [tvinit]: the table for the entry points [vectors], whose lock is
    initialised where the clock is. *)
Definition tvinit (vectors : Z -> Z) : list gatedesc :=
  <[Z.to_nat T_SYSCALL := SETGATE true (Z.shiftl SEG_KCODE 3) (vectors T_SYSCALL) DPL_USER]>
    ((fun i => SETGATE false (Z.shiftl SEG_KCODE 3) (vectors (Z.of_nat i)) 0) <$> seq 0 256).

Definition idtinit (idt : Z) (c : cpuseg) : cpuseg := lidt idt (8 * 256) c.

(** * What the processor reads

    The layout of the descriptors in memory, by the widths of their bit fields,
    and the fields as the processor takes them from there. *)

Definition seg_word (d : segdesc) : Z :=
  lim_15_0 d + 2 ^ 16 * base_15_0 d + 2 ^ 32 * base_23_16 d + 2 ^ 40 * sg_type d + 2 ^ 44 * sg_s d + 2 ^ 45 * sg_dpl d + 2 ^ 47 * sg_p d +
  2 ^ 48 * lim_19_16 d + 2 ^ 52 * sg_avl d + 2 ^ 53 * sg_rsv1 d + 2 ^ 54 * sg_db d + 2 ^ 55 * sg_g d + 2 ^ 56 * base_31_24 d.

Definition gate_word (g : gatedesc) : Z :=
  off_15_0 g + 2 ^ 16 * gd_cs g + 2 ^ 32 * gd_args g + 2 ^ 37 * gd_rsv1 g + 2 ^ 40 * gd_type g + 2 ^ 44 * gd_s g + 2 ^ 45 * gd_dpl g +
  2 ^ 47 * gd_p g + 2 ^ 48 * off_31_16 g.

Definition bits (w lo n : Z) : Z := w / 2 ^ lo mod 2 ^ n.

(** A segment to the processor: base, limit in bytes, type, whether it is an
    application segment, privilege level, whether it is present, and whether it
    is one of 32 bits. *)
Record segview := Segview { v_base : Z; v_limit : Z; v_type : Z; v_app : Z; v_dpl : Z; v_present : Z; v_db : Z }.

Definition seg_view (w : Z) : segview :=
  let raw := bits w 0 16 + 2 ^ 16 * bits w 48 4 in
  Segview (bits w 16 16 + 2 ^ 16 * bits w 32 8 + 2 ^ 24 * bits w 56 8)
          (if bits w 55 1 =? 1 then raw * 4096 + 4095 else raw) (bits w 40 4) (bits w 44 1) (bits w 45 2) (bits w 47 1) (bits w 54 1).

(** A gate: where it leads, whether interrupts stay enabled, and the privilege
    needed to name it in an [int] instruction. *)
Record gateview := Gateview { v_off : Z; v_cs : Z; v_trap : bool; v_gdpl : Z }.

(** The processor takes a gate only if it is present and a system descriptor of
    the type of an interrupt or a trap gate of 32 bits. *)
Definition gate_view (w : Z) : option gateview :=
  let type := bits w 40 4 in
  if (bits w 47 1 =? 1) && (bits w 44 1 =? 0) && ((type =? 14) || (type =? 15))
  then Some (Gateview (bits w 0 16 + 2 ^ 16 * bits w 48 16) (bits w 16 16) (type =? 15) (bits w 45 2))
  else None.

(** The privilege level at which code of the segment a gate names runs, entered
    from privilege [cpl]: it must be a present code segment, not less
    privileged. *)
Definition handler_cpl (gdt : list segdesc) (cpl sel : Z) : option Z :=
  match gdt !! Z.to_nat (sel / 8) with
  | Some d =>
      let v := seg_view (seg_word d) in
      if (v_present v =? 1) && (v_app v =? 1) && Z.testbit (v_type v) 3 && (v_dpl v <=? cpl) then Some (v_dpl v) else None
  | None => None
  end.

(** Delivery through vector [n] at privilege [cpl]: the gate taken and the
    privilege level entered, or a fault.  An [int] instruction needs the
    privilege the gate asks for; a hardware interrupt does not. *)
Definition deliver (gdt : list segdesc) (idt : list gatedesc) (soft : bool) (cpl n : Z) : option (gateview * Z) :=
  match idt !! Z.to_nat n with
  | Some g =>
      match gate_view (gate_word g) with
      | Some v =>
          if soft && (v_gdpl v <? cpl) then None
          else (fun level => (v, level)) <$> handler_cpl gdt cpl (v_cs v)
      | None => None
      end
  | None => None
  end.

Definition int_target (gdt : list segdesc) (idt : list gatedesc) (cpl n : Z) : option (gateview * Z) := deliver gdt idt true cpl n.
Definition irq_target (gdt : list segdesc) (idt : list gatedesc) (cpl n : Z) : option (gateview * Z) := deliver gdt idt false cpl n.

(** I/O instructions at a privilege above the I/O privilege level need a bit
    of the map that starts at [iomb], inside the segment. *)
Definition io_allowed (ts : taskstate) (limit port : Z) : bool := ts_iomb ts + port / 8 <=? limit.

(** * The encoding *)

Lemma bits_field w lo n a x r :
  w = a + 2 ^ lo * (x + 2 ^ n * r) -> 0 <= lo -> 0 <= n -> 0 <= a < 2 ^ lo -> 0 <= x < 2 ^ n -> bits w lo n = x.
Proof.
  intros -> Hlo Hn Ha Hx. unfold bits. rewrite (Z.mul_comm (2 ^ lo)), Z.div_add by lia. rewrite (Z.div_small a) by done.
  rewrite Z.add_0_l, (Z.mul_comm (2 ^ n)), Z.mod_add by lia. by apply Z.mod_small.
Qed.

Lemma field_id n x : 0 <= x < 2 ^ n -> field_of n x = x.
Proof. apply Z.mod_small. Qed.

Lemma field_range n x : 0 <= n -> 0 <= field_of n x < 2 ^ n.
Proof. intros. apply Z.mod_pos_bound. lia. Qed.

(** [SETGATE] is read back as it was meant. *)
Lemma gate_view_set istrap sel off d : 0 <= sel < 2 ^ 16 -> 0 <= off < 2 ^ 32 -> 0 <= d < 4 ->
  gate_view (gate_word (SETGATE istrap sel off d)) = Some (Gateview off sel istrap d).
Proof.
  intros Hs Ho Hd. unfold SETGATE, gate_word. cbn [off_15_0 gd_cs gd_args gd_rsv1 gd_type gd_s gd_dpl gd_p off_31_16].
  rewrite (u32_id off) by done. change 0xffff with (Z.ones 16). rewrite Z.land_ones, Z.shiftr_div_pow2 by lia.
  set (t := field_of 4 (if istrap then STS_TG32 else STS_IG32)). assert (Ht : t = if istrap then 15 else 14) by (by destruct istrap).
  rewrite (field_id 16 sel), (field_id 2 d) by lia. rewrite (field_id 16 (off mod 2 ^ 16)), (field_id 16 (off / 2 ^ 16)) by zdiv.
  assert (Hlo : 0 <= off mod 2 ^ 16 < 2 ^ 16) by zdiv. set (lo := off mod 2 ^ 16) in *. assert (Hhi : 0 <= off / 2 ^ 16 < 2 ^ 16) by zdiv.
  set (hi := off / 2 ^ 16) in *. assert (Htr : 0 <= t < 16) by (destruct istrap; lia). unfold gate_view. set (w := lo + _ + _ + _ + _ + _ + _ + _ + _).
  assert (E1 : bits w 0 16 = lo) by (apply (bits_field w 0 16 0 lo (sel + 2 ^ 24 * t + 2 ^ 29 * d + 2 ^ 31 + 2 ^ 32 * hi)); unfold w; lia).
  assert (E2 : bits w 48 16 = hi) by (apply (bits_field w 48 16 (lo + 2 ^ 16 * sel + 2 ^ 40 * t + 2 ^ 45 * d + 2 ^ 47) hi 0); unfold w; lia).
  assert (E3 : bits w 16 16 = sel) by (apply (bits_field w 16 16 lo sel (2 ^ 8 * t + 2 ^ 13 * d + 2 ^ 15 + 2 ^ 16 * hi)); unfold w; lia).
  assert (E4 : bits w 40 4 = t) by (apply (bits_field w 40 4 (lo + 2 ^ 16 * sel) t (2 * d + 2 ^ 3 + 2 ^ 4 * hi)); unfold w; lia).
  assert (E5 : bits w 45 2 = d) by (apply (bits_field w 45 2 (lo + 2 ^ 16 * sel + 2 ^ 40 * t) d (1 + 2 * hi)); unfold w; lia).
  assert (E6 : bits w 47 1 = 1) by (apply (bits_field w 47 1 (lo + 2 ^ 16 * sel + 2 ^ 40 * t + 2 ^ 45 * d) 1 hi); unfold w; lia).
  assert (E7 : bits w 44 1 = 0) by (apply (bits_field w 44 1 (lo + 2 ^ 16 * sel + 2 ^ 40 * t) 0 (d + 2 ^ 2 + 2 ^ 3 * hi)); unfold w; lia).
  rewrite E1, E2, E3, E4, E5, E6, E7, Ht. replace (lo + 2 ^ 16 * hi) with off by (unfold lo, hi; zdiv). by destruct istrap.
Qed.

(** The fields of a descriptor, whatever was stored in them. *)
Lemma seg_view_mk l0 b0 b1 type s dpl p l1 db g b2 :
  let raw := field_of 16 l0 + 2 ^ 16 * field_of 4 l1 in
  seg_view (seg_word (mk_seg l0 b0 b1 type s dpl p l1 0 0 db g b2)) =
    Segview (field_of 16 b0 + 2 ^ 16 * field_of 8 b1 + 2 ^ 24 * field_of 8 b2)
      (if field_of 1 g =? 1 then raw * 4096 + 4095 else raw) (field_of 4 type) (field_of 1 s) (field_of 2 dpl) (field_of 1 p) (field_of 1 db).
Proof.
  cbn zeta. unfold mk_seg, seg_word. cbn [lim_15_0 base_15_0 base_23_16 sg_type sg_s sg_dpl sg_p lim_19_16 sg_avl sg_rsv1 sg_db sg_g base_31_24].
  pose proof (field_range 16 l0 ltac:(lia)). pose proof (field_range 16 b0 ltac:(lia)). pose proof (field_range 8 b1 ltac:(lia)).
  pose proof (field_range 4 type ltac:(lia)). pose proof (field_range 1 s ltac:(lia)). pose proof (field_range 2 dpl ltac:(lia)).
  pose proof (field_range 1 p ltac:(lia)). pose proof (field_range 4 l1 ltac:(lia)). pose proof (field_range 1 db ltac:(lia)).
  pose proof (field_range 1 g ltac:(lia)). pose proof (field_range 8 b2 ltac:(lia)). change (field_of 1 0) with 0.
  set (L0 := field_of 16 l0) in *. set (B0 := field_of 16 b0) in *. set (B1 := field_of 8 b1) in *. set (TY := field_of 4 type) in *.
  set (SS := field_of 1 s) in *. set (DP := field_of 2 dpl) in *. set (P := field_of 1 p) in *. set (L1 := field_of 4 l1) in *.
  set (DB := field_of 1 db) in *. set (G := field_of 1 g) in *. set (B2 := field_of 8 b2) in *. unfold seg_view.
  set (w := L0 + _ + _ + _ + _ + _ + _ + _ + _ + _ + _ + _ + _). set (HI := DB + 2 * (G + 2 * B2)). set (U := L1 + 2 ^ 6 * HI).
  set (lo := L0 + 2 ^ 16 * B0 + 2 ^ 32 * B1). set (mi := lo + 2 ^ 40 * TY + 2 ^ 44 * SS + 2 ^ 45 * DP + 2 ^ 47 * P).
  assert (Hlo : 0 <= lo < 2 ^ 40) by (unfold lo; lia). assert (Hmi : 0 <= mi < 2 ^ 48) by (unfold mi; lia).
  assert (Hw : w = mi + 2 ^ 48 * U) by (unfold w, mi, lo, U, HI; lia).
  assert (E0 : bits w 0 16 = L0) by (apply (bits_field w 0 16 0 L0 (w / 2 ^ 16)); rewrite ?Hw; unfold mi, lo; zdiv).
  assert (E1 : bits w 16 16 = B0) by (apply (bits_field w 16 16 L0 B0 (w / 2 ^ 32)); rewrite ?Hw; unfold mi, lo; zdiv).
  assert (E2 : bits w 32 8 = B1) by (apply (bits_field w 32 8 (L0 + 2 ^ 16 * B0) B1 (w / 2 ^ 40)); rewrite ?Hw; unfold mi, lo; zdiv).
  assert (E3 : bits w 40 4 = TY) by (apply (bits_field w 40 4 lo TY (SS + 2 * DP + 2 ^ 3 * P + 2 ^ 4 * U)); rewrite ?Hw; unfold mi; lia).
  assert (E4 : bits w 44 1 = SS) by (apply (bits_field w 44 1 (lo + 2 ^ 40 * TY) SS (DP + 2 ^ 2 * P + 2 ^ 3 * U)); rewrite ?Hw; unfold mi; lia).
  assert (E5 : bits w 45 2 = DP) by (apply (bits_field w 45 2 (lo + 2 ^ 40 * TY + 2 ^ 44 * SS) DP (P + 2 * U)); rewrite ?Hw; unfold mi; lia).
  assert (E6 : bits w 48 4 = L1) by (apply (bits_field w 48 4 mi L1 (2 ^ 2 * HI)); rewrite ?Hw; unfold U; lia).
  assert (E7 : bits w 55 1 = G) by (apply (bits_field w 55 1 (mi + 2 ^ 48 * L1 + 2 ^ 54 * DB) G B2); rewrite ?Hw; unfold U, HI; lia).
  assert (E8 : bits w 56 8 = B2) by (apply (bits_field w 56 8 (mi + 2 ^ 48 * L1 + 2 ^ 54 * DB + 2 ^ 55 * G) B2 0); rewrite ?Hw; unfold U, HI; lia).
  assert (E9 : bits w 47 1 = P) by (apply (bits_field w 47 1 (lo + 2 ^ 40 * TY + 2 ^ 44 * SS + 2 ^ 45 * DP) P U); rewrite ?Hw; unfold mi; lia).
  assert (Ea : bits w 54 1 = DB) by (apply (bits_field w 54 1 (mi + 2 ^ 48 * L1) DB (G + 2 * B2)); rewrite ?Hw; unfold U, HI; lia).
  by rewrite E0, E1, E2, E3, E4, E5, E6, E7, E8, E9, Ea.
Qed.

Lemma SEG_view type base lim dpl : 0 <= type < 16 -> 0 <= base < 2 ^ 32 -> 0 <= lim < 2 ^ 32 -> 0 <= dpl < 4 ->
  seg_view (seg_word (SEG type base lim dpl)) = Segview base (lim / 4096 * 4096 + 4095) type 1 dpl 1 1.
Proof.
  intros Ht Hb Hl Hd. unfold SEG. rewrite (seg_view_mk _ _ _ type 1 dpl 1). cbn zeta. change 0xffff with (Z.ones 16). change 0xff with (Z.ones 8).
  rewrite !(u32_id base), !(u32_id lim) by done. rewrite !Z.land_ones, !Z.shiftr_div_pow2 by lia.
  rewrite (field_id 4 type), (field_id 2 dpl) by lia. change (field_of 1 1 =? 1) with true. change (field_of 1 1) with 1. unfold field_of. f_equal; zdiv.
Qed.

Lemma SEG16_view type base lim dpl : 0 <= type < 16 -> 0 <= base < 2 ^ 32 -> 0 <= lim < 2 ^ 20 -> 0 <= dpl < 4 ->
  seg_view (seg_word (set_s 0 (SEG16 type base lim dpl))) = Segview base lim type 0 dpl 1 1.
Proof.
  intros Ht Hb Hl Hd. change (set_s 0 (SEG16 type base lim dpl)) with
    (mk_seg (Z.land lim 0xffff) (Z.land (u32 base) 0xffff) (Z.land (Z.shiftr (u32 base) 16) 0xff) type 0 dpl 1 (Z.shiftr (u32 lim) 16) 0 0 1 0 (Z.shiftr (u32 base) 24)).
  rewrite (seg_view_mk _ _ _ type 0 dpl 1). cbn zeta. change 0xffff with (Z.ones 16). change 0xff with (Z.ones 8).
  rewrite !(u32_id base), !(u32_id lim) by lia. rewrite !Z.land_ones, !Z.shiftr_div_pow2 by lia.
  rewrite (field_id 4 type), (field_id 2 dpl) by lia. change (field_of 1 0 =? 1) with false. change (field_of 1 0) with 0. unfold field_of. f_equal; zdiv.
Qed.

(** * Protection *)

(** The descriptors of a processor that runs a process. *)
Definition seg_of (c : cpuseg) (i : Z) : option segview := (fun d => seg_view (seg_word d)) <$> cs_gdt c !! Z.to_nat i.

(** C25: Protection.  With the tables [tvinit], [seginit] and [switchuvm] set
    up, an [int] instruction of a user program leads into the kernel for one
    number, [T_SYSCALL], at the entry point of that vector, at privilege level 0
    and with interrupts left enabled; every other one is a fault.  A hardware
    interrupt, of a user program or of the kernel, reaches its own entry point
    at level 0 with interrupts disabled.  The four flat segments are present and
    differ in their type and privilege only; the task state of the process gives
    the top of its kernel stack, and no I/O port is accessible. *)
Theorem protection (vectors : Z -> Z) (gdt ts kstack : Z) (c : cpuseg) :
  (forall n, 0 <= vectors n < 2 ^ 32) -> length (cs_gdt c) = NSEGS -> 0 <= ts < 2 ^ 32 -> 0 <= kstack -> kstack + KSTACKSIZE < 2 ^ 32 ->
  let c' := switchuvm_tss ts kstack (seginit gdt c) in
  (forall n, 0 <= n < 256 ->
     int_target (cs_gdt c') (tvinit vectors) 3 n =
       if n =? T_SYSCALL then Some (Gateview (vectors n) (8 * SEG_KCODE) true 3, 0) else None) /\
  (forall n cpl, 0 <= n < 256 -> n <> T_SYSCALL -> 0 <= cpl ->
     irq_target (cs_gdt c') (tvinit vectors) cpl n = Some (Gateview (vectors n) (8 * SEG_KCODE) false 0, 0)) /\
  seg_of c' SEG_KCODE = Some (Segview 0 (2 ^ 32 - 1) (Z.lor STA_X STA_R) 1 0 1 1) /\ seg_of c' SEG_KDATA = Some (Segview 0 (2 ^ 32 - 1) STA_W 1 0 1 1) /\
  seg_of c' SEG_UCODE = Some (Segview 0 (2 ^ 32 - 1) (Z.lor STA_X STA_R) 1 3 1 1) /\ seg_of c' SEG_UDATA = Some (Segview 0 (2 ^ 32 - 1) STA_W 1 3 1 1) /\
  seg_of c' SEG_TSS = Some (Segview ts (TSSIZE - 1) STS_T32A 0 0 1 1) /\ cs_tr c' = 8 * SEG_TSS /\
  ts_esp0 (cs_ts c') = kstack + KSTACKSIZE /\ ts_ss0 (cs_ts c') = 8 * SEG_KDATA /\
  (forall port, 0 <= port < 2 ^ 16 -> io_allowed (cs_ts c') (TSSIZE - 1) port = false).
Proof.
  intros Hv Hl Hts Hk Hks c'.
  assert (Hg : forall n, 0 <= n < 256 -> tvinit vectors !! Z.to_nat n =
    Some (if n =? T_SYSCALL then SETGATE true 8 (vectors n) 3 else SETGATE false 8 (vectors n) 0)).
  { intros n Hn. unfold tvinit. destruct (Z.eqb_spec n T_SYSCALL) as [->|Hne].
    - rewrite list_lookup_insert_eq by (rewrite length_fmap, length_seq; unfold T_SYSCALL; lia). done.
    - rewrite list_lookup_insert_ne by (unfold T_SYSCALL in *; lia). rewrite list_lookup_fmap, lookup_seq_lt by lia. cbn [fmap option_fmap option_map].
      by rewrite Nat.add_0_l, Z2Nat.id by lia. }
  destruct (cs_gdt c) as [|d0 [|d1 [|d2 [|d3 [|d4 [|d5 [|]]]]]]] eqn:Eg; try (cbn in Hl; discriminate).
  assert (Eg' : cs_gdt c' = [d0; SEG (Z.lor STA_X STA_R) 0 0xffffffff 0; SEG STA_W 0 0xffffffff 0; SEG (Z.lor STA_X STA_R) 0 0xffffffff DPL_USER;
    SEG STA_W 0 0xffffffff DPL_USER; set_s 0 (SEG16 STS_T32A ts (TSSIZE - 1) 0)]) by (unfold c', switchuvm_tss, seginit, set_gdt; cbn [cs_gdt lgdt ltr]; by rewrite Eg).
  assert (Hh : forall cpl, 0 <= cpl -> handler_cpl (cs_gdt c') cpl 8 = Some 0).
  { intros cpl Hcpl. unfold handler_cpl. rewrite Eg'. change ([_; ?k; _; _; _; _] !! Z.to_nat (8 / 8)) with (Some k). cbv beta iota.
    rewrite SEG_view by (done || lia). cbn [v_present v_app v_type v_dpl]. change (Z.testbit (Z.lor STA_X STA_R) 3) with true.
    cbn [Z.eqb Pos.eqb andb]. by rewrite (proj2 (Z.leb_le _ _) Hcpl). }
  split; [|split; [|split; [|split; [|split; [|split; [|split; [|split; [|split; [|split]]]]]]]]].
  - intros n Hn. unfold int_target, deliver. rewrite (Hg n Hn). destruct (n =? T_SYSCALL); rewrite gate_view_set by (done || lia || apply Hv); [|done].
    cbn [v_gdpl v_cs andb Z.ltb Z.compare Pos.compare Pos.compare_cont]. by rewrite Hh.
  - intros n cpl Hn Hne Hcpl. unfold irq_target, deliver. rewrite (Hg n Hn), (proj2 (Z.eqb_neq _ _)) by done.
    rewrite gate_view_set by (done || lia || apply Hv). cbn [v_cs andb]. by rewrite Hh.
  - unfold seg_of. rewrite Eg'. done.
  - unfold seg_of. rewrite Eg'. done.
  - unfold seg_of. rewrite Eg'. done.
  - unfold seg_of. rewrite Eg'. done.
  - unfold seg_of. rewrite Eg'. change (Some (seg_view (seg_word (set_s 0 (SEG16 STS_T32A ts (TSSIZE - 1) 0)))) = Some (Segview ts (TSSIZE - 1) STS_T32A 0 0 1 1)).
    by rewrite SEG16_view.
  - done.
  - change (u32 (kstack + KSTACKSIZE) = kstack + KSTACKSIZE). apply u32_id. unfold KSTACKSIZE in *. lia.
  - done.
  - intros port Hp. unfold io_allowed. change (ts_iomb (cs_ts c')) with 65535. apply Z.leb_gt. unfold TSSIZE. zdiv.
Qed.

Definition demo_vectors (n : Z) : Z := 0x80106000 + 10 * (n mod 256).
Definition demo_cpuseg : cpuseg :=
  Cpuseg (replicate 6 (mk_seg 0 0 0 0 0 0 0 0 0 0 0 0 0))
    (Taskstate 0 0 0 0 0 0 0 0 0 0 0 0 0 0 0 0 0 0 0 0 0 0 0 0 0 0 0) [] [] 0.

Lemma protection_witness :
  let gdt := cs_gdt (switchuvm_tss 0x80112100 0x8dfff000 (seginit 0x80112000 demo_cpuseg)) in
  int_target gdt (tvinit demo_vectors) 3 64 = Some (Gateview 0x80106280 8 true 3, 0) /\ int_target gdt (tvinit demo_vectors) 3 14 = None /\
  irq_target gdt (tvinit demo_vectors) 3 32 = Some (Gateview 0x80106140 8 false 0, 0).
Proof.
  destruct (protection demo_vectors 0x80112000 0x80112100 0x8dfff000 demo_cpuseg) as (H & H' & _).
  - intros n. unfold demo_vectors. pose proof (Z.mod_pos_bound n 256 ltac:(lia)). lia.
  - reflexivity.
  - lia.
  - lia.
  - unfold KSTACKSIZE. lia.
  - split; [exact (H 64 ltac:(lia))|]. split; [exact (H 14 ltac:(lia))|exact (H' 32 3 ltac:(lia) ltac:(discriminate) ltac:(lia))].
Defined.
