(* ===== verification/Ide.v ===== *)
(** The disk driver, [ide.c]: a queue of buffers threaded through [qnext], the
    request at its head being the one the disk works on. *)

From S2P Require Import Prelude Params Spinlock Klock Bytes Bio Kbd Apic.
Open Scope Z_scope.
Open Scope xv6_scope.

(** * Ports, with the string instructions [insl] and [outsl] of [x86.h] *)
Class StringPorts (W : Type) := {
  sp_ports :: Ports W;
  sp_mmio :: Mmio W;
  port_insl : Z -> nat -> W -> bytes * W;
  port_outsl : Z -> bytes -> W -> W
}.

Definition SECTOR_SIZE : Z := 512.
Definition IDE_BSY : Z := 0x80.
Definition IDE_DRDY : Z := 0x40.
Definition IDE_DF : Z := 0x20.
Definition IDE_ERR : Z := 0x01.
Definition IDE_CMD_READ : Z := 0x20.
Definition IDE_CMD_WRITE : Z := 0x30.
Definition IDE_CMD_RDMUL : Z := 0xc4.
Definition IDE_CMD_WRMUL : Z := 0xc5.

(** * State

    The locks held, the buffers with their [qnext] pointers, [idequeue],
    [havedisk1], and the hardware.  A buffer is its index. *)
Record ist (W : Type) := Ist {
  is_ctx : kctx;
  is_bufs : list buf;
  is_qnext : list (option nat);
  idequeue : option nat;
  havedisk1 : bool;
  is_hw : W
}.
Arguments Ist {W}.
Arguments is_ctx {W}.
Arguments is_bufs {W}.
Arguments is_qnext {W}.
Arguments idequeue {W}.
Arguments havedisk1 {W}.
Arguments is_hw {W}.

#[global, program] Instance ist_ctx {W} : Lens (ist W) kctx := {|
  view := is_ctx;
  put c s := Ist c (is_bufs s) (is_qnext s) (idequeue s) (havedisk1 s) (is_hw s)
|}.
Next Obligation. done. Qed.
Next Obligation. by intros ? []. Qed.
Next Obligation. done. Qed.

Definition idelock : lockid := ("ide"%string, 0).
Definition buf_chan (b : nat) : chan := ("buf"%string, Z.of_nat b).

(** How often the status is polled, and a request is waited for. *)
Definition IDEPOLLS : nat := 1000.

Section ide.
Context {W : Type} `{StringPorts W}.

Definition set_ihw (w : W) (s : ist W) : ist W := Ist (is_ctx s) (is_bufs s) (is_qnext s) (idequeue s) (havedisk1 s) w.
Definition set_ibufs (l : list buf) (s : ist W) : ist W := Ist (is_ctx s) l (is_qnext s) (idequeue s) (havedisk1 s) (is_hw s).
Definition set_qnext (l : list (option nat)) (s : ist W) : ist W := Ist (is_ctx s) (is_bufs s) l (idequeue s) (havedisk1 s) (is_hw s).
Definition set_queue (q : option nat) (s : ist W) : ist W := Ist (is_ctx s) (is_bufs s) (is_qnext s) q (havedisk1 s) (is_hw s).
Definition set_disk1 (b : bool) (s : ist W) : ist W := Ist (is_ctx s) (is_bufs s) (is_qnext s) (idequeue s) b (is_hw s).

Definition hw_in {A} (f : W -> A * W) : M (ist W) A := fun s => let '(a, w) := f (is_hw s) in Ok a (set_ihw w s).
Definition hw_out (f : W -> W) : M (ist W) unit := modify (fun s => set_ihw (f (is_hw s)) s).

Definition ibuf (s : ist W) (b : nat) : buf := default zero_buf (is_bufs s !! b).
Definition upd_buf (f : buf -> buf) (b : nat) : M (ist W) unit := modify (fun s => set_ibufs (alter f b (is_bufs s)) s).
Definition qnext (s : ist W) (b : nat) : option nat := default None (is_qnext s !! b).

Definition iref (b : nat) : slref (ist W) :=
  Slref (Z.of_nat b) (fun s => b_lock (ibuf s b)) (fun l s => set_ibufs (alter (set_lock l) b (is_bufs s)) s).

(** The loop of [idewait], whose value is the last status. *)
Fixpoint poll (fuel : nat) : M (ist W) Z :=
  match fuel with
  | O => nofuel
  | S fuel =>
      r <- hw_in (inb 0x1f7) ;;
      if negb (Z.land r (Z.lor IDE_BSY IDE_DRDY) =? IDE_DRDY) then poll fuel else ret r
  end.

Definition idewait (checkerr : bool) : M (ist W) Z :=
  r <- poll IDEPOLLS ;;
  if checkerr && negb (Z.land r (Z.lor IDE_DF IDE_ERR) =? 0) then ret (-1) else ret 0.

(** The search for disk 1. *)
Fixpoint probe (n : nat) : M (ist W) unit :=
  match n with
  | O => ret tt
  | S n => r <- hw_in (inb 0x1f7) ;; if negb (r =? 0) then modify (set_disk1 true) else probe n
  end.

(** [initlock] leaves the lock free. *)
Definition ideinit (ncpu : Z) : M (ist W) unit :=
  hw_out (ioapicenable IRQ_IDE (ncpu - 1)) ;;;
  idewait false ;;;
  hw_out (outb 0x1f6 (Z.lor 0xe0 (Z.shiftl 1 4))) ;;;
  probe 1000 ;;;
  hw_out (outb 0x1f6 (Z.lor 0xe0 (Z.shiftl 0 4))).

Definition idestart (b : option nat) : M (ist W) unit :=
  match b with
  | None => panic "idestart"
  | Some b =>
      bp <- gets (fun s => ibuf s b) ;;
      if FSSIZE <=? b_blockno bp then panic "incorrect blockno" else
      let sector_per_block := BSIZE / SECTOR_SIZE in
      let sector := s32 (b_blockno bp * sector_per_block) in
      let read_cmd := if sector_per_block =? 1 then IDE_CMD_READ else IDE_CMD_RDMUL in
      let write_cmd := if sector_per_block =? 1 then IDE_CMD_WRITE else IDE_CMD_WRMUL in
      if 7 <? sector_per_block then panic "idestart" else
      idewait false ;;;
      hw_out (outb 0x3f6 0) ;;;
      hw_out (outb 0x1f2 sector_per_block) ;;;
      hw_out (outb 0x1f3 (Z.land sector 0xff)) ;;;
      hw_out (outb 0x1f4 (Z.land (Z.shiftr sector 8) 0xff)) ;;;
      hw_out (outb 0x1f5 (Z.land (Z.shiftr sector 16) 0xff)) ;;;
      hw_out (outb 0x1f6 (Z.lor (Z.lor 0xe0 (Z.shiftl (Z.land (b_dev bp) 1) 4)) (Z.land (Z.shiftr sector 24) 0x0f))) ;;;
      if has (b_flags bp) B_DIRTY then
        hw_out (outb 0x1f7 write_cmd) ;;;
        hw_out (port_outsl 0x1f0 (b_data bp))
      else hw_out (outb 0x1f7 read_cmd)
  end.

(** Read data if needed, and mark the request done. *)
Definition ide_finish (b : nat) : M (ist W) unit :=
  bp <- gets (fun s => ibuf s b) ;;
  (if has (b_flags bp) B_DIRTY then ret tt else
   r <- idewait true ;;
   if 0 <=? r then d <- hw_in (port_insl 0x1f0 (Z.to_nat (BSIZE / 4))) ;; upd_buf (set_data d) b else ret tt) ;;;
  upd_buf (fun bp => set_flags (Z.lor (b_flags bp) B_VALID) bp) b ;;;
  upd_buf (fun bp => set_flags (Z.land (b_flags bp) (Z.lnot B_DIRTY)) bp) b.

Definition ideintr : M (ist W) unit :=
  Klock.acquire idelock ;;;
  q <- gets idequeue ;;
  match q with
  | None => Klock.release idelock
  | Some b =>
      modify (fun s => set_queue (qnext s b) s) ;;;
      ide_finish b ;;;
      Klock.wakeup (buf_chan b) ;;;
      q <- gets idequeue ;;
      match q with None => ret tt | Some _ => idestart q end ;;;
      Klock.release idelock
  end.

(** The loop of [iderw] that finds the end of the queue: [pp] is [None] for
    [&idequeue] and a buffer for its [qnext]. *)
Fixpoint queue_end (s : ist W) (pp : option nat) (fuel : nat) : option (option nat) :=
  match fuel with
  | O => None
  | S fuel =>
      match (match pp with None => idequeue s | Some b => qnext s b end) with
      | None => Some pp
      | Some b => queue_end s (Some b) fuel
      end
  end.

(** Append b to idequeue. *)
Definition ide_append (b : nat) : M (ist W) unit :=
  modify (fun s => set_qnext (<[b := None]> (is_qnext s)) s) ;;;
  s <- get ;;
  match queue_end s None (S (length (is_bufs s))) with
  | None => nofuel
  | Some pp =>
      modify (fun s => match pp with
                       | None => set_queue (Some b) s
                       | Some a => set_qnext (<[a := Some b]> (is_qnext s)) s
                       end)
  end.

(** The wait for the request to finish. *)
Fixpoint wait_done (b : nat) (fuel : nat) : M (ist W) unit :=
  match fuel with
  | O => nofuel
  | S fuel =>
      bp <- gets (fun s => ibuf s b) ;;
      if negb (Z.land (b_flags bp) (Z.lor B_VALID B_DIRTY) =? B_VALID)
      then Klock.sleep (buf_chan b) idelock ;;; wait_done b fuel
      else ret tt
  end.

Definition iderw (b : nat) : M (ist W) unit :=
  l <- holdingsleep (iref b) ;;
  if negb l then panic "iderw: buf not locked" else
  bp <- gets (fun s => ibuf s b) ;;
  if Z.land (b_flags bp) (Z.lor B_VALID B_DIRTY) =? B_VALID then panic "iderw: nothing to do" else
  d1 <- gets havedisk1 ;;
  if negb (b_dev bp =? 0) && negb d1 then panic "iderw: ide disk 1 not present" else
  Klock.acquire idelock ;;;
  ide_append b ;;;
  q <- gets idequeue ;;
  (if bool_decide (q = Some b) then idestart (Some b) else ret tt) ;;;
  wait_done b IDEPOLLS ;;;
  Klock.release idelock.
End ide.
