(* ===== verification/IdeSpec.v ===== *)
(** The disk driver serves its requests in the order they were made, each as
    the in-memory disk of [memide.c] would. *)

From S2P Require Import Prelude Params Spinlock Klock Bytes Bio Bcache Kbd Apic Ide.
Open Scope Z_scope.
Open Scope xv6_scope.

(** * The disk, as the ATA standard describes it

    Registers that hold what was written to them, two disks selected by bit 4
    of the drive register, and the transfer the last command has started. *)

Inductive phase := Idle | Reading (d : bool) (sec : Z) | Writing (d : bool) (sec : Z).

Record disks := Disks { disk0 : blockmap; disk1 : blockmap }.

Definition getd (d : bool) (x : disks) : blockmap := if d then disk1 x else disk0 x.
Definition putd (d : bool) (m : blockmap) (x : disks) : disks := if d then Disks (disk0 x) m else Disks m (disk1 x).

Record ata := Ata { a_regs : gmap Z Z; a_phase : phase; a_disks : disks }.

Definition reg (a : ata) (p : Z) : Z := default 0 (a_regs a !! p).
Definition drive (a : ata) : bool := Z.testbit (reg a 0x1f6) 4.
Definition lba (a : ata) : Z := reg a 0x1f3 + 2 ^ 8 * reg a 0x1f4 + 2 ^ 16 * reg a 0x1f5 + 2 ^ 24 * (reg a 0x1f6 mod 16).

Definition set_reg (p x : Z) (a : ata) : ata := Ata (<[p := x]> (a_regs a)) (a_phase a) (a_disks a).
Definition set_phase (f : phase) (a : ata) : ata := Ata (a_regs a) f (a_disks a).
Definition store_block (d : bool) (sec : Z) (x : bytes) (a : ata) : ata :=
  Ata (a_regs a) (a_phase a) (putd d (<[sec := x]> (getd d (a_disks a))) (a_disks a)).

Definition ready (r : Z) : bool := Z.land (u8 r) (Z.lor IDE_BSY IDE_DRDY) =? IDE_DRDY.

(** What the driver relies on, for requests of one sector: the status does not
    change the disk, turns ready in time and shows no error; and a transfer
    moves the block its command named. *)
Class AtaDisk (W : Type) `{StringPorts W} := {
  ata_of : W -> ata;
  ata_busy : W -> nat;
  ata_reg : forall p x w, p ∈ [0x1f2; 0x1f3; 0x1f4; 0x1f5; 0x1f6; 0x3f6] -> ata_of (port_out p x w) = set_reg p x (ata_of w);
  ata_read : forall w, ata_of (port_out 0x1f7 IDE_CMD_READ w) = set_phase (Reading (drive (ata_of w)) (lba (ata_of w))) (ata_of w);
  ata_write : forall w, ata_of (port_out 0x1f7 IDE_CMD_WRITE w) = set_phase (Writing (drive (ata_of w)) (lba (ata_of w))) (ata_of w);
  ata_status : forall w, ata_of (port_in 0x1f7 w).2 = ata_of w;
  ata_max : forall w, (ata_busy w < IDEPOLLS)%nat;
  ata_turns : forall w, ready (port_in 0x1f7 w).1 = true \/ (ata_busy (port_in 0x1f7 w).2 < ata_busy w)%nat;
  ata_fine : forall w, Z.land (u8 (port_in 0x1f7 w).1) (Z.lor IDE_DF IDE_ERR) = 0;
  ata_in : forall w d sec, a_phase (ata_of w) = Reading d sec ->
    (port_insl 0x1f0 128 w).1 = block_of (getd d (a_disks (ata_of w))) sec /\ ata_of (port_insl 0x1f0 128 w).2 = set_phase Idle (ata_of w);
  ata_out : forall w d sec x, a_phase (ata_of w) = Writing d sec -> ata_of (port_outsl 0x1f0 x w) = set_phase Idle (store_block d sec x (ata_of w))
}.

(** * Serving one request *)

Definition finish (bp : buf) : buf := set_flags (Z.land (Z.lor (b_flags bp) B_VALID) (Z.lnot B_DIRTY)) bp.
Definition dev1 (bp : buf) : bool := Z.testbit (b_dev bp) 0.

(** The buffers and the disks after the request for buffer [b]. *)
Definition serve (b : nat) (x : list buf * disks) : list buf * disks :=
  let bp := default zero_buf (x.1 !! b) in
  if has (b_flags bp) B_DIRTY
  then (alter finish b x.1, putd (dev1 bp) (<[b_blockno bp := b_data bp]> (getd (dev1 bp) x.2)) x.2)
  else (alter (fun bp => finish (set_data (block_of (getd (dev1 bp) x.2) (b_blockno bp)) bp)) b x.1, x.2).

Definition serve_all (q : list nat) (x : list buf * disks) : list buf * disks := foldl (fun x b => serve b x) x q.

Definition pending (bp : buf) : Prop := Z.land (b_flags bp) (Z.lor B_VALID B_DIRTY) <> B_VALID.

Lemma reg_set p x a p' : reg (set_reg p x a) p' = if decide (p = p') then x else reg a p'.
Proof. unfold reg, set_reg. cbn. rewrite lookup_insert. by destruct (decide (p = p')). Qed.

(** The registers [idestart] writes name the block. *)
Definition request (dev sec : Z) (a : ata) : ata :=
  set_reg 0x1f6 (u8 (Z.lor (Z.lor 0xe0 (Z.shiftl (Z.land dev 1) 4)) (Z.land (Z.shiftr sec 24) 0x0f)))
  (set_reg 0x1f5 (u8 (Z.land (Z.shiftr sec 16) 0xff)) (set_reg 0x1f4 (u8 (Z.land (Z.shiftr sec 8) 0xff)) (set_reg 0x1f3 (u8 (Z.land sec 0xff))
  (set_reg 0x1f2 (u8 1) (set_reg 0x3f6 (u8 0) a))))).

Lemma drive_bits dev : u8 (Z.lor (Z.lor 0xe0 (Z.shiftl (Z.land dev 1) 4)) 0) = if Z.testbit dev 0 then 0xf0 else 0xe0.
Proof.
  change (Z.land dev 1) with (Z.land dev (Z.ones 1)). rewrite Z.land_ones by lia. change (2 ^ 1) with 2.
  rewrite <- Z.bit0_mod. by destruct (Z.testbit dev 0).
Qed.

Lemma request_block dev sec a : 0 <= sec < FSSIZE -> lba (request dev sec a) = sec /\ drive (request dev sec a) = Z.testbit dev 0.
Proof.
  intros Hs. unfold FSSIZE in Hs. unfold lba, drive, request. rewrite !reg_set.
  repeat (first [rewrite decide_True by done | rewrite decide_False by done]).
  rewrite (Z.shiftr_div_pow2 sec 24), (Z.div_small sec (2 ^ 24)) by lia. change (Z.land 0 0x0f) with 0. rewrite drive_bits.
  change 0xff with (Z.ones 8). rewrite !Z.land_ones, !Z.shiftr_div_pow2, !u8_id by zdiv.
  split; [|by destruct (Z.testbit dev 0)]. assert (E : (if Z.testbit dev 0 then 0xf0 else 0xe0) mod 16 = 0) by (by destruct (Z.testbit dev 0)). rewrite E. zdiv.
Qed.

Section ide_spec.
Context {W : Type} `{AtaDisk W}.

Abbreviation av s := (ata_of (is_hw s)).

(** * The registers *)

Lemma poll_ok fuel : forall s, (ata_busy (is_hw s) < fuel)%nat ->
  exists r w, poll fuel s = Ok r (set_ihw w s) /\ ata_of w = av s /\ Z.land r (Z.lor IDE_DF IDE_ERR) = 0.
Proof.
  induction fuel as [|fuel IH]; intros s Hf; [lia|]. cbn [poll]. unfold hw_in, inb, bind. destruct (port_in 0x1f7 (is_hw s)) as [v w] eqn:E.
  pose proof (ata_status (is_hw s)) as Hs. pose proof (ata_turns (is_hw s)) as Ht. pose proof (ata_fine (is_hw s)) as Hfi. rewrite E in *. cbn in Hs, Ht, Hfi.
  cbn [seqr]. unfold ready in Ht. destruct (Z.land (u8 v) (Z.lor IDE_BSY IDE_DRDY) =? IDE_DRDY); cbn [negb].
  - exists (u8 v), w. split; [done|]. by split.
  - destruct Ht as [|Hlt]; [done|]. destruct (IH (set_ihw w s)) as (r & w' & E' & Hv & Hr); [cbn; lia|]. exists r, w'. split; [exact E'|]. split; [|done].
    rewrite Hv. exact Hs.
Qed.

Lemma idewait_ok chk s : exists w, idewait chk s = Ok 0 (set_ihw w s) /\ ata_of w = av s.
Proof.
  destruct (poll_ok IDEPOLLS s (ata_max _)) as (r & w & E & Hv & Hr). exists w. split; [|done]. unfold idewait. step E. rewrite Hr.
  rewrite andb_false_r. done.
Qed.

Lemma out_ok (f : W -> W) (s : ist W) : hw_out f s = Ok tt (set_ihw (f (is_hw s)) s).
Proof. done. Qed.

Lemma idestart_ok s b : 0 <= b_blockno (ibuf s b) < FSSIZE ->
  let bp := ibuf s b in
  exists w, idestart (Some b) s = Ok tt (set_ihw w s) /\
    if has (b_flags bp) B_DIRTY
    then a_disks (ata_of w) = putd (dev1 bp) (<[b_blockno bp := b_data bp]> (getd (dev1 bp) (a_disks (av s)))) (a_disks (av s))
    else a_disks (ata_of w) = a_disks (av s) /\ a_phase (ata_of w) = Reading (dev1 bp) (b_blockno bp).
Proof.
  intros Hb bp. fold bp in Hb. destruct (idewait_ok false s) as (w0 & E0 & V0). destruct (request_block (b_dev bp) (b_blockno bp) (av s) Hb) as [Hl Hd].
  set (sec := b_blockno bp) in *. set (w1 := outb 0x1f6 (Z.lor (Z.lor 0xe0 (Z.shiftl (Z.land (b_dev bp) 1) 4)) (Z.land (Z.shiftr sec 24) 0x0f))
    (outb 0x1f5 (Z.land (Z.shiftr sec 16) 0xff) (outb 0x1f4 (Z.land (Z.shiftr sec 8) 0xff) (outb 0x1f3 (Z.land sec 0xff) (outb 0x1f2 1 (outb 0x3f6 0 w0)))))).
  assert (V1 : ata_of w1 = request (b_dev bp) sec (av s)).
  { unfold w1, outb, request. rewrite !ata_reg by set_solver. by rewrite V0. }
  assert (E : idestart (Some b) s = (if has (b_flags bp) B_DIRTY then hw_out (outb 0x1f7 IDE_CMD_WRITE) ;;; hw_out (port_outsl 0x1f0 (b_data bp))
    else hw_out (outb 0x1f7 IDE_CMD_READ)) (set_ihw w1 s)).
  { unfold idestart. unfold gets at 1, bind at 1. cbn [seqr]. fold bp sec. unfold FSSIZE in *. rewrite (proj2 (Z.leb_gt _ _)) by lia.
    change (BSIZE / SECTOR_SIZE) with 1. rewrite Z.mul_1_r, s32_id by lia. change (7 <? 1) with false. change (1 =? 1) with true. cbn iota. step E0. done. }
  rewrite E. destruct (has (b_flags bp) B_DIRTY).
  - eexists. split; [reflexivity|]. cbn [is_hw set_ihw]. change (outb 0x1f7 IDE_CMD_WRITE w1) with (port_out 0x1f7 IDE_CMD_WRITE w1).
    rewrite (ata_out _ (dev1 bp) sec) by (rewrite ata_write, V1, Hl, Hd; done). rewrite ata_write, V1. done.
  - eexists. split; [reflexivity|]. cbn [is_hw set_ihw]. change (outb 0x1f7 IDE_CMD_READ w1) with (port_out 0x1f7 IDE_CMD_READ w1).
    rewrite ata_read, V1, Hl, Hd. done.
Qed.

(** * The queue *)

(** The buffers from a pointer on. *)
Fixpoint chain (s : ist W) (p : option nat) (q : list nat) : Prop :=
  match q with
  | [] => p = None
  | b :: q => p = Some b /\ chain s (qnext s b) q
  end.

(** The request at the head has been started. *)
Definition started (s : ist W) (q : list nat) : Prop :=
  match q with
  | [] => True
  | b :: _ =>
      let bp := ibuf s b in
      if has (b_flags bp) B_DIRTY then getd (dev1 bp) (a_disks (av s)) !! b_blockno bp = Some (b_data bp)
      else a_phase (av s) = Reading (dev1 bp) (b_blockno bp)
  end.

Record queued (s : ist W) (q : list nat) : Prop := {
  qu_chain : chain s (idequeue s) q;
  qu_nodup : NoDup q;
  qu_len : length (is_qnext s) = length (is_bufs s);
  qu_bufs : forall b, b ∈ q -> (b < length (is_bufs s))%nat /\ pending (ibuf s b) /\ 0 <= b_blockno (ibuf s b) < FSSIZE;
  qu_head : started s q;
  qu_free : idelock ∉ held (is_ctx s)
}.

(** The buffers and the disks once the queue has been served. *)
Definition drained (s : ist W) (q : list nat) : list buf * disks := serve_all q (is_bufs s, a_disks (av s)).

Lemma qchain_ext s s' p q : (forall b, b ∈ q -> qnext s' b = qnext s b) -> chain s p q -> chain s' p q.
Proof.
  revert p. induction q as [|b q IH]; intros p Hq; [done|]. cbn. intros [-> Hc]. split; [done|]. rewrite Hq by set_solver+.
  apply IH; [|done]. intros. apply Hq. set_solver.
Qed.

Lemma putd_id d m x : getd d x = m -> putd d m x = x.
Proof. intros <-. by destruct d, x. Qed.

Lemma getd_putd d m x : getd d (putd d m x) = m.
Proof. by destruct d. Qed.

(** Having stored the data of the head already makes no difference. *)
Lemma serve_started bufs x b :
  has (b_flags (default zero_buf (bufs !! b))) B_DIRTY = true ->
  let bp := default zero_buf (bufs !! b) in
  serve b (bufs, putd (dev1 bp) (<[b_blockno bp := b_data bp]> (getd (dev1 bp) x)) x) = serve b (bufs, x).
Proof.
  intros Hd. unfold serve. cbn [fst snd]. rewrite Hd. set (bp := default zero_buf (bufs !! b)). cbn zeta. f_equal.
  rewrite getd_putd, insert_insert_eq. by destruct (dev1 bp).
Qed.

(** ** Starting the next request *)

Lemma start_next s q b :
  chain s (idequeue s) (b :: q) -> 0 <= b_blockno (ibuf s b) < FSSIZE ->
  exists w, idestart (Some b) s = Ok tt (set_ihw w s) /\ started (set_ihw w s) (b :: q) /\ drained (set_ihw w s) (b :: q) = drained s (b :: q).
Proof.
  intros Hc Hb. destruct (idestart_ok s b Hb) as (w & E & HW). exists w. split; [done|].
  unfold started, drained, serve_all. cbn [foldl is_bufs set_ihw is_hw]. change (ibuf (set_ihw w s) b) with (ibuf s b).
  unfold ibuf in *. destruct (has (b_flags (default zero_buf (is_bufs s !! b))) B_DIRTY) eqn:Ed.
  - rewrite HW. split; [by rewrite getd_putd, lookup_insert_eq|]. by rewrite serve_started.
  - destruct HW as [H1 H2]. split; [done|]. by rewrite H1.
Qed.

(** ** The interrupt *)

(** A request changes its own buffer only. *)
Lemma serve_bufs b c x : c <> b -> (serve b x).1 !! c = x.1 !! c.
Proof. intros Hne. unfold serve. destruct (has _ _); cbn; by rewrite list_lookup_alter_ne. Qed.

Lemma serve_length b x : length (serve b x).1 = length x.1.
Proof. unfold serve. destruct (has _ _); cbn; apply length_alter. Qed.

Lemma ide_finish_ok s b q : started s (b :: q) ->
  exists w l, ide_finish b s = Ok tt (set_ihw w (set_ibufs l s)) /\ (l, a_disks (ata_of w)) = serve b (is_bufs s, a_disks (av s)).
Proof.
  intros Hst. unfold started in Hst. unfold ide_finish. unfold gets at 1, bind at 1. cbn [seqr]. set (bp := ibuf s b) in *.
  unfold serve. cbn [fst snd]. fold (ibuf s b). fold bp. destruct (has (b_flags bp) B_DIRTY).
  - exists (is_hw s), (alter finish b (is_bufs s)). split.
    + unfold bind, ret, upd_buf, modify. cbn [seqr]. unfold set_ibufs, set_ihw. cbn. by rewrite list_alter_alter_eq.
    + f_equal. symmetry. apply putd_id. by rewrite insert_id.
  - destruct (idewait_ok true s) as (w1 & E1 & V1). rewrite <- V1 in Hst |- *. destruct (ata_in w1 _ _ Hst) as [Hd Hv].
    set (d := block_of (getd (dev1 bp) (a_disks (ata_of w1))) (b_blockno bp)) in *. set (w2 := (port_insl 0x1f0 128 w1).2) in *.
    exists w2, (alter (fun bp => finish (set_data d bp)) b (is_bufs s)). split.
    + unfold bind at 1. rewrite (bind_ok _ _ _ _ _ E1). cbn [Z.leb Z.compare]. change (Z.to_nat (BSIZE / 4)) with 128%nat.
      assert (Ei : hw_in (port_insl 0x1f0 128) (set_ihw w1 s) = Ok d (set_ihw w2 s)).
      { unfold hw_in. cbn [is_hw set_ihw]. rewrite (surjective_pairing (port_insl _ _ _)), Hd. done. }
      unfold bind at 1. rewrite Ei. cbn [seqr]. unfold bind, upd_buf, modify. cbn [seqr]. unfold set_ibufs, set_ihw. cbn. by rewrite !list_alter_alter_eq.
    + rewrite Hv. cbn [a_disks set_phase]. f_equal. apply list_alter_ext; [|done]. intros x Hx. unfold d, bp, ibuf. by rewrite Hx.
Qed.

Lemma ideintr_ok s b q : queued s (b :: q) ->
  exists s', ideintr s = Ok tt s' /\ queued s' q /\ drained s' q = drained s (b :: q) /\
    is_ctx s' = set_woken (woken (is_ctx s) ++ [buf_chan b]) (is_ctx s) /\ havedisk1 s' = havedisk1 s /\
    is_bufs s' = (serve b (is_bufs s, a_disks (av s))).1.
Proof.
  intros [Q1 Q2 Q3 Q4 Q5 Q6]. destruct Q1 as [Q1 Qc]. apply NoDup_cons in Q2 as [Hbq Q2].
  set (c0 := is_ctx s) in *. set (c1 := set_held ({[idelock]} ∪ held c0) c0).
  set (s1 := put c1 s : ist W). set (s2 := set_queue (qnext s b) s1).
  assert (E1 : Klock.acquire idelock s = Ok tt s1) by (exact (Klock.acquire_ok idelock s Q6)).
  destruct (ide_finish_ok s2 b q Q5) as (w & l & E2 & Hs). change (is_bufs s2) with (is_bufs s) in Hs. change (av s2) with (av s) in Hs.
  set (s3 := set_ihw w (set_ibufs l s2)) in *. set (c4 := set_woken (woken c0 ++ [buf_chan b]) c1). set (s4 := put c4 s3 : ist W).
  assert (E3 : Klock.wakeup (buf_chan b) s3 = Ok tt s4) by done.
  assert (Hl : l = (serve b (is_bufs s, a_disks (av s))).1) by (by rewrite <- Hs).
  assert (Hib : forall c, c <> b -> ibuf s4 c = ibuf s c).
  { intros c Hc. unfold ibuf. change (is_bufs s4) with l. by rewrite Hl, serve_bufs. }
  assert (Hc4 : chain s4 (idequeue s4) q) by (apply (qchain_ext s); [done|exact Qc]).
  assert (Hll : length l = length (is_bufs s)) by (rewrite Hl; apply serve_length).
  assert (Hd4 : drained s4 q = drained s (b :: q)) by (unfold drained, serve_all; cbn [foldl]; rewrite <- Hs; done).
  set (c5 := set_woken (woken c0 ++ [buf_chan b]) c0).
  assert (Hrel : forall w', Klock.release idelock (set_ihw w' s4) = Ok tt (put c5 (set_ihw w' s4))).
  { intros w'. apply Klock.release_after; [exact Q6|done]. }
  assert (Hq : forall w', started (set_ihw w' s4) q -> queued (put c5 (set_ihw w' s4)) q).
  { intros w' Hst. constructor; try done.
    - apply (qchain_ext s4); [done|exact Hc4].
    - change (length (is_qnext s) = length l). by rewrite Hll.
    - intros c Hc. assert (Hne : c <> b) by (intros ->; done). destruct (Q4 c ltac:(set_solver)) as (G1 & G2 & G3).
      change (ibuf (put c5 (set_ihw w' s4)) c) with (ibuf s4 c). rewrite Hib by done. split; [|done]. change ((c < length l)%nat). lia. }
  assert (Erun : ideintr s = (match qnext s b with None => ret tt | Some _ => idestart (qnext s b) end ;;; Klock.release idelock) s4).
  { unfold ideintr. step E1. unfold gets at 1, bind at 1. cbn [seqr]. change (idequeue s1) with (idequeue s). rewrite Q1.
    unfold modify at 1, bind at 1. cbn [seqr]. change (set_queue (qnext s1 b) s1) with s2. step E2. step E3. done. }
  rewrite Erun. destruct q as [|c q].
  - change (qnext s b = None) in Qc. rewrite Qc. exists (put c5 s4). split; [exact (Hrel (is_hw s4))|]. split; [by apply (Hq (is_hw s4))|].
    split; [exact Hd4|]. by repeat split.
  - destruct Qc as [Qn Qc]. rewrite Qn. destruct (start_next s4 q c) as (w' & E4 & Hst & Hd).
    { exact Hc4. }
    { rewrite Hib by set_solver. by apply Q4; set_solver+. }
    step E4. exists (put c5 (set_ihw w' s4)). split; [exact (Hrel w')|]. split; [by apply Hq|]. split; [by rewrite <- Hd4, <- Hd|]. by repeat split.
Qed.

(** ** Appending *)

Lemma queue_end_ok s q : forall pp fuel,
  chain s (match pp with None => idequeue s | Some b => qnext s b end) q -> (length q < fuel)%nat ->
  queue_end s pp fuel = Some (match last q with Some a => Some a | None => pp end).
Proof.
  induction q as [|b q IH]; intros pp fuel Hc Hf; (destruct fuel as [|fuel]; [cbn in Hf; lia|]); cbn [queue_end].
  - cbn in Hc. by rewrite Hc.
  - destruct Hc as [-> Hc]. rewrite (IH (Some b) fuel Hc) by (cbn in Hf; lia). rewrite last_cons. by destruct (last q).
Qed.

Lemma queue_short (q : list nat) n : NoDup q -> (forall b, b ∈ q -> (b < n)%nat) -> (length q <= n)%nat.
Proof.
  intros HN Hq. rewrite <- (length_seq n 0). apply submseteq_length, NoDup_submseteq; [done|]. intros b Hb. apply elem_of_seq. specialize (Hq b Hb). lia.
Qed.

(** Appending to a chain whose last pointer is redirected. *)
Lemma chain_snoc s s' p q b :
  chain s p q -> NoDup q -> b ∉ q -> qnext s' b = None ->
  (forall c, c ∈ q -> last q <> Some c -> qnext s' c = qnext s c) -> (forall a, last q = Some a -> qnext s' a = Some b) -> q <> [] ->
  chain s' p (q ++ [b]).
Proof.
  revert p. induction q as [|c q IH]; intros p Hc HN Hb Hn Hsame Hlast Hne; [done|]. destruct Hc as [-> Hc]. cbn [app chain]. split; [done|].
  apply NoDup_cons in HN as [Hcq HN]. destruct q as [|e q].
  - cbn. rewrite (Hlast c) by done. by split.
  - rewrite last_cons_cons in *. rewrite Hsame; [|set_solver+|].
    + apply IH; try done; [set_solver|]. intros c' Hc' Hl. apply Hsame; [set_solver|done].
    + intros E. apply Hcq. by apply last_Some_elem_of.
Qed.

Lemma ide_append_ok s q b :
  chain s (idequeue s) q -> NoDup q -> (forall c, c ∈ q -> (c < length (is_bufs s))%nat) -> length (is_qnext s) = length (is_bufs s) ->
  b ∉ q -> (b < length (is_bufs s))%nat ->
  exists p n, ide_append b s = Ok tt (set_queue p (set_qnext n s)) /\ length n = length (is_qnext s) /\
    chain (set_queue p (set_qnext n s)) p (q ++ [b]) /\ (p = Some b <-> q = []).
Proof.
  intros Hc HN Hr Hl Hb Hbr. set (s1 := set_qnext (<[b := None]> (is_qnext s)) s).
  assert (Hn1 : forall c, qnext s1 c = if decide (c = b) then None else qnext s c).
  { intros c. unfold qnext, s1. cbn. destruct (decide (c = b)) as [->|]; [by rewrite list_lookup_insert_eq by lia|by rewrite list_lookup_insert_ne]. }
  assert (Hc1 : chain s1 (idequeue s1) q) by (apply (qchain_ext s); [intros c Hcq; rewrite Hn1, decide_False by set_solver; done|done]).
  assert (Hq : queue_end s1 None (S (length (is_bufs s1))) = Some (last q)).
  { rewrite (queue_end_ok s1 q None) by (done || (change (length (is_bufs s1)) with (length (is_bufs s)); pose proof (queue_short q _ HN Hr); lia)). by destruct (last q). }
  assert (E : ide_append b s = modify (fun s => match last q with None => set_queue (Some b) s | Some a => set_qnext (<[a := Some b]> (is_qnext s)) s end) s1).
  { unfold ide_append. unfold modify at 1, get, bind. cbn [seqr]. fold s1. by rewrite Hq. }
  rewrite E. destruct (last q) as [a|] eqn:El.
  - assert (Ha : a ∈ q) by (by apply last_Some_elem_of). assert (Hne : q <> []) by (by intros ->).
    exists (idequeue s), (<[a := Some b]> (<[b := None]> (is_qnext s))). split; [done|]. split; [by rewrite !length_insert|]. split.
    + apply (chain_snoc s1); try done.
      * unfold qnext. cbn. rewrite list_lookup_insert_ne by set_solver. by rewrite list_lookup_insert_eq by lia.
      * intros c Hcq Hcl. unfold qnext. cbn. rewrite list_lookup_insert_ne by congruence. done.
      * intros a' [= <-]%(eq_trans (eq_sym El)). unfold qnext. cbn. rewrite list_lookup_insert_eq; [done|]. rewrite length_insert, Hl. by apply Hr.
    + split; [|done]. intros Ei. destruct q as [|c q]; [done|]. destruct Hc as [Hi _]. rewrite Hi in Ei. injection Ei as ->. set_solver.
  - apply last_None in El as ->. exists (Some b), (<[b := None]> (is_qnext s)). split; [done|]. split; [by rewrite length_insert|]. split; [|done].
    cbn. split; [done|]. unfold qnext. cbn. by rewrite list_lookup_insert_eq by lia.
Qed.

(** ** A request *)

Record requestable (s : ist W) (q : list nat) (b : nat) : Prop := {
  rq_new : b ∉ q;
  rq_buf : (b < length (is_bufs s))%nat;
  rq_lock : sl_locked (b_lock (ibuf s b)) = true;
  rq_free : sl_lock (Ide.iref (W := W) b) ∉ held (is_ctx s);
  rq_pending : pending (ibuf s b);
  rq_dev : b_dev (ibuf s b) = 0 \/ havedisk1 s = true;
  rq_block : 0 <= b_blockno (ibuf s b) < FSSIZE
}.

Lemma ide_iref_ok b : slref_ok (Ide.iref (W := W) b).
Proof. by constructor. Qed.

(** The rest of a request for [b] that sleeps: resumed, with the driver's lock
    free, it returns if the buffer has been served, and otherwise sleeps on it
    again, and so on for [n] wakeups in vain. *)
Fixpoint awaits (b : nat) (n : nat) (k : ist W -> result (ist W) unit) : Prop :=
  forall s : ist W, idelock ∉ held (is_ctx s) ->
    (~ pending (ibuf s b) -> k s = Ok tt s) /\
    (pending (ibuf s b) ->
     match n with
     | O => True
     | S n => exists k', k s = Switch (put (Klock.dozing (buf_chan b) (is_ctx s)) s) k' /\ awaits b n k'
     end).

(** The continuation of [sleep] in [wait_done]. *)
Definition wait_rest (b fuel : nat) (s : ist W) : result (ist W) unit :=
  seqr (seqr (Klock.acquire idelock s) (fun _ => wait_done b fuel)) (fun _ => Klock.release idelock).

Lemma wait_done_sleeps (s : ist W) b fuel c : idelock ∉ held c -> is_ctx s = set_held ({[idelock]} ∪ held c) c -> pending (ibuf s b) ->
  (wait_done b (S fuel) ;;; Klock.release idelock) s = Switch (put (Klock.dozing (buf_chan b) c) s) (wait_rest b fuel).
Proof.
  intros Hc Hx Hp. unfold bind at 1. cbn [wait_done]. unfold gets at 1, bind at 1. cbn [seqr]. rewrite (proj2 (Z.eqb_neq _ _)) by exact Hp. cbn [negb].
  unfold bind at 1. by rewrite (@Klock.sleep_after (ist W) ist_ctx (buf_chan b) idelock c s Hc Hx).
Qed.

Lemma wait_rest_awaits b n : forall fuel, (n < fuel)%nat -> awaits b n (wait_rest b fuel).
Proof.
  assert (L : forall s fuel, idelock ∉ held (is_ctx s) -> let s1 := put (set_held ({[idelock]} ∪ held (is_ctx s)) (is_ctx s)) s : ist W in
    wait_rest b fuel s = (wait_done b fuel ;;; Klock.release idelock) s1).
  { intros s fuel Hf. unfold wait_rest. by rewrite (@Klock.acquire_ok (ist W) ist_ctx idelock s Hf). }
  assert (D : forall s fuel, idelock ∉ held (is_ctx s) -> ~ pending (ibuf s b) -> wait_rest b (S fuel) s = Ok tt s).
  { intros s fuel Hf Hn. rewrite L by done. set (s1 := put _ s : ist W). unfold bind at 1. cbn [wait_done]. unfold gets at 1, bind at 1. cbn [seqr].
    change (ibuf s1 b) with (ibuf s b). unfold pending in Hn. destruct (Z.eqb_spec (Z.land (b_flags (ibuf s b)) (Z.lor B_VALID B_DIRTY)) B_VALID); [|done].
    cbn [negb]. unfold ret. cbn [seqr]. rewrite (Klock.release_after idelock (is_ctx s)) by done. by destruct s. }
  induction n as [|n IH]; intros [|fuel] Hn; try lia; intros s Hf; (split; [by apply D|]); intros Hp; [done|].
  exists (wait_rest b fuel). split; [|apply IH; lia]. rewrite L by done. by rewrite (wait_done_sleeps _ b fuel (is_ctx s)).
Qed.

Lemma iderw_ok (s : ist W) q b : queued s q -> requestable s q b ->
  exists s1 k, iderw b s = Switch s1 k /\ queued s1 (q ++ [b]) /\ drained s1 (q ++ [b]) = serve b (drained s q) /\
    is_bufs s1 = is_bufs s /\ is_ctx s1 = Klock.dozing (buf_chan b) (is_ctx s) /\ havedisk1 s1 = havedisk1 s /\
    awaits b (IDEPOLLS - 2) k.
Proof.
  intros [Q1 Q2 Q3 Q4 Q5 Q6] [R1 R2 R3 R4 R5 R6 R7]. set (c0 := is_ctx s) in *. set (c1 := set_held ({[idelock]} ∪ held c0) c0). set (s1 := put c1 s : ist W).
  assert (E1 : Klock.acquire idelock s = Ok tt s1) by exact (Klock.acquire_ok idelock s Q6).
  destruct (ide_append_ok s1 q b) as (p & n & E2 & Hn & Hc & Hp); try done; [by apply (qchain_ext s)|intros c Hcq; by apply Q4|].
  set (s2 := set_queue p (set_qnext n s1)) in *.
  assert (Hq2 : forall w, started (set_ihw w s2) (q ++ [b]) -> queued (put (Klock.dozing (buf_chan b) c0) (set_ihw w s2)) (q ++ [b])).
  { intros w Hst. constructor; try done.
    - by apply (qchain_ext s2).
    - apply NoDup_app. split; [done|]. split; [|apply NoDup_singleton]. intros c Hcq ->%list_elem_of_singleton. done.
    - change (length n = length (is_bufs s)). by rewrite Hn.
    - intros c [Hcq| ->%list_elem_of_singleton]%elem_of_app; [by apply Q4|]. by split. }
  assert (E3 : exists w, (if bool_decide (p = Some b) then idestart (Some b) else ret tt) s2 = Ok tt (set_ihw w s2) /\
    started (set_ihw w s2) (q ++ [b]) /\ drained (set_ihw w s2) (q ++ [b]) = serve b (drained s q)).
  { destruct q as [|a q].
    - rewrite bool_decide_eq_true_2 by (by apply Hp). destruct (start_next s2 [] b Hc R7) as (w & E & Hst & Hd). exists w. done.
    - rewrite bool_decide_eq_false_2 by (intros E%Hp; done). exists (is_hw s2). split; [done|]. split; [exact Q5|].
      unfold drained, serve_all. by rewrite foldl_app. }
  destruct E3 as (w & E3 & Hst & Hd).
  pose proof (wait_done_sleeps (set_ihw w s2) b (IDEPOLLS - 1) c0 Q6 eq_refl R5) as Ek.
  pose proof (wait_rest_awaits b (IDEPOLLS - 2) (IDEPOLLS - 1) ltac:(unfold IDEPOLLS; lia)) as Hk.
  exists (put (Klock.dozing (buf_chan b) c0) (set_ihw w s2)), (wait_rest b (IDEPOLLS - 1)). split; [|split; [by apply Hq2|do 4 (split; [done|]); exact Hk]].
  unfold iderw. step (holdingsleep_ok (Ide.iref b) s (ide_iref_ok b) R4). change (sl_get (Ide.iref b) s) with (b_lock (ibuf s b)). rewrite R3. cbn [negb].
  unfold gets at 1, bind at 1. cbn [seqr]. rewrite (proj2 (Z.eqb_neq _ _)) by exact R5. unfold gets at 1, bind at 1. cbn [seqr].
  assert (Ed : negb (b_dev (ibuf s b) =? 0) && negb (havedisk1 s) = false) by (destruct R6 as [-> | ->]; [done|apply andb_false_r]). rewrite Ed.
  step E1. step E2. unfold gets at 1, bind at 1. cbn [seqr]. change (idequeue s2) with p. step E3. exact Ek.
Qed.

(** * Runs

    Requests, interrupts, and changes the owners of other buffers make; the
    state after them, and the queue. *)

Inductive event := Request (b : nat) | Interrupt | Change (b : nat) (f : buf -> buf).

Inductive runs : ist W -> list nat -> list event -> ist W -> list nat -> Prop :=
| runs_nil s q : runs s q [] s q
| runs_request s q b s1 k es s' q' :
    requestable s q b -> b_dev (ibuf s b) = 1 -> iderw b s = Switch s1 k -> runs s1 (q ++ [b]) es s' q' -> runs s q (Request b :: es) s' q'
| runs_interrupt s b q s1 es s' q' :
    ideintr s = Ok tt s1 -> runs s1 q es s' q' -> runs s (b :: q) (Interrupt :: es) s' q'
| runs_change s q b f es s' q' :
    b ∉ q -> runs (set_ibufs (alter f b (is_bufs s)) s) q es s' q' -> runs s q (Change b f :: es) s' q'.

(** The same on the in-memory disk of [memide.c], which serves each request at
    once and needs no interrupts. *)
Fixpoint memide_run (es : list event) : M bst unit :=
  match es with
  | [] => ret tt
  | Request b :: es => Bio.iderw b ;;; memide_run es
  | Interrupt :: es => memide_run es
  | Change b f :: es => modify (fun t => set_bufs (alter f b (bc_bufs t)) t) ;;; memide_run es
  end.

Lemma alter_comm {A} (f g : A -> A) (i j : nat) (l : list A) : i <> j -> alter f i (alter g j l) = alter g j (alter f i l).
Proof.
  intros Hne. apply list_eq. intros k. destruct (decide (k = i)) as [->|Hi]; [|destruct (decide (k = j)) as [->|Hj]].
  - by rewrite list_lookup_alter_eq, !list_lookup_alter_ne, list_lookup_alter_eq by done.
  - by rewrite list_lookup_alter_ne, !list_lookup_alter_eq, list_lookup_alter_ne by done.
  - by rewrite !list_lookup_alter_ne by done.
Qed.

Lemma serve_alter b c f l d : c <> b -> serve c (alter f b l, d) = (alter f b (serve c (l, d)).1, (serve c (l, d)).2).
Proof.
  intros Hne. unfold serve. cbn [fst snd]. rewrite list_lookup_alter_ne by done. destruct (has _ _); cbn [fst snd]; by rewrite alter_comm.
Qed.

Lemma serve_all_alter q b f : forall x, b ∉ q -> serve_all q (alter f b x.1, x.2) = (alter f b (serve_all q x).1, (serve_all q x).2).
Proof.
  induction q as [|c q IH]; intros x Hb; [done|]. unfold serve_all in *. cbn [foldl]. destruct x as [l d]. cbn [fst snd].
  rewrite serve_alter by set_solver. apply IH. set_solver.
Qed.

Lemma serve_all_buf q b : forall x, b ∉ q -> (serve_all q x).1 !! b = x.1 !! b.
Proof.
  induction q as [|c q IH]; intros x Hb; [done|]. unfold serve_all in *. cbn [foldl]. rewrite IH by set_solver. apply serve_bufs. set_solver.
Qed.

Lemma queued_change s q b f : queued s q -> b ∉ q -> queued (set_ibufs (alter f b (is_bufs s)) s) q.
Proof.
  intros [Q1 Q2 Q3 Q4 Q5 Q6] Hb. assert (Hib : forall c, c ∈ q -> ibuf (set_ibufs (alter f b (is_bufs s)) s) c = ibuf s c).
  { intros c Hc. unfold ibuf. cbn. rewrite list_lookup_alter_ne; [done|]. intros ->. done. }
  constructor; try done.
  - by apply (qchain_ext s).
  - cbn. by rewrite length_alter.
  - intros c Hc. rewrite Hib by done. destruct (Q4 c Hc) as (? & ? & ?). split; [cbn; by rewrite length_alter|done].
  - unfold started in *. destruct q as [|c q]; [done|]. rewrite Hib by set_solver+. exact Q5.
Qed.

(** The two drivers clear and set the flags in different ways. *)
Lemma flags_swap f : Z.lor (Z.land f (Z.lnot B_DIRTY)) B_VALID = Z.land (Z.lor f B_VALID) (Z.lnot B_DIRTY).
Proof. rewrite Z.land_lor_distr_l. done. Qed.

Lemma flags_clean f : has f B_DIRTY = false -> Z.land (Z.lor f B_VALID) (Z.lnot B_DIRTY) = Z.lor f B_VALID.
Proof.
  intros Hh. rewrite Z.land_lor_distr_l. f_equal. apply Z.bits_inj'. intros n Hn. rewrite Z.land_spec, Z.lnot_spec by done.
  destruct (Z.testbit B_DIRTY n) eqn:E; [|apply andb_true_r]. rewrite andb_false_r. symmetry.
  unfold has in Hh. apply negb_false_iff, Z.eqb_eq in Hh. assert (Hb : Z.testbit (Z.land f B_DIRTY) n = false) by (rewrite Hh; apply Z.bits_0).
  rewrite Z.land_spec, E, andb_true_r in Hb. done.
Qed.

(** One request on the in-memory disk. *)
Lemma memide_serve (t : bst) b d0 :
  held (bc_ctx t) = ∅ -> sl_locked (b_lock (getb t b)) = true -> pending (getb t b) -> b_dev (getb t b) = 1 -> b_blockno (getb t b) < disksize t ->
  exists t', Bio.iderw b t = Ok tt t' /\ (bc_bufs t', Disks d0 (disk t')) = serve b (bc_bufs t, Disks d0 (disk t)) /\
    bc_ctx t' = bc_ctx t /\ disksize t' = disksize t.
Proof.
  intros Hh Hl Hp Hd Hb. assert (Hsl : sl_lock (bref b) ∉ held (view t)) by (change (sl_lock (bref b) ∉ held (bc_ctx t)); rewrite Hh; set_solver+).
  unfold Bio.iderw. step (holdingsleep_ok (bref b) t (bref_ok b) Hsl). change (sl_get (bref b) t) with (b_lock (getb t b)). rewrite Hl. cbn [negb].
  unfold field at 1, gets at 1, bind at 1. cbn [seqr id]. rewrite (proj2 (Z.eqb_neq _ _)) by exact Hp. rewrite Hd. cbn [Z.eqb Pos.eqb negb].
  unfold gets at 1, bind at 1. cbn [seqr]. rewrite (proj2 (Z.leb_gt _ _)) by done. unfold serve. cbn [fst snd]. fold (getb t b).
  assert (Hdev : dev1 (getb t b) = true) by (unfold dev1; by rewrite Hd). rewrite Hdev. cbn [getd putd disk0 disk1].
  destruct (has (b_flags (getb t b)) B_DIRTY) eqn:Edirty; unfold bind, gets, setb, modify; cbn [seqr]; eexists; (split; [reflexivity|]);
    cbn; rewrite list_alter_alter_eq; (split; [|done]); f_equal; apply list_alter_ext; try done; intros x Hx; unfold finish, compose; cbn.
  - by rewrite flags_swap.
  - unfold getb in Edirty, Hdev |- *. rewrite Hx in *. cbn in *. rewrite Hdev. f_equal. symmetry. by apply flags_clean.
Qed.

Lemma runs_simulation s q es s' q' : runs s q es s' q' -> queued s q -> forall t : bst,
  held (bc_ctx t) = ∅ -> disksize t = FSSIZE -> bc_bufs t = (drained s q).1 -> disk t = disk1 (drained s q).2 ->
  queued s' q' /\ exists t', memide_run es t = Ok tt t' /\ bc_bufs t' = (drained s' q').1 /\ disk t' = disk1 (drained s' q').2.
Proof.
  induction 1 as [s q|s q b s1 k es s' q' R Hdev E _ IH|s b q s1 es s' q' E _ IH|s q b f es s' q' Hb _ IH]; intros Q t Hh Hz Hbufs Hdisk.
  - split; [done|]. exists t. done.
  - destruct (iderw_ok s q b Q R) as (s1' & k' & E' & Q1 & Hd & Hbs & Hc & _). rewrite E in E'. injection E' as <- _.
    assert (Hg : getb t b = ibuf s b) by (unfold getb, ibuf; rewrite Hbufs; unfold drained; by rewrite serve_all_buf by apply R).
    destruct (memide_serve t b (disk0 (drained s q).2)) as (t1 & E1 & Hs & Hc1 & Hz1); rewrite ?Hg; try apply R; try done; [rewrite Hz; apply R|].
    rewrite Hbufs, Hdisk in Hs. assert (Ed : (drained s q).2 = Disks (disk0 (drained s q).2) (disk1 (drained s q).2)) by (by destruct (drained s q).2).
    rewrite <- Ed, <- surjective_pairing, <- Hd in Hs.
    destruct (IH Q1 t1) as [Q' (t' & E2 & Hf)]; [by rewrite Hc1|by rewrite Hz1|by rewrite <- Hs|by rewrite <- Hs|]. split; [done|].
    exists t'. cbn [memide_run]. step E1. done.
  - destruct (ideintr_ok s b q Q) as (s1' & E' & Q1 & Hd & _). rewrite E in E'. injection E' as <-. apply IH; try done; by rewrite Hd.
  - set (t1 := set_bufs (alter f b (bc_bufs t)) t). pose proof (serve_all_alter q b f (is_bufs s, a_disks (av s)) Hb) as Hd.
    destruct (IH (queued_change s q b f Q Hb) t1) as [Q' (t' & E2 & Hf)]; try done.
    + cbn. unfold drained. cbn [is_bufs set_ibufs is_hw]. cbn [fst snd] in Hd. rewrite Hd. cbn. by rewrite Hbufs.
    + cbn. unfold drained. cbn [is_bufs set_ibufs is_hw]. cbn [fst snd] in Hd. rewrite Hd. cbn. by rewrite Hdisk.
    + split; [done|]. exists t'. cbn [memide_run]. unfold modify at 1, bind at 1. cbn [seqr]. fold t1. done.
Qed.

(** * Progress *)

Fixpoint interrupts (n : nat) : M (ist W) unit :=
  match n with
  | O => ret tt
  | S n => ideintr ;;; interrupts n
  end.

(** [n] interrupts finish the first [n] requests, waking each of them. *)
Lemma interrupts_take n : forall s q, queued s q -> (n <= length q)%nat ->
  exists s', interrupts n s = Ok tt s' /\ queued s' (drop n q) /\ drained s' (drop n q) = drained s q /\
    is_ctx s' = set_woken (woken (is_ctx s) ++ (buf_chan <$> take n q)) (is_ctx s).
Proof.
  induction n as [|n IH]; intros s q Q Hn.
  - exists s. split; [done|]. split; [done|]. split; [done|]. cbn. rewrite app_nil_r. by destruct (is_ctx s).
  - destruct q as [|b q]; [cbn in Hn; lia|]. destruct (ideintr_ok s b q Q) as (s1 & E & Q1 & Hd & Hc & _).
    destruct (IH s1 q Q1 ltac:(cbn in Hn; lia)) as (s' & E' & Q' & Hd' & Hc'). exists s'. cbn [interrupts take drop fmap list_fmap]. step E.
    split; [done|]. split; [done|]. split; [by rewrite Hd'|]. rewrite Hc', Hc. cbn [woken set_woken]. by rewrite <- app_assoc.
Qed.

Lemma finish_done bp : ~ pending (finish bp).
Proof.
  unfold pending, finish. cbn [b_flags set_flags]. intros H1. apply H1. rewrite <- flags_swap. rewrite Z.land_lor_distr_l, <- Z.land_assoc.
  change (Z.land B_VALID (Z.lor B_VALID B_DIRTY)) with B_VALID. change (Z.land (Z.lnot B_DIRTY) (Z.lor B_VALID B_DIRTY)) with B_VALID.
  apply Z.bits_inj'. intros n _. rewrite Z.lor_spec, Z.land_spec. by destruct (Z.testbit B_VALID n), (Z.testbit (b_flags bp) n).
Qed.

Lemma serve_done b x : (b < length x.1)%nat -> ~ pending (default zero_buf ((serve b x).1 !! b)).
Proof.
  intros Hb. destruct (lookup_lt_is_Some_2 _ _ Hb) as [bp Hbp]. unfold serve. destruct (has _ _); cbn; rewrite list_lookup_alter_eq, Hbp; apply finish_done.
Qed.

Lemma serve_all_length q : forall x, length (serve_all q x).1 = length x.1.
Proof. induction q as [|b q IH]; intros x; [done|]. unfold serve_all in *. cbn [foldl]. by rewrite IH, serve_length. Qed.

(** C22: Every request is served, in its turn.  [iderw] of a locked buffer that
    is not queued puts it last and sleeps on it.  However often it is resumed
    before it has been served, it sleeps on the buffer again.  The interrupts of
    the requests before it wake those and leave it pending; its own interrupt
    wakes it, with the buffer read or written and the queue empty, and resumed
    then [iderw] returns. *)
Theorem ide_request_finishes (s : ist W) (q : list nat) (b : nat) :
  queued s q -> requestable s q b ->
  exists s1 k, iderw b s = Switch s1 k /\ queued s1 (q ++ [b]) /\
    is_ctx s1 = Klock.dozing (buf_chan b) (is_ctx s) /\ awaits b (IDEPOLLS - 2) k /\
    (forall n, (n <= length q)%nat -> exists s2 k', interrupts n s1 = Ok tt s2 /\ queued s2 (drop n q ++ [b]) /\
       woken (is_ctx s2) = woken (is_ctx s) ++ (buf_chan <$> take n q) /\
       k s2 = Switch (put (Klock.dozing (buf_chan b) (is_ctx s2)) s2) k') /\
    exists s2, interrupts (length q + 1) s1 = Ok tt s2 /\ queued s2 [] /\
      woken (is_ctx s2) = woken (is_ctx s) ++ (buf_chan <$> q) ++ [buf_chan b] /\
      (is_bufs s2, a_disks (av s2)) = serve b (drained s q) /\ k s2 = Ok tt s2.
Proof.
  intros Q R. destruct (iderw_ok s q b Q R) as (s1 & k & E & Q1 & Hd & _ & Hc & _ & Hk). exists s1, k. do 4 (split; [done|]). split.
  - intros n Hn. destruct (interrupts_take n s1 _ Q1) as (s2 & E2 & Q2 & _ & Hc2); [rewrite length_app; lia|].
    rewrite drop_app_le in Q2 by done. rewrite take_app_le in Hc2 by done.
    destruct (qu_bufs _ _ Q2 b) as (_ & Hp & _); [set_solver+|]. destruct (Hk s2 (qu_free _ _ Q2)) as [_ Hs].
    destruct (Hs Hp) as (k' & Ek & _). exists s2, k'. split; [done|]. split; [done|]. split; [by rewrite Hc2, Hc|done].
  - assert (Hl : length (q ++ [b]) = (length q + 1)%nat) by by rewrite length_app.
    destruct (interrupts_take (length q + 1) s1 _ Q1) as (s2 & E2 & Q2 & Hd2 & Hc2); [lia|].
    rewrite drop_ge in Q2, Hd2 by lia. rewrite take_ge in Hc2 by lia. rewrite Hd in Hd2. exists s2. do 2 (split; [done|]).
    split; [by rewrite Hc2, Hc, fmap_app|]. split; [done|]. apply (Hk s2 (qu_free _ _ Q2)).
    assert (Hb2 : is_bufs s2 = (serve b (drained s q)).1) by (by rewrite <- Hd2). unfold ibuf. rewrite Hb2. apply serve_done.
    unfold drained. rewrite serve_all_length. apply R.
Qed.

(** C17: The driver behaves as the in-memory disk.  However requests for disk 1,
    interrupts and changes to other buffers are interleaved, when no request is
    left the buffers and the disk are what [memide.c] would have made of the
    same requests, served at once in the order they were made. *)
Theorem ide_refines_memide (s s' : ist W) (es : list event) (c : kctx) (ws : list (Z * bytes)) :
  queued s [] -> runs s [] es s' [] -> held c = ∅ ->
  exists t', memide_run es (Bst c (is_bufs s) (disk1 (a_disks (av s))) FSSIZE ws) = Ok tt t' /\
    bc_bufs t' = is_bufs s' /\ disk t' = disk1 (a_disks (av s')).
Proof.
  intros Q R Hc. by destruct (runs_simulation s [] es s' [] R Q (Bst c (is_bufs s) (disk1 (a_disks (av s))) FSSIZE ws) Hc eq_refl eq_refl eq_refl) as [_ H1].
Qed.
End ide_spec.

(** * A disk that is always ready *)

#[local] Instance ready_ports : Ports ata := {|
  port_in p a := (IDE_DRDY, a);
  port_out p x a :=
    if p =? 0x1f7 then set_phase (if x =? IDE_CMD_READ then Reading (drive a) (lba a) else Writing (drive a) (lba a)) a else set_reg p x a
|}.
#[local] Instance no_mmio : Mmio ata := {| mmio_in _ a := (0, a); mmio_out _ _ a := a |}.
#[local] Instance ready_strings : StringPorts ata := {|
  port_insl _ _ a := match a_phase a with Reading d sec => (block_of (getd d (a_disks a)) sec, set_phase Idle a) | _ => ([], a) end;
  port_outsl _ x a := match a_phase a with Writing d sec => set_phase Idle (store_block d sec x a) | _ => a end
|}.

#[local, program] Instance ready_disk : AtaDisk ata := {| ata_of a := a; ata_busy _ := 0%nat |}.
Next Obligation. intros p x w Hp. cbn. destruct (Z.eqb_spec p 0x1f7) as [->|]; [|done]. exfalso. revert Hp. by apply (bool_decide_unpack _). Qed.
Next Obligation. done. Qed.
Next Obligation. done. Qed.
Next Obligation. done. Qed.
Next Obligation. intros. unfold IDEPOLLS. lia. Qed.
Next Obligation. by left. Qed.
Next Obligation. done. Qed.
Next Obligation. intros w d sec E. cbn. by rewrite E. Qed.
Next Obligation. intros w d sec x E. cbn. by rewrite E. Qed.

(** Buffer 0 to be read from block 7, buffer 1 to be written to it. *)
Definition demo_bufs : list buf :=
  [Buf 0 1 7 (Sleep true 1) 1 0 0 zero_block; Buf B_DIRTY 1 7 (Sleep true 2) 1 0 0 (replicate 512 9)].
Definition demo_ide : ist ata := Ist (Kctx ∅ [] [] 1) demo_bufs [None; None] None true (Ata ∅ Idle (Disks ∅ ∅)).

Lemma demo_ide_queued : queued demo_ide [].
Proof. constructor; try done; [constructor|]. intros b Hb. by apply not_elem_of_nil in Hb. Qed.

Lemma demo_requestable b : (b < 2)%nat -> requestable demo_ide [] b.
Proof.
  intros Hb. destruct b as [|[|b]]; [| |lia]; (constructor; [set_solver+|cbn; lia|done|set_solver+|done|by right|done]).
Qed.

Lemma ide_request_finishes_witness :
  exists s1 k s2, iderw 1 demo_ide = Switch s1 k /\ slept (is_ctx s1) = [buf_chan 1] /\
    interrupts 1 s1 = Ok tt s2 /\ woken (is_ctx s2) = [buf_chan 1] /\ k s2 = Ok tt s2 /\
    disk1 (a_disks (is_hw s2)) = {[7 := replicate 512 9]}.
Proof.
  destruct (ide_request_finishes demo_ide [] 1 demo_ide_queued (demo_requestable 1 ltac:(lia))) as (s1 & k & E1 & _ & Hc & _ & _ & s2 & E2 & _ & Hw & E3 & E4).
  exists s1, k, s2. split; [exact E1|]. split; [by rewrite Hc|]. split; [exact E2|]. split; [exact Hw|]. split; [exact E4|]. injection E3 as _ E3. by rewrite E3.
Defined.

(** Buffer 0 is asked for first and so has the old contents. *)
Lemma ide_refines_memide_witness :
  exists s' t', runs demo_ide [] [Request 0; Request 1; Interrupt; Interrupt] s' [] /\
    memide_run [Request 0; Request 1; Interrupt; Interrupt] (Bst (Kctx ∅ [] [] 1) demo_bufs ∅ FSSIZE []) = Ok tt t' /\
    bc_bufs t' = is_bufs s' /\ disk t' = disk1 (a_disks (is_hw s')).
Proof.
  destruct (iderw_ok demo_ide [] 0 demo_ide_queued (demo_requestable 0 ltac:(lia))) as (s1 & k1 & E1 & Q1 & _ & B1 & C1 & D1 & _).
  assert (R1 : requestable s1 [0%nat] 1).
  { destruct (demo_requestable 1 ltac:(lia)) as [H1 H2 H3 H4 H5 H6 H7].
    constructor; unfold ibuf; rewrite ?B1, ?C1, ?D1; first [done | set_solver+]. }
  destruct (iderw_ok s1 [0%nat] 1 Q1 R1) as (s2 & k2 & E2 & Q2 & _).
  destruct (ideintr_ok s2 _ _ Q2) as (s3 & E3 & Q3 & _). destruct (ideintr_ok s3 _ _ Q3) as (s4 & E4 & Q4 & _).
  assert (R : runs demo_ide [] [Request 0; Request 1; Interrupt; Interrupt] s4 []).
  { eapply runs_request; [by apply demo_requestable; lia|done|exact E1|]. eapply runs_request; [exact R1|unfold ibuf; by rewrite B1|exact E2|].
    eapply runs_interrupt; [exact E3|]. eapply runs_interrupt; [exact E4|]. constructor. }
  destruct (ide_refines_memide demo_ide s4 _ (Kctx ∅ [] [] 1) [] demo_ide_queued R eq_refl) as (t' & E & H1 & H2).
  exists s4, t'. split; [exact R|]. split; [exact E|]. split; [exact H1|exact H2].
Defined.
