(* ===== verification/Bootmain.v ===== *)
(** The boot loader, [bootmain.c]: the kernel is an ELF file on disk 0 from
    sector 1 on, whose segments are copied to their physical addresses. *)

From S2P Require Import Prelude Params Mem Bytes Bio Exec Kbd Apic Ide IdeSpec.
Open Scope Z_scope.
Open Scope xv6_scope.

Definition SECTSIZE : Z := 512.

(** Physical memory, which the loader addresses directly, and the hardware. *)
Record bootst (W : Type) := Boot { bm_mem : mem; bm_hw : W }.
Arguments Boot {W}.
Arguments bm_mem {W}.
Arguments bm_hw {W}.

(** * [struct elfhdr] and [struct proghdr] in memory *)

(** The fields the loader uses, by the words of memory. *)
Record segment := Segment { sg_off : Z; sg_paddr : Z; sg_filesz : Z; sg_memsz : Z }.

(** A scratch space for the first page of the file. *)
Definition SCRATCH : Z := 0x10000.

(** [insl] stores what it reads. *)
Fixpoint store (m : mem) (a : Z) (d : bytes) : mem :=
  match d with
  | [] => m
  | x :: d => store (wr m a x) (a + 1) d
  end.

Section bootmain.
Context {W : Type} `{StringPorts W}.

Definition bt_in {A} (f : W -> A * W) : M (bootst W) A := fun s => let '(a, w) := f (bm_hw s) in Ok a (Boot (bm_mem s) w).
Definition bt_out (f : W -> W) : M (bootst W) unit := modify (fun s => Boot (bm_mem s) (f (bm_hw s))).
Definition bt_mem (f : mem -> mem) : M (bootst W) unit := modify (fun s => Boot (f (bm_mem s)) (bm_hw s)).

Fixpoint wait_ready (fuel : nat) : M (bootst W) unit :=
  match fuel with
  | O => nofuel
  | S fuel => r <- bt_in (inb 0x1F7) ;; if negb (Z.land r 0xC0 =? 0x40) then wait_ready fuel else ret tt
  end.

Definition waitdisk : M (bootst W) unit := wait_ready IDEPOLLS.

(** Read a single sector at offset into dst. *)
Definition readsect (dst offset : Z) : M (bootst W) unit :=
  waitdisk ;;;
  bt_out (outb 0x1F2 1) ;;;
  bt_out (outb 0x1F3 offset) ;;;
  bt_out (outb 0x1F4 (Z.shiftr offset 8)) ;;;
  bt_out (outb 0x1F5 (Z.shiftr offset 16)) ;;;
  bt_out (outb 0x1F6 (Z.lor (Z.shiftr offset 24) 0xE0)) ;;;
  bt_out (outb 0x1F7 0x20) ;;;
  waitdisk ;;;
  d <- bt_in (port_insl 0x1F0 (Z.to_nat (SECTSIZE / 4))) ;;
  bt_mem (fun m => store m dst d).

Fixpoint sectors (pa epa offset : Z) (fuel : nat) : M (bootst W) unit :=
  match fuel with
  | O => nofuel
  | S fuel =>
      if pa <? epa then readsect pa offset ;;; sectors (u32 (pa + SECTSIZE)) epa (u32 (offset + 1)) fuel else ret tt
  end.

(** Read 'count' bytes at 'offset' from kernel into physical address 'pa'. *)
Definition readseg (pa count offset : Z) : M (bootst W) unit :=
  let epa := u32 (pa + count) in
  let pa := u32 (pa - offset mod SECTSIZE) in
  let offset := u32 (offset / SECTSIZE + 1) in
  sectors pa epa offset (Z.to_nat (count / SECTSIZE) + 3).

(** The header at [ph]. *)
Definition proghdr (m : mem) (ph : Z) : segment :=
  Segment (load32 m (ph + 4)) (load32 m (ph + 12)) (load32 m (ph + 16)) (load32 m (ph + 20)).

(** Load each program segment. *)
Fixpoint load_all (ph eph : Z) (fuel : nat) : M (bootst W) unit :=
  match fuel with
  | O => nofuel
  | S fuel =>
      if ph <? eph then
        h <- gets (fun s => proghdr (bm_mem s) ph) ;;
        let pa := sg_paddr h in
        readseg pa (sg_filesz h) (sg_off h) ;;;
        h <- gets (fun s => proghdr (bm_mem s) ph) ;;
        (if sg_filesz h <? sg_memsz h
         then bt_mem (fun m => stosb m (u32 (pa + sg_filesz h)) 0 (Z.to_nat (sg_memsz h - sg_filesz h)))
         else ret tt) ;;;
        load_all (u32 (ph + PROGHDR)) eph fuel
      else ret tt
  end.

(** The entry point the loader calls; [None] when it returns. *)
Definition bootmain : M (bootst W) (option Z) :=
  readseg SCRATCH 4096 0 ;;;
  magic <- gets (fun s => load32 (bm_mem s) SCRATCH) ;;
  if negb (magic =? ELF_MAGIC) then ret None else
  ph <- gets (fun s => u32 (SCRATCH + load32 (bm_mem s) (SCRATCH + 28))) ;;
  n <- gets (fun s => rd (bm_mem s) (SCRATCH + 44) + 2 ^ 8 * rd (bm_mem s) (SCRATCH + 45)) ;;
  load_all ph (u32 (ph + n * PROGHDR)) (S (Z.to_nat n)) ;;;
  e <- gets (fun s => load32 (bm_mem s) (SCRATCH + 24)) ;;
  ret (Some e).
End bootmain.

(** * The file on the disk *)

Definition img (d : blockmap) (o : Z) : Z := u8 (nth (Z.to_nat (o mod SECTSIZE)) (block_of d (o / SECTSIZE + 1)) 0).

Definition img32 (d : blockmap) (o : Z) : Z :=
  img d o + 2 ^ 8 * img d (o + 1) + 2 ^ 16 * img d (o + 2) + 2 ^ 24 * img d (o + 3).

Definition img_segment (d : blockmap) (ph : Z) : segment :=
  Segment (img32 d (ph + 4)) (img32 d (ph + 12)) (img32 d (ph + 16)) (img32 d (ph + 20)).

Definition img_phoff (d : blockmap) : Z := img32 d 28.
Definition img_phnum (d : blockmap) : Z := img d 44 + 2 ^ 8 * img d 45.
Definition img_entry (d : blockmap) : Z := img32 d 24.

(** The segments of the file. *)
Definition segments (d : blockmap) : list segment :=
  (fun k => img_segment d (img_phoff d + Z.of_nat k * PROGHDR)) <$> seq 0 (Z.to_nat (img_phnum d)).

(** The addresses loading a segment may write to: whole sectors, and the
    zeros behind the file's part. *)
Definition seg_lo (g : segment) : Z := sg_paddr g - sg_off g mod SECTSIZE.
Definition nsect (count offset : Z) : Z := (count + offset mod SECTSIZE + (SECTSIZE - 1)) / SECTSIZE.
Definition seg_hi (g : segment) : Z := Z.max (seg_lo g + SECTSIZE * nsect (sg_filesz g) (sg_off g)) (sg_paddr g + sg_memsz g).

(** The segment is in the address space and away from the header. *)
Record seg_ok (g : segment) : Prop := {
  so_low : 0 <= seg_lo g;
  so_high : seg_hi g < 2 ^ 32;
  so_file : sg_off g + sg_filesz g < 2 ^ 32;
  so_sizes : sg_filesz g <= sg_memsz g;
  so_scratch : seg_hi g <= SCRATCH \/ SCRATCH + 4096 <= seg_lo g
}.

(** What a segment asks for. *)
Definition seg_loaded (d : blockmap) (m : mem) (g : segment) : Prop :=
  forall k, 0 <= k < sg_memsz g -> rd m (sg_paddr g + k) = if k <? sg_filesz g then img d (sg_off g + k) else 0.

(** Loading the later segment leaves the earlier one alone. *)
Definition apart (g h : segment) : Prop := seg_hi h <= sg_paddr g \/ sg_paddr g + sg_memsz g <= seg_lo h.

(** A kernel the loader can load. *)
Record bootable (d : blockmap) : Prop := {
  bo_magic : img32 d 0 = ELF_MAGIC;
  bo_header : img_phoff d + img_phnum d * PROGHDR <= 4096;
  bo_segs : Forall seg_ok (segments d);
  bo_apart : forall i j g h, segments d !! i = Some g -> segments d !! j = Some h -> (i < j)%nat -> apart g h
}.

(** * Proofs *)

Lemma rd_store d : forall m a b,
  rd (store m a d) b = if decide (a <= b < a + Z.of_nat (length d)) then u8 (nth (Z.to_nat (b - a)) d 0) else rd m b.
Proof.
  induction d as [|x d IH]; intros m a b; cbn [store length]; [by rewrite decide_False by lia|]. rewrite IH, rd_wr.
  destruct (decide (a = b)) as [->|Hne].
  - rewrite decide_False by lia. rewrite decide_True by lia. by rewrite Z.sub_diag.
  - destruct (decide (a + 1 <= b < a + 1 + Z.of_nat (length d))) as [Hd|Hd].
    + rewrite decide_True by lia. replace (Z.to_nat (b - a)) with (S (Z.to_nat (b - (a + 1)))) by lia. done.
    + by rewrite decide_False by lia.
Qed.

Section bootspec.
Context {W : Type} `{AtaDisk W}.

Abbreviation hw s := (ata_of (bm_hw s)).

(** Nothing but the polled status and the registers change in the disk. *)
Lemma wait_ok fuel : forall s, (ata_busy (bm_hw s) < fuel)%nat ->
  exists w, wait_ready fuel s = Ok tt (Boot (bm_mem s) w) /\ ata_of w = hw s.
Proof.
  induction fuel as [|fuel IH]; intros s Hf; [lia|]. cbn [wait_ready]. unfold bt_in, inb, bind. destruct (port_in 0x1f7 (bm_hw s)) as [v w] eqn:E.
  pose proof (ata_status (bm_hw s)) as Hs. pose proof (ata_turns (bm_hw s)) as Ht. rewrite E in *. cbn in Hs, Ht. cbn [seqr].
  unfold ready in Ht. change (Z.lor IDE_BSY IDE_DRDY) with 0xC0 in Ht. change IDE_DRDY with 0x40 in Ht.
  destruct (Z.land (u8 v) 0xC0 =? 0x40); cbn [negb].
  - by exists w.
  - destruct Ht as [|Hlt]; [done|]. destruct (IH (Boot (bm_mem s) w)) as (w' & E' & Hv); [cbn; lia|]. exists w'. split; [exact E'|].
    rewrite Hv. exact Hs.
Qed.

Lemma waitdisk_ok s : exists w, waitdisk s = Ok tt (Boot (bm_mem s) w) /\ ata_of w = hw s.
Proof. apply wait_ok, ata_max. Qed.

(** The registers name the sector on disk 0. *)
Definition boot_request (sec : Z) (a : ata) : ata :=
  set_reg 0x1f6 (u8 (Z.lor (Z.shiftr sec 24) 0xE0)) (set_reg 0x1f5 (u8 (Z.shiftr sec 16)) (set_reg 0x1f4 (u8 (Z.shiftr sec 8))
  (set_reg 0x1f3 (u8 sec) (set_reg 0x1f2 (u8 1) a)))).

Lemma boot_request_block sec a : 0 <= sec < 2 ^ 24 -> lba (boot_request sec a) = sec /\ drive (boot_request sec a) = false.
Proof.
  intros Hs. unfold lba, drive, boot_request. rewrite !reg_set.
  repeat (first [rewrite decide_True by done | rewrite decide_False by done]).
  rewrite !Z.shiftr_div_pow2, (Z.div_small sec (2 ^ 24)) by lia. change (u8 (Z.lor 0 0xE0)) with 0xE0.
  split; [|done]. change (0xE0 mod 16) with 0. unfold u8. zdiv.
Qed.

Lemma readsect_ok s dst sec : 0 <= sec < 2 ^ 24 ->
  exists w, readsect dst sec s = Ok tt (Boot (store (bm_mem s) dst (block_of (disk0 (a_disks (hw s))) sec)) w) /\ a_disks (ata_of w) = a_disks (hw s).
Proof.
  intros Hs. unfold readsect. destruct (waitdisk_ok s) as (w0 & E0 & V0). step E0.
  set (w1 := outb 0x1F7 0x20 (outb 0x1F6 (Z.lor (Z.shiftr sec 24) 0xE0) (outb 0x1F5 (Z.shiftr sec 16) (outb 0x1F4 (Z.shiftr sec 8) (outb 0x1F3 sec (outb 0x1F2 1 w0)))))).
  assert (V1 : ata_of w1 = set_phase (Reading false sec) (boot_request sec (hw s))).
  { unfold w1. unfold outb at 1. change (u8 0x20) with IDE_CMD_READ. rewrite ata_read.
    assert (V : ata_of (outb 0x1F6 (Z.lor (Z.shiftr sec 24) 0xE0) (outb 0x1F5 (Z.shiftr sec 16) (outb 0x1F4 (Z.shiftr sec 8) (outb 0x1F3 sec (outb 0x1F2 1 w0))))) = boot_request sec (hw s)).
    { unfold outb, boot_request. rewrite !ata_reg by set_solver. by rewrite V0. }
    rewrite V. destruct (boot_request_block sec (hw s) Hs) as [-> ->]. done. }
  unfold bt_out, modify. unfold bind at 1 2 3 4 5 6. cbn [seqr bm_mem bm_hw]. fold w1.
  destruct (waitdisk_ok (Boot (bm_mem s) w1)) as (w2 & E2 & V2). cbn [bm_mem bm_hw] in E2, V2. step E2.
  destruct (ata_in w2 false sec) as [D1 D2]; [by rewrite V2, V1|]. unfold bind, bt_in. change (Z.to_nat (SECTSIZE / 4)) with 128%nat.
  cbn [bm_hw bm_mem]. destruct (port_insl 0x1f0 128 w2) as [x w3]. cbn in D1, D2. exists w3. split.
  - cbn. rewrite D1, V2, V1. done.
  - rewrite D2, V2, V1. done.
Qed.

(** All sectors are whole. *)
Context (d : blockmap) (Hwhole : forall n, length (block_of d n) = 512%nat).

Definition on_disk (s : bootst W) : Prop := disk0 (a_disks (hw s)) = d.

Lemma sectors_ok n : forall s pa epa sec fuel, on_disk s -> (n < fuel)%nat -> 0 <= pa -> pa + SECTSIZE * Z.of_nat n < 2 ^ 32 ->
  (forall k, (k < n)%nat -> pa + SECTSIZE * Z.of_nat k < epa) -> epa <= pa + SECTSIZE * Z.of_nat n -> 1 <= sec -> sec + Z.of_nat n < 2 ^ 24 ->
  exists s', sectors pa epa sec fuel s = Ok tt s' /\ on_disk s' /\
    forall a, rd (bm_mem s') a = if decide (pa <= a < pa + SECTSIZE * Z.of_nat n) then img d ((sec - 1) * SECTSIZE + (a - pa)) else rd (bm_mem s) a.
Proof using Hwhole.
  induction n as [|n IH]; intros s pa epa sec fuel Hd Hf Hp0 Hp Hk He Hs0 Hs; (destruct fuel as [|fuel]; [lia|]); cbn [sectors].
  - rewrite (proj2 (Z.ltb_ge _ _)) by lia. exists s. split; [done|]. split; [done|]. intros a. by rewrite decide_False by lia.
  - unfold SECTSIZE in *. rewrite (proj2 (Z.ltb_lt _ _)) by (specialize (Hk 0%nat); lia).
    destruct (readsect_ok s pa sec ltac:(lia)) as (w & E & Dw). step E. rewrite !u32_id by lia.
    rewrite Hd. set (s1 := Boot _ w). destruct (IH s1 (pa + 512) epa (sec + 1) fuel) as (s' & E' & D' & R'); try lia.
    { unfold on_disk. cbn. by rewrite Dw. }
    { intros k Hk'. specialize (Hk (S k)). lia. }
    exists s'. split; [exact E'|]. split; [exact D'|]. intros a. rewrite R'. cbn [bm_mem s1]. rewrite rd_store, Hwhole.
    destruct (decide (pa + 512 <= a < pa + 512 + 512 * Z.of_nat n)).
    + rewrite decide_True by lia. f_equal. lia.
    + destruct (decide (pa <= a < pa + Z.of_nat 512)).
      * rewrite decide_True by lia. unfold img, SECTSIZE. rewrite (Z.add_comm (_ * _)), Z.mod_add, Z.div_add, Z.mod_small, Z.div_small by lia.
        by replace (0 + (sec - 1) + 1) with sec by lia.
      * by rewrite decide_False by lia.
Qed.

Lemma nsect_bounds count offset : 0 <= count -> 0 <= nsect count offset /\
  count + offset mod SECTSIZE <= SECTSIZE * nsect count offset < count + offset mod SECTSIZE + SECTSIZE.
Proof. intros Hc. unfold nsect, SECTSIZE. zdiv. Qed.

(** [readseg] copies what it is asked to, and whole sectors around it. *)
Lemma readseg_ok s pa count offset : on_disk s -> 0 <= count -> 0 <= offset -> offset + count < 2 ^ 32 ->
  0 <= pa - offset mod SECTSIZE -> pa - offset mod SECTSIZE + SECTSIZE * nsect count offset < 2 ^ 32 ->
  exists s', readseg pa count offset s = Ok tt s' /\ on_disk s' /\
    forall a, rd (bm_mem s') a =
      if decide (pa - offset mod SECTSIZE <= a < pa - offset mod SECTSIZE + SECTSIZE * nsect count offset)
      then img d (offset + (a - pa)) else rd (bm_mem s) a.
Proof using Hwhole.
  intros Hd Hc Ho Hoc Hlo Hhi. pose proof (nsect_bounds count offset Hc) as (Hn & Hn1 & Hn2).
  assert (Hm : 0 <= offset mod SECTSIZE < SECTSIZE) by (apply Z.mod_pos_bound; done).
  assert (Hdiv : offset = SECTSIZE * (offset / SECTSIZE) + offset mod SECTSIZE) by (apply Z.div_mod; done).
  assert (Hcd : count / SECTSIZE * SECTSIZE <= count < count / SECTSIZE * SECTSIZE + SECTSIZE) by (unfold SECTSIZE; zdiv).
  unfold readseg. set (n := nsect count offset) in *. set (lo := pa - offset mod SECTSIZE) in *. unfold SECTSIZE in *.
  rewrite !u32_id by lia.
  destruct (sectors_ok (Z.to_nat n) s lo (pa + count) (offset / 512 + 1) (Z.to_nat (count / 512) + 3)) as (s' & E & D & R); try (unfold SECTSIZE; lia); [done|].
  exists s'. split; [exact E|]. split; [exact D|]. intros a. rewrite R. unfold SECTSIZE. rewrite Z2Nat.id by lia.
  destruct (decide _); [|done]. f_equal. lia.
Qed.

(** * The header *)

Definition header_kept (s : bootst W) : Prop := forall a, SCRATCH <= a < SCRATCH + 4096 -> rd (bm_mem s) a = img d (a - SCRATCH).

Lemma img_range o : 0 <= img d o < 256.
Proof. apply u8_range. Qed.

Lemma img32_range o : 0 <= img32 d o < 2 ^ 32.
Proof.
  unfold img32. pose proof (img_range o). pose proof (img_range (o + 1)). pose proof (img_range (o + 2)). pose proof (img_range (o + 3)). lia.
Qed.

Lemma header_word s o : header_kept s -> 0 <= o -> o + 4 <= 4096 -> load32 (bm_mem s) (SCRATCH + o) = img32 d o.
Proof.
  intros Hh Ho Hl. unfold load32, img32. rewrite !Hh by lia. repeat f_equal; lia.
Qed.

Lemma header_segment s o : header_kept s -> 0 <= o -> o + PROGHDR <= 4096 -> proghdr (bm_mem s) (SCRATCH + o) = img_segment d o.
Proof.
  intros Hh Ho Hl. unfold PROGHDR in Hl. unfold proghdr, img_segment. by rewrite <- !Z.add_assoc, !header_word by (done || lia).
Qed.

(** * Segments *)

Definition untouched (lo hi : Z) (s s' : bootst W) : Prop := forall a, ~ (lo <= a < hi) -> rd (bm_mem s') a = rd (bm_mem s) a.

(** The body of the loop. *)
Lemma load_segment s o eph fuel : on_disk s -> header_kept s -> 0 <= o -> o + PROGHDR <= 4096 -> SCRATCH + o < eph ->
  let g := img_segment d o in seg_ok g ->
  exists s', load_all (SCRATCH + o) eph (S fuel) s = load_all (SCRATCH + (o + PROGHDR)) eph fuel s' /\
    on_disk s' /\ header_kept s' /\ seg_loaded d (bm_mem s') g /\ untouched (seg_lo g) (seg_hi g) s s'.
Proof using Hwhole.
  intros Hd Hh Ho Hl He g [G1 G2 G3 G4 G5]. cbn [load_all]. rewrite (proj2 (Z.ltb_lt _ _)) by lia. unfold gets at 1, bind at 1. cbn [seqr].
  rewrite (header_segment s o Hh Ho Hl). fold g. cbn zeta.
  assert (0 <= sg_off g) by apply img32_range. assert (0 <= sg_filesz g) by apply img32_range. assert (0 <= sg_memsz g) by apply img32_range.
  pose proof (nsect_bounds (sg_filesz g) (sg_off g) ltac:(done)) as (Hn & Hn1 & Hn2).
  assert (Hm : 0 <= sg_off g mod SECTSIZE < SECTSIZE) by (by apply Z.mod_pos_bound).
  unfold seg_hi, seg_lo in *. set (lo := sg_paddr g - sg_off g mod SECTSIZE) in *. set (hi := lo + SECTSIZE * nsect (sg_filesz g) (sg_off g)) in *.
  destruct (readseg_ok s (sg_paddr g) (sg_filesz g) (sg_off g)) as (s1 & E1 & D1 & R1); [done|done|done|lia|fold lo; lia|fold lo hi; lia|].
  step E1. fold lo hi in R1. assert (Hh1 : header_kept s1) by (intros a Ha; rewrite R1, decide_False by lia; by apply Hh).
  unfold gets at 1, bind at 1. cbn [seqr]. rewrite (header_segment s1 o Hh1 Ho Hl). fold g.
  replace (u32 (SCRATCH + o + PROGHDR)) with (SCRATCH + (o + PROGHDR)) by (unfold SCRATCH, PROGHDR in *; rewrite u32_id by lia; lia).
  destruct (Z.ltb_spec (sg_filesz g) (sg_memsz g)) as [Hb|Hb].
  - unfold bt_mem, modify, bind at 1. cbn [seqr]. eexists. split; [reflexivity|]. split; [done|]. rewrite u32_id by lia. unfold header_kept, seg_loaded, untouched. cbn [bm_mem].
    split; [|split].
    + intros a Ha. rewrite rd_stosb, decide_False by lia. by apply Hh1.
    + intros k Hk. rewrite rd_stosb. destruct (Z.ltb_spec k (sg_filesz g)).
      * rewrite decide_False by lia. rewrite R1, decide_True by lia. f_equal. lia.
      * by rewrite decide_True by lia.
    + intros a Ha. rewrite rd_stosb, decide_False by lia. by rewrite R1, decide_False by lia.
  - rewrite (bind_ok _ _ _ _ _ (eq_refl : ret tt s1 = Ok tt s1)). exists s1. split; [done|]. split; [done|]. split; [done|]. split.
    + intros k Hk. rewrite R1, decide_True by lia. rewrite (proj2 (Z.ltb_lt _ _)) by lia. f_equal. lia.
    + intros a Ha. by rewrite R1, decide_False by lia.
Qed.

Definition segs_from (o : Z) (n : nat) : list segment := (fun k => img_segment d (o + Z.of_nat k * PROGHDR)) <$> seq 0 n.

Lemma segs_from_S o n : segs_from o (S n) = img_segment d o :: segs_from (o + PROGHDR) n.
Proof.
  unfold segs_from. cbn [seq fmap list_fmap]. f_equal; [f_equal; lia|]. rewrite <- fmap_S_seq, <- list_fmap_compose.
  apply list_fmap_ext. intros k x _. cbn. f_equal. lia.
Qed.

Lemma load_all_ok n : forall o s fuel, on_disk s -> header_kept s -> 0 <= o -> o + Z.of_nat n * PROGHDR <= 4096 -> (n < fuel)%nat ->
  Forall seg_ok (segs_from o n) ->
  (forall i j g h, segs_from o n !! i = Some g -> segs_from o n !! j = Some h -> (i < j)%nat -> apart g h) ->
  exists s', load_all (SCRATCH + o) (SCRATCH + o + Z.of_nat n * PROGHDR) fuel s = Ok tt s' /\ header_kept s' /\
    Forall (seg_loaded d (bm_mem s')) (segs_from o n) /\
    forall a, Forall (fun g => ~ (seg_lo g <= a < seg_hi g)) (segs_from o n) -> rd (bm_mem s') a = rd (bm_mem s) a.
Proof using Hwhole.
  induction n as [|n IH]; intros o s fuel Hd Hh Ho Hl Hf Hok Hap; (destruct fuel as [|fuel]; [lia|]).
  - exists s. split; [cbn [load_all]; rewrite (proj2 (Z.ltb_ge _ _)) by lia; done|]. split; [done|]. split; [constructor|done].
  - rewrite segs_from_S in *. apply Forall_cons in Hok as [Hg Hok]. set (g := img_segment d o) in *. unfold PROGHDR in *.
    destruct (load_segment s o (SCRATCH + o + Z.of_nat (S n) * 32) fuel) as (s1 & E1 & D1 & H1 & L1 & U1); [done|done|done|unfold PROGHDR; lia|lia|done|].
    destruct (IH (o + 32) s1 fuel) as (s2 & E2 & H2 & L2 & U2); [done|done|lia|lia|lia|done| |].
    { intros i j a b Hi Hj Hij. apply (Hap (S i) (S j)); [done|done|lia]. }
    unfold PROGHDR in E1. replace (SCRATCH + (o + 32) + Z.of_nat n * 32) with (SCRATCH + o + Z.of_nat (S n) * 32) in E2 by lia.
    exists s2. split; [by rewrite E1|]. split; [done|]. split.
    + apply Forall_cons. split; [|done]. intros k Hk. rewrite U2; [by apply L1|]. apply Forall_lookup. intros j h Hj Hr.
      destruct (Hap 0%nat (S j) g h eq_refl Hj ltac:(lia)); lia.
    + intros a Ha. apply Forall_cons in Ha as [Ha0 Ha]. rewrite U2 by done. by apply U1.
Qed.

(** * Correctness *)

(** C23: The boot loader loads the kernel.  From a disk whose file, from sector 1
    on, is an ELF image with its headers in the first page and segments that
    keep out of each other's way, the loader ends with the call of the image's
    entry point, and then every segment is in memory: the bytes of the file
    followed by zeros.  An image without the magic number makes it return. *)
Theorem bootmain_loads (s : bootst W) : on_disk s ->
  (bootable d -> exists s', bootmain s = Ok (Some (img_entry d)) s' /\ Forall (seg_loaded d (bm_mem s')) (segments d)) /\
  (img32 d 0 <> ELF_MAGIC -> exists s', bootmain s = Ok None s').
Proof using Hwhole.
  intros Hd. unfold bootmain. destruct (readseg_ok s SCRATCH 4096 0) as (s1 & E1 & D1 & R1); try done. step E1.
  assert (Hh : header_kept s1).
  { intros a Ha. rewrite R1. change (nsect 4096 0) with 8. change (0 mod SECTSIZE) with 0. unfold SECTSIZE. by rewrite decide_True by lia. }
  assert (Hmagic : load32 (bm_mem s1) SCRATCH = img32 d 0) by (rewrite <- (header_word s1 0 Hh); [by rewrite Z.add_0_r|lia|lia]).
  unfold gets at 1, bind at 1. cbn [seqr]. rewrite Hmagic. split.
  - intros [-> Hhd Hok Hap]. rewrite Z.eqb_refl. cbn [negb]. unfold gets, bind at 1 2. cbn [seqr]. rewrite (header_word s1 28 Hh) by lia.
    assert (Hpo : 0 <= img_phoff d) by apply img32_range. assert (Hpn : 0 <= img_phnum d).
    { unfold img_phnum. pose proof (img_range 44). pose proof (img_range 45). lia. }
    assert (En : rd (bm_mem s1) (SCRATCH + 44) + 2 ^ 8 * rd (bm_mem s1) (SCRATCH + 45) = img_phnum d).
    { unfold img_phnum. rewrite !Hh by lia. by rewrite !(Z.add_simpl_l SCRATCH). }
    rewrite En. fold (img_phoff d). unfold PROGHDR in *.
    rewrite !(u32_id (SCRATCH + _)) by (unfold SCRATCH; lia). rewrite u32_id by (unfold SCRATCH; lia).
    destruct (load_all_ok (Z.to_nat (img_phnum d)) (img_phoff d) s1 (S (Z.to_nat (img_phnum d)))) as (s2 & E2 & H2 & L2 & _);
      [done|done|done|unfold PROGHDR; lia|lia|done|done|].
    rewrite Z2Nat.id in E2 by done. step E2. unfold bind. cbn [seqr]. rewrite (header_word s2 24 H2) by lia. by exists s2.
  - intros Hne. unfold gets at 1, bind at 1. cbn [seqr]. rewrite Hmagic, (proj2 (Z.eqb_neq _ _) Hne). cbn [negb]. by exists s1.
Qed.
End bootspec.

(** * A kernel of one segment

    Its program header is at 52; three bytes of the file and five zeros go to
    1 MB. *)
Definition demo_kernel : blockmap :=
  {[1 := [0x7f; 0x45; 0x4c; 0x46] ++ replicate 20 0 ++ le32 0x10000c ++ le32 52 ++ replicate 12 0 ++ le16 1 ++ replicate 6 0
      ++ le32 1 ++ le32 512 ++ le32 0 ++ le32 0x100000 ++ le32 3 ++ le32 8 ++ replicate 436 0;
    2 := [1; 2; 3] ++ replicate 509 0]}.

#[local] Existing Instances ready_ports no_mmio ready_strings ready_disk.

Lemma demo_kernel_whole n : length (block_of demo_kernel n) = 512%nat.
Proof.
  unfold block_of, demo_kernel. destruct (decide (n = 1)) as [->|]; [by vm_compute|]. destruct (decide (n = 2)) as [->|]; [by vm_compute|].
  rewrite lookup_insert_ne, lookup_singleton_ne by done. done.
Qed.

Lemma demo_kernel_bootable : bootable demo_kernel.
Proof.
  assert (E : segments demo_kernel = [Segment 512 0x100000 3 8]) by (vm_compute; reflexivity). constructor.
  - vm_compute. reflexivity.
  - apply Z.leb_le. vm_compute. reflexivity.
  - rewrite E. apply Forall_singleton. by constructor; try apply Z.leb_le; try (right; apply Z.leb_le).
  - rewrite E. intros [|i] [|j] g h Hi Hj Hij; try lia; done.
Qed.

Lemma bootmain_loads_witness : exists s' : bootst ata, bootmain (Boot ∅ (Ata ∅ Idle (Disks demo_kernel ∅))) = Ok (Some 0x10000c) s' /\
  rd (bm_mem s') 0x100002 = 3 /\ rd (bm_mem s') 0x100003 = 0.
Proof.
  set (s := Boot ∅ (Ata ∅ Idle (Disks demo_kernel ∅))). assert (Hd : on_disk demo_kernel s) by reflexivity.
  destruct (bootmain_loads demo_kernel demo_kernel_whole s Hd) as [H _].
  destruct (H demo_kernel_bootable) as (s' & E & L). exists s'.
  assert (Ee : img_entry demo_kernel = 0x10000c) by (vm_compute; reflexivity). rewrite Ee in E. split; [exact E|].
  assert (Es : segments demo_kernel = [Segment 512 0x100000 3 8]) by (vm_compute; reflexivity). rewrite Es in L. apply Forall_cons in L as [L _].
  split; [exact (L 2 ltac:(cbn; lia))|exact (L 3 ltac:(cbn; lia))].
Defined.
