(* ===== verification/Console.v ===== *)
(** The console, [console.c], with the serial line, [uart.c]: output to the
    screen and the line, formatted output of the kernel, and the input buffer
    with its line editing. *)

From S2P Require Import Prelude Params Spinlock Klock Bytes Bio Bcache Log Fs Kbd.
Open Scope Z_scope.
Open Scope xv6_scope.

(** * State *)

Definition INPUT_BUF : Z := 128.

(** [input]. *)
Record inbuf := Inbuf { in_buf : bytes; in_r : Z; in_w : Z; in_e : Z }.

(** The file system with the locks held, [myproc()->killed], [cons.locking],
    [panicked], the CGA text memory, [uart], [shift] of [kbdgetc], [input], and
    the hardware behind the ports. *)
Record cst (W : Type) := Cst {
  c_fs : fs;
  c_killed : bool;
  c_locking : bool;
  c_panicked : bool;
  c_crt : list Z;
  c_uart : bool;
  c_shift : Z;
  c_input : inbuf;
  c_hw : W
}.
Arguments Cst {W}.
Arguments c_fs {W}.
Arguments c_killed {W}.
Arguments c_locking {W}.
Arguments c_panicked {W}.
Arguments c_crt {W}.
Arguments c_uart {W}.
Arguments c_shift {W}.
Arguments c_input {W}.
Arguments c_hw {W}.

Section state.
Context {W : Type}.
Implicit Types s : cst W.

Definition set_cfs (f : fs) s : cst W := Cst f (c_killed s) (c_locking s) (c_panicked s) (c_crt s) (c_uart s) (c_shift s) (c_input s) (c_hw s).
Definition set_locking (b : bool) s : cst W := Cst (c_fs s) (c_killed s) b (c_panicked s) (c_crt s) (c_uart s) (c_shift s) (c_input s) (c_hw s).
Definition set_panicked (b : bool) s : cst W := Cst (c_fs s) (c_killed s) (c_locking s) b (c_crt s) (c_uart s) (c_shift s) (c_input s) (c_hw s).
Definition set_crt (m : list Z) s : cst W := Cst (c_fs s) (c_killed s) (c_locking s) (c_panicked s) m (c_uart s) (c_shift s) (c_input s) (c_hw s).
Definition set_uart (b : bool) s : cst W := Cst (c_fs s) (c_killed s) (c_locking s) (c_panicked s) (c_crt s) b (c_shift s) (c_input s) (c_hw s).
Definition set_shift (x : Z) s : cst W := Cst (c_fs s) (c_killed s) (c_locking s) (c_panicked s) (c_crt s) (c_uart s) x (c_input s) (c_hw s).
Definition set_input (i : inbuf) s : cst W := Cst (c_fs s) (c_killed s) (c_locking s) (c_panicked s) (c_crt s) (c_uart s) (c_shift s) i (c_hw s).
Definition set_hw (w : W) s : cst W := Cst (c_fs s) (c_killed s) (c_locking s) (c_panicked s) (c_crt s) (c_uart s) (c_shift s) (c_input s) w.
End state.

#[global, program] Instance cst_fs {W} : Lens (cst W) fs := {| view := c_fs; put := set_cfs |}.
Next Obligation. done. Qed.
Next Obligation. by intros ? []. Qed.
Next Obligation. done. Qed.

#[global, program] Instance cst_ctx {W} : Lens (cst W) kctx := {|
  view s := bc_ctx (l_b (f_l (c_fs s)));
  put c s := set_cfs (put c (c_fs s)) s
|}.
Next Obligation. done. Qed.
Next Obligation. by intros W [[[[]]]]. Qed.
Next Obligation. done. Qed.

Definition cons_lock : lockid := ("console"%string, 0).
Definition input_chan : chan := ("input.r"%string, 0).

Section console.
Context {W : Type} `{Ports W}.
Abbreviation C := (M (cst W)).

Definition c_inb (port : Z) : C Z :=
  fun s => let '(v, w) := inb port (c_hw s) in Ok v (set_hw w s).
Definition c_outb (port v : Z) : C unit := modify (fun s => set_hw (outb port v (c_hw s)) s).

(** * The serial line *)

Definition COM1 : Z := 0x3f8.

(** The polling loop of [uartputc]; [microdelay] does nothing. *)
Fixpoint uart_wait (i : nat) : C unit :=
  match i with
  | O => ret tt
  | S i =>
      st <- c_inb (COM1 + 5) ;;
      if Z.land st 0x20 =? 0 then uart_wait i else ret tt
  end.

Definition uartputc (c : Z) : C unit :=
  u <- gets c_uart ;;
  if (u : bool) then uart_wait 128 ;;; c_outb (COM1 + 0) c else ret tt.

Definition uartgetc : C Z :=
  u <- gets c_uart ;;
  if negb u then ret (-1) else
  st <- c_inb (COM1 + 5) ;;
  if Z.land st 0x01 =? 0 then ret (-1) else c_inb (COM1 + 0).

(** ["xv6...\n"]. *)
Definition HELLO : bytes := [120; 118; 54; 46; 46; 46; 10].

Fixpoint uart_puts (cs : bytes) : C unit :=
  match cs with
  | [] => ret tt
  | c :: cs => uartputc c ;;; uart_puts cs
  end.

(** [uartinit], but for the line of the interrupt controller it enables. *)
Definition uartinit : C unit :=
  c_outb (COM1 + 2) 0 ;;;
  c_outb (COM1 + 3) 0x80 ;;;
  c_outb (COM1 + 0) (115200 / 9600) ;;;
  c_outb (COM1 + 1) 0 ;;;
  c_outb (COM1 + 3) 0x03 ;;;
  c_outb (COM1 + 4) 0 ;;;
  c_outb (COM1 + 1) 0x01 ;;;
  st <- c_inb (COM1 + 5) ;;
  if st =? 0xFF then ret tt else
  modify (set_uart true) ;;;
  c_inb (COM1 + 2) ;;;
  c_inb (COM1 + 0) ;;;
  uart_puts HELLO.

(** * The screen *)

Definition BACKSPACE : Z := 0x100.
Definition CRTPORT : Z := 0x3d4.
Definition NEWLINE : Z := 10.

(** Reading and writing the cursor position, registers 14 and 15. *)
Definition get_cursor : C Z :=
  c_outb CRTPORT 14 ;;;
  hi <- c_inb (CRTPORT + 1) ;;
  c_outb CRTPORT 15 ;;;
  lo <- c_inb (CRTPORT + 1) ;;
  ret (Z.lor (Z.shiftl hi 8) lo).

Definition set_cursor (pos : Z) : C unit :=
  c_outb CRTPORT 14 ;;;
  c_outb (CRTPORT + 1) (Z.shiftr pos 8) ;;;
  c_outb CRTPORT 15 ;;;
  c_outb (CRTPORT + 1) pos.

(** [crt[i] = v], a 16-bit cell. *)
Definition set_cell (i v : Z) : C unit := modify (fun s => set_crt (<[Z.to_nat i := u16 v]> (c_crt s)) s).

(** [memmove(crt, crt+80, sizeof(crt[0])*23*80)]. *)
Definition scroll_cells (m : list Z) : list Z := splice 0 (take (23 * 80) (drop 80 m)) m.

(** [memset(crt+pos, 0, sizeof(crt[0])*(24*80 - pos))]. *)
Definition clear_cells (pos : Z) (m : list Z) : list Z := splice (Z.to_nat pos) (replicate (Z.to_nat (24 * 80 - pos)) 0) m.

Definition cgaputc (c : Z) : C unit :=
  pos <- get_cursor ;;
  pos <- (if c =? NEWLINE then ret (pos + (80 - pos mod 80))
          else if c =? BACKSPACE then ret (if 0 <? pos then pos - 1 else pos)
          else set_cell pos (Z.lor (Z.land c 0xff) 0x0700) ;;; ret (pos + 1)) ;;
  if (pos <? 0) || (25 * 80 <? pos) then panic "pos under/overflow" else
  pos <- (if 24 <=? pos / 80 then
            modify (fun s => set_crt (scroll_cells (c_crt s)) s) ;;;
            modify (fun s => set_crt (clear_cells (pos - 80) (c_crt s)) s) ;;;
            ret (pos - 80)
          else ret pos) ;;
  set_cursor pos ;;;
  set_cell pos (Z.lor 32 0x0700).

(** A processor that finds the kernel panicked stops for good. *)
Definition consputc (c : Z) : C unit :=
  p <- gets c_panicked ;;
  if (p : bool) then nofuel else
  (if c =? BACKSPACE then uartputc 8 ;;; uartputc 32 ;;; uartputc 8 else uartputc c) ;;;
  cgaputc c.

(** * Formatted output *)

(** ["0123456789abcdef"]. *)
Definition digits : list Z := [48; 49; 50; 51; 52; 53; 54; 55; 56; 57; 97; 98; 99; 100; 101; 102].

(** [buf[i++] = c] in [char buf[16]]; a store outside is a fault. *)
Definition push_char (c : Z) (buf : bytes) : C bytes :=
  if (length buf <? 16)%nat then ret (buf ++ [c]) else fault (Z.of_nat (length buf)).

Fixpoint digit_loop (base x : Z) (buf : bytes) (fuel : nat) : C bytes :=
  match fuel with
  | O => nofuel
  | S fuel =>
      buf <- push_char (default 0 (digits !! Z.to_nat (x mod base))) buf ;;
      if x / base =? 0 then ret buf else digit_loop base (x / base) buf fuel
  end.

(** The loops over a string and, backwards, over [buf]. *)
Fixpoint cons_puts (cs : bytes) : C unit :=
  match cs with
  | [] => ret tt
  | c :: cs => consputc c ;;; cons_puts cs
  end.

Definition printint (xx base : Z) (sgn : bool) : C unit :=
  let neg := sgn && (xx <? 0) in
  let x := if neg then u32 (- xx) else u32 xx in
  buf <- digit_loop base x [] 32 ;;
  buf <- (if neg then push_char 45 buf else ret buf) ;;
  cons_puts (rev buf).

(** ["(null)"]. *)
Definition NULLSTR : bytes := [40; 110; 117; 108; 108; 41].

(** [*argp++]: an argument that was not passed is a fault. *)
Definition next_arg (ap : list Z) : C (Z * list Z) :=
  match ap with
  | a :: ap => ret (a, ap)
  | [] => fault 0
  end.

Section cprintf.
(** The string at a kernel address. *)
Context (str_at : Z -> bytes).

Fixpoint cprintf_loop (fmt : bytes) (ap : list Z) : C unit :=
  match fmt with
  | [] => ret tt
  | c :: fmt =>
      let c := Z.land c 0xff in
      if negb (c =? 37) then consputc c ;;; cprintf_loop fmt ap else
      match fmt with
      | [] => ret tt
      | c :: fmt =>
          let c := Z.land c 0xff in
          if c =? 100 then
            a <- next_arg ap ;; printint (s32 a.1) 10 true ;;; cprintf_loop fmt a.2
          else if (c =? 120) || (c =? 112) then
            a <- next_arg ap ;; printint (s32 a.1) 16 false ;;; cprintf_loop fmt a.2
          else if c =? 115 then
            a <- next_arg ap ;;
            cons_puts (if a.1 =? 0 then NULLSTR else str_at a.1) ;;; cprintf_loop fmt a.2
          else if c =? 37 then consputc 37 ;;; cprintf_loop fmt ap
          else consputc 37 ;;; consputc c ;;; cprintf_loop fmt ap
      end
  end.

Definition cprintf (fmt : option bytes) (ap : list Z) : C unit :=
  locking <- gets c_locking ;;
  when locking (Klock.acquire cons_lock) ;;;
  match fmt with
  | None => panic "null fmt"
  | Some fmt => cprintf_loop fmt ap
  end ;;;
  when locking (Klock.release cons_lock).

(** ["lapicid %d: panic: "] and [" %p"]. *)
Definition PANICFMT : bytes := [108; 97; 112; 105; 99; 105; 100; 32; 37; 100; 58; 32; 112; 97; 110; 105; 99; 58; 32].
Definition PCFMT : bytes := [32; 37; 112].

Fixpoint print_pcs (pcs : list Z) : C unit :=
  match pcs with
  | [] => ret tt
  | pc :: pcs => cprintf (Some PCFMT) [pc] ;;; print_pcs pcs
  end.

(** [panic] up to its last loop, in which the processor stays; [pcs] is what
    [getcallerpcs] finds on the stack. *)
Definition panic_print (lapicid : Z) (s : bytes) (pcs : list Z) : C unit :=
  modify (set_locking false) ;;;
  cprintf (Some PANICFMT) [lapicid] ;;;
  cprintf (Some s) [] ;;;
  cprintf (Some [NEWLINE]) [] ;;;
  print_pcs (take 10 pcs) ;;;
  modify (set_panicked true).
End cprintf.

(** * Input *)

(** [C('P')], [C('U')], [C('H')], [C('D')]. *)
Definition CTRL_P : Z := 80 - 64.
Definition CTRL_U : Z := 85 - 64.
Definition CTRL_H : Z := 72 - 64.
Definition CTRL_D : Z := 68 - 64.

Definition upd_input (f : inbuf -> inbuf) : C unit := modify (fun s => set_input (f (c_input s)) s).
Definition set_e (e : Z) (i : inbuf) : inbuf := Inbuf (in_buf i) (in_r i) (in_w i) e.
Definition set_w (w : Z) (i : inbuf) : inbuf := Inbuf (in_buf i) (in_r i) w (in_e i).
Definition set_r (r : Z) (i : inbuf) : inbuf := Inbuf (in_buf i) r (in_w i) (in_e i).

(** [input.buf[k % INPUT_BUF]]. *)
Definition buf_at (i : inbuf) (k : Z) : Z := default 0 (in_buf i !! Z.to_nat (k mod INPUT_BUF)).

(** [input.buf[input.e++ % INPUT_BUF] = c]. *)
Definition store_char (c : Z) (i : inbuf) : inbuf :=
  Inbuf (<[Z.to_nat (in_e i mod INPUT_BUF) := s8 c]> (in_buf i)) (in_r i) (in_w i) (u32 (in_e i + 1)).

(** The loop of control-U. *)
Fixpoint kill_line (fuel : nat) : C unit :=
  match fuel with
  | O => nofuel
  | S fuel =>
      i <- gets c_input ;;
      if negb (in_e i =? in_w i) && negb (buf_at i (u32 (in_e i - 1)) =? NEWLINE) then
        upd_input (set_e (u32 (in_e i - 1))) ;;;
        consputc BACKSPACE ;;;
        kill_line fuel
      else ret tt
  end.

(** The body of the [switch]: whether [procdump] was asked for. *)
Definition console_char (c : Z) : C bool :=
  i <- gets c_input ;;
  if c =? CTRL_P then ret true
  else if c =? CTRL_U then kill_line (S (Z.to_nat INPUT_BUF)) ;;; ret false
  else if (c =? CTRL_H) || (c =? 0x7f) then
    when (negb (in_e i =? in_w i)) (upd_input (set_e (u32 (in_e i - 1))) ;;; consputc BACKSPACE) ;;;
    ret false
  else
    when (negb (c =? 0) && (u32 (in_e i - in_r i) <? INPUT_BUF))
      (let c := if c =? 13 then NEWLINE else c in
       upd_input (store_char c) ;;;
       consputc c ;;;
       i <- gets c_input ;;
       when ((c =? NEWLINE) || (c =? CTRL_D) || (in_e i =? u32 (in_r i + INPUT_BUF)))
         (upd_input (fun i => set_w (in_e i) i) ;;;
          Klock.wakeup input_chan)) ;;;
    ret false.

Section intr.
(** [procdump] of [proc.c] prints the process table. *)
Context (procdump : C unit).

Fixpoint intr_loop (getc : C Z) (dump : bool) (fuel : nat) : C bool :=
  match fuel with
  | O => nofuel
  | S fuel =>
      c <- getc ;;
      if 0 <=? c then
        d <- console_char c ;;
        intr_loop getc (dump || d) fuel
      else ret dump
  end.

(** [fuel] bounds the number of characters waiting. *)
Definition consoleintr (fuel : nat) (getc : C Z) : C unit :=
  Klock.acquire cons_lock ;;;
  dump <- intr_loop getc false fuel ;;
  Klock.release cons_lock ;;;
  when dump procdump.

Definition c_kbdgetc : C Z :=
  fun s => let '(c, sh, w) := kbdgetc (c_shift s) (c_hw s) in Ok c (set_shift sh (set_hw w s)).

Definition kbdintr (fuel : nat) : C unit := consoleintr fuel c_kbdgetc.
Definition uartintr (fuel : nat) : C unit := consoleintr fuel uartgetc.
End intr.

(** * Reading and writing *)

(** How often an empty buffer is waited for. *)
Definition CWAITS : nat := 1000.

(** The inner loop: [false] when the reader has been killed. *)
Fixpoint wait_input (fuel : nat) : C bool :=
  match fuel with
  | O => nofuel
  | S fuel =>
      i <- gets c_input ;;
      if in_r i =? in_w i then
        k <- gets c_killed ;;
        if (k : bool) then ret false
        else Klock.sleep input_chan cons_lock ;;; wait_input fuel
      else ret true
  end.

(** The outer loop with [n] bytes to go of [target]: the bytes stored, and
    whether the reader has been killed. *)
Fixpoint read_chars (target : Z) (n : nat) : C (bool * bytes) :=
  match n with
  | O => ret (false, [])
  | S m =>
      ok <- wait_input CWAITS ;;
      if negb ok then ret (true, []) else
      i <- gets c_input ;;
      let c := buf_at i (in_r i) in
      upd_input (set_r (u32 (in_r i + 1))) ;;;
      if c =? CTRL_D then
        when (Z.of_nat n <? target) (upd_input (set_r (in_r i))) ;;;
        ret (false, [])
      else if c =? NEWLINE then ret (false, [u8 c])
      else
        r <- read_chars target m ;;
        ret (r.1, u8 c :: r.2)
  end.

(** The result and the bytes stored at [dst]. *)
Definition consoleread (ip : nat) (n : Z) : C (Z * bytes) :=
  lift (T := fs) (iunlock ip) ;;;
  let target := u32 n in
  Klock.acquire cons_lock ;;;
  r <- read_chars target (Z.to_nat n) ;;
  let '(killed, cs) := r : bool * bytes in
  Klock.release cons_lock ;;;
  lift (T := fs) (ilock ip) ;;;
  ret (if killed then -1 else Z.of_nat (length cs), cs).

Definition consolewrite (ip : nat) (buf : bytes) (n : Z) : C Z :=
  lift (T := fs) (iunlock ip) ;;;
  Klock.acquire cons_lock ;;;
  cons_puts ((fun c => Z.land c 0xff) <$> take (Z.to_nat n) buf) ;;;
  Klock.release cons_lock ;;;
  lift (T := fs) (ilock ip) ;;;
  ret n.
End console.
