(* ===== verification/ConsoleSpec.v ===== *)
(** The console is a terminal with line editing: the cursor stays on the
    screen, what is typed is edited line by line, and a read returns the
    oldest line. *)

From S2P Require Import Prelude Params Spinlock Klock Bytes Bio Bcache Log Fs Txn FsRead FsWrite FsInode Kbd Console.
Open Scope Z_scope.
Open Scope xv6_scope.

(** * The hardware *)

(** The selected register of the display controller, the cursor position it
    holds, the bytes waiting at the serial line and at the keyboard, and the
    bytes sent. *)
Record hwst := Hw { h_sel : Z; h_cursor : Z; h_rx : list Z; h_keys : list Z; h_sent : list Z }.

(** The bit of a status register that says whether a byte is waiting. *)
Definition waiting (q : list Z) : Z := match q with [] => 0 | _ => 1 end.

(** What is documented of the display controller, the serial line and the
    keyboard controller. *)
Class ConsoleHw (W : Type) `{Ports W} := {
  obs : W -> hwst;
  obs_select w v : obs (outb CRTPORT v w) = Hw (u8 v) (h_cursor (obs w)) (h_rx (obs w)) (h_keys (obs w)) (h_sent (obs w));
  obs_high w : h_sel (obs w) = 14 ->
    (inb (CRTPORT + 1) w).1 = u8 (h_cursor (obs w) / 256) /\ obs (inb (CRTPORT + 1) w).2 = obs w;
  obs_low w : h_sel (obs w) = 15 ->
    (inb (CRTPORT + 1) w).1 = h_cursor (obs w) mod 256 /\ obs (inb (CRTPORT + 1) w).2 = obs w;
  obs_set_high w v : h_sel (obs w) = 14 ->
    obs (outb (CRTPORT + 1) v w) =
    Hw 14 (u8 v * 256 + h_cursor (obs w) mod 256) (h_rx (obs w)) (h_keys (obs w)) (h_sent (obs w));
  obs_set_low w v : h_sel (obs w) = 15 ->
    obs (outb (CRTPORT + 1) v w) =
    Hw 15 (h_cursor (obs w) / 256 * 256 + u8 v) (h_rx (obs w)) (h_keys (obs w)) (h_sent (obs w));
  obs_status w : Z.land (inb (COM1 + 5) w).1 0x01 = waiting (h_rx (obs w)) /\ obs (inb (COM1 + 5) w).2 = obs w;
  obs_send w v :
    obs (outb (COM1 + 0) v w) = Hw (h_sel (obs w)) (h_cursor (obs w)) (h_rx (obs w)) (h_keys (obs w)) (h_sent (obs w) ++ [u8 v]);
  obs_receive w c cs : h_rx (obs w) = c :: cs ->
    (inb (COM1 + 0) w).1 = u8 c /\
    obs (inb (COM1 + 0) w).2 = Hw (h_sel (obs w)) (h_cursor (obs w)) cs (h_keys (obs w)) (h_sent (obs w));
  obs_kbstat w : Z.land (inb KBSTATP w).1 KBS_DIB = waiting (h_keys (obs w)) /\ obs (inb KBSTATP w).2 = obs w;
  obs_kbdata w c cs : h_keys (obs w) = c :: cs ->
    (inb KBDATAP w).1 = u8 c /\
    obs (inb KBDATAP w).2 = Hw (h_sel (obs w)) (h_cursor (obs w)) (h_rx (obs w)) cs (h_sent (obs w))
}.

(** Hardware that does just that. *)
Definition demo_in (port : Z) (w : hwst) : Z * hwst :=
  if port =? CRTPORT + 1 then (if h_sel w =? 14 then h_cursor w / 256 else h_cursor w mod 256, w)
  else if port =? COM1 + 5 then (0x20 + waiting (h_rx w), w)
  else if port =? COM1 then (hd 0 (h_rx w), Hw (h_sel w) (h_cursor w) (tl (h_rx w)) (h_keys w) (h_sent w))
  else if port =? KBSTATP then (waiting (h_keys w), w)
  else if port =? KBDATAP then (hd 0 (h_keys w), Hw (h_sel w) (h_cursor w) (h_rx w) (tl (h_keys w)) (h_sent w))
  else (0, w).

Definition demo_out (port v : Z) (w : hwst) : hwst :=
  if port =? CRTPORT then Hw v (h_cursor w) (h_rx w) (h_keys w) (h_sent w)
  else if port =? CRTPORT + 1 then
    Hw (h_sel w) (if h_sel w =? 14 then v * 256 + h_cursor w mod 256 else h_cursor w / 256 * 256 + v) (h_rx w) (h_keys w) (h_sent w)
  else if port =? COM1 then Hw (h_sel w) (h_cursor w) (h_rx w) (h_keys w) (h_sent w ++ [v])
  else w.

#[global] Instance demo_ports : Ports hwst := {| port_in := demo_in; port_out := demo_out |}.

#[global, program] Instance demo_hw : ConsoleHw hwst := {| obs := id |}.
Next Obligation. done. Qed.
Next Obligation. intros [sel cur rx ks sent] Hs. cbn [h_sel id] in Hs. by subst. Qed.
Next Obligation.
  intros [sel cur rx ks sent] Hs. cbn [h_sel id] in Hs. subst. split; [|done]. change (u8 (cur mod 256) = cur mod 256).
  apply u8_id, Z.mod_pos_bound. lia.
Qed.
Next Obligation. intros [sel cur rx ks sent] v Hs. cbn [h_sel id] in Hs. by subst. Qed.
Next Obligation. intros [sel cur rx ks sent] v Hs. cbn [h_sel id] in Hs. by subst. Qed.
Next Obligation. by intros [sel cur [] ks sent]. Qed.
Next Obligation. done. Qed.
Next Obligation. intros [sel cur rx ks sent] c cs Hs. cbn [h_rx id] in Hs. by subst. Qed.
Next Obligation. by intros [sel cur rx [] sent]. Qed.
Next Obligation. intros [sel cur rx ks sent] c cs Hs. cbn [h_keys id] in Hs. by subst. Qed.

(** * Output *)

Section output.
Context {W : Type} `{ConsoleHw W}.
Implicit Types s : cst W.

Definition pos_of s : Z := h_cursor (obs (c_hw s)).

(** Output touches the screen, the cursor and what is sent. *)
Record shows s s' : Prop := {
  sh_fs : c_fs s' = c_fs s;
  sh_killed : c_killed s' = c_killed s;
  sh_locking : c_locking s' = c_locking s;
  sh_panicked : c_panicked s' = c_panicked s;
  sh_uart : c_uart s' = c_uart s;
  sh_shift : c_shift s' = c_shift s;
  sh_input : c_input s' = c_input s;
  sh_rx : h_rx (obs (c_hw s')) = h_rx (obs (c_hw s));
  sh_keys : h_keys (obs (c_hw s')) = h_keys (obs (c_hw s))
}.

Lemma shows_refl s : shows s s.
Proof. by constructor. Qed.

Lemma shows_trans s s1 s2 : shows s s1 -> shows s1 s2 -> shows s s2.
Proof. intros [] []. constructor; congruence. Qed.

Lemma inb_ok port s : c_inb port s = Ok (inb port (c_hw s)).1 (set_hw (inb port (c_hw s)).2 s).
Proof. unfold c_inb. by destruct (inb port (c_hw s)). Qed.

Lemma get_cursor_ok s : 0 <= pos_of s < 65536 -> exists s', get_cursor s = Ok (pos_of s) s' /\ shows s s' /\ pos_of s' = pos_of s /\ c_crt s' = c_crt s.
Proof.
  intros Hp. unfold get_cursor, c_outb. unfold bind at 1, modify. cbn [seqr].
  set (s1 := set_hw _ s). assert (O1 : obs (c_hw s1) = Hw 14 (pos_of s) (h_rx (obs (c_hw s))) (h_keys (obs (c_hw s))) (h_sent (obs (c_hw s)))) by apply obs_select.
  step (inb_ok (CRTPORT + 1) s1). destruct (obs_high (c_hw s1)) as [E2 O2]; [by rewrite O1|]. rewrite E2, O1. cbn [h_cursor].
  set (s2 := set_hw _ s1) in *. change (inb (CRTPORT + 1) (c_hw s1)).2 with (c_hw s2) in O2. unfold bind at 1. cbn [seqr].
  set (s3 := set_hw _ s2). assert (O3 : obs (c_hw s3) = Hw 15 (pos_of s) (h_rx (obs (c_hw s))) (h_keys (obs (c_hw s))) (h_sent (obs (c_hw s)))).
  { etrans; [apply obs_select|]. by rewrite O2, O1. }
  step (inb_ok (CRTPORT + 1) s3). destruct (obs_low (c_hw s3)) as [E4 O4]; [by rewrite O3|]. rewrite E4, O3. cbn [h_cursor].
  eexists. split; [unfold ret; f_equal|split; [|split; [|done]]].
  - rewrite u8_id by zdiv. rewrite Z.shiftl_mul_pow2, (lor_aligned_add _ _ 8); zdiv.
  - constructor; cbn [c_hw set_hw]; try done; by rewrite O4, O3.
  - unfold pos_of. cbn [c_hw set_hw]. by rewrite O4, O3.
Qed.

Lemma set_cursor_ok s pos : 0 <= pos < 65536 -> exists s', set_cursor pos s = Ok tt s' /\ shows s s' /\ pos_of s' = pos /\ c_crt s' = c_crt s.
Proof.
  intros Hp. unfold set_cursor, c_outb. unfold bind, modify. cbn [seqr c_hw set_hw].
  set (w := c_hw s). set (w1 := outb CRTPORT 14 w).
  assert (O1 : obs w1 = Hw 14 (h_cursor (obs w)) (h_rx (obs w)) (h_keys (obs w)) (h_sent (obs w))) by apply obs_select.
  set (w2 := outb (CRTPORT + 1) (Z.shiftr pos 8) w1).
  assert (O2 : obs w2 = Hw 14 (pos / 256 * 256 + h_cursor (obs w) mod 256) (h_rx (obs w)) (h_keys (obs w)) (h_sent (obs w))).
  { unfold w2. rewrite obs_set_high by (by rewrite O1). rewrite O1. cbn [h_cursor h_rx h_keys h_sent]. do 3 f_equal.
    rewrite Z.shiftr_div_pow2 by lia. change (2 ^ 8) with 256. apply u8_id. zdiv. }
  set (w3 := outb CRTPORT 15 w2).
  assert (O3 : obs w3 = Hw 15 (pos / 256 * 256 + h_cursor (obs w) mod 256) (h_rx (obs w)) (h_keys (obs w)) (h_sent (obs w))).
  { unfold w3. rewrite obs_select, O2. done. }
  assert (O4 : obs (outb (CRTPORT + 1) pos w3) = Hw 15 pos (h_rx (obs w)) (h_keys (obs w)) (h_sent (obs w))).
  { rewrite obs_set_low by (by rewrite O3). rewrite O3. cbn [h_cursor h_rx h_keys h_sent]. f_equal. unfold u8. zdiv. }
  eexists. split; [done|]. split; [|split; [|done]].
  - constructor; cbn [c_hw set_hw]; try done; by rewrite O4.
  - unfold pos_of. cbn [c_hw set_hw]. by rewrite O4.
Qed.

(** * The screen *)

Definition SCREEN : Z := 24 * 80.
Definition cell (m : list Z) (k : Z) : Z := default 0 (m !! Z.to_nat k).

(** Where the cursor goes, before the screen scrolls. *)
Definition next (c pos : Z) : Z :=
  if c =? NEWLINE then pos + (80 - pos mod 80) else if c =? BACKSPACE then (if 0 <? pos then pos - 1 else pos) else pos + 1.

(** The cells after the character itself. *)
Definition written (c pos : Z) (m : list Z) (k : Z) : Z :=
  if (k =? pos) && negb (c =? NEWLINE) && negb (c =? BACKSPACE) then Z.land c 0xff + 0x700 else cell m k.

Definition BLANK : Z := 0x720.

(** The screen after it, scrolled by a line if the cursor left it. *)
Definition screen_cell (c pos : Z) (m : list Z) (k : Z) : Z :=
  let p := next c pos in
  if p <? SCREEN then if k =? p then BLANK else written c pos m k
  else if k =? SCREEN - 80 then BLANK
  else if k <? SCREEN - 80 then written c pos m (k + 80) else 0.

Definition screen_pos (c pos : Z) : Z := let p := next c pos in if p <? SCREEN then p else p - 80.

Lemma next_range c pos : 0 <= pos < SCREEN -> 0 <= next c pos <= SCREEN.
Proof.
  intros Hp. unfold next, SCREEN in *. destruct (c =? NEWLINE); [zdiv|]. destruct (c =? BACKSPACE); [|lia]. destruct (Z.ltb_spec 0 pos); lia.
Qed.

Lemma screen_pos_range c pos : 0 <= pos < SCREEN -> 0 <= screen_pos c pos < SCREEN.
Proof.
  intros Hp%(next_range c). unfold screen_pos. destruct (Z.ltb_spec (next c pos) SCREEN); unfold SCREEN in *; lia.
Qed.

Lemma cell_insert m i v k : 0 <= i < Z.of_nat (length m) -> 0 <= k -> cell (<[Z.to_nat i := v]> m) k = if k =? i then v else cell m k.
Proof.
  intros Hi Hk. unfold cell. destruct (Z.eqb_spec k i) as [->|Hne].
  - by rewrite list_lookup_insert_eq by lia.
  - rewrite list_lookup_insert_ne by lia. done.
Qed.

(** Scrolling by a line, and clearing the last. *)
Lemma cell_scrolled m k : SCREEN <= Z.of_nat (length m) -> 0 <= k < SCREEN ->
  cell (clear_cells (SCREEN - 80) (scroll_cells m)) k = if k <? SCREEN - 80 then cell m (k + 80) else 0.
Proof.
  intros Hm Hk. unfold SCREEN in *. set (m1 := scroll_cells m).
  assert (Hlt : length (take (23 * 80) (drop 80 m)) = 1840%nat) by (rewrite length_take, length_drop; lia).
  assert (Hl : length m1 = length m) by (apply splice_length; rewrite Hlt; lia).
  unfold cell, clear_cells. change (Z.to_nat (24 * 80 - (24 * 80 - 80))) with 80%nat. change (Z.to_nat (24 * 80 - 80)) with 1840%nat.
  destruct (Z.ltb_spec k (24 * 80 - 80)) as [Hlo|Hhi].
  - rewrite splice_lookup_out by (rewrite ?length_replicate; lia). unfold m1, scroll_cells.
    rewrite splice_lookup_in by (rewrite Hlt; lia). rewrite Nat.sub_0_r, lookup_take_lt by lia. rewrite lookup_drop. do 2 f_equal. lia.
  - rewrite splice_lookup_in by (rewrite ?length_replicate; lia). by rewrite lookup_replicate_2 by lia.
Qed.

Lemma scrolled_length m : SCREEN <= Z.of_nat (length m) -> length (clear_cells (SCREEN - 80) (scroll_cells m)) = length m.
Proof.
  intros Hm. unfold SCREEN in *. assert (Hl : length (scroll_cells m) = length m).
  { apply splice_length. rewrite length_take, length_drop. lia. }
  unfold clear_cells. rewrite splice_length; rewrite ?length_replicate, Hl; [done|]. change (Z.to_nat (24 * 80 - (24 * 80 - 80))) with 80%nat.
  change (Z.to_nat (24 * 80 - 80)) with 1840%nat. lia.
Qed.

Lemma attribute c : u16 (Z.lor (Z.land c 0xff) 0x0700) = Z.land c 0xff + 0x700.
Proof.
  change 0xff with (Z.ones 8). rewrite Z.land_ones by lia. pose proof (Z.mod_pos_bound c (2 ^ 8)).
  rewrite Z.lor_comm, (lor_aligned_add 0x700 _ 8) by (done || lia). unfold u16. rewrite Z.mod_small; lia.
Qed.

(** The character, the cursor past it. *)
Lemma put_cell c s pos : 0 <= pos < SCREEN -> SCREEN <= Z.of_nat (length (c_crt s)) -> exists m,
  (if c =? NEWLINE then ret (pos + (80 - pos mod 80))
   else if c =? BACKSPACE then ret (if 0 <? pos then pos - 1 else pos)
   else set_cell pos (Z.lor (Z.land c 0xff) 0x0700) ;;; ret (pos + 1)) s = Ok (next c pos) (set_crt m s) /\
  length m = length (c_crt s) /\ forall k, 0 <= k -> cell m k = written c pos (c_crt s) k.
Proof.
  intros Hp Hl. unfold next, written. destruct (c =? NEWLINE) eqn:En.
  { exists (c_crt s). split; [by destruct s|]. split; [done|]. intros k Hk. by rewrite andb_false_r. }
  destruct (c =? BACKSPACE) eqn:Eb.
  { exists (c_crt s). split; [by destruct s|]. split; [done|]. intros k Hk. by rewrite andb_false_r. }
  eexists. split; [done|]. split; [apply length_insert|]. intros k Hk. rewrite cell_insert by lia. rewrite attribute, !andb_true_r. done.
Qed.

Definition on_screen s : Prop := 0 <= pos_of s < SCREEN /\ SCREEN <= Z.of_nat (length (c_crt s)).

Lemma cgaputc_ok c s : on_screen s -> exists s', cgaputc c s = Ok tt s' /\ shows s s' /\ pos_of s' = screen_pos c (pos_of s) /\
  length (c_crt s') = length (c_crt s) /\
  forall k, 0 <= k < SCREEN -> cell (c_crt s') k = screen_cell c (pos_of s) (c_crt s) k.
Proof.
  intros [Hp Hl]. unfold cgaputc. destruct (get_cursor_ok s) as (s1 & E1 & S1 & P1 & M1); [unfold SCREEN in Hp; lia|]. step E1.
  rewrite <- M1 in Hl. destruct (put_cell c s1 (pos_of s) Hp Hl) as (m & E2 & Hm & Hw). rewrite M1 in *. step E2.
  pose proof (next_range c (pos_of s) Hp) as Hn. unfold screen_pos, screen_cell. set (p := next c (pos_of s)) in *. unfold SCREEN in Hn.
  rewrite (proj2 (Z.ltb_ge p 0)), (proj2 (Z.ltb_ge (25 * 80) p)) by lia. cbn [orb].
  assert (Hsc : exists m2, (if 24 <=? p / 80 then
      modify (fun s => set_crt (scroll_cells (c_crt s)) s) ;;; modify (fun s => set_crt (clear_cells (p - 80) (c_crt s)) s) ;;; ret (p - 80)
      else ret p) (set_crt m s1) = Ok (if p <? SCREEN then p else p - 80) (set_crt m2 s1) /\ length m2 = length m /\
      forall k, 0 <= k < SCREEN -> cell m2 k = if p <? SCREEN then cell m k else if k <? SCREEN - 80 then cell m (k + 80) else 0).
  { destruct (Z.ltb_spec p SCREEN) as [Hlt|Hge]; unfold SCREEN in *.
    - rewrite (proj2 (Z.leb_gt _ _)) by zdiv. by exists m.
    - assert (Ep : p = 24 * 80) by lia. rewrite (proj2 (Z.leb_le _ _)) by zdiv. rewrite Ep. eexists. split; [done|].
      rewrite <- Hm in Hl. split; [by apply scrolled_length|]. intros k Hk. by apply cell_scrolled. }
  destruct Hsc as (m2 & E3 & Hm2 & Hc2). step E3. set (q := if p <? SCREEN then p else p - 80).
  assert (Hq : 0 <= q < SCREEN) by (unfold q; destruct (Z.ltb_spec p SCREEN); unfold SCREEN in *; lia).
  destruct (set_cursor_ok (set_crt m2 s1) q) as (s3 & E4 & S3 & P3 & M3); [unfold SCREEN in Hq; lia|]. step E4. cbn in M3.
  eexists. split; [done|]. split; [|split; [done|split]].
  - eapply shows_trans; [done|]. eapply shows_trans; [|eapply shows_trans; [done|by constructor]]. by constructor.
  - cbn. rewrite length_insert, M3. congruence.
  - intros k Hk. change (c_crt (set_crt (<[Z.to_nat q := u16 (Z.lor 32 0x0700)]> (c_crt s3)) s3)) with (<[Z.to_nat q := u16 (Z.lor 32 0x0700)]> (c_crt s3)).
    rewrite M3, cell_insert by lia. change (u16 (Z.lor 32 0x0700)) with BLANK. rewrite Hc2 by done. unfold q.
    destruct (Z.ltb_spec p SCREEN); [by rewrite Hw by lia|]. assert (Ep : p - 80 = SCREEN - 80) by (unfold SCREEN in *; lia). rewrite Ep.
    destruct (k =? SCREEN - 80); [done|]. destruct (k <? SCREEN - 80); [|done]. apply Hw. lia.
Qed.

Lemma uart_wait_ok i : forall s, exists s', uart_wait i s = Ok tt s' /\ shows s s' /\ pos_of s' = pos_of s /\ c_crt s' = c_crt s.
Proof.
  induction i as [|i IH]; intros s; [exists s; by split; [|split; [apply shows_refl|]]|]. cbn [uart_wait].
  step (inb_ok (COM1 + 5) s). destruct (obs_status (c_hw s)) as [_ O]. set (s1 := set_hw _ s).
  assert (S1 : shows s s1) by (constructor; cbn [c_hw set_hw s1]; try done; by rewrite O).
  assert (P1 : pos_of s1 = pos_of s) by (unfold pos_of; cbn [c_hw set_hw s1]; by rewrite O).
  destruct (Z.land _ 0x20 =? 0); [|by exists s1]. destruct (IH s1) as (s2 & E & S2 & P2 & M2). exists s2. split; [done|].
  split; [by eapply shows_trans|]. split; [congruence|done].
Qed.

Lemma uartputc_ok c s : exists s', uartputc c s = Ok tt s' /\ shows s s' /\ pos_of s' = pos_of s /\ c_crt s' = c_crt s.
Proof.
  unfold uartputc, bind at 1, gets. cbn [seqr]. destruct (c_uart s); [|exists s; by split; [|split; [apply shows_refl|]]].
  destruct (uart_wait_ok 128 s) as (s1 & E1 & S1 & P1 & M1). step E1. eexists. split; [done|].
  pose proof (obs_send (c_hw s1) c) as O. split; [|split].
  - eapply shows_trans; [done|]. constructor; cbn [c_hw set_hw]; try done; by rewrite O.
  - unfold pos_of. cbn [c_hw set_hw]. by rewrite O.
  - done.
Qed.

Lemma consputc_ok c s : c_panicked s = false -> on_screen s -> exists s', consputc c s = Ok tt s' /\ shows s s' /\ on_screen s' /\
  pos_of s' = screen_pos c (pos_of s).
Proof.
  intros Hpk Hon. unfold consputc, bind at 1, gets. cbn [seqr]. rewrite Hpk.
  assert (Hu : exists s1, (if c =? BACKSPACE then uartputc 8 ;;; uartputc 32 ;;; uartputc 8 else uartputc c) s = Ok tt s1 /\
    shows s s1 /\ pos_of s1 = pos_of s /\ c_crt s1 = c_crt s).
  { destruct (c =? BACKSPACE); [|apply uartputc_ok].
    destruct (uartputc_ok 8 s) as (s1 & E1 & S1 & P1 & M1). step E1. destruct (uartputc_ok 32 s1) as (s2 & E2 & S2 & P2 & M2). step E2.
    destruct (uartputc_ok 8 s2) as (s3 & E3 & S3 & P3 & M3). exists s3. split; [done|].
    split; [eapply shows_trans; [done|by eapply shows_trans]|]. split; congruence. }
  destruct Hu as (s1 & E1 & S1 & P1 & M1). step E1.
  destruct (cgaputc_ok c s1) as (s2 & E2 & S2 & P2 & L2 & _); [unfold on_screen; by rewrite P1, M1|].
  exists s2. split; [done|]. split; [by eapply shows_trans|]. rewrite P1 in P2. split; [|done]. destruct Hon. split.
  - rewrite P2. by apply screen_pos_range.
  - by rewrite L2, M1.
Qed.

Lemma cons_puts_ok cs : forall s, c_panicked s = false -> on_screen s -> exists s', cons_puts cs s = Ok tt s' /\ shows s s' /\ on_screen s'.
Proof.
  induction cs as [|c cs IH]; intros s Hp Hon; [exists s; by split; [|split; [apply shows_refl|]]|]. cbn [cons_puts].
  destruct (consputc_ok c s Hp Hon) as (s1 & E1 & S1 & O1 & _). step E1. destruct (IH s1) as (s2 & E2 & S2 & O2); [by rewrite (sh_panicked _ _ S1)|done|].
  exists s2. split; [done|]. split; [by eapply shows_trans|done].
Qed.
End output.

(** * The input buffer *)

(** The characters from index [a] on; the indices wrap around at 2^32, a
    multiple of the length of the buffer. *)
Definition window (i : inbuf) (a : Z) (n : nat) : bytes := (fun k => buf_at i (a + Z.of_nat k)) <$> seq 0 n.

(** The lines that have been entered, and the one being edited. *)
Definition entered (i : inbuf) : bytes := window i (in_r i) (Z.to_nat (u32 (in_w i - in_r i))).
Definition editing (i : inbuf) : bytes := window i (in_w i) (Z.to_nat (u32 (in_e i - in_w i))).

Record ring_ok (i : inbuf) : Prop := {
  ro_len : length (in_buf i) = Z.to_nat INPUT_BUF;
  ro_r : 0 <= in_r i < 2 ^ 32;
  ro_w : 0 <= in_w i < 2 ^ 32;
  ro_e : 0 <= in_e i < 2 ^ 32;
  ro_fit : u32 (in_w i - in_r i) + u32 (in_e i - in_w i) <= INPUT_BUF
}.

(** A line being edited is one line. *)
Definition input_ok (i : inbuf) : Prop := ring_ok i /\ NEWLINE ∉ editing i.

(** What a character does to the two. *)
Definition edit (c : Z) (st : bytes * bytes) : bytes * bytes :=
  let '(done, line) := st in
  if c =? CTRL_P then st
  else if c =? CTRL_U then (done, [])
  else if (c =? CTRL_H) || (c =? 0x7f) then (done, take (length line - 1) line)
  else if (c =? 0) || negb (length done + length line <? 128)%nat then st
  else
    let c := if c =? 13 then NEWLINE else c in
    let line := line ++ [s8 c] in
    if (c =? NEWLINE) || (c =? CTRL_D) || (length done + length line =? 128)%nat then (done ++ line, []) else (done, line).

Lemma window_length i a n : length (window i a n) = n.
Proof. unfold window. by rewrite length_fmap, length_seq. Qed.

Lemma window_app i a n m : window i a (n + m) = window i a n ++ window i (a + Z.of_nat n) m.
Proof.
  unfold window. rewrite seq_app, fmap_app. f_equal. cbn [Nat.add]. rewrite <- (Nat.add_0_r n) at 1.
  rewrite <- fmap_add_seq, <- list_fmap_compose. apply list_fmap_ext. intros j k _. unfold compose. f_equal. lia.
Qed.

Lemma buf_at_mod i k k' : k mod INPUT_BUF = k' mod INPUT_BUF -> buf_at i k = buf_at i k'.
Proof. intros E. unfold buf_at. by rewrite E. Qed.

Lemma window_wrap i a n : window i (u32 a) n = window i a n.
Proof. apply list_fmap_ext. intros j k _. apply buf_at_mod. unfold u32, INPUT_BUF. zdiv. Qed.

Lemma window_ext i i' a n : in_buf i' = in_buf i -> window i' a n = window i a n.
Proof. intros E. unfold window, buf_at. by rewrite E. Qed.

(** The whole buffer in use. *)
Lemma both_window i : ring_ok i -> entered i ++ editing i = window i (in_r i) (Z.to_nat (u32 (in_e i - in_r i))).
Proof.
  intros [H1 H2 H3 H4 H5]. unfold entered, editing.
  assert (E : Z.to_nat (u32 (in_e i - in_r i)) = (Z.to_nat (u32 (in_w i - in_r i)) + Z.to_nat (u32 (in_e i - in_w i)))%nat).
  { unfold u32, INPUT_BUF in *. zdiv. }
  rewrite E, window_app. f_equal. rewrite <- (window_wrap i (in_r i + _)). f_equal. unfold u32. zdiv.
Qed.

Lemma used_length i : ring_ok i -> Z.of_nat (length (entered i) + length (editing i)) = u32 (in_e i - in_r i).
Proof.
  intros Hok. rewrite <- length_app, both_window, window_length by done. pose proof (u32_range (in_e i - in_r i)). lia.
Qed.

Lemma stored_ok c i : ring_ok i -> u32 (in_e i - in_r i) < INPUT_BUF ->
  ring_ok (store_char c i) /\ entered (store_char c i) = entered i /\ editing (store_char c i) = editing i ++ [s8 c] /\
  u32 (in_e (store_char c i) - in_r i) = u32 (in_e i - in_r i) + 1.
Proof.
  intros Hok Hlt. pose proof Hok as [H1 H2 H3 H4 H5].
  assert (Hold : forall a n, (forall k, (k < n)%nat -> (a + Z.of_nat k) mod INPUT_BUF <> in_e i mod INPUT_BUF) -> window (store_char c i) a n = window i a n).
  { intros a n Hne. apply list_fmap_ext. intros j k Hk%lookup_seq. unfold buf_at, store_char. cbn [in_buf].
    rewrite list_lookup_insert_ne; [done|]. intros E. apply (Hne k); [lia|].
    pose proof (Z.mod_pos_bound (a + Z.of_nat k) INPUT_BUF). pose proof (Z.mod_pos_bound (in_e i) INPUT_BUF). unfold INPUT_BUF in *. lia. }
  assert (Hwe : u32 (in_e i - in_r i) = u32 (in_w i - in_r i) + u32 (in_e i - in_w i)) by (unfold u32, INPUT_BUF in *; zdiv).
  split; [|split; [|split]].
  - constructor; try done; cbn [in_buf in_r in_w in_e store_char]; [by rewrite length_insert|apply u32_range|]. unfold u32, INPUT_BUF in *. zdiv.
  - unfold entered. cbn [in_r in_w store_char]. apply Hold. intros k Hk. unfold u32, INPUT_BUF in *. zdiv.
  - unfold editing at 1. cbn [in_w in_e store_char].
    replace (Z.to_nat (u32 (u32 (in_e i + 1) - in_w i))) with (Z.to_nat (u32 (in_e i - in_w i)) + 1)%nat by (unfold u32, INPUT_BUF in *; zdiv).
    rewrite window_app. f_equal.
    + apply Hold. intros k Hk. unfold u32, INPUT_BUF in *. zdiv.
    + unfold window. cbn [seq fmap list_fmap]. f_equal. rewrite (buf_at_mod _ _ (in_e i)) by (unfold u32, INPUT_BUF in *; zdiv).
      unfold buf_at. cbn [in_buf store_char].
      rewrite list_lookup_insert_eq; [done|]. rewrite H1. pose proof (Z.mod_pos_bound (in_e i) INPUT_BUF). unfold INPUT_BUF in *. lia.
  - cbn [in_e store_char]. unfold u32, INPUT_BUF in *. zdiv.
Qed.

(** Taking the last character back. *)
Lemma erased_ok i : input_ok i -> in_e i <> in_w i ->
  let i' := set_e (u32 (in_e i - 1)) i in
  input_ok i' /\ entered i' = entered i /\ editing i' = take (length (editing i) - 1) (editing i) /\
  (length (editing i) = S (length (editing i')))%nat /\ buf_at i (u32 (in_e i - 1)) ∈ editing i.
Proof.
  intros [[H1 H2 H3 H4 H5] H6] Hne i'.
  assert (Hn : Z.to_nat (u32 (in_e i - in_w i)) = (Z.to_nat (u32 (in_e i' - in_w i')) + 1)%nat).
  { unfold i'. cbn [in_e in_w set_e]. unfold u32, INPUT_BUF in *. zdiv. }
  assert (Ee : editing i = editing i' ++ [buf_at i (u32 (in_e i - 1))]).
  { unfold editing at 1. rewrite Hn, window_app. f_equal. unfold window. cbn [seq fmap list_fmap]. f_equal. apply buf_at_mod.
    unfold i'. cbn [in_e in_w set_e]. unfold u32, INPUT_BUF in *. zdiv. }
  assert (El : length (editing i) = S (length (editing i'))) by (rewrite Ee, length_app; cbn; lia).
  split; [|split; [done|split; [|split; [done|]]]].
  - split; [|rewrite Ee in H6; set_solver].
    constructor; try done; cbn [in_buf in_r in_w in_e set_e i']; [apply u32_range|]. unfold u32, INPUT_BUF in *. zdiv.
  - rewrite El, Ee. cbn [Nat.sub]. rewrite Nat.sub_0_r. by rewrite take_app_length.
  - rewrite Ee. set_solver+.
Qed.

(** Entering the line. *)
Lemma entered_ok i : ring_ok i ->
  let i' := set_w (in_e i) i in input_ok i' /\ entered i' = entered i ++ editing i /\ editing i' = [].
Proof.
  intros Hr i'. rewrite both_window by done. destruct Hr as [H1 H2 H3 H4 H5].
  assert (Ee : editing i' = []) by (unfold editing; cbn [in_e in_w set_w i']; by rewrite Z.sub_diag).
  split; [|by split]. split; [|rewrite Ee; set_solver+]. constructor; try done; cbn [in_buf in_r in_w in_e set_w i'].
  unfold u32, INPUT_BUF in *. zdiv.
Qed.

(** * Typing *)

Section typing.
Context {W : Type} `{ConsoleHw W}.
Implicit Types s : cst W.

Definition ctx s : kctx := bc_ctx (l_b (f_l (c_fs s))).

(** What the input routines leave alone: the console is as it was but for the
    input buffer and the output, and the file system but for wakeups. *)
Record types s s' : Prop := {
  ty_fs : exists w, c_fs s' = put (set_woken w (ctx s)) (c_fs s);
  ty_killed : c_killed s' = c_killed s;
  ty_locking : c_locking s' = c_locking s;
  ty_panicked : c_panicked s' = c_panicked s;
  ty_uart : c_uart s' = c_uart s;
  ty_woken : forall ch, ch ∈ woken (ctx s) -> ch ∈ woken (ctx s');
  ty_entered : entered (c_input s') <> entered (c_input s) -> input_chan ∈ woken (ctx s')
}.

(** Ready for input and output. *)
Record ready s : Prop := {
  re_input : input_ok (c_input s);
  re_panicked : c_panicked s = false;
  re_screen : on_screen s
}.

Definition lines s : bytes * bytes := (entered (c_input s), editing (c_input s)).
Definition rx_of s : list Z := h_rx (obs (c_hw s)).
Definition keys_of s : list Z := h_keys (obs (c_hw s)).

Lemma types_refl s : types s s.
Proof. constructor; try done. exists (woken (ctx s)). by destruct s as [[[[[]]]]]. Qed.

Lemma types_trans s s1 s2 : types s s1 -> types s1 s2 -> types s s2.
Proof.
  intros [(w1 & A1) A2 A3 A4 A5 A6 A7] [(w2 & B1) B2 B3 B4 B5 B6 B7]. constructor; try congruence; auto.
  - exists w2. unfold ctx in *. rewrite B1, A1. by destruct (c_fs s) as [[[]]].
  - intros Hne. destruct (decide (entered (c_input s1) = entered (c_input s))) as [E|E]; [rewrite <- E in Hne; auto|auto].
Qed.

(** The outcome of a character. *)
Record typed s s' (st : bytes * bytes) : Prop := {
  td_types : types s s';
  td_ready : ready s';
  td_rx : rx_of s' = rx_of s;
  td_keys : keys_of s' = keys_of s;
  td_shift : c_shift s' = c_shift s;
  td_lines : lines s' = st
}.

Lemma typed_refl s : ready s -> typed s s (lines s).
Proof. intros R. constructor; try done. apply types_refl. Qed.

Lemma typed_trans s s1 s2 st1 st2 : typed s s1 st1 -> typed s1 s2 st2 -> typed s s2 st2.
Proof. intros [A1 A2 A3 A4 A5 A6] [B1 B2 B3 B4 B5 B6]. constructor; try congruence. by eapply types_trans. Qed.

(** Changing the input buffer and then showing the character. *)
Lemma echo_shows c i s : ready s -> exists s', (upd_input (fun _ => i) ;;; consputc c) s = Ok tt s' /\ shows (set_input i s) s' /\ on_screen s'.
Proof.
  intros [R1 R2 R3]. unfold upd_input, bind, modify. cbn [seqr]. destruct (consputc_ok c (set_input i s)) as (s1 & E & S & O & _); try done.
  by exists s1.
Qed.

Lemma shows_typed i s s' : ready s -> shows (set_input i s) s' -> on_screen s' -> input_ok i -> entered i = entered (c_input s) ->
  c_input s' = i /\ typed s s' (entered i, editing i).
Proof.
  intros [R1 R2 R3] S O Hi He. pose proof (sh_input _ _ S) as Ei. cbn in Ei. pose proof (sh_fs _ _ S) as Ef. cbn in Ef.
  split; [done|]. constructor.
  - constructor; rewrite ?Ei, ?Ef; try apply S; try done.
    + exists (woken (ctx s)). by destruct s as [[[[[]]]]].
    + unfold ctx. rewrite Ef. done.
  - constructor; [by rewrite Ei|by rewrite (sh_panicked _ _ S)|done].
  - apply (sh_rx _ _ S).
  - apply (sh_keys _ _ S).
  - apply (sh_shift _ _ S).
  - unfold lines. by rewrite Ei.
Qed.

Lemma echo_ok c i s : ready s -> input_ok i -> entered i = entered (c_input s) -> exists s',
  (upd_input (fun _ => i) ;;; consputc c) s = Ok tt s' /\ c_input s' = i /\ typed s s' (entered i, editing i).
Proof.
  intros R Hi He. destruct (echo_shows c i s R) as (s' & E & S & O). exists s'. split; [done|]. by apply shows_typed.
Qed.

Lemma kill_line_ok fuel : forall s, ready s -> (length (editing (c_input s)) < fuel)%nat -> exists s',
  kill_line fuel s = Ok tt s' /\ typed s s' (entered (c_input s), []).
Proof.
  induction fuel as [|fuel IH]; intros s R Hf; [lia|]. cbn [kill_line]. unfold bind at 1, gets. cbn [seqr]. set (i := c_input s) in *.
  pose proof (re_input _ R) as Hok. fold i in Hok. destruct (Z.eqb_spec (in_e i) (in_w i)) as [E|E]; cbn [negb andb].
  { exists s. split; [done|]. replace (entered i, []) with (lines s); [by apply typed_refl|]. unfold lines. fold i. f_equal.
    unfold editing. by rewrite E, Z.sub_diag. }
  destruct (erased_ok i Hok E) as (Hok' & En & Ed & Hlen & Hin).
  destruct (Z.eqb_spec (buf_at i (u32 (in_e i - 1))) NEWLINE) as [Eb|_].
  { destruct Hok as [_ Hnl]. rewrite Eb in Hin. done. }
  cbn [negb]. destruct (echo_ok BACKSPACE _ s R Hok' En) as (s1 & E1 & Ei & T1).
  assert (E2 : (upd_input (set_e (u32 (in_e i - 1))) ;;; consputc BACKSPACE ;;; kill_line fuel) s = kill_line fuel s1).
  { unfold bind, upd_input, modify in *. cbn [seqr] in *. fold i. by rewrite E1. }
  rewrite E2. destruct (IH s1) as (s2 & E3 & T2); [apply T1|rewrite Ei; lia|]. exists s2. split; [done|].
  rewrite Ei, En in T2. by eapply typed_trans.
Qed.

(** The line is entered and readers are woken. *)
Definition enter s : cst W :=
  put (set_woken (woken (ctx s) ++ [input_chan]) (ctx s)) (set_input (set_w (in_e (c_input s)) (c_input s)) s).

Lemma enter_ok i s s' : ready s -> shows (set_input i s) s' -> on_screen s' -> ring_ok i ->
  (upd_input (fun i => set_w (in_e i) i) ;;; Klock.wakeup input_chan) s' = Ok tt (enter s') /\
  typed s (enter s') (entered i ++ editing i, []).
Proof.
  intros [R1 R2 R3] S O Hi. pose proof (sh_input _ _ S) as Ei. cbn in Ei. pose proof (sh_fs _ _ S) as Ef. cbn in Ef.
  destruct (entered_ok i Hi) as (Hok & En & Ed). split; [done|].
  assert (Eni : c_input (enter s') = set_w (in_e i) i) by (unfold enter; cbn; by rewrite Ei).
  assert (Ew : woken (ctx (enter s')) = woken (ctx s) ++ [input_chan]).
  { unfold ctx, enter. cbn. unfold ctx. by rewrite Ef. }
  constructor.
  - constructor; try apply S; try done.
    + exists (woken (ctx s) ++ [input_chan]). unfold enter, ctx. cbn. rewrite Ef. by destruct (c_fs s) as [[[]]].
    + rewrite Ew. set_solver+.
    + rewrite Ew. set_solver+.
  - constructor; [by rewrite Eni|by apply (eq_trans (sh_panicked _ _ S))|done].
  - apply (sh_rx _ _ S).
  - apply (sh_keys _ _ S).
  - apply (sh_shift _ _ S).
  - unfold lines. rewrite Eni, En, Ed. done.
Qed.

Lemma s8_newline c : 0 <= c < 256 -> s8 c = NEWLINE -> c = NEWLINE.
Proof. unfold s8, NEWLINE. zdiv. Qed.

(** An ordinary character. *)
Lemma store_char_ok c s : ready s -> 0 <= c < 256 -> u32 (in_e (c_input s) - in_r (c_input s)) < INPUT_BUF -> exists s',
  (upd_input (store_char c) ;;; consputc c ;;; i <- gets c_input ;;
   when ((c =? NEWLINE) || (c =? CTRL_D) || (in_e i =? u32 (in_r i + INPUT_BUF)))
     (upd_input (fun i => set_w (in_e i) i) ;;; Klock.wakeup input_chan)) s = Ok tt s' /\
  typed s s'
    (let line := editing (c_input s) ++ [s8 c] in
     if (c =? NEWLINE) || (c =? CTRL_D) || (length (entered (c_input s)) + length line =? 128)%nat
     then (entered (c_input s) ++ line, []) else (entered (c_input s), line)).
Proof.
  intros R Hc Hlt. set (i := c_input s) in *. pose proof (re_input _ R) as [Hr Hnl]. fold i in Hr, Hnl.
  destruct (stored_ok c i Hr Hlt) as (Hr1 & En & Ed & Hu). set (i1 := store_char c i) in *.
  destruct (echo_shows c i1 s R) as (s1 & E1 & S1 & O1). pose proof (sh_input _ _ S1) as Ei. cbn in Ei.
  assert (E2 : forall k : M (cst W) unit, (upd_input (store_char c) ;;; consputc c ;;; k) s = k s1).
  { intros k. unfold bind, upd_input, modify in *. cbn [seqr] in *. fold i. fold i1. by rewrite E1. }
  rewrite E2. unfold bind at 1, gets. cbn [seqr]. rewrite Ei. cbn zeta.
  assert (Efull : (in_e i1 =? u32 (in_r i1 + INPUT_BUF)) = (length (entered i) + length (editing i ++ [s8 c]) =? 128)%nat).
  { rewrite <- Ed, <- En. pose proof (used_length i1 Hr1) as Hul. destruct Hr1 as [_ G1 _ G2 _].
    destruct (Z.eqb_spec (in_e i1) (u32 (in_r i1 + INPUT_BUF))); destruct (Nat.eqb_spec (length (entered i1) + length (editing i1)) 128);
      try done; unfold u32, INPUT_BUF in *; zdiv. }
  rewrite <- Efull. destruct (((c =? NEWLINE) || (c =? CTRL_D)) || _) eqn:Ecommit; cbn [when].
  - destruct (enter_ok i1 s s1 R S1 O1 Hr1) as (E3 & T3). exists (enter s1). split; [done|]. by rewrite En, Ed in T3.
  - exists s1. split; [done|]. rewrite <- Ed, <- En. eapply shows_typed; try done. split; [done|]. rewrite Ed.
    intros [Hin|Hin%list_elem_of_singleton]%elem_of_app; [done|]. symmetry in Hin. apply s8_newline in Hin; [|done]. by rewrite Hin in Ecommit.
Qed.

Lemma console_char_ok c s : ready s -> 0 <= c < 256 -> exists s',
  console_char c s = Ok (c =? CTRL_P) s' /\ typed s s' (edit c (lines s)).
Proof.
  intros R Hc. unfold console_char, bind at 1, gets at 1. cbn [seqr]. unfold edit, lines at 1. set (i := c_input s) in *.
  pose proof (re_input _ R) as Hok. fold i in Hok. pose proof (used_length i (proj1 Hok)) as Hul.
  destruct (Z.eqb_spec c CTRL_P) as [->|Hp]; [exists s; split; [done|by apply typed_refl]|].
  destruct (Z.eqb_spec c CTRL_U) as [->|Hu].
  { destruct (kill_line_ok (S (Z.to_nat INPUT_BUF)) s R) as (s1 & E1 & T1).
    { destruct Hok as [[_ _ _ _ Hfit] _]. unfold INPUT_BUF in *. fold i. pose proof (u32_range (in_w i - in_r i)). unfold editing. rewrite window_length. lia. }
    exists s1. split; [by step E1|done]. }
  destruct ((c =? CTRL_H) || (c =? 0x7f)).
  { destruct (Z.eqb_spec (in_e i) (in_w i)) as [E|E]; cbn [negb when].
    - exists s. split; [done|]. assert (El : editing i = []) by (unfold editing; by rewrite E, Z.sub_diag).
      rewrite El. cbn [length Nat.sub take]. rewrite <- El. by apply typed_refl.
    - destruct (erased_ok i Hok E) as (Hok' & En & Ed & _ & _). destruct (echo_ok BACKSPACE _ s R Hok' En) as (s1 & E1 & _ & T1).
      exists s1. rewrite En, Ed in T1. split; [|done]. unfold bind, upd_input, modify in *. cbn [seqr] in *. fold i. by rewrite E1. }
  destruct (Z.eqb_spec c 0) as [->|Hz]; cbn [negb andb when orb]; [exists s; split; [done|by apply typed_refl]|].
  assert (Elt : (u32 (in_e i - in_r i) <? INPUT_BUF) = (length (entered i) + length (editing i) <? 128)%nat).
  { rewrite <- Hul. unfold INPUT_BUF. destruct (Z.ltb_spec (Z.of_nat (length (entered i) + length (editing i))) 128);
      destruct (Nat.ltb_spec (length (entered i) + length (editing i)) 128); try done; lia. }
  rewrite <- Elt. destruct (Z.ltb_spec (u32 (in_e i - in_r i)) INPUT_BUF) as [Hlt|_]; cbn [negb when].
  - set (c' := if c =? 13 then NEWLINE else c). assert (Hc' : 0 <= c' < 256) by (unfold c', NEWLINE; destruct (c =? 13); lia).
    destruct (store_char_ok c' s R Hc' Hlt) as (s1 & E1 & T1). exists s1. split; [by step E1|done].
  - exists s. split; [done|by apply typed_refl].
Qed.

(** * Interrupts *)

(** Reading a device. *)
Record fetches s s' : Prop := {
  fe_fs : c_fs s' = c_fs s;
  fe_killed : c_killed s' = c_killed s;
  fe_locking : c_locking s' = c_locking s;
  fe_panicked : c_panicked s' = c_panicked s;
  fe_uart : c_uart s' = c_uart s;
  fe_input : c_input s' = c_input s;
  fe_crt : c_crt s' = c_crt s;
  fe_pos : pos_of s' = pos_of s
}.

(** A device that has some characters waiting. *)
Record source (getc : M (cst W) Z) (pending : cst W -> list Z) : Prop := {
  so_byte : forall s c, c ∈ pending s -> 0 <= c < 256;
  so_some : forall s c cs, pending s = c :: cs -> exists s', getc s = Ok c s' /\ fetches s s' /\ pending s' = cs;
  so_none : forall s, pending s = [] -> exists s', getc s = Ok (-1) s' /\ fetches s s' /\ pending s' = [];
  so_kept : forall s s' st, typed s s' st -> pending s' = pending s
}.

Lemma fetches_types s s' : fetches s s' -> ready s -> types s s' /\ ready s' /\ lines s' = lines s.
Proof.
  intros [F1 F2 F3 F4 F5 F6 F7 F8] [R1 R2 R3]. assert (Ec : ctx s' = ctx s) by (unfold ctx; by rewrite F1).
  split; [|split; [|unfold lines; by rewrite F6]].
  - constructor; rewrite ?Ec; try done.
    + exists (woken (ctx s)). rewrite F1. by destruct s as [[[[[]]]]].
    + by rewrite F6.
  - constructor; rewrite ?F4, ?F6; try done. unfold on_screen. by rewrite F7, F8.
Qed.

Section intr.
Context (getc : M (cst W) Z) (pending : cst W -> list Z) (So : source getc pending).

Lemma intr_loop_ok cs : forall fuel s dump, pending s = cs -> (length cs < fuel)%nat -> ready s -> exists s',
  intr_loop getc dump fuel s = Ok (dump || existsb (fun c => c =? CTRL_P) cs) s' /\ types s s' /\ ready s' /\
  lines s' = foldl (fun st c => edit c st) (lines s) cs /\ pending s' = [].
Proof using So.
  induction cs as [|c cs IH]; intros fuel s dump Hp Hf R; (destruct fuel as [|fuel]; [cbn in Hf; lia|]); cbn [intr_loop].
  - destruct (so_none _ _ So s Hp) as (s1 & E1 & F1 & P1). step E1. destruct (fetches_types s s1 F1 R) as (T & R1 & L1).
    exists s1. cbn. by rewrite orb_false_r.
  - destruct (so_some _ _ So s c cs Hp) as (s1 & E1 & F1 & P1). step E1. destruct (fetches_types s s1 F1 R) as (T1 & R1 & L1).
    assert (Hc : 0 <= c < 256) by (apply (so_byte _ _ So s); rewrite Hp; by left). rewrite (proj2 (Z.leb_le 0 c)) by lia.
    destruct (console_char_ok c s1 R1 Hc) as (s2 & E2 & T2). step E2. pose proof (so_kept _ _ So _ _ _ T2) as P2.
    destruct (IH fuel s2 (dump || (c =? CTRL_P))) as (s3 & E3 & T3 & R3 & L3 & P3); [congruence|cbn in Hf; lia|apply T2|].
    exists s3. cbn [existsb foldl]. rewrite orb_assoc. split; [done|].
    split; [eapply types_trans; [done|]; eapply types_trans; [apply T2|done]|]. split; [done|]. split; [|done].
    rewrite L3, (td_lines _ _ _ T2), L1. done.
Qed.

Lemma consoleintr_ok procdump fuel s : cons_lock ∉ held (ctx s) -> (length (pending s) < fuel)%nat -> ready s ->
  (forall (c : kctx) s, pending (put c s) = pending s) ->
  exists s', consoleintr procdump fuel getc s = when (existsb (fun c => c =? CTRL_P) (pending s)) procdump s' /\ types s s' /\ ready s' /\
  lines s' = foldl (fun st c => edit c st) (lines s) (pending s) /\ pending s' = [].
Proof using So.
  intros Hn Hf R Hput. unfold consoleintr. step (Klock.acquire_ok cons_lock s Hn). set (s1 := put _ s).
  assert (R1 : ready s1) by (destruct R; by constructor). assert (P1 : pending s1 = pending s) by apply Hput.
  destruct (intr_loop_ok (pending s) fuel s1 false P1 Hf R1) as (s2 & E2 & T2 & R2 & L2 & P2). step E2.
  destruct (ty_fs _ _ T2) as (w & Ew). assert (Hin : cons_lock ∈ held (ctx s2)).
  { unfold ctx. rewrite Ew. cbn. set_solver+. }
  step (Klock.release_ok cons_lock s2 Hin). set (s3 := put _ s2).
  exists s3. cbn [orb]. split; [done|]. split; [|split; [destruct R2; by constructor|split; [done|unfold s3; by rewrite Hput]]].
  destruct T2 as [_ T3 T4 T5 T6 T7 T8]. assert (Ewk : woken (ctx s3) = woken (ctx s2)) by done.
  constructor; rewrite ?Ewk; try done.
  exists w. unfold s3. cbn. unfold ctx in *. rewrite Ew. destruct s as [[[[[h wk pid]]]]]. cbn in *.
  by replace (({[cons_lock]} ∪ h) ∖ {[cons_lock]}) with h by set_solver.
Qed.
End intr.

(** The serial line. *)
Definition uart_pending s : list Z := if c_uart s then u8 <$> rx_of s else [].

Lemma uart_source : source uartgetc uart_pending.
Proof.
  constructor.
  - intros s c. unfold uart_pending. destruct (c_uart s); [|by intros ?%elem_of_nil]. intros (x & -> & _)%list_elem_of_fmap. apply u8_range.
  - intros s c cs. unfold uart_pending, uartgetc, bind at 1, gets. cbn [seqr]. destruct (c_uart s) eqn:Eu; [|done]. cbn [negb].
    destruct (rx_of s) as [|x xs] eqn:Ex; [done|]. cbn [fmap list_fmap]. intros [= <- <-].
    step (inb_ok (COM1 + 5) s). destruct (obs_status (c_hw s)) as [E1 O1]. unfold rx_of in Ex. rewrite E1, Ex. cbn [waiting Z.eqb].
    set (s1 := set_hw _ s). rewrite inb_ok. destruct (obs_receive (c_hw s1) x xs) as [E2 O2].
    { unfold s1. cbn [c_hw set_hw]. by rewrite O1. }
    rewrite E2. eexists. split; [done|]. split.
    + constructor; try done. unfold pos_of. cbn [c_hw set_hw]. rewrite O2. cbn. unfold s1. cbn [c_hw set_hw]. by rewrite O1.
    + cbn [c_uart set_hw s1]. rewrite Eu. unfold rx_of. cbn [c_hw set_hw]. by rewrite O2.
  - intros s. unfold uart_pending, uartgetc, bind at 1, gets. cbn [seqr]. destruct (c_uart s) eqn:Eu; cbn [negb].
    2:{ intros _. exists s. split; [done|]. rewrite Eu. by split. }
    intros Ex%fmap_nil_inv. step (inb_ok (COM1 + 5) s). destruct (obs_status (c_hw s)) as [E1 O1]. unfold rx_of in Ex. rewrite E1, Ex.
    cbn [waiting Z.eqb]. eexists. split; [done|]. split.
    + constructor; try done. unfold pos_of. cbn [c_hw set_hw]. by rewrite O1.
    + cbn [c_uart set_hw]. rewrite Eu. unfold rx_of. cbn [c_hw set_hw]. by rewrite O1, Ex.
  - intros s s' st T. unfold uart_pending. by rewrite (ty_uart _ _ (td_types _ _ _ T)), (td_rx _ _ _ T).
Qed.

(** The keyboard. *)
Definition kbd_pending s : list Z := kbd_results (c_shift s) (u8 <$> keys_of s).

Lemma kbd_source : source c_kbdgetc kbd_pending.
Proof.
  constructor.
  - intros s c. apply kbd_results_range.
  - intros s c cs. unfold kbd_pending, c_kbdgetc, kbdgetc. destruct (obs_kbstat (c_hw s)) as [E1 O1].
    destruct (keys_of s) as [|x xs] eqn:Ex; [done|]. cbn [fmap list_fmap kbd_results]. intros [= <- <-].
    unfold keys_of in Ex. rewrite Ex in E1. destruct (inb KBSTATP (c_hw s)) as [st w1]. cbn [fst snd] in E1, O1. rewrite E1.
    cbn [waiting Z.eqb]. destruct (obs_kbdata w1 x xs) as [E2 O2]; [by rewrite O1|]. destruct (inb KBDATAP w1) as [d w2]. cbn [fst snd] in E2, O2. subst d.
    destruct (kbd_byte (c_shift s) (u8 x)) as [c sh]. eexists. split; [done|]. split.
    + constructor; try done. unfold pos_of. cbn [c_hw set_hw set_shift]. rewrite O2. cbn. by rewrite O1.
    + cbn [c_shift set_shift]. unfold keys_of. cbn [c_hw set_hw set_shift]. by rewrite O2.
  - intros s. unfold kbd_pending, c_kbdgetc, kbdgetc. destruct (obs_kbstat (c_hw s)) as [E1 O1].
    destruct (keys_of s) as [|x xs] eqn:Ex; [|done]. intros _. unfold keys_of in Ex. rewrite Ex in E1.
    destruct (inb KBSTATP (c_hw s)) as [st w1]. cbn [fst snd] in E1, O1. rewrite E1. cbn [waiting Z.eqb]. eexists. split; [done|]. split.
    + constructor; try done. unfold pos_of. cbn [c_hw set_hw set_shift]. by rewrite O1.
    + unfold keys_of. cbn [c_hw set_hw set_shift]. by rewrite O1, Ex.
  - intros s s' st T. unfold kbd_pending. by rewrite (td_shift _ _ _ T), (td_keys _ _ _ T).
Qed.

(** A result of 0 is no character. *)
Lemma edit_zero st : edit 0 st = st.
Proof. by destruct st. Qed.

Lemma edit_filter st cs : foldl (fun st c => edit c st) st (List.filter (fun c => negb (c =? 0)) cs) = foldl (fun st c => edit c st) st cs.
Proof.
  revert st. induction cs as [|c cs IH]; intros st; [done|]. cbn. destruct (Z.eqb_spec c 0) as [->|]; cbn; [by rewrite edit_zero|done].
Qed.
End typing.

(** * Reading *)

(** A read of [n] bytes from the lines entered: the bytes it returns and what
    is left; [None] when it has to wait for more.  A control-D ends it, and is
    left for the next read if it is not the first character. *)
Fixpoint read_line (first : bool) (n : nat) (q : bytes) : option (bytes * bytes) :=
  match n with
  | O => Some ([], q)
  | S n =>
      match q with
      | [] => None
      | c :: q' =>
          if c =? CTRL_D then Some ([], if first then q' else q)
          else if c =? NEWLINE then Some ([u8 c], q')
          else (fun r => (u8 c :: r.1, r.2)) <$> read_line false n q'
      end
  end.

Section reading.
Context {W : Type} `{ConsoleHw W}.
Implicit Types s : cst W.

(** Taking the oldest character. *)
Lemma taken_ok i c q : input_ok i -> entered i = c :: q ->
  in_r i <> in_w i /\ buf_at i (in_r i) = c /\
  let i' := set_r (u32 (in_r i + 1)) i in input_ok i' /\ entered i' = q /\ editing i' = editing i.
Proof.
  intros [[H1 H2 H3 H4 H5] H6] Hq.
  assert (Hne : in_r i <> in_w i) by (intros E; unfold entered in Hq; by rewrite E, Z.sub_diag in Hq).
  set (i' := set_r (u32 (in_r i + 1)) i).
  assert (Hn : Z.to_nat (u32 (in_w i - in_r i)) = (1 + Z.to_nat (u32 (in_w i' - in_r i')))%nat).
  { unfold i'. cbn [in_r in_w set_r]. unfold u32, INPUT_BUF in *. zdiv. }
  assert (Ee : entered i = buf_at i (in_r i) :: entered i').
  { unfold entered at 1. rewrite Hn, window_app. cbn [window seq fmap list_fmap app]. f_equal.
    - f_equal. lia.
    - unfold entered. cbn [in_r set_r i']. rewrite window_wrap. done. }
  rewrite Hq in Ee. injection Ee as Ec Eq. split; [done|]. split; [done|]. split; [|done]. split; [|done].
  constructor; try done; cbn [in_buf in_r in_w in_e set_r i']; [apply u32_range|]. unfold u32, INPUT_BUF in *. zdiv.
Qed.

Lemma read_chars_ok n : forall s target cs q, input_ok (c_input s) -> Z.of_nat n <= target ->
  read_line (Z.of_nat n =? target) n (entered (c_input s)) = Some (cs, q) -> exists i,
  read_chars target n s = Ok (false, cs) (set_input i s) /\ input_ok i /\ entered i = q /\ editing i = editing (c_input s).
Proof.
  induction n as [|n IH]; intros s target cs q Hok Ht Hr.
  { injection Hr as <- <-. exists (c_input s). split; [by destruct s|done]. }
  cbn [read_line] in Hr. destruct (entered (c_input s)) as [|c q'] eqn:Eq; [done|].
  destruct (taken_ok _ _ _ Hok Eq) as (Hne & Hb & Hok' & En & Ed). set (i' := set_r _ _) in *.
  cbn [read_chars]. assert (Ew : wait_input CWAITS s = Ok true s).
  { change CWAITS with (S 999). cbn [wait_input]. unfold bind at 1, gets. cbn [seqr]. by rewrite (proj2 (Z.eqb_neq _ _) Hne). }
  step Ew. cbn [negb]. unfold bind at 1, gets. cbn [seqr]. unfold upd_input, bind at 1, modify. cbn [seqr]. fold i'. rewrite Hb.
  destruct (c =? CTRL_D).
  { destruct (Z.eqb_spec (Z.of_nat (S n)) target) as [E|E]; injection Hr as <- <-.
    - rewrite (proj2 (Z.ltb_ge _ _)) by lia. cbn [when]. by exists i'.
    - rewrite (proj2 (Z.ltb_lt _ _)) by lia. cbn [when]. exists (c_input s). split; [|done].
      unfold bind, modify, ret. cbn. by destruct s as [? ? ? ? ? ? ? []]. }
  destruct (c =? NEWLINE); [injection Hr as <- <-; by exists i'|].
  apply fmap_Some in Hr as ([cs' q''] & Hr & [= -> ->]).
  destruct (IH (set_input i' s) target cs' q'') as (i & E & Hi & Hq & He); cbn [c_input set_input]; [done|lia| |].
  { rewrite (proj2 (Z.eqb_neq _ _)) by lia. by rewrite En. }
  exists i. step E. split; [done|]. split; [done|]. split; [done|]. by rewrite He.
Qed.

(** The inode of the console, locked and loaded. *)
Record console_inode (f : fs) (ip : nat) : Prop := {
  ci_slot : (ip < length (f_icache f))%nat;
  ci_ref : 1 <= i_ref (geti f ip);
  ci_valid : i_valid (geti f ip) = true;
  ci_type : i_type (geti f ip) <> 0;
  ci_locked : sl_locked (i_lock (geti f ip)) = true;
  ci_free : sl_lock (iref ip) ∉ held (view f)
}.

Lemma iunlock_ok f ip : console_inode f ip -> iunlock ip f = Ok tt (released (iref ip) f).
Proof.
  intros [H1 H2 H3 H4 H5 H6]. unfold iunlock. step (holdingsleep_ok (iref ip) f (iref_ok ip) H6). change (sl_get (iref ip) f) with (i_lock (geti f ip)).
  rewrite H5. cbn [negb]. step (@ifield_ok Z i_ref ip f). rewrite (proj2 (Z.ltb_ge _ _)) by lia. by apply releasesleep_ok; [apply iref_ok|].
Qed.

(** Locking it again, when it is still loaded. *)
Definition relocked (ip : nat) (f : fs) : fs := sl_set (iref ip) (Sleep true (curpid (view f))) f.

Lemma relock_ok f ip : console_inode f ip -> ilock ip (released (iref ip) f) = Ok tt (relocked ip (released (iref ip) f)) /\
  geti (relocked ip (released (iref ip) f)) ip = set_ilock (Sleep true (curpid (view f))) (geti f ip).
Proof.
  intros [H1 H2 H3 H4 H5 H6]. set (f1 := released (iref ip) f).
  assert (G1 : geti f1 ip = set_ilock free_sleeplock (geti f ip)) by by apply (geti_alter_eq _ ip f).
  assert (L1 : (ip < length (f_icache f1))%nat) by (unfold f1; cbn; by rewrite length_alter).
  assert (G2 : geti (relocked ip f1) ip = set_ilock (Sleep true (curpid (view f1))) (geti f1 ip)) by by apply (geti_alter_eq _ ip f1).
  split; [|by rewrite G2, G1]. unfold ilock. step (@ifield_ok Z i_ref ip f1). rewrite G1. cbn [i_ref set_ilock]. rewrite (proj2 (Z.ltb_ge _ _)) by lia.
  assert (E : acquiresleep (iref ip) f1 = Ok tt (relocked ip f1)).
  { apply acquiresleep_free; [apply iref_ok|done|]. change (sl_get (iref ip) f1) with (i_lock (geti f1 ip)). by rewrite G1. }
  step E. step (@ifield_ok inode id ip (relocked ip f1)). cbn [id]. rewrite G2, G1. cbn [i_valid set_ilock]. by rewrite H3.
Qed.

Lemma consoleread_ok s ip n cs q :
  console_inode (c_fs s) ip -> cons_lock ∉ held (ctx s) -> input_ok (c_input s) -> 0 <= n < 2 ^ 31 ->
  read_line true (Z.to_nat n) (entered (c_input s)) = Some (cs, q) -> exists s',
  consoleread ip n s = Ok (Z.of_nat (length cs), cs) s' /\ input_ok (c_input s') /\ lines s' = (q, editing (c_input s)) /\
  held (ctx s') = held (ctx s) /\ console_inode (c_fs s') ip.
Proof.
  intros Hi Hn Hok Hr Hl. set (f1 := released (iref ip) (c_fs s)). set (s1 := set_cfs f1 s).
  unfold consoleread. step (lift_ok (T := fs) (iunlock ip) s tt f1 (iunlock_ok _ _ Hi)). change (put f1 s) with s1.
  assert (Hn1 : cons_lock ∉ held (view (T := kctx) s1)) by done.
  step (Klock.acquire_ok cons_lock s1 Hn1). set (s2 := put _ s1). rewrite u32_id by lia.
  destruct (read_chars_ok (Z.to_nat n) s2 n cs q) as (i & E & Hi' & Hq & He); [done|lia| |].
  { rewrite Z2Nat.id by lia. rewrite Z.eqb_refl. exact Hl. }
  step E. set (s3 := set_input i s2).
  assert (E3 : Klock.release cons_lock s3 = Ok tt (set_input i s1)).
  { rewrite (Klock.release_after cons_lock (ctx s1) s3 Hn1) by done. unfold s3, s2, ctx. f_equal. }
  step E3. destruct (relock_ok (c_fs s) ip Hi) as [E4 G4]. fold f1 in E4, G4.
  step (lift_ok (T := fs) (ilock ip) (set_input i s1) tt (relocked ip f1) E4). eexists. split; [done|].
  split; [done|]. split; [unfold lines; cbn; by rewrite Hq, He|]. split; [done|]. destruct Hi as [H1 H2 H3 H4 H5 H6].
  change (c_fs (put (relocked ip f1) (set_input i s1))) with (relocked ip f1).
  constructor; rewrite ?G4; try done. cbn. by rewrite !length_alter.
Qed.
End reading.

(** * Correctness *)

Section correct.
Context {W : Type} `{ConsoleHw W}.
Implicit Types s : cst W.

(** The characters in order, each edited in. *)
Definition edit_all (cs : list Z) (st : bytes * bytes) : bytes * bytes := foldl (fun st c => edit c st) st cs.

Lemma no_dump cs : CTRL_P ∉ cs -> existsb (fun c => c =? CTRL_P) cs = false.
Proof.
  intros Hn. apply not_true_is_false. intros (c & Hc & Ec%Z.eqb_eq)%existsb_exists. subst c. by apply Hn, list_elem_of_In.
Qed.

Lemma kbd_results_length shift codes : length (kbd_results shift codes) = length codes.
Proof. revert shift. induction codes as [|d codes IH]; intros shift; [done|]. cbn. by rewrite IH. Qed.

Lemma kbdintr_ok procdump fuel s :
  ready s -> cons_lock ∉ held (ctx s) -> (length (keys_of s) < fuel)%nat -> CTRL_P ∉ (kbd_chars (c_shift s) (u8 <$> keys_of s)).1 ->
  exists s', kbdintr procdump fuel s = Ok tt s' /\ types s s' /\ ready s' /\
    lines s' = edit_all (kbd_chars (c_shift s) (u8 <$> keys_of s)).1 (lines s) /\ keys_of s' = [].
Proof.
  intros R Hn Hf Hp. rewrite <- kbd_results_chars in *.
  assert (Hp' : CTRL_P ∉ kbd_pending s).
  { intros Hin. apply Hp. apply list_elem_of_In, filter_In. by split; [apply list_elem_of_In|]. }
  destruct (consoleintr_ok c_kbdgetc kbd_pending kbd_source procdump fuel s Hn) as (s' & E & T & R' & L & P); [|done|done|].
  { unfold kbd_pending. by rewrite kbd_results_length, length_fmap. }
  exists s'. rewrite (no_dump _ Hp') in E. split; [exact E|]. split; [done|]. split; [done|].
  split; [unfold edit_all; by rewrite edit_filter|].
  apply (f_equal length) in P. unfold kbd_pending in P. rewrite kbd_results_length, length_fmap in P. by apply length_zero_iff_nil.
Qed.

Lemma uartintr_ok procdump fuel s :
  ready s -> cons_lock ∉ held (ctx s) -> c_uart s = true -> (length (rx_of s) < fuel)%nat -> CTRL_P ∉ u8 <$> rx_of s ->
  exists s', uartintr procdump fuel s = Ok tt s' /\ types s s' /\ ready s' /\
    lines s' = edit_all (u8 <$> rx_of s) (lines s) /\ rx_of s' = [].
Proof.
  intros R Hn Hu Hf Hp. assert (Ep : uart_pending s = u8 <$> rx_of s) by (unfold uart_pending; by rewrite Hu).
  destruct (consoleintr_ok uartgetc uart_pending uart_source procdump fuel s Hn) as (s' & E & T & R' & L & P); [|done|done|].
  { by rewrite Ep, length_fmap. }
  rewrite Ep in *. exists s'. rewrite (no_dump _ Hp) in E. split; [exact E|]. split; [done|]. split; [done|]. split; [done|].
  unfold uart_pending in P. rewrite (ty_uart _ _ T), Hu in P. by apply fmap_nil_inv in P.
Qed.

(** C33: the interrupt handlers of the keyboard and the serial line edit the
    input line by line.  All the bytes waiting at the device are consumed;
    the lines entered and the line being edited are what the characters make
    of them one after the other: control-U discards the line, backspace its
    last character, a line end, a control-D or a full buffer enters it, and a
    character that does not fit is dropped.  When a line is entered its
    readers are woken; locks and the file system are left as they were.  For
    input without control-P, which lists the processes. *)
Theorem console_edits (procdump : M (cst W) unit) (fuel : nat) (s : cst W) :
  ready s -> cons_lock ∉ held (ctx s) ->
  ((length (keys_of s) < fuel)%nat -> CTRL_P ∉ (kbd_chars (c_shift s) (u8 <$> keys_of s)).1 ->
   exists s', kbdintr procdump fuel s = Ok tt s' /\ types s s' /\ ready s' /\
     lines s' = edit_all (kbd_chars (c_shift s) (u8 <$> keys_of s)).1 (lines s) /\ keys_of s' = []) /\
  (c_uart s = true -> (length (rx_of s) < fuel)%nat -> CTRL_P ∉ u8 <$> rx_of s ->
   exists s', uartintr procdump fuel s = Ok tt s' /\ types s s' /\ ready s' /\
     lines s' = edit_all (u8 <$> rx_of s) (lines s) /\ rx_of s' = []).
Proof. intros R Hn. split; intros; [by apply kbdintr_ok|by apply uartintr_ok]. Qed.

(** C34: one character on the screen.  With the cursor on the screen,
    [cgaputc] does not panic: the cursor moves past the character, back for a
    backspace or to the next line, and stays on the screen; the character is
    in its cell and the cell at the cursor is blank; when the cursor would
    leave the screen all lines move up by one and the last is cleared.  The
    input and the rest of the console are not touched. *)
Theorem cgaputc_screen (c : Z) (s : cst W) :
  on_screen s -> exists s', cgaputc c s = Ok tt s' /\ shows s s' /\ pos_of s' = screen_pos c (pos_of s) /\ 0 <= pos_of s' < SCREEN /\
    length (c_crt s') = length (c_crt s) /\
    forall k, 0 <= k < SCREEN -> cell (c_crt s') k = screen_cell c (pos_of s) (c_crt s) k.
Proof.
  intros Hon. destruct (cgaputc_ok c s Hon) as (s' & E & S & P & L & C). exists s'. split; [done|]. split; [done|]. split; [done|].
  split; [|done]. rewrite P. apply screen_pos_range, Hon.
Qed.

(** A line of printable characters, typed into an empty buffer. *)
Definition printable (c : Z) : bool := (32 <=? c) && (c <? 127).

Lemma printable_typeable line : forallb printable line = true -> forallb typeable (line ++ [NEWLINE]) = true.
Proof.
  intros Hl. rewrite forallb_app. apply andb_true_iff. split; [|done]. rewrite forallb_forall in *. intros c Hc. specialize (Hl c Hc).
  unfold printable, typeable in *. by rewrite Hl.
Qed.

Lemma edit_printable line : forall acc, forallb printable line = true -> (length acc + length line < 128)%nat ->
  edit_all line ([], acc) = ([], acc ++ line).
Proof.
  induction line as [|c line IH]; intros acc Hp Hl; [cbn; by rewrite app_nil_r|]. cbn [forallb length] in *.
  apply andb_true_iff in Hp as [Hc Hp]. unfold printable in Hc. cbn [edit_all foldl].
  assert (E : edit c ([], acc) = ([], acc ++ [c])).
  { unfold edit. change CTRL_P with 16. change CTRL_U with 21. change CTRL_H with 8. change CTRL_D with 4. change NEWLINE with 10.
    repeat (rewrite (proj2 (Z.eqb_neq c _)) by lia). cbn [orb length Nat.add]. rewrite (proj2 (Nat.ltb_lt _ _)) by lia. cbn [negb].
    rewrite s8_id by lia. rewrite (proj2 (Nat.eqb_neq _ _)) by (rewrite length_app; cbn; lia). done. }
  rewrite E. fold (edit_all line ([], acc ++ [c])). rewrite IH; [by rewrite <- app_assoc|done|rewrite length_app; cbn; lia].
Qed.

Lemma edit_newline line : (length line < 128)%nat -> edit NEWLINE ([], line) = (line ++ [NEWLINE], []).
Proof.
  intros Hl. unfold edit. change (NEWLINE =? CTRL_P) with false. change (NEWLINE =? CTRL_U) with false.
  change ((NEWLINE =? CTRL_H) || (NEWLINE =? 0x7f)) with false. change (NEWLINE =? 0) with false.
  cbn [orb length Nat.add]. by rewrite (proj2 (Nat.ltb_lt _ _)) by lia.
Qed.

Lemma read_printable line : forall n first, forallb printable line = true -> (length line < n)%nat ->
  read_line first n (line ++ [NEWLINE]) = Some (line ++ [NEWLINE], []).
Proof.
  induction line as [|c line IH]; intros n first Hp Hn; (destruct n as [|n]; [cbn in Hn; lia|]); [done|]. cbn [forallb length] in *.
  apply andb_true_iff in Hp as [Hc Hp]. unfold printable in Hc. cbn [app read_line]. change CTRL_D with 4. change NEWLINE with 10.
  rewrite !(proj2 (Z.eqb_neq c _)) by lia. change 10 with NEWLINE. rewrite IH by (done || lia). cbn. by rewrite u8_id by lia.
Qed.

(** C32: from the keys to the reader.  A line of up to 126 printable
    characters is typed, as the keyboard sends it, on a console with nothing
    entered; after the keyboard interrupt, a read with room for the line
    returns it, with its line end, without waiting, and nothing is left. *)
Theorem typed_line_is_read (procdump : M (cst W) unit) (fuel : nat) (s : cst W) (ip : nat) (n : Z) (line : bytes) :
  ready s -> cons_lock ∉ held (ctx s) -> console_inode (c_fs s) ip -> lines s = ([], []) -> c_shift s = 0 ->
  keys_of s = (line ++ [NEWLINE]) ≫= keys -> forallb printable line = true -> (length line < 127)%nat ->
  (length (keys_of s) < fuel)%nat -> Z.of_nat (length line) < n < 2 ^ 31 ->
  exists s1 s2, kbdintr procdump fuel s = Ok tt s1 /\
    consoleread ip n s1 = Ok (Z.of_nat (length line) + 1, line ++ [NEWLINE]) s2 /\ lines s2 = ([], []).
Proof.
  intros R Hn Hi Hl Hs Hk Hp Hlen Hf Hrange. destruct (keys_typed (line ++ [NEWLINE])) as [E1 E2]; [by apply printable_typeable|].
  pose proof (kbdintr_ok procdump fuel s R Hn Hf) as K. rewrite Hs, Hk, E2, E1, Hl in K. cbn [fst] in K.
  destruct K as (s1 & E & T & R1 & L1 & _).
  { intros [Hin%list_elem_of_In|Hin%list_elem_of_singleton]%elem_of_app; [|done]. rewrite forallb_forall in Hp. specialize (Hp _ Hin). done. }
  assert (EL : lines s1 = (line ++ [NEWLINE], [])).
  { rewrite L1. unfold edit_all. rewrite foldl_app. fold (edit_all line ([], [])). rewrite edit_printable by (done || cbn; lia).
    cbn [foldl app]. apply edit_newline. lia. }
  injection EL as En Ed. destruct (ty_fs _ _ T) as (w & Ew).
  destruct (consoleread_ok s1 ip n (line ++ [NEWLINE]) []) as (s2 & E3 & _ & L3 & _).
  - rewrite Ew. destruct Hi as [I1 I2 I3 I4 I5 I6]. constructor; try done; by destruct (c_fs s) as [[[]]].
  - unfold ctx. rewrite Ew. by destruct (c_fs s) as [[[]]].
  - apply R1.
  - lia.
  - rewrite En. apply read_printable; [done|lia].
  - exists s1, s2. split; [done|]. rewrite E3, L3, Ed. split; [|done]. do 2 f_equal. rewrite length_app. cbn. lia.
Qed.
End correct.

(** * A console *)

(** The console device in slot 0 of the inode cache, locked, with the given
    bytes waiting at the serial line and the keyboard. *)
Definition console_fs : fs :=
  Fs (Lst (Bst (Kctx ∅ [] [] 1) [] ∅ 0 []) 0 0 0 false 0 0 []) (superblock_of [])
     [Inode 1 7 1 (Sleep true 1) true 3 1 1 1 0 []].

Definition demo_console (rx ks : list Z) : cst hwst :=
  Cst console_fs false true false (replicate 2000 0) true 0 (Inbuf (replicate 128 0) 0 0 0) (Hw 0 0 rx ks []).

Lemma demo_console_ready rx ks : ready (demo_console rx ks).
Proof.
  constructor; [|done|].
  - split; [|by intros ?%elem_of_nil]. by constructor.
  - split; [|done]. split; [done|reflexivity].
Qed.

Lemma demo_console_inode rx ks : console_inode (c_fs (demo_console rx ks)) 0.
Proof. constructor; try done. cbn. lia. Qed.

Lemma console_edits_witness :
  exists s, uartintr (ret tt) 10 (demo_console [108; 120; 8; 115; 13] []) = Ok tt s /\ lines s = ([108; 115; 10], []).
Proof.
  destruct (console_edits (ret tt) 10 (demo_console [108; 120; 8; 115; 13] []) (demo_console_ready _ _)) as [_ U]; [by apply not_elem_of_empty|].
  destruct U as (s & E & _ & _ & L & _); [done|cbn; lia|by apply (bool_decide_unpack _)|].
  exists s. split; [exact E|]. rewrite L. vm_compute. reflexivity.
Defined.

Lemma cgaputc_screen_witness :
  exists s, cgaputc 65 (demo_console [] []) = Ok tt s /\ pos_of s = 1 /\ cell (c_crt s) 0 = 0x741.
Proof.
  destruct (cgaputc_screen 65 (demo_console [] []) (re_screen _ (demo_console_ready _ _))) as (s & E & _ & P & _ & _ & C).
  exists s. split; [exact E|]. split; [exact P|]. rewrite C by (unfold SCREEN; lia). reflexivity.
Defined.

Lemma typed_line_is_read_witness :
  exists s1 s2, kbdintr (ret tt) 30 (demo_console [] ([76; 115; 10] ≫= keys)) = Ok tt s1 /\
    consoleread 0 100 s1 = Ok (3, [76; 115; 10]) s2.
Proof.
  destruct (typed_line_is_read (ret tt) 30 (demo_console [] ([76; 115; 10] ≫= keys)) 0 100 [76; 115]) as (s1 & s2 & E1 & E2 & _);
    [apply demo_console_ready|by apply not_elem_of_empty|apply demo_console_inode|done..|cbn; lia|vm_compute; lia|cbn; lia|].
  exists s1, s2. split; [exact E1|exact E2].
Defined.
