(* ===== verification/User.v ===== *)
(** User programs: the system calls they make, as an interface, and the C
    library they are linked with, [ulib.c].  A string is the list of its
    characters without the terminating zero. *)

From S2P Require Import Prelude Bytes Fs.
Open Scope Z_scope.
Open Scope xv6_scope.

(** * System calls, [user.h]

    [u_read] returns the result of the call and the bytes it stored. *)
Class Posix (S : Type) := {
  u_read : Z -> Z -> M S (Z * bytes);
  u_write : Z -> bytes -> M S Z;
  u_open : bytes -> Z -> M S Z;
  u_close : Z -> M S Z;
  u_fstat : Z -> M S (Z * stat);
  u_link : bytes -> bytes -> M S Z;
  u_unlink : bytes -> M S Z;
  u_mkdir : bytes -> M S Z;
  u_kill : Z -> M S Z
}.

(** * Strings *)

(** The string a pointer into memory stands for: up to a zero byte. *)
Fixpoint cstr (d : bytes) : bytes :=
  match d with
  | [] => []
  | c :: d => if c =? 0 then [] else c :: cstr d
  end.

(** [strcpy] into a buffer. *)
Fixpoint strcpy (s t : bytes) : bytes :=
  match t with
  | [] => 0 :: tl s
  | c :: t => c :: strcpy (tl s) t
  end.

Fixpoint strcmp (p q : bytes) : Z :=
  match p, q with
  | a :: p', b :: q' => if a =? b then strcmp p' q' else u8 a - u8 b
  | _, _ => u8 (hd 0 p) - u8 (hd 0 q)
  end.

Fixpoint strlen (s : bytes) : Z :=
  match s with
  | [] => 0
  | _ :: s => s32 (1 + strlen s)
  end.

(** The rest of the string from the first [c] on. *)
Fixpoint strchr (s : bytes) (c : Z) : option bytes :=
  match s with
  | [] => None
  | x :: s' => if x =? c then Some s else strchr s' c
  end.

Definition is_digit (c : Z) : bool := (48 <=? c) && (c <=? 57).

Fixpoint atoi_from (n : Z) (s : bytes) : Z :=
  match s with
  | c :: s => if is_digit c then atoi_from (s32 (n * 10 + c - 48)) s else n
  | [] => n
  end.

Definition atoi (s : bytes) : Z := atoi_from 0 s.

(** [memmove] of [ulib.c] on a store: bytes are copied in ascending order,
    whichever way the ranges overlap. *)
Fixpoint umemmove (m : Z -> Z) (dst src : Z) (n : nat) : Z -> Z :=
  match n with
  | O => m
  | Datatypes.S n => umemmove (fun a => if a =? dst then m src else m a) (dst + 1) (src + 1) n
  end.

Section ulib.
Context {S : Type} `{Posix S}.

(** [gets]: the characters read, up to and including a line end. *)
Fixpoint gets_loop (i max : Z) (buf : bytes) (fuel : nat) : M S bytes :=
  match fuel with
  | O => nofuel
  | Datatypes.S fuel =>
      if i + 1 <? max then
        r <- u_read 0 1 ;;
        if fst r <? 1 then ret buf else
        let c := hd 0 (snd r) in
        if (c =? 10) || (c =? 13) then ret (buf ++ [c]) else gets_loop (i + 1) max (buf ++ [c]) fuel
      else ret buf
  end.

Definition ugets (max : Z) : M S bytes := gets_loop 0 max [] (Datatypes.S (Z.to_nat max)).

Definition ustat (n : bytes) : M S (option (Z * stat)) :=
  fd <- u_open n 0 ;;
  if fd <? 0 then ret None else
  r <- u_fstat fd ;;
  u_close fd ;;;
  ret (Some r).
End ulib.

(** * Input and output as streams

    The input arrives in pieces, as from a file, a pipe or a terminal: a read
    returns the next piece or as much of it as fits. *)
Record stdio := Stdio { si_in : list bytes; si_out : bytes }.

Definition stream_read (fd n : Z) : M stdio (Z * bytes) := fun s =>
  match si_in s with
  | [] => Ok (0, []) s
  | c :: cs =>
      if Z.of_nat (length c) <=? n then Ok (Z.of_nat (length c), c) (Stdio cs (si_out s))
      else Ok (n, take (Z.to_nat n) c) (Stdio (drop (Z.to_nat n) c :: cs) (si_out s))
  end.

(** Everything goes to one output. *)
Definition stream_write (fd : Z) (d : bytes) : M stdio Z := fun s =>
  Ok (Z.of_nat (length d)) (Stdio (si_in s) (si_out s ++ d)).

#[global] Instance stream_posix : Posix stdio := {|
  u_read := stream_read;
  u_write := stream_write;
  u_open _ _ := ret 3;
  u_close _ := ret 0;
  u_fstat _ := ret (-1, Stat 0 0 0 0 0);
  u_link _ _ := ret (-1);
  u_unlink _ := ret (-1);
  u_mkdir _ := ret (-1);
  u_kill _ := ret (-1)
|}.

(** * The library functions *)

Lemma strcmp_eq p q : Forall (fun c => 0 < c < 128) p -> Forall (fun c => 0 < c < 128) q -> strcmp p q = 0 <-> p = q.
Proof.
  revert q. induction p as [|a p IH]; intros [|b q] Hp Hq; cbn.
  - done.
  - inversion Hq; subst. rewrite !u8_id by lia. split; [lia|done].
  - inversion Hp; subst. rewrite !u8_id by lia. split; [lia|done].
  - inversion Hp; inversion Hq; subst. destruct (Z.eqb_spec a b) as [->|Hne]; [rewrite IH by done; naive_solver|].
    rewrite !u8_id by lia. split; [lia|naive_solver].
Qed.

(** [strchr] splits the string at the first occurrence. *)
Lemma strchr_spec s c :
  match strchr s c with
  | Some q => exists p, s = p ++ q /\ (c ∉ p) /\ head q = Some c
  | None => c ∉ s
  end.
Proof.
  induction s as [|x s IH]; cbn; [set_solver+|]. destruct (Z.eqb_spec x c) as [->|Hne].
  - exists []. split; [done|]. split; [set_solver+|done].
  - destruct (strchr s c) as [q|].
    + destruct IH as (p & -> & Hp & Hq). exists (x :: p). split; [done|]. split; [set_solver|done].
    + set_solver.
Qed.

Lemma cstr_id d : 0 ∉ d -> cstr d = d.
Proof.
  induction d as [|c d IH]; [done|]. intros Hn. cbn. destruct (Z.eqb_spec c 0) as [->|]; [set_solver|]. rewrite IH; set_solver.
Qed.

Lemma cstr_stop d s : 0 ∉ d -> cstr (d ++ 0 :: s) = d.
Proof.
  induction d as [|c d IH]; [done|]. intros Hn. cbn. destruct (Z.eqb_spec c 0) as [->|]; [set_solver|]. rewrite IH; set_solver.
Qed.
