(* ===== verification/Printf.v ===== *)
(** Formatted output of user programs, [printf.c]. *)

From S2P Require Import Prelude Bytes Fs User.
Open Scope Z_scope.
Open Scope xv6_scope.

(** ["0123456789ABCDEF"]. *)
Definition digits : list Z := [48; 49; 50; 51; 52; 53; 54; 55; 56; 57; 65; 66; 67; 68; 69; 70].

(** [char buf[16]] in [printint]. *)
Definition PRINTBUF : nat := 16.

Definition PERCENT : Z := 37.
Definition MINUS : Z := 45.

Section printf.
Context {S : Type} `{Posix S}.

(** The string at an address of user memory. *)
Context (str_at : Z -> bytes).

Definition putc (fd c : Z) : M S unit := u_write fd [u8 c] ;;; ret tt.

(** [buf[i++] = c], where a store outside the array is a fault. *)
Definition push_char (c : Z) (buf : bytes) : M S bytes :=
  if (length buf <? PRINTBUF)%nat then ret (buf ++ [c]) else fault (Z.of_nat (length buf)).

Fixpoint digit_loop (base x : Z) (buf : bytes) (fuel : nat) : M S bytes :=
  match fuel with
  | O => nofuel
  | Datatypes.S fuel =>
      buf <- push_char (default 0 (digits !! Z.to_nat (x mod base))) buf ;;
      if x / base =? 0 then ret buf else digit_loop base (x / base) buf fuel
  end.

(** [while(--i >= 0) putc(fd, buf[i]);] and the loops over a string. *)
Fixpoint put_all (fd : Z) (cs : bytes) : M S unit :=
  match cs with
  | [] => ret tt
  | c :: cs => putc fd c ;;; put_all fd cs
  end.

Definition printint (fd xx base : Z) (sgn : bool) : M S unit :=
  let neg := sgn && (xx <? 0) in
  let x := if neg then u32 (- xx) else u32 xx in
  buf <- digit_loop base x [] 32 ;;
  buf <- (if neg then push_char MINUS buf else ret buf) ;;
  put_all fd (rev buf).

(** ["(null)"]. *)
Definition NULLSTR : bytes := [40; 110; 117; 108; 108; 41].

(** [*ap], [ap++]: an argument that was not passed is a fault. *)
Definition next_arg (ap : list Z) : M S (Z * list Z) :=
  match ap with
  | a :: ap => ret (a, ap)
  | [] => fault 0
  end.

(** The loop over the format; [state] tells whether a percent sign came just
    before. *)
Fixpoint printf_loop (fd : Z) (state : bool) (fmt : bytes) (ap : list Z) : M S unit :=
  match fmt with
  | [] => ret tt
  | c :: fmt =>
      let c := Z.land c 255 in
      if negb state then
        if c =? PERCENT then printf_loop fd true fmt ap else putc fd c ;;; printf_loop fd false fmt ap
      else
        if c =? 100 then
          a <- next_arg ap ;; printint fd (s32 (fst a)) 10 true ;;; printf_loop fd false fmt (snd a)
        else if (c =? 120) || (c =? 112) then
          a <- next_arg ap ;; printint fd (s32 (fst a)) 16 false ;;; printf_loop fd false fmt (snd a)
        else if c =? 115 then
          a <- next_arg ap ;;
          put_all fd (if fst a =? 0 then NULLSTR else str_at (fst a)) ;;; printf_loop fd false fmt (snd a)
        else if c =? 99 then
          a <- next_arg ap ;; putc fd (fst a) ;;; printf_loop fd false fmt (snd a)
        else if c =? PERCENT then
          putc fd c ;;; printf_loop fd false fmt ap
        else
          putc fd PERCENT ;;; putc fd c ;;; printf_loop fd false fmt ap
  end.

Definition printf (fd : Z) (fmt : bytes) (ap : list Z) : M S unit := printf_loop fd false fmt ap.

(** * Numerals *)

(** The value of a numeral. *)
Definition digit_value (c : Z) : Z := if c <=? 57 then c - 48 else c - 55.
Definition numeral (base : Z) (cs : bytes) : Z := fold_left (fun n c => n * base + digit_value c) cs 0.

(** The digits of a number, least significant first. *)
Fixpoint digits_of (base x : Z) (fuel : nat) : bytes :=
  match fuel with
  | O => []
  | Datatypes.S fuel =>
      default 0 (digits !! Z.to_nat (x mod base)) :: (if x / base =? 0 then [] else digits_of base (x / base) fuel)
  end.

Lemma digit_loop_ok base fuel : forall x buf s,
  1 < base -> 0 <= x < base ^ Z.of_nat fuel -> (0 < fuel)%nat -> (length buf + length (digits_of base x fuel) <= PRINTBUF)%nat ->
  digit_loop base x buf fuel s = Ok (buf ++ digits_of base x fuel) s.
Proof.
  induction fuel as [|fuel IH]; intros x buf s Hb Hx Hf Hl; [lia|].
  cbn [digit_loop digits_of] in *. set (d := default 0 _) in *. unfold push_char at 1. cbn [length] in Hl.
  rewrite (proj2 (Nat.ltb_lt _ _)) by lia. unfold bind at 1, ret at 1. cbn [seqr].
  destruct (Z.eqb_spec (x / base) 0) as [E|E]; [done|].
  rewrite Nat2Z.inj_succ, Z.pow_succ_r in Hx by lia.
  assert (Hq : 0 <= x / base < base ^ Z.of_nat fuel) by (split; [apply Z.div_pos; lia|apply Z.div_lt_upper_bound; lia]).
  rewrite IH; [by rewrite <- app_assoc|done|done| |rewrite length_app; cbn; lia].
  destruct fuel; [|lia]. rewrite Z.pow_0_r in Hq. lia.
Qed.

Lemma digits_length base k : forall fuel x, 1 < base -> 0 <= x < base ^ Z.of_nat k -> (0 < k)%nat ->
  (length (digits_of base x fuel) <= k)%nat.
Proof.
  induction k as [|k IH]; intros fuel x Hb Hx Hk; [lia|]. destruct fuel as [|fuel]; cbn [digits_of length]; [lia|].
  destruct (Z.eqb_spec (x / base) 0) as [E|E]; [cbn; lia|].
  rewrite Nat2Z.inj_succ, Z.pow_succ_r in Hx by lia.
  assert (Hq : 0 <= x / base < base ^ Z.of_nat k) by (split; [apply Z.div_pos; lia|apply Z.div_lt_upper_bound; lia]).
  pose proof (IH fuel (x / base) Hb Hq). destruct k; [rewrite Z.pow_0_r in Hq; lia|lia].
Qed.

Lemma digit_value_ok d : 0 <= d < 16 -> digit_value (default 0 (digits !! Z.to_nat d)) = d.
Proof.
  intros Hd. assert (E : forallb (fun k => digit_value (default 0 (digits !! k)) =? Z.of_nat k) (seq 0 16) = true) by reflexivity.
  rewrite forallb_forall in E. specialize (E (Z.to_nat d)). rewrite <- list_elem_of_In, elem_of_seq, Z.eqb_eq in E.
  rewrite E by lia. lia.
Qed.

Lemma numeral_app base cs c : numeral base (cs ++ [c]) = numeral base cs * base + digit_value c.
Proof. unfold numeral. by rewrite fold_left_app. Qed.

Lemma digits_value base fuel : forall x, 1 < base <= 16 -> 0 <= x < base ^ Z.of_nat fuel -> (0 < fuel)%nat ->
  numeral base (rev (digits_of base x fuel)) = x.
Proof.
  induction fuel as [|fuel IH]; intros x Hb Hx Hf; [lia|]. cbn [digits_of rev]. rewrite numeral_app.
  pose proof (Z.mod_pos_bound x base ltac:(lia)). rewrite digit_value_ok by lia. pose proof (Z.div_mod x base ltac:(lia)).
  destruct (Z.eqb_spec (x / base) 0) as [E|E]; [cbn; lia|].
  rewrite Nat2Z.inj_succ, Z.pow_succ_r in Hx by lia.
  assert (Hq : 0 <= x / base < base ^ Z.of_nat fuel) by (split; [apply Z.div_pos; lia|apply Z.div_lt_upper_bound; lia]).
  rewrite IH; [lia|done|done|]. destruct fuel; [rewrite Z.pow_0_r in Hq; lia|lia].
Qed.

Lemma digit_is_digit d : 0 <= d < 10 -> is_digit (default 0 (digits !! Z.to_nat d)) = true /\ default 0 (digits !! Z.to_nat d) = 48 + d.
Proof.
  intros Hd. assert (E : forallb (fun k => default 0 (digits !! k) =? 48 + Z.of_nat k) (seq 0 10) = true) by reflexivity.
  rewrite forallb_forall in E. specialize (E (Z.to_nat d)). rewrite <- list_elem_of_In, elem_of_seq, Z.eqb_eq in E.
  rewrite E, Z2Nat.id by lia. split; [|done]. unfold is_digit. lia.
Qed.

Lemma decimal_digits fuel x : 0 <= x -> Forall (fun c => is_digit c = true) (digits_of 10 x fuel).
Proof.
  revert x. induction fuel as [|fuel IH]; intros x Hx; cbn [digits_of]; [done|]. constructor.
  - apply digit_is_digit. apply Z.mod_pos_bound. lia.
  - destruct (x / 10 =? 0); [done|]. apply IH. apply Z.div_pos; lia.
Qed.

(** [atoi] of a numeral below 2^31. *)
Lemma atoi_numeral cs : forall n, Forall (fun c => is_digit c = true) cs -> 0 <= n ->
  fold_left (fun n c => n * 10 + digit_value c) cs n < 2 ^ 31 -> atoi_from n cs = fold_left (fun n c => n * 10 + digit_value c) cs n.
Proof.
  induction cs as [|c cs IH]; intros n Hd Hn Hlt; [done|]. inversion Hd as [|? ? Hc Hcs]; subst. cbn [atoi_from fold_left] in *.
  rewrite Hc. unfold is_digit in Hc. assert (Ev : digit_value c = c - 48) by (unfold digit_value; rewrite (proj2 (Z.leb_le _ _)); lia).
  assert (Hmono : forall cs n, 0 <= n -> Forall (fun c => is_digit c = true) cs -> n <= fold_left (fun n c => n * 10 + digit_value c) cs n).
  { clear. induction cs as [|c cs IH]; intros n Hn Hd; cbn [fold_left]; [lia|]. inversion Hd as [|? ? Hc Hcs]; subst.
    unfold is_digit in Hc. assert (digit_value c = c - 48) by (unfold digit_value; rewrite (proj2 (Z.leb_le _ _)); lia).
    specialize (IH (n * 10 + digit_value c) ltac:(lia) Hcs). lia. }
  rewrite Ev in *. pose proof (Hmono cs (n * 10 + (c - 48)) ltac:(lia) Hcs).
  rewrite s32_id by lia. replace (n * 10 + c - 48) with (n * 10 + (c - 48)) by lia. apply IH; [done|lia|done].
Qed.

(** The text [printint] prints. *)
Definition int_text (base : Z) (neg : bool) (x : Z) : bytes :=
  (if neg then [MINUS] else []) ++ rev (digits_of base x 32).

Lemma printint_text fd xx base (sgn : bool) s :
  -2 ^ 31 <= xx < 2 ^ 31 -> base = 10 \/ base = 16 ->
  let neg := sgn && (xx <? 0) in
  printint fd xx base sgn s = put_all fd (int_text base neg (if neg then - xx else u32 xx)) s.
Proof.
  intros Hx Hb neg. set (x := if neg then - xx else u32 xx).
  assert (Hr : 0 <= x < 2 ^ 32).
  { unfold x, neg. pose proof (u32_range xx). destruct sgn; cbn [andb]; [|lia]. destruct (Z.ltb_spec xx 0); lia. }
  assert (Hl : (length (digits_of base x 32) <= 10)%nat) by (apply digits_length; destruct Hb as [-> | ->]; lia).
  assert (Hp : 0 <= x < base ^ Z.of_nat 32) by (destruct Hb as [-> | ->]; lia).
  unfold printint. fold neg. assert (Ex : (if neg then u32 (- xx) else u32 xx) = x).
  { unfold x, neg in *. destruct sgn; cbn [andb] in *; [|done]. destruct (Z.ltb_spec xx 0); [|done]. by rewrite u32_id by lia. }
  assert (Hl' : (length (@nil Z) + length (digits_of base x 32) <= PRINTBUF)%nat) by (unfold PRINTBUF; change (length (@nil Z)) with 0%nat; lia).
  rewrite Ex. rewrite (bind_ok _ _ _ _ _ (digit_loop_ok base 32 x [] s ltac:(destruct Hb; lia) Hp ltac:(lia) Hl')).
  cbn [app]. unfold int_text. destruct neg; [|done].
  unfold push_char. rewrite (proj2 (Nat.ltb_lt _ _)) by (unfold PRINTBUF; lia). unfold bind at 1, ret at 1. cbn [seqr].
  by rewrite rev_app_distr.
Qed.
End printf.

(** * Rendering *)

(** A system where all that is written is appended to an output. *)
Class Sayer (S : Type) `{Posix S} := {
  say : S -> bytes -> S;
  say_say : forall s d e, say (say s d) e = say s (d ++ e);
  say_nil : forall s, say s [] = s;
  say_write : forall fd d s, u_write fd d s = Ok (Z.of_nat (length d)) (say s d)
}.

#[global, program] Instance stream_sayer : Sayer stdio := {| say s d := Stdio (si_in s) (si_out s ++ d) |}.
Next Obligation. intros. cbn. by rewrite app_assoc. Qed.
Next Obligation. intros []. cbn. by rewrite app_nil_r. Qed.
Next Obligation. done. Qed.

(** What a format and its arguments stand for, directive by directive. *)
Section render.
Context (str_at : Z -> bytes).

Definition directive (c : Z) (ap : list Z) : option (bytes * list Z) :=
  if c =? 100 then match ap with a :: ap => let x := s32 a in
    Some (int_text 10 (x <? 0) (Z.abs x), ap) | [] => None end
  else if (c =? 120) || (c =? 112) then match ap with a :: ap => Some (int_text 16 false (u32 a), ap) | [] => None end
  else if c =? 115 then match ap with a :: ap => Some (if a =? 0 then NULLSTR else str_at a, ap) | [] => None end
  else if c =? 99 then match ap with a :: ap => Some ([a], ap) | [] => None end
  else if c =? PERCENT then Some ([c], ap)
  else Some ([PERCENT; c], ap).

Fixpoint render (fmt : bytes) (ap : list Z) : option bytes :=
  match fmt with
  | [] => Some []
  | c :: fmt =>
      if c =? PERCENT then
        match fmt with
        | [] => Some []
        | d :: fmt =>
            match directive d ap with
            | Some (out, ap) => match render fmt ap with Some rest => Some (out ++ rest) | None => None end
            | None => None
            end
        end
      else match render fmt ap with Some rest => Some (c :: rest) | None => None end
  end.

Context {S : Type} `{Sayer S}.

Lemma putc_ok fd c (s : S) : putc fd c s = Ok tt (say s [u8 c]).
Proof. unfold putc. by rewrite (bind_ok _ _ _ _ _ (say_write _ _ _)). Qed.

Lemma put_all_ok fd cs (s : S) : put_all fd cs s = Ok tt (say s (u8 <$> cs)).
Proof.
  revert s. induction cs as [|c cs IH]; intros s; cbn [put_all]; [by rewrite say_nil|].
  rewrite (bind_ok _ _ _ _ _ (putc_ok fd c s)), IH, say_say. done.
Qed.

Lemma land_byte c : 0 <= c < 256 -> Z.land c 255 = c.
Proof. intros. change 255 with (Z.ones 8). rewrite Z.land_ones by lia. by apply Z.mod_small. Qed.

Lemma s32_u32 a : u32 (s32 a) = u32 a.
Proof. unfold s32, u32. zdiv. Qed.

Lemma say_int fd xx base (sgn : bool) (s : S) :
  -2 ^ 31 <= xx < 2 ^ 31 -> base = 10 \/ base = 16 ->
  let neg := sgn && (xx <? 0) in
  printint fd xx base sgn s = Ok tt (say s (u8 <$> int_text base neg (if neg then - xx else u32 xx))).
Proof. intros Hx Hb neg. rewrite printint_text by done. apply put_all_ok. Qed.

(** One directive. *)
Lemma directive_ok fd c fmt ap out ap' (s : S) :
  0 <= c < 256 -> directive c ap = Some (out, ap') ->
  printf_loop str_at fd true (c :: fmt) ap s = printf_loop str_at fd false fmt ap' (say s (u8 <$> out)).
Proof.
  intros Hc Hd. cbn [printf_loop negb]. rewrite land_byte by done. unfold directive in Hd.
  destruct (Z.eqb_spec c 100); [destruct ap as [|a ap]; [done|]; injection Hd as <- <-|].
  { unfold bind at 1, next_arg, ret at 1. cbn [seqr fst snd]. pose proof (s32_range a).
    rewrite (bind_ok _ _ _ _ _ (say_int fd (s32 a) 10 true s ltac:(lia) ltac:(auto))). do 2 f_equal. cbn [andb].
    unfold int_text. destruct (Z.ltb_spec (s32 a) 0); [by rewrite Z.abs_neq by lia|]. by rewrite Z.abs_eq, u32_id by lia. }
  destruct ((c =? 120) || (c =? 112)); [destruct ap as [|a ap]; [done|]; injection Hd as <- <-|].
  { unfold bind at 1, next_arg, ret at 1. cbn [seqr fst snd]. pose proof (s32_range a).
    rewrite (bind_ok _ _ _ _ _ (say_int fd (s32 a) 16 false s ltac:(lia) ltac:(auto))). by rewrite s32_u32. }
  destruct (Z.eqb_spec c 115); [destruct ap as [|a ap]; [done|]; injection Hd as <- <-|].
  { unfold bind at 1, next_arg, ret at 1. cbn [seqr fst snd]. by rewrite (bind_ok _ _ _ _ _ (put_all_ok _ _ _)). }
  destruct (Z.eqb_spec c 99); [destruct ap as [|a ap]; [done|]; injection Hd as <- <-|].
  { unfold bind at 1, next_arg, ret at 1. cbn [seqr fst snd]. by rewrite (bind_ok _ _ _ _ _ (putc_ok _ _ _)). }
  destruct (Z.eqb_spec c PERCENT); injection Hd as <- <-.
  - by rewrite (bind_ok _ _ _ _ _ (putc_ok _ _ _)).
  - rewrite (bind_ok _ _ _ _ _ (putc_ok _ _ _)), (bind_ok _ _ _ _ _ (putc_ok _ _ _)). by rewrite say_say.
Qed.

Lemma printf_render n : forall fmt ap out fd (s : S), (length fmt <= n)%nat ->
  Forall (fun c => 0 <= c < 256) fmt -> render fmt ap = Some out ->
  printf_loop str_at fd false fmt ap s = Ok tt (say s (u8 <$> out)).
Proof.
  induction n as [|n IH]; intros [|c fmt] ap out fd s Hn Hf Hr; cbn [length] in Hn; try lia;
    try (injection Hr as <-; cbn; by rewrite say_nil).
  inversion Hf as [|? ? Hc Hf']; subst. cbn [printf_loop render negb] in *. rewrite land_byte by done.
  destruct (Z.eqb_spec c PERCENT) as [->|Hne].
  - destruct fmt as [|d fmt]; [injection Hr as <-; cbn; by rewrite say_nil|]. inversion Hf' as [|? ? Hd Hf'']; subst.
    destruct (directive d ap) as [[o ap']|] eqn:Ed; [|done]. destruct (render fmt ap') as [rest|] eqn:Er; [|done].
    injection Hr as <-. rewrite (directive_ok fd d fmt ap o ap' s Hd Ed).
    rewrite (IH fmt ap' rest) by first [done|cbn in *; lia]. by rewrite say_say, fmap_app.
  - destruct (render fmt ap) as [rest|] eqn:Er; [|done]. injection Hr as <-.
    rewrite (bind_ok _ _ _ _ _ (putc_ok _ _ _)). rewrite (IH fmt ap rest) by first [done|lia]. by rewrite say_say.
Qed.
End render.

(** * Correctness *)

(** [printint] prints a numeral of the number.  In base 10 it is the
    number's sign and digits, in base 16 the digits of its 32 bits; the
    16-character buffer is never overrun, and [atoi] reads back what was
    printed for a number that is not negative. *)
Theorem printint_numeral {S} `{Posix S} (fd xx : Z) (s : S) :
  -2 ^ 31 <= xx < 2 ^ 31 ->
  exists ds hs,
    printint fd xx 10 true s = put_all fd ((if xx <? 0 then [MINUS] else []) ++ ds) s /\
    numeral 10 ds = Z.abs xx /\ Forall (fun c => is_digit c = true) ds /\ (1 <= length ds <= 10)%nat /\
    (0 <= xx -> atoi ds = xx) /\
    printint fd xx 16 false s = put_all fd hs s /\ numeral 16 hs = u32 xx /\ (1 <= length hs <= 8)%nat.
Proof.
  intros Hx. exists (rev (digits_of 10 (Z.abs xx) 32)), (rev (digits_of 16 (u32 xx) 32)). pose proof (u32_range xx).
  pose proof (printint_text fd xx 10 true s Hx ltac:(auto)) as E10. cbn [andb] in E10.
  assert (Ev : numeral 10 (rev (digits_of 10 (Z.abs xx) 32)) = Z.abs xx) by (apply digits_value; lia).
  assert (Ed : Forall (fun c => is_digit c = true) (rev (digits_of 10 (Z.abs xx) 32))) by (apply Forall_rev, decimal_digits; lia).
  split; [|split; [done|split; [done|split; [|split; [|split; [|split]]]]]].
  - rewrite E10. unfold int_text. destruct (Z.ltb_spec xx 0); [by rewrite Z.abs_neq by lia|]. by rewrite Z.abs_eq, u32_id by lia.
  - rewrite length_rev. split; [cbn [digits_of length]; lia|apply digits_length; lia].
  - intros Hp. unfold atoi. unfold numeral in Ev. rewrite atoi_numeral; rewrite ?Ev; [lia|done|lia|lia].
  - rewrite (printint_text fd xx 16 false s Hx ltac:(auto)). done.
  - apply digits_value; lia.
  - rewrite length_rev. split; [cbn [digits_of length]; lia|apply digits_length; lia].
Qed.

Lemma printint_numeral_witness :
  exists ds hs, printint 1 (-305) 10 true (Stdio [] []) = put_all 1 (MINUS :: ds) (Stdio [] []) /\ numeral 10 ds = 305 /\
    printint 1 (-305) 16 false (Stdio [] []) = put_all 1 hs (Stdio [] []) /\ numeral 16 hs = 4294966991.
Proof.
  destruct (printint_numeral (S := stdio) 1 (-305) (Stdio [] [])) as (ds & hs & E1 & E2 & _ & _ & _ & E3 & E4 & _); [lia|].
  exists ds, hs. split; [exact E1|]. split; [exact E2|]. split; [exact E3|exact E4].
Defined.

(** [printf] prints what its format stands for: the state machine of the
    loop agrees with reading the format one directive at a time, for every
    format and every argument list long enough for it. *)
Theorem printf_renders (str_at : Z -> bytes) (fd : Z) (fmt : bytes) (ap : list Z) (out : bytes) (s : stdio) :
  Forall (fun c => 0 <= c < 256) fmt -> render str_at fmt ap = Some out ->
  printf str_at fd fmt ap s = Ok tt (Stdio (si_in s) (si_out s ++ (u8 <$> out))).
Proof. intros Hf Hr. exact (printf_render str_at (length fmt) fmt ap out fd s (le_n _) Hf Hr). Qed.

(** ["%d%% %s %q"] with -7 and a string. *)
Lemma printf_renders_witness :
  printf (fun _ => [111; 107]) 1 [37; 100; 37; 37; 32; 37; 115; 32; 37; 113] [4294967289; 100] (Stdio [] []) =
  Ok tt (Stdio [] [45; 55; 37; 32; 111; 107; 32; 37; 113]).
Proof.
  apply (printf_renders (fun _ => [111; 107]) 1 [37; 100; 37; 37; 32; 37; 115; 32; 37; 113] [4294967289; 100]
    [45; 55; 37; 32; 111; 107; 32; 37; 113] (Stdio [] [])).
  - repeat constructor; lia.
  - vm_compute. reflexivity.
Defined.
