(* ===== verification/Grep.v ===== *)
(** [grep.c]: the pattern matcher against the language it implements, and the
    line loop against the lines of its input. *)

From S2P Require Import Prelude Bytes Fs User.
Open Scope Z_scope.
Open Scope xv6_scope.

Definition NEWLINE : Z := 10.
Definition CARET : Z := 94.
Definition PERIOD : Z := 46.
Definition STAR : Z := 42.
Definition DOLLAR : Z := 36.

(** * The matcher *)

(** [matchstar(c, re, text)], given [matchhere(re, _)]. *)
Fixpoint matchstar (here : bytes -> bool) (c : Z) (text : bytes) : bool :=
  here text ||
  match text with
  | [] => false
  | x :: text => ((x =? c) || (c =? PERIOD)) && matchstar here c text
  end.

Fixpoint matchhere (re text : bytes) {struct re} : bool :=
  match re with
  | [] => true
  | c :: re1 =>
      match re1 with
      | d :: re2 =>
          if d =? STAR then matchstar (matchhere re2) c text
          else match text with
               | x :: text => ((c =? PERIOD) || (c =? x)) && matchhere re1 text
               | [] => false
               end
      | [] =>
          if c =? DOLLAR then match text with [] => true | _ => false end
          else match text with
               | x :: text => ((c =? PERIOD) || (c =? x)) && matchhere re1 text
               | [] => false
               end
      end
  end.

(** The loop of [match]. *)
Fixpoint match_loop (re text : bytes) : bool :=
  matchhere re text || match text with [] => false | _ :: text => match_loop re text end.

Definition grep_match (re text : bytes) : bool :=
  match re with
  | c :: re' => if c =? CARET then matchhere re' text else match_loop re text
  | [] => match_loop re text
  end.

(** * The language *)

(** A character matches itself; a period matches every character. *)
Definition covers (c x : Z) : Prop := c = PERIOD \/ c = x.

(** [accepts re t]: some beginning of [t] is in the language of [re]. *)
Inductive accepts : bytes -> bytes -> Prop :=
| acc_nil t : accepts [] t
| acc_star c re t1 t2 : Forall (covers c) t1 -> accepts re t2 -> accepts (c :: STAR :: re) (t1 ++ t2)
| acc_end : accepts [DOLLAR] []
| acc_char c re x t : head re <> Some STAR -> c :: re <> [DOLLAR] -> covers c x -> accepts re t -> accepts (c :: re) (x :: t).

(** A pattern that does not begin with a caret may match anywhere. *)
Definition matches (re text : bytes) : Prop :=
  if decide (head re = Some CARET) then accepts (tail re) text
  else exists t1 t2, text = t1 ++ t2 /\ accepts re t2.

Lemma covers_true c x : (c =? PERIOD) || (c =? x) = true <-> covers c x.
Proof. unfold covers. rewrite orb_true_iff, !Z.eqb_eq. done. Qed.

Lemma matchstar_spec here c text :
  matchstar here c text = true <-> exists t1 t2, text = t1 ++ t2 /\ Forall (covers c) t1 /\ here t2 = true.
Proof.
  induction text as [|x text IH]; cbn [matchstar]; rewrite orb_true_iff.
  - split; [intros [Hh|]; [by exists [], []|done]|]. intros (t1 & t2 & E & _ & Hh). left.
    by symmetry in E; apply app_eq_nil in E as [_ ->].
  - rewrite andb_true_iff, IH. split.
    + intros [Hh|[Hc (t1 & t2 & -> & Hf & Hh)]]; [by exists [], (x :: text)|].
      exists (x :: t1), t2. split; [done|]. split; [|done]. constructor; [|done].
      unfold covers. rewrite orb_true_iff, !Z.eqb_eq in Hc. naive_solver.
    + intros ([|y t1] & t2 & E & Hf & Hh); [left; by rewrite E|right]. injection E as -> ->.
      inversion Hf as [|? ? Hc Hf']; subst. split; [|by exists t1, t2].
      unfold covers in Hc. rewrite orb_true_iff, !Z.eqb_eq. naive_solver.
Qed.

Lemma matchhere_spec n : forall re text, (length re <= n)%nat -> matchhere re text = true <-> accepts re text.
Proof.
  induction n as [|n IH]; intros [|c re] text Hn; cbn [length] in Hn; try lia; try (split; [constructor|done]).
  destruct re as [|d re].
  - cbn [matchhere]. destruct (Z.eqb_spec c DOLLAR) as [->|Hc].
    + split; [destruct text; [constructor|done]|]. inversion 1; subst; done.
    + destruct text as [|x text].
      * split; [done|]. inversion 1; subst; done.
      * rewrite andb_true_r, covers_true. split; [intros; constructor; try done; [congruence|constructor]|].
        inversion 1; subst; done.
  - change (matchhere (c :: d :: re) text) with
      (if d =? STAR then matchstar (matchhere re) c text
       else match text with x :: text => ((c =? PERIOD) || (c =? x)) && matchhere (d :: re) text | [] => false end).
    destruct (Z.eqb_spec d STAR) as [->|Hd].
    + rewrite matchstar_spec. split.
      * intros (t1 & t2 & -> & Hf & Hh). constructor; [done|]. apply IH; [cbn in Hn; lia|done].
      * inversion 1 as [|? ? t1 t2 Hf Ha| |? ? ? ? Hne]; subst; [|done]. exists t1, t2. split; [done|]. split; [done|].
        apply IH; [cbn in Hn; lia|done].
    + destruct text as [|x text].
      * split; [done|]. inversion 1; subst; congruence.
      * rewrite andb_true_iff, covers_true, IH by (cbn in *; lia). split.
        -- intros [Hc Ha]. constructor; try done; cbn; congruence.
        -- inversion 1; subst; [congruence|done].
Qed.

Lemma match_loop_spec re text :
  match_loop re text = true <-> exists t1 t2, text = t1 ++ t2 /\ accepts re t2.
Proof.
  induction text as [|x text IH]; cbn [match_loop]; rewrite orb_true_iff, (matchhere_spec (length re)) by done.
  - split; [intros [Ha|]; [by exists [], []|done]|]. intros (t1 & t2 & E & Ha). left.
    symmetry in E. by apply app_eq_nil in E as [_ ->].
  - rewrite IH. split.
    + intros [Ha|(t1 & t2 & -> & Ha)]; [by exists [], (x :: text)|by exists (x :: t1), t2].
    + intros ([|y t1] & t2 & E & Ha); [left; by rewrite E|right]. injection E as -> ->. by exists t1, t2.
Qed.

Lemma grep_match_spec re text : grep_match re text = true <-> matches re text.
Proof.
  unfold grep_match, matches. destruct re as [|c re]; [rewrite decide_False by done; apply match_loop_spec|].
  destruct (Z.eqb_spec c CARET) as [->|Hc].
  - rewrite decide_True by done. by apply (matchhere_spec (length re)).
  - rewrite decide_False by (cbn; congruence). apply match_loop_spec.
Qed.

(** * The line loop *)

(** [char buf[1024]]. *)
Definition GREPBUF : Z := 1024.

Section grep.
Context {S : Type} `{Posix S}.

(** The inner loop: the matching lines from [p] on are printed; the result is
    what follows the last line end. *)
Fixpoint grep_lines (pattern p : bytes) (fuel : nat) : M S bytes :=
  match fuel with
  | O => nofuel
  | Datatypes.S fuel =>
      match strchr (cstr p) NEWLINE with
      | None => ret p
      | Some q =>
          let k := (length (cstr p) - length q)%nat in
          when (grep_match pattern (take k p)) (u_write 1 (take k p ++ [NEWLINE]) ;;; ret tt) ;;;
          grep_lines pattern (drop (Datatypes.S k) p) fuel
      end
  end.

(** The outer loop; [buf] holds the [m] bytes kept from the last round. *)
Fixpoint grep_loop (pattern : bytes) (fd : Z) (buf : bytes) (fuel : nat) : M S unit :=
  match fuel with
  | O => nofuel
  | Datatypes.S fuel =>
      r <- u_read fd (GREPBUF - Z.of_nat (length buf) - 1) ;;
      if fst r <=? 0 then ret tt else
      let buf := buf ++ snd r in
      p <- grep_lines pattern buf (Datatypes.S (length buf)) ;;
      grep_loop pattern fd (if (length p =? length buf)%nat then [] else p) fuel
  end.

Definition grep (pattern : bytes) (fd : Z) (fuel : nat) : M S unit := grep_loop pattern fd [] fuel.
End grep.

(** ** Lines *)

Definition unlines (ls : list bytes) : bytes := concat ((fun l => l ++ [NEWLINE]) <$> ls).
Definition nonl (l : bytes) : Prop := NEWLINE ∉ l.
Definition matching (re : bytes) (ls : list bytes) : list bytes := filter (fun l => grep_match re l = true) ls.

Lemma unlines_cons l ls : unlines (l :: ls) = (l ++ [NEWLINE]) ++ unlines ls.
Proof. done. Qed.

Lemma nonl_cons x l : nonl (x :: l) <-> x <> NEWLINE /\ nonl l.
Proof. unfold nonl. set_solver. Qed.

Lemma nonl_app l l' : nonl (l ++ l') <-> nonl l /\ nonl l'.
Proof. unfold nonl. set_solver. Qed.

Lemma strchr_line l rest : nonl l -> strchr (l ++ NEWLINE :: rest) NEWLINE = Some (NEWLINE :: rest).
Proof.
  induction l as [|x l IH]; [done|]. intros [Hx Hl]%nonl_cons. cbn. rewrite (proj2 (Z.eqb_neq _ _)) by done. by apply IH.
Qed.

Lemma strchr_nonl l : nonl l -> strchr l NEWLINE = None.
Proof.
  induction l as [|x l IH]; [done|]. intros [Hx Hl]%nonl_cons. cbn. rewrite (proj2 (Z.eqb_neq _ _)) by done. by apply IH.
Qed.

Lemma grep_lines_ok re ls : forall tail s fuel,
  Forall nonl ls -> nonl tail -> 0 ∉ unlines ls ++ tail -> (length (unlines ls ++ tail) < fuel)%nat ->
  grep_lines re (unlines ls ++ tail) fuel s = Ok tail (Stdio (si_in s) (si_out s ++ unlines (matching re ls))).
Proof.
  induction ls as [|l ls IH]; intros tail s fuel Hl Ht Hz Hf; (destruct fuel as [|fuel]; [lia|]).
  - cbn [grep_lines unlines fmap list_fmap concat app] in *. rewrite cstr_id, strchr_nonl by done.
    unfold ret. f_equal. cbn. rewrite app_nil_r. by destruct s.
  - inversion Hl as [|? ? Hl1 Hls]; subst. cbn [grep_lines]. rewrite unlines_cons in *. rewrite <- !app_assoc in *. cbn [app] in *.
    rewrite cstr_id, strchr_line by done. rewrite length_app. cbn [length]. set (k := (_ - _)%nat).
    assert (Hk : k = length l) by (unfold k; rewrite length_app; cbn; lia). rewrite Hk.
    rewrite take_app_length. replace (drop (Datatypes.S (length l)) _) with (unlines ls ++ tail).
    2:{ change (NEWLINE :: unlines ls ++ tail) with ([NEWLINE] ++ (unlines ls ++ tail)). rewrite app_assoc.
        rewrite drop_app_length'; [done|]. rewrite length_app. cbn. lia. }
    rewrite !length_app in Hf. cbn [length] in Hf. rewrite length_app in Hf.
    unfold matching. rewrite filter_cons. destruct (decide (grep_match re l = true)) as [E|E].
    + rewrite E. cbn [when]. unfold bind at 1 2, u_write at 1. cbn [stream_posix stream_write seqr].
      unfold ret at 1. cbn [seqr]. rewrite IH; [|done|done|set_solver|rewrite length_app; lia].
      cbn [si_in si_out]. by rewrite unlines_cons, <- !app_assoc.
    + rewrite (not_true_is_false _ E). cbn [when]. unfold bind at 1, ret at 1. cbn [seqr].
      apply IH; [done|done|set_solver|rewrite length_app; lia].
Qed.

(** A beginning of a text ends inside one of its lines. *)
Lemma prefix_lines ls : forall x y last, Forall nonl ls -> nonl last -> x ++ y = unlines ls ++ last ->
  exists ls1 ls2 tail, ls = ls1 ++ ls2 /\ x = unlines ls1 ++ tail /\ nonl tail /\ tail ++ y = unlines ls2 ++ last.
Proof.
  induction ls as [|l ls IH]; intros x y last Hls Hlast E.
  - exists [], [], x. split; [done|]. split; [done|]. split; [|done]. cbn in E. rewrite <- E in Hlast. by apply nonl_app in Hlast as [Hlast _].
  - inversion Hls as [|? ? Hl Hls']; subst. rewrite unlines_cons, <- app_assoc in E.
    apply app_eq_inv in E as [(k & Ex & Ey)|(k & El & Ey)].
    + destruct (IH k y last Hls' Hlast (eq_sym Ey)) as (ls1 & ls2 & tail & -> & -> & Ht & Et).
      exists (l :: ls1), ls2, tail. split; [done|]. split; [|done]. by rewrite Ex, unlines_cons, !app_assoc.
    + destruct (decide (k = [])) as [->|Hk].
      * exists [l], ls, []. split; [done|]. rewrite app_nil_r in El. split; [rewrite <- El; unfold unlines; cbn; by rewrite !app_nil_r|].
        split; [unfold nonl; set_solver+|]. by rewrite Ey.
      * exists [], (l :: ls), x. split; [done|]. split; [done|]. split.
        -- apply app_eq_inv in El as [(k' & -> & _)|(k' & -> & Ek)]; [by apply nonl_app in Hl as [Hl _]|].
           apply (f_equal length) in Ek. rewrite length_app in Ek. cbn in Ek. destruct k' as [|? k']; [by rewrite app_nil_r|].
           destruct k; [done|cbn in Ek; lia].
        -- rewrite Ey, app_assoc, <- El, unlines_cons. by rewrite !app_assoc.
Qed.

Lemma unlines_nl l ls : NEWLINE ∈ unlines (l :: ls).
Proof. rewrite unlines_cons. set_solver. Qed.

(** A read from a regular file. *)
Lemma file_read fd n r out : 0 < n -> r <> [] ->
  stream_read fd n (Stdio [r] out) =
    Ok (Z.of_nat (length (take (Z.to_nat n) r)), take (Z.to_nat n) r)
       (Stdio (if Z.of_nat (length r) <=? n then [] else [drop (Z.to_nat n) r]) out).
Proof.
  intros Hn Hr. unfold stream_read. cbn [si_in si_out]. destruct (Z.leb_spec (Z.of_nat (length r)) n).
  - by rewrite take_ge by lia.
  - rewrite length_take. repeat f_equal. lia.
Qed.

(** The input that is left of a file, or of a file that has been read. *)
Definition left_of (r : bytes) (i : list bytes) : Prop := i = [r] \/ (i = [] /\ r = []).

Lemma grep_eof fd n r i out : left_of r i -> r = [] -> 0 <= n -> exists i', stream_read fd n (Stdio i out) = Ok (0, []) (Stdio i' out) /\ left_of [] i'.
Proof.
  intros [->|[-> _]] -> Hn; unfold stream_read; cbn [si_in si_out].
  - exists []. rewrite (proj2 (Z.leb_le _ _)) by (cbn; lia). split; [done|by right].
  - exists []. split; [done|by right].
Qed.

Lemma left_of_next r n i : left_of r i -> r <> [] -> 0 < n ->
  left_of (drop (Z.to_nat n) r) (if Z.of_nat (length r) <=? n then [] else [drop (Z.to_nat n) r]) /\ i = [r].
Proof.
  intros [->|[_ ->]] Hr Hn; [|done]. split; [|done]. destruct (Z.leb_spec (Z.of_nat (length r)) n); [right|by left].
  split; [done|]. by rewrite drop_ge by lia.
Qed.

(** One round of the loop on a file that has not been read to its end. *)
Lemma grep_round re fd fuel buf r i out :
  left_of r i -> r <> [] -> Z.of_nat (length buf) < GREPBUF - 1 ->
  exists c r' i', c ++ r' = r /\ c <> [] /\ left_of r' i' /\ Z.of_nat (length (buf ++ c)) <= GREPBUF - 1 /\
    (r' <> [] -> Z.of_nat (length (buf ++ c)) = GREPBUF - 1) /\
    grep_loop re fd buf (S fuel) (Stdio i out) =
      (p <- grep_lines re (buf ++ c) (S (length (buf ++ c))) ;;
       grep_loop re fd (if (length p =? length (buf ++ c))%nat then [] else p) fuel) (Stdio i' out).
Proof.
  intros Hi Hr Hb. set (n := GREPBUF - Z.of_nat (length buf) - 1). assert (Hn : 0 < n) by (unfold n; lia).
  destruct (left_of_next r n i Hi Hr Hn) as [Hi' ->].
  exists (take (Z.to_nat n) r), (drop (Z.to_nat n) r), (if Z.of_nat (length r) <=? n then [] else [drop (Z.to_nat n) r]).
  assert (Hc : (0 < length (take (Z.to_nat n) r))%nat) by (rewrite length_take; destruct r; [done|cbn [length]; lia]).
  split; [apply take_drop|]. split; [by intros E; rewrite E in Hc; cbn in Hc; lia|]. split; [done|]. split; [|split].
  - rewrite length_app, length_take. unfold n. lia.
  - intros Hd. rewrite length_app, length_take. assert (Z.to_nat n < length r)%nat; [|unfold n in *; lia].
    destruct (Nat.lt_ge_cases (Z.to_nat n) (length r)); [done|]. by rewrite drop_ge in Hd.
  - cbn [grep_loop]. fold n. change (u_read fd n) with (stream_read fd n).
    rewrite (bind_ok _ _ _ _ _ (file_read fd n r out Hn Hr)). cbn [fst snd]. by rewrite (proj2 (Z.leb_gt _ _)) by lia.
Qed.

(** Without a line end nothing is printed. *)
Lemma grep_quiet re fd fuel : forall buf r i out,
  left_of r i -> nonl buf -> nonl r -> Z.of_nat (length buf) < GREPBUF - 1 -> 0 ∉ buf ++ r -> (length r < fuel)%nat ->
  exists i', grep_loop re fd buf fuel (Stdio i out) = Ok tt (Stdio i' out).
Proof.
  induction fuel as [|fuel IH]; intros buf r i out Hi Hbuf Hr Hb Hz Hf; [lia|].
  destruct (decide (r = [])) as [Er|Hne].
  { destruct (grep_eof fd (GREPBUF - Z.of_nat (length buf) - 1) r i out Hi Er ltac:(lia)) as (i' & E & _).
    exists i'. cbn [grep_loop]. by rewrite (bind_ok (S := stdio) (stream_read fd _) _ _ _ _ E). }
  destruct (grep_round re fd fuel buf r i out Hi Hne Hb) as (c & r' & i' & <- & Hc & Hi' & _ & _ & ->).
  apply nonl_app in Hr as [Hnc Hnr]. rewrite length_app in Hf.
  pose proof (grep_lines_ok re [] (buf ++ c) (Stdio i' out) (S (length (buf ++ c)))) as E. cbn [unlines fmap list_fmap concat app] in E.
  rewrite (bind_ok _ _ _ _ _ (E (Forall_nil_2 _) ltac:(by apply nonl_app) ltac:(set_solver) (Nat.lt_succ_diag_r _))).
  rewrite Nat.eqb_refl. cbn. rewrite app_nil_r. apply (IH [] r'); [done|unfold nonl; set_solver+|done|done|set_solver|].
  destruct c; [done|cbn in Hf; lia].
Qed.

Lemma grep_loop_ok re fd fuel : forall ls last buf r i out,
  Forall nonl ls -> nonl last -> 0 ∉ unlines ls ++ last -> Forall (fun l => Z.of_nat (length l) < GREPBUF - 1) ls ->
  left_of r i -> nonl buf -> Z.of_nat (length buf) < GREPBUF - 1 -> buf ++ r = unlines ls ++ last -> (length r < fuel)%nat ->
  exists i', grep_loop re fd buf fuel (Stdio i out) = Ok tt (Stdio i' (out ++ unlines (matching re ls))).
Proof.
  induction fuel as [|fuel IH]; intros ls last buf r i out Hls Hlast Hz Hlen Hi Hbuf Hb Heq Hf; [lia|].
  destruct (decide (ls = [])) as [->|Hne].
  { cbn in Heq, Hz |- *. subst last. apply nonl_app in Hlast as [_ Hr]. rewrite app_nil_r. by apply (grep_quiet re fd (S fuel) buf r). }
  destruct (decide (r = [])) as [->|Hr].
  { exfalso. rewrite app_nil_r in Heq. subst buf. destruct ls as [|l ls]; [done|]. apply nonl_app in Hbuf as [Hbuf _].
    apply Hbuf, unlines_nl. }
  destruct (grep_round re fd fuel buf r i out Hi Hr Hb) as (c & r' & i' & <- & Hc & Hi' & Hle & Hfull & ->).
  rewrite app_assoc in Heq. destruct (prefix_lines ls (buf ++ c) r' last Hls Hlast Heq) as (ls1 & ls2 & tail & -> & Eb & Ht & Er).
  apply Forall_app in Hls as [Hls1 Hls2], Hlen as [Hlen1 Hlen2]. rewrite length_app in Hf.
  assert (Hzb : 0 ∉ unlines ls1 ++ tail) by (rewrite <- Eb; rewrite <- Heq in Hz; set_solver).
  rewrite Eb in Heq, Hle, Hfull |- *. rewrite (bind_ok _ _ _ _ _ (grep_lines_ok re ls1 tail _ _ Hls1 Ht Hzb (Nat.lt_succ_diag_r _))).
  cbn [si_in si_out]. assert (Hc' : (0 < length c)%nat) by (destruct c; [done|cbn; lia]).
  destruct (decide (ls1 = [])) as [->|Hne1].
  - exfalso. destruct ls2 as [|l ls2]; [done|]. cbn [unlines fmap list_fmap concat app] in Eb, Hle, Hfull.
    destruct (decide (r' = [])) as [->|Hr'].
    + rewrite app_nil_r in Er. apply Ht. rewrite Er. pose proof (unlines_nl l ls2). set_solver.
    + specialize (Hfull Hr'). rewrite unlines_cons, <- !app_assoc in Er. apply Forall_cons in Hlen2 as [Hl _]. clear Eb.
      apply app_eq_inv in Er as [(k & -> & Ek)|(k & -> & _)]; [|rewrite length_app in Hl; lia].
      destruct k as [|x k]; [rewrite app_nil_r in Hfull; lia|]. injection Ek as <- _. apply nonl_app in Ht as [_ [Hx _]%nonl_cons]. done.
  - destruct ls1 as [|l1 ls1]; [done|]. assert (Hlt : (length tail < length (unlines (l1 :: ls1) ++ tail))%nat).
    { rewrite unlines_cons, !length_app. cbn. lia. }
    rewrite (proj2 (Nat.eqb_neq _ _)) by lia.
    destruct (IH ls2 last tail r' i' (out ++ unlines (matching re (l1 :: ls1)))) as (i2 & E2); try done; try lia.
    { rewrite <- Er. rewrite <- Heq in Hz. set_solver. }
    exists i2. rewrite E2. do 2 f_equal. rewrite <- app_assoc. f_equal.
    unfold matching, unlines. by rewrite filter_app, fmap_app, concat_app.
Qed.

(** * Correctness *)

(** C37: The recursive matcher of [grep] decides the language of patterns:
    literal characters, a period for any character, a starred character for
    any number of them, a caret for the beginning and a dollar for the end.
    It terminates on every pattern and text. *)
Theorem grep_match_correct (re text : bytes) : grep_match re text = true <-> matches re text.
Proof. apply grep_match_spec. Qed.

(** On a regular file whose lines fit the buffer, [grep] reads to the end
    and prints exactly the lines that match, in order.  What follows the last
    line end is never printed. *)
Theorem grep_prints_matching (re : bytes) (fd : Z) (ls : list bytes) (last out : bytes) (fuel : nat) :
  Forall nonl ls -> nonl last -> 0 ∉ unlines ls ++ last -> Forall (fun l => Z.of_nat (length l) < GREPBUF - 1) ls ->
  (length (unlines ls ++ last) < fuel)%nat ->
  exists i', grep re fd fuel (Stdio [unlines ls ++ last] out) =
    Ok tt (Stdio i' (out ++ unlines (filter (fun l => grep_match re l = true) ls))).
Proof.
  intros Hls Hlast Hz Hlen Hf. apply (grep_loop_ok re fd fuel ls last [] (unlines ls ++ last)); try done; [by left|].
  unfold nonl. set_solver+.
Qed.

(** Lines "ab", "cb" and an unfinished "b", pattern "^a.*b". *)
Lemma grep_prints_matching_witness :
  exists i', grep [94; 97; 46; 42; 98] 0 20 (Stdio [unlines [[97; 98]; [99; 98]] ++ [98]] []) = Ok tt (Stdio i' [97; 98; 10]).
Proof.
  apply (grep_prints_matching [94; 97; 46; 42; 98] 0 [[97; 98]; [99; 98]] [98] [] 20).
  - repeat constructor; by apply (bool_decide_unpack (_ ∉ _)).
  - by apply (bool_decide_unpack (_ ∉ _)).
  - by apply (bool_decide_unpack (_ ∉ _)).
  - repeat constructor.
  - cbn. lia.
Defined.

(** A piece of input without a line end is forgotten: when a read returns
    part of a line, as pipes and terminals do, [grep] goes on as if that part
    had never been there, and so matches and prints only the end of the
    line. *)
Theorem grep_forgets_partial (re : bytes) (fd : Z) (c : bytes) (cs : list bytes) (out : bytes) (fuel : nat) :
  c <> [] -> nonl c -> 0 ∉ c -> Z.of_nat (length c) <= GREPBUF - 1 ->
  grep re fd (S fuel) (Stdio (c :: cs) out) = grep re fd fuel (Stdio cs out).
Proof.
  intros Hc Hn Hz Hl. unfold grep. cbn [grep_loop].
  assert (E : u_read fd (GREPBUF - Z.of_nat (length (@nil Z)) - 1) (Stdio (c :: cs) out) = Ok (Z.of_nat (length c), c) (Stdio cs out)).
  { cbn [u_read stream_posix stream_read]. unfold stream_read. cbn [si_in si_out length]. by rewrite (proj2 (Z.leb_le _ _)) by lia. }
  rewrite (bind_ok _ _ _ _ _ E). cbn [fst snd app]. rewrite (proj2 (Z.leb_gt _ _)) by (destruct c; [done|cbn; lia]).
  pose proof (grep_lines_ok re [] c (Stdio cs out) (S (length c)) (Forall_nil_2 _) Hn Hz (Nat.lt_succ_diag_r _)) as G.
  cbn [unlines fmap list_fmap concat app] in G. rewrite (bind_ok _ _ _ _ _ G). rewrite Nat.eqb_refl. cbn. by rewrite app_nil_r.
Qed.

(** "ab" and then "c" with a line end, pattern "^ab": the line is "abc" and
    matches, but nothing is printed. *)
Lemma grep_forgets_partial_witness :
  grep [94; 97; 98] 0 5 (Stdio [[97; 98]; [99; 10]] []) = Ok tt (Stdio [] []) /\ grep_match [94; 97; 98] [97; 98; 99] = true.
Proof.
  split; [|reflexivity]. rewrite (grep_forgets_partial [94; 97; 98] 0 [97; 98] [[99; 10]] [] 4).
  - vm_compute. reflexivity.
  - done.
  - by apply (bool_decide_unpack (_ ∉ _)).
  - by apply (bool_decide_unpack (_ ∉ _)).
  - done.
Defined.
