(* ===== verification/Utils.v ===== *)
(** Small user programs: [cat.c], [wc.c], [echo.c], [kill.c], [ln.c],
    [mkdir.c] and [rm.c].  A program ends by calling [exit]; a function that
    may do so returns whether it did. *)

From S2P Require Import Prelude Bytes Fs User Printf.
From Stdlib Require Import Ascii.
Open Scope Z_scope.
Open Scope xv6_scope.

(** A string literal. *)
Fixpoint lit (s : string) : bytes :=
  match s with
  | EmptyString => []
  | String c s => Z.of_N (N_of_ascii c) :: lit s
  end.

Section utils.
Context {S : Type} `{Posix S} (str_at : Z -> bytes).

(** [argv] holds the addresses of the strings. *)
#[local] Abbreviation print fd fmt args := (printf str_at fd fmt args).

(** ** [cat.c] *)

(** [char buf[512]]. *)
Definition IOBUF : Z := 512.

Fixpoint cat (fd : Z) (fuel : nat) : M S bool :=
  match fuel with
  | O => nofuel
  | Datatypes.S fuel =>
      r <- u_read fd IOBUF ;;
      if 0 <? fst r then
        n <- u_write 1 (snd r) ;;
        if negb (n =? fst r) then print 1 (lit "cat: write error" ++ [10]) [] ;;; ret true else cat fd fuel
      else if fst r <? 0 then print 1 (lit "cat: read error" ++ [10]) [] ;;; ret true
      else ret false
  end.

Fixpoint cat_files (argv : list Z) (fuel : nat) : M S unit :=
  match argv with
  | [] => ret tt
  | a :: argv =>
      fd <- u_open (str_at a) 0 ;;
      if fd <? 0 then print 1 (lit "cat: cannot open %s" ++ [10]) [a] else
      e <- cat fd fuel ;;
      if e then ret tt else
      u_close fd ;;;
      cat_files argv fuel
  end.

Definition cat_main (argv : list Z) (fuel : nat) : M S unit :=
  match argv with
  | _ :: a :: argv => cat_files (a :: argv) fuel
  | _ => cat 0 fuel ;;; ret tt
  end.

(** ** [wc.c] *)

(** [" \r\t\n\v"]. *)
Definition BLANKS : bytes := [32; 13; 9; 10; 11].

(** Lines, words and characters so far, and whether inside a word. *)
Record counts := Counts { n_l : Z; n_w : Z; n_c : Z; inword : bool }.

Definition count_char (k : counts) (b : Z) : counts :=
  let l := if b =? 10 then s32 (n_l k + 1) else n_l k in
  let c := s32 (n_c k + 1) in
  match strchr BLANKS b with
  | Some _ => Counts l (n_w k) c false
  | None => if inword k then Counts l (n_w k) c true else Counts l (s32 (n_w k + 1)) c true
  end.

(** The loop over the input: the counts, and the result of the last read. *)
Fixpoint wc_loop (fd : Z) (k : counts) (fuel : nat) : M S (counts * Z) :=
  match fuel with
  | O => nofuel
  | Datatypes.S fuel =>
      r <- u_read fd IOBUF ;;
      if 0 <? fst r then wc_loop fd (fold_left count_char (snd r) k) fuel else ret (k, fst r)
  end.

Definition wc (fd : Z) (name : Z) (fuel : nat) : M S bool :=
  r <- wc_loop fd (Counts 0 0 0 false) fuel ;;
  if snd r <? 0 then print 1 (lit "wc: read error" ++ [10]) [] ;;; ret true else
  print 1 (lit "%d %d %d %s" ++ [10]) [u32 (n_l (fst r)); u32 (n_w (fst r)); u32 (n_c (fst r)); name] ;;;
  ret false.

Fixpoint wc_files (argv : list Z) (fuel : nat) : M S unit :=
  match argv with
  | [] => ret tt
  | a :: argv =>
      fd <- u_open (str_at a) 0 ;;
      if fd <? 0 then print 1 (lit "wc: cannot open %s" ++ [10]) [a] else
      e <- wc fd a fuel ;;
      if e then ret tt else
      u_close fd ;;;
      wc_files argv fuel
  end.

(** [empty] is the address of the empty string. *)
Definition wc_main (empty : Z) (argv : list Z) (fuel : nat) : M S unit :=
  match argv with
  | _ :: a :: argv => wc_files (a :: argv) fuel
  | _ => wc 0 empty fuel ;;; ret tt
  end.

(** ** [echo.c], [kill.c], [ln.c], [mkdir.c], [rm.c] *)

(** [space] and [newline] are the addresses of the two separators. *)
Fixpoint echo_loop (space newline : Z) (argv : list Z) : M S unit :=
  match argv with
  | [] => ret tt
  | a :: argv =>
      print 1 (lit "%s%s") [a; match argv with [] => newline | _ => space end] ;;;
      echo_loop space newline argv
  end.

Definition echo_main (space newline : Z) (argv : list Z) : M S unit := echo_loop space newline (tl argv).

Fixpoint kill_all (argv : list Z) : M S unit :=
  match argv with
  | [] => ret tt
  | a :: argv => u_kill (atoi (str_at a)) ;;; kill_all argv
  end.

Definition kill_main (argv : list Z) : M S unit :=
  if (length argv <? 2)%nat then print 2 (lit "usage: kill pid..." ++ [10]) [] else kill_all (tl argv).

Definition ln_main (argv : list Z) : M S unit :=
  match argv with
  | [_; a; b] =>
      r <- u_link (str_at a) (str_at b) ;;
      when (r <? 0) (print 2 (lit "link %s %s: failed" ++ [10]) [a; b])
  | _ => print 2 (lit "Usage: ln old new" ++ [10]) []
  end.

Fixpoint each (f : bytes -> M S Z) (msg : bytes) (argv : list Z) : M S unit :=
  match argv with
  | [] => ret tt
  | a :: argv =>
      r <- f (str_at a) ;;
      if r <? 0 then print 2 msg [a] else each f msg argv
  end.

Definition mkdir_main (argv : list Z) : M S unit :=
  if (length argv <? 2)%nat then print 2 (lit "Usage: mkdir files..." ++ [10]) []
  else each u_mkdir (lit "mkdir: %s failed to create" ++ [10]) (tl argv).

Definition rm_main (argv : list Z) : M S unit :=
  if (length argv <? 2)%nat then print 2 (lit "Usage: rm files..." ++ [10]) []
  else each u_unlink (lit "rm: %s failed to delete" ++ [10]) (tl argv).
End utils.

(** * The input, however it is divided into reads *)

Definition pieces (i : list bytes) : Prop := Forall (fun c => c <> []) i.

(** The number of bytes still to come. *)
Definition pending (i : list bytes) : nat := length (concat i).

(** A read takes a non-empty beginning of what is pending. *)
Lemma stream_read_some fd n i out : 0 < n -> pieces i -> i <> [] ->
  exists c i', stream_read fd n (Stdio i out) = Ok (Z.of_nat (length c), c) (Stdio i' out) /\
    c <> [] /\ pieces i' /\ concat i = c ++ concat i'.
Proof.
  intros Hn Hp Hi. destruct i as [|c cs]; [done|]. apply Forall_cons in Hp as [Hc Hcs]. unfold stream_read. cbn [si_in si_out].
  destruct (Z.leb_spec (Z.of_nat (length c)) n); [by exists c, cs|].
  exists (take (Z.to_nat n) c), (drop (Z.to_nat n) c :: cs). rewrite length_take. split; [do 3 f_equal; lia|].
  split; [|split].
  - intros E. apply (f_equal length) in E. rewrite length_take in E. cbn in E. lia.
  - apply Forall_cons. split; [|done]. intros E. apply (f_equal length) in E. rewrite length_drop in E. cbn in E. lia.
  - cbn. by rewrite app_assoc, take_drop.
Qed.

Lemma stream_read_eof fd n out : stream_read fd n (Stdio [] out) = Ok (0, []) (Stdio [] out).
Proof. done. Qed.

Lemma wc_loop_ok fd fuel : forall i out k, pieces i -> (pending i < fuel)%nat ->
  wc_loop fd k fuel (Stdio i out) = Ok (fold_left count_char (concat i) k, 0) (Stdio [] out).
Proof.
  induction fuel as [|fuel IH]; intros i out k Hp Hf; [lia|]. cbn [wc_loop]. change (u_read fd IOBUF) with (stream_read fd IOBUF).
  destruct (decide (i = [])) as [->|Hi]; [done|].
  destruct (stream_read_some fd IOBUF i out ltac:(done) Hp Hi) as (c & i' & E & Hc & Hp' & Ec).
  rewrite (bind_ok _ _ _ _ _ E). cbn [fst snd]. assert (Hl : (0 < length c)%nat) by (destruct c; [done|cbn; lia]).
  rewrite (proj2 (Z.ltb_lt _ _)) by lia. rewrite Ec, fold_left_app. apply IH; [done|].
  unfold pending in *. rewrite Ec, length_app in Hf. lia.
Qed.

Lemma cat_ok fd fuel : forall str_at i out, pieces i -> (pending i < fuel)%nat ->
  cat str_at fd fuel (Stdio i out) = Ok false (Stdio [] (out ++ concat i)).
Proof.
  induction fuel as [|fuel IH]; intros str_at i out Hp Hf; [lia|]. cbn [cat]. change (u_read fd IOBUF) with (stream_read fd IOBUF).
  destruct (decide (i = [])) as [->|Hi]; [cbn; by rewrite app_nil_r|].
  destruct (stream_read_some fd IOBUF i out ltac:(done) Hp Hi) as (c & i' & E & Hc & Hp' & Ec).
  rewrite (bind_ok _ _ _ _ _ E). cbn [fst snd]. assert (Hl : (0 < length c)%nat) by (destruct c; [done|cbn; lia]).
  rewrite (proj2 (Z.ltb_lt _ _)) by lia. unfold bind at 1. cbn [u_write stream_posix seqr]. unfold stream_write. cbn [seqr si_in si_out].
  rewrite Z.eqb_refl. cbn [negb]. rewrite IH; [by rewrite Ec, app_assoc|done|].
  unfold pending in *. rewrite Ec, length_app in Hf. lia.
Qed.

(** * What [wc] counts *)

Definition blank (b : Z) : bool := bool_decide (b ∈ BLANKS).

Lemma strchr_blank b : bool_decide (is_Some (strchr BLANKS b)) = blank b.
Proof.
  unfold blank. apply bool_decide_ext. pose proof (strchr_spec BLANKS b) as Hs. destruct (strchr BLANKS b) as [q|].
  - destruct Hs as (p & E & _ & Hq). split; [intros _|by eexists]. rewrite E. destruct q; [done|]. injection Hq as ->. set_solver+.
  - split; [by intros [? ?]|done].
Qed.

(** The end of a text so far. *)
Definition ends_in_word (d : bytes) : bool := match last d with Some b => negb (blank b) | None => false end.

(** A word begins at a character that is not blank and does not follow
    another such character. *)
Definition begins_word (d : bytes) (k : nat) : Prop :=
  (exists b, d !! k = Some b /\ blank b = false) /\ ends_in_word (take k d) = false.

#[global] Instance begins_word_dec d k : Decision (begins_word d k).
Proof.
  unfold begins_word. destruct (d !! k) as [b|].
  - destruct (blank b) eqn:E; [right; intros [(? & [= <-] & ?) _]; congruence|].
    destruct (ends_in_word (take k d)); [right; by intros [_ ?]|left; eauto].
  - right. by intros [(? & ? & _) _].
Defined.

Definition words (d : bytes) : nat := length (filter (begins_word d) (seq 0 (length d))).
Definition lines (d : bytes) : nat := length (filter (fun b => b = 10) d).

Lemma begins_word_snoc d b k : (k < length d)%nat -> begins_word (d ++ [b]) k <-> begins_word d k.
Proof. intros Hk. unfold begins_word. by rewrite lookup_app_l, take_app_le by lia. Qed.

Lemma filter_agree {A} (P Q : A -> Prop) `{forall x, Decision (P x)} `{forall x, Decision (Q x)} (l : list A) :
  (forall x, x ∈ l -> P x <-> Q x) -> filter P l = filter Q l.
Proof.
  induction l as [|x l IH]; intros Hx; [done|]. rewrite !filter_cons, IH by set_solver.
  destruct (Hx x ltac:(set_solver+)). by destruct (decide (P x)), (decide (Q x)); try done; exfalso; auto.
Qed.

Lemma words_snoc d b : words (d ++ [b]) = (words d + (if negb (blank b) && negb (ends_in_word d) then 1 else 0))%nat.
Proof.
  unfold words. rewrite length_app. cbn [length]. rewrite Nat.add_1_r, seq_S, filter_app, length_app. f_equal.
  - f_equal. apply filter_agree. intros k Hk%elem_of_seq. apply begins_word_snoc. lia.
  - rewrite filter_cons. replace (_ + length d)%nat with (length d) by lia.
    assert (E : begins_word (d ++ [b]) (length d) <-> blank b = false /\ ends_in_word d = false).
    { unfold begins_word. rewrite lookup_app_r, Nat.sub_diag, take_app_length by done. cbn. naive_solver. }
    destruct (blank b), (ends_in_word d); cbn [negb andb];
      (rewrite decide_True by (by apply E)) || (rewrite decide_False by (rewrite E; naive_solver)); done.
Qed.

Lemma ends_snoc d b : ends_in_word (d ++ [b]) = negb (blank b).
Proof. unfold ends_in_word. by rewrite last_snoc. Qed.

Lemma lines_snoc d b : lines (d ++ [b]) = (lines d + (if (b =? 10)%Z then 1 else 0))%nat.
Proof.
  unfold lines. rewrite filter_app, length_app, filter_cons. destruct (Z.eqb_spec b 10); [by rewrite decide_True|by rewrite decide_False].
Qed.

Lemma words_le d : (words d <= length d)%nat.
Proof. unfold words. etrans; [apply length_filter|]. by rewrite length_seq. Qed.

Lemma lines_le d : (lines d <= length d)%nat.
Proof. apply length_filter. Qed.

Lemma count_all d : Z.of_nat (length d) < 2 ^ 31 ->
  fold_left count_char d (Counts 0 0 0 false) =
  Counts (Z.of_nat (lines d)) (Z.of_nat (words d)) (Z.of_nat (length d)) (ends_in_word d).
Proof.
  induction d as [|b d IH] using rev_ind; [done|]. rewrite length_app. cbn [length]. intros Hl.
  rewrite fold_left_app, IH by lia. cbn [fold_left]. pose proof (words_le d). pose proof (lines_le d).
  unfold count_char. cbn [n_l n_w n_c inword]. rewrite lines_snoc, words_snoc, ends_snoc, <- strchr_blank.
  rewrite !s32_id by lia.
  assert (El : Z.of_nat (lines d + (if (b =? 10)%Z then 1 else 0)) = if b =? 10 then Z.of_nat (lines d) + 1 else Z.of_nat (lines d)).
  { destruct (b =? 10); lia. }
  rewrite El. destruct (strchr BLANKS b) as [q|].
  - rewrite bool_decide_true by by eexists. cbn. f_equal; lia.
  - rewrite bool_decide_false by by intros [? ?]. cbn. destruct (ends_in_word d); cbn; f_equal; lia.
Qed.

(** * Correctness *)

(** However the input is divided into reads, [wc] reads all of it and
    prints the number of line ends, of words and of characters, and the name.
    A word begins where a character that is not blank follows a blank or the
    beginning. *)
Theorem wc_counts (str_at : Z -> bytes) (fd name : Z) (i : list bytes) (out : bytes) (fuel : nat) :
  pieces i -> (pending i < fuel)%nat -> Z.of_nat (pending i) < 2 ^ 31 -> name <> 0 ->
  let d := concat i in let num n := int_text 10 false (Z.of_nat n) in
  wc str_at fd name fuel (Stdio i out) =
  Ok false (Stdio [] (out ++ (u8 <$> num (lines d) ++ [32] ++ num (words d) ++ [32] ++ num (length d) ++ [32] ++ str_at name ++ [10]))).
Proof.
  intros Hp Hf Hb Hname d num. unfold wc. rewrite (bind_ok _ _ _ _ _ (wc_loop_ok fd fuel i out _ Hp Hf)).
  unfold pending in Hb. fold d in Hb |- *. rewrite (count_all d Hb). cbn [snd fst n_l n_w n_c Z.ltb Z.compare].
  pose proof (words_le d). pose proof (lines_le d). unfold printf.
  assert (Hs : forall n : nat, (n <= length d)%nat -> s32 (u32 (Z.of_nat n)) = Z.of_nat n) by (intros; rewrite u32_id, s32_id by lia; done).
  assert (Hr : render str_at (lit "%d %d %d %s" ++ [10]) [u32 (Z.of_nat (lines d)); u32 (Z.of_nat (words d)); u32 (Z.of_nat (length d)); name] =
    Some (num (lines d) ++ [32] ++ num (words d) ++ [32] ++ num (length d) ++ [32] ++ str_at name ++ [10])).
  { change (lit "%d %d %d %s" ++ [10]) with [37; 100; 32; 37; 100; 32; 37; 100; 32; 37; 115; 10]. unfold directive, PERCENT.
    cbn -[int_text s32 u32]. rewrite !Hs by lia. rewrite (proj2 (Z.eqb_neq _ _)) by done. unfold num.
    rewrite !(proj2 (Z.ltb_ge _ _)), !Z.abs_eq by lia. done. }
  assert (Hf' : Forall (fun c => 0 <= c < 256) (lit "%d %d %d %s" ++ [10])) by (vm_compute; repeat constructor; discriminate).
  rewrite (bind_ok _ _ _ _ _ (printf_render str_at 12 (lit "%d %d %d %s" ++ [10]) _ _ 1 (Stdio [] out) (le_n 12) Hf' Hr)). done.
Qed.

Lemma wc_counts_witness :
  wc (fun _ => [102]) 0 1 100 (Stdio [[104; 105; 32; 104]; [111; 10]] []) = Ok false (Stdio [] [49; 32; 50; 32; 54; 32; 102; 10]).
Proof.
  apply (wc_counts (fun _ => [102]) 0 1 [[104; 105; 32; 104]; [111; 10]] [] 100).
  - repeat constructor; done.
  - cbn. lia.
  - reflexivity.
  - done.
Defined.
