(* ===== verification/Ls.v ===== *)
(** Listing a directory, [ls.c]. *)

From S2P Require Import Prelude Bytes Fs User Printf Utils.
Open Scope Z_scope.
Open Scope xv6_scope.

(** The loop of [fmtname]: the pointer goes back to the last slash; [p] is the
    string from the pointer on and [r] what is before it, backwards. *)
Fixpoint back (r p : bytes) : bytes :=
  match r with
  | [] => p
  | c :: r => if c =? SLASH then p else back r (c :: p)
  end.

(** The last element of the path, padded with blanks. *)
Definition fmtname (path : bytes) : bytes :=
  let p := back (rev path) [] in
  if (DIRSIZ <=? length p)%nat then p else p ++ replicate (DIRSIZ - length p) 32.

(** [char buf[512]]. *)
Definition LSBUF : nat := 512.

Section ls.
Context {S : Type} `{Posix S}.

(** [printf] with [str] for its string argument. *)
Definition print_str (fd : Z) (fmt str : bytes) : M S unit := printf (fun _ => str) fd fmt [1].

Definition print_entry (name : bytes) (st : stat) : M S unit :=
  printf (fun _ => name) 1 (lit "%s %d %d %d" ++ [10]) [1; st_type st; st_ino st; st_size st].

(** The loop over the entries. *)
Fixpoint ls_dir (path : bytes) (fd : Z) (fuel : nat) : M S unit :=
  match fuel with
  | O => nofuel
  | Datatypes.S fuel =>
      r <- u_read fd DIRENT ;;
      if negb (fst r =? DIRENT) then ret tt else
      let de := snd r in
      if de_inum de =? 0 then ls_dir path fd fuel else
      let buf := path ++ [SLASH] ++ cstr (take DIRSIZ (drop 2 de)) in
      st <- ustat buf ;;
      match st with
      | Some (n, st) =>
          if n <? 0 then print_str 1 (lit "ls: cannot stat %s" ++ [10]) buf ;;; ls_dir path fd fuel
          else print_entry (fmtname buf) st ;;; ls_dir path fd fuel
      | None => print_str 1 (lit "ls: cannot stat %s" ++ [10]) buf ;;; ls_dir path fd fuel
      end
  end.

Definition ls (path : bytes) (fuel : nat) : M S unit :=
  fd <- u_open path 0 ;;
  if fd <? 0 then print_str 2 (lit "ls: cannot open %s" ++ [10]) path else
  r <- u_fstat fd ;;
  if fst r <? 0 then print_str 2 (lit "ls: cannot stat %s" ++ [10]) path ;;; u_close fd ;;; ret tt else
  let st := snd r in
  (if st_type st =? T_FILE then print_entry (fmtname path) st
   else if st_type st =? T_DIR then
     if (LSBUF <? length path + 1 + DIRSIZ + 1)%nat then printf (fun _ => []) 1 (lit "ls: path too long" ++ [10]) []
     else ls_dir path fd fuel
   else ret tt) ;;;
  u_close fd ;;;
  ret tt.

Fixpoint ls_all (argv : list bytes) (fuel : nat) : M S unit :=
  match argv with
  | [] => ret tt
  | a :: argv => ls a fuel ;;; ls_all argv fuel
  end.

Definition ls_main (argv : list bytes) (fuel : nat) : M S unit :=
  if (length argv <? 2)%nat then ls (lit ".") fuel else ls_all (tl argv) fuel.
End ls.

(** * Files to list *)

(** A system with files that do not change and sixteen descriptors, each with
    what is still to be read. *)
Record vfs := Vfs { v_files : bytes -> option (stat * bytes); v_fds : list (option (stat * bytes)); v_out : bytes }.

Fixpoint lowest_fd (l : list (option (stat * bytes))) : option nat :=
  match l with
  | [] => None
  | None :: _ => Some O
  | Some _ :: l => S <$> lowest_fd l
  end.

Definition v_open (path : bytes) (mode : Z) : M vfs Z := fun s =>
  match v_files s path, lowest_fd (v_fds s) with
  | Some f, Some n => Ok (Z.of_nat n) (Vfs (v_files s) (<[n := Some f]> (v_fds s)) (v_out s))
  | _, _ => Ok (-1) s
  end.

Definition v_at (s : vfs) (fd : Z) : option (stat * bytes) := mjoin (v_fds s !! Z.to_nat fd).

Definition v_read (fd n : Z) : M vfs (Z * bytes) := fun s =>
  match v_at s fd with
  | Some (st, d) =>
      let r := take (Z.to_nat n) d in
      Ok (Z.of_nat (length r), r) (Vfs (v_files s) (<[Z.to_nat fd := Some (st, drop (Z.to_nat n) d)]> (v_fds s)) (v_out s))
  | None => Ok (-1, []) s
  end.

#[global] Instance vfs_posix : Posix vfs := {|
  u_read := v_read;
  u_write _ d s := Ok (Z.of_nat (length d)) (Vfs (v_files s) (v_fds s) (v_out s ++ d));
  u_open := v_open;
  u_close fd s := Ok 0 (Vfs (v_files s) (<[Z.to_nat fd := None]> (v_fds s)) (v_out s));
  u_fstat fd s := Ok (match v_at s fd with Some (st, _) => (0, st) | None => (-1, Stat 0 0 0 0 0) end) s;
  u_link _ _ := ret (-1);
  u_unlink _ := ret (-1);
  u_mkdir _ := ret (-1);
  u_kill _ := ret (-1)
|}.

#[global, program] Instance vfs_sayer : Sayer vfs := {| say s d := Vfs (v_files s) (v_fds s) (v_out s ++ d) |}.
Next Obligation. intros. cbn. by rewrite app_assoc. Qed.
Next Obligation. intros []. cbn. by rewrite app_nil_r. Qed.
Next Obligation. done. Qed.

(** * What is printed *)

Definition decimal (x : Z) : bytes := int_text 10 (s32 x <? 0) (Z.abs (s32 x)).

Definition entry_line (name : bytes) (st : stat) : bytes :=
  u8 <$> name ++ [32] ++ decimal (st_type st) ++ [32] ++ decimal (st_ino st) ++ [32] ++ decimal (st_size st) ++ [10].

(** The line for an entry of the directory. *)
Definition listed (files : bytes -> option (stat * bytes)) (path de : bytes) : bytes :=
  if de_inum de =? 0 then [] else
  let name := path ++ [SLASH] ++ cstr (take DIRSIZ (drop 2 de)) in
  match files name with
  | Some (st, _) => entry_line (fmtname name) st
  | None => u8 <$> lit "ls: cannot stat " ++ name ++ [10]
  end.

Lemma lowest_fd_free l n : lowest_fd l = Some n -> l !! n = Some None.
Proof.
  revert n. induction l as [|[x|] l IH]; intros n; cbn; [done| |by intros [= <-]].
  destruct (lowest_fd l) as [m|]; [|done]. cbn. intros [= <-]. by apply IH.
Qed.

Lemma lit_fmt (s : string) : Forall (fun c => 0 <= c < 256) (lit s ++ [10]).
Proof.
  apply Forall_app. split; [|repeat constructor; lia]. induction s as [|c s IH]; cbn [lit]; constructor; [|done].
  pose proof (Ascii.N_ascii_bounded c). lia.
Qed.

Lemma print_entry_ok name st (s : vfs) : print_entry name st s = Ok tt (say s (entry_line name st)).
Proof.
  unfold print_entry, entry_line. apply (printf_render (fun _ => name) 12 (lit "%s %d %d %d" ++ [10])); [cbn; lia|apply lit_fmt|]. cbn.
  unfold decimal. by rewrite <- ?app_assoc, ?app_nil_r.
Qed.

Lemma print_str_ok fd (p : string) str (s : vfs) : Forall (fun c => c <> PERCENT) (lit p) ->
  print_str fd (lit (p ++ "%s") ++ [10]) str s = Ok tt (say s (u8 <$> lit p ++ str ++ [10])).
Proof.
  intros Hp. unfold print_str. apply (printf_render (fun _ => str) (length (lit (p ++ "%s") ++ [10]))); [lia|apply lit_fmt|].
  induction p as [|c p IH]; [cbn; done|]. cbn [lit] in *. apply Forall_cons in Hp as [Hc Hp].
  change (String c p +:+ "%s") with (String c (p +:+ "%s")). cbn [lit app render]. by rewrite (proj2 (Z.eqb_neq _ _) Hc), IH.
Qed.

(** [stat] leaves the descriptors as they were. *)
Lemma ustat_ok name (s : vfs) n : lowest_fd (v_fds s) = Some n ->
  ustat name s = Ok (match v_files s name with Some (st, _) => Some (0, st) | None => None end) s.
Proof.
  intros Hn. pose proof (lowest_fd_free _ _ Hn) as Hf. unfold ustat. destruct (v_files s name) as [[st d]|] eqn:Ef.
  - set (s1 := Vfs (v_files s) (<[n := Some (st, d)]> (v_fds s)) (v_out s)).
    assert (E1 : u_open name 0 s = Ok (Z.of_nat n) s1) by (cbn; unfold v_open; by rewrite Ef, Hn).
    assert (E2 : u_fstat (Z.of_nat n) s1 = Ok (0, st) s1).
    { cbn [u_fstat vfs_posix]. unfold v_at. cbn [v_fds s1]. by rewrite Nat2Z.id, list_lookup_insert_eq by (by eapply lookup_lt_Some). }
    assert (E3 : u_close (Z.of_nat n) s1 = Ok 0 s).
    { cbn [u_close vfs_posix v_files v_fds v_out s1]. rewrite Nat2Z.id, list_insert_insert_eq, list_insert_id by done. by destruct s. }
    step E1. rewrite (proj2 (Z.ltb_ge _ _)) by lia. step E2. step E3. done.
  - assert (E1 : u_open name 0 s = Ok (-1) s) by (cbn; unfold v_open; by rewrite Ef). step E1. done.
Qed.

Lemma lowest_fd_busy l fd x y n : l !! fd = Some (Some x) -> lowest_fd l = Some n -> lowest_fd (<[fd := Some y]> l) = Some n.
Proof.
  revert fd n. induction l as [|[z|] l IH]; intros [|fd] n Hfd Hn; try done.
  change (<[S fd := Some y]> (Some z :: l)) with (Some z :: <[fd := Some y]> l). cbn [lowest_fd] in *.
  destruct (lowest_fd l) as [m|]; [|done]. by rewrite (IH fd m Hfd eq_refl).
Qed.

Lemma ls_dir_ok (path : bytes) des : forall (s : vfs) fd st fuel n,
  Forall (fun de => length de = 16%nat) des -> v_fds s !! fd = Some (Some (st, concat des)) ->
  lowest_fd (v_fds s) = Some n -> (length des < fuel)%nat ->
  ls_dir path (Z.of_nat fd) fuel s =
    Ok tt (Vfs (v_files s) (<[fd := Some (st, [])]> (v_fds s)) (v_out s ++ concat (listed (v_files s) path <$> des))).
Proof.
  induction des as [|de des IH]; intros s fd st fuel n Hde Hfd Hn Hf; (destruct fuel as [|fuel]; [lia|]); cbn [ls_dir].
  - assert (E : u_read (Z.of_nat fd) DIRENT s = Ok (0, []) (Vfs (v_files s) (<[fd := Some (st, [])]> (v_fds s)) (v_out s))).
    { cbn. unfold v_read, v_at. by rewrite Nat2Z.id, Hfd. }
    step E. cbn. by rewrite app_nil_r.
  - apply Forall_cons in Hde as [Hl Hde]. apply lookup_lt_Some in Hfd as Hlt. cbn [concat] in Hfd.
    set (s1 := Vfs (v_files s) (<[fd := Some (st, concat des)]> (v_fds s)) (v_out s)).
    assert (E : u_read (Z.of_nat fd) DIRENT s = Ok (16, de) s1).
    { cbn. unfold v_read, v_at. rewrite Nat2Z.id, Hfd. cbn [mjoin option_join]. change (Z.to_nat DIRENT) with 16%nat.
      rewrite take_app_length', drop_app_length' by done. by rewrite Hl. }
    step E. cbn [fst snd]. change (negb (16 =? DIRENT)) with false. cbn iota.
    assert (Hfd1 : v_fds s1 !! fd = Some (Some (st, concat des))) by (by apply list_lookup_insert_eq).
    pose proof (lowest_fd_busy (v_fds s) fd _ (st, concat des) n Hfd Hn) as Hn1.
    assert (Hlast : forall out, Vfs (v_files s1) (<[fd := Some (st, [])]> (v_fds s1)) out = Vfs (v_files s) (<[fd := Some (st, [])]> (v_fds s)) out).
    { intros out. cbn. by rewrite list_insert_insert_eq. }
    cbn [fmap list_fmap concat]. unfold listed at 1. destruct (de_inum de =? 0).
    + rewrite (IH s1 fd st fuel n Hde Hfd1 Hn1) by (cbn in Hf; lia). by rewrite Hlast.
    + set (name := path ++ _). step (ustat_ok name s1 n Hn1). change (v_files s1) with (v_files s).
      destruct (v_files s name) as [[st' d']|].
      * cbn [fst snd Z.ltb Z.compare]. step (print_entry_ok (fmtname name) st' s1).
        set (s2 := say s1 (entry_line (fmtname name) st')). rewrite (IH s2 fd st fuel n Hde Hfd1 Hn1) by (cbn in Hf; lia).
        unfold s2. cbn [say vfs_sayer v_files v_fds v_out]. rewrite Hlast. cbn [v_out s1]. by rewrite <- app_assoc.
      * step (print_str_ok 1 "ls: cannot stat " name s1 ltac:(repeat constructor; done)).
        set (s2 := say s1 (u8 <$> lit "ls: cannot stat " ++ name ++ [10])). rewrite (IH s2 fd st fuel n Hde Hfd1 Hn1) by (cbn in Hf; lia).
        unfold s2. cbn [say vfs_sayer v_files v_fds v_out]. rewrite Hlast. cbn [v_out s1]. by rewrite <- app_assoc.
Qed.

(** * Correctness *)

(** Listing.  A directory is listed with a line for every entry that is in
    use, in order: its name, padded to fourteen characters, and the type, the
    number and the size of the file; a file is listed with its own line.  All
    descriptors are closed again. *)
Theorem ls_lists (s : vfs) (path : bytes) (st : stat) (des : list bytes) n m fuel :
  lowest_fd (v_fds s) = Some n -> lowest_fd (<[n := Some (st, concat des)]> (v_fds s)) = Some m ->
  v_files s path = Some (st, concat des) -> Forall (fun de => length de = 16%nat) des ->
  (length path + 16 <= LSBUF)%nat -> (length des < fuel)%nat -> st_type st = T_DIR \/ st_type st = T_FILE ->
  ls path fuel s = Ok tt (say s (if st_type st =? T_DIR then concat (listed (v_files s) path <$> des) else entry_line (fmtname path) st)).
Proof.
  intros Hn Hm Hp Hde Hl Hf Ht. pose proof (lowest_fd_free _ _ Hn) as Hfree. apply lookup_lt_Some in Hfree as Hlt.
  set (x := Some (st, concat des)). set (s1 := Vfs (v_files s) (<[n := x]> (v_fds s)) (v_out s)).
  assert (E1 : u_open path 0 s = Ok (Z.of_nat n) s1) by (cbn; unfold v_open; by rewrite Hp, Hn).
  assert (Hx : v_fds s1 !! n = Some x) by (by apply list_lookup_insert_eq).
  assert (E2 : u_fstat (Z.of_nat n) s1 = Ok (0, st) s1) by (cbn [u_fstat vfs_posix]; unfold v_at; by rewrite Nat2Z.id, Hx).
  unfold ls. step E1. rewrite (proj2 (Z.ltb_ge _ _)) by lia. step E2. cbn [fst snd]. change (0 <? 0) with false. cbn iota.
  assert (Hclose : forall y out, (u_close (Z.of_nat n) ;;; ret tt) (Vfs (v_files s) (<[n := y]> (v_fds s)) out) = Ok tt (Vfs (v_files s) (v_fds s) out)).
  { intros y out. unfold bind, ret. cbn [u_close vfs_posix seqr v_files v_fds v_out].
    by rewrite Nat2Z.id, list_insert_insert_eq, list_insert_id by done. }
  destruct Ht as [Ht|Ht]; rewrite Ht.
  - change (T_DIR =? T_FILE) with false. change (T_DIR =? T_DIR) with true. cbn iota.
    rewrite (proj2 (Nat.ltb_ge _ _)) by (unfold DIRSIZ; lia).
    step (ls_dir_ok path des s1 n st fuel m Hde Hx Hm Hf). cbn [v_files v_fds v_out s1]. rewrite list_insert_insert_eq. apply Hclose.
  - change (T_FILE =? T_FILE) with true. change (T_FILE =? T_DIR) with false. cbn iota. step (print_entry_ok (fmtname path) st s1). apply Hclose.
Qed.

(** A directory "d" with the file "a", an unused entry and a file that is gone. *)
Definition demo_des : list bytes := [dirent_bytes (lit "a") 5; dirent_bytes [] 0; dirent_bytes (lit "b") 6].
Definition demo_vfs : vfs :=
  Vfs (fun p => if decide (p = lit "d") then Some (Stat T_DIR 1 2 1 48, concat demo_des)
                else if decide (p = lit "d/a") then Some (Stat T_FILE 1 5 1 7, []) else None)
    ([Some (Stat 3 1 9 1 0, []); Some (Stat 3 1 9 1 0, []); Some (Stat 3 1 9 1 0, [])] ++ replicate 13 None) [].

Lemma ls_lists_witness : exists s', ls (lit "d") 4 demo_vfs = Ok tt s' /\
  v_out s' = lit "a              2 5 7" ++ [10] ++ lit "ls: cannot stat d/b" ++ [10].
Proof.
  eexists. split.
  - apply (ls_lists demo_vfs (lit "d") (Stat T_DIR 1 2 1 48) demo_des 3 4 4);
      first [reflexivity | by left | apply Nat.leb_le; reflexivity | apply Nat.ltb_lt; reflexivity | repeat constructor].
  - vm_compute. reflexivity.
Defined.
