(* ===== verification/Debug.v ===== *)
(** Debugging output: the call stack, [getcallerpcs] of [spinlock.c], and the
    process listing, [procdump] of [proc.c], on the console; and
    [consoleinit]. *)

From S2P Require Import Prelude Params Mem Spinlock Klock Bytes Bio Bcache Log Fs Pipe Kalloc Vm Proc User Utils Kbd Apic Console ConsoleSpec.
Open Scope Z_scope.
Open Scope xv6_scope.

(** * The call stack *)

(** The two loops of [getcallerpcs], [n] elements of [pcs] being left. *)
Fixpoint follow (m : mem) (ebp : Z) (n : nat) : list Z :=
  match n with
  | O => []
  | S n' =>
      if (ebp =? 0) || (ebp <? KERNBASE) || (ebp =? 0xffffffff) then replicate n 0
      else load32 m (V2P (u32 (ebp + 4))) :: follow m (load32 m (V2P ebp)) n'
  end.

Definition getcallerpcs (m : mem) (v : Z) : list Z := follow m (u32 (v - 8)) 10.

(** * The listing *)

(** [states], where the states that are not there are not reached. *)
Definition state_name (st : procstate) : bytes :=
  match st with
  | UNUSED => lit "unused" | EMBRYO => lit "embryo" | SLEEPING => lit "sleep "
  | RUNNABLE => lit "runble" | RUNNING => lit "run   " | ZOMBIE => lit "zombie"
  end.

(** [struct context]. *)
Definition CTX_ebp : Z := 12.

Section procdump.
Context {W : Type} `{Ports W}.
Abbreviation C := (M (cst W)).

(** The program counters up to a zero. *)
Fixpoint dump_pcs (pcs : list Z) : C unit :=
  match pcs with
  | [] => ret tt
  | pc :: pcs => if pc =? 0 then ret tt else cprintf (fun _ => []) (Some (lit " %p")) [pc] ;;; dump_pcs pcs
  end.

Definition dump_proc (m : mem) (p : proc) : C unit :=
  if decide (state p = UNUSED) then ret tt else
  cprintf (fun a => if a =? 1 then state_name (state p) else cstr (name p)) (Some (lit "%d %s %s")) [pid p; 1; 2] ;;;
  (if decide (state p = SLEEPING)
   then dump_pcs (getcallerpcs m (u32 (load32 m (V2P (u32 (context p + CTX_ebp))) + 8)))
   else ret tt) ;;;
  cprintf (fun _ => []) (Some [10]) [].

(** [ptable] and the memory, which are not locked. *)
Fixpoint procdump (m : mem) (ptable : list proc) : C unit :=
  match ptable with
  | [] => ret tt
  | p :: ptable => dump_proc m p ;;; procdump m ptable
  end.
End procdump.

(** [consoleinit]: the table of devices is a parameter of the file system. *)
Definition consoleinit {W} `{Ports W} `{Mmio W} : M (cst W) unit :=
  modify (set_locking true) ;;;
  modify (fun s => set_hw (ioapicenable IRQ_KBD 0 (c_hw s)) s).

(** * The stack *)

(** A chain of frames from [ebp] with the return addresses in them. *)
Inductive frames (m : mem) : Z -> list Z -> Prop :=
| frames_end ebp : 0 <= ebp < KERNBASE \/ ebp = 0xffffffff -> frames m ebp []
| frames_call ebp pcs : KERNBASE <= ebp < 0xffffffff -> frames m (load32 m (V2P ebp)) pcs ->
    frames m ebp (load32 m (V2P (u32 (ebp + 4))) :: pcs).

Lemma follow_frames m ebp pcs : frames m ebp pcs -> forall n, follow m ebp n = take n (pcs ++ replicate n 0).
Proof.
  induction 1 as [ebp He|ebp pcs He _ IH]; intros [|n]; try done; cbn [follow app].
  - assert (E : (ebp =? 0) || (ebp <? KERNBASE) || (ebp =? 0xffffffff) = true).
    { rewrite !orb_true_iff, Z.ltb_lt, !Z.eqb_eq. lia. }
    rewrite E. by rewrite take_ge by (by rewrite length_replicate).
  - assert (E : (ebp =? 0) || (ebp <? KERNBASE) || (ebp =? 0xffffffff) = false).
    { rewrite !orb_false_iff, Z.ltb_ge, !Z.eqb_neq. unfold KERNBASE in *. lia. }
    rewrite E. cbn [take]. f_equal. rewrite IH. destruct (decide (n <= length pcs)%nat).
    + by rewrite !take_app_le by done.
    + rewrite !take_app_ge by lia. f_equal. rewrite !take_replicate. f_equal. lia.
Qed.

(** [getcallerpcs] gives the return addresses of the chain, up to ten, and
    zeros for the rest. *)
Theorem getcallerpcs_stack m ebp pcs : 0 <= ebp < 2 ^ 32 -> frames m ebp pcs -> getcallerpcs m (ebp + 8) = take 10 (pcs ++ replicate 10 0).
Proof. intros Hr Hf. unfold getcallerpcs. replace (ebp + 8 - 8) with ebp by lia. rewrite u32_id by done. by apply follow_frames. Qed.

(** * Totality of the output *)

Section output.
Context {W : Type} `{ConsoleHw W}.
Implicit Types s : cst W.

Lemma kdigit_loop_ok base k : forall x buf fuel s, 1 < base -> 0 <= x < base ^ Z.of_nat k -> (0 < k)%nat -> (length buf + k <= 15)%nat -> (k <= fuel)%nat ->
  exists buf', digit_loop base x buf fuel s = Ok buf' s /\ (length buf' <= length buf + k)%nat.
Proof.
  induction k as [|k IH]; intros x buf fuel s Hb Hx Hk Hl Hf; [lia|]. destruct fuel as [|fuel]; [lia|]. cbn [digit_loop].
  unfold push_char. rewrite (proj2 (Nat.ltb_lt _ _)) by lia. unfold bind, ret at 1. cbn [seqr].
  destruct (Z.eqb_spec (x / base) 0) as [E|E]; [eexists; split; [done|]; rewrite length_app; cbn; lia|].
  assert (Hx' : 0 <= x / base < base ^ Z.of_nat k).
  { split; [apply Z.div_pos; lia|]. apply Z.div_lt_upper_bound; [lia|]. rewrite Nat2Z.inj_succ, Z.pow_succ_r in Hx by lia. lia. }
  destruct (decide (k = 0)%nat) as [->|]; [cbn in Hx'; lia|].
  destruct (IH (x / base) (buf ++ [default 0 (digits !! Z.to_nat (x mod base))]) fuel s) as (buf' & E' & L'); [done|done|lia|rewrite length_app; cbn; lia|lia|].
  exists buf'. split; [done|]. rewrite length_app in L'. cbn in L'. lia.
Qed.

Lemma kprintint_ok xx base sgn s : base = 10 \/ base = 16 -> c_panicked s = false -> on_screen s ->
  exists s', printint xx base sgn s = Ok tt s' /\ shows s s' /\ on_screen s'.
Proof.
  intros Hb Hp Hs. unfold printint. set (neg := sgn && _). set (x := if neg then _ else _).
  assert (Hx : 0 <= x < 2 ^ 32) by (unfold x; destruct neg; apply u32_range).
  destruct (kdigit_loop_ok base 10 x [] 32 s) as (buf & E & L); [lia| |lia|cbn; lia|lia|].
  { split; [lia|]. destruct Hb as [-> | ->]; cbn; lia. }
  step E. cbn in L. destruct neg.
  - unfold push_char. rewrite (proj2 (Nat.ltb_lt _ _)) by lia. unfold bind, ret. cbn [seqr]. by apply cons_puts_ok.
  - unfold bind, ret. cbn [seqr]. by apply cons_puts_ok.
Qed.

(** As many arguments as the format asks for. *)
Fixpoint fmt_args (fmt : bytes) : nat :=
  match fmt with
  | [] => 0
  | c :: fmt =>
      if negb (Z.land c 0xff =? 37) then fmt_args fmt else
      match fmt with
      | [] => 0
      | c :: fmt => if Z.land c 0xff =? 37 then fmt_args fmt else S (fmt_args fmt)
      end
  end.

(** What [cprintf] prints with stays printable. *)
Definition printable s : Prop := c_panicked s = false /\ on_screen s.

Lemma shows_printable s s' : shows s s' -> printable s -> on_screen s' -> printable s'.
Proof. intros Hs [Hp _] Ho. split; [by rewrite (sh_panicked _ _ Hs)|done]. Qed.

Lemma cprintf_loop_ok str_at n : forall fmt ap s, (length fmt <= n)%nat -> (fmt_args fmt <= length ap)%nat -> printable s ->
  exists s', cprintf_loop str_at fmt ap s = Ok tt s' /\ shows s s' /\ printable s'.
Proof.
  induction n as [|n IH]; intros [|c fmt] ap s Hn Ha Hp; cbn [length] in Hn; try lia;
    try (exists s; split; [done|]; split; [apply shows_refl|done]).
  assert (Hnext : forall (m : M (cst W) unit) k ap', (exists s1, m s = Ok tt s1 /\ shows s s1 /\ on_screen s1) -> (length k <= n)%nat -> (fmt_args k <= length ap')%nat ->
    exists s', (m ;;; cprintf_loop str_at k ap') s = Ok tt s' /\ shows s s' /\ printable s').
  { intros m k ap' (s1 & E1 & S1 & O1) Hk Hk'. destruct (IH k ap' s1) as (s2 & E2 & S2 & P2); [done|done|by eapply shows_printable|].
    exists s2. split; [by rewrite (bind_ok _ _ _ _ _ E1)|]. split; [by eapply shows_trans|done]. }
  assert (Hput : forall c s, printable s -> exists s1, consputc c s = Ok tt s1 /\ shows s s1 /\ on_screen s1).
  { intros x t [Hp1 Hp2]. destruct (consputc_ok x t Hp1 Hp2) as (s1 & E1 & S1 & O1 & _). by exists s1. }
  cbn [cprintf_loop fmt_args] in *. destruct (negb _); [apply Hnext; [by apply Hput|lia|done]|].
  destruct fmt as [|d fmt]; [exists s; split; [done|]; split; [apply shows_refl|done]|]. cbn [length] in Hn.
  destruct Hp as [Hp1 Hp2]. destruct (Z.eqb_spec (Z.land d 255) 37) as [E37|E37].
  - rewrite E37. cbn [Z.eqb Pos.eqb orb]. apply Hnext; [by apply Hput|lia|done].
  - destruct ap as [|a ap]; [cbn in Ha; lia|]. cbn [length next_arg] in *.
    destruct (_ =? 100); [unfold bind at 1, ret at 1; cbn [seqr fst snd]; apply Hnext; [apply kprintint_ok; auto|lia|lia]|].
    destruct (_ || _); [unfold bind at 1, ret at 1; cbn [seqr fst snd]; apply Hnext; [apply kprintint_ok; auto|lia|lia]|].
    destruct (_ =? 115); [unfold bind at 1, ret at 1; cbn [seqr fst snd]; apply Hnext; [by apply cons_puts_ok|lia|lia]|].
    destruct (Hput 37 s (conj Hp1 Hp2)) as (s1 & E1 & S1 & O1). rewrite (bind_ok _ _ _ _ _ E1).
    assert (P1 : printable s1) by (by eapply shows_printable). destruct (Hput (Z.land d 255) s1 P1) as (s2 & E2 & S2 & O2). rewrite (bind_ok _ _ _ _ _ E2).
    destruct (IH fmt (a :: ap) s2) as (s3 & E3 & S3 & P3); [lia|cbn; lia|by eapply shows_printable|].
    exists s3. split; [done|]. split; [|done]. eapply shows_trans; [exact S1|]. by eapply shows_trans.
Qed.

(** [cprintf] takes the console's lock and gives it back. *)
Lemma cprintf_ok str_at fmt ap s : (fmt_args fmt <= length ap)%nat -> printable s -> cons_lock ∉ held (view s) ->
  exists s', cprintf str_at (Some fmt) ap s = Ok tt s' /\ printable s' /\ held (view s') = held (view s).
Proof.
  intros Ha Hp Hh. unfold cprintf, bind at 1, gets. cbn [seqr]. destruct (c_locking s) eqn:El; cbn [when].
  - rewrite (bind_ok _ _ _ _ _ (Klock.acquire_ok cons_lock s Hh)). set (s1 := put _ s).
    destruct (cprintf_loop_ok str_at (length fmt) fmt ap s1) as (s2 & E2 & S2 & P2); [done|done|exact Hp|]. rewrite (bind_ok _ _ _ _ _ E2).
    assert (Ev : view s2 = view s1) by (cbn; by rewrite (sh_fs _ _ S2)).
    eexists. split; [by apply Klock.release_after with (c := view s); [|rewrite Ev]|]. done.
  - destruct (cprintf_loop_ok str_at (length fmt) fmt ap s) as (s2 & E2 & S2 & P2); [done|done|exact Hp|].
    exists s2. split; [rewrite (bind_ok _ _ _ _ _ (eq_refl : ret tt s = Ok tt s)); by rewrite (bind_ok _ _ _ _ _ E2)|].
    split; [done|]. cbn. by rewrite (sh_fs _ _ S2).
Qed.

Lemma dump_pcs_ok pcs : forall s, printable s -> cons_lock ∉ held (view s) ->
  exists s', dump_pcs pcs s = Ok tt s' /\ printable s' /\ held (view s') = held (view s).
Proof.
  induction pcs as [|pc pcs IH]; intros s Hp Hh; [by exists s|]. cbn [dump_pcs]. destruct (pc =? 0); [by exists s|].
  destruct (cprintf_ok (fun _ => []) (lit " %p") [pc] s) as (s1 & E1 & P1 & H1); [done|done|done|]. step E1.
  destruct (IH s1 P1) as (s2 & E2 & P2 & H2); [by rewrite H1|]. exists s2. rewrite E2, H2, H1. done.
Qed.

(** [procdump] lists any table, whatever the stacks of the sleeping processes
    look like, and comes back with the locks it was called with. *)
Theorem procdump_returns m ptable : forall s, printable s -> cons_lock ∉ held (view s) ->
  exists s', procdump m ptable s = Ok tt s' /\ printable s' /\ held (view s') = held (view s).
Proof.
  induction ptable as [|p ptable IH]; intros s Hp Hh; [by exists s|]. cbn [procdump].
  assert (Hone : exists s1, dump_proc m p s = Ok tt s1 /\ printable s1 /\ held (view s1) = held (view s)).
  { unfold dump_proc. destruct (decide _); [by exists s|].
    destruct (cprintf_ok (fun a => if a =? 1 then state_name (state p) else cstr (name p)) (lit "%d %s %s") [pid p; 1; 2] s) as (s1 & E1 & P1 & H1); [done|done|done|].
    step E1. rewrite <- H1 in Hh.
    assert (Hpc : exists s2, (if decide (state p = SLEEPING) then dump_pcs (getcallerpcs m (u32 (load32 m (V2P (u32 (context p + CTX_ebp))) + 8))) else ret tt) s1 = Ok tt s2 /\
      printable s2 /\ held (view s2) = held (view s1)) by (destruct (decide _); [by apply dump_pcs_ok|by exists s1]).
    destruct Hpc as (s2 & E2 & P2 & H2). step E2.
    destruct (cprintf_ok (fun _ => []) [10] [] s2) as (s3 & E3 & P3 & H3); [done|done|by rewrite H2|]. exists s3. rewrite E3, H3, H2, H1. done. }
  destruct Hone as (s1 & E1 & P1 & H1). step E1. destruct (IH s1 P1) as (s2 & E2 & P2 & H2); [by rewrite H1|]. exists s2. rewrite E2, H2, H1. done.
Qed.
End output.
