(* ===== verification/Programs.v ===== *)
(** Programs around processes: [init.c], [zombie.c], [forktest.c], [date.c],
    [num_pages.c], [virt2real.c] and [forkcow.c].

    A program is what one process does: [fork] returns the child's number to
    the parent and 0 to the child, and each goes on by itself.  The end of a
    program is its call of [exit]. *)

From S2P Require Import Prelude Bytes Fs Rtc User Printf Utils Sysfile.
Open Scope Z_scope.
Open Scope xv6_scope.

(** The system calls of [user.h] that are about processes.  [u_exec] returns
    when it has failed. *)
Class Process (S : Type) := {
  pr_posix :: Posix S;
  u_fork : M S Z;
  u_wait : M S Z;
  u_exec : bytes -> list bytes -> M S bool;
  u_dup : Z -> M S Z;
  u_mknod : bytes -> Z -> Z -> M S Z;
  u_sleep : Z -> M S Z;
  u_date : M S (Z * rtcdate);
  u_num_pages : M S Z;
  u_virt2real : Z -> M S Z;
  u_forkcow : M S Z
}.

Section programs.
Context {S : Type} `{Process S}.

Definition say_lit (fd : Z) (s : string) : M S unit := printf (fun _ => []) fd (lit s ++ [10]) [].

(** ** [init.c] *)

(** The wait for the shell: another child that ends is one init was given. *)
Fixpoint reap (pid : Z) (fuel : nat) : M S unit :=
  match fuel with
  | O => nofuel
  | Datatypes.S fuel =>
      wpid <- u_wait ;;
      if (0 <=? wpid) && negb (wpid =? pid) then say_lit 1 "zombie!" ;;; reap pid fuel else ret tt
  end.

Fixpoint init_loop (fuel : nat) : M S unit :=
  match fuel with
  | O => nofuel
  | Datatypes.S fuel =>
      say_lit 1 "init: starting sh" ;;;
      pid <- u_fork ;;
      if pid <? 0 then say_lit 1 "init: fork failed"
      else if pid =? 0 then
        e <- u_exec (lit "sh") [lit "sh"] ;;
        if (e : bool) then ret tt else say_lit 1 "init: exec sh failed"
      else reap pid fuel ;;; init_loop fuel
  end.

Definition init_main (fuel : nat) : M S unit :=
  fd <- u_open (lit "console") O_RDWR ;;
  (if fd <? 0 then u_mknod (lit "console") 1 1 ;;; u_open (lit "console") O_RDWR ;;; ret tt else ret tt) ;;;
  u_dup 0 ;;;
  u_dup 0 ;;;
  init_loop fuel.

(** ** [zombie.c] *)

Definition zombie_main : M S unit :=
  pid <- u_fork ;;
  if 0 <? pid then u_sleep 5 ;;; ret tt else ret tt.

(** ** [forktest.c], whose [printf] writes the format as it is *)

Definition FORKN : nat := 1000.
Definition fprint (s : string) : M S unit := u_write 1 (lit s ++ [10]) ;;; ret tt.

(** The first loop: how many children were made, or that this is one. *)
Fixpoint fork_many (n k : nat) : M S (option nat) :=
  match k with
  | O => ret (Some n)
  | Datatypes.S k =>
      pid <- u_fork ;;
      if pid <? 0 then ret (Some n) else if pid =? 0 then ret None else fork_many (Datatypes.S n) k
  end.

(** The second loop; false when it has ended the program. *)
Fixpoint wait_many (n : nat) : M S bool :=
  match n with
  | O => ret true
  | Datatypes.S n => w <- u_wait ;; if w <? 0 then fprint "wait stopped early" ;;; ret false else wait_many n
  end.

Definition forktest : M S unit :=
  fprint "fork test" ;;;
  r <- fork_many 0 FORKN ;;
  match r with
  | None => ret tt
  | Some n =>
      if (n =? FORKN)%nat then fprint "fork claimed to work N times!" else
      b <- wait_many n ;;
      if negb b then ret tt else
      w <- u_wait ;;
      if negb (w =? -1) then fprint "wait got too many" else fprint "fork test OK"
  end.

(** ** [date.c], [num_pages.c], [virt2real.c], [forkcow.c] *)

Definition date_main : M S unit :=
  r <- u_date ;;
  if negb (fst r =? 0) then say_lit 2 "Erro na chamada de sistema" else
  printf (fun _ => []) 1 (lit "Data: %d-%d-%d" ++ [10]) [day (snd r); month (snd r); year (snd r)].

Definition num_pages_main : M S unit :=
  n <- u_num_pages ;; printf (fun _ => []) 1 (lit "%d" ++ [10]) [n].

(** [func] is given the address of the string, not the number in it.  The
    message is in UTF-8. *)
Definition virt2real_main (argv : list Z) : M S unit :=
  match argv with
  | _ :: va :: _ => r <- u_virt2real va ;; printf (fun _ => []) 1 (lit "%d" ++ [10]) [r]
  | _ => say_lit 1 "Indique o endereço virtual"
  end.

Definition forkcow_main : M S unit :=
  pid <- u_forkcow ;; printf (fun _ => []) 1 (lit "%d" ++ [10]) [pid].
End programs.

(** * Messages *)

Lemma lit_bytes (s : string) : Forall (fun c => 0 <= c < 256) (lit s ++ [10]).
Proof.
  apply Forall_app. split; [|repeat constructor; lia]. induction s as [|c s IH]; cbn [lit]; constructor; [|done].
  pose proof (Ascii.N_ascii_bounded c). lia.
Qed.

Lemma render_plain str_at fmt : Forall (fun c => c <> PERCENT) fmt -> render str_at fmt [] = Some fmt.
Proof. induction 1 as [|c fmt Hc _ IH]; [done|]. cbn [render]. by rewrite (proj2 (Z.eqb_neq _ _) Hc), IH. Qed.

Lemma u8_bytes d : Forall (fun c => 0 <= c < 256) d -> u8 <$> d = d.
Proof. induction 1 as [|c d Hc _ IH]; [done|]. cbn [fmap list_fmap]. by rewrite IH, u8_id. Qed.

Definition plain_text (s : string) : Prop := Forall (fun c => c <> PERCENT) (lit s ++ [10]).

Lemma say_lit_ok {S} `{Process S} `{!Sayer S} fd (m : string) (s : S) : plain_text m -> say_lit fd m s = Ok tt (say s (lit m ++ [10])).
Proof.
  intros Hm. unfold say_lit. rewrite <- (u8_bytes (lit m ++ [10])) at 2 by apply lit_bytes.
  apply (printf_render (fun _ => []) (length (lit m ++ [10]))); [done|apply lit_bytes|by apply render_plain].
Qed.

(** * A process table *)

(** The free entries, the children that have not been waited for, and the
    output. *)
Record pview := Pview { pv_free : nat; pv_kids : nat; pv_out : bytes }.

#[global] Instance pview_posix : Posix pview := {|
  u_read _ _ := ret (0, []);
  u_write _ d s := Ok (Z.of_nat (length d)) (Pview (pv_free s) (pv_kids s) (pv_out s ++ d));
  u_open _ _ := ret (-1);
  u_close _ := ret (-1);
  u_fstat _ := ret (-1, Stat 0 0 0 0 0);
  u_link _ _ := ret (-1);
  u_unlink _ := ret (-1);
  u_mkdir _ := ret (-1);
  u_kill _ := ret (-1)
|}.

(** [fork] fails when no entry is free; the children end at once. *)
#[global] Instance pview_process : Process pview := {|
  u_fork s :=
    match pv_free s with
    | O => Ok (-1) s
    | S f => Ok (Z.of_nat (pv_kids s) + 1) (Pview f (S (pv_kids s)) (pv_out s))
    end;
  u_wait s :=
    match pv_kids s with
    | O => Ok (-1) s
    | S k => Ok (Z.of_nat k + 1) (Pview (S (pv_free s)) k (pv_out s))
    end;
  u_exec _ _ := ret false;
  u_dup _ := ret (-1);
  u_mknod _ _ _ := ret (-1);
  u_sleep _ := ret 0;
  u_date := ret (-1, Rtcdate 0 0 0 0 0 0);
  u_num_pages := ret 0;
  u_virt2real _ := ret 0;
  u_forkcow := ret (-1)
|}.

Lemma fork_many_ok f : forall n k kids out, (f < k)%nat ->
  fork_many n k (Pview f kids out) = Ok (Some (n + f)%nat) (Pview 0 (kids + f) out).
Proof.
  induction f as [|f IH]; intros n k kids out Hk; (destruct k as [|k]; [lia|]); cbn [fork_many].
  - unfold bind. cbn. by rewrite !Nat.add_0_r.
  - assert (E : u_fork (Pview (S f) kids out) = Ok (Z.of_nat kids + 1) (Pview f (S kids) out)) by done. step E.
    rewrite (proj2 (Z.ltb_ge _ _)), (proj2 (Z.eqb_neq _ _)) by lia. rewrite IH by lia. by rewrite <- !Nat.add_succ_comm.
Qed.

Lemma wait_many_ok n : forall f kids out, wait_many n (Pview f (n + kids) out) = Ok true (Pview (f + n) kids out).
Proof.
  induction n as [|n IH]; intros f kids out; [by rewrite Nat.add_0_r|]. cbn [wait_many].
  assert (E : u_wait (Pview f (S n + kids) out) = Ok (Z.of_nat (n + kids) + 1) (Pview (S f) (n + kids) out)) by done. step E.
  rewrite (proj2 (Z.ltb_ge _ _)) by lia. rewrite IH. do 2 f_equal. lia.
Qed.

(** On a table with less than a thousand free entries the test of [fork] says
    that it has passed, and leaves no child behind. *)
Theorem forktest_passes f out : (f < FORKN)%nat ->
  forktest (Pview f 0 out) = Ok tt (Pview f 0 ((out ++ lit "fork test" ++ [10]) ++ lit "fork test OK" ++ [10])).
Proof.
  intros Hf. unfold forktest. assert (E1 : fprint "fork test" (Pview f 0 out) = Ok tt (Pview f 0 (out ++ lit "fork test" ++ [10]))) by done.
  step E1. step (fork_many_ok f 0 FORKN 0 (out ++ lit "fork test" ++ [10]) Hf). rewrite (proj2 (Nat.eqb_neq _ _)) by lia.
  pose proof (wait_many_ok (0 + f) 0 0 (out ++ lit "fork test" ++ [10])) as E2. rewrite Nat.add_0_r in E2. step E2. done.
Qed.

(** * Starting shells *)

(** What [fork] and [wait] are going to return to init. *)
Record iview := Iview { iv_forks : list Z; iv_waits : list Z; iv_out : bytes }.

#[global] Instance iview_posix : Posix iview := {|
  u_read _ _ := ret (0, []);
  u_write _ d s := Ok (Z.of_nat (length d)) (Iview (iv_forks s) (iv_waits s) (iv_out s ++ d));
  u_open _ _ := ret 0;
  u_close _ := ret 0;
  u_fstat _ := ret (-1, Stat 0 0 0 0 0);
  u_link _ _ := ret (-1);
  u_unlink _ := ret (-1);
  u_mkdir _ := ret (-1);
  u_kill _ := ret (-1)
|}.

#[global] Instance iview_process : Process iview := {|
  u_fork s := match iv_forks s with [] => Ok (-1) s | p :: l => Ok p (Iview l (iv_waits s) (iv_out s)) end;
  u_wait s := match iv_waits s with [] => Ok (-1) s | p :: l => Ok p (Iview (iv_forks s) l (iv_out s)) end;
  u_exec _ _ := ret false;
  u_dup _ := ret 0;
  u_mknod _ _ _ := ret 0;
  u_sleep _ := ret 0;
  u_date := ret (-1, Rtcdate 0 0 0 0 0 0);
  u_num_pages := ret 0;
  u_virt2real _ := ret 0;
  u_forkcow := ret (-1)
|}.

#[global, program] Instance iview_sayer : Sayer iview := {| say s d := Iview (iv_forks s) (iv_waits s) (iv_out s ++ d) |}.
Next Obligation. intros. cbn. by rewrite app_assoc. Qed.
Next Obligation. intros []. cbn. by rewrite app_nil_r. Qed.
Next Obligation. done. Qed.

(** A round: the orphans that end before the shell does, and the shell. *)
Record round := Round { orphans : list Z; shell : Z }.

Definition round_ok (r : round) : Prop := 0 < shell r /\ Forall (fun p => 0 <= p /\ p <> shell r) (orphans r).

Definition round_text (r : round) : bytes :=
  (lit "init: starting sh" ++ [10]) ++ concat ((fun _ => lit "zombie!" ++ [10]) <$> orphans r).

Lemma reap_ok pid os : forall forks rest out fuel, Forall (fun p => 0 <= p /\ p <> pid) os -> (length os < fuel)%nat ->
  reap pid fuel (Iview forks (os ++ pid :: rest) out) =
    Ok tt (Iview forks rest (out ++ concat ((fun _ => lit "zombie!" ++ [10]) <$> os))).
Proof.
  induction os as [|o os IH]; intros forks rest out fuel Ho Hf; (destruct fuel as [|fuel]; [lia|]); cbn [reap app].
  - assert (E : u_wait (Iview forks (pid :: rest) out) = Ok pid (Iview forks rest out)) by done. step E.
    rewrite Z.eqb_refl, andb_false_r. cbn. by rewrite app_nil_r.
  - apply Forall_cons in Ho as [[H0 Hne] Ho]. set (s1 := Iview forks (os ++ pid :: rest) out).
    assert (E : u_wait (Iview forks (o :: os ++ pid :: rest) out) = Ok o s1) by done. step E.
    rewrite (proj2 (Z.leb_le _ _)), (proj2 (Z.eqb_neq _ _)) by done. cbn [negb andb].
    step (say_lit_ok 1 "zombie!" s1 ltac:(repeat constructor; done)). cbn [say iview_sayer iv_forks iv_waits iv_out s1].
    rewrite IH by (done || (cbn in Hf; lia)). cbn [fmap list_fmap concat]. by rewrite <- app_assoc.
Qed.

Lemma init_loop_ok rs : forall out fuel, Forall round_ok rs -> (list_sum (length ∘ orphans <$> rs) + length rs < fuel)%nat ->
  init_loop fuel (Iview (shell <$> rs) (concat ((fun r => orphans r ++ [shell r]) <$> rs)) out) =
    Ok tt (Iview [] [] (out ++ concat (round_text <$> rs) ++ (lit "init: starting sh" ++ [10]) ++ lit "init: fork failed" ++ [10])).
Proof.
  induction rs as [|r rs IH]; intros out fuel Hr Hf; (destruct fuel as [|fuel]; [lia|]); cbn [init_loop fmap list_fmap concat] in *.
  - step (say_lit_ok 1 "init: starting sh" (Iview [] [] out) ltac:(repeat constructor; done)).
    unfold bind. cbn [u_fork iview_process iv_forks say iview_sayer seqr]. change (-1 <? 0) with true. cbn iota.
    rewrite say_lit_ok by (repeat constructor; done). cbn [say iview_sayer iv_forks iv_waits iv_out]. by rewrite <- app_assoc.
  - apply Forall_cons in Hr as [[Hp Ho] Hr]. cbn [list_sum foldr compose length] in Hf. fold (list_sum (length ∘ orphans <$> rs)) in Hf.
    set (s0 := Iview _ _ _). step (say_lit_ok 1 "init: starting sh" s0 ltac:(repeat constructor; done)).
    cbn [say iview_sayer iv_forks iv_waits iv_out s0]. rewrite <- app_assoc. cbn [app].
    set (W := concat _). set (O1 := out ++ _).
    assert (E : u_fork (Iview (shell r :: (shell <$> rs)) (orphans r ++ shell r :: W) O1) = Ok (shell r) (Iview (shell <$> rs) (orphans r ++ shell r :: W) O1)) by done.
    step E. rewrite (proj2 (Z.ltb_ge _ _)), (proj2 (Z.eqb_neq _ _)) by lia.
    step (reap_ok (shell r) (orphans r) (shell <$> rs) W O1 fuel Ho ltac:(unfold compose in *; lia)).
    rewrite IH by (done || (unfold compose in *; lia)). unfold O1, round_text. by rewrite <- !app_assoc.
Qed.

(** Init starts a shell, reports every orphan that ends, starts the next
    shell when this one has ended, and so on until no process can be made. *)
Theorem init_restarts rs fuel : Forall round_ok rs -> (list_sum (length ∘ orphans <$> rs) + length rs < fuel)%nat ->
  init_main fuel (Iview (shell <$> rs) (concat ((fun r => orphans r ++ [shell r]) <$> rs)) []) =
    Ok tt (Iview [] [] (concat (round_text <$> rs) ++ (lit "init: starting sh" ++ [10]) ++ lit "init: fork failed" ++ [10])).
Proof. intros Hr Hf. unfold init_main. unfold bind. cbn. apply (init_loop_ok rs [] fuel Hr Hf). Qed.
