(* ===== verification/Sh.v ===== *)
(** The parser of the shell, [sh.c].  The state is the pointer [*ps] into the
    line; a pointer is the rest of the line from there on, [es] the empty
    rest.  The shell's [panic] ends the parse with its message. *)

From S2P Require Import Prelude Bytes Fs User Sysfile Utils.
Open Scope Z_scope.
Open Scope xv6_scope.

Definition whitespace : bytes := [32; 9; 13; 10; 11].
(** ["<|>&;()"]. *)
Definition symbols : bytes := [60; 124; 62; 38; 59; 40; 41].

Definition LT : Z := 60.
Definition GT : Z := 62.
Definition BAR : Z := 124.
Definition AMP : Z := 38.
Definition SEMI : Z := 59.
Definition LPAR : Z := 40.
Definition RPAR : Z := 41.
Definition PLUS : Z := 43.
(** The token of a word, ['a']. *)
Definition WORD : Z := 97.

Definition MAXARGS : nat := 10.

(** The pointers [q] and [eq] around a word. *)
Record word := Word { w_q : bytes; w_eq : bytes }.

(** [struct cmd] with its variants. *)
Inductive cmd :=
| EXEC (argv : list word)
| REDIR (c : cmd) (file : word) (mode fd : Z)
| PIPE (left right : cmd)
| LIST (left right : cmd)
| BACK (c : cmd).

Definition in_str (l : bytes) (c : Z) : bool := match strchr l c with Some _ => true | None => false end.

Fixpoint skip_ws (s : bytes) : bytes :=
  match s with
  | c :: s' => if in_str whitespace c then skip_ws s' else s
  | [] => []
  end.

Fixpoint skip_word (s : bytes) : bytes :=
  match s with
  | c :: s' => if negb (in_str whitespace c) && negb (in_str symbols c) then skip_word s' else s
  | [] => []
  end.

(** The token at the pointer: its kind and where it ends. *)
Definition token (s : bytes) : Z * bytes :=
  match s with
  | [] => (0, [])
  | c :: s' =>
      if (c =? BAR) || (c =? LPAR) || (c =? RPAR) || (c =? SEMI) || (c =? AMP) || (c =? LT) then (c, s')
      else if c =? GT then
        match s' with
        | d :: s'' => if d =? GT then (PLUS, s'') else (GT, s')
        | [] => (GT, s')
        end
      else (WORD, skip_word s)
  end.

Definition gettoken : M bytes (Z * word) := fun s =>
  let q := skip_ws s in
  let '(tok, eq) := token q in
  Ok (tok, Word q eq) (skip_ws eq).

Definition peek (toks : bytes) : M bytes bool := fun s =>
  let s := skip_ws s in
  Ok (match s with c :: _ => in_str toks c | [] => false end) s.

Fixpoint parseredirs (c : cmd) (fuel : nat) : M bytes cmd :=
  match fuel with
  | O => nofuel
  | S fuel =>
      b <- peek [LT; GT] ;;
      if negb b then ret c else
      t <- gettoken ;;
      f <- gettoken ;;
      if negb (fst f =? WORD) then panic "missing file for redirection" else
      let c :=
        if fst t =? LT then REDIR c (snd f) O_RDONLY 0
        else if fst t =? GT then REDIR c (snd f) (Z.lor O_WRONLY O_CREATE) 1
        else if fst t =? PLUS then REDIR c (snd f) (Z.lor O_WRONLY O_CREATE) 1
        else c in
      parseredirs c fuel
  end.

(** [cmd->argv[argc] = q; ...]: the command [ret] stands for has [cmd] at its
    core. *)
Fixpoint add_arg (w : word) (c : cmd) : cmd :=
  match c with
  | EXEC argv => EXEC (argv ++ [w])
  | REDIR c f m fd => REDIR (add_arg w c) f m fd
  | _ => c
  end.

(** The loop of [parseexec]. *)
Fixpoint parseargs (c : cmd) (argc : nat) (fuel : nat) : M bytes cmd :=
  match fuel with
  | O => nofuel
  | S fuel =>
      b <- peek [BAR; RPAR; AMP; SEMI] ;;
      if b : bool then ret c else
      t <- gettoken ;;
      if fst t =? 0 then ret c else
      if negb (fst t =? WORD) then panic "syntax" else
      let c := add_arg (snd t) c in
      if (MAXARGS <=? S argc)%nat then panic "too many args" else
      s <- get ;;
      c <- parseredirs c (S (length s)) ;;
      parseargs c (S argc) fuel
  end.

(** [while(peek(ps, es, "&"))] in [parseline]. *)
Fixpoint parsebacks (c : cmd) (fuel : nat) : M bytes cmd :=
  match fuel with
  | O => nofuel
  | S fuel =>
      b <- peek [AMP] ;;
      if negb b then ret c else gettoken ;;; parsebacks (BACK c) fuel
  end.

(** The loops consume a character in every round, so the length of the line
    is fuel enough for them; the functions of the grammar call each other at
    most four deep before one does. *)
Fixpoint parseline (fuel : nat) : M bytes cmd :=
  match fuel with
  | O => nofuel
  | S fuel =>
      c <- parsepipe fuel ;;
      s <- get ;;
      c <- parsebacks c (S (length s)) ;;
      b <- peek [SEMI] ;;
      if negb b then ret c else
      gettoken ;;;
      r <- parseline fuel ;;
      ret (LIST c r)
  end
with parsepipe (fuel : nat) : M bytes cmd :=
  match fuel with
  | O => nofuel
  | S fuel =>
      c <- parseexec fuel ;;
      b <- peek [BAR] ;;
      if negb b then ret c else
      gettoken ;;;
      r <- parsepipe fuel ;;
      ret (PIPE c r)
  end
with parseexec (fuel : nat) : M bytes cmd :=
  match fuel with
  | O => nofuel
  | S fuel =>
      b <- peek [LPAR] ;;
      if b : bool then parseblock fuel else
      s <- get ;;
      c <- parseredirs (EXEC []) (S (length s)) ;;
      s <- get ;;
      parseargs c 0 (S (length s))
  end
with parseblock (fuel : nat) : M bytes cmd :=
  match fuel with
  | O => nofuel
  | S fuel =>
      b <- peek [LPAR] ;;
      if negb b then panic "parseblock" else
      gettoken ;;;
      c <- parseline fuel ;;
      b <- peek [RPAR] ;;
      if negb b then panic "syntax - missing )" else
      gettoken ;;;
      s <- get ;;
      parseredirs c (S (length s))
  end.

(** [nulterminate]: a zero is stored at the end of every word.  [buf] is the
    line with its terminating zero. *)
Definition cut (w : word) (buf : bytes) : bytes :=
  <[(length buf - 1 - length (w_eq w))%nat := 0]> buf.

Fixpoint nulterminate (c : cmd) (buf : bytes) : bytes :=
  match c with
  | EXEC argv => fold_left (fun buf w => cut w buf) argv buf
  | REDIR c f _ _ => cut f (nulterminate c buf)
  | PIPE l r | LIST l r => nulterminate r (nulterminate l buf)
  | BACK c => nulterminate c buf
  end.

(** [parsecmd]: the command, and the line its words point into. *)
Definition parsecmd (line : bytes) : result bytes (cmd * bytes) :=
  (c <- parseline (4 * length line + 4) ;;
   peek [] ;;;
   s <- get ;;
   match s with
   | [] => ret (c, nulterminate c (line ++ [0]))
   | _ => panic "syntax"
   end) line.

(** * Termination *)

(** The parse stops, with a command or a message, and does not go back. *)
Definition stops {A} (n : nat) (r : result bytes A) : Prop :=
  match r with
  | Ok _ s => (length s <= n)%nat
  | Panic _ => True
  | _ => False
  end.

Lemma stops_bind {A B} n n' (m : M bytes A) (f : A -> M bytes B) s :
  stops n (m s) -> (forall a s', m s = Ok a s' -> (length s' <= n)%nat -> stops n' (f a s')) -> stops n' (bind m f s).
Proof. unfold bind. destruct (m s) as [a s'| | | |]; cbn; try done. intros Hn Hf. by apply (Hf a s'). Qed.

Lemma stops_le {A} n n' (r : result bytes A) : stops n r -> (n <= n')%nat -> stops n' r.
Proof. destruct r; cbn; try done. lia. Qed.

Lemma skip_ws_le s : (length (skip_ws s) <= length s)%nat.
Proof. induction s as [|c s IH]; cbn; [lia|]. destruct (in_str whitespace c); cbn; lia. Qed.

Lemma skip_word_le s : (length (skip_word s) <= length s)%nat.
Proof. induction s as [|c s IH]; cbn [skip_word length]; [lia|]. destruct (_ && _); cbn [length]; lia. Qed.

Lemma skip_ws_clean s : skip_ws (skip_ws s) = skip_ws s.
Proof. induction s as [|c s IH]; [done|]. cbn. destruct (in_str whitespace c) eqn:E; [done|]. cbn. by rewrite E. Qed.

Lemma skip_ws_head c s s' : skip_ws s = c :: s' -> in_str whitespace c = false.
Proof.
  induction s as [|d s IH]; [done|]. cbn. destruct (in_str whitespace d) eqn:E; [done|]. by intros [= -> ->].
Qed.

(** A character that is none of the symbols begins a word. *)
Lemma symbol_cases c :
  (c =? BAR) || (c =? LPAR) || (c =? RPAR) || (c =? SEMI) || (c =? AMP) || (c =? LT) = false -> c <> GT -> in_str symbols c = false.
Proof.
  intros H Hg. unfold in_str, symbols, strchr. unfold BAR, LPAR, RPAR, SEMI, AMP, LT, GT in *.
  repeat match goal with |- context [?x =? c] => destruct (Z.eqb_spec x c); [lia|] end. done.
Qed.

Lemma token_lt c s : in_str whitespace c = false -> (length (snd (token (c :: s))) < length (c :: s))%nat.
Proof.
  intros Hw. unfold token. destruct (_ || _) eqn:E; [cbn; lia|]. destruct (Z.eqb_spec c GT) as [->|Hg].
  - destruct s as [|d s]; [cbn; lia|]. destruct (d =? GT); cbn; lia.
  - cbn [snd skip_word]. rewrite Hw, (symbol_cases c E Hg). cbn [negb andb length]. pose proof (skip_word_le s). lia.
Qed.

Lemma gettoken_stops s : stops (length s) (gettoken s).
Proof.
  unfold gettoken. destruct (token (skip_ws s)) as [tok eq] eqn:E. cbn. pose proof (skip_ws_le s). pose proof (skip_ws_le eq).
  destruct (skip_ws s) as [|c s'] eqn:Es; [injection E as <- <-; cbn in *; lia|].
  pose proof (token_lt c s' (skip_ws_head c s s' Es)) as Ht. rewrite E in Ht. cbn [snd] in Ht. cbn in *. lia.
Qed.

(** A token other than the end moves the pointer. *)
Lemma gettoken_lt s t s' : gettoken s = Ok t s' -> fst t <> 0 \/ skip_ws s <> [] -> (length s' < length s)%nat.
Proof.
  unfold gettoken. destruct (token (skip_ws s)) as [tok eq] eqn:E. intros [= <- <-]. cbn [fst]. intros Ht.
  pose proof (skip_ws_le s). pose proof (skip_ws_le eq).
  destruct (skip_ws s) as [|c s0] eqn:Es; [injection E as <- <-; naive_solver|].
  pose proof (token_lt c s0 (skip_ws_head c s s0 Es)) as Hl. rewrite E in Hl. cbn [snd] in Hl. lia.
Qed.

Lemma peek_stops toks s : stops (length s) (peek toks s).
Proof. cbn. apply skip_ws_le. Qed.

Lemma peek_true toks s s' : peek toks s = Ok true s' -> skip_ws s' <> [] /\ (length s' <= length s)%nat.
Proof.
  unfold peek. intros [= H <-]. rewrite skip_ws_clean. pose proof (skip_ws_le s). destruct (skip_ws s); [done|]. done.
Qed.

Lemma parseredirs_stops fuel : forall c s, (length s < fuel)%nat -> stops (length s) (parseredirs c fuel s).
Proof.
  induction fuel as [|fuel IH]; intros c s Hf; [lia|]. cbn [parseredirs].
  apply (stops_bind _ _ _ _ _ (peek_stops _ s)). intros [|] s1 E1 H1; cbn [negb]; [|done].
  apply peek_true in E1 as [Hne _]. apply (stops_bind _ _ _ _ _ (gettoken_stops s1)). intros t s2 E2 H2.
  pose proof (gettoken_lt s1 t s2 E2 (or_intror Hne)). apply (stops_bind _ _ _ _ _ (gettoken_stops s2)). intros f s3 _ H3.
  destruct (negb _); [done|]. cbn zeta. eapply stops_le; [apply IH; lia|lia].
Qed.

Lemma parseargs_stops fuel : forall c n s, (length s < fuel)%nat -> stops (length s) (parseargs c n fuel s).
Proof.
  induction fuel as [|fuel IH]; intros c n s Hf; [lia|]. cbn [parseargs].
  apply (stops_bind _ _ _ _ _ (peek_stops _ s)). intros [|] s1 _ H1; [done|].
  apply (stops_bind _ _ _ _ _ (gettoken_stops s1)). intros t s2 E2 H2.
  destruct (Z.eqb_spec (fst t) 0) as [|Ht]; [cbn; lia|]. destruct (negb _); [done|]. cbn zeta. destruct (_ <=? _)%nat; [done|].
  pose proof (gettoken_lt s1 t s2 E2 (or_introl Ht)). unfold bind at 1, get. cbn [seqr].
  apply (stops_bind (length s2) _ _ _ _ (parseredirs_stops (S (length s2)) _ s2 (Nat.lt_succ_diag_r _))). intros c' s3 _ H3.
  eapply stops_le; [apply IH; lia|lia].
Qed.

Lemma parsebacks_stops fuel : forall c s, (length s < fuel)%nat -> stops (length s) (parsebacks c fuel s).
Proof.
  induction fuel as [|fuel IH]; intros c s Hf; [lia|]. cbn [parsebacks].
  apply (stops_bind _ _ _ _ _ (peek_stops _ s)). intros [|] s1 E1 H1; cbn [negb]; [|done].
  apply peek_true in E1 as [Hne _]. apply (stops_bind _ _ _ _ _ (gettoken_stops s1)). intros t s2 E2 H2.
  pose proof (gettoken_lt s1 t s2 E2 (or_intror Hne)). eapply stops_le; [apply IH; lia|lia].
Qed.

Lemma grammar_stops fuel : forall s,
  ((4 * length s + 4 <= fuel)%nat -> stops (length s) (parseline fuel s)) /\
  ((4 * length s + 3 <= fuel)%nat -> stops (length s) (parsepipe fuel s)) /\
  ((4 * length s + 2 <= fuel)%nat -> stops (length s) (parseexec fuel s)) /\
  ((4 * length s + 1 <= fuel)%nat -> stops (length s) (parseblock fuel s)).
Proof.
  induction fuel as [|fuel IH]; intros s; [lia|]. split; [|split; [|split]]; intros Hf.
  - cbn [parseline]. destruct (IH s) as (_ & Hp & _). apply (stops_bind (length s)); [apply Hp; lia|]. intros c s1 _ H1.
    unfold bind at 1, get. cbn [seqr]. apply (stops_bind (length s1)); [apply parsebacks_stops; lia|]. intros c' s2 _ H2.
    apply (stops_bind _ _ _ _ _ (peek_stops _ s2)). intros [|] s3 E3 H3; cbn [negb]; [|cbn; lia]. apply peek_true in E3 as [Hne _].
    apply (stops_bind _ _ _ _ _ (gettoken_stops s3)). intros t s4 E4 H4. pose proof (gettoken_lt s3 t s4 E4 (or_intror Hne)).
    apply (stops_bind (length s4)); [apply IH; lia|]. intros r s5 _ H5. cbn. lia.
  - cbn [parsepipe]. destruct (IH s) as (_ & _ & Hp & _). apply (stops_bind (length s)); [apply Hp; lia|]. intros c s1 _ H1.
    apply (stops_bind _ _ _ _ _ (peek_stops _ s1)). intros [|] s3 E3 H3; cbn [negb]; [|cbn; lia]. apply peek_true in E3 as [Hne _].
    apply (stops_bind _ _ _ _ _ (gettoken_stops s3)). intros t s4 E4 H4. pose proof (gettoken_lt s3 t s4 E4 (or_intror Hne)).
    apply (stops_bind (length s4)); [apply IH; lia|]. intros r s5 _ H5. cbn. lia.
  - cbn [parseexec]. apply (stops_bind _ _ _ _ _ (peek_stops _ s)). intros [|] s1 _ H1.
    + eapply stops_le; [apply (IH s1); lia|lia].
    + unfold bind at 1, get. cbn [seqr]. apply (stops_bind (length s1)); [apply parseredirs_stops; lia|]. intros c s2 _ H2.
      unfold bind at 1, get. cbn [seqr]. eapply stops_le; [apply parseargs_stops; lia|lia].
  - cbn [parseblock]. apply (stops_bind _ _ _ _ _ (peek_stops _ s)). intros [|] s1 E1 H1; cbn [negb]; [|done].
    apply peek_true in E1 as [Hne _]. apply (stops_bind _ _ _ _ _ (gettoken_stops s1)). intros t s2 E2 H2.
    pose proof (gettoken_lt s1 t s2 E2 (or_intror Hne)). apply (stops_bind (length s2)); [apply IH; lia|]. intros c s3 _ H3.
    apply (stops_bind _ _ _ _ _ (peek_stops _ s3)). intros [|] s4 E4 H4; cbn [negb]; [|done].
    apply (stops_bind _ _ _ _ _ (gettoken_stops s4)). intros t' s5 _ H5. unfold bind at 1, get. cbn [seqr].
    eapply stops_le; [apply parseredirs_stops; lia|lia].
Qed.
