(* ===== verification/ShSpec.v ===== *)
(** The shell's grammar: every command can be written down, and the parser
    reads back what was written. *)

From S2P Require Import Prelude Bytes Fs Sysfile User Utils Sh.
Open Scope Z_scope.
Open Scope xv6_scope.

(** * Commands with their words *)

Inductive ast :=
| AExec (args : list bytes)
| ARedir (a : ast) (file : bytes) (mode fd : Z)
| APipe (l r : ast)
| AList (l r : ast)
| ABack (a : ast).

(** The characters between the two pointers. *)
Definition text (w : word) : bytes := take (length (w_q w) - length (w_eq w)) (w_q w).

Fixpoint ast_of (c : cmd) : ast :=
  match c with
  | EXEC argv => AExec (text <$> argv)
  | REDIR c f m fd => ARedir (ast_of c) (text f) m fd
  | PIPE l r => APipe (ast_of l) (ast_of r)
  | LIST l r => AList (ast_of l) (ast_of r)
  | BACK c => ABack (ast_of c)
  end.

(** Words have no blanks and no symbols; there are at most nine arguments;
    redirections are those the shell knows. *)
Definition plain (c : Z) : Prop := in_str whitespace c = false /\ in_str symbols c = false /\ c <> 0.
Definition word_ok (w : bytes) : Prop := w <> [] /\ Forall plain w.

Fixpoint wf (a : ast) : Prop :=
  match a with
  | AExec args => Forall word_ok args /\ (length args < MAXARGS)%nat
  | ARedir a f m fd => wf a /\ word_ok f /\ (m = O_RDONLY /\ fd = 0 \/ m = Z.lor O_WRONLY O_CREATE /\ fd = 1)
  | APipe l r | AList l r => wf l /\ wf r
  | ABack a => wf a
  end.

(** * Writing *)

Definition SP : Z := 32.
Definition spaced (w : bytes) : bytes := w ++ [SP].
Definition paren (b : bool) (s : bytes) : bytes := if b then [LPAR; SP] ++ s ++ [RPAR; SP] else s.

(** Levels of the grammar: 0 a line, 1 a pipeline with ampersands, 2 a
    pipeline, 3 a simple command or a block. *)
Fixpoint show (lvl : nat) (a : ast) : bytes :=
  match a with
  | AExec args => concat (spaced <$> args)
  | ARedir a f m fd => show 3 a ++ [if fd =? 0 then LT else GT; SP] ++ spaced f
  | APipe l r => paren (2 <? lvl)%nat (show 3 l ++ [BAR; SP] ++ show 2 r)
  | ABack a => paren (1 <? lvl)%nat (show 1 a ++ [AMP; SP])
  | AList l r => paren (0 <? lvl)%nat (show 1 l ++ [SEMI; SP] ++ show 0 r)
  end.

(** * Tokens of a written command *)

Lemma plain_ws c : plain c -> in_str whitespace c = false.
Proof. by intros []. Qed.

Lemma skip_word_stop w s : Forall plain w -> skip_word (w ++ SP :: s) = SP :: s.
Proof.
  induction 1 as [|c w (H1 & H2 & _) _ IH]; [done|]. cbn [app skip_word]. by rewrite H1, H2.
Qed.

(** A rest that begins with no blank. *)
Definition clean (s : bytes) : Prop := skip_ws s = s.

Lemma clean_cons c s : in_str whitespace c = false -> clean (c :: s).
Proof. intros H. unfold clean. cbn. by rewrite H. Qed.

Lemma skip_sp s : clean s -> skip_ws (SP :: s) = s.
Proof. done. Qed.

Lemma plain_not_symbol c : plain c -> forall d, d ∈ symbols -> c <> d.
Proof.
  intros (_ & H & _) d Hd ->. unfold in_str in H. pose proof (strchr_spec symbols d) as Hs. by destruct (strchr symbols d).
Qed.

Lemma gettoken_word w s : word_ok w -> clean s -> gettoken (w ++ SP :: s) = Ok (WORD, Word (w ++ SP :: s) (SP :: s)) s.
Proof.
  intros [Hne Hw] Hs. destruct w as [|c w]; [done|]. apply Forall_cons in Hw as [Hc Hw]. unfold gettoken.
  assert (Hcl : clean ((c :: w) ++ SP :: s)) by (apply clean_cons, Hc). rewrite Hcl.
  assert (Ht : token ((c :: w) ++ SP :: s) = (WORD, SP :: s)).
  { cbn [app]. unfold token. pose proof (plain_not_symbol c Hc) as Hd. unfold symbols in Hd.
    assert (E : (c =? BAR) || (c =? LPAR) || (c =? RPAR) || (c =? SEMI) || (c =? AMP) || (c =? LT) = false).
    { rewrite !orb_false_iff, !Z.eqb_neq. repeat split; apply Hd; apply (bool_decide_unpack (_ ∈ _)); done. }
    rewrite E. rewrite (proj2 (Z.eqb_neq c GT)) by (apply Hd; apply (bool_decide_unpack (_ ∈ _)); done).
    f_equal. apply (skip_word_stop (c :: w)). by apply Forall_cons. }
  rewrite Ht. by rewrite skip_sp.
Qed.

Lemma text_word w s : text (Word (w ++ SP :: s) (SP :: s)) = w.
Proof.
  unfold text. cbn [w_q w_eq]. rewrite length_app. cbn [length]. replace (_ + _ - _)%nat with (length w) by lia. apply take_app_length.
Qed.

Lemma gettoken_sym c s : in_str symbols c = true -> clean s ->
  exists w, gettoken (c :: SP :: s) = Ok (c, w) s.
Proof.
  intros Hc Hs. unfold in_str, symbols, strchr in Hc. eexists. unfold gettoken.
  repeat match type of Hc with context [?x =? c] => destruct (Z.eqb_spec x c); [subst c; cbn; by rewrite Hs|] end. done.
Qed.

Lemma peek_head toks c s : in_str whitespace c = false -> peek toks (c :: s) = Ok (in_str toks c) (c :: s).
Proof. intros H. unfold peek. cbn [skip_ws]. by rewrite H. Qed.

Lemma peek_nil toks : peek toks [] = Ok false [].
Proof. done. Qed.

(** * Fuel *)

(** With the same beginning, one loop is as good as the other. *)
Lemma bind_same {A B} (m : M bytes A) (f g : A -> M bytes B) s :
  stops (length s) (m s) -> (forall a s', m s = Ok a s' -> (length s' <= length s)%nat -> f a s' = g a s') -> bind m f s = bind m g s.
Proof. unfold bind. destruct (m s) as [a s'| | | |]; cbn; try done. intros Hn Hf. by apply Hf. Qed.

Lemma parseredirs_fuel f1 : forall f2 c s, (length s < f1)%nat -> (length s < f2)%nat -> parseredirs c f1 s = parseredirs c f2 s.
Proof.
  induction f1 as [|f1 IH]; intros [|f2] c s H1 H2; try lia. cbn [parseredirs].
  apply bind_same; [apply peek_stops|]. intros [|] s1 E1 L1; cbn [negb]; [|done]. apply peek_true in E1 as [Hne _].
  apply bind_same; [apply gettoken_stops|]. intros t s2 E2 L2. pose proof (gettoken_lt s1 t s2 E2 (or_intror Hne)).
  apply bind_same; [apply gettoken_stops|]. intros f s3 _ L3. destruct (negb _); [done|]. cbn zeta. apply IH; lia.
Qed.

Lemma parseargs_fuel f1 : forall f2 c n s, (length s < f1)%nat -> (length s < f2)%nat -> parseargs c n f1 s = parseargs c n f2 s.
Proof.
  induction f1 as [|f1 IH]; intros [|f2] c n s H1 H2; try lia. cbn [parseargs].
  apply bind_same; [apply peek_stops|]. intros [|] s1 _ L1; [done|].
  apply bind_same; [apply gettoken_stops|]. intros t s2 E2 L2. destruct (Z.eqb_spec (fst t) 0) as [|Ht]; [done|].
  pose proof (gettoken_lt s1 t s2 E2 (or_introl Ht)). destruct (negb _); [done|]. cbn zeta. destruct (_ <=? _)%nat; [done|].
  unfold bind at 1 3, get. cbn [seqr]. apply bind_same; [apply parseredirs_stops; lia|]. intros c' s3 _ L3. apply IH; lia.
Qed.

Lemma parsebacks_fuel f1 : forall f2 c s, (length s < f1)%nat -> (length s < f2)%nat -> parsebacks c f1 s = parsebacks c f2 s.
Proof.
  induction f1 as [|f1 IH]; intros [|f2] c s H1 H2; try lia. cbn [parsebacks].
  apply bind_same; [apply peek_stops|]. intros [|] s1 E1 L1; cbn [negb]; [|done]. apply peek_true in E1 as [Hne _].
  apply bind_same; [apply gettoken_stops|]. intros t s2 E2 L2. pose proof (gettoken_lt s1 t s2 E2 (or_intror Hne)). apply IH; lia.
Qed.

(** * Redirections and arguments *)

(** One redirection. *)
Lemma redir_step c f m fd s : word_ok f -> clean s -> m = O_RDONLY /\ fd = 0 \/ m = Z.lor O_WRONLY O_CREATE /\ fd = 1 ->
  let s0 := [if fd =? 0 then LT else GT; SP] ++ spaced f ++ s in
  exists w, text w = f /\ parseredirs c (S (length s0)) s0 = parseredirs (REDIR c w m fd) (S (length s)) s.
Proof.
  intros Hf Hs Hm s0. exists (Word (f ++ SP :: s) (SP :: s)). split; [apply text_word|].
  set (k := if fd =? 0 then LT else GT). assert (Hk : in_str symbols k = true /\ in_str whitespace k = false /\ in_str [LT; GT] k = true).
  { unfold k. by destruct (fd =? 0). }
  destruct Hk as (Hk1 & Hk2 & Hk3). assert (E0 : s0 = k :: SP :: (f ++ SP :: s)) by (unfold s0, spaced; by rewrite <- app_assoc).
  assert (Hcl : clean (f ++ SP :: s)) by (destruct Hf as [? Hp]; destruct f; [done|]; apply Forall_cons in Hp as [Hp _]; apply clean_cons, Hp).
  rewrite E0. set (K := parseredirs (REDIR c _ m fd) _ s). cbn [parseredirs]. rewrite (bind_ok _ _ _ _ _ (peek_head _ k _ Hk2)), Hk3. cbn [negb].
  destruct (gettoken_sym k _ Hk1 Hcl) as [w0 Ew]. rewrite (bind_ok _ _ _ _ _ Ew), (bind_ok _ _ _ _ _ (gettoken_word f s Hf Hs)).
  cbn [fst snd]. rewrite Z.eqb_refl. cbn [negb]. unfold k, K.
  destruct Hm as [[-> ->]|[-> ->]]; cbn [Z.eqb Pos.eqb LT GT]; apply parseredirs_fuel; cbn [length]; rewrite ?length_app; cbn [length]; lia.
Qed.

(** Nothing to redirect. *)
Definition stop_at (toks : bytes) (s : bytes) : Prop := s = [] \/ exists c s', s = c :: s' /\ c ∈ toks.

Lemma stop_clean toks s : toks ⊆ symbols -> stop_at toks s -> clean s.
Proof.
  intros Ht [->|(c & s' & -> & Hc)]; [done|]. apply clean_cons. apply Ht in Hc. unfold symbols in Hc.
  repeat (apply elem_of_cons in Hc as [->|Hc]; [done|]). by apply elem_of_nil in Hc.
Qed.

Lemma in_str_elem l c : in_str l c = true <-> c ∈ l.
Proof.
  unfold in_str. pose proof (strchr_spec l c) as Hs. destruct (strchr l c) as [q|]; [|done].
  destruct Hs as (p & -> & _ & Hq). destruct q; [done|]. injection Hq as ->. set_solver.
Qed.

(** What may follow a command, and a command with its redirections. *)
Definition FOLLOW : bytes := [BAR; RPAR; AMP; SEMI].
Definition CLOSERS : bytes := [BAR; RPAR; AMP; SEMI; LT; GT].

Lemma stop_weaken toks toks' s : toks ⊆ toks' -> stop_at toks s -> stop_at toks' s.
Proof. intros Hs [->|(c & s' & -> & Hc)]; [by left|right]. exists c, s'. split; [done|]. by apply Hs. Qed.

Lemma stop_cons toks c s : c ∈ toks -> stop_at toks (c :: s).
Proof. intros. right. eauto. Qed.

(** Decisions on concrete token lists. *)
Ltac decide_tokens := by apply (bool_decide_unpack _).

Lemma closers_clean s : stop_at CLOSERS s -> clean s.
Proof. apply stop_clean. decide_tokens. Qed.

Lemma follow_closers s : stop_at FOLLOW s -> stop_at CLOSERS s.
Proof. apply stop_weaken. decide_tokens. Qed.

(** Peeking at what follows. *)
Lemma peek_stop toks toks' s : toks' ⊆ symbols -> stop_at toks' s -> (forall c, c ∈ toks' -> in_str toks c = false) -> peek toks s = Ok false s.
Proof.
  intros Hs Hst Hd. pose proof (stop_clean _ _ Hs Hst) as Hc. destruct Hst as [->|(c & s' & -> & Hin)]; [done|].
  unfold peek. rewrite Hc. by rewrite Hd.
Qed.

Lemma redirs_stop c s : stop_at FOLLOW s -> parseredirs c (S (length s)) s = Ok c s.
Proof.
  intros Hs. cbn [parseredirs]. rewrite (bind_ok _ _ _ _ _ (peek_stop [LT; GT] FOLLOW s ltac:(decide_tokens) Hs ltac:(apply Forall_forall; repeat constructor))).
  done.
Qed.

Lemma args_stop c n s : stop_at FOLLOW s -> parseargs c n (S (length s)) s = Ok c s.
Proof.
  intros Hs. cbn [parseargs]. destruct Hs as [->|(d & s' & -> & Hd)]; [done|].
  assert (Hw : in_str whitespace d = false) by (revert d Hd; apply Forall_forall; repeat constructor).
  rewrite (bind_ok _ _ _ _ _ (peek_head _ d s' Hw)). change [BAR; RPAR; AMP; SEMI] with FOLLOW.
  by rewrite (proj2 (in_str_elem FOLLOW d) Hd).
Qed.

(** The rest of [parseexec] and of [parseblock] once the command itself has
    been read. *)
Definition after (n : option nat) (c : cmd) : M bytes cmd := fun s =>
  match n with
  | None => parseredirs c (S (length s)) s
  | Some n => (c <- parseredirs c (S (length s)) ;; s <- get ;; parseargs c n (S (length s))) s
  end.

Fixpoint nargs (a : ast) : option nat :=
  match a with
  | AExec args => Some (length args)
  | ARedir a _ _ _ => nargs a
  | _ => None
  end.

Lemma after_stop n c s : stop_at FOLLOW s -> after n c s = Ok c s.
Proof.
  intros Hs. unfold after. destruct n as [n|]; [|by apply redirs_stop].
  rewrite (bind_ok _ _ _ _ _ (redirs_stop c s Hs)). unfold bind, get. cbn [seqr]. by apply args_stop.
Qed.

Lemma after_redir n c f m fd s : word_ok f -> stop_at CLOSERS s -> m = O_RDONLY /\ fd = 0 \/ m = Z.lor O_WRONLY O_CREATE /\ fd = 1 ->
  exists w, text w = f /\ after n c ([if fd =? 0 then LT else GT; SP] ++ spaced f ++ s) = after n (REDIR c w m fd) s.
Proof.
  intros Hf Hs Hm. destruct (redir_step c f m fd s Hf (closers_clean s Hs) Hm) as (w & Hw & E). exists w. split; [done|].
  unfold after. destruct n as [n|]; [|exact E]. unfold bind. by rewrite E.
Qed.

Lemma word_clean w s : word_ok w -> clean (w ++ s).
Proof. intros [Hne Hw]. destruct w; [done|]. apply Forall_cons in Hw as [Hw _]. apply clean_cons, Hw. Qed.

Lemma word_peek toks w s : word_ok w -> toks ⊆ symbols -> peek toks (w ++ s) = Ok false (w ++ s).
Proof.
  intros [Hne Hw] Ht. destruct w as [|c w]; [done|]. apply Forall_cons in Hw as [Hc Hw]. cbn [app].
  rewrite (peek_head _ c _ (plain_ws _ Hc)). f_equal. apply not_true_is_false. intros Hin%in_str_elem.
  by apply (plain_not_symbol c Hc c); [apply Ht|].
Qed.

(** One argument. *)
Lemma after_arg ws w s : word_ok w -> clean s -> (S (length ws) < MAXARGS)%nat ->
  exists w', text w' = w /\ after (Some (length ws)) (EXEC ws) (spaced w ++ s) = after (Some (S (length ws))) (EXEC (ws ++ [w'])) s.
Proof.
  intros Hw Hs Hn. exists (Word (w ++ SP :: s) (SP :: s)). split; [apply text_word|].
  unfold spaced. rewrite <- app_assoc. cbn [app]. set (s0 := w ++ SP :: s). set (w' := Word s0 (SP :: s)).
  assert (Hp : parseredirs (EXEC ws) (S (length s0)) s0 = Ok (EXEC ws) s0).
  { cbn [parseredirs]. unfold s0. by rewrite (bind_ok _ _ _ _ _ (word_peek [LT; GT] w (SP :: s) Hw ltac:(decide_tokens))). }
  unfold after at 1. rewrite (bind_ok _ _ _ _ _ Hp). unfold bind at 1, get at 1. cbn [seqr]. cbn [parseargs]. unfold s0 at 2.
  rewrite (bind_ok _ _ _ _ _ (word_peek FOLLOW w (SP :: s) Hw ltac:(decide_tokens))).
  rewrite (bind_ok _ _ _ _ _ (gettoken_word w s Hw Hs)). cbn [fst snd]. cbn [Z.eqb Pos.eqb WORD negb]. fold s0 w'.
  rewrite (proj2 (Nat.leb_gt MAXARGS (S (length ws)))) by lia. unfold bind at 1, get at 1. cbn [seqr add_arg]. unfold after.
  apply bind_same; [apply parseredirs_stops; lia|]. intros c s1 _ H1. unfold bind, get. cbn [seqr].
  apply parseargs_fuel; [|lia]. unfold s0. rewrite length_app. cbn. lia.
Qed.

Lemma args_clean args s : Forall word_ok args -> clean s -> clean (concat (spaced <$> args) ++ s).
Proof.
  intros Ha Hs. destruct args as [|w args]; [done|]. apply Forall_cons in Ha as [Hw _]. cbn [fmap list_fmap concat].
  unfold spaced at 1. rewrite <- !app_assoc. by apply word_clean.
Qed.

Lemma after_args args : forall ws s, Forall word_ok args -> (length ws + length args < MAXARGS)%nat -> clean s ->
  exists ws', text <$> ws' = args /\
    after (Some (length ws)) (EXEC ws) (concat (spaced <$> args) ++ s) = after (Some (length ws + length args)%nat) (EXEC (ws ++ ws')) s.
Proof.
  induction args as [|w args IH]; intros ws s Ha Hn Hs; cbn [fmap list_fmap concat length] in *.
  - exists []. split; [done|]. by rewrite Nat.add_0_r, app_nil_r.
  - apply Forall_cons in Ha as [Hw Ha]. rewrite <- app_assoc.
    destruct (after_arg ws w (concat (spaced <$> args) ++ s) Hw (args_clean _ _ Ha Hs) ltac:(lia)) as (w' & Ew & ->).
    destruct (IH (ws ++ [w']) s Ha) as (ws' & Ews & E); [rewrite length_app; cbn; lia|done|].
    exists (w' :: ws'). split; [cbn; by rewrite Ew, Ews|]. rewrite length_app in E. cbn [length] in E.
    rewrite Nat.add_1_r in E. rewrite E. rewrite <- app_assoc. cbn [app]. f_equal. f_equal. lia.
Qed.

(** * The levels of the grammar *)

Definition exec_ok (a : ast) : Prop := forall s fuel, stop_at CLOSERS s -> (4 * length (show 3 a ++ s) + 2 <= fuel)%nat ->
  exists c, ast_of c = a /\ parseexec fuel (show 3 a ++ s) = after (nargs a) c s.

Definition pipe_ok (a : ast) : Prop := forall s fuel, stop_at [RPAR; AMP; SEMI] s -> (4 * length (show 2 a ++ s) + 3 <= fuel)%nat ->
  exists c, ast_of c = a /\ parsepipe fuel (show 2 a ++ s) = Ok c s.

Definition back_ok (a : ast) : Prop := forall s fuel, stop_at [RPAR; AMP; SEMI] s -> (4 * length (show 1 a ++ s) + 3 <= fuel)%nat ->
  exists c, ast_of c = a /\
    (c <- parsepipe fuel ;; s <- get ;; parsebacks c (S (length s))) (show 1 a ++ s) = parsebacks c (S (length s)) s.

Definition line_ok (a : ast) : Prop := forall s fuel, stop_at [RPAR] s -> (4 * length (show 0 a ++ s) + 4 <= fuel)%nat ->
  exists c, ast_of c = a /\ parseline fuel (show 0 a ++ s) = Ok c s.

Lemma exec_pipe a : show 2 a = show 3 a -> exec_ok a -> pipe_ok a.
Proof.
  intros Es He s fuel Hs Hf. rewrite Es in *. destruct fuel as [|fuel]; [lia|].
  destruct (He s fuel) as (c & Ec & E); [eapply stop_weaken; [|done]; decide_tokens|lia|]. exists c. split; [done|].
  cbn [parsepipe]. rewrite after_stop in E by (eapply stop_weaken; [|done]; decide_tokens). rewrite (bind_ok _ _ _ _ _ E).
  rewrite (bind_ok _ _ _ _ _ (peek_stop [BAR] [RPAR; AMP; SEMI] s ltac:(decide_tokens) Hs ltac:(apply Forall_forall; repeat constructor))).
  done.
Qed.

Lemma pipe_back a : show 1 a = show 2 a -> pipe_ok a -> back_ok a.
Proof.
  intros Es Hp s fuel Hs Hf. rewrite Es in *. destruct (Hp s fuel Hs Hf) as (c & Ec & E). exists c. split; [done|].
  by rewrite (bind_ok _ _ _ _ _ E).
Qed.

Lemma backs_stop c s : stop_at [RPAR; SEMI] s -> parsebacks c (S (length s)) s = Ok c s.
Proof.
  intros Hs. cbn [parsebacks].
  by rewrite (bind_ok _ _ _ _ _ (peek_stop [AMP] [RPAR; SEMI] s ltac:(decide_tokens) Hs ltac:(apply Forall_forall; repeat constructor))).
Qed.

(** The beginning of [parseline], up to the semicolon. *)
Lemma line_backs a s fuel : back_ok a -> stop_at [RPAR; SEMI] s -> (4 * length (show 1 a ++ s) + 3 <= fuel)%nat ->
  exists c, ast_of c = a /\ forall (k : cmd -> M bytes cmd),
    (c <- parsepipe fuel ;; s <- get ;; c <- parsebacks c (S (length s)) ;; k c) (show 1 a ++ s) = k c s.
Proof.
  intros Hb Hs Hf. destruct (Hb s fuel) as (c & Ec & E); [eapply stop_weaken; [|done]; decide_tokens|done|].
  rewrite backs_stop in E by done. exists c. split; [done|]. intros k.
  apply bind_ok_inv in E as (c1 & s1 & E1 & E2). rewrite (bind_ok _ _ _ _ _ E1). unfold bind, get in E2. cbn [seqr] in E2.
  unfold bind at 1, get at 1. cbn [seqr]. by rewrite (bind_ok _ _ _ _ _ E2).
Qed.

Lemma back_line a : show 0 a = show 1 a -> back_ok a -> line_ok a.
Proof.
  intros Es Hb s fuel Hs Hf. rewrite Es in *. destruct fuel as [|fuel]; [lia|].
  destruct (line_backs a s fuel Hb) as (c & Ec & E); [eapply stop_weaken; [|done]; decide_tokens|lia|]. exists c. split; [done|].
  cbn [parseline]. rewrite E.
  by rewrite (bind_ok _ _ _ _ _ (peek_stop [SEMI] [RPAR] s ltac:(decide_tokens) Hs ltac:(apply Forall_forall; repeat constructor))).
Qed.

Lemma show_clean a : forall lvl s, wf a -> stop_at CLOSERS s -> clean (show lvl a ++ s).
Proof.
  induction a as [args|a IH f m fd|l IHl r IHr|l IHl r IHr|a IH]; intros lvl s Hw Hs; cbn [show wf] in *.
  - apply args_clean; [apply Hw|by apply closers_clean].
  - rewrite <- app_assoc. apply IH; [apply Hw|]. cbn [app]. apply stop_cons. destruct (fd =? 0); decide_tokens.
  - unfold paren. destruct (2 <? lvl)%nat; [done|]. rewrite <- app_assoc. apply IHl; [apply Hw|]. apply stop_cons. decide_tokens.
  - unfold paren. destruct (0 <? lvl)%nat; [done|]. rewrite <- app_assoc. apply IHl; [apply Hw|]. apply stop_cons. decide_tokens.
  - unfold paren. destruct (1 <? lvl)%nat; [done|]. rewrite <- app_assoc. apply IH; [apply Hw|]. apply stop_cons. decide_tokens.
Qed.

Lemma line_exec a : show 3 a = paren true (show 0 a) -> nargs a = None -> wf a -> line_ok a -> exec_ok a.
Proof.
  intros Es Hn Hw Hl s fuel Hs Hf. rewrite Es, Hn in *. unfold paren in *. rewrite <- !app_assoc in *. cbn [app] in *.
  set (s1 := RPAR :: SP :: s) in *. assert (H1 : stop_at [RPAR] s1) by (apply stop_cons; decide_tokens).
  destruct fuel as [|[|fuel]]; [lia|lia|]. cbn [length] in Hf.
  destruct (Hl s1 fuel H1 ltac:(lia)) as (c & Ec & E). exists c. split; [done|].
  set (s0 := LPAR :: SP :: show 0 a ++ s1) in *. assert (Ep : peek [LPAR] s0 = Ok true s0) by done.
  cbn [parseexec]. rewrite (bind_ok _ _ _ _ _ Ep). cbn [parseblock]. rewrite (bind_ok _ _ _ _ _ Ep). cbn [negb].
  destruct (gettoken_sym LPAR (show 0 a ++ s1)) as [w Ew]; [done|apply show_clean; [done|]; apply stop_cons; decide_tokens|].
  rewrite (bind_ok _ _ _ _ _ Ew), (bind_ok _ _ _ _ _ E).
  assert (Eq : peek [RPAR] s1 = Ok true s1) by done. rewrite (bind_ok _ _ _ _ _ Eq). cbn [negb].
  destruct (gettoken_sym RPAR s) as [w' Ew']; [done|by apply closers_clean|]. by rewrite (bind_ok _ _ _ _ _ Ew').
Qed.

Lemma exec_args args : Forall word_ok args -> (length args < MAXARGS)%nat -> exec_ok (AExec args).
Proof.
  intros Ha Hn s fuel Hs Hf. cbn [show nargs] in *. destruct fuel as [|fuel]; [lia|].
  destruct (after_args args [] s Ha Hn (closers_clean s Hs)) as (ws & Ews & E). exists (EXEC ws). split; [cbn; by rewrite Ews|].
  cbn [length Nat.add app] in E. rewrite <- E. set (s0 := concat (spaced <$> args) ++ s).
  assert (Ep : peek [LPAR] s0 = Ok false s0).
  { unfold s0. destruct args as [|w args].
    - apply (peek_stop _ CLOSERS); [decide_tokens|done|apply Forall_forall; repeat constructor].
    - apply Forall_cons in Ha as [Hw _]. cbn [fmap list_fmap concat]. unfold spaced at 1 3. rewrite <- !app_assoc.
      apply word_peek; [done|decide_tokens]. }
  cbn [parseexec]. rewrite (bind_ok _ _ _ _ _ Ep). unfold after. unfold bind at 1, get at 1. cbn [seqr]. done.
Qed.

Lemma exec_redir a f m fd : wf (ARedir a f m fd) -> exec_ok a -> exec_ok (ARedir a f m fd).
Proof.
  intros (Hw & Hf & Hm) Ha s fuel Hs Hfuel. cbn [show nargs] in *. rewrite <- !app_assoc in *.
  destruct (Ha ([if fd =? 0 then LT else GT; SP] ++ spaced f ++ s) fuel) as (c & Ec & E).
  { cbn [app]. apply stop_cons. destruct (fd =? 0); decide_tokens. }
  { done. }
  destruct (after_redir (nargs a) c f m fd s Hf Hs Hm) as (w & Ew & E'). exists (REDIR c w m fd).
  split; [cbn; by rewrite Ec, Ew|]. by rewrite E, E'.
Qed.

Lemma pipe_pipe l r : wf (APipe l r) -> exec_ok l -> pipe_ok r -> pipe_ok (APipe l r).
Proof.
  intros [Hwl Hwr] Hl Hr s fuel Hs Hf. cbn [show] in *. unfold paren in *. cbn [Nat.ltb Nat.leb] in *. rewrite <- !app_assoc in *.
  destruct fuel as [|fuel]; [lia|]. cbn [app] in *. set (s1 := BAR :: SP :: show 2 r ++ s) in *.
  assert (H1 : stop_at [BAR] s1) by (apply stop_cons; decide_tokens). rewrite length_app in Hf.
  destruct (Hl s1 fuel) as (c & Ec & E); [eapply stop_weaken; [|done]; decide_tokens|rewrite length_app; lia|].
  rewrite after_stop in E by (eapply stop_weaken; [|done]; decide_tokens).
  destruct (Hr s fuel Hs) as (c' & Ec' & E'); [unfold s1 in Hf; cbn [length] in Hf; lia|].
  exists (PIPE c c'). split; [cbn; by rewrite Ec, Ec'|]. cbn [parsepipe]. rewrite (bind_ok _ _ _ _ _ E).
  assert (Ep : peek [BAR] s1 = Ok true s1) by done. rewrite (bind_ok _ _ _ _ _ Ep). cbn [negb].
  destruct (gettoken_sym BAR (show 2 r ++ s)) as [w Ew]; [done|apply show_clean; [done|]; eapply stop_weaken; [|done]; decide_tokens|].
  by rewrite (bind_ok _ _ _ _ _ Ew), (bind_ok _ _ _ _ _ E').
Qed.

Lemma back_back a : wf a -> back_ok a -> back_ok (ABack a).
Proof.
  intros Hw Ha s fuel Hs Hf. cbn [show] in *. unfold paren in *. cbn [Nat.ltb Nat.leb] in *. rewrite <- !app_assoc in *.
  cbn [app] in *. set (s1 := AMP :: SP :: s) in *. destruct (Ha s1 fuel) as (c & Ec & E); [apply stop_cons; decide_tokens|done|].
  exists (BACK c). split; [cbn; by rewrite Ec|]. rewrite E. set (K := parsebacks (BACK c) _ s). cbn [parsebacks].
  assert (Ep : peek [AMP] s1 = Ok true s1) by done. rewrite (bind_ok _ _ _ _ _ Ep). cbn [negb].
  destruct (gettoken_sym AMP s) as [w Ew]; [done|eapply stop_clean; [|done]; decide_tokens|].
  rewrite (bind_ok _ _ _ _ _ Ew). unfold K. apply parsebacks_fuel; [cbn; lia|lia].
Qed.

Lemma line_list l r : wf (AList l r) -> back_ok l -> line_ok r -> line_ok (AList l r).
Proof.
  intros [Hwl Hwr] Hl Hr s fuel Hs Hf. cbn [show] in *. unfold paren in *. cbn [Nat.ltb Nat.leb] in *. rewrite <- !app_assoc in *.
  destruct fuel as [|fuel]; [lia|]. cbn [app] in *. set (s1 := SEMI :: SP :: show 0 r ++ s) in *. rewrite length_app in Hf.
  destruct (line_backs l s1 fuel Hl) as (c & Ec & E); [apply stop_cons; decide_tokens|rewrite length_app; lia|].
  destruct (Hr s fuel Hs) as (c' & Ec' & E'); [unfold s1 in Hf; cbn [length] in Hf; lia|].
  exists (LIST c c'). split; [cbn; by rewrite Ec, Ec'|]. cbn [parseline]. rewrite E.
  assert (Ep : peek [SEMI] s1 = Ok true s1) by done. rewrite (bind_ok _ _ _ _ _ Ep). cbn [negb].
  destruct (gettoken_sym SEMI (show 0 r ++ s)) as [w Ew]; [done|apply show_clean; [done|]; eapply stop_weaken; [|done]; decide_tokens|].
  by rewrite (bind_ok _ _ _ _ _ Ew), (bind_ok _ _ _ _ _ E').
Qed.

Lemma grammar_ok a : wf a -> exec_ok a /\ pipe_ok a /\ back_ok a /\ line_ok a.
Proof.
  induction a as [args|a IH f m fd|l IHl r IHr|l IHl r IHr|a IH]; intros Hw.
  - assert (He : exec_ok (AExec args)) by (apply exec_args; apply Hw). pose proof (exec_pipe (AExec args) eq_refl He) as Hp.
    pose proof (pipe_back (AExec args) eq_refl Hp) as Hb. by pose proof (back_line (AExec args) eq_refl Hb).
  - assert (He : exec_ok (ARedir a f m fd)) by (apply exec_redir; [done|]; apply IH, Hw). pose proof (exec_pipe (ARedir a f m fd) eq_refl He) as Hp.
    pose proof (pipe_back (ARedir a f m fd) eq_refl Hp) as Hb. by pose proof (back_line (ARedir a f m fd) eq_refl Hb).
  - assert (Hp : pipe_ok (APipe l r)) by (apply pipe_pipe; [done|apply IHl, Hw|apply IHr, Hw]).
    pose proof (pipe_back (APipe l r) eq_refl Hp) as Hb. pose proof (back_line (APipe l r) eq_refl Hb) as Hl. by pose proof (line_exec (APipe l r) eq_refl eq_refl Hw Hl).
  - assert (Hl : line_ok (AList l r)) by (apply line_list; [done|apply IHl, Hw|apply IHr, Hw]).
    pose proof (line_exec (AList l r) eq_refl eq_refl Hw Hl) as He. pose proof (exec_pipe (AList l r) eq_refl He) as Hp. by pose proof (pipe_back (AList l r) eq_refl Hp).
  - assert (Hb : back_ok (ABack a)) by (apply back_back; [done|]; by apply IH). pose proof (back_line (ABack a) eq_refl Hb) as Hl.
    pose proof (line_exec (ABack a) eq_refl eq_refl Hw Hl) as He. by pose proof (exec_pipe (ABack a) eq_refl He).
Qed.

(** * The words in the buffer *)

Fixpoint all_words (c : cmd) : list word :=
  match c with
  | EXEC argv => argv
  | REDIR c f _ _ => f :: all_words c
  | PIPE l r | LIST l r => all_words l ++ all_words r
  | BACK c => all_words c
  end.

(** A word of the line: plain characters, up to one that is not. *)
Record word_at (line : bytes) (w : word) : Prop := {
  wa_q : w_q w = text w ++ w_eq w;
  wa_line : w_q w `suffix_of` line;
  wa_plain : Forall plain (text w);
  wa_end : w_eq w = [] \/ exists c s, w_eq w = c :: s /\ ~ plain c
}.

(** Whatever the parser returns satisfies [Q]. *)
Definition yields {A} (Q : A -> bytes -> Prop) (r : result bytes A) : Prop :=
  match r with Ok a s => Q a s | Switch _ _ => False | _ => True end.

Lemma yields_bind {A B} (P : A -> bytes -> Prop) Q (m : M bytes A) (f : A -> M bytes B) s :
  yields P (m s) -> (forall a s', m s = Ok a s' -> P a s' -> yields Q (f a s')) -> yields Q (bind m f s).
Proof. unfold bind. destruct (m s) as [a s'| | | |]; cbn; try done. intros Hp Hf. by apply Hf. Qed.

Lemma skip_ws_suffix s : skip_ws s `suffix_of` s.
Proof. induction s as [|c s IH]; cbn; [done|]. destruct (in_str whitespace c); [by apply suffix_cons_r|done]. Qed.

Lemma skip_word_split s : Forall (fun c => c <> 0) s ->
  exists w, s = w ++ skip_word s /\ Forall plain w /\ (skip_word s = [] \/ exists c s', skip_word s = c :: s' /\ ~ plain c).
Proof.
  induction 1 as [|c s Hc Hs IH]; [exists []; auto|]. cbn [skip_word].
  destruct (in_str whitespace c) eqn:E1; cbn [negb andb].
  { exists []. split; [done|]. split; [done|]. right. exists c, s. split; [done|]. intros (? & _). congruence. }
  destruct (in_str symbols c) eqn:E2; cbn [negb].
  { exists []. split; [done|]. split; [done|]. right. exists c, s. split; [done|]. intros (_ & ? & _). congruence. }
  destruct IH as (w & Es & Hw & He). exists (c :: w). split; [cbn; by rewrite <- Es|]. split; [by constructor|done].
Qed.

Section line.
Context (line : bytes) (Hz : Forall (fun c => c <> 0) line).

Lemma suffix_nonzero s : s `suffix_of` line -> Forall (fun c => c <> 0) s.
Proof using Hz. intros [p E]. rewrite E in Hz. by apply Forall_app in Hz as [_ ?]. Qed.

(** A word token delimits a word; the pointer stays inside the line. *)
Lemma gettoken_yields s : s `suffix_of` line ->
  yields (fun t s' => s' `suffix_of` line /\ (fst t = WORD -> word_at line (snd t))) (gettoken s).
Proof using Hz.
  intros Hs. unfold gettoken. destruct (token (skip_ws s)) as [tok eq] eqn:E. cbn [yields fst snd].
  assert (Hq : skip_ws s `suffix_of` line) by (etrans; [apply skip_ws_suffix|done]).
  assert (He : eq `suffix_of` skip_ws s /\ (tok = WORD -> eq = skip_word (skip_ws s))).
  { unfold token in E. destruct (skip_ws s) as [|c q]; [by injection E as <- <-|].
    destruct (_ || _) eqn:Ec; [injection E as <- <-; split; [by apply suffix_cons_r|intros ->; discriminate Ec]|].
    destruct (c =? GT); [|injection E as <- <-; split; [|done]].
    - destruct q as [|d q]; [injection E as <- <-; split; [by apply suffix_cons_r|done]|].
      destruct (d =? GT); injection E as <- <-; split; try done; [by do 2 apply suffix_cons_r|by apply suffix_cons_r].
    - destruct (skip_word_split (c :: q) (suffix_nonzero _ Hq)) as (w & Ew & _). by exists w. }
  destruct He as [He1 He2]. split; [etrans; [apply skip_ws_suffix|]; by etrans|]. intros ->. specialize (He2 eq_refl). subst eq.
  destruct (skip_word_split (skip_ws s) (suffix_nonzero _ Hq)) as (w & Ew & Hw & Hend).
  assert (Et : text (Word (skip_ws s) (skip_word (skip_ws s))) = w).
  { unfold text. cbn [w_q w_eq]. rewrite Ew at 1 3. rewrite length_app. replace (_ + _ - _)%nat with (length w) by lia. apply take_app_length. }
  constructor; cbn [w_q w_eq]; rewrite ?Et; done.
Qed.

Lemma peek_yields toks s : s `suffix_of` line -> yields (fun _ s' => s' `suffix_of` line) (peek toks s).
Proof. intros Hs. cbn. etrans; [apply skip_ws_suffix|done]. Qed.

Definition parsed (c : cmd) (s : bytes) : Prop := s `suffix_of` line /\ Forall (word_at line) (all_words c).

Lemma parseredirs_yields fuel : forall c s, parsed c s -> yields parsed (parseredirs c fuel s).
Proof using Hz.
  induction fuel as [|fuel IH]; intros c s [Hs Hc]; [done|]. cbn [parseredirs].
  apply (yields_bind _ _ _ _ _ (peek_yields _ s Hs)). intros b s1 _ H1. destruct (negb b); [done|].
  apply (yields_bind _ _ _ _ _ (gettoken_yields s1 H1)). intros t s2 _ [H2 _].
  apply (yields_bind _ _ _ _ _ (gettoken_yields s2 H2)). intros f s3 _ [H3 Hf]. destruct (Z.eqb_spec (fst f) WORD) as [E|]; [|done].
  cbn [negb]. apply IH. split; [done|]. repeat case_match; cbn; auto.
Qed.

Lemma add_arg_words w c : Forall (word_at line) (all_words c) -> word_at line w -> Forall (word_at line) (all_words (add_arg w c)).
Proof.
  intros Hc Hw. induction c as [argv|c IH f m fd| | |]; cbn in *; try done.
  - apply Forall_app. split; [done|]. by constructor.
  - apply Forall_cons in Hc as [Hf Hc]. constructor; auto.
Qed.

Lemma parseargs_yields fuel : forall c n s, parsed c s -> yields parsed (parseargs c n fuel s).
Proof using Hz.
  induction fuel as [|fuel IH]; intros c n s [Hs Hc]; [done|]. cbn [parseargs].
  apply (yields_bind _ _ _ _ _ (peek_yields _ s Hs)). intros b s1 _ H1. destruct b; [done|].
  apply (yields_bind _ _ _ _ _ (gettoken_yields s1 H1)). intros t s2 _ [H2 Ht]. destruct (_ =? 0); [done|].
  destruct (Z.eqb_spec (fst t) WORD) as [E|]; [|done]. cbn [negb]. cbn zeta. destruct (_ <=? _)%nat; [done|].
  unfold bind at 1, get. cbn [seqr].
  apply (yields_bind parsed); [apply parseredirs_yields; split; [done|]; apply add_arg_words; auto|]. intros c' s3 _ H3. by apply IH.
Qed.

Lemma parsebacks_yields fuel : forall c s, parsed c s -> yields parsed (parsebacks c fuel s).
Proof using Hz.
  induction fuel as [|fuel IH]; intros c s [Hs Hc]; [done|]. cbn [parsebacks].
  apply (yields_bind _ _ _ _ _ (peek_yields _ s Hs)). intros b s1 _ H1. destruct (negb b); [done|].
  apply (yields_bind _ _ _ _ _ (gettoken_yields s1 H1)). intros t s2 _ [H2 _]. by apply IH.
Qed.

Lemma grammar_yields fuel : forall s, s `suffix_of` line ->
  yields parsed (parseline fuel s) /\ yields parsed (parsepipe fuel s) /\ yields parsed (parseexec fuel s) /\ yields parsed (parseblock fuel s).
Proof using Hz.
  induction fuel as [|fuel IH]; intros s Hs; [done|]. split; [|split; [|split]].
  - cbn [parseline]. apply (yields_bind parsed); [by apply IH|]. intros c s1 _ H1. unfold bind at 1, get. cbn [seqr].
    apply (yields_bind parsed); [by apply parsebacks_yields|]. intros c' s2 _ [H2 Hc]. apply (yields_bind _ _ _ _ _ (peek_yields _ s2 H2)).
    intros b s3 _ H3. destruct (negb b); [done|]. apply (yields_bind _ _ _ _ _ (gettoken_yields s3 H3)). intros t s4 _ [H4 _].
    apply (yields_bind parsed); [by apply IH|]. intros r s5 _ [H5 Hr]. split; [done|]. by apply Forall_app.
  - cbn [parsepipe]. apply (yields_bind parsed); [by apply IH|]. intros c s1 _ [H1 Hc]. apply (yields_bind _ _ _ _ _ (peek_yields _ s1 H1)).
    intros b s3 _ H3. destruct (negb b); [done|]. apply (yields_bind _ _ _ _ _ (gettoken_yields s3 H3)). intros t s4 _ [H4 _].
    apply (yields_bind parsed); [by apply IH|]. intros r s5 _ [H5 Hr]. split; [done|]. by apply Forall_app.
  - cbn [parseexec]. apply (yields_bind _ _ _ _ _ (peek_yields _ s Hs)). intros [|] s1 _ H1; [by apply IH|].
    unfold bind at 1, get. cbn [seqr]. apply (yields_bind parsed); [by apply parseredirs_yields|]. intros c s2 _ H2.
    unfold bind at 1, get. cbn [seqr]. by apply parseargs_yields.
  - cbn [parseblock]. apply (yields_bind _ _ _ _ _ (peek_yields _ s Hs)). intros b s1 _ H1. destruct (negb b); [done|].
    apply (yields_bind _ _ _ _ _ (gettoken_yields s1 H1)). intros t s2 _ [H2 _]. apply (yields_bind parsed); [by apply IH|].
    intros c s3 _ [H3 Hc]. apply (yields_bind _ _ _ _ _ (peek_yields _ s3 H3)). intros b' s4 _ H4. destruct (negb b'); [done|].
    apply (yields_bind _ _ _ _ _ (gettoken_yields s4 H4)). intros t' s5 _ [H5 _]. unfold bind at 1, get. cbn [seqr].
    by apply parseredirs_yields.
Qed.
End line.

(** * Cutting the words out *)

(** The string at a word's address in the buffer. *)
Definition word_string (buf : bytes) (w : word) : bytes := cstr (drop (length buf - 1 - length (w_q w)) buf).

Fixpoint read_cmd (buf : bytes) (c : cmd) : ast :=
  match c with
  | EXEC argv => AExec (word_string buf <$> argv)
  | REDIR c f m fd => ARedir (read_cmd buf c) (word_string buf f) m fd
  | PIPE l r => APipe (read_cmd buf l) (read_cmd buf r)
  | LIST l r => AList (read_cmd buf l) (read_cmd buf r)
  | BACK c => ABack (read_cmd buf c)
  end.

(** The buffer is the line, but for characters that have become zero and were
    not part of a word. *)
Record cut_line (line buf : bytes) : Prop := {
  cl_len : length buf = S (length line);
  cl_end : buf !! length line = Some 0;
  cl_char : forall k x, line !! k = Some x -> plain x -> buf !! k = Some x
}.

Lemma word_end line w : word_at line w ->
  (length (w_eq w) <= length line)%nat /\ forall x, line !! (length line - length (w_eq w))%nat = Some x -> ~ plain x.
Proof.
  intros [Hq [p Hp] _ He]. rewrite Hp, Hq. rewrite !length_app. split; [lia|]. intros x.
  replace (_ - _)%nat with (length (p ++ text w)) by (rewrite length_app; lia). rewrite app_assoc, lookup_app_r, Nat.sub_diag by lia.
  destruct He as [->|(c & s & -> & Hc)]; [done|]. cbn. by intros [= <-].
Qed.

Lemma cut_ok line buf w : cut_line line buf -> word_at line w -> cut_line line (cut w buf).
Proof.
  intros [H1 H2 H3] Hw. destruct (word_end line w Hw) as [Hl Hc]. unfold cut. rewrite H1.
  replace (S (length line) - 1 - length (w_eq w))%nat with (length line - length (w_eq w))%nat by lia. constructor.
  - by rewrite length_insert.
  - destruct (decide (length line - length (w_eq w) = length line)%nat) as [->|].
    + apply list_lookup_insert_eq. lia.
    + by rewrite list_lookup_insert_ne.
  - intros k x Hk Hx. destruct (decide (length line - length (w_eq w) = k)%nat) as [<-|].
    + by destruct (Hc x Hk).
    + rewrite list_lookup_insert_ne by done. by apply H3.
Qed.

(** Zeros stay. *)
Lemma cut_zero w buf k : buf !! k = Some 0 -> cut w buf !! k = Some 0.
Proof.
  intros Hk. unfold cut. destruct (decide (length buf - 1 - length (w_eq w) = k)%nat) as [->|].
  - apply list_lookup_insert_eq. by eapply lookup_lt_Some.
  - by rewrite list_lookup_insert_ne.
Qed.

Lemma cut_all ws : forall line buf, cut_line line buf -> Forall (word_at line) ws ->
  cut_line line (fold_left (fun b w => cut w b) ws buf) /\
  (forall k, buf !! k = Some 0 -> fold_left (fun b w => cut w b) ws buf !! k = Some 0) /\
  (forall w, w ∈ ws -> fold_left (fun b w => cut w b) ws buf !! (length line - length (w_eq w))%nat = Some 0).
Proof.
  induction ws as [|w ws IH]; intros line buf Hc Hw; cbn [fold_left]; [split; [done|]; split; [done|set_solver]|].
  apply Forall_cons in Hw as [Hw Hws]. pose proof (cut_ok line buf w Hc Hw) as Hc'.
  destruct (IH line (cut w buf) Hc' Hws) as (A & B & C). split; [done|]. split; [intros k Hk; by apply B, cut_zero|].
  intros v [->|Hv]%elem_of_cons; [|by apply C]. apply B. unfold cut. rewrite (cl_len _ _ Hc).
  replace (S (length line) - 1 - length (w_eq w))%nat with (length line - length (w_eq w))%nat by lia.
  apply list_lookup_insert_eq. rewrite (cl_len _ _ Hc). lia.
Qed.

(** [nulterminate] cuts the words of the command, in some order. *)
Fixpoint cut_order (c : cmd) : list word :=
  match c with
  | EXEC argv => argv
  | REDIR c f _ _ => cut_order c ++ [f]
  | PIPE l r | LIST l r => cut_order l ++ cut_order r
  | BACK c => cut_order c
  end.

Lemma nulterminate_cuts c : forall buf, nulterminate c buf = fold_left (fun b w => cut w b) (cut_order c) buf.
Proof.
  induction c as [argv|c IH f m fd|l IHl r IHr|l IHl r IHr|c IH]; intros buf; cbn [nulterminate cut_order]; try done.
  - by rewrite fold_left_app, IH.
  - by rewrite fold_left_app, IHl, IHr.
  - by rewrite fold_left_app, IHl, IHr.
Qed.

Lemma cut_order_words c w : w ∈ cut_order c <-> w ∈ all_words c.
Proof. induction c; cbn; set_solver. Qed.

Lemma word_string_text line buf w : cut_line line buf -> word_at line w -> buf !! (length line - length (w_eq w))%nat = Some 0 ->
  word_string buf w = text w.
Proof.
  intros [H1 H2 H3] Hw Hz. pose proof Hw as [Hq [p Hp] Hpl _]. unfold word_string. rewrite H1.
  replace (S (length line) - 1 - length (w_q w))%nat with (length p) by (rewrite Hp, length_app; lia).
  assert (Hlen : (length line = length p + length (text w) + length (w_eq w))%nat) by (rewrite Hp, Hq, !length_app; lia).
  replace (length line - length (w_eq w))%nat with (length p + length (text w))%nat in Hz by lia.
  replace (drop (length p) buf) with (text w ++ 0 :: drop (length p + length (text w) + 1) buf).
  { apply cstr_stop. intros Hin. rewrite Forall_forall in Hpl. by destruct (Hpl 0 Hin) as (_ & _ & ?). }
  apply list_eq. intros k. rewrite lookup_drop. destruct (decide (k < length (text w))%nat) as [Hk|Hk].
  - destruct (lookup_lt_is_Some_2 _ _ Hk) as [x Hx]. rewrite lookup_app_l, Hx by done. symmetry. apply H3.
    + rewrite Hp, Hq, lookup_app_r, lookup_app_l by lia. by replace (_ + _ - _)%nat with k by lia.
    + rewrite Forall_forall in Hpl. apply Hpl. by eapply list_elem_of_lookup_2.
  - rewrite lookup_app_r by lia. destruct (k - length (text w))%nat as [|j] eqn:Ej.
    + cbn. by replace (length p + k)%nat with (length p + length (text w))%nat by lia.
    + change (drop (length p + length (text w) + 1) buf !! j = buf !! (length p + k)%nat). rewrite lookup_drop. f_equal. lia.
Qed.

Lemma read_cmd_text buf c : (forall w, w ∈ all_words c -> word_string buf w = text w) -> read_cmd buf c = ast_of c.
Proof.
  induction c as [argv|c IH f m fd|l IHl r IHr|l IHl r IHr|c IH]; cbn; intros Hw.
  - f_equal. apply list_fmap_ext. intros k w Hk. apply Hw. by eapply list_elem_of_lookup_2.
  - rewrite IH, Hw by set_solver. done.
  - rewrite IHl, IHr by set_solver. done.
  - rewrite IHl, IHr by set_solver. done.
  - by rewrite IH.
Qed.

(** Any line: the strings of the command are its words. *)
Lemma parse_strings line c : Forall (fun x => x <> 0) line -> Forall (word_at line) (all_words c) ->
  read_cmd (nulterminate c (line ++ [0])) c = ast_of c.
Proof.
  intros Hz Hw. assert (H0 : cut_line line (line ++ [0])).
  { constructor; [rewrite length_app; cbn; lia|by rewrite lookup_app_r, Nat.sub_diag by lia|]. intros k x Hk _. by apply lookup_app_l_Some. }
  assert (Hw' : Forall (word_at line) (cut_order c)).
  { rewrite Forall_forall in Hw |- *. intros w Hin. by apply Hw, cut_order_words. }
  destruct (cut_all (cut_order c) line _ H0 Hw') as (A & _ & C). rewrite nulterminate_cuts. apply read_cmd_text.
  intros w Hin. apply (word_string_text line); [done| |by apply C, cut_order_words]. rewrite Forall_forall in Hw. by apply Hw.
Qed.

Lemma show_nonzero a : forall lvl, wf a -> Forall (fun x => x <> 0) (show lvl a).
Proof.
  assert (Hword : forall w, word_ok w -> Forall (fun x => x <> 0) (spaced w)).
  { intros w [_ Hw]. apply Forall_app. split; [|by repeat constructor]. eapply Forall_impl; [exact Hw|]. by intros x (_ & _ & ?). }
  assert (Hpar : forall b s, Forall (fun x => x <> 0) s -> Forall (fun x => x <> 0) (paren b s)).
  { intros [|] s Hs; [|done]. repeat (constructor; [done|]). apply Forall_app. split; [done|]. by repeat constructor. }
  induction a as [args|a IH f m fd|l IHl r IHr|l IHl r IHr|a IH]; intros lvl Hw; cbn [show wf] in *.
  - destruct Hw as [Hw _]. induction Hw; cbn; [done|]. apply Forall_app. auto.
  - apply Forall_app. split; [apply IH, Hw|]. constructor; [by destruct (fd =? 0)|]. constructor; [done|]. apply Hword, Hw.
  - apply Hpar, Forall_app. split; [apply IHl, Hw|]. do 2 (constructor; [done|]). apply IHr, Hw.
  - apply Hpar, Forall_app. split; [apply IHl, Hw|]. do 2 (constructor; [done|]). apply IHr, Hw.
  - apply Hpar, Forall_app. split; [by apply IH|]. by repeat constructor.
Qed.

(** * Correctness *)

(** C38: The shell's parser terminates on every line: it returns a command, or
    stops with one of its messages. *)
Theorem parsecmd_terminates (line : bytes) :
  match parsecmd line with Ok _ s => s = [] | Panic _ => True | _ => False end.
Proof.
  unfold parsecmd. destruct (grammar_stops (4 * length line + 4) line) as [Hl _]. specialize (Hl ltac:(lia)).
  unfold bind at 1. destruct (parseline _ line) as [c s| | | |]; cbn [seqr stops] in *; try done.
  unfold bind, peek, get. cbn [seqr]. destruct (skip_ws s); done.
Qed.

(** C20: The shell reads what is written.  Every command, written with
    parentheses where the grammar needs them, is parsed back: the parser
    accepts the line, and once the words are cut out of the buffer the strings
    the command points to are the words of the original. *)
Theorem parsecmd_roundtrip (a : ast) :
  wf a -> exists c buf, parsecmd (show 0 a) = Ok (c, buf) [] /\ read_cmd buf c = a.
Proof.
  intros Hw. destruct (grammar_ok a Hw) as (_ & _ & _ & Hl). set (line := show 0 a).
  destruct (Hl [] (4 * length line + 4)%nat) as (c & Ec & E); [by left|rewrite app_nil_r; unfold line; lia|]. rewrite app_nil_r in E.
  exists c, (nulterminate c (line ++ [0])). split.
  - unfold parsecmd. fold line in E. by rewrite (bind_ok _ _ _ _ _ E).
  - pose proof (show_nonzero a 0 Hw) as Hz. fold line in Hz, E. rewrite parse_strings; [done|done|].
    destruct (grammar_yields line Hz (4 * length line + 4) line (reflexivity line)) as [Hy _]. rewrite E in Hy. apply Hy.
Qed.

(** "(ls | wc > f) & echo hi": a list of a block in the background and a
    command. *)
Lemma parsecmd_roundtrip_witness :
  exists c buf, parsecmd (show 0 (AList (ABack (APipe (AExec [lit "ls"]) (ARedir (AExec [lit "wc"]) (lit "f") 513 1))) (AExec [lit "echo"; lit "hi"]))) = Ok (c, buf) [] /\
    read_cmd buf c = AList (ABack (APipe (AExec [lit "ls"]) (ARedir (AExec [lit "wc"]) (lit "f") 513 1))) (AExec [lit "echo"; lit "hi"]).
Proof.
  apply (parsecmd_roundtrip (AList (ABack (APipe (AExec [lit "ls"]) (ARedir (AExec [lit "wc"]) (lit "f") 513 1))) (AExec [lit "echo"; lit "hi"]))).
  assert (H : forall w, w <> [] -> forallb (fun c => negb (in_str whitespace c) && negb (in_str symbols c) && negb (c =? 0)) w = true -> word_ok w).
  { intros w Hne Hf. split; [done|]. apply Forall_forall. intros c Hc. rewrite forallb_forall in Hf. apply list_elem_of_In in Hc.
    apply Hf in Hc. rewrite !andb_true_iff, !negb_true_iff, Z.eqb_neq in Hc. unfold plain. naive_solver. }
  assert (W : forall s, lit s <> [] -> forallb (fun c => negb (in_str whitespace c) && negb (in_str symbols c) && negb (c =? 0)) (lit s) = true -> word_ok (lit s)).
  { intros s. apply H. }
  assert (N : forall args, (length args <? MAXARGS)%nat = true -> Forall word_ok args -> Forall word_ok args /\ (length args < MAXARGS)%nat).
  { intros args Hn Ha. split; [done|]. by apply Nat.ltb_lt. }
  cbn [wf]. split; [split; [|split; [|split]]|]; try (apply N; [reflexivity|]; repeat (apply Forall_cons; split); try apply Forall_nil_2; by apply W).
  - by apply W.
  - by right.
Defined.

(** * The newline

    The line as the shell gets it ends with a newline.  The parser does the
    same with it as without: the two parses run side by side, over rests that
    are the same but for the newline. *)

Definition NL : Z := 10.

(** The same rest with the newline, unless it has been skipped already. *)
Definition nl (s s' : bytes) : Prop := s' = s ++ [NL] \/ s = [] /\ s' = [].

Definition alongside {A B} (R : A -> B -> Prop) (r : result bytes A) (r' : result bytes B) : Prop :=
  match r, r' with
  | Ok a s, Ok b s' => R a b /\ nl s s'
  | Panic m, Panic m' => m = m'
  | NoFuel, NoFuel => True
  | _, _ => False
  end.

Lemma alongside_bind {A B A' B'} (R : A -> A' -> Prop) (Q : B -> B' -> Prop) (m : M bytes A) (m' : M bytes A') f f' s s' :
  alongside R (m s) (m' s') -> (forall a a' t t', R a a' -> nl t t' -> alongside Q (f a t) (f' a' t')) ->
  alongside Q (bind m f s) (bind m' f' s').
Proof. unfold bind. destruct (m s), (m' s'); cbn; try done. intros [H1 H2] Hf. by apply Hf. Qed.

(** * Tokens *)

Lemma skip_ws_nl s s' : nl s s' ->
  skip_ws s = [] /\ skip_ws s' = [] \/ exists c t, skip_ws s = c :: t /\ skip_ws s' = c :: t ++ [NL].
Proof.
  intros [->|[-> ->]]; [|by left]. induction s as [|c s IH]; [by left|]. cbn [app skip_ws].
  destruct (in_str whitespace c); [done|]. right. by exists c, s.
Qed.

Lemma skip_nl s s' : nl s s' -> nl (skip_ws s) (skip_ws s').
Proof. intros [[-> ->]|(c & t & -> & ->)]%skip_ws_nl; [by right|by left]. Qed.

Lemma skip_word_nl s : skip_word (s ++ [NL]) = skip_word s ++ [NL].
Proof. induction s as [|c s IH]; [done|]. cbn [app skip_word]. by destruct (_ && _). Qed.

Lemma token_nl c t : token (c :: t ++ [NL]) = (fst (token (c :: t)), snd (token (c :: t)) ++ [NL]).
Proof.
  unfold token. destruct (_ || _); [done|]. destruct (c =? GT).
  - destruct t as [|d t]; [done|]. cbn [app]. by destruct (d =? GT).
  - cbn [fst snd]. f_equal. apply (skip_word_nl (c :: t)).
Qed.

Definition same_token (t t' : Z * word) : Prop := fst t = fst t' /\ text (snd t) = text (snd t').

Lemma token_le s : (length (snd (token s)) <= length s)%nat.
Proof.
  destruct s as [|c s]; [done|]. unfold token. destruct (_ || _); [cbn; lia|]. destruct (c =? GT).
  - destruct s as [|d s]; [cbn; lia|]. destruct (d =? GT); cbn; lia.
  - apply (skip_word_le (c :: s)).
Qed.

Lemma gettoken_nl s s' : nl s s' -> alongside same_token (gettoken s) (gettoken s').
Proof.
  intros [[E E']|(c & t & E & E')]%skip_ws_nl; unfold gettoken; rewrite E, E'; [split; [done|by right]|].
  rewrite token_nl. pose proof (token_le (c :: t)) as Hl. destruct (token (c :: t)) as [k e]. cbn [fst snd alongside] in *.
  split; [|by apply skip_nl; left]. split; [done|]. unfold text. cbn [snd w_q w_eq].
  change (c :: t ++ [NL]) with ((c :: t) ++ [NL]). rewrite !length_app. cbn [length Nat.add] in *.
  rewrite take_app_le by (cbn [length]; lia). f_equal. lia.
Qed.

Lemma peek_nl toks s s' : nl s s' -> alongside eq (peek toks s) (peek toks s').
Proof.
  intros H. pose proof (skip_nl _ _ H) as Hn. apply skip_ws_nl in H as [[E E']|(c & t & E & E')]; unfold peek; rewrite E, E' in *; done.
Qed.

(** * Commands *)

Definition same_cmd (c c' : cmd) : Prop := ast_of c = ast_of c'.

Lemma add_arg_nl c : forall c' w w', same_cmd c c' -> text w = text w' -> same_cmd (add_arg w c) (add_arg w' c').
Proof.
  unfold same_cmd. induction c as [argv|c IH f m fd| | |]; intros [argv'|c' f' m' fd'| | |] w w' Hc Hw; try done; cbn [ast_of add_arg] in *.
  - injection Hc as Hc. f_equal. rewrite !fmap_app, Hc. cbn. by rewrite Hw.
  - injection Hc as Hc Hf -> ->. by rewrite (IH c' w w' Hc Hw), Hf.
Qed.

Lemma redirs_nl fuel : forall c c' s s', same_cmd c c' -> nl s s' -> alongside same_cmd (parseredirs c fuel s) (parseredirs c' fuel s').
Proof.
  induction fuel as [|fuel IH]; intros c c' s s' Hc Hs; [done|]. cbn [parseredirs].
  apply (alongside_bind eq); [by apply peek_nl|]. intros b b' s1 s1' <- H1. destruct (negb b); [done|].
  apply (alongside_bind same_token); [by apply gettoken_nl|]. intros t t' s2 s2' [Ht _] H2.
  apply (alongside_bind same_token); [by apply gettoken_nl|]. intros f f' s3 s3' [Hf Hw] H3.
  rewrite <- Hf, <- Ht. destruct (negb _); [done|]. cbn zeta. apply IH; [|done].
  unfold same_cmd in *. repeat (destruct (_ =? _); [cbn; by rewrite Hc, Hw|]). done.
Qed.

(** Fuel as the callers give it. *)
Lemma redirs_len_nl c c' s s' : same_cmd c c' -> nl s s' ->
  alongside same_cmd (parseredirs c (S (length s)) s) (parseredirs c' (S (length s')) s').
Proof.
  intros Hc Hs. rewrite (parseredirs_fuel _ (S (length s')) c s); [by apply redirs_nl|lia|].
  destruct Hs as [->|[-> ->]]; [rewrite length_app|]; cbn; lia.
Qed.

Lemma args_nl fuel : forall c c' n s s', same_cmd c c' -> nl s s' -> alongside same_cmd (parseargs c n fuel s) (parseargs c' n fuel s').
Proof.
  induction fuel as [|fuel IH]; intros c c' n s s' Hc Hs; [done|]. cbn [parseargs].
  apply (alongside_bind eq); [by apply peek_nl|]. intros b b' s1 s1' <- H1. destruct b; [done|].
  apply (alongside_bind same_token); [by apply gettoken_nl|]. intros t t' s2 s2' [Ht Hw] H2. rewrite <- Ht.
  destruct (fst t =? 0); [done|]. destruct (negb _); [done|]. cbn zeta. destruct (_ <=? _)%nat; [done|].
  unfold bind at 1 3, get. cbn [seqr]. apply (alongside_bind same_cmd); [by apply redirs_len_nl; [apply add_arg_nl|]|].
  intros d d' s3 s3' Hd H3. by apply IH.
Qed.

Lemma args_len_nl c c' n s s' : same_cmd c c' -> nl s s' ->
  alongside same_cmd (parseargs c n (S (length s)) s) (parseargs c' n (S (length s')) s').
Proof.
  intros Hc Hs. rewrite (parseargs_fuel _ (S (length s')) c n s); [by apply args_nl|lia|].
  destruct Hs as [->|[-> ->]]; [rewrite length_app|]; cbn; lia.
Qed.

Lemma backs_nl fuel : forall c c' s s', same_cmd c c' -> nl s s' -> alongside same_cmd (parsebacks c fuel s) (parsebacks c' fuel s').
Proof.
  induction fuel as [|fuel IH]; intros c c' s s' Hc Hs; [done|]. cbn [parsebacks].
  apply (alongside_bind eq); [by apply peek_nl|]. intros b b' s1 s1' <- H1. destruct (negb b); [done|].
  apply (alongside_bind same_token); [by apply gettoken_nl|]. intros t t' s2 s2' _ H2. apply IH; [|done].
  unfold same_cmd in *. cbn. by rewrite Hc.
Qed.

Lemma backs_len_nl c c' s s' : same_cmd c c' -> nl s s' ->
  alongside same_cmd (parsebacks c (S (length s)) s) (parsebacks c' (S (length s')) s').
Proof.
  intros Hc Hs. rewrite (parsebacks_fuel _ (S (length s')) c s); [by apply backs_nl|lia|].
  destruct Hs as [->|[-> ->]]; [rewrite length_app|]; cbn; lia.
Qed.

Lemma grammar_nl fuel : forall s s', nl s s' ->
  alongside same_cmd (parseline fuel s) (parseline fuel s') /\ alongside same_cmd (parsepipe fuel s) (parsepipe fuel s') /\
  alongside same_cmd (parseexec fuel s) (parseexec fuel s') /\ alongside same_cmd (parseblock fuel s) (parseblock fuel s').
Proof.
  induction fuel as [|fuel IH]; intros s s' Hs; [done|]. split; [|split; [|split]].
  - cbn [parseline]. apply (alongside_bind same_cmd); [by apply IH|]. intros c c' s1 s1' Hc H1. unfold bind at 1 4, get. cbn [seqr].
    apply (alongside_bind same_cmd); [by apply backs_len_nl|]. intros d d' s2 s2' Hd H2.
    apply (alongside_bind eq); [by apply peek_nl|]. intros b b' s3 s3' <- H3. destruct (negb b); [done|].
    apply (alongside_bind same_token); [by apply gettoken_nl|]. intros t t' s4 s4' _ H4.
    apply (alongside_bind same_cmd); [by apply IH|]. intros r r' s5 s5' Hr H5. split; [|done]. unfold same_cmd in *. cbn. by rewrite Hd, Hr.
  - cbn [parsepipe]. apply (alongside_bind same_cmd); [by apply IH|]. intros c c' s1 s1' Hc H1.
    apply (alongside_bind eq); [by apply peek_nl|]. intros b b' s3 s3' <- H3. destruct (negb b); [done|].
    apply (alongside_bind same_token); [by apply gettoken_nl|]. intros t t' s4 s4' _ H4.
    apply (alongside_bind same_cmd); [by apply IH|]. intros r r' s5 s5' Hr H5. split; [|done]. unfold same_cmd in *. cbn. by rewrite Hc, Hr.
  - cbn [parseexec]. apply (alongside_bind eq); [by apply peek_nl|]. intros b b' s1 s1' <- H1. destruct b; [by apply IH|].
    unfold bind at 1 3, get at 1 3. cbn [seqr]. apply (alongside_bind same_cmd); [by apply redirs_len_nl|]. intros c c' s2 s2' Hc H2.
    unfold bind, get. cbn [seqr]. by apply args_len_nl.
  - cbn [parseblock]. apply (alongside_bind eq); [by apply peek_nl|]. intros b b' s1 s1' <- H1. destruct (negb b); [done|].
    apply (alongside_bind same_token); [by apply gettoken_nl|]. intros t t' s2 s2' _ H2.
    apply (alongside_bind same_cmd); [by apply IH|]. intros c c' s3 s3' Hc H3.
    apply (alongside_bind eq); [by apply peek_nl|]. intros b2 b2' s4 s4' <- H4. destruct (negb b2); [done|].
    apply (alongside_bind same_token); [by apply gettoken_nl|]. intros u u' s5 s5' _ H5. unfold bind, get. cbn [seqr]. by apply redirs_len_nl.
Qed.

(** A written command with its newline. *)
Lemma parsecmd_line a : wf a -> exists c buf, parsecmd (show 0 a ++ [NL]) = Ok (c, buf) [] /\ read_cmd buf c = a.
Proof.
  intros Hw. destruct (grammar_ok a Hw) as (_ & _ & _ & Hl). set (line := show 0 a ++ [NL]). set (fuel := (4 * length line + 4)%nat).
  destruct (Hl [] fuel) as (c0 & Ec & E); [by left|rewrite app_nil_r; unfold fuel, line; rewrite length_app; lia|].
  rewrite app_nil_r in E. destruct (grammar_nl fuel (show 0 a) line (or_introl eq_refl)) as [Hn _]. rewrite E in Hn.
  destruct (parseline fuel line) as [c s| | | |] eqn:E'; try done. destruct Hn as [Hc Hs].
  exists c, (nulterminate c (line ++ [0])). split.
  - unfold parsecmd. fold fuel. rewrite (bind_ok _ _ _ _ _ E'). by destruct Hs as [->|[_ ->]].
  - assert (Hz : Forall (fun x => x <> 0) line) by (apply Forall_app; split; [by apply show_nonzero|by repeat constructor]).
    rewrite parse_strings; [by rewrite <- Hc|done|].
    destruct (grammar_yields line Hz fuel line (reflexivity line)) as [Hy _]. rewrite E' in Hy. apply Hy.
Qed.
