(* ===== verification/ShRun.v ===== *)
(** The shell at work, [sh.c]: [runcmd], which turns a parsed command into
    processes, and [main].

    A process is the sequence of system calls it makes, with what it does on
    their results; a forked child is a process of its own.  What [printf]
    writes is one write of the text. *)

From S2P Require Import Prelude Bytes Fs User Sysfile Utils Printf Sh ShSpec.
Open Scope Z_scope.
Open Scope xv6_scope.

Inductive prog :=
| PExit
| PStuck
| PExec (path : bytes) (argv : list bytes) (failed : prog)
| PClose (fd : Z) (k : prog)
| POpen (file : bytes) (mode : Z) (k : Z -> prog)
| PDup (fd : Z) (k : prog)
| PPipe (k : option (Z * Z) -> prog)
| PFork (child : prog) (parent : Z -> prog)
| PWait (k : prog)
| PWrite (fd : Z) (d : bytes) (k : prog)
| PRead (k : option Z -> prog)
| PChdir (d : bytes) (k : Z -> prog).

Definition upanic (s : bytes) : prog := PWrite 2 (s ++ [10]) PExit.

(** [if(fork1() == 0) child; parent], where the child never comes back. *)
Definition fork1 (child parent : prog) : prog :=
  PFork child (fun pid => if pid =? -1 then upanic (lit "fork") else parent).

(** [buf] is the line the words of the command point into. *)
Fixpoint runcmd (buf : bytes) (c : cmd) : prog :=
  match c with
  | EXEC argv =>
      match word_string buf <$> argv with
      | [] => PExit
      | path :: _ as argv => PExec path argv (PWrite 2 (lit "exec " ++ path ++ lit " failed" ++ [10]) PExit)
      end
  | REDIR c f mode fd =>
      PClose fd (POpen (word_string buf f) mode (fun r =>
        if r <? 0 then PWrite 2 (lit "open " ++ word_string buf f ++ lit " failed" ++ [10]) PExit else runcmd buf c))
  | LIST l r => fork1 (runcmd buf l) (PWait (runcmd buf r))
  | PIPE l r =>
      PPipe (fun p =>
        match p with
        | None => upanic (lit "pipe")
        | Some (p0, p1) =>
            fork1 (PClose 1 (PDup p1 (PClose p0 (PClose p1 (runcmd buf l)))))
              (fork1 (PClose 0 (PDup p0 (PClose p0 (PClose p1 (runcmd buf r)))))
                (PClose p0 (PClose p1 (PWait (PWait PExit)))))
        end)
  | BACK c => fork1 (runcmd buf c) PExit
  end.

(** [gets], one character at a time. *)
Fixpoint pgets (i max : Z) (acc : bytes) (fuel : nat) (k : bytes -> prog) : prog :=
  match fuel with
  | O => PStuck
  | S fuel =>
      if i + 1 <? max then
        PRead (fun r =>
          match r with
          | None => k acc
          | Some c => if (c =? 10) || (c =? 13) then k (acc ++ [c]) else pgets (i + 1) max (acc ++ [c]) fuel k
          end)
      else k acc
  end.

(** [getcmd]: [None] at the end of the input; the buffer is zero after the
    line. *)
Definition getcmd (nbuf : Z) (k : option bytes -> prog) : prog :=
  PWrite 2 (lit "$ ") (pgets 0 nbuf [] (S (Z.to_nat nbuf)) (fun line => if hd 0 line =? 0 then k None else k (Some line))).

(** What the child does with the string in the buffer, [runcmd(parsecmd(buf))]:
    an error is a message, with what the parser left when it stopped before
    the end of the line. *)
Definition run_line (line : bytes) : prog :=
  match parsecmd line with
  | Ok (c, buf) _ => runcmd buf c
  | Panic msg =>
      match parseline (4 * length line + 4) line with
      | Ok _ s => PWrite 2 (lit "leftovers: " ++ skip_ws s ++ [10]) (upanic (lit msg))
      | _ => upanic (lit msg)
      end
  | _ => PStuck
  end.

(** ["cd "]. *)
Definition is_cd (line : bytes) : bool := bool_decide (take 3 line = [99; 100; 32]).

Fixpoint sh_loop (fuel : nat) : prog :=
  match fuel with
  | O => PStuck
  | S fuel =>
      getcmd 100 (fun r =>
        match r with
        | None => PExit
        | Some line =>
            if is_cd line then
              let dir := drop 3 (removelast (cstr line)) in
              PChdir dir (fun r => if r <? 0 then PWrite 2 (lit "cannot cd " ++ dir ++ [10]) (sh_loop fuel) else sh_loop fuel)
            else fork1 (run_line (cstr line)) (PWait (sh_loop fuel))
        end)
  end.

(** Ensure that three file descriptors are open. *)
Fixpoint open_console (fuel : nat) (k : prog) : prog :=
  match fuel with
  | O => PStuck
  | S fuel => POpen (lit "console") O_RDWR (fun fd => if fd <? 0 then k else if 3 <=? fd then PClose fd k else open_console fuel k)
  end.

Definition sh_main (fuel : nat) : prog := open_console fuel (sh_loop fuel).

(** * The system calls

    What the shell needs to know of the kernel: a descriptor is the least
    free one; a child has a copy of the descriptors; whether files open,
    programs exist, directories can be entered and processes can be made is
    up to the system. *)

(** What a descriptor stands for.  Pipes are named by the process that made
    them. *)
Inductive obj :=
| Inherited (fd : nat)
| Opened (file : bytes) (mode : Z)
| PipeR (id : list nat)
| PipeW (id : list nat).

Record system := System {
  can_open : bytes -> Z -> bool;
  can_exec : bytes -> bool;
  can_chdir : bytes -> bool;
  can_fork : bool
}.

Abbreviation fdtable := (list (option obj)).

(** The least free descriptor. *)
Fixpoint lowest (fds : fdtable) : option nat :=
  match fds with
  | [] => None
  | None :: _ => Some O
  | Some _ :: fds => S <$> lowest fds
  end.

Definition fd_at (fds : fdtable) (fd : Z) : option obj := if fd <? 0 then None else mjoin (fds !! Z.to_nat fd).
Definition close_fd (fd : Z) (fds : fdtable) : fdtable := if fd <? 0 then fds else <[Z.to_nat fd := None]> fds.

Definition alloc_fd (o : obj) (fds : fdtable) : option (nat * fdtable) :=
  match lowest fds with
  | Some n => Some (n, <[n := Some o]> fds)
  | None => None
  end.

(** * What is to be seen of a process

    The programs it runs with the descriptors they get, the messages, the
    children and the waiting. *)
Inductive ptree :=
| TExit
| TStuck
| TExec (argv : list bytes) (fds : fdtable)
| TFork (child parent : ptree)
| TWait (fds : fdtable) (k : ptree)
| TWrite (o : option obj) (d : bytes) (k : ptree)
| TChdir (d : bytes) (k : ptree).

(** [self] names the process and [n] counts its children and pipes; [input]
    is what it can read. *)
Fixpoint run (sys : system) (self : list nat) (n : nat) (fds : fdtable) (input : bytes) (p : prog) : ptree :=
  match p with
  | PExit => TExit
  | PStuck => TStuck
  | PExec path argv failed => if can_exec sys path then TExec argv fds else run sys self n fds input failed
  | PClose fd k => run sys self n (close_fd fd fds) input k
  | POpen file mode k =>
      if can_open sys file mode then
        match alloc_fd (Opened file mode) fds with
        | Some (fd, fds) => run sys self n fds input (k (Z.of_nat fd))
        | None => run sys self n fds input (k (-1))
        end
      else run sys self n fds input (k (-1))
  | PDup fd k =>
      match fd_at fds fd with
      | Some o =>
          match alloc_fd o fds with
          | Some (_, fds) => run sys self n fds input k
          | None => run sys self n fds input k
          end
      | None => run sys self n fds input k
      end
  | PPipe k =>
      match alloc_fd (PipeR (self ++ [n])) fds with
      | Some (fd0, fds0) =>
          match alloc_fd (PipeW (self ++ [n])) fds0 with
          | Some (fd1, fds1) => run sys self (S n) fds1 input (k (Some (Z.of_nat fd0, Z.of_nat fd1)))
          | None => run sys self n fds input (k None)
          end
      | None => run sys self n fds input (k None)
      end
  | PFork child parent =>
      if can_fork sys then
        TFork (run sys (self ++ [n]) 0 fds input child) (run sys self (S n) fds input (parent (Z.of_nat (S n))))
      else run sys self n fds input (parent (-1))
  | PWait k => TWait fds (run sys self n fds input k)
  | PWrite fd d k => TWrite (fd_at fds fd) d (run sys self n fds input k)
  | PRead k =>
      match input with
      | [] => run sys self n fds [] (k None)
      | c :: input => run sys self n fds input (k (Some c))
      end
  | PChdir d k =>
      if can_chdir sys d then TChdir d (run sys self n fds input (k 0)) else run sys self n fds input (k (-1))
  end.

(** * What a command asks for *)

Definition failure (fds : fdtable) (d : bytes) : ptree := TWrite (fd_at fds 2) (d ++ [10]) TExit.

Definition spawn (sys : system) (fds : fdtable) (child parent : ptree) : ptree :=
  if can_fork sys then TFork child parent else failure fds (lit "fork").

(** A pipeline's left side writes what the right side reads, and nobody else
    has an end of the pipe; a list waits, a command in the background is not
    waited for; everything else has the descriptors of the shell. *)
Fixpoint plan (sys : system) (self : list nat) (n : nat) (fds : fdtable) (a : ast) : ptree :=
  match a with
  | AExec [] => TExit
  | AExec (path :: _ as argv) =>
      if can_exec sys path then TExec argv fds else failure fds (lit "exec " ++ path ++ lit " failed")
  | ARedir a file mode fd =>
      if can_open sys file mode then plan sys self n (<[Z.to_nat fd := Some (Opened file mode)]> fds) a
      else failure (<[Z.to_nat fd := None]> fds) (lit "open " ++ file ++ lit " failed")
  | APipe l r =>
      let id := self ++ [n] in
      spawn sys fds (plan sys (self ++ [S n]) 0 (<[1%nat := Some (PipeW id)]> fds) l)
        (spawn sys fds (plan sys (self ++ [S (S n)]) 0 (<[0%nat := Some (PipeR id)]> fds) r)
          (TWait fds (TWait fds TExit)))
  | AList l r => spawn sys fds (plan sys (self ++ [n]) 0 fds l) (TWait fds (plan sys self (S n) fds r))
  | ABack a => spawn sys fds (plan sys (self ++ [n]) 0 fds a) TExit
  end.


(** * A session

    What is typed: commands, and changes of the directory. *)
Inductive item :=
| Run (a : ast)
| Cd (dir : bytes).

Definition typed (x : item) : bytes :=
  match x with
  | Run a => show 0 a ++ [NL]
  | Cd dir => lit "cd " ++ dir ++ [NL]
  end.

(** It fits into the buffer and is one line; a command does not look like a
    change of the directory. *)
Definition item_ok (x : item) : Prop :=
  (length (typed x) < 100)%nat /\
  match x with
  | Run a => wf a /\ is_cd (typed x) = false
  | Cd dir => Forall (fun c => c <> 0 /\ c <> 10 /\ c <> 13) dir
  end.

Fixpoint session (sys : system) (self : list nat) (n : nat) (fds : fdtable) (xs : list item) : ptree :=
  TWrite (fd_at fds 2) (lit "$ ")
    match xs with
    | [] => TExit
    | Run a :: xs => spawn sys fds (plan sys (self ++ [n]) 0 fds a) (TWait fds (session sys self (S n) fds xs))
    | Cd dir :: xs =>
        if can_chdir sys dir then TChdir dir (session sys self n fds xs)
        else TWrite (fd_at fds 2) (lit "cannot cd " ++ dir ++ [10]) (session sys self n fds xs)
    end.

(** The three standard descriptors are open and two more are free. *)
Record fds_ok (fds : fdtable) : Prop := {
  fo_std : forall k, (k < 3)%nat -> exists o, fds !! k = Some (Some o);
  fo_free : exists i j, i <> j /\ fds !! i = Some None /\ fds !! j = Some None
}.

Lemma lowest_spec fds n : lowest fds = Some n <-> fds !! n = Some None /\ forall k, (k < n)%nat -> exists o, fds !! k = Some (Some o).
Proof.
  revert n. induction fds as [|[o|] fds IH]; intros n; cbn [lowest].
  - by split; [|intros [? _]].
  - split.
    + destruct (lowest fds) as [m|] eqn:E; [|done]. cbn. intros [= <-]. destruct (proj1 (IH m) eq_refl) as [H1 H2].
      split; [done|]. intros [|k] Hk; [by exists o|]. apply H2. lia.
    + destruct n as [|n]; [by intros [? _]|]. intros [H1 H2]. cbn in H1. rewrite (proj2 (IH n)); [done|]. split; [done|].
      intros k Hk. apply (H2 (S k)). lia.
  - split; [intros [= <-]; split; [done|]; intros; lia|]. intros [H1 H2]. destruct n as [|n]; [done|].
    destruct (H2 0%nat) as [o Ho]; [lia|done].
Qed.

Lemma lowest_free fds i : fds !! i = Some None -> exists n, lowest fds = Some n.
Proof.
  revert i. induction fds as [|[o|] fds IH]; intros [|i] Hi; cbn in *; try done; eauto. destruct (IH i Hi) as [n ->]. by eexists.
Qed.

(** A closed standard descriptor is the next to be given. *)
Lemma reopen fds k o : (forall k, (k < 3)%nat -> exists o, fds !! k = Some (Some o)) -> (k < 3)%nat -> alloc_fd o (<[k := None]> fds) = Some (k, <[k := Some o]> fds).
Proof.
  intros Hs Hk. unfold alloc_fd. destruct (Hs k Hk) as [x Hx]. apply lookup_lt_Some in Hx as Hl.
  rewrite (proj2 (lowest_spec _ k)); [by rewrite list_insert_insert_eq|]. split; [by apply list_lookup_insert_eq|].
  intros j Hj. rewrite list_lookup_insert_ne by lia. apply Hs. lia.
Qed.

Lemma fds_ok_insert fds k o : fds_ok fds -> (k < 3)%nat -> fds_ok (<[k := Some o]> fds).
Proof.
  intros [Hs (i & j & Hij & Hi & Hj)] Hk. constructor.
  - intros l Hl. destruct (decide (k = l)) as [->|]; [|by rewrite list_lookup_insert_ne; auto].
    exists o. apply list_lookup_insert_eq. destruct (Hs l Hl) as [x Hx]. by eapply lookup_lt_Some.
  - assert (Hne : forall l, fds !! l = Some None -> k <> l) by (intros l Hl ->; destruct (Hs l Hk); congruence).
    exists i, j. rewrite !list_lookup_insert_ne by auto. done.
Qed.

(** The two ends of a pipe get two descriptors that were free. *)
Lemma pipe_fds fds o0 o1 : fds_ok fds -> exists i j, (3 <= i)%nat /\ (3 <= j)%nat /\ i <> j /\ fds !! i = Some None /\ fds !! j = Some None /\
  alloc_fd o0 fds = Some (i, <[i := Some o0]> fds) /\ alloc_fd o1 (<[i := Some o0]> fds) = Some (j, <[j := Some o1]> (<[i := Some o0]> fds)).
Proof.
  intros [Hs (a & b & Hab & Ha & Hb)]. destruct (lowest_free fds a Ha) as [i Ei]. pose proof Ei as [Hi _]%lowest_spec.
  assert (exists c, c <> i /\ fds !! c = Some None) as (c & Hci & Hc) by (destruct (decide (a = i)) as [->|]; [by exists b|by exists a]).
  destruct (lowest_free (<[i := Some o0]> fds) c) as [j Ej]; [by rewrite list_lookup_insert_ne|].
  pose proof Ej as [Hj _]%lowest_spec. assert (Hij : i <> j).
  { intros ->. rewrite list_lookup_insert_eq in Hj by (by eapply lookup_lt_Some). done. }
  rewrite list_lookup_insert_ne in Hj by done.
  assert (H3 : forall k, fds !! k = Some None -> (3 <= k)%nat).
  { intros k Hk. destruct (decide (3 <= k)%nat); [done|]. destruct (Hs k) as [x Hx]; [lia|congruence]. }
  exists i, j. unfold alloc_fd. rewrite Ei, Ej. repeat split; auto.
Qed.

Section pipe.
Context (fds : fdtable) (i j : nat) (o0 o1 : obj).
Context (Hi : fds !! i = Some None) (Hj : fds !! j = Some None) (Hij : i <> j) (Hi3 : (3 <= i)%nat) (Hj3 : (3 <= j)%nat).

(** The table with the pipe in it. *)
Let piped := <[j := Some o1]> (<[i := Some o0]> fds).

Lemma piped_i : piped !! i = Some (Some o0).
Proof using Hi Hij. unfold piped. rewrite list_lookup_insert_ne by done. apply list_lookup_insert_eq. by eapply lookup_lt_Some. Qed.

Lemma piped_j : piped !! j = Some (Some o1).
Proof using Hj. apply list_lookup_insert_eq. rewrite length_insert. by eapply lookup_lt_Some. Qed.

Lemma piped_std k : (k < 3)%nat -> piped !! k = fds !! k.
Proof using Hi3 Hj3. clear Hi Hj Hij. intros Hk. unfold piped. by rewrite !list_lookup_insert_ne by lia. Qed.

(** Without the two ends the table is what it was. *)
Lemma unpipe (k : nat) (x : option obj) : (k < 3)%nat -> <[j := None]> (<[i := None]> (<[k := x]> piped)) = <[k := x]> fds.
Proof using Hi Hi3 Hij Hj Hj3.
  intros Hk. apply lookup_lt_Some in Hi as Li. apply lookup_lt_Some in Hj as Lj. unfold piped. apply list_eq. intros l.
  destruct (decide (j = l)) as [<-|]; [rewrite list_lookup_insert_eq by (by rewrite !length_insert); rewrite list_lookup_insert_ne by lia; done|].
  rewrite list_lookup_insert_ne by done.
  destruct (decide (i = l)) as [<-|]; [rewrite list_lookup_insert_eq by (by rewrite !length_insert); rewrite list_lookup_insert_ne by lia; done|].
  rewrite list_lookup_insert_ne by done. destruct (decide (k = l)) as [<-|].
  - destruct (decide (k < length fds)%nat); [by rewrite !list_lookup_insert_eq by (by rewrite ?length_insert)|].
    rewrite !lookup_ge_None_2; [done| |]; rewrite !length_insert; lia.
  - by rewrite !list_lookup_insert_ne by done.
Qed.

Lemma unpipe_all : <[j := None]> (<[i := None]> piped) = fds.
Proof using Hi Hi3 Hij Hj Hj3.
  destruct (fds !! 0%nat) as [x|] eqn:E.
  - rewrite <- (list_insert_id piped 0 x) by (rewrite piped_std by lia; exact E). rewrite unpipe by lia. by apply list_insert_id.
  - destruct fds; [by rewrite lookup_nil in Hi|done].
Qed.
End pipe.

Lemma close_nat k fds : close_fd (Z.of_nat k) fds = <[k := None]> fds.
Proof. unfold close_fd. rewrite (proj2 (Z.ltb_ge _ _)) by lia. by rewrite Nat2Z.id. Qed.

Lemma fd_at_nat fds k o : fds !! k = Some o -> fd_at fds (Z.of_nat k) = o.
Proof. intros H. unfold fd_at. rewrite (proj2 (Z.ltb_ge _ _)) by lia. rewrite Nat2Z.id, H. by destruct o. Qed.

Lemma run_fork1 sys self n fds fds' input child parent :
  fd_at fds' 2 = fd_at fds 2 ->
  run sys self n fds' input (fork1 child parent) =
  spawn sys fds (run sys (self ++ [n]) 0 fds' input child) (run sys self (S n) fds' input parent).
Proof.
  intros E2. unfold fork1, spawn, failure. cbn [run]. destruct (can_fork sys).
  - rewrite (proj2 (Z.eqb_neq _ _)) by lia. done.
  - cbn [Z.eqb upanic run Pos.eqb]. unfold upanic. cbn [run]. by rewrite E2.
Qed.

(** One side of a pipe: end [p] of it becomes descriptor [k]. *)
Lemma run_side sys self n fds i j o0 o1 k p o input c :
  fds_ok fds -> fds !! i = Some None -> fds !! j = Some None -> i <> j -> (3 <= i)%nat -> (3 <= j)%nat -> (k < 3)%nat ->
  (p = i /\ o = o0 \/ p = j /\ o = o1) ->
  run sys self n (<[j := Some o1]> (<[i := Some o0]> fds)) input
    (PClose (Z.of_nat k) (PDup (Z.of_nat p) (PClose (Z.of_nat i) (PClose (Z.of_nat j) c)))) =
  run sys self n (<[k := Some o]> fds) input c.
Proof.
  intros Hok Hi Hj Hij Hi3 Hj3 Hk Hp. set (T := <[j := _]> _). cbn [run]. rewrite close_nat.
  assert (Hd : fd_at (<[k := None]> T) (Z.of_nat p) = Some o).
  { apply fd_at_nat. rewrite list_lookup_insert_ne by (destruct Hp as [[-> _]|[-> _]]; lia).
    destruct Hp as [[-> ->]|[-> ->]]; [by apply piped_i|by apply piped_j]. }
  rewrite Hd, reopen; [|intros l Hl; unfold T; rewrite piped_std by done; by apply Hok|done].
  rewrite !close_nat. unfold T. by rewrite unpipe.
Qed.

(** What the shell's process does is what the command asks for. *)
Lemma runcmd_plan sys buf c : forall self n fds input, wf (read_cmd buf c) -> fds_ok fds ->
  run sys self n fds input (runcmd buf c) = plan sys self n fds (read_cmd buf c).
Proof.
  induction c as [argv|c IH f m fd|l IHl r IHr|l IHl r IHr|c IH]; intros self n fds input Hw Hok; cbn [runcmd read_cmd plan wf] in *.
  - destruct (word_string buf <$> argv) as [|path args]; [done|]. cbn [run]. destruct (can_exec sys path); [done|].
    unfold failure. by rewrite <- !app_assoc.
  - destruct Hw as (Hw & _ & Hm). assert (Hfd : exists k, (k < 3)%nat /\ k <> 2%nat /\ fd = Z.of_nat k).
    { destruct Hm as [[_ ->]|[_ ->]]; [exists 0%nat|exists 1%nat]; (split; [lia|split; [done|done]]). }
    destruct Hfd as (k & Hk & Hk2 & ->). rewrite Nat2Z.id. cbn [run]. rewrite close_nat. destruct (can_open sys _ m).
    + rewrite reopen; [|apply Hok|done]. rewrite (proj2 (Z.ltb_ge _ _)) by lia. apply IH; [done|by apply fds_ok_insert].
    + change (-1 <? 0) with true. cbn [run]. unfold failure. by rewrite <- !app_assoc.
  - destruct Hw as [Hwl Hwr]. cbn [run]. destruct (pipe_fds fds (PipeR (self ++ [n])) (PipeW (self ++ [n])) Hok) as (i & j & Hi3 & Hj3 & Hij & Hi & Hj & -> & ->).
    assert (E2 : fd_at (<[j := Some (PipeW (self ++ [n]))]> (<[i := Some (PipeR (self ++ [n]))]> fds)) 2 = fd_at fds 2).
    { unfold fd_at. cbn [Z.ltb Z.compare]. by rewrite piped_std by (done || (cbn; lia)). }
    rewrite !(run_fork1 sys _ _ fds) by done. f_equal; [|f_equal].
    + rewrite (run_side _ _ _ fds i j _ _ 1 j (PipeW (self ++ [n]))) by (done || lia || auto). apply IHl; [done|]. by apply fds_ok_insert; [|lia].
    + rewrite (run_side _ _ _ fds i j _ _ 0 i (PipeR (self ++ [n]))) by (done || lia || auto). apply IHr; [done|]. by apply fds_ok_insert; [|lia].
    + cbn [run]. rewrite !close_nat. by rewrite unpipe_all.
  - destruct Hw as [Hwl Hwr]. rewrite (run_fork1 sys _ _ fds) by done. f_equal; [by apply IHl|]. cbn [run]. f_equal. by apply IHr.
  - rewrite (run_fork1 sys _ _ fds) by done. f_equal. by apply IH.
Qed.

(** * Lines *)

Definition unbroken (d : bytes) : Prop := Forall (fun c => c <> 0 /\ c <> 10 /\ c <> 13) d.

Lemma show_unbroken a : forall lvl, wf a -> unbroken (show lvl a).
Proof.
  assert (Hword : forall w, word_ok w -> unbroken (spaced w)).
  { intros w [_ Hw]. apply Forall_app. split; [|by repeat constructor]. eapply Forall_impl; [exact Hw|].
    intros x (Hx & _ & Hz). split; [done|]. by split; intros ->. }
  assert (Hpar : forall b s, unbroken s -> unbroken (paren b s)).
  { intros [|] s Hs; [|done]. repeat (constructor; [done|]). apply Forall_app. split; [done|]. by repeat constructor. }
  unfold unbroken in *.
  induction a as [args|a IH f m fd|l IHl r IHr|l IHl r IHr|a IH]; intros lvl Hw; cbn [show wf] in *.
  - destruct Hw as [Hw _]. induction Hw; cbn; [done|]. apply Forall_app. auto.
  - apply Forall_app. split; [apply IH, Hw|]. constructor; [by destruct (fd =? 0)|]. constructor; [done|]. apply Hword, Hw.
  - apply Hpar, Forall_app. split; [apply IHl, Hw|]. do 2 (constructor; [done|]). apply IHr, Hw.
  - apply Hpar, Forall_app. split; [apply IHl, Hw|]. do 2 (constructor; [done|]). apply IHr, Hw.
  - apply Hpar, Forall_app. split; [by apply IH|]. by repeat constructor.
Qed.

(** [gets] takes one line. *)
Lemma run_pgets sys self n fds line rest k : forall i max acc fuel, unbroken line ->
  i + Z.of_nat (length line) + 1 < max -> (length line < fuel)%nat ->
  run sys self n fds (line ++ NL :: rest) (pgets i max acc fuel k) = run sys self n fds rest (k (acc ++ line ++ [NL])).
Proof.
  induction line as [|c line IH]; intros i max acc fuel Hl Hm Hf; (destruct fuel as [|fuel]; [cbn in Hf; lia|]);
    cbn [app pgets length] in *; rewrite (proj2 (Z.ltb_lt _ _)) by lia; cbn [run].
  - done.
  - apply Forall_cons in Hl as [(_ & H10 & H13) Hl]. rewrite (proj2 (Z.eqb_neq c 10) H10), (proj2 (Z.eqb_neq c 13) H13). cbn [orb].
    rewrite IH; [|done|lia|lia]. by rewrite <- app_assoc.
Qed.

Lemma run_getcmd sys self n fds line rest k : unbroken line -> (length line < 99)%nat ->
  run sys self n fds (line ++ NL :: rest) (getcmd 100 k) = TWrite (fd_at fds 2) (lit "$ ") (run sys self n fds rest (k (Some (line ++ [NL])))).
Proof.
  intros Hl Hn. unfold getcmd. cbn [run]. f_equal. rewrite run_pgets; [|done|lia|lia]. cbn [app].
  destruct line as [|c line]; [done|]. apply Forall_cons in Hl as [(H0 & _) _]. cbn [app hd]. by rewrite (proj2 (Z.eqb_neq c 0) H0).
Qed.

Lemma cstr_line line : unbroken line -> cstr (line ++ [NL]) = line ++ [NL].
Proof. induction 1 as [|c line (H0 & _) _ IH]; [done|]. cbn [app cstr]. by rewrite (proj2 (Z.eqb_neq c 0) H0), IH. Qed.

(** The child of the shell. *)
Lemma run_line_plan sys self n fds input a : wf a -> fds_ok fds ->
  run sys self n fds input (run_line (show 0 a ++ [NL])) = plan sys self n fds a.
Proof.
  intros Hw Hf. destruct (parsecmd_line a Hw) as (c & buf & E & Ea). unfold run_line. rewrite E, <- Ea. apply runcmd_plan; [by rewrite Ea|done].
Qed.

Lemma is_cd_typed dir : is_cd (lit "cd " ++ dir ++ [NL]) = true.
Proof. done. Qed.

Lemma sh_loop_session sys self fds xs : fds_ok fds -> Forall item_ok xs -> forall n fuel, (length xs < fuel)%nat ->
  run sys self n fds (concat (typed <$> xs)) (sh_loop fuel) = session sys self n fds xs.
Proof.
  intros Hf. induction 1 as [|x xs [Hlen Hx] _ IH]; intros n fuel Hfuel; (destruct fuel as [|fuel]; [cbn in Hfuel; lia|]); cbn [length] in Hfuel.
  - done.
  - cbn [fmap list_fmap concat sh_loop session]. destruct x as [a|dir]; cbn [typed] in *; rewrite length_app in Hlen.
    + destruct Hx as [Hw Hcd]. pose proof (show_unbroken a 0 Hw) as Hu. rewrite <- app_assoc. cbn [app].
      rewrite run_getcmd by (cbn [length] in Hlen; (done || lia)). f_equal. rewrite Hcd. rewrite (run_fork1 sys _ _ fds) by done.
      rewrite cstr_line by done. f_equal; [by apply run_line_plan|]. cbn [run]. f_equal. apply IH. lia.
    + assert (Hu : unbroken (lit "cd " ++ dir)) by (apply Forall_app; split; [by repeat constructor|done]).
      rewrite app_assoc, <- (app_assoc (lit "cd " ++ dir)). cbn [app]. rewrite length_app in Hlen.
      rewrite run_getcmd; [|done|rewrite length_app; cbn [length] in Hlen; lia]. f_equal.
      rewrite cstr_line by done. rewrite <- (app_assoc (lit "cd ")), is_cd_typed. rewrite app_assoc.
      rewrite removelast_last. cbn zeta. change (drop 3 (lit "cd " ++ dir)) with dir. cbn [run]. destruct (can_chdir sys dir).
      * f_equal. apply IH. lia.
      * cbn [run]. change (-1 <? 0) with true. cbn [run]. f_equal. apply IH. lia.
Qed.

(** The tables the programs get and those of the processes that wait. *)
Fixpoint tables (t : ptree) : list fdtable :=
  match t with
  | TExit | TStuck => []
  | TExec _ fds => [fds]
  | TFork c p => tables c ++ tables p
  | TWait fds k => fds :: tables k
  | TWrite _ _ k | TChdir _ k => tables k
  end.

Lemma tables_spawn sys fds c p t : t ∈ tables (spawn sys fds c p) -> t ∈ tables c \/ t ∈ tables p.
Proof. unfold spawn. destruct (can_fork sys); [apply elem_of_app|]. by intros ?%elem_of_nil. Qed.

Lemma plan_tables sys a : forall self n fds t k, wf a -> t ∈ tables (plan sys self n fds a) -> (2 <= k)%nat -> t !! k = fds !! k.
Proof.
  assert (Hins : forall (fds : fdtable) j o k, (2 <= k)%nat -> (j < 2)%nat -> <[j := o]> fds !! k = fds !! k).
  { intros. apply list_lookup_insert_ne. lia. }
  induction a as [[|path args]|a IH f m fd|l IHl r IHr|l IHl r IHr|a IH]; intros self n fds t k Hw Ht Hk; cbn [plan wf] in *.
  - by apply elem_of_nil in Ht.
  - destruct (can_exec sys path); [|by apply elem_of_nil in Ht]. by apply list_elem_of_singleton in Ht as ->.
  - destruct Hw as (Hw & _ & Hm). destruct (can_open sys f m); [|by apply elem_of_nil in Ht]. rewrite (IH _ _ _ _ _ Hw Ht Hk).
    apply Hins; [done|]. destruct Hm as [[_ ->]|[_ ->]]; cbn; lia.
  - destruct Hw as [Hwl Hwr]. apply tables_spawn in Ht as [Ht|[Ht|Ht]%tables_spawn].
    + rewrite (IHl _ _ _ _ _ Hwl Ht Hk). apply Hins; lia.
    + rewrite (IHr _ _ _ _ _ Hwr Ht Hk). apply Hins; lia.
    + cbn in Ht. set_solver.
  - destruct Hw as [Hwl Hwr]. apply tables_spawn in Ht as [Ht|Ht]; [by apply (IHl _ _ _ _ _ Hwl Ht)|]. cbn [tables] in Ht.
    apply elem_of_cons in Ht as [->|Ht]; [done|]. by apply (IHr _ _ _ _ _ Hwr Ht).
  - apply tables_spawn in Ht as [Ht|Ht]; [by apply (IH _ _ _ _ _ Hw Ht)|by apply elem_of_nil in Ht].
Qed.

(** * Correctness *)

(** C18: The shell's session.  Whatever is typed, a line at a time, the shell
    prompts, and for a command makes a child, waits for it, and prompts again;
    "cd" is done by the shell itself.  The child does what the command as
    written asks for: programs run with their arguments; a redirection takes
    the place of the standard descriptor; the left side of a pipeline writes
    into the pipe the right side reads, and the shell waits for both; a list
    is run in order and a background command is not waited for; files and
    programs that are not there and processes that cannot be made end in a
    message on the standard error. *)
Theorem shell_session sys self fds xs fuel : fds_ok fds -> Forall item_ok xs -> (length xs < fuel)%nat ->
  run sys self 0 fds (concat (typed <$> xs)) (sh_main fuel) = session sys self 0 fds xs.
Proof.
  intros Hf Hx Hfuel. rewrite <- (sh_loop_session sys self fds xs Hf Hx 0 fuel Hfuel). unfold sh_main.
  destruct fuel as [|fuel]; [lia|]. cbn [open_console run]. set (loop := sh_loop _). destruct (can_open sys _ _); [|done].
  destruct (pipe_fds fds (Opened (lit "console") O_RDWR) (Inherited 0) Hf) as (i & _ & Hi3 & _ & _ & Hi & _ & -> & _).
  rewrite (proj2 (Z.ltb_ge _ _)), (proj2 (Z.leb_le _ _)) by lia. cbn [run]. rewrite close_nat, list_insert_insert_eq.
  by rewrite list_insert_id.
Qed.

(** C27: No descriptor leaks.  Every program a command runs, and every process
    that waits for others, has the shell's descriptors from 2 on and no end of
    a pipe or file besides its standard input and output: a reader at the end
    of a pipeline sees the end of the file. *)
Theorem runcmd_no_leaks sys buf c self n fds input t k : wf (read_cmd buf c) -> fds_ok fds ->
  t ∈ tables (run sys self n fds input (runcmd buf c)) -> (2 <= k)%nat -> t !! k = fds !! k.
Proof. intros Hw Hf. rewrite runcmd_plan by done. by apply plan_tables. Qed.

(** * An example *)

Definition demo_fds : fdtable := [Some (Inherited 0); Some (Inherited 1); Some (Inherited 2)] ++ replicate 13 None.
Definition demo_sys : system := System (fun _ _ => true) (fun _ => true) (fun _ => true) true.

Lemma demo_fds_ok : fds_ok demo_fds.
Proof.
  constructor; [|by exists 3%nat, 4%nat]. intros [|[|[|k]]] Hk; [by eexists..|lia].
Qed.

(** Checking words by computation. *)
Lemma word_ok_lit s : lit s <> [] ->
  forallb (fun c => negb (in_str whitespace c) && negb (in_str symbols c) && negb (c =? 0)) (lit s) = true -> word_ok (lit s).
Proof.
  intros Hne Hf. split; [done|]. apply Forall_forall. intros c Hc. rewrite forallb_forall in Hf. apply list_elem_of_In in Hc.
  apply Hf in Hc. rewrite !andb_true_iff, !negb_true_iff, Z.eqb_neq in Hc. unfold plain. naive_solver.
Qed.

Definition demo_cmd : ast := APipe (AExec [lit "ls"]) (ARedir (AExec [lit "wc"]) (lit "f") 513 1).

Lemma demo_cmd_wf : wf demo_cmd.
Proof.
  assert (N : forall args, (length args <? MAXARGS)%nat = true -> Forall word_ok args -> Forall word_ok args /\ (length args < MAXARGS)%nat).
  { intros args Hn Ha. split; [done|]. by apply Nat.ltb_lt. }
  cbn [wf demo_cmd]. split; [|split; [|split]]; try (apply N; [reflexivity|]; apply Forall_singleton); try (by apply word_ok_lit). by right.
Qed.

Lemma shell_session_witness :
  run demo_sys [] 0 demo_fds (concat (typed <$> [Run demo_cmd; Cd (lit "d")])) (sh_main 3) =
    session demo_sys [] 0 demo_fds [Run demo_cmd; Cd (lit "d")].
Proof.
  apply shell_session; [exact demo_fds_ok| |cbn; lia]. apply Forall_cons. split; [|apply Forall_singleton].
  - split; [apply Nat.ltb_lt; vm_compute; reflexivity|]. split; [exact demo_cmd_wf|reflexivity].
  - split; [apply Nat.ltb_lt; vm_compute; reflexivity|]. apply Forall_singleton. cbn. lia.
Defined.

Lemma runcmd_no_leaks_witness :
  let buf := lit "ls" ++ [0] in
  exists t, tables (run demo_sys [] 0 demo_fds [] (runcmd buf (EXEC [Word (lit "ls") []]))) = [t] /\ t !! 5%nat = demo_fds !! 5%nat.
Proof.
  intros buf. exists demo_fds. split; [reflexivity|].
  apply (runcmd_no_leaks demo_sys buf (EXEC [Word (lit "ls") []]) [] 0 demo_fds [] demo_fds 5); [|exact demo_fds_ok| |lia].
  - split; [|cbn; unfold MAXARGS; lia]. apply Forall_singleton. by apply (word_ok_lit "ls").
  - by apply list_elem_of_singleton.
Defined.
