(* ===== verification/Umalloc.v ===== *)
(** The memory allocator of user programs, [umalloc.c]: a circular list of
    free blocks in the order of their addresses, threaded through the blocks,
    with neighbours joined when a block is freed. *)

From S2P Require Import Prelude.
Open Scope Z_scope.
Open Scope xv6_scope.

(** The words of the data segment and the heap by address, [freep], and the
    end of the heap. *)
Record um := Um { words : gmap Z Z; freep : Z; brk : Z }.

Definition set_words (w : gmap Z Z) (s : um) : um := Um w (freep s) (brk s).
Definition set_freep (p : Z) (s : um) : um := Um (words s) p (brk s).

(** [sizeof(Header)]: [s.ptr] and then [s.size]. *)
Definition HEADER : Z := 8.

Definition ptr_at (s : um) (p : Z) : Z := default 0 (words s !! p).
Definition size_at (s : um) (p : Z) : Z := default 0 (words s !! (p + 4)).

Definition hptr (p : Z) : M um Z := gets (fun s => ptr_at s p).
Definition hsize (p : Z) : M um Z := gets (fun s => size_at s p).
Definition set_ptr (p v : Z) : M um unit := modify (fun s => set_words (<[p := v]> (words s)) s).
Definition set_size (p v : Z) : M um unit := modify (fun s => set_words (<[p + 4 := v]> (words s)) s).

(** [p + n] for a [Header *]. *)
Definition units (p n : Z) : Z := u32 (p + n * HEADER).

Section malloc.
(** The address of the static header, and whether the kernel lets a process of
    the given size grow. *)
Context (BASE : Z) (grants : Z -> Z -> bool).

(** [sbrk(n)]: the old end, or -1. *)
Definition sbrk (n : Z) : M um Z :=
  s <- get ;;
  if grants (brk s) n then
    modify (fun s => Um (words s) (freep s) (brk s + n)) ;;; ret (brk s)
  else ret (u32 (-1)).

(** The [for] loop of [free]: the block after which [bp] belongs. *)
Fixpoint find_slot (bp p : Z) (fuel : nat) : M um Z :=
  match fuel with
  | O => nofuel
  | S fuel =>
      q <- hptr p ;;
      if (p <? bp) && (bp <? q) then ret p else
      if (q <=? p) && ((p <? bp) || (bp <? q)) then ret p else
      find_slot bp q fuel
  end.

(** Joining a block with the next free one [q], or linking it before. *)
Definition join_next (bp q : Z) : M um unit :=
  n <- hsize bp ;;
  if units bp n =? q then
    m <- hsize q ;;
    set_size bp (u32 (n + m)) ;;;
    r <- hptr q ;;
    set_ptr bp r
  else set_ptr bp q.

(** Joining it with the free one before it, [p], or linking it after. *)
Definition join_prev (p bp : Z) : M um unit :=
  k <- hsize p ;;
  if units p k =? bp then
    n <- hsize bp ;;
    set_size p (u32 (k + n)) ;;;
    r <- hptr bp ;;
    set_ptr p r
  else set_ptr p bp.

Definition free (fuel : nat) (ap : Z) : M um unit :=
  let bp := units ap (-1) in
  p <- gets freep ;;
  p <- find_slot bp p fuel ;;
  q <- hptr p ;;
  join_next bp q ;;;
  join_prev p bp ;;;
  modify (set_freep p).

Definition morecore (fuel : nat) (nu : Z) : M um Z :=
  let nu := if nu <? 4096 then 4096 else nu in
  p <- sbrk (s32 (u32 (nu * HEADER))) ;;
  if p =? u32 (-1) then ret 0 else
  set_size p nu ;;;
  free fuel (units p 1) ;;;
  gets freep.

(** A block of [n] units at [p], after [prevp], is big enough. *)
Definition carve (nunits prevp p n : Z) : M um Z :=
  p <- (if n =? nunits then
          q <- hptr p ;; set_ptr prevp q ;;; ret p
        else
          set_size p (u32 (n - nunits)) ;;;
          let p' := units p (u32 (n - nunits)) in
          set_size p' nunits ;;; ret p') ;;
  modify (set_freep prevp) ;;;
  ret (units p 1).

(** The [for] loop of [malloc]. *)
Fixpoint search (nunits prevp p : Z) (fuel : nat) : M um Z :=
  match fuel with
  | O => nofuel
  | S fuel' =>
      n <- hsize p ;;
      if nunits <=? n then carve nunits prevp p n
      else
        f <- gets freep ;;
        if p =? f then
          p <- morecore fuel' nunits ;;
          if p =? 0 then ret 0 else
          q <- hptr p ;; search nunits p q fuel'
        else q <- hptr p ;; search nunits p q fuel'
  end.

(** [freep], set up by the first call. *)
Definition start : M um Z :=
  prevp <- gets freep ;;
  if prevp =? 0 then
    modify (set_freep BASE) ;;; set_ptr BASE BASE ;;; set_size BASE 0 ;;; ret BASE
  else ret prevp.

Definition malloc (fuel : nat) (nbytes : Z) : M um Z :=
  let nunits := u32 (u32 (nbytes + HEADER - 1) / HEADER + 1) in
  prevp <- start ;;
  p <- hptr prevp ;;
  search nunits prevp p fuel.
End malloc.

(** * The free list *)

(** A block: the address of its header, and its length in units. *)
Abbreviation block := (Z * Z)%type.

Definition bend (x : block) : Z := x.1 + 8 * x.2.
Definition apart (x y : block) : Prop := bend x <= y.1 \/ bend y <= x.1.

(** From the header at [a] the pointers lead through the blocks of [L] to [z]. *)
Fixpoint linked (s : um) (a : Z) (L : list block) (z : Z) : Prop :=
  match L with
  | [] => ptr_at s a = z
  | (b, n) :: L => ptr_at s a = b /\ size_at s b = n /\ linked s b L z
  end.

Definition first (L : list block) (z : Z) : Z := match L with [] => z | x :: _ => x.1 end.
Fixpoint final (a : Z) (L : list block) : Z := match L with [] => a | x :: L => final x.1 L end.

Lemma final_app a L1 L2 : final a (L1 ++ L2) = final (final a L1) L2.
Proof. revert a. induction L1 as [|x L1 IH]; intros a; [done|]. apply IH. Qed.

Lemma final_in a L : final a L = a \/ exists n, (final a L, n) ∈ L.
Proof.
  revert a. induction L as [|[b n] L IH]; intros a; [by left|]. right. cbn. destruct (IH b) as [E|(m & Hm)].
  - exists n. rewrite E. by left.
  - exists m. by right.
Qed.

Lemma final_cons a x L : final a (x :: L) ∈ (x :: L).*1.
Proof.
  cbn. destruct (final_in x.1 L) as [->|(n & Hn)]; [by left|]. right. by apply (list_elem_of_fmap_2 fst) in Hn.
Qed.

Lemma linked_app s a L1 L2 z : linked s a (L1 ++ L2) z <-> linked s a L1 (first L2 z) /\ linked s (final a L1) L2 z.
Proof.
  revert a. induction L1 as [|[b n] L1 IH]; intros a.
  - cbn. destruct L2 as [|[c m] L2]; cbn; tauto.
  - cbn. rewrite IH. tauto.
Qed.

Lemma linked_final s a L z : linked s a L z -> ptr_at s (final a L) = z.
Proof. revert a. induction L as [|[b n] L IH]; intros a; [done|]. cbn. intros (_ & _ & H). by apply IH. Qed.

Lemma linked_size s a L z b n : linked s a L z -> (b, n) ∈ L -> size_at s b = n.
Proof.
  revert a. induction L as [|[c m] L IH]; intros a; [by intros _ ?%elem_of_nil|]. cbn. intros (_ & Hs & H) [E|Hin]%elem_of_cons.
  - by injection E as -> ->.
  - by eapply IH.
Qed.

(** Only the headers matter, and not the pointer of the last one. *)
Lemma linked_frame s s' a L z z' :
  linked s a L z -> (forall b n, (b, n) ∈ L -> size_at s' b = size_at s b) ->
  (forall b, b = a \/ (exists n, (b, n) ∈ L) -> b <> final a L -> ptr_at s' b = ptr_at s b) -> NoDup (a :: L.*1) ->
  ptr_at s' (final a L) = z' -> linked s' a L z'.
Proof.
  revert a. induction L as [|[b n] L IH]; intros a; [done|]. cbn. intros (Hp & Hs & Hl) Hsz Hpt Hnd Hf.
  apply NoDup_cons in Hnd as [Hni Hnd]. split; [|split].
  - rewrite Hpt; [done|by left|]. intros E. apply Hni. destruct (final_in b L) as [E'|(m & Hm)].
    + rewrite E, E'. by left.
    + rewrite E. right. by apply (list_elem_of_fmap_2 fst) in Hm.
  - rewrite (Hsz b n); [done|by left].
  - apply IH; try done.
    + intros c m Hc. apply (Hsz c m). by right.
    + intros c [->|(m & Hm)] Hne; apply Hpt; try done; right; [exists n; by left|exists m; by right].
Qed.

(** Blocks in order, with a gap after each. *)
Fixpoint spaced (lo : Z) (L : list block) : Prop :=
  match L with
  | [] => True
  | x :: L => lo < x.1 /\ 0 < x.2 /\ spaced (bend x) L
  end.

Lemma spaced_le lo lo' L : spaced lo L -> lo' <= lo -> spaced lo' L.
Proof. destruct L as [|x L]; [done|]. cbn. intros (? & ?) ?. split; [lia|done]. Qed.

Lemma spaced_in lo L x : spaced lo L -> x ∈ L -> lo < x.1 /\ 0 < x.2.
Proof.
  revert lo. induction L as [|y L IH]; intros lo; [by intros _ ?%elem_of_nil|]. cbn. intros (Hlo & Hn & Hs) [->|Hin]%elem_of_cons; [done|].
  destruct (IH (bend y) Hs Hin). unfold bend in *. lia.
Qed.

(** The end of the last block. *)
Fixpoint top (lo : Z) (L : list block) : Z := match L with [] => lo | x :: L => top (bend x) L end.

Lemma spaced_app lo L1 L2 : spaced lo (L1 ++ L2) <-> spaced lo L1 /\ spaced (top lo L1) L2.
Proof. revert lo. induction L1 as [|x L1 IH]; intros lo; [cbn; tauto|]. cbn [app spaced top]. rewrite IH. tauto. Qed.

Lemma top_app lo L1 L2 : top lo (L1 ++ L2) = top (top lo L1) L2.
Proof. revert lo. induction L1 as [|x L1 IH]; intros lo; [done|]. apply IH. Qed.

Lemma top_le lo L h : lo <= h -> (forall x, x ∈ L -> bend x <= h) -> top lo L <= h.
Proof. revert lo. induction L as [|y L IH]; intros lo Hlo Hx; [done|]. apply IH; [apply Hx; by left|]. intros x Hin. apply Hx. by right. Qed.

Lemma spaced_top lo L x : spaced lo L -> x ∈ L -> bend x <= top lo L.
Proof.
  revert lo x. induction L as [|y L IH]; intros lo x; [by intros _ ?%elem_of_nil|]. cbn. intros (_ & _ & Hs) [->|Hin]%elem_of_cons.
  - destruct L as [|z L]; [done|]. specialize (IH (bend y) z Hs ltac:(by left)). cbn in *. destruct Hs as (? & ? & ?). unfold bend in *. lia.
  - by apply IH.
Qed.

Lemma spaced_nodup lo lo' L : spaced lo L -> lo' <= lo -> NoDup (lo' :: L.*1).
Proof.
  revert lo lo'. induction L as [|y L IH]; intros lo lo' Hs Hle; [constructor; [by intros ?%elem_of_nil|constructor]|].
  constructor.
  - intros (x & -> & Hx)%list_elem_of_fmap. destruct (spaced_in _ _ _ Hs Hx). lia.
  - destruct Hs as (? & ? & Hs). apply (IH (bend y)); [done|]. unfold bend. lia.
Qed.

Lemma spaced_final lo a L : spaced lo L -> a <= lo -> a <= final a L /\ forall x, x ∈ L -> x.1 <= final a L.
Proof.
  revert lo a. induction L as [|y L IH]; intros lo a Hs Ha; [split; [cbn; lia|by intros ? ?%elem_of_nil]|].
  cbn in *. destruct Hs as (? & ? & Hs). destruct (IH (bend y) y.1 Hs) as [H1 H2]; [unfold bend; lia|].
  split; [lia|]. intros x [->|Hx]%elem_of_cons; auto.
Qed.

Lemma final_gap lo a L x : spaced lo L -> x ∈ L -> x.1 <> final a L -> x.1 + 8 <= final a L.
Proof.
  revert lo a. induction L as [|y L IH]; intros lo a Hs; [by intros ?%elem_of_nil|]. cbn in *. destruct Hs as (? & ? & Hs).
  intros [->|Hx]%elem_of_cons Hne; [|by apply (IH (bend y))]. destruct (final_in y.1 L) as [E|(n & Hn)]; [congruence|].
  destruct (spaced_in _ _ _ Hs Hn). unfold bend in *. cbn in *. lia.
Qed.

Lemma final_below lo a L : spaced lo L -> a <= lo -> final a L <= top lo L.
Proof.
  revert lo a. induction L as [|y L IH]; intros lo a Hs Ha; [done|]. cbn in *. destruct Hs as (? & ? & Hs).
  apply IH; [done|]. unfold bend. lia.
Qed.

Lemma first_in L z : first L z = z \/ exists n, (first L z, n) ∈ L.
Proof. destruct L as [|[b n] L]; [by left|]. right. exists n. by left. Qed.

(** The place of an address in the list. *)
Record slot (bp : Z) (L L1 L2 : list block) : Prop := {
  sl_app : L = L1 ++ L2;
  sl_low : forall x, x ∈ L1 -> x.1 < bp;
  sl_high : forall x, x ∈ L2 -> bp < x.1
}.

Lemma slot_exists bp lo L : spaced lo L -> (forall x, x ∈ L -> x.1 <> bp) -> exists L1 L2, slot bp L L1 L2.
Proof.
  revert lo. induction L as [|y L IH]; intros lo Hs Hne; [by exists [], []; constructor; [|intros ? ?%elem_of_nil..]|].
  destruct (Z.lt_trichotomy y.1 bp) as [Hlt|[E|Hgt]].
  - cbn in Hs. destruct (IH (bend y)) as (L1 & L2 & [E Hl Hh]); [tauto|intros x Hx; apply Hne; by right|].
    exists (y :: L1), L2. constructor; [by rewrite E| |done]. intros x [->|Hx]%elem_of_cons; auto.
  - destruct (Hne y); [by left|done].
  - exists [], (y :: L). constructor; [done|by intros ? ?%elem_of_nil|]. cbn in Hs. intros x [->|Hx]%elem_of_cons; [done|].
    destruct (spaced_in (bend y) L x); [tauto|done|]. unfold bend in *. lia.
Qed.

Section heap.
Context (BASE : Z).

Definition nodes (L : list block) : list Z := BASE :: L.*1.

Lemma node_split L p : p ∈ nodes L -> exists L1 L2, L = L1 ++ L2 /\ p = final BASE L1.
Proof.
  intros [->|(x & -> & Hx)%list_elem_of_fmap]%elem_of_cons; [by exists [], L|].
  apply list_elem_of_split in Hx as (L1 & L2 & ->). exists (L1 ++ [x]), L2. rewrite <- app_assoc, final_app. done.
Qed.

Lemma final_node L1 L2 : final BASE L1 ∈ nodes (L1 ++ L2).
Proof.
  destruct (final_in BASE L1) as [->|(n & Hn)]; [by left|]. right. rewrite fmap_app. apply elem_of_app. left.
  by apply (list_elem_of_fmap_2 fst) in Hn.
Qed.

Lemma next_of s L1 L2 : linked s BASE (L1 ++ L2) BASE -> ptr_at s (final BASE L1) = first L2 BASE.
Proof. intros [Hl _]%linked_app. by apply linked_final in Hl. Qed.

(** The list read as a ring from any of its headers. *)
Lemma ring s L p :
  linked s BASE L BASE -> size_at s BASE = 0 -> p ∈ nodes L ->
  exists R z, linked s p R z /\ final p R = p /\ R ≡ₚ (BASE, 0) :: L.
Proof.
  intros Hl Hz (L1 & L2 & -> & ->)%node_split. exists (L2 ++ (BASE, 0) :: L1), (first L2 BASE).
  pose proof Hl as [H1 H2]%linked_app. split; [|split].
  - apply linked_app. cbn. split; [done|]. split; [by apply linked_final in H2|]. done.
  - by rewrite final_app.
  - rewrite Permutation_app_comm. cbn. done.
Qed.

Definition stops (bp p q : Z) : bool := ((p <? bp) && (bp <? q)) || ((q <=? p) && ((p <? bp) || (bp <? q))).

Lemma stops_slot bp L1 L2 :
  spaced BASE (L1 ++ L2) -> BASE < bp -> stops bp (final BASE L1) (first L2 BASE) = true <-> slot bp (L1 ++ L2) L1 L2.
Proof.
  intros Hs Hb. pose proof Hs as [S1 S2]%spaced_app. pose proof (spaced_final BASE BASE L1 S1 ltac:(lia)) as [Hf Hm].
  pose proof (final_below BASE BASE L1 S1 ltac:(lia)) as Ht.
  assert (Hq : L2 = [] /\ first L2 BASE = BASE \/ final BASE L1 < first L2 BASE /\ forall x, x ∈ L2 -> first L2 BASE <= x.1).
  { destruct L2 as [|y L2]; [by left|]. right. cbn in *. destruct S2 as (? & ? & S2). split; [lia|].
    intros x [->|Hx]%elem_of_cons; [lia|]. destruct (spaced_in _ _ _ S2 Hx). unfold bend in *. lia. }
  unfold stops. rewrite orb_true_iff, !andb_true_iff, orb_true_iff, Z.leb_le, !Z.ltb_lt. split.
  - intros Hst. constructor; [done| |].
    + intros x Hx. specialize (Hm x Hx). destruct Hq as [[-> E]|[? ?]]; lia.
    + intros x Hx. destruct Hq as [[-> E]|[? Hle]]; [by apply elem_of_nil in Hx|]. specialize (Hle x Hx). lia.
  - intros [_ Hl Hh]. assert (Hp : final BASE L1 < bp).
    { destruct (final_in BASE L1) as [->|(n & Hn)]; [done|]. apply (Hl _ Hn). }
    destruct Hq as [[-> E]|[? _]]; [right; lia|]. left. split; [done|].
    destruct (first_in L2 BASE) as [E|(n & Hn)]; [lia|]. apply (Hh _ Hn).
Qed.

Lemma find_slot_step s bp p fuel :
  find_slot bp p (S fuel) s = if stops bp p (ptr_at s p) then Ok p s else find_slot bp (ptr_at s p) fuel s.
Proof.
  cbn [find_slot]. unfold hptr, bind, gets, ret, stops. cbn [seqr].
  destruct ((p <? bp) && (bp <? ptr_at s p)); [done|]. by destruct ((ptr_at s p <=? p) && _).
Qed.

(** The search of [free] from any header. *)
Section slots.
Context (s : um) (L : list block) (bp : Z).
Context (Hl : linked s BASE L BASE) (Hs : spaced BASE L) (Hb : BASE < bp).

Lemma stops_node p : p ∈ nodes L -> stops bp p (ptr_at s p) = true -> exists L1 L2, slot bp L L1 L2 /\ p = final BASE L1.
Proof using All.
  intros (L1 & L2 & E & ->)%node_split. subst L. rewrite (next_of s L1 L2 Hl). intros Hst%stops_slot; try done. by exists L1, L2.
Qed.

Lemma slot_stops L1 L2 : slot bp L L1 L2 -> stops bp (final BASE L1) (ptr_at s (final BASE L1)) = true.
Proof using All.
  intros Hsl. pose proof (sl_app _ _ _ _ Hsl) as E. subst L. rewrite (next_of s L1 L2 Hl). by apply stops_slot.
Qed.

Lemma find_slot_ok L1 L2 : slot bp L L1 L2 -> forall R p z fuel,
  linked s p R z -> (forall c, c ∈ p :: R.*1 -> c ∈ nodes L) -> final BASE L1 ∈ p :: R.*1 ->
  (length R < fuel)%nat -> exists L1 L2, slot bp L L1 L2 /\ find_slot bp p fuel s = Ok (final BASE L1) s.
Proof using All.
  intros Hslot R. induction R as [|[c m] R IH]; intros p z fuel Hr Hin Hp Hf; (destruct fuel as [|fuel]; [cbn in Hf; lia|]);
    rewrite find_slot_step; (destruct (stops _ _ _) eqn:Es; [destruct (stops_node p) as (P1 & P2 & Hsl & ->);
      [apply Hin; by left|done|by exists P1, P2]|]).
  - apply list_elem_of_singleton in Hp. rewrite <- Hp, (slot_stops L1 L2 Hslot) in Es. done.
  - cbn in Hr. destruct Hr as (-> & _ & Hr). apply (IH c z); try done; [| |cbn in Hf; lia].
    + intros x Hx. apply Hin. by right.
    + apply elem_of_cons in Hp as [E|Hp]; [|done]. rewrite <- E, (slot_stops L1 L2 Hslot) in Es. done.
Qed.
End slots.

(** * The heap *)

(** The allocator owns the blocks of [L]; those of [A] have been handed out. *)
Record heap_ok (s : um) (L : list block) (A : gset block) : Prop := {
  ho_base : 0 < BASE;
  ho_brk : BASE + 8 <= brk s < 2 ^ 31;
  ho_node : freep s ∈ nodes L;
  ho_zero : size_at s BASE = 0;
  ho_link : linked s BASE L BASE;
  ho_spaced : spaced BASE L;
  ho_range : forall x, x ∈ L \/ x ∈ A -> BASE + 8 <= x.1 /\ bend x <= brk s;
  ho_size : forall x, x ∈ A -> 0 < x.2 /\ size_at s x.1 = x.2;
  ho_apart : forall x y, x ∈ A -> y ∈ L \/ y ∈ A /\ y <> x -> apart x y
}.

Lemma free_slot s L A b n fuel :
  heap_ok s L A -> (b, n) ∈ A -> (S (length L) < fuel)%nat ->
  exists L1 L2, slot b L L1 L2 /\ find_slot b (freep s) fuel s = Ok (final BASE L1) s.
Proof.
  intros [H1 H2 H3 H4 H5 H6 H7 H8 H9] Hin Hf. destruct (H7 (b, n)) as [Hb _]; [by right|]. cbn in Hb.
  destruct (slot_exists b BASE L H6) as (L1 & L2 & Hsl).
  { intros x Hx E. destruct (H9 (b, n) x Hin) as [Ha|Ha]; [by left|unfold bend in Ha; cbn in Ha..].
    - destruct (H8 _ Hin). cbn in *. lia.
    - destruct (spaced_in _ _ _ H6 Hx). lia. }
  destruct (ring s L (freep s) H5 H4 H3) as (R & z & Hr & _ & HR).
  apply (find_slot_ok s L b H5 H6 ltac:(lia) L1 L2 Hsl R (freep s) z); [done| | |rewrite HR; done].
  - intros c [->|Hc]%elem_of_cons; [done|]. rewrite HR in Hc. done.
  - right. rewrite HR. rewrite (sl_app _ _ _ _ Hsl). apply final_node.
Qed.

(** Only the header at [h] is written. *)
Record only (h : Z) (s s' : um) : Prop := {
  on_freep : freep s' = freep s;
  on_brk : brk s' = brk s;
  on_words : forall x, x <> h -> x <> h + 4 -> words s' !! x = words s !! x
}.

Lemma only_at h s s' c : only h s s' -> c + 8 <= h \/ h + 8 <= c -> ptr_at s' c = ptr_at s c /\ size_at s' c = size_at s c.
Proof. intros [_ _ Hw] Hc. unfold ptr_at, size_at. rewrite !Hw by lia. done. Qed.

Lemma linked_move s s' a a' L z :
  linked s a L z -> ptr_at s' a' = ptr_at s a ->
  (forall x, x ∈ L -> ptr_at s' x.1 = ptr_at s x.1 /\ size_at s' x.1 = size_at s x.1) -> linked s' a' L z.
Proof.
  revert a a'. induction L as [|[b n] L IH]; intros a a'; cbn; [congruence|]. intros (Hp & Hs & Hl) Ha Hx.
  destruct (Hx (b, n)) as [E1 E2]; [by left|]. cbn in *. split; [congruence|]. split; [congruence|].
  apply (IH b b); [done|done|]. intros x Hin. apply Hx. by right.
Qed.

(** A property of blocks that passes to the union of two neighbours. *)
Definition joinable (P : block -> Prop) : Prop :=
  forall a k m, 0 < k -> 0 < m -> P (a, k) -> P (a + 8 * k, m) -> P (a, k + m).

Fixpoint total (L : list block) : Z := match L with [] => 0 | x :: L => x.2 + total L end.

Lemma total_app L1 L2 : total (L1 ++ L2) = total L1 + total L2.
Proof. induction L1 as [|x L1 IH]; [done|]. cbn in *. lia. Qed.

Lemma units_id p n : 0 <= p + 8 * n < 2 ^ 32 -> units p n = p + 8 * n.
Proof. intros Hp. unfold units, HEADER. rewrite Z.mul_comm. by apply u32_id. Qed.

Definition below (hi : Z) (x : block) : Prop := BASE + 8 <= x.1 /\ bend x <= hi.

Lemma below_joinable hi : joinable (below hi).
Proof. unfold joinable, below, bend. cbn [fst snd]. intros. lia. Qed.

Lemma apart_joinable y : 0 < y.2 -> joinable (apart y).
Proof. unfold joinable, apart, bend. cbn [fst snd]. intros. lia. Qed.

Lemma set_ptr_ok p v s : exists s', set_ptr p v s = Ok tt s' /\ only p s s' /\ ptr_at s' p = v /\ size_at s' p = size_at s p.
Proof.
  eexists. split; [done|]. split; [|split].
  - constructor; [done..|]. intros x H1 _. cbn. by rewrite lookup_insert_ne.
  - unfold ptr_at. cbn. by rewrite lookup_insert_eq.
  - unfold size_at. cbn. by rewrite lookup_insert_ne by lia.
Qed.

Lemma set_size_ok p v s : exists s', set_size p v s = Ok tt s' /\ only p s s' /\ size_at s' p = v /\ ptr_at s' p = ptr_at s p.
Proof.
  eexists. split; [done|]. split; [|split].
  - constructor; [done..|]. intros x _ H1. cbn. by rewrite lookup_insert_ne.
  - unfold size_at. cbn. by rewrite lookup_insert_eq.
  - unfold ptr_at. cbn. by rewrite lookup_insert_ne by lia.
Qed.

Lemma only_trans h s s1 s2 : only h s s1 -> only h s1 s2 -> only h s s2.
Proof. intros [A1 A2 A3] [B1 B2 B3]. constructor; [congruence..|]. intros x H1 H2. by rewrite B3, A3. Qed.

(** After the first half of [free]: the block leads to the rest of the list. *)
Lemma join_next_ok s a b n L2 hi :
  linked s a L2 BASE -> size_at s b = n -> 0 < n -> BASE + 8 <= b -> b + 8 * n <= hi -> hi < 2 ^ 31 -> 0 < BASE ->
  spaced b L2 -> (forall x, x ∈ L2 -> b + 8 * n <= x.1 /\ bend x <= hi) ->
  exists s1 n' L2', join_next b (first L2 BASE) s = Ok tt s1 /\ only b s s1 /\ size_at s1 b = n' /\ linked s1 b L2' BASE /\
    spaced (b + 8 * n') L2' /\ n <= n' /\ b + 8 * n' <= hi /\ n' + total L2' = n + total L2 /\ (length L2' <= length L2)%nat /\
    forall P, joinable P -> P (b, n) -> (forall x, x ∈ L2 -> P x) -> P (b, n') /\ forall x, x ∈ L2' -> P x.
Proof.
  intros Hl Hn Hpos Hb Hhi Hmax Hbase Hs Hr. unfold join_next, hsize, bind at 1, gets at 1. cbn [seqr]. rewrite Hn, units_id by lia.
  destruct (Z.eqb_spec (b + 8 * n) (first L2 BASE)) as [E|E].
  - destruct L2 as [|[c m] L2]; [cbn in E; lia|]. cbn in E. destruct Hl as (Hc & Hm & Hl). cbn in Hs. destruct Hs as (_ & Hmp & Hs).
    destruct (Hr (c, m)) as [_ Hcm]; [by left|]. unfold bend in Hcm. cbn [fst snd] in *.
    unfold hptr, bind at 1, gets at 1. cbn [seqr first fst]. rewrite Hm, u32_id by lia.
    destruct (set_size_ok b (n + m) s) as (s1 & E1 & O1 & Hs1 & Hp1). step E1. unfold bind at 1, gets. cbn [seqr].
    destruct (set_ptr_ok b (ptr_at s1 c) s1) as (s2 & E2 & O2 & Hp2 & Hs2). exists s2, (n + m), L2.
    pose proof (only_trans _ _ _ _ O1 O2) as O. split; [done|]. split; [done|]. split; [congruence|].
    split; [|split; [|split; [lia|split; [lia|split; [cbn; lia|split; [cbn; lia|]]]]]].
    + apply (linked_move s s2 c b); [done| |].
      * rewrite Hp2. apply (only_at b s s1 c O1). lia.
      * intros x Hx. apply (only_at b s s2 x.1 O). destruct (spaced_in _ _ _ Hs Hx). unfold bend in *. cbn in *. lia.
    + unfold bend in Hs. cbn [fst snd] in Hs. by replace (b + 8 * (n + m)) with (c + 8 * m) by lia.
    + intros P HP Pb PL. split; [|intros x Hx; apply PL; by right]. apply HP; try done. rewrite E. apply PL. by left.
  - destruct (set_ptr_ok b (first L2 BASE) s) as (s1 & E1 & O1 & Hp1 & Hs1). exists s1, n, L2.
    split; [done|]. split; [done|]. split; [congruence|]. split; [|split; [|do 4 (split; [lia|]); done]].
    + apply (linked_move s s1 a b); [done| |].
      * rewrite Hp1. destruct L2 as [|[c m] L2]; cbn in *; [done|]. by destruct Hl.
      * intros x Hx. apply (only_at b s s1 x.1 O1). destruct (Hr x Hx). lia.
    + destruct L2 as [|[c m] L2]; [done|]. cbn in *. destruct (Hr (c, m)) as [Hc _]; [by left|]. cbn in Hc. split; [lia|tauto].
Qed.

(** Blocks on either side of a header that is written. *)
Lemma linked_above s s' h a a' lo L z :
  only h s s' -> linked s a L z -> ptr_at s' a' = ptr_at s a -> spaced lo L -> h + 8 <= lo -> linked s' a' L z.
Proof.
  intros O Hl Hp Hs Hh. apply (linked_move s s' a a'); [done..|]. intros x Hx. apply (only_at h s s' x.1 O).
  destruct (spaced_in _ _ _ Hs Hx). lia.
Qed.

Lemma linked_under s s' h L z :
  only h s s' -> linked s BASE L z -> spaced BASE L -> top BASE L <= h -> BASE + 8 <= h -> linked s' BASE L z.
Proof.
  intros O Hl Hs Ht Hb. apply (linked_move s s' BASE BASE); [done|apply (only_at h s s' BASE O); lia|]. intros x Hx.
  apply (only_at h s s' x.1 O). pose proof (spaced_top _ _ _ Hs Hx). destruct (spaced_in _ _ _ Hs Hx). unfold bend in *. lia.
Qed.

(** The last pointer is written. *)
Lemma relink s s' L q z :
  only (final BASE L) s s' -> linked s BASE L q -> spaced BASE L -> (forall x, x ∈ L -> BASE + 8 <= x.1) ->
  size_at s' (final BASE L) = size_at s (final BASE L) -> ptr_at s' (final BASE L) = z ->
  linked s' BASE L z /\ size_at s' BASE = size_at s BASE.
Proof.
  intros O Hl Hs Hr Hsz Hp.
  assert (Hgap : forall c, c = BASE \/ (exists m, (c, m) ∈ L) -> c <> final BASE L -> c + 8 <= final BASE L).
  { intros c [->|(m & Hm)] Hne; [|by apply (final_gap BASE _ L (c, m) Hs Hm)].
    destruct (final_in BASE L) as [E|(k & Hk)]; [congruence|]. apply (Hr _ Hk). }
  assert (Hsame : forall c, c = BASE \/ (exists m, (c, m) ∈ L) -> size_at s' c = size_at s c).
  { intros c Hc. destruct (decide (c = final BASE L)) as [->|Hne]; [done|]. apply (only_at _ _ _ _ O). left. by apply Hgap. }
  split; [|apply Hsame; by left]. apply (linked_frame s s' BASE L q z); try done; [| |by apply (spaced_nodup BASE)].
  - intros c m Hc. apply Hsame. eauto.
  - intros c Hc Hne. apply (only_at _ _ _ _ O). left. by apply Hgap.
Qed.

(** After the second half the list is whole again. *)
Section join_prev.
Context (s : um) (b n : Z) (L1 L2 : list block) (q hi : Z).
Context (Hl1 : linked s BASE L1 q) (Hl2 : linked s b L2 BASE) (Hn : size_at s b = n) (Hz : size_at s BASE = 0).
Context (Hpos : 0 < n) (Hb : BASE + 8 <= b) (Hhi : b + 8 * n <= hi) (Hmax : hi < 2 ^ 31) (Hbase : 0 < BASE).
Context (Hs1 : spaced BASE L1) (Hs2 : spaced (b + 8 * n) L2).
Context (Hr : forall x, x ∈ L1 -> BASE + 8 <= x.1 /\ bend x <= b).

(** What [join_prev] leaves behind. *)
Definition joined (p : Z) (s1 : um) : Prop :=
  only p s s1 /\ exists L, linked s1 BASE L BASE /\
    spaced BASE L /\ size_at s1 BASE = 0 /\ p ∈ nodes L /\ total L = total L1 + n + total L2 /\
    (length L <= length L1 + 1 + length L2)%nat /\ (exists x, x ∈ L /\ n <= x.2) /\
    forall P, joinable P -> P (b, n) -> (forall x, x ∈ L1 -> P x) -> (forall x, x ∈ L2 -> P x) -> forall x, x ∈ L -> P x.

(** Linked after [p]. *)
Lemma joined_apart s1 :
  top BASE L1 < b -> only (final BASE L1) s s1 -> ptr_at s1 (final BASE L1) = b ->
  size_at s1 (final BASE L1) = size_at s (final BASE L1) -> joined (final BASE L1) s1.
Proof using All.
  intros Ht O Hp Hsz. pose proof (spaced_final BASE BASE L1 Hs1 ltac:(lia)) as [Hf1 Hf2].
  assert (Hfb : final BASE L1 + 8 <= b).
  { destruct (final_in BASE L1) as [->|(k & Hk)]; [lia|]. destruct (spaced_in _ _ _ Hs1 Hk). destruct (Hr _ Hk). unfold bend in *. cbn in *. lia. }
  destruct (relink s s1 L1 q b O Hl1 Hs1) as [Hl Hz1]; [intros x Hx; by apply Hr|done|done|].
  split; [done|]. exists (L1 ++ (b, n) :: L2). split; [|split; [|split; [|split; [|split; [|split; [|split]]]]]].
  - apply linked_app. cbn. split; [done|]. split; [done|]. split.
    + rewrite <- Hn. apply (only_at _ _ _ _ O). lia.
    + apply (linked_above s s1 (final BASE L1) b b (b + 8 * n)); try done; [|lia]. apply (only_at _ _ _ _ O). lia.
  - apply spaced_app. cbn. by split.
  - congruence.
  - apply final_node.
  - rewrite total_app. cbn. lia.
  - rewrite length_app. cbn. lia.
  - exists (b, n). split; [|cbn; lia]. apply elem_of_app. right. by left.
  - intros P _ Pb P1 P2 x [Hx|[->|Hx]%elem_of_cons]%elem_of_app; auto.
Qed.

(** Joined with [p]. *)
Lemma joined_with s1 L0 a k :
  L1 = L0 ++ [(a, k)] -> a + 8 * k = b -> only a s s1 -> ptr_at s1 a = ptr_at s b -> size_at s1 a = k + n -> joined a s1.
Proof using All.
  intros EL E O Hp Hsz. pose proof Hs1 as Hs0. rewrite EL in Hs0. apply spaced_app in Hs0 as [S0 (Ha & Hk & _)]. cbn [fst snd] in Ha, Hk.
  pose proof Hl1 as H0. rewrite EL in H0. apply linked_app in H0 as [H0 (_ & Hka & _)].
  assert (Hin : (a, k) ∈ L1) by (rewrite EL; apply elem_of_app; right; by left). destruct (Hr _ Hin) as [Hra _]. cbn in Hra.
  split; [done|]. exists (L0 ++ (a, k + n) :: L2). split; [|split; [|split; [|split; [|split; [|split; [|split]]]]]].
  - apply linked_app. cbn. assert (Hu : linked s1 BASE L0 a) by (apply (linked_under s s1 a); try done; lia).
    split; [done|]. split; [by apply linked_final in Hu|]. split; [done|].
    apply (linked_above s s1 a b a (b + 8 * n)); try done. lia.
  - apply spaced_app. cbn. unfold bend. cbn. split; [done|]. split; [done|]. split; [lia|]. by replace (a + 8 * (k + n)) with (b + 8 * n) by lia.
  - rewrite <- Hz. apply (only_at _ _ _ _ O). lia.
  - right. rewrite fmap_app. apply elem_of_app. right. by left.
  - rewrite EL, !total_app. cbn [total fst snd]. lia.
  - rewrite EL, !length_app. cbn. lia.
  - exists (a, k + n). split; [|cbn; lia]. apply elem_of_app. right. by left.
  - intros P HP Pb P1 P2 x [Hx|[->|Hx]%elem_of_cons]%elem_of_app; [|  |auto].
    + apply P1. rewrite EL. apply elem_of_app. by left.
    + apply HP; [done..|by apply P1|by rewrite E].
Qed.

Lemma join_prev_ok : exists s1, join_prev (final BASE L1) b s = Ok tt s1 /\ joined (final BASE L1) s1.
Proof using All.
  unfold join_prev, hsize, bind at 1, gets at 1. cbn [seqr].
  assert (Hk : exists k, size_at s (final BASE L1) = k /\ final BASE L1 + 8 * k = top BASE L1 /\ 0 <= top BASE L1 <= b /\
    (final BASE L1 + 8 * k = b -> exists L0, L1 = L0 ++ [(final BASE L1, k)])).
  { destruct L1 as [|[a k] L0 _] using rev_ind; [exists 0; cbn; split; [done|]; split; [lia|]; split; lia|].
    exists k. rewrite final_app, top_app. pose proof Hl1 as [_ (_ & Hka & _)]%linked_app. cbn. split; [done|]. split; [done|].
    destruct (Hr (a, k)) as [H1 H2]; [apply elem_of_app; right; by left|]. unfold bend in *. cbn in *.
    pose proof Hs1 as [_ (_ & ? & _)]%spaced_app. cbn in *. split; [lia|]. intros _. by exists L0. }
  pose proof (spaced_final BASE BASE L1 Hs1 ltac:(lia)) as [Hf _].
  destruct Hk as (k & Hk & Ht & Hrt & Hsn). rewrite Hk, units_id by lia.
  destruct (Z.eqb_spec (final BASE L1 + 8 * k) b) as [E|E].
  - destruct (Hsn E) as (L0 & EL). unfold bind at 1, gets at 1. cbn [seqr]. rewrite Hn.
    assert (Hk0 : 0 < k) by (rewrite EL in Hs1; apply spaced_app in Hs1 as [_ (_ & ? & _)]; done).
    rewrite u32_id by lia.
    set (a := final BASE L1) in *. destruct (set_size_ok a (k + n) s) as (s1 & E1 & O1 & Hs' & Hp'). step E1.
    unfold hptr, bind at 1, gets. cbn [seqr]. destruct (set_ptr_ok a (ptr_at s1 b) s1) as (s2 & E2 & O2 & Hp2 & Hs2').
    exists s2. split; [done|]. apply (joined_with s2 L0 a k); try done; [by eapply only_trans| |congruence].
    rewrite Hp2. apply (only_at _ _ _ _ O1). lia.
  - destruct (set_ptr_ok (final BASE L1) b s) as (s1 & E1 & O1 & Hp1 & Hs1'). exists s1. split; [done|].
    apply joined_apart; try done. lia.
Qed.
End join_prev.

(** The headers of free blocks lie outside the blocks handed out. *)
Lemma header_free s L A h y z : heap_ok s L A -> h ∈ nodes L -> y ∈ A -> y.1 <= z < bend y -> z < h \/ h + 8 <= z.
Proof.
  intros [H1 H2 H3 H4 H5 H6 H7 H8 H9] [->|((h', k) & -> & Hk)%list_elem_of_fmap]%elem_of_cons Hy Hz.
  - destruct (H7 y) as [? _]; [by right|]. lia.
  - pose proof (H9 y _ Hy (or_introl Hk)) as Ha. destruct (spaced_in _ _ _ H6 Hk). unfold apart, bend in *. cbn [fst snd] in *. lia.
Qed.

(** A block goes from those handed out to the list [L'], which is made of the
    same memory. *)
Lemma heap_give s s' L L' A b n :
  heap_ok s L A -> (b, n) ∈ A -> freep s' ∈ nodes L' -> brk s' = brk s -> linked s' BASE L' BASE -> spaced BASE L' ->
  size_at s' BASE = 0 -> (forall P, joinable P -> P (b, n) -> (forall y, y ∈ L -> P y) -> forall y, y ∈ L' -> P y) ->
  (forall y z, y ∈ A ∖ {[(b, n)]} -> y.1 <= z < bend y -> words s' !! z = words s !! z) ->
  heap_ok s' L' (A ∖ {[(b, n)]}).
Proof.
  intros [H1 H2 H3 H4 H5 H6 H7 H8 H9] Hin Hf Hbrk Hl Hs Hz HL HW. set (A' := A ∖ {[(b, n)]}) in *.
  assert (HA : forall y, y ∈ A' -> y ∈ A /\ y <> (b, n)) by (unfold A'; set_solver+).
  constructor; rewrite ?Hbrk; try done.
  - intros y [Hy|Hy]; [|apply H7; right; by apply HA]. apply (HL (below (brk s)) (below_joinable _)); [|intros z Hz'; apply H7; by left|done].
    apply H7. by right.
  - intros y Hy. destruct (H8 y) as [Hy0 Hys]; [by apply HA|]. split; [done|]. rewrite <- Hys.
    unfold size_at. by rewrite (HW y) by (try done; unfold bend; lia).
  - intros y z Hy [Hz'|[Hz' Hne]]; [|apply H9; [by apply HA|right; split; [by apply HA|done]]].
    destruct (HA y Hy) as [Hya Hyn]. revert z Hz'. apply HL.
    + apply apart_joinable. by apply H8.
    + apply (H9 y (b, n) Hya). right. split; [done|congruence].
    + intros z Hz'. apply (H9 y z Hya). by left.
Qed.

(** A block comes back. *)
Lemma free_ok s L A b n fuel :
  heap_ok s L A -> (b, n) ∈ A -> (S (length L) < fuel)%nat ->
  exists s' L', free fuel (b + 8) s = Ok tt s' /\ heap_ok s' L' (A ∖ {[(b, n)]}) /\ total L' = total L + n /\
    (length L' <= S (length L))%nat /\ (exists x, x ∈ L' /\ n <= x.2) /\ brk s' = brk s /\
    forall x y, x ∈ A ∖ {[(b, n)]} -> x.1 <= y < bend x -> words s' !! y = words s !! y.
Proof.
  intros Hok Hin Hf. destruct (free_slot s L A b n fuel Hok Hin Hf) as (L1 & L2 & [EL Hlow Hhigh] & Efs).
  pose proof Hok as [H1 H2 H3 H4 H5 H6 H7 H8 H9]. destruct (H7 (b, n)) as [Hb Hbe]; [by right|].
  destruct (H8 (b, n) Hin) as [Hn Hsz]. unfold bend in Hbe. cbn [fst snd] in *.
  assert (Hap : forall x, x ∈ L -> apart (b, n) x) by (intros x Hx; apply (H9 _ _ Hin); by left).
  subst L. pose proof H5 as [K1 K2]%linked_app. pose proof H6 as [P1 P2]%spaced_app.
  unfold free. replace (units (b + 8) (-1)) with b by (rewrite units_id; lia). unfold bind at 1, gets at 1. cbn [seqr]. step Efs.
  unfold hptr, bind at 1, gets at 1. cbn [seqr]. rewrite (next_of s L1 L2 H5).
  destruct (join_next_ok s (final BASE L1) b n L2 (brk s)) as (s1 & n' & L2' & E1 & O1 & Hs1 & Hl1 & Hsp & Hle & Hhi & Htot & Hlen & HP1); try done; try lia.
  { destruct L2 as [|x L2]; [done|]. cbn in *. split; [apply Hhigh; by left|tauto]. }
  { intros x Hx. assert (Hxl : x ∈ L1 ++ L2) by (apply elem_of_app; by right). specialize (Hhigh x Hx).
    destruct (H7 x (or_introl Hxl)) as [_ Hxe]. destruct (spaced_in _ _ _ P2 Hx). split; [|done].
    destruct (Hap x Hxl) as [Ha|Ha]; unfold bend in Ha; cbn [fst snd] in Ha; lia. }
  assert (Hlo : forall x, x ∈ L1 -> BASE + 8 <= x.1 /\ bend x <= b).
  { intros x Hx. assert (Hxl : x ∈ L1 ++ L2) by (apply elem_of_app; by left). specialize (Hlow x Hx).
    destruct (H7 x (or_introl Hxl)) as [Hxb _]. split; [done|].
    destruct (Hap x Hxl) as [Ha|Ha]; unfold bend in *; cbn [fst snd] in Ha; lia. }
  step E1. destruct (join_prev_ok s1 b n' L1 L2' (first L2 BASE) (brk s)) as (s2 & E2 & O2 & L' & Hl2 & Hsp2 & Hz2 & Hnd & Ht2 & Hln & (x & Hx & Hxn) & HP2);
    try done; try lia.
  { apply (linked_under s s1 b _ _ O1 K1 P1); [|lia]. apply top_le; [lia|]. intros y Hy. by apply Hlo. }
  { rewrite <- H4. apply (only_at _ _ _ _ O1). lia. }
  assert (HG : forall y z, y ∈ A ∖ {[(b, n)]} -> y.1 <= z < bend y -> words s2 !! z = words s !! z).
  { intros y z [Hy Hne%not_elem_of_singleton]%elem_of_difference Hz.
    assert (Hyb : apart y (b, n)) by (apply (H9 y (b, n) Hy); right; split; [done|congruence]).
    destruct (header_free _ _ _ _ y z Hok (final_node L1 L2) Hy Hz); unfold apart, bend in *; cbn [fst snd] in *;
      rewrite (on_words _ _ _ O2), (on_words _ _ _ O1) by lia; done. }
  step E2. exists (set_freep (final BASE L1) s2), L'. split; [done|]. split; [|split; [rewrite Ht2, total_app; lia|]].
  - apply (heap_give s _ (L1 ++ L2)); try done.
    + cbn. by rewrite (on_brk _ _ _ O2), (on_brk _ _ _ O1).
    + by apply (linked_move s2 _ BASE BASE).
    + intros P HP Pb PL. destruct (HP1 P HP Pb) as [Pb' PL2]; [intros; apply PL, elem_of_app; by right|].
      apply (HP2 P HP Pb'); [intros; apply PL, elem_of_app; by left|done].
  - split; [rewrite length_app; lia|]. split; [exists x; split; [done|lia]|].
    split; [cbn; by rewrite (on_brk _ _ _ O2), (on_brk _ _ _ O1)|exact HG].
Qed.

(** * Handing a block out *)

Lemma spaced_apart lo L1 x L2 : spaced lo (L1 ++ x :: L2) -> forall y, y ∈ L1 \/ y ∈ L2 -> apart x y.
Proof.
  intros [S1 (Hx & Hn & S2)]%spaced_app y [Hy|Hy]; unfold apart.
  - right. pose proof (spaced_top _ _ _ S1 Hy). lia.
  - left. destruct (spaced_in _ _ _ S2 Hy). lia.
Qed.

(** The end [(p, nu)] of the free block [(b, n)] goes from the list to the
    blocks handed out. *)
Lemma heap_take s s' L1 Lb b n L' A p nu :
  heap_ok s (L1 ++ (b, n) :: Lb) A -> freep s' ∈ nodes L' -> brk s' = brk s -> linked s' BASE L' BASE -> spaced BASE L' ->
  size_at s' BASE = 0 -> b <= p -> p + 8 * nu = b + 8 * n -> 0 < nu -> size_at s' p = nu ->
  (forall y, y ∈ L' -> y ∈ L1 \/ y ∈ Lb \/ y = (b, n - nu) /\ 0 < n - nu) ->
  (forall y z, y ∈ A -> y.1 <= z < bend y -> words s' !! z = words s !! z) ->
  heap_ok s' L' ({[(p, nu)]} ∪ A).
Proof.
  intros [H1 H2 H3 H4 H5 H6 H7 H8 H9] Hf Hbrk Hl Hs Hz Hbp He Hnu Hsz HL HW.
  assert (Hin : (b, n) ∈ L1 ++ (b, n) :: Lb) by (apply elem_of_app; right; by left).
  assert (HL2 : forall y, y ∈ L1 \/ y ∈ Lb -> y ∈ L1 ++ (b, n) :: Lb).
  { intros y [Hy|Hy]; apply elem_of_app; [by left|right; by right]. }
  destruct (H7 (b, n) (or_introl Hin)) as [Hb Hbe]. unfold bend in Hbe. cbn [fst snd] in *.
  assert (Hpa : forall y, y ∈ A -> apart (p, nu) y).
  { intros y Hy. pose proof (H9 y (b, n) Hy (or_introl Hin)). unfold apart, bend in *. cbn [fst snd] in *. lia. }
  assert (HLA : forall y z, y ∈ A -> z ∈ L' -> apart y z).
  { intros y z Hy [Hz'|[Hz'|[-> Hp]]]%HL; [apply H9; [done|left; auto]..|].
    pose proof (H9 y (b, n) Hy (or_introl Hin)). unfold apart, bend in *. cbn [fst snd] in *. lia. }
  constructor; rewrite ?Hbrk; try done.
  - intros y [Hy|Hy].
    + apply HL in Hy as [Hy|[Hy|[-> Hp]]]; [apply H7; left; auto..|]. unfold bend. cbn [fst snd]. lia.
    + apply elem_of_union in Hy as [->%elem_of_singleton|Hy]; [|apply H7; by right]. unfold bend. cbn [fst snd]. lia.
  - intros y [->%elem_of_singleton|Hy]%elem_of_union; [done|]. destruct (H8 y Hy) as [Hy0 Hys]. split; [done|].
    rewrite <- Hys. unfold size_at. by rewrite (HW y) by (try done; unfold bend; lia).
  - intros y z [->%elem_of_singleton|Hy]%elem_of_union [Hz'|[[->%elem_of_singleton|Hz']%elem_of_union Hne]]; try done; [| auto | auto| |apply H9; auto].
    + apply HL in Hz' as [Hz'|[Hz'|[-> Hp]]].
      * pose proof (spaced_apart _ _ _ _ H6 z (or_introl Hz')). unfold apart, bend in *. cbn [fst snd] in *. lia.
      * pose proof (spaced_apart _ _ _ _ H6 z (or_intror Hz')). unfold apart, bend in *. cbn [fst snd] in *. lia.
      * unfold apart, bend. cbn [fst snd]. lia.
    + specialize (Hpa y Hy). unfold apart in *. tauto.
Qed.

(** What [malloc] promises of the block it returns. *)
Record taken (s s' : um) (L L' : list block) (A : gset block) (b nu : Z) : Prop := {
  ta_heap : heap_ok s' L' ({[(b, nu)]} ∪ A);
  ta_fresh : forall x, x ∈ A -> apart (b, nu) x;
  ta_total : total L' = total L - nu;
  ta_brk : brk s' = brk s;
  ta_words : forall x y, x ∈ A -> x.1 <= y < bend x -> words s' !! y = words s !! y
}.

Lemma block_before s L A a nu :
  heap_ok s L A -> a ∈ nodes L -> 0 < nu <= size_at s (ptr_at s a) ->
  exists L1 b n Lb, L = L1 ++ (b, n) :: Lb /\ a = final BASE L1 /\ ptr_at s a = b /\ size_at s b = n.
Proof.
  intros [H1 H2 H3 H4 H5 H6 H7 H8 H9] (L1 & L2 & -> & ->)%node_split. rewrite (next_of s L1 L2 H5). intros Hnu.
  destruct L2 as [|[b n] Lb]; cbn [first fst] in *; [lia|]. exists L1, b, n, Lb. do 3 (split; [done|]).
  apply (linked_size _ _ _ _ b n H5). apply elem_of_app. right. by left.
Qed.

Lemma linked_first s a L z : linked s a L z -> ptr_at s a = first L z.
Proof. destruct L as [|[b n] L]; cbn; tauto. Qed.

Lemma final_header L1 b : spaced BASE L1 -> top BASE L1 <= b -> BASE + 8 <= b -> final BASE L1 + 8 <= b.
Proof.
  intros Hs Ht Hb. destruct (final_in BASE L1) as [->|(k & Hk)]; [done|]. pose proof (spaced_top _ _ _ Hs Hk).
  destruct (spaced_in _ _ _ Hs Hk). unfold bend in *. cbn [fst snd] in *. lia.
Qed.

Lemma carve_exact s L1 b n Lb A :
  heap_ok s (L1 ++ (b, n) :: Lb) A -> exists s', carve n (final BASE L1) b n s = Ok (b + 8) s' /\
    taken s s' (L1 ++ (b, n) :: Lb) (L1 ++ Lb) A b n.
Proof.
  intros Hok. pose proof Hok as [H1 H2 H3 H4 H5 H6 H7 H8 H9]. unfold carve. rewrite Z.eqb_refl.
  destruct (H7 (b, n)) as [Hb Hbe]; [left; apply elem_of_app; right; by left|]. unfold bend in Hbe. cbn [fst snd] in *.
  pose proof H5 as [K1 K2]%linked_app. cbn in K2. destruct K2 as (Kp & Ks & K2).
  pose proof H6 as [S1 (Sb & Sn & S2)]%spaced_app. cbn [fst snd] in *.
  pose proof (final_header L1 b S1 ltac:(lia) Hb) as Hfb. pose proof (final_node L1 ((b, n) :: Lb)) as Hnode.
  set (a := final BASE L1) in *. destruct (set_ptr_ok a (ptr_at s b) s) as (s1 & E1 & O1 & Hp1 & Hs1).
  assert (E : (q <- hptr b ;; set_ptr a q ;;; ret b) s = Ok b s1) by (unfold hptr, bind at 1, gets; cbn [seqr]; by step E1).
  step E. exists (set_freep a s1). split; [by rewrite units_id by lia|].
  assert (HW : forall y z, y ∈ A -> y.1 <= z < bend y -> words s1 !! z = words s !! z).
  { intros y z Hy Hz. destruct (header_free _ _ _ a y z Hok Hnode Hy Hz); apply O1; lia. }
  destruct (relink s s1 L1 b (ptr_at s b) O1 K1 S1) as [Hl Hz1]; [|done|done|].
  { intros x Hx. apply H7. left. apply elem_of_app. by left. }
  constructor; [| |rewrite !total_app; cbn; lia|apply O1|done].
  - apply (heap_take s _ L1 Lb b n); try done; cbn; try lia; [apply final_node|apply O1|..].
    + apply (linked_move s1 _ BASE BASE); [|done..]. apply linked_app. rewrite <- (linked_first _ _ _ _ K2). split; [done|].
      apply (linked_above s s1 a b a (b + 8 * n)); try done. lia.
    + apply spaced_app. split; [done|]. apply (spaced_le (bend (b, n))); [done|]. unfold bend. cbn [fst snd]. lia.
    + change (size_at s1 BASE = 0). congruence.
    + change (size_at s1 b = n). rewrite <- Ks. apply (only_at _ _ _ _ O1). lia.
    + intros y [Hy|Hy]%elem_of_app; auto.
  - intros x Hx. assert (Hxb : apart x (b, n)) by (apply (H9 x (b, n) Hx); left; apply elem_of_app; right; by left).
    unfold apart in *. tauto.
Qed.

Lemma carve_split s L1 b n Lb A nu :
  heap_ok s (L1 ++ (b, n) :: Lb) A -> 0 < nu < n -> exists s', carve nu (final BASE L1) b n s = Ok (b + 8 * (n - nu) + 8) s' /\
    taken s s' (L1 ++ (b, n) :: Lb) (L1 ++ (b, n - nu) :: Lb) A (b + 8 * (n - nu)) nu.
Proof.
  intros Hok Hnu. pose proof Hok as [H1 H2 H3 H4 H5 H6 H7 H8 H9]. unfold carve. rewrite (proj2 (Z.eqb_neq n nu)) by lia.
  assert (Hin : (b, n) ∈ L1 ++ (b, n) :: Lb) by (apply elem_of_app; right; by left).
  destruct (H7 (b, n) (or_introl Hin)) as [Hb Hbe]. unfold bend in Hbe. cbn [fst snd] in *.
  pose proof H5 as [K1 K2]%linked_app. cbn in K2. destruct K2 as (Kp & Ks & K2).
  pose proof H6 as [S1 (Sb & Sn & S2)]%spaced_app. cbn [fst snd] in *.
  pose proof (final_header L1 b S1 ltac:(lia) Hb) as Hfb. rewrite u32_id, units_id by lia.
  set (p := b + 8 * (n - nu)). destruct (set_size_ok b (n - nu) s) as (s1 & E1 & O1 & Hs1 & Hp1).
  destruct (set_size_ok p nu s1) as (s2 & E2 & O2 & Hs2 & Hp2).
  assert (E : (set_size b (n - nu) ;;; set_size p nu ;;; ret p) s = Ok p s2) by (step E1; by step E2).
  step E. exists (set_freep (final BASE L1) s2). split; [by rewrite units_id by (unfold p; lia)|].
  assert (Hxb : forall x, x ∈ A -> apart x (b, n)) by (intros x Hx; apply (H9 x (b, n) Hx); by left).
  assert (HW : forall y z, y ∈ A -> y.1 <= z < bend y -> words s2 !! z = words s !! z).
  { intros y z Hy Hz. specialize (Hxb y Hy). unfold apart, bend, p in *. cbn [fst snd] in *.
    rewrite (on_words _ _ _ O2), (on_words _ _ _ O1) by lia. done. }
  assert (Hlow : forall c, c + 8 <= b -> ptr_at s2 c = ptr_at s c /\ size_at s2 c = size_at s c).
  { intros c Hc. destruct (only_at b s s1 c O1) as [<- <-]; [lia|]. apply (only_at p s1 s2 c O2). unfold p. lia. }
  assert (Hbrk : brk s2 = brk s) by (by rewrite (on_brk _ _ _ O2), (on_brk _ _ _ O1)).
  constructor; [| |rewrite !total_app; cbn [total fst snd]; lia|done|done].
  - apply (heap_take s _ L1 Lb b n); try done; cbn; try (unfold p; lia); [apply final_node|..].
    + apply (linked_move s2 _ BASE BASE); [|done..]. apply linked_app. cbn [linked first fst]. split; [|split; [|split]].
      * apply (linked_move s s2 BASE BASE); [done|apply Hlow; lia|]. intros x Hx. apply Hlow.
        pose proof (spaced_top _ _ _ S1 Hx). destruct (spaced_in _ _ _ S1 Hx). unfold bend in *. lia.
      * rewrite <- Kp. by apply Hlow.
      * rewrite <- Hs1. apply (only_at p s1 s2 b O2). unfold p. lia.
      * apply (linked_above s1 s2 p b b (b + 8 * n)); try done; [|apply (only_at p s1 s2 b O2)|]; [|unfold p; lia..].
        apply (linked_above s s1 b b b (b + 8 * n)); try done. lia.
    + apply spaced_app. cbn. split; [done|]. split; [lia|]. split; [lia|]. apply (spaced_le (bend (b, n))); [done|]. unfold bend. cbn [fst snd]. lia.
    + change (size_at s2 BASE = 0). rewrite <- H4. apply Hlow. lia.
    + intros y [Hy|[->|Hy]%elem_of_cons]%elem_of_app; auto. right. right. split; [done|lia].
  - intros x Hx. specialize (Hxb x Hx). unfold apart, bend, p in *. cbn [fst snd] in *. lia.
Qed.

Lemma carve_ok s L A a nu :
  heap_ok s L A -> a ∈ nodes L -> 0 < nu <= size_at s (ptr_at s a) ->
  exists b s' L', carve nu a (ptr_at s a) (size_at s (ptr_at s a)) s = Ok (b + 8) s' /\ taken s s' L L' A b nu.
Proof.
  intros Hok Ha Hnu. destruct (block_before s L A a nu Hok Ha Hnu) as (L1 & b & n & Lb & -> & -> & Hp & Hs). rewrite Hp, Hs in *.
  destruct (decide (n = nu)) as [->|Hne].
  - destruct (carve_exact s L1 b nu Lb A Hok) as (s' & E & H). by exists b, s', (L1 ++ Lb).
  - destruct (carve_split s L1 b n Lb A nu Hok ltac:(lia)) as (s' & E & H). by exists (b + 8 * (n - nu)), s', (L1 ++ (b, n - nu) :: Lb).
Qed.

(** The kernel's decision on growing. *)
Context (grants : Z -> Z -> bool).

(** The search of [malloc] around the ring from [freep]: the first block that
    is big enough, or else, when it is back at [freep], more memory. *)
Section search.
Context (s : um) (L : list block) (A : gset block) (nu : Z) (Hok : heap_ok s L A) (Hnu : 0 < nu).

Lemma search_step a fuel : search grants nu a (ptr_at s a) (S fuel) s =
  if nu <=? size_at s (ptr_at s a) then carve nu a (ptr_at s a) (size_at s (ptr_at s a)) s
  else if ptr_at s a =? freep s then
    (p <- morecore grants fuel nu ;; if p =? 0 then ret 0 else q <- hptr p ;; search grants nu p q fuel) s
  else search grants nu (ptr_at s a) (ptr_at s (ptr_at s a)) fuel s.
Proof using Type.
  cbn [search]. unfold hsize, hptr, bind at 1, gets at 1. cbn [seqr]. destruct (nu <=? _); [done|].
  unfold bind at 1, gets at 1. cbn [seqr]. by destruct (_ =? freep s).
Qed.

Lemma search_found R : forall a z fuel,
  linked s a R z -> (forall c, c ∈ a :: R.*1 -> c ∈ nodes L) -> final a R = freep s -> NoDup R.*1 -> (length R <= fuel)%nat ->
  (exists x, x ∈ R /\ nu <= x.2) ->
  exists b s' L', search grants nu a (ptr_at s a) fuel s = Ok (b + 8) s' /\ taken s s' L L' A b nu.
Proof using All.
  induction R as [|[c m] R IH]; intros a z fuel Hl Hn Hf Hnd Hlen (x & Hx & Hxn); [by apply elem_of_nil in Hx|].
  destruct fuel as [|fuel]; [cbn in Hlen; lia|]. rewrite search_step. cbn in Hl. destruct Hl as (Hp & Hs & Hl). rewrite Hp, Hs in *.
  destruct (Z.leb_spec nu m) as [Hle|Hlt].
  { destruct (carve_ok s L A a nu Hok) as (b & s' & L' & E & H); [apply Hn; by left|rewrite Hp, Hs; lia|].
    rewrite Hp, Hs in E. by exists b, s', L'. }
  apply elem_of_cons in Hx as [->|Hx]; [cbn in Hxn; lia|]. apply NoDup_cons in Hnd as [Hni Hnd]. cbn in Hf.
  destruct (Z.eqb_spec c (freep s)) as [E|_].
  { destruct Hni. rewrite E, <- Hf. destruct R as [|y R]; [by apply elem_of_nil in Hx|]. apply final_cons. }
  apply (IH c z); try done; [|cbn in Hlen; lia|by exists x]. intros y Hy. apply Hn. by right.
Qed.

Lemma search_none R : forall a z fuel,
  linked s a R z -> R <> [] -> final a R = freep s -> NoDup R.*1 -> (forall x, x ∈ R -> x.2 < nu) ->
  search grants nu a (ptr_at s a) (length R + fuel) s =
  (p <- morecore grants fuel nu ;; if p =? 0 then ret 0 else q <- hptr p ;; search grants nu p q fuel) s.
Proof using All.
  induction R as [|[c m] R IH]; intros a z fuel Hl Hne Hf Hnd Hx; [done|]. cbn [length Nat.add]. rewrite search_step.
  cbn in Hl. destruct Hl as (Hp & Hs & Hl). rewrite Hp, Hs. specialize (Hx (c, m)) as Hm. cbn in Hm.
  rewrite (proj2 (Z.leb_gt _ _)) by (apply Hm; by left). apply NoDup_cons in Hnd as [Hni Hnd]. cbn in Hf.
  destruct R as [|y R].
  { cbn in Hf. by rewrite Hf, Z.eqb_refl. }
  destruct (Z.eqb_spec c (freep s)) as [E|_]; [destruct Hni; rewrite E, <- Hf; apply final_cons|].
  apply (IH c z); try done. intros x Hin. apply Hx. by right.
Qed.

(** From [freep]. *)
Lemma search_heap fuel : (S (length L) <= fuel)%nat ->
  ((exists x, x ∈ L /\ nu <= x.2) ->
   exists b s' L', search grants nu (freep s) (ptr_at s (freep s)) fuel s = Ok (b + 8) s' /\ taken s s' L L' A b nu) /\
  ((forall x, x ∈ L -> x.2 < nu) -> exists fuel', fuel = (S (length L) + fuel')%nat /\
   search grants nu (freep s) (ptr_at s (freep s)) fuel s =
   (p <- morecore grants fuel' nu ;; if p =? 0 then ret 0 else q <- hptr p ;; search grants nu p q fuel') s).
Proof using All.
  intros Hf. pose proof Hok as [H1 H2 H3 H4 H5 H6 H7 H8 H9]. destruct (ring s L (freep s) H5 H4 H3) as (R & z & Hr & Hfin & HR).
  assert (Hlen : length R = S (length L)) by (by rewrite HR).
  assert (Hnd : NoDup R.*1) by (rewrite HR; apply (spaced_nodup BASE BASE L H6); lia). split.
  - intros (x & Hx & Hxn). apply (search_found R (freep s) z); try done; [|lia|].
    + intros c [->|Hc]%elem_of_cons; [done|]. by rewrite HR in Hc.
    + exists x. split; [rewrite HR; by right|done].
  - intros Hx. exists (fuel - S (length L))%nat. split; [lia|].
    replace fuel with (length R + (fuel - S (length L)))%nat at 1 by lia. apply (search_none R (freep s) z); try done.
    + intros ->. done.
    + intros x. rewrite HR. intros [->|Hin]%elem_of_cons; [cbn; lia|auto].
Qed.
End search.

(** * More memory *)

(** A process does not grow to the kernel's half of the address space. *)
Context (Hgrants : forall sz n, grants sz n = true -> sz + n < 2 ^ 31).

(** New memory is a block handed out that nobody holds. *)
Lemma grown_ok s L A nu s2 :
  heap_ok s L A -> 0 < nu -> brk s + 8 * nu < 2 ^ 31 -> only (brk s) (Um (words s) (freep s) (brk s + 8 * nu)) s2 ->
  size_at s2 (brk s) = nu -> heap_ok s2 L ({[(brk s, nu)]} ∪ A).
Proof.
  intros [H1 H2 H3 H4 H5 H6 H7 H8 H9] Hnu Hmax O Hs. set (s1 := Um _ _ _) in O.
  assert (Hold : forall c, c + 8 <= brk s -> ptr_at s2 c = ptr_at s c /\ size_at s2 c = size_at s c).
  { intros c Hc. apply (only_at (brk s) s1 s2 c O). by left. }
  assert (Hx : forall x, x ∈ L \/ x ∈ A -> x.1 + 8 <= brk s).
  { intros x Hx. destruct (H7 x Hx) as [_ Hb]. assert (0 < x.2) by (destruct Hx; [by eapply spaced_in|by apply H8]). unfold bend in Hb. lia. }
  constructor; rewrite ?(on_freep _ _ _ O), ?(on_brk _ _ _ O); unfold s1; cbn [brk freep]; try done; [lia|..].
  - rewrite <- H4. apply Hold. lia.
  - apply (linked_move s s2 BASE BASE); [done|apply Hold; lia|]. intros x Hin. apply Hold, Hx. by left.
  - intros x [Hin|[->%elem_of_singleton|Hin]%elem_of_union].
    + destruct (H7 x (or_introl Hin)). lia.
    + unfold bend. cbn [fst snd]. lia.
    + destruct (H7 x (or_intror Hin)). lia.
  - intros x [->%elem_of_singleton|Hin]%elem_of_union; [done|]. destruct (H8 x Hin) as [H0 Hsx]. split; [done|].
    rewrite <- Hsx. apply Hold, Hx. by right.
  - intros x y [->%elem_of_singleton|Hin]%elem_of_union [Hy|[[->%elem_of_singleton|Hy]%elem_of_union Hne]]; try done.
    + right. apply H7. by left.
    + right. apply H7. by right.
    + apply H9; auto.
    + left. apply H7. by right.
    + apply H9; auto.
Qed.

Definition want (nu : Z) : Z := if nu <? 4096 then 4096 else nu.

Lemma morecore_ok s L A nu fuel :
  heap_ok s L A -> 0 < nu < 2 ^ 28 -> (S (length L) < fuel)%nat -> grants (brk s) (8 * want nu) = true ->
  exists s' L', morecore grants fuel nu s = Ok (freep s') s' /\ heap_ok s' L' A /\ brk s' = brk s + 8 * want nu /\
    total L' = total L + want nu /\ (length L' <= S (length L))%nat /\ (exists x, x ∈ L' /\ nu <= x.2) /\
    forall x y, x ∈ A -> x.1 <= y < bend x -> words s' !! y = words s !! y.
Proof.
  intros Hok Hnu Hf Hg. pose proof (Hgrants _ _ Hg) as Hmax. pose proof Hok as [H1 H2 H3 H4 H5 H6 H7 H8 H9].
  unfold morecore. fold (want nu). assert (Hw : nu <= want nu < 2 ^ 28) by (unfold want; destruct (Z.ltb_spec nu 4096); lia).
  set (w := want nu) in *. replace (s32 (u32 (w * HEADER))) with (8 * w) by (unfold HEADER; rewrite u32_id, s32_id; lia).
  set (s1 := Um (words s) (freep s) (brk s + 8 * w)).
  assert (E1 : sbrk grants (8 * w) s = Ok (brk s) s1) by (unfold sbrk, bind at 1, get; cbn [seqr]; by rewrite Hg).
  step E1. rewrite (proj2 (Z.eqb_neq _ _)) by (change (u32 (-1)) with 4294967295; lia).
  destruct (set_size_ok (brk s) w s1) as (s2 & E2 & O2 & Hs2 & Hp2). step E2. rewrite units_id by lia.
  pose proof (grown_ok s L A w s2 Hok ltac:(lia) Hmax O2 Hs2) as Hok2.
  destruct (free_ok s2 L _ (brk s) w fuel Hok2) as (s3 & L' & E3 & Hok3 & Ht & Hlen & (x & Hx & Hxw) & Hbrk & HW); [set_solver+|done|].
  replace (({[(brk s, w)]} ∪ A) ∖ {[(brk s, w)]}) with A in *.
  2:{ assert (Hni : (brk s, w) ∉ A) by (intros Hin; destruct (H7 _ (or_intror Hin)) as [_ Hb]; unfold bend in Hb; cbn [fst snd] in Hb; lia).
      set_solver. }
  replace (brk s + 8 * 1) with (brk s + 8) by lia. step E3. exists s3, L'. split; [done|]. split; [done|].
  split; [rewrite Hbrk; apply O2|]. split; [done|]. split; [done|]. split; [exists x; split; [done|lia]|].
  intros y z Hy Hz. rewrite (HW y z Hy Hz), (on_words _ _ _ O2); [done|..]; destruct (H7 y (or_intror Hy)); lia.
Qed.

Lemma morecore_refused s nu fuel : 0 < nu < 2 ^ 28 -> grants (brk s) (8 * want nu) = false -> morecore grants fuel nu s = Ok 0 s.
Proof.
  intros Hnu Hg. unfold morecore. fold (want nu).
  replace (s32 (u32 (want nu * HEADER))) with (8 * want nu)
    by (unfold HEADER, want; destruct (Z.ltb_spec nu 4096); rewrite u32_id, s32_id; lia).
  assert (E : sbrk grants (8 * want nu) s = Ok (u32 (-1)) s) by (unfold sbrk, bind at 1, get; cbn [seqr]; by rewrite Hg).
  step E. by rewrite Z.eqb_refl.
Qed.

(** * Correctness *)

(** A heap, perhaps before the first call. *)
Definition heap (s : um) (L : list block) (A : gset block) : Prop :=
  heap_ok s L A \/ (freep s = 0 /\ L = [] /\ A = ∅ /\ 0 < BASE /\ BASE + 8 <= brk s < 2 ^ 31).

Lemma start_ok s L A : heap s L A -> exists s1, start BASE s = Ok (freep s1) s1 /\ heap_ok s1 L A /\ brk s1 = brk s /\
  forall x y, x ∈ A -> x.1 <= y < bend x -> words s1 !! y = words s !! y.
Proof.
  intros [Hok|(Hf & -> & -> & Hb & Hk)]; unfold start, bind at 1, gets; cbn [seqr].
  - pose proof Hok as [H1 H2 H3 H4 H5 H6 H7 H8 H9]. exists s. rewrite (proj2 (Z.eqb_neq _ _)); [done|].
    intros E. rewrite E in H3. apply elem_of_cons in H3 as [?|(x & Ex & Hx)%list_elem_of_fmap]; [lia|].
    destruct (H7 x (or_introl Hx)). lia.
  - rewrite Hf. cbn [Z.eqb]. unfold bind at 1, modify at 1. cbn [seqr].
    destruct (set_ptr_ok BASE BASE (set_freep BASE s)) as (s1 & E1 & O1 & Hp1 & _). step E1.
    destruct (set_size_ok BASE 0 s1) as (s2 & E2 & O2 & Hs2 & Hp2). step E2.
    assert (Hfs : freep s2 = BASE) by (by rewrite (on_freep _ _ _ O2), (on_freep _ _ _ O1)).
    assert (Hbs : brk s2 = brk s) by (by rewrite (on_brk _ _ _ O2), (on_brk _ _ _ O1)).
    exists s2. rewrite Hfs. split; [done|]. split; [|split; [done|intros x y Hx; set_solver]].
    constructor; rewrite ?Hfs, ?Hbs; try done; [by left|cbn; congruence|..].
    + intros x [?%elem_of_nil|?]; set_solver.
Qed.

(** Units for a request: its bytes rounded up, and the header. *)
Definition nunits (nbytes : Z) : Z := (nbytes + 7) / 8 + 1.

(** The outcome of [malloc]. *)
Definition allocated (s : um) (L : list block) (A : gset block) (nu : Z) (r : result um Z) : Prop :=
  (exists b s' L', r = Ok (b + 8) s' /\ heap s' L' ({[(b, nu)]} ∪ A) /\ (forall x, x ∈ A -> apart (b, nu) x) /\
     8 * (total L' + nu) - brk s' = 8 * total L - brk s /\
     forall x y, x ∈ A -> x.1 <= y < bend x -> words s' !! y = words s !! y) \/
  (exists s', r = Ok 0 s' /\ heap s' L A /\ (forall x, x ∈ L -> x.2 < nu) /\ grants (brk s) (8 * want nu) = false /\
     forall x y, x ∈ A -> x.1 <= y < bend x -> words s' !! y = words s !! y).

Lemma search_allocated s L A nu fuel :
  heap_ok s L A -> 0 < nu < 2 ^ 28 -> (2 * length L + 6 <= fuel)%nat ->
  allocated s L A nu (search grants nu (freep s) (ptr_at s (freep s)) fuel s).
Proof using Hgrants.
  intros Hok Hnu Hf. destruct (search_heap s L A nu Hok ltac:(lia) fuel ltac:(lia)) as [H1 H2].
  destruct (decide (Exists (fun x => nu <= x.2) L)) as [Hex%Exists_exists|Hno].
  { destruct (H1 Hex) as (b & s' & L' & -> & [T1 T2 T3 T4 T5]). left. exists b, s', L'. split; [done|]. split; [by left|].
    split; [done|]. split; [lia|done]. }
  assert (Hx : forall x, x ∈ L -> x.2 < nu).
  { intros x Hx. apply Z.nle_gt. intros Hle. apply Hno, Exists_exists. by exists x. }
  destruct (H2 Hx) as (fuel' & -> & ->). destruct (grants (brk s) (8 * want nu)) eqn:Hg.
  - destruct (morecore_ok s L A nu fuel' Hok Hnu ltac:(lia) Hg) as (s1 & L1 & E1 & Hok1 & Hb1 & Ht1 & Hl1 & Hx1 & HW1). step E1.
    assert (Hnz : freep s1 <> 0).
    { destruct Hok1 as [P1 P2 P3 _ _ _ P7 _ _]. intros E. rewrite E in P3.
      apply elem_of_cons in P3 as [?|(x & Ex & Hin)%list_elem_of_fmap]; [lia|]. destruct (P7 x (or_introl Hin)). lia. }
    rewrite (proj2 (Z.eqb_neq _ _) Hnz). unfold hptr, bind at 1, gets. cbn [seqr].
    destruct (proj1 (search_heap s1 L1 A nu Hok1 ltac:(lia) fuel' ltac:(lia)) Hx1) as (b & s' & L' & -> & [T1 T2 T3 T4 T5]).
    left. exists b, s', L'. split; [done|]. split; [by left|]. split; [done|]. split; [lia|].
    intros x y Hin Hy. rewrite (T5 x y Hin Hy). by apply (HW1 x).
  - right. exists s. rewrite (bind_ok _ _ _ _ _ (morecore_refused s nu fuel' Hnu Hg)). split; [done|]. split; [by left|]. done.
Qed.

(** C30: [malloc], asked for less than 2^31 - 16 bytes, either returns a block with room for the request, apart from
    every block handed out before, or, when no free block is big enough and
    the kernel refuses more memory, returns 0.  The blocks handed out before
    keep their contents, the heap remains well formed, and no memory is lost:
    the free space grows by what the kernel gave and shrinks by the block. *)
Theorem malloc_allocates (s : um) (L : list block) (A : gset block) (nbytes : Z) (fuel : nat) :
  heap s L A -> 0 <= nbytes < 2 ^ 31 - 16 -> (2 * length L + 6 <= fuel)%nat ->
  nbytes <= 8 * (nunits nbytes - 1) < nbytes + 8 /\ allocated s L A (nunits nbytes) (malloc BASE grants fuel nbytes s).
Proof using Hgrants.
  intros Hh Hn Hf. split; [unfold nunits; zdiv|]. destruct (start_ok s L A Hh) as (s1 & E & Hok & Hb & HW).
  assert (En : u32 (u32 (nbytes + HEADER - 1) / HEADER + 1) = nunits nbytes).
  { unfold nunits, HEADER. replace (nbytes + 8 - 1) with (nbytes + 7) by lia. rewrite (u32_id (nbytes + 7)) by lia. apply u32_id. zdiv. }
  assert (Es : malloc BASE grants fuel nbytes s = search grants (nunits nbytes) (freep s1) (ptr_at s1 (freep s1)) fuel s1).
  { unfold malloc. rewrite En. by step E. }
  rewrite Es. destruct (search_allocated s1 L A (nunits nbytes) fuel Hok) as [H|H]; [unfold nunits; zdiv|done|left|right].
  - destruct H as (b & s' & L' & -> & H1 & H2 & H3 & H4). exists b, s', L'. split; [done|]. split; [done|]. split; [done|]. split; [lia|].
    intros x y Hx Hy. rewrite (H4 x y Hx Hy). by apply (HW x).
  - destruct H as (s' & -> & H1 & H2 & H3 & H4). exists s'. rewrite <- Hb. do 4 (split; [done|]).
    intros x y Hx Hy. rewrite (H4 x y Hx Hy). by apply (HW x).
Qed.

(** C31: [free] takes a block back: it finds its place in the list, joins it
    with its neighbours, and ends with a well-formed heap in which the free
    space is larger by the block.  The other blocks handed out keep their
    contents. *)
Theorem free_returns (s : um) (L : list block) (A : gset block) (b n : Z) (fuel : nat) :
  heap s L A -> (b, n) ∈ A -> (S (length L) < fuel)%nat ->
  exists s' L', free fuel (b + 8) s = Ok tt s' /\ heap s' L' (A ∖ {[(b, n)]}) /\ total L' = total L + n /\ brk s' = brk s /\
    (exists x, x ∈ L' /\ n <= x.2) /\
    forall x y, x ∈ A ∖ {[(b, n)]} -> x.1 <= y < bend x -> words s' !! y = words s !! y.
Proof using Type.
  intros [Hok|(_ & _ & -> & _)] Hin Hf; [|by apply not_elem_of_empty in Hin].
  destruct (free_ok s L A b n fuel Hok Hin Hf) as (s' & L' & E & Hok' & Ht & _ & Hx & Hb & HW).
  exists s', L'. split; [done|]. split; [by left|]. done.
Qed.

(** A request within seven bytes of 2^32 wraps around and is served as if it
    were for nothing. *)
Lemma malloc_wraps (s : um) (fuel : nat) : malloc BASE grants fuel (2 ^ 32 - 1) s = malloc BASE grants fuel 0 s.
Proof using Type. reflexivity. Qed.
End heap.

(** A program at its start, with a kernel that lets it grow to a megabyte. *)
Definition demo_heap : um := Um ∅ 0 8192.
Definition demo_grants (sz n : Z) : bool := sz + n <? 1048576.

Lemma demo_heap_ok : heap 4096 demo_heap [] ∅.
Proof. right. cbn. repeat split; lia. Qed.

Lemma demo_grants_ok sz n : demo_grants sz n = true -> sz + n < 2 ^ 31.
Proof. unfold demo_grants. intros ?%Z.ltb_lt. lia. Qed.

Lemma malloc_allocates_witness :
  exists b s' L', malloc 4096 demo_grants 10 100 demo_heap = Ok (b + 8) s' /\ heap 4096 s' L' {[(b, 14)]}.
Proof.
  destruct (malloc_allocates 4096 demo_grants demo_grants_ok demo_heap [] ∅ 100 10 demo_heap_ok) as [_ [H|H]]; [lia|cbn; lia|..].
  - destruct H as (b & s' & L' & E & Hh & _). exists b, s', L'. split; [done|]. by rewrite (right_id_L ∅ (∪)) in Hh.
  - destruct H as (s' & _ & _ & _ & Hg & _). done.
Defined.

(** One block of 14 units handed out and nothing free. *)
Definition demo_used : um := Um {[4096 := 4096; 8196 := 14]} 4096 8304.

Lemma demo_used_ok : heap 4096 demo_used [] {[(8192, 14)]}.
Proof.
  left. constructor; try done; [by left|..].
  - intros x [?%elem_of_nil| ->%elem_of_singleton]; [done|]. unfold bend. cbn. lia.
  - intros x ->%elem_of_singleton. done.
  - intros x y ->%elem_of_singleton [?%elem_of_nil|[->%elem_of_singleton ?]]; done.
Qed.

Lemma free_returns_witness :
  exists s' L', free 2 8200 demo_used = Ok tt s' /\ heap 4096 s' L' ∅ /\ total L' = 14.
Proof.
  destruct (free_returns 4096 demo_used [] {[(8192, 14)]} 8192 14 2 demo_used_ok) as (s' & L' & E & Hh & Ht & _); [set_solver+|cbn; lia|].
  exists s', L'. split; [done|]. split; [|done]. by rewrite difference_diag_L in Hh.
Defined.
